(* ===== verification/_CoqProject ===== *)
-Q . S2P
Prelude.v
Kernel.v
Spinlock.v
Console.v
CString.v
Kalloc.v
Devices.v
Proc.v
Vm.v
PageTable.v
SysArgs.v
Sleeplock.v
Disk.v
Bytes.v
UserMem.v
Bio.v
Log.v
Inode.v
ConsoleIo.v
Fs.v
FileBlocks.v
FsContent.v
Mkfs.v
MkfsImage.v
MkfsTree.v
Pipe.v
FileTable.v
FsOps.v
FsPath.v
FsMount.v
MkfsMount.v
ProcLife.v
Exec.v
Scheduler.v
Container.v
Liveness.v
SysProc.v
SysFile.v
Syscall.v
FsSys.v
Boot.v
Bootmain.v
Safety.v
User.v
Grep.v
Umalloc.v
Sh.v
ShTotal.v
Ls.v
TestContainers.v
UserTests.v
UserCall.v
Machine.v
Witnesses.v
WitnessesSys.v
WitnessesFs.v
WitnessesUser.v
