(* ===== verification/Prelude.v ===== *)
(** * A verification of an xv6 kernel with containers

    The program is an operating system for x86 machines, in C: the xv6 kernel and its
    user programs, extended with containers, groups of processes that are scheduled
    in turn, see their own files, and can be created, joined, left and destroyed by
    system calls.  This library translates the boot loader, the kernel, the program
    that builds the file system's image, the user library and the user programs
    into Rocq definitions and proves what makes them correct.

    ** The parts of the program and how they interact

    A trap enters the kernel in [trap] (trap.c), which dispatches system calls
    ([syscall], syscall.c, to the functions of sysproc.c and sysfile.c) and device
    interrupts.  Processes (proc.c) run until they [yield], [sleep] or [exit]; the
    [scheduler] of each CPU goes through the containers in use and runs the
    processes of each.  Spin locks (spinlock.c) protect the tables between CPUs;
    sleep locks (sleeplock.c) protect buffers and inodes between processes.  Memory
    comes in pages from kalloc.c; vm.c builds page tables from them.  The file
    system is a stack: disk driver (ide.c or memide.c), buffer cache (bio.c), redo
    log (log.c), blocks, inodes, directories and paths (fs.c), open files (file.c),
    pipes (pipe.c) and the console (console.c, kbd.c, uart.c).  [main] (main.c)
    initialises everything, with the processors found by mp.c; bootmain.c has loaded the
    kernel before.  User programs (the shell sh.c, ls.c, grep.c, ...) run above the system
    calls, with the memory allocator umalloc.c; their files come from the image that mkfs.c
    builds on the host.

    ** How the code is modelled

    The kernel's global variables are the record [kernel] of Kernel.v.  A C function
    is a definition in the monad [K] of state [kernel] (Prelude.v, [M]): its result
    is [Done a s], or [Stop w s] for a panic, a fault (an access through a null or
    wild pointer or outside an array), a hang or exhausted fuel, or [Yield y s k],
    where it lets other threads run and continues as [k] from the state they leave.
    The yield points are where that happens in the code: a spin on a taken lock, the
    switch to the scheduler, the switch to a process, and the wait for another CPU to
    start.  So a theorem about [Yield] is a theorem about all interleavings at those
    points.  Machine integers are Z with the
    wrap-around written out ([u32], [i32], [u8], ...).  A pointer into a static table
    is the index of its entry; memory that is allocated by page is the byte memory
    [k_mem].  A C function that fills a caller's buffer returns the bytes; one that
    returns -1 and leaves its result alone returns [None].  What is not in the
    sources is an argument: the class [Env] (addresses chosen by the linker,
    assembled code, the fuel), [Disk] (which of the two drivers is linked), and
    [Devices] (what device registers read).  A user program is a tree of system calls
    ([prog] of User.v): what it does next depends on the results, over which the theorems
    quantify, or which they constrain ([under]).  The boot loader and mkfs have
    states of their own in the same monad.

    ** Files

    - Prelude.v: record update, machine integers, the monad with its rules for
      partial correctness ([wp]), for contracts at yield points ([wpc]) and for
      invariants kept by all threads ([gives], class [Safe], hint database [safe]),
      tactics, ring buffers.
    - Kernel.v: constants, structs, the state.
    - Spinlock.v (spinlock.c), Sleeplock.v (sleeplock.c).
    - Console.v (console.c and uart.c, output), ConsoleIo.v (console.c, input; kbd.c;
      [procdump]).
    - CString.v (string.c), Kalloc.v (kalloc.c), Vm.v (vm.c), PageTable.v (the
      address spaces that vm.c builds).
    - Devices.v (lapic.c with the clock, ioapic.c, picirq.c, [uartinit], [ideinit]).
    - Proc.v (proc.c: table, scheduler, sleep and wakeup), Scheduler.v (the order of
      the schedule), Liveness.v (who gets turns), ProcLife.v (proc.c: fork, exit, wait), Container.v (proc.c:
      containers), Exec.v (exec.c).
    - Disk.v (memide.c, ide.c), Bytes.v (fields of blocks), Bio.v (bio.c), Log.v
      (log.c), Inode.v and Fs.v (fs.c), Pipe.v (pipe.c), FileTable.v (file.c).
    - FileBlocks.v (the blocks of files, as the disk has them), FsContent.v ([bmap], [readi]
      and [writei] on the contents of files), FsOps.v ([ilock], transactions, [fileread] and
      [filewrite]), FsPath.v (paths, [namex] and the references to inodes), FsMount.v (the file
      system after a boot), FsSys.v ([sys_open] and writing to the console on a file system in order).
    - SysArgs.v and Syscall.v (syscall.c, trap.c), SysProc.v (sysproc.c), SysFile.v
      (sysfile.c), Boot.v (mp.c, main.c), Bootmain.v (bootmain.c).
    - Mkfs.v (mkfs.c), MkfsImage.v and MkfsTree.v (the image it builds), MkfsMount.v (the
      kernel on that image).
    - Safety.v: the invariant that all threads keep.
    - User.v (ulib.c, printf.c and the small programs), Grep.v (grep.c), Umalloc.v
      (umalloc.c), Sh.v and ShTotal.v (sh.c), Ls.v (ls.c, stressfs.c, forktest.c),
      TestContainers.v (test.c), UserTests.v (usertests.c).
    - UserMem.v (the memory of a process through its page table), UserCall.v (usys.S: the system
      calls of a program, from the trap until it goes on).
    - Machine.v: a concrete machine; Witnesses.v, WitnessesSys.v, WitnessesFs.v and
      WitnessesUser.v: the theorems applied to it, which shows that their hypotheses can hold.

    ** What the theorems show

    - Whole kernel: every thread, from any trap frame and device input, under every
      interleaving at the yield points, keeps the tables well-formed and never leaves
      their bounds ([kernel_threads_safe]); the tables of the containers, which the code does
      overrun, the block list of the log header and the CPUs are not among them.
    - Locks: exact restoration of the interrupt state, panic on a second acquire
      ([critical_section_restores], [pushcli_popcli_nest]); exclusion, in that [acquire] waits as
      often as it finds the lock taken ([acquire_waits_for_holder]); no wakeup is lost, because
      [sleep] gives up its lock only with the lock of the process table in hand
      ([sleep_no_lost_wakeup]).
    - Memory: the page allocator is a stack ([kmem_refines_stack],
      [kinit1_frees_range]); [mappages] changes the processor's translation of
      exactly the pages it maps ([mappages_translates]); arguments of system calls
      lie in the memory of the process ([syscall_args_checked]).
    - Scheduling and processes: one round runs exactly the schedule
      ([scheduler_round_schedule]); [allocproc] on every branch ([allocproc_spec]); a ready
      process gets a turn in every round, a woken one in the next, if their containers are
      scheduled, and so do the members of a destroyed container, to exit, if container 0 is ([scheduler_fair], [woken_process_runs],
      [destroyed_members_run]).
    - Containers: the table and the ids agree ([ctable_invariant]); creation,
      destruction, joining and leaving, allocation; how far file names are separate
      ([container_names_separated]).
    - Disk: the cache is an array of blocks ([cache_refines_store],
      [binit_establishes]); a commit is atomic over crashes, also crashes during
      recovery ([commit_crash_atomic], [end_op_commits], [log_write_absorbs],
      [begin_op_reserves]); inodes survive their encoding ([dinode_roundtrip]); paths
      are taken apart correctly ([path_elements]).
    - Files: the kernel mounts what mkfs has built from files that fit and do not fill the last
      block of the root directory ([mkfs_mounts]); reading an open file gives
      its content ([fileread_returns]); a write is on the disk when it returns, and after a
      power failure at any point of it the next boot finds the file system in order with a
      first part of the bytes written ([filewrite_durable]).
    - Pipes are queues ([pipe_refines_queue]); the console is a line editor
      ([console_line_editor]); what is typed on a US keyboard is decoded
      ([kbd_typing_roundtrip]); [cprintf] prints numerals and formats on the serial port and the
      screen ([cprintf_prints]); the string routines ([string_routines]).
    - Boot: the loader puts the kernel's segments in place ([bootmain_loads]); the
      processor table is read to its end ([mp_table_scanned]); the image mkfs builds
      reads back ([mkfs_image]); the clock is not read while it changes
      ([cmostime_not_torn]).
    - User: the shell parses what can be written ([parsecmd_roundtrip]) and ends on every
      line ([parsecmd_terminates]); the allocator hands out disjoint blocks and gets them
      back ([allocator_invariant]); grep's matcher decides its expressions ([grep_match_regex]), and grep
      prints the matching lines ([grep_prints_matches]).
    - The whole system: cat, with every system call going through the trap, the file system, the
      log, the buffer cache and the console driver, prints the files it is given ([cat_prints]).
    - Flaws of the code, each as a theorem about it: [listContainersHelper] keeps the
      lock it takes, [container_malloc] overruns its table, destroying container 0
      poisons a free process entry, file names of containers collide, a process can join
      a container that is never scheduled, [mpinit] can
      loop for ever, [malloc] wraps around ([malloc_wraps]), the root directory's size can cover a block
      it has not got, and grep forgets the start of a line
      ([grep_drops_partial_line]).

    ** Fuel and bounds

    [fuel] of [Env] bounds the rounds of loops that wait for other threads; every
    such loop lets them run in each round, and the theorems that need it ask for
    [0 < fuel] only, because in their states the loop is left in the first round.
    Loops of the code that are not structural carry a bound computed from their data
    (the distance of two indices, the number of pages, the length of a list), and the theorems
    show that they end within it.  The number of rounds of [scheduler], which never
    returns, and the number of reads of a user program that reads to the end of
    a file are arguments; the theorems hold for every number of rounds, or give the
    number that is enough.  The shell's parser carries a bound on the depth of its calls that
    is linear in the line, and [parsecmd_terminates] shows that it is enough; the loops of
    the allocator end within twice the free blocks.  The theorems on the file system are about
    states in which no other thread stands in the way ([calm]); those on locks, sleep and [Safety] are
    about all interleavings.

    ** Not modelled

    The assembly files other than usys.S (entry, trap entry, [swtch], boot sector) appear only as steps of
    the model.  container_manager.c holds only comments.  The timing of the devices and the memory model of the processor are not
    modelled: memory is sequentially consistent, and threads interleave at the yield
    points only, which is where locks and interrupts being off permit it for the data
    they protect.  Process ids and block numbers are numbers without bound: the overflow of
    [nextpid] after 2^31 processes is left out, and block numbers, [uint] in the code, agree on
    disks of fewer than 2^32 blocks.  In the run of a program ([run] of UserCall.v) no other process
    comes in between, and it ends with the call of [exit]. *)
From stdpp Require Export base functions list gmap strings.
From Stdlib Require Export ZArith Lia.

#[global] Open Scope Z_scope.

(** ** Record update

    C code assigns one field of a struct at a time.  [Eta R] rebuilds a record
    from its projections; from it the instance of [Setter] for a projection is
    computed, so that [r <| f := v |>] is [r] with field [f] set to [v]. *)

Class Eta (R : Type) := eta : R -> R.
Class Setter {R T : Type} (proj : R -> T) := {
  set : (T -> T) -> R -> R;
  set_get : forall f r, proj (set f r) = f (proj r);
  set_set : forall f g r, set f (set g r) = set (fun x => f (g x)) r;
  set_ext : forall f g r, f (proj r) = g (proj r) -> set f r = set g r;
  set_id : forall r, set (fun x => x) r = r
}.
Arguments set {R T} proj {_} f r.

Lemma set_fix {R T} (proj : R -> T) `{!Setter proj} f r : f (proj r) = proj r -> set proj f r = r.
Proof. intros H. rewrite <- (set_id (proj := proj) r) at 2. by apply set_ext. Qed.

Ltac build_setter :=
  match goal with
  | |- @Setter ?R ?T ?proj =>
      let e := constr:(_ : Eta R) in
      let e := eval hnf in e in
      match eval pattern proj in e with
      | ?F _ =>
          let t := constr:(fun (f : T -> T) => F (fun r => f (proj r))) in
          let t := eval cbv beta in t in
          refine (Build_Setter R T proj t _ _ _ _);
          [ exact (fun f r => eq_refl)
          | exact (fun f g r => eq_refl)
          | exact (fun f g r H => f_equal (fun v => F (fun _ => v) r) H)
          | intros []; reflexivity ]
      end
  end.

#[export] Hint Extern 0 (Setter _) => build_setter : typeclass_instances.

Declare Scope struct_scope.
Delimit Scope struct_scope with struct.
#[global] Open Scope struct_scope.
Notation "r <| f := v |>" := (set f (fun _ => v) r)
  (at level 1, f at next level, left associativity) : struct_scope.
Notation "r <| f ::= g |>" := (set f g r)
  (at level 1, f at next level, left associativity) : struct_scope.

(** ** Machine integers

    A C [uint] is a [Z] in [0, 2^32) and an [int] a [Z] in [-2^31, 2^31);
    arithmetic that can leave the range is wrapped explicitly. *)

Definition W32 : Z := 4294967296.
Definition u32 (x : Z) : Z := x mod W32.
Definition i32 (x : Z) : Z := (x + 2147483648) mod W32 - 2147483648.
Definition u16 (x : Z) : Z := x mod 65536.
Definition i16 (x : Z) : Z := (x + 32768) mod 65536 - 32768.
Definition u8 (x : Z) : Z := x mod 256.
Definition i8 (x : Z) : Z := (x + 128) mod 256 - 128.

Lemma i32_u32 x : -2147483648 <= x < 2147483648 -> i32 (u32 x) = x.
Proof. intros H. unfold i32, u32, W32. rewrite Zplus_mod_idemp_l, Z.mod_small; lia. Qed.

Lemma u32_small x : 0 <= x < 0x100000000 -> u32 x = x.
Proof. intros Hx. unfold u32. by apply Z.mod_small. Qed.

Lemma i32_small x : -0x80000000 <= x < 0x80000000 -> i32 x = x.
Proof. intros Hx. unfold i32, W32. rewrite Z.mod_small; lia. Qed.

(** C booleans: any nonzero value is true. *)
Definition nz (x : Z) : bool := negb (x =? 0).
Definition b2z (b : bool) : Z := if b then 1 else 0.

Lemma nz_true x : nz x = true <-> x <> 0.
Proof. unfold nz. rewrite negb_true_iff. apply Z.eqb_neq. Qed.

Lemma nz_false x : nz x = false <-> x = 0.
Proof. unfold nz. rewrite negb_false_iff. apply Z.eqb_eq. Qed.

(** ** The execution monad

    A kernel thread runs from a state to a result.  [Done a s] is a return of
    [a] in state [s].  [Stop w s] is an execution that never returns: a call of
    [panic], an access the C standard leaves undefined, an endless loop, or a
    loop for which the model ran out of fuel.  [Yield y s k] is a point at which
    other threads run: the thread has left the CPU in state [s], and [k]
    continues it from whatever state it finds when it is resumed. *)

Inductive stop : Type :=
| Panicked (msg : string)
| Faulted (why : string)
| Hung
| OutOfFuel.

Inductive kres (Y St A : Type) : Type :=
| Done (a : A) (s : St)
| Stop (w : stop) (s : St)
| Yield (y : Y) (s : St) (k : St -> kres Y St A).
Arguments Done {Y St A} a s.
Arguments Stop {Y St A} w s.
Arguments Yield {Y St A} y s k.

Definition M (Y St A : Type) : Type := St -> kres Y St A.

Section monad.
Context {Y St : Type}.

Fixpoint kbind {A B} (r : kres Y St A) (f : A -> M Y St B) : kres Y St B :=
  match r with
  | Done a s => f a s
  | Stop w s => Stop w s
  | Yield y s k => Yield y s (fun s' => kbind (k s') f)
  end.

#[global] Instance M_ret : MRet (M Y St) := fun A a s => Done a s.
#[global] Instance M_bind : MBind (M Y St) := fun A B f m s => kbind (m s) f.

Definition get_state : M Y St St := fun s => Done s s.
Definition gets {T} (f : St -> T) : M Y St T := fun s => Done (f s) s.
Definition modify (f : St -> St) : M Y St unit := fun s => Done tt (f s).
Definition stop_with {A} (w : stop) : M Y St A := fun s => Stop w s.
Definition panic {A} (msg : string) : M Y St A := stop_with (Panicked msg).
Definition fault {A} (why : string) : M Y St A := stop_with (Faulted why).
Definition yield_to (y : Y) : M Y St unit := fun s => Yield y s (fun s' => Done tt s').

(** An array access or a pointer dereference: undefined outside the object. *)
Definition deref {A} (why : string) (o : option A) : M Y St A :=
  match o with Some a => mret a | None => fault why end.

(** [if(c) m;] *)
Definition when (c : bool) (m : M Y St unit) : M Y St unit := if c then m else mret tt.

(** A [for] loop over the elements of an array. *)
Fixpoint for_each {A} (l : list A) (body : A -> M Y St unit) : M Y St unit :=
  match l with
  | [] => mret tt
  | x :: l' => body x ;; for_each l' body
  end.

(** The same loop when its body can leave it: [Some r] is a [return] or a
    [break] with the value [r], [None] goes on to the next element. *)
Fixpoint for_find {A R} (l : list A) (body : A -> M Y St (option R)) : M Y St (option R) :=
  match l with
  | [] => mret None
  | x :: l' =>
      o ← body x ;
      match o with Some r => mret (Some r) | None => for_find l' body end
  end.

(** A [while] loop: the body gives [None] to go round again and [Some r] to
    leave with [r]. *)
Fixpoint loop {R} (n : nat) (body : M Y St (option R)) : M Y St R :=
  match n with
  | O => stop_with OutOfFuel
  | S n' =>
      o ← body ;
      match o with Some r => mret r | None => loop n' body end
  end.

(** Total correctness: [m] returns from [s], without leaving the CPU, and its
    result satisfies [Q]. *)
Definition wp {A} (m : M Y St A) (Q : A -> St -> Prop) (s : St) : Prop :=
  match m s with Done a s' => Q a s' | _ => False end.

(** The same for threads that leave the CPU: [guar] holds of the state at every
    [Yield], and the rest of the thread is correct from every state related to
    it by [rely]; an execution that stops satisfies [ends]. *)
Record contract := Contract {
  ends : stop -> St -> Prop;
  guar : Y -> St -> Prop;
  rely : Y -> St -> St -> Prop
}.

Fixpoint outcome {A} (c : contract) (Q : A -> St -> Prop) (r : kres Y St A) : Prop :=
  match r with
  | Done a s => Q a s
  | Stop w s => ends c w s
  | Yield y s k => guar c y s /\ (forall s', rely c y s s' -> outcome c Q (k s'))
  end.

Definition wpc {A} (c : contract) (m : M Y St A) (Q : A -> St -> Prop) (s : St) : Prop :=
  outcome c Q (m s).

(** *** Rules *)

Lemma bind_done {A B} (m : M Y St A) (f : A -> M Y St B) s a s' :
  m s = Done a s' -> (m ≫= f) s = f a s'.
Proof. intros H. unfold mbind, M_bind. by rewrite H. Qed.

Lemma bind_group {A B C} (m : M Y St A) (k : A -> M Y St B) (g : B -> M Y St C) s b s' :
  (m ≫= k) s = Done b s' -> (m ≫= fun x => k x ≫= g) s = g b s'.
Proof. unfold mbind, M_bind. intros H. destruct (m s); cbn [kbind] in *; [by rewrite H|done..]. Qed.

Lemma bind_stop {A B} (m : M Y St A) (f : A -> M Y St B) s w s' :
  m s = Stop w s' -> (m ≫= f) s = Stop w s'.
Proof. intros H. unfold mbind, M_bind. by rewrite H. Qed.

Lemma bind_yield {A B} (m : M Y St A) (f : A -> M Y St B) s y s' k :
  m s = Yield y s' k -> (m ≫= f) s = Yield y s' (fun s'' => kbind (k s'') f).
Proof. intros H. unfold mbind, M_bind. by rewrite H. Qed.

Lemma wp_done {A} (m : M Y St A) Q s :
  wp m Q s <-> exists a s', m s = Done a s' /\ Q a s'.
Proof.
  unfold wp. split.
  - destruct (m s) as [a s'| |]; [|done..]. eauto.
  - by intros (a & s' & -> & H).
Qed.

Lemma wp_intro {A} (m : M Y St A) (Q : A -> St -> Prop) s a s' :
  m s = Done a s' -> Q a s' -> wp m Q s.
Proof. intros H ?. unfold wp. by rewrite H. Qed.

Lemma wp_ret {A} (a : A) (Q : A -> St -> Prop) s : Q a s -> wp (mret a) Q s.
Proof. done. Qed.

Lemma wp_bind {A B} (m : M Y St A) (f : A -> M Y St B) Q s :
  wp m (fun a s' => wp (f a) Q s') s -> wp (m ≫= f) Q s.
Proof. unfold wp, mbind, M_bind. by destruct (m s). Qed.

Lemma wp_mono {A} (m : M Y St A) (P Q : A -> St -> Prop) s :
  wp m P s -> (forall a s', P a s' -> Q a s') -> wp m Q s.
Proof. unfold wp. destruct (m s); naive_solver. Qed.

Lemma wp_bind_mono {A B} (m : M Y St A) (f : A -> M Y St B) P Q s :
  wp m P s -> (forall a s', P a s' -> wp (f a) Q s') -> wp (m ≫= f) Q s.
Proof. intros H HQ. apply wp_bind. eapply wp_mono; eauto. Qed.

Lemma for_each_skip {A} (l : list A) (body : A -> M Y St unit) s :
  (forall x, x ∈ l -> body x s = Done tt s) -> for_each l body s = Done tt s.
Proof.
  induction l as [|x l IH]; intros H; [done|]. cbn [for_each].
  rewrite (bind_done _ _ _ _ _ (H x ltac:(by left))). apply IH. intros. apply H. by right.
Qed.

Lemma for_each_app {A} (l1 l2 : list A) (body : A -> M Y St unit) s s' :
  for_each l1 body s = Done tt s' -> for_each (l1 ++ l2) body s = for_each l2 body s'.
Proof.
  revert s. induction l1 as [|x l1 IH]; intros s H; simpl in *; [by injection H as <-|].
  unfold mbind, M_bind in *. destruct (body x s); simpl in *; [by apply IH|done..].
Qed.

(** A loop of which one round does the work. *)
(** [I k s] holds before round [k]. *)
Lemma for_each_inv (I : nat -> St -> Prop) n (body : nat -> M Y St unit) s :
  I 0%nat s ->
  (forall k s', (k < n)%nat -> I k s' -> exists s'', body k s' = Done tt s'' /\ I (S k) s'') ->
  exists s', for_each (seq 0 n) body s = Done tt s' /\ I n s'.
Proof.
  intros H0 Hstep. assert (forall m k s, (k + m = n)%nat -> I k s ->
    exists s', for_each (seq k m) body s = Done tt s' /\ I n s') as G; [|by apply (G n 0%nat)].
  induction m as [|m IH]; intros k s1 Hk HI.
  - exists s1. split; [done|]. by replace n with k by lia.
  - destruct (Hstep k s1) as (s2 & R & H2); [lia|done|]. cbn [seq for_each].
    rewrite (bind_done _ _ _ _ _ R). apply IH; [lia|done].
Qed.

Lemma for_each_one {A} (l1 l2 : list A) x (body : A -> M Y St unit) s s' :
  (forall y, y ∈ l1 -> body y s = Done tt s) -> body x s = Done tt s' ->
  (forall y, y ∈ l2 -> body y s' = Done tt s') ->
  for_each (l1 ++ x :: l2) body s = Done tt s'.
Proof.
  intros H1 Hx H2. rewrite (for_each_app _ _ _ _ _ (for_each_skip l1 body s H1)).
  cbn [for_each]. rewrite (bind_done _ _ _ _ _ Hx). by apply for_each_skip.
Qed.

Lemma wp_for_each {A} (I : list A -> St -> Prop) (l : list A) body s :
  I [] s ->
  (forall pre x rest s1, l = pre ++ x :: rest -> I pre s1 ->
     wp (body x) (fun _ s2 => I (pre ++ [x]) s2) s1) ->
  wp (for_each l body) (fun _ s' => I l s') s.
Proof.
  intros H0 Hb.
  assert (forall rest pre s1, l = pre ++ rest -> I pre s1 ->
    wp (for_each rest body) (fun _ s' => I l s') s1) as G.
  { induction rest as [|x rest IH]; intros pre s1 Hl Hi; simpl.
    - apply wp_ret. rewrite app_nil_r in Hl. by subst.
    - eapply wp_bind_mono; [by eapply Hb|]. intros ? s2 H2.
      apply (IH (pre ++ [x])); [|done]. by rewrite <- app_assoc. }
  by apply (G l []).
Qed.

Lemma wp_for_find {A R} (I : list A -> St -> Prop) (Q : option R -> St -> Prop) (l : list A) body s :
  I [] s ->
  (forall pre x rest s1, l = pre ++ x :: rest -> I pre s1 ->
     wp (body x) (fun o s2 => match o with
                              | Some r => Q (Some r) s2
                              | None => I (pre ++ [x]) s2
                              end) s1) ->
  (forall s', I l s' -> Q None s') ->
  wp (for_find l body) Q s.
Proof.
  intros H0 Hb HQ.
  assert (forall rest pre s1, l = pre ++ rest -> I pre s1 ->
    wp (for_find rest body) Q s1) as G.
  { induction rest as [|x rest IH]; intros pre s1 Hl Hi; simpl.
    - apply wp_ret, HQ. rewrite app_nil_r in Hl. by subst.
    - eapply wp_bind_mono; [by eapply Hb|]. intros [r|] s2 H2; [by apply wp_ret|].
      apply (IH (pre ++ [x])); [|done]. by rewrite <- app_assoc. }
  by apply (G l []).
Qed.

Lemma loop_S {R} n (body : M Y St (option R)) :
  loop (S n) body = (o ← body ; match o with Some r => mret r | None => loop n body end).
Proof. done. Qed.

Lemma loop_leave {R} n (body : M Y St (option R)) s r s' :
  (0 < n)%nat -> body s = Done (Some r) s' -> loop n body s = Done r s'.
Proof.
  intros Hn H. destruct n; [lia|]. simpl. by rewrite (bind_done _ _ _ _ _ H).
Qed.

Lemma loop_again {R} n (body : M Y St (option R)) s s' :
  body s = Done None s' -> loop (S n) body s = loop n body s'.
Proof. intros H. simpl. by rewrite (bind_done _ _ _ _ _ H). Qed.

Lemma wpc_wp {A} c (m : M Y St A) Q s : wp m Q s -> wpc c m Q s.
Proof. unfold wp, wpc. by destruct (m s). Qed.

Lemma outcome_mono {A} c (P Q : A -> St -> Prop) r :
  outcome c P r -> (forall a s', P a s' -> Q a s') -> outcome c Q r.
Proof. intros H HQ. induction r; simpl in *; [eauto|done|]. destruct H; eauto. Qed.

Lemma outcome_kbind {A B} c (r : kres Y St A) (f : A -> M Y St B) Q :
  outcome c (fun a s' => wpc c (f a) Q s') r -> outcome c Q (kbind r f).
Proof. intros H. induction r; simpl in *; [done|done|]. destruct H; eauto. Qed.

Lemma wpc_bind {A B} c (m : M Y St A) (f : A -> M Y St B) Q s :
  wpc c m (fun a s' => wpc c (f a) Q s') s -> wpc c (m ≫= f) Q s.
Proof. apply outcome_kbind. Qed.

Lemma wpc_bind_mono {A B} c (m : M Y St A) (f : A -> M Y St B) P Q s :
  wpc c m P s -> (forall a s', P a s' -> wpc c (f a) Q s') -> wpc c (m ≫= f) Q s.
Proof. intros H HQ. apply wpc_bind. eapply outcome_mono; eauto. Qed.

End monad.

(** ** Invariants

    [keeps I m]: if [I] holds when [m] starts, it holds whenever [m] leaves the CPU
    and when [m] returns, provided the other threads keep it in turn. *)

Section keeps.
Context {Y St : Type} (I : St -> Prop).

Definition inv_contract : @contract Y St := Contract (fun _ _ => True) (fun _ s => I s) (fun _ _ s' => I s').

Definition keeps {A} (m : M Y St A) : Prop :=
  forall s, I s -> wpc inv_contract m (fun _ s' => I s') s.

Lemma keeps_ret {A} (a : A) : keeps (mret a).
Proof. by intros s H. Qed.

Lemma keeps_bind {A B} (m : M Y St A) (f : A -> M Y St B) :
  keeps m -> (forall a, keeps (f a)) -> keeps (m ≫= f).
Proof. intros Hm Hf s Hs. eapply wpc_bind_mono; [by apply Hm|]. intros. by apply Hf. Qed.

Lemma keeps_get_state : keeps get_state.
Proof. by intros s H. Qed.

Lemma keeps_gets {T} (f : St -> T) : keeps (gets f).
Proof. by intros s H. Qed.

Lemma keeps_modify f : (forall s, I s -> I (f s)) -> keeps (modify f).
Proof. intros Hf s H. by apply Hf. Qed.

Lemma keeps_stop {A} w : keeps (@stop_with Y St A w).
Proof. by intros s H. Qed.

Lemma keeps_yield y : keeps (yield_to y).
Proof. intros s H. by split. Qed.

Lemma keeps_deref {A} why (o : option A) : keeps (deref why o).
Proof. destruct o; [apply keeps_ret|apply keeps_stop]. Qed.

Lemma keeps_when c m : keeps m -> keeps (when c m).
Proof. intros. by destruct c; [|apply keeps_ret]. Qed.

Lemma keeps_for_each {A} (l : list A) body : (forall x, keeps (body x)) -> keeps (for_each l body).
Proof.
  intros Hb. induction l as [|x l IH]; [apply keeps_ret|]. by apply keeps_bind.
Qed.

Lemma keeps_for_find {A R} (l : list A) (body : A -> M Y St (option R)) :
  (forall x, keeps (body x)) -> keeps (for_find l body).
Proof.
  intros Hb. induction l as [|x l IH]; [apply keeps_ret|].
  apply keeps_bind; [done|]. intros [r|]; [apply keeps_ret|done].
Qed.

Lemma keeps_loop {R} n (body : M Y St (option R)) : keeps body -> keeps (loop n body).
Proof.
  intros Hb. induction n as [|n IH]; [apply keeps_stop|].
  apply keeps_bind; [done|]. intros [r|]; [apply keeps_ret|done].
Qed.

End keeps.

(** [I] does not depend on the field [proj]. *)
Class Frame {St T} (proj : St -> T) `{!Setter proj} (I : St -> Prop) :=
  frame : forall f s, I s -> I (set proj f s).
#[export] Hint Extern 0 (Frame _ _) => (intros ? ? H; exact H) : typeclass_instances.

Create HintDb keeps.
#[export] Hint Extern 0 (Frame _ _) => (intros ? ? H; exact H) : keeps.
#[export] Hint Resolve keeps_ret keeps_get_state keeps_gets keeps_stop keeps_yield keeps_deref : keeps.

(** Decomposes a program along its structure, and closes its primitive steps: an
    update is closed when the invariant does not depend on the field it sets. *)
Ltac keeps_step :=
  match goal with
  | |- forall _, _ => intros ?
  | |- keeps _ (_ ≫= _) => apply keeps_bind
  | |- keeps _ (panic _) => apply keeps_stop
  | |- keeps _ (fault _) => apply keeps_stop
  | |- keeps _ (if ?b then _ else _) => destruct b
  | |- keeps _ (match ?x with _ => _ end) => destruct x
  | |- keeps _ (modify _) => apply keeps_modify; intros ? ?; by (first [assumption | apply frame])
  | |- keeps _ _ => progress eauto 2 with keeps nocore
  | |- keeps _ (when _ _) => apply keeps_when
  | |- keeps _ (for_each _ _) => apply keeps_for_each
  | |- keeps _ (for_find _ _) => apply keeps_for_find
  | |- keeps _ (loop _ _) => apply keeps_loop
  end.
Ltac keeps := repeat keeps_step.

(** ** Safety

    [gives m Q]: from a state that satisfies [I], [m] keeps [I] in the sense of
    [keeps], stops only for a reason that [ok] allows, and its result satisfies
    [Q].  [I] and [ok] are kept in a class, so that the rules apply without them. *)

Class Safe (Y St : Type) := { safe_inv : St -> Prop; safe_stop : stop -> bool }.

Section gives.
Context {Y St : Type} `{!Safe Y St}.

Definition safe_contract : @contract Y St :=
  Contract (fun w _ => safe_stop w = true) (fun _ s => safe_inv s) (fun _ _ s' => safe_inv s').

Definition gives {A} (m : M Y St A) (Q : A -> Prop) : Prop :=
  forall s, safe_inv s -> wpc safe_contract m (fun a s' => safe_inv s' /\ Q a) s.

Lemma gives_ret {A} (a : A) (Q : A -> Prop) : Q a -> gives (mret a) Q.
Proof. by intros H s Hs. Qed.

Lemma gives_bind {A B} (m : M Y St A) (f : A -> M Y St B) P Q :
  gives m P -> (forall a, P a -> gives (f a) Q) -> gives (m ≫= f) Q.
Proof.
  intros Hm Hf s Hs. eapply wpc_bind_mono; [by apply Hm|]. intros a s' [H1 H2]. by apply Hf.
Qed.

Lemma gives_cps {A B} (m : M Y St A) (f : A -> M Y St B) Q :
  gives m (fun a => gives (f a) Q) -> gives (m ≫= f) Q.
Proof. intros H. eapply gives_bind; [done|]. auto. Qed.

Lemma gives_weaken {A} (m : M Y St A) (P Q : A -> Prop) :
  gives m P -> (forall a, P a -> Q a) -> gives m Q.
Proof.
  intros Hm HQ s Hs. eapply outcome_mono; [by apply Hm|]. intros a s' [H1 H2]. auto.
Qed.

Lemma gives_gets {T} (f : St -> T) (Q : T -> Prop) : (forall s, safe_inv s -> Q (f s)) -> gives (gets f) Q.
Proof. intros H s Hs. split; [done|]. by apply H. Qed.

Lemma gives_modify f (Q : unit -> Prop) :
  (forall s, safe_inv s -> safe_inv (f s)) -> Q tt -> gives (modify f) Q.
Proof. intros H HQ s Hs. split; [by apply H|done]. Qed.

Lemma gives_stop {A} w (Q : A -> Prop) : safe_stop w = true -> gives (stop_with w) Q.
Proof. by intros H s Hs. Qed.

Lemma gives_yield y (Q : unit -> Prop) : Q tt -> gives (yield_to y) Q.
Proof. intros H s Hs. split; [done|]. by intros s' Hs'. Qed.

Lemma gives_deref {A} why (o : option A) (Q : A -> Prop) :
  (forall a, o = Some a -> Q a) -> (o = None -> safe_stop (Faulted why) = true) -> gives (deref why o) Q.
Proof. destruct o; intros H1 H2; [by apply gives_ret, H1|by apply gives_stop, H2]. Qed.

Lemma gives_when c m (Q : unit -> Prop) : (c = true -> gives m Q) -> Q tt -> gives (when c m) Q.
Proof. intros. destruct c; [by auto|by apply gives_ret]. Qed.

Lemma gives_for_each {A} (l : list A) body (Q : unit -> Prop) :
  (forall x, x ∈ l -> gives (body x) (fun _ => True)) -> Q tt -> gives (for_each l body) Q.
Proof.
  intros Hb HQ. induction l as [|x l IH]; [by apply gives_ret|].
  apply (gives_bind _ _ (fun _ => True)); [apply Hb; left|]. intros _ _. apply IH. intros y Hy. apply Hb. by right.
Qed.

Lemma gives_for_find {A R} (l : list A) (body : A -> M Y St (option R)) (Q : option R -> Prop) :
  (forall x, x ∈ l -> gives (body x) Q) -> Q None -> gives (for_find l body) Q.
Proof.
  intros Hb HQ. induction l as [|x l IH]; [by apply gives_ret|].
  apply (gives_bind _ _ Q); [apply Hb; left|]. intros [r|] Hr; [by apply gives_ret|].
  apply IH. intros y Hy. apply Hb. by right.
Qed.

Lemma gives_loop {R} n (body : M Y St (option R)) (P : option R -> Prop) (Q : R -> Prop) :
  safe_stop OutOfFuel = true -> gives body P -> (forall r, P (Some r) -> Q r) -> gives (loop n body) Q.
Proof.
  intros H Hb HQ. induction n as [|n IH]; [by apply gives_stop|].
  eapply gives_bind; [done|]. intros [r|] Hr; [apply gives_ret; auto|done].
Qed.

End gives.

Create HintDb safe discriminated.
#[export] Hint Constants Opaque : safe.

(** Decomposes a program along its structure: a call is replaced by the result its
    lemma in [safe] gives. *)
Ltac give_any := apply (gives_weaken _ (fun _ => True)).
Ltac safe_step :=
  lazymatch goal with
  | |- forall _, _ => intros ?
  | |- gives (let _ := _ in _) _ => cbv zeta
  | |- gives (_ ≫= _) _ => apply gives_cps
  | |- gives (mret _) _ => apply gives_ret
  | |- gives (panic _) _ => apply gives_stop; reflexivity
  | |- gives (fault _) _ => apply gives_stop; reflexivity
  | |- gives (stop_with _) _ => apply gives_stop; reflexivity
  | |- gives (yield_to _) _ => apply gives_yield
  | |- gives (if ?b then _ else _) _ => destruct b eqn:?
  | |- gives (match ?x with _ => _ end) _ => destruct x eqn:?
  | |- gives _ _ =>
      first
      [ eapply gives_weaken; [solve [eauto 3 with safe nocore] | let H := fresh in intros ? H; cbv beta in H]
      | lazymatch goal with
        | |- gives (gets _) _ => give_any; [apply gives_gets; done | intros ? _]
        | |- gives (modify _) _ => apply gives_modify; [let H := fresh in intros ? H; exact H|]
        | |- gives (deref _ _) _ => apply gives_deref; [intros ? ?|intros ?; reflexivity]
        | |- gives (when _ _) _ => give_any; [apply gives_when; [intros ?|exact I] | intros ? _]
        | |- gives (for_each _ _) _ => give_any; [apply gives_for_each; [intros ? ?|exact I] | intros ? _]
        | |- gives (for_find _ _) _ => give_any; [apply gives_for_find; [intros ? ?|exact I] | intros ? _]
        | |- gives (loop _ _) _ => give_any; [apply (gives_loop _ _ (fun _ => True)); [reflexivity| |done] | intros ? _]
        end ]
  | |- True => exact I
  | H : ?P |- ?P => exact H
  end; cbv beta.
Ltac safe := cbv beta; repeat safe_step.

(** ** Lists updated by index *)

Lemma filter_ext_in {A} (P Q : A -> Prop) `{!forall x, Decision (P x), !forall x, Decision (Q x)} (l : list A) :
  (forall x, x ∈ l -> P x <-> Q x) -> filter P l = filter Q l.
Proof.
  induction l as [|x l IH]; intros HPQ; [done|]. rewrite !filter_cons.
  assert (P x <-> Q x) by (apply HPQ; by left). rewrite IH by (intros; apply HPQ; by right).
  do 2 case_decide; tauto || done.
Qed.

Lemma filter_all {A} (P : A -> Prop) `{!forall x, Decision (P x)} (l : list A) :
  (forall x, x ∈ l -> P x) -> filter P l = l.
Proof.
  induction l as [|y l IH]; intros Hl; [done|]. rewrite filter_cons_True by (apply Hl; set_solver).
  f_equal. apply IH. set_solver.
Qed.

Lemma filter_none {A} (P : A -> Prop) `{!forall x, Decision (P x)} (l : list A) :
  (forall x, x ∈ l -> ~ P x) -> filter P l = [].
Proof.
  induction l as [|y l IH]; intros Hl; [done|]. rewrite filter_cons_False by (apply Hl; set_solver).
  apply IH. set_solver.
Qed.

Lemma elem_of_concat_map {A B} (f : A -> list B) (l : list A) b :
  b ∈ concat (map f l) <-> exists a, a ∈ l /\ b ∈ f a.
Proof.
  induction l as [|a l IH]; simpl; [set_solver|]. rewrite elem_of_app, IH. set_solver.
Qed.

Lemma NoDup_concat_map {A B} (f : A -> list B) (l : list A) :
  NoDup l -> (forall a, NoDup (f a)) ->
  (forall a a' b, a ∈ l -> a' ∈ l -> b ∈ f a -> b ∈ f a' -> a = a') ->
  NoDup (concat (map f l)).
Proof.
  intros Hl Hf. induction Hl as [|a l Ha Hl IH]; intros Hd; simpl; [constructor|].
  apply NoDup_app. split_and!; [done| |apply IH; set_solver].
  intros b Hb (a' & Ha' & Hb')%elem_of_concat_map.
  assert (a = a') as -> by (eapply Hd; [by left|by right|done..]). done.
Qed.

Lemma alter_alter {A} (f g : A -> A) i (l : list A) :
  alter f i (alter g i l) = alter (fun x => f (g x)) i l.
Proof.
  apply list_eq. intros j. destruct (decide (i = j)) as [->|Hne].
  - rewrite !list_lookup_alter_eq. by destruct (l !! j).
  - by rewrite !list_lookup_alter_ne.
Qed.

Lemma alter_insert {A} (f : A -> A) i (l : list A) v :
  (forall x, f x = v) -> alter f i l = <[i := v]> l.
Proof.
  intros Hf. apply list_eq. intros j. destruct (decide (i = j)) as [->|Hne].
  - rewrite list_lookup_alter_eq. destruct (l !! j) eqn:E.
    + rewrite list_lookup_insert_eq by (by eapply lookup_lt_Some). cbn. by rewrite Hf.
    + rewrite list_insert_ge; [done|]. by apply lookup_ge_None_1.
  - by rewrite list_lookup_alter_ne, list_lookup_insert_ne.
Qed.

Lemma alter_ext_at {A} (f g : A -> A) i (l : list A) x :
  l !! i = Some x -> f x = g x -> alter f i l = alter g i l.
Proof.
  intros Hi Hf. apply list_eq. intros j. destruct (decide (i = j)) as [->|Hne].
  - rewrite !list_lookup_alter_eq, Hi. simpl. by rewrite Hf.
  - by rewrite !list_lookup_alter_ne.
Qed.

Lemma alter_fix {A} (f : A -> A) i (l : list A) x :
  l !! i = Some x -> f x = x -> alter f i l = l.
Proof.
  intros Hi Hf. rewrite (alter_ext_at f (fun x => x) i l x Hi Hf).
  apply list_eq. intros j. destruct (decide (i = j)) as [->|Hne].
  - rewrite list_lookup_alter_eq. by destruct (l !! j).
  - by rewrite list_lookup_alter_ne.
Qed.

(** ** Loops over a table

    [tbl] is a table in the state; the loops of the kernel that update every entry
    that passes a test are [map] over it, and those that search it stop at the
    entry [list_find] gives. *)

Section tables.
Context {Y St A : Type} (tbl : St -> list A) `{!Setter tbl}.

Lemma set_alter2 (f g : A -> A) i s :
  set tbl (alter g i) (set tbl (alter f i) s) = set tbl (alter (fun x => g (f x)) i) s.
Proof. rewrite set_set. apply set_ext, alter_alter. Qed.

Lemma lookup_set_alter (f : A -> A) i s x :
  tbl s !! i = Some x -> tbl (set tbl (alter f i) s) !! i = Some (f x).
Proof. intros H. by rewrite set_get, list_lookup_alter_eq, H. Qed.

Lemma set_alter_ext (f g : A -> A) i s x :
  tbl s !! i = Some x -> f x = g x -> set tbl (alter f i) s = set tbl (alter g i) s.
Proof. intros H Hf. by eapply set_ext, alter_ext_at. Qed.

Lemma set_alter_fix (f : A -> A) i s x :
  tbl s !! i = Some x -> f x = x -> set tbl (alter f i) s = s.
Proof. intros H Hf. by eapply set_fix, alter_fix. Qed.

Lemma lookup_take_map_drop (f : A -> A) (t : list A) k :
  (map f (take k t) ++ drop k t) !! k = t !! k.
Proof.
  destruct (decide (k < length t)%nat) as [Hk|Hk].
  - rewrite lookup_app_r; rewrite length_map, length_take; [|lia].
    rewrite lookup_drop. f_equal. lia.
  - rewrite drop_ge, take_ge, app_nil_r, !lookup_ge_None_2; rewrite ?length_map; lia || done.
Qed.

Lemma alter_take_map_drop (f : A -> A) (t : list A) k :
  (k < length t)%nat ->
  alter f k (map f (take k t) ++ drop k t) = map f (take (S k) t) ++ drop (S k) t.
Proof.
  intros Hk. destruct (lookup_lt_is_Some_2 t k Hk) as [x Hx].
  rewrite (take_S_r _ _ _ Hx), map_app, <- app_assoc, (drop_S _ _ _ Hx).
  assert (length (map f (take k t)) = k) as Hl by (rewrite length_map, length_take; lia).
  rewrite <- Hl at 1. by rewrite alter_app_r_alt, Nat.sub_diag by lia.
Qed.

Lemma for_each_map (f : A -> A) (body : nat -> M Y St unit) s :
  (forall i x s', tbl s' !! i = Some x -> (exists g, s' = set tbl g s) ->
     body i s' = Done tt (set tbl (alter f i) s')) ->
  for_each (seq 0 (length (tbl s))) body s = Done tt (set tbl (map f) s).
Proof.
  intros Hb. set (t := tbl s).
  assert (forall m k, (k + m = length t)%nat ->
    for_each (seq k m) body (set tbl (fun _ => map f (take k t) ++ drop k t) s)
    = Done tt (set tbl (fun _ => map f t) s)) as G.
  { induction m as [|m IH]; intros k Hk; cbn [seq for_each].
    - rewrite take_ge, drop_ge, app_nil_r by lia. done.
    - destruct (lookup_lt_is_Some_2 t k) as [x Hx]; [lia|].
      erewrite bind_done; [|eapply (Hb k x)]; [|rewrite set_get, lookup_take_map_drop; done|eauto].
      rewrite set_set, alter_take_map_drop by lia. apply IH. lia. }
  assert (set tbl (fun _ => map f (take 0 t) ++ drop 0 t) s = s) as Hs.
  { rewrite <- (set_id s) at 2. by apply set_ext. }
  specialize (G (length t) 0%nat eq_refl). rewrite Hs in G. rewrite G.
  f_equal. by apply set_ext.
Qed.

Lemma for_find_none {R} (P : A -> Prop) `{!forall x, Decision (P x)} (body : nat -> M Y St (option R)) s :
  (forall i x, tbl s !! i = Some x -> ~ P x -> body i s = Done None s) ->
  list_find P (tbl s) = None ->
  for_find (seq 0 (length (tbl s))) body s = Done None s.
Proof.
  intros Hb Hn. rewrite list_find_None, Forall_lookup in Hn.
  assert (forall m k, (k + m = length (tbl s))%nat -> for_find (seq k m) body s = Done None s) as G.
  { induction m as [|m IH]; intros k Hk; [done|]. cbn [seq for_find].
    destruct (lookup_lt_is_Some_2 (tbl s) k) as [x Hx]; [lia|].
    erewrite bind_done; [|eapply Hb; eauto]. apply IH. lia. }
  by apply G.
Qed.

Lemma for_find_some {R} (P : A -> Prop) `{!forall x, Decision (P x)} (body : nat -> M Y St (option R))
    s i x r s' :
  (forall j y, tbl s !! j = Some y -> ~ P y -> body j s = Done None s) ->
  list_find P (tbl s) = Some (i, x) ->
  body i s = Done (Some r) s' ->
  for_find (seq 0 (length (tbl s))) body s = Done (Some r) s'.
Proof.
  intros Hb Hf Hi. apply list_find_Some in Hf as (Hx & _ & Hlt).
  pose proof (lookup_lt_Some _ _ _ Hx) as Hl.
  assert (forall m k, (k + m = length (tbl s))%nat -> (k <= i)%nat ->
    for_find (seq k m) body s = Done (Some r) s') as G.
  { induction m as [|m IH]; intros k Hk Hki; [lia|]. cbn [seq for_find].
    destruct (decide (k = i)) as [->|Hne]; [by erewrite bind_done by done|].
    destruct (lookup_lt_is_Some_2 (tbl s) k) as [y Hy]; [lia|].
    erewrite bind_done; [|eapply Hb; [exact Hy|eapply Hlt; [exact Hy|lia]]].
    apply IH; lia. }
  apply G; lia.
Qed.

End tables.

(** ** Rings

    A queue in an array of [n] bytes: the bytes [q], from index [start] on, where
    indices run modulo [n]. *)

Record ring (n : Z) (data : list Z) (start : Z) (q : list Z) : Prop := Ring {
  rg_pos : 0 < n;
  rg_data : length data = Z.to_nat n;
  rg_len : (length q <= Z.to_nat n)%nat;
  rg_byte : forall k c, q !! k = Some c -> data !! Z.to_nat ((start + Z.of_nat k) mod n) = Some c
}.

Lemma mod_inj a n x y :
  0 < n -> 0 <= x < n -> 0 <= y < n -> (a + x) mod n = (a + y) mod n -> x = y.
Proof.
  intros Hn Hx Hy H. assert ((x - y) mod n = 0) as Hd.
  { replace (x - y) with (a + x - (a + y)) by lia. by rewrite Zminus_mod, H, Z.sub_diag. }
  destruct (Z.le_gt_cases y x).
  - rewrite Z.mod_small in Hd by lia. lia.
  - rewrite <- (Z.mod_add _ 1), Z.mod_small in Hd by lia. lia.
Qed.

Lemma u32_mod n x : (n | W32) -> u32 x mod n = x mod n.
Proof. intros H. by apply Z.mod_mod_divide. Qed.

Lemma u32_u32_sub x y : u32 (u32 x - y) = u32 (x - y).
Proof. apply Zminus_mod_idemp_l. Qed.

Lemma u32_u32_add x y : u32 (u32 x + y) = u32 (x + y).
Proof. unfold u32. by rewrite Zplus_mod_idemp_l. Qed.

Lemma ring_start n data a b q : a mod n = b mod n -> ring n data a q -> ring n data b q.
Proof.
  intros Hab [H1 H2 H3 H4]. split; [done..|]. intros k c Hk. rewrite <- (H4 k c Hk). do 2 f_equal.
  rewrite <- (Zplus_mod_idemp_l a), <- (Zplus_mod_idemp_l b). by rewrite Hab.
Qed.

Lemma ring_put n data start q c :
  ring n data start q -> (length q < Z.to_nat n)%nat ->
  ring n (<[Z.to_nat ((start + Z.of_nat (length q)) mod n) := c]> data) start (q ++ [c]).
Proof.
  intros [Hn Hd Hl Hb] Hq. split; [done|by rewrite length_insert|rewrite length_app; cbn; lia|].
  intros k b Hk. apply lookup_app_Some in Hk as [Hk|[Hk1 Hk2]].
  - rewrite list_lookup_insert_ne; [by apply Hb|]. apply lookup_lt_Some in Hk. intros H.
    apply Z2Nat.inj in H; [|apply Z.mod_pos_bound; done..]. apply mod_inj in H; lia.
  - apply list_lookup_singleton_Some in Hk2 as [Hk2 <-]. replace k with (length q) by lia.
    apply list_lookup_insert_eq. rewrite Hd.
    pose proof (Z.mod_pos_bound (start + Z.of_nat (length q)) n Hn). lia.
Qed.

Lemma ring_take n data start c q :
  ring n data start (c :: q) -> data !! Z.to_nat (start mod n) = Some c /\ ring n data (start + 1) q.
Proof.
  intros [Hn Hd Hl Hb]. split.
  - specialize (Hb 0%nat c eq_refl). by rewrite Z.add_0_r in Hb.
  - split; [done|done|cbn in Hl; lia|]. intros k b Hk. rewrite <- (Hb (S k) b Hk). do 3 f_equal. lia.
Qed.

Lemma ring_app n data start q l : ring n data start (q ++ l) -> ring n data start q.
Proof.
  intros [Hn Hd Hl Hb]. split; [done|done|rewrite length_app in Hl; lia|].
  intros k c Hk. apply Hb. by apply lookup_app_l_Some.
Qed.

(** ** Stepping through a run

    [krun] holds the equations [m s = Done a s'] of the operations; [kstep]
    executes the first operation of a sequence with them. *)

Create HintDb krun.
#[export] Hint Extern 0 (get_state _ = Done _ _) => reflexivity : krun.
#[export] Hint Extern 0 (gets _ _ = Done _ _) => reflexivity : krun.
#[export] Hint Extern 0 (modify _ _ = Done _ _) => reflexivity : krun.
#[export] Hint Extern 0 (mret _ _ = Done _ _) => reflexivity : krun.
#[export] Hint Extern 0 (when true _ _ = Done _ _) => unfold when : krun.
#[export] Hint Extern 0 (when false _ _ = Done _ _) => reflexivity : krun.

Ltac kstep := erewrite bind_done; [|solve [eauto with krun]]; cbv beta match.
Tactic Notation "kapply" uconstr(H) := erewrite bind_done; [|by apply H]; cbv beta match.
Tactic Notation "kapply" uconstr(H) "by" tactic3(t) :=
  erewrite bind_done; [|solve [apply H; t]]; cbv beta match.
Tactic Notation "krun" uconstr(H) := erewrite (bind_done _ _ _ _ _ H); cbv beta match.
