(* ===== verification/Kernel.v ===== *)
(** The data of the kernel: the constants of param.h, mmu.h and memlayout.h, the
    structs of proc.h, file.h, fs.h, buf.h, spinlock.h, sleeplock.h, x86.h and of
    the .c files that declare their own, and the record [kernel] of all global
    variables, on which every operation of the other files acts.

    A pointer into one of the kernel's static tables is the index of the entry it
    points to ([struct proc*] into [ptable.proc], [struct inode*] into
    [icache.inode], [struct file*] into [ftable.file], [struct buf*] into
    [bcache.buf], with [NBUF] for [&bcache.head]); a pointer that may be null is
    an [option].  A pointer into dynamically allocated memory is its address. *)
From S2P Require Import Prelude.

(** ** param.h, memlayout.h, mmu.h, fs.h, pipe.c *)

Definition NPROC : nat := 64.
Abbreviation KSTACKSIZE := 4096 (only parsing).
Definition NCPU : nat := 8.
Definition NOFILE : nat := 16.
Definition NFILE : nat := 100.
Definition NINODE : nat := 50.
Abbreviation NDEV := 10 (only parsing).
Abbreviation ROOTDEV := 1 (only parsing).
Abbreviation MAXARG := 32 (only parsing).
Definition MAXOPBLOCKS : Z := 10.
Definition LOGSIZE : Z := MAXOPBLOCKS * 3.
Definition NBUF : nat := 30.
Definition FSSIZE : Z := 1000.
Definition NCONT : nat := 20.

Abbreviation EXTMEM := 0x100000 (only parsing).
Definition PHYSTOP : Z := 0xE000000.
Abbreviation DEVSPACE := 0xFE000000 (only parsing).
Definition KERNBASE : Z := 0x80000000.
Definition KERNLINK : Z := KERNBASE + EXTMEM.
Definition V2P (a : Z) : Z := u32 (a - KERNBASE).
Definition P2V (a : Z) : Z := u32 (a + KERNBASE).

Definition PGSIZE : Z := 4096.
Definition PGROUNDUP (sz : Z) : Z := Z.land (u32 (sz + PGSIZE - 1)) (W32 - PGSIZE).
Definition PGROUNDDOWN (a : Z) : Z := Z.land a (W32 - PGSIZE).
Abbreviation FL_IF := 0x200 (only parsing).
Abbreviation DPL_USER := 3 (only parsing).
Abbreviation SEG_KCODE := 1%nat (only parsing).
Abbreviation SEG_KDATA := 2%nat (only parsing).
Abbreviation SEG_UCODE := 3%nat (only parsing).
Abbreviation SEG_UDATA := 4%nat (only parsing).
Abbreviation SEG_TSS := 5%nat (only parsing).
Abbreviation NSEGS := 6%nat (only parsing).
Abbreviation STA_X := 0x8 (only parsing).
Abbreviation STA_W := 0x2 (only parsing).
Abbreviation STA_R := 0x2 (only parsing).
Abbreviation STS_T32A := 0x9 (only parsing).
Abbreviation STS_IG32 := 0xE (only parsing).
Abbreviation STS_TG32 := 0xF (only parsing).

Definition ROOTINO : Z := 1.
Definition BSIZE : Z := 512.
Definition NDIRECT : Z := 12.
Definition NINDIRECT : Z := BSIZE / 4.
Definition MAXFILE : Z := NDIRECT + NINDIRECT.
Definition DIRSIZ : Z := 14.
Definition PIPESIZE : Z := 512.

Definition T_DIR : Z := 1.
Definition T_FILE : Z := 2.
Abbreviation T_DEV := 3 (only parsing).

Definition B_VALID : Z := 2.
Definition B_DIRTY : Z := 4.

(** ** Locks and sleep channels *)

(** The sleep locks of the kernel are members of buffers and inodes. *)
Inductive sleepid : Type := SL_buf (i : nat) | SL_inode (i : nat).

(** The spin locks, named by the variable or member that holds them. *)
Inductive lockid : Type :=
| L_ptable | L_ctable | L_tickslock | L_kmem | L_cons | L_bcache | L_icache
| L_ftable | L_log | L_ide
| L_pipe (page : Z)
| L_sleep (i : sleepid).

#[export] Instance sleepid_eq_dec : EqDecision sleepid.
Proof. solve_decision. Defined.

#[export] Instance lockid_eq_dec : EqDecision lockid.
Proof. solve_decision. Defined.

Definition lockid_code (l : lockid) : Z * Z :=
  match l with
  | L_ptable => (0, 0) | L_ctable => (1, 0) | L_tickslock => (2, 0) | L_kmem => (3, 0)
  | L_cons => (4, 0) | L_bcache => (5, 0) | L_icache => (6, 0) | L_ftable => (7, 0)
  | L_log => (8, 0) | L_ide => (9, 0) | L_pipe a => (10, a)
  | L_sleep (SL_buf i) => (11, Z.of_nat i) | L_sleep (SL_inode i) => (12, Z.of_nat i)
  end.

Definition lockid_decode (c : Z * Z) : lockid :=
  match c.1 with
  | 0 => L_ptable | 1 => L_ctable | 2 => L_tickslock | 3 => L_kmem | 4 => L_cons
  | 5 => L_bcache | 6 => L_icache | 7 => L_ftable | 8 => L_log | 9 => L_ide
  | 10 => L_pipe c.2
  | 11 => L_sleep (SL_buf (Z.to_nat c.2))
  | _ => L_sleep (SL_inode (Z.to_nat c.2))
  end.

#[export] Instance lockid_countable : Countable lockid.
Proof.
  apply (inj_countable' lockid_code lockid_decode).
  intros [| | | | | | | | | | | [i|i]]; cbn -[Z.of_nat Z.to_nat]; by rewrite ?Nat2Z.id.
Defined.

Definition sleepid_code (i : sleepid) : nat + nat :=
  match i with SL_buf n => inl n | SL_inode n => inr n end.

Definition sleepid_decode (c : nat + nat) : sleepid :=
  match c with inl n => SL_buf n | inr n => SL_inode n end.

#[export] Instance sleepid_countable : Countable sleepid.
Proof. apply (inj_countable' sleepid_code sleepid_decode). by intros [|]. Defined.

(** [struct spinlock]: [lk_cpu] is the index in [cpus] of the CPU holding the
    lock.  The call stack [pcs], kept for debugging only, is left out. *)
Record spinlock := Spinlock {
  lk_name : string;
  lk_locked : Z;
  lk_cpu : option nat
}.

(** [struct sleeplock], whose [lk] is the spin lock [L_sleep i]. *)
Record sleeplock := Sleeplock {
  sl_locked : Z;
  sl_name : string;
  sl_pid : Z
}.

(** Sleep channels: the addresses the kernel passes to [sleep] and [wakeup]. *)
Inductive chan : Type :=
| CH_proc (i : nat)        (* a struct proc *)
| CH_ticks                 (* &ticks *)
| CH_log                   (* &log *)
| CH_buf (i : nat)         (* a struct buf *)
| CH_sleep (i : sleepid)   (* a struct sleeplock *)
| CH_nread (page : Z)      (* &p->nread of a pipe *)
| CH_nwrite (page : Z)     (* &p->nwrite of a pipe *)
| CH_input.                (* &input.r *)

#[export] Instance chan_eq_dec : EqDecision chan.
Proof. solve_decision. Defined.

(** ** Processors and processes *)

(** [struct segdesc] (mmu.h), a segment descriptor. *)
Record segdesc := Segdesc {
  sd_lim_15_0 : Z; sd_base_15_0 : Z; sd_base_23_16 : Z; sd_type : Z; sd_s : Z; sd_dpl : Z;
  sd_p : Z; sd_lim_19_16 : Z; sd_avl : Z; sd_rsv1 : Z; sd_db : Z; sd_g : Z; sd_base_31_24 : Z
}.

Definition SEG (type base lim dpl : Z) : segdesc :=
  Segdesc (Z.land (Z.shiftr lim 12) 0xffff) (Z.land (u32 base) 0xffff)
    (Z.land (Z.shiftr (u32 base) 16) 0xff) type 1 dpl 1
    (Z.shiftr (u32 lim) 28) 0 0 1 1 (Z.shiftr (u32 base) 24).

Definition SEG16 (type base lim dpl : Z) : segdesc :=
  Segdesc (Z.land lim 0xffff) (Z.land (u32 base) 0xffff)
    (Z.land (Z.shiftr (u32 base) 16) 0xff) type 1 dpl 1
    (Z.shiftr (u32 lim) 16) 0 0 1 0 (Z.shiftr (u32 base) 24).

(** [struct cpu]; of the task state [ts], the members the kernel writes. *)
Record cpu := Cpu {
  c_apicid : Z;
  c_ts_ss0 : Z;
  c_ts_esp0 : Z;
  c_ts_iomb : Z;
  c_gdt : list segdesc;
  c_started : Z;
  c_ncli : Z;
  c_intena : Z;
  c_proc : option nat
}.

Record trapframe := Trapframe {
  tf_edi : Z; tf_esi : Z; tf_ebp : Z; tf_oesp : Z; tf_ebx : Z; tf_edx : Z;
  tf_ecx : Z; tf_eax : Z; tf_gs : Z; tf_fs : Z; tf_es : Z; tf_ds : Z;
  tf_trapno : Z; tf_err : Z; tf_eip : Z; tf_cs : Z; tf_eflags : Z; tf_esp : Z; tf_ss : Z
}.

Record context := Context_ {
  cx_edi : Z; cx_esi : Z; cx_ebx : Z; cx_ebp : Z; cx_eip : Z
}.

Inductive procstate : Type := UNUSED | EMBRYO | SLEEPING | RUNNABLE | RUNNING | ZOMBIE.

#[export] Instance procstate_eq_dec : EqDecision procstate.
Proof. solve_decision. Defined.

(** [struct proc].  The trap frame and the context live at the top of the kernel
    stack; [p_tf] and [p_context] are their contents, and [p_retaddr] the word
    between them, to which the context returns. *)
Record proc := Proc {
  p_sz : Z;
  p_pgdir : Z;
  p_kstack : Z;
  p_state : procstate;
  p_pid : Z;
  p_parent : option nat;
  p_containerID : Z;
  p_tf : trapframe;
  p_retaddr : Z;
  p_context : context;
  p_chan : option chan;
  p_killed : Z;
  p_ofile : list (option nat);
  p_cwd : option nat;
  p_name : list Z
}.

(** ** Containers (proc.h) *)

Inductive containerState : Type := CRUNNING | CWAITING | CUNUSED.

#[export] Instance containerState_eq_dec : EqDecision containerState.
Proof. solve_decision. Defined.

Record pgElement := PgElement { pg_GVA : Z; pg_HVA : Z; pg_pid : Z }.
Record pgTable := PgTable { pt_page : list pgElement; pt_next : Z }.

Record container := Container {
  ct_containerID : Z;
  ct_state : containerState;
  ct_nextGVA : Z;
  ct_pgTable : pgTable;
  ct_nextprocId : Z
}.

(** ** File system *)

(** A disk block, the contents of [b->data]: [BSIZE] bytes. *)
Definition block := list Z.

Record buf := Buf {
  b_flags : Z;
  b_dev : Z;
  b_blockno : Z;
  b_refcnt : Z;
  b_prev : nat;
  b_next : nat;
  b_qnext : option nat;
  b_data : block
}.

Record superblock := Superblock {
  sb_size : Z; sb_nblocks : Z; sb_ninodes : Z; sb_nlog : Z;
  sb_logstart : Z; sb_inodestart : Z; sb_bmapstart : Z
}.

Record inode := Inode {
  i_dev : Z;
  i_inum : Z;
  i_ref : Z;
  i_valid : Z;
  i_type : Z;
  i_major : Z;
  i_minor : Z;
  i_nlink : Z;
  i_size : Z;
  i_addrs : list Z;
  i_containerID : Z
}.

Inductive ftype : Type := FD_NONE | FD_PIPE | FD_INODE.

#[export] Instance ftype_eq_dec : EqDecision ftype.
Proof. solve_decision. Defined.

Record file := File {
  f_type : ftype;
  f_ref : Z;
  f_readable : Z;
  f_writable : Z;
  f_pipe : Z;
  f_ip : option nat;
  f_off : Z
}.

Record logheader := Logheader { lh_n : Z; lh_block : list Z }.

Record log := Log {
  lg_start : Z;
  lg_size : Z;
  lg_outstanding : Z;
  lg_committing : Z;
  lg_dev : Z;
  lg_lh : logheader
}.

Record pipe := Pipe {
  pi_data : list Z;
  pi_nread : Z;
  pi_nwrite : Z;
  pi_readopen : Z;
  pi_writeopen : Z
}.

(** The device functions that can stand in [devsw]. *)
Inductive devfn : Type := consoleread_fn | consolewrite_fn.
Record devsw_entry := Devsw { dv_read : option devfn; dv_write : option devfn }.

(** ** Console (console.c, uart.c): the lock switch, the input ring, and what
    the devices show: the bytes sent to the serial port, the CGA screen memory
    and its cursor register. *)
Record console := Console {
  cs_locking : Z;
  cs_panicked : Z;
  cs_buf : list Z;
  cs_r : Z;
  cs_w : Z;
  cs_e : Z;
  cs_uart : Z;
  cs_serial : list Z;
  cs_crt : list Z;
  cs_pos : Z
}.

(** ** Physical memory allocator (kalloc.c) *)
Record kmem := Kmem { km_use_lock : Z; km_freelist : Z }.

(** ** The platform: gate descriptors (mmu.h), and the devices the kernel programs *)
Record gatedesc := Gatedesc {
  gd_off_15_0 : Z; gd_cs : Z; gd_args : Z; gd_rsv1 : Z; gd_type : Z; gd_s : Z; gd_dpl : Z;
  gd_p : Z; gd_off_31_16 : Z
}.

(** A write to a port, to a register of the local APIC or of the I/O APIC. *)
Inductive io_write : Type :=
| OutB (port v : Z)
| LapicW (index v : Z)
| IoapicW (reg v : Z).

Record platform := Platform {
  pf_idt : list gatedesc;
  pf_idtr : bool;                       (* this CPU has loaded idt *)
  pf_lapic : Z;                         (* the pointer lapic *)
  pf_ioapicid : Z;
  pf_shift : Z;                         (* kbdgetc's static shift *)
  pf_out : list io_write                (* the writes to devices, the last one first *)
}.

(** ** The processor a thread runs on, the other processors, and the locks *)
Record hw := Hw {
  h_if : bool;                          (* FL_IF of this CPU's eflags *)
  h_apic : Z;                           (* this CPU's local APIC id, lapicid() *)
  h_cpus : list cpu;                    (* cpus[0..ncpu) *)
  h_locks : gmap lockid spinlock
}.

(** ** The global state *)
Record kernel := Kernel {
  k_hw : hw;
  k_cr3 : Z;                            (* this CPU's page table register *)
  k_tr : Z;                             (* this CPU's task register *)
  k_gdtr : option nat;                  (* the CPU whose gdt is loaded on this CPU *)
  k_sleeplocks : gmap sleepid sleeplock;
  k_cons : console;
  k_kmem : kmem;
  k_mem : gmap Z Z;                     (* bytes, by kernel virtual address *)
  k_kpgdir : Z;
  k_ptable : list proc;
  k_initproc : option nat;
  k_nextpid : Z;
  k_first : Z;                          (* forkret's static first *)
  k_ctable : list container;
  k_containers : list Z;
  k_schedulerLog : Z;
  k_memoryLog : Z;
  k_ticks : Z;
  k_disk : gmap (Z * Z) block;          (* by device and block number *)
  k_writes : list (Z * Z * block);      (* history of the blocks written to disk *)
  k_havedisk1 : Z;
  k_idequeue : option nat;
  k_bufs : list buf;                    (* bcache.buf, then bcache.head *)
  k_log : log;
  k_sb : superblock;
  k_icache : list inode;
  k_ftable : list file;
  k_devsw : list devsw_entry;
  k_pipes : gmap Z pipe;                (* the pages that hold a struct pipe *)
  k_platform : platform
}.

(** What a thread waits for when it leaves the CPU: another CPU that holds a spin
    lock, the scheduler, (for the scheduler itself) the process it runs, or (for
    [startothers]) the start of another CPU. *)
Inductive yield_point : Type :=
| Y_spin (l : lockid)
| Y_sched
| Y_run (p : nat)
| Y_started (c : nat).

Abbreviation K := (M yield_point kernel).

(** ** What the kernel is linked with and runs on

    [fuel] bounds the rounds of loops that wait for another thread; the other
    fields are addresses fixed by the linker, the images of initcode.S and of
    entryother.S, the entry points of vectors.S, and what an uninitialised [int] on
    the kernel stack holds. *)
Class Env := {
  fuel : nat;
  kernel_end : Z;          (* end *)
  kernel_data : Z;         (* data *)
  forkret_addr : Z;
  trapret_addr : Z;
  cpu_ts_addr : nat -> Z;  (* &cpus[i].ts *)
  initcode : list Z;
  entryother : list Z;
  mpenter_addr : Z;
  entrypgdir_addr : Z;
  vectors : nat -> Z;
  uninit : Z
}.

(** What the devices answer: the registers of the two APICs, the I/O ports, and the
    faulting address in [cr2]. *)
Class Devices := {
  lapic_reg : Z -> Z;
  ioapic_reg : Z -> Z;
  inb : Z -> Z;
  rcr2 : Z;
  cmos : nat -> Z -> Z    (* register of the clock after so many accesses to devices *)
}.

(** ** Field update *)

#[export] Instance eta_spinlock : Eta spinlock := fun r => Spinlock (lk_name r) (lk_locked r)
  (lk_cpu r).
#[export] Instance eta_sleeplock : Eta sleeplock := fun r => Sleeplock (sl_locked r) (sl_name r)
  (sl_pid r).
#[export] Instance eta_segdesc : Eta segdesc := fun r => Segdesc (sd_lim_15_0 r) (sd_base_15_0 r)
  (sd_base_23_16 r) (sd_type r) (sd_s r) (sd_dpl r) (sd_p r) (sd_lim_19_16 r) (sd_avl r)
  (sd_rsv1 r) (sd_db r) (sd_g r) (sd_base_31_24 r).
#[export] Instance eta_cpu : Eta cpu := fun r => Cpu (c_apicid r) (c_ts_ss0 r) (c_ts_esp0 r)
  (c_ts_iomb r) (c_gdt r) (c_started r) (c_ncli r) (c_intena r) (c_proc r).
#[export] Instance eta_trapframe : Eta trapframe := fun r => Trapframe (tf_edi r) (tf_esi r)
  (tf_ebp r) (tf_oesp r) (tf_ebx r) (tf_edx r) (tf_ecx r) (tf_eax r) (tf_gs r) (tf_fs r) (tf_es
  r) (tf_ds r) (tf_trapno r) (tf_err r) (tf_eip r) (tf_cs r) (tf_eflags r) (tf_esp r) (tf_ss r).
#[export] Instance eta_context : Eta context := fun r => Context_ (cx_edi r) (cx_esi r) (cx_ebx
  r) (cx_ebp r) (cx_eip r).
#[export] Instance eta_proc : Eta proc := fun r => Proc (p_sz r) (p_pgdir r) (p_kstack r)
  (p_state r) (p_pid r) (p_parent r) (p_containerID r) (p_tf r) (p_retaddr r) (p_context r)
  (p_chan r) (p_killed r) (p_ofile r) (p_cwd r) (p_name r).
#[export] Instance eta_pgElement : Eta pgElement := fun r => PgElement (pg_GVA r) (pg_HVA r)
  (pg_pid r).
#[export] Instance eta_pgTable : Eta pgTable := fun r => PgTable (pt_page r) (pt_next r).
#[export] Instance eta_container : Eta container := fun r => Container (ct_containerID r)
  (ct_state r) (ct_nextGVA r) (ct_pgTable r) (ct_nextprocId r).
#[export] Instance eta_buf : Eta buf := fun r => Buf (b_flags r) (b_dev r) (b_blockno r)
  (b_refcnt r) (b_prev r) (b_next r) (b_qnext r) (b_data r).
#[export] Instance eta_superblock : Eta superblock := fun r => Superblock (sb_size r)
  (sb_nblocks r) (sb_ninodes r) (sb_nlog r) (sb_logstart r) (sb_inodestart r) (sb_bmapstart r).
#[export] Instance eta_inode : Eta inode := fun r => Inode (i_dev r) (i_inum r) (i_ref r)
  (i_valid r) (i_type r) (i_major r) (i_minor r) (i_nlink r) (i_size r) (i_addrs r)
  (i_containerID r).
#[export] Instance eta_file : Eta file := fun r => File (f_type r) (f_ref r) (f_readable r)
  (f_writable r) (f_pipe r) (f_ip r) (f_off r).
#[export] Instance eta_logheader : Eta logheader := fun r => Logheader (lh_n r) (lh_block r).
#[export] Instance eta_log : Eta log := fun r => Log (lg_start r) (lg_size r) (lg_outstanding r)
  (lg_committing r) (lg_dev r) (lg_lh r).
#[export] Instance eta_pipe : Eta pipe := fun r => Pipe (pi_data r) (pi_nread r) (pi_nwrite r)
  (pi_readopen r) (pi_writeopen r).
#[export] Instance eta_devsw_entry : Eta devsw_entry := fun r => Devsw (dv_read r) (dv_write r).
#[export] Instance eta_console : Eta console := fun r => Console (cs_locking r) (cs_panicked r)
  (cs_buf r) (cs_r r) (cs_w r) (cs_e r) (cs_uart r) (cs_serial r) (cs_crt r) (cs_pos r).
#[export] Instance eta_kmem : Eta kmem := fun r => Kmem (km_use_lock r) (km_freelist r).
#[export] Instance eta_platform : Eta platform := fun r => Platform (pf_idt r) (pf_idtr r)
  (pf_lapic r) (pf_ioapicid r) (pf_shift r) (pf_out r).
#[export] Instance eta_hw : Eta hw := fun r => Hw (h_if r) (h_apic r) (h_cpus r) (h_locks r).
#[export] Instance eta_kernel : Eta kernel := fun r => Kernel (k_hw r) (k_cr3 r) (k_tr r) (k_gdtr r)
  (k_sleeplocks r) (k_cons r) (k_kmem r) (k_mem r) (k_kpgdir r) (k_ptable
  r) (k_initproc r) (k_nextpid r) (k_first r) (k_ctable r) (k_containers r) (k_schedulerLog r)
  (k_memoryLog r) (k_ticks r) (k_disk r) (k_writes r) (k_havedisk1 r) (k_idequeue r) (k_bufs r)
  (k_log r) (k_sb r) (k_icache r) (k_ftable r) (k_devsw r) (k_pipes r)
  (k_platform r).

(** ** Page rounding *)

Lemma PGROUNDDOWN_eq a : 0 <= a < W32 -> PGROUNDDOWN a = a - a mod PGSIZE.
Proof.
  intros Ha. unfold PGROUNDDOWN, PGSIZE.
  change (W32 - 4096) with (Z.shiftl (Z.ones 20) 12).
  assert (Z.land a (Z.shiftl (Z.ones 20) 12) = Z.ldiff a (Z.ones 12)) as ->.
  { apply Z.bits_inj'. intros n Hn. rewrite Z.land_spec, Z.ldiff_spec, Z.shiftl_spec by lia.
    destruct (decide (n < 12)).
    - rewrite (Z.ones_spec_low 12), (Z.testbit_neg_r _ (n - 12)) by lia. by rewrite !andb_false_r.
    - rewrite (Z.ones_spec_high 12) by lia. destruct (decide (n < 32)).
      + by rewrite (Z.ones_spec_low 20) by lia.
      + rewrite (Z.ones_spec_high 20) by lia. cbn. rewrite andb_false_r, andb_true_r.
        destruct (decide (a = 0)) as [->|]; [by rewrite Z.bits_0|].
        symmetry. apply Z.bits_above_log2; [lia|]. apply Z.log2_lt_pow2; [lia|].
        eapply Z.lt_le_trans; [apply Ha|]. change W32 with (2 ^ 32). apply Z.pow_le_mono_r; lia. }
  rewrite Z.ldiff_ones_r by lia. rewrite Z.shiftl_mul_pow2, Z.shiftr_div_pow2 by lia.
  change (2 ^ 12) with 4096. pose proof (Z.div_mod a 4096 ltac:(lia)). lia.
Qed.

Lemma PGROUNDUP_spec a :
  0 <= a -> a + PGSIZE <= W32 ->
  PGROUNDUP a mod PGSIZE = 0 /\ a <= PGROUNDUP a < a + PGSIZE.
Proof.
  intros H0 H1. assert (u32 (a + PGSIZE - 1) = a + PGSIZE - 1) as Hu.
  { apply Z.mod_small. unfold PGSIZE in *. lia. }
  assert (PGROUNDUP a = (a + PGSIZE - 1) - (a + PGSIZE - 1) mod PGSIZE) as ->.
  { unfold PGROUNDUP. rewrite Hu. apply PGROUNDDOWN_eq. unfold PGSIZE in *. lia. }
  pose proof (Z.mod_pos_bound (a + PGSIZE - 1) PGSIZE ltac:(done)). split; [|lia].
  rewrite Zminus_mod_idemp_r, Z.sub_diag. done.
Qed.
