(* ===== verification/Spinlock.v ===== *)
(** spinlock.c, with [mycpu], [cpuid] and [myproc] of proc.c: interrupt nesting
    ([pushcli], [popcli]) and mutual exclusion between CPUs.

    A CPU that finds a lock taken spins; in the model it lets the other CPUs run
    ([Y_spin]) between two attempts.  Section [rules] gives the lemmas with which
    the other files reason about critical sections: from a state in which the
    interrupt nesting is consistent ([cli_ok]) a free lock is entered by [enter],
    and [leave] undoes [enter] exactly. *)
From S2P Require Import Prelude Kernel.

Section spinlock.
Context {E : Env}.

(** The index in [cpus] of the running CPU, as the loop of [mycpu] finds it. *)
Definition this_cpu (h : hw) : option (nat * cpu) :=
  list_find (fun c => c_apicid c = h_apic h) (h_cpus h).

Definition get_hw {T} (f : hw -> T) : K T := gets (fun s => f (k_hw s)).
Definition upd_hw (f : hw -> hw) : K unit := modify (fun s => s <| k_hw ::= f |>).

Definition readeflags : K Z := get_hw (fun h => if h_if h then FL_IF else 0).
Definition cli : K unit := upd_hw (fun h => h <| h_if := false |>).
Definition sti : K unit := upd_hw (fun h => h <| h_if := true |>).

Definition mycpu : K nat :=
  eflags ← readeflags ;
  if nz (Z.land eflags FL_IF) then panic "mycpu called with interrupts enabled
" else
  o ← get_hw this_cpu ;
  match o with
  | Some (i, _) => mret i
  | None => panic "unknown apicid
"
  end.

Definition cpuid : K Z := i ← mycpu ; mret (Z.of_nat i).

Definition get_cpu (i : nat) : K cpu :=
  cs ← get_hw h_cpus ; deref "cpus" (cs !! i).
Definition upd_cpu (i : nat) (f : cpu -> cpu) : K unit :=
  upd_hw (fun h => h <| h_cpus ::= alter f i |>).

Definition pushcli : K unit :=
  eflags ← readeflags ;
  cli ;;
  i ← mycpu ;
  c ← get_cpu i ;
  when (c_ncli c =? 0) (upd_cpu i (fun c => c <| c_intena := Z.land eflags FL_IF |>)) ;;
  upd_cpu i (fun c => c <| c_ncli ::= Z.add 1 |>).

Definition popcli : K unit :=
  eflags ← readeflags ;
  if nz (Z.land eflags FL_IF) then panic "popcli - interruptible" else
  i ← mycpu ;
  upd_cpu i (fun c => c <| c_ncli ::= fun n => n - 1 |>) ;;
  c ← get_cpu i ;
  if c_ncli c <? 0 then panic "popcli" else
  when ((c_ncli c =? 0) && nz (c_intena c)) sti.

Definition myproc : K (option nat) :=
  pushcli ;;
  i ← mycpu ;
  c ← get_cpu i ;
  popcli ;;
  mret (c_proc c).

Definition zero_lock : spinlock := Spinlock "" 0 None.
Definition lock_at (h : hw) (lk : lockid) : spinlock := default zero_lock (h_locks h !! lk).
Definition put_lock (lk : lockid) (l : spinlock) (h : hw) : hw :=
  h <| h_locks ::= <[lk := l]> |>.

Definition initlock (lk : lockid) (name : string) : K unit :=
  upd_hw (put_lock lk (Spinlock name 0 None)).

Definition holding (lk : lockid) : K bool :=
  pushcli ;;
  l ← get_hw (fun h => lock_at h lk) ;
  r ← (if nz (lk_locked l) then i ← mycpu ; mret (bool_decide (lk_cpu l = Some i))
       else mret false) ;
  popcli ;;
  mret r.

(** The atomic exchange [xchg(&lk->locked, newval)]. *)
Definition xchg_locked (lk : lockid) (newval : Z) : K Z :=
  l ← get_hw (fun h => lock_at h lk) ;
  upd_hw (put_lock lk (l <| lk_locked := newval |>)) ;;
  mret (lk_locked l).

Definition acquire (lk : lockid) : K unit :=
  pushcli ;;
  h ← holding lk ;
  if h : bool then panic "acquire" else
  loop fuel (
    old ← xchg_locked lk 1 ;
    if nz old then yield_to (Y_spin lk) ;; mret None else mret (Some tt)) ;;
  i ← mycpu ;
  l ← get_hw (fun h => lock_at h lk) ;
  upd_hw (put_lock lk (l <| lk_cpu := Some i |>)).

Definition release (lk : lockid) : K unit :=
  h ← holding lk ;
  if negb h then panic "release" else
  l ← get_hw (fun h => lock_at h lk) ;
  upd_hw (put_lock lk (l <| lk_cpu := None |>)) ;;
  l ← get_hw (fun h => lock_at h lk) ;
  upd_hw (put_lock lk (l <| lk_locked := 0 |>)) ;;
  popcli.

(** [getcallerpcs] follows the chain of saved frame pointers through the memory
    word reader [rd], at most ten frames, and pads with zeros. *)
Fixpoint getcallerpcs_from (rd : Z -> Z) (n : nat) (ebp : Z) : list Z :=
  match n with
  | O => []
  | S n' =>
      if (ebp =? 0) || (ebp <? KERNBASE) || (ebp =? 0xffffffff)
      then replicate n 0
      else rd (u32 (ebp + 4)) :: getcallerpcs_from rd n' (rd ebp)
  end.
Definition getcallerpcs (rd : Z -> Z) (v : Z) : list Z := getcallerpcs_from rd 10 (u32 (v - 8)).

(** ** The effect of the operations on the processor state *)

Definition eflags_of (h : hw) : Z := if h_if h then FL_IF else 0.

Definition push_cpu (e : Z) (c : cpu) : cpu :=
  c <| c_intena ::= fun n => if c_ncli c =? 0 then e else n |> <| c_ncli ::= Z.add 1 |>.

Definition pop_cpu (c : cpu) : cpu := c <| c_ncli ::= fun n => n - 1 |>.

Definition push (i : nat) (h : hw) : hw :=
  h <| h_if := false |> <| h_cpus ::= alter (push_cpu (eflags_of h)) i |>.

Definition pop (i : nat) (c : cpu) (h : hw) : hw :=
  h <| h_if := (c_ncli c =? 1) && nz (c_intena c) |> <| h_cpus ::= alter pop_cpu i |>.

(** CPU [i], whose entry is [c], is running; its nesting count and its interrupt
    flag agree: with no [pushcli] pending, [intena] is what the next one will
    save; while one is pending interrupts are off and [intena] is what the first
    one saved. *)
Definition runs_on (h : hw) (i : nat) (c : cpu) : Prop :=
  this_cpu h = Some (i, c) /\
  ((c_ncli c = 0 /\ c_intena c = eflags_of h) \/ (0 < c_ncli c /\ h_if h = false /\ (c_intena c = 0 \/ c_intena c = FL_IF))).

Definition cli_ok (h : hw) : Prop := exists i c, runs_on h i c.

Definition lock_free (h : hw) (lk : lockid) : Prop :=
  exists l, h_locks h !! lk = Some l /\ lk_locked l = 0 /\ lk_cpu l = None.

Definition lock_held (h : hw) (i : nat) (lk : lockid) : Prop :=
  exists l, h_locks h !! lk = Some l /\ lk_locked l <> 0 /\ lk_cpu l = Some i.

(** The processor state after [acquire lk] on CPU [i]. *)
Definition enter (i : nat) (lk : lockid) (h : hw) : hw :=
  put_lock lk (Spinlock (lk_name (lock_at h lk)) 1 (Some i)) (push i h).

(** The processor state after [release lk] on CPU [i]. *)
Definition leave (i : nat) (c : cpu) (lk : lockid) (h : hw) : hw :=
  pop i c (put_lock lk (Spinlock (lk_name (lock_at h lk)) 0 None) h).

(** The processor state after CPU [i] has found [lk] free. *)
Definition take_lock (i : nat) (lk : lockid) (h : hw) : hw := put_lock lk (Spinlock (lk_name (lock_at h lk)) 1 (Some i)) h.

(** CPU [i] runs with interrupts off. *)
Definition spinning (i : nat) (s : kernel) : Prop := exists c, runs_on (k_hw s) i c /\ 0 < c_ncli c.

(** A run that waits for [lk], which CPU [j] holds: it leaves the CPU with the lock as it is, in
    a state with [I].  Resumed in a state with [I], it waits again when a CPU holds
    the lock, and goes on as [Q] says when it is free; after [n] rounds its fuel is used up. *)
Fixpoint waits {A} (lk : lockid) (j : nat) (I : kernel -> Prop) (Q : kernel -> kres yield_point kernel A -> Prop) (n : nat)
    (r : kres yield_point kernel A) : Prop :=
  exists s k, r = Yield (Y_spin lk) s k /\ lock_held (k_hw s) j lk /\ I s /\
    match n with
    | O => forall s', exists s'', k s' = Stop OutOfFuel s''
    | S n' => forall s', I s' ->
        (forall j', lock_held (k_hw s') j' lk -> waits lk j' I Q n' (k s')) /\ (lock_free (k_hw s') lk -> Q s' (k s'))
    end.

(** [n] calls of [m]. *)
Fixpoint times (n : nat) (m : K unit) : K unit :=
  match n with O => mret tt | S n' => m ;; times n' m end.

End spinlock.

(** ** Rules *)

Section rules.
Context {E : Env}.

Lemma this_cpu_lookup h i c : this_cpu h = Some (i, c) -> h_cpus h !! i = Some c.
Proof. unfold this_cpu. intros H. by apply list_find_Some in H as (? & ? & ?). Qed.

Lemma this_cpu_alter h h' i c f :
  this_cpu h = Some (i, c) -> c_apicid (f c) = c_apicid c ->
  h_apic h' = h_apic h -> h_cpus h' = alter f i (h_cpus h) ->
  this_cpu h' = Some (i, f c).
Proof.
  unfold this_cpu. intros H Hf Ha Hc.
  apply list_find_Some in H as (H1 & H2 & H3). apply list_find_Some.
  rewrite Ha, Hc. split_and!.
  - by rewrite list_lookup_alter_eq, H1.
  - congruence.
  - intros j y Hj Hlt. rewrite list_lookup_alter_ne in Hj by lia. eauto.
Qed.

Lemma get_hw_run {T} (f : hw -> T) s : get_hw f s = Done (f (k_hw s)) s.
Proof. done. Qed.

Lemma upd_hw_run f s : upd_hw f s = Done tt (s <| k_hw ::= f |>).
Proof. done. Qed.

Lemma mycpu_run s i c :
  h_if (k_hw s) = false -> this_cpu (k_hw s) = Some (i, c) -> mycpu s = Done i s.
Proof.
  intros Hif Hc. unfold mycpu, readeflags, get_hw. kstep. rewrite Hif. simpl.
  kstep. by rewrite Hc.
Qed.

Lemma get_cpu_run s i c : h_cpus (k_hw s) !! i = Some c -> get_cpu i s = Done c s.
Proof. intros H. unfold get_cpu, get_hw. kstep. by rewrite H. Qed.

#[local] Hint Resolve get_hw_run upd_hw_run mycpu_run get_cpu_run : krun.

Lemma pushcli_run s i c :
  this_cpu (k_hw s) = Some (i, c) -> pushcli s = Done tt (s <| k_hw ::= push i |>).
Proof.
  intros H. pose proof (this_cpu_lookup _ _ _ H) as Hl.
  unfold pushcli, cli, readeflags, upd_cpu.
  do 4 kstep.
  destruct (c_ncli c =? 0) eqn:En; kstep; rewrite upd_hw_run; f_equal.
  all: unfold push, set; cbn; f_equal; f_equal; rewrite ?alter_alter;
    eapply alter_ext_at; [done|].
  all: unfold push_cpu, set; cbn; rewrite En; destruct c; try done.
  cbn. f_equal. unfold eflags_of. by destruct (h_if _).
Qed.

Lemma popcli_run s i c :
  this_cpu (k_hw s) = Some (i, c) -> h_if (k_hw s) = false -> 0 < c_ncli c ->
  popcli s = Done tt (s <| k_hw ::= pop i c |>).
Proof.
  intros H Hif Hn. pose proof (this_cpu_lookup _ _ _ H) as Hl.
  unfold popcli, readeflags, upd_cpu.
  kstep. rewrite Hif. change (nz (Z.land 0 FL_IF)) with false. cbv iota. kstep. kstep.
  erewrite bind_done; [|eapply get_cpu_run; cbn; by rewrite list_lookup_alter_eq, Hl].
  cbn. rewrite (proj2 (Z.ltb_ge _ _)) by lia.
  replace (c_ncli c - 1 =? 0) with (c_ncli c =? 1) by (destruct (Z.eqb_spec (c_ncli c) 1); lia).
  unfold pop, set; cbn.
  destruct ((c_ncli c =? 1) && nz (c_intena c)); [done|].
  unfold when, mret, M_ret. by rewrite Hif.
Qed.

Lemma push_this_cpu h i c :
  this_cpu h = Some (i, c) -> this_cpu (push i h) = Some (i, push_cpu (eflags_of h) c).
Proof. intros H. by eapply this_cpu_alter. Qed.

Lemma eflags_cases h : eflags_of h = 0 \/ eflags_of h = FL_IF.
Proof. unfold eflags_of. destruct (h_if h); auto. Qed.

Lemma runs_on_off h i c : runs_on h i c -> 0 < c_ncli c -> h_if h = false.
Proof. intros [_ [[? _]|(_ & ? & _)]]; [lia|done]. Qed.

Lemma runs_on_ncli h i c : runs_on h i c -> 0 <= c_ncli c.
Proof. intros [_ [[? _]|[? _]]]; lia. Qed.

Lemma push_runs_on h i c :
  runs_on h i c -> runs_on (push i h) i (push_cpu (eflags_of h) c).
Proof.
  intros H. split; [by apply push_this_cpu, H|]. right.
  pose proof (runs_on_ncli _ _ _ H). split_and!; [simpl; lia|done|].
  destruct H as [_ [[Hn _]|(Hn & _ & Hi)]]; cbn.
  - rewrite Hn. apply eflags_cases.
  - by rewrite (proj2 (Z.eqb_neq _ _)) by lia.
Qed.

Lemma pop_push h i c :
  runs_on h i c -> pop i (push_cpu (eflags_of h) c) (push i h) = h.
Proof.
  intros [Ht Hc]. pose proof (this_cpu_lookup _ _ _ Ht) as Hl.
  destruct h as [hi ha hc hl]. unfold pop, push, set; cbn in *. f_equal.
  - destruct Hc as [[Hn Hi]|(Hn & Hi & _)].
    + rewrite Hn, !Z.eqb_refl. simpl. by destruct hi.
    + rewrite (proj2 (Z.eqb_neq _ _)) by lia. by rewrite Hi.
  - rewrite alter_alter. eapply alter_fix; [done|].
    unfold pop_cpu, push_cpu, set; cbn.
    destruct c as [? ? ? ? ? ? n ie ?]; cbn in *. f_equal; [lia|].
    destruct Hc as [[-> ->]|[Hn _]]; [done|].
    by rewrite (proj2 (Z.eqb_neq _ _)) by lia.
Qed.

Lemma pop_after_push s i c h :
  runs_on h i c -> k_hw s = push i h -> popcli s = Done tt (s <| k_hw := h |>).
Proof.
  intros H Hs. pose proof (push_runs_on _ _ _ H) as [Ht Hc].
  pose proof (runs_on_ncli _ _ _ H).
  rewrite (popcli_run s i (push_cpu (eflags_of h) c)); [|by rewrite Hs|by rewrite Hs|simpl; lia].
  f_equal. unfold set. by rewrite Hs, (pop_push _ _ _ H).
Qed.

Lemma set_hw_same s h : k_hw s = h -> s <| k_hw := h |> = s.
Proof. intros <-. by destruct s. Qed.

Lemma set_hw_hw s : s <| k_hw := k_hw s |> = s.
Proof. by apply set_hw_same. Qed.

(** [myproc] gives the process of the running CPU and changes nothing. *)
Lemma myproc_run s i c : runs_on (k_hw s) i c -> myproc s = Done (c_proc c) s.
Proof.
  intros H. pose proof (push_runs_on _ _ _ H) as [Ht _].
  unfold myproc. erewrite bind_done by (eapply pushcli_run, H). cbv beta.
  erewrite bind_done by (eapply mycpu_run; [done|exact Ht]). cbv beta.
  erewrite bind_done by (eapply get_cpu_run, this_cpu_lookup, Ht). cbv beta.
  erewrite bind_done by (eapply pop_after_push; [exact H|done]).
  unfold mret, M_ret. f_equal. by destruct s.
Qed.

Lemma holding_run s i c lk :
  runs_on (k_hw s) i c ->
  holding lk s = Done (nz (lk_locked (lock_at (k_hw s) lk)) &&
                       bool_decide (lk_cpu (lock_at (k_hw s) lk) = Some i)) s.
Proof.
  intros H. pose proof (push_runs_on _ _ _ H) as [Ht _].
  unfold holding. erewrite bind_done by (eapply pushcli_run, H). cbv beta.
  kstep. change (lock_at (k_hw _) lk) with (lock_at (k_hw s) lk) at 1.
  set (b := nz (lk_locked (lock_at (k_hw s) lk))).
  erewrite (bind_done _ _ _ (b && bool_decide (lk_cpu (lock_at (k_hw s) lk) = Some i)));
    [|destruct b; [|done]]; cycle 1.
  { erewrite bind_done by (eapply mycpu_run; [done|exact Ht]). done. }
  cbv beta. erewrite bind_done by (eapply pop_after_push; [exact H|done]).
  unfold mret, M_ret. f_equal. by destruct s.
Qed.

Lemma xchg_run s lk v :
  let l := lock_at (k_hw s) lk in
  xchg_locked lk v s = Done (lk_locked l) (s <| k_hw ::= put_lock lk (l <| lk_locked := v |>) |>).
Proof. done. Qed.

(** A free lock is acquired at the first exchange. *)
Lemma acquire_run s i c lk :
  (0 < fuel)%nat -> runs_on (k_hw s) i c -> lock_free (k_hw s) lk ->
  acquire lk s = Done tt (s <| k_hw ::= enter i lk |>).
Proof.
  intros Hf H (l & Hl & Hl0 & Hlc). pose proof (push_runs_on _ _ _ H) as Hp.
  assert (lock_at (k_hw s) lk = l) as Hat by (unfold lock_at; by rewrite Hl).
  unfold acquire. erewrite bind_done by (eapply pushcli_run, H). cbv beta.
  erewrite bind_done by (eapply holding_run, Hp). cbv beta.
  change (lock_at (k_hw (s <| k_hw ::= push i |>)) lk) with (lock_at (k_hw s) lk).
  rewrite Hat, Hl0. change (nz 0) with false. cbv iota beta delta [andb].
  set (s1 := s <| k_hw ::= push i |>).
  set (s2 := s1 <| k_hw ::= put_lock lk (l <| lk_locked := 1 |>) |>).
  erewrite (bind_done _ _ _ tt s2); cycle 1.
  { apply loop_leave; [done|]. rewrite (bind_done _ _ _ _ _ (xchg_run _ _ _)).
    change (lock_at (k_hw s1) lk) with (lock_at (k_hw s) lk). by rewrite Hat, Hl0. }
  cbv beta. erewrite bind_done; [cbv beta|eapply (mycpu_run s2 i); [done|]].
  2: { subst s2 s1. apply Hp. }
  kstep. rewrite upd_hw_run. f_equal. subst s2 s1. unfold enter, put_lock, set; cbn.
  f_equal. f_equal. unfold lock_at; cbn. rewrite lookup_insert_eq; cbn.
  rewrite insert_insert_eq. by rewrite Hl.
Qed.

Lemma lock_at_enter h i lk : lock_at (enter i lk h) lk = Spinlock (lk_name (lock_at h lk)) 1 (Some i).
Proof. unfold lock_at, enter, put_lock; cbn. by rewrite lookup_insert_eq. Qed.

Lemma enter_runs_on h i c lk :
  runs_on h i c -> runs_on (enter i lk h) i (push_cpu (eflags_of h) c).
Proof. apply push_runs_on. Qed.

Lemma enter_free h i lk lk' : lk <> lk' -> lock_free h lk' -> lock_free (enter i lk h) lk'.
Proof.
  intros Hne (l & Hl & ?). exists l. unfold enter, put_lock; cbn. by rewrite lookup_insert_ne.
Qed.

(** Leaving a critical section restores the processor state from before it. *)
Lemma release_run s h i c lk :
  runs_on h i c -> lock_free h lk -> k_hw s = enter i lk h ->
  release lk s = Done tt (s <| k_hw := h |>).
Proof.
  intros H (l & Hl & Hl0 & Hlc) Hs. pose proof (enter_runs_on _ _ _ lk H) as He.
  unfold release. erewrite bind_done by (eapply holding_run; by rewrite Hs).
  rewrite Hs, lock_at_enter. cbn [lk_locked lk_cpu]. change (nz 1) with true.
  rewrite bool_decide_eq_true_2 by done. cbn [andb negb]. cbv beta iota.
  do 4 kstep. erewrite pop_after_push; [|exact H|]; cycle 1.
  { cbn. rewrite Hs. unfold enter, put_lock, push, set, lock_at; cbn.
    rewrite Hl; cbn. f_equal.
    repeat (rewrite ?insert_insert_eq, ?lookup_insert_eq; cbn).
    apply insert_id. rewrite Hl. destruct l; cbn in *. by subst. }
  done.
Qed.

Lemma release_held s i c lk :
  runs_on (k_hw s) i c -> 0 < c_ncli c -> lock_held (k_hw s) i lk ->
  release lk s = Done tt (s <| k_hw ::= leave i c lk |>).
Proof.
  intros Hr Hn (l & Hl & Hl1 & Hlc).
  assert (lock_at (k_hw s) lk = l) as Hat by (unfold lock_at; by rewrite Hl).
  unfold release. erewrite bind_done by (eapply holding_run, Hr). rewrite Hat, Hlc.
  rewrite bool_decide_eq_true_2 by done. unfold nz. rewrite (proj2 (Z.eqb_neq _ _) Hl1).
  cbn [andb negb]. cbv beta iota. do 4 kstep. erewrite popcli_run; [|apply Hr|by eapply runs_on_off|exact Hn].
  f_equal. unfold leave, put_lock, lock_at, set; cbn. rewrite Hl; cbn.
  repeat (rewrite ?insert_insert_eq, ?lookup_insert_eq; cbn). done.
Qed.

Lemma leave_free h i c lk : lock_free (leave i c lk h) lk.
Proof. eexists. unfold leave, put_lock; cbn. by rewrite lookup_insert_eq. Qed.

Lemma leave_locks h i c lk lk' : lk <> lk' -> h_locks (leave i c lk h) !! lk' = h_locks h !! lk'.
Proof. intros. unfold leave, put_lock; cbn. by rewrite lookup_insert_ne. Qed.

Lemma leave_other_free h i c lk lk' : lk <> lk' -> lock_free h lk' -> lock_free (leave i c lk h) lk'.
Proof. intros Hne (l & Hl & ?). exists l. by rewrite leave_locks. Qed.

Lemma pop_runs_on h i c :
  runs_on h i c -> 0 < c_ncli c -> runs_on (pop i c h) i (pop_cpu c).
Proof.
  intros [Ht [[? _]|(Hn & Hif & Hi)]] Hp; [lia|]. split; [by eapply this_cpu_alter|]. cbn.
  destruct (decide (c_ncli c = 1)) as [H1|H1].
  - left. rewrite H1. split; [done|]. unfold eflags_of; cbn. destruct Hi as [Hi|Hi]; by rewrite Hi.
  - right. rewrite (proj2 (Z.eqb_neq _ _) H1). split_and!; [lia|done|done].
Qed.

Lemma leave_runs_on h i c lk :
  runs_on h i c -> 0 < c_ncli c -> runs_on (leave i c lk h) i (pop_cpu c).
Proof. intros H. by apply pop_runs_on. Qed.

Lemma push_intena h i c : runs_on h i c -> c_intena (push_cpu (eflags_of h) c) = c_intena c.
Proof.
  intros [_ [[Hn Hi]|(Hn & _)]]; cbn.
  - by rewrite Hn, Hi.
  - by rewrite (proj2 (Z.eqb_neq _ _)) by lia.
Qed.

(** An update of the running CPU that keeps its nesting and interrupt fields. *)
Lemma alter_runs_on h i c f :
  runs_on h i c -> c_apicid (f c) = c_apicid c -> c_ncli (f c) = c_ncli c ->
  c_intena (f c) = c_intena c -> runs_on (h <| h_cpus ::= alter f i |>) i (f c).
Proof.
  intros [Ht Hc] Ha Hn Hi. split; [by eapply this_cpu_alter|]. by rewrite Hn, Hi.
Qed.

Lemma enter_locks h i lk lk' : lk <> lk' -> h_locks (enter i lk h) !! lk' = h_locks h !! lk'.
Proof. intros. unfold enter, put_lock; cbn. by rewrite lookup_insert_ne. Qed.

Lemma enter_held h i lk : lock_held (enter i lk h) i lk.
Proof. eexists. unfold enter, put_lock; cbn. by rewrite lookup_insert_eq. Qed.

(** The rule for critical sections.  [h] is the processor state inside: the same
    CPU runs, with the same process, every other lock is as free as before, and
    [release] gives back the processor state from before. *)
Lemma critical_section s i c lk :
  (0 < fuel)%nat -> runs_on (k_hw s) i c -> lock_free (k_hw s) lk ->
  exists h c',
    acquire lk s = Done tt (s <| k_hw := h |>)
    /\ runs_on h i c' /\ c_proc c' = c_proc c
    /\ (forall lk', lk <> lk' -> lock_free (k_hw s) lk' -> lock_free h lk')
    /\ lock_held h i lk
    /\ (forall s', k_hw s' = h -> release lk s' = Done tt (s' <| k_hw := k_hw s |>)).
Proof.
  intros Hf Hr Hl. exists (enter i lk (k_hw s)), (push_cpu (eflags_of (k_hw s)) c). split_and!.
  - by eapply acquire_run.
  - by apply enter_runs_on.
  - done.
  - intros; by apply enter_free.
  - apply enter_held.
  - intros s' Hs'. by eapply release_run.
Qed.

Lemma lock_section s lk :
  (0 < fuel)%nat -> cli_ok (k_hw s) -> lock_free (k_hw s) lk ->
  exists h, acquire lk s = Done tt (s <| k_hw := h |>)
    /\ cli_ok h
    /\ (forall lk', lk <> lk' -> lock_free (k_hw s) lk' -> lock_free h lk')
    /\ (forall s', k_hw s' = h -> release lk s' = Done tt (s' <| k_hw := k_hw s |>)).
Proof.
  intros Hf (i & c & Hr) Hl.
  destruct (critical_section s i c lk Hf Hr Hl) as (h & c' & Ha & Hr' & _ & Ho & _ & Hrel).
  exists h. split_and!; [done|by exists i, c'|done..].
Qed.

(** Entering the same lock again from the same processor state. *)
Lemma lock_again s lk h s' :
  (0 < fuel)%nat -> cli_ok (k_hw s) -> lock_free (k_hw s) lk ->
  acquire lk s = Done tt (s <| k_hw := h |>) -> k_hw s' = k_hw s ->
  acquire lk s' = Done tt (s' <| k_hw := h |>).
Proof.
  intros Hf (i & c & Hr) Hl Ha Hs. rewrite (acquire_run s i c) in Ha by done.
  rewrite (acquire_run s' i c); [|done|by rewrite Hs..].
  injection Ha as Hh. f_equal. unfold set. by rewrite Hs, Hh.
Qed.

Lemma waits_bind {A B} lk I (Q : kernel -> kres yield_point kernel A -> Prop) (Q' : kernel -> kres yield_point kernel B -> Prop) (f : A -> K B) n : forall j r,
  waits lk j I Q n r -> (forall s r, I s -> Q s r -> Q' s (kbind r f)) -> waits lk j I Q' n (kbind r f).
Proof.
  induction n as [|n IH]; intros j r (s & k & -> & Hj & HI & H) HQ; exists s, (fun s' => kbind (k s') f); (split; [done|split; [done|split; [done|]]]).
  - intros s'. destruct (H s') as [s'' ->]. by exists s''.
  - intros s' HI'. destruct (H s' HI') as [H1 H2]. split; [intros j' Ht; apply IH; auto|intros Hl; apply HQ; auto].
Qed.

(** The loop of [acquire], from a state in which the lock is taken. *)
Lemma spin_waits {A} lk I (Q : kernel -> kres yield_point kernel A -> Prop) (f : unit -> K A) n : forall j s,
  lock_held (k_hw s) j lk -> I s ->
  (forall s l, I s -> h_locks (k_hw s) !! lk = Some l -> I (s <| k_hw ::= put_lock lk (l <| lk_locked := 1 |>) |>)) ->
  (forall s l, I s -> h_locks (k_hw s) !! lk = Some l -> lk_locked l = 0 -> Q s (f tt (s <| k_hw ::= put_lock lk (l <| lk_locked := 1 |>) |>))) ->
  waits lk j I Q n ((loop (S n) (old ← xchg_locked lk 1 ; if nz old then yield_to (Y_spin lk) ;; mret None else mret (Some tt)) ≫= f) s).
Proof.
  set (body := old ← xchg_locked lk 1 ; _). assert (forall s l, h_locks (k_hw s) !! lk = Some l -> lock_at (k_hw s) lk = l) as Hat by (intros s l Hl; unfold lock_at; by rewrite Hl).
  induction n as [|n IH]; intros j s (l & Hl & Hl1 & Hlj) HI Hkeep HQ; set (s1 := s <| k_hw ::= put_lock lk (l <| lk_locked := 1 |>) |>);
    assert (body s = Yield (Y_spin lk) s1 (fun s' => Done None s')) as Hb by (unfold body; rewrite (bind_done _ _ _ _ _ (xchg_run _ _ _)), (Hat s l Hl), (proj2 (nz_true _) Hl1); done);
    rewrite loop_S; rewrite (bind_yield _ _ _ _ _ _ (bind_yield _ _ _ _ _ _ Hb)); eexists _, _; (split; [done|]);
    (split; [exists (l <| lk_locked := 1 |>); cbn; by rewrite lookup_insert_eq|]); (split; [by apply Hkeep|]); intros s'; cbn [kbind].
  - by exists s'.
  - intros HI'. split; [intros j' Ht; apply IH; done|]. intros (l' & Hl' & Hl0 & _).
    assert (loop (S n) body s' = Done tt (s' <| k_hw ::= put_lock lk (l' <| lk_locked := 1 |>) |>)) as Hd; [|rewrite Hd; cbn [kbind]; by apply HQ].
    apply loop_leave; [lia|]. unfold body. by rewrite (bind_done _ _ _ _ _ (xchg_run _ _ _)), (Hat s' l' Hl'), Hl0.
Qed.

(** [acquire] of a lock of another CPU; [I] says what the others leave alone meanwhile. *)
Lemma acquire_waits s i j c lk (I : kernel -> Prop) :
  (0 < fuel)%nat -> runs_on (k_hw s) i c -> lock_held (k_hw s) j lk -> i <> j -> I (s <| k_hw ::= push i |>) ->
  (forall s l, I s -> h_locks (k_hw s) !! lk = Some l -> I (s <| k_hw ::= put_lock lk (l <| lk_locked := 1 |>) |>)) ->
  (forall s, I s -> spinning i s) ->
  waits lk j I (fun s r => r = Done tt (s <| k_hw ::= take_lock i lk |>)) (fuel - 1) (acquire lk s).
Proof.
  intros Hf Hr (l & Hl & Hl1 & Hlc) Hij HI Hkeep Hcpu. pose proof (push_runs_on _ _ _ Hr) as Hp.
  assert (lock_at (k_hw s) lk = l) as Hat by (unfold lock_at; by rewrite Hl).
  unfold acquire. erewrite bind_done by (eapply pushcli_run, Hr). cbv beta.
  erewrite bind_done by (eapply holding_run, Hp). cbv beta.
  change (lock_at (k_hw (s <| k_hw ::= push i |>)) lk) with (lock_at (k_hw s) lk).
  rewrite Hat, Hlc, bool_decide_eq_false_2, andb_false_r by congruence. cbv match.
  replace fuel with (S (fuel - 1)) at 2 by lia. apply spin_waits; [by exists l|done|done|].
  intros s' l' HI' Hl' Hl'0. destruct (Hcpu s' HI') as (c' & Hr' & Hn'). set (s2 := s' <| k_hw ::= _ |>).
  rewrite (bind_done _ _ _ _ _ (mycpu_run s2 i c' (runs_on_off _ _ _ Hr' Hn') (proj1 Hr'))). cbv beta.
  kapply get_hw_run. rewrite upd_hw_run. f_equal. unfold s2. rewrite set_set. apply set_ext. unfold take_lock, put_lock, lock_at, set; cbn.
  rewrite lookup_insert_eq, insert_insert_eq, Hl'. by destruct l'.
Qed.

(** A CPU that acquires a lock it holds panics. *)
Lemma acquire_held s i c lk :
  runs_on (k_hw s) i c -> lock_held (k_hw s) i lk ->
  exists s', acquire lk s = Stop (Panicked "acquire") s'.
Proof.
  intros Hr (l & Hl & Hl1 & Hlc). pose proof (push_runs_on _ _ _ Hr) as Hp.
  unfold acquire. erewrite bind_done by (eapply pushcli_run, Hr). cbv beta.
  erewrite bind_done by (eapply holding_run, Hp). cbv beta.
  change (lock_at (k_hw (s <| k_hw ::= push i |>)) lk) with (lock_at (k_hw s) lk).
  unfold lock_at. rewrite Hl. cbn [default from_option id].
  rewrite Hlc, bool_decide_eq_true_2 by done. unfold nz. rewrite (proj2 (Z.eqb_neq _ _) Hl1).
  eexists. reflexivity.
Qed.

(** *** Invariants that do not depend on the processor state *)

Section keeps.
Context (I : kernel -> Prop) `{!Frame k_hw I}.

Lemma keeps_get_hw {T} (f : hw -> T) : keeps I (get_hw f).
Proof. unfold get_hw. keeps. Qed.

Lemma keeps_upd_hw f : keeps I (upd_hw f).
Proof. unfold upd_hw. keeps. Qed.

#[local] Hint Resolve keeps_get_hw keeps_upd_hw : keeps.

Lemma keeps_mycpu : keeps I mycpu.
Proof. unfold mycpu, readeflags. keeps. Qed.

Lemma keeps_get_cpu i : keeps I (get_cpu i).
Proof. unfold get_cpu. keeps. Qed.

Lemma keeps_upd_cpu i f : keeps I (upd_cpu i f).
Proof. apply keeps_upd_hw. Qed.

#[local] Hint Resolve keeps_mycpu keeps_get_cpu keeps_upd_cpu : keeps.

Lemma keeps_pushcli : keeps I pushcli.
Proof. unfold pushcli, readeflags, cli. keeps. Qed.

Lemma keeps_popcli : keeps I popcli.
Proof. unfold popcli, readeflags, sti. keeps. Qed.

#[local] Hint Resolve keeps_pushcli keeps_popcli : keeps.

Lemma keeps_myproc : keeps I myproc.
Proof. unfold myproc. keeps. Qed.

Lemma keeps_holding lk : keeps I (holding lk).
Proof. unfold holding. keeps. Qed.

#[local] Hint Resolve keeps_holding : keeps.

Lemma keeps_acquire lk : keeps I (acquire lk).
Proof. unfold acquire, xchg_locked. keeps. Qed.

Lemma keeps_release lk : keeps I (release lk).
Proof. unfold release. keeps. Qed.

Lemma keeps_initlock lk name : keeps I (initlock lk name).
Proof. unfold initlock. keeps. Qed.

End keeps.
End rules.

#[export] Hint Resolve keeps_get_hw keeps_upd_hw keeps_mycpu keeps_get_cpu keeps_upd_cpu
  keeps_pushcli keeps_popcli keeps_myproc keeps_holding keeps_acquire keeps_release
  keeps_initlock : keeps.

(** ** Properties *)

Section properties.
Context {E : Env}.

Lemma pop_times n s h i c :
  runs_on h i c -> k_hw s = Nat.iter n (push i) h -> times n popcli s = Done tt (s <| k_hw := h |>).
Proof.
  revert s h c. induction n as [|n IH]; intros s h c Hr Hs; cbn [times].
  { unfold mret, M_ret. by rewrite set_hw_same. }
  rewrite Nat.iter_succ_r in Hs.
  assert (exists h1 c1, runs_on h1 i c1 /\ k_hw s = push i h1 /\ h1 = Nat.iter n (push i) h) as (h1 & c1 & Hr1 & Hs1 & Hh1).
  { rewrite <- Nat.iter_succ_r in Hs. cbn in Hs. exists (Nat.iter n (push i) h).
    enough (exists c1, runs_on (Nat.iter n (push i) h) i c1) as [c1 ?] by eauto.
    clear Hs IH. induction n as [|n [c1 Hc1]]; [by exists c|]. eexists. cbn. by apply push_runs_on. }
  erewrite bind_done by (by eapply pop_after_push). rewrite (IH _ h c); [|done|done].
  by destruct s.
Qed.

(** [pushcli] and [popcli] nest: after any number of [pushcli] and
    as many [popcli] the processor state is what it was, interrupt flag included,
    and in between interrupts are off. *)
Theorem pushcli_popcli_nest n s i c :
  runs_on (k_hw s) i c ->
  exists s1, times n pushcli s = Done tt s1 /\ ((0 < n)%nat -> h_if (k_hw s1) = false)
    /\ times n popcli s1 = Done tt s.
Proof.
  intros Hr. assert (forall m s c, runs_on (k_hw s) i c ->
    times m pushcli s = Done tt (s <| k_hw ::= Nat.iter m (push i) |>)) as Hpush.
  { induction m as [|m IH]; intros s' c' Hr'; cbn [times]; [by destruct s'|].
    erewrite bind_done by (eapply pushcli_run, Hr').
    erewrite IH by (cbn; by apply push_runs_on). f_equal. rewrite set_set. apply set_ext.
    by rewrite <- Nat.iter_succ_r. }
  eexists. split; [by eapply Hpush|]. split.
  - intros Hn. destruct n; [lia|]. done.
  - rewrite (pop_times n _ (k_hw s) i c Hr) by done. by destruct s.
Qed.

(** C22: a critical section. A free lock is acquired without spinning, with
    interrupts off and every other lock as it was; whatever the section does to
    the rest of the kernel, [release] then restores the processor state and the
    lock exactly; while it is held, acquiring it again on the same CPU panics. *)
Theorem critical_section_restores s i c lk :
  (0 < fuel)%nat -> runs_on (k_hw s) i c -> lock_free (k_hw s) lk ->
  exists h, acquire lk s = Done tt (s <| k_hw := h |>)
    /\ h_if h = false /\ lock_held h i lk
    /\ (forall lk', lk <> lk' -> h_locks h !! lk' = h_locks (k_hw s) !! lk')
    /\ (forall s', k_hw s' = h -> release lk s' = Done tt (s' <| k_hw := k_hw s |>))
    /\ (exists s', acquire lk (s <| k_hw := h |>) = Stop (Panicked "acquire") s').
Proof.
  intros Hf Hr Hl. exists (enter i lk (k_hw s)). split_and!.
  - by eapply acquire_run.
  - done.
  - apply enter_held.
  - intros. by apply enter_locks.
  - intros s' Hs'. by eapply release_run.
  - eapply acquire_held; [apply enter_runs_on, Hr|apply enter_held].
Qed.

(** C23: mutual exclusion. [acquire] of a lock another CPU holds does not
    return while the lock is taken: it waits, and each time it is resumed with the lock
    still taken, by whichever CPU, it waits again, until its fuel ends; resumed with the
    lock free, it returns with the lock held by its CPU and nothing else changed. *)
Theorem acquire_waits_for_holder s i j c lk :
  (0 < fuel)%nat -> runs_on (k_hw s) i c -> lock_held (k_hw s) j lk -> i <> j ->
  waits lk j (spinning i) (fun s r => r = Done tt (s <| k_hw ::= take_lock i lk |>)) (fuel - 1) (acquire lk s).
Proof.
  intros Hf Hr Hl Hij. eapply acquire_waits; [done|exact Hr|exact Hl|done|..].
  - exists (push_cpu (eflags_of (k_hw s)) c). split; [by apply push_runs_on|]. destruct Hr as [_ [[H _]|[H _]]]; cbn; lia.
  - intros s1 l (c1 & Hr1 & Hn1) _. by exists c1.
  - intros s1 (c1 & Hr1 & Hn1). by exists c1.
Qed.
End properties.
