(* ===== verification/Console.v ===== *)
(** The output half of console.c and uart.c: [uartputc], [cgaputc], [consputc],
    [printint] and [cprintf].

    [cprintf] is a sequence of [consputc] calls under [cons.lock]; [printed] says which
    text a format stands for, and [emits] relates the console before and after some text
    was printed: the serial port got the text, the screen shows it at the cursor, in
    lines of 80 cells of which the last 24 are seen, and the input ring is untouched. *)
From S2P Require Import Prelude Kernel Spinlock.

(** The bytes of a string literal. *)
Fixpoint cstr (s : string) : list Z :=
  match s with
  | EmptyString => []
  | String a s' => Z.of_nat (Ascii.nat_of_ascii a) :: cstr s'
  end.

Abbreviation BACKSPACE := 0x100 (only parsing).

(** An argument of [cprintf]: a word, or a pointer to a string, possibly null. *)
Inductive carg : Type := AInt (w : Z) | AStr (s : option (list Z)).

Section console.
Context {E : Env}.

Definition get_cons {T} (f : console -> T) : K T := gets (fun s => f (k_cons s)).
Definition upd_cons (f : console -> console) : K unit := modify (fun s => s <| k_cons ::= f |>).

(** The wait for the transmitter ends after at most 128 status reads whatever
    they say, and has no other effect. *)
Definition uartputc (c : Z) : K unit :=
  uart ← get_cons cs_uart ;
  if negb (nz uart) then mret tt else
  upd_cons (fun cs => cs <| cs_serial ::= fun l => l ++ [u8 c] |>).

(** [crt[i] = v] *)
Definition crt_write (i v : Z) : K unit :=
  crt ← get_cons cs_crt ;
  if (0 <=? i) && (i <? Z.of_nat (length crt))
  then upd_cons (fun cs => cs <| cs_crt ::= <[Z.to_nat i := v]> |>)
  else fault "crt".

(** [memmove(crt, crt+80, ...)] then [memset(crt+pos, 0, ...)] when the screen
    scrolls; [pos] is the cursor after the scroll. *)
Definition crt_scroll (pos : Z) (crt : list Z) : list Z :=
  let moved := take (23 * 80) (drop 80 crt) ++ drop (23 * 80) crt in
  take (Z.to_nat pos) moved ++ replicate (24 * 80 - Z.to_nat pos) 0 ++ drop (24 * 80) moved.

(** [cgaputc] up to the range check: the new cursor position. *)
Definition cga_place (c : Z) : K Z :=
  pos ← get_cons cs_pos ;
  if c =? 10 then mret (pos + (80 - pos mod 80))
  else if c =? BACKSPACE then mret (if 0 <? pos then pos - 1 else pos)
  else crt_write pos (Z.lor (Z.land c 0xff) 0x0700) ;; mret (pos + 1).

(** [cgaputc] after the range check: scroll, write the cursor register, and clear
    the cell under the cursor. *)
Definition cga_show (pos : Z) : K unit :=
  pos ← (if 24 <=? pos / 80
         then upd_cons (fun cs => cs <| cs_crt ::= crt_scroll (pos - 80) |>) ;; mret (pos - 80)
         else mret pos) ;
  upd_cons (fun cs => cs <| cs_pos := u16 pos |>) ;;
  crt_write pos (Z.lor 32 0x0700).

Definition cgaputc (c : Z) : K unit :=
  pos ← cga_place c ;
  if (pos <? 0) || (25 * 80 <? pos) then panic "pos under/overflow" else cga_show pos.

Definition consputc (c : Z) : K unit :=
  panicked ← get_cons cs_panicked ;
  if nz panicked then cli ;; stop_with Hung else
  (if c =? BACKSPACE then uartputc 8 ;; uartputc 32 ;; uartputc 8 else uartputc c) ;;
  cgaputc c.

(** The digits of [x], most significant last, as [printint] collects them. *)
Definition digits : list Z := cstr "0123456789abcdef".
Fixpoint digits_rev (n : nat) (ds : list Z) (x base : Z) : list Z :=
  match n with
  | O => []
  | S n' =>
      default 0 (ds !! Z.to_nat (x mod base)) ::
      (if x / base =? 0 then [] else digits_rev n' ds (x / base) base)
  end.

(** What [printint] leaves in [buf], in the order in which it fills it. *)
Definition printint_buf (ds : list Z) (xx base : Z) (sign : bool) : list Z :=
  let neg := sign && (xx <? 0) in
  let x := if neg then u32 (- xx) else u32 xx in
  digits_rev 32 ds x base ++ (if neg then [45] else []).

Definition printint (xx base : Z) (sign : bool) : K unit :=
  let b := printint_buf digits xx base sign in
  if (16 <? Z.of_nat (length b)) then fault "printint: buf" else
  for_each (reverse b) consputc.

Definition put_string (s : list Z) : K unit := for_each s consputc.

Fixpoint cprintf_loop (fmt : list Z) (args : list carg) : K unit :=
  match fmt with
  | [] => mret tt
  | c :: fmt1 =>
      if negb (c =? 37) then consputc c ;; cprintf_loop fmt1 args else
      match fmt1 with
      | [] => mret tt
      | c :: fmt2 =>
          if c =? 100 then
            match args with
            | AInt w :: args' => printint (i32 w) 10 true ;; cprintf_loop fmt2 args'
            | _ => fault "cprintf argument"
            end
          else if (c =? 120) || (c =? 112) then
            match args with
            | AInt w :: args' => printint (i32 w) 16 false ;; cprintf_loop fmt2 args'
            | _ => fault "cprintf argument"
            end
          else if c =? 115 then
            match args with
            | AStr o :: args' =>
                put_string (default (cstr "(null)") o) ;; cprintf_loop fmt2 args'
            | _ => fault "cprintf argument"
            end
          else if c =? 37 then consputc 37 ;; cprintf_loop fmt2 args
          else consputc 37 ;; consputc c ;; cprintf_loop fmt2 args
      end
  end.

Definition cprintf (fmt : string) (args : list carg) : K unit :=
  locking ← get_cons cs_locking ;
  when (nz locking) (acquire L_cons) ;;
  cprintf_loop (cstr fmt) args ;;
  when (nz locking) (release L_cons).

End console.

(** ** What is printed *)

(** [l] writes the number [x] in the base: its digits from the highest on, without leading
    zeros; and the number in decimal, with its sign. *)
Definition digit_char (d : Z) : Z := if d <? 10 then 48 + d else 97 + (d - 10).
Definition value (base : Z) (ds : list Z) : Z := foldl (fun v d => v * base + d) 0 ds.
Definition numeral (base x : Z) (l : list Z) : Prop :=
  exists ds, l = map digit_char ds /\ Forall (fun d => 0 <= d < base) ds /\ ds <> [] /\ (head ds = Some 0 -> ds = [0]) /\ value base ds = x.
Definition decimal (x : Z) (l : list Z) : Prop :=
  if decide (x < 0) then exists l', l = 45 :: l' /\ numeral 10 (- x) l' else numeral 10 x l.

(** The format and the arguments stand for a text. *)
Inductive printed : list Z -> list carg -> list Z -> Prop :=
| pr_nil args : printed [] args []
| pr_last args : printed [37] args []
| pr_char c fmt args out : c <> 37 -> printed fmt args out -> printed (c :: fmt) args (c :: out)
| pr_d w l fmt args out : decimal (i32 w) l -> printed fmt args out -> printed (37 :: 100 :: fmt) (AInt w :: args) (l ++ out)
| pr_x c w l fmt args out : c = 120 \/ c = 112 -> numeral 16 (u32 w) l -> printed fmt args out -> printed (37 :: c :: fmt) (AInt w :: args) (l ++ out)
| pr_s l fmt args out : printed fmt args out -> printed (37 :: 115 :: fmt) (AStr (Some l) :: args) (l ++ out)
| pr_null fmt args out : printed fmt args out -> printed (37 :: 115 :: fmt) (AStr None :: args) (cstr "(null)" ++ out)
| pr_percent fmt args out : printed fmt args out -> printed (37 :: 37 :: fmt) args (37 :: out)
| pr_other c fmt args out : ~ c ∈ [100; 120; 112; 115; 37] -> printed fmt args out -> printed (37 :: c :: fmt) args (37 :: c :: out).

(** The text as [cprintf] computes it. *)
Fixpoint cformat (fmt : list Z) (args : list carg) : list Z :=
  match fmt with
  | [] => []
  | c :: fmt1 =>
      if negb (c =? 37) then c :: cformat fmt1 args else
      match fmt1 with
      | [] => []
      | c :: fmt2 =>
          if c =? 100 then
            match args with
            | AInt w :: args' => reverse (printint_buf digits (i32 w) 10 true) ++ cformat fmt2 args'
            | _ => []
            end
          else if (c =? 120) || (c =? 112) then
            match args with
            | AInt w :: args' => reverse (printint_buf digits (i32 w) 16 false) ++ cformat fmt2 args'
            | _ => []
            end
          else if c =? 115 then
            match args with
            | AStr o :: args' => default (cstr "(null)") o ++ cformat fmt2 args'
            | _ => []
            end
          else if c =? 37 then 37 :: cformat fmt2 args
          else 37 :: c :: cformat fmt2 args
      end
  end.

(** The arguments match the conversions of the format. *)
Fixpoint args_ok (fmt : list Z) (args : list carg) : bool :=
  match fmt with
  | [] => true
  | c :: fmt1 =>
      if negb (c =? 37) then args_ok fmt1 args else
      match fmt1 with
      | [] => true
      | c :: fmt2 =>
          if (c =? 100) || (c =? 120) || (c =? 112) then
            match args with AInt _ :: args' => args_ok fmt2 args' | _ => false end
          else if c =? 115 then
            match args with AStr _ :: args' => args_ok fmt2 args' | _ => false end
          else args_ok fmt2 args
      end
  end.

(** The cursor is on the screen, and the screen memory covers it. *)
Definition cons_ok (cs : console) : Prop :=
  0 <= cs_pos cs < 24 * 80 /\ 25 * 80 <= Z.of_nat (length (cs_crt cs)) /\ cs_panicked cs = 0.

(** The bytes [consputc c] sends to the serial port. *)
Definition serial_bytes (c : Z) : list Z :=
  if c =? BACKSPACE then [8; 32; 8] else [u8 c].

(** A screen of 24 lines of 80 cells: the lines above that of the cursor, those that have
    left the screen included, and the cells before the cursor. *)
Record screen := Screen { sc_above : list (list Z); sc_line : list Z }.
(** A cell: the attribute and the character. *)
Definition cell (c : Z) : Z := 0x0700 + u8 c.
Definition type_char (sc : screen) (c : Z) : screen :=
  if c =? 10 then Screen (sc_above sc ++ [sc_line sc]) []
  else let line := sc_line sc ++ [cell c] in
       if (length line <? 80)%nat then Screen (sc_above sc) line else Screen (sc_above sc ++ [line]) [].
Definition window (sc : screen) : list (list Z) := drop (length (sc_above sc) - 23) (sc_above sc) ++ [sc_line sc].

(** The memory of the screen has the cells of the lines in the window. *)
Definition cells (crt : list Z) (sc : screen) : Prop :=
  forall i line j w, window sc !! i = Some line -> line !! j = Some w -> (j < 80)%nat /\ crt !! (80 * i + j)%nat = Some w.
Record shows (cs : console) (sc : screen) : Prop := Shows {
  sh_line : (length (sc_line sc) < 80)%nat;
  sh_cursor : cs_pos cs = Z.of_nat (80 * (length (window sc) - 1) + length (sc_line sc));
  sh_cells : cells (cs_crt cs) sc
}.

(** The console after [ser] was sent to the serial port and [scr] to the screen. *)
Record sends (ser scr : list Z) (cs cs' : console) : Prop := Sends {
  em_ok : cons_ok cs';
  em_serial : cs_serial cs' =
    cs_serial cs ++ (if nz (cs_uart cs) then concat (map serial_bytes ser) else []);
  em_screen : Forall (fun c => c <> BACKSPACE) scr -> forall sc, shows cs sc -> shows cs' (foldl type_char sc scr);
  em_locking : cs_locking cs' = cs_locking cs;
  em_uart : cs_uart cs' = cs_uart cs;
  em_input : cs_buf cs' = cs_buf cs /\ cs_r cs' = cs_r cs /\ cs_w cs' = cs_w cs /\ cs_e cs' = cs_e cs
}.
Definition emits (out : list Z) : console -> console -> Prop := sends out out.

(** *** The screen *)

Lemma lor_attr c : Z.lor (Z.land c 0xff) 0x0700 = cell c.
Proof.
  assert (Forall (fun x => Z.lor x 0x0700 = 0x0700 + x) (seqZ 0 256)) as H by (apply (bool_decide_unpack _); vm_compute; exact I).
  unfold cell, u8. change 0xff with (Z.ones 8). rewrite Z.land_ones by lia. change (2 ^ 8) with 256.
  rewrite Forall_forall in H. apply H, elem_of_seqZ. pose proof (Z.mod_pos_bound c 256). lia.
Qed.

Lemma length_window sc : length (window sc) = S (length (sc_above sc) `min` 23).
Proof. unfold window. rewrite length_app, length_drop. cbn. lia. Qed.

Lemma cells_insert crt sc k v :
  cells crt sc -> (forall i line j, window sc !! i = Some line -> (j < length line)%nat -> (80 * i + j)%nat <> k) -> cells (<[k := v]> crt) sc.
Proof.
  intros H Hk i line j w Hi Hj. destruct (H i line j w Hi Hj) as [Hlt Hc]. split; [done|].
  rewrite list_lookup_insert_ne; [done|]. intros Heq. eapply Hk; [done|by eapply lookup_lt_Some|done].
Qed.

(** The cell at the cursor is none of those before it. *)
Lemma cursor_apart crt sc i line j :
  cells crt sc -> window sc !! i = Some line -> (j < length line)%nat -> (80 * i + j < 80 * (length (window sc) - 1) + length (sc_line sc))%nat.
Proof.
  intros H Hi Hj. destruct (lookup_lt_is_Some_2 line j Hj) as [w Hw]. destruct (H i line j w Hi Hw) as [Hlt _].
  pose proof (lookup_lt_Some _ _ _ Hi) as Hlen. unfold window in Hi, Hlen |- *. rewrite length_app in Hlen |- *. cbn [length] in Hlen |- *.
  apply lookup_snoc_Some in Hi as [[Hi _]|[-> ->]]; lia.
Qed.

(** The line of the cursor ends, on a screen with room for another. *)
Lemma cells_next crt above line :
  cells crt (Screen above line) -> (length above < 23)%nat -> cells (<[(80 * S (length above))%nat := Z.lor 32 0x0700]> crt) (Screen (above ++ [line]) []).
Proof.
  intros H Hlen. assert (window (Screen (above ++ [line]) []) = window (Screen above line) ++ [[]]) as Hw.
  { unfold window. cbn [sc_above sc_line]. rewrite length_app. cbn [length]. replace (length above + 1 - 23)%nat with 0%nat by lia. replace (length above - 23)%nat with 0%nat by lia. done. }
  apply cells_insert.
  - intros i l j w Hi Hj. rewrite Hw in Hi. apply lookup_snoc_Some in Hi as [[_ Hi]|[_ <-]]; [by apply (H i l)|done].
  - intros i l j Hi Hj. rewrite Hw in Hi. apply lookup_snoc_Some in Hi as [[_ Hi]|[_ <-]]; [|cbn in Hj; lia].
    destruct (lookup_lt_is_Some_2 l j Hj) as [w Hjw]. destruct (H i l j w Hi Hjw) as [Hlt _]. apply lookup_lt_Some in Hi. rewrite length_window in Hi. cbn in Hi. lia.
Qed.

Lemma lookup_crt_scroll crt k : (25 * 80 <= length crt)%nat -> (k < 23 * 80)%nat -> crt_scroll (23 * 80) crt !! k = crt !! (80 + k)%nat.
Proof.
  intros Hlen Hk. unfold crt_scroll. cbv zeta. change (Z.to_nat (23 * 80)) with (23 * 80)%nat.
  assert (length (take (23 * 80) (drop 80 crt)) = 23 * 80)%nat as Hl by (rewrite length_take, length_drop; lia).
  rewrite lookup_app_l by (rewrite length_take, length_app, Hl; lia). rewrite lookup_take_lt by done.
  rewrite lookup_app_l by lia. by rewrite lookup_take_lt, lookup_drop by done.
Qed.

(** The same on a full screen, which scrolls. *)
Lemma cells_scroll crt above line :
  cells crt (Screen above line) -> (23 <= length above)%nat -> (25 * 80 <= length crt)%nat ->
  cells (<[(23 * 80)%nat := Z.lor 32 0x0700]> (crt_scroll (23 * 80) crt)) (Screen (above ++ [line]) []).
Proof.
  intros H Hlen Hcrt. assert (window (Screen (above ++ [line]) []) = drop 1 (window (Screen above line)) ++ [[]]) as Hw.
  { unfold window. cbn [sc_above sc_line]. rewrite length_app. cbn [length]. replace (length above + 1 - 23)%nat with (length above - 23 + 1)%nat by lia.
    rewrite <- drop_drop. f_equal. rewrite (drop_app_le above) by lia. done. }
  assert (length (window (Screen above line)) = 24)%nat as Hl by (rewrite length_window; cbn; lia).
  assert (forall i l j w, window (Screen (above ++ [line]) []) !! i = Some l -> l !! j = Some w -> (i < 23)%nat /\ (j < 80)%nat /\ crt !! (80 * S i + j)%nat = Some w) as Hc.
  { intros i l j w Hi Hj. rewrite Hw in Hi. apply lookup_snoc_Some in Hi as [[Hlt Hi]|[_ <-]]; [|done]. rewrite length_drop, Hl in Hlt.
    rewrite lookup_drop in Hi. destruct (H _ l j w Hi Hj). split_and!; [lia|done|done]. }
  apply cells_insert.
  - intros i l j w Hi Hj. destruct (Hc i l j w Hi Hj) as (Hi23 & Hj80 & Hcw). split; [done|]. rewrite lookup_crt_scroll by lia. rewrite <- Hcw. f_equal. lia.
  - intros i l j Hi Hj. destruct (lookup_lt_is_Some_2 l j Hj) as [w Hjw]. destruct (Hc i l j w Hi Hjw) as (Hi23 & Hj80 & _). lia.
Qed.

(** Every screen shows what is in its memory. *)
Lemma shows_something cs : cons_ok cs -> exists sc, shows cs sc.
Proof.
  intros (Hp & Hl & _). exists (Screen (replicate (Z.to_nat (cs_pos cs / 80)) []) (take (Z.to_nat (cs_pos cs mod 80)) (drop (80 * Z.to_nat (cs_pos cs / 80)) (cs_crt cs)))).
  pose proof (Z.mod_pos_bound (cs_pos cs) 80 ltac:(lia)). pose proof (Z.div_mod (cs_pos cs) 80 ltac:(lia)). assert (0 <= cs_pos cs / 80 < 24) by lia.
  assert (length (take (Z.to_nat (cs_pos cs mod 80)) (drop (80 * Z.to_nat (cs_pos cs / 80)) (cs_crt cs))) = Z.to_nat (cs_pos cs mod 80)) as Hlen by (rewrite length_take, length_drop; lia).
  split; cbn [sc_line].
  - lia.
  - rewrite length_window, Hlen. cbn [sc_above]. rewrite length_replicate. lia.
  - intros i line j w Hi Hj. unfold window in Hi. cbn [sc_above sc_line] in Hi. rewrite length_replicate in Hi.
    replace (Z.to_nat (cs_pos cs / 80) - 23)%nat with 0%nat in Hi by lia. rewrite drop_0 in Hi. apply lookup_snoc_Some in Hi as [[_ Hi]|[-> <-]].
    + apply lookup_replicate in Hi as [-> _]. done.
    + rewrite length_replicate. pose proof (lookup_lt_Some _ _ _ Hj). split; [lia|]. rewrite lookup_take_lt in Hj by lia. by rewrite lookup_drop in Hj.
Qed.

Section output.
Context {E : Env}.

Lemma emits_nil cs : cons_ok cs -> emits [] cs cs.
Proof. intros H. split; try done. destruct (nz _); simpl; by rewrite app_nil_r. Qed.

Lemma sends_app o1 o2 q1 q2 c1 c2 c3 : sends o1 q1 c1 c2 -> sends o2 q2 c2 c3 -> sends (o1 ++ o2) (q1 ++ q2) c1 c3.
Proof.
  intros [_ Hs1 Hq1 Hl1 Hu1 Hi1] [Hok Hs2 Hq2 Hl2 Hu2 Hi2]. split; [done| | |congruence|congruence|].
  - rewrite Hs2, Hs1, Hu1. destruct (nz (cs_uart c1)).
    + by rewrite map_app, concat_app, app_assoc.
    + by rewrite !app_nil_r.
  - intros [F1 F2]%Forall_app sc Hsc. rewrite foldl_app. auto.
  - destruct Hi1 as (? & ? & ? & ?), Hi2 as (? & ? & ? & ?). split_and!; congruence.
Qed.

Lemma emits_app o1 o2 c1 c2 c3 : emits o1 c1 c2 -> emits o2 c2 c3 -> emits (o1 ++ o2) c1 c3.
Proof. apply sends_app. Qed.

(** The console the thread sees is [cs]; it is the only thing that changes. *)
Definition puts_out (m : K unit) (ser scr : list Z) : Prop :=
  forall s, cons_ok (k_cons s) ->
    exists cs, m s = Done tt (s <| k_cons := cs |>) /\ sends ser scr (k_cons s) cs.
Definition prints (m : K unit) (out : list Z) : Prop := puts_out m out out.

Lemma puts_out_seq m1 m2 o1 o2 q1 q2 : puts_out m1 o1 q1 -> puts_out m2 o2 q2 -> puts_out (m1 ;; m2) (o1 ++ o2) (q1 ++ q2).
Proof.
  intros H1 H2 s Hs. destruct (H1 s Hs) as (c1 & E1 & M1).
  destruct (H2 (s <| k_cons := c1 |>)) as (c2 & E2 & M2); [apply M1|].
  exists c2. rewrite (bind_done _ _ _ _ _ E1), E2. split; [done|]. by eapply sends_app.
Qed.

Lemma prints_seq m1 m2 o1 o2 : prints m1 o1 -> prints m2 o2 -> prints (m1 ;; m2) (o1 ++ o2).
Proof. apply puts_out_seq. Qed.

Lemma prints_ret : prints (mret tt) [].
Proof. intros s Hs. exists (k_cons s). split; [by destruct s|by apply emits_nil]. Qed.

Lemma prints_for_each (f : Z -> K unit) (g : Z -> list Z) l :
  (forall c, prints (f c) (g c)) -> prints (for_each l f) (concat (map g l)).
Proof. intros H. induction l; simpl; [apply prints_ret|]. by apply prints_seq. Qed.

Lemma crt_write_run i v s :
  0 <= i < Z.of_nat (length (cs_crt (k_cons s))) ->
  crt_write i v s = Done tt (s <| k_cons ::= fun cs => cs <| cs_crt ::= <[Z.to_nat i := v]> |> |>).
Proof.
  intros [H1 H2]. unfold crt_write, get_cons. kstep.
  by rewrite (proj2 (Z.leb_le _ _) H1), (proj2 (Z.ltb_lt _ _) H2).
Qed.

Lemma length_crt_scroll pos crt :
  0 <= pos <= 24 * 80 -> 25 * 80 <= Z.of_nat (length crt) ->
  length (crt_scroll pos crt) = length crt.
Proof.
  intros H1 H2. unfold crt_scroll. cbv zeta.
  rewrite !length_app, length_take, length_replicate, !length_drop, length_app.
  rewrite !length_take, !length_drop. lia.
Qed.

Lemma uartputc_out c : c <> BACKSPACE -> puts_out (uartputc c) [c] [].
Proof.
  intros Hc s Hs. unfold uartputc, get_cons, serial_bytes.
  exists ((k_cons s) <| cs_serial ::= fun l =>
            l ++ (if nz (cs_uart (k_cons s)) then [u8 c] else []) |>). split.
  - kstep. destruct (nz (cs_uart (k_cons s))); [done|].
    unfold mret, M_ret, set; cbn. f_equal. rewrite app_nil_r.
    destruct s. by match goal with cs : console |- _ => destruct cs end.
  - split; try done; [cbn; unfold serial_bytes; by rewrite (proj2 (Z.eqb_neq _ _) Hc)|]. intros _ sc [H1 H2 H3]. by split.
Qed.

(** *** [cgaputc] *)

(** Memory and cursor after [cga_place], and after [cga_show]. *)
Definition placed (c : Z) (crt : list Z) (pos : Z) : list Z * Z :=
  if c =? 10 then (crt, pos + (80 - pos mod 80))
  else if c =? BACKSPACE then (crt, if 0 <? pos then pos - 1 else pos)
  else (<[Z.to_nat pos := cell c]> crt, pos + 1).
Definition shown (crt : list Z) (pos : Z) : list Z * Z :=
  if pos <? 24 * 80 then (<[Z.to_nat pos := Z.lor 32 0x0700]> crt, pos)
  else (<[(23 * 80)%nat := Z.lor 32 0x0700]> (crt_scroll (23 * 80) crt), 23 * 80).
Definition on_screen (r : list Z * Z) (cs : console) : console := cs <| cs_crt := r.1 |> <| cs_pos := r.2 |>.

Lemma on_screen_pos r cs : cs_pos (on_screen r cs) = r.2.
Proof. done. Qed.

Lemma on_screen_crt r cs : cs_crt (on_screen r cs) = r.1.
Proof. done. Qed.

Lemma placed_ok c crt pos : 0 <= pos < 24 * 80 -> length (placed c crt pos).1 = length crt /\ 0 <= (placed c crt pos).2 <= 24 * 80.
Proof.
  intros Hp. unfold placed. pose proof (Z.mod_pos_bound pos 80 ltac:(lia)). pose proof (Z.div_mod pos 80 ltac:(lia)).
  destruct (c =? 10); [cbn; split; [done|lia]|]. destruct (c =? BACKSPACE); cbn; [destruct (Z.ltb_spec 0 pos); split; [done|lia|done|lia]|].
  rewrite length_insert. split; [done|lia].
Qed.

Lemma shown_ok crt pos : 0 <= pos <= 24 * 80 -> 25 * 80 <= Z.of_nat (length crt) -> length (shown crt pos).1 = length crt /\ 0 <= (shown crt pos).2 < 24 * 80.
Proof.
  intros Hp Hl. unfold shown. destruct (Z.ltb_spec pos (24 * 80)); cbn [fst snd]; rewrite length_insert; [split; [done|lia]|].
  rewrite length_crt_scroll by lia. split; [done|lia].
Qed.

Lemma cgaputc_run c s :
  0 <= cs_pos (k_cons s) < 24 * 80 -> 25 * 80 <= Z.of_nat (length (cs_crt (k_cons s))) ->
  cgaputc c s = Done tt (s <| k_cons ::= on_screen (let '(crt, pos) := placed c (cs_crt (k_cons s)) (cs_pos (k_cons s)) in shown crt pos) |>).
Proof.
  intros Hp Hl. destruct (placed_ok c (cs_crt (k_cons s)) (cs_pos (k_cons s)) Hp) as [Hpl Hpp].
  assert (cga_place c s = Done (placed c (cs_crt (k_cons s)) (cs_pos (k_cons s))).2 (s <| k_cons ::= fun cs => cs <| cs_crt := (placed c (cs_crt (k_cons s)) (cs_pos (k_cons s))).1 |> |>)) as R.
  { unfold cga_place, placed, get_cons. kstep. assert (forall cs : console, cs <| cs_crt := cs_crt cs |> = cs) as Hid by (by intros []).
    destruct (c =? 10); [|destruct (c =? BACKSPACE)]; cbn [fst snd]; [unfold mret, M_ret; f_equal; symmetry; apply set_fix, Hid..|].
    rewrite (bind_done _ _ _ _ _ (crt_write_run (cs_pos (k_cons s)) _ s ltac:(lia))). cbv beta. unfold mret, M_ret. by rewrite lor_attr. }
  unfold cgaputc. krun R. destruct (placed _ _ _) as [crt pos]. cbn [fst snd] in *. rewrite (proj2 (Z.ltb_ge pos 0)), (proj2 (Z.ltb_ge (25 * 80) pos)) by lia. cbn [orb].
  unfold cga_show, shown, upd_cons. destruct (Z.ltb_spec pos (24 * 80)) as [Hlt|Hge].
  - rewrite (proj2 (Z.leb_gt 24 (pos / 80))) by (apply Z.div_lt_upper_bound; lia). kstep. kstep. rewrite crt_write_run by (cbn; lia).
    f_equal. unfold u16. rewrite Z.mod_small by lia. rewrite !set_set. apply set_ext. by destruct (k_cons s).
  - assert (pos = 24 * 80) as -> by lia. change (24 <=? 24 * 80 / 80) with true. cbv iota. kstep. kstep. rewrite crt_write_run by (cbn; rewrite length_crt_scroll by lia; lia).
    done.
Qed.

Lemma shows_char cs sc c :
  cons_ok cs -> shows cs sc -> c <> BACKSPACE ->
  shows (on_screen (let '(crt, pos) := placed c (cs_crt cs) (cs_pos cs) in shown crt pos) cs) (type_char sc c).
Proof.
  intros (Hp & Hl & _) [S1 S2 S3] Hc. pose proof (length_window sc) as Hw. destruct sc as [above line]. cbn [sc_above sc_line] in *.
  assert (forall crt line', length crt = length (cs_crt cs) -> cells crt (Screen above line') ->
    shows (on_screen (shown crt (80 * Z.of_nat (length (window (Screen above line))))) cs) (Screen (above ++ [line']) [])) as Hnext.
  { intros crt line' Ec Hcells. unfold shown. destruct (decide (length above < 23)%nat) as [Hlt|Hge].
    - rewrite (proj2 (Z.ltb_lt _ _)) by lia. split; [cbn; lia|rewrite on_screen_pos; cbn [fst snd]; rewrite !length_window; cbn [sc_above sc_line length]; rewrite length_app; cbn [length]; lia|rewrite on_screen_crt; cbn [fst snd]].
      replace (Z.to_nat (80 * Z.of_nat (length (window (Screen above line))))) with (80 * S (length above))%nat by lia. by apply cells_next.
    - rewrite (proj2 (Z.ltb_ge _ _)) by lia. split; [cbn; lia|rewrite on_screen_pos; cbn [fst snd]; rewrite !length_window; cbn [sc_above sc_line length]; rewrite length_app; cbn [length]; lia|rewrite on_screen_crt; cbn [fst snd]].
      apply cells_scroll; [done|lia|lia]. }
  unfold placed, type_char. rewrite (proj2 (Z.eqb_neq _ _) Hc). cbn [sc_above sc_line]. destruct (c =? 10).
  - replace (cs_pos cs + _) with (80 * Z.of_nat (length (window (Screen above line)))); [by apply Hnext|].
    assert (cs_pos cs mod 80 = Z.of_nat (length line)) as ->; [|lia]. symmetry. apply (Z.mod_unique_pos _ _ (Z.of_nat (length (window (Screen above line)) - 1))); lia.
  - assert (cells (<[Z.to_nat (cs_pos cs) := cell c]> (cs_crt cs)) (Screen above (line ++ [cell c]))) as Hcells.
    { intros i l j w Hi Hj. unfold window in Hi. cbn [sc_above sc_line] in Hi. apply lookup_snoc_Some in Hi as [[Hlt Hi]|[-> <-]].
      - destruct (S3 i l j w) as [Hj80 Hcw]; [unfold window; cbn; rewrite lookup_app_l by done; done|done|]. split; [done|].
        rewrite list_lookup_insert_ne; [done|]. rewrite length_drop in Hlt. lia.
      - rewrite length_drop. apply lookup_snoc_Some in Hj as [[Hlt Hj]|[-> <-]].
        + destruct (S3 (length above - (length above - 23))%nat line j w) as [Hj80 Hcw]; [unfold window; cbn; rewrite lookup_app_r by (rewrite length_drop; lia); rewrite length_drop; by rewrite Nat.sub_diag|done|].
          split; [done|]. rewrite list_lookup_insert_ne; [done|lia].
        + split; [done|]. replace (80 * (length above - (length above - 23)) + length line)%nat with (Z.to_nat (cs_pos cs)) by lia. apply list_lookup_insert_eq. lia. }
    rewrite length_app. cbn [length]. destruct (Nat.ltb_spec (length line + 1) 80) as [Hlt|Hge].
    + unfold shown. rewrite (proj2 (Z.ltb_lt _ _)) by lia. split; [cbn [sc_line]; rewrite length_app; cbn [length]; lia| |].
      * rewrite on_screen_pos, length_window. cbn [fst snd sc_above sc_line]. rewrite length_app. cbn [length]. rewrite length_window in S2. cbn [sc_above] in S2. lia.
      * rewrite on_screen_crt. cbn [fst snd]. apply cells_insert; [done|]. intros i l j Hi Hj. pose proof (cursor_apart _ _ i l j Hcells Hi Hj) as Hlt'. rewrite length_window in Hlt'. cbn [sc_line sc_above] in Hlt'. rewrite length_app in Hlt'. cbn [length] in Hlt'. lia.
    + replace (cs_pos cs + 1) with (80 * Z.of_nat (length (window (Screen above line)))) by lia. apply Hnext; [by rewrite length_insert|done].
Qed.

(** The cursor stays on the screen. *)
Lemma screen_kept c crt pos :
  0 <= pos < 24 * 80 -> 25 * 80 <= Z.of_nat (length crt) -> let r := let '(crt, pos) := placed c crt pos in shown crt pos in
  0 <= r.2 < 24 * 80 /\ 25 * 80 <= Z.of_nat (length r.1).
Proof.
  intros Hp Hl. destruct (placed_ok c crt pos Hp) as [Hpl Hpp]. destruct (placed c crt pos) as [crt' pos']. cbn [fst snd] in *.
  destruct (shown_ok crt' pos' Hpp ltac:(lia)) as [Hsl Hsp]. cbv zeta. lia.
Qed.

Lemma cgaputc_out c : puts_out (cgaputc c) [] [c].
Proof.
  intros s Hs. pose proof Hs as (Hp & Hl & Hn). eexists. split; [by apply cgaputc_run|].
  pose proof (screen_kept c (cs_crt (k_cons s)) (cs_pos (k_cons s)) Hp Hl) as [Hp' Hl']. split; try done.
  - cbn. destruct (nz _); by rewrite app_nil_r.
  - intros Hc sc Hsc. apply Forall_cons in Hc as [Hc _]. exact (shows_char (k_cons s) sc c Hs Hsc Hc).
Qed.

Lemma prints_consputc c : prints (consputc c) [c].
Proof.
  intros s Hs. unfold consputc, get_cons. pose proof Hs as (_ & _ & Hn).
  destruct (decide (c = BACKSPACE)) as [->|Hc].
  - assert (puts_out ((uartputc 8 ;; uartputc 32 ;; uartputc 8) ;; cgaputc BACKSPACE) [8; 32; 8] [BACKSPACE]) as H.
    { apply (puts_out_seq _ _ [8; 32; 8] [] [] [BACKSPACE]); [|apply cgaputc_out].
      apply (puts_out_seq _ _ [8] [32; 8] [] []), (puts_out_seq _ _ [32] [8] [] []); by apply uartputc_out. }
    destruct (H s Hs) as (cs & Hd & He). exists cs. split; [|by destruct He; split].
    kstep. rewrite Hn. change (nz 0) with false. cbv iota. exact Hd.
  - assert (puts_out (uartputc c ;; cgaputc c) [c] [c]) as H.
    { apply (puts_out_seq _ _ [c] [] [] [c]); [by apply uartputc_out|apply cgaputc_out]. }
    destruct (H s Hs) as (cs & Hd & He). exists cs. split; [|done].
    kstep. rewrite Hn. change (nz 0) with false. cbv iota.
    by rewrite (proj2 (Z.eqb_neq _ _) Hc).
Qed.

Lemma prints_put_string l : prints (for_each l consputc) l.
Proof.
  pose proof (prints_for_each consputc (fun c => [c]) l prints_consputc) as H.
  replace (concat (map _ l)) with l in H; [done|].
  clear H. induction l; simpl; by f_equal.
Qed.

(** [x] below [base^n] needs at most [n] digits. *)
Lemma length_digits_rev n ds x base k :
  1 < base -> 0 <= x < base ^ Z.of_nat (S k) -> (length (digits_rev n ds x base) <= S k)%nat.
Proof.
  intros Hb. revert x k. induction n as [|n IH]; intros x k Hx; simpl; [lia|].
  destruct (x / base =? 0) eqn:Ed; simpl; [lia|].
  apply Z.eqb_neq in Ed. destruct k as [|k].
  - exfalso. apply Ed, Z.div_small. change (Z.of_nat 1) with 1 in Hx.
    by rewrite Z.pow_1_r in Hx.
  - apply le_n_S, IH. split; [apply Z.div_pos; lia|].
    apply Z.div_lt_upper_bound; [lia|].
    rewrite (Nat2Z.inj_succ (S k)), Z.pow_succ_r in Hx by lia. lia.
Qed.

Lemma printint_buf_fits ds xx base sign :
  base = 10 \/ base = 16 -> (length (printint_buf ds xx base sign) <= 11)%nat.
Proof.
  intros Hb. unfold printint_buf. cbv zeta. rewrite length_app.
  set (x := if _ : bool then _ else _).
  assert (0 <= x < W32) as Hx by (subst x; destruct (_ && _); apply Z.mod_pos_bound; done).
  pose proof (length_digits_rev 32 ds x base 9) as H.
  assert (length (digits_rev 32 ds x base) <= 10)%nat.
  { apply H; [lia|]. unfold W32 in Hx.
    destruct Hb as [-> | ->]; [change (10 ^ Z.of_nat 10) with 10000000000
                              |change (16 ^ Z.of_nat 10) with 1099511627776]; lia. }
  destruct (sign && _); cbn [length]; lia.
Qed.

Lemma prints_printint xx base sign :
  base = 10 \/ base = 16 ->
  prints (printint xx base sign) (reverse (printint_buf digits xx base sign)).
Proof.
  intros Hb. unfold printint. pose proof (printint_buf_fits digits xx base sign Hb).
  rewrite (proj2 (Z.ltb_ge _ _)) by lia. apply prints_put_string.
Qed.

Lemma prints_cprintf_loop fmt args :
  args_ok fmt args = true -> prints (cprintf_loop fmt args) (cformat fmt args).
Proof.
  revert args. induction (well_founded_ltof _ (@length Z) fmt) as [fmt _ IH]. intros args.
  unfold ltof in IH. destruct fmt as [|c fmt1]; [intros; apply prints_ret|]. cbn.
  destruct (c =? 37); cbn [negb]; cycle 1.
  { intros Ha. apply (prints_seq _ _ [c]); [apply prints_consputc|]. apply IH; [simpl; lia|done]. }
  destruct fmt1 as [|c' fmt2]; [intros; apply prints_ret|].
  assert (forall args, args_ok fmt2 args = true -> prints (cprintf_loop fmt2 args) (cformat fmt2 args))
    as IH' by (intros; apply IH; [simpl; lia|done]).
  clear IH. destruct (c' =? 100); [|destruct (c' =? 120), (c' =? 112); cbn [orb]].
  1-4: destruct args as [|[w|] args]; intros Ha; try done;
    apply prints_seq; [apply prints_printint; lia|by apply IH'].
  destruct (c' =? 115).
  { destruct args as [|[|o] args]; intros Ha; try done.
    apply prints_seq; [apply prints_put_string|by apply IH']. }
  intros Ha. destruct (c' =? 37).
  { apply (prints_seq _ _ [37]); [apply prints_consputc|by apply IH']. }
  apply (prints_seq _ _ [37] (c' :: _)), (prints_seq _ _ [c']); auto using prints_consputc.
Qed.

(** [cprintf] prints the formatted text and changes only the console. *)
Lemma cprintf_run fmt args s i c :
  (0 < fuel)%nat -> runs_on (k_hw s) i c -> lock_free (k_hw s) L_cons ->
  cons_ok (k_cons s) -> args_ok (cstr fmt) args = true ->
  exists cs, cprintf fmt args s = Done tt (s <| k_cons := cs |>)
             /\ emits (cformat (cstr fmt) args) (k_cons s) cs.
Proof.
  intros Hf Hr Hl Hc Ha. unfold cprintf, get_cons. kstep.
  pose proof (prints_cprintf_loop (cstr fmt) args Ha) as Hp.
  destruct (nz (cs_locking (k_cons s))) eqn:El; unfold when.
  - krun (acquire_run _ _ _ _ Hf Hr Hl).
    destruct (Hp (s <| k_hw ::= enter i L_cons |>)) as (cs & Hd & He); [exact Hc|].
    exists cs. split; [|done]. krun Hd.
    by rewrite (release_run _ (k_hw s) i c).
  - kstep. destruct (Hp s Hc) as (cs & Hd & He). exists cs. split; [|done].
    by rewrite (bind_done _ _ _ _ _ Hd).
Qed.
End output.

(** *** Invariants that do not depend on the console *)

Section keeps.
Context {E : Env} (I : kernel -> Prop) `{!Frame k_hw I} `{!Frame k_cons I}.

Lemma keeps_get_cons {T} (f : console -> T) : keeps I (get_cons f).
Proof. unfold get_cons. keeps. Qed.

Lemma keeps_upd_cons f : keeps I (upd_cons f).
Proof. unfold upd_cons. keeps. Qed.

#[local] Hint Resolve keeps_get_cons keeps_upd_cons : keeps.

Lemma keeps_consputc c : keeps I (consputc c).
Proof.
  unfold consputc, uartputc, cli, cgaputc, cga_place, cga_show, crt_write. keeps.
Qed.

#[local] Hint Resolve keeps_consputc : keeps.

Lemma keeps_printint xx base sign : keeps I (printint xx base sign).
Proof. unfold printint. cbv zeta. keeps. Qed.

#[local] Hint Resolve keeps_printint : keeps.

Lemma keeps_cprintf_loop fmt args : keeps I (cprintf_loop fmt args).
Proof.
  revert args. induction (well_founded_ltof _ (@length Z) fmt) as [fmt _ IH]. intros args.
  unfold ltof in IH. destruct fmt as [|c fmt1]; cbn; [keeps|].
  assert (forall args, keeps I (cprintf_loop fmt1 args)) by (intros; apply IH; simpl; lia).
  destruct fmt1 as [|c' fmt2]; [keeps|].
  assert (forall args, keeps I (cprintf_loop fmt2 args)) by (intros; apply IH; simpl; lia).
  unfold put_string. keeps; auto.
Qed.

#[local] Hint Resolve keeps_cprintf_loop : keeps.

Lemma keeps_cprintf fmt args : keeps I (cprintf fmt args).
Proof. unfold cprintf. keeps. Qed.

End keeps.

#[export] Hint Resolve keeps_get_cons keeps_upd_cons keeps_consputc keeps_cprintf : keeps.

(** ** Properties *)

Section properties.
Context {E : Env}.

Lemma digit_chars d : 0 <= d < 16 -> default 0 (digits !! Z.to_nat d) = digit_char d.
Proof.
  assert (Forall (fun d => default 0 (digits !! Z.to_nat d) = digit_char d) (seqZ 0 16)) as H by (apply (bool_decide_unpack _); vm_compute; exact I).
  rewrite Forall_forall in H. intros Hd. apply H, elem_of_seqZ. lia.
Qed.

Lemma digits_rev_numeral n x base :
  1 < base <= 16 -> 0 <= x < base ^ Z.of_nat (S n) -> exists ds,
  digits_rev (S n) digits x base = map digit_char (reverse ds) /\ Forall (fun d => 0 <= d < base) ds /\ ds <> [] /\ (head ds = Some 0 -> ds = [0] /\ x = 0) /\ value base ds = x.
Proof.
  intros Hb. revert x. induction n as [|n IH]; intros x Hx; pose proof (Z.mod_pos_bound x base ltac:(lia)) as Hm; pose proof (Z.div_mod x base ltac:(lia)) as Hdm;
    cbn [digits_rev]; rewrite digit_chars by lia; destruct (Z.eqb_spec (x / base) 0) as [Hz|Hz].
  1,3: rewrite Hz, Z.mul_0_r, Z.add_0_l in Hdm; rewrite <- Hdm in *; exists [x]; split_and!; [done|by constructor|done|by intros [= ->]|done].
  - exfalso. apply Hz, Z.div_small. change (base ^ Z.of_nat 1) with (base ^ 1) in Hx. by rewrite Z.pow_1_r in Hx.
  - destruct (IH (x / base)) as (ds & Hd & Hf & Hne & Hh & Hv).
    { rewrite Nat2Z.inj_succ, Z.pow_succ_r in Hx by lia. split; [apply Z.div_pos; lia|apply Z.div_lt_upper_bound; lia]. }
    cbn [digits_rev] in Hd. exists (ds ++ [x mod base]). split_and!.
    + rewrite reverse_app. cbn [reverse rev_append app map]. by rewrite <- Hd.
    + apply Forall_app. by split; [|constructor].
    + by destruct ds.
    + destruct ds as [|d ds]; [done|]. intros [= ->]. by destruct (Hh eq_refl).
    + unfold value in *. rewrite foldl_app, Hv. cbn. lia.
Qed.

Lemma printint_numeral x base : base = 10 \/ base = 16 -> 0 <= x < W32 -> numeral base x (reverse (digits_rev 32 digits x base)).
Proof.
  intros Hb Hx. destruct (digits_rev_numeral 31 x base) as (ds & Hd & Hf & Hne & Hh & Hv); [lia| |].
  { split; [lia|]. eapply Z.lt_le_trans; [apply Hx|]. destruct Hb as [-> | ->]; vm_compute; discriminate. }
  exists ds. split_and!; [|done|done|by intros H; destruct (Hh H)|done]. rewrite Hd. change (map digit_char (reverse ds)) with (digit_char <$> reverse ds). by rewrite fmap_reverse, reverse_involutive.
Qed.

Lemma printint_decimal xx : -2147483648 <= xx < 2147483648 -> decimal xx (reverse (printint_buf digits xx 10 true)).
Proof.
  intros Hx. unfold decimal, printint_buf. cbv zeta. cbn [andb]. destruct (Z.ltb_spec xx 0).
  - rewrite decide_True by done. rewrite reverse_app. eexists. split; [done|]. assert (u32 (- xx) = - xx) as -> by (apply Z.mod_small; unfold W32; lia).
    apply printint_numeral; [by left|unfold W32; lia].
  - rewrite decide_False by lia. rewrite app_nil_r. assert (u32 xx = xx) as -> by (apply Z.mod_small; unfold W32; lia). apply printint_numeral; [by left|unfold W32; lia].
Qed.

Lemma printint_hex w : numeral 16 (u32 w) (reverse (printint_buf digits (i32 w) 16 false)).
Proof.
  unfold printint_buf. cbv zeta. cbn [andb]. rewrite app_nil_r. assert (u32 (i32 w) = u32 w) as -> by (unfold u32, i32, W32; Z.div_mod_to_equations; lia).
  apply printint_numeral; [by right|]. by apply Z.mod_pos_bound.
Qed.

Lemma printed_cformat fmt args : args_ok fmt args = true -> printed fmt args (cformat fmt args).
Proof.
  revert args. induction (well_founded_ltof _ (@length Z) fmt) as [fmt _ IH]. intros args.
  unfold ltof in IH. destruct fmt as [|c fmt1]; [intros; constructor|]. cbn.
  destruct (Z.eqb_spec c 37) as [-> |Hc]; cbn [negb]; cycle 1.
  { intros Ha. constructor; [done|]. apply IH; [simpl; lia|done]. }
  destruct fmt1 as [|c fmt2]; [intros; constructor|].
  assert (forall args, args_ok fmt2 args = true -> printed fmt2 args (cformat fmt2 args)) as IH' by (intros; apply IH; [simpl; lia|done]).
  clear IH. destruct (Z.eqb_spec c 100) as [-> |Hd]; cbn [orb].
  { destruct args as [|[w|] args]; intros Ha; try done. constructor; [|by apply IH']. apply printint_decimal. unfold i32, W32. pose proof (Z.mod_pos_bound (w + 2147483648) 4294967296). lia. }
  destruct ((c =? 120) || (c =? 112)) eqn:Ex.
  { destruct args as [|[w|] args]; intros Ha; try done. constructor; [lia| |by apply IH']. apply printint_hex. }
  destruct (Z.eqb_spec c 115) as [-> |Hs].
  { destruct args as [|[|[l|]] args]; intros Ha; try done; constructor; by apply IH'. }
  intros Ha. destruct (Z.eqb_spec c 37) as [-> |Hp]; [constructor; by apply IH'|]. apply pr_other; [|by apply IH'].
  apply orb_false_iff in Ex as [Ex1%Z.eqb_neq Ex2%Z.eqb_neq]. intros Hin. rewrite !elem_of_cons, elem_of_nil in Hin. naive_solver.
Qed.

(** C35: [cprintf] prints the text its format and arguments stand for: decimal numbers with
    their sign, hexadecimal numbers without, strings, and the other characters as they are.
    The text goes to the serial port byte by byte and to the screen from the cursor on,
    where it wraps after 80 characters and scrolls with the last 24 lines kept; nothing
    else of the kernel changes. *)
Theorem cprintf_prints fmt args s i c :
  (0 < fuel)%nat -> runs_on (k_hw s) i c -> lock_free (k_hw s) L_cons ->
  cons_ok (k_cons s) -> args_ok (cstr fmt) args = true ->
  exists cs out, cprintf fmt args s = Done tt (s <| k_cons := cs |>)
    /\ printed (cstr fmt) args out /\ emits out (k_cons s) cs.
Proof.
  intros Hf Hr Hl Hc Ha. destruct (cprintf_run fmt args s i c Hf Hr Hl Hc Ha) as (cs & R & He). exists cs, (cformat (cstr fmt) args).
  split_and!; [done|by apply printed_cformat|done].
Qed.
End properties.
