(* ===== verification/CString.v ===== *)
(** string.c, and the byte-addressed memory it works on.

    [memset] and [memmove] act on the kernel's memory [k_mem].  The functions on
    character arrays ([strncmp], [strncpy], ...) take an array as the list of its
    bytes; reading a byte past its end is reading 0. *)
From S2P Require Import Prelude Kernel.

(** ** Memory *)

Abbreviation memory := (gmap Z Z).

Definition load8 (m : memory) (a : Z) : Z := default 0 (m !! a).
Definition store8 (m : memory) (a v : Z) : memory := <[a := u8 v]> m.

Definition load32 (m : memory) (a : Z) : Z :=
  load8 m a + 256 * load8 m (a + 1) + 65536 * load8 m (a + 2) + 16777216 * load8 m (a + 3).

Definition store32 (m : memory) (a v : Z) : memory :=
  store8 (store8 (store8 (store8 m a v) (a + 1) (v / 256)) (a + 2) (v / 65536))
    (a + 3) (v / 16777216).

(** [rep stosb] and [rep stosl] *)
Fixpoint stosb (m : memory) (addr data : Z) (cnt : nat) : memory :=
  match cnt with
  | O => m
  | S cnt' => stosb (store8 m addr data) (addr + 1) data cnt'
  end.

Fixpoint stosl (m : memory) (addr data : Z) (cnt : nat) : memory :=
  match cnt with
  | O => m
  | S cnt' => stosl (store32 m addr data) (addr + 4) data cnt'
  end.

Definition memset (m : memory) (dst c n : Z) : memory :=
  if (dst mod 4 =? 0) && (n mod 4 =? 0) then
    let c := Z.land c 0xFF in
    stosl m dst (Z.lor (Z.lor (Z.lor (Z.shiftl c 24) (Z.shiftl c 16)) (Z.shiftl c 8)) c)
      (Z.to_nat (n / 4))
  else stosb m dst c (Z.to_nat n).

(** [while(n-- > 0) *--d = *--s;] and [while(n-- > 0) *d++ = *s++;] *)
Fixpoint copy_down (m : memory) (d s : Z) (n : nat) : memory :=
  match n with
  | O => m
  | S n' => copy_down (store8 m (d - 1) (load8 m (s - 1))) (d - 1) (s - 1) n'
  end.

Fixpoint copy_up (m : memory) (d s : Z) (n : nat) : memory :=
  match n with
  | O => m
  | S n' => copy_up (store8 m d (load8 m s)) (d + 1) (s + 1) n'
  end.

Definition memmove (m : memory) (dst src n : Z) : memory :=
  if (src <? dst) && (dst <? src + n)
  then copy_down m (dst + n) (src + n) (Z.to_nat n)
  else copy_up m dst src (Z.to_nat n).

(** ** Character arrays *)

(** [a[i]] *)
Definition at_ (a : list Z) (i : nat) : Z := default 0 (a !! i).

Fixpoint memcmp (s1 s2 : list Z) (n : nat) : Z :=
  match n with
  | O => 0
  | S n' =>
      if negb (at_ s1 0 =? at_ s2 0) then at_ s1 0 - at_ s2 0
      else memcmp (drop 1 s1) (drop 1 s2) n'
  end.

Fixpoint strncmp (p q : list Z) (n : nat) : Z :=
  match n with
  | O => 0
  | S n' =>
      if nz (at_ p 0) && (at_ p 0 =? at_ q 0)
      then strncmp (drop 1 p) (drop 1 q) n'
      else u8 (at_ p 0) - u8 (at_ q 0)
  end.

(** The two loops of [strncpy]: the array [s] is filled from index [i]; [n] is
    the count before the test [n-- > 0]. *)
Fixpoint strncpy_zero (s : list Z) (i n : nat) : list Z :=
  match n with
  | O => s
  | S n' => strncpy_zero (<[i := 0]> s) (i + 1) n'
  end.

Fixpoint strncpy_copy (s : list Z) (i : nat) (t : list Z) (n : nat) : list Z :=
  match n with
  | O => s
  | S n' =>
      let s' := <[i := at_ t 0]> s in
      if nz (at_ t 0) then strncpy_copy s' (i + 1) (drop 1 t) n'
      else strncpy_zero s' (i + 1) n'
  end.

Definition strncpy (s t : list Z) (n : Z) : list Z := strncpy_copy s 0 t (Z.to_nat n).

(** [while(--n > 0 && ( *s++ = *t++ ) != 0); *s = 0;] with [n] the count left. *)
Fixpoint safestrcpy_copy (s : list Z) (i : nat) (t : list Z) (n : nat) : list Z :=
  match n with
  | O => <[i := 0]> s
  | S n' =>
      let s' := <[i := at_ t 0]> s in
      if nz (at_ t 0) then safestrcpy_copy s' (i + 1) (drop 1 t) n'
      else <[(i + 1)%nat := 0]> s'
  end.

Definition safestrcpy (s t : list Z) (n : Z) : list Z :=
  if n <=? 0 then s else safestrcpy_copy s 0 t (Z.to_nat (n - 1)).

(** [strlen] stops at the first 0, at the latest just past the array. *)
Fixpoint strlen (s : list Z) : Z :=
  match s with
  | [] => 0
  | c :: s' => if nz c then 1 + strlen s' else 0
  end.

(** The string an array holds: its bytes before the first 0. *)
Fixpoint cstring (s : list Z) : list Z :=
  match s with
  | [] => []
  | c :: s' => if nz c then c :: cstring s' else []
  end.

(** ** Memory lemmas *)

(** Every byte of the memory is a byte. *)
Definition bytes_ok (m : memory) : Prop := forall a, 0 <= load8 m a < 256.

Lemma u8_range v : 0 <= u8 v < 256.
Proof. by apply Z.mod_pos_bound. Qed.

Lemma u8_small v : 0 <= v < 256 -> u8 v = v.
Proof. apply Z.mod_small. Qed.

Lemma load8_store8 m a v b : load8 (store8 m a v) b = if decide (a = b) then u8 v else load8 m b.
Proof. unfold load8, store8. rewrite lookup_insert. by case_decide. Qed.

Lemma bytes_ok_store8 m a v : bytes_ok m -> bytes_ok (store8 m a v).
Proof. intros H b. rewrite load8_store8. case_decide; [apply u8_range|apply H]. Qed.

Lemma bytes_ok_store32 m a v : bytes_ok m -> bytes_ok (store32 m a v).
Proof. intros H. unfold store32. by repeat apply bytes_ok_store8. Qed.

Lemma load8_store32 m a v b :
  load8 (store32 m a v) b =
    if decide (a <= b < a + 4) then u8 (v / 256 ^ (b - a)) else load8 m b.
Proof.
  unfold store32. rewrite !load8_store8.
  repeat case_decide; subst; try lia; try done.
  - by replace (a + 3 - a) with 3 by lia.
  - by replace (a + 2 - a) with 2 by lia.
  - by replace (a + 1 - a) with 1 by lia.
  - rewrite Z.sub_diag. change (256 ^ 0) with 1. by rewrite Z.div_1_r.
Qed.

Lemma load32_store32 m a v : 0 <= v < W32 -> load32 (store32 m a v) a = v.
Proof.
  intros Hv. unfold load32. rewrite !load8_store32, !decide_True by lia.
  rewrite Z.sub_diag.
  replace (a + 1 - a) with 1 by lia. replace (a + 2 - a) with 2 by lia.
  replace (a + 3 - a) with 3 by lia.
  change (256 ^ 0) with 1. change (256 ^ 1) with 256. change (256 ^ 2) with 65536.
  change (256 ^ 3) with 16777216. unfold u8, W32 in *.
  Z.to_euclidean_division_equations. lia.
Qed.

Lemma load32_range m a : bytes_ok m -> 0 <= load32 m a < W32.
Proof.
  intros H. unfold load32, W32.
  pose proof (H a). pose proof (H (a + 1)). pose proof (H (a + 2)). pose proof (H (a + 3)). lia.
Qed.

Lemma load32_ext m m' a :
  (forall b, a <= b < a + 4 -> load8 m' b = load8 m b) -> load32 m' a = load32 m a.
Proof. intros H. unfold load32. by rewrite !H by lia. Qed.

(** ** memset *)

Lemma stosb_spec m a c n b :
  load8 (stosb m a c n) b = if decide (a <= b < a + Z.of_nat n) then u8 c else load8 m b.
Proof.
  revert m a. induction n as [|n IH]; intros m a; simpl.
  - by rewrite decide_False by lia.
  - rewrite IH, load8_store8. repeat case_decide; try lia; done.
Qed.

Lemma stosl_spec m a w n b :
  load8 (stosl m a w n) b =
    if decide (a <= b < a + 4 * Z.of_nat n) then u8 (w / 256 ^ ((b - a) mod 4)) else load8 m b.
Proof.
  revert m a. induction n as [|n IH]; intros m a; simpl.
  - by rewrite decide_False by lia.
  - rewrite IH, load8_store32. repeat case_decide; try lia; try done.
    + do 3 f_equal. replace (b - a) with (b - (a + 4) + 1 * 4) by lia.
      by rewrite Z.mod_add.
    + by rewrite (Z.mod_small (b - a)) by lia.
Qed.

(** The word [memset] stores has [c] in each of its bytes. *)
Lemma splat_byte c k :
  0 <= c < 256 -> 0 <= k < 4 ->
  u8 (Z.lor (Z.lor (Z.lor (Z.shiftl c 24) (Z.shiftl c 16)) (Z.shiftl c 8)) c / 256 ^ k) = c.
Proof.
  intros Hc Hk. unfold u8. change 256 with (2 ^ 8) at 2.
  rewrite <- Z.land_ones by lia.
  assert (256 ^ k = 2 ^ (8 * k)) as -> by (change 256 with (2 ^ 8); by rewrite Z.pow_mul_r by lia).
  rewrite <- Z.shiftr_div_pow2 by lia.
  assert (c = Z.land c (Z.ones 8)) as Hm.
  { rewrite Z.land_ones by lia. by rewrite Z.mod_small by lia. }
  assert (forall i, 8 <= i -> Z.testbit c i = false) as Hhi.
  { intros i Hi. rewrite Hm, Z.land_spec, Z.ones_spec_high by lia. by rewrite andb_false_r. }
  apply Z.bits_inj'. intros i Hi. rewrite Z.land_spec, Z.shiftr_spec by lia.
  destruct (decide (i < 8)) as [Hi8|Hi8].
  - rewrite Z.ones_spec_low, andb_true_r by lia. rewrite !Z.lor_spec, !Z.shiftl_spec by lia.
    assert (k = 0 \/ k = 1 \/ k = 2 \/ k = 3) as [-> |[-> |[-> | ->]]] by lia.
    + rewrite !(Z.testbit_neg_r c) by lia. simpl. f_equal. lia.
    + rewrite (Hhi (i + 8 * 1)) by lia. rewrite !(Z.testbit_neg_r c (i + 8 * 1 - 24)),
        !(Z.testbit_neg_r c (i + 8 * 1 - 16)) by lia. rewrite orb_false_r. simpl. f_equal. lia.
    + rewrite (Hhi (i + 8 * 2)), (Hhi (i + 8 * 2 - 8)) by lia.
      rewrite (Z.testbit_neg_r c (i + 8 * 2 - 24)) by lia. rewrite !orb_false_r. simpl. f_equal. lia.
    + rewrite (Hhi (i + 8 * 3)), (Hhi (i + 8 * 3 - 8)), (Hhi (i + 8 * 3 - 16)) by lia.
      rewrite !orb_false_r. f_equal. lia.
  - rewrite Z.ones_spec_high, andb_false_r by lia. symmetry. apply Hhi. lia.
Qed.

Lemma memset_load m dst c n b :
  0 <= n ->
  load8 (memset m dst c n) b = if decide (dst <= b < dst + n) then u8 c else load8 m b.
Proof.
  intros Hn. unfold memset.
  destruct ((dst mod 4 =? 0) && (n mod 4 =? 0)) eqn:Ea.
  - apply andb_true_iff in Ea as [_ Hm]. apply Z.eqb_eq in Hm.
    cbv zeta. rewrite stosl_spec, Z2Nat.id by (apply Z.div_pos; lia).
    replace (4 * (n / 4)) with n by (pose proof (Z.div_mod n 4); lia).
    case_decide; [|done].
    assert (Z.land c 0xFF = u8 c) as -> by (change 0xFF with (Z.ones 8); by rewrite Z.land_ones).
    apply splat_byte; [apply u8_range|]. apply Z.mod_pos_bound. lia.
  - rewrite stosb_spec, Z2Nat.id by lia. done.
Qed.

(** ** memmove *)

Lemma copy_up_spec m d s n b :
  bytes_ok m -> ~ (s < d < s + Z.of_nat n) ->
  load8 (copy_up m d s n) b =
    if decide (d <= b < d + Z.of_nat n) then load8 m (b - d + s) else load8 m b.
Proof.
  revert m d s. induction n as [|n IH]; intros m d s Hm Hd; simpl.
  - by rewrite decide_False by lia.
  - rewrite IH, !load8_store8, (u8_small (load8 m s)); [|apply Hm|by apply bytes_ok_store8|lia].
    repeat case_decide; try lia; try (f_equal; lia); done.
Qed.

Lemma copy_down_spec m d s n b :
  bytes_ok m -> s < d ->
  load8 (copy_down m d s n) b =
    if decide (d - Z.of_nat n <= b < d) then load8 m (b - d + s) else load8 m b.
Proof.
  revert m d s. induction n as [|n IH]; intros m d s Hm Hd; simpl.
  - by rewrite decide_False by lia.
  - rewrite IH, !load8_store8, (u8_small (load8 m (s - 1)));
      [|apply Hm|by apply bytes_ok_store8|lia].
    repeat case_decide; try lia; try (f_equal; lia); done.
Qed.

Lemma memmove_load m dst src n b :
  bytes_ok m -> 0 <= n ->
  load8 (memmove m dst src n) b =
    if decide (dst <= b < dst + n) then load8 m (src + (b - dst)) else load8 m b.
Proof.
  intros Hm Hn. unfold memmove. destruct ((src <? dst) && (dst <? src + n)) eqn:Eo.
  - apply andb_true_iff in Eo as [H1%Z.ltb_lt H2%Z.ltb_lt].
    rewrite copy_down_spec, Z2Nat.id by (done || lia).
    repeat case_decide; try lia; try (f_equal; lia); done.
  - apply andb_false_iff in Eo. rewrite !Z.ltb_ge in Eo.
    rewrite copy_up_spec, Z2Nat.id by (done || lia).
    repeat case_decide; try lia; try (f_equal; lia); done.
Qed.

(** ** Character arrays *)

Definition is_bytes (l : list Z) : Prop := Forall (fun c => 0 <= c < 256) l.

Lemma at_byte l i : is_bytes l -> 0 <= at_ l i < 256.
Proof.
  intros H. unfold at_. destruct (l !! i) eqn:El; simpl; [|lia].
  by eapply Forall_lookup_1 in H.
Qed.

Lemma is_bytes_drop n l : is_bytes l -> is_bytes (drop n l).
Proof. apply Forall_drop. Qed.

Lemma cstring_unfold l :
  cstring l = if nz (at_ l 0) then at_ l 0 :: cstring (drop 1 l) else [].
Proof. by destruct l. Qed.

Lemma strncmp_zero p q n :
  is_bytes p -> is_bytes q ->
  strncmp p q n = 0 <-> take n (cstring p) = take n (cstring q).
Proof.
  revert p q. induction n as [|n IH]; intros p q Hp Hq; [done|].
  rewrite (cstring_unfold p), (cstring_unfold q). cbn [strncmp].
  pose proof (at_byte p 0 Hp). pose proof (at_byte q 0 Hq).
  rewrite !u8_small by done.
  destruct (nz (at_ p 0)) eqn:Ep; cbn [andb].
  - apply nz_true in Ep. destruct (Z.eqb_spec (at_ p 0) (at_ q 0)) as [Eq|Eq].
    + rewrite <- Eq, (proj2 (nz_true _) Ep). cbn [take].
      rewrite IH by by apply is_bytes_drop. split; congruence.
    + split; [lia|]. destruct (nz (at_ q 0)); cbn [take]; congruence.
  - apply nz_false in Ep. rewrite Ep. destruct (nz (at_ q 0)) eqn:Eq; cbn [take].
    + apply nz_true in Eq. split; [lia|done].
    + apply nz_false in Eq. by rewrite Eq.
Qed.

(** The value at the first character, the terminator included, in which the strings differ. *)
Lemma strncmp_diff p q n l x y p' q' :
  is_bytes p -> is_bytes q -> take n (cstring p ++ [0]) = l ++ x :: p' -> take n (cstring q ++ [0]) = l ++ y :: q' -> x <> y ->
  strncmp p q n = x - y.
Proof.
  revert p q l. induction n as [|n IH]; intros p q l Hp Hq E1 E2 Hne; [by destruct l|].
  rewrite (cstring_unfold p) in E1. rewrite (cstring_unfold q) in E2. cbn [strncmp].
  pose proof (at_byte p 0 Hp). pose proof (at_byte q 0 Hq). rewrite !u8_small by done.
  assert (forall a, (if nz (at_ a 0) then at_ a 0 :: cstring (drop 1 a) else []) ++ [0] = at_ a 0 :: (if nz (at_ a 0) then cstring (drop 1 a) ++ [0] else [])) as Hc.
  { intros a. destruct (nz (at_ a 0)) eqn:Ea; [done|]. apply nz_false in Ea. by rewrite Ea. }
  rewrite Hc in E1, E2. cbn [take] in E1, E2. destruct l as [|z l]; cbn [app] in E1, E2; injection E1 as -> E1; injection E2 as -> E2.
  - rewrite (proj2 (Z.eqb_neq _ _) Hne). by rewrite andb_false_r.
  - rewrite Z.eqb_refl. destruct (nz z); cbn [andb]; [|by rewrite take_nil in E1; destruct l].
    by apply (IH _ _ l); [apply is_bytes_drop|apply is_bytes_drop|..].
Qed.

Lemma insert_app_at (i : nat) (pre post : list Z) v :
  length pre = i -> (0 < length post)%nat -> <[i := v]> (pre ++ post) = (pre ++ [v]) ++ drop 1 post.
Proof.
  intros <- Hp. destruct post as [|x post]; simpl in *; [lia|].
  rewrite insert_app_r_alt by lia. rewrite Nat.sub_diag. simpl. by rewrite <- app_assoc.
Qed.

Lemma strncpy_zero_spec pre post n :
  (n <= length post)%nat ->
  strncpy_zero (pre ++ post) (length pre) n = pre ++ replicate n 0 ++ drop n post.
Proof.
  revert pre post. induction n as [|n IH]; intros pre post Hn; [done|]. cbn [strncpy_zero].
  rewrite insert_app_at by (done || lia).
  replace (length pre + 1)%nat with (length (pre ++ [0])) by (rewrite length_app; simpl; lia).
  rewrite IH by (rewrite length_drop; lia). rewrite drop_drop. cbn. by rewrite <- app_assoc.
Qed.

Lemma strncpy_copy_spec pre post t n :
  (n <= length post)%nat ->
  strncpy_copy (pre ++ post) (length pre) t n =
    pre ++ take n (cstring t ++ replicate n 0) ++ drop n post.
Proof.
  revert pre post t. induction n as [|n IH]; intros pre post t Hn; [done|].
  cbn [strncpy_copy]. cbv zeta. rewrite insert_app_at by (done || lia).
  replace (length pre + 1)%nat with (length (pre ++ [at_ t 0])) by (rewrite length_app; simpl; lia).
  rewrite (cstring_unfold t). destruct (nz (at_ t 0)) eqn:Et.
  - rewrite IH by (rewrite length_drop; lia). rewrite drop_drop, <- app_assoc. cbn [app take].
    do 3 f_equal. rewrite replicate_S_end, app_assoc, (take_app_le _ [0]); [done|].
    rewrite length_app, length_replicate. lia.
  - apply nz_false in Et. rewrite Et.
    rewrite strncpy_zero_spec by (rewrite length_drop; lia). rewrite drop_drop, <- app_assoc.
    cbn [app]. rewrite take_ge by (by rewrite length_replicate). done.
Qed.

(** [strncpy] fills exactly [n] bytes: the string, cut to [n], then zeros. *)
Lemma strncpy_spec s t n :
  0 <= n <= Z.of_nat (length s) ->
  strncpy s t n =
    take (Z.to_nat n) (cstring t ++ replicate (Z.to_nat n) 0) ++ drop (Z.to_nat n) s.
Proof. intros Hn. unfold strncpy. apply (strncpy_copy_spec [] s t). lia. Qed.

Lemma safestrcpy_copy_spec pre post t n :
  (n < length post)%nat ->
  exists rest,
    safestrcpy_copy (pre ++ post) (length pre) t n = pre ++ take n (cstring t) ++ 0 :: rest
    /\ length (take n (cstring t) ++ 0 :: rest) = length post.
Proof.
  revert pre post t. induction n as [|n IH]; intros pre post t Hn.
  - exists (drop 1 post). cbn [safestrcpy_copy take app]. rewrite insert_app_at by (done || lia).
    rewrite <- app_assoc. split; [done|]. rewrite length_app. cbn [take length]. rewrite length_drop. simpl. lia.
  - cbn [safestrcpy_copy]. cbv zeta. rewrite insert_app_at by (done || lia).
    replace (length pre + 1)%nat with (length (pre ++ [at_ t 0])) by (rewrite length_app; simpl; lia).
    rewrite (cstring_unfold t). destruct (nz (at_ t 0)) eqn:Et.
    + destruct (IH (pre ++ [at_ t 0]) (drop 1 post) (drop 1 t)) as (rest & -> & Hl).
      { rewrite length_drop. lia. }
      exists rest. rewrite <- app_assoc. cbn [take app]. split; [done|].
      cbn [length]. rewrite Hl, length_drop. lia.
    + apply nz_false in Et. rewrite Et. exists (0 :: drop 2 post).
      rewrite insert_app_at; [|done|rewrite length_drop; lia].
      rewrite drop_drop, <- !app_assoc. split; [done|].
      rewrite length_app, take_nil. cbn [length]. rewrite length_drop. simpl. lia.
Qed.

Lemma cstring_app_zero l rest :
  Forall (fun c => c <> 0) l -> cstring (l ++ 0 :: rest) = l.
Proof.
  induction 1 as [|c l Hc _ IH]; [done|]. cbn [app cstring].
  rewrite (proj2 (nz_true c) Hc). by f_equal.
Qed.

Lemma cstring_nonzero l : Forall (fun c => c <> 0) (cstring l).
Proof.
  induction l as [|c l IH]; [constructor|]. cbn. destruct (nz c) eqn:Ec; [|constructor].
  constructor; [by apply nz_true|done].
Qed.

(** [safestrcpy] stores the string cut to [n-1] bytes, always terminated. *)
Lemma safestrcpy_spec s t n :
  0 < n <= Z.of_nat (length s) ->
  cstring (safestrcpy s t n) = take (Z.to_nat (n - 1)) (cstring t)
  /\ length (safestrcpy s t n) = length s.
Proof.
  intros Hn. unfold safestrcpy. rewrite (proj2 (Z.leb_gt n 0)) by lia.
  destruct (safestrcpy_copy_spec [] s t (Z.to_nat (n - 1))) as (rest & Hr & Hl); [lia|].
  cbn [length app] in Hr. rewrite Hr. split; [|done].
  apply cstring_app_zero, Forall_take, cstring_nonzero.
Qed.

Lemma strlen_cstring s : strlen s = Z.of_nat (length (cstring s)).
Proof. induction s as [|c s IH]; [done|]. cbn. destruct (nz c); cbn [length]; lia. Qed.

(** ** Properties *)

(** C36: the memory and string routines.  [memset] fills exactly the bytes of its range,
    on the word-wise path it takes for aligned ranges as on the byte-wise one, and
    [memmove] moves [k] bytes whether or not the two ranges overlap, changing no byte
    outside the destination.  [strncmp] is 0 exactly when the strings
    agree on their first [n] characters, and otherwise the difference of the characters,
    as unsigned bytes with the terminator as 0, in the first place where they differ;
    [strncpy] copies the string cut or padded
    with zeros to [n] bytes and leaves the rest of the array; [safestrcpy] leaves a
    terminated string of at most [n-1] characters, a prefix of its source. *)
Theorem string_routines m dst src c k b p q s t n l x y p' q' :
  bytes_ok m -> 0 <= k -> is_bytes p -> is_bytes q -> 0 < n <= Z.of_nat (length s) ->
  load8 (memset m dst c k) b = (if decide (dst <= b < dst + k) then u8 c else load8 m b)
  /\ load8 (memmove m dst src k) b =
       (if decide (dst <= b < dst + k) then load8 m (src + (b - dst)) else load8 m b)
  /\ (strncmp p q (Z.to_nat n) = 0 <-> take (Z.to_nat n) (cstring p) = take (Z.to_nat n) (cstring q))
  /\ (take (Z.to_nat n) (cstring p ++ [0]) = l ++ x :: p' -> take (Z.to_nat n) (cstring q ++ [0]) = l ++ y :: q' -> x <> y ->
      strncmp p q (Z.to_nat n) = x - y)
  /\ strncpy s t n =
       take (Z.to_nat n) (cstring t ++ replicate (Z.to_nat n) 0) ++ drop (Z.to_nat n) s
  /\ cstring (safestrcpy s t n) = take (Z.to_nat (n - 1)) (cstring t)
  /\ length (safestrcpy s t n) = length s.
Proof.
  intros Hm Hk Hp Hq Hn. split_and!.
  - by apply memset_load.
  - by apply memmove_load.
  - by apply strncmp_zero.
  - by apply strncmp_diff.
  - apply strncpy_spec. lia.
  - by apply safestrcpy_spec.
  - by apply safestrcpy_spec.
Qed.
