(* ===== verification/Kalloc.v ===== *)
(** kalloc.c: the allocator of physical pages.

    The free pages form a linked list through their own first word.  [freelist_ok
    s l] says that the list in memory is [l], without repetition, of pages the
    allocator may own; against it the operations are those of a stack of pages:
    [kfree] pushes, [kalloc] pops, and [freerange] pushes every page of a range. *)
From S2P Require Import Prelude Kernel Spinlock CString.

Section kalloc.
Context {E : Env}.

Definition get_kmem {T} (f : kmem -> T) : K T := gets (fun s => f (k_kmem s)).
Definition upd_kmem (f : kmem -> kmem) : K unit := modify (fun s => s <| k_kmem ::= f |>).
Definition upd_mem (f : memory -> memory) : K unit := modify (fun s => s <| k_mem ::= f |>).

Definition kfree (v : Z) : K unit :=
  if nz (v mod PGSIZE) || (v <? kernel_end) || (PHYSTOP <=? V2P v) then panic "kfree" else
  upd_mem (fun m => memset m v 1 PGSIZE) ;;
  use_lock ← get_kmem km_use_lock ;
  when (nz use_lock) (acquire L_kmem) ;;
  freelist ← get_kmem km_freelist ;
  upd_mem (fun m => store32 m v freelist) ;;
  upd_kmem (fun k => k <| km_freelist := v |>) ;;
  use_lock ← get_kmem km_use_lock ;
  when (nz use_lock) (release L_kmem).

Definition kalloc : K Z :=
  use_lock ← get_kmem km_use_lock ;
  when (nz use_lock) (acquire L_kmem) ;;
  r ← get_kmem km_freelist ;
  next ← gets (fun s => load32 (k_mem s) r) ;
  when (nz r) (upd_kmem (fun k => k <| km_freelist := next |>)) ;;
  use_lock ← get_kmem km_use_lock ;
  when (nz use_lock) (release L_kmem) ;;
  mret r.

(** [for(; p + PGSIZE <= vend; p += PGSIZE) kfree(p);] with [n] rounds at most. *)
Fixpoint freerange_loop (n : nat) (p vend : Z) : K unit :=
  match n with
  | O => mret tt
  | S n' =>
      if p + PGSIZE <=? vend then kfree p ;; freerange_loop n' (p + PGSIZE) vend else mret tt
  end.

Definition freerange (vstart vend : Z) : K unit :=
  let p := PGROUNDUP vstart in
  freerange_loop (Z.to_nat ((vend - p) / PGSIZE)) p vend.

Definition kinit1 (vstart vend : Z) : K unit :=
  initlock L_kmem "kmem" ;;
  upd_kmem (fun k => k <| km_use_lock := 0 |>) ;;
  freerange vstart vend.

Definition kinit2 (vstart vend : Z) : K unit :=
  freerange vstart vend ;;
  upd_kmem (fun k => k <| km_use_lock := 1 |>).

(** ** The free list as a list of pages *)

Fixpoint chain (m : memory) (p : Z) (l : list Z) : Prop :=
  match l with
  | [] => p = 0
  | x :: l' => p = x /\ chain m (load32 m x) l'
  end.

(** A page [kfree] accepts. *)
Definition page_ok (v : Z) : Prop :=
  v mod PGSIZE = 0 /\ kernel_end <= v /\ KERNBASE <= v < KERNBASE + PHYSTOP.

Record freelist_ok (s : kernel) (l : list Z) : Prop := FreelistOk {
  fl_chain : chain (k_mem s) (km_freelist (k_kmem s)) l;
  fl_nodup : NoDup l;
  fl_pages : Forall page_ok l;
  fl_bytes : bytes_ok (k_mem s)
}.

(** The allocator's lock, if it is in use, can be taken. *)
Definition kmem_ready (s : kernel) : Prop :=
  cli_ok (k_hw s) /\ (km_use_lock (k_kmem s) = 0 \/ ((0 < fuel)%nat /\ lock_free (k_hw s) L_kmem)).

(** The pages between [p] and [vend], the last one first: the order in which
    [freerange] leaves them on the list. *)
Fixpoint pages_rev (n : nat) (p : Z) : list Z :=
  match n with
  | O => []
  | S n' => pages_rev n' (p + PGSIZE) ++ [p]
  end.

(** ** Specification: a stack of pages *)

Inductive kop : Type := OpAlloc | OpFree (v : Z).

Definition page_okb (v : Z) : bool :=
  (v mod PGSIZE =? 0) && (kernel_end <=? v) && (KERNBASE <=? v) && (v <? KERNBASE + PHYSTOP).

(** A page may be freed when it is a page and is not free already; an allocation
    from the empty stack gives 0. *)
Definition stack_op (o : kop) (l : list Z) : option (Z * list Z) :=
  match o with
  | OpAlloc => Some (match l with [] => (0, []) | v :: l' => (v, l') end)
  | OpFree v => if page_okb v && negb (bool_decide (v ∈ l)) then Some (0, v :: l) else None
  end.

Fixpoint stack_ops (os : list kop) (l : list Z) : option (list Z * list Z) :=
  match os with
  | [] => Some ([], l)
  | o :: os' =>
      '(r, l1) ← stack_op o l ;
      '(rs, l2) ← stack_ops os' l1 ;
      Some (r :: rs, l2)
  end.

(** The same sequence of calls of the allocator. *)
Definition kmem_op (o : kop) : K Z :=
  match o with OpAlloc => kalloc | OpFree v => kfree v ;; mret 0 end.

Fixpoint kmem_ops (os : list kop) : K (list Z) :=
  match os with
  | [] => mret []
  | o :: os' => r ← kmem_op o ; rs ← kmem_ops os' ; mret (r :: rs)
  end.

(** The state after [kfree v] and after [kalloc]. *)
Definition freed (v : Z) (s : kernel) : kernel :=
  s <| k_mem := store32 (memset (k_mem s) v 1 PGSIZE) v (km_freelist (k_kmem s)) |>
    <| k_kmem ::= fun k => k <| km_freelist := v |> |>.

(** The state after [kalloc]. *)
Definition taken (s : kernel) : kernel :=
  if nz (km_freelist (k_kmem s))
  then s <| k_kmem ::= fun k => k <| km_freelist := load32 (k_mem s) (km_freelist (k_kmem s)) |> |>
  else s.

End kalloc.

Section rules.
Context {E : Env}.

Lemma page_ok_disjoint a b x y :
  page_ok a -> page_ok b -> a <> b -> a <= x < a + PGSIZE -> b <= y < b + PGSIZE -> x <> y.
Proof.
  intros (Ha & _) (Hb & _) Hne Hx Hy. unfold PGSIZE in *.
  pose proof (Z.div_mod a 4096 ltac:(lia)). pose proof (Z.div_mod b 4096 ltac:(lia)). lia.
Qed.

Lemma page_ok_pos v : page_ok v -> 0 < v < W32.
Proof. intros (_ & _ & H). unfold KERNBASE, PHYSTOP, W32 in *. lia. Qed.

(** A change of memory outside the pages of the list leaves the list. *)
Lemma chain_ext m m' p l :
  Forall page_ok l ->
  (forall x a, In x l -> x <= a < x + 4 -> load8 m' a = load8 m a) ->
  chain m p l -> chain m' p l.
Proof.
  intros Hl. revert p. induction Hl as [|x l Hx Hl IH]; intros p Hm Hc; [done|].
  destruct Hc as [-> Hc]. split; [done|].
  rewrite (load32_ext m m') by (intros; eapply Hm; [by left|done]).
  apply IH; [|done]. intros; eapply Hm; [by right|done].
Qed.

Lemma kfree_guard v : page_ok v -> nz (v mod PGSIZE) || (v <? kernel_end) || (PHYSTOP <=? V2P v) = false.
Proof.
  intros (Ha & He & Hr). rewrite Ha. change (nz 0) with false.
  rewrite (proj2 (Z.ltb_ge _ _) He). cbn [orb].
  unfold V2P, u32. rewrite Z.mod_small; [apply Z.leb_gt; lia|].
  unfold KERNBASE, PHYSTOP, W32 in *. lia.
Qed.

(** Taking the lock when it is in use, and leaving it. *)
Lemma kmem_section s :
  kmem_ready s ->
  exists h,
    when (nz (km_use_lock (k_kmem s))) (acquire L_kmem) s = Done tt (s <| k_hw := h |>)
    /\ (forall s', k_hw s' = h -> km_use_lock (k_kmem s') = km_use_lock (k_kmem s) ->
         when (nz (km_use_lock (k_kmem s'))) (release L_kmem) s' = Done tt (s' <| k_hw := k_hw s |>)).
Proof.
  intros [(i & c & Hr) Hl].
  destruct (nz (km_use_lock (k_kmem s))) eqn:Eu.
  - destruct Hl as [Hl | [Hf Hl]]; [by rewrite Hl in Eu|].
    destruct (critical_section s i c L_kmem Hf Hr Hl) as (h & c' & Ha & _ & _ & _ & _ & Hrel).
    exists h. split; [done|]. intros s' Hs' Hu. rewrite Hu, Eu. by apply Hrel.
  - exists (k_hw s). split; [by rewrite set_hw_hw|].
    intros s' Hs' Hu. rewrite Hu, Eu. by rewrite set_hw_same.
Qed.

Lemma kfree_run v s : kmem_ready s -> page_ok v -> kfree v s = Done tt (freed v s).
Proof.
  intros Hk Hv. unfold kfree, upd_mem, upd_kmem, get_kmem. rewrite kfree_guard by done. kstep.
  set (s1 := set k_mem _ s). kstep.
  destruct (kmem_section s1) as (h & Ha & Hrel); [exact Hk|].
  krun Ha. do 4 kstep. rewrite Hrel by done. unfold freed. by destruct s.
Qed.

Lemma kalloc_run s : kmem_ready s -> kalloc s = Done (km_freelist (k_kmem s)) (taken s).
Proof.
  intros Hk. unfold taken, kalloc, upd_kmem, get_kmem. kstep.
  destruct (kmem_section s Hk) as (h & Ha & Hrel). krun Ha. do 2 kstep.
  cbn. destruct (nz (km_freelist (k_kmem s))); unfold when at 1; kstep; kstep;
    (erewrite bind_done; [|by apply Hrel]); by destruct s.
Qed.

Lemma freed_load8 v s a :
  page_ok v -> ~ (v <= a < v + PGSIZE) -> load8 (k_mem (freed v s)) a = load8 (k_mem s) a.
Proof.
  intros Hv Ha. unfold freed. cbn. rewrite load8_store32, decide_False by (unfold PGSIZE in *; lia).
  rewrite memset_load, decide_False by (unfold PGSIZE in *; lia). done.
Qed.

Lemma chain_head_range m p l : Forall page_ok l -> chain m p l -> 0 <= p < W32.
Proof.
  intros Hl Hc. destruct l as [|x l]; cbn in Hc; [by subst|].
  destruct Hc as [-> _]. apply Forall_cons_1 in Hl as [Hx _]. apply page_ok_pos in Hx. lia.
Qed.

Lemma freed_ok v s l :
  page_ok v -> ~ In v l -> freelist_ok s l -> freelist_ok (freed v s) (v :: l).
Proof.
  intros Hv Hin [Hc Hn Hp Hb]. split.
  - cbn [chain]. split; [done|].
    assert (load32 (k_mem (freed v s)) v = km_freelist (k_kmem s)) as ->.
    { unfold freed. cbn. apply load32_store32. by eapply chain_head_range. }
    eapply chain_ext; [done| |done]. intros x a Hx Ha. apply freed_load8; [done|].
    rewrite Forall_forall in Hp. intros Hva.
    eapply (page_ok_disjoint v x a a); try done.
    + apply Hp, list_elem_of_In, Hx.
    + by intros ->.
    + unfold PGSIZE. lia.
  - constructor; [|done]. by rewrite list_elem_of_In.
  - by constructor.
  - unfold freed. cbn. apply bytes_ok_store32. intros a. rewrite memset_load by done.
    case_decide; [apply u8_range|apply Hb].
Qed.

Lemma page_okb_ok v : page_okb v = true -> page_ok v.
Proof.
  unfold page_okb, page_ok. rewrite !andb_true_iff, Z.eqb_eq, !Z.leb_le, Z.ltb_lt. tauto.
Qed.

Lemma kmem_op_refines o s l r l' :
  kmem_ready s -> freelist_ok s l -> stack_op o l = Some (r, l') ->
  exists s', kmem_op o s = Done r s' /\ kmem_ready s' /\ freelist_ok s' l'.
Proof.
  intros Hk Hl Ho. destruct o as [|v]; cbn [stack_op kmem_op] in *.
  - rewrite kalloc_run by done. unfold taken. destruct Hl as [Hc Hn Hp Hb].
    destruct l as [|v l1]; cbn in Hc; injection Ho as <- <-.
    + rewrite Hc. exists s. split_and!; [done..|]. by split.
    + destruct Hc as [Hv Hc]. apply Forall_cons_1 in Hp as [Hp1 Hp2].
      apply NoDup_cons in Hn as [_ Hn]. rewrite Hv.
      assert (nz v = true) as -> by (apply nz_true; pose proof (page_ok_pos _ Hp1); lia).
      eexists. split_and!; [done..|]. by split.
  - destruct (page_okb v) eqn:Ev; [|done]. apply page_okb_ok in Ev.
    destruct (decide (v ∈ l)) as [Hin|Hin]; [by rewrite bool_decide_eq_true_2 in Ho|].
    rewrite bool_decide_eq_false_2 in Ho by done. cbn in Ho. simplify_eq.
    exists (freed v s). krun (kfree_run _ _ Hk Ev). split; [done|]. split; [done|].
    apply freed_ok; [done| |done]. by rewrite <- list_elem_of_In.
Qed.

Lemma freerange_loop_run n p vend s l :
  kmem_ready s -> freelist_ok s l ->
  Z.of_nat n = Z.max 0 ((vend - p) / PGSIZE) ->
  (forall k, 0 <= k < Z.of_nat n -> page_ok (p + k * PGSIZE) /\ p + k * PGSIZE ∉ l) ->
  exists s', freerange_loop n p vend s = Done tt s' /\ kmem_ready s'
             /\ freelist_ok s' (pages_rev n p ++ l).
Proof.
  revert p s l. induction n as [|n IH]; intros p s l Hk Hl Hn Hp; [by exists s|].
  cbn [freerange_loop pages_rev].
  assert ((vend - p) / PGSIZE = Z.of_nat (S n)) as Hd by lia.
  assert (p + PGSIZE <= vend) as Hle.
  { pose proof (Z.mul_div_le (vend - p) PGSIZE ltac:(done)). unfold PGSIZE in *. lia. }
  rewrite (proj2 (Z.leb_le _ _) Hle).
  destruct (Hp 0) as [Hp0 Hp0']; [lia|]. rewrite Z.mul_0_l, Z.add_0_r in Hp0, Hp0'.
  krun (kfree_run _ _ Hk Hp0).
  destruct (IH (p + PGSIZE) (freed p s) (p :: l)) as (s' & Hs' & Hk' & Hl').
  - done.
  - apply freed_ok; [done| |done]. by rewrite <- list_elem_of_In.
  - replace (vend - (p + PGSIZE)) with (vend - p + (-1) * PGSIZE) by lia.
    rewrite Z.div_add by done. lia.
  - intros k Hk'. destruct (Hp (k + 1)) as [H1 H2]; [lia|].
    replace (p + PGSIZE + k * PGSIZE) with (p + (k + 1) * PGSIZE) by lia.
    split; [done|]. rewrite not_elem_of_cons. split; [|done]. unfold PGSIZE. lia.
  - exists s'. rewrite <- app_assoc. done.
Qed.

(** *** Invariants that do not depend on the allocator and the memory *)

Section keeps.
Context (I : kernel -> Prop) `{!Frame k_hw I} `{!Frame k_kmem I} `{!Frame k_mem I}.

Lemma keeps_kfree v : keeps I (kfree v).
Proof. unfold kfree, upd_mem, upd_kmem, get_kmem. keeps. Qed.

Lemma keeps_kalloc : keeps I kalloc.
Proof. unfold kalloc, upd_kmem, get_kmem. keeps. Qed.

End keeps.

(** ** Properties *)

(** C10: every sequence of allocations and frees that is legal for a
    stack of pages runs on the linked list in memory, from any state whose list is
    that stack, without a panic and with the same results, and ends with the list
    equal to the resulting stack. *)
Theorem kmem_refines_stack os s l rs l' :
  kmem_ready s -> freelist_ok s l -> stack_ops os l = Some (rs, l') ->
  exists s', kmem_ops os s = Done rs s' /\ freelist_ok s' l'.
Proof.
  revert s l rs l'. induction os as [|o os IH]; intros s l rs l' Hk Hl Ho; cbn in Ho.
  - simplify_eq. by exists s.
  - destruct (stack_op o l) as [[r l1]|] eqn:E1; [|done]. cbn in Ho.
    destruct (stack_ops os l1) as [[rs1 l2]|] eqn:E2; [|done]. cbn in Ho. simplify_eq.
    destruct (kmem_op_refines _ _ _ _ _ Hk Hl E1) as (s1 & H1 & Hk1 & Hl1).
    destruct (IH _ _ _ _ Hk1 Hl1 E2) as (s2 & H2 & Hl2).
    exists s2. split; [|done]. cbn [kmem_ops]. krun H1. by krun H2.
Qed.

Lemma range_pages vstart vend n k :
  0 <= vstart -> vstart + PGSIZE <= W32 -> kernel_end <= vstart -> KERNBASE <= vstart ->
  vend <= KERNBASE + PHYSTOP ->
  Z.of_nat n = Z.max 0 ((vend - PGROUNDUP vstart) / PGSIZE) -> 0 <= k < Z.of_nat n ->
  page_ok (PGROUNDUP vstart + k * PGSIZE).
Proof.
  intros H0 H1 He Hb Hv Hn Hk. destruct (PGROUNDUP_spec vstart H0 H1) as [Hm Hr].
  pose proof (Z.mul_div_le (vend - PGROUNDUP vstart) PGSIZE ltac:(done)).
  split; [by rewrite Z.mod_add|]. unfold PGSIZE in *. lia.
Qed.

(** [kinit1] on an empty allocator puts exactly the whole pages of
    its range on the free list, once each and the highest on top, whatever the
    alignment of the range. *)
Theorem kinit1_frees_range vstart vend s :
  cli_ok (k_hw s) -> bytes_ok (k_mem s) -> km_freelist (k_kmem s) = 0 ->
  kernel_end <= vstart -> KERNBASE <= vstart -> vstart + PGSIZE <= W32 ->
  vend <= KERNBASE + PHYSTOP ->
  let p := PGROUNDUP vstart in
  exists s', kinit1 vstart vend s = Done tt s'
             /\ freelist_ok s' (pages_rev (Z.to_nat ((vend - p) / PGSIZE)) p).
Proof.
  intros (i & c & Hc) Hb Hf He Hk Hw Hv p.
  unfold kinit1, initlock, upd_hw, upd_kmem. kstep. kstep.
  set (s1 := set k_kmem _ _).
  destruct (freerange_loop_run (Z.to_nat ((vend - p) / PGSIZE)) p vend s1 []) as (s' & H1 & _ & H2).
  - split; [|by left]. exists i, c. destruct Hc as [Ht Hn]. by split.
  - split; [done|constructor|constructor|done].
  - lia.
  - intros k Hk'. split; [|by apply not_elem_of_nil].
    eapply (range_pages vstart vend); try done; [unfold KERNBASE in *; lia|].
    fold p. lia.
  - rewrite app_nil_r in H2. by exists s'.
Qed.
End rules.

#[export] Hint Resolve keeps_kfree keeps_kalloc : keeps.
