(* ===== verification/Devices.v ===== *)
(** The interrupt controllers and the serial port: lapic.c, ioapic.c, picirq.c and
    [uartinit] of uart.c, and [ideinit] of ide.c.  The writes to their registers are recorded in [pf_out];
    what the devices answer is given by the class [Devices]. *)
From S2P Require Import Prelude Kernel Spinlock Console CString Kalloc.

(** ** traps.h *)

Abbreviation T_SYSCALL := 64 (only parsing).
Abbreviation T_IRQ0 := 32 (only parsing).
Abbreviation IRQ_TIMER := 0 (only parsing).
Abbreviation IRQ_KBD := 1 (only parsing).
Abbreviation IRQ_COM1 := 4 (only parsing).
Abbreviation IRQ_IDE := 14 (only parsing).
Abbreviation IRQ_ERROR := 19 (only parsing).
Abbreviation IRQ_SPURIOUS := 31 (only parsing).

(** ** lapic.c: registers and their bits *)

(** The registers, and their indices in [lapic] as an array of words. *)
Inductive lapic_register : Type :=
| ID | VER | TPR | EOI | SVR | ESR | ICRLO | ICRHI | TIMER | PCINT | LINT0 | LINT1 | ERROR | TICR | TCCR | TDCR.

Definition lapic_index (r : lapic_register) : Z :=
  match r with
  | ID => 0x0020 / 4
  | VER => 0x0030 / 4
  | TPR => 0x0080 / 4
  | EOI => 0x00B0 / 4
  | SVR => 0x00F0 / 4
  | ESR => 0x0280 / 4
  | ICRLO => 0x0300 / 4
  | ICRHI => 0x0310 / 4
  | TIMER => 0x0320 / 4
  | PCINT => 0x0340 / 4
  | LINT0 => 0x0350 / 4
  | LINT1 => 0x0360 / 4
  | ERROR => 0x0370 / 4
  | TICR => 0x0380 / 4
  | TCCR => 0x0390 / 4
  | TDCR => 0x03E0 / 4
  end.

(** The bits used. *)
Abbreviation ENABLE := 0x00000100 (only parsing).
Abbreviation INIT := 0x00000500 (only parsing).
Abbreviation STARTUP := 0x00000600 (only parsing).
Abbreviation DELIVS := 0x00001000 (only parsing).
Abbreviation ASSERT := 0x00004000 (only parsing).
Abbreviation LEVEL := 0x00008000 (only parsing).
Abbreviation BCAST := 0x00080000 (only parsing).
Abbreviation X1 := 0x0000000B (only parsing).
Abbreviation PERIODIC := 0x00020000 (only parsing).
Abbreviation MASKED := 0x00010000 (only parsing).
Abbreviation CMOS_PORT := 0x70 (only parsing).

(** ** ioapic.c, picirq.c, uart.c *)

Abbreviation REG_ID := 0x00 (only parsing).
Abbreviation REG_VER := 0x01 (only parsing).
Abbreviation REG_TABLE := 0x10 (only parsing).
Abbreviation INT_DISABLED := 0x00010000 (only parsing).
Abbreviation IO_PIC1 := 0x20 (only parsing).
Abbreviation IO_PIC2 := 0xA0 (only parsing).
Abbreviation COM1 := 0x3f8 (only parsing).

Section devices.
Context {E : Env} {V : Devices}.

Definition get_pf {T} (f : platform -> T) : K T := gets (fun s => f (k_platform s)).
Definition upd_pf (f : platform -> platform) : K unit := modify (fun s => s <| k_platform ::= f |>).
Definition out (w : io_write) : K unit := upd_pf (fun p => p <| pf_out ::= cons w |>).
Definition outb (port v : Z) : K unit := out (OutB port (u8 v)).

(** ** lapic.c *)

(** The write, and the read of [lapic[ID]] that waits for it. *)
Definition lapicw (r : lapic_register) (value : Z) : K unit := out (LapicW (lapic_index r) value).

Definition lapicinit : K unit :=
  lapic ← get_pf pf_lapic ;
  if lapic =? 0 then mret tt else
  lapicw SVR (Z.lor ENABLE (T_IRQ0 + IRQ_SPURIOUS)) ;;
  lapicw TDCR X1 ;;
  lapicw TIMER (Z.lor PERIODIC (T_IRQ0 + IRQ_TIMER)) ;;
  lapicw TICR 10000000 ;;
  lapicw LINT0 MASKED ;;
  lapicw LINT1 MASKED ;;
  when (4 <=? Z.land (Z.shiftr (lapic_reg (lapic_index VER)) 16) 0xFF) (lapicw PCINT MASKED) ;;
  lapicw ERROR (T_IRQ0 + IRQ_ERROR) ;;
  lapicw ESR 0 ;;
  lapicw ESR 0 ;;
  lapicw EOI 0 ;;
  lapicw ICRHI 0 ;;
  lapicw ICRLO (Z.lor (Z.lor BCAST INIT) LEVEL) ;;
  loop fuel (mret (if nz (Z.land (lapic_reg (lapic_index ICRLO)) DELIVS) then None else Some tt)) ;;
  lapicw TPR 0.

Definition lapiceoi : K unit :=
  lapic ← get_pf pf_lapic ;
  when (nz lapic) (lapicw EOI 0).

(** [microdelay] does nothing. *)
Definition lapicstartap (apicid addr : Z) : K unit :=
  outb CMOS_PORT 0xF ;;
  outb (CMOS_PORT + 1) 0x0A ;;
  let wrv := P2V (Z.lor (Z.shiftl 0x40 4) 0x67) in
  upd_mem (fun m => store8 (store8 m wrv 0) (wrv + 1) 0) ;;
  upd_mem (fun m => let v := u16 (Z.shiftr addr 4) in store8 (store8 m (wrv + 2) v) (wrv + 3) (Z.shiftr v 8)) ;;
  lapicw ICRHI (i32 (Z.shiftl apicid 24)) ;;
  lapicw ICRLO (Z.lor (Z.lor INIT LEVEL) ASSERT) ;;
  lapicw ICRLO (Z.lor INIT LEVEL) ;;
  for_each (seq 0 2) (fun _ =>
    lapicw ICRHI (i32 (Z.shiftl apicid 24)) ;;
    lapicw ICRLO (Z.lor STARTUP (Z.shiftr addr 12))).

(** *** The clock *)

Record rtcdate := Rtcdate { rt_second : Z; rt_minute : Z; rt_hour : Z; rt_day : Z; rt_month : Z; rt_year : Z }.
#[global] Instance rtcdate_eq_dec : EqDecision rtcdate.
Proof. solve_decision. Defined.

(** What the clock shows may change from one access to the next. *)
Definition cmos_read (reg : Z) : K Z :=
  outb CMOS_PORT reg ;;
  t ← get_pf (fun p => length (pf_out p)) ;
  mret (cmos t reg).

Definition fill_rtcdate : K rtcdate :=
  second ← cmos_read 0x00 ;
  minute ← cmos_read 0x02 ;
  hour ← cmos_read 0x04 ;
  day ← cmos_read 0x07 ;
  month ← cmos_read 0x08 ;
  year ← cmos_read 0x09 ;
  mret (Rtcdate second minute hour day month year).

(** [CONV(x)], and what [cmostime] makes of the registers. *)
Definition conv (x : Z) : Z := Z.shiftr x 4 * 10 + Z.land x 0xf.
Definition decode (bcd : bool) (t1 : rtcdate) : rtcdate :=
  let t1 := if bcd then Rtcdate (conv (rt_second t1)) (conv (rt_minute t1)) (conv (rt_hour t1)) (conv (rt_day t1))
                          (conv (rt_month t1)) (conv (rt_year t1))
            else t1 in
  Rtcdate (rt_second t1) (rt_minute t1) (rt_hour t1) (rt_day t1) (rt_month t1) (rt_year t1 + 2000).

(** A round of the loop of [cmostime]. *)
Definition cmos_round : K (option rtcdate) :=
  t1 ← fill_rtcdate ;
  a ← cmos_read 0x0a ;
  if nz (Z.land a (Z.shiftl 1 7)) then mret None else
  t2 ← fill_rtcdate ;
  mret (if decide (t1 = t2) then Some t1 else None).

Definition cmostime : K rtcdate :=
  sb ← cmos_read 0x0b ;
  let bcd := Z.land sb (Z.shiftl 1 2) =? 0 in
  t1 ← loop fuel cmos_round ;
  mret (decode bcd t1).

(** ** ioapic.c *)

Definition ioapicread (reg : Z) : Z := ioapic_reg reg.
Definition ioapicwrite (reg data : Z) : K unit := out (IoapicW reg (u32 data)).

Definition ioapicinit : K unit :=
  let maxintr := Z.land (Z.shiftr (ioapicread REG_VER) 16) 0xFF in
  let id := Z.shiftr (ioapicread REG_ID) 24 in
  ioapicid ← get_pf pf_ioapicid ;
  when (negb (id =? ioapicid))
    (cprintf "ioapicinit: id isn't equal to ioapicid; not a MP
" []) ;;
  for_each (seqZ 0 (maxintr + 1)) (fun i =>
    ioapicwrite (REG_TABLE + 2 * i) (Z.lor INT_DISABLED (T_IRQ0 + i)) ;;
    ioapicwrite (REG_TABLE + 2 * i + 1) 0).

Definition ioapicenable (irq cpunum : Z) : K unit :=
  ioapicwrite (REG_TABLE + 2 * irq) (T_IRQ0 + irq) ;;
  ioapicwrite (REG_TABLE + 2 * irq + 1) (Z.shiftl cpunum 24).

(** ** picirq.c *)

Definition picinit : K unit :=
  outb (IO_PIC1 + 1) 0xFF ;;
  outb (IO_PIC2 + 1) 0xFF.

(** ** uart.c *)

Definition uartinit : K unit :=
  outb (COM1 + 2) 0 ;;
  outb (COM1 + 3) 0x80 ;;
  outb (COM1 + 0) (115200 / 9600) ;;
  outb (COM1 + 1) 0 ;;
  outb (COM1 + 3) 0x03 ;;
  outb (COM1 + 4) 0 ;;
  outb (COM1 + 1) 0x01 ;;
  if inb (COM1 + 5) =? 0xFF then mret tt else
  upd_cons (fun cs => cs <| cs_uart := 1 |>) ;;
  ioapicenable IRQ_COM1 0 ;;
  for_each (cstr "xv6...
") uartputc.

(** ** ide.c *)

Abbreviation IDE_BSY := 0x80 (only parsing).
Abbreviation IDE_DRDY := 0x40 (only parsing).
Abbreviation IDE_DF := 0x20 (only parsing).
Abbreviation IDE_ERR := 0x01 (only parsing).

Definition idewait (checkerr : bool) : K Z :=
  r ← loop fuel (let r := inb 0x1f7 in
    mret (if negb (Z.land r (Z.lor IDE_BSY IDE_DRDY) =? IDE_DRDY) then None else Some r)) ;
  mret (if checkerr && nz (Z.land r (Z.lor IDE_DF IDE_ERR)) then -1 else 0).

Definition ideinit : K unit :=
  initlock L_ide "ide" ;;
  cs ← get_hw h_cpus ;
  ioapicenable IRQ_IDE (Z.of_nat (length cs) - 1) ;;
  idewait false ;;
  outb 0x1f6 (Z.lor 0xe0 (Z.shiftl 1 4)) ;;
  for_find (seq 0 1000) (fun _ =>
    if negb (inb 0x1f7 =? 0) then modify (fun s => s <| k_havedisk1 := 1 |>) ;; mret (Some tt)
    else mret None) ;;
  outb 0x1f6 (Z.lor 0xe0 (Z.shiftl 0 4)).

End devices.

(** ** The clock is not read while it changes *)

Section clock.
Context {E : Env} {V : Devices}.

(** The accesses to devices so far. *)
Definition accesses (s : kernel) : nat := length (pf_out (k_platform s)).

(** The clock shows [date t] after [t] accesses. *)
Definition shows (date : nat -> rtcdate) : Prop := forall t,
  cmos t 0x00 = rt_second (date t) /\ cmos t 0x02 = rt_minute (date t) /\ cmos t 0x04 = rt_hour (date t)
  /\ cmos t 0x07 = rt_day (date t) /\ cmos t 0x08 = rt_month (date t) /\ cmos t 0x09 = rt_year (date t).

(** It changes at most once in any thirteen accesses. *)
Definition slow (date : nat -> rtcdate) : Prop := forall k, exists c,
  (forall t, (k < t <= c)%nat -> date t = date (S k)) /\ (forall t, (c < t <= k + 13)%nat -> date t = date (k + 13)%nat).

Lemma cmos_read_run reg s : exists s', cmos_read reg s = Done (cmos (S (accesses s)) reg) s' /\ accesses s' = S (accesses s).
Proof. eexists. split; [reflexivity|done]. Qed.

Lemma fill_run s : exists s', accesses s' = (accesses s + 6)%nat /\
  fill_rtcdate s = Done (Rtcdate (cmos (accesses s + 1) 0x00) (cmos (accesses s + 2) 0x02) (cmos (accesses s + 3) 0x04)
                           (cmos (accesses s + 4) 0x07) (cmos (accesses s + 5) 0x08) (cmos (accesses s + 6) 0x09)) s'.
Proof.
  unfold fill_rtcdate. destruct (cmos_read_run 0x00 s) as (s1 & R1 & A1). krun R1.
  destruct (cmos_read_run 0x02 s1) as (s2 & R2 & A2). krun R2. destruct (cmos_read_run 0x04 s2) as (s3 & R3 & A3). krun R3.
  destruct (cmos_read_run 0x07 s3) as (s4 & R4 & A4). krun R4. destruct (cmos_read_run 0x08 s4) as (s5 & R5 & A5). krun R5.
  destruct (cmos_read_run 0x09 s5) as (s6 & R6 & A6). krun R6. exists s6. split; [lia|].
  rewrite A5, A4, A3, A2, A1. unfold mret, M_ret. by rewrite !Nat.add_succ_r, Nat.add_0_r.
Qed.
Lemma cmos_round_run date s :
  shows date -> slow date -> exists o s', cmos_round s = Done o s' /\ (forall r, o = Some r -> exists t, r = date t).
Proof.
  intros Hd Hslow. unfold cmos_round. destruct (fill_run s) as (s1 & A1 & R1). krun R1.
  destruct (cmos_read_run 0x0a s1) as (s2 & R2 & A2). krun R2.
  destruct (nz _); [by eexists _, _|]. destruct (fill_run s2) as (s3 & A3 & R3). krun R3. rewrite A2, A1.
  eexists _, _. split; [done|]. intros r Hr. case_decide as E'; [|done]. injection Hr as <-.
  destruct (Hslow (accesses s)) as (c & Hb & Ha). set (k := accesses s) in *. clearbody k.
  destruct (decide (k + 6 <= c)%nat) as [Hc|Hc].
  - exists (S k). destruct (Hd (k + 1)%nat) as (-> & _). destruct (Hd (k + 2)%nat) as (_ & -> & _).
    destruct (Hd (k + 3)%nat) as (_ & _ & -> & _). destruct (Hd (k + 4)%nat) as (_ & _ & _ & -> & _).
    destruct (Hd (k + 5)%nat) as (_ & _ & _ & _ & -> & _). destruct (Hd (k + 6)%nat) as (_ & _ & _ & _ & _ & ->).
    rewrite (Hb (k + 1)%nat), (Hb (k + 2)%nat), (Hb (k + 3)%nat), (Hb (k + 4)%nat), (Hb (k + 5)%nat), (Hb (k + 6)%nat) by lia.
    by destruct (date (S k)).
  - exists (k + 13)%nat. rewrite E'. destruct (Hd (S (k + 6) + 1)%nat) as (-> & _). destruct (Hd (S (k + 6) + 2)%nat) as (_ & -> & _).
    destruct (Hd (S (k + 6) + 3)%nat) as (_ & _ & -> & _). destruct (Hd (S (k + 6) + 4)%nat) as (_ & _ & _ & -> & _).
    destruct (Hd (S (k + 6) + 5)%nat) as (_ & _ & _ & _ & -> & _). destruct (Hd (S (k + 6) + 6)%nat) as (_ & _ & _ & _ & _ & ->).
    rewrite (Ha (S (k + 6) + 1)%nat), (Ha (S (k + 6) + 2)%nat), (Ha (S (k + 6) + 3)%nat), (Ha (S (k + 6) + 4)%nat),
      (Ha (S (k + 6) + 5)%nat), (Ha (S (k + 6) + 6)%nat) by lia.
    by destruct (date (k + 13)%nat).
Qed.

Lemma cmos_loop_run date n s :
  shows date -> slow date ->
  (exists t s', loop n cmos_round s = Done (date t) s') \/ exists s', loop n cmos_round s = Stop OutOfFuel s'.
Proof.
  intros Hd Hslow. revert s. induction n as [|n IH]; intros s; [right; by eexists|].
  destruct (cmos_round_run date s Hd Hslow) as (o & s1 & R & Ho). rewrite loop_S. unfold mbind, M_bind. rewrite R. cbn [kbind].
  destruct o as [r|]; [|apply IH]. destruct (Ho r eq_refl) as [t ->]. left. by exists t, s1.
Qed.

(** The date [cmostime] gives is one the clock showed, not one put together from two,
    even if the clock changes while it is read; it can only go on waiting.  It does not wait if the
    clock is steady. *)
Theorem cmostime_not_torn date s :
  shows date -> slow date ->
  ((exists t bcd s', cmostime s = Done (decode bcd (date t)) s') \/ exists s', cmostime s = Stop OutOfFuel s')
  /\ ((0 < fuel)%nat -> (forall t, date t = date 0%nat /\ Z.land (cmos t 0x0a) 128 = 0) ->
       exists bcd s', cmostime s = Done (decode bcd (date 0%nat)) s').
Proof.
  intros Hd Hslow. unfold cmostime. destruct (cmos_read_run 0x0b s) as (s0 & R0 & _). split.
  - krun R0. destruct (cmos_loop_run date fuel s0 Hd Hslow) as [(t & s' & R)|(s' & R)]; [left|right].
    + krun R. by eexists _, _, _.
    + unfold mbind, M_bind. rewrite R. by eexists.
  - intros Hf Hst. krun R0. assert (exists s', cmos_round s0 = Done (Some (date 0%nat)) s') as (s' & R).
    { unfold cmos_round. destruct (fill_run s0) as (s1 & A1 & R1). krun R1.
      destruct (cmos_read_run 0x0a s1) as (s2 & R2 & A2). krun R2. change (Z.shiftl 1 7) with 128. rewrite (proj2 (Hst _)). change (nz 0) with false. cbv iota.
      destruct (fill_run s2) as (s3 & A3 & R3). krun R3. exists s3.
      assert (forall t, cmos t 0x00 = rt_second (date 0%nat) /\ cmos t 0x02 = rt_minute (date 0%nat) /\ cmos t 0x04 = rt_hour (date 0%nat)
        /\ cmos t 0x07 = rt_day (date 0%nat) /\ cmos t 0x08 = rt_month (date 0%nat) /\ cmos t 0x09 = rt_year (date 0%nat)) as Hc.
      { intros t. rewrite <- (proj1 (Hst t)). apply Hd. }
      rewrite !(proj1 (Hc _)), !(proj1 (proj2 (Hc _))), !(proj1 (proj2 (proj2 (Hc _)))), !(proj1 (proj2 (proj2 (proj2 (Hc _))))),
        !(proj1 (proj2 (proj2 (proj2 (proj2 (Hc _)))))), !(proj2 (proj2 (proj2 (proj2 (proj2 (Hc _)))))).
      rewrite decide_True by done. by destruct (date 0%nat). }
    rewrite (bind_done _ _ _ _ _ (loop_leave _ _ _ _ _ Hf R)). by eexists _, _.
Qed.
End clock.
