(* ===== verification/Proc.v ===== *)
(** The process table: the scheduling half of proc.c ([allocproc], [scheduler],
    [sched], [yield], [sleep], [wakeup], [kill]) and the segment and page-table
    switches of vm.c that it uses.

    [swtch] is the point where a kernel thread leaves the CPU: [Y_sched] in
    [sched], after which the thread continues when the scheduler resumes it, and
    [Y_run p] in [scheduler], after which the scheduler continues when process
    [p] enters [sched]. *)
From S2P Require Import Prelude Kernel Spinlock Console CString Kalloc.

Section proc.
Context {E : Env}.

(** ** The table *)

Definition get_proc (i : nat) : K proc :=
  t ← gets k_ptable ; deref "ptable.proc" (t !! i).
Definition upd_proc (i : nat) (f : proc -> proc) : K unit :=
  modify (fun s => s <| k_ptable ::= alter f i |>).
Definition set_pstate (st : procstate) (p : proc) : proc := p <| p_state := st |>.

(** [for(p = ptable.proc; p < &ptable.proc[NPROC]; p++)] *)
Definition procs : list nat := seq 0 NPROC.

Definition pinit : K unit := initlock L_ptable "ptable".

(** [curproc = myproc()], where the code uses it without a test. *)
Definition curproc : K nat := o ← myproc ; deref "myproc() is null" o.

(** ** vm.c: segments and the page-table register *)

Definition upd_gdt (i seg : nat) (d : segdesc) : K unit :=
  upd_cpu i (fun c => c <| c_gdt ::= <[seg := d]> |>).

Definition seginit : K unit :=
  n ← cpuid ;
  let i := Z.to_nat n in
  upd_gdt i SEG_KCODE (SEG (Z.lor STA_X STA_R) 0 0xffffffff 0) ;;
  upd_gdt i SEG_KDATA (SEG STA_W 0 0xffffffff 0) ;;
  upd_gdt i SEG_UCODE (SEG (Z.lor STA_X STA_R) 0 0xffffffff DPL_USER) ;;
  upd_gdt i SEG_UDATA (SEG STA_W 0 0xffffffff DPL_USER) ;;
  modify (fun s => s <| k_gdtr := Some i |>).

Definition switchkvm : K unit :=
  modify (fun s => s <| k_cr3 := V2P (k_kpgdir s) |>).

(** [sizeof(struct taskstate)] is 104. *)
Definition switchuvm (p : option nat) : K unit :=
  match p with
  | None => panic "switchuvm: no process"
  | Some p =>
      pr ← get_proc p ;
      if p_kstack pr =? 0 then panic "switchuvm: no kstack" else
      if p_pgdir pr =? 0 then panic "switchuvm: no pgdir" else
      pushcli ;;
      i ← mycpu ;
      upd_gdt i SEG_TSS (SEG16 STS_T32A (cpu_ts_addr i) (104 - 1) 0) ;;
      upd_cpu i (fun c => c <| c_gdt ::= alter (fun d => d <| sd_s := 0 |>) SEG_TSS |>) ;;
      upd_cpu i (fun c => c <| c_ts_ss0 := Z.shiftl (Z.of_nat SEG_KDATA) 3 |>) ;;
      upd_cpu i (fun c => c <| c_ts_esp0 := u32 (p_kstack pr + KSTACKSIZE) |>) ;;
      upd_cpu i (fun c => c <| c_ts_iomb := 0xFFFF |>) ;;
      modify (fun s => s <| k_tr := Z.shiftl (Z.of_nat SEG_TSS) 3 |>) ;;
      modify (fun s => s <| k_cr3 := V2P (p_pgdir pr) |>) ;;
      popcli
  end.

(** ** Allocating a process *)

Definition zero_context : context := Context_ 0 0 0 0 0.

(** [nextpid] is a number without bound: the overflow of the [int] after 2^31 processes is not
    modelled. *)
Definition allocproc : K (option nat) :=
  acquire L_ptable ;;
  found ← for_find procs (fun i =>
    p ← get_proc i ;
    mret (if decide (p_state p = UNUSED) then Some i else None)) ;
  match found with
  | None => release L_ptable ;; mret None
  | Some i =>
      upd_proc i (set_pstate EMBRYO) ;;
      pid ← gets k_nextpid ;
      modify (fun s => s <| k_nextpid ::= Z.add 1 |>) ;;
      upd_proc i (fun p => p <| p_pid := pid |>) ;;
      upd_proc i (fun p => p <| p_containerID := 0 |>) ;;
      release L_ptable ;;
      kstack ← kalloc ;
      upd_proc i (fun p => p <| p_kstack := kstack |>) ;;
      if kstack =? 0 then
        upd_proc i (set_pstate UNUSED) ;; mret None
      else
        upd_proc i (fun p => p <| p_retaddr := trapret_addr |>) ;;
        upd_proc i (fun p => p <| p_context := zero_context |>) ;;
        upd_proc i (fun p => p <| p_context ::= fun c => c <| cx_eip := forkret_addr |> |>) ;;
        mret (Some i)
  end.

(** ** Leaving and entering the CPU *)

Definition sched : K unit :=
  p ← myproc ;
  h ← holding L_ptable ;
  if negb h then panic "sched ptable.lock" else
  i ← mycpu ;
  c ← get_cpu i ;
  if negb (c_ncli c =? 1) then panic "sched locks" else
  pi ← deref "sched: no process" p ;
  pr ← get_proc pi ;
  if decide (p_state pr = RUNNING) then panic "sched running" else
  eflags ← readeflags ;
  if nz (Z.land eflags FL_IF) then panic "sched interruptible" else
  i ← mycpu ;
  c ← get_cpu i ;
  yield_to Y_sched ;;
  i ← mycpu ;
  upd_cpu i (fun c' => c' <| c_intena := c_intena c |>).

Definition yield : K unit :=
  acquire L_ptable ;;
  p ← curproc ;
  upd_proc p (set_pstate RUNNABLE) ;;
  sched ;;
  release L_ptable.

(** [lk] is the address of a lock, so the test [lk == 0] never succeeds. *)
Definition sleep (ch : chan) (lk : lockid) : K unit :=
  o ← myproc ;
  match o with
  | None => panic "sleep"
  | Some p =>
      when (bool_decide (lk <> L_ptable)) (acquire L_ptable ;; release lk) ;;
      upd_proc p (fun p => p <| p_chan := Some ch |>) ;;
      upd_proc p (set_pstate SLEEPING) ;;
      sched ;;
      upd_proc p (fun p => p <| p_chan := None |>) ;;
      when (bool_decide (lk <> L_ptable)) (release L_ptable ;; acquire lk)
  end.

Definition wakeup1 (ch : option chan) : K unit :=
  for_each procs (fun i =>
    p ← get_proc i ;
    when (bool_decide (p_state p = SLEEPING /\ p_chan p = ch)) (upd_proc i (set_pstate RUNNABLE))).

Definition wakeup (ch : chan) : K unit :=
  acquire L_ptable ;;
  wakeup1 (Some ch) ;;
  release L_ptable.

Definition kill (pid : Z) : K Z :=
  acquire L_ptable ;;
  o ← for_find procs (fun i =>
    p ← get_proc i ;
    if p_pid p =? pid then
      upd_proc i (fun p => p <| p_killed := 1 |>) ;;
      upd_proc i (fun p => p <| p_containerID := 0 |>) ;;
      p ← get_proc i ;
      when (bool_decide (p_state p = SLEEPING)) (upd_proc i (set_pstate RUNNABLE)) ;;
      release L_ptable ;;
      mret (Some 0)
    else mret None) ;
  match o with
  | Some r => mret r
  | None => release L_ptable ;; mret (-1)
  end.

(** ** The scheduler *)

(** The body of the loop over processes, for the container [con] the outer loop
    stands at; [cpu] is the scheduler's [c]. *)
Definition schedule_proc (cpu : nat) (con : nat) (i : nat) : K unit :=
  p ← get_proc i ;
  t ← gets k_ctable ;
  c ← deref "ctable.container" (t !! con) ;
  if p_containerID p =? ct_containerID c then
    if decide (p_state p <> RUNNABLE) then mret tt else
    upd_cpu cpu (fun c => c <| c_proc := Some i |>) ;;
    switchuvm (Some i) ;;
    upd_proc i (set_pstate RUNNING) ;;
    log ← gets k_schedulerLog ;
    p ← get_proc i ;
    when (nz log)
      (cprintf "Container %d : Scheduling process %d
" [AInt (ct_containerID c); AInt (p_pid p)]) ;;
    yield_to (Y_run i) ;;
    switchkvm ;;
    upd_cpu cpu (fun c => c <| c_proc := None |>)
  else mret tt.

(** The body of the loop over containers. *)
Definition schedule_container (cpu : nat) (con : nat) : K unit :=
  t ← gets k_ctable ;
  c ← deref "ctable.container" (t !! con) ;
  if decide (ct_state c <> CWAITING) then mret tt else
  acquire L_ptable ;;
  for_each procs (schedule_proc cpu con) ;;
  release L_ptable.

(** One round of [for(;;)], and [rounds] of them. *)
Definition scheduler_round (cpu : nat) : K unit :=
  sti ;;
  for_each (seq 0 NCONT) (schedule_container cpu).

Definition scheduler (rounds : nat) : K unit :=
  i ← mycpu ;
  upd_cpu i (fun c => c <| c_proc := None |>) ;;
  for_each (seq 0 rounds) (fun _ => scheduler_round i).

End proc.

(** ** The effect of the operations, and the states they run in *)

Section effects.
Context {E : Env}.

(** The effect of [wakeup1] on one entry, and of [kill] on the entry it finds. *)
Definition wake (ch : option chan) (p : proc) : proc :=
  if decide (p_state p = SLEEPING /\ p_chan p = ch) then set_pstate RUNNABLE p else p.

Definition killed (p : proc) : proc :=
  let p := p <| p_killed := 1 |> <| p_containerID := 0 |> in
  if decide (p_state p = SLEEPING) then set_pstate RUNNABLE p else p.

(** The caller may enter [ptable.lock]; the table has its full size. *)
Record ptable_ready (s : kernel) : Prop := PtableReady {
  pr_cli : cli_ok (k_hw s);
  pr_lock : lock_free (k_hw s) L_ptable;
  pr_len : length (k_ptable s) = NPROC
}.

(** The entry [allocproc] claims, before and after its stack is allocated. *)
Definition embryo (pid : Z) (p : proc) : proc :=
  p <| p_state := EMBRYO |> <| p_pid := pid |> <| p_containerID := 0 |>.

Definition stacked (kstack : Z) (p : proc) : proc :=
  p <| p_kstack := kstack |> <| p_retaddr := trapret_addr |>
    <| p_context := Context_ 0 0 0 0 forkret_addr |>.

Definition unstacked (p : proc) : proc := set_pstate UNUSED (p <| p_kstack := 0 |>).

(** What [sched] does when the process is resumed. *)
Definition resume (intena : Z) : K unit :=
  i ← mycpu ; upd_cpu i (fun c => c <| c_intena := intena |>).

(** The state a process leaves the CPU in, holding [ptable.lock] and no other
    lock, and the state it finds when it comes back, on some CPU. *)
Record in_sched (s : kernel) (i : nat) (c : cpu) : Prop := InSched {
  is_runs : runs_on (k_hw s) i c;
  is_ncli : c_ncli c = 1;
  is_held : lock_held (k_hw s) i L_ptable
}.

Definition asleep (ch : chan) (p : proc) : proc := set_pstate SLEEPING (p <| p_chan := Some ch |>).

(** The invariant of the table: it keeps its size, and no process id is used
    twice or before it was drawn from [nextpid] (0 is the id of free entries). *)
Record ptable_ok (t : list proc) (nextpid : Z) : Prop := PtableOk {
  po_len : length t = NPROC;
  po_next : 0 < nextpid;
  po_pid : forall i p, t !! i = Some p -> 0 <= p_pid p < nextpid;
  po_uniq : forall i j p q, t !! i = Some p -> t !! j = Some q ->
              p_pid p = p_pid q -> p_pid p <> 0 -> i = j
}.

Definition ptable_inv (s : kernel) : Prop := ptable_ok (k_ptable s) (k_nextpid s).

End effects.

(** ** Runs of the operations *)

Section rules.
Context {E : Env}.

Lemma get_proc_run s i p : k_ptable s !! i = Some p -> get_proc i s = Done p s.
Proof. intros H. unfold get_proc. kstep. by rewrite H. Qed.

Lemma upd_proc_run s i f : upd_proc i f s = Done tt (s <| k_ptable ::= alter f i |>).
Proof. done. Qed.

#[local] Hint Resolve get_proc_run upd_proc_run : krun.

Lemma procs_table s : length (k_ptable s) = NPROC -> procs = seq 0 (length (k_ptable s)).
Proof. by intros ->. Qed.

Lemma wakeup1_run ch s :
  length (k_ptable s) = NPROC -> wakeup1 ch s = Done tt (s <| k_ptable ::= map (wake ch) |>).
Proof.
  intros Hl. unfold wakeup1. rewrite (procs_table s Hl).
  apply (for_each_map k_ptable (wake ch)). intros i p s' Hp _. kstep.
  unfold wake. case_bool_decide as Hd; unfold when.
  - rewrite upd_proc_run. f_equal. eapply set_alter_ext; [done|]. by rewrite decide_True.
  - unfold mret, M_ret. f_equal. symmetry. eapply set_alter_fix; [done|]. by rewrite decide_False.
Qed.

(** The operations between [acquire] and [release] of the table's lock. *)
Lemma ptable_section s :
  (0 < fuel)%nat -> ptable_ready s ->
  exists h, acquire L_ptable s = Done tt (s <| k_hw := h |>)
    /\ cli_ok h
    /\ (forall lk', L_ptable <> lk' -> lock_free (k_hw s) lk' -> lock_free h lk')
    /\ (forall s', k_hw s' = h -> release L_ptable s' = Done tt (s' <| k_hw := k_hw s |>)).
Proof. intros Hf [Hc Hl _]. by apply lock_section. Qed.

Lemma wakeup_run ch s :
  (0 < fuel)%nat -> ptable_ready s ->
  wakeup ch s = Done tt (s <| k_ptable ::= map (wake (Some ch)) |>).
Proof.
  intros Hf Hs. unfold wakeup. destruct (ptable_section s Hf Hs) as (h & Ha & _ & _ & Hrel).
  krun Ha. erewrite bind_done by (apply wakeup1_run, Hs). cbv beta.
  rewrite Hrel by done. by destruct s.
Qed.

Lemma kill_run pid s :
  (0 < fuel)%nat -> ptable_ready s ->
  kill pid s = match list_find (fun p => p_pid p = pid) (k_ptable s) with
               | Some (i, _) => Done 0 (s <| k_ptable ::= alter killed i |>)
               | None => Done (-1) s
               end.
Proof.
  intros Hf Hs. unfold kill. destruct (ptable_section s Hf Hs) as (h & Ha & _ & _ & Hrel).
  krun Ha. set (s1 := s <| k_hw := h |>).
  rewrite (procs_table s1) by apply Hs.
  assert (forall j y, k_ptable s1 !! j = Some y -> p_pid y <> pid -> get_proc j s1 = Done y s1)
    as Hget by (intros; by apply get_proc_run).
  destruct (list_find (fun p => p_pid p = pid) (k_ptable s)) as [[i p]|] eqn:Ef.
  - pose proof Ef as (Hp & Hpid & _)%list_find_Some.
    erewrite bind_done; [|eapply (for_find_some k_ptable (fun p => p_pid p = pid)); [|exact Ef|]].
    + reflexivity.
    + intros j y Hj Hne. krun (Hget j y Hj Hne). by rewrite (proj2 (Z.eqb_neq _ _) Hne).
    + kstep. rewrite (proj2 (Z.eqb_eq _ _) Hpid). kstep. kstep. rewrite set_alter2.
      erewrite bind_done by (apply get_proc_run, lookup_set_alter, Hp). cbv beta.
      erewrite (bind_done _ _ _ tt (s1 <| k_ptable ::= alter killed i |>)).
      { cbv beta. by kapply Hrel. }
      unfold killed. case_bool_decide as Hd; unfold when.
      * rewrite upd_proc_run, set_alter2. f_equal. eapply set_alter_ext; [done|].
        by rewrite decide_True.
      * unfold mret, M_ret. f_equal. eapply set_alter_ext; [done|]. by rewrite decide_False.
  - erewrite bind_done; [|eapply (for_find_none k_ptable (fun p => p_pid p = pid)); [|exact Ef]].
    + cbv beta match. kapply Hrel. unfold mret, M_ret. f_equal. by destruct s.
    + intros j y Hj Hne. krun (Hget j y Hj Hne). by rewrite (proj2 (Z.eqb_neq _ _) Hne).
Qed.

Lemma allocproc_run s :
  (0 < fuel)%nat -> ptable_ready s -> kmem_ready s ->
  let page := km_freelist (k_kmem s) in
  allocproc s =
    match list_find (fun p => p_state p = UNUSED) (k_ptable s) with
    | None => Done None s
    | Some (i, _) =>
        let s1 := taken (s <| k_nextpid ::= Z.add 1 |>
                           <| k_ptable ::= alter (embryo (k_nextpid s)) i |>) in
        if page =? 0 then Done None (s1 <| k_ptable ::= alter unstacked i |>)
        else Done (Some i) (s1 <| k_ptable ::= alter (stacked page) i |>)
    end.
Proof.
  intros Hf Hs Hk page. unfold allocproc. destruct (ptable_section s Hf Hs) as (h & Ha & _ & _ & Hrel).
  krun Ha. set (s1 := s <| k_hw := h |>). rewrite (procs_table s1) by apply Hs.
  assert (forall j y, k_ptable s1 !! j = Some y -> p_state y <> UNUSED ->
    (p ← get_proc j; mret (if decide (p_state p = UNUSED) then Some j else None)) s1 = Done None s1)
    as Hget.
  { intros j y Hj Hne. krun (get_proc_run s1 j y Hj). by rewrite decide_False. }
  destruct (list_find _ (k_ptable s)) as [[i p]|] eqn:Ef; cycle 1.
  { erewrite bind_done by (by eapply (for_find_none k_ptable (fun p => p_state p = UNUSED))).
    cbv beta match. kapply Hrel. unfold mret, M_ret. f_equal. by destruct s. }
  pose proof Ef as (Hp & Hst & _)%list_find_Some.
  erewrite bind_done; [|eapply (for_find_some k_ptable (fun p => p_state p = UNUSED)); [done|exact Ef|]];
    cycle 1.
  { kstep. by rewrite decide_True. }
  cbv beta match. do 5 kstep.
  set (s2 := set k_ptable _ _).
  assert (s2 = s1 <| k_nextpid ::= Z.add 1 |> <| k_ptable ::= alter (embryo (k_nextpid s)) i |>) as ->.
  { subst s2. change (k_nextpid (set k_ptable _ s1)) with (k_nextpid s). rewrite set_alter2.
    transitivity (s1 <| k_nextpid ::= Z.add 1 |> <| k_ptable ::= alter (set_pstate EMBRYO) i |>
      <| k_ptable ::= alter (fun x => x <| p_pid := k_nextpid s |> <| p_containerID := 0 |>) i |>);
      [done|]. by rewrite set_alter2. }
  kapply Hrel.
  replace (set k_hw _ _) with (s <| k_nextpid ::= Z.add 1 |> <| k_ptable ::= alter (embryo (k_nextpid s)) i |>)
    by (by destruct s).
  kapply kalloc_run. change (km_freelist _) with page. set (s3 := taken _). kstep.
  destruct (page =? 0) eqn:Hz.
  - kstep. rewrite set_alter2. unfold mret, M_ret. apply Z.eqb_eq in Hz. by rewrite Hz.
  - do 3 kstep. by rewrite !set_alter2.
Qed.

(** The entry a successful [allocproc] returns. *)
Lemma allocproc_at s j q :
  (0 < fuel)%nat -> ptable_ready s -> kmem_ready s -> km_freelist (k_kmem s) <> 0 ->
  k_ptable s !! j = Some q -> p_state q = UNUSED ->
  (forall k r, (k < j)%nat -> k_ptable s !! k = Some r -> p_state r <> UNUSED) ->
  exists s', allocproc s = Done (Some j) s'
    /\ k_ptable s' !! j = Some (stacked (km_freelist (k_kmem s)) (embryo (k_nextpid s) q)).
Proof.
  intros Hf Hs Hk Hp Hq Hst Hfst.
  assert (list_find (fun p => p_state p = UNUSED) (k_ptable s) = Some (j, q)) as Hlf.
  { apply list_find_Some. split_and!; [done..|]. intros k r Hr Hlt. by eapply Hfst. }
  eexists. split.
  - rewrite (allocproc_run s Hf Hs Hk), Hlf. cbv zeta. by rewrite (proj2 (Z.eqb_neq _ _) Hp).
  - cbn. unfold taken. cbn. destruct (nz _); cbn; by rewrite !list_lookup_alter_eq, Hq.
Qed.

(** [sched] leaves the CPU in the state it was called in. *)
Lemma sched_run s i c p pr :
  runs_on (k_hw s) i c -> c_ncli c = 1 -> c_proc c = Some p -> lock_held (k_hw s) i L_ptable ->
  k_ptable s !! p = Some pr -> p_state pr <> RUNNING ->
  sched s = Yield Y_sched s (resume (c_intena c)).
Proof.
  intros Hr Hn Hc (l & Hl & Hl1 & Hlc) Hp Hst. pose proof Hr as [Ht _].
  pose proof (runs_on_off _ _ _ Hr ltac:(lia)) as Hif.
  assert (lock_at (k_hw s) L_ptable = l) as Hat by (unfold lock_at; by rewrite Hl).
  unfold sched. krun (myproc_run s i c Hr). krun (holding_run s i c L_ptable Hr).
  rewrite Hat, Hlc, bool_decide_eq_true_2 by done. unfold nz at 1.
  rewrite (proj2 (Z.eqb_neq _ _) Hl1). cbn [andb negb].
  krun (mycpu_run s i c Hif Ht). kapply (get_cpu_run s i c (this_cpu_lookup _ _ _ Ht)).
  rewrite Hn. cbn [negb Z.eqb Pos.eqb]. rewrite Hc. kapply (eq_refl).
  krun (get_proc_run s p pr Hp). rewrite decide_False by done.
  unfold readeflags. kapply get_hw_run. rewrite Hif. change (nz (Z.land 0 FL_IF)) with false. cbv match.
  krun (mycpu_run s i c Hif Ht). kapply (get_cpu_run s i c (this_cpu_lookup _ _ _ Ht)). done.
Qed.

(** [sleep] once it has given up [lk]: CPU [i] holds the lock of the table, as its only one. *)
Lemma fall_asleep s i c p pr ch :
  runs_on (k_hw s) i c -> c_ncli c = 1 -> c_proc c = Some p -> lock_held (k_hw s) i L_ptable -> k_ptable s !! p = Some pr -> forall (f : K unit),
  (upd_proc p (fun p => p <| p_chan := Some ch |>) ;; upd_proc p (set_pstate SLEEPING) ;; sched ;; f) s =
    Yield Y_sched (s <| k_ptable ::= alter (asleep ch) p |>) (resume (c_intena c) ;; f).
Proof.
  intros Hr Hn Hc Hl Hp f. do 2 kstep. rewrite set_alter2. set (s1 := set k_ptable _ _).
  assert (sched s1 = Yield Y_sched s1 (resume (c_intena c))) as Hs by (eapply (sched_run s1 i c p); [exact Hr|done|done|exact Hl|apply lookup_set_alter, Hp|done]).
  by rewrite (bind_yield _ _ _ _ _ _ Hs).
Qed.

Lemma sleep_run s i c p pr ch lk :
  (0 < fuel)%nat -> lk <> L_ptable ->
  runs_on (k_hw s) i c -> c_ncli c = 1 -> c_proc c = Some p -> k_ptable s !! p = Some pr ->
  lock_held (k_hw s) i lk -> lock_free (k_hw s) L_ptable ->
  let h := leave i (push_cpu (eflags_of (k_hw s)) c) lk (enter i L_ptable (k_hw s)) in
  sleep ch lk s =
    Yield Y_sched (s <| k_hw := h |> <| k_ptable ::= alter (asleep ch) p |>)
      (resume (c_intena c) ;; upd_proc p (fun p => p <| p_chan := None |>) ;;
       release L_ptable ;; acquire lk).
Proof.
  intros Hf Hne Hr Hn Hc Hp Hl Hpl h.
  assert (lock_held (enter i L_ptable (k_hw s)) i lk) as Hl1.
  { destruct Hl as (l & ? & ?). exists l. by rewrite enter_locks by congruence. }
  pose proof (enter_runs_on _ _ _ L_ptable Hr) as Hr1.
  assert (0 < c_ncli (push_cpu (eflags_of (k_hw s)) c)) as Hn1 by (cbn; lia).
  unfold sleep. krun (myproc_run s i c Hr). rewrite Hc, bool_decide_eq_true_2 by done. unfold when.
  erewrite (bind_done _ _ _ tt (s <| k_hw := h |>)); cycle 1.
  { krun (acquire_run s i c _ Hf Hr Hpl). erewrite release_held; [|exact Hr1|done|done]. done. }
  cbv beta. rewrite (fall_asleep _ i (pop_cpu (push_cpu (eflags_of (k_hw s)) c)) p pr); [|by apply leave_runs_on|cbn; lia|done| |done].
  - cbn. by rewrite (proj2 (Z.eqb_neq (c_ncli c) 0)) by lia.
  - destruct (enter_held (k_hw s) i L_ptable) as (l & ? & ?). exists l. change (k_hw _) with h. subst h. by rewrite leave_locks.
Qed.

Lemma resume_run s i c v :
  in_sched s i c -> v = 0 \/ v = FL_IF ->
  exists s', resume v s = Done tt s' /\ in_sched s' i (c <| c_intena := v |>)
    /\ s' = s <| k_hw := k_hw s' |> /\ h_locks (k_hw s') = h_locks (k_hw s).
Proof.
  intros [Hr Hn Hl] Hv. pose proof Hr as [Ht _].
  pose proof (runs_on_off _ _ _ Hr ltac:(lia)) as Hif.
  eexists. split; [unfold resume; krun (mycpu_run s i c Hif Ht); reflexivity|].
  split_and!; [|by destruct s|done]. split; [|done|done].
  split; [by eapply this_cpu_alter|]. right. split_and!; [cbn; lia|done|done].
Qed.

(** What a process that slept does when the scheduler resumes it. *)
(** A process that was asleep gives up the lock of the table. *)
Lemma awake_released s i c p v lk :
  lk <> L_ptable -> in_sched s i c -> v = 0 \/ v = FL_IF ->
  let c1 := c <| c_intena := v |> in exists s1,
    (forall f : K unit, (resume v ;; upd_proc p (fun p => p <| p_chan := None |>) ;; release L_ptable ;; f) s = f s1)
    /\ s1 = s <| k_hw := k_hw s1 |> <| k_ptable ::= alter (fun p => p <| p_chan := None |>) p |>
    /\ runs_on (k_hw s1) i (pop_cpu c1) /\ c_ncli c1 = 1 /\ lock_free (k_hw s1) L_ptable /\ h_locks (k_hw s1) !! lk = h_locks (k_hw s) !! lk.
Proof.
  intros Hne Hs Hv c1. destruct (resume_run s i c v Hs Hv) as (s1 & H1 & [Hr1 Hn1 Hl1] & Es1 & Hlk). fold c1 in Hr1, Hn1.
  set (s2 := s1 <| k_ptable ::= alter (fun p => p <| p_chan := None |>) p |>). exists (s2 <| k_hw ::= leave i c1 L_ptable |>). split_and!.
  - intros f. krun H1. kstep. erewrite bind_done by (apply (release_held s2 i c1); [exact Hr1|lia|exact Hl1]). done.
  - subst s2. rewrite Es1. by destruct s.
  - apply leave_runs_on; [done|lia].
  - done.
  - apply leave_free.
  - rewrite <- Hlk by congruence. apply leave_locks. congruence.
Qed.

Lemma awake_run s i c p v lk :
  (0 < fuel)%nat -> lk <> L_ptable -> in_sched s i c -> lock_free (k_hw s) lk ->
  v = 0 \/ v = FL_IF ->
  exists s' c',
    (resume v ;; upd_proc p (fun p => p <| p_chan := None |>) ;; release L_ptable ;; acquire lk) s
      = Done tt s'
    /\ s' = s <| k_hw := k_hw s' |> <| k_ptable ::= alter (fun p => p <| p_chan := None |>) p |>
    /\ runs_on (k_hw s') i c' /\ c_ncli c' = 1 /\ c_intena c' = v /\ c_proc c' = c_proc c
    /\ lock_held (k_hw s') i lk /\ lock_free (k_hw s') L_ptable.
Proof.
  intros Hf Hne Hs (l & Hl & Hl') Hv. destruct (awake_released s i c p v lk Hne Hs Hv) as (s1 & R & Es & Hr & Hn & Hp & Hlk). set (c1 := c <| c_intena := v |>) in *.
  assert (lock_free (k_hw s1) lk) as Hl1 by (exists l; by rewrite Hlk).
  exists (s1 <| k_hw ::= enter i lk |>), (push_cpu (eflags_of (k_hw s1)) (pop_cpu c1)). split_and!.
  - rewrite R. by eapply acquire_run.
  - rewrite Es. by destruct s.
  - by apply enter_runs_on.
  - cbn in *. lia.
  - destruct Hr as [_ [[Hn3 Hi3]|[Hn3 _]]]; cbn in Hn, Hn3 |- *; [|lia]. rewrite Hn3. cbn. symmetry. exact Hi3.
  - done.
  - apply enter_held.
  - by apply enter_free.
Qed.

Lemma awake_waits s i c p v lk j :
  (0 < fuel)%nat -> lk <> L_ptable -> in_sched s i c -> lock_held (k_hw s) j lk -> j <> i -> v = 0 \/ v = FL_IF ->
  waits lk j (spinning i) (fun s r => r = Done tt (s <| k_hw ::= take_lock i lk |>)) (fuel - 1)
    ((resume v ;; upd_proc p (fun p => p <| p_chan := None |>) ;; release L_ptable ;; acquire lk) s).
Proof.
  intros Hf Hne Hs (l & Hl & Hl') Hj Hv. destruct (awake_released s i c p v lk Hne Hs Hv) as (s1 & R & _ & Hr & _ & _ & Hlk). rewrite R.
  eapply acquire_waits; [done|exact Hr|exists l; by rewrite Hlk|done| |by intros s2 l2 (c2 & H2) _; exists c2|by intros s2 (c2 & H2); exists c2].
  eexists. split; [by apply push_runs_on|]. destruct Hr as [_ [[H _]|[H _]]]; cbn in *; lia.
Qed.

Lemma upd_cpu_seq {A} i f g (m : K A) s :
  (upd_cpu i f ;; upd_cpu i g ;; m) s = (upd_cpu i (fun c => g (f c)) ;; m) s.
Proof.
  unfold upd_cpu. do 3 kapply upd_hw_run. f_equal. rewrite set_set. apply set_ext, set_alter2.
Qed.

(** The changes [switchuvm] makes to the CPU it runs on. *)
Lemma switchuvm_run s i c p pr :
  runs_on (k_hw s) i c -> k_ptable s !! p = Some pr -> p_kstack pr <> 0 -> p_pgdir pr <> 0 ->
  exists h c',
    switchuvm (Some p) s =
      Done tt (s <| k_hw := h |> <| k_tr := Z.of_nat SEG_TSS * 8 |> <| k_cr3 := V2P (p_pgdir pr) |>)
    /\ runs_on h i c' /\ c_ncli c' = c_ncli c /\ c_intena c' = c_intena c
    /\ c_proc c' = c_proc c /\ c_ts_esp0 c' = u32 (p_kstack pr + KSTACKSIZE)
    /\ h_locks h = h_locks (k_hw s).
Proof.
  intros Hr Hp Hk Hd. unfold switchuvm. krun (get_proc_run s p pr Hp).
  rewrite (proj2 (Z.eqb_neq _ _) Hk), (proj2 (Z.eqb_neq _ _) Hd).
  pose proof (push_runs_on _ _ _ Hr) as Hr1. set (c1 := push_cpu _ c) in *.
  erewrite bind_done by (eapply pushcli_run, Hr). cbv beta.
  set (s1 := s <| k_hw ::= push i |>).
  erewrite bind_done by (eapply (mycpu_run s1 i c1); [done|apply Hr1]). cbv beta.
  pose (f := fun c : cpu => c
     <| c_gdt ::= <[SEG_TSS := SEG16 STS_T32A (cpu_ts_addr i) (104 - 1) 0]> |>
     <| c_gdt ::= alter (fun d => d <| sd_s := 0 |>) SEG_TSS |>
     <| c_ts_ss0 := Z.shiftl (Z.of_nat SEG_KDATA) 3 |>
     <| c_ts_esp0 := u32 (p_kstack pr + KSTACKSIZE) |> <| c_ts_iomb := 0xFFFF |>).
  unfold upd_gdt. rewrite !upd_cpu_seq. change (upd_cpu i _) with (upd_cpu i f).
  unfold upd_cpu. kapply upd_hw_run. do 2 kstep.
  set (h2 := (push i (k_hw s)) <| h_cpus ::= alter f i |>).
  set (s2 := set k_cr3 _ _). change (k_hw s2) with h2 in *.
  assert (runs_on h2 i (f c1)) as Hr2 by (by apply alter_runs_on).
  assert (0 < c_ncli (f c1)) as Hn2 by (pose proof (runs_on_ncli _ _ _ Hr); cbn; lia).
  rewrite (popcli_run s2 i (f c1)); [|apply Hr2|done|done].
  exists (pop i (f c1) h2), (pop_cpu (f c1)). split_and!.
  - done.
  - by apply pop_runs_on.
  - cbn. lia.
  - cbn. by apply (push_intena _ i).
  - done.
  - done.
  - done.
Qed.

(** *** The invariant of the process table *)

Lemma ptable_ok_alter t n i f :
  (forall p, t !! i = Some p -> p_pid (f p) = p_pid p) ->
  ptable_ok t n -> ptable_ok (alter f i t) n.
Proof.
  intros Hf [Hl Hn Hp Hu].
  assert (forall j q, alter f i t !! j = Some q -> exists q', t !! j = Some q' /\ p_pid q = p_pid q') as G.
  { intros j q Hq. destruct (decide (i = j)) as [<-|Hne].
    - rewrite list_lookup_alter_eq in Hq. destruct (t !! i) as [q'|] eqn:E'; [|done]. cbn in Hq.
      simplify_eq. eauto.
    - rewrite list_lookup_alter_ne in Hq by done. eauto. }
  split; [by rewrite length_alter|done|..].
  - intros j q (q' & Hq' & ->)%G. by eapply Hp.
  - intros j k q r (q' & Hq & ->)%G (r' & Hr & ->)%G. by eapply Hu.
Qed.

(** A freed entry loses its process id. *)
Lemma ptable_ok_free t n i : ptable_ok t n -> ptable_ok (alter (fun p => p <| p_pid := 0 |>) i t) n.
Proof.
  intros [Hl Hn Hp Hu].
  assert (forall j q, alter (fun p => p <| p_pid := 0 |>) i t !! j = Some q -> p_pid q = 0 \/ t !! j = Some q) as G.
  { intros j q Hq. destruct (decide (i = j)) as [<-|Hne].
    - rewrite list_lookup_alter_eq in Hq. destruct (t !! i); [|done]. cbn in Hq. simplify_eq. auto.
    - rewrite list_lookup_alter_ne in Hq by done. auto. }
  split; [by rewrite length_alter|done|..].
  - intros j q [->|Hq]%G; [lia|]. by eapply Hp.
  - intros j k q r [Hq|Hq]%G [Hr|Hr]%G He H0; [congruence..|]. by eapply Hu.
Qed.

(** A new process gets a process id that no entry has. *)
Lemma ptable_ok_newpid t n i f :
  (forall p, p_pid (f p) = n) -> ptable_ok t n -> ptable_ok (alter f i t) (1 + n).
Proof.
  intros Hf [Hl Hn Hp Hu].
  assert (forall j q, alter f i t !! j = Some q ->
    (j = i /\ p_pid q = n) \/ (j <> i /\ t !! j = Some q)) as G.
  { intros j q Hq. destruct (decide (i = j)) as [<-|Hne].
    - rewrite list_lookup_alter_eq in Hq. destruct (t !! i); [|done]. cbn in Hq. simplify_eq. auto.
    - rewrite list_lookup_alter_ne in Hq by done. auto. }
  split; [by rewrite length_alter|lia|..].
  - intros j q [[-> ->]|[_ Hq]]%G; [lia|]. specialize (Hp _ _ Hq). lia.
  - intros j k q r [[-> Hq]|[_ Hq]]%G [[-> Hr]|[_ Hr]]%G He H0; try done.
    + specialize (Hp _ _ Hr). lia.
    + specialize (Hp _ _ Hq). lia.
    + by eapply Hu.
Qed.

Lemma keeps_get_proc (I : kernel -> Prop) i : keeps I (get_proc i).
Proof. unfold get_proc. keeps. Qed.

Lemma keeps_upd_proc i f : (forall p, p_pid (f p) = p_pid p) -> keeps ptable_inv (upd_proc i f).
Proof. intros Hf. apply keeps_modify. intros s Hs. by apply ptable_ok_alter. Qed.

#[local] Hint Resolve keeps_get_proc : keeps.
#[local] Hint Extern 1 (keeps ptable_inv (upd_proc _ _)) => by apply keeps_upd_proc : keeps.

Lemma keeps_newpid {A} i (m : K A) :
  keeps ptable_inv m ->
  keeps ptable_inv (pid ← gets k_nextpid ; modify (fun s => s <| k_nextpid ::= Z.add 1 |>) ;;
    upd_proc i (fun p => p <| p_pid := pid |>) ;; m).
Proof.
  intros Hm s Hs. unfold wpc. do 3 kstep. apply Hm. by apply ptable_ok_newpid.
Qed.

Lemma keeps_allocproc : keeps ptable_inv allocproc.
Proof.
  unfold allocproc. apply keeps_bind; [keeps|]. intros _. apply keeps_bind; [keeps|].
  intros [i|]; [|keeps]. apply keeps_bind; [keeps|]. intros _. apply keeps_newpid. keeps.
Qed.

Lemma keeps_sched : keeps ptable_inv sched.
Proof. unfold sched, readeflags. keeps. Qed.

#[local] Hint Resolve keeps_sched : keeps.

Lemma keeps_yield_op : keeps ptable_inv yield.
Proof. unfold yield, curproc. keeps. Qed.

Lemma keeps_sleep ch lk : keeps ptable_inv (sleep ch lk).
Proof. unfold sleep. keeps. Qed.

Lemma keeps_wakeup1 ch : keeps ptable_inv (wakeup1 ch).
Proof. unfold wakeup1. keeps. Qed.

#[local] Hint Resolve keeps_wakeup1 : keeps.

Lemma keeps_wakeup ch : keeps ptable_inv (wakeup ch).
Proof. unfold wakeup. keeps. Qed.

Lemma keeps_kill pid : keeps ptable_inv (kill pid).
Proof. unfold kill. keeps. Qed.

Lemma keeps_scheduler_round i : keeps ptable_inv (scheduler_round i).
Proof.
  unfold scheduler_round, schedule_container, schedule_proc, switchuvm, switchkvm, sti, upd_gdt.
  keeps.
Qed.

Lemma keeps_scheduler n : keeps ptable_inv (scheduler n).
Proof. unfold scheduler. keeps. apply keeps_scheduler_round. Qed.

End rules.

#[export] Hint Resolve keeps_get_proc keeps_allocproc keeps_sched keeps_yield_op keeps_sleep
  keeps_wakeup1 keeps_wakeup keeps_kill keeps_scheduler : keeps.
#[export] Hint Extern 1 (keeps ptable_inv (upd_proc _ _)) => by apply keeps_upd_proc : keeps.

(** ** Properties *)

Section properties.
Context {E : Env}.

(** CPU [i] holds [lk], for process [p], and is about to take the lock of the table. *)
Definition about_to_sleep (i p : nat) (lk : lockid) (s : kernel) : Prop :=
  lock_held (k_hw s) i lk /\ is_Some (k_ptable s !! p) /\ exists c, runs_on (k_hw s) i c /\ c_ncli c = 2 /\ c_proc c = Some p.

(** [r], a run of [sleep] on CPU [i] in the state [s], leaves the CPU with process [p] asleep on [ch], [lk]
    given up and the lock of the table held, which a [wakeup] of [ch] needs.  It
    makes the process runnable; resumed, [sleep] gives up the lock of the table
    and returns with [lk], after it has waited for it if another CPU has it. *)
Definition sleeps (i p : nat) (ch : chan) (lk : lockid) (s : kernel) (r : kres yield_point kernel unit) : Prop :=
  exists pr s1 k, k_ptable s !! p = Some pr /\ r = Yield Y_sched s1 k
    /\ k_ptable s1 !! p = Some (asleep ch pr)
    /\ lock_free (k_hw s1) lk /\ lock_held (k_hw s1) i L_ptable
    /\ (forall s2, ptable_ready s2 -> k_ptable s2 !! p = Some (asleep ch pr) ->
          exists s3, wakeup ch s2 = Done tt s3
                     /\ k_ptable s3 !! p = Some (set_pstate RUNNABLE (asleep ch pr)))
    /\ (forall s2 i2 c2, in_sched s2 i2 c2 -> lock_free (k_hw s2) lk ->
          exists s3, k s2 = Done tt s3 /\ lock_held (k_hw s3) i2 lk /\ lock_free (k_hw s3) L_ptable)
    /\ (forall s2 i2 c2 j, in_sched s2 i2 c2 -> lock_held (k_hw s2) j lk -> j <> i2 ->
          waits lk j (spinning i2) (fun s r => r = Done tt (s <| k_hw ::= take_lock i2 lk |>)) (fuel - 1) (k s2)).

Lemma asleep_sleeps s s0 i c p pr ch lk :
  (0 < fuel)%nat -> lk <> L_ptable -> runs_on (k_hw s) i c -> c_ncli c = 1 -> lock_free (k_hw s) lk -> lock_held (k_hw s) i L_ptable ->
  k_ptable s0 !! p = Some pr -> k_ptable s !! p = Some pr ->
  sleeps i p ch lk s0 (Yield Y_sched (s <| k_ptable ::= alter (asleep ch) p |>)
    (resume (c_intena c) ;; upd_proc p (fun p => p <| p_chan := None |>) ;; release L_ptable ;; acquire lk)).
Proof.
  intros Hf Hne Hr Hn Hl Hpl Hp0 Hp. assert (c_intena c = 0 \/ c_intena c = FL_IF) as Hi by (destruct Hr as [_ [[? _]|(_ & _ & Hi)]]; [lia|done]).
  eexists pr, _, _. split_and!; [done|done|by apply lookup_set_alter|done|done|..].
  - intros s2 Hs2 Hp2. eexists. split; [by apply wakeup_run|]. cbn.
    rewrite list_lookup_fmap, Hp2. cbn. unfold wake. by rewrite decide_True.
  - intros s2 i2 c2 Hs2 Hl2. destruct (awake_run s2 i2 c2 p (c_intena c) lk Hf Hne Hs2 Hl2 Hi) as (s3 & c3 & H3 & _ & _ & _ & _ & _ & Hh & Hfr).
    exists s3. split; [exact H3|done].
  - intros s2 i2 c2 j Hs2 Hl2 Hj. by eapply awake_waits.
Qed.

(** C11: no lost wakeup. [sleep ch lk] gives up [lk] only while it holds the lock of the
    process table: as long as another CPU has that lock it waits with [lk] still held, so that
    no other CPU can take [lk] and call [wakeup] before the process is asleep.
    Once it has the lock of the table it leaves the CPU with the process asleep on [ch] and that
    lock held; every later [wakeup ch] makes the process runnable; and when
    the scheduler resumes it, it returns holding [lk] again and not the lock of the table. *)
Theorem sleep_no_lost_wakeup s i c p pr ch lk :
  (0 < fuel)%nat -> lk <> L_ptable ->
  runs_on (k_hw s) i c -> c_ncli c = 1 -> c_proc c = Some p -> k_ptable s !! p = Some pr ->
  lock_held (k_hw s) i lk ->
  (lock_free (k_hw s) L_ptable -> sleeps i p ch lk s (sleep ch lk s))
  /\ (forall j, lock_held (k_hw s) j L_ptable -> j <> i ->
        waits L_ptable j (about_to_sleep i p lk) (sleeps i p ch lk) (fuel - 1) (sleep ch lk s)).
Proof.
  intros Hf Hne Hr Hn Hc Hp Hl. split.
  - intros Hpl. erewrite sleep_run by done. pose proof (enter_runs_on _ _ _ L_ptable Hr) as Hr1.
    set (c1 := pop_cpu (push_cpu (eflags_of (k_hw s)) c)). replace (c_intena c) with (c_intena c1) by (cbn; by rewrite (proj2 (Z.eqb_neq (c_ncli c) 0)) by lia).
    eapply asleep_sleeps; [done|done|apply leave_runs_on; [exact Hr1|cbn; lia]|cbn; lia|apply leave_free| |done|done].
    destruct (enter_held (k_hw s) i L_ptable) as (l & Hle & ?). exists l. split; [|done]. rewrite <- Hle. by apply leave_locks.
  - intros j Hj Hji. unfold sleep. krun (myproc_run s i c Hr). rewrite Hc, bool_decide_eq_true_2 by done. unfold when.
    eapply (waits_bind _ _ (fun s r => exists c', runs_on (k_hw s) i c' /\ c_ncli c' = 2 /\ c_proc c' = Some p /\ is_Some (k_ptable s !! p) /\
      r = Done tt (s <| k_hw ::= take_lock i L_ptable |> <| k_hw ::= leave i c' lk |>)) _ _ (fuel - 1) j ((acquire L_ptable ;; release lk) s)).
    + eapply (waits_bind _ _ (fun s r => r = Done tt (s <| k_hw ::= take_lock i L_ptable |>)) _ _ (fuel - 1) j (acquire L_ptable s)).
      * eapply acquire_waits; [done|exact Hr|exact Hj|done|split_and!; [done|by exists pr|eexists; split_and!; [by apply push_runs_on|cbn; lia|done]]| |].
        -- intros s1 l1 ((l & Hl1) & H1 & H2) _. split_and!; [exists l; cbn; by rewrite lookup_insert_ne by congruence|done|done].
        -- intros s1 (_ & _ & c1 & H1 & H2 & _). exists c1. split; [done|lia].
      * intros s1 r1 ((l & Hl1) & H1 & c1 & Hr1 & Hn1 & Hc1) ->. exists c1. split_and!; [done|done|done|done|]. cbn [kbind].
        apply (release_held (s1 <| k_hw ::= take_lock i L_ptable |>) i c1); [exact Hr1|lia|]. exists l. cbn. by rewrite lookup_insert_ne by congruence.
    + intros s1 r1 _ (c1 & Hr1 & Hn1 & Hc1 & [pr1 Hp1] & ->). cbn [kbind]. set (s2 := s1 <| k_hw ::= _ |> <| k_hw ::= _ |>).
      rewrite (fall_asleep s2 i (pop_cpu c1) p pr1); [|apply leave_runs_on; [exact Hr1|lia]|cbn; lia|done| |done].
      * eapply asleep_sleeps; [done|done|apply leave_runs_on; [exact Hr1|lia]|cbn; lia|apply leave_free| |done|done].
        eexists. split; [cbn; unfold leave; cbn; rewrite lookup_insert_ne by congruence; by rewrite lookup_insert_eq|done].
      * eexists. split; [cbn; unfold leave; cbn; rewrite lookup_insert_ne by congruence; by rewrite lookup_insert_eq|done].
Qed.

(** C25: [allocproc] on every branch. With no free entry it returns null
    and changes nothing.  Otherwise it takes the first free entry: without a page
    for the kernel stack it gives the entry back and returns null; with one, the
    entry is an embryo in container 0 with the next process id and a context that
    starts in [forkret] and returns to [trapret].  No other entry changes. *)
Theorem allocproc_spec s :
  (0 < fuel)%nat -> ptable_ready s -> kmem_ready s ->
  let page := km_freelist (k_kmem s) in
  match list_find (fun p => p_state p = UNUSED) (k_ptable s) with
  | None => allocproc s = Done None s
  | Some (i, p) =>
      exists s', allocproc s = Done (if page =? 0 then None else Some i) s'
        /\ k_nextpid s' = k_nextpid s + 1
        /\ k_kmem s' = k_kmem (taken s)
        /\ (forall j, j <> i -> k_ptable s' !! j = k_ptable s !! j)
        /\ exists p', k_ptable s' !! i = Some p' /\ p_pid p' = k_nextpid s /\ p_kstack p' = page
             /\ p_containerID p' = 0
             /\ (page = 0 -> p_state p' = UNUSED)
             /\ (page <> 0 -> p_state p' = EMBRYO /\ cx_eip (p_context p') = forkret_addr
                              /\ p_retaddr p' = trapret_addr)
  end.
Proof.
  intros Hf Hs Hk page. pose proof (allocproc_run s Hf Hs Hk) as Ha. cbv zeta in Ha. fold page in Ha.
  destruct (list_find _ (k_ptable s)) as [[i p]|] eqn:Ef; [|exact Ha].
  apply list_find_Some in Ef as (Hp & _ & _).
  set (s1 := s <| k_nextpid ::= Z.add 1 |> <| k_ptable ::= alter (embryo (k_nextpid s)) i |>) in Ha.
  assert (k_nextpid (taken s1) = k_nextpid s + 1 /\ k_kmem (taken s1) = k_kmem (taken s)
    /\ k_ptable (taken s1) = alter (embryo (k_nextpid s)) i (k_ptable s)) as (Hn & Hm & Ht).
  { unfold taken. cbn. destruct (nz _); cbn; split_and!; lia || done. }
  clearbody s1.
  destruct (page =? 0) eqn:Ez; [apply Z.eqb_eq in Ez|apply Z.eqb_neq in Ez].
  all: eexists; do 3 (split; [done|]); split;
    [intros j Hj; cbn; by rewrite Ht, !list_lookup_alter_ne by done|].
  all: eexists; split; [cbn; rewrite Ht, !list_lookup_alter_eq, Hp; reflexivity|].
  all: cbn; split_and!; done.
Qed.
End properties.
