(* ===== verification/Vm.v ===== *)
(** vm.c: page tables.

    A page directory is a page of the kernel's memory [k_mem], named by its kernel
    virtual address; its entries, and those of the page tables it refers to, are
    32-bit words of that memory.  [loaduvm] stands with [exec], which calls it. *)
From S2P Require Import Prelude Kernel Spinlock Console CString Kalloc Proc.

(** ** mmu.h: page table entries *)

Abbreviation NPDENTRIES := 1024 (only parsing).
Abbreviation PTXSHIFT := 12 (only parsing).
Abbreviation PDXSHIFT := 22 (only parsing).
Definition PDX (va : Z) : Z := Z.land (Z.shiftr va PDXSHIFT) 0x3FF.
Definition PTX (va : Z) : Z := Z.land (Z.shiftr va PTXSHIFT) 0x3FF.
Definition PGADDR (d t o : Z) : Z := u32 (Z.lor (Z.lor (Z.shiftl d PDXSHIFT) (Z.shiftl t PTXSHIFT)) o).
Abbreviation PTE_P := 0x001 (only parsing).
Abbreviation PTE_W := 0x002 (only parsing).
Abbreviation PTE_U := 0x004 (only parsing).
Definition PTE_ADDR (pte : Z) : Z := Z.land pte (W32 - 0x1000).
Definition PTE_FLAGS (pte : Z) : Z := Z.land pte 0xFFF.

Section vm.
Context {E : Env}.

(** [*p] and [*p = v] for a pointer [p] to a 32-bit word. *)
Definition load (p : Z) : K Z := gets (fun s => load32 (k_mem s) p).
Definition store (p v : Z) : K unit := upd_mem (fun m => store32 m p v).

(** The address of the entry; 0 is the null pointer. *)
Definition walkpgdir (pgdir va : Z) (alloc : bool) : K Z :=
  let pde := pgdir + 4 * PDX va in
  e ← load pde ;
  if nz (Z.land e PTE_P) then
    let pgtab := P2V (PTE_ADDR e) in
    mret (pgtab + 4 * PTX va)
  else
    if negb alloc then mret 0 else
    pgtab ← kalloc ;
    if pgtab =? 0 then mret 0 else
    upd_mem (fun m => memset m pgtab 0 PGSIZE) ;;
    store pde (Z.lor (Z.lor (Z.lor (V2P pgtab) PTE_P) PTE_W) PTE_U) ;;
    mret (pgtab + 4 * PTX va).

(** The loop of [mappages] from page [a]; [n] pages follow it. *)
Fixpoint map_loop (n : nat) (pgdir a pa perm : Z) : K Z :=
  pte ← walkpgdir pgdir a true ;
  if pte =? 0 then mret (-1) else
  e ← load pte ;
  if nz (Z.land e PTE_P) then panic "remap" else
  store pte (Z.lor (Z.lor pa perm) PTE_P) ;;
  match n with
  | O => mret 0
  | S n' => map_loop n' pgdir (u32 (a + PGSIZE)) (u32 (pa + PGSIZE)) perm
  end.

(** [a] reaches [last] after [(last - a) / PGSIZE] steps, modulo the size of the
    address space. *)
Definition mappages (pgdir va size pa perm : Z) : K Z :=
  let a := PGROUNDDOWN va in
  let last := PGROUNDDOWN (u32 (va + size - 1)) in
  map_loop (Z.to_nat (u32 (last - a) / PGSIZE)) pgdir a pa perm.

(** [for(; a < oldsz; a += PGSIZE)] of [deallocuvm]. *)
Fixpoint dealloc_loop (n : nat) (pgdir a oldsz : Z) : K unit :=
  match n with
  | O => stop_with OutOfFuel
  | S n' =>
      if a <? oldsz then
        pte ← walkpgdir pgdir a false ;
        if pte =? 0 then dealloc_loop n' pgdir (u32 (u32 (PGADDR (PDX a + 1) 0 0 - PGSIZE) + PGSIZE)) oldsz
        else
          e ← load pte ;
          when (nz (Z.land e PTE_P))
            (let pa := PTE_ADDR e in
             if pa =? 0 then panic "kfree" else
             kfree (P2V pa) ;;
             store pte 0) ;;
          dealloc_loop n' pgdir (u32 (a + PGSIZE)) oldsz
      else mret tt
  end.

Definition deallocuvm (pgdir oldsz newsz : Z) : K Z :=
  if oldsz <=? newsz then mret oldsz else
  let a := PGROUNDUP newsz in
  dealloc_loop (S (Z.to_nat ((oldsz - a + PGSIZE - 1) / PGSIZE))) pgdir a oldsz ;;
  mret newsz.

Definition freevm (pgdir : Z) : K unit :=
  if pgdir =? 0 then panic "freevm: no pgdir" else
  deallocuvm pgdir KERNBASE 0 ;;
  for_each (seqZ 0 NPDENTRIES) (fun i =>
    e ← load (pgdir + 4 * i) ;
    when (nz (Z.land e PTE_P)) (kfree (P2V (PTE_ADDR e)))) ;;
  kfree pgdir.

(** [kmap]: virtual address, physical start and end, permissions. *)
Definition kmap : list (Z * Z * Z * Z) :=
  [(KERNBASE, 0, EXTMEM, PTE_W);
   (KERNLINK, V2P KERNLINK, V2P kernel_data, 0);
   (kernel_data, V2P kernel_data, PHYSTOP, PTE_W);
   (DEVSPACE, DEVSPACE, 0, PTE_W)].

Definition setupkvm : K Z :=
  pgdir ← kalloc ;
  if pgdir =? 0 then mret 0 else
  upd_mem (fun m => memset m pgdir 0 PGSIZE) ;;
  if DEVSPACE <? P2V PHYSTOP then panic "PHYSTOP too high" else
  o ← for_find kmap (fun '(virt, phys_start, phys_end, perm) =>
    r ← mappages pgdir virt (u32 (phys_end - phys_start)) phys_start perm ;
    if r <? 0 then freevm pgdir ;; mret (Some 0) else mret None) ;
  mret (default pgdir o).

Definition kvmalloc : K unit :=
  pgdir ← setupkvm ;
  modify (fun s => s <| k_kpgdir := pgdir |>) ;;
  switchkvm.

(** Copy an array the kernel holds outside [k_mem] to address [dst]. *)
Definition put_bytes (m : memory) (dst : Z) (l : list Z) : memory :=
  foldl (fun m p => store8 m (dst + Z.of_nat p.1) p.2) m (imap pair l).

Definition inituvm (pgdir : Z) (init : list Z) (sz : Z) : K unit :=
  if PGSIZE <=? sz then panic "inituvm: more than a page" else
  mem ← kalloc ;
  upd_mem (fun m => memset m mem 0 PGSIZE) ;;
  mappages pgdir 0 PGSIZE (V2P mem) (Z.lor PTE_W PTE_U) ;;
  upd_mem (fun m => put_bytes m mem (take (Z.to_nat sz) init)).

(** [for(; a < newsz; a += PGSIZE)] of [allocuvm]. *)
Fixpoint alloc_loop (n : nat) (pgdir a oldsz newsz : Z) : K Z :=
  match n with
  | O => stop_with OutOfFuel
  | S n' =>
      if a <? newsz then
        mem ← kalloc ;
        if mem =? 0 then
          cprintf "allocuvm out of memory
" [] ;;
          deallocuvm pgdir newsz oldsz ;;
          mret 0
        else
          upd_mem (fun m => memset m mem 0 PGSIZE) ;;
          r ← mappages pgdir a PGSIZE (V2P mem) (Z.lor PTE_W PTE_U) ;
          if r <? 0 then
            cprintf "allocuvm out of memory (2)
" [] ;;
            deallocuvm pgdir newsz oldsz ;;
            kfree mem ;;
            mret 0
          else alloc_loop n' pgdir (u32 (a + PGSIZE)) oldsz newsz
      else mret newsz
  end.

Definition allocuvm (pgdir oldsz newsz : Z) : K Z :=
  if KERNBASE <=? newsz then mret 0 else
  if newsz <? oldsz then mret oldsz else
  let a := PGROUNDUP oldsz in
  alloc_loop (S (Z.to_nat ((newsz - a + PGSIZE - 1) / PGSIZE))) pgdir a oldsz newsz.

Definition clearpteu (pgdir uva : Z) : K unit :=
  pte ← walkpgdir pgdir uva false ;
  if pte =? 0 then panic "clearpteu" else
  e ← load pte ;
  store pte (Z.land e (W32 - 1 - PTE_U)).

(** [for(i = 0; i < sz; i += PGSIZE)] of [copyuvm]; [false] is the jump to [bad]. *)
Definition copy_page (pgdir d i : Z) : K bool :=
  pte ← walkpgdir pgdir i false ;
  if pte =? 0 then panic "copyuvm: pte should exist" else
  e ← load pte ;
  if negb (nz (Z.land e PTE_P)) then panic "copyuvm: page not present" else
  let pa := PTE_ADDR e in
  let flags := PTE_FLAGS e in
  mem ← kalloc ;
  if mem =? 0 then mret false else
  upd_mem (fun m => memmove m mem (P2V pa) PGSIZE) ;;
  r ← mappages d i PGSIZE (V2P mem) flags ;
  if r <? 0 then kfree mem ;; mret false else mret true.

Definition copyuvm (pgdir sz : Z) : K Z :=
  d ← setupkvm ;
  if d =? 0 then mret 0 else
  bad ← for_find (map (Z.mul PGSIZE) (seqZ 0 ((sz + PGSIZE - 1) / PGSIZE))) (fun i =>
    ok ← copy_page pgdir d i ;
    mret (if ok : bool then None else Some tt)) ;
  match bad with
  | None => mret d
  | Some _ => freevm d ;; mret 0
  end.

(** A null entry is dereferenced. *)
Definition uva2ka (pgdir uva : Z) : K Z :=
  pte ← walkpgdir pgdir uva false ;
  if pte =? 0 then fault "uva2ka: *pte" else
  e ← load pte ;
  if Z.land e PTE_P =? 0 then mret 0 else
  if Z.land e PTE_U =? 0 then mret 0 else
  mret (P2V (PTE_ADDR e)).

(** [copyout] from an array [buf] of the kernel; each round copies to the end of a page. *)
Fixpoint copyout_loop (n : nat) (pgdir va : Z) (buf : list Z) : K Z :=
  match n with
  | O => stop_with OutOfFuel
  | S n' =>
      match buf with
      | [] => mret 0
      | _ =>
          let va0 := PGROUNDDOWN va in
          pa0 ← uva2ka pgdir va0 ;
          if pa0 =? 0 then mret (-1) else
          let n := Z.min (PGSIZE - (va - va0)) (Z.of_nat (length buf)) in
          upd_mem (fun m => put_bytes m (pa0 + (va - va0)) (take (Z.to_nat n) buf)) ;;
          copyout_loop n' pgdir (u32 (va0 + PGSIZE)) (drop (Z.to_nat n) buf)
      end
  end.

Definition copyout (pgdir va : Z) (buf : list Z) : K Z :=
  copyout_loop (Z.to_nat (Z.of_nat (length buf) / PGSIZE) + 3) pgdir va buf.

(** ** The processor's view of memory

    What an access to virtual address [va] under the page table in [cr3] reaches:
    the kernel runs with the write protection of [CR0_WP], so a write needs [PTE_W];
    an access by user code also needs [PTE_U]. *)
Definition hw_walk (m : memory) (cr3 va : Z) (write user : bool) : option Z :=
  let ok e := nz (Z.land e PTE_P) && (negb write || nz (Z.land e PTE_W)) && (negb user || nz (Z.land e PTE_U)) in
  let pde := load32 m (P2V cr3 + 4 * PDX va) in
  if ok pde then
    let pte := load32 m (P2V (PTE_ADDR pde) + 4 * PTX va) in
    if ok pte then Some (P2V (PTE_ADDR pte) + va mod PGSIZE) else None
  else None.

(** Reads and writes by the kernel through a user pointer. *)
Definition uload8 (va : Z) : K Z :=
  o ← gets (fun s => hw_walk (k_mem s) (k_cr3 s) va false false) ;
  a ← deref "page fault" o ;
  gets (fun s => load8 (k_mem s) a).
Definition ustore8 (va v : Z) : K unit :=
  o ← gets (fun s => hw_walk (k_mem s) (k_cr3 s) va true false) ;
  a ← deref "page fault" o ;
  upd_mem (fun m => store8 m a v).

Fixpoint uload (va : Z) (n : nat) : K (list Z) :=
  match n with
  | O => mret []
  | S n' => b ← uload8 va ; l ← uload (u32 (va + 1)) n' ; mret (b :: l)
  end.
Fixpoint ustore (va : Z) (l : list Z) : K unit :=
  match l with
  | [] => mret tt
  | b :: l' => ustore8 va b ;; ustore (u32 (va + 1)) l'
  end.
Definition uload32 (va : Z) : K Z :=
  l ← uload va 4 ;
  match l with
  | [a; b; c; d] => mret (a + 256 * b + 65536 * c + 16777216 * d)
  | _ => fault "page fault"
  end.
Definition ustore32 (va v : Z) : K unit :=
  ustore va [v mod 256; v / 256 mod 256; v / 65536 mod 256; v / 16777216 mod 256].

End vm.
