(* ===== verification/PageTable.v ===== *)
(** The page tables of vm.c as a translation of addresses: what [mappages] does to
    the address space that the processor sees through [hw_walk]. *)
From S2P Require Import Prelude Kernel Spinlock Console CString Kalloc Proc Vm.

(** ** Bits of the entries *)

Lemma low_bits_clear x f : x mod PGSIZE = 0 -> 0 <= f < PGSIZE -> Z.land x f = 0.
Proof.
  intros Hx Hf. apply Z.bits_inj'. intros n Hn. rewrite Z.land_spec, Z.bits_0.
  destruct (Z.ltb_spec n 12).
  - rewrite <- (Z.mod_pow2_bits_low x 12 n) by lia. change (2 ^ 12) with PGSIZE. by rewrite Hx, Z.bits_0.
  - rewrite <- (Z.mod_small f PGSIZE) by done. change PGSIZE with (2 ^ 12). rewrite Z.mod_pow2_bits_high by lia.
    by rewrite andb_false_r.
Qed.

Lemma lor_page x f : x mod PGSIZE = 0 -> 0 <= f < PGSIZE -> Z.lor x f = x + f.
Proof. intros Hx Hf. symmetry. by apply Z.add_nocarry_lor, low_bits_clear. Qed.

Lemma lor_low a b : 0 <= a < PGSIZE -> 0 <= b < PGSIZE -> 0 <= Z.lor a b < PGSIZE.
Proof.
  intros Ha Hb. assert (0 <= Z.lor a b) as H0 by (apply Z.lor_nonneg; lia). split; [done|].
  destruct (Z.eq_dec (Z.lor a b) 0) as [->|Hne]; [done|]. change PGSIZE with (2 ^ 12) in *.
  apply Z.log2_lt_pow2; [lia|]. rewrite Z.log2_lor by lia.
  assert (forall x, 0 <= x < 2 ^ 12 -> Z.log2 x < 12) as Hl; [|apply Z.max_lub_lt; by apply Hl].
  intros x Hx. destruct (Z.eq_dec x 0) as [->|]; [done|]. apply Z.log2_lt_pow2; lia.
Qed.

(** An entry for the page at physical address [pa]. *)
Definition pte_of (pa perm : Z) : Z := Z.lor (Z.lor pa perm) PTE_P.
Definition pde_of (pgtab : Z) : Z := Z.lor (Z.lor (Z.lor (V2P pgtab) PTE_P) PTE_W) PTE_U.

(** The accesses the flags of an entry allow. *)
Definition allows (e : Z) (write user : bool) : bool :=
  nz (Z.land e PTE_P) && (negb write || nz (Z.land e PTE_W)) && (negb user || nz (Z.land e PTE_U)).

Section bits.
Context {E : Env}.

Lemma pte_of_sum pa perm :
  pa mod PGSIZE = 0 -> 0 <= perm < PGSIZE ->
  exists f, pte_of pa perm = pa + f /\ 0 <= f < PGSIZE /\ f = Z.lor perm PTE_P.
Proof.
  intros Hpa Hp. exists (Z.lor perm PTE_P). unfold pte_of. rewrite <- Z.lor_assoc.
  pose proof (lor_low perm PTE_P Hp ltac:(done)). split; [|done]. by apply lor_page.
Qed.

Lemma pte_of_addr pa perm :
  pa mod PGSIZE = 0 -> 0 <= pa < W32 -> 0 <= perm < PGSIZE ->
  PTE_ADDR (pte_of pa perm) = pa /\ 0 <= pte_of pa perm < W32.
Proof.
  intros Hpa Hr Hp. destruct (pte_of_sum pa perm Hpa Hp) as (f & -> & Hf & _).
  assert (pa = PGSIZE * (pa / PGSIZE)) as Hd by (pose proof (Z.div_mod pa PGSIZE ltac:(done)); lia).
  assert (0 <= pa + f < W32) as Hb by (unfold PGSIZE, W32 in *; lia). split; [|done].
  change (PTE_ADDR (pa + f)) with (PGROUNDDOWN (pa + f)). rewrite PGROUNDDOWN_eq by done.
  rewrite <- Zplus_mod_idemp_l, Hpa, Z.add_0_l, (Z.mod_small f) by done. lia.
Qed.

Lemma pte_of_flags pa perm fl :
  pa mod PGSIZE = 0 -> 0 <= fl < PGSIZE -> Z.land (pte_of pa perm) fl = Z.land (Z.lor perm PTE_P) fl.
Proof.
  intros Hpa Hf. unfold pte_of. rewrite <- Z.lor_assoc, Z.land_lor_distr_l, low_bits_clear by done.
  apply Z.lor_0_l.
Qed.

Lemma pte_of_allows pa perm w u :
  pa mod PGSIZE = 0 -> allows (pte_of pa perm) w u = allows (Z.lor perm PTE_P) w u.
Proof. intros Hpa. unfold allows. by rewrite !pte_of_flags by done. Qed.

Lemma page_V2P v : page_ok v -> V2P v = v - KERNBASE /\ V2P v mod PGSIZE = 0 /\ 0 <= V2P v < PHYSTOP.
Proof.
  intros (Hm & _ & Hr). assert (V2P v = v - KERNBASE) as ->.
  { unfold V2P, u32. apply Z.mod_small. unfold KERNBASE, PHYSTOP, W32 in *. lia. }
  split_and!; [done| |lia|lia]. rewrite Zminus_mod, Hm. done.
Qed.

Lemma page_P2V v : page_ok v -> P2V (V2P v) = v.
Proof.
  intros Hv. destruct (page_V2P v Hv) as (-> & _). destruct Hv as (_ & _ & Hr).
  unfold P2V, u32. rewrite Z.sub_add. apply Z.mod_small. unfold KERNBASE, PHYSTOP, W32 in *. lia.
Qed.

Lemma pde_of_ok v :
  page_ok v -> P2V (PTE_ADDR (pde_of v)) = v /\ (forall w u, allows (pde_of v) w u = true) /\ 0 <= pde_of v < W32.
Proof.
  intros Hv. destruct (page_V2P v Hv) as (_ & Hm & Hr).
  assert (pde_of v = pte_of (V2P v) 6) as ->.
  { unfold pde_of, pte_of. by rewrite <- !Z.lor_assoc. }
  destruct (pte_of_addr (V2P v) 6) as [-> Hb]; [done|unfold PHYSTOP, W32 in *; lia|done|].
  split_and!; [by apply page_P2V| |apply Hb..]. intros w u. rewrite pte_of_allows by done. by destruct w, u.
Qed.

(** *** Indices *)

Lemma PDX_eq va : PDX va = va / 4194304 mod 1024.
Proof. unfold PDX. rewrite Z.shiftr_div_pow2 by done. change 0x3FF with (Z.ones 10). by rewrite Z.land_ones. Qed.

Lemma PTX_eq va : PTX va = va / PGSIZE mod 1024.
Proof. unfold PTX. rewrite Z.shiftr_div_pow2 by done. change 0x3FF with (Z.ones 10). by rewrite Z.land_ones. Qed.

Lemma PDX_range va : 0 <= PDX va < 1024.
Proof. rewrite PDX_eq. by apply Z.mod_pos_bound. Qed.

Lemma PTX_range va : 0 <= PTX va < 1024.
Proof. rewrite PTX_eq. by apply Z.mod_pos_bound. Qed.

(** The indices determine the page. *)
Lemma same_page va va' :
  0 <= va < W32 -> 0 <= va' < W32 -> PDX va = PDX va' -> PTX va = PTX va' -> va / PGSIZE = va' / PGSIZE.
Proof.
  intros Hv Hv'. rewrite !PDX_eq, !PTX_eq. change 4194304 with (PGSIZE * 1024).
  rewrite <- !Z.div_div by done. unfold W32, PGSIZE in *.
  assert (0 <= va / 4096 / 1024 < 1024) by (split; [apply Z.div_pos; [apply Z.div_pos|]; lia|]; apply Z.div_lt_upper_bound; [lia|]; apply Z.div_lt_upper_bound; lia).
  assert (0 <= va' / 4096 / 1024 < 1024) by (split; [apply Z.div_pos; [apply Z.div_pos|]; lia|]; apply Z.div_lt_upper_bound; [lia|]; apply Z.div_lt_upper_bound; lia).
  rewrite !(Z.mod_small (_ / _ / _)) by done. intros H1 H2.
  rewrite (Z.div_mod (va / 4096) 1024), (Z.div_mod (va' / 4096) 1024) by lia. by rewrite H1, H2.
Qed.

Lemma page_indices va va' : va / PGSIZE = va' / PGSIZE -> PDX va = PDX va' /\ PTX va = PTX va'.
Proof.
  intros H. rewrite !PDX_eq, !PTX_eq. change 4194304 with (PGSIZE * 1024). by rewrite <- !Z.div_div, H.
Qed.

End bits.

(** ** Address spaces

    [tabs] gives the page table for each index of the directory that has one.  The
    directory, the tables and the free pages are different pages. *)
Section address_space.
Context {E : Env}.

Record pgdir_ok (m : memory) (pgdir : Z) (tabs : gmap Z Z) (free : list Z) : Prop := PgdirOk {
  pd_page : page_ok pgdir;
  pd_free : pgdir ∉ free;
  pd_entry : forall i, 0 <= i < 1024 -> load32 m (pgdir + 4 * i) = from_option pde_of 0 (tabs !! i);
  pd_table : forall i t, tabs !! i = Some t -> page_ok t /\ t <> pgdir /\ t ∉ free;
  pd_inj : forall i j t, tabs !! i = Some t -> tabs !! j = Some t -> i = j
}.

(** The page table entry for an address. *)
Definition entry (m : memory) (tabs : gmap Z Z) (va : Z) : Z :=
  match tabs !! PDX va with
  | Some t => load32 m (t + 4 * PTX va)
  | None => 0
  end.

Lemma hw_walk_entry m pgdir tabs free va w u :
  pgdir_ok m pgdir tabs free ->
  hw_walk m (V2P pgdir) va w u =
    let e := entry m tabs va in if allows e w u then Some (P2V (PTE_ADDR e) + va mod PGSIZE) else None.
Proof.
  intros [Hp _ He Ht _]. unfold hw_walk. rewrite page_P2V, He by (done || apply PDX_range). unfold entry.
  destruct (tabs !! PDX va) as [t|] eqn:Hi; cbn [from_option]; [|done].
  destruct (Ht _ _ Hi) as (Hpt & _). destruct (pde_of_ok t Hpt) as (Ha & Hf & _).
  change (nz (Z.land ?e PTE_P) && _ && _) with (allows e w u). rewrite Hf, Ha. done.
Qed.

(** A word of the page [v] is outside the other pages. *)
Lemma word_apart v v' i b :
  page_ok v -> page_ok v' -> v <> v' -> 0 <= i < 1024 -> v' <= b < v' + PGSIZE -> ~ (v + 4 * i <= b < v + 4 * i + 4).
Proof.
  intros Hv Hv' Hne Hi Hb Hc. apply (page_ok_disjoint v v' b b); [done..| |done|done]. unfold PGSIZE. lia.
Qed.

Lemma load32_apart v v' i j m x :
  page_ok v -> page_ok v' -> 0 <= i < 1024 -> 0 <= j < 1024 -> v <> v' \/ i <> j ->
  load32 (store32 m (v + 4 * i) x) (v' + 4 * j) = load32 m (v' + 4 * j).
Proof.
  intros Hv Hv' Hi Hj Hne. apply load32_ext. intros b Hb. rewrite load8_store32, decide_False; [done|].
  destruct (decide (v = v')) as [<-|]; [lia|]. apply (word_apart v v'); [done..|]. unfold PGSIZE. lia.
Qed.

(** A store to a page that is not free leaves the free list. *)
Lemma freelist_store s l v i x :
  freelist_ok s l -> page_ok v -> v ∉ l -> 0 <= i < 1024 ->
  freelist_ok (s <| k_mem ::= fun m => store32 m (v + 4 * i) x |>) l.
Proof.
  intros [Hc Hn Hp Hb] Hv Hl Hi. split; [|done|done|by apply bytes_ok_store32].
  eapply chain_ext; [done| |exact Hc]. intros y a Hy Ha. cbn. rewrite load8_store32, decide_False; [done|].
  apply list_elem_of_In in Hy. apply (word_apart v y); [done| |by intros ->|done|unfold PGSIZE; lia].
  by eapply Forall_forall in Hp.
Qed.

(** [m'] differs from [m] in the directory and the tables only. *)
Definition tables_only (pgdir : Z) (tabs : gmap Z Z) (m m' : memory) : Prop :=
  forall b, ~ (pgdir <= b < pgdir + PGSIZE) -> (forall i t, tabs !! i = Some t -> ~ (t <= b < t + PGSIZE)) ->
  load8 m' b = load8 m b.

(** *** Setting an entry *)

Lemma set_entry m pgdir tabs free va t x :
  pgdir_ok m pgdir tabs free -> tabs !! PDX va = Some t -> 0 <= va < W32 -> 0 <= x < W32 ->
  let m' := store32 m (t + 4 * PTX va) x in
  pgdir_ok m' pgdir tabs free
  /\ (forall va', 0 <= va' < W32 -> entry m' tabs va' = if decide (va' / PGSIZE = va / PGSIZE) then x else entry m tabs va')
  /\ tables_only pgdir tabs m m'.
Proof.
  intros [Hp Hf He Ht Hj] Hi Hva Hx m'. destruct (Ht _ _ Hi) as (Hpt & Hne & Hfr). split_and!.
  - split; [done|done| |done|done]. intros i Hir. subst m'.
    rewrite load32_apart; [by apply He|done..|apply PTX_range|done|by left].
  - intros va' Hva'. unfold entry. subst m'. case_decide as Hd.
    + destruct (page_indices _ _ Hd) as [-> ->]. rewrite Hi. by apply load32_store32.
    + destruct (tabs !! PDX va') as [t'|] eqn:Hi'; [|done]. destruct (Ht _ _ Hi') as (Hpt' & _).
      apply load32_apart; [done|done|apply PTX_range|apply PTX_range|].
      destruct (decide (t = t')) as [<-|]; [right|by left]. intros Heq. apply Hd. symmetry.
      apply same_page; [done|done| |done]. by apply (Hj _ _ t).
  - intros b _ Hb. subst m'. rewrite load8_store32, decide_False; [done|]. specialize (Hb _ _ Hi).
    pose proof (PTX_range va). unfold PGSIZE in *. lia.
Qed.

(** *** A new page table *)

Definition with_table (m : memory) (pgdir i t : Z) : memory :=
  store32 (memset m t 0 PGSIZE) (pgdir + 4 * i) (pde_of t).

Lemma load32_memset_apart m v t j :
  page_ok v -> page_ok t -> v <> t -> 0 <= j < 1024 -> load32 (memset m t 0 PGSIZE) (v + 4 * j) = load32 m (v + 4 * j).
Proof.
  intros Hv Ht Hne Hj. apply load32_ext. intros b Hb. rewrite memset_load, decide_False; [done| |done].
  intros Hc. by apply (word_apart v t j b).
Qed.

Lemma load32_memset_zero m t j : 0 <= j < 1024 -> load32 (memset m t 0 PGSIZE) (t + 4 * j) = 0.
Proof.
  intros Hj. unfold load32. rewrite !memset_load by done. unfold PGSIZE. by rewrite !decide_True by lia.
Qed.

Lemma new_table m pgdir tabs t free i :
  pgdir_ok m pgdir tabs (t :: free) -> page_ok t -> NoDup (t :: free) -> 0 <= i < 1024 -> tabs !! i = None ->
  let m' := with_table m pgdir i t in
  pgdir_ok m' pgdir (<[i := t]> tabs) free
  /\ (forall va, entry m' (<[i := t]> tabs) va = entry m tabs va)
  /\ tables_only pgdir (<[i := t]> tabs) m m'.
Proof.
  intros [Hp Hf He Ht Hj] Hpt Hn Hi Hnone m'. apply NoDup_cons in Hn as [Hn _].
  apply not_elem_of_cons in Hf as [Hne Hf]. destruct (pde_of_ok t Hpt) as (_ & _ & Hrange).
  assert (forall j t', tabs !! j = Some t' -> page_ok t' /\ t' <> pgdir /\ t' <> t /\ t' ∉ free) as Htab.
  { intros j t' Hl. destruct (Ht _ _ Hl) as (H1 & H2 & H3). by apply not_elem_of_cons in H3 as []. }
  split_and!.
  - split; [done|done| | |].
    + intros j Hjr. subst m'. unfold with_table. destruct (decide (i = j)) as [<-|Hij].
      * rewrite lookup_insert_eq. by apply load32_store32.
      * rewrite lookup_insert_ne, load32_apart, load32_memset_apart by (done || by right). by apply He.
    + intros j t'. rewrite lookup_insert_Some. intros [[<- <-]|[_ Hl]]; [done|]. by destruct (Htab _ _ Hl) as (? & ? & _ & ?).
    + intros j k t'. rewrite !lookup_insert_Some.
      intros [[<- <-]|[Hj1 Hl]] [[<- Hjk]|[Hk1 Hl']]; [done| | |by eapply Hj].
      * by destruct (Htab _ _ Hl') as (_ & _ & ? & _).
      * subst t'. by destruct (Htab _ _ Hl) as (_ & _ & ? & _).
  - intros va. unfold entry. subst m'. unfold with_table. pose proof (PTX_range va). destruct (decide (i = PDX va)) as [->|Hd].
    + rewrite lookup_insert_eq, Hnone. rewrite load32_apart by (done || by left). by apply load32_memset_zero.
    + rewrite lookup_insert_ne by done. destruct (tabs !! PDX va) as [t'|] eqn:Hl; [|done].
      destruct (Htab _ _ Hl) as (H1 & H2 & H3 & _). rewrite load32_apart by (done || by left).
      by apply load32_memset_apart.
  - intros b Hb Hbt. subst m'. unfold with_table. specialize (Hbt i t (lookup_insert_eq _ _ _)).
    rewrite load8_store32, decide_False by (unfold PGSIZE in *; lia). by rewrite memset_load, decide_False.
Qed.

Lemma freelist_memset s l t :
  freelist_ok s l -> page_ok t -> t ∉ l -> freelist_ok (s <| k_mem ::= fun m => memset m t 0 PGSIZE |>) l.
Proof.
  intros [Hc Hn Hp Hb] Ht Hl. split; [|done|done|].
  - eapply chain_ext; [done| |exact Hc]. intros y a Hy Ha. cbn. rewrite memset_load, decide_False; [done| |done].
    apply list_elem_of_In in Hy. intros Hc'. apply (page_ok_disjoint t y a a); [done| |by intros ->|done|unfold PGSIZE; lia|done].
    by eapply Forall_forall in Hp.
  - intros a. cbn. rewrite memset_load by done. case_decide; [done|apply Hb].
Qed.

(** *** [walkpgdir] with allocation

    It finds the table, or makes one from the next free page; it fails only when
    there is no free page.  No translation changes. *)
Record space (s : kernel) (pgdir : Z) (tabs : gmap Z Z) (l : list Z) : Prop := Space {
  sp_ready : kmem_ready s;
  sp_free : freelist_ok s l;
  sp_pgdir : pgdir_ok (k_mem s) pgdir tabs l
}.

Lemma walkpgdir_present s pgdir tabs l va t alloc :
  space s pgdir tabs l -> tabs !! PDX va = Some t -> walkpgdir pgdir va alloc s = Done (t + 4 * PTX va) s.
Proof.
  intros [_ _ [_ _ He Ht _]] Hi. unfold walkpgdir, load. kstep. rewrite He, Hi by apply PDX_range. cbn [from_option].
  destruct (Ht _ _ Hi) as (Hpt & _). destruct (pde_of_ok t Hpt) as (Ha & Hf & _).
  specialize (Hf false false). unfold allows in Hf. rewrite !andb_true_r in Hf. by rewrite Hf, Ha.
Qed.

Lemma kalloc_take s t l :
  kmem_ready s -> freelist_ok s (t :: l) ->
  kalloc s = Done t (taken s) /\ kmem_ready (taken s) /\ freelist_ok (taken s) l /\ k_mem (taken s) = k_mem s.
Proof.
  intros Hk Hl. destruct (kmem_op_refines OpAlloc s (t :: l) t l Hk Hl eq_refl) as (s' & Hrun & Hk' & Hl').
  cbn [kmem_op] in Hrun. pose proof (kalloc_run s Hk) as Hrun2. rewrite Hrun in Hrun2. injection Hrun2 as -> ->.
  split_and!; [done|done|done|]. unfold taken. by destruct (nz _).
Qed.

Lemma walkpgdir_alloc s pgdir tabs t l va :
  space s pgdir tabs (t :: l) -> tabs !! PDX va = None ->
  let s' := (taken s) <| k_mem ::= fun m => with_table m pgdir (PDX va) t |> in
  walkpgdir pgdir va true s = Done (t + 4 * PTX va) s' /\ space s' pgdir (<[PDX va := t]> tabs) l.
Proof.
  intros [Hk Hl Hp] Hi s'. pose proof (PDX_range va) as Hr. destruct (kalloc_take s t l Hk Hl) as (Ha & Hk' & Hl' & Hm).
  pose proof (fl_pages _ _ Hl) as Hpt. apply Forall_cons_1 in Hpt as [Hpt _].
  pose proof (fl_nodup _ _ Hl) as Hn. destruct (new_table _ _ _ _ _ _ Hp Hpt Hn Hr Hi) as (Hp' & _ & _).
  pose proof (pd_entry _ _ _ _ Hp _ Hr) as He. rewrite Hi in He. cbn [from_option] in He. split.
  - unfold walkpgdir, load, store, upd_mem. kstep. rewrite He. change (nz (Z.land 0 PTE_P)) with false. cbn [negb].
    krun Ha. rewrite (proj2 (Z.eqb_neq _ _)) by (pose proof (page_ok_pos t Hpt); lia). do 2 kstep. reflexivity.
  - split; [done| |subst s'; cbn; by rewrite Hm]. subst s'. unfold with_table.
    rewrite <- (set_set (proj := k_mem) (fun m => store32 m (pgdir + 4 * PDX va) (pde_of t)) (fun m => memset m t 0 PGSIZE)).
    apply freelist_store; [|apply Hp|apply Hp'|done].
    apply freelist_memset; [done|done|]. by apply NoDup_cons in Hn as [].
Qed.

Lemma walkpgdir_fails s pgdir tabs va :
  space s pgdir tabs [] -> tabs !! PDX va = None -> walkpgdir pgdir va true s = Done 0 s.
Proof.
  intros [Hk Hl Hp] Hi. pose proof (pd_entry _ _ _ _ Hp _ (PDX_range va)) as He. rewrite Hi in He. cbn [from_option] in He.
  unfold walkpgdir, load. kstep. rewrite He. change (nz (Z.land 0 PTE_P)) with false. cbn [negb].
  pose proof (fl_chain _ _ Hl) as Hc. cbn in Hc. krun (kalloc_run s Hk). rewrite Hc. unfold taken. by rewrite Hc.
Qed.

(** ** [mappages] *)

(** [s'] maps [k] pages from [a] to [pa], with the flags [perm], and is [s] otherwise. *)
Record maps_pages (s : kernel) (pgdir : Z) (tabs : gmap Z Z) (a pa perm k : Z)
    (s' : kernel) (tabs' : gmap Z Z) (l' : list Z) : Prop := MapsPages {
  mp_space : space s' pgdir tabs' l';
  mp_tabs : tabs ⊆ tabs';
  mp_entry : forall va, 0 <= va < W32 -> entry (k_mem s') tabs' va =
    if decide (a / PGSIZE <= va / PGSIZE < a / PGSIZE + k)
    then pte_of (pa + PGSIZE * (va / PGSIZE - a / PGSIZE)) perm else entry (k_mem s) tabs va;
  mp_mem : tables_only pgdir tabs' (k_mem s) (k_mem s')
}.

Lemma maps_none s pgdir tabs l a pa perm : space s pgdir tabs l -> maps_pages s pgdir tabs a pa perm 0 s tabs l.
Proof. intros H. split; [done|done| |done]. intros va Hva. by rewrite decide_False by lia. Qed.

Lemma tables_only_weaken pgdir tabs tabs' m m' : tabs ⊆ tabs' -> tables_only pgdir tabs m m' -> tables_only pgdir tabs' m m'.
Proof. intros Hs H b Hb Ht. apply H; [done|]. intros i t Hi. apply (Ht i t). by eapply lookup_weaken. Qed.

Lemma maps_app s pgdir tabs a pa perm k s1 tabs1 l1 j s2 tabs2 l2 :
  0 <= k -> 0 <= j -> maps_pages s pgdir tabs a pa perm k s1 tabs1 l1 ->
  maps_pages s1 pgdir tabs1 (a + PGSIZE * k) (pa + PGSIZE * k) perm j s2 tabs2 l2 ->
  maps_pages s pgdir tabs a pa perm (k + j) s2 tabs2 l2.
Proof.
  intros Hk Hj [_ Hs1 He1 Hm1] [Hsp Hs2 He2 Hm2].
  assert ((a + PGSIZE * k) / PGSIZE = a / PGSIZE + k) as Hdiv by (rewrite (Z.mul_comm PGSIZE); by apply Z.div_add).
  split; [done|by etrans| |].
  - intros va Hva. rewrite He2, He1, Hdiv by done. repeat case_decide; try lia; try done. f_equal. lia.
  - intros b Hb Ht. rewrite Hm2 by done. by apply (tables_only_weaken _ _ _ _ _ Hs2 Hm1).
Qed.

Lemma walkpgdir_run s pgdir tabs l va a pa perm :
  space s pgdir tabs l ->
  (l = [] /\ walkpgdir pgdir va true s = Done 0 s)
  \/ exists s1 tabs1 l1 t, walkpgdir pgdir va true s = Done (t + 4 * PTX va) s1
     /\ maps_pages s pgdir tabs a pa perm 0 s1 tabs1 l1 /\ tabs1 !! PDX va = Some t.
Proof.
  intros Hs. destruct (tabs !! PDX va) as [t|] eqn:Hi; [|destruct l as [|t l]].
  - right. exists s, tabs, l, t. split_and!; [by eapply walkpgdir_present|by apply maps_none|done].
  - left. split; [done|]. by eapply walkpgdir_fails.
  - right. destruct (walkpgdir_alloc s pgdir tabs t l va Hs Hi) as [Hrun Hs']. pose proof Hs as [Hk Hl Hp].
    destruct (kalloc_take s t l Hk Hl) as (_ & _ & _ & Hm). pose proof (fl_pages _ _ Hl) as Hpt.
    apply Forall_cons_1 in Hpt as [Hpt _].
    destruct (new_table _ _ _ _ _ _ Hp Hpt (fl_nodup _ _ Hl) (PDX_range va) Hi) as (_ & He & Ht).
    eexists _, (<[PDX va := t]> tabs), l, t. split_and!; [exact Hrun| |apply lookup_insert_eq].
    split; [done|by apply insert_subseteq| |].
    + intros va' _. rewrite decide_False by lia. cbn. by rewrite Hm.
    + cbn. by rewrite Hm.
Qed.

Lemma map_one s pgdir tabs l n a pa perm :
  space s pgdir tabs l -> 0 <= a < W32 -> pa mod PGSIZE = 0 -> 0 <= pa < W32 -> 0 <= perm < PGSIZE ->
  Z.land (entry (k_mem s) tabs a) PTE_P = 0 ->
  (l = [] /\ map_loop n pgdir a pa perm s = Done (-1) s)
  \/ exists s1 tabs1 l1, maps_pages s pgdir tabs a pa perm 1 s1 tabs1 l1
     /\ map_loop n pgdir a pa perm s =
        match n with O => mret 0 | S n' => map_loop n' pgdir (u32 (a + PGSIZE)) (u32 (pa + PGSIZE)) perm end s1.
Proof.
  intros Hs Ha Hm Hpa Hperm Hz.
  assert (map_loop n pgdir a pa perm =
    (pte ← walkpgdir pgdir a true ; if pte =? 0 then mret (-1) else
     e ← load pte ; if nz (Z.land e PTE_P) then panic "remap" else
     store pte (Z.lor (Z.lor pa perm) PTE_P) ;;
     match n with O => mret 0 | S n' => map_loop n' pgdir (u32 (a + PGSIZE)) (u32 (pa + PGSIZE)) perm end)) as ->
    by by destruct n.
  destruct (walkpgdir_run s pgdir tabs l a a pa perm Hs) as [[-> Hw]|(s1 & tabs1 & l1 & t & Hw & Hmap & Hi)].
  { left. split; [done|]. by krun Hw. }
  right. pose proof Hmap as [[Hk Hl Hp] Hsub He Ho]. pose proof (PTX_range a).
  destruct (pd_table _ _ _ _ Hp _ _ Hi) as (Hpt & Hne & Hfr). destruct (pte_of_addr pa perm Hm Hpa Hperm) as [_ Hv].
  destruct (set_entry _ _ _ _ a t (pte_of pa perm) Hp Hi Ha Hv) as (Hp' & He' & Ho').
  exists (s1 <| k_mem ::= fun m => store32 m (t + 4 * PTX a) (pte_of pa perm) |>), tabs1, l1. split.
  - assert (0 + 1 = 1) as <- by done. eapply maps_app; [done|done|exact Hmap|]. rewrite Z.mul_0_r, !Z.add_0_r.
    split; [split; [done|by apply freelist_store|done]|done| |done].
    intros va Hva. cbn. rewrite He' by done. case_decide as Hd; [|by rewrite decide_False by lia].
    rewrite decide_True by lia. f_equal. lia.
  - krun Hw. rewrite (proj2 (Z.eqb_neq _ _)) by (pose proof (page_ok_pos t Hpt); lia). unfold load, store, upd_mem. kstep.
    assert (load32 (k_mem s1) (t + 4 * PTX a) = entry (k_mem s) tabs a) as ->.
    { specialize (He a Ha). rewrite decide_False in He by lia. rewrite <- He. unfold entry. by rewrite Hi. }
    rewrite Hz. change (nz 0) with false. cbv match. by kstep.
Qed.

Lemma map_loop_run n s pgdir tabs l a pa perm :
  space s pgdir tabs l -> 0 <= a -> a + PGSIZE * Z.of_nat n < W32 ->
  pa mod PGSIZE = 0 -> 0 <= pa -> pa + PGSIZE * Z.of_nat n < W32 -> 0 <= perm < PGSIZE ->
  (forall va, 0 <= va < W32 -> a / PGSIZE <= va / PGSIZE <= a / PGSIZE + Z.of_nat n ->
     Z.land (entry (k_mem s) tabs va) PTE_P = 0) ->
  exists r k s' tabs' l', map_loop n pgdir a pa perm s = Done r s' /\ maps_pages s pgdir tabs a pa perm k s' tabs' l'
    /\ (r = 0 /\ k = Z.of_nat n + 1 \/ r = -1 /\ l' = [] /\ 0 <= k <= Z.of_nat n).
Proof.
  revert s tabs l a pa. induction n as [|n IH]; intros s tabs l a pa Hs Ha Hal Hm Hpa Hpal Hperm Hz.
  all: unfold PGSIZE in Hal, Hpal.
  all: pose proof (fun n => map_one s pgdir tabs l n a pa perm Hs ltac:(lia) Hm ltac:(lia) Hperm (Hz a ltac:(lia) ltac:(lia))) as Hone.
  1: destruct (Hone O) as [[-> Hrun]|(s1 & tabs1 & l1 & Hmap & Hrun)].
  3: destruct (Hone (S n)) as [[-> Hrun]|(s1 & tabs1 & l1 & Hmap & Hrun)].
  1, 3: exists (-1), 0, s, tabs, []; split; [done|]; split; [by apply maps_none|right; split_and!; lia || done].
  - exists 0, 1, s1, tabs1, l1. split; [done|]. split; [done|by left].
  - rewrite Nat2Z.inj_succ in *. unfold u32 in Hrun. unfold PGSIZE in Hrun. rewrite !Z.mod_small in Hrun by lia.
    change 4096 with PGSIZE in *. pose proof Hmap as [Hs1 _ He1 _].
    assert ((a + PGSIZE) / PGSIZE = a / PGSIZE + 1) as Hdiv by (rewrite <- (Z.mul_1_l PGSIZE) at 1; by apply Z.div_add).
    destruct (IH s1 tabs1 l1 (a + PGSIZE) (pa + PGSIZE)) as (r & k & s' & tabs' & l' & Hrun' & Hmap' & Hr); [done|lia|lia| |lia|lia|done| |].
    { rewrite <- Zplus_mod_idemp_l, Hm. done. }
    { intros va Hva Hb. rewrite He1, decide_False by lia. apply Hz; lia. }
    exists r, (1 + k), s', tabs', l'. rewrite Hrun. split; [done|]. split; [|destruct Hr as [[]|(? & ? & ?)]; [left|right; split_and!]; lia || done].
    eapply maps_app; [done|lia|exact Hmap|]. by rewrite !Z.mul_1_r.
Qed.

(** Whether a mapping with flags [perm] allows the access. *)
Definition perm_allows (perm : Z) (write user : bool) : bool := allows (Z.lor perm PTE_P) write user.

Lemma page_base x : x - x mod PGSIZE = PGSIZE * (x / PGSIZE) /\ 0 <= x mod PGSIZE < PGSIZE.
Proof.
  pose proof (Z.div_mod x PGSIZE ltac:(done)). split; [lia|]. by apply Z.mod_pos_bound.
Qed.

Lemma unmapped_entry m pgdir tabs free va :
  pgdir_ok m pgdir tabs free -> hw_walk m (V2P pgdir) va false false = None -> Z.land (entry m tabs va) PTE_P = 0.
Proof.
  intros Hp. rewrite (hw_walk_entry _ _ _ _ _ _ _ Hp). cbv zeta. unfold allows. cbn [negb orb]. rewrite !andb_true_r.
  destruct (nz _) eqn:Hn; [done|]. intros _. by apply nz_false.
Qed.

Lemma maps_walk s pgdir tabs l qa pa perm k s' tabs' l' va w u :
  space s pgdir tabs l -> maps_pages s pgdir tabs (PGSIZE * qa) pa perm k s' tabs' l' ->
  pa mod PGSIZE = 0 -> 0 <= pa -> pa + PGSIZE * (k - 1) < W32 -> 0 <= perm < PGSIZE -> 0 <= va < W32 ->
  hw_walk (k_mem s') (V2P pgdir) va w u =
    if decide (PGSIZE * qa <= va < PGSIZE * qa + PGSIZE * k)
    then if perm_allows perm w u then Some (P2V (pa + (va - va mod PGSIZE - PGSIZE * qa)) + va mod PGSIZE) else None
    else hw_walk (k_mem s) (V2P pgdir) va w u.
Proof.
  intros Hs [Hs' _ He _] Hm Hpa Hpal Hperm Hva.
  rewrite (hw_walk_entry _ _ _ _ _ _ _ (sp_pgdir _ _ _ _ Hs')), (hw_walk_entry _ _ _ _ _ _ _ (sp_pgdir _ _ _ _ Hs)).
  cbv zeta. rewrite He by done. rewrite (Z.mul_comm PGSIZE qa), Z.div_mul by done.
  destruct (page_base va) as [Hb Ho]. rewrite Hb. unfold PGSIZE in Hb, Ho, Hpal.
  destruct (decide (qa <= va / PGSIZE < qa + k)) as [Hd|Hd]; unfold PGSIZE in Hd; [|rewrite decide_False by (unfold PGSIZE; lia); done].
  rewrite decide_True by (unfold PGSIZE; lia).
  assert ((pa + PGSIZE * (va / PGSIZE - qa)) mod PGSIZE = 0) as Hm'.
  { rewrite (Z.mul_comm PGSIZE), Z.mod_add by done. done. }
  rewrite pte_of_allows by done. fold (perm_allows perm w u). destruct (perm_allows perm w u); [|done].
  rewrite (proj1 (pte_of_addr _ _ Hm' ltac:(unfold PGSIZE; lia) Hperm)). do 3 f_equal. lia.
Qed.

(** C5: [mappages] maps a range of virtual addresses.  Let no address of the range be
    mapped, and let the directory, its tables and the free pages be different pages.  Then, whether
    or not page tables have to be allocated, the call ends, and the processor's walk of the
    page table finds, for an address of the first [k] pages of the range, the physical page
    at the same distance from [pa], with the given permissions; for every other address
    it finds what it found before.  All pages are mapped when the call returns
    0; it returns -1 only when memory is exhausted.  No byte outside the directory
    and its tables changes, and the page table stays well formed. *)
Theorem mappages_translates s pgdir tabs l va size pa perm :
  space s pgdir tabs l -> 0 <= va -> 0 < size -> va + size <= W32 ->
  pa mod PGSIZE = 0 -> 0 <= pa -> pa + size + PGSIZE <= W32 -> 0 <= perm < PGSIZE ->
  (forall va', PGROUNDDOWN va <= va' < PGROUNDDOWN (va + size - 1) + PGSIZE ->
     hw_walk (k_mem s) (V2P pgdir) va' false false = None) ->
  let a := PGROUNDDOWN va in
  let pages := (PGROUNDDOWN (va + size - 1) - a) / PGSIZE + 1 in
  exists r k s' tabs' l', mappages pgdir va size pa perm s = Done r s'
    /\ space s' pgdir tabs' l'
    /\ (forall va' w u, 0 <= va' < W32 -> hw_walk (k_mem s') (V2P pgdir) va' w u =
          if decide (a <= va' < a + PGSIZE * k)
          then if perm_allows perm w u then Some (P2V (pa + (va' - va' mod PGSIZE - a)) + va' mod PGSIZE) else None
          else hw_walk (k_mem s) (V2P pgdir) va' w u)
    /\ tables_only pgdir tabs' (k_mem s) (k_mem s')
    /\ (r = 0 /\ k = pages \/ r = -1 /\ l' = [] /\ 0 <= k < pages).
Proof.
  intros Hs Hva Hsz Hend Hm Hpa Hpal Hperm Hz a pages. subst a pages. unfold mappages.
  assert (u32 (va + size - 1) = va + size - 1) as -> by (apply Z.mod_small; lia).
  rewrite !PGROUNDDOWN_eq in * by lia. destruct (page_base va) as [Hba Hoa], (page_base (va + size - 1)) as [Hbb Hob].
  rewrite Hba, Hbb in *. generalize dependent (va / PGSIZE). generalize dependent ((va + size - 1) / PGSIZE).
  intros qb Hbb qa Hz Hba. unfold PGSIZE in Hba, Hbb, Hoa, Hob, Hpal.
  assert (u32 (PGSIZE * qb - PGSIZE * qa) = PGSIZE * (qb - qa)) as -> by (unfold u32, PGSIZE; rewrite Z.mod_small; lia).
  rewrite <- Z.mul_sub_distr_l, (Z.mul_comm PGSIZE (qb - qa)), Z.div_mul by done.
  assert ((PGSIZE * qa) / PGSIZE = qa) as Hqa by (rewrite Z.mul_comm; by apply Z.div_mul).
  destruct (map_loop_run (Z.to_nat (qb - qa)) s pgdir tabs l (PGSIZE * qa) pa perm)
    as (r & k & s' & tabs' & l' & Hrun & Hmap & Hr); [done|unfold PGSIZE; lia..|done|done|unfold PGSIZE; lia|done| |].
  { intros va' Hva' Hb. rewrite Hqa in Hb. eapply unmapped_entry; [apply Hs|]. apply Hz.
    destruct (page_base va') as [Hb' Ho']. unfold PGSIZE in *. lia. }
  rewrite Z2Nat.id in Hr by lia. exists r, k, s', tabs', l'.
  split_and!; [done|apply Hmap| |apply Hmap|destruct Hr as [[]|(? & ? & ?)]; [left|right; split_and!]; lia || done].
  intros va' w u Hva'. eapply maps_walk; [done|exact Hmap|done|done| |done|done]. unfold PGSIZE. lia.
Qed.

End address_space.
