(* ===== verification/SysArgs.v ===== *)
(** The first half of syscall.c: system call arguments are fetched from the user
    stack through the page table of the current process.

    A function that returns -1 without writing its result gives [None].  A string
    argument is given as the bytes before its terminator: no other process can
    write the memory it lies in, so it stays what it was when it was checked. *)
From S2P Require Import Prelude Kernel Spinlock CString Kalloc Proc Vm.

Section args.
Context {E : Env}.

Definition fetchint (addr : Z) : K (option Z) :=
  c ← curproc ;
  p ← get_proc c ;
  if (p_sz p <=? addr) || (p_sz p <? u32 (addr + 4)) then mret None else
  v ← uload32 addr ;
  mret (Some (i32 v)).

(** [for(s = *pp; s < ep; s++)], with [n] bytes left before [ep]. *)
Fixpoint fetch_bytes (n : nat) (s : Z) : K (option (list Z)) :=
  match n with
  | O => mret None
  | S n' =>
      b ← uload8 s ;
      if b =? 0 then mret (Some []) else
      o ← fetch_bytes n' (s + 1) ;
      mret (cons b <$> o)
  end.

(** The string; the value returned is its length. *)
Definition fetchstr (addr : Z) : K (option (list Z)) :=
  c ← curproc ;
  p ← get_proc c ;
  if p_sz p <=? addr then mret None else
  fetch_bytes (Z.to_nat (p_sz p - addr)) addr.

Definition argint (n : Z) : K (option Z) :=
  c ← curproc ;
  p ← get_proc c ;
  fetchint (u32 (tf_esp (p_tf p) + 4 + 4 * n)).

Definition argptr (n size : Z) : K (option Z) :=
  c ← curproc ;
  o ← argint n ;
  match o with
  | None => mret None
  | Some i =>
      p ← get_proc c ;
      if (size <? 0) || (p_sz p <=? u32 i) || (p_sz p <? u32 (i + size)) then mret None else
      mret (Some (u32 i))
  end.

Definition argstr (n : Z) : K (option (list Z)) :=
  o ← argint n ;
  match o with
  | None => mret None
  | Some addr => fetchstr (u32 addr)
  end.

End args.

(** ** The checks *)

Section checks.
Context {E : Env}.

(** Process [p], entry [c] of the table, runs; its memory ends below the kernel. *)
Record current (s : kernel) (c : nat) (p : proc) : Prop := Current {
  cu_runs : exists i cpu, runs_on (k_hw s) i cpu /\ c_proc cpu = Some c;
  cu_proc : k_ptable s !! c = Some p;
  cu_sz : 0 <= p_sz p <= KERNBASE
}.

Lemma curproc_run s c p : current s c p -> curproc s = Done c s.
Proof.
  intros [(i & x & Hr & Hc) _ _]. unfold curproc. krun (myproc_run s i x Hr). by rewrite Hc.
Qed.

Lemma current_proc s c p : current s c p -> get_proc c s = Done p s.
Proof. intros [_ Hp _]. by apply get_proc_run. Qed.

Lemma fetchint_run s c p addr :
  current s c p -> 0 <= addr < W32 ->
  fetchint addr s = if decide (addr + 4 <= p_sz p) then (v ← uload32 addr ; mret (Some (i32 v))) s else Done None s.
Proof.
  intros Hs Ha. pose proof (cu_sz _ _ _ Hs) as Hsz. unfold fetchint.
  krun (curproc_run s c p Hs). krun (current_proc s c p Hs).
  destruct (Z.leb_spec (p_sz p) addr) as [H1|H1]; cbn [orb].
  { by rewrite decide_False by lia. }
  unfold u32. rewrite Z.mod_small by (unfold KERNBASE, W32 in *; lia).
  destruct (Z.ltb_spec (p_sz p) (addr + 4)); [by rewrite decide_False by lia|by rewrite decide_True by lia].
Qed.

Lemma argptr_run s c p n size i :
  current s c p -> - 2147483648 <= size < 2147483648 -> argint n s = Done (Some i) s ->
  argptr n size s =
    Done (if decide (0 <= size /\ u32 i + size <= p_sz p /\ u32 i < p_sz p) then Some (u32 i) else None) s.
Proof.
  intros Hs Hsize Hi. pose proof (cu_sz _ _ _ Hs) as Hsz. unfold argptr.
  krun (curproc_run s c p Hs). krun Hi. krun (current_proc s c p Hs).
  pose proof (Z.mod_pos_bound i W32 ltac:(done)) as Hu. fold (u32 i) in Hu.
  destruct (Z.ltb_spec size 0); [by rewrite decide_False by lia|].
  destruct (Z.leb_spec (p_sz p) (u32 i)); [by rewrite decide_False by lia|]. cbn [orb].
  assert (u32 (i + size) = u32 i + size) as ->.
  { unfold u32 at 1. rewrite <- Zplus_mod_idemp_l. apply Z.mod_small. unfold KERNBASE, W32, u32 in *. lia. }
  destruct (Z.ltb_spec (p_sz p) (u32 i + size)); [by rewrite decide_False by lia|by rewrite decide_True by lia].
Qed.

(** The byte the kernel reads at [va]. *)
Definition ubyte (s : kernel) (va : Z) : option Z :=
  load8 (k_mem s) <$> hw_walk (k_mem s) (k_cr3 s) va false false.

Lemma uload8_run s va b : ubyte s va = Some b -> uload8 va s = Done b s.
Proof.
  unfold ubyte, uload8. intros H. destruct (hw_walk _ _ _ _ _) as [a|] eqn:Ha; [|done].
  kstep. rewrite Ha. cbn in H. kstep. by simplify_eq.
Qed.

Fixpoint ubytes (s : kernel) (va : Z) (n : nat) : option (list Z) :=
  match n with
  | O => Some []
  | S n' => b ← ubyte s va ; l ← ubytes s (va + 1) n' ; Some (b :: l)
  end.

Lemma fetch_bytes_run s n a l :
  ubytes s a n = Some l -> fetch_bytes n a s = Done (if decide (0 ∈ l) then Some (cstring l) else None) s.
Proof.
  revert a l. induction n as [|n IH]; intros a l Hl; cbn in Hl.
  { simplify_eq. by rewrite decide_False by (by intros ?%not_elem_of_nil). }
  destruct (ubyte s a) as [b|] eqn:Hb; [|done]. cbn in Hl.
  destruct (ubytes s (a + 1) n) as [l'|] eqn:Hl'; [|done]. cbn in Hl. simplify_eq.
  cbn [fetch_bytes]. krun (uload8_run s a b Hb). cbn [cstring]. unfold nz.
  destruct (Z.eqb_spec b 0) as [->|Hne]; cbn [negb].
  { by rewrite decide_True by left. }
  krun (IH _ _ Hl'). rewrite (decide_ext (0 ∈ b :: l') (0 ∈ l')) by set_solver. by case_decide.
Qed.

Lemma fetchstr_run s c p addr l :
  current s c p -> 0 <= addr -> ubytes s addr (Z.to_nat (p_sz p - addr)) = Some l ->
  fetchstr addr s = Done (if decide (addr < p_sz p /\ 0 ∈ l) then Some (cstring l) else None) s.
Proof.
  intros Hs Ha Hl. unfold fetchstr. krun (curproc_run s c p Hs). krun (current_proc s c p Hs).
  destruct (Z.leb_spec (p_sz p) addr); [by rewrite decide_False by lia|].
  rewrite (fetch_bytes_run s _ addr l Hl). by rewrite (decide_ext (addr < p_sz p /\ 0 ∈ l) (0 ∈ l)) by naive_solver.
Qed.

(** C26: system call arguments are checked against the memory of the process, and no
    argument escapes the check by overflow.  [fetchint] reads exactly when the four
    bytes lie below [sz]; [argptr] accepts a block exactly when its size is not
    negative and it lies in the memory as a whole; [fetchstr] gives the bytes before
    the first 0 when there is one before the end of the memory; otherwise they
    return -1 and read nothing. *)
Theorem syscall_args_checked s c p :
  current s c p ->
  (forall addr, 0 <= addr < W32 ->
     fetchint addr s = if decide (addr + 4 <= p_sz p) then (v ← uload32 addr ; mret (Some (i32 v))) s else Done None s)
  /\ (forall n size i, - 2147483648 <= size < 2147483648 -> argint n s = Done (Some i) s ->
     argptr n size s =
       Done (if decide (0 <= size /\ u32 i + size <= p_sz p /\ u32 i < p_sz p) then Some (u32 i) else None) s)
  /\ (forall addr l, 0 <= addr -> ubytes s addr (Z.to_nat (p_sz p - addr)) = Some l ->
     fetchstr addr s = Done (if decide (addr < p_sz p /\ 0 ∈ l) then Some (cstring l) else None) s).
Proof.
  intros Hs. split_and!; intros.
  - by apply (fetchint_run s c).
  - by apply (argptr_run s c p n size i).
  - by apply (fetchstr_run s c p).
Qed.

End checks.
