(* ===== verification/Sleeplock.v ===== *)
(** sleeplock.c: locks held across sleeps, by processes.

    [calm] describes the states of a system in which one process runs in the kernel
    and no other thread stands in its way: every spin lock is free and nobody
    sleeps on a channel of the file system.  The theorems on the file system layers
    above are about executions from such states; there the operations return
    without leaving the CPU. *)
From S2P Require Import Prelude Kernel Spinlock Console CString Kalloc Proc.

Section sleeplock.
Context {E : Env}.

Definition zero_sleeplock : sleeplock := Sleeplock 0 "" 0.
Definition sl_at (m : gmap sleepid sleeplock) (id : sleepid) : sleeplock := default zero_sleeplock (m !! id).
Definition get_sl (id : sleepid) : K sleeplock := gets (fun s => sl_at (k_sleeplocks s) id).
Definition upd_sl (id : sleepid) (f : sleeplock -> sleeplock) : K unit :=
  modify (fun s => s <| k_sleeplocks ::= fun m => <[id := f (sl_at m id)]> m |>).

Definition initsleeplock (id : sleepid) (name : string) : K unit :=
  initlock (L_sleep id) "sleep lock" ;;
  upd_sl id (fun lk => lk <| sl_name := name |>) ;;
  upd_sl id (fun lk => lk <| sl_locked := 0 |>) ;;
  upd_sl id (fun lk => lk <| sl_pid := 0 |>).

(** [myproc()->pid] *)
Definition mypid : K Z := i ← curproc ; p ← get_proc i ; mret (p_pid p).

Definition acquiresleep (id : sleepid) : K unit :=
  acquire (L_sleep id) ;;
  loop fuel (
    lk ← get_sl id ;
    if nz (sl_locked lk) then sleep (CH_sleep id) (L_sleep id) ;; mret None
    else mret (Some tt)) ;;
  upd_sl id (fun lk => lk <| sl_locked := 1 |>) ;;
  pid ← mypid ;
  upd_sl id (fun lk => lk <| sl_pid := pid |>) ;;
  release (L_sleep id).

Definition releasesleep (id : sleepid) : K unit :=
  acquire (L_sleep id) ;;
  upd_sl id (fun lk => lk <| sl_locked := 0 |>) ;;
  upd_sl id (fun lk => lk <| sl_pid := 0 |>) ;;
  wakeup (CH_sleep id) ;;
  release (L_sleep id).

Definition holdingsleep (id : sleepid) : K bool :=
  acquire (L_sleep id) ;;
  lk ← get_sl id ;
  r ← (if nz (sl_locked lk) then pid ← mypid ; mret (sl_pid lk =? pid) else mret false) ;
  release (L_sleep id) ;;
  mret r.

(** ** Calm states *)

(** The locks a file system operation takes. *)
Definition fs_lock (lk : lockid) : Prop :=
  match lk with
  | L_pipe _ => False
  | L_sleep (SL_buf i) => (i < NBUF)%nat
  | L_sleep (SL_inode i) => (i < NINODE)%nat
  | _ => True
  end.

Definition fs_chan (ch : chan) : Prop :=
  match ch with CH_log | CH_buf _ | CH_sleep _ => True | _ => False end.

Record calm (h : hw) (t : list proc) (pid : Z) : Prop := Calm {
  cm_fuel : (0 < fuel)%nat;
  cm_runs : exists i c p pr, runs_on h i c /\ c_proc c = Some p /\ t !! p = Some pr /\ p_pid pr = pid;
  cm_free : forall lk, fs_lock lk -> lock_free h lk;
  cm_len : length t = NPROC;
  cm_awake : forall i p ch, t !! i = Some p -> p_state p = SLEEPING -> p_chan p = Some ch -> ~ fs_chan ch
}.

(** The caller may use sleep lock [id]. *)
Definition sl_ok (id : sleepid) : Prop := fs_lock (L_sleep id).

Definition sl_held (pid : Z) (lk : sleeplock) : Prop := sl_locked lk <> 0 /\ sl_pid lk = pid.

End sleeplock.

(** ** Runs of the operations *)

Section rules.
Context {E : Env}.

Lemma mypid_run s i c p pr :
  runs_on (k_hw s) i c -> c_proc c = Some p -> k_ptable s !! p = Some pr ->
  mypid s = Done (p_pid pr) s.
Proof.
  intros Hr Hc Hp. unfold mypid, curproc.
  erewrite bind_done by (krun (myproc_run s i c Hr); by rewrite Hc). cbv beta.
  by krun (get_proc_run s p pr Hp).
Qed.

(** A critical section of a calm system: inside, the same process runs, every
    other lock is free, and the release restores the processor state. *)
Lemma calm_section s pid lk :
  calm (k_hw s) (k_ptable s) pid -> fs_lock lk ->
  exists h, acquire lk s = Done tt (s <| k_hw := h |>)
    /\ cli_ok h
    /\ (forall lk', lk <> lk' -> fs_lock lk' -> lock_free h lk')
    /\ (forall s', k_hw s' = h -> k_ptable s' = k_ptable s -> mypid s' = Done pid s')
    /\ (forall s', k_hw s' = h -> release lk s' = Done tt (s' <| k_hw := k_hw s |>)).
Proof.
  intros [Hf (i & c & p & pr & Hr & Hc & Hp & Hpid) Hfree _ _] Hlk.
  destruct (critical_section s i c lk Hf Hr (Hfree lk Hlk)) as (h & c' & Ha & Hr' & Hc' & Ho & _ & Hrel).
  exists h. split_and!; [done|by exists i, c'|auto| |done].
  intros s' Hs' Ht. subst pid. apply (mypid_run s' i c' p); [by rewrite Hs'|by rewrite Hc'|by rewrite Ht].
Qed.

(** Nobody is woken. *)
Lemma calm_wake h t pid ch : calm h t pid -> fs_chan ch -> map (wake (Some ch)) t = t.
Proof.
  intros [_ _ _ _ Ha] Hch. apply list_eq. intros i. rewrite list_lookup_fmap.
  destruct (t !! i) as [p|] eqn:Hp; [|done]. cbn. f_equal. unfold wake.
  case_decide as Hd; [|done]. destruct Hd as [Hs Hc]. by destruct (Ha i p ch Hp Hs Hc).
Qed.

Lemma calm_wakeup s pid ch :
  calm (k_hw s) (k_ptable s) pid -> fs_chan ch -> forall h,
  cli_ok h -> lock_free h L_ptable -> wakeup ch (s <| k_hw := h |>) = Done tt (s <| k_hw := h |>).
Proof.
  intros Hc Hch h Hh Hl. rewrite wakeup_run; [|apply Hc|split; [done|done|apply Hc]].
  f_equal. apply set_fix. cbn. by eapply calm_wake.
Qed.

Lemma sl_at_insert m id lk : sl_at (<[id := lk]> m) id = lk.
Proof. unfold sl_at. by rewrite lookup_insert_eq. Qed.

Lemma sl_at_insert_ne m id id' lk : id <> id' -> sl_at (<[id := lk]> m) id' = sl_at m id'.
Proof. intros. unfold sl_at. by rewrite lookup_insert_ne. Qed.

Lemma upd_sl_twice s id (f g : sleeplock -> sleeplock) :
  s <| k_sleeplocks ::= fun m => <[id := g (sl_at m id)]> m |>
    <| k_sleeplocks ::= fun m => <[id := f (sl_at m id)]> m |>
  = s <| k_sleeplocks ::= fun m => <[id := f (g (sl_at m id))]> m |>.
Proof. rewrite set_set. apply set_ext. by rewrite sl_at_insert, insert_insert_eq. Qed.

Lemma acquiresleep_run s pid id :
  calm (k_hw s) (k_ptable s) pid -> sl_ok id -> sl_locked (sl_at (k_sleeplocks s) id) = 0 ->
  acquiresleep id s =
    Done tt (s <| k_sleeplocks ::= fun m => <[id := Sleeplock 1 (sl_name (sl_at m id)) pid]> m |>).
Proof.
  intros Hc Hid Hfree. destruct (calm_section s pid (L_sleep id) Hc Hid) as (h & Ha & _ & _ & Hpid & Hrel).
  unfold acquiresleep. krun Ha. set (s1 := s <| k_hw := h |>).
  erewrite bind_done; cycle 1.
  { apply loop_leave; [apply Hc|]. unfold get_sl. kstep.
    change (k_sleeplocks s1) with (k_sleeplocks s). by rewrite Hfree. }
  cbv beta. kstep. kapply Hpid. kstep. rewrite upd_sl_twice, Hrel by done. by destruct s.
Qed.

Lemma releasesleep_run s pid id :
  calm (k_hw s) (k_ptable s) pid -> sl_ok id ->
  releasesleep id s =
    Done tt (s <| k_sleeplocks ::= fun m => <[id := Sleeplock 0 (sl_name (sl_at m id)) 0]> m |>).
Proof.
  intros Hc Hid. destruct (calm_section s pid (L_sleep id) Hc Hid) as (h & Ha & Hh & Ho & _ & Hrel).
  unfold releasesleep. krun Ha. do 2 kstep. rewrite upd_sl_twice.
  set (s1 := set k_sleeplocks _ s).
  change (set k_sleeplocks _ (s <| k_hw := h |>)) with (s1 <| k_hw := h |>).
  erewrite bind_done by (by apply (calm_wakeup s1 pid); [..|apply Ho]).
  cbv beta. rewrite Hrel by done. subst s1. by destruct s.
Qed.

Lemma holdingsleep_run s pid id :
  calm (k_hw s) (k_ptable s) pid -> sl_ok id ->
  holdingsleep id s = Done (nz (sl_locked (sl_at (k_sleeplocks s) id)) &&
                            (sl_pid (sl_at (k_sleeplocks s) id) =? pid)) s.
Proof.
  intros Hc Hid. destruct (calm_section s pid (L_sleep id) Hc Hid) as (h & Ha & _ & _ & Hpid & Hrel).
  unfold holdingsleep. krun Ha. unfold get_sl. kstep.
  change (k_sleeplocks (s <| k_hw := h |>)) with (k_sleeplocks s).
  erewrite (bind_done _ _ _ (nz (sl_locked (sl_at (k_sleeplocks s) id)) &&
     (sl_pid (sl_at (k_sleeplocks s) id) =? pid)) (s <| k_hw := h |>)); cycle 1.
  { destruct (nz _); [|done]. by kapply Hpid. }
  cbv beta. kapply Hrel. unfold mret, M_ret. f_equal. by destruct s.
Qed.
End rules.
