(* ===== verification/Disk.v ===== *)
(** The disk drivers: memide.c, the disk in memory, and ide.c, the IDE disk.

    The kernel is linked with one of them; what the layers above use is [iderw],
    the operation of class [Disk].  [DiskLaws] states what they rely on: in a calm
    system [iderw] synchronises a locked buffer with the disk and returns.
    [memide] satisfies it. [ide_iderw] puts its request on a queue and sleeps until
    the interrupt handler [ideintr] has served it; [ide_queue] relates the queue to
    a list of requests, served in order. *)
From S2P Require Import Prelude Kernel Spinlock Console CString Kalloc Proc Sleeplock.

Section disk.
Context {E : Env}.

Definition get_buf (i : nat) : K buf := l ← gets k_bufs ; deref "buf" (l !! i).
Definition upd_buf (i : nat) (f : buf -> buf) : K unit :=
  modify (fun s => s <| k_bufs ::= alter f i |>).

Definition zero_block : block := replicate (Z.to_nat BSIZE) 0.
Definition disk_read (d : gmap (Z * Z) block) (dev bno : Z) : block := default zero_block (d !! (dev, bno)).
Definition disk_write (dev bno : Z) (data : block) : K unit :=
  modify (fun s => s <| k_disk ::= <[(dev, bno) := data]> |>
                     <| k_writes ::= fun w => w ++ [(dev, bno, data)] |>).

(** ** memide.c *)

(** Block numbers are [uint] in the code.  The callers compute them from unsigned fields by sums that
    stay below 2^32 on a disk of that size, so that they are kept as numbers here. *)
Definition memide_iderw (disksize : Z) (b : nat) : K unit :=
  h ← holdingsleep (SL_buf b) ;
  if negb h then panic "iderw: buf not locked" else
  bf ← get_buf b ;
  if Z.land (b_flags bf) (Z.lor B_VALID B_DIRTY) =? B_VALID then panic "iderw: nothing to do" else
  if negb (b_dev bf =? 1) then panic "iderw: request not for disk 1" else
  if disksize <=? b_blockno bf then panic "iderw: block out of range" else
  (if nz (Z.land (b_flags bf) B_DIRTY) then
     upd_buf b (fun b => b <| b_flags ::= fun f => Z.land f (Z.lnot B_DIRTY) |>) ;;
     disk_write 1 (b_blockno bf) (b_data bf)
   else
     d ← gets k_disk ;
     upd_buf b (fun b => b <| b_data := disk_read d 1 (b_blockno bf) |>)) ;;
  upd_buf b (fun b => b <| b_flags ::= fun f => Z.lor f B_VALID |>).

(** ** ide.c *)

Abbreviation SECTOR_SIZE := 512 (only parsing).

(** The registers [idestart] loads for a request, and the disk and the sector the
    controller reads from them. *)
Definition ide_regs (bf : buf) : list (Z * Z) :=
  let sector_per_block := BSIZE / SECTOR_SIZE in
  let sector := i32 (b_blockno bf * sector_per_block) in
  [(0x3f6, 0); (0x1f2, sector_per_block);
   (0x1f3, Z.land sector 0xff);
   (0x1f4, Z.land (Z.shiftr sector 8) 0xff);
   (0x1f5, Z.land (Z.shiftr sector 16) 0xff);
   (0x1f6, Z.lor (Z.lor 0xe0 (Z.shiftl (Z.land (b_dev bf) 1) 4)) (Z.land (Z.shiftr sector 24) 0x0f))].

Definition ide_reg (regs : list (Z * Z)) (port : Z) : Z :=
  match list_find (fun r => r.1 = port) regs with Some (_, r) => r.2 | None => 0 end.

Definition ide_target (regs : list (Z * Z)) : Z * Z :=
  (Z.land (Z.shiftr (ide_reg regs 0x1f6) 4) 1,
   ide_reg regs 0x1f3 + Z.shiftl (ide_reg regs 0x1f4) 8 + Z.shiftl (ide_reg regs 0x1f5) 16
   + Z.shiftl (Z.land (ide_reg regs 0x1f6) 0xf) 24).

(** The controller is ready when it is asked ([idewait]); a write command takes its
    data at once, a read delivers it when the interrupt is served. *)
Definition idestart (b : option nat) : K unit :=
  match b with
  | None => panic "idestart"
  | Some i =>
      bf ← get_buf i ;
      if FSSIZE <=? b_blockno bf then panic "incorrect blockno" else
      if 7 <? BSIZE / SECTOR_SIZE then panic "idestart" else
      let '(disk, sector) := ide_target (ide_regs bf) in
      when (nz (Z.land (b_flags bf) B_DIRTY)) (disk_write disk sector (b_data bf))
  end.

(** [err] is what the controller reports at the end of the request. *)
Definition ideintr (err : bool) : K unit :=
  acquire L_ide ;;
  q ← gets k_idequeue ;
  match q with
  | None => release L_ide
  | Some b =>
      bf ← get_buf b ;
      modify (fun s => s <| k_idequeue := b_qnext bf |>) ;;
      when (negb (nz (Z.land (b_flags bf) B_DIRTY)) && negb err)
        (d ← gets k_disk ;
         let '(disk, sector) := ide_target (ide_regs bf) in
         upd_buf b (fun b => b <| b_data := disk_read d disk sector |>)) ;;
      upd_buf b (fun b => b <| b_flags ::= fun f => Z.lor f B_VALID |>) ;;
      upd_buf b (fun b => b <| b_flags ::= fun f => Z.land f (Z.lnot B_DIRTY) |>) ;;
      wakeup (CH_buf b) ;;
      q ← gets k_idequeue ;
      when (bool_decide (q <> None)) (idestart q) ;;
      release L_ide
  end.

(** The last buffer of the queue that starts at [b]; a queue holds each buffer at
    most once, so [NBUF] steps reach its end. *)
Fixpoint ide_last (n : nat) (b : nat) : K nat :=
  match n with
  | O => stop_with OutOfFuel
  | S n' =>
      bf ← get_buf b ;
      match b_qnext bf with None => mret b | Some b' => ide_last n' b' end
  end.

(** [for(pp=&idequeue; *pp; pp=&( *pp )->qnext); *pp = b;] *)
Definition ide_append (b : nat) : K unit :=
  q ← gets k_idequeue ;
  match q with
  | None => modify (fun s => s <| k_idequeue := Some b |>)
  | Some b0 =>
      l ← ide_last NBUF b0 ;
      upd_buf l (fun bf => bf <| b_qnext := Some b |>)
  end.

Definition ide_iderw (b : nat) : K unit :=
  h ← holdingsleep (SL_buf b) ;
  if negb h then panic "iderw: buf not locked" else
  bf ← get_buf b ;
  if Z.land (b_flags bf) (Z.lor B_VALID B_DIRTY) =? B_VALID then panic "iderw: nothing to do" else
  havedisk1 ← gets k_havedisk1 ;
  if negb (b_dev bf =? 0) && negb (nz havedisk1) then panic "iderw: ide disk 1 not present" else
  acquire L_ide ;;
  upd_buf b (fun b => b <| b_qnext := None |>) ;;
  ide_append b ;;
  q ← gets k_idequeue ;
  when (bool_decide (q = Some b)) (idestart (Some b)) ;;
  loop fuel (
    bf ← get_buf b ;
    if negb (Z.land (b_flags bf) (Z.lor B_VALID B_DIRTY) =? B_VALID)
    then sleep (CH_buf b) L_ide ;; mret None
    else mret (Some tt)) ;;
  release L_ide.

(** ** What the layers above rely on *)

Class Disk := {
  iderw : nat -> K unit;
  disksize : Z
}.

(** The buffer after a request, and the disk. *)
Definition synced (d : gmap (Z * Z) block) (b : buf) : buf :=
  if nz (Z.land (b_flags b) B_DIRTY)
  then b <| b_flags ::= fun f => Z.lor (Z.land f (Z.lnot B_DIRTY)) B_VALID |>
  else b <| b_data := disk_read d 1 (b_blockno b) |> <| b_flags ::= fun f => Z.lor f B_VALID |>.

Definition written (b : buf) (s : kernel) : kernel :=
  if nz (Z.land (b_flags b) B_DIRTY)
  then s <| k_disk ::= <[(1, b_blockno b) := b_data b]> |>
         <| k_writes ::= fun w => w ++ [(1, b_blockno b, b_data b)] |>
  else s.

Class DiskLaws (D : Disk) : Prop :=
  iderw_sync : forall s pid i b,
    calm (k_hw s) (k_ptable s) pid -> (i < NBUF)%nat -> k_bufs s !! i = Some b ->
    sl_held pid (sl_at (k_sleeplocks s) (SL_buf i)) ->
    Z.land (b_flags b) (Z.lor B_VALID B_DIRTY) <> B_VALID ->
    b_dev b = 1 -> b_blockno b < disksize ->
    iderw i s = Done tt ((written b s) <| k_bufs ::= alter (synced (k_disk s)) i |>).

Definition memide (size : Z) : Disk := {| iderw := memide_iderw size; disksize := size |}.

End disk.

#[global] Arguments disk_read : simpl never.

Section rules.
Context {E : Env}.

Lemma get_buf_run s i b : k_bufs s !! i = Some b -> get_buf i s = Done b s.
Proof. intros H. unfold get_buf. kstep. by rewrite H. Qed.

Lemma holdingsleep_held s pid id :
  calm (k_hw s) (k_ptable s) pid -> sl_ok id -> sl_held pid (sl_at (k_sleeplocks s) id) ->
  holdingsleep id s = Done true s.
Proof.
  intros Hc Hid [Hl Hp]. rewrite (holdingsleep_run s pid id Hc Hid).
  by rewrite (proj2 (nz_true _) Hl), Hp, Z.eqb_refl.
Qed.

#[export] Instance memide_laws size : DiskLaws (memide size).
Proof.
  intros s pid i b Hc Hi Hb Hh Hf Hd Hn. cbn [iderw disksize memide] in *. unfold memide_iderw.
  krun (holdingsleep_held s pid (SL_buf i) Hc Hi Hh). cbn [negb]. krun (get_buf_run s i b Hb).
  rewrite (proj2 (Z.eqb_neq _ _) Hf), Hd. cbn [Z.eqb Pos.eqb negb].
  rewrite (proj2 (Z.leb_gt _ _)) by lia. unfold written.
  destruct (nz (Z.land (b_flags b) B_DIRTY)) eqn:Ed.
  - erewrite (bind_done _ _ _ tt); [|kstep; reflexivity]. cbv beta. unfold upd_buf, modify.
    f_equal. transitivity (s <| k_disk ::= <[(1, b_blockno b) := b_data b]> |>
      <| k_writes ::= fun w => w ++ [(1, b_blockno b, b_data b)] |>
      <| k_bufs ::= alter (fun b => b <| b_flags ::= fun f => Z.land f (Z.lnot B_DIRTY) |>) i |>
      <| k_bufs ::= alter (fun b => b <| b_flags ::= fun f => Z.lor f B_VALID |>) i |>); [done|].
    rewrite set_alter2. eapply set_alter_ext; [exact Hb|]. unfold synced. by rewrite Ed.
  - erewrite (bind_done _ _ _ tt); [|kstep; reflexivity]. cbv beta. unfold upd_buf, modify. f_equal.
    rewrite set_alter2. eapply set_alter_ext; [exact Hb|]. unfold synced. by rewrite Ed.
Qed.
End rules.
