(* ===== verification/Bytes.v ===== *)
(** Fields of the data of a disk block: little-endian integers and byte ranges at
    given offsets of a list of bytes. *)
From S2P Require Import Prelude.

(** The bytes from [o] on. *)
Definition sub (o n : nat) (b : list Z) : list Z := take n (drop o b).
Definition splice (o : nat) (v b : list Z) : list Z := take o b ++ v ++ drop (o + length v) b.

(** [n] little-endian bytes of [v], and back. *)
Fixpoint le (n : nat) (v : Z) : list Z :=
  match n with O => [] | S n' => v mod 256 :: le n' (v / 256) end.
Fixpoint unle (l : list Z) : Z :=
  match l with [] => 0 | b :: l' => b + 256 * unle l' end.

Definition get8 (b : list Z) (o : nat) : Z := unle (sub o 1 b).
Definition get16 (b : list Z) (o : nat) : Z := unle (sub o 2 b).
Definition get32 (b : list Z) (o : nat) : Z := unle (sub o 4 b).
Definition set8 (b : list Z) (o : nat) (v : Z) : list Z := splice o (le 1 v) b.
Definition set16 (b : list Z) (o : nat) (v : Z) : list Z := splice o (le 2 v) b.
Definition set32 (b : list Z) (o : nat) (v : Z) : list Z := splice o (le 4 v) b.

Lemma length_le n v : length (le n v) = n.
Proof. revert v. induction n; intros; cbn; auto. Qed.

Lemma unle_le n v : unle (le n v) = v mod 256 ^ Z.of_nat n.
Proof.
  revert v. induction n as [|n IH]; intros v; cbn [le unle].
  - by rewrite Z.mod_1_r.
  - rewrite IH, Nat2Z.inj_succ, Z.pow_succ_r by lia.
    rewrite Z.rem_mul_r by (try apply Z.pow_pos_nonneg; lia). lia.
Qed.

Lemma unle_range l : Forall (fun b => 0 <= b < 256) l -> 0 <= unle l < 256 ^ Z.of_nat (length l).
Proof.
  induction 1 as [|b l Hb _ IH]; cbn [unle length]; [done|].
  rewrite Nat2Z.inj_succ, Z.pow_succ_r by lia. lia.
Qed.

Lemma length_splice o v b : (o + length v <= length b)%nat -> length (splice o v b) = length b.
Proof. intros H. unfold splice. rewrite !length_app, length_take, length_drop. lia. Qed.

Lemma sub_splice_same o v b : (o + length v <= length b)%nat -> sub o (length v) (splice o v b) = v.
Proof.
  intros H. unfold sub, splice.
  rewrite drop_app_ge by (rewrite length_take; lia). rewrite length_take.
  replace (o - o `min` length b)%nat with 0%nat by lia. by rewrite drop_0, take_app_length.
Qed.

Lemma sub_splice_other o v b o' n :
  (o + length v <= length b)%nat -> (o' + n <= o \/ o + length v <= o')%nat ->
  sub o' n (splice o v b) = sub o' n b.
Proof.
  intros H Ho. apply list_eq. intros i. unfold sub.
  destruct (decide (i < n)%nat) as [Hi|Hi].
  - rewrite !lookup_take_lt by done. rewrite !lookup_drop. unfold splice.
    destruct Ho as [Ho|Ho].
    + rewrite lookup_app_l by (rewrite length_take; lia). by rewrite lookup_take_lt by lia.
    + rewrite lookup_app_r by (rewrite length_take; lia). rewrite length_take.
      rewrite lookup_app_r by lia. rewrite lookup_drop. f_equal. lia.
  - rewrite !lookup_ge_None_2; [done|rewrite length_take; lia..].
Qed.

Lemma get32_set32 b o v :
  (o + 4 <= length b)%nat -> get32 (set32 b o v) o = u32 v.
Proof.
  intros H. unfold get32, set32. pose proof (sub_splice_same o (le 4 v) b) as Hs.
  rewrite length_le in Hs. rewrite Hs by done. apply (unle_le 4).
Qed.

Lemma get32_set32_other b o o' v :
  (o + 4 <= length b)%nat -> (o' + 4 <= o \/ o + 4 <= o')%nat -> get32 (set32 b o v) o' = get32 b o'.
Proof. intros H Ho. unfold get32, set32. by rewrite sub_splice_other by (rewrite length_le; lia). Qed.

Lemma length_set32 b o v : (o + 4 <= length b)%nat -> length (set32 b o v) = length b.
Proof. intros H. by apply length_splice. Qed.

Lemma get16_set16 b o v : (o + 2 <= length b)%nat -> get16 (set16 b o v) o = u16 v.
Proof.
  intros H. unfold get16, set16. pose proof (sub_splice_same o (le 2 v) b) as Hs.
  rewrite length_le in Hs. rewrite Hs by done. apply (unle_le 2).
Qed.

Lemma get16_set16_other b o o' v :
  (o + 2 <= length b)%nat -> (o' + 2 <= o \/ o + 2 <= o')%nat -> get16 (set16 b o v) o' = get16 b o'.
Proof. intros H Ho. unfold get16, set16. by rewrite sub_splice_other by (rewrite length_le; lia). Qed.

Lemma get8_set8 b o v : (o + 1 <= length b)%nat -> get8 (set8 b o v) o = u8 v.
Proof.
  intros H. unfold get8, set8. pose proof (sub_splice_same o (le 1 v) b) as Hs.
  rewrite length_le in Hs. rewrite Hs by done. apply (unle_le 1).
Qed.

Lemma get8_set8_other b o o' v :
  (o + 1 <= length b)%nat -> o <> o' -> get8 (set8 b o v) o' = get8 b o'.
Proof. intros H Ho. unfold get8, set8. by rewrite sub_splice_other by (rewrite length_le; lia). Qed.

Lemma length_set8 b o v : (o + 1 <= length b)%nat -> length (set8 b o v) = length b.
Proof. intros H. by apply length_splice. Qed.
