(* ===== verification/UserMem.v ===== *)
(** User memory, as the processor translates it: what a process and the kernel store at user
    addresses they find there again, and the translation stays what it is.

    [umem m cr3 dom tr] says that under the page table at [cr3] the addresses of [dom] are mapped
    to those [tr] gives, for reading and writing by user code, one to one, and none of them is in
    the page table itself. *)
From S2P Require Import Prelude Kernel Spinlock CString Kalloc Proc Vm SysArgs Bytes.

Section umem.
Context {E : Env}.

(** ** Translation *)

(** The bytes of the page table that the translation of [va] reads. *)
Definition walk_bytes (m : memory) (cr3 va : Z) : list Z :=
  let d := P2V cr3 + 4 * PDX va in
  let t := P2V (PTE_ADDR (load32 m d)) + 4 * PTX va in
  [d; d + 1; d + 2; d + 3; t; t + 1; t + 2; t + 3].

Lemma hw_walk_ext m m' cr3 va :
  (forall a, a ∈ walk_bytes m cr3 va -> load8 m' a = load8 m a) ->
  walk_bytes m' cr3 va = walk_bytes m cr3 va /\ forall w u, hw_walk m' cr3 va w u = hw_walk m cr3 va w u.
Proof.
  intros H. set (d := P2V cr3 + 4 * PDX va). assert (load32 m' d = load32 m d) as Ed.
  { unfold load32. rewrite !H by (unfold walk_bytes; fold d; set_solver). done. }
  set (t := P2V (PTE_ADDR (load32 m d)) + 4 * PTX va). assert (load32 m' t = load32 m t) as Et.
  { unfold load32. rewrite !H by (unfold walk_bytes; fold d; fold t; set_solver). done. }
  split.
  - unfold walk_bytes. fold d. by rewrite Ed.
  - intros w u. unfold hw_walk. fold d. rewrite Ed. fold t. by rewrite Et.
Qed.

(** What user code may write, the kernel may read and write. *)
Lemma hw_walk_weaken m cr3 va a w u : hw_walk m cr3 va true true = Some a -> hw_walk m cr3 va w u = Some a.
Proof.
  unfold hw_walk. set (d := load32 m _). set (t := load32 m _). cbn [negb orb].
  destruct (nz (Z.land d PTE_P)), (nz (Z.land d PTE_W)), (nz (Z.land d PTE_U)); cbn [andb]; try done.
  destruct (nz (Z.land t PTE_P)), (nz (Z.land t PTE_W)), (nz (Z.land t PTE_U)); cbn [andb]; try done. by destruct w, u.
Qed.

Record umem (m : memory) (cr3 : Z) (dom : Z -> Prop) (tr : Z -> Z) : Prop := Umem {
  um_walk : forall va, dom va -> hw_walk m cr3 va true true = Some (tr va);
  um_inj : forall va va', dom va -> dom va' -> tr va = tr va' -> va = va';
  um_tables : forall va va', dom va -> dom va' -> tr va' ∉ walk_bytes m cr3 va
}.

(** The bytes [l] are at address [va] and after it. *)
Definition holds (m : memory) (tr : Z -> Z) (va : Z) (l : list Z) : Prop :=
  forall i x, l !! i = Some x -> load8 m (tr (va + Z.of_nat i)) = x.
Definition within (dom : Z -> Prop) (va : Z) (n : nat) : Prop :=
  0 <= va /\ va + Z.of_nat n < W32 /\ forall k, (k < n)%nat -> dom (va + Z.of_nat k).

Lemma holds_cons m tr va b l : holds m tr va (b :: l) <-> load8 m (tr va) = b /\ holds m tr (va + 1) l.
Proof.
  unfold holds. split.
  - intros H. split; [rewrite <- (Z.add_0_r va); by apply (H 0%nat)|]. intros i x Hx. rewrite <- (H (S i) x Hx). do 2 f_equal. lia.
  - intros [H0 H] [|i] x Hx; [injection Hx as <-; by rewrite Z.add_0_r|]. rewrite <- (H i x Hx). do 2 f_equal. lia.
Qed.

Lemma holds_app m tr va l l' : holds m tr va (l ++ l') <-> holds m tr va l /\ holds m tr (va + Z.of_nat (length l)) l'.
Proof.
  revert va. induction l as [|b l IH]; intros va; cbn [app length].
  - rewrite Z.add_0_r. split; [|tauto]. intros H. split; [by intros i x|done].
  - rewrite !holds_cons, IH. replace (va + 1 + Z.of_nat (length l)) with (va + Z.of_nat (S (length l))) by lia. tauto.
Qed.

Lemma within_cons dom va n : within dom va (S n) -> dom va /\ within dom (va + 1) n.
Proof.
  intros (H1 & H2 & H3). split; [rewrite <- (Z.add_0_r va); apply (H3 0%nat); lia|]. split_and!; [lia|lia|].
  intros k Hk. replace (va + 1 + Z.of_nat k) with (va + Z.of_nat (S k)) by lia. apply H3. lia.
Qed.

Lemma within_le dom va n k : within dom va n -> (k <= n)%nat -> within dom va k.
Proof. intros (H1 & H2 & H3) Hk. split_and!; [done|lia|]. intros j Hj. apply H3. lia. Qed.

(** ** Stores *)

Lemma umem_store m cr3 dom tr va v : umem m cr3 dom tr -> dom va -> umem (store8 m (tr va) v) cr3 dom tr.
Proof.
  intros [H1 H2 H3] Hva. assert (forall va', dom va' -> forall a, a ∈ walk_bytes m cr3 va' -> load8 (store8 m (tr va) v) a = load8 m a) as Hx.
  { intros va' Hd a Ha. rewrite load8_store8. rewrite decide_False; [done|]. intros <-. by apply (H3 va' va). }
  split; [|done|].
  - intros va' Hd. destruct (hw_walk_ext _ _ cr3 va' (Hx va' Hd)) as [_ ->]. by apply H1.
  - intros va' va'' Hd Hd'. destruct (hw_walk_ext _ _ cr3 va' (Hx va' Hd)) as [-> _]. by apply H3.
Qed.

Lemma ustore_run dom tr l : forall s va,
  umem (k_mem s) (k_cr3 s) dom tr -> within dom va (length l) -> is_bytes l ->
  exists m, ustore va l s = Done tt (s <| k_mem := m |>) /\ umem m (k_cr3 s) dom tr /\ holds m tr va l
    /\ forall a, dom a -> ~ va <= a < va + Z.of_nat (length l) -> load8 m (tr a) = load8 (k_mem s) (tr a).
Proof.
  induction l as [|b l IH]; intros s va Hu Hw Hb; cbn [ustore length].
  { exists (k_mem s). split_and!; [unfold mret, M_ret; f_equal; by destruct s|done|by intros i x|done]. }
  pose proof Hw as [H0 [H32 _]]. cbn [length] in *. apply within_cons in Hw as [Hva Hw]. apply Forall_cons in Hb as [Hb0 Hb].
  set (s1 := s <| k_mem ::= fun m => store8 m (tr va) b |>).
  assert (ustore8 va b s = Done tt s1) as R1.
  { unfold ustore8. kstep. rewrite (hw_walk_weaken _ _ va (tr va) true false) by (by apply Hu). by kstep. }
  destruct (IH s1 (va + 1)) as (m & R & Hu' & Hh & Ho); [by apply umem_store|done|done|].
  exists m. split_and!; [|done| |].
  - krun R1. rewrite u32_small by (unfold W32 in *; lia). by rewrite R.
  - apply holds_cons. split; [|done]. rewrite Ho by (done || lia). change (k_mem s1) with (store8 (k_mem s) (tr va) b).
    rewrite load8_store8, decide_True by done. unfold u8. by rewrite Z.mod_small.
  - intros a Ha Hn. rewrite Ho by (done || lia). change (k_mem s1) with (store8 (k_mem s) (tr va) b). rewrite load8_store8, decide_False; [done|].
    intros Heq. apply (um_inj _ _ _ _ Hu) in Heq; [lia|done|done].
Qed.

(** What lies elsewhere stays. *)
Lemma holds_other m m' dom tr va n vb l :
  (forall a, dom a -> ~ va <= a < va + Z.of_nat n -> load8 m' (tr a) = load8 m (tr a)) -> within dom vb (length l) ->
  vb + Z.of_nat (length l) <= va \/ va + Z.of_nat n <= vb -> holds m tr vb l -> holds m' tr vb l.
Proof.
  intros Ho (_ & _ & Hw) Hd Hh i x Hx. pose proof (lookup_lt_Some _ _ _ Hx). rewrite Ho; [by apply Hh|by apply Hw|lia].
Qed.

(** ** Loads *)

Lemma uload8_umem s dom tr va : umem (k_mem s) (k_cr3 s) dom tr -> dom va -> uload8 va s = Done (load8 (k_mem s) (tr va)) s.
Proof. intros Hu Hd. unfold uload8. kstep. rewrite (hw_walk_weaken _ _ va (tr va) false false) by (by apply Hu). by kstep. Qed.

Lemma uload_run dom tr l : forall s va,
  umem (k_mem s) (k_cr3 s) dom tr -> within dom va (length l) -> holds (k_mem s) tr va l -> uload va (length l) s = Done l s.
Proof.
  induction l as [|b l IH]; intros s va Hu Hw Hh; cbn [uload length]; [done|]. pose proof Hw as [H0 [H32 _]]. cbn [length] in *.
  apply within_cons in Hw as [Hva Hw]. apply holds_cons in Hh as [Hb Hh]. krun (uload8_umem s dom tr va Hu Hva). rewrite Hb.
  rewrite u32_small by (unfold W32 in *; lia). by krun (IH s (va + 1) Hu Hw Hh).
Qed.

Lemma uload32_run s dom tr va v :
  umem (k_mem s) (k_cr3 s) dom tr -> within dom va 4 -> holds (k_mem s) tr va (le 4 v) -> uload32 va s = Done (u32 v) s.
Proof.
  intros Hu Hw Hh. unfold uload32. krun (uload_run dom tr (le 4 v) s va Hu ltac:(by rewrite length_le) Hh). unfold mret, M_ret. f_equal.
  change (u32 v) with (v mod 256 ^ Z.of_nat 4). rewrite <- unle_le. cbn [le unle]. lia.
Qed.

(** A string that ends with a 0. *)
Lemma fetch_bytes_str dom tr str : forall s va n,
  umem (k_mem s) (k_cr3 s) dom tr -> within dom va (S (length str)) -> holds (k_mem s) tr va (str ++ [0]) -> Forall (fun c => c <> 0) str ->
  (length str < n)%nat -> fetch_bytes n va s = Done (Some str) s.
Proof.
  induction str as [|b str IH]; intros s va n Hu Hw Hh Hz Hn; (destruct n as [|n]; [cbn in Hn; lia|]); cbn [fetch_bytes].
  - apply within_cons in Hw as [Hva _]. apply holds_cons in Hh as [Hb _]. krun (uload8_umem s dom tr va Hu Hva). by rewrite Hb.
  - cbn [length] in *. apply within_cons in Hw as [Hva Hw]. apply holds_cons in Hh as [Hb Hh]. apply Forall_cons in Hz as [Hb0 Hz].
    krun (uload8_umem s dom tr va Hu Hva). rewrite Hb, (proj2 (Z.eqb_neq _ _) Hb0). by krun (IH s (va + 1) n Hu Hw Hh Hz ltac:(lia)).
Qed.

End umem.
