(* ===== verification/Bio.v ===== *)
(** bio.c: the buffer cache.

    The buffers stand in a doubly linked list through [prev] and [next], most
    recently used first, with [bcache.head] ([head]) as its end; [dll] relates the
    links to the order of the list.  [cache_ok] is the invariant of the cache in a
    calm system: [dsk] is the disk, [view] is the disk as the kernel sees it through
    the cache, and [held] lists the blocks whose buffers the running process has
    locked, with their buffers.  The lemmas [bread_ok], [bwrite_ok] and [brelse_ok]
    are the interface the log and the file system are verified against. *)
From S2P Require Import Prelude Kernel Spinlock Console CString Kalloc Proc Sleeplock Disk.

Section bio.
Context {E : Env} {D : Disk}.

(** [&bcache.head] *)
Definition head : nat := NBUF.

Definition binit : K unit :=
  initlock L_bcache "bcache" ;;
  upd_buf head (fun h => h <| b_prev := head |>) ;;
  upd_buf head (fun h => h <| b_next := head |>) ;;
  for_each (seq 0 NBUF) (fun b =>
    h ← get_buf head ;
    upd_buf b (fun b => b <| b_next := b_next h |>) ;;
    upd_buf b (fun b => b <| b_prev := head |>) ;;
    initsleeplock (SL_buf b) "buffer" ;;
    h ← get_buf head ;
    upd_buf (b_next h) (fun n => n <| b_prev := b |>) ;;
    upd_buf head (fun h => h <| b_next := b |>)).

(** The first buffer that satisfies [P] from [b] on, following the link [lnk] up to
    the head; [n] bounds the number of buffers visited. *)
Fixpoint scan (lnk : buf -> nat) (P : buf -> bool) (n : nat) (b : nat) : K (option nat) :=
  match n with
  | O => stop_with OutOfFuel
  | S n' =>
      if decide (b = head) then mret None else
      bf ← get_buf b ;
      if P bf then mret (Some b) else scan lnk P n' (lnk bf)
  end.

Definition bget (dev blockno : Z) : K nat :=
  acquire L_bcache ;;
  h ← get_buf head ;
  o ← scan b_next (fun b => (b_dev b =? dev) && (b_blockno b =? blockno)) (S NBUF) (b_next h) ;
  match o with
  | Some b =>
      upd_buf b (fun b => b <| b_refcnt ::= Z.add 1 |>) ;;
      release L_bcache ;;
      acquiresleep (SL_buf b) ;;
      mret b
  | None =>
      h ← get_buf head ;
      o ← scan b_prev (fun b => (b_refcnt b =? 0) && negb (nz (Z.land (b_flags b) B_DIRTY))) (S NBUF) (b_prev h) ;
      match o with
      | Some b =>
          upd_buf b (fun b => b <| b_dev := dev |>) ;;
          upd_buf b (fun b => b <| b_blockno := blockno |>) ;;
          upd_buf b (fun b => b <| b_flags := 0 |>) ;;
          upd_buf b (fun b => b <| b_refcnt := 1 |>) ;;
          release L_bcache ;;
          acquiresleep (SL_buf b) ;;
          mret b
      | None => panic "bget: no buffers"
      end
  end.

Definition bread (dev blockno : Z) : K nat :=
  b ← bget dev blockno ;
  bf ← get_buf b ;
  when (Z.land (b_flags bf) B_VALID =? 0) (iderw b) ;;
  mret b.

Definition bwrite (b : nat) : K unit :=
  h ← holdingsleep (SL_buf b) ;
  if negb h then panic "bwrite" else
  upd_buf b (fun b => b <| b_flags ::= fun f => Z.lor f B_DIRTY |>) ;;
  iderw b.

(** [brelse] on a buffer nobody waits for: move it to the front of the list. *)
Definition relink (b : nat) : K unit :=
  bf ← get_buf b ;
  upd_buf (b_next bf) (fun n => n <| b_prev := b_prev bf |>) ;;
  bf ← get_buf b ;
  upd_buf (b_prev bf) (fun p => p <| b_next := b_next bf |>) ;;
  h ← get_buf head ;
  upd_buf b (fun b => b <| b_next := b_next h |>) ;;
  upd_buf b (fun b => b <| b_prev := head |>) ;;
  h ← get_buf head ;
  upd_buf (b_next h) (fun n => n <| b_prev := b |>) ;;
  upd_buf head (fun h => h <| b_next := b |>).

Definition brelse (b : nat) : K unit :=
  h ← holdingsleep (SL_buf b) ;
  if negb h then panic "brelse" else
  releasesleep (SL_buf b) ;;
  acquire L_bcache ;;
  upd_buf b (fun b => b <| b_refcnt ::= fun n => n - 1 |>) ;;
  bf ← get_buf b ;
  when (b_refcnt bf =? 0) (relink b) ;;
  release L_bcache.

(** ** The list of buffers *)

(** From [a] the links lead through [l]. *)
Fixpoint links (nx pv : nat -> nat) (a : nat) (l : list nat) : Prop :=
  match l with
  | [] => True
  | b :: l' => nx a = b /\ pv b = a /\ links nx pv b l'
  end.

Definition nxt (l : list buf) (i : nat) : nat := match l !! i with Some b => b_next b | None => O end.
Definition prv (l : list buf) (i : nat) : nat := match l !! i with Some b => b_prev b | None => O end.

Record dll (l : list buf) (order : list nat) : Prop := Dll {
  dl_links : links (nxt l) (prv l) head (order ++ [head]);
  dl_perm : order ≡ₚ seq 0 NBUF
}.

(** The effect of the links of [brelse] on the buffers: [b] is unlinked, and pushed
    behind the head. *)
Definition unlink (b : nat) (l : list buf) : list buf :=
  alter (fun p => p <| b_next := nxt l b |>) (prv l b)
    (alter (fun n => n <| b_prev := prv l b |>) (nxt l b) l).

Definition push_front (b : nat) (l : list buf) : list buf :=
  alter (fun h => h <| b_next := b |>) head
    (alter (fun n => n <| b_prev := b |>) (nxt l head)
      (alter (fun n => n <| b_next := nxt l head |> <| b_prev := head |>) b l)).

(** The first buffer of [o] that satisfies [P]. *)
Fixpoint first_buf (P : buf -> bool) (l : list buf) (o : list nat) : option nat :=
  match o with
  | [] => None
  | i :: o' =>
      match l !! i with
      | Some b => if P b then Some i else first_buf P l o'
      | None => None
      end
  end.

(** A buffer without its links. *)
Definition core (b : buf) : buf := b <| b_prev := O |> <| b_next := O |>.

(** ** The invariant of the cache *)

(** Buffer [i]: it is either unused, or holds block [b_blockno] of disk 1 as the
    kernel sees it.  It differs from the disk only if it is pinned by the log
    ([dirty]) or if the running process has it locked ([held]). *)
Record buf_ok (sl : gmap sleepid sleeplock) (pid : Z) (dsk view : Z -> block)
    (held : list (Z * nat)) (dirty : list Z) (i : nat) (b : buf) : Prop := BufOk {
  bo_flags : (b_dev b <> 1 /\ b_flags b = 0) \/
             (b_dev b = 1 /\ b_flags b = if decide (b_blockno b ∈ dirty) then Z.lor B_VALID B_DIRTY else B_VALID);
  bo_view : b_dev b = 1 -> b_data b = view (b_blockno b);
  bo_clean : b_dev b = 1 -> b_blockno b ∉ dirty -> i ∉ held.*2 -> view (b_blockno b) = dsk (b_blockno b);
  bo_ref : b_refcnt b = if decide (i ∈ held.*2) then 1 else 0;
  bo_lock : if decide (i ∈ held.*2) then sl_held pid (sl_at sl (SL_buf i))
            else sl_locked (sl_at sl (SL_buf i)) = 0;
  bo_held : forall bno, (bno, i) ∈ held -> b_dev b = 1 /\ b_blockno b = bno
}.

(** Buffer [i] is assigned to block [bno]. *)
Definition cached (l : list buf) (bno : Z) (i : nat) : Prop :=
  exists b, (i < NBUF)%nat /\ l !! i = Some b /\ b_dev b = 1 /\ b_blockno b = bno.

Record bcache_ok (l : list buf) (sl : gmap sleepid sleeplock) (d : gmap (Z * Z) block)
    (pid : Z) (dsk view : Z -> block) (held : list (Z * nat)) (dirty : list Z) : Prop := BcacheOk {
  bc_len : length l = S NBUF;
  bc_order : exists order, dll l order;
  bc_disk : forall bno, disk_read d 1 bno = dsk bno;
  bc_bufs : forall i b, (i < NBUF)%nat -> l !! i = Some b -> buf_ok sl pid dsk view held dirty i b;
  bc_uniq : forall bno i j, cached l bno i -> cached l bno j -> i = j;
  bc_none : forall bno, (forall i, ~ cached l bno i) -> view bno = dsk bno;
  bc_held : NoDup (held.*2) /\ (forall bno i, (bno, i) ∈ held -> (i < NBUF)%nat);
  bc_dirty : NoDup dirty /\ (forall bno, bno ∈ dirty -> exists i, cached l bno i)
}.

(** A buffer [bget] may recycle: nobody holds it, and the log has not pinned it. *)
Definition spare (held : list (Z * nat)) (dirty : list Z) (i : nat) (b : buf) : Prop :=
  (i ∉ held.*2) /\ (b_dev b = 1 -> b_blockno b ∉ dirty).

Definition cache_ok (s : kernel) (pid : Z) (dsk view : Z -> block) (held : list (Z * nat))
    (dirty : list Z) : Prop :=
  calm (k_hw s) (k_ptable s) pid /\
  bcache_ok (k_bufs s) (k_sleeplocks s) (k_disk s) pid dsk view held dirty.

(** The cache layers change only the buffers, their locks and the disk. *)
Definition inode_locks (sl sl' : gmap sleepid sleeplock) : Prop := forall ip, sl' !! SL_inode ip = sl !! SL_inode ip.
Definition cache_frame (s s' : kernel) : Prop :=
  s' = s <| k_bufs := k_bufs s' |> <| k_sleeplocks := k_sleeplocks s' |>
         <| k_disk := k_disk s' |> <| k_writes := k_writes s' |>
  /\ inode_locks (k_sleeplocks s) (k_sleeplocks s').

(** The effect of [bget] on a buffer it finds, on a buffer it recycles, and on the
    sleep lock. *)
Definition referenced (b : buf) : buf := b <| b_refcnt ::= Z.add 1 |>.
Definition recycled (bno : Z) (b : buf) : buf :=
  b <| b_dev := 1 |> <| b_blockno := bno |> <| b_flags := 0 |> <| b_refcnt := 1 |>.
Definition dereferenced (b : buf) : buf := b <| b_refcnt ::= fun n => n - 1 |>.
Definition unlocked (i : nat) (m : gmap sleepid sleeplock) : gmap sleepid sleeplock :=
  <[SL_buf i := Sleeplock 0 (sl_name (sl_at m (SL_buf i))) 0]> m.
Definition locked_by (pid : Z) (i : nat) (m : gmap sleepid sleeplock) : gmap sleepid sleeplock :=
  <[SL_buf i := Sleeplock 1 (sl_name (sl_at m (SL_buf i))) pid]> m.

(** Clients of the cache: a read and a write-through of a whole block, and what they
    mean on an array of blocks. *)
Inductive cache_op : Type :=
| Read_block (bno : Z)
| Write_block (bno : Z) (d : block).

Definition op_block (o : cache_op) : Z := match o with Read_block b | Write_block b _ => b end.

Definition run_op (o : cache_op) : K (option block) :=
  match o with
  | Read_block bno =>
      bp ← bread 1 bno ; b ← get_buf bp ; brelse bp ;; mret (Some (b_data b))
  | Write_block bno d =>
      bp ← bread 1 bno ; upd_buf bp (fun b => b <| b_data := d |>) ;; bwrite bp ;; brelse bp ;; mret None
  end.
Fixpoint run_ops (l : list cache_op) : K (list (option block)) :=
  match l with
  | [] => mret []
  | o :: l' => r ← run_op o ; rs ← run_ops l' ; mret (r :: rs)
  end.

Definition store_op (o : cache_op) (f : Z -> block) : option block * (Z -> block) :=
  match o with
  | Read_block bno => (Some (f bno), f)
  | Write_block bno d => (None, <[bno := d]> f)
  end.
Fixpoint store_ops (l : list cache_op) (f : Z -> block) : list (option block) * (Z -> block) :=
  match l with
  | [] => ([], f)
  | o :: l' => let (r, f1) := store_op o f in let (rs, f2) := store_ops l' f1 in (r :: rs, f2)
  end.

(** The state of [binit], started in [s], after [k] rounds of its loop. *)
Record binit_inv (s : kernel) (k : nat) (s' : kernel) : Prop := BinitInv {
  bi_len : length (k_bufs s') = S NBUF;
  bi_links : links (nxt (k_bufs s')) (prv (k_bufs s')) head (rev (seq 0 k) ++ [head]);
  bi_core : map core (k_bufs s') = map core (k_bufs s);
  bi_disk : k_disk s' = k_disk s;
  bi_procs : k_ptable s' = k_ptable s;
  bi_sl : forall i, (i < k)%nat -> sl_at (k_sleeplocks s') (SL_buf i) = Sleeplock 0 "buffer" 0;
  bi_locks : forall i, (i < k)%nat -> lock_free (k_hw s') (L_sleep (SL_buf i));
  bi_lock : lock_free (k_hw s') L_bcache;
  bi_calm : forall t pid, calm (k_hw s) t pid -> calm (k_hw s') t pid
}.

End bio.

Section lists.

Lemma fn_insert_ext {A} (f g : nat -> A) i v x : f x = g x -> (<[i := v]> f) x = (<[i := v]> g) x.
Proof. intros H. unfold insert, fn_insert. by case_decide. Qed.

Lemma nxt_alter f i l x :
  (forall b, b_next (f b) = b_next b) -> nxt (alter f i l) x = nxt l x.
Proof.
  intros Hf. unfold nxt. destruct (decide (i = x)) as [->|Hne].
  - rewrite list_lookup_alter_eq. destruct (l !! x); [|done]. cbn. apply Hf.
  - by rewrite list_lookup_alter_ne.
Qed.

Lemma prv_alter f i l x :
  (forall b, b_prev (f b) = b_prev b) -> prv (alter f i l) x = prv l x.
Proof.
  intros Hf. unfold prv. destruct (decide (i = x)) as [->|Hne].
  - rewrite list_lookup_alter_eq. destruct (l !! x); [|done]. cbn. apply Hf.
  - by rewrite list_lookup_alter_ne.
Qed.

Lemma nxt_alter_set f i l v x :
  (forall b, b_next (f b) = v) -> (i < length l)%nat -> nxt (alter f i l) x = (<[i := v]> (nxt l)) x.
Proof.
  intros Hf Hi. destruct (decide (i = x)) as [->|Hne].
  - rewrite fn_lookup_insert. unfold nxt. rewrite list_lookup_alter_eq.
    destruct (lookup_lt_is_Some_2 l x Hi) as [b ->]. cbn. apply Hf.
  - rewrite fn_lookup_insert_ne by done. unfold nxt. by rewrite list_lookup_alter_ne.
Qed.

Lemma prv_alter_set f i l v x :
  (forall b, b_prev (f b) = v) -> (i < length l)%nat -> prv (alter f i l) x = (<[i := v]> (prv l)) x.
Proof.
  intros Hf Hi. destruct (decide (i = x)) as [->|Hne].
  - rewrite fn_lookup_insert. unfold prv. rewrite list_lookup_alter_eq.
    destruct (lookup_lt_is_Some_2 l x Hi) as [b ->]. cbn. apply Hf.
  - rewrite fn_lookup_insert_ne by done. unfold prv. by rewrite list_lookup_alter_ne.
Qed.

Lemma map_core_alter f i l : (forall b, core (f b) = core b) -> map core (alter f i l) = map core l.
Proof.
  intros Hf. apply list_eq. intros j. rewrite !list_lookup_fmap. destruct (decide (i = j)) as [->|Hne].
  - rewrite list_lookup_alter_eq. destruct (l !! j) as [b|]; [|done]. exact (f_equal Some (Hf b)).
  - by rewrite list_lookup_alter_ne.
Qed.

Lemma links_app nx pv a l1 b l2 :
  links nx pv a (l1 ++ b :: l2) <-> links nx pv a (l1 ++ [b]) /\ links nx pv b l2.
Proof.
  revert a. induction l1 as [|x l1 IH]; intros a; cbn; [tauto|]. rewrite IH. tauto.
Qed.

Lemma links_ext nx pv nx' pv' a l :
  (forall x, x ∈ removelast (a :: l) -> nx' x = nx x) -> (forall y, y ∈ l -> pv' y = pv y) ->
  links nx pv a l -> links nx' pv' a l.
Proof.
  revert a. induction l as [|b l IH]; intros a Hn Hp; [done|]. cbn [links].
  intros (H1 & H2 & H3). split_and!.
  - rewrite Hn; [done|]. cbn. left.
  - rewrite Hp; [done|]. left.
  - apply IH; [|intros; apply Hp; by right|done]. intros x Hx. apply Hn. cbn. right. done.
Qed.

Lemma links_same nx pv nx' pv' a l :
  (forall x, nx' x = nx x) -> (forall y, pv' y = pv y) -> links nx pv a l -> links nx' pv' a l.
Proof. intros Hn Hp. apply links_ext; auto. Qed.

(** A list of links from [b] re-rooted at [a]. *)
Lemma links_reroot nx pv a b h l :
  a ∉ l -> NoDup l -> h ∉ l -> links nx pv b (l ++ [h]) ->
  links (<[a := nx b]> nx) (<[nx b := a]> pv) a (l ++ [h]).
Proof.
  intros Ha Hnd Hh Hl. destruct l as [|q l]; cbn in *.
  - destruct Hl as (-> & _ & _). by rewrite !fn_lookup_insert.
  - destruct Hl as (-> & _ & Hl). rewrite !fn_lookup_insert. split_and!; [done..|].
    apply NoDup_cons in Hnd as [Hq Hnd]. eapply links_ext; [| |exact Hl].
    + intros x Hx. change (q :: l ++ [h]) with ((q :: l) ++ [h]) in Hx. rewrite removelast_last in Hx.
      apply fn_lookup_insert_ne. set_solver.
    + intros y Hy. apply fn_lookup_insert_ne. set_solver.
Qed.

(** Unlinking [b]: the neighbours of [b] are linked to each other. *)
Lemma links_unlink nx pv h o1 b o2 :
  NoDup (h :: o1 ++ b :: o2) -> links nx pv h (o1 ++ b :: o2 ++ [h]) ->
  links (<[pv b := nx b]> nx) (<[nx b := pv b]> pv) h (o1 ++ o2 ++ [h]).
Proof.
  intros Hnd Hl. apply links_app in Hl as [H1 H2].
  rewrite NoDup_cons, NoDup_app, NoDup_cons, elem_of_app, elem_of_cons in Hnd.
  destruct Hnd as (Hh & Hn1 & Hd & Hb2 & Hn2).
  destruct o1 as [|p o1 _] using rev_ind; cbn in *.
  - destruct H1 as (_ & -> & _). apply links_reroot; [naive_solver..|done].
  - rewrite <- app_assoc in H1. apply links_app in H1 as [H1 (Hnp & -> & _)].
    rewrite <- app_assoc. apply links_app. split; [|apply links_reroot; [set_solver|done|naive_solver|done]].
    assert (nx b ∈ o2 ++ [h]) as Hq by (destruct o2; cbn in *; set_solver).
    rewrite NoDup_app in Hn1. eapply links_ext; [| |exact H1].
    + intros x Hx. change (h :: o1 ++ [p]) with ((h :: o1) ++ [p]) in Hx. rewrite removelast_last in Hx.
      apply fn_lookup_insert_ne. set_solver.
    + intros y Hy. apply fn_lookup_insert_ne. set_solver.
Qed.

(** Inserting [b] after the head. *)
Lemma links_push nx pv h b o :
  NoDup (h :: b :: o) -> links nx pv h (o ++ [h]) ->
  links (<[h := b]> (<[b := nx h]> nx)) (<[nx h := b]> (<[b := h]> pv)) h (b :: o ++ [h]).
Proof.
  intros Hnd Hl. rewrite !NoDup_cons in Hnd. destruct Hnd as (Hh & Hb & Ho).
  assert (nx h ∈ o ++ [h]) as Hq by (destruct o; cbn in *; set_solver).
  assert (h <> b) by set_solver. cbn [links]. rewrite fn_lookup_insert. split; [done|].
  rewrite fn_lookup_insert_ne, fn_lookup_insert by set_solver. split; [done|].
  eapply links_ext; [| |apply (links_reroot nx pv b h h o)]; try set_solver.
  - intros x Hx. change (b :: o ++ [h]) with ((b :: o) ++ [h]) in Hx. rewrite removelast_last in Hx.
    apply fn_lookup_insert_ne. set_solver.
  - intros y Hy. destruct (decide (nx h = y)) as [<-|Hne].
    + by rewrite !fn_lookup_insert.
    + rewrite !fn_lookup_insert_ne; [done|done|set_solver|done].
Qed.

(** Neighbours in the list of buffers. *)
Lemma links_mid nx pv a o1 b o2 h :
  links nx pv a (o1 ++ b :: o2 ++ [h]) -> nx b ∈ o2 ++ [h] /\ pv b ∈ a :: o1.
Proof.
  intros Hl. apply links_app in Hl as [H1 H2]. split.
  - destruct o2; cbn in *; set_solver.
  - destruct o1 as [|p o1 _] using rev_ind; cbn in *; [set_solver|].
    rewrite <- app_assoc in H1. apply links_app in H1 as [_ H1]. cbn in H1. set_solver.
Qed.

Lemma dll_order l order : dll l order -> NoDup (head :: order) /\ (forall b, b ∈ order <-> (b < NBUF)%nat).
Proof.
  intros [_ Hp]. assert (forall b, b ∈ order <-> (b < NBUF)%nat) as Hin.
  { intros b. rewrite Hp, elem_of_seq. lia. }
  split; [|done]. apply NoDup_cons. split; [rewrite Hin; unfold head; lia|].
  rewrite Hp. apply NoDup_seq.
Qed.

(** A buffer is pushed in front of the others. *)
Lemma links_push_front l o b :
  NoDup (head :: b :: o) -> (forall x, x ∈ head :: b :: o -> (x < length l)%nat) ->
  links (nxt l) (prv l) head (o ++ [head]) ->
  links (nxt (push_front b l)) (prv (push_front b l)) head (b :: o ++ [head]).
Proof.
  intros Hnd Hlt Hl. pose proof (links_push _ _ _ _ _ Hnd Hl) as Hpush.
  assert (nxt l head ∈ o ++ [head]) as Hf by (destruct o; cbn in *; set_solver).
  assert (nxt l head < length l)%nat as Hf' by (apply Hlt; set_solver).
  assert (b < length l)%nat as Hb' by (apply Hlt; set_solver).
  assert (head < length l)%nat as Hh' by (apply Hlt; set_solver).
  unfold push_front. set (f := nxt l head) in *. eapply links_same; [| |exact Hpush].
  - intros x. rewrite (nxt_alter_set _ _ _ b) by (done || by rewrite !length_alter).
    apply fn_insert_ext. rewrite nxt_alter by done. by apply nxt_alter_set.
  - intros y. rewrite prv_alter by done.
    rewrite (prv_alter_set _ _ _ b) by (done || by rewrite !length_alter).
    apply fn_insert_ext. by apply prv_alter_set.
Qed.

(** The links of [brelse] move the buffer to the front. *)
Lemma dll_relink l o1 b o2 :
  length l = S NBUF -> dll l (o1 ++ b :: o2) -> dll (push_front b (unlink b l)) (b :: o1 ++ o2).
Proof.
  intros Hlen Hd. destruct (dll_order _ _ Hd) as [Hnd Hin]. destruct Hd as [Hl Hp].
  rewrite <- app_assoc in Hl. cbn [app] in Hl.
  assert (forall x, x ∈ head :: o1 ++ b :: o2 -> (x < length l)%nat) as Hlt.
  { intros x [->|Hx]%elem_of_cons; [rewrite Hlen; unfold head; lia|]. apply Hin in Hx. lia. }
  destruct (links_mid _ _ _ _ _ _ _ Hl) as [Hnb Hpb].
  pose proof (links_unlink _ _ _ _ _ _ Hnd Hl) as Hu.
  set (q := nxt l b) in *. set (p := prv l b) in *. set (l1 := unlink b l).
  assert (length l1 = length l) as Hl1 by (unfold l1, unlink; by rewrite !length_alter).
  assert (q < length l)%nat as Hq by (apply Hlt; set_solver).
  assert (p < length l)%nat as Hp' by (apply Hlt; set_solver).
  assert (links (nxt l1) (prv l1) head ((o1 ++ o2) ++ [head])) as Hl1'.
  { rewrite <- app_assoc. eapply links_same; [| |exact Hu].
    - intros x. unfold l1, unlink. fold p q. rewrite (nxt_alter_set _ _ _ q) by (done || by rewrite length_alter).
      apply fn_insert_ext. by apply nxt_alter.
    - intros y. unfold l1, unlink. fold p q. rewrite prv_alter by done. by apply prv_alter_set. }
  assert (NoDup (head :: b :: o1 ++ o2)) as Hnd' by (by rewrite (Permutation_middle o1 o2 b)).
  split; [|by rewrite Permutation_middle]. apply links_push_front; [done| |done].
  intros x Hx. rewrite Hl1. apply Hlt. set_solver.
Qed.

Lemma links_reverse nx pv a o h :
  links nx pv a (o ++ [h]) -> links pv nx h (reverse o ++ [a]).
Proof.
  revert a. induction o as [|b o IH]; intros a.
  - change (reverse []) with (@nil nat). cbn. tauto.
  - cbn [app links]. intros (H1 & H2 & H3). rewrite reverse_cons, <- app_assoc. apply links_app.
    split; [by apply IH|]. cbn. auto.
Qed.

Lemma first_buf_spec P l o :
  (forall i, i ∈ o -> (i < length l)%nat) ->
  match first_buf P l o with
  | Some i => i ∈ o /\ exists b, l !! i = Some b /\ P b = true
  | None => forall i b, i ∈ o -> l !! i = Some b -> P b = false
  end.
Proof.
  induction o as [|i o IH]; intros Hlt; cbn; [set_solver|].
  destruct (lookup_lt_is_Some_2 l i) as [b Hb]; [apply Hlt; by left|]. rewrite Hb.
  destruct (P b) eqn:Ep.
  - split; [by left|]. by exists b.
  - specialize (IH ltac:(intros; apply Hlt; by right)). destruct (first_buf P l o).
    + destruct IH. split; [by right|done].
    + intros j c [->|Hj]%elem_of_cons Hc; [congruence|by eapply IH].
Qed.

Lemma scan_run {E : Env} lnk nx P n s a o pv :
  (forall i b, k_bufs s !! i = Some b -> nx i = lnk b) ->
  links nx pv a (o ++ [head]) -> head ∉ o -> (forall i, i ∈ o -> (i < length (k_bufs s))%nat) ->
  (length o < n)%nat ->
  scan lnk P n (nx a) s = Done (first_buf P (k_bufs s) o) s.
Proof.
  intros Hnx. revert a n. induction o as [|b o IH]; intros a n Hl Hh Hlt Hn.
  - destruct n; [cbn in *; lia|]. destruct Hl as (-> & _). cbn. by rewrite decide_True.
  - destruct n; [cbn in *; lia|]. destruct Hl as (-> & _ & Hl). cbn [scan first_buf].
    rewrite decide_False by set_solver.
    destruct (lookup_lt_is_Some_2 (k_bufs s) b) as [bf Hb]; [apply Hlt; by left|].
    krun (get_buf_run s b bf Hb). rewrite Hb. destruct (P bf); [done|].
    rewrite <- (Hnx b bf Hb). apply IH; [done|set_solver|intros; apply Hlt; by right|cbn in *; lia].
Qed.

(** The two scans of [bget]. *)
Lemma scan_dll {E : Env} P s order :
  length (k_bufs s) = S NBUF -> dll (k_bufs s) order ->
  scan b_next P (S NBUF) (nxt (k_bufs s) head) s = Done (first_buf P (k_bufs s) order) s
  /\ scan b_prev P (S NBUF) (prv (k_bufs s) head) s = Done (first_buf P (k_bufs s) (reverse order)) s.
Proof.
  intros Hlen Hd. destruct (dll_order _ _ Hd) as [Hnd Hin]. apply NoDup_cons in Hnd as [Hh Hnd].
  destruct Hd as [Hl Hp].
  assert (length order = NBUF) as Hlo by (rewrite Hp; apply length_seq).
  split.
  - eapply scan_run; [|exact Hl|done| |lia].
    + intros i b Hb. unfold nxt. by rewrite Hb.
    + intros i Hi. apply Hin in Hi. lia.
  - eapply scan_run; [|apply links_reverse, Hl|set_solver| |rewrite length_reverse; lia].
    + intros i b Hb. unfold prv. by rewrite Hb.
    + intros i Hi. rewrite elem_of_reverse in Hi. apply Hin in Hi. lia.
Qed.
#[global] Instance cached_dec l bno i : Decision (cached l bno i).
Proof.
  destruct (decide (i < NBUF)%nat) as [Hi|Hi]; [|right; intros (? & ? & _); lia].
  destruct (l !! i) as [b|] eqn:Hb; [|right; intros (? & _ & ? & _); congruence].
  destruct (decide (b_dev b = 1 /\ b_blockno b = bno)) as [[? ?]|Hn].
  - left. by exists b.
  - right. intros (c & _ & Hc & ? & ?). apply Hn. rewrite Hb in Hc. by injection Hc as <-.
Defined.

Lemma cached_or_not l bno : (exists i, cached l bno i) \/ (forall i, ~ cached l bno i).
Proof.
  destruct (list_find (cached l bno) (seq 0 NBUF)) as [[k i]|] eqn:Ef.
  - left. exists i. by apply list_find_Some in Ef as (_ & ? & _).
  - right. intros i Hi. rewrite list_find_None, Forall_forall in Ef. apply (Ef i); [|done].
    apply elem_of_seq. destruct Hi as (? & ? & _). lia.
Qed.

End lists.

Section rules.
Context {E : Env} {D : Disk} `{!DiskLaws D}.

Lemma is_key_spec bno b : (b_dev b =? 1) && (b_blockno b =? bno) = true <-> b_dev b = 1 /\ b_blockno b = bno.
Proof. rewrite andb_true_iff, !Z.eqb_eq. done. Qed.

Lemma get_head_run s : length (k_bufs s) = S NBUF ->
  exists h, get_buf head s = Done h s /\ b_next h = nxt (k_bufs s) head /\ b_prev h = prv (k_bufs s) head.
Proof.
  intros Hl. destruct (lookup_lt_is_Some_2 (k_bufs s) head) as [h Hh]; [rewrite Hl; unfold head; lia|].
  exists h. unfold nxt, prv. rewrite Hh. split; [by apply get_buf_run|done].
Qed.

Lemma bget_cached s pid dsk view held dirty bno i :
  cache_ok s pid dsk view held dirty -> cached (k_bufs s) bno i -> i ∉ held.*2 ->
  bget 1 bno s = Done i (s <| k_bufs ::= alter referenced i |> <| k_sleeplocks ::= locked_by pid i |>).
Proof.
  intros [Hc [Hlen [order Hd] _ Hbufs Huniq _ _ _]] Hi Hnh.
  destruct (calm_section s pid L_bcache Hc I) as (h & Ha & _ & _ & _ & Hrel).
  unfold bget. krun Ha. set (s1 := s <| k_hw := h |>).
  destruct (get_head_run s1 Hlen) as (hd & Hh & Hnx & _). krun Hh. rewrite Hnx.
  destruct (scan_dll (fun b => (b_dev b =? 1) && (b_blockno b =? bno)) s1 order Hlen Hd) as [Hs _].
  destruct (dll_order _ _ Hd) as [_ Hin].
  pose proof (first_buf_spec (fun b => (b_dev b =? 1) && (b_blockno b =? bno)) (k_bufs s) order) as Hf.
  specialize (Hf ltac:(intros j Hj; apply Hin in Hj; lia)).
  krun Hs. change (k_bufs s1) with (k_bufs s). destruct Hi as (b & Hlt & Hb & Hdev & Hbno).
  destruct (first_buf _ (k_bufs s) order) as [j|]; cycle 1.
  { specialize (Hf i b (proj2 (Hin i) Hlt) Hb). cbn beta in Hf.
    by rewrite (proj2 (is_key_spec bno b)) in Hf. }
  destruct Hf as (Hj & c & Hcj & Hk). apply is_key_spec in Hk as [Hk1 Hk2]. apply Hin in Hj.
  assert (i = j) as <- by (apply (Huniq bno); [by exists b|by exists c]).
  kstep. kapply Hrel. specialize (Hbufs i b Hlt Hb) as [_ _ _ _ Hlk _]. rewrite decide_False in Hlk by done.
  set (s2 := s <| k_bufs ::= alter referenced i |>).
  replace (set k_hw _ _) with s2 by (by destruct s).
  kapply (acquiresleep_run s2 pid (SL_buf i)). done.
Qed.

Lemma spare_flags s pid dsk view held dirty i b :
  cache_ok s pid dsk view held dirty -> (i < NBUF)%nat -> k_bufs s !! i = Some b ->
  (b_refcnt b =? 0) && negb (nz (Z.land (b_flags b) B_DIRTY)) = true <->
  spare held dirty i b.
Proof.
  intros [_ [_ _ _ Hbufs _ _ _ _]] Hi Hb. destruct (Hbufs i b Hi Hb) as [Hfl _ _ Href _ _].
  unfold spare. rewrite andb_true_iff, negb_true_iff, Z.eqb_eq, nz_false, Href.
  destruct Hfl as [[Hd ->]|[Hd ->]]; repeat case_decide; naive_solver.
Qed.

Lemma bget_fresh s pid dsk view held dirty bno :
  cache_ok s pid dsk view held dirty -> (forall i, ~ cached (k_bufs s) bno i) ->
  (exists i b, (i < NBUF)%nat /\ k_bufs s !! i = Some b /\ spare held dirty i b) ->
  exists i b, (i < NBUF)%nat /\ k_bufs s !! i = Some b /\ spare held dirty i b
    /\ bget 1 bno s = Done i (s <| k_bufs ::= alter (recycled bno) i |> <| k_sleeplocks ::= locked_by pid i |>).
Proof.
  intros Hs Hn (v & bv & Hv & Hbv & Hsp).
  pose proof (fun i b => spare_flags s pid dsk view held dirty i b Hs) as Hspare.
  destruct Hs as [Hc [Hlen [order Hd] _ Hbufs Huniq _ _ _]].
  destruct (calm_section s pid L_bcache Hc I) as (h & Ha & _ & _ & _ & Hrel).
  unfold bget. krun Ha. set (s1 := s <| k_hw := h |>).
  destruct (get_head_run s1 Hlen) as (hd & Hh & Hnx & Hpv). krun Hh. rewrite Hnx.
  set (P1 := fun b => (b_dev b =? 1) && (b_blockno b =? bno)).
  set (P2 := fun b => (b_refcnt b =? 0) && negb (nz (Z.land (b_flags b) B_DIRTY))).
  destruct (scan_dll P1 s1 order Hlen Hd) as [Hs1 _]. destruct (scan_dll P2 s1 order Hlen Hd) as [_ Hs2].
  destruct (dll_order _ _ Hd) as [_ Hin].
  pose proof (first_buf_spec P1 (k_bufs s) order) as Hf1.
  specialize (Hf1 ltac:(intros j Hj; apply Hin in Hj; lia)).
  pose proof (first_buf_spec P2 (k_bufs s) (reverse order)) as Hf2.
  specialize (Hf2 ltac:(intros j Hj; rewrite elem_of_reverse in Hj; apply Hin in Hj; lia)).
  krun Hs1. change (k_bufs s1) with (k_bufs s). destruct (first_buf P1 (k_bufs s) order) as [j|].
  { destruct Hf1 as (Hj & c & Hcj & [Hk1 Hk2]%is_key_spec). apply Hin in Hj.
    destruct (Hn j). by exists c. }
  krun Hh. rewrite Hpv. krun Hs2. change (k_bufs s1) with (k_bufs s).
  destruct (first_buf P2 (k_bufs s) (reverse order)) as [j|]; cycle 1.
  { specialize (Hf2 v bv). rewrite elem_of_reverse, Hin in Hf2. specialize (Hf2 Hv Hbv).
    apply (Hspare v bv Hv Hbv) in Hsp. unfold P2 in Hf2. congruence. }
  destruct Hf2 as (Hj & c & Hcj & Hk). rewrite elem_of_reverse, Hin in Hj.
  apply (Hspare j c Hj Hcj) in Hk. exists j, c. split_and!; [done..|].
  do 4 kstep. rewrite !set_alter2. kapply Hrel.
  set (s2 := s <| k_bufs ::= alter (recycled bno) j |>).
  replace (set k_hw _ _) with s2 by (by destruct s).
  destruct (Hbufs j c Hj Hcj) as [_ _ _ _ Hlk _]. rewrite decide_False in Hlk by apply Hk.
  kapply (acquiresleep_run s2 pid (SL_buf j)). done.
Qed.

(** *** Changes of one buffer *)

Lemma dll_alter l order f i :
  (forall b, b_next (f b) = b_next b) -> (forall b, b_prev (f b) = b_prev b) ->
  dll l order -> dll (alter f i l) order.
Proof.
  intros Hn Hp [Hl Hperm]. split; [|done].
  eapply links_same; [| |exact Hl]; intros; [by apply nxt_alter|by apply prv_alter].
Qed.

Lemma cached_alter l f i bno j :
  (forall b, b_dev (f b) = b_dev b) -> (forall b, b_blockno (f b) = b_blockno b) ->
  cached (alter f i l) bno j <-> cached l bno j.
Proof.
  intros Hd Hb. unfold cached. destruct (decide (i = j)) as [->|Hne].
  - rewrite list_lookup_alter_eq. destruct (l !! j) as [b|]; cbn; [|naive_solver].
    split; intros (x & ? & [= <-] & ? & ?); eexists; (split_and!; [done|done|..]).
    + by rewrite <- Hd. + by rewrite <- Hb. + by rewrite Hd. + by rewrite Hb.
  - by rewrite list_lookup_alter_ne.
Qed.

Lemma cached_set l f i bno bno' j :
  (i < length l)%nat -> (i < NBUF)%nat ->
  (forall b, b_dev (f b) = 1) -> (forall b, b_blockno (f b) = bno) ->
  cached (alter f i l) bno' j <-> (j = i /\ bno' = bno) \/ (j <> i /\ cached l bno' j).
Proof.
  intros Hl Hi Hd Hb. unfold cached. destruct (decide (i = j)) as [->|Hne].
  - rewrite list_lookup_alter_eq. destruct (lookup_lt_is_Some_2 l j Hl) as [b Hlb]. rewrite Hlb. cbn.
    split; [|naive_solver]. intros (x & ? & [= <-] & ? & ?). left. split; [done|]. by rewrite <- (Hb b).
  - rewrite list_lookup_alter_ne by done. naive_solver.
Qed.

(** The other buffers when the process locks buffer [i]. *)
Lemma buf_ok_other sl pid dsk view held dirty bno i j b :
  i <> j -> buf_ok sl pid dsk view held dirty j b ->
  buf_ok (locked_by pid i sl) pid dsk view ((bno, i) :: held) dirty j b.
Proof.
  intros Hne [H1 H2 H3 H4 H5 H6].
  assert (j ∈ ((bno, i) :: held).*2 <-> j ∈ held.*2) as Hj by (cbn; set_solver).
  split; [done|done|intros; apply H3; [done..|by rewrite <- Hj]| | |set_solver].
  - rewrite H4. by rewrite (decide_ext _ _ _ _ Hj).
  - unfold locked_by. rewrite sl_at_insert_ne by congruence. by rewrite (decide_ext _ _ _ _ Hj).
Qed.

Lemma bcache_hold l sl d pid dsk view held dirty bno i :
  bcache_ok l sl d pid dsk view held dirty -> cached l bno i -> i ∉ held.*2 ->
  bcache_ok (alter referenced i l) (locked_by pid i sl) d pid dsk view ((bno, i) :: held) dirty.
Proof.
  intros [Hlen [order Hd] Hdisk Hbufs Huniq Hnone [Hnd Hheld] [Hdn Hdirty]] (b & Hi & Hb & Hdev & Hbno) Hnh.
  assert (forall bno' j, cached (alter referenced i l) bno' j <-> cached l bno' j) as Hca
    by (intros; by apply cached_alter).
  split.
  - by rewrite length_alter.
  - exists order. by apply dll_alter.
  - done.
  - intros j c Hj Hc. destruct (decide (i = j)) as [->|Hne]; cycle 1.
    { rewrite list_lookup_alter_ne in Hc by done. apply buf_ok_other; [done|by apply Hbufs]. }
    rewrite list_lookup_alter_eq, Hb in Hc. cbn in Hc. injection Hc as <-.
    destruct (Hbufs j b Hj Hb) as [H1 H2 H3 H4 H5 H6]. rewrite decide_False in H4 by done.
    split; cbn; [done|done| | | |].
    + intros _ _ Hn. set_solver.
    + rewrite decide_True by set_solver. lia.
    + rewrite decide_True by set_solver. unfold locked_by. rewrite sl_at_insert. done.
    + intros bno' [[= ->]|Hin]%elem_of_cons; [done|]. destruct Hnh. apply list_elem_of_fmap. by exists (bno', j).
  - intros bno' j k Hj Hk. rewrite Hca in Hj, Hk. by eapply Huniq.
  - intros bno' Hn. apply Hnone. intros j. by rewrite <- Hca.
  - cbn. split; [by constructor|]. intros bno' j [[= -> ->]|Hin]%elem_of_cons; [done|by eapply Hheld].
  - split; [done|]. intros bno' Hin. destruct (Hdirty bno' Hin) as [j Hj]. exists j. by apply Hca.
Qed.

Lemma bcache_load l sl d pid dsk view held dirty bno i b :
  bcache_ok l sl d pid dsk view held dirty -> (i < NBUF)%nat -> l !! i = Some b ->
  spare held dirty i b -> (forall j, ~ cached l bno j) ->
  bcache_ok (alter (fun b => synced d (recycled bno b)) i l) (locked_by pid i sl) d pid dsk view
    ((bno, i) :: held) dirty.
Proof.
  intros [Hlen [order Hd] Hdisk Hbufs Huniq Hnone [Hnd Hheld] [Hdn Hdirty]] Hi Hb [Hnh Hsp] Hn.
  assert (bno ∉ dirty) as Hbd by (intros H; destruct (Hdirty bno H) as [j Hj]; by eapply Hn).
  set (f := fun b => synced d (recycled bno b)).
  assert (forall bno' j, cached (alter f i l) bno' j <-> (j = i /\ bno' = bno) \/ (j <> i /\ cached l bno' j)) as Hca.
  { intros. apply cached_set; [by eapply lookup_lt_Some|done|done|done]. }
  split.
  - by rewrite length_alter.
  - exists order. by apply dll_alter.
  - done.
  - intros j c Hj Hc. destruct (decide (i = j)) as [->|Hne]; cycle 1.
    { rewrite list_lookup_alter_ne in Hc by done. apply buf_ok_other; [done|by apply Hbufs]. }
    rewrite list_lookup_alter_eq, Hb in Hc. injection Hc as <-. split; cbn.
    + right. by rewrite decide_False.
    + intros _. change (disk_read d 1 bno = view bno). rewrite Hdisk. symmetry. apply Hnone, Hn.
    + intros _ _ Hn'. set_solver.
    + by rewrite decide_True by set_solver.
    + rewrite decide_True by set_solver. unfold locked_by. by rewrite sl_at_insert.
    + intros bno' [[= ->]|Hin]%elem_of_cons; [done|]. destruct Hnh. apply list_elem_of_fmap. by exists (bno', j).
  - intros bno' j k [[-> ->]|[Hj1 Hj2]]%Hca [[-> Hk1]|[Hk1 Hk2]]%Hca; try done; subst.
    + by destruct (Hn k). + by destruct (Hn j). + by eapply Huniq.
  - intros bno' Hn'. destruct (decide (bno' = bno)) as [->|Hne]; [by apply Hnone|].
    destruct (decide (cached l bno' i)) as [Hci|Hci].
    + destruct Hci as (b' & _ & Hb' & Hdev & Hbno). rewrite Hb in Hb'. injection Hb' as <-.
      destruct (Hbufs i b Hi Hb) as [_ _ H3 _ _ _]. rewrite <- Hbno. auto.
    + apply Hnone. intros j Hj. apply (Hn' j), Hca. right. split; [by intros ->|done].
  - cbn. split; [by constructor|]. intros bno' j [[= -> ->]|Hin]%elem_of_cons; [done|by eapply Hheld].
  - split; [done|]. intros bno' Hin. destruct (Hdirty bno' Hin) as [j Hj]. exists j. apply Hca.
    right. split; [|done]. intros ->. destruct Hj as (b' & _ & Hb' & Hdev & Hbno).
    rewrite Hb in Hb'. injection Hb' as <-. apply Hsp; [done|by rewrite Hbno].
Qed.

(** A block that nobody holds is cached in a free buffer or not at all. *)
Lemma cached_free l sl d pid dsk view held dirty bno i :
  bcache_ok l sl d pid dsk view held dirty -> cached l bno i -> bno ∉ held.*1 -> i ∉ held.*2.
Proof.
  intros [_ _ _ Hbufs _ _ _ _] (b & Hi & Hb & Hd & Hbno) Hn ([bno' j] & -> & Hin)%list_elem_of_fmap.
  cbn in *. destruct (Hbufs j b Hi Hb) as [_ _ _ _ _ H6]. destruct (H6 bno' Hin) as [_ Hb'].
  apply Hn. apply list_elem_of_fmap. exists (bno', j). split; [|done]. cbn. congruence.
Qed.

Lemma bread_ok s pid dsk view held dirty bno :
  cache_ok s pid dsk view held dirty -> bno ∉ held.*1 -> bno < disksize ->
  ((exists i, cached (k_bufs s) bno i) \/
   (exists i b, (i < NBUF)%nat /\ k_bufs s !! i = Some b /\ spare held dirty i b)) ->
  exists i l sl, bread 1 bno s = Done i (s <| k_bufs := l |> <| k_sleeplocks := sl |>)
    /\ cache_ok (s <| k_bufs := l |> <| k_sleeplocks := sl |>) pid dsk view ((bno, i) :: held) dirty
    /\ (i ∉ held.*2) /\ inode_locks (k_sleeplocks s) sl.
Proof.
  intros Hs Hnh Hsz Hroom. destruct (cached_or_not (k_bufs s) bno) as [[i Hi]|Hn].
  - pose proof (cached_free _ _ _ _ _ _ _ _ _ _ (proj2 Hs) Hi Hnh) as Hnh'.
    exists i, (alter referenced i (k_bufs s)), (locked_by pid i (k_sleeplocks s)).
    split_and!; [|split; [apply Hs|by apply bcache_hold; [apply Hs|..]]|done|intros ip; by apply lookup_insert_ne]. unfold bread.
    rewrite (bind_done _ _ _ _ _ (bget_cached s pid dsk view held dirty bno i Hs Hi Hnh')). cbv beta.
    destruct Hi as (b & Hi & Hb & Hdev & Hbno).
    destruct (bc_bufs _ _ _ _ _ _ _ _ (proj2 Hs) i b Hi Hb) as [[[? _]|[_ Hfl]] _ _ _ _ _]; [done|].
    erewrite bind_done by (apply get_buf_run; cbn; by rewrite list_lookup_alter_eq, Hb). cbv beta.
    change (b_flags (referenced b)) with (b_flags b). rewrite Hfl. by case_decide.
  - destruct Hroom as [[i Hi]|Hroom]; [by destruct (Hn i)|].
    destruct (bget_fresh s pid dsk view held dirty bno Hs Hn Hroom) as (i & b & Hi & Hb & Hsp & Hg).
    exists i, (alter (fun b => synced (k_disk s) (recycled bno b)) i (k_bufs s)), (locked_by pid i (k_sleeplocks s)).
    split_and!; [|split; [apply Hs|by eapply bcache_load; [apply Hs|..]]|apply Hsp|intros ip; by apply lookup_insert_ne].
    unfold bread. rewrite (bind_done _ _ _ _ _ Hg). cbv beta. set (s1 := set k_sleeplocks _ _).
    assert (k_bufs s1 !! i = Some (recycled bno b)) as Hb1 by (cbn; by rewrite list_lookup_alter_eq, Hb).
    krun (get_buf_run s1 i _ Hb1). change (Z.land (b_flags (recycled bno b)) B_VALID =? 0) with true. unfold when.
    erewrite bind_done; [|eapply (iderw_sync s1 pid i (recycled bno b)); try done].
    + unfold mret, M_ret. apply (f_equal (Done i)). change (written (recycled bno b) s1) with s1.
      transitivity (s <| k_bufs ::= alter (recycled bno) i |> <| k_bufs ::= alter (synced (k_disk s)) i |>
        <| k_sleeplocks ::= locked_by pid i |>); [done|]. by rewrite set_alter2.
    + apply Hs.
    + cbn. unfold locked_by. rewrite sl_at_insert. done.
Qed.

(** *** Releasing a buffer *)

Lemma relink_run s o1 i o2 :
  length (k_bufs s) = S NBUF -> dll (k_bufs s) (o1 ++ i :: o2) ->
  relink i s = Done tt (s <| k_bufs ::= fun l => push_front i (unlink i l) |>).
Proof.
  intros Hlen Hd. destruct (dll_order _ _ Hd) as [Hnd Hin]. destruct Hd as [Hl _].
  rewrite <- app_assoc in Hl. cbn [app] in Hl. destruct (links_mid _ _ _ _ _ _ _ Hl) as [Hnb Hpb].
  assert (i < NBUF)%nat as Hi by (apply Hin; set_solver).
  assert (nxt (k_bufs s) i <> i /\ i <> head) as [Hqi Hih].
  { rewrite NoDup_cons, NoDup_app, NoDup_cons in Hnd. split; [|unfold head; lia].
    intros He. rewrite He in Hnb. set_solver. }
  destruct (lookup_lt_is_Some_2 (k_bufs s) i) as [b Hb]; [lia|].
  assert (nxt (k_bufs s) i = b_next b /\ prv (k_bufs s) i = b_prev b) as [Hn Hp]
    by (unfold nxt, prv; by rewrite Hb).
  unfold relink. krun (get_buf_run s i b Hb). rewrite <- Hn, <- Hp in *.
  kstep. erewrite bind_done by (apply get_buf_run; cbn; by rewrite list_lookup_alter_ne).
  cbv beta. rewrite <- Hn, <- Hp. kstep.
  set (s2 := set k_bufs _ _). assert (k_bufs s2 = unlink i (k_bufs s)) as E2 by done.
  destruct (get_head_run s2) as (hd & Hh & Hhn & _); [by cbn; rewrite !length_alter|].
  krun Hh. rewrite Hhn. do 2 kstep. rewrite set_alter2. set (s3 := set k_bufs _ s2).
  destruct (get_head_run s3) as (hd' & Hh' & Hhn' & _); [by cbn; rewrite !length_alter|].
  krun Hh'. rewrite Hhn'. assert (nxt (k_bufs s3) head = nxt (k_bufs s2) head) as ->.
  { subst s3. rewrite set_get. unfold nxt. by rewrite list_lookup_alter_ne. }
  kstep. unfold upd_buf, modify. apply (f_equal (Done tt)). rewrite E2. subst s3. rewrite !set_set.
  subst s2. rewrite !set_set. apply set_ext. done.
Qed.

Lemma core_lookup l l' i b :
  map core l' = map core l -> l !! i = Some b ->
  exists b', l' !! i = Some b' /\ b_flags b' = b_flags b /\ b_dev b' = b_dev b /\ b_blockno b' = b_blockno b
    /\ b_refcnt b' = b_refcnt b /\ b_data b' = b_data b.
Proof.
  intros Hc Hb. assert (map core l' !! i = Some (core b)) as H by (by rewrite Hc, list_lookup_fmap, Hb).
  rewrite list_lookup_fmap in H. destruct (l' !! i) as [b'|]; [|done]. exists b'. split; [done|].
  injection H. auto.
Qed.

Lemma cached_core l l' bno i : map core l' = map core l -> cached l bno i -> cached l' bno i.
Proof.
  intros Hc (b & Hi & Hb & Hd & Hbno). destruct (core_lookup l l' i b Hc Hb) as (b' & ? & ? & ? & ? & ?).
  exists b'. split_and!; [done|done|congruence|congruence].
Qed.

Lemma bcache_core l l' sl d pid dsk view held dirty :
  map core l' = map core l -> (exists order, dll l' order) ->
  bcache_ok l sl d pid dsk view held dirty -> bcache_ok l' sl d pid dsk view held dirty.
Proof.
  intros Hc Hord [Hlen _ Hdisk Hbufs Huniq Hnone Hheld [Hdn Hdirty]].
  assert (length l' = length l) as Hl by (by rewrite <- (length_map core l'), Hc, length_map).
  assert (forall bno i, cached l' bno i <-> cached l bno i) as Hca
    by (intros; split; by apply cached_core).
  split; [by rewrite Hl|done|done| | | |done|].
  - intros i b' Hi Hb'. destruct (core_lookup l' l i b' (eq_sym Hc) Hb') as (b & Hb & E1 & E2 & E3 & E4 & E5).
    destruct (Hbufs i b Hi Hb) as [H1 H2 H3 H4 H5 H6]. rewrite E1, E2, E3, E4, E5 in *. by split.
  - intros bno i j. rewrite !Hca. apply Huniq.
  - intros bno Hn. apply Hnone. intros i. by rewrite <- Hca.
  - split; [done|]. intros bno Hin. destruct (Hdirty bno Hin) as [i Hi]. exists i. by apply Hca.
Qed.

Lemma map_core_relink i l : map core (push_front i (unlink i l)) = map core l.
Proof. unfold push_front, unlink. by rewrite !map_core_alter. Qed.

(** The cache when the process gives buffer [i] back, in sync with the disk unless
    the log has pinned it. *)
Lemma bcache_release l sl d pid dsk view held1 held2 dirty bno i :
  bcache_ok l sl d pid dsk view (held1 ++ (bno, i) :: held2) dirty ->
  (bno ∈ dirty \/ view bno = dsk bno) ->
  bcache_ok (alter dereferenced i l) (unlocked i sl) d pid dsk view (held1 ++ held2) dirty.
Proof.
  intros [Hlen [order Hd] Hdisk Hbufs Huniq Hnone [Hnd Hheld] [Hdn Hdirty]] Hsync.
  assert (forall bno' j, cached (alter dereferenced i l) bno' j <-> cached l bno' j) as Hca
    by (intros; by apply cached_alter).
  rewrite fmap_app, fmap_cons in Hnd. cbn in Hnd.
  rewrite NoDup_app, NoDup_cons in Hnd. destruct Hnd as (Hn1 & Hdj & Hi2 & Hn2).
  assert (i ∉ (held1 ++ held2).*2) as Hih.
  { rewrite fmap_app, elem_of_app. set_solver. }
  assert (forall j, j <> i -> j ∈ (held1 ++ (bno, i) :: held2).*2 <-> j ∈ (held1 ++ held2).*2) as Hj.
  { intros j Hne. rewrite !fmap_app, fmap_cons. cbn. set_solver. }
  split.
  - by rewrite length_alter.
  - exists order. by apply dll_alter.
  - done.
  - intros j c Hj' Hc. destruct (decide (i = j)) as [<-|Hne].
    + rewrite list_lookup_alter_eq in Hc. destruct (l !! i) as [b|] eqn:Hb; [|done]. injection Hc as <-.
      destruct (Hbufs i b Hj' Hb) as [H1 H2 H3 H4 H5 H6]. destruct (H6 bno ltac:(set_solver)) as [Hdev Hbno].
      rewrite decide_True in H4 by (rewrite fmap_app, fmap_cons; set_solver).
      split; cbn; [done|done| | | |].
      * intros _ Hnd' _. rewrite Hbno in *. by destruct Hsync.
      * rewrite decide_False by done. lia.
      * rewrite decide_False by done. unfold unlocked. by rewrite sl_at_insert.
      * intros bno' Hin. destruct Hih. apply list_elem_of_fmap. by exists (bno', i).
    + rewrite list_lookup_alter_ne in Hc by done. destruct (Hbufs j c Hj' Hc) as [H1 H2 H3 H4 H5 H6].
      specialize (Hj j ltac:(done)). split; [done|done| | | |].
      * intros. apply H3; [done..|]. by rewrite Hj.
      * rewrite H4. by rewrite (decide_ext _ _ _ _ Hj).
      * unfold unlocked. rewrite sl_at_insert_ne by congruence. by rewrite <- (decide_ext _ _ _ _ Hj).
      * intros bno' Hin. apply H6. set_solver.
  - intros bno' j k. rewrite !Hca. apply Huniq.
  - intros bno' Hn. apply Hnone. intros j. by rewrite <- Hca.
  - split; [rewrite fmap_app; apply NoDup_app; set_solver|]. intros bno' j Hin. apply (Hheld bno'). set_solver.
  - split; [done|]. intros bno' Hin. destruct (Hdirty bno' Hin) as [j Hj']. exists j. by apply Hca.
Qed.

Lemma held_buf l sl d pid dsk view held dirty bno i :
  bcache_ok l sl d pid dsk view held dirty -> (bno, i) ∈ held ->
  exists b, (i < NBUF)%nat /\ l !! i = Some b /\ b_dev b = 1 /\ b_blockno b = bno
    /\ b_data b = view bno /\ b_refcnt b = 1 /\ sl_held pid (sl_at sl (SL_buf i))
    /\ b_flags b = (if decide (bno ∈ dirty) then Z.lor B_VALID B_DIRTY else B_VALID).
Proof.
  intros [Hlen _ _ Hbufs _ _ [_ Hheld] _] Hin. pose proof (Hheld _ _ Hin) as Hi.
  destruct (lookup_lt_is_Some_2 l i) as [b Hb]; [lia|]. exists b.
  destruct (Hbufs i b Hi Hb) as [H1 H2 H3 H4 H5 H6]. destruct (H6 bno Hin) as [Hdev Hbno].
  assert (i ∈ held.*2) as Hih by (apply list_elem_of_fmap; by exists (bno, i)).
  rewrite decide_True in H4 by done. rewrite decide_True in H5 by done. rewrite Hbno in *. split_and!; auto.
  destruct H1 as [[? _]|[_ H1]]; done.
Qed.

Lemma brelse_ok s pid dsk view held1 held2 dirty bno i :
  cache_ok s pid dsk view (held1 ++ (bno, i) :: held2) dirty -> (bno ∈ dirty \/ view bno = dsk bno) ->
  exists l sl, brelse i s = Done tt (s <| k_bufs := l |> <| k_sleeplocks := sl |>)
    /\ cache_ok (s <| k_bufs := l |> <| k_sleeplocks := sl |>) pid dsk view (held1 ++ held2) dirty
    /\ inode_locks (k_sleeplocks s) sl.
Proof.
  intros [Hc Hb] Hsync. pose proof (bcache_release _ _ _ _ _ _ _ _ _ _ _ Hb Hsync) as Hb'.
  destruct (held_buf _ _ _ _ _ _ _ _ bno i Hb) as (b & Hi & Hl & _ & _ & _ & Href & Hsl & _); [set_solver|].
  destruct (bc_order _ _ _ _ _ _ _ _ Hb') as [order Hd]. pose proof (bc_len _ _ _ _ _ _ _ _ Hb') as Hlen.
  destruct (list_elem_of_split order i) as (o1 & o2 & ->); [by apply (dll_order _ _ Hd)|].
  exists (push_front i (unlink i (alter dereferenced i (k_bufs s)))), (unlocked i (k_sleeplocks s)).
  split_and!; [|split; [done|]; cbn; eapply bcache_core; [apply map_core_relink| |exact Hb'];
    exists (i :: o1 ++ o2); by apply dll_relink|intros ip; by apply lookup_insert_ne].
  unfold brelse. krun (holdingsleep_held s pid (SL_buf i) Hc Hi Hsl). cbn [negb].
  krun (releasesleep_run s pid (SL_buf i) Hc Hi). set (s1 := set k_sleeplocks _ s).
  destruct (calm_section s1 pid L_bcache Hc I) as (h & Ha & _ & _ & _ & Hrel).
  krun Ha. kstep. set (s2 := set k_bufs _ _).
  assert (k_bufs s2 !! i = Some (dereferenced b)) as Hl2 by (cbn; by rewrite list_lookup_alter_eq, Hl).
  krun (get_buf_run s2 i _ Hl2). change (b_refcnt (dereferenced b)) with (b_refcnt b - 1).
  rewrite Href. unfold when. cbn [Z.sub Z.add Z.opp Z.pos_sub Z.eqb].
  erewrite bind_done by (by apply (relink_run s2 o1 i o2)). cbv beta. rewrite Hrel by done. by destruct s.
Qed.

(** *** Changes of a buffer the process holds *)

Lemma bcache_change l sl d d' pid dsk dsk' view view' held dirty dirty' bno i f :
  bcache_ok l sl d pid dsk view held dirty -> (bno, i) ∈ held ->
  (forall b, b_next (f b) = b_next b) -> (forall b, b_prev (f b) = b_prev b) ->
  (forall b, b_dev (f b) = b_dev b) -> (forall b, b_blockno (f b) = b_blockno b) ->
  (forall b, b_refcnt (f b) = b_refcnt b) ->
  (forall x, x <> bno -> view' x = view x /\ dsk' x = dsk x /\ (x ∈ dirty' <-> x ∈ dirty)) ->
  (forall x, disk_read d' 1 x = dsk' x) -> NoDup dirty' ->
  (forall b, l !! i = Some b -> b_data (f b) = view' bno
     /\ b_flags (f b) = if decide (bno ∈ dirty') then Z.lor B_VALID B_DIRTY else B_VALID) ->
  bcache_ok (alter f i l) sl d' pid dsk' view' held dirty'.
Proof.
  intros Hok Hin Hf1 Hf2 Hf3 Hf4 Hf5 Hoth Hdisk' Hnd' Hnew.
  destruct (held_buf _ _ _ _ _ _ _ _ bno i Hok Hin) as (b & Hi & Hl & Hdev & Hbno & _).
  destruct Hok as [Hlen [order Hd] Hdisk Hbufs Huniq Hnone Hheld [Hdn Hdirty]].
  assert (i ∈ held.*2) as Hih by (apply list_elem_of_fmap; by exists (bno, i)).
  assert (forall bno' j, cached (alter f i l) bno' j <-> cached l bno' j) as Hca
    by (intros; by apply cached_alter).
  assert (cached l bno i) as Hci by (by exists b).
  split; [by rewrite length_alter|exists order; by apply dll_alter|done| | | |done|].
  - intros j c Hj Hc. destruct (decide (i = j)) as [<-|Hne].
    + rewrite list_lookup_alter_eq, Hl in Hc. injection Hc as <-.
      destruct (Hbufs i b Hi Hl) as [H1 H2 H3 H4 H5 H6]. destruct (Hnew b Hl) as [Hn1 Hn2].
      split; rewrite ?Hf3, ?Hf4, ?Hf5, ?Hbno; auto.
      * intros _ _ Hn. done.
      * intros bno' Hin'. destruct (H6 bno' Hin'). split; congruence.
    + rewrite list_lookup_alter_ne in Hc by done. destruct (Hbufs j c Hj Hc) as [H1 H2 H3 H4 H5 H6].
      destruct (decide (b_dev c = 1)) as [Hcd|Hcd].
      * destruct (Hoth (b_blockno c)) as (Ev & Ed & Edd).
        { intros He. apply Hne. apply (Huniq bno); [done|]. by exists c. }
        split; [|rewrite Ev; auto|rewrite Ev, Ed, Edd; auto|done|done|done].
        destruct H1 as [[? ?]|[? H1]]; [by left|right]. split; [done|].
        by rewrite (decide_ext _ _ _ _ Edd).
      * split; [|naive_solver..|done|done|done]. destruct H1 as [[? ?]|[? ?]]; [by left|done].
  - intros bno' j k. rewrite !Hca. apply Huniq.
  - intros bno' Hn. destruct (decide (bno' = bno)) as [->|Hne].
    { by destruct (Hn i (proj2 (Hca bno i) Hci)). }
    destruct (Hoth bno' Hne) as (-> & -> & _). apply Hnone. intros j. by rewrite <- Hca.
  - split; [done|]. intros bno' Hin'. destruct (decide (bno' = bno)) as [->|Hne].
    { exists i. by apply Hca. }
    apply (Hoth bno' Hne) in Hin'. destruct (Hdirty bno' Hin') as [j Hj]. exists j. by apply Hca.
Qed.

(** The process changes the contents of a block it holds. *)
Lemma modify_ok s pid dsk view held dirty bno i data :
  cache_ok s pid dsk view held dirty -> (bno, i) ∈ held ->
  cache_ok (s <| k_bufs ::= alter (fun b => b <| b_data := data |>) i |>) pid dsk
    (<[bno := data]> view) held dirty.
Proof.
  intros [Hc Hb] Hin. destruct (held_buf _ _ _ _ _ _ _ _ bno i Hb Hin) as (b & _ & Hl & _ & _ & _ & _ & _ & Hfl).
  split; [done|]. eapply (bcache_change _ _ _ _ _ _ _ _ _ _ _ _ bno); try done.
  - intros x Hx. by rewrite fn_lookup_insert_ne.
  - apply Hb.
  - apply Hb.
  - intros b' Hb'. rewrite Hl in Hb'. injection Hb' as <-. by rewrite fn_lookup_insert.
Qed.

Lemma update_ok s pid dsk view held dirty bno i f :
  cache_ok s pid dsk view held dirty -> (bno, i) ∈ held ->
  cache_ok (s <| k_bufs ::= alter (fun b => b <| b_data ::= f |>) i |>) pid dsk
    (<[bno := f (view bno)]> view) held dirty.
Proof.
  intros Hs Hin. destruct (held_buf _ _ _ _ _ _ _ _ bno i (proj2 Hs) Hin) as (b & _ & Hl & _ & _ & Hd & _).
  rewrite (set_alter_ext k_bufs _ (fun b => b <| b_data := f (view bno) |>) i s b); [by apply modify_ok|done|].
  cbn. by rewrite <- Hd.
Qed.

(** The log pins a block the process holds. *)
Lemma pin_ok s pid dsk view held dirty bno i :
  cache_ok s pid dsk view held dirty -> (bno, i) ∈ held ->
  cache_ok (s <| k_bufs ::= alter (fun b => b <| b_flags ::= fun f => Z.lor f B_DIRTY |>) i |>) pid dsk
    view held (if decide (bno ∈ dirty) then dirty else dirty ++ [bno]).
Proof.
  intros [Hc Hb] Hin. destruct (held_buf _ _ _ _ _ _ _ _ bno i Hb Hin) as (b & _ & Hl & _ & _ & Hd & _ & _ & Hfl).
  split; [done|]. eapply (bcache_change _ _ _ _ _ _ _ _ _ _ _ _ bno); try done.
  - intros x Hx. split_and!; [done..|]. case_decide; [done|]. set_solver.
  - apply Hb.
  - pose proof (proj1 (bc_dirty _ _ _ _ _ _ _ _ Hb)). case_decide; [done|].
    apply NoDup_app. split_and!; [done|set_solver|apply NoDup_singleton].
  - intros b' Hb'. rewrite Hl in Hb'. injection Hb' as <-. cbn. rewrite Hfl, Hd. split; [done|].
    destruct (decide (bno ∈ dirty)) as [Hdd|Hdd].
    + by rewrite decide_True.
    + by rewrite decide_True by set_solver.
Qed.

(** [bwrite] writes the block to disk; it is in sync afterwards. *)
Lemma bwrite_ok s pid dsk view held dirty bno i :
  cache_ok s pid dsk view held dirty -> (bno, i) ∈ held -> bno < disksize ->
  exists l, let s' := s <| k_bufs := l |> <| k_disk ::= <[(1, bno) := view bno]> |>
                        <| k_writes ::= fun w => w ++ [(1, bno, view bno)] |> in
    bwrite i s = Done tt s'
    /\ cache_ok s' pid (<[bno := view bno]> dsk) view held (filter (fun x => x <> bno) dirty).
Proof.
  intros [Hc Hb] Hin Hsz.
  destruct (held_buf _ _ _ _ _ _ _ _ bno i Hb Hin) as (b & Hi & Hl & Hdev & Hbno & Hd & _ & Hsl & Hfl).
  set (g := fun b : buf => b <| b_flags ::= fun f => Z.lor f B_DIRTY |>).
  assert (b_flags (g b) = Z.lor B_VALID B_DIRTY) as Hg by (cbn; rewrite Hfl; by case_decide).
  exists (alter (fun b => synced (k_disk s) (g b)) i (k_bufs s)). split.
  - unfold bwrite. krun (holdingsleep_held s pid (SL_buf i) Hc Hi Hsl). cbn [negb]. kstep.
    set (s1 := set k_bufs _ s).
    rewrite (iderw_sync s1 pid i (g b)); [|done|done| |done|by rewrite Hg|done|by cbn; rewrite Hbno].
    + apply (f_equal (Done tt)). unfold written. rewrite Hg. change (nz _) with true. cbv match.
      change (b_blockno (g b)) with (b_blockno b). change (b_data (g b)) with (b_data b). rewrite Hbno, Hd.
      transitivity (s <| k_bufs ::= alter g i |> <| k_bufs ::= alter (synced (k_disk s)) i |>
        <| k_disk ::= <[(1, bno) := view bno]> |> <| k_writes ::= fun w => w ++ [(1, bno, view bno)] |>); [done|].
      by rewrite set_alter2.
    + cbn. by rewrite list_lookup_alter_eq, Hl.
  - split; [done|].
    change (bcache_ok (alter (fun b => synced (k_disk s) (g b)) i (k_bufs s)) (k_sleeplocks s)
      (<[(1, bno) := view bno]> (k_disk s)) pid (<[bno := view bno]> dsk) view held
      (filter (fun x => x <> bno) dirty)).
    eapply (bcache_change _ _ _ _ _ _ _ _ _ _ _ _ bno); try done.
    + intros b0. unfold synced. by destruct (nz _).
    + intros b0. unfold synced. by destruct (nz _).
    + intros b0. unfold synced. by destruct (nz _).
    + intros b0. unfold synced. by destruct (nz _).
    + intros b0. unfold synced. by destruct (nz _).
    + intros x Hx. rewrite fn_lookup_insert_ne by done. split_and!; [done..|].
      rewrite list_elem_of_filter. tauto.
    + intros x. unfold disk_read. destruct (decide (x = bno)) as [->|Hx].
      * by rewrite lookup_insert_eq, fn_lookup_insert.
      * rewrite lookup_insert_ne, fn_lookup_insert_ne by congruence. apply Hb.
    + apply NoDup_filter, Hb.
    + intros b' Hb'. rewrite Hl in Hb'. injection Hb' as <-. cbv beta. unfold synced. rewrite Hg.
      change (nz _) with true. cbv match. split; [done|]. rewrite decide_False.
      * cbn. rewrite Hfl. by case_decide.
      * rewrite list_elem_of_filter. tauto.
Qed.

(** *** The interface of the cache *)

Lemma cache_frame_refl s : cache_frame s s.
Proof. by destruct s. Qed.

Lemma cache_frame_trans s1 s2 s3 : cache_frame s1 s2 -> cache_frame s2 s3 -> cache_frame s1 s3.
Proof. intros [H1 L1] [H2 L2]. split; [rewrite H2, H1; done|]. intros ip. by rewrite L2, L1. Qed.

Lemma cache_frame_bufs s f : cache_frame s (s <| k_bufs ::= f |>).
Proof. by destruct s. Qed.

(** The rest of the state is untouched. *)
Lemma cache_frame_log s s' : cache_frame s s' -> k_log s' = k_log s.
Proof. intros [H _]. by rewrite H. Qed.

Lemma cache_ok_ext s pid dsk dsk' view view' held dirty :
  (forall x, dsk' x = dsk x) -> (forall x, view' x = view x) ->
  cache_ok s pid dsk view held dirty -> cache_ok s pid dsk' view' held dirty.
Proof.
  intros Hd Hv [Hc [H1 H2 H3 H4 H5 H6 H7 H8]]. split; [done|]. split; try done.
  - intros. by rewrite Hd.
  - intros i b Hi Hb. destruct (H4 i b Hi Hb). split; rewrite ?Hd, ?Hv; auto.
  - intros bno Hn. rewrite Hd, Hv. auto.
Qed.

(** A block that is neither pinned nor held is in sync with the disk. *)
Lemma cache_sync s pid dsk view held dirty bno :
  cache_ok s pid dsk view held dirty -> bno ∉ dirty -> bno ∉ held.*1 -> view bno = dsk bno.
Proof.
  intros [_ Hb] Hd Hh. destruct (cached_or_not (k_bufs s) bno) as [[i Hi]|Hn].
  - pose proof (cached_free _ _ _ _ _ _ _ _ _ _ Hb Hi Hh) as Hnh. destruct Hi as (b & Hi & Hl & Hdev & Hbno).
    destruct (bc_bufs _ _ _ _ _ _ _ _ Hb i b Hi Hl) as [_ _ H3 _ _ _]. rewrite <- Hbno in *. auto.
  - by apply (bc_none _ _ _ _ _ _ _ _ Hb).
Qed.

(** With fewer blocks held and pinned than there are buffers, one can be recycled. *)
Lemma spare_room l sl d pid dsk view held dirty :
  bcache_ok l sl d pid dsk view held dirty -> (length held + length dirty < NBUF)%nat ->
  exists i b, (i < NBUF)%nat /\ l !! i = Some b /\ spare held dirty i b.
Proof.
  intros [Hlen _ _ _ Huniq _ _ _] Hroom.
  assert (forall i, (i < NBUF)%nat -> exists b, l !! i = Some b) as Hl
    by (intros; apply lookup_lt_is_Some_2; lia).
  set (pinned := fun i => exists b, l !! i = Some b /\ b_dev b = 1 /\ b_blockno b ∈ dirty).
  assert (forall i, Decision (pinned i)) as Hdec.
  { intros i. unfold pinned. destruct (l !! i) as [b|]; [|right; naive_solver].
    destruct (decide (b_dev b = 1 /\ b_blockno b ∈ dirty)); [left|right]; naive_solver. }
  set (pins := filter pinned (seq 0 NBUF)).
  assert (length pins <= length dirty)%nat as Hpins.
  { rewrite <- (length_map (fun i => match l !! i with Some b => b_blockno b | None => 0 end) pins).
    apply submseteq_length, NoDup_submseteq.
    - apply NoDup_fmap_2_strong; [|apply NoDup_filter, NoDup_seq].
      intros i j Hi Hj He. apply list_elem_of_filter in Hi as [(b & Hb & Hbd & _) Hi].
      apply list_elem_of_filter in Hj as [(c & Hc & Hcd & _) Hj]. rewrite Hb, Hc in He.
      rewrite elem_of_seq in Hi, Hj. apply (Huniq (b_blockno b)); [exists b|exists c]; split_and!; lia || done.
    - intros x (i & -> & Hi)%list_elem_of_fmap. apply list_elem_of_filter in Hi as [(b & Hb & _ & Hd) _].
      by rewrite Hb. }
  destruct (list_find (fun i => i ∉ held.*2 ++ pins) (seq 0 NBUF)) as [[k i]|] eqn:Ef.
  - apply list_find_Some in Ef as (Hi & Hn & _). apply list_elem_of_lookup_2, elem_of_seq in Hi.
    destruct (Hl i) as [b Hb]; [lia|]. exists i, b. split_and!; [lia|done|]. rewrite elem_of_app in Hn.
    split; [tauto|]. intros Hdev Hd. apply Hn. right. apply list_elem_of_filter.
    split; [by exists b|apply elem_of_seq; lia].
  - exfalso. rewrite list_find_None, Forall_forall in Ef.
    assert (length (seq 0 NBUF) <= length (held.*2 ++ pins))%nat as Hle.
    { apply submseteq_length, NoDup_submseteq; [apply NoDup_seq|]. intros x Hx.
      destruct (decide (x ∈ held.*2 ++ pins)); [done|]. by destruct (Ef x Hx). }
    rewrite length_seq, length_app, length_fmap in Hle. lia.
Qed.

Lemma bread_spec s pid dsk view held dirty bno :
  cache_ok s pid dsk view held dirty -> bno ∉ held.*1 -> bno < disksize ->
  (bno ∈ dirty \/ (length held + length dirty < NBUF)%nat) ->
  exists i s', bread 1 bno s = Done i s' /\ cache_ok s' pid dsk view ((bno, i) :: held) dirty
    /\ cache_frame s s' /\ k_writes s' = k_writes s /\ i ∉ held.*2.
Proof.
  intros Hs Hn Hsz Hroom. destruct (bread_ok s pid dsk view held dirty bno Hs Hn Hsz) as (i & l & sl & H1 & H2 & H3 & H4).
  { destruct Hroom as [Hd|Hr].
    - left. apply (bc_dirty _ _ _ _ _ _ _ _ (proj2 Hs)), Hd.
    - right. eapply spare_room; [apply Hs|done]. }
  eexists i, _. split_and!; [exact H1|exact H2|split; [by destruct s|exact H4]|done|done].
Qed.

Lemma brelse_spec s pid dsk view held1 held2 dirty bno i :
  cache_ok s pid dsk view (held1 ++ (bno, i) :: held2) dirty -> (bno ∈ dirty \/ view bno = dsk bno) ->
  exists s', brelse i s = Done tt s' /\ cache_ok s' pid dsk view (held1 ++ held2) dirty
    /\ cache_frame s s' /\ k_writes s' = k_writes s.
Proof.
  intros Hs Hy. destruct (brelse_ok s pid dsk view held1 held2 dirty bno i Hs Hy) as (l & sl & H1 & H2 & H3).
  eexists. split_and!; [exact H1|exact H2|split; [by destruct s|exact H3]|done].
Qed.

Lemma bwrite_spec s pid dsk view held dirty bno i :
  cache_ok s pid dsk view held dirty -> (bno, i) ∈ held -> bno < disksize ->
  exists s', bwrite i s = Done tt s'
    /\ cache_ok s' pid (<[bno := view bno]> dsk) view held (filter (fun x => x <> bno) dirty)
    /\ cache_frame s s' /\ k_writes s' = k_writes s ++ [(1, bno, view bno)].
Proof.
  intros Hs Hin Hsz. destruct (bwrite_ok s pid dsk view held dirty bno i Hs Hin Hsz) as (l & H1 & H2).
  eexists. split_and!; [exact H1|exact H2|split; [by destruct s|done]|done].
Qed.

Lemma get_held s pid dsk view held dirty bno i :
  cache_ok s pid dsk view held dirty -> (bno, i) ∈ held ->
  exists b, get_buf i s = Done b s /\ b_blockno b = bno /\ b_dev b = 1 /\ b_data b = view bno.
Proof.
  intros [_ Hb] Hin. destruct (held_buf _ _ _ _ _ _ _ _ bno i Hb Hin) as (b & _ & Hl & ? & ? & ? & _).
  exists b. split_and!; [by apply get_buf_run|done..].
Qed.

(** *** Initialisation *)

Lemma put_lock_free h lk name lk' : lock_free h lk' -> lock_free (put_lock lk (Spinlock name 0 None) h) lk'.
Proof.
  intros (l & Hl & H0 & Hc). unfold lock_free, put_lock. cbn. destruct (decide (lk = lk')) as [->|Hne].
  - rewrite lookup_insert_eq. by exists (Spinlock name 0 None).
  - rewrite lookup_insert_ne by done. by exists l.
Qed.

Lemma put_lock_new h lk name : lock_free (put_lock lk (Spinlock name 0 None) h) lk.
Proof. exists (Spinlock name 0 None). cbn. by rewrite lookup_insert_eq. Qed.

Lemma put_lock_calm h lk name t pid : calm h t pid -> calm (put_lock lk (Spinlock name 0 None) h) t pid.
Proof.
  intros [H1 H2 H3 H4 H5]. split; [done|done| |done|done]. intros lk' Hlk. by apply put_lock_free, H3.
Qed.

Lemma initsleeplock_run s id name :
  initsleeplock id name s = Done tt (s <| k_hw ::= put_lock (L_sleep id) (Spinlock "sleep lock" 0 None) |>
                                       <| k_sleeplocks ::= <[id := Sleeplock 0 name 0]> |>).
Proof.
  unfold initsleeplock, initlock. do 3 kstep. unfold upd_sl, modify. apply (f_equal (Done tt)).
  rewrite !set_set. apply set_ext. by rewrite !sl_at_insert, !insert_insert_eq.
Qed.

(** One round of the loop of [binit]. *)
Lemma binit_round s b :
  length (k_bufs s) = S NBUF -> (b < NBUF)%nat ->
  (h ← get_buf head ;
   upd_buf b (fun b => b <| b_next := b_next h |>) ;;
   upd_buf b (fun b => b <| b_prev := head |>) ;;
   initsleeplock (SL_buf b) "buffer" ;;
   h ← get_buf head ;
   upd_buf (b_next h) (fun n => n <| b_prev := b |>) ;;
   upd_buf head (fun h => h <| b_next := b |>)) s
  = Done tt (s <| k_bufs ::= push_front b |> <| k_hw ::= put_lock (L_sleep (SL_buf b)) (Spinlock "sleep lock" 0 None) |>
               <| k_sleeplocks ::= <[SL_buf b := Sleeplock 0 "buffer" 0]> |>).
Proof.
  intros Hlen Hb. destruct (get_head_run s Hlen) as (hd & Hh & Hn & _). krun Hh. rewrite Hn. do 2 kstep.
  rewrite set_alter2. set (s1 := set k_bufs _ s).
  krun (initsleeplock_run s1 (SL_buf b) "buffer"). set (s2 := set k_sleeplocks _ _).
  destruct (get_head_run s2) as (hd' & Hh' & Hhn' & _); [cbn; by rewrite length_alter|]. krun Hh'. rewrite Hhn'.
  assert (nxt (k_bufs s2) head = nxt (k_bufs s) head) as ->.
  { change (k_bufs s2) with (k_bufs s1). unfold s1. rewrite set_get. unfold nxt. rewrite list_lookup_alter_ne; [done|unfold head; lia]. }
  kstep. unfold upd_buf, modify. apply (f_equal (Done tt)). unfold push_front, s2, s1.
  clear. by destruct s.
Qed.

Lemma push_front_core b l : map core (push_front b l) = map core l.
Proof. unfold push_front. by rewrite !map_core_alter. Qed.

Lemma binit_step s k s' : (k < NBUF)%nat -> binit_inv s k s' ->
  binit_inv s (S k) (s' <| k_bufs ::= push_front k |>
    <| k_hw ::= put_lock (L_sleep (SL_buf k)) (Spinlock "sleep lock" 0 None) |>
    <| k_sleeplocks ::= <[SL_buf k := Sleeplock 0 "buffer" 0]> |>).
Proof.
  intros Hk [H1 H2 H3 H4 H5 H6 H7 H8 H9]. split; try done.
  - cbn. unfold push_front. by rewrite !length_alter.
  - rewrite seq_S, rev_app_distr. cbn [rev app]. cbn [k_bufs set]. apply links_push_front; [| |done].
    + assert (forall x, x ∈ rev (seq 0 k) -> (x < k)%nat) as Hin.
      { intros x. rewrite list_elem_of_In, <- in_rev, in_seq. lia. }
      rewrite !NoDup_cons, elem_of_cons. split_and!.
      * intros [Hh|Hh%Hin]; unfold head in *; lia.
      * intros Hh%Hin. lia.
      * apply NoDup_ListNoDup, NoDup_rev, NoDup_ListNoDup, NoDup_seq.
    + intros x Hx. rewrite H1. rewrite !elem_of_cons, list_elem_of_In, <- in_rev, in_seq in Hx. unfold head in Hx. lia.
  - etrans; [apply push_front_core|done].
  - intros i Hi. cbn. destruct (decide (i = k)) as [->|Hne]; [apply sl_at_insert|].
    rewrite sl_at_insert_ne by congruence. apply H6. lia.
  - intros i Hi. cbn. destruct (decide (i = k)) as [->|Hne]; [apply put_lock_new|]. apply put_lock_free, H7. lia.
  - by apply put_lock_free.
  - intros t pid Hc. by apply put_lock_calm, H9.
Qed.

Lemma binit_run s : length (k_bufs s) = S NBUF -> exists s', binit s = Done tt s' /\ binit_inv s NBUF s'.
Proof.
  intros Hlen. unfold binit. unfold initlock at 1. do 3 kstep. rewrite set_alter2.
  apply for_each_inv.
  - assert (head < length (k_bufs s))%nat as Hh by (rewrite Hlen; unfold head; lia). split; try done.
    + cbn. by rewrite length_alter.
    + destruct (lookup_lt_is_Some_2 (k_bufs s) head Hh) as [h Hl]. cbn. unfold nxt, prv. by rewrite list_lookup_alter_eq, Hl.
    + by apply map_core_alter.
    + intros i Hi. lia.
    + intros i Hi. lia.
    + apply put_lock_new.
    + intros t pid Hc. by apply put_lock_calm.
  - intros k s' Hk H. eexists. split; [apply binit_round; [apply H|done]|]. by apply binit_step.
Qed.

Lemma run_op_ok s pid f o :
  cache_ok s pid f f [] [] -> op_block o < disksize ->
  exists s', run_op o s = Done (fst (store_op o f)) s' /\ cache_ok s' pid (snd (store_op o f)) (snd (store_op o f)) [] [].
Proof.
  intros Hs Hsz. destruct (bread_spec s pid f f [] [] (op_block o)) as (i & s1 & R1 & C1 & _);
    [done|set_solver|done|right; cbn; unfold NBUF; lia|].
  destruct o as [bno|bno d]; cbn in R1, C1, Hsz |- *.
  - destruct (get_held _ _ _ _ _ _ bno i C1) as (b & G & _ & _ & Hd); [set_solver|].
    destruct (brelse_spec s1 _ _ _ [] [] [] bno i C1) as (s2 & R2 & C2 & _); [by right|].
    exists s2. split; [|done]. kapply R1. kapply G. kapply R2. by rewrite Hd.
  - pose proof (modify_ok s1 pid f f _ [] bno i d C1 ltac:(set_solver)) as C2. set (s2 := set k_bufs _ s1) in C2.
    destruct (bwrite_spec s2 _ _ _ _ _ bno i C2) as (s3 & R3 & C3 & _); [set_solver|done|].
    rewrite fn_lookup_insert in C3. cbn [filter list_filter] in C3.
    destruct (brelse_spec s3 _ _ _ [] [] [] bno i C3) as (s4 & R4 & C4 & _); [by right|].
    exists s4. split; [|done]. kapply R1. kstep. kapply R3. by kapply R4.
Qed.

Lemma run_ops_ok l s pid f :
  cache_ok s pid f f [] [] -> Forall (fun o => op_block o < disksize) l ->
  exists s', run_ops l s = Done (fst (store_ops l f)) s' /\ cache_ok s' pid (snd (store_ops l f)) (snd (store_ops l f)) [] [].
Proof.
  revert s f. induction l as [|o l IH]; intros s f Hs Hl; [by exists s|].
  apply Forall_cons in Hl as [Ho Hl]. destruct (run_op_ok s pid f o Hs Ho) as (s1 & R1 & C1).
  cbn [run_ops store_ops]. destruct (store_op o f) as [r f1]. cbn [fst snd] in R1, C1.
  destruct (IH s1 f1 C1 Hl) as (s2 & R2 & C2). destruct (store_ops l f1) as [rs f2]. cbn [fst snd] in *.
  exists s2. split; [|done]. kapply R1. by kapply R2.
Qed.

(** Unused buffers cache nothing. *)
Lemma bcache_unused l sl d pid dsk :
  length l = S NBUF -> (exists order, dll l order) -> (forall bno, disk_read d 1 bno = dsk bno) ->
  (forall i b, (i < NBUF)%nat -> l !! i = Some b -> b_dev b <> 1 /\ b_flags b = 0 /\ b_refcnt b = 0) ->
  (forall i, (i < NBUF)%nat -> sl_locked (sl_at sl (SL_buf i)) = 0) ->
  bcache_ok l sl d pid dsk dsk [] [].
Proof.
  intros Hlen Ho Hd Hb Hsl. split; try done.
  - intros i b Hi Hl. destruct (Hb i b Hi Hl) as (H1 & H2 & H3). split; auto; set_solver.
  - intros bno i j (b & Hi & Hl & Hdev & _). destruct (Hb i b Hi Hl). done.
  - split; [constructor|]. intros. set_solver.
  - split; [constructor|]. intros. set_solver.
Qed.

Lemma binit_ok s pid dsk :
  length (k_bufs s) = S NBUF -> (forall bno, disk_read (k_disk s) 1 bno = dsk bno) ->
  (forall i b, k_bufs s !! i = Some b -> b_dev b = 0 /\ b_flags b = 0 /\ b_refcnt b = 0) ->
  exists s', binit s = Done tt s'
    /\ bcache_ok (k_bufs s') (k_sleeplocks s') (k_disk s') pid dsk dsk [] []
    /\ lock_free (k_hw s') L_bcache /\ (forall i, (i < NBUF)%nat -> lock_free (k_hw s') (L_sleep (SL_buf i)))
    /\ (calm (k_hw s) (k_ptable s) pid -> cache_ok s' pid dsk dsk [] []).
Proof.
  intros Hlen Hd Hz. destruct (binit_run s Hlen) as (s' & R & [H1 H2 H3 H4 H5 H6 H7 H8 H9]).
  assert (bcache_ok (k_bufs s') (k_sleeplocks s') (k_disk s') pid dsk dsk [] []) as Hok.
  { apply bcache_unused; [done| |by rewrite H4| |intros i Hi; by rewrite H6].
    - exists (rev (seq 0 NBUF)). split; [done|]. symmetry. apply Permutation_rev.
    - intros i b Hi Hb. destruct (core_lookup _ _ i b (eq_sym H3) Hb) as (b' & Hb' & E1 & E2 & _ & E4 & _).
      destruct (Hz i b' Hb') as (? & ? & ?). split_and!; congruence || (rewrite <- E2; lia). }
  exists s'. split_and!; [done..|]. intros Hc. split; [|done]. rewrite H5. by apply H9.
Qed.
End rules.

(** ** Properties *)

Section properties.
Context {E : Env} {D : Disk} `{!DiskLaws D}.

(** C32: [binit] establishes the invariant of the buffer cache.  On the zeroed static
    buffers it returns with all of them in one list, their locks free, and the cache
    showing exactly the disk; a calm system stays calm. *)
Theorem binit_establishes s pid dsk :
  length (k_bufs s) = S NBUF -> (forall bno, disk_read (k_disk s) 1 bno = dsk bno) ->
  (forall i b, k_bufs s !! i = Some b -> b_dev b = 0 /\ b_flags b = 0 /\ b_refcnt b = 0) ->
  exists s', binit s = Done tt s'
    /\ bcache_ok (k_bufs s') (k_sleeplocks s') (k_disk s') pid dsk dsk [] []
    /\ lock_free (k_hw s') L_bcache /\ (forall i, (i < NBUF)%nat -> lock_free (k_hw s') (L_sleep (SL_buf i)))
    /\ (calm (k_hw s) (k_ptable s) pid -> cache_ok s' pid dsk dsk [] []).
Proof. apply binit_ok. Qed.

(** C4: the buffer cache implements an array of blocks.  Any sequence of block reads
    and writes through [bread], [bwrite] and [brelse], recycling buffers as it goes,
    returns what the array of blocks returns, and leaves the array on disk. *)
Theorem cache_refines_store l s pid f :
  cache_ok s pid f f [] [] -> Forall (fun o => op_block o < disksize) l ->
  exists s', run_ops l s = Done (fst (store_ops l f)) s'
    /\ cache_ok s' pid (snd (store_ops l f)) (snd (store_ops l f)) [] []
    /\ forall bno, disk_read (k_disk s') 1 bno = snd (store_ops l f) bno.
Proof.
  intros Hs Hl. destruct (run_ops_ok l s pid f Hs Hl) as (s' & R & C). exists s'. split_and!; [done..|].
  apply (bc_disk _ _ _ _ _ _ _ _ (proj2 C)).
Qed.
End properties.
