(* ===== verification/Log.v ===== *)
(** log.c: the redo log that makes file system operations atomic over crashes, with
    [readsb] of fs.c.

    [commit_writes] lists the blocks a commit writes, in order; [recover_disk] is
    the disk after recovery.  [commit_ok] and [recover_ok] show that the code does
    exactly that; [recover_prefix] that after a crash between any two of the writes
    recovery yields all of the transaction or nothing of it. *)
From S2P Require Import Prelude Kernel Spinlock Console CString Kalloc Proc Sleeplock Disk Bio Bytes.

Section log.
Context {E : Env} {D : Disk}.

(** [memmove(sb, bp->data, sizeof( *sb ))] *)
Definition sb_of (b : block) : superblock :=
  Superblock (get32 b 0) (get32 b 4) (get32 b 8) (get32 b 12) (get32 b 16) (get32 b 20) (get32 b 24).

Definition readsb (dev : Z) : K superblock :=
  bp ← bread dev 1 ;
  b ← get_buf bp ;
  brelse bp ;;
  mret (sb_of (b_data b)).

Definition get_log {T} (f : log -> T) : K T := gets (fun s => f (k_log s)).
Definition upd_log (f : log -> log) : K unit := modify (fun s => s <| k_log ::= f |>).
Definition upd_lh (f : logheader -> logheader) : K unit := upd_log (fun l => l <| lg_lh ::= f |>).
Definition get_n : K Z := get_log (fun l => lh_n (lg_lh l)).

(** [log.lh.block[i]], an array of [LOGSIZE] elements. *)
Definition in_array (i : Z) (n : nat) : bool := (0 <=? i) && (i <? Z.of_nat n).
Definition get_lhblock (i : Z) : K Z :=
  l ← get_log (fun l => lh_block (lg_lh l)) ;
  if in_array i (length l) then deref "log.lh.block" (l !! Z.to_nat i) else fault "log.lh.block".
Definition set_lhblock (i v : Z) : K unit :=
  l ← get_log (fun l => lh_block (lg_lh l)) ;
  if in_array i (length l) then upd_lh (fun h => h <| lh_block ::= <[Z.to_nat i := v]> |>)
  else fault "log.lh.block".

(** [for (tail = i; tail < log.lh.n; tail++) body]; a count beyond the array of
    [LOGSIZE] block numbers faults in the body, so [LOGSIZE + 1] tests suffice. *)
Fixpoint for_tail (n : nat) (tail : Z) (body : Z -> K unit) : K unit :=
  match n with
  | O => stop_with OutOfFuel
  | S n' =>
      lim ← get_n ;
      if tail <? lim then body tail ;; for_tail n' (tail + 1) body else mret tt
  end.
Definition tails (body : Z -> K unit) : K unit := for_tail (S (Z.to_nat LOGSIZE)) 0 body.

(** Copy the data of one buffer to another. *)
Definition copy_data (dst src : nat) : K unit :=
  b ← get_buf src ;
  upd_buf dst (fun d => d <| b_data := b_data b |>).

Definition install_block (tail : Z) : K unit :=
  dev ← get_log lg_dev ;
  start ← get_log lg_start ;
  lbuf ← bread dev (start + tail + 1) ;
  dev ← get_log lg_dev ;
  bno ← get_lhblock tail ;
  dbuf ← bread dev bno ;
  copy_data dbuf lbuf ;;
  bwrite dbuf ;;
  brelse lbuf ;;
  brelse dbuf.
Definition install_trans : K unit := tails install_block.

(** The header block: the count, then the block numbers. *)
Definition hd_n (b : block) : Z := i32 (get32 b 0).
Definition hd_block (b : block) (i : Z) : Z := i32 (get32 b (4 + 4 * Z.to_nat i)).
Definition set_hd_n (b : block) (n : Z) : block := set32 b 0 n.
Definition set_hd_block (b : block) (i v : Z) : block := set32 b (4 + 4 * Z.to_nat i) v.

Definition read_head : K unit :=
  dev ← get_log lg_dev ;
  start ← get_log lg_start ;
  buf ← bread dev start ;
  b ← get_buf buf ;
  upd_lh (fun h => h <| lh_n := hd_n (b_data b) |>) ;;
  tails (fun i => b ← get_buf buf ; set_lhblock i (hd_block (b_data b) i)) ;;
  brelse buf.

Definition write_head : K unit :=
  dev ← get_log lg_dev ;
  start ← get_log lg_start ;
  buf ← bread dev start ;
  n ← get_n ;
  upd_buf buf (fun b => b <| b_data ::= fun d => set_hd_n d n |>) ;;
  tails (fun i =>
    v ← get_lhblock i ;
    upd_buf buf (fun b => b <| b_data ::= fun d => set_hd_block d i v |>)) ;;
  bwrite buf ;;
  brelse buf.

Definition recover_from_log : K unit :=
  read_head ;;
  install_trans ;;
  upd_lh (fun h => h <| lh_n := 0 |>) ;;
  write_head.

(** [sizeof(struct logheader)] is [4 + 4 * LOGSIZE]. *)
Definition initlog (dev : Z) : K unit :=
  if BSIZE <=? 4 + 4 * LOGSIZE then panic "initlog: too big logheader" else
  initlock L_log "log" ;;
  sb ← readsb dev ;
  upd_log (fun l => l <| lg_start := sb_logstart sb |>) ;;
  upd_log (fun l => l <| lg_size := sb_nlog sb |>) ;;
  upd_log (fun l => l <| lg_dev := dev |>) ;;
  recover_from_log.

Definition begin_op : K unit :=
  acquire L_log ;;
  loop fuel (
    l ← get_log (fun l => l) ;
    if nz (lg_committing l) then sleep CH_log L_log ;; mret None
    else if LOGSIZE <? lh_n (lg_lh l) + (lg_outstanding l + 1) * MAXOPBLOCKS
    then sleep CH_log L_log ;; mret None
    else
      upd_log (fun l => l <| lg_outstanding ::= Z.add 1 |>) ;;
      release L_log ;;
      mret (Some tt)).

Definition log_block (tail : Z) : K unit :=
  dev ← get_log lg_dev ;
  start ← get_log lg_start ;
  to ← bread dev (start + tail + 1) ;
  dev ← get_log lg_dev ;
  bno ← get_lhblock tail ;
  from ← bread dev bno ;
  copy_data to from ;;
  bwrite to ;;
  brelse from ;;
  brelse to.
Definition write_log : K unit := tails log_block.

Definition commit : K unit :=
  n ← get_n ;
  when (0 <? n)
    (write_log ;;
     write_head ;;
     install_trans ;;
     upd_lh (fun h => h <| lh_n := 0 |>) ;;
     write_head).

Definition end_op : K unit :=
  acquire L_log ;;
  upd_log (fun l => l <| lg_outstanding ::= fun n => n - 1 |>) ;;
  l ← get_log (fun l => l) ;
  if nz (lg_committing l) then panic "log.committing" else
  do_commit ← (if lg_outstanding l =? 0
               then upd_log (fun l => l <| lg_committing := 1 |>) ;; mret true
               else wakeup CH_log ;; mret false) ;
  release L_log ;;
  when do_commit
    (commit ;;
     acquire L_log ;;
     upd_log (fun l => l <| lg_committing := 0 |>) ;;
     wakeup CH_log ;;
     release L_log).

(** The loop of [log_write] that looks for the block: the index it stops at. *)
Fixpoint absorb (n : nat) (i : Z) (blockno : Z) : K Z :=
  match n with
  | O => stop_with OutOfFuel
  | S n' =>
      lim ← get_n ;
      if i <? lim then
        v ← get_lhblock i ;
        if v =? blockno then mret i else absorb n' (i + 1) blockno
      else mret i
  end.

Definition log_write (b : nat) : K unit :=
  l ← get_log (fun l => l) ;
  if (LOGSIZE <=? lh_n (lg_lh l)) || (lg_size l - 1 <=? lh_n (lg_lh l)) then panic "too big a transaction" else
  if lg_outstanding l <? 1 then panic "log_write outside of trans" else
  acquire L_log ;;
  bf ← get_buf b ;
  i ← absorb (S (Z.to_nat LOGSIZE)) 0 (b_blockno bf) ;
  set_lhblock i (b_blockno bf) ;;
  n ← get_n ;
  when (i =? n) (upd_lh (fun h => h <| lh_n ::= Z.add 1 |>)) ;;
  upd_buf b (fun b => b <| b_flags ::= fun f => Z.lor f B_DIRTY |>) ;;
  release L_log.

(** ** What a commit writes, and what recovery makes of it *)

(** The disk after a list of block writes. *)
Definition blast (d : Z -> block) (ws : list (Z * block)) : Z -> block :=
  foldl (fun d w => <[w.1 := w.2]> d) d ws.

(** The header with the block numbers [bl]. *)
Definition put_blocks (d : block) (bl : list Z) : block :=
  foldl (fun d w => set_hd_block d w.1 w.2) d (imap (fun i b => (Z.of_nat i, b)) bl).
Definition put_head (bl : list Z) (d : block) : block :=
  put_blocks (set_hd_n d (Z.of_nat (length bl))) bl.

(** [vals b] is the new content of block [b]. *)
Definition log_writes (vals : Z -> block) (start : Z) (bl : list Z) : list (Z * block) :=
  imap (fun k b => (start + Z.of_nat k + 1, vals b)) bl.
Definition home_writes (vals : Z -> block) (bl : list Z) : list (Z * block) :=
  map (fun b => (b, vals b)) bl.
Definition commit_writes (vals : Z -> block) (start : Z) (bl : list Z) (hdr : block) : list (Z * block) :=
  log_writes vals start bl ++ [(start, put_head bl hdr)] ++ home_writes vals bl
  ++ [(start, put_head [] (put_head bl hdr))].

(** The block numbers a header lists. *)
Definition hd_list (hdr : block) : list Z :=
  map (fun i => hd_block hdr (Z.of_nat i)) (seq 0 (Z.to_nat (hd_n hdr))).

(** The writes of recovery on disk [d]. *)
Definition install_writes (d : Z -> block) (start : Z) (bl : list Z) : list (Z * block) :=
  imap (fun k b => (b, d (start + Z.of_nat k + 1))) bl.
Definition recover_writes (d : Z -> block) (start : Z) : list (Z * block) :=
  install_writes d start (hd_list (d start)) ++ [(start, put_head [] (d start))].
Definition recover_disk (d : Z -> block) (start : Z) : Z -> block := blast d (recover_writes d start).

(** The blocks of the log. *)
Definition in_log (start b : Z) : Prop := start <= b < start + LOGSIZE.

(** The log in memory lists the blocks [bl]. *)
Record log_lists (s : kernel) (start : Z) (bl : list Z) : Prop := LogLists {
  ll_dev : lg_dev (k_log s) = 1;
  ll_start : lg_start (k_log s) = start;
  ll_n : lh_n (lg_lh (k_log s)) = Z.of_nat (length bl);
  ll_len : length (lh_block (lg_lh (k_log s))) = Z.to_nat LOGSIZE;
  ll_blocks : take (length bl) (lh_block (lg_lh (k_log s))) = bl
}.

(** Blocks that can be logged: distinct, outside the log, and fewer than there are
    buffers, so that the cache can hold them and one block of the log. *)
Record loggable (start : Z) (bl : list Z) : Prop := Loggable {
  lo_nodup : NoDup bl;
  lo_home : forall b, b ∈ bl -> ~ in_log start b /\ b < disksize;
  lo_len : (length bl < NBUF)%nat;
  lo_start : 0 <= start /\ start + LOGSIZE <= disksize
}.

Definition dev1 (w : Z * block) : Z * Z * block := (1, w.1, w.2).

(** Every write so far, and the blocks they leave. *)
Definition wrote (s s' : kernel) (pid : Z) (dsk view : Z -> block) (ws : list (Z * block)) (dirty : list Z) : Prop :=
  cache_ok s' pid (blast dsk ws) (blast view ws) [] dirty /\ cache_frame s s'
  /\ k_writes s' = k_writes s ++ map dev1 ws.

(** The writes of the transaction [bl]. *)
Definition transaction_writes (view : Z -> block) (start : Z) (bl : list Z) : list (Z * block) :=
  match bl with [] => [] | _ => commit_writes view start bl (view start) end.

(** The log emptied in memory. *)
Definition cleared (s : kernel) : kernel :=
  s <| k_log ::= fun l => l <| lg_lh ::= fun h => h <| lh_n := 0 |> |> |>.

(** Besides the cache, only the header of the log changes. *)
Definition log_frame (s s' : kernel) : Prop :=
  exists h, cache_frame (s <| k_log ::= fun l => l <| lg_lh := h |> |>) s'.

(** Recovery from disk [d] finds a sound log, and leaves the file system [f]. *)
Definition recovers (start : Z) (d f : Z -> block) : Prop :=
  length (d start) = Z.to_nat BSIZE /\ 0 <= hd_n (d start) <= LOGSIZE /\ loggable start (hd_list (d start)) /\
  forall b, ~ in_log start b -> recover_disk d start b = f b.

End log.

Section rules.
Context {E : Env} {D : Disk} `{!DiskLaws D}.

Lemma blast_app d ws1 ws2 : blast d (ws1 ++ ws2) = blast (blast d ws1) ws2.
Proof. unfold blast. apply foldl_app. Qed.

Lemma blast_ne d ws b : b ∉ ws.*1 -> blast d ws b = d b.
Proof.
  revert d. induction ws as [|[x v] ws IH]; intros d H; [done|]. cbn in *.
  rewrite IH by set_solver. apply fn_lookup_insert_ne. set_solver.
Qed.

Lemma blast_ext d d' ws b : (forall x, d x = d' x) -> blast d ws b = blast d' ws b.
Proof.
  revert d d'. induction ws as [|[x v] ws IH]; intros d d' H; [apply H|]. cbn.
  apply IH. intros y. unfold insert, fn_insert. case_decide; [done|apply H].
Qed.

Lemma blast_lookup d ws k b v : NoDup (ws.*1) -> ws !! k = Some (b, v) -> blast d ws b = v.
Proof.
  intros Hnd Hk. apply list_elem_of_lookup_2, list_elem_of_split in Hk as (w1 & w2 & ->).
  rewrite fmap_app, fmap_cons in Hnd. apply NoDup_app in Hnd as (_ & _ & Hnd%NoDup_cons).
  rewrite blast_app. cbn. rewrite blast_ne by tauto. apply fn_lookup_insert.
Qed.

Lemma filter_ne_id (b : Z) (dirty : list Z) : b ∉ dirty -> filter (fun x => x <> b) dirty = dirty.
Proof. intros H. apply filter_all. by intros x Hx ->. Qed.

Lemma copy_data_run s pid dsk view held dirty b1 i b2 j :
  cache_ok s pid dsk view held dirty -> (b1, i) ∈ held -> (b2, j) ∈ held ->
  exists s', copy_data i j s = Done tt s' /\ cache_ok s' pid dsk (<[b1 := view b2]> view) held dirty
    /\ cache_frame s s' /\ k_writes s' = k_writes s.
Proof.
  intros Hs Hi Hj. destruct (get_held _ _ _ _ _ _ _ _ Hs Hj) as (b & Hg & _ & _ & Hd).
  eexists. split_and!; [unfold copy_data; by kapply Hg|rewrite Hd; by apply modify_ok|apply cache_frame_bufs|done].
Qed.

(** *** Loops over the logged blocks *)

Lemma get_lhblock_run s start bl k b :
  log_lists s start bl -> bl !! k = Some b -> get_lhblock (Z.of_nat k) s = Done b s.
Proof.
  intros [_ _ _ Hlen Hbl] Hk.
  rewrite <- Hbl in Hk. apply lookup_take_Some in Hk as [Hk _]. pose proof (lookup_lt_Some _ _ _ Hk) as Hlt'.
  unfold get_lhblock, get_log. kstep. unfold in_array.
  rewrite (proj2 (Z.leb_le _ _)), (proj2 (Z.ltb_lt _ _)) by lia. cbn [andb]. by rewrite Nat2Z.id, Hk.
Qed.

Lemma log_lists_eq s s' start bl : k_log s' = k_log s -> log_lists s start bl -> log_lists s' start bl.
Proof. intros Hf [H1 H2 H3 H4 H5]. split; by rewrite Hf. Qed.

Lemma log_lists_frame s s' start bl : cache_frame s s' -> log_lists s start bl -> log_lists s' start bl.
Proof. intros Hf. apply log_lists_eq. by apply cache_frame_log. Qed.

(** [I k s] holds before the round for block [k]. *)
Lemma log_frame_refl s : log_frame s s.
Proof. exists (lg_lh (k_log s)). rewrite set_fix by (by destruct (k_log s)). apply cache_frame_refl. Qed.

Lemma log_frame_cache s s' s'' : log_frame s s' -> cache_frame s' s'' -> log_frame s s''.
Proof. intros [h H] H'. exists h. by eapply cache_frame_trans. Qed.

Lemma log_frame_lh s s' g : log_frame s s' -> log_frame s (s' <| k_log ::= fun l => l <| lg_lh ::= g |> |>).
Proof.
  intros [h [F L]]. exists (g h). split; [|exact L]. rewrite F at 1. by destruct s.
Qed.

Lemma tails_run (bl : list Z) (I : nat -> kernel -> Prop) body s :
  (forall k s', I k s' -> lh_n (lg_lh (k_log s')) = Z.of_nat (length bl)) ->
  (length bl <= Z.to_nat LOGSIZE)%nat ->
  (forall k b s', bl !! k = Some b -> I k s' -> exists s'', body (Z.of_nat k) s' = Done tt s'' /\ I (S k) s'') ->
  I 0%nat s -> exists s', tails body s = Done tt s' /\ I (length bl) s'.
Proof.
  intros Hlog Hlen Hstep H0. unfold tails.
  assert (forall f k s, (k <= length bl < k + f)%nat -> I k s ->
    exists s', for_tail f (Z.of_nat k) body s = Done tt s' /\ I (length bl) s') as G.
  { induction f as [|f IH]; intros k s1 Hk HI; [lia|]. cbn [for_tail]. unfold get_n, get_log. kstep.
    rewrite (Hlog k s1 HI). destruct (Z.ltb_spec (Z.of_nat k) (Z.of_nat (length bl))) as [Hlt|Hge].
    - destruct (lookup_lt_is_Some_2 bl k) as [b Hb]; [lia|].
      destruct (Hstep k b s1 Hb HI) as (s2 & Hr & HI2). kapply Hr.
      replace (Z.of_nat k + 1) with (Z.of_nat (S k)) by lia. apply IH; [lia|done].
    - exists s1. split; [done|]. by replace (length bl) with k by lia. }
  apply (G _ 0%nat); [lia|done].
Qed.
(** *** The rounds *)

Lemma log_block_run s pid dsk view dirty start bl k b :
  cache_ok s pid dsk view [] dirty -> log_lists s start bl -> bl !! k = Some b ->
  let lb := start + Z.of_nat k + 1 in
  b ∈ dirty -> (lb ∉ dirty) -> b < disksize -> lb < disksize -> (length dirty < NBUF)%nat ->
  exists s', log_block (Z.of_nat k) s = Done tt s'
    /\ cache_ok s' pid (<[lb := view b]> dsk) (<[lb := view b]> view) [] dirty
    /\ cache_frame s s' /\ k_writes s' = k_writes s ++ [(1, lb, view b)].
Proof.
  intros Hs Hl Hk lb Hb Hlb Hsz1 Hsz2 Hroom. assert (b <> lb) as Hne by (by intros ->).
  destruct (bread_spec s pid dsk view [] dirty lb) as (i & s1 & R1 & C1 & F1 & W1 & _); [done|set_solver|done|by right|].
  destruct (bread_spec s1 pid dsk view [(lb, i)] dirty b) as (j & s2 & R2 & C2 & F2 & W2 & _);
    [done|set_solver|done|by left|].
  destruct (copy_data_run s2 pid dsk view [(b, j); (lb, i)] dirty lb i b j) as (s3 & R3 & C3 & F3 & W3);
    [done|set_solver..|].
  destruct (bwrite_spec s3 pid dsk (<[lb := view b]> view) [(b, j); (lb, i)] dirty lb i) as (s4 & R4 & C4 & F4 & W4);
    [done|set_solver|done|].
  rewrite fn_lookup_insert in *. rewrite filter_ne_id in C4 by done.
  destruct (brelse_spec s4 _ _ _ [] [(lb, i)] dirty b j C4) as (s5 & R5 & C5 & F5 & W5); [by left|].
  destruct (brelse_spec s5 _ _ _ [] [] dirty lb i C5) as (s6 & R6 & C6 & F6 & W6);
    [right; by rewrite !fn_lookup_insert|].
  exists s6. split_and!.
  - unfold log_block, get_log. kstep. kstep. rewrite (ll_dev _ _ _ Hl), (ll_start _ _ _ Hl). kapply R1. kstep.
    rewrite (cache_frame_log s s1), (ll_dev _ _ _ Hl) by done.
    krun (get_lhblock_run s1 start bl k b (log_lists_frame _ _ _ _ F1 Hl) Hk).
    kapply R2. kapply R3. kapply R4. by kapply R5.
  - done.
  - eauto 10 using cache_frame_trans.
  - by rewrite W6, W5, W4, W3, W2, W1.
Qed.
Lemma install_block_run s pid dsk view dirty start bl k b :
  cache_ok s pid dsk view [] dirty -> log_lists s start bl -> bl !! k = Some b ->
  let lb := start + Z.of_nat k + 1 in
  (lb ∉ dirty) -> b <> lb -> b < disksize -> lb < disksize ->
  (length dirty < NBUF)%nat -> (b ∈ dirty \/ (1 + length dirty < NBUF)%nat) ->
  exists s', install_block (Z.of_nat k) s = Done tt s'
    /\ cache_ok s' pid (<[b := view lb]> dsk) (<[b := view lb]> view) [] (filter (fun x => x <> b) dirty)
    /\ cache_frame s s' /\ k_writes s' = k_writes s ++ [(1, b, view lb)].
Proof.
  intros Hs Hl Hk lb Hlb Hne Hsz1 Hsz2 Hroom Hroom2.
  pose proof (cache_sync _ _ _ _ _ _ lb Hs Hlb ltac:(set_solver)) as Hsync.
  destruct (bread_spec s pid dsk view [] dirty lb) as (i & s1 & R1 & C1 & F1 & W1 & _); [done|set_solver|done|by right|].
  destruct (bread_spec s1 pid dsk view [(lb, i)] dirty b) as (j & s2 & R2 & C2 & F2 & W2 & _);
    [done|set_solver|done|done|].
  destruct (copy_data_run s2 pid dsk view [(b, j); (lb, i)] dirty b j lb i) as (s3 & R3 & C3 & F3 & W3);
    [done|set_solver..|].
  destruct (bwrite_spec s3 pid dsk (<[b := view lb]> view) [(b, j); (lb, i)] dirty b j) as (s4 & R4 & C4 & F4 & W4);
    [done|set_solver|done|].
  rewrite fn_lookup_insert in *.
  destruct (brelse_spec s4 _ _ _ [(b, j)] [] _ lb i C4) as (s5 & R5 & C5 & F5 & W5);
    [right; by rewrite !fn_lookup_insert_ne|].
  destruct (brelse_spec s5 _ _ _ [] [] _ b j C5) as (s6 & R6 & C6 & F6 & W6);
    [right; by rewrite !fn_lookup_insert|].
  exists s6. split_and!.
  - unfold install_block, get_log. kstep. kstep. rewrite (ll_dev _ _ _ Hl), (ll_start _ _ _ Hl). kapply R1. kstep.
    rewrite (cache_frame_log s s1), (ll_dev _ _ _ Hl) by done.
    krun (get_lhblock_run s1 start bl k b (log_lists_frame _ _ _ _ F1 Hl) Hk).
    kapply R2. kapply R3. kapply R4. by kapply R5.
  - done.
  - eauto 10 using cache_frame_trans.
  - by rewrite W6, W5, W4, W3, W2, W1.
Qed.

(** *** The loops *)

Lemma wrote_nil s pid dsk view dirty : cache_ok s pid dsk view [] dirty -> wrote s s pid dsk view [] dirty.
Proof. intros H. split_and!; [done|apply cache_frame_refl|by rewrite app_nil_r]. Qed.

Lemma wrote_snoc s s' s'' pid dsk view ws b v dirty dirty' :
  wrote s s' pid dsk view ws dirty ->
  cache_ok s'' pid (<[b := v]> (blast dsk ws)) (<[b := v]> (blast view ws)) [] dirty' ->
  cache_frame s' s'' -> k_writes s'' = k_writes s' ++ [(1, b, v)] ->
  wrote s s'' pid dsk view (ws ++ [(b, v)]) dirty'.
Proof.
  intros (_ & F & W) C F' W'. split_and!.
  - by rewrite !blast_app.
  - by eapply cache_frame_trans.
  - by rewrite W', W, map_app, app_assoc.
Qed.

Lemma wrote_app s s' s'' pid dsk view ws ws' dirty dirty' :
  wrote s s' pid dsk view ws dirty -> wrote s' s'' pid (blast dsk ws) (blast view ws) ws' dirty' ->
  wrote s s'' pid dsk view (ws ++ ws') dirty'.
Proof.
  intros (_ & F & W) (C & F' & W'). split_and!.
  - by rewrite !blast_app.
  - by eapply cache_frame_trans.
  - by rewrite W', W, map_app, app_assoc.
Qed.

Lemma log_writes_keys vals start bl b : b ∈ (log_writes vals start bl).*1 -> start < b <= start + Z.of_nat (length bl).
Proof.
  intros (w & -> & (k & Hk)%list_elem_of_lookup)%list_elem_of_fmap. unfold log_writes in Hk.
  rewrite list_lookup_imap in Hk. destruct (bl !! k) eqn:Ek; [|done]. injection Hk as <-.
  apply lookup_lt_Some in Ek. cbn. lia.
Qed.

Lemma install_writes_keys d start bl : (install_writes d start bl).*1 = bl.
Proof. unfold install_writes. rewrite fmap_imap. apply list_eq. intros i. rewrite list_lookup_imap. by destruct (bl !! i). Qed.

Lemma take_keys k (ws : list (Z * block)) b : b ∈ (take k ws).*1 -> b ∈ ws.*1.
Proof. rewrite <- (take_drop k ws) at 2. rewrite fmap_app. set_solver. Qed.

Lemma loggable_len start bl : loggable start bl -> Z.of_nat (length bl) < LOGSIZE.
Proof. intros [_ _ H _]. change LOGSIZE with 30. change NBUF with 30%nat in H. lia. Qed.

Lemma write_log_run s pid dsk view start bl :
  cache_ok s pid dsk view [] bl -> log_lists s start bl -> loggable start bl ->
  exists s', write_log s = Done tt s' /\ wrote s s' pid dsk view (log_writes view start bl) bl.
Proof.
  intros Hs Hl Hg. pose proof (loggable_len _ _ Hg) as Hlen. destruct Hg as [Hnd Hhome Hroom Hstart].
  set (W := log_writes view start bl).
  destruct (tails_run bl (fun k s' => wrote s s' pid dsk view (take k W) bl) log_block s) as (s' & R & Hw).
  - intros k s' (_ & F & _). by rewrite (cache_frame_log s), (ll_n _ _ _ Hl).
  - lia.
  - intros k b s' Hk Hw. pose proof (list_elem_of_lookup_2 _ _ _ Hk) as Hb. destruct (Hhome b Hb) as [Hnl Hsz].
    pose proof (lookup_lt_Some _ _ _ Hk) as Hlt. unfold in_log in *.
    destruct (log_block_run s' pid (blast dsk (take k W)) (blast view (take k W)) bl start bl k b)
      as (s'' & R & C & F & Wr); try done.
    + apply Hw.
    + eapply log_lists_frame, Hl. apply Hw.
    + intros Hin%Hhome. lia.
    + lia.
    + assert (b ∉ (take k W).*1) as Hne. { intros Hin%take_keys%log_writes_keys. lia. }
      rewrite !(blast_ne _ (take k W) b) in C, Wr by done.
      exists s''. split; [done|].
      rewrite (take_S_r _ _ (start + Z.of_nat k + 1, view b));
        [by eapply wrote_snoc|unfold W, log_writes; by rewrite list_lookup_imap, Hk].
  - by apply wrote_nil.
  - exists s'. split; [done|]. by rewrite firstn_all2 in Hw by (unfold W, log_writes; rewrite length_imap; lia).
Qed.

Lemma filter_rest k b (bl dirty : list Z) : bl !! k = Some b ->
  filter (fun x => x <> b) (filter (fun x => x ∉ take k bl) dirty) = filter (fun x => x ∉ take (S k) bl) dirty.
Proof.
  intros Hk. rewrite list_filter_filter. apply filter_ext_in. intros x _. rewrite (take_S_r bl k b) by done.
  rewrite elem_of_app, list_elem_of_singleton. tauto.
Qed.

Lemma take_fresh k b (bl : list Z) : NoDup bl -> bl !! k = Some b -> b ∉ take k bl.
Proof.
  intros Hnd Hk Hin. rewrite <- (take_drop_middle _ _ _ Hk), NoDup_app in Hnd. destruct Hnd as (_ & Hd & _).
  apply (Hd b Hin). by left.
Qed.

Lemma install_trans_run s pid dsk view start bl dirty :
  cache_ok s pid dsk view [] dirty -> log_lists s start bl -> loggable start bl -> dirty = bl \/ dirty = [] ->
  exists s', install_trans s = Done tt s' /\ wrote s s' pid dsk view (install_writes view start bl) [].
Proof.
  intros Hs Hl Hg Hdirty. pose proof (loggable_len _ _ Hg) as Hlen. destruct Hg as [Hnd Hhome Hroom Hstart].
  set (W := install_writes view start bl).
  destruct (tails_run bl (fun k s' => wrote s s' pid dsk view (take k W)
    (filter (fun x => x ∉ take k bl) dirty)) install_block s) as (s' & R & Hw).
  - intros k s' (_ & F & _). by rewrite (cache_frame_log s), (ll_n _ _ _ Hl).
  - lia.
  - intros k b s' Hk Hw. pose proof (list_elem_of_lookup_2 _ _ _ Hk) as Hb. destruct (Hhome b Hb) as [Hnl Hsz].
    pose proof (lookup_lt_Some _ _ _ Hk) as Hlt. unfold in_log in *.
    pose proof (take_fresh k b bl Hnd Hk) as Hbk.
    assert (length (filter (fun x => x ∉ take k bl) dirty) <= length bl)%nat as Hle.
    { etrans; [apply length_filter|]. destruct Hdirty as [->| ->]; cbn; lia. }
    destruct (install_block_run s' pid (blast dsk (take k W)) (blast view (take k W))
      (filter (fun x => x ∉ take k bl) dirty) start bl k b)
      as (s'' & R & C & F & Wr); try done.
    + apply Hw.
    + eapply log_lists_frame, Hl. apply Hw.
    + intros [_ Hin]%list_elem_of_filter. destruct Hdirty as [->| ->]; [|set_solver]. apply Hhome in Hin. lia.
    + lia.
    + lia.
    + lia.
    + destruct Hdirty as [->| ->]; [left; by apply list_elem_of_filter|right]. cbn. lia.
    + assert (start + Z.of_nat k + 1 ∉ (take k W).*1) as Hne.
      { intros Hin%take_keys. unfold W in Hin. rewrite install_writes_keys in Hin. apply Hhome in Hin. lia. }
      rewrite !(blast_ne _ (take k W) (start + Z.of_nat k + 1)) in C, Wr by done.
      exists s''. split; [done|].
      rewrite (take_S_r _ _ (b, view (start + Z.of_nat k + 1)));
        [|unfold W, install_writes; by rewrite list_lookup_imap, Hk].
      rewrite <- (filter_rest k b) by done. by eapply wrote_snoc.
  - cbn [take]. rewrite filter_all by set_solver. by apply wrote_nil.
  - exists s'. split; [done|]. rewrite firstn_all2 in Hw by (unfold W, install_writes; rewrite length_imap; lia).
    rewrite (filter_none _ dirty) in Hw; [done|]. intros x Hx. rewrite firstn_all. destruct Hdirty; set_solver.
Qed.
(** *** The header *)

Lemma put_blocks_snoc d bl b : put_blocks d (bl ++ [b]) = set_hd_block (put_blocks d bl) (Z.of_nat (length bl)) b.
Proof. unfold put_blocks. rewrite imap_app, foldl_app. cbn. by rewrite Nat.add_0_r. Qed.

(** An update of a held buffer. *)
Lemma update_held s pid dsk view bno v held dirty i f :
  cache_ok s pid dsk (<[bno := v]> view) held dirty -> (bno, i) ∈ held ->
  exists s', upd_buf i (fun b => b <| b_data ::= f |>) s = Done tt s'
    /\ cache_ok s' pid dsk (<[bno := f v]> view) held dirty /\ cache_frame s s' /\ k_writes s' = k_writes s.
Proof.
  intros Hs Hin. eexists. split_and!; [done| |apply cache_frame_bufs|done].
  eapply cache_ok_ext; [done| |by apply (update_ok _ _ _ _ _ _ bno i f Hs)].
  intros x. rewrite fn_lookup_insert. unfold insert, fn_insert. by case_decide.
Qed.

Lemma write_head_run s pid dsk view start bl dirty :
  cache_ok s pid dsk view [] dirty -> log_lists s start bl -> (start ∉ dirty) ->
  (length dirty < NBUF)%nat -> start < disksize ->
  exists s', write_head s = Done tt s' /\ wrote s s' pid dsk view [(start, put_head bl (view start))] dirty.
Proof.
  intros Hs Hl Hst Hroom Hsz.
  destruct (bread_spec s pid dsk view [] dirty start) as (i & s1 & R1 & C1 & F1 & W1 & _); [done|set_solver|done|by right|].
  destruct (update_held s1 pid dsk view start (view start) [(start, i)] dirty i
    (fun d => set_hd_n d (Z.of_nat (length bl)))) as (s2 & R2 & C2 & F2 & W2); [|set_solver|].
  { eapply cache_ok_ext; [done| |done]. intros x. unfold insert, fn_insert. case_decide; by subst. }
  destruct (tails_run bl (fun k s' =>
    cache_ok s' pid dsk (<[start := put_blocks (set_hd_n (view start) (Z.of_nat (length bl))) (take k bl)]> view)
      [(start, i)] dirty /\ cache_frame s s' /\ k_writes s' = k_writes s)
    (fun k => v ← get_lhblock k ; upd_buf i (fun b => b <| b_data ::= fun d => set_hd_block d k v |>)) s2)
    as (s3 & R3 & C3 & F3 & W3).
  - intros k s' (_ & F & _). by rewrite (cache_frame_log s), (ll_n _ _ _ Hl).
  - destruct Hl as [_ _ _ Hlen Hbl]. rewrite <- Hbl, length_take. lia.
  - intros k b s' Hk (C & F & W).
    destruct (update_held s' pid dsk view start _ [(start, i)] dirty i
      (fun d => set_hd_block d (Z.of_nat k) b) C) as (s'' & R' & C' & F' & W'); [set_solver|].
    exists s''. split_and!; [|..|by rewrite W'].
    + krun (get_lhblock_run s' start bl k b (log_lists_frame _ _ _ _ F Hl) Hk). done.
    + rewrite (take_S_r _ _ _ Hk), put_blocks_snoc, length_take, Nat.min_l; [done|].
      apply lookup_lt_Some in Hk. lia.
    + by eapply cache_frame_trans.
  - split_and!; [done|by eapply cache_frame_trans|by rewrite W2].
  - rewrite firstn_all in C3. fold (put_head bl (view start)) in C3.
    destruct (bwrite_spec s3 _ _ _ _ _ start i C3) as (s4 & R4 & C4 & F4 & W4); [set_solver|done|].
    rewrite fn_lookup_insert in *. rewrite filter_ne_id in C4 by done.
    destruct (brelse_spec s4 _ _ _ [] [] dirty start i C4) as (s5 & R5 & C5 & F5 & W5);
      [right; by rewrite !fn_lookup_insert|].
    exists s5. split.
    + unfold write_head, get_n, get_log. kstep. kstep. rewrite (ll_dev _ _ _ Hl), (ll_start _ _ _ Hl). kapply R1.
      kstep. rewrite (cache_frame_log s s1), (ll_n _ _ _ Hl) by done. kapply R2. kapply R3. by kapply R4.
    + split_and!; [done|eauto using cache_frame_trans|by rewrite W5, W4, W3].
Qed.

Lemma read_head_run s pid dsk view start :
  cache_ok s pid dsk view [] [] -> start < disksize ->
  lg_dev (k_log s) = 1 -> lg_start (k_log s) = start -> length (lh_block (lg_lh (k_log s))) = Z.to_nat LOGSIZE ->
  0 <= hd_n (view start) <= LOGSIZE ->
  exists s', read_head s = Done tt s' /\ cache_ok s' pid dsk view [] []
    /\ log_lists s' start (hd_list (view start)) /\ k_writes s' = k_writes s /\ log_frame s s'.
Proof.
  intros Hs Hsz Hdev Hstart Hlen Hn.
  destruct (bread_spec s pid dsk view [] [] start) as (i & s1 & R1 & C1 & F1 & W1 & _);
    [done|set_solver|done|right; cbn; unfold NBUF; lia|].
  set (bl := hd_list (view start)).
  assert (length bl = Z.to_nat (hd_n (view start))) as Hbl by (unfold bl, hd_list; by rewrite length_map, length_seq).
  set (s2 := s1 <| k_log ::= fun l => l <| lg_lh ::= fun h => h <| lh_n := hd_n (view start) |> |> |>).
  destruct (tails_run bl (fun k s' => 
    cache_ok s' pid dsk view [(start, i)] [] /\ k_writes s' = k_writes s /\ log_frame s s'
    /\ lg_dev (k_log s') = 1 /\ lg_start (k_log s') = start
    /\ lh_n (lg_lh (k_log s')) = Z.of_nat (length bl)
    /\ length (lh_block (lg_lh (k_log s'))) = Z.to_nat LOGSIZE
    /\ take k (lh_block (lg_lh (k_log s'))) = take k bl)
    (fun k => b ← get_buf i ; set_lhblock k (hd_block (b_data b) k)) s2)
    as (s3 & R3 & C3 & W3 & F3 & L3).
  - tauto.
  - lia.
  - intros k b s' Hk (C & W & Fr & H1 & H2 & H3 & H4 & H5). pose proof (lookup_lt_Some _ _ _ Hk) as Hlt.
    destruct (get_held _ _ _ _ _ _ start i C) as (bf & G & _ & _ & Gd); [set_solver|].
    assert (hd_block (view start) (Z.of_nat k) = b) as Hb.
    { unfold bl, hd_list in Hk. rewrite list_lookup_fmap, fmap_Some in Hk.
      destruct Hk as (x & [-> _]%lookup_seq & ->). done. }
    eexists. split.
    + kapply G. rewrite Gd, Hb. unfold set_lhblock, get_log. kstep. unfold in_array.
      rewrite (proj2 (Z.leb_le _ _)), (proj2 (Z.ltb_lt _ _)) by lia. cbn [andb]. rewrite Nat2Z.id. done.
    + split_and!; try done.
      * by apply log_frame_lh.
      * cbn. by rewrite length_insert.
      * cbn. rewrite (take_S_r _ _ b) by (rewrite list_lookup_insert_eq by lia; done).
        rewrite take_insert_ge by lia. by rewrite (take_S_r bl k b), H5.
  - unfold s2. split_and!; try (apply log_frame_lh, (log_frame_cache s s); [apply log_frame_refl|done]); cbn; try rewrite (cache_frame_log s s1) by done; try done. lia.
  - destruct (brelse_spec s3 _ _ _ [] [] [] start i C3) as (s4 & R4 & C4 & F4 & W4).
    { right. eapply cache_sync; [exact Hs|set_solver..]. }
    exists s4. split_and!; [|done| |by rewrite W4|by eapply log_frame_cache].
    + unfold read_head, get_log. kstep. kstep. rewrite Hdev, Hstart. kapply R1.
      destruct (get_held _ _ _ _ _ _ start i C1) as (bf & G & _ & _ & Gd); [set_solver|]. kapply G. rewrite Gd.
      kstep. fold s2. kapply R3. done.
    + destruct L3 as (H1 & H2 & H3 & H4 & H5). rewrite firstn_all in H5.
      split; by rewrite (cache_frame_log s3).
Qed.
(** *** Commit and recovery *)

(** A fresh log header and [write_head] clear the log. *)
Lemma clear_run s pid dsk view start bl :
  cache_ok s pid dsk view [] [] -> log_lists s start bl -> start < disksize ->
  exists s', (upd_lh (fun h => h <| lh_n := 0 |>) ;; write_head) s = Done tt s'
    /\ cache_ok s' pid (blast dsk [(start, put_head [] (view start))]) (blast view [(start, put_head [] (view start))]) [] []
    /\ log_lists s' start [] /\ k_writes s' = k_writes s ++ map dev1 [(start, put_head [] (view start))]
    /\ cache_frame (cleared s) s'.
Proof.
  intros Hs [H1 H2 H3 H4 H5] Hsz.
  set (s1 := s <| k_log ::= fun l => l <| lg_lh ::= fun h => h <| lh_n := 0 |> |> |>).
  destruct (write_head_run s1 pid dsk view start [] []) as (s2 & R & C & F & W); [done|done|set_solver|by cbn; unfold NBUF; lia|done|].
  exists s2. split_and!; [|done| |done|done].
  - erewrite bind_done; [|done]. done.
  - by eapply log_lists_frame.
Qed.

Lemma log_writes_NoDup vals start bl : NoDup ((log_writes vals start bl).*1).
Proof.
  unfold log_writes. rewrite fmap_imap. apply NoDup_alt. intros i j x Hi Hj.
  rewrite list_lookup_imap in Hi, Hj. destruct (bl !! i), (bl !! j); cbn in *; try done. injection Hi. injection Hj. lia.
Qed.

(** The log holds the new contents. *)
Lemma logged_lookup d vals start bl k b :
  bl !! k = Some b -> blast d (log_writes vals start bl) (start + Z.of_nat k + 1) = vals b.
Proof.
  intros Hk. eapply (blast_lookup _ _ k); [apply log_writes_NoDup|]. unfold log_writes. by rewrite list_lookup_imap, Hk.
Qed.

Lemma install_home d vals start bl :
  (forall k b, bl !! k = Some b -> d (start + Z.of_nat k + 1) = vals b) ->
  install_writes d start bl = home_writes vals bl.
Proof.
  intros H. unfold install_writes, home_writes. apply list_eq. intros k. rewrite list_lookup_imap, list_lookup_fmap.
  destruct (bl !! k) as [b|] eqn:Hk; [|done]. cbn. by rewrite (H k b).
Qed.

Lemma cleared_frame s s' : cache_frame s s' -> cache_frame (cleared s) (cleared s').
Proof. intros [-> Hsl]. split; [by destruct s|exact Hsl]. Qed.

Lemma commit_run s pid dsk view start bl :
  cache_ok s pid dsk view [] bl -> log_lists s start bl -> loggable start bl -> bl <> [] ->
  let W := commit_writes view start bl (view start) in
  exists s', commit s = Done tt s' /\ cache_ok s' pid (blast dsk W) (blast view W) [] []
    /\ log_lists s' start [] /\ k_writes s' = k_writes s ++ map dev1 W /\ cache_frame (cleared s) s'.
Proof.
  intros Hs Hl Hg Hne W. pose proof (loggable_len _ _ Hg) as Hlen.
  pose proof Hg as [Hnd Hhome Hroom Hstart]. unfold in_log in *.
  destruct (write_log_run s pid dsk view start bl Hs Hl Hg) as (s1 & R1 & W1).
  set (L := log_writes view start bl) in *.
  assert (start ∉ L.*1) as HL. { intros H%log_writes_keys. lia. }
  assert (start ∉ bl) as Hsb. { intros H%Hhome. lia. }
  destruct (write_head_run s1 pid (blast dsk L) (blast view L) start bl bl) as (s2 & R2 & W2);
    [apply W1|eapply log_lists_frame, Hl; apply W1|done..|lia|].
  rewrite (blast_ne view L start HL) in W2. pose proof (wrote_app _ _ _ _ _ _ _ _ _ _ W1 W2) as W12.
  destruct (install_trans_run s2 pid (blast dsk (L ++ [(start, put_head bl (view start))]))
    (blast view (L ++ [(start, put_head bl (view start))])) start bl bl) as (s3 & R3 & W3);
    [apply W12|eapply log_lists_frame, Hl; apply W12|done|by left|].
  rewrite (install_home _ view) in W3.
  2:{ intros k b Hk. rewrite blast_app. cbn. rewrite fn_lookup_insert_ne by lia. by apply logged_lookup. }
  pose proof (wrote_app _ _ _ _ _ _ _ _ _ _ W12 W3) as (C & F & Wr).
  destruct (clear_run s3 pid _ _ start bl C) as (s4 & R4 & C4 & L4 & W4 & F4); [by eapply log_lists_frame|lia|].
  assert (blast view ((L ++ [(start, put_head bl (view start))]) ++ home_writes view bl) start
    = put_head bl (view start)) as Hh.
  { rewrite !blast_app. rewrite blast_ne; [cbn; by rewrite fn_lookup_insert|].
    unfold home_writes. change (map ?f bl) with (f <$> bl). rewrite <- list_fmap_compose. cbn. by rewrite list_fmap_id. }
  rewrite Hh in C4, W4. rewrite <- !blast_app in C4.
  assert (W = ((L ++ [(start, put_head bl (view start))]) ++ home_writes view bl)
    ++ [(start, put_head [] (put_head bl (view start)))]) as -> by (by rewrite <- !app_assoc).
  exists s4. split_and!; [|done|done|by rewrite W4, Wr, <- app_assoc, <- map_app|].
  2:{ eapply cache_frame_trans, F4. by apply cleared_frame. }
  unfold commit, get_n, get_log. kstep. rewrite (ll_n _ _ _ Hl), (proj2 (Z.ltb_lt _ _)) by (destruct bl; [done|cbn; lia]).
  unfold when. kapply R1. kapply R2. kapply R3. done.
Qed.

Lemma recover_run s pid d start :
  cache_ok s pid d d [] [] -> lg_dev (k_log s) = 1 -> lg_start (k_log s) = start ->
  length (lh_block (lg_lh (k_log s))) = Z.to_nat LOGSIZE ->
  0 <= hd_n (d start) <= LOGSIZE -> loggable start (hd_list (d start)) ->
  exists s', recover_from_log s = Done tt s'
    /\ cache_ok s' pid (recover_disk d start) (recover_disk d start) [] []
    /\ log_lists s' start [] /\ k_writes s' = k_writes s ++ map dev1 (recover_writes d start) /\ log_frame s s'.
Proof.
  intros Hs H1 H2 H3 H4 Hg. pose proof Hg as [Hnd Hhome Hroom Hstart]. unfold in_log in *. assert (0 < LOGSIZE) as Hls by done.
  destruct (read_head_run s pid d d start) as (s1 & R1 & C1 & L1 & W1 & F1); [done|lia|done..|].
  destruct (install_trans_run s1 pid d d start _ [] C1 L1 Hg) as (s2 & R2 & C2 & F2 & W2); [by right|].
  destruct (clear_run s2 pid _ _ start (hd_list (d start)) C2) as (s3 & R3 & C3 & L3 & W3 & F3); [by eapply log_lists_frame|lia|].
  rewrite (blast_ne d _ start) in C3, W3 by (rewrite install_writes_keys; intros H%Hhome; lia).
  exists s3. split_and!; [|unfold recover_disk, recover_writes; by rewrite !blast_app|done| |].
  - unfold recover_from_log. kapply R1. by kapply R2.
  - unfold recover_writes. by rewrite W3, W2, W1, map_app, app_assoc.
  - eapply log_frame_cache, F3. by eapply log_frame_lh, log_frame_cache.
Qed.
(** *** The header round trip *)

Lemma put_blocks_get d bl :
  length d = Z.to_nat BSIZE -> (length bl <= Z.to_nat LOGSIZE)%nat ->
  length (put_blocks d bl) = Z.to_nat BSIZE /\ get32 (put_blocks d bl) 0 = get32 d 0 /\
  (forall k b, bl !! k = Some b -> get32 (put_blocks d bl) (4 + 4 * k) = u32 b).
Proof.
  change (Z.to_nat BSIZE) with 512%nat. change (Z.to_nat LOGSIZE) with 30%nat. intros Hd.
  induction bl as [|b bl IH] using rev_ind; intros Hlen; [done|]. rewrite length_app in Hlen. cbn in Hlen.
  destruct IH as (I1 & I2 & I3); [lia|]. rewrite put_blocks_snoc. unfold set_hd_block. rewrite Nat2Z.id.
  split_and!.
  - by rewrite length_set32 by lia.
  - by rewrite get32_set32_other by lia.
  - intros k x [Hk|[Hge Hx]]%lookup_app_Some.
    + pose proof (lookup_lt_Some _ _ _ Hk). rewrite get32_set32_other by lia. by apply I3.
    + apply list_lookup_singleton_Some in Hx as [Hz ->]. replace k with (length bl) by lia. by rewrite get32_set32 by lia.
Qed.

Lemma put_head_n bl d : length d = Z.to_nat BSIZE -> (length bl <= Z.to_nat LOGSIZE)%nat ->
  hd_n (put_head bl d) = Z.of_nat (length bl).
Proof.
  intros Hd Hl. unfold hd_n, put_head, set_hd_n. change (Z.to_nat BSIZE) with 512%nat in *.
  destruct (put_blocks_get (set32 d 0 (Z.of_nat (length bl))) bl) as (_ & -> & _); [by rewrite length_set32 by lia|done|].
  rewrite get32_set32 by lia. change (Z.to_nat LOGSIZE) with 30%nat in Hl. apply i32_u32. lia.
Qed.

Lemma put_head_list bl d : length d = Z.to_nat BSIZE -> (length bl <= Z.to_nat LOGSIZE)%nat ->
  Forall (fun b => 0 <= b < 2147483648) bl -> hd_list (put_head bl d) = bl.
Proof.
  intros Hd Hl Hb. unfold hd_list. rewrite put_head_n by done. apply list_eq. intros k.
  rewrite list_lookup_fmap, Nat2Z.id. destruct (bl !! k) as [b|] eqn:Hk.
  - rewrite lookup_seq_lt by (by eapply lookup_lt_Some). cbn. f_equal. unfold hd_block, put_head, set_hd_n. rewrite Nat2Z.id.
    destruct (put_blocks_get (set32 d 0 (Z.of_nat (length bl))) bl) as (_ & _ & H); [|done|].
    + change (Z.to_nat BSIZE) with 512%nat in *. by rewrite length_set32 by lia.
    + rewrite (H k b Hk). rewrite Forall_lookup in Hb. specialize (Hb k b Hk). cbv beta in Hb. apply i32_u32. lia.
  - by rewrite lookup_seq_ge by (by apply lookup_ge_None).
Qed.

(** *** Crashes *)

Lemma home_keys vals bl : (home_writes vals bl).*1 = bl.
Proof. unfold home_writes. change (map ?f bl) with (f <$> bl). rewrite <- list_fmap_compose. apply list_fmap_id. Qed.

(** Installing again what is installed in part. *)
Lemma blast_redo d ws m b : NoDup (ws.*1) -> blast (blast d (take m ws)) ws b = blast d ws b.
Proof.
  intros Hnd. destruct (decide (b ∈ ws.*1)) as [Hin|Hin].
  - apply list_elem_of_fmap in Hin as ([x v] & -> & (k & Hk)%list_elem_of_lookup).
    by rewrite !(blast_lookup _ ws k x v).
  - rewrite (blast_ne _ ws), (blast_ne _ ws), blast_ne; [done| |done..]. by intros ?%take_keys.
Qed.

Lemma hd_list_0 hdr : hd_n hdr = 0 -> hd_list hdr = [].
Proof. intros H. unfold hd_list. by rewrite H. Qed.

(** With an empty log recovery leaves the file system alone. *)
Lemma recovers_empty start d : 0 <= start /\ start + LOGSIZE <= disksize ->
  hd_n (d start) = 0 -> length (d start) = Z.to_nat BSIZE -> recovers start d d.
Proof.
  intros Hst H Hlen. split_and!; [done|rewrite H; change LOGSIZE with 30; lia..| |].
  - rewrite hd_list_0 by done. split; [constructor|set_solver|unfold NBUF; cbn; lia|done].
  - intros b Hb. unfold recover_disk, recover_writes. rewrite hd_list_0 by done. cbn.
    apply fn_lookup_insert_ne. unfold in_log in Hb. change LOGSIZE with 30 in *. lia.
Qed.

Lemma recovers_ext start d f f' : (forall b, ~ in_log start b -> f b = f' b) -> recovers start d f -> recovers start d f'.
Proof. intros H (H1 & H2 & H3 & H4). do 3 (split; [done|]). intros b Hb. by rewrite H4, H. Qed.

Lemma put_head_nil_length d : length d = Z.to_nat BSIZE -> length (put_head [] d) = Z.to_nat BSIZE.
Proof. change (Z.to_nat BSIZE) with 512%nat. intros H. cbn. unfold set_hd_n. by rewrite length_set32 by lia. Qed.

Lemma length_put_head bl d : (length bl <= Z.to_nat LOGSIZE)%nat -> 
  length d = Z.to_nat BSIZE -> length (put_head bl d) = Z.to_nat BSIZE.
Proof.
  intros Hl Hd. unfold put_head. apply put_blocks_get; [|done]. unfold set_hd_n.
  change (Z.to_nat BSIZE) with 512%nat in *. by rewrite length_set32 by lia.
Qed.

(** A log that holds the transaction makes recovery install it. *)
Lemma recovers_logged start bl d vals : loggable start bl ->
  length (d start) = Z.to_nat BSIZE -> hd_n (d start) = Z.of_nat (length bl) -> hd_list (d start) = bl ->
  (forall k b, bl !! k = Some b -> d (start + Z.of_nat k + 1) = vals b) ->
  recovers start d (blast d (home_writes vals bl)).
Proof.
  intros Hg Hlen Hn Hl Hlog. pose proof (loggable_len _ _ Hg). split_and!; [done|lia|lia|by rewrite Hl|].
  intros b Hb. unfold recover_disk, recover_writes. rewrite Hl, (install_home d vals), blast_app by done. cbn.
  apply fn_lookup_insert_ne. unfold in_log in Hb. lia.
Qed.

(** A crash in the middle of recovery does no harm. *)
Lemma recovers_again start d f m :
  recovers start d f -> recovers start (blast d (take m (recover_writes d start))) f.
Proof.
  intros (Hlen & Hn & Hg & Hf). pose proof (loggable_len _ _ Hg) as Hll. pose proof Hg as [Hnd Hhome _ Hst].
  unfold recover_writes. set (bl := hd_list (d start)) in *.
  set (vals := fun b => blast d (install_writes d start bl) b).
  assert (forall k b, bl !! k = Some b -> d (start + Z.of_nat k + 1) = vals b) as Hlog.
  { intros k b Hk. unfold vals. symmetry. eapply (blast_lookup _ _ k); [by rewrite install_writes_keys|].
    unfold install_writes. by rewrite list_lookup_imap, Hk. }
  rewrite (install_home d vals) by done. set (H := home_writes vals bl).
  assert (forall b, ~ in_log start b -> blast d H b = f b) as HH.
  { intros b Hb. rewrite <- Hf by done. unfold recover_disk, recover_writes. fold bl.
    rewrite (install_home d vals), blast_app by done. cbn. symmetry. apply fn_lookup_insert_ne.
    unfold in_log in Hb. lia. }
  assert (forall x n b, in_log start b -> blast x (take n H) b = x b) as Hin'.
  { intros x n b Hb. apply blast_ne. intros Hk%take_keys. unfold H in Hk. rewrite home_keys in Hk. by apply Hhome in Hk as [? _]. }
  assert (in_log start start) as Hss by (unfold in_log; lia).
  destruct (decide (m <= length H)%nat) as [Hm|Hm].
  - rewrite take_app_le by done. eapply recovers_ext, (recovers_logged _ bl _ vals); rewrite ?Hin' by done; try done.
    + intros b Hb. rewrite <- HH by done. apply blast_redo. unfold H. by rewrite home_keys.
    + unfold bl, hd_list. rewrite length_map, length_seq. lia.
    + intros k b Hk. pose proof (lookup_lt_Some _ _ _ Hk). rewrite Hin' by (unfold in_log; lia). by apply Hlog.
  - rewrite firstn_all2 by (rewrite length_app; cbn; lia). rewrite blast_app. cbn.
    eapply recovers_ext, recovers_empty; rewrite ?fn_lookup_insert; [|done| |].
    + intros b Hb. rewrite fn_lookup_insert_ne by (by intros ->). by apply HH.
    + apply (put_head_n [] (d start) Hlen). apply Nat.le_0_l.
    + by apply (put_head_nil_length (d start)).
Qed.
(** The disk at any moment of a commit. *)
Section crash.
Context (start : Z) (bl : list Z) (dsk vals : Z -> block).
Context (Hg : loggable start bl) (Hb32 : Forall (fun b => 0 <= b < 2147483648) bl).
Context (Hn : hd_n (dsk start) = 0) (Hlen : length (dsk start) = Z.to_nat BSIZE).
Context (Hv : forall b, b ∉ bl -> vals b = dsk b).
#[local] Abbreviation L := (log_writes vals start bl).
#[local] Abbreviation H := (home_writes vals bl).
#[local] Abbreviation hdr := (put_head bl (dsk start)).

Lemma crash_len : (length bl <= Z.to_nat LOGSIZE)%nat.
Proof. pose proof (loggable_len _ _ Hg). lia. Qed.

Lemma crash_out b : in_log start b -> b ∉ bl.
Proof. intros Hb Hin. by apply (lo_home _ _ Hg) in Hin as [? _]. Qed.

Lemma crash_start : in_log start start.
Proof. clear. unfold in_log. change LOGSIZE with 30. lia. Qed.

Lemma crash_home x n b : b ∉ bl -> blast x (take n H) b = x b.
Proof. intros Hb. apply blast_ne. intros Hk%take_keys. by rewrite home_keys in Hk. Qed.

Lemma crash_log x n b : ~ (start < b < start + LOGSIZE) -> blast x (take n L) b = x b.
Proof. intros Hb. apply blast_ne. intros Hk%take_keys%log_writes_keys. pose proof (loggable_len _ _ Hg). lia. Qed.

Lemma crash_before k : recovers start (blast dsk (take k L)) dsk.
Proof.
  eapply recovers_ext, recovers_empty; [|apply (lo_start _ _ Hg)|rewrite crash_log by lia; done..].
  intros b Hb. apply crash_log. unfold in_log in Hb. lia.
Qed.

Lemma crash_value x b : ~ in_log start b -> (forall y, ~ in_log start y -> x y = dsk y) -> blast x H b = vals b.
Proof.
  intros Hb Hx. destruct (decide (b ∈ bl)) as [Hin|Hin].
  - apply list_elem_of_lookup in Hin as [i Hi]. apply (blast_lookup _ _ i); [rewrite home_keys; apply Hg|].
    unfold home_writes. by rewrite list_lookup_fmap, Hi.
  - rewrite blast_ne by (by rewrite home_keys). by rewrite Hv, Hx.
Qed.

Lemma crash_during j : recovers start (blast (blast dsk (L ++ [(start, hdr)])) (take j H)) vals.
Proof.
  pose proof crash_len as Hl. pose proof (crash_out _ crash_start) as Hs. pose proof (loggable_len _ _ Hg).
  set (x := blast dsk (L ++ [(start, hdr)])).
  assert (x start = hdr) as Hx by (unfold x; rewrite blast_app; cbn; by rewrite fn_lookup_insert).
  eapply recovers_ext, (recovers_logged start bl _ vals); rewrite ?crash_home, ?Hx by done; try done.
  - intros b Hb. rewrite blast_redo by (rewrite home_keys; apply Hg). apply crash_value; [done|].
    intros y Hy. unfold x. rewrite blast_app. cbn. rewrite fn_lookup_insert_ne by (by intros <-; apply Hy, crash_start).
    rewrite <- (firstn_all L). apply crash_log. unfold in_log in Hy. lia.
  - by apply length_put_head.
  - by apply put_head_n.
  - by apply put_head_list.
  - intros k b Hk. pose proof (lookup_lt_Some _ _ _ Hk). rewrite crash_home by (apply crash_out; unfold in_log; lia).
    unfold x. rewrite blast_app. cbn. rewrite fn_lookup_insert_ne by lia. by apply logged_lookup.
Qed.

Lemma crash_after : recovers start (blast dsk (commit_writes vals start bl (dsk start))) vals.
Proof.
  pose proof crash_len as Hl. unfold commit_writes. rewrite (app_assoc L), blast_app, blast_app. cbn [blast foldl fst snd].
  destruct (crash_during (length bl)) as (_ & _ & _ & Hf).
  eapply recovers_ext, recovers_empty; [|apply (lo_start _ _ Hg)|..]; rewrite ?fn_lookup_insert.
  - intros b Hb. rewrite fn_lookup_insert_ne by (by intros <-; apply Hb, crash_start). apply crash_value; [done|].
    intros y Hy. rewrite blast_app. cbn. rewrite fn_lookup_insert_ne by (by intros <-; apply Hy, crash_start).
    rewrite <- (firstn_all L). apply crash_log. unfold in_log in Hy. lia.
  - apply (put_head_n [] hdr); [by apply length_put_head|apply Nat.le_0_l].
  - apply put_head_nil_length. by apply length_put_head.
Qed.

Lemma recovers_commit k :
  recovers start (blast dsk (take k (commit_writes vals start bl (dsk start))))
    (if decide (k <= length bl)%nat then dsk else vals).
Proof.
  assert (length L = length bl) as HL by (unfold log_writes; apply length_imap).
  assert (length H = length bl) as HH by (unfold home_writes; apply length_map).
  case_decide.
  - unfold commit_writes. rewrite take_app_le by lia. apply crash_before.
  - destruct (decide (k <= 1 + 2 * length bl)%nat).
    + unfold commit_writes. rewrite (app_assoc L), take_app_ge by (rewrite length_app; cbn; lia).
      rewrite length_app, HL. cbn [length]. rewrite take_app_le by lia. rewrite (blast_app _ (L ++ _)). apply crash_during.
    + rewrite firstn_all2; [apply crash_after|]. unfold commit_writes. rewrite !length_app. cbn. lia.
Qed.
End crash.
(** *** Transactions *)

Lemma absorb_run s start bl bno n k :
  log_lists s start bl -> (k <= length bl < k + n)%nat -> bno ∉ take k bl ->
  exists j, absorb n (Z.of_nat k) bno s = Done (Z.of_nat j) s
    /\ (bl !! j = Some bno \/ j = length bl /\ bno ∉ bl).
Proof.
  intros Hl. revert k. induction n as [|n IH]; intros k Hk Hn; [lia|]. cbn [absorb]. unfold get_n, get_log. kstep.
  rewrite (ll_n _ _ _ Hl). destruct (Z.ltb_spec (Z.of_nat k) (Z.of_nat (length bl))) as [Hlt|Hge].
  - destruct (lookup_lt_is_Some_2 bl k) as [b Hb]; [lia|]. krun (get_lhblock_run s start bl k b Hl Hb).
    destruct (Z.eqb_spec b bno) as [->|Hne]; [by exists k; auto|].
    replace (Z.of_nat k + 1) with (Z.of_nat (S k)) by lia. apply IH; [lia|].
    rewrite (take_S_r _ _ _ Hb). set_solver.
  - exists k. split; [done|]. right. assert (k = length bl) as -> by lia. by rewrite firstn_all in Hn.
Qed.

Lemma log_write_run s pid dsk view held dirty start bno i :
  cache_ok s pid dsk view held dirty -> log_lists s start dirty -> (bno, i) ∈ held ->
  1 <= lg_outstanding (k_log s) -> Z.of_nat (length dirty) < LOGSIZE ->
  Z.of_nat (length dirty) < lg_size (k_log s) - 1 ->
  exists h, let s' := s <| k_log ::= fun l => l <| lg_lh := h |> |>
                        <| k_bufs ::= alter (fun b => b <| b_flags ::= fun f => Z.lor f B_DIRTY |>) i |> in
    let dirty' := if decide (bno ∈ dirty) then dirty else dirty ++ [bno] in
    log_write i s = Done tt s' /\ cache_ok s' pid dsk view held dirty' /\ log_lists s' start dirty'.
Proof.
  intros Hs Hl Hin Hout Hlen Hsize. pose proof Hl as [H1 H2 H3 H4 H5].
  destruct (calm_section s pid L_log (proj1 Hs) I) as (h & Ha & _ & _ & _ & Hrel).
  set (s1 := s <| k_hw := h |>).
  destruct (held_buf _ _ _ _ _ _ _ _ bno i (proj2 Hs) Hin) as (bf & _ & Hbf & _ & Gb & _).
  pose proof (get_buf_run s1 i bf Hbf) as G1.
  assert (log_lists s1 start dirty) as Hl1 by (by apply (log_lists_eq s)).
  destruct (absorb_run s1 start dirty bno (S (Z.to_nat LOGSIZE)) 0 Hl1) as (j & A & Hj); [lia|set_solver|].
  assert (j < Z.to_nat LOGSIZE)%nat as Hjl.
  { destruct Hj as [Hj|[-> _]]; [apply lookup_lt_Some in Hj|]; lia. }
  set (lh := lg_lh (k_log s)).
  exists (Logheader (if decide (j = length dirty) then 1 + lh_n lh else lh_n lh) (<[j := bno]> (lh_block lh))).
  intros s' dirty'. split_and!.
  - unfold log_write, get_log. kstep. rewrite H3, (proj2 (Z.leb_gt _ _)), (proj2 (Z.leb_gt _ _)) by done. cbn [orb].
    rewrite (proj2 (Z.ltb_ge _ _)) by done. krun Ha. krun G1. rewrite Gb. kapply A.
    set (s2 := s1 <| k_log ::= fun l => l <| lg_lh ::= fun h => h <| lh_block ::= <[j := bno]> |> |> |>).
    erewrite (bind_done _ _ _ tt s2); cycle 1.
    { unfold set_lhblock, get_log. kstep. unfold in_array. change (k_log s1) with (k_log s). rewrite H4.
      rewrite (proj2 (Z.leb_le _ _)), (proj2 (Z.ltb_lt _ _)) by lia. cbn [andb]. by rewrite Nat2Z.id. }
    cbv beta. unfold get_n, get_log. kstep. change (lh_n (lg_lh (k_log s2))) with (lh_n lh). unfold lh. rewrite H3.
    erewrite (bind_done _ _ _ tt (s1 <| k_log ::= fun l => l <| lg_lh :=
      Logheader (if decide (j = length dirty) then 1 + lh_n lh else lh_n lh) (<[j := bno]> (lh_block lh)) |> |>)); cycle 1.
    { case_decide as Hd.
      - by rewrite (proj2 (Z.eqb_eq _ _)) by lia.
      - rewrite (proj2 (Z.eqb_neq _ _)) by lia. done. }
    cbv beta. kstep. rewrite Hrel by done. unfold s', s1. by destruct s.
  - by apply (pin_ok s pid dsk view held dirty bno i).
  - unfold dirty'. destruct Hj as [Hj|[-> Hn]].
    + pose proof (list_elem_of_lookup_2 _ _ _ Hj). pose proof (lookup_lt_Some _ _ _ Hj).
      rewrite decide_True by done. split; cbn; try done.
      * by rewrite decide_False by lia.
      * by rewrite length_insert.
      * rewrite list_insert_id; [done|]. rewrite <- H5 in Hj. by apply lookup_take_Some in Hj as [? _].
    + rewrite decide_False by done. split; cbn; try done.
      * rewrite decide_True by done. rewrite length_app. cbn. unfold lh. lia.
      * by rewrite length_insert.
      * rewrite length_app. cbn. rewrite Nat.add_1_r, (take_S_r _ _ bno) by (apply list_lookup_insert_eq; unfold lh; lia).
        by rewrite take_insert_ge by lia; fold lh in H5; rewrite H5.
Qed.
Lemma begin_op_run s pid :
  calm (k_hw s) (k_ptable s) pid -> lg_committing (k_log s) = 0 ->
  lh_n (lg_lh (k_log s)) + (lg_outstanding (k_log s) + 1) * MAXOPBLOCKS <= LOGSIZE ->
  begin_op s = Done tt (s <| k_log ::= fun l => l <| lg_outstanding ::= Z.add 1 |> |>).
Proof.
  intros Hc Hcom Hfit. destruct (calm_section s pid L_log Hc I) as (h & Ha & _ & _ & _ & Hrel).
  unfold begin_op. krun Ha. apply loop_leave; [apply Hc|]. unfold get_log. kstep.
  change (k_log (s <| k_hw := h |>)) with (k_log s). rewrite Hcom. cbv [nz Z.eqb negb].
  rewrite (proj2 (Z.ltb_ge _ _)) by done. kstep. kapply Hrel. by destruct s.
Qed.

Lemma begin_op_waits s i c p pr :
  (0 < fuel)%nat -> runs_on (k_hw s) i c -> c_ncli c = 0 -> c_proc c = Some p -> k_ptable s !! p = Some pr ->
  lock_free (k_hw s) L_log -> lock_free (k_hw s) L_ptable ->
  ~ (lg_committing (k_log s) = 0
     /\ lh_n (lg_lh (k_log s)) + (lg_outstanding (k_log s) + 1) * MAXOPBLOCKS <= LOGSIZE) ->
  exists h k, begin_op s =
    Yield Y_sched (s <| k_hw := h |> <| k_ptable ::= alter (asleep CH_log) p |>) k.
Proof.
  intros Hf Hr Hn Hc Hp Hl Hpl Hnot. unfold begin_op. krun (acquire_run s i c L_log Hf Hr Hl).
  set (s1 := s <| k_hw ::= enter i L_log |>).
  pose proof (enter_runs_on _ _ _ L_log Hr) as Hr1.
  assert (L_log <> L_ptable) as Hne by discriminate.
  pose proof (sleep_run s1 i (push_cpu (eflags_of (k_hw s)) c) p pr CH_log L_log Hf Hne Hr1
    ltac:(cbn; lia) Hc Hp (enter_held _ _ _) (enter_free _ _ _ _ Hne Hpl)) as Hs.
  cbv zeta in Hs. change (k_hw s1) with (enter i L_log (k_hw s)) in Hs.
  destruct fuel as [|n]; [lia|]. cbn [loop]. eexists _, _. erewrite bind_yield; [reflexivity|].
  unfold get_log. kstep. change (k_log s1) with (k_log s).
  destruct (nz (lg_committing (k_log s))) eqn:Hcom; [by erewrite bind_yield by exact Hs|].
  apply nz_false in Hcom. destruct (Z.ltb_spec LOGSIZE
    (lh_n (lg_lh (k_log s)) + (lg_outstanding (k_log s) + 1) * MAXOPBLOCKS)) as [Hlt|Hge]; [|tauto].
  by erewrite bind_yield by exact Hs.
Qed.

(** The critical section at the end of [end_op]. *)
Lemma committed_run s pid :
  calm (k_hw s) (k_ptable s) pid ->
  (acquire L_log ;; upd_log (fun l => l <| lg_committing := 0 |>) ;; wakeup CH_log ;; release L_log) s
  = Done tt (s <| k_log ::= fun l => l <| lg_committing := 0 |> |>).
Proof.
  intros Hc. destruct (calm_section s pid L_log Hc I) as (h & Ha & Hh & Ho & _ & Hrel). krun Ha. kstep.
  set (s1 := s <| k_log ::= fun l => l <| lg_committing := 0 |> |>).
  change (set k_log _ (s <| k_hw := h |>)) with (s1 <| k_hw := h |>).
  erewrite bind_done by (apply (calm_wakeup s1 pid CH_log Hc I h Hh); by apply Ho).
  cbv beta. rewrite Hrel by done. unfold s1. by destruct s.
Qed.

Lemma commit_nil s start : log_lists s start [] -> commit s = Done tt s.
Proof. intros Hl. unfold commit, get_n, get_log. kstep. by rewrite (ll_n _ _ _ Hl). Qed.

Lemma transaction_value view start bl x b :
  ~ in_log start b -> loggable start bl ->
  blast x (transaction_writes view start bl) b = if decide (b ∈ bl) then view b else x b.
Proof.
  intros Hb Hg. pose proof (loggable_len _ _ Hg) as Hll. unfold in_log in Hb.
  assert (blast x (commit_writes view start bl (view start)) b = if decide (b ∈ bl) then view b else x b) as H.
  { unfold commit_writes. rewrite !blast_app. cbn. rewrite fn_lookup_insert_ne by lia. case_decide as Hin.
    - apply list_elem_of_lookup in Hin as [k Hk]. apply (blast_lookup _ _ k); [rewrite home_keys; apply Hg|].
      unfold home_writes. by rewrite list_lookup_fmap, Hk.
    - rewrite blast_ne by (by rewrite home_keys). rewrite fn_lookup_insert_ne by lia.
      apply blast_ne. intros Hk%log_writes_keys. lia. }
  destruct bl; [done|exact H].
Qed.

Lemma end_op_last s pid dsk view start bl :
  cache_ok s pid dsk view [] bl -> log_lists s start bl -> loggable start bl ->
  lg_outstanding (k_log s) = 1 -> lg_committing (k_log s) = 0 ->
  let W := transaction_writes view start bl in
  exists s', end_op s = Done tt s' /\ cache_ok s' pid (blast dsk W) (blast view W) [] []
    /\ log_lists s' start [] /\ k_writes s' = k_writes s ++ map dev1 W
    /\ cache_frame (cleared s <| k_log ::= fun l => l <| lg_outstanding := 0 |> |>) s'.
Proof.
  intros Hs Hl Hg Hout Hcom W. destruct (calm_section s pid L_log (proj1 Hs) I) as (h & Ha & _ & _ & _ & Hrel).
  set (s1 := s <| k_log ::= fun l => l <| lg_outstanding := 0 |> <| lg_committing := 1 |> |>).
  assert (exists s2, commit s1 = Done tt s2 /\ cache_ok s2 pid (blast dsk W) (blast view W) [] []
    /\ log_lists s2 start [] /\ k_writes s2 = k_writes s ++ map dev1 W /\ cache_frame (cleared s1) s2)
    as (s2 & R & C & L2 & Wr & F).
  { assert (log_lists s1 start bl) as Hl1 by (by destruct Hl).
    destruct bl as [|b bl'].
    - exists s1. split_and!; [by eapply commit_nil|done|done|by rewrite app_nil_r|].
      replace (cleared s1) with s1; [apply cache_frame_refl|]. destruct Hl1 as [_ _ Hn _ _]. cbn in Hn.
      unfold s1, cleared. rewrite set_set. symmetry. apply set_ext. destruct (k_log s) as [? ? ? ? ? [n ?]]. cbn in *. by subst n.
    - by apply (commit_run s1 pid dsk view start (b :: bl')). }
  exists (s2 <| k_log ::= fun l => l <| lg_committing := 0 |> |>). split_and!; [| |by destruct L2|done|].
  - unfold end_op. krun Ha. kstep. unfold get_log. kstep. set (s0 := set k_log _ _).
    change (lg_committing (k_log s0)) with (lg_committing (k_log s)).
    change (lg_outstanding (k_log s0)) with (lg_outstanding (k_log s) - 1). rewrite Hcom, Hout. cbv [nz Z.eqb negb].
    erewrite (bind_done _ _ _ true (s1 <| k_hw := h |>)).
    2:{ change (1 - 1) with 0. cbv match. erewrite bind_done; [|done]. unfold mret, M_ret. f_equal. unfold s0. rewrite set_set.
        transitivity (s <| k_hw := h |> <| k_log ::= fun l => l <| lg_outstanding := 0 |> <| lg_committing := 1 |> |>);
          [|done]. apply set_ext. cbn. by rewrite Hout. }
    cbv beta. kapply Hrel. rewrite set_set, (set_fix k_hw) by done.
    unfold when. kapply R. apply (committed_run s2 pid). apply C.
  - apply C.
  - destruct F as [F FL]. split; [|exact FL]. rewrite F at 1. unfold s1. clear -Hcom. destruct s as [? ? ? ? ? ? ? ? ? ? ? ? ? ? ? ? ? ? ? ? ? ? ? [] ? ? ? ? ?]. cbn in *. by subst.
Qed.
End rules.

(** ** Properties *)

Section properties.
Context {E : Env} {D : Disk} `{!DiskLaws D}.

(** C1: a commit is atomic over crashes.  [commit] writes the logged blocks, in an
    order in which a crash after any number [k] of the writes, followed by any number
    of crashed recoveries ([m] writes into one), is repaired by [recover_from_log]:
    it returns, and on disk every block outside the log has its old content (before
    the header is written) or its new one (from then on). *)
Theorem commit_crash_atomic s pid dsk view start bl :
  cache_ok s pid dsk view [] bl -> log_lists s start bl -> loggable start bl -> bl <> [] ->
  Forall (fun b => 0 <= b < 2147483648) bl ->
  hd_n (dsk start) = 0 -> length (dsk start) = Z.to_nat BSIZE ->
  exists s' ws, commit s = Done tt s' /\ k_writes s' = k_writes s ++ map dev1 ws
    /\ cache_ok s' pid (blast dsk ws) (blast view ws) [] [] /\ log_lists s' start []
    /\ forall k m s2 pid2,
      let d1 := blast dsk (take k ws) in
      let d2 := blast d1 (take m (recover_writes d1 start)) in
      cache_ok s2 pid2 d2 d2 [] [] -> log_lists s2 start [] ->
      exists s3 d3, recover_from_log s2 = Done tt s3 /\ cache_ok s3 pid2 d3 d3 [] [] /\ log_lists s3 start []
        /\ k_writes s3 = k_writes s2 ++ map dev1 (recover_writes d2 start)
        /\ forall b, ~ in_log start b -> d3 b = if decide (k <= length bl)%nat then dsk b else view b.
Proof.
  intros Hs Hl Hg Hne H32 Hn Hlen. destruct (commit_run s pid dsk view start bl Hs Hl Hg Hne) as (s' & R & C & L' & W & _).
  assert (forall b, b ∉ bl -> view b = dsk b) as Hv by (intros b Hb; eapply cache_sync; [done|done|set_solver]).
  exists s', (commit_writes view start bl (view start)). do 4 (split; [done|]).
  rewrite Hv by (eapply crash_out, crash_start; done). intros k m s2 pid2 d1 d2 Hs2 [H1 H2 H3 H4 H5].
  destruct (recovers_again start d1 _ m (recovers_commit start bl dsk view Hg H32 Hn Hlen Hv k)) as (_ & Hhn & Hgg & Hf).
  destruct (recover_run s2 pid2 d2 start Hs2 H1 H2 H4 Hhn Hgg) as (s3 & R3 & C3 & L3 & W3 & _).
  exists s3, (recover_disk d2 start). split_and!; [done..|]. intros b Hb. etrans; [apply (Hf b Hb)|]. by case_decide.
Qed.

(** C19: [end_op] of the last outstanding operation commits.  It returns with an empty
    log and no operation outstanding; every block outside the log then has on disk the
    content the cache had for it, and what the cache shows is unchanged. *)
Theorem end_op_commits s pid dsk view start bl :
  cache_ok s pid dsk view [] bl -> log_lists s start bl -> loggable start bl ->
  lg_outstanding (k_log s) = 1 -> lg_committing (k_log s) = 0 ->
  exists s' dsk' view', end_op s = Done tt s' /\ cache_ok s' pid dsk' view' [] [] /\ log_lists s' start []
    /\ lg_outstanding (k_log s') = 0 /\ lg_committing (k_log s') = 0
    /\ forall b, ~ in_log start b -> dsk' b = view b /\ view' b = view b.
Proof.
  intros Hs Hl Hg Hout Hcom.
  destruct (end_op_last s pid dsk view start bl Hs Hl Hg Hout Hcom) as (s' & R & C & L & _ & F).
  eexists s', _, _. do 3 (split; [done|]). rewrite (cache_frame_log _ _ F). do 2 (split; [done|]).
  intros b Hb. rewrite !transaction_value by done. case_decide as Hin; [done|].
  split; [symmetry; eapply cache_sync; [done|done|set_solver]|done].
Qed.

(** [log_write] records a block once.  Inside an operation with room in the log
    it returns with the block pinned in the cache and listed in the log header, at its
    old place when it was listed before (absorption), at the end otherwise; it panics
    when the log is full or no operation is outstanding. *)
Theorem log_write_absorbs s pid dsk view held dirty start bno i :
  cache_ok s pid dsk view held dirty -> log_lists s start dirty -> (bno, i) ∈ held ->
  let n := Z.of_nat (length dirty) in
  if (n <? LOGSIZE) && (n <? lg_size (k_log s) - 1) then
    if 1 <=? lg_outstanding (k_log s) then
      exists s', log_write i s = Done tt s'
        /\ let dirty' := if decide (bno ∈ dirty) then dirty else dirty ++ [bno] in
           cache_ok s' pid dsk view held dirty' /\ log_lists s' start dirty'
    else log_write i s = Stop (Panicked "log_write outside of trans") s
  else log_write i s = Stop (Panicked "too big a transaction") s.
Proof.
  intros Hs Hl Hin n. destruct (Z.ltb_spec n LOGSIZE) as [H1|H1]; cycle 1.
  { cbn. unfold log_write, get_log. kstep. by rewrite (ll_n _ _ _ Hl), (proj2 (Z.leb_le _ _)). }
  destruct (Z.ltb_spec n (lg_size (k_log s) - 1)) as [H2|H2]; cycle 1.
  { cbn. unfold log_write, get_log. kstep.
    by rewrite (ll_n _ _ _ Hl), (proj2 (Z.leb_gt _ _)), (proj2 (Z.leb_le (lg_size (k_log s) - 1) _)). }
  cbn [andb]. destruct (Z.leb_spec 1 (lg_outstanding (k_log s))) as [H3|H3].
  - destruct (log_write_run s pid dsk view held dirty start bno i Hs Hl Hin H3 H1 H2) as (h & R & C & L).
    eexists. split; [exact R|]. by split.
  - unfold log_write, get_log. kstep. rewrite (ll_n _ _ _ Hl), !(proj2 (Z.leb_gt _ _)) by done. cbn [orb].
    by rewrite (proj2 (Z.ltb_lt _ _)).
Qed.

(** [begin_op] reserves log space.  It lets an operation start at once exactly
    when no commit runs and the blocks logged so far, with [MAXOPBLOCKS] for every
    outstanding operation and the new one, fit the log; otherwise the process sleeps
    on the log with the log unchanged. *)
Theorem begin_op_reserves s pid i c p pr :
  calm (k_hw s) (k_ptable s) pid -> runs_on (k_hw s) i c -> c_ncli c = 0 -> c_proc c = Some p ->
  k_ptable s !! p = Some pr ->
  let l := k_log s in
  if (lg_committing l =? 0) && (lh_n (lg_lh l) + (lg_outstanding l + 1) * MAXOPBLOCKS <=? LOGSIZE)
  then begin_op s = Done tt (s <| k_log ::= fun l => l <| lg_outstanding ::= Z.add 1 |> |>)
  else exists h k, begin_op s = Yield Y_sched (s <| k_hw := h |> <| k_ptable ::= alter (asleep CH_log) p |>) k.
Proof.
  intros Hc Hr Hn Hcp Hp l. destruct (_ && _) eqn:Hb.
  - rewrite andb_true_iff, Z.eqb_eq, Z.leb_le in Hb. destruct Hb. by apply (begin_op_run s pid).
  - rewrite andb_false_iff, Z.eqb_neq, Z.leb_gt in Hb.
    apply (begin_op_waits s i c p pr (cm_fuel _ _ _ Hc) Hr Hn Hcp Hp (cm_free _ _ _ Hc L_log I)
      (cm_free _ _ _ Hc L_ptable I)). subst l. lia.
Qed.
End properties.
