(* ===== verification/Inode.v ===== *)
(** The lower half of fs.c: block allocation and inodes.

    An inode pointer is an index in [icache.inode].  The on-disk inodes and the
    free-block bitmap are fields of the data of their blocks, at the offsets the
    structs of fs.h give them. *)
From S2P Require Import Prelude Kernel Spinlock Console CString Kalloc Proc Sleeplock Disk Bytes Bio Log.

(** ** fs.h *)

(** [sizeof(struct dinode)] *)
Definition DINODE_SIZE : Z := 64.
Definition IPB : Z := BSIZE / DINODE_SIZE.
Definition IBLOCK (i : Z) (sb : superblock) : Z := i / IPB + sb_inodestart sb.
Definition BPB : Z := BSIZE * 8.
Definition BBLOCK (b : Z) (sb : superblock) : Z := b / BPB + sb_bmapstart sb.

(** [struct dinode], at offset [o] of a block. *)
Record dinode := Dinode {
  d_type : Z; d_major : Z; d_minor : Z; d_nlink : Z; d_size : Z; d_addrs : list Z
}.
Definition get_dinode (b : block) (o : nat) : dinode :=
  Dinode (i16 (get16 b o)) (i16 (get16 b (o + 2))) (i16 (get16 b (o + 4))) (i16 (get16 b (o + 6)))
    (get32 b (o + 8)) (map (fun i => get32 b (o + 12 + 4 * i)) (seq 0 13)).
Definition set_addrs (b : block) (o : nat) (l : list Z) : block :=
  foldl (fun b w => set32 b (o + 12 + 4 * w.1) w.2) b (imap pair l).
Definition set_dinode (b : block) (o : nat) (d : dinode) : block :=
  set_addrs (set32 (set16 (set16 (set16 (set16 b o (d_type d)) (o + 2) (d_major d)) (o + 4) (d_minor d))
    (o + 6) (d_nlink d)) (o + 8) (d_size d)) o (d_addrs d).
(** [(struct dinode* )bp->data + inum%IPB] *)
Definition dinode_off (inum : Z) : nat := Z.to_nat (inum mod IPB * DINODE_SIZE).

Section inode.
Context {E : Env} {D : Disk}.

(** [bp->data] *)
Definition get_data (bp : nat) : K block := b ← get_buf bp ; mret (b_data b).
Definition upd_data (bp : nat) (f : block -> block) : K unit := upd_buf bp (fun b => b <| b_data ::= f |>).

(** ** Blocks *)

Definition bzero (dev bno : Z) : K unit :=
  bp ← bread dev bno ;
  upd_data bp (fun _ => zero_block) ;;
  log_write bp ;;
  brelse bp.

(** Bit [bi] of a bitmap block: the byte that holds it, and the mask [1 << (bi % 8)]. *)
Definition bit_byte (bi : Z) : nat := Z.to_nat (bi / 8).
Definition bit_mask (bi : Z) : Z := Z.shiftl 1 (bi mod 8).
Definition bit_set (d : block) (bi : Z) : bool := nz (Z.land (get8 d (bit_byte bi)) (bit_mask bi)).

Definition balloc (dev : Z) : K Z :=
  sb ← gets k_sb ;
  o ← for_find (map (Z.mul BPB) (seqZ 0 ((sb_size sb + BPB - 1) / BPB))) (fun b =>
    bp ← bread dev (BBLOCK b sb) ;
    o ← for_find (seqZ 0 (Z.min BPB (sb_size sb - b))) (fun bi =>
      d ← get_data bp ;
      mret (if negb (bit_set d bi) then Some bi else None)) ;
    match o with
    | Some bi =>
        upd_data bp (fun d => set8 d (bit_byte bi) (Z.lor (get8 d (bit_byte bi)) (bit_mask bi))) ;;
        log_write bp ;;
        brelse bp ;;
        bzero dev (b + bi) ;;
        mret (Some (b + bi))
    | None => brelse bp ;; mret None
    end) ;
  match o with Some r => mret r | None => panic "balloc: out of blocks" end.

Definition bfree (dev b : Z) : K unit :=
  sb ← readsb dev ;
  modify (fun s => s <| k_sb := sb |>) ;;
  bp ← bread dev (BBLOCK b sb) ;
  let bi := b mod BPB in
  d ← get_data bp ;
  if negb (bit_set d bi) then panic "freeing free block" else
  upd_data bp (fun d => set8 d (bit_byte bi) (Z.land (get8 d (bit_byte bi)) (Z.lnot (bit_mask bi)))) ;;
  log_write bp ;;
  brelse bp.

(** ** Inodes *)

Definition get_inode (ip : nat) : K inode := l ← gets k_icache ; deref "inode" (l !! ip).
Definition upd_inode (ip : nat) (f : inode -> inode) : K unit :=
  modify (fun s => s <| k_icache ::= alter f ip |>).

Definition iinit (dev : Z) : K unit :=
  initlock L_icache "icache" ;;
  for_each (seq 0 NINODE) (fun i => initsleeplock (SL_inode i) "inode") ;;
  sb ← readsb dev ;
  modify (fun s => s <| k_sb := sb |>) ;;
  cprintf "sb: size %d nblocks %d ninodes %d nlog %d logstart %d inodestart %d bmap start %d
"
    [AInt (sb_size sb); AInt (sb_nblocks sb); AInt (sb_ninodes sb); AInt (sb_nlog sb);
     AInt (sb_logstart sb); AInt (sb_inodestart sb); AInt (sb_bmapstart sb)].

(** The loop of [iget]: the entry that caches the inode, or else the first free one. *)
Fixpoint iget_scan (l : list nat) (dev inum : Z) (empty : option nat) : K (nat + option nat) :=
  match l with
  | [] => mret (inr empty)
  | ip :: l' =>
      i ← get_inode ip ;
      if (0 <? i_ref i) && (i_dev i =? dev) && (i_inum i =? inum) then mret (inl ip)
      else
        let empty := match empty with
                     | None => if i_ref i =? 0 then Some ip else None
                     | Some e => Some e
                     end in
        iget_scan l' dev inum empty
  end.

Definition iget (dev inum : Z) : K nat :=
  acquire L_icache ;;
  o ← iget_scan (seq 0 NINODE) dev inum None ;
  match o with
  | inl ip =>
      upd_inode ip (fun i => i <| i_ref ::= Z.add 1 |>) ;;
      release L_icache ;;
      mret ip
  | inr None => panic "iget: no inodes"
  | inr (Some ip) =>
      upd_inode ip (fun i => i <| i_dev := dev |>) ;;
      upd_inode ip (fun i => i <| i_inum := inum |>) ;;
      upd_inode ip (fun i => i <| i_ref := 1 |>) ;;
      upd_inode ip (fun i => i <| i_valid := 0 |>) ;;
      release L_icache ;;
      mret ip
  end.

Definition ialloc (dev type : Z) : K nat :=
  sb ← gets k_sb ;
  o ← for_find (seqZ 1 (sb_ninodes sb - 1)) (fun inum =>
    bp ← bread dev (IBLOCK inum sb) ;
    let o := dinode_off inum in
    d ← get_data bp ;
    if d_type (get_dinode d o) =? 0 then
      upd_data bp (fun d => splice o (replicate (Z.to_nat DINODE_SIZE) 0) d) ;;
      upd_data bp (fun d => set16 d o type) ;;
      log_write bp ;;
      brelse bp ;;
      ip ← iget dev inum ;
      mret (Some ip)
    else brelse bp ;; mret None) ;
  match o with Some ip => mret ip | None => panic "ialloc: no inodes" end.

Definition iupdate (ip : nat) : K unit :=
  i ← get_inode ip ;
  sb ← gets k_sb ;
  bp ← bread (i_dev i) (IBLOCK (i_inum i) sb) ;
  i ← get_inode ip ;
  upd_data bp (fun d => set_dinode d (dinode_off (i_inum i))
    (Dinode (i_type i) (i_major i) (i_minor i) (i_nlink i) (i_size i) (i_addrs i))) ;;
  log_write bp ;;
  brelse bp.

Definition idup (ip : nat) : K nat :=
  acquire L_icache ;;
  upd_inode ip (fun i => i <| i_ref ::= Z.add 1 |>) ;;
  release L_icache ;;
  mret ip.

(** A null pointer is [None]. *)
Definition ilock (o : option nat) : K unit :=
  match o with
  | None => panic "ilock"
  | Some ip =>
      i ← get_inode ip ;
      if i_ref i <? 1 then panic "ilock" else
      acquiresleep (SL_inode ip) ;;
      i ← get_inode ip ;
      when (i_valid i =? 0)
        (sb ← gets k_sb ;
         bp ← bread (i_dev i) (IBLOCK (i_inum i) sb) ;
         d ← get_data bp ;
         let di := get_dinode d (dinode_off (i_inum i)) in
         upd_inode ip (fun i => i <| i_type := d_type di |>) ;;
         upd_inode ip (fun i => i <| i_major := d_major di |>) ;;
         upd_inode ip (fun i => i <| i_minor := d_minor di |>) ;;
         upd_inode ip (fun i => i <| i_nlink := d_nlink di |>) ;;
         upd_inode ip (fun i => i <| i_size := d_size di |>) ;;
         upd_inode ip (fun i => i <| i_addrs := d_addrs di |>) ;;
         brelse bp ;;
         upd_inode ip (fun i => i <| i_valid := 1 |>) ;;
         if d_type di =? 0 then panic "ilock: no type" else mret tt)
  end.

Definition iunlock (o : option nat) : K unit :=
  match o with
  | None => panic "iunlock"
  | Some ip =>
      h ← holdingsleep (SL_inode ip) ;
      if negb h then panic "iunlock" else
      i ← get_inode ip ;
      if i_ref i <? 1 then panic "iunlock" else
      releasesleep (SL_inode ip)
  end.

(** ** Content *)

(** [ip->addrs[i]] *)
Definition get_addr (ip i : nat) : K Z := n ← get_inode ip ; deref "ip->addrs" (i_addrs n !! i).
Definition set_addr (ip i : nat) (a : Z) : K unit := upd_inode ip (fun n => n <| i_addrs ::= <[i := a]> |>).

Definition bmap (ip : nat) (bn : Z) : K Z :=
  if bn <? NDIRECT then
    addr ← get_addr ip (Z.to_nat bn) ;
    if addr =? 0 then
      i ← get_inode ip ;
      addr ← balloc (i_dev i) ;
      set_addr ip (Z.to_nat bn) addr ;;
      mret addr
    else mret addr
  else
  let bn := bn - NDIRECT in
  if bn <? NINDIRECT then
    i ← get_inode ip ;
    addr ← get_addr ip (Z.to_nat NDIRECT) ;
    addr ← (if addr =? 0 then
              addr ← balloc (i_dev i) ;
              set_addr ip (Z.to_nat NDIRECT) addr ;;
              mret addr
            else mret addr) ;
    bp ← bread (i_dev i) addr ;
    d ← get_data bp ;
    let addr := get32 d (Z.to_nat (4 * bn)) in
    addr ← (if addr =? 0 then
              addr ← balloc (i_dev i) ;
              upd_data bp (fun d => set32 d (Z.to_nat (4 * bn)) addr) ;;
              log_write bp ;;
              mret addr
            else mret addr) ;
    brelse bp ;;
    mret addr
  else panic "bmap: out of range".

Definition itrunc (ip : nat) : K unit :=
  for_each (seq 0 (Z.to_nat NDIRECT)) (fun i =>
    a ← get_addr ip i ;
    when (nz a)
      (n ← get_inode ip ;
       bfree (i_dev n) a ;;
       set_addr ip i 0)) ;;
  a ← get_addr ip (Z.to_nat NDIRECT) ;
  when (nz a)
    (n ← get_inode ip ;
     bp ← bread (i_dev n) a ;
     for_each (seq 0 (Z.to_nat NINDIRECT)) (fun j =>
       d ← get_data bp ;
       let aj := get32 d (4 * j) in
       when (nz aj) (bfree (i_dev n) aj)) ;;
     brelse bp ;;
     bfree (i_dev n) a ;;
     set_addr ip (Z.to_nat NDIRECT) 0) ;;
  upd_inode ip (fun i => i <| i_size := 0 |>) ;;
  iupdate ip.

Definition iput (ip : nat) : K unit :=
  acquiresleep (SL_inode ip) ;;
  i ← get_inode ip ;
  when (nz (i_valid i) && (i_nlink i =? 0))
    (acquire L_icache ;;
     i ← get_inode ip ;
     let r := i_ref i in
     release L_icache ;;
     when (r =? 1)
       (itrunc ip ;;
        upd_inode ip (fun i => i <| i_type := 0 |>) ;;
        iupdate ip ;;
        upd_inode ip (fun i => i <| i_valid := 0 |>))) ;;
  releasesleep (SL_inode ip) ;;
  acquire L_icache ;;
  upd_inode ip (fun i => i <| i_ref ::= fun r => r - 1 |>) ;;
  release L_icache.

Definition iunlockput (ip : nat) : K unit :=
  iunlock (Some ip) ;;
  iput ip.

(** [struct stat] *)
Record stat := Stat { st_type : Z; st_dev : Z; st_ino : Z; st_nlink : Z; st_size : Z }.

Definition stati (ip : nat) : K stat :=
  i ← get_inode ip ;
  mret (Stat (i_type i) (i_dev i) (i_inum i) (i_nlink i) (i_size i)).

End inode.

(** ** Inodes in blocks *)

(** The words [l] stored at [base + 4 * k] and on. *)
Definition set_words (base : nat) (b : block) (k : nat) (l : list Z) : block :=
  foldl (fun b w => set32 b (base + 4 * w.1) w.2) b (imap (fun i x => ((k + i)%nat, x)) l).

Lemma set_words_cons base b k x l :
  set_words base b k (x :: l) = set_words base (set32 b (base + 4 * k) x) (S k) l.
Proof.
  unfold set_words. cbn [imap foldl fst snd]. rewrite Nat.add_0_r. f_equal.
  apply imap_ext. intros i y _. cbn. f_equal. lia.
Qed.

Lemma set_words_sub base b k l o n :
  (base + 4 * (k + length l) <= length b)%nat ->
  (o + n <= base + 4 * k \/ base + 4 * (k + length l) <= o)%nat ->
  sub o n (set_words base b k l) = sub o n b /\ length (set_words base b k l) = length b.
Proof.
  revert b k. induction l as [|x l IH]; intros b k Hb Ho; [done|]. cbn [length] in *. rewrite set_words_cons.
  assert (length (set32 b (base + 4 * k) x) = length b) as Hl by (apply length_set32; lia).
  destruct (IH (set32 b (base + 4 * k) x) (S k)) as [-> ->]; [rewrite Hl; lia|lia|]. split; [|done].
  unfold set32. by rewrite sub_splice_other by (rewrite length_le; lia).
Qed.

Lemma set_words_get base b k l i x :
  (base + 4 * (k + length l) <= length b)%nat -> l !! i = Some x ->
  get32 (set_words base b k l) (base + 4 * (k + i)) = u32 x.
Proof.
  revert b k i. induction l as [|y l IH]; intros b k i Hb Hi; [done|]. cbn [length] in *. rewrite set_words_cons.
  assert (length (set32 b (base + 4 * k) y) = length b) as Hl by (apply length_set32; lia).
  destruct i as [|i]; cbn in Hi.
  - simplify_eq. unfold get32. destruct (set_words_sub base (set32 b (base + 4 * k) x) (S k) l (base + 4 * (k + 0)) 4)
      as [-> _]; [rewrite Hl; lia|lia|]. rewrite Nat.add_0_r. apply get32_set32. lia.
  - replace (k + S i)%nat with (S k + i)%nat by lia. apply IH; [rewrite Hl; lia|done].
Qed.

Lemma set_addrs_words b o l : set_addrs b o l = set_words (o + 12) b 0 l.
Proof. done. Qed.

(** The values a [struct dinode] can hold. *)
Record dinode_wf (d : dinode) : Prop := DinodeWf {
  dw_shorts : Forall (fun x => -32768 <= x < 32768) [d_type d; d_major d; d_minor d; d_nlink d];
  dw_words : Forall (fun x => 0 <= x < W32) (d_size d :: d_addrs d);
  dw_addrs : length (d_addrs d) = 13%nat
}.

Lemma i16_u16 x : -32768 <= x < 32768 -> i16 (u16 x) = x.
Proof. intros H. unfold i16, u16. rewrite Zplus_mod_idemp_l, Z.mod_small; lia. Qed.

(** [b'] differs from [b] at most in the [n] bytes at [o]. *)
Definition outside (o n : nat) (b b' : block) : Prop :=
  length b' = length b /\ forall o' k, (o' + k <= o \/ o + n <= o')%nat -> sub o' k b' = sub o' k b.

Lemma outside_trans o n b b1 b2 : outside o n b b1 -> outside o n b1 b2 -> outside o n b b2.
Proof. intros [H1 H2] [H3 H4]. split; [congruence|]. intros. rewrite H4, H2 by done. done. Qed.

Lemma outside_splice o n b p v :
  (o <= p)%nat -> (p + length v <= o + n)%nat -> (p + length v <= length b)%nat -> outside o n b (splice p v b).
Proof.
  intros H1 H2 H3. split; [by apply length_splice|]. intros o' k Ho. by apply sub_splice_other; [|lia].
Qed.

(** The members of an inode, with the writes of [set_dinode] that precede each. *)
Lemma set_dinode_split b o d :
  length (d_addrs d) = 13%nat -> (o + 64 <= length b)%nat ->
  exists b1 b2 b3 b4 b5,
    b1 = set16 b o (d_type d) /\ b2 = set16 b1 (o + 2) (d_major d) /\ b3 = set16 b2 (o + 4) (d_minor d)
    /\ b4 = set16 b3 (o + 6) (d_nlink d) /\ b5 = set32 b4 (o + 8) (d_size d)
    /\ set_dinode b o d = set_words (o + 12) b5 0 (d_addrs d)
    /\ outside o 64 b b1 /\ outside (o + 2) 62 b1 b2 /\ outside (o + 4) 60 b2 b3
    /\ outside (o + 6) 58 b3 b4 /\ outside (o + 8) 56 b4 b5 /\ outside (o + 12) 52 b5 (set_dinode b o d).
Proof.
  intros Hd Hb. do 5 eexists. do 5 (split; [reflexivity|]). split; [reflexivity|].
  set (b1 := set16 b o _). assert (length b1 = length b) as H1 by (apply length_splice; cbn; lia).
  set (b2 := set16 b1 (o + 2) _). assert (length b2 = length b) as H2 by (rewrite <- H1; apply length_splice; cbn; lia).
  set (b3 := set16 b2 (o + 4) _). assert (length b3 = length b) as H3 by (rewrite <- H2; apply length_splice; cbn; lia).
  set (b4 := set16 b3 (o + 6) _). assert (length b4 = length b) as H4 by (rewrite <- H3; apply length_splice; cbn; lia).
  set (b5 := set32 b4 (o + 8) _). assert (length b5 = length b) as H5 by (rewrite <- H4; apply length_splice; cbn; lia).
  do 5 (split; [apply outside_splice; cbn; lia|]).
  change (set_dinode b o d) with (set_words (o + 12) b5 0 (d_addrs d)). split.
  - by destruct (set_words_sub (o + 12) b5 0 (d_addrs d) 0 0) as [_ ->]; [lia|lia|].
  - intros o' k Ho. apply set_words_sub; lia.
Qed.

Lemma set_dinode_outside b o d :
  length (d_addrs d) = 13%nat -> (o + 64 <= length b)%nat -> outside o 64 b (set_dinode b o d).
Proof.
  intros Hd Hb. destruct (set_dinode_split b o d Hd Hb)
    as (b1 & b2 & b3 & b4 & b5 & _ & _ & _ & _ & _ & _ & H1 & H2 & H3 & H4 & H5 & H6).
  assert (forall x n b b', (o <= x)%nat -> (x + n <= o + 64)%nat -> outside x n b b' -> outside o 64 b b') as Hw.
  { intros x n c c' Hx Hn [Hl Hs]. split; [done|]. intros o' k Ho. apply Hs. lia. }
  eapply outside_trans; [exact H1|]. eapply outside_trans; [eapply Hw; [..|exact H2]; lia|].
  eapply outside_trans; [eapply Hw; [..|exact H3]; lia|]. eapply outside_trans; [eapply Hw; [..|exact H4]; lia|].
  eapply outside_trans; [eapply Hw; [..|exact H5]; lia|]. eapply Hw; [..|exact H6]; lia.
Qed.

Lemma get_set_addrs o b l :
  length l = 13%nat -> Forall (fun x => 0 <= x < W32) l -> (o + 64 <= length b)%nat ->
  map (fun i => get32 (set_words (o + 12) b 0 l) (o + 12 + 4 * i)) (seq 0 13) = l.
Proof.
  intros Hl Hw Hb. apply list_eq. intros i. destruct (decide (i < 13)%nat) as [Hi|Hi].
  - destruct (lookup_lt_is_Some_2 l i) as [x Hx]; [lia|]. rewrite Hx. etrans; [apply list_lookup_fmap|].
    rewrite lookup_seq_lt by done. cbn [fmap option_fmap option_map]. f_equal.
    etrans; [apply (set_words_get (o + 12) b 0 l i x); [lia|done]|]. apply Z.mod_small. by eapply Forall_lookup_1 in Hw.
  - rewrite !lookup_ge_None_2; [done|lia|]. rewrite length_map, length_seq. lia.
Qed.

(** What is read back. *)
Lemma get_set_dinode b o d : dinode_wf d -> (o + 64 <= length b)%nat -> get_dinode (set_dinode b o d) o = d.
Proof.
  intros [Hs Hw Hd] Hb. destruct (set_dinode_split b o d Hd Hb)
    as (b1 & b2 & b3 & b4 & b5 & E1 & E2 & E3 & E4 & E5 & E6 & [L1 _] & [L2 H2] & [L3 H3] & [L4 H4] & [L5 H5] & [_ H6]).
  rewrite !Forall_cons in Hs. destruct Hs as (R1 & R2 & R3 & R4 & _). apply Forall_cons in Hw as [R5 R6].
  unfold get_dinode. unfold get16. rewrite !H6 by lia. unfold get32 at 1. rewrite H6 by lia.
  rewrite !H5 by lia. rewrite (H4 o), (H4 (o + 2)%nat), (H4 (o + 4)%nat) by lia. rewrite (H3 o), (H3 (o + 2)%nat) by lia.
  rewrite (H2 o) by lia. fold (get16 b1 o) (get16 b2 (o + 2)) (get16 b3 (o + 4)) (get16 b4 (o + 6)) (get32 b5 (o + 8)).
  rewrite E1 at 1. rewrite E2 at 1. rewrite E3 at 1. rewrite E4 at 1. rewrite E5 at 1.
  rewrite !get16_set16, get32_set32, !i16_u16 by (lia || done).
  unfold u32 at 1. rewrite Z.mod_small by done. rewrite E6, get_set_addrs by (lia || done). by destruct d.
Qed.

Lemma dinode_off_slot x : 0 <= x -> dinode_off x = (64 * Z.to_nat (x mod 8))%nat /\ (Z.to_nat (x mod 8) < 8)%nat.
Proof.
  intros Hx. unfold dinode_off, IPB, BSIZE, DINODE_SIZE. change (512 / 64) with 8.
  pose proof (Z.mod_pos_bound x 8). split; [|lia]. rewrite Z2Nat.inj_mul; lia.
Qed.

(** The inode written, and the others of its block. *)
Lemma dinode_same b inum d :
  length b = Z.to_nat BSIZE -> 0 <= inum -> dinode_wf d ->
  get_dinode (set_dinode b (dinode_off inum) d) (dinode_off inum) = d.
Proof.
  intros Hb Hi Hd. destruct (dinode_off_slot inum Hi) as [Ho Hn]. change (Z.to_nat BSIZE) with 512%nat in Hb.
  apply get_set_dinode; [done|lia].
Qed.

Lemma dinode_other b inum d inum' :
  length b = Z.to_nat BSIZE -> 0 <= inum -> dinode_wf d -> 0 <= inum' -> inum' mod IPB <> inum mod IPB ->
  get_dinode (set_dinode b (dinode_off inum) d) (dinode_off inum') = get_dinode b (dinode_off inum').
Proof.
  intros Hb Hi Hd Hi' Hne. destruct (dinode_off_slot inum Hi) as [Ho1 Hn1]. destruct (dinode_off_slot inum' Hi') as [Ho2 Hn2].
  change IPB with 8 in Hne. change (Z.to_nat BSIZE) with 512%nat in Hb.
  destruct (set_dinode_outside b (dinode_off inum) d) as [_ Hs]; [by apply Hd|lia|].
  assert (Z.to_nat (inum' mod 8) <> Z.to_nat (inum mod 8)).
  { intros H. apply Hne. pose proof (Z.mod_pos_bound inum 8). pose proof (Z.mod_pos_bound inum' 8). lia. }
  unfold get_dinode, get16, get32. rewrite !Hs by lia. f_equal. apply map_ext_in. intros k Hk.
  apply in_seq in Hk. by rewrite Hs by lia.
Qed.

(** Inodes are stored in blocks without loss and without interference: reading the
    inode [iupdate] wrote gives its members back, and the other seven inodes of the
    block, indeed all bytes of it outside the inode, stay what they were. *)
Theorem dinode_roundtrip b inum d :
  length b = Z.to_nat BSIZE -> 0 <= inum -> dinode_wf d ->
  get_dinode (set_dinode b (dinode_off inum) d) (dinode_off inum) = d
  /\ forall inum', 0 <= inum' -> inum' mod IPB <> inum mod IPB ->
       get_dinode (set_dinode b (dinode_off inum) d) (dinode_off inum') = get_dinode b (dinode_off inum').
Proof. intros Hb Hi Hd. split; [by apply dinode_same|]. intros. by apply dinode_other. Qed.
