(* ===== verification/ConsoleIo.v ===== *)
(** console.c, the input side: the line editor that the keyboard and serial
    interrupts feed, and the device functions of the console; [procdump] of proc.c,
    which the editor calls; and kbd.c, the decoder of the keyboard's scan codes.

    [input] is the ring [cs_buf] with its indices [cs_r], [cs_w], [cs_e].  A read
    gives its result together with the bytes it stored at [dst]. *)
From S2P Require Import Prelude Kernel Spinlock Console CString Kalloc Devices Proc Sleeplock Disk Bytes Bio Log Inode.

(** ** kbd.h *)

Abbreviation SHIFT := 0x01 (only parsing).
Abbreviation CTL := 0x02 (only parsing).
Abbreviation ALT := 0x04 (only parsing).
Abbreviation CAPSLOCK := 0x08 (only parsing).
Abbreviation NUMLOCK := 0x10 (only parsing).
Abbreviation SCROLLLOCK := 0x20 (only parsing).
Abbreviation E0ESC := 0x40 (only parsing).

(** An array of 256 bytes: its first entries, and entries given by index. *)
Definition key_table (l : list Z) (at_index : list (Z * Z)) (i : Z) : Z :=
  match list_find (fun p => p.1 = i) at_index with
  | Some (_, p) => p.2
  | None => default 0 (l !! Z.to_nat i)
  end.

Definition shiftcode : Z -> Z :=
  key_table [] [(0x1D, CTL); (0x2A, SHIFT); (0x36, SHIFT); (0x38, ALT); (0x9D, CTL); (0xB8, ALT)].
Definition togglecode : Z -> Z :=
  key_table [] [(0x3A, CAPSLOCK); (0x45, NUMLOCK); (0x46, SCROLLLOCK)].

(** [KEY_HOME] to [KEY_DEL] *)
Definition special_keys : list (Z * Z) :=
  [(0xC8, 0xE2); (0xD0, 0xE3); (0xC9, 0xE6); (0xD1, 0xE7); (0xCB, 0xE4); (0xCD, 0xE5);
   (0x97, 0xE0); (0xCF, 0xE1); (0xD2, 0xE8); (0xD3, 0xE9)].

Definition normalmap : Z -> Z := key_table
  ([0; 0x1B] ++ cstr "1234567890-=" ++ [8; 9]
   ++ cstr "qwertyuiop[]" ++ [10; 0] ++ cstr "asdfghjkl;'`" ++ [0; 92] ++ cstr "zxcvbnm,./" ++ [0] ++ cstr "*"
   ++ [0] ++ cstr " " ++ [0; 0; 0; 0; 0; 0; 0; 0; 0; 0; 0; 0; 0] ++ cstr "789-456+1230." ++ [0; 0; 0; 0])
  ([(0x9C, 10); (0xB5, 47)] ++ special_keys).

Definition shiftmap : Z -> Z := key_table
  ([0; 0x1B] ++ cstr "!@#$%^&*()_+" ++ [8; 9]
   ++ cstr "QWERTYUIOP{}" ++ [10; 0] ++ cstr "ASDFGHJKL:" ++ [34] ++ cstr "~" ++ [0] ++ cstr "|ZXCVBNM<>?" ++ [0] ++ cstr "*"
   ++ [0] ++ cstr " " ++ [0; 0; 0; 0; 0; 0; 0; 0; 0; 0; 0; 0; 0] ++ cstr "789-456+1230." ++ [0; 0; 0; 0])
  ([(0x9C, 10); (0xB5, 47)] ++ special_keys).

(** [C(x)] *)
Definition ctl (l : list Z) : list Z := map (fun x => x - 64) l.
Definition ctlmap : Z -> Z := key_table
  (replicate 16 0 ++ ctl (cstr "QWERTYUIOP") ++ [0; 0; 13; 0] ++ ctl (cstr "ASDFGHJKL") ++ [0; 0; 0; 0; 92 - 64]
   ++ ctl (cstr "ZXCVBNM") ++ [0; 0; u8 (47 - 64); 0; 0])
  ([(0x9C, 13); (0xB5, u8 (47 - 64))] ++ special_keys).

(** [kbdgetc] on the byte [data] of a controller with data in its buffer; [shift] is
    the static variable.  The result is the new [shift] and the value returned. *)
Definition kbdgetc (shift data : Z) : Z * Z :=
  if data =? 0xE0 then (Z.lor shift E0ESC, 0)
  else if nz (Z.land data 0x80) then
    let data := if nz (Z.land shift E0ESC) then data else Z.land data 0x7F in
    (Z.land shift (Z.lnot (Z.lor (shiftcode data) E0ESC)), 0)
  else
    let '(data, shift) :=
      if nz (Z.land shift E0ESC) then (Z.lor data 0x80, Z.land shift (Z.lnot E0ESC)) else (data, shift) in
    let shift := Z.lor shift (shiftcode data) in
    let shift := Z.lxor shift (togglecode data) in
    let charcode := let m := Z.land shift (Z.lor CTL SHIFT) in
                    if m =? 0 then normalmap else if m =? 1 then shiftmap else ctlmap in
    let c := charcode data in
    let c := if nz (Z.land shift CAPSLOCK) then
               if (97 <=? c) && (c <=? 122) then c + (65 - 97)
               else if (65 <=? c) && (c <=? 90) then c + (97 - 65) else c
             else c in
    (shift, c).

(** The calls of [kbdgetc] while the controller has the scan codes [codes]. *)
Fixpoint kbd_decode (shift : Z) (codes : list Z) : Z * list Z :=
  match codes with
  | [] => (shift, [])
  | d :: codes' =>
      let '(shift, c) := kbdgetc shift d in
      let '(shift, l) := kbd_decode shift codes' in
      (shift, c :: l)
  end.

(** ** Typing a text

    The keys of a US keyboard: the scan code (set 1) each sends when it is pressed, the
    character on it and the one it gives with the shift key.  Released, it sends the code
    with the high bit set. *)
Definition us_letters : list (Z * Z) :=
  [(97, 0x1E); (98, 0x30); (99, 0x2E); (100, 0x20); (101, 0x12); (102, 0x21); (103, 0x22); (104, 0x23); (105, 0x17);
   (106, 0x24); (107, 0x25); (108, 0x26); (109, 0x32); (110, 0x31); (111, 0x18); (112, 0x19); (113, 0x10); (114, 0x13);
   (115, 0x1F); (116, 0x14); (117, 0x16); (118, 0x2F); (119, 0x11); (120, 0x2D); (121, 0x15); (122, 0x2C)].
Definition us_keys : list (Z * Z * Z) :=
  map (fun '(c, k) => (k, c, c - 32)) us_letters
  ++ [(0x0B, 48, 41); (0x02, 49, 33); (0x03, 50, 64); (0x04, 51, 35); (0x05, 52, 36); (0x06, 53, 37); (0x07, 54, 94);
      (0x08, 55, 38); (0x09, 56, 42); (0x0A, 57, 40); (0x39, 32, 32); (0x1C, 10, 10);
      (0x0C, 45, 95); (0x0D, 61, 43); (0x1A, 91, 123); (0x1B, 93, 125); (0x27, 59, 58); (0x28, 39, 34);
      (0x29, 96, 126); (0x2B, 92, 124); (0x33, 44, 60); (0x34, 46, 62); (0x35, 47, 63)].

(** The scan codes of a character: its key is pressed and released, with the shift key
    held when the character needs it. *)
Definition press (k : Z) : list Z := [k; k + 0x80].
Definition keys_for (c : Z) : list Z :=
  match list_find (fun '(_, plain, _) => plain = c) us_keys, list_find (fun '(_, _, shifted) => shifted = c) us_keys with
  | Some (_, (k, _, _)), _ => press k
  | None, Some (_, (k, _, _)) => [0x2A] ++ press k ++ [0xAA]
  | None, None => []
  end.
Definition caps_lock : list Z := press 0x3A.
Definition with_ctl (l : list Z) : list Z := [0x1D] ++ l ++ [0x9D].

(** Letters the other way round. *)
Definition swap_case (c : Z) : Z :=
  if decide (97 <= c <= 122) then c - 32 else if decide (65 <= c <= 90) then c + 32 else c.

Definition typable (c : Z) : Prop := c = 10 \/ 32 <= c <= 126.

Lemma kbd_decode_app codes codes' shift :
  kbd_decode shift (codes ++ codes') =
    let '(shift1, l) := kbd_decode shift codes in
    let '(shift2, l') := kbd_decode shift1 codes' in (shift2, l ++ l').
Proof.
  revert shift. induction codes as [|d codes IH]; intros shift; cbn [kbd_decode app].
  - by destruct (kbd_decode shift codes').
  - destruct (kbdgetc shift d) as [shift1 c]. rewrite IH.
    destruct (kbd_decode shift1 codes) as [shift2 l]. by destruct (kbd_decode shift2 codes').
Qed.

(** The characters the decoder gives: a 0 stands for none. *)
Definition decoded (l : list Z) : list Z := filter (fun k => k <> 0) l.

Lemma decoded_one shift f c : shift = 0 /\ f = id \/ shift = CAPSLOCK /\ f = swap_case -> typable c ->
  exists l, kbd_decode shift (keys_for c) = (shift, l) /\ decoded l = [f c].
Proof.
  assert (Forall (fun c => let '(sh, l) := kbd_decode 0 (keys_for c) in let '(sh', l') := kbd_decode CAPSLOCK (keys_for c) in
    sh = 0 /\ decoded l = [c] /\ sh' = CAPSLOCK /\ decoded l' = [swap_case c]) (10 :: seqZ 32 95)) as H by (apply (bool_decide_unpack _); vm_compute; exact I).
  intros Hs Hc. rewrite Forall_forall in H. specialize (H c).
  destruct (kbd_decode 0 (keys_for c)) as [sh l] eqn:E1, (kbd_decode CAPSLOCK (keys_for c)) as [sh' l'] eqn:E2.
  destruct H as (-> & Hl & -> & Hl'); [destruct Hc as [-> |Hc]; [by left|right; apply elem_of_seqZ; lia]|].
  destruct Hs as [[-> ->]|[-> ->]]; [by exists l|by exists l'].
Qed.

Lemma decoded_text shift f text : shift = 0 /\ f = id \/ shift = CAPSLOCK /\ f = swap_case -> Forall typable text ->
  exists l, kbd_decode shift (text ≫= keys_for) = (shift, l) /\ decoded l = map f text.
Proof.
  intros Hs. induction 1 as [|c text Hc Ht IH]; [by exists []|]. destruct IH as (l & Hd & Hl), (decoded_one shift f c Hs Hc) as (l1 & Hd1 & Hl1).
  exists (l1 ++ l). rewrite bind_cons, kbd_decode_app, Hd1, Hd. split; [done|]. unfold decoded in *. by rewrite filter_app, Hl1, Hl.
Qed.

(** C33: typing a text on a US keyboard and decoding the scan codes gives the text back: for
    every text of printable characters and newlines, the values [kbdgetc] returns on the
    scan codes of the keys, shift key included, are the characters in order and zeros, which the
    console ignores, and the modifier state returns to where it was.  Between two presses
    of caps lock the letters come in the other case, and a letter typed with the control
    key held gives its control character. *)
Theorem kbd_typing_roundtrip text :
  Forall typable text ->
  (exists l, kbd_decode 0 (text ≫= keys_for) = (0, l) /\ decoded l = text)
  /\ (exists l, kbd_decode 0 (caps_lock ++ (text ≫= keys_for) ++ caps_lock) = (0, l) /\ decoded l = map swap_case text)
  /\ (forall c, 97 <= c <= 122 -> exists l, kbd_decode 0 (with_ctl (keys_for c)) = (0, l) /\ decoded l = [c - 96]).
Proof.
  intros Ht. split_and!.
  - destruct (decoded_text 0 id text) as (l & Hd & Hl); [by left|done|]. rewrite map_id in Hl. by exists l.
  - destruct (decoded_text CAPSLOCK swap_case text) as (l & Hd & Hl); [by right|done|]. exists ([0; 0] ++ l ++ [0; 0]). rewrite kbd_decode_app.
    change (kbd_decode 0 caps_lock) with (CAPSLOCK, [0; 0]). cbv iota beta. rewrite kbd_decode_app, Hd. split; [done|]. unfold decoded in *. by rewrite !filter_app, Hl, app_nil_r.
  - assert (Forall (fun c => let '(sh, l) := kbd_decode 0 (with_ctl (keys_for c)) in sh = 0 /\ decoded l = [c - 96]) (seqZ 97 26)) as H by (apply (bool_decide_unpack _); vm_compute; exact I).
    intros c Hc. rewrite Forall_forall in H. specialize (H c). destruct (kbd_decode 0 (with_ctl (keys_for c))) as [sh l].
    destruct H as [-> Hl]; [apply elem_of_seqZ; lia|by exists l].
Qed.

Section console_io.
Context {E : Env} {D : Disk}.

(** ** [procdump] *)

Definition state_name (st : procstate) : list Z :=
  cstr match st with
       | UNUSED => "unused" | EMBRYO => "embryo" | SLEEPING => "sleep "
       | RUNNABLE => "runble" | RUNNING => "run   " | ZOMBIE => "zombie"
       end.

(** [for(i=0; i<10 && pc[i] != 0; i++) cprintf(" %p", pc[i]);] *)
Fixpoint print_pcs (l : list Z) : K unit :=
  match l with
  | [] => mret tt
  | pc :: l' => if pc =? 0 then mret tt else cprintf " %p" [AInt pc] ;; print_pcs l'
  end.

Definition procdump : K unit :=
  for_each procs (fun i =>
    p ← get_proc i ;
    if decide (p_state p = UNUSED) then mret tt else
    cprintf "%d %s %s" [AInt (p_pid p); AStr (Some (state_name (p_state p))); AStr (Some (cstring (p_name p)))] ;;
    when (bool_decide (p_state p = SLEEPING))
      (m ← gets k_mem ;
       print_pcs (getcallerpcs (load32 m) (u32 (cx_ebp (p_context p) + 8)))) ;;
    cprintf "
" []).

(** ** The line editor *)

Definition INPUT_BUF : Z := 128.
Definition ctrl (c : Z) : Z := c - 64.

(** [input.buf[i % INPUT_BUF]] *)
Definition input_at (i : Z) : K Z :=
  b ← get_cons cs_buf ; deref "input.buf" (b !! Z.to_nat (i mod INPUT_BUF)).

(** [while(input.e != input.w && input.buf[(input.e-1) % INPUT_BUF] != '\n')], which
    runs at most once for every character between the indices. *)
Fixpoint kill_line (n : nat) : K unit :=
  match n with
  | O => stop_with OutOfFuel
  | S n' =>
      e ← get_cons cs_e ;
      w ← get_cons cs_w ;
      if e =? w then mret tt else
      c ← input_at (u32 (e - 1)) ;
      if c =? 10 then mret tt else
      upd_cons (fun cs => cs <| cs_e ::= fun e => u32 (e - 1) |>) ;;
      consputc BACKSPACE ;;
      kill_line n'
  end.

(** The effect of one character; the result says whether it asks for [procdump]. *)
Definition console_key (c : Z) : K bool :=
  if c =? ctrl 80 then mret true
  else if c =? ctrl 85 then
    e ← get_cons cs_e ; w ← get_cons cs_w ;
    kill_line (S (Z.to_nat (u32 (e - w)))) ;; mret false
  else if (c =? ctrl 72) || (c =? 0x7f) then
    e ← get_cons cs_e ; w ← get_cons cs_w ;
    when (negb (e =? w))
      (upd_cons (fun cs => cs <| cs_e ::= fun e => u32 (e - 1) |>) ;;
       consputc BACKSPACE) ;;
    mret false
  else
    e ← get_cons cs_e ; r ← get_cons cs_r ;
    when (nz c && (u32 (e - r) <? INPUT_BUF))
      (let c := if c =? 13 then 10 else c in
       upd_cons (fun cs => cs <| cs_buf ::= <[Z.to_nat (e mod INPUT_BUF) := u8 c]> |>) ;;
       upd_cons (fun cs => cs <| cs_e := u32 (e + 1) |>) ;;
       consputc c ;;
       e ← get_cons cs_e ; r ← get_cons cs_r ;
       when ((c =? 10) || (c =? ctrl 68) || (e =? u32 (r + INPUT_BUF)))
         (upd_cons (fun cs => cs <| cs_w := e |>) ;;
          wakeup CH_input)) ;;
    mret false.

Fixpoint console_keys (l : list Z) (doprocdump : bool) : K bool :=
  match l with
  | [] => mret doprocdump
  | c :: l' => b ← console_key c ; console_keys l' (b || doprocdump)
  end.

(** [keys] are the values [getc] gives before a negative one. *)
Definition consoleintr (keys : list Z) : K unit :=
  acquire L_cons ;;
  doprocdump ← console_keys keys false ;
  release L_cons ;;
  when doprocdump procdump.

(** [codes] are the scan codes and [bytes] the received bytes the devices hold. *)
Definition kbdintr (codes : list Z) : K unit :=
  shift ← get_pf pf_shift ;
  let '(shift, keys) := kbd_decode shift codes in
  upd_pf (fun p => p <| pf_shift := shift |>) ;;
  consoleintr keys.
Definition uartintr (bytes : list Z) : K unit :=
  uart ← get_cons cs_uart ;
  consoleintr (if nz uart then bytes else []).

(** ** The device functions *)

(** Wait until there is input: [false] if the process is killed. *)
Definition wait_input : K bool :=
  loop fuel (
    r ← get_cons cs_r ;
    w ← get_cons cs_w ;
    if r =? w then
      p ← curproc ;
      pr ← get_proc p ;
      if nz (p_killed pr) then mret (Some false)
      else sleep CH_input L_cons ;; mret None
    else mret (Some true)).

(** [while(n > 0)] of [consoleread]; [acc] is what has been stored at [dst], the last
    byte first, and the result [None] is the return of a killed process. *)
Fixpoint read_loop (n : nat) (acc : list Z) : K (option nat * list Z) :=
  match n with
  | O => mret (Some O, acc)
  | S n' =>
      ok ← wait_input ;
      if negb ok then mret (None, acc) else
      r ← get_cons cs_r ;
      c ← input_at r ;
      upd_cons (fun cs => cs <| cs_r := u32 (r + 1) |>) ;;
      if c =? ctrl 68 then
        when (negb (bool_decide (acc = []))) (upd_cons (fun cs => cs <| cs_r ::= fun r => u32 (r - 1) |>)) ;;
        mret (Some n, acc)
      else if c =? 10 then mret (Some n', c :: acc)
      else read_loop n' (c :: acc)
  end.

Definition consoleread (ip : nat) (n : Z) : K (Z * list Z) :=
  iunlock (Some ip) ;;
  acquire L_cons ;;
  '(rest, acc) ← read_loop (Z.to_nat n) [] ;
  release L_cons ;;
  ilock (Some ip) ;;
  mret (match rest with
        | None => -1
        | Some m => n - (if 0 <? n then Z.of_nat m else n)
        end, rev acc).

Definition consolewrite (ip : nat) (buf : list Z) (n : Z) : K Z :=
  iunlock (Some ip) ;;
  acquire L_cons ;;
  for_each (seq 0 (Z.to_nat n)) (fun i =>
    c ← deref "consolewrite: buf" (buf !! i) ; consputc (Z.land c 0xff)) ;;
  release L_cons ;;
  ilock (Some ip) ;;
  mret n.

Definition consoleinit : K unit :=
  initlock L_cons "console" ;;
  modify (fun s => s <| k_devsw ::= alter (fun d => Devsw (dv_read d) (Some consolewrite_fn)) 1%nat |>) ;;
  modify (fun s => s <| k_devsw ::= alter (fun d => Devsw (Some consoleread_fn) (dv_write d)) 1%nat |>) ;;
  upd_cons (fun cs => cs <| cs_locking := 1 |>) ;;
  ioapicenable IRQ_KBD 0.

End console_io.

(** ** The contract: a line editor

    The input is what is ready to be read, and the line being typed. *)

Abbreviation editor := (list Z * list Z)%type.

Definition edit (ed : editor) (c : Z) : editor :=
  let '(ready, line) := ed in
  if c =? ctrl 80 then ed
  else if c =? ctrl 85 then (ready, [])
  else if (c =? ctrl 72) || (c =? 0x7f) then (ready, take (pred (length line)) line)
  else if (c =? 0) || (INPUT_BUF <=? Z.of_nat (length (ready ++ line))) then ed
  else
    let c := if c =? 13 then 10 else c in
    if (c =? 10) || (c =? ctrl 68) || (Z.of_nat (length (ready ++ line)) + 1 =? INPUT_BUF)
    then (ready ++ line ++ [c], [])
    else (ready, line ++ [c]).

(** What a read of [n] bytes takes from the input that is ready: at most a line; an
    end-of-file character ends the read and is taken only by a read that has
    nothing else.  [None] when it would have to wait. *)
Fixpoint read_ready (n : nat) (some : bool) (ready : list Z) : option (list Z * list Z) :=
  match n with
  | O => Some ([], ready)
  | S n' =>
      match ready with
      | [] => None
      | c :: ready' =>
          if c =? ctrl 68 then Some ([], if some then ready else ready')
          else if c =? 10 then Some ([c], ready')
          else '(l, rest) ← read_ready n' true ready' ; Some (c :: l, rest)
      end
  end.

Record input_rep (cs : console) (ed : editor) : Prop := InputRep {
  ir_ring : ring INPUT_BUF (cs_buf cs) (cs_r cs) (ed.1 ++ ed.2);
  ir_r : 0 <= cs_r cs < W32;
  ir_w : cs_w cs = u32 (cs_r cs + Z.of_nat (length ed.1));
  ir_e : cs_e cs = u32 (cs_r cs + Z.of_nat (length (ed.1 ++ ed.2)));
  ir_line : ~ 10 ∈ ed.2
}.

Section editor.
Context {E : Env} {D : Disk}.

Lemma u32_mod_input x : u32 x mod INPUT_BUF = x mod INPUT_BUF.
Proof. apply u32_mod. by exists 33554432. Qed.

(** The indices are equal when the pieces between them are empty. *)
Lemma input_line_empty cs ed : input_rep cs ed -> (cs_e cs =? cs_w cs) = bool_decide (ed.2 = []).
Proof.
  intros [[_ _ Hl _] Hr Hw He _]. rewrite He, Hw, length_app. rewrite length_app in Hl.
  unfold INPUT_BUF in Hl. case_bool_decide as Hd; [apply Z.eqb_eq|apply Z.eqb_neq].
  - rewrite Hd. cbn. f_equal. lia.
  - intros H. destruct ed.2 as [|c l]; [done|]. cbn [length] in *. apply mod_inj in H; unfold W32 in *; lia.
Qed.

Lemma input_ready_empty cs ed : input_rep cs ed -> (cs_r cs =? cs_w cs) = bool_decide (ed.1 = []).
Proof.
  intros [[_ _ Hl _] Hr Hw He _]. rewrite Hw. rewrite length_app in Hl. unfold INPUT_BUF in Hl.
  case_bool_decide as Hd; [apply Z.eqb_eq|apply Z.eqb_neq].
  - rewrite Hd. cbn. rewrite Z.add_0_r. symmetry. by apply Z.mod_small.
  - intros H. assert (u32 (cs_r cs + 0) = u32 (cs_r cs + Z.of_nat (length ed.1))) as H'.
    { rewrite <- H, Z.add_0_r. by apply Z.mod_small. }
    destruct ed.1 as [|c l]; [done|]. cbn [length] in *. apply mod_inj in H'; unfold W32 in *; lia.
Qed.

(** The number of bytes in the ring. *)
Lemma input_count cs ed : input_rep cs ed -> u32 (cs_e cs - cs_r cs) = Z.of_nat (length (ed.1 ++ ed.2)).
Proof.
  intros [[_ _ Hl _] Hr Hw He _]. rewrite He. unfold u32. rewrite Zminus_mod_idemp_l.
  replace (cs_r cs + _ - cs_r cs) with (Z.of_nat (length (ed.1 ++ ed.2))) by lia.
  apply Z.mod_small. unfold INPUT_BUF, W32 in *. lia.
Qed.

(** Removing the last character of the line. *)
Definition back (cs : console) : console := cs <| cs_e ::= fun e => u32 (e - 1) |>.

Lemma input_back cs ready line c :
  input_rep cs (ready, line ++ [c]) ->
  input_rep (back cs) (ready, line)
  /\ cs_buf cs !! Z.to_nat (u32 (cs_e cs - 1) mod INPUT_BUF) = Some c.
Proof.
  intros [Hg Hr Hw He Hn]. cbn [fst snd] in *.
  assert (u32 (cs_e cs - 1) = u32 (cs_r cs + Z.of_nat (length (ready ++ line)))) as Hb.
  { rewrite He. unfold u32. rewrite Zminus_mod_idemp_l, !length_app. cbn [length]. f_equal. lia. }
  split; [split; cbn; [|done|done|done|set_solver]|].
  - rewrite (assoc_L (++)) in Hg. by eapply ring_app.
  - rewrite Hb, u32_mod_input. apply (rg_byte _ _ _ _ Hg). rewrite (assoc_L (++)).
    by rewrite lookup_app_r, Nat.sub_diag by lia.
Qed.

(** Adding a character, with or without making the line ready. *)
Definition typed (c : Z) (cs : console) : console :=
  cs <| cs_buf ::= <[Z.to_nat (cs_e cs mod INPUT_BUF) := u8 c]> |> <| cs_e := u32 (cs_e cs + 1) |>.

Lemma input_typed cs ready line c :
  input_rep cs (ready, line) -> 0 <= c < 256 -> Z.of_nat (length (ready ++ line)) < INPUT_BUF ->
  (c <> 10 -> input_rep (typed c cs) (ready, line ++ [c]))
  /\ input_rep (typed c cs <| cs_w := cs_e (typed c cs) |>) (ready ++ line ++ [c], []).
Proof.
  intros [Hg Hr Hw He Hn] Hc Hl. cbn [fst snd] in *.
  assert (u8 c = c) as Hu by (by apply Z.mod_small).
  assert (ring INPUT_BUF (cs_buf (typed c cs)) (cs_r cs) (ready ++ line ++ [c])) as Hg'.
  { cbn. rewrite Hu, He, u32_mod_input, (assoc_L (++)). apply ring_put; [done|unfold INPUT_BUF in *; lia]. }
  assert (cs_e (typed c cs) = u32 (cs_r cs + Z.of_nat (length (ready ++ line ++ [c])))) as He'.
  { cbn. rewrite He, u32_u32_add, !length_app. cbn [length]. f_equal. lia. }
  split; [intros Hc10|]; (split; cbn [fst snd]; [by rewrite ?app_nil_r|done|by rewrite ?app_nil_r|by rewrite ?app_nil_r|set_solver]).
Qed.

(** *** Runs *)

Lemma input_emits out cs cs' ed : emits out cs cs' -> input_rep cs ed -> input_rep cs' ed.
Proof.
  intros [_ _ _ _ _ (Hb & Hr & Hw & He)] [H1 H2 H3 H4 H5]. split; rewrite ?Hb, ?Hr, ?Hw, ?He; done.
Qed.

(** The console after an operation, and the process table, which a wakeup may change. *)
Definition edited (s : kernel) (cs : console) (t : list proc) : kernel := s <| k_cons := cs |> <| k_ptable := t |>.

Record editing (s : kernel) (ed : editor) : Prop := Editing {
  ei_ptable : ptable_ready s;
  ei_cons : cons_ok (k_cons s);
  ei_input : input_rep (k_cons s) ed
}.

(** The operation edits the input to [ed']; no process goes to sleep. *)
Definition edits {A} (m : K A) (a : A) (s : kernel) (ed' : editor) : Prop :=
  exists cs t, m s = Done a (edited s cs t) /\ editing (edited s cs t) ed'
    /\ (t = k_ptable s \/ t = map (wake (Some CH_input)) (k_ptable s)).

Lemma input_at_run s i c :
  cs_buf (k_cons s) !! Z.to_nat (i mod INPUT_BUF) = Some c -> input_at i s = Done c s.
Proof. intros H. unfold input_at, get_cons. kstep. by rewrite H. Qed.

Lemma ptable_ready_edited s cs t :
  ptable_ready s -> length t = length (k_ptable s) -> ptable_ready (edited s cs t).
Proof. intros [H1 H2 H3] Ht. split; [done..|]. cbn. by rewrite Ht. Qed.

(** An update of the console's indices, followed by output. *)
Lemma editing_output s ed f c :
  ptable_ready s -> cons_ok (f (k_cons s)) -> input_rep (f (k_cons s)) ed ->
  exists cs, (upd_cons f ;; consputc c) s = Done tt (s <| k_cons := cs |>)
    /\ emits [c] (f (k_cons s)) cs /\ editing (s <| k_cons := cs |>) ed.
Proof.
  intros Hp Hc Hi. unfold upd_cons. kstep.
  destruct (prints_consputc c (s <| k_cons ::= f |>)) as (cs & Hrun & He); [done|].
  exists cs. split; [exact Hrun|]. split; [done|]. split; [by destruct Hp|apply He|by eapply input_emits].
Qed.

Lemma kill_line_run n s ready line :
  editing s (ready, line) -> (length line < n)%nat ->
  exists cs, kill_line n s = Done tt (s <| k_cons := cs |>) /\ editing (s <| k_cons := cs |>) (ready, []).
Proof.
  revert s n. induction line as [|c line IH] using rev_ind; intros s n [Hp Hc Hi] Hn;
    (destruct n as [|n]; [lia|]); cbn [kill_line]; unfold get_cons; do 2 kstep;
    rewrite (input_line_empty _ _ Hi); cbn [snd].
  - exists (k_cons s). rewrite bool_decide_true by done. by destruct s.
  - rewrite bool_decide_false by by destruct line.
    destruct (input_back _ _ _ _ Hi) as [Hb Hat]. krun (input_at_run s _ c Hat).
    rewrite (proj2 (Z.eqb_neq c 10)) by (intros ->; apply (ir_line _ _ Hi); cbn; set_solver).
    destruct (editing_output s (ready, line) back BACKSPACE) as (cs & Hrun & _ & Hed); [done|done|done|].
    unfold upd_cons in *. erewrite bind_done in Hrun by reflexivity. kstep. krun Hrun.
    destruct (IH (s <| k_cons := cs |>) n Hed) as (cs' & Hrun' & Hed'); [rewrite length_app in Hn; cbn in Hn; lia|].
    exists cs'. rewrite Hrun'. by destruct s.
Qed.

Lemma edits_same {A} (m : K A) a s ed cs :
  m s = Done a (s <| k_cons := cs |>) -> editing (s <| k_cons := cs |>) ed -> edits m a s ed.
Proof.
  intros Hm He. exists cs, (k_ptable s). assert (edited s cs (k_ptable s) = s <| k_cons := cs |>) as -> by by destruct s.
  auto.
Qed.

(** The default case of the switch. *)
Definition type_key (c : Z) : K unit :=
  e ← get_cons cs_e ; r ← get_cons cs_r ;
  when (nz c && (u32 (e - r) <? INPUT_BUF))
    (let c := if c =? 13 then 10 else c in
     upd_cons (fun cs => cs <| cs_buf ::= <[Z.to_nat (e mod INPUT_BUF) := u8 c]> |>) ;;
     upd_cons (fun cs => cs <| cs_e := u32 (e + 1) |>) ;;
     consputc c ;;
     e ← get_cons cs_e ; r ← get_cons cs_r ;
     when ((c =? 10) || (c =? ctrl 68) || (e =? u32 (r + INPUT_BUF)))
       (upd_cons (fun cs => cs <| cs_w := e |>) ;;
        wakeup CH_input)).

Definition type_edit (ed : editor) (c : Z) : editor :=
  let '(ready, line) := ed in
  if (c =? 0) || (INPUT_BUF <=? Z.of_nat (length (ready ++ line))) then ed
  else
    let c := if c =? 13 then 10 else c in
    if (c =? 10) || (c =? ctrl 68) || (Z.of_nat (length (ready ++ line)) + 1 =? INPUT_BUF)
    then (ready ++ line ++ [c], [])
    else (ready, line ++ [c]).

(** The line becomes ready when the ring is full. *)
Lemma input_full cs ready line c :
  input_rep (typed c cs) (ready, line ++ [c]) ->
  (cs_e (typed c cs) =? u32 (cs_r cs + INPUT_BUF)) = (Z.of_nat (length (ready ++ line)) + 1 =? INPUT_BUF).
Proof.
  intros [[_ _ Hl _] Hr _ He _]. cbn [fst snd] in *. rewrite (assoc_L (++)), length_app in Hl, He. cbn [length] in *.
  rewrite He. change (cs_r (typed c cs)) with (cs_r cs). unfold INPUT_BUF in *.
  destruct (Z.eqb_spec (Z.of_nat (length (ready ++ line)) + 1) 128) as [Hd|Hd]; [apply Z.eqb_eq|apply Z.eqb_neq].
  - f_equal. lia.
  - intros H. apply mod_inj in H; unfold W32 in *; lia.
Qed.

Lemma type_key_run s ed c :
  (0 < fuel)%nat -> editing s ed -> 0 <= c < 256 -> edits (type_key c) tt s (type_edit ed c).
Proof.
  intros Hf [Hp Hc Hi] Hb. destruct ed as [ready line].
  assert (forall m, m s = Done tt s -> edits m tt s (ready, line)) as Hsame.
  { intros m Hm. apply (edits_same _ _ _ _ (k_cons s)); [rewrite Hm; by destruct s|by destruct s]. }
  unfold type_edit. destruct ((c =? 0) || (INPUT_BUF <=? Z.of_nat (length (ready ++ line)))) eqn:Hd.
  { apply Hsame. unfold type_key, get_cons. do 2 kstep. rewrite (input_count _ _ Hi). cbn [fst snd].
    unfold nz. apply orb_true_iff in Hd as [-> | Hd]; [done|].
    rewrite (proj2 (Z.ltb_ge _ _)) by lia. by rewrite andb_false_r. }
  apply orb_false_iff in Hd as [Hc0 Hl]. apply Z.leb_gt in Hl. set (c' := if c =? 13 then 10 else c).
  assert (0 <= c' < 256) as Hc' by (subst c'; destruct (c =? 13); lia).
  destruct (input_typed _ _ _ c' Hi Hc' Hl) as [Hline Hready].
  destruct (prints_consputc c' (s <| k_cons ::= typed c' |>)) as (cs & Hrun & Hem); [done|].
  pose proof (em_input _ _ _ _ Hem) as (Hbuf & Hr & Hw & He).
  unfold edits, type_key, get_cons. do 2 kstep. rewrite (input_count _ _ Hi). cbn [fst snd].
  unfold nz. rewrite Hc0, (proj2 (Z.ltb_lt _ _) Hl). cbn [negb andb]. unfold when at 1. cbv zeta. fold c'.
  unfold upd_cons. do 2 kstep.
  change (set k_cons _ (set k_cons _ s)) with (s <| k_cons ::= typed c' |>). krun Hrun. do 2 kstep.
  change (k_cons (set k_cons (fun _ => cs) (set k_cons _ s))) with cs.
  change (set k_cons (fun _ => cs) (set k_cons _ s)) with (s <| k_cons := cs |>).
  change (k_cons (s <| k_cons ::= typed c' |>)) with (typed c' (k_cons s)) in *.
  assert ((c' =? 10) || (c' =? ctrl 68) || (cs_e cs =? u32 (cs_r cs + INPUT_BUF)) =
    (c' =? 10) || (c' =? ctrl 68) || (Z.of_nat (length (ready ++ line)) + 1 =? INPUT_BUF)) as ->.
  { destruct (Z.eqb_spec c' 10) as [|Hn10]; [done|]. destruct (c' =? ctrl 68); [done|]. cbn [orb].
    rewrite He, Hr. by apply (input_full (k_cons s) ready line c'), Hline. }
  destruct (_ || _ || _) eqn:Hcommit; unfold when.
  - kstep. set (cs2 := cs <| cs_w := cs_e cs |>).
    change (set k_cons _ (s <| k_cons := cs |>)) with (s <| k_cons := cs2 |>).
    exists cs2, (map (wake (Some CH_input)) (k_ptable s)).
    rewrite wakeup_run; [|done|by destruct Hp]. split; [by destruct s|]. split; [|by right].
    split; [by apply ptable_ready_edited; [|rewrite length_map]|apply Hem|].
    destruct Hready as [G1 G2 G3 G4 G5]. split; cbn in *; rewrite ?Hbuf, ?Hr, ?He; done.
  - exists cs, (k_ptable s). split; [by destruct s|]. split; [|by left].
    split; [by apply ptable_ready_edited|apply Hem|]. eapply input_emits; [exact Hem|]. apply Hline.
    intros Hn. by rewrite Hn in Hcommit.
Qed.

Lemma wake_twice ch t : map (wake ch) (map (wake ch) t) = map (wake ch) t.
Proof.
  rewrite map_map. apply map_ext. intros p. unfold wake. case_decide as Hd; [|by case_decide].
  case_decide as Hd2; [|done]. by destruct Hd2 as [[=] _].
Qed.

Lemma console_key_run s ed c :
  (0 < fuel)%nat -> editing s ed -> 0 <= c < 256 -> edits (console_key c) (c =? ctrl 80) s (edit ed c).
Proof.
  intros Hf Hs Hb. pose proof Hs as [Hp Hc Hi]. destruct ed as [ready line].
  assert (forall (m : K bool) b, m s = Done b s -> edits m b s (ready, line)) as Hsame.
  { intros m b Hm. apply (edits_same _ _ _ _ (k_cons s)); [rewrite Hm; by destruct s|by destruct s]. }
  unfold console_key, edit. destruct (Z.eqb_spec c (ctrl 80)) as [->|H80]; [by apply Hsame|].
  destruct (Z.eqb_spec c (ctrl 85)) as [->|H85].
  { destruct (kill_line_run (S (Z.to_nat (u32 (cs_e (k_cons s) - cs_w (k_cons s))))) s ready line Hs) as (cs & Hrun & Hed).
    { destruct Hi as [[_ _ Hl _] Hr Hw He _]. cbn [fst snd] in *. rewrite He, Hw. unfold u32.
      rewrite <- Zminus_mod, length_app. rewrite length_app in Hl. unfold INPUT_BUF, W32 in *.
      rewrite Z.mod_small; lia. }
    apply (edits_same _ _ _ _ cs); [|done]. unfold get_cons. do 2 kstep. by krun Hrun. }
  destruct ((c =? ctrl 72) || (c =? 127)).
  { destruct line as [|b line _] using rev_ind.
    - apply Hsame. unfold get_cons. do 2 kstep. by rewrite (input_line_empty _ _ Hi).
    - rewrite length_app, Nat.add_1_r. cbn [pred]. rewrite take_app_length.
      destruct (input_back _ _ _ _ Hi) as [Hi' _].
      destruct (editing_output s (ready, line) back BACKSPACE) as (cs & Hrun & _ & Hed); [done..|].
      apply (edits_same _ _ _ _ cs); [|done]. unfold get_cons. do 2 kstep. rewrite (input_line_empty _ _ Hi).
      cbn [snd]. rewrite bool_decide_false by by destruct line. cbn [negb]. unfold when. by krun Hrun. }
  destruct (type_key_run s (ready, line) c Hf Hs Hb) as (cs & t & Hrun & Hed & Ht).
  exists cs, t. split; [|by split]. unfold type_key, get_cons in *. do 2 kstep.
  do 2 erewrite bind_done in Hrun by reflexivity. by krun Hrun.
Qed.

Lemma console_keys_run keys s ed b :
  (0 < fuel)%nat -> editing s ed -> Forall (fun c => 0 <= c < 256 /\ c <> ctrl 80) keys ->
  edits (console_keys keys b) b s (foldl edit ed keys).
Proof.
  intros Hf. revert s ed. induction keys as [|c keys IH]; intros s ed Hs Hk; cbn [console_keys foldl].
  { by apply (edits_same _ _ _ _ (k_cons s)); destruct s. }
  apply Forall_cons in Hk as [[Hc H80] Hk].
  destruct (console_key_run s ed c Hf Hs Hc) as (cs & t & Hrun & Hed & Ht).
  unfold edits. krun Hrun. rewrite (proj2 (Z.eqb_neq _ _) H80). cbn [orb].
  destruct (IH _ _ Hed Hk) as (cs' & t' & Hrun' & Hed' & Ht').
  exists cs', t'. rewrite Hrun'. split; [done|]. split; [done|]. change (k_ptable (edited s cs t)) with t in Ht'.
  destruct Ht' as [-> | ->], Ht as [-> | ->]; rewrite ?wake_twice; auto.
Qed.

(** *** Reading *)

Definition took (cs : console) : console := cs <| cs_r ::= fun r => u32 (r + 1) |>.

Lemma input_take cs c ready line :
  input_rep cs (c :: ready, line) ->
  cs_buf cs !! Z.to_nat (cs_r cs mod INPUT_BUF) = Some c /\ input_rep (took cs) (ready, line).
Proof.
  intros [Hg Hr Hw He Hn]. cbn [fst snd app length] in *. destruct (ring_take _ _ _ _ _ Hg) as [Hb Hg']. split; [done|].
  split; cbn; [|by apply Z.mod_pos_bound| | |done].
  - eapply ring_start; [symmetry; apply u32_mod_input|done].
  - rewrite Hw, u32_u32_add. f_equal. lia.
  - rewrite He, u32_u32_add. f_equal. lia.
Qed.

Lemma wait_input_ready s ed : (0 < fuel)%nat -> input_rep (k_cons s) ed -> ed.1 <> [] -> wait_input s = Done true s.
Proof.
  intros Hf Hi Hn. apply loop_leave; [done|]. unfold get_cons. do 2 kstep.
  by rewrite (input_ready_empty _ _ Hi), bool_decide_false.
Qed.

Lemma read_loop_run n acc s ready line bytes rest :
  (0 < fuel)%nat -> input_rep (k_cons s) (ready, line) -> cons_ok (k_cons s) ->
  read_ready n (negb (bool_decide (acc = []))) ready = Some (bytes, rest) ->
  exists cs m, read_loop n acc s = Done (Some m, rev bytes ++ acc) (s <| k_cons := cs |>)
    /\ input_rep cs (rest, line) /\ cons_ok cs /\ (length bytes + m = n)%nat.
Proof.
  intros Hf. revert acc s ready bytes rest.
  induction n as [|n IH]; intros acc s ready bytes rest Hi Hc Hread; cbn [read_ready read_loop] in *.
  { injection Hread as <- <-. exists (k_cons s), O. assert (s <| k_cons := k_cons s |> = s) as -> by by destruct s. done. }
  destruct ready as [|c ready]; [done|]. kapply (wait_input_ready s _ Hf Hi). cbn [negb].
  destruct (input_take _ _ _ _ Hi) as [Hb Hi']. unfold get_cons, upd_cons. kstep.
  krun (input_at_run s _ _ Hb). kstep.
  change (s <| k_cons ::= fun cs => cs <| cs_r := u32 (cs_r (k_cons s) + 1) |> |>) with (s <| k_cons ::= took |>).
  destruct (Z.eqb_spec c (ctrl 68)) as [->|Hd].
  - injection Hread as <- <-. case_bool_decide as Ha; cbn [negb] in *; unfold when; kstep.
    + by exists (took (k_cons s)), (S n).
    + exists (k_cons s), (S n). split; [|done]. cbn [rev app]. f_equal. rewrite set_set. apply set_ext.
      destruct Hi as [_ Hr _ _ _]. destruct (k_cons s). cbn in *. unfold took, set. cbn. f_equal. rewrite u32_u32_sub.
      rewrite Z.add_simpl_r. by apply Z.mod_small.
  - destruct (Z.eqb_spec c 10) as [->|H10].
    + injection Hread as <- <-. by exists (took (k_cons s)), n.
    + destruct (read_ready n true ready) as [[l rest']|] eqn:Hl; [|done]. injection Hread as <- <-.
      destruct (IH (c :: acc) (s <| k_cons ::= took |>) ready l rest') as (cs & m & Hrun & Hrep & Hok & Hm);
        [done|done|by rewrite bool_decide_false|].
      exists cs, m. rewrite Hrun. cbn [rev length]. rewrite <- (assoc_L (++)). split_and!; [done..|lia].
Qed.

(** *** The device, in a calm system *)

Lemma calm_wake_input h t pid :
  calm h t pid -> calm h (map (wake (Some CH_input)) t) pid.
Proof.
  intros [Hf (i & c & p & pr & Hr & Hc & Hp & Hpid) Hfree Hlen Ha].
  split; [done| |done|by rewrite length_map|].
  - exists i, c, p, (wake (Some CH_input) pr). split_and!; [done|done| |].
    + etrans; [apply list_lookup_fmap|]. by rewrite Hp.
    + unfold wake. by case_decide.
  - intros k q ch Hk Hs Hq. apply list_lookup_fmap_Some in Hk as (q' & -> & Hk). revert Hs Hq. unfold wake.
    case_decide; [done|]. by apply (Ha k).
Qed.

Lemma consoleintr_run s pid ed keys :
  calm (k_hw s) (k_ptable s) pid -> cons_ok (k_cons s) -> input_rep (k_cons s) ed ->
  Forall (fun c => 0 <= c < 256 /\ c <> ctrl 80) keys ->
  exists cs t, consoleintr keys s = Done tt (edited s cs t)
    /\ cons_ok cs /\ input_rep cs (foldl edit ed keys) /\ calm (k_hw s) t pid
    /\ (t = k_ptable s \/ t = map (wake (Some CH_input)) (k_ptable s)).
Proof.
  intros Hcalm Hc Hi Hk. destruct (calm_section s pid L_cons Hcalm) as (h & Ha & Hh & Ho & _ & Hrel); [done|].
  destruct (console_keys_run keys (s <| k_hw := h |>) ed false) as (cs & t & Hrun & [_ Hc' Hi'] & Ht); [apply Hcalm| |done|].
  { split; [|done|done]. split; [done|by apply Ho|apply Hcalm]. }
  exists cs, t. unfold consoleintr. krun Ha. krun Hrun. kapply Hrel. split; [by destruct s|]. split; [done|]. split; [done|].
  split; [|done]. destruct Ht as [-> | ->]; [done|by apply calm_wake_input].
Qed.

(** An inode whose lock the process holds. *)
Record inode_held (s : kernel) (pid : Z) (ip : nat) : Prop := InodeHeld {
  ih_inode : exists i, k_icache s !! ip = Some i /\ 1 <= i_ref i /\ i_valid i <> 0;
  ih_bound : (ip < NINODE)%nat;
  ih_lock : exists name, k_sleeplocks s !! SL_inode ip = Some (Sleeplock 1 name pid)
}.

Lemma consoleread_run s pid ip ready line n bytes rest :
  calm (k_hw s) (k_ptable s) pid -> cons_ok (k_cons s) -> input_rep (k_cons s) (ready, line) ->
  inode_held s pid ip -> 0 <= n -> read_ready (Z.to_nat n) false ready = Some (bytes, rest) ->
  exists cs, consoleread ip n s = Done (Z.of_nat (length bytes), bytes) (s <| k_cons := cs |>)
    /\ cons_ok cs /\ input_rep cs (rest, line).
Proof.
  intros Hcalm Hc Hi [(i & Hip & Hiref & Hval) Hb (name & Hsl)] Hn Hread.
  set (free := s <| k_sleeplocks ::= <[SL_inode ip := Sleeplock 0 name 0]> |>).
  assert (sl_at (k_sleeplocks s) (SL_inode ip) = Sleeplock 1 name pid) as Hat by (unfold sl_at; by rewrite Hsl).
  assert (forall s', k_icache s' = k_icache s -> get_inode ip s' = Done i s') as Hget.
  { intros s' Hs'. unfold get_inode. kstep. by rewrite Hs', Hip. }
  assert (iunlock (Some ip) s = Done tt free) as Hunlock.
  { unfold iunlock. krun (holdingsleep_run s pid (SL_inode ip) Hcalm Hb). rewrite Hat. cbn [sl_locked sl_pid].
    rewrite Z.eqb_refl. change (nz 1) with true. cbn [andb negb]. kapply Hget. rewrite (proj2 (Z.ltb_ge _ _)) by lia.
    rewrite (releasesleep_run s pid (SL_inode ip) Hcalm Hb). f_equal. apply set_ext. by rewrite Hat. }
  unfold consoleread. krun Hunlock.
  destruct (calm_section free pid L_cons) as (h & Ha & Hh & Ho & _ & Hrel); [done..|]. krun Ha.
  destruct (read_loop_run (Z.to_nat n) [] (free <| k_hw := h |>) ready line bytes rest) as (cs & m & Hrun & Hrep & Hok & Hm);
    [apply Hcalm|done|done|by rewrite bool_decide_true|].
  krun Hrun. kapply Hrel. exists cs. split; [|done].
  set (s1 := set k_hw _ _). assert (s1 = free <| k_cons := cs |>) as -> by by subst s1; destruct s.
  assert (ilock (Some ip) (free <| k_cons := cs |>) = Done tt (s <| k_cons := cs |>)) as Hlock.
  { unfold ilock. kapply Hget. rewrite (proj2 (Z.ltb_ge _ _)) by lia.
    set (s2 := free <| k_cons := cs |>). assert (calm (k_hw s2) (k_ptable s2) pid) as Hcalm2 by exact Hcalm.
    krun (acquiresleep_run s2 pid (SL_inode ip) Hcalm2 Hb ltac:(subst s2 free; cbn; by rewrite sl_at_insert)).
    kapply Hget. rewrite (proj2 (Z.eqb_neq _ _) Hval). unfold when, mret, M_ret. f_equal. subst s2 free.
    change (set k_sleeplocks ?f (set k_cons ?g (set k_sleeplocks ?h s)))
      with ((set k_sleeplocks f (set k_sleeplocks h s)) <| k_cons := cs |>).
    rewrite set_set. f_equal. apply set_fix. rewrite sl_at_insert, insert_insert_eq. by apply insert_id. }
  krun Hlock. unfold mret, M_ret. rewrite app_nil_r, rev_involutive. do 2 f_equal.
  destruct (Z.ltb_spec 0 n); lia.
Qed.

(** C9: The console is a line editor.  From a state where nobody holds the locks and
    the process holds its console inode, let the keyboard interrupt bring any keys
    but the one that dumps the process table, and let the process read.  The input ring, with its
    three wrapping indices, then holds what the editor [edit] gives on those keys:
    erased characters are gone, a killed line is gone, a line becomes readable only
    when it is complete or the ring is full, and nothing is lost or duplicated.  The
    read returns exactly what [read_ready] takes of the readable lines, its count is
    the number of bytes, the remaining input stays, and nothing else changes but the sleepers
    on the input, which are woken. *)
Theorem console_line_editor s pid ip ed keys n bytes rest :
  calm (k_hw s) (k_ptable s) pid -> cons_ok (k_cons s) -> input_rep (k_cons s) ed -> inode_held s pid ip ->
  Forall (fun c => 0 <= c < 256 /\ c <> ctrl 80) keys -> 0 <= n ->
  read_ready (Z.to_nat n) false (foldl edit ed keys).1 = Some (bytes, rest) ->
  exists cs t,
    (consoleintr keys ;; consoleread ip n) s = Done (Z.of_nat (length bytes), bytes) (s <| k_cons := cs |> <| k_ptable := t |>)
    /\ input_rep cs (rest, (foldl edit ed keys).2)
    /\ (t = k_ptable s \/ t = map (wake (Some CH_input)) (k_ptable s)).
Proof.
  intros Hcalm Hc Hi [Hn1 Hn2 Hn3] Hk Hn Hread.
  destruct (consoleintr_run s pid ed keys) as (cs & t & Hrun & Hc' & Hi' & Hcalm' & Ht); [done..|]. krun Hrun.
  destruct (foldl edit ed keys) as [ready line].
  destruct (consoleread_run (edited s cs t) pid ip ready line n bytes rest) as (cs' & Hrun' & _ & Hrest); [done..|].
  exists cs', t. split; [|done]. rewrite Hrun'. by destruct s.
Qed.

End editor.
