(* ===== verification/Fs.v ===== *)
(** The upper half of fs.c: the content of inodes, directories and path names.

    A path or a name is the list of its bytes; reading past the end of it reads 0.
    [readi] gives its result together with the bytes it stored at [dst]; [writei]
    takes the bytes at [src]. *)
From S2P Require Import Prelude Kernel Spinlock Console CString Kalloc Proc Sleeplock Disk Bytes Bio Log Inode ConsoleIo.

Section fs.
Context {E : Env} {D : Disk}.

(** ** Reading and writing *)

Definition get_devsw (major : Z) : K devsw_entry :=
  l ← gets k_devsw ; deref "devsw" (l !! Z.to_nat major).

(** [for(tot=0; tot<n; tot+=m, off+=m, dst+=m)] of [readi]; every round reads to the end
    of a block, so one round for each block of the range suffices. *)
Fixpoint readi_loop (rounds : nat) (ip : nat) (off n tot : Z) (acc : list Z) : K (list Z) :=
  match rounds with
  | O => stop_with OutOfFuel
  | S rounds' =>
      if tot <? n then
        i ← get_inode ip ;
        b ← bmap ip (off / BSIZE) ;
        bp ← bread (i_dev i) b ;
        let m := Z.min (n - tot) (BSIZE - off mod BSIZE) in
        d ← get_data bp ;
        brelse bp ;;
        readi_loop rounds' ip (off + m) n (tot + m) (acc ++ sub (Z.to_nat (off mod BSIZE)) (Z.to_nat m) d)
      else mret acc
  end.
Definition io_rounds (n : Z) : nat := Z.to_nat (n / BSIZE) + 3.

Definition readi (ip : nat) (off n : Z) : K (Z * list Z) :=
  i ← get_inode ip ;
  if i_type i =? T_DEV then
    if (i_major i <? 0) || (NDEV <=? i_major i) then mret (-1, []) else
    d ← get_devsw (i_major i) ;
    match dv_read d with
    | None => mret (-1, [])
    | Some consoleread_fn => consoleread ip (i32 n)
    | Some consolewrite_fn => fault "devsw.read"
    end
  else
    if (i_size i <? off) || (u32 (off + n) <? off) then mret (-1, []) else
    let n := if i_size i <? off + n then i_size i - off else n in
    l ← readi_loop (io_rounds n) ip off n 0 [] ;
    mret (i32 n, l).

(** The loop of [writei]; the result is the offset it ends at. *)
Fixpoint writei_loop (rounds : nat) (ip : nat) (off n tot : Z) (src : list Z) : K Z :=
  match rounds with
  | O => stop_with OutOfFuel
  | S rounds' =>
      if tot <? n then
        i ← get_inode ip ;
        b ← bmap ip (off / BSIZE) ;
        bp ← bread (i_dev i) b ;
        let m := Z.min (n - tot) (BSIZE - off mod BSIZE) in
        upd_data bp (splice (Z.to_nat (off mod BSIZE)) (take (Z.to_nat m) src)) ;;
        log_write bp ;;
        brelse bp ;;
        writei_loop rounds' ip (off + m) n (tot + m) (drop (Z.to_nat m) src)
      else mret off
  end.

Definition writei (ip : nat) (src : list Z) (off n : Z) : K Z :=
  i ← get_inode ip ;
  if i_type i =? T_DEV then
    if (i_major i <? 0) || (NDEV <=? i_major i) then mret (-1) else
    d ← get_devsw (i_major i) ;
    match dv_write d with
    | None => mret (-1)
    | Some consolewrite_fn => consolewrite ip src (i32 n)
    | Some consoleread_fn => fault "devsw.write"
    end
  else
    if (i_size i <? off) || (u32 (off + n) <? off) then mret (-1) else
    if MAXFILE * BSIZE <? off + n then mret (-1) else
    off ← writei_loop (io_rounds n) ip off n 0 src ;
    i ← get_inode ip ;
    when ((0 <? n) && (i_size i <? off))
      (upd_inode ip (fun i => i <| i_size := off |>) ;;
       iupdate ip) ;;
    mret (i32 n).

(** ** Directories *)

(** [struct dirent] *)
Definition DIRENT_SIZE : Z := 16.
Record dirent := Dirent { de_inum : Z; de_name : list Z }.
Definition dirent_of (l : list Z) : dirent := Dirent (get16 l 0) (drop 2 l).
Definition dirent_bytes (de : dirent) : list Z := le 2 (de_inum de) ++ de_name de.

Definition namecmp (s t : list Z) : Z := strncmp s t (Z.to_nat DIRSIZ).

(** [for(off = 0; off < dp->size; off += sizeof(de))], with the error of a short read. *)
Definition offsets (size : Z) : list Z := map (Z.mul DIRENT_SIZE) (seqZ 0 ((size + DIRENT_SIZE - 1) / DIRENT_SIZE)).
Definition read_dirent (dp : nat) (off : Z) (err : string) : K dirent :=
  '(r, l) ← readi dp off DIRENT_SIZE ;
  if negb (r =? DIRENT_SIZE) then panic err else mret (dirent_of l).

(** The inode found, with the offset of its entry. *)
Definition dirlookup (dp : nat) (name : list Z) : K (option (nat * Z)) :=
  d ← get_inode dp ;
  if negb (i_type d =? T_DIR) then panic "dirlookup not DIR" else
  for_find (offsets (i_size d)) (fun off =>
    de ← read_dirent dp off "dirlookup read" ;
    if de_inum de =? 0 then mret None else
    if namecmp name (de_name de) =? 0 then
      d ← get_inode dp ;
      ip ← iget (i_dev d) (de_inum de) ;
      mret (Some (ip, off))
    else mret None).

Definition dirlink (dp : nat) (name : list Z) (inum : Z) : K Z :=
  o ← dirlookup dp name ;
  match o with
  | Some (ip, _) => iput ip ;; mret (-1)
  | None =>
      d ← get_inode dp ;
      o ← for_find (offsets (i_size d)) (fun off =>
        de ← read_dirent dp off "dirlink read" ;
        mret (if de_inum de =? 0 then Some off else None)) ;
      let off := default (DIRENT_SIZE * ((i_size d + DIRENT_SIZE - 1) / DIRENT_SIZE)) o in
      let de := Dirent (u16 inum) (strncpy (replicate (Z.to_nat DIRSIZ) 0) name DIRSIZ) in
      r ← writei dp (dirent_bytes de) off DIRENT_SIZE ;
      if negb (r =? DIRENT_SIZE) then panic "dirlink" else mret 0
  end.

(** ** Paths *)

(** [while( *path == '/' ) path++;] *)
Fixpoint skip_slashes (path : list Z) : list Z :=
  match path with c :: path' => if c =? 47 then skip_slashes path' else path | [] => [] end.

(** [while( *path != '/' && *path != 0 ) path++;]: the element and what follows it. *)
Fixpoint take_elem (path : list Z) : list Z * list Z :=
  match path with
  | [] => ([], [])
  | c :: path' =>
      if (c =? 47) || (c =? 0) then ([], path)
      else let '(s, rest) := take_elem path' in (c :: s, rest)
  end.

(** The rest of the path, and the array [name]. *)
Definition skipelem (path name : list Z) : option (list Z * list Z) :=
  let path := skip_slashes path in
  if at_ path 0 =? 0 then None else
  let '(s, path) := take_elem path in
  let len := Z.of_nat (length s) in
  let name := if DIRSIZ <=? len then splice 0 (take (Z.to_nat DIRSIZ) s) name
              else <[length s := 0]> (splice 0 s name) in
  Some (skip_slashes path, name).

(** [while((path = skipelem(path, name)) != 0)]; every round takes a byte off the path. *)
Fixpoint namex_loop (rounds : nat) (ip : nat) (path : list Z) (nameiparent : bool) (name : list Z)
    : K (option nat * list Z) :=
  match rounds with
  | O => stop_with OutOfFuel
  | S rounds' =>
      match skipelem path name with
      | None =>
          if nameiparent then iput ip ;; mret (None, name) else mret (Some ip, name)
      | Some (path, name) =>
          ilock (Some ip) ;;
          i ← get_inode ip ;
          if negb (i_type i =? T_DIR) then iunlockput ip ;; mret (None, name) else
          if nameiparent && (at_ path 0 =? 0) then iunlock (Some ip) ;; mret (Some ip, name) else
          next ← dirlookup ip name ;
          match next with
          | None => iunlockput ip ;; mret (None, name)
          | Some (next, _) => iunlockput ip ;; namex_loop rounds' next path nameiparent name
          end
      end
  end.

Definition namex (path : list Z) (nameiparent : bool) (name : list Z) : K (option nat * list Z) :=
  ip ← (if at_ path 0 =? 47 then iget ROOTDEV ROOTINO
        else p ← curproc ; pr ← get_proc p ; cwd ← deref "myproc()->cwd" (p_cwd pr) ; idup cwd) ;
  namex_loop (S (length path)) ip path nameiparent name.

(** [char name[DIRSIZ]], whose bytes are read only after they are written. *)
Definition name_buf : list Z := replicate (Z.to_nat DIRSIZ) 0.

Definition namei (path : list Z) : K (option nat) := r ← namex path false name_buf ; mret r.1.
Definition nameiparent (path : list Z) : K (option nat * list Z) := namex path true name_buf.

End fs.

(** ** Path names *)

(** The parts of [l] between the separators [c]. *)
Fixpoint split (c : Z) (l : list Z) : list (list Z) :=
  match l with
  | [] => [[]]
  | x :: l' =>
      if x =? c then [] :: split c l' else
      match split c l' with h :: t => (x :: h) :: t | [] => [[x]] end
  end.

(** The elements of a path: the parts between slashes that are not empty. *)
Definition elems (path : list Z) : list (list Z) := filter (fun e => e <> []) (split 47 (cstring path)).

(** The names [skipelem] gives, one after the other. *)
Fixpoint walk (rounds : nat) (path name : list Z) : option (list (list Z)) :=
  match rounds with
  | O => None
  | S rounds' =>
      match skipelem path name with
      | None => Some []
      | Some (path, name) => cons (cstring name) <$> walk rounds' path name
      end
  end.

Lemma split_nonempty c l : split c l <> [].
Proof. destruct l as [|x l]; [done|]. cbn. destruct (x =? c); [done|]. by destruct (split c l). Qed.

Lemma elems_skip path : elems (skip_slashes path) = elems path.
Proof.
  induction path as [|c path IH]; [done|]. cbn [skip_slashes]. destruct (Z.eqb_spec c 47) as [->|Hc]; [|done].
  rewrite IH. unfold elems.
  assert (split 47 (cstring (47 :: path)) = [] :: split 47 (cstring path)) as -> by done.
  by rewrite filter_cons_False by auto.
Qed.

Lemma skip_slashes_length path : (length (skip_slashes path) <= length path)%nat.
Proof. induction path as [|c path IH]; [done|]. cbn. destruct (c =? 47); cbn; lia. Qed.

(** The end of an element: a slash, a 0 or the end of the list. *)
Definition at_end (l : list Z) : Prop := at_ l 0 = 47 \/ at_ l 0 = 0.

Lemma take_elem_spec path e rest :
  take_elem path = (e, rest) ->
  path = e ++ rest /\ Forall (fun c => c <> 47 /\ c <> 0) e /\ at_end rest.
Proof.
  revert e rest. induction path as [|c path IH]; intros e rest; cbn.
  { intros. simplify_eq. split_and!; [done|done|by right]. }
  destruct ((c =? 47) || (c =? 0)) eqn:Hc.
  - intros. simplify_eq. split_and!; [done|done|]. unfold at_end. cbn. lia.
  - destruct (take_elem path) as [s r] eqn:Ht. intros. simplify_eq.
    destruct (IH _ _ eq_refl) as (-> & Hs & Hr). apply orb_false_iff in Hc as [H1 H2].
    split_and!; [done| |done]. constructor; [lia|done].
Qed.

Lemma cstring_app e l : Forall (fun c => c <> 47 /\ c <> 0) e -> cstring (e ++ l) = e ++ cstring l.
Proof.
  induction 1 as [|c e [_ Hc] _ IH]; [done|]. cbn. unfold nz. by rewrite (proj2 (Z.eqb_neq _ _) Hc), IH.
Qed.

Lemma elems_app e rest :
  e <> [] -> Forall (fun c => c <> 47 /\ c <> 0) e -> at_end rest -> elems (e ++ rest) = e :: elems rest.
Proof.
  intros He Hf Hr. unfold elems. rewrite cstring_app by done.
  assert (exists t, split 47 (cstring rest) = [] :: t) as [t Ht].
  { destruct rest as [|c rest]; [by eexists|]. destruct Hr as [Hr|Hr]; cbn in Hr; subst c; cbn; by eexists. }
  assert (split 47 (e ++ cstring rest) = e :: t) as ->.
  { clear He. induction Hf as [|c e [Hc _] _ IH]; [done|]. cbn.
    by rewrite (proj2 (Z.eqb_neq _ _) Hc), IH. }
  rewrite Ht, filter_cons_True by done. by rewrite (filter_cons_False _ []) by auto.
Qed.

Lemma skip_slashes_head path : at_ (skip_slashes path) 0 <> 47.
Proof. induction path as [|c path IH]; [done|]. cbn. destruct (Z.eqb_spec c 47); [done|]. by cbn. Qed.

(** A path that does not start with a slash or end here has a first element. *)
Lemma first_elem path e rest :
  at_ path 0 <> 47 -> at_ path 0 <> 0 -> take_elem path = (e, rest) ->
  path = e ++ rest /\ elems path = e :: elems rest /\ e <> [] /\ Forall (fun c => c <> 47 /\ c <> 0) e.
Proof.
  intros H47 H0 (-> & Hf & Hr)%take_elem_spec.
  assert (e <> []) as Hne by (intros ->; destruct Hr as [Hr|Hr]; cbn in *; congruence).
  by rewrite elems_app.
Qed.

Lemma elems_nil path : at_ (skip_slashes path) 0 = 0 <-> elems path = [].
Proof.
  rewrite <- elems_skip. split.
  - destruct (skip_slashes path) as [|c l]; [done|]. cbn. by intros ->.
  - intros He. destruct (decide (at_ (skip_slashes path) 0 = 0)) as [|H0]; [done|].
    destruct (take_elem (skip_slashes path)) as [e rest] eqn:Ht.
    apply first_elem in Ht as (_ & He' & _); [congruence|apply skip_slashes_head|done].
Qed.

(** The array [name] after an element is copied to it. *)
Lemma name_cstring e name :
  length name = Z.to_nat DIRSIZ -> Forall (fun c => c <> 47 /\ c <> 0) e ->
  let name' := if DIRSIZ <=? Z.of_nat (length e) then splice 0 (take (Z.to_nat DIRSIZ) e) name
               else <[length e := 0]> (splice 0 e name) in
  cstring name' = take (Z.to_nat DIRSIZ) e /\ length name' = Z.to_nat DIRSIZ.
Proof.
  intros Hn He. unfold splice. rewrite take_0. cbn [app Nat.add]. destruct (Z.leb_spec DIRSIZ (Z.of_nat (length e))) as [Hl|Hl].
  - rewrite drop_ge by (rewrite length_take; lia).
    rewrite cstring_app by by apply Forall_take. cbn. rewrite !app_nil_r, length_take. split; [done|lia].
  - rewrite insert_app_r_alt, Nat.sub_diag by lia. rewrite length_app, length_insert, length_drop.
    rewrite (cstring_app e) by done. rewrite (take_ge e) by lia. split; [|lia].
    destruct (drop (length e) name) as [|c l] eqn:Hd; cbn; [by rewrite app_nil_r|by rewrite app_nil_r].
Qed.

(** One step: the first element is copied to [name] and the rest of the path has the
    others; it is empty exactly when there are none, which is how [namex] recognises
    the last element. *)
Lemma skipelem_spec path name :
  length name = Z.to_nat DIRSIZ ->
  match skipelem path name with
  | None => elems path = []
  | Some (rest, name') =>
      exists e, elems path = e :: elems rest /\ cstring name' = take (Z.to_nat DIRSIZ) e
        /\ length name' = Z.to_nat DIRSIZ /\ (length rest < length path)%nat
        /\ (at_ rest 0 = 0 <-> elems rest = [])
  end.
Proof.
  intros Hn. unfold skipelem. pose proof (skip_slashes_length path) as Hlen.
  destruct (Z.eqb_spec (at_ (skip_slashes path) 0) 0) as [H0|H0]; [by apply elems_nil|].
  destruct (take_elem (skip_slashes path)) as [e rest] eqn:Ht.
  apply first_elem in Ht as (Hp & He & Hne & Hf); [|apply skip_slashes_head|done].
  exists e. rewrite elems_skip, <- (elems_skip path). split; [done|].
  destruct (name_cstring e name Hn Hf) as [Hc Hl]. split; [done|]. split; [done|]. split.
  - pose proof (skip_slashes_length rest). rewrite Hp, length_app in Hlen. destruct e; [done|]. cbn in *. lia.
  - apply elems_nil.
Qed.

Lemma walk_spec rounds path name :
  length name = Z.to_nat DIRSIZ -> (length path < rounds)%nat ->
  walk rounds path name = Some (map (take (Z.to_nat DIRSIZ)) (elems path)).
Proof.
  revert path name. induction rounds as [|n IH]; intros path name Hn Hr; [lia|]. cbn [walk].
  pose proof (skipelem_spec path name Hn) as Hs. destruct (skipelem path name) as [[rest name']|]; [|by rewrite Hs].
  destruct Hs as (e & -> & Hc & Hl & Hlen & _). rewrite (IH rest name') by (done || lia). cbn. by rewrite Hc.
Qed.

(** C28: path names are parsed element by element.  From any path, [skipelem] gives its
    elements, the parts between slashes that are not empty, in order and cut to
    [DIRSIZ] bytes, and then ends, within the rounds that [namex] allows; and what
    remains of the path is empty exactly after the last element, which is where
    [nameiparent] stops. *)
Theorem path_elements path :
  walk (S (length path)) path name_buf = Some (map (take (Z.to_nat DIRSIZ)) (elems path))
  /\ match skipelem path name_buf with
     | Some (rest, _) => at_ rest 0 = 0 <-> length (elems path) = 1%nat
     | None => elems path = []
     end.
Proof.
  split; [apply walk_spec; [done|lia]|].
  pose proof (skipelem_spec path name_buf eq_refl) as H. destruct (skipelem path name_buf) as [[rest name]|]; [|done].
  destruct H as (e & -> & _ & _ & _ & ->). cbn [length]. split; [by intros ->|].
  destruct (elems rest); [done|]. cbn. lia.
Qed.
