(* ===== verification/FileBlocks.v ===== *)
(** The blocks of a file.

    A file's content lies in its blocks in order, 512 bytes in each; the inode has the
    addresses of the first twelve and of the indirect block, which has the addresses of
    the others.  Shared by the kernel's file system and the program that builds its image. *)
From S2P Require Import Prelude Kernel Disk CString Bytes Inode.

(** ** Files and their addresses *)

(** A file: its content, the blocks that hold it in order, and its indirect block or 0. *)
Record fent := Fent { fe_type : Z; fe_data : list Z; fe_blks : list Z; fe_ind : Z }.
#[export] Instance eta_fent : Eta fent := fun r => Fent (fe_type r) (fe_data r) (fe_blks r) (fe_ind r).

Definition pad (l : list Z) : block := l ++ replicate (512 - length l) 0.
Definition chunk (data : list Z) (k : nat) : list Z := sub (512 * k) 512 data.

Definition addrs_of (f : fent) : list Z := take 12 (fe_blks f ++ replicate 12 0) ++ [fe_ind f].
Definition owned (f : fent) : list Z := fe_blks f ++ (if fe_ind f =? 0 then [] else [fe_ind f]).

(** *** The addresses *)

Lemma addrs_direct f k : (k < 12)%nat -> addrs_of f !! k = Some (default 0 (fe_blks f !! k)).
Proof.
  intros Hk. unfold addrs_of. rewrite lookup_app_l by (rewrite length_take, length_app, length_replicate; lia).
  rewrite lookup_take_lt by done. destruct (fe_blks f !! k) as [b|] eqn:Hb.
  - by rewrite lookup_app_l by (by eapply lookup_lt_Some).
  - rewrite lookup_app_r by (by apply lookup_ge_None). rewrite lookup_replicate_2; [done|lia].
Qed.

Lemma addrs_indirect f : addrs_of f !! 12%nat = Some (fe_ind f).
Proof.
  unfold addrs_of. rewrite lookup_app_r by (rewrite length_take, length_app, length_replicate; lia).
  rewrite length_take, length_app, length_replicate. replace (12 - 12 `min` (length (fe_blks f) + 12))%nat with 0%nat by lia. done.
Qed.

Lemma length_addrs f : length (addrs_of f) = 13%nat.
Proof. unfold addrs_of. rewrite length_app, length_take, length_app, length_replicate. cbn [length]. lia. Qed.

(** The list of the addresses after a block is added. *)
Lemma addrs_push f b :
  (length (fe_blks f) < 12)%nat ->
  <[length (fe_blks f) := b]> (addrs_of f) = addrs_of (f <| fe_blks ::= fun l => l ++ [b] |>).
Proof.
  intros Hl. unfold addrs_of. cbn [fe_blks fe_ind set]. rewrite insert_app_l by (rewrite length_take, length_app, length_replicate; lia).
  f_equal. change (fe_blks (f <| fe_blks ::= fun l => l ++ [b] |>)) with (fe_blks f ++ [b]). set (l := fe_blks f) in *.
  rewrite !take_app_ge by (rewrite ?length_app; cbn; lia). rewrite length_app. cbn [length].
  rewrite insert_app_r_alt, Nat.sub_diag by lia. rewrite <- (assoc_L (++)). f_equal.
  rewrite !take_replicate. replace (12 - length l)%nat with (S (11 - length l)) by lia.
  replace (S (11 - length l) `min` 12)%nat with (S (11 - length l)) by lia.
  replace ((12 - (length l + 1)) `min` 12)%nat with (11 - length l)%nat by lia. done.
Qed.

Lemma addrs_indirect_push f ind b :
  (12 <= length (fe_blks f))%nat ->
  take 12 (fe_blks f) ++ [ind] = addrs_of (f <| fe_blks ::= fun l => l ++ [b] |> <| fe_ind := ind |>).
Proof.
  intros Hn. set (f' := set fe_ind _ _). unfold addrs_of. change (fe_ind f') with ind. change (fe_blks f') with (fe_blks f ++ [b]).
  by rewrite <- (assoc_L (++)), take_app_le.
Qed.

Lemma addrs_long f : (12 <= length (fe_blks f))%nat -> addrs_of f = take 12 (fe_blks f) ++ [fe_ind f].
Proof. intros Hn. unfold addrs_of. by rewrite take_app_le. Qed.

Lemma zero_words k : (k < 128)%nat -> get32 zero_block (4 * k) = 0.
Proof.
  intros Hk. pose proof (proj1 (Forall_forall (fun k => get32 zero_block (4 * k) = 0) (seq 0 128)) ltac:(apply (bool_decide_unpack _); vm_compute; done) k) as H.
  apply H, elem_of_seq. lia.
Qed.

(** ** Lengths and blocks *)

(** Quotient and remainder of a length by the size of a block. *)
Lemma blocks_of n : (n = 512 * (n / 512) + n mod 512 /\ n mod 512 < 512)%nat.
Proof. split; [apply Nat.div_mod_eq|]. apply Nat.mod_upper_bound. lia. Qed.

(** The blocks a file of so many bytes needs, and with the indirect block. *)
Definition nblk (n : nat) : nat := ((n + 511) / 512)%nat.
Definition cost (m : nat) : Z := Z.of_nat m + (if (12 <? m)%nat then 1 else 0).
Definition tight (f : fent) : Prop := length (fe_blks f) = nblk (length (fe_data f)).

Lemma nblk_spec n m : nblk n = m <-> (512 * m < n + 512 /\ n <= 512 * m)%nat.
Proof. unfold nblk. destruct (blocks_of (n + 511)) as [H1 H2]. lia. Qed.

Lemma nblk_bounds n : (512 * nblk n < n + 512 /\ n <= 512 * nblk n)%nat.
Proof. by apply nblk_spec. Qed.

Lemma nblk_mono n m : (n <= m)%nat -> (nblk n <= nblk m)%nat.
Proof. intros. pose proof (nblk_bounds n). pose proof (nblk_bounds m). lia. Qed.

Lemma nblk_max n m : nblk (Nat.max n m) = Nat.max (nblk n) (nblk m).
Proof. pose proof (nblk_bounds n). pose proof (nblk_bounds m). apply nblk_spec. lia. Qed.

Lemma cost_mono n m : (n <= m)%nat -> cost n <= cost m.
Proof. intros. unfold cost. destruct (Nat.ltb_spec 12 n), (Nat.ltb_spec 12 m); lia. Qed.


(** The blocks that are allocated for block [fbn] of [f]. *)
Definition need (f : fent) (fbn : nat) : Z :=
  if (fbn <? length (fe_blks f))%nat then 0 else if (fbn =? 12)%nat then 2 else 1.

Lemma need_cost f fbn :
  (fbn <= length (fe_blks f))%nat -> need f fbn = cost (Nat.max (length (fe_blks f)) (S fbn)) - cost (length (fe_blks f)).
Proof.
  intros H. unfold need, cost. destruct (Nat.ltb_spec fbn (length (fe_blks f))) as [Hlt|Hge].
  - rewrite Nat.max_l by lia. lia.
  - assert (fbn = length (fe_blks f)) as -> by lia. rewrite Nat.max_r by lia.
    destruct (Nat.eqb_spec (length (fe_blks f)) 12), (Nat.ltb_spec 12 (S (length (fe_blks f)))), (Nat.ltb_spec 12 (length (fe_blks f))); lia.
Qed.

(** ** The bitmap *)

Abbreviation mark_bit d i := (set8 d (bit_byte i) (Z.lor (get8 d (bit_byte i)) (bit_mask i))).

Lemma nz_bit x k : 0 <= k -> nz (Z.land x (Z.shiftl 1 k)) = Z.testbit x k.
Proof.
  intros Hk. rewrite Z.shiftl_1_l. assert (Z.testbit (Z.land x (2 ^ k)) k = Z.testbit x k) as E.
  { by rewrite Z.land_spec, Z.pow2_bits_true, andb_true_r. }
  destruct (Z.testbit x k) eqn:Ex.
  - apply nz_true. intros E0. by rewrite E0, Z.bits_0 in E.
  - apply nz_false. apply Z.bits_inj_0. intros n. rewrite Z.land_spec, Z.pow2_bits_eqb by done.
    destruct (Z.eqb_spec k n) as [<-|]; [by rewrite Ex|apply andb_false_r].
Qed.

Lemma bit_set_testbit d b : 0 <= b -> bit_set d b = Z.testbit (get8 d (bit_byte b)) (b mod 8).
Proof. intros Hb. apply nz_bit. apply Z.mod_pos_bound. lia. Qed.

Lemma bit_set_mark d i b :
  length d = 512%nat -> 0 <= i < 4096 -> 0 <= b < 4096 -> bit_set (mark_bit d i) b = bit_set d b || (i =? b).
Proof.
  intros Hd Hi Hb. rewrite !bit_set_testbit by lia. pose proof (Z.mod_pos_bound b 8). pose proof (Z.mod_pos_bound i 8).
  assert (0 <= i / 8 < 512 /\ 0 <= b / 8 < 512) as [? ?] by (Z.div_mod_to_equations; lia).
  destruct (decide (i / 8 = b / 8)) as [E|E].
  - replace (bit_byte i) with (bit_byte b) by (unfold bit_byte; by rewrite E). rewrite get8_set8 by (unfold bit_byte; lia).
    unfold u8. change 256 with (2 ^ 8). rewrite Z.mod_pow2_bits_low by lia. rewrite Z.lor_spec. f_equal. unfold bit_mask.
    rewrite Z.shiftl_1_l, Z.pow2_bits_eqb by lia. apply eq_true_iff_eq. rewrite !Z.eqb_eq. Z.div_mod_to_equations. lia.
  - rewrite get8_set8_other by (unfold bit_byte; lia). rewrite (proj2 (Z.eqb_neq i b)) by (by intros ->). by rewrite orb_false_r.
Qed.

(** ** Content and blocks *)

(** The block of the disk that holds block [bn] of a file with these addresses. *)
Definition fblock (view : Z -> block) (addrs : list Z) (bn : nat) : Z :=
  if (bn <? 12)%nat then default 0 (addrs !! bn) else get32 (view (default 0 (addrs !! 12%nat))) (4 * (bn - 12)).

(** The blocks of the disk, as [view] has them, hold the file [f]; what the last block
    has after the end of the file does not matter. *)
Record stored (view : Z -> block) (f : fent) : Prop := Stored {
  sd_max : (length (fe_blks f) <= 140)%nat;
  sd_len : (length (fe_data f) <= 512 * length (fe_blks f))%nat;
  sd_ind : fe_ind f = 0 <-> (length (fe_blks f) <= 12)%nat;
  sd_table : fe_ind f <> 0 -> forall k, (k < 128)%nat ->
    get32 (view (fe_ind f)) (4 * k) = default 0 (fe_blks f !! (12 + k)%nat);
  sd_data : forall k b, fe_blks f !! k = Some b -> take (length (chunk (fe_data f) k)) (view b) = chunk (fe_data f) k
}.

Lemma owned_blk f k b : fe_blks f !! k = Some b -> b ∈ owned f.
Proof. intros H. apply elem_of_app. left. by eapply list_elem_of_lookup_2. Qed.
Lemma owned_ind f : fe_ind f <> 0 -> fe_ind f ∈ owned f.
Proof. intros H. apply elem_of_app. right. rewrite (proj2 (Z.eqb_neq _ _) H). by left. Qed.

Lemma stored_frame view view' f : (forall b, b ∈ owned f -> view' b = view b) -> stored view f -> stored view' f.
Proof.
  intros Hv [H1 H2 H3 H4 H5]. split; [done..| |].
  - intros Hn k Hk. rewrite Hv by by apply owned_ind. by apply H4.
  - intros k b Hb. rewrite Hv by by eapply owned_blk. by apply H5.
Qed.

Lemma fblock_blk view f k b : stored view f -> fe_blks f !! k = Some b -> fblock view (addrs_of f) k = b.
Proof.
  intros [Hmax _ Hind Htab _] Hb. pose proof (lookup_lt_Some _ _ _ Hb). unfold fblock. destruct (Nat.ltb_spec k 12).
  - rewrite addrs_direct by done. by rewrite Hb.
  - rewrite addrs_indirect. change (default 0 (Some (fe_ind f))) with (fe_ind f).
    rewrite Htab by (lia || (intros ?%Hind; lia)). replace (12 + (k - 12))%nat with k by lia. by rewrite Hb.
Qed.

Lemma sub_app o a m (l : list Z) : sub o a l ++ sub (o + a) m l = sub o (a + m) l.
Proof. unfold sub. by rewrite <- take_take_drop, drop_drop. Qed.

(** A piece of a block is a piece of the file. *)
Lemma stored_sub view f k b r m :
  stored view f -> fe_blks f !! k = Some b -> (r + m <= 512)%nat -> (512 * k + r + m <= length (fe_data f))%nat ->
  sub r m (view b) = sub (512 * k + r) m (fe_data f).
Proof.
  intros Hs Hb Hm Hl. pose proof (sd_data _ _ Hs k b Hb) as Hc. set (c := chunk (fe_data f) k) in *.
  assert (r + m <= length c)%nat as Hcl by (unfold c, chunk, sub; rewrite length_take, length_drop; lia).
  transitivity (sub r m c).
  - rewrite <- Hc. unfold sub. rewrite skipn_firstn_comm, take_take. f_equal. lia.
  - unfold c, chunk, sub. rewrite skipn_firstn_comm, take_take, drop_drop. f_equal. lia.
Qed.

(** Writing [q] within block [k]. *)
Lemma chunk_splice data k r q :
  (r + length q <= 512)%nat -> (512 * k + r <= length data)%nat ->
  chunk (splice (512 * k + r) q data) k = splice r q (chunk data k)
  /\ forall j, j <> k -> chunk (splice (512 * k + r) q data) j = chunk data j.
Proof.
  intros Hq Hl. split.
  - unfold chunk, sub, splice. rewrite !skipn_firstn_comm, drop_app_le by (rewrite length_take; lia). rewrite skipn_firstn_comm.
    replace (512 * k + r - 512 * k)%nat with r by lia. rewrite take_app_ge by (rewrite length_take, length_drop; lia).
    rewrite length_take, length_drop. replace (r `min` (length data - 512 * k))%nat with r by lia. rewrite take_take.
    replace (r `min` 512)%nat with r by lia. f_equal. rewrite take_app_ge by lia. f_equal. rewrite drop_drop. f_equal; [lia|]. f_equal. lia.
  - intros j Hj. unfold chunk, sub, splice. destruct (decide (j < k)%nat) as [Hlt|Hge].
    + rewrite drop_app_le by (rewrite length_take; lia). rewrite take_app_le by (rewrite length_drop, length_take; lia).
      rewrite skipn_firstn_comm, take_take. f_equal. lia.
    + rewrite drop_app_ge by (rewrite length_take; lia). rewrite length_take. replace ((512 * k + r) `min` length data)%nat with (512 * k + r)%nat by lia.
      rewrite drop_app_ge by lia. rewrite drop_drop. do 2 f_equal. lia.
Qed.

Lemma length_splice_max o q (data : list Z) : (o <= length data)%nat -> length (splice o q data) = Nat.max (length data) (o + length q).
Proof. intros H. unfold splice. rewrite !length_app, length_take, length_drop. lia. Qed.

Lemma take_splice_chunk (c d : list Z) r q :
  length d = 512%nat -> take (length c) d = c -> (length c <= 512)%nat -> (r + length q <= 512)%nat -> (r <= length c)%nat ->
  take (length (splice r q c)) (splice r q d) = splice r q c.
Proof.
  intros Hd Hc Hl Hq Hr. rewrite length_splice_max by done. unfold splice.
  assert (take r d = take r c) as E1 by (rewrite <- Hc, take_take; f_equal; lia).
  rewrite <- E1. rewrite take_app_ge by (rewrite length_take; lia). f_equal. rewrite length_take.
  rewrite take_app_ge by lia. f_equal. rewrite <- Hc at 2. rewrite skipn_firstn_comm. f_equal. lia.
Qed.
