(* ===== verification/FsContent.v ===== *)
(** What the file system does with the content of files: the functions of fs.c between
    [begin_op] and [end_op].

    [tx] describes a state inside an operation in which no other thread stands in the way:
    the blocks as the cache shows them ([view]), the buffers the process holds, the blocks
    logged so far ([dirty]) and the inodes in memory; the disk itself does not change.  On it
    rest the specifications of [balloc], [bmap], [readi], [writei] and [iupdate]. *)
From S2P Require Import Prelude Kernel Spinlock Console CString Kalloc Proc Sleeplock Disk Bytes Bio Log Inode ConsoleIo Fs FileBlocks.

(** A search that only reads. *)
Fixpoint first_some {A R} (g : A -> option R) (l : list A) : option R :=
  match l with [] => None | x :: l' => match g x with Some r => Some r | None => first_some g l' end end.

Lemma for_find_pure {A R} (body : A -> K (option R)) g l s :
  (forall x, x ∈ l -> body x s = Done (g x) s) -> for_find l body s = Done (first_some g l) s.
Proof.
  induction l as [|x l IH]; intros H; [done|]. cbn [for_find first_some]. erewrite bind_done; [|apply H, list_elem_of_here]. cbv beta.
  destruct (g x); [done|]. apply IH. intros y Hy. apply H. by right.
Qed.

Lemma first_some_spec {A R} (g : A -> option R) l :
  match first_some g l with
  | Some r => exists x, x ∈ l /\ g x = Some r
  | None => forall x, x ∈ l -> g x = None
  end.
Proof.
  induction l as [|x l IH]; cbn [first_some]; [set_solver|]. destruct (g x) as [r|] eqn:Egx; [exists x; split; [by left|done]|].
  destruct (first_some g l) as [r|].
  - destruct IH as (y & Hy & ?). exists y. split; [by right|done].
  - intros y [->|Hy]%elem_of_cons; [done|by apply IH].
Qed.

(** ** Operations in progress *)

Section tx.
Context {E : Env} {D : Disk} `{!DiskLaws D}.

(** A block is logged once. *)
Definition ins (b : Z) (dirty : list Z) : list Z := if decide (b ∈ dirty) then dirty else dirty ++ [b].

(** The parts of the state that the file system does not change. *)
Definition rest (s : kernel) :=
  (k_hw s, k_cr3 s, k_tr s, k_gdtr s, k_cons s, k_kmem s, k_mem s, k_kpgdir s, k_ptable s, k_initproc s, k_nextpid s,
   k_first s, k_ctable s, k_containers s, k_schedulerLog s, k_memoryLog s, k_ticks s, k_writes s, k_havedisk1 s,
   k_idequeue s, k_sb s, k_ftable s, k_devsw s, k_pipes s, k_platform s).

(** The operation began in [s0] and is in [s]. *)
Record tx (s0 : kernel) (pid : Z) (dsk : Z -> block) (s : kernel) (view : Z -> block) (held : list (Z * nat))
    (dirty : list Z) (ic : list inode) : Prop := Tx {
  tx_cache : cache_ok s pid dsk view held dirty;
  tx_lists : log_lists s (lg_start (k_log s0)) dirty;
  tx_log : exists h, k_log s = (k_log s0) <| lg_lh := h |>;
  tx_ic : k_icache s = ic;
  tx_sl : inode_locks (k_sleeplocks s0) (k_sleeplocks s);
  tx_rest : rest s = rest s0
}.

Context (s0 : kernel) (pid : Z) (dsk : Z -> block).
Context (Hop : 1 <= lg_outstanding (k_log s0)) (Hsize : lg_size (k_log s0) = LOGSIZE).

Abbreviation T := (tx s0 pid dsk).

Lemma rest_frame s s' : cache_frame s s' -> k_writes s' = k_writes s -> rest s' = rest s.
Proof. intros [H1 _] H2. rewrite H2 in H1. by rewrite H1. Qed.

Lemma tx_step s s' view held dirty ic view' held' :
  T s view held dirty ic -> cache_ok s' pid dsk view' held' dirty -> cache_frame s s' -> k_writes s' = k_writes s ->
  T s' view' held' dirty ic.
Proof.
  intros [H1 H2 [h H3] H4 H5 H6] Hc Hf Hw. pose proof (cache_frame_log _ _ Hf) as El. split; [done|by eapply log_lists_frame| | | |].
  - exists h. by rewrite El.
  - destruct Hf as [-> _]. exact H4.
  - intros ip. destruct Hf as [_ Hsl]. by rewrite Hsl.
  - by rewrite (rest_frame s).
Qed.

Lemma tx_bread s view held dirty ic bno :
  T s view held dirty ic -> bno ∉ held.*1 -> bno < disksize -> (bno ∈ dirty \/ (length held + length dirty < NBUF)%nat) ->
  exists i s', bread 1 bno s = Done i s' /\ T s' view ((bno, i) :: held) dirty ic.
Proof.
  intros Ht Hn Hb Hroom. destruct (bread_spec s pid dsk view held dirty bno (tx_cache _ _ _ _ _ _ _ _ Ht) Hn Hb Hroom) as (i & s' & R & C & F & W & _).
  exists i, s'. split; [done|]. by eapply tx_step.
Qed.

Lemma tx_data s view held dirty ic bno i :
  T s view held dirty ic -> (bno, i) ∈ held -> get_data i s = Done (view bno) s.
Proof.
  intros Ht Hin. destruct (get_held s pid dsk view held dirty bno i (tx_cache _ _ _ _ _ _ _ _ Ht) Hin) as (b & R & _ & _ & Hd).
  unfold get_data. krun R. by rewrite Hd.
Qed.

Lemma tx_upd s view held dirty ic bno i f :
  T s view held dirty ic -> (bno, i) ∈ held -> exists s',
  upd_data i f s = Done tt s' /\ T s' (<[bno := f (view bno)]> view) held dirty ic.
Proof.
  intros Ht Hin. eexists. split; [done|]. eapply tx_step; [done|by apply update_ok; [apply Ht|]|apply cache_frame_bufs|done].
Qed.

Lemma tx_log_write s view held dirty ic bno i :
  T s view held dirty ic -> (bno, i) ∈ held -> Z.of_nat (length dirty) < LOGSIZE - 1 -> exists s',
  log_write i s = Done tt s' /\ T s' view held (ins bno dirty) ic.
Proof.
  intros [H1 H2 [h H3] H4 H5 H6] Hin Hl.
  destruct (log_write_run s pid dsk view held dirty (lg_start (k_log s0)) bno i H1 H2 Hin) as (h' & R & C & L).
  { by rewrite H3. } { lia. } { rewrite H3. change (lg_size ((k_log s0) <| lg_lh := h |>)) with (lg_size (k_log s0)). lia. }
  eexists. split; [exact R|]. split; [exact C|exact L| |exact H4|exact H5|].
  - exists h'. cbn. by rewrite H3.
  - exact H6.
Qed.

Lemma tx_brelse s view held dirty ic bno i :
  T s view ((bno, i) :: held) dirty ic -> bno ∈ dirty \/ view bno = dsk bno -> exists s',
  brelse i s = Done tt s' /\ T s' view held dirty ic.
Proof.
  intros Ht Hy. destruct (brelse_spec s pid dsk view [] held dirty bno i (tx_cache _ _ _ _ _ _ _ _ Ht) Hy) as (s' & R & C & F & W).
  exists s'. split; [done|]. by eapply tx_step.
Qed.

Lemma tx_sync s view held dirty ic bno : T s view held dirty ic -> bno ∉ held.*1 -> bno ∈ dirty \/ view bno = dsk bno.
Proof.
  intros Ht Hn. destruct (decide (bno ∈ dirty)); [by left|right]. eapply cache_sync; [apply Ht|done|done].
Qed.

Lemma elem_of_ins b dirty : b ∈ ins b dirty.
Proof. unfold ins. case_decide; [done|]. apply elem_of_app. right. by left. Qed.
Lemma ins_mono b dirty x : x ∈ dirty -> x ∈ ins b dirty.
Proof. unfold ins. case_decide; [done|]. intros. apply elem_of_app. by left. Qed.
Lemma length_ins b dirty : (length dirty <= length (ins b dirty) <= S (length dirty))%nat.
Proof. unfold ins. case_decide; [lia|]. rewrite length_app. cbn. lia. Qed.

(** ** Blocks *)

Section volume.
Context (sb : superblock) (Hsb : k_sb s0 = sb) (Hfit : 0 < sb_size sb <= BPB) (Hdisk : sb_size sb <= disksize).
Abbreviation bm := (sb_bmapstart sb).
(** The first block after the log. *)
Context (lo : Z) (Hlo : 0 <= lo) (Hbm : lo <= bm < sb_size sb).

(** The blocks logged are among [C], and [n] more can be logged with two buffers held. *)
Definition cap (dirty C : list Z) (n : nat) : Prop :=
  dirty ⊆ C /\ (length C + n <= 27)%nat /\ forall b, b ∈ C -> lo <= b < sb_size sb.

Lemma cap_ins b dirty C n : cap dirty C n -> b ∈ C -> cap (ins b dirty) C n.
Proof.
  intros [H1 [H2 H3]] Hb. split; [|done]. unfold ins. case_decide; [done|]. intros x [Hx|Hx]%elem_of_app; [by apply H1|].
  by apply list_elem_of_singleton in Hx as ->.
Qed.
Lemma cap_add b dirty C n : cap dirty C (S n) -> lo <= b < sb_size sb -> cap dirty (b :: C) n.
Proof.
  intros (H1 & H2 & H3) Hb. split_and!; [|cbn; lia|].
  - intros x Hx. right. by apply H1.
  - intros x [->|Hx]%elem_of_cons; [done|by apply H3].
Qed.
Lemma cap_le dirty C n m : cap dirty C n -> (m <= n)%nat -> cap dirty C m.
Proof. intros (H1 & H2 & H3) H. split_and!; [done|lia|done]. Qed.

Lemma cap_len s view held dirty ic C n : T s view held dirty ic -> cap dirty C n -> (length dirty <= 27)%nat.
Proof.
  intros Ht (H1 & H2 & _). pose proof (proj1 (bc_dirty _ _ _ _ _ _ _ _ (proj2 (tx_cache _ _ _ _ _ _ _ _ Ht)))) as Hnd.
  assert (length dirty <= length C)%nat; [|lia]. by apply submseteq_length, NoDup_submseteq.
Qed.

Lemma cap_bread s view held dirty ic C n bno :
  T s view held dirty ic -> cap dirty C n -> bno ∉ held.*1 -> bno < disksize -> (length held <= 2)%nat ->
  exists i s', bread 1 bno s = Done i s' /\ T s' view ((bno, i) :: held) dirty ic.
Proof.
  intros Ht Hcap Hn Hb Hh. pose proof (cap_len _ _ _ _ _ _ _ Ht Hcap). apply tx_bread; [done..|]. right. unfold NBUF. lia.
Qed.

(** A held block, changed, is logged. *)
Lemma tx_log_held s view held dirty ic C n bno i f :
  T s view ((bno, i) :: held) dirty ic -> cap dirty C n -> exists s1 s2 s',
  upd_data i f s = Done tt s1 /\ log_write i s1 = Done tt s2 /\ brelse i s2 = Done tt s'
  /\ T s' (<[bno := f (view bno)]> view) held (ins bno dirty) ic.
Proof.
  intros H1 Hcap. pose proof (cap_len _ _ _ _ _ _ _ H1 Hcap).
  destruct (tx_upd s view _ dirty ic bno i f H1) as (s2 & R2 & H2); [by left|].
  destruct (tx_log_write s2 _ _ dirty ic bno i H2) as (s3 & R3 & H3); [by left|change LOGSIZE with 30; lia|].
  destruct (tx_brelse s3 _ held _ ic bno i H3) as (s4 & R4 & H4); [left; apply elem_of_ins|].
  by exists s2, s3, s4.
Qed.

Lemma tx_write_block s view held dirty ic C n bno f :
  T s view held dirty ic -> cap dirty C n -> bno ∉ held.*1 -> bno < disksize -> (length held <= 2)%nat -> exists s',
  (bp ← bread 1 bno ; upd_data bp f ;; log_write bp ;; brelse bp) s = Done tt s'
  /\ T s' (<[bno := f (view bno)]> view) held (ins bno dirty) ic.
Proof.
  intros Ht Hcap Hn Hb Hh. destruct (cap_bread s view held dirty ic C n bno) as (i & s1 & R1 & H1); [done..|].
  destruct (tx_log_held s1 view held dirty ic C n bno i f H1 Hcap) as (s2 & s3 & s4 & R2 & R3 & R4 & H4).
  exists s4. split; [|done]. krun R1. krun R2. krun R3. exact R4.
Qed.

Lemma tx_read_block s view held dirty ic C n bno :
  T s view held dirty ic -> cap dirty C n -> bno ∉ held.*1 -> bno < disksize -> (length held <= 2)%nat -> exists i s1 s2,
  bread 1 bno s = Done i s1 /\ get_data i s1 = Done (view bno) s1 /\ brelse i s1 = Done tt s2 /\ T s2 view held dirty ic.
Proof.
  intros Ht Hcap Hn Hb Hh. destruct (cap_bread s view held dirty ic C n bno) as (i & s1 & R1 & H1); [done..|].
  destruct (tx_brelse s1 view held dirty ic bno i H1) as (s2 & R2 & H2); [exact (tx_sync s view held dirty ic bno Ht Hn)|].
  exists i, s1, s2. split_and!; [done| |done|done]. eapply tx_data; [done|by left].
Qed.

Lemma tx_sb s view held dirty ic : T s view held dirty ic -> k_sb s = sb.
Proof. intros Ht. pose proof (tx_rest _ _ _ _ _ _ _ _ Ht) as H. unfold rest in H. congruence. Qed.

Lemma balloc_run s view held dirty ic C n b0 :
  T s view held dirty ic -> cap dirty C (S n) -> bm ∈ C -> 0 <= b0 < sb_size sb -> bit_set (view bm) b0 = false ->
  (forall x, 0 <= x <= bm -> bit_set (view bm) x = true) ->
  (forall x, x ∈ held.*1 -> bit_set (view bm) x = true) -> bm ∉ held.*1 -> (length held <= 1)%nat ->
  exists b s', balloc 1 s = Done b s' /\ 0 <= b < sb_size sb /\ bit_set (view bm) b = false
    /\ T s' (<[b := zero_block]> (<[bm := mark_bit (view bm) b]> view)) held (ins b (ins bm dirty)) ic
    /\ cap (ins b (ins bm dirty)) (b :: C) n.
Proof.
  intros Ht Hcap HbmC Hb0 Hfree Hmeta Hheld Hnb Hh. unfold balloc. rewrite (bind_done (gets k_sb) _ s sb s) by (unfold gets; by rewrite (tx_sb _ _ _ _ _ Ht)). cbv beta.
  assert (map (Z.mul BPB) (seqZ 0 ((sb_size sb + BPB - 1) / BPB)) = [0]) as ->.
  { assert ((sb_size sb + BPB - 1) / BPB = 1) as ->; [|done]. symmetry. apply (Z.div_unique _ _ _ (sb_size sb - 1)); unfold BPB, BSIZE in *; lia. }
  cbn [for_find]. change (BBLOCK 0 sb) with bm. rewrite Z.sub_0_r, Z.min_r by lia.
  destruct (cap_bread s view held dirty ic C (S n) bm Ht Hcap Hnb) as (i & s1 & R1 & H1); [lia|lia|].
  set (g := fun bi => if negb (bit_set (view bm) bi) then Some bi else None).
  assert (for_find (seqZ 0 (sb_size sb)) (fun bi => d ← get_data i ; mret (if negb (bit_set d bi) then Some bi else None)) s1
    = Done (first_some g (seqZ 0 (sb_size sb))) s1) as Rf.
  { apply (for_find_pure _ g). intros bi _. erewrite bind_done; [done|]. eapply tx_data; [done|by left]. }
  pose proof (first_some_spec g (seqZ 0 (sb_size sb))) as Hg. destruct (first_some g (seqZ 0 (sb_size sb))) as [b|]; cycle 1.
  { exfalso. specialize (Hg b0 ltac:(apply elem_of_seqZ; lia)). unfold g in Hg. by rewrite Hfree in Hg. }
  destruct Hg as (b' & Hin & Hg). apply elem_of_seqZ in Hin. unfold g in Hg. destruct (bit_set (view bm) b') eqn:Hbit; [done|]. cbn in Hg. injection Hg as ->.
  destruct (tx_log_held s1 view held dirty ic C (S n) bm i (fun d => mark_bit d b) H1 Hcap) as (s2 & s3 & s4 & R2 & R3 & R4 & H4).
  assert (b ∉ held.*1) as Hbn by (intros Hx%Hheld; congruence).
  assert (bm < b) as Hbb by (destruct (Z.le_gt_cases b bm); [rewrite Hmeta in Hbit by lia; done|done]).
  pose proof (cap_add b _ _ _ (cap_ins bm dirty C (S n) Hcap HbmC) ltac:(lia)) as Hcap'.
  destruct (tx_write_block s4 _ held _ ic _ _ b (fun _ => zero_block) H4 Hcap' Hbn) as (s5 & R5 & H5); [lia|lia|].
  exists b, s5. split_and!; [|lia|lia|done|exact H5|apply cap_ins; [done|by left]].
  rewrite (bind_done _ _ s (Some b) s5); [done|]. rewrite (bind_done _ _ s (Some b) s5); [done|].
  krun R1. krun Rf. krun R2. krun R3. krun R4. change (0 + b) with b. unfold bzero. by krun R5.
Qed.

(** ** Files on the disk *)

(** The blocks of the disk hold the files [fs]: the bitmap marks the blocks up to itself
    and those of the files, which are distinct. *)
Record disk_ok (view : Z -> block) (fs : list fent) : Prop := DiskOk {
  dk_len : forall b, lo <= b < sb_size sb -> length (view b) = 512%nat;
  dk_meta : forall b, 0 <= b <= bm -> bit_set (view bm) b = true;
  dk_own : forall i f b, fs !! i = Some f -> b ∈ owned f -> bm < b < sb_size sb /\ bit_set (view bm) b = true;
  dk_nodup : forall i f, fs !! i = Some f -> NoDup (owned f);
  dk_disj : forall i j f g b, fs !! i = Some f -> fs !! j = Some g -> i <> j -> b ∈ owned f -> ~ b ∈ owned g;
  dk_files : forall i f, fs !! i = Some f -> stored view f
}.

(** A block that is marked and has not been given to a file. *)
Definition fresh (view : Z -> block) (fs : list fent) (b : Z) : Prop :=
  bm < b < sb_size sb /\ bit_set (view bm) b = true /\ forall j g, fs !! j = Some g -> ~ b ∈ owned g.

(** File [i] becomes [f'], which may have fresh blocks. *)
Lemma disk_ok_update view fs i f view' f' :
  disk_ok view fs -> fs !! i = Some f ->
  (forall b, lo <= b < sb_size sb -> length (view' b) = 512%nat) ->
  (forall b, ~ b ∈ owned f' -> b <> bm -> view' b = view b) ->
  (forall b, 0 <= b < sb_size sb -> bit_set (view bm) b = true -> bit_set (view' bm) b = true) ->
  (forall b, b ∈ owned f' -> b ∈ owned f \/ fresh view fs b) ->
  NoDup (owned f') -> stored view' f' -> disk_ok view' (<[i := f']> fs).
Proof.
  intros [Hl Hm Ho Hn Hd Hf] Hi Hl' Hv Hbit Ho' Hn' Hs.
  assert (forall b, b ∈ owned f' -> bm < b < sb_size sb /\ bit_set (view' bm) b = true) as Hown.
  { intros b [Hb|(? & ? & _)]%Ho'; [|split; [done|apply Hbit; [lia|done]]]. destruct (Ho i f b Hi Hb). split; [done|apply Hbit; [lia|done]]. }
  assert (forall j g b, i <> j -> fs !! j = Some g -> b ∈ owned f' -> ~ b ∈ owned g) as Hdis.
  { intros j g b Hne Hj [Hb|(_ & _ & Hb)]%Ho' Hg; [by apply (Hd i j f g b)|]. by apply (Hb j g). }
  assert (forall j g, <[i := f']> fs !! j = Some g -> i = j /\ g = f' \/ i <> j /\ fs !! j = Some g) as Hlk.
  { intros j g Hj. destruct (decide (i = j)) as [<-|Hne]; [|rewrite list_lookup_insert_ne in Hj by done; by right].
    rewrite list_lookup_insert_eq in Hj by (by eapply lookup_lt_Some). left. by simplify_eq. }
  split; [done| | | | |].
  - intros b Hb. apply Hbit; [lia|by apply Hm].
  - intros j g b [[<- ->]|[_ Hj]]%Hlk Hb; [by apply Hown|]. destruct (Ho j g b Hj Hb). split; [done|apply Hbit; [lia|done]].
  - intros j g [[<- ->]|[_ Hj]]%Hlk; [done|by apply (Hn j)].
  - intros j k g g' b [[<- ->]|[Hne Hj]]%Hlk [[<- ->]|[Hne' Hk]]%Hlk Hjk Hb; [done|by apply (Hdis k)| |by apply (Hd j k g)].
    intros Hb'. by apply (Hdis j g b).
  - intros j g [[<- ->]|[Hne Hj]]%Hlk; [done|]. apply (stored_frame view); [|by apply (Hf j)].
    intros b Hb. destruct (Ho j g b Hj Hb). apply Hv; [|lia]. intros Hb'. by apply (Hdis j g b).
Qed.

(** A block that belongs to no file, and not the bitmap, may change. *)
Lemma disk_ok_meta view fs x d :
  disk_ok view fs -> x < bm -> length d = 512%nat -> disk_ok (<[x := d]> view) fs.
Proof.
  intros [Hl Hm Ho Hn Hd Hf] Hx Hd'. assert (forall b, x <> b -> (<[x := d]> view) b = view b) as Hv by (intros; by apply fn_lookup_insert_ne).
  split; [|rewrite Hv by lia; done|rewrite Hv by lia; done|done|done|].
  - intros b Hb. destruct (decide (x = b)) as [->|?]; [by rewrite fn_lookup_insert|]. rewrite Hv by done. by apply Hl.
  - intros j g Hj. apply (stored_frame view); [|by apply (Hf j)]. intros b Hb. destruct (Ho j g b Hj Hb). apply Hv. lia.
Qed.

(** The number of free blocks. *)
Definition nfree (view : Z -> block) : nat := length (filter (fun b => bit_set (view bm) b = false) (seqZ 0 (sb_size sb))).

Lemma nfree_pos view : (0 < nfree view)%nat -> exists b, 0 <= b < sb_size sb /\ bit_set (view bm) b = false.
Proof.
  unfold nfree. intros H. destruct (filter _ _) as [|b l] eqn:Ef; [cbn in H; lia|]. exists b.
  assert (b ∈ filter (fun b => bit_set (view bm) b = false) (seqZ 0 (sb_size sb))) as Hin by (rewrite Ef; by left).
  apply list_elem_of_filter in Hin as [? Hin%elem_of_seqZ]. split; [lia|done].
Qed.

Lemma length_filter_ext {A} (P Q : A -> Prop) `{!forall x, Decision (P x)} `{!forall x, Decision (Q x)} (l : list A) :
  (forall x, x ∈ l -> P x <-> Q x) -> length (filter P l) = length (filter Q l).
Proof.
  induction l as [|y l IH]; intros Hpq; [done|]. specialize (IH ltac:(intros; apply Hpq; by right)).
  destruct (decide (P y)) as [HP|HP].
  - rewrite !filter_cons_True; [cbn; lia| |done]. apply Hpq; [by left|done].
  - rewrite !filter_cons_False; [done| |done]. intros HQ. apply HP, Hpq; [by left|done].
Qed.

Lemma filter_one {A} (P Q : A -> Prop) `{!forall x, Decision (P x)} `{!forall x, Decision (Q x)} (l : list A) a :
  NoDup l -> a ∈ l -> P a -> ~ Q a -> (forall x, x ∈ l -> x <> a -> P x <-> Q x) -> length (filter P l) = S (length (filter Q l)).
Proof.
  induction l as [|y l IH]; intros Hnd Ha HP HQ Hx; [by apply elem_of_nil in Ha|]. apply NoDup_cons in Hnd as [Hy Hnd].
  apply elem_of_cons in Ha as [->|Ha].
  - rewrite filter_cons_True, filter_cons_False by done. cbn. f_equal.
    apply length_filter_ext. intros x Hin. apply Hx; [by right|]. by intros ->.
  - assert (y <> a) as Hne by (by intros ->). specialize (IH Hnd Ha HP HQ ltac:(intros; apply Hx; [by right|done])).
    destruct (decide (P y)) as [HPy|HPy].
    + rewrite !filter_cons_True; [cbn; lia|by apply Hx; [left|..]|done].
    + rewrite !filter_cons_False; [done| |done]. intros HQy. apply HPy. by apply Hx; [left|..].
Qed.

Lemma nfree_mark view view' b :
  length (view bm) = 512%nat -> 0 <= b < sb_size sb -> bit_set (view bm) b = false -> view' bm = mark_bit (view bm) b ->
  nfree view = S (nfree view').
Proof.
  intros Hl Hb Hbit Hv. unfold nfree. apply (filter_one _ _ _ b); [apply NoDup_seqZ|apply elem_of_seqZ; lia|done| |].
  - rewrite Hv, bit_set_mark by (unfold BPB, BSIZE in *; lia). rewrite Z.eqb_refl, orb_true_r. done.
  - intros x Hx%elem_of_seqZ Hne. rewrite Hv, bit_set_mark by (unfold BPB, BSIZE in *; lia). rewrite (proj2 (Z.eqb_neq b x)) by done. by rewrite orb_false_r.
Qed.

(** ** The block of an offset *)

Lemma alter_at {A} (f : A -> A) k (l : list A) x : l !! k = Some x -> alter f k l = <[k := f x]> l.
Proof. intros H. rewrite (alter_ext_at f (fun _ => f x) k l x H) by done. by apply alter_insert. Qed.

Lemma tx_upd_inode s view held dirty ic ip g : T s view held dirty ic -> exists s',
  upd_inode ip g s = Done tt s' /\ T s' view held dirty (alter g ip ic).
Proof.
  intros [H1 H2 H3 H4 H5 H6]. eexists. split; [done|]. split; [exact H1|by apply (log_lists_eq s)|exact H3|cbn; by rewrite H4|exact H5|exact H6].
Qed.

Lemma tx_get_inode s view held dirty ic ip nd : T s view held dirty ic -> ic !! ip = Some nd -> get_inode ip s = Done nd s.
Proof. intros Ht Hip. unfold get_inode, gets, mbind, M_bind. cbn [kbind]. rewrite (tx_ic _ _ _ _ _ _ _ _ Ht), Hip. done. Qed.

Lemma tx_get_addr s view held dirty ic ip nd k a :
  T s view held dirty ic -> ic !! ip = Some nd -> i_addrs nd !! k = Some a -> get_addr ip k s = Done a s.
Proof. intros Ht Hip Ha. unfold get_addr. krun (tx_get_inode s view held dirty ic ip nd Ht Hip). by rewrite Ha. Qed.

Section file.
Context (view : Z -> block) (fs : list fent) (Hk : disk_ok view fs) (i : nat) (f : fent) (Hi : fs !! i = Some f).

Lemma blk_pos k b : fe_blks f !! k = Some b -> bm < b < sb_size sb /\ bit_set (view bm) b = true.
Proof. intros Hb. apply (dk_own _ _ Hk i f b Hi). by eapply owned_blk. Qed.
Lemma ind_pos : fe_ind f <> 0 -> bm < fe_ind f < sb_size sb /\ bit_set (view bm) (fe_ind f) = true.
Proof. intros Hn. apply (dk_own _ _ Hk i f _ Hi). by apply owned_ind. Qed.

(** A block the file has. *)
Lemma bmap_old s dirty ic C n ip nd bn b :
  T s view [] dirty ic -> cap dirty C n -> ic !! ip = Some nd -> i_dev nd = 1 -> i_addrs nd = addrs_of f -> fe_blks f !! bn = Some b ->
  exists s', bmap ip (Z.of_nat bn) s = Done b s' /\ T s' view [] dirty ic.
Proof.
  clear Hop Hsize.
  intros Ht Hcap Hip Hdev Had Hb. pose proof (lookup_lt_Some _ _ _ Hb) as Hlt. destruct (blk_pos bn b Hb) as [Hr _].
  pose proof (dk_files _ _ Hk i f Hi) as [Hmax _ Hind Htab _]. unfold bmap. change NDIRECT with 12. change NINDIRECT with 128.
  destruct (Z.ltb_spec (Z.of_nat bn) 12) as [H12|H12].
  - rewrite Nat2Z.id. krun (tx_get_addr s view [] dirty ic ip nd bn b Ht Hip ltac:(rewrite Had, addrs_direct, Hb by lia; done)).
    rewrite (proj2 (Z.eqb_neq b 0)) by lia. by exists s.
  - rewrite (proj2 (Z.ltb_lt _ _)) by lia. krun (tx_get_inode s view [] dirty ic ip nd Ht Hip). assert (fe_ind f <> 0) as Hn by (intros ?%Hind; lia).
    destruct (ind_pos Hn) as [Hr' _]. change (Z.to_nat 12) with 12%nat.
    krun (tx_get_addr s view [] dirty ic ip nd 12 (fe_ind f) Ht Hip ltac:(rewrite Had; apply addrs_indirect)).
    rewrite (proj2 (Z.eqb_neq _ 0) Hn). rewrite (bind_done (mret _) _ s (fe_ind f) s) by done. cbv beta. rewrite Hdev.
    destruct (tx_read_block s view [] dirty ic C n (fe_ind f) Ht Hcap) as (j & s1 & s2 & R1 & R2 & R3 & H2); [set_solver|lia|cbn; lia|].
    krun R1. krun R2. cbv zeta. replace (Z.to_nat (4 * (Z.of_nat bn - 12))) with (4 * (bn - 12))%nat by lia.
    rewrite (Htab Hn) by lia. replace (12 + (bn - 12))%nat with bn by lia. rewrite Hb. change (default 0 (Some b)) with b.
    rewrite (proj2 (Z.eqb_neq b 0)) by lia. rewrite (bind_done (mret _) _ s1 b s1) by done. cbv beta. krun R3. by exists s2.
Qed.
End file.

(** A new block: marked, zero, and of no file. *)
Lemma alloc_run s view fs held dirty ic C n :
  T s view held dirty ic -> disk_ok view fs -> cap dirty C (S n) -> bm ∈ C -> (0 < nfree view)%nat ->
  (forall x, x ∈ held.*1 -> x <> bm /\ bit_set (view bm) x = true) -> (length held <= 1)%nat ->
  exists b s' view' dirty', balloc 1 s = Done b s' /\ T s' view' held dirty' ic /\ cap dirty' (b :: C) n
    /\ disk_ok view' fs /\ fresh view' fs b /\ view' b = zero_block /\ (b ∉ held.*1) /\ nfree view = S (nfree view')
    /\ (forall x, x <> b -> x <> bm -> view' x = view x)
    /\ (forall x, 0 <= x < sb_size sb -> bit_set (view bm) x = true -> bit_set (view' bm) x = true).
Proof.
  intros Ht Hk Hcap HC Hfree Hheld Hh. destruct (nfree_pos view Hfree) as (b0 & Hb0 & Hbit0).
  destruct (balloc_run s view held dirty ic C n b0) as (b & s' & R & Hb & Hbit & Ht' & Hcap'); [done..|apply Hk| | |done|].
  { intros x Hx. by apply Hheld. } { intros Hx. by apply Hheld in Hx as [? _]. }
  pose proof (dk_len _ _ Hk bm Hbm) as Hl. assert (bm < b) as Hlt.
  { destruct (Z.le_gt_cases b bm) as [H|H]; [|done]. rewrite (dk_meta _ _ Hk b) in Hbit by lia. done. }
  set (view' := <[b := zero_block]> (<[bm := mark_bit (view bm) b]> view)) in *.
  assert (view' bm = mark_bit (view bm) b) as Ebm by (unfold view'; rewrite fn_lookup_insert_ne, fn_lookup_insert by lia; done).
  assert (view' b = zero_block) as Eb by (unfold view'; by rewrite fn_lookup_insert).
  assert (forall x, x <> b -> x <> bm -> view' x = view x) as Ev by (intros; unfold view'; by rewrite !fn_lookup_insert_ne).
  assert (forall x, 0 <= x < sb_size sb -> bit_set (view bm) x = true -> bit_set (view' bm) x = true) as Hmono.
  { intros x Hx Hset. rewrite Ebm, bit_set_mark, Hset by (unfold BPB, BSIZE in *; lia). done. }
  assert (forall j g, fs !! j = Some g -> ~ b ∈ owned g) as Hno.
  { intros j g Hj Hg. destruct (dk_own _ _ Hk j g b Hj Hg). congruence. }
  exists b, s', view', (ins b (ins bm dirty)). split_and!; [done|done|done| | |done| | |done|done].
  - pose proof Hk as [Hlen Hm Ho Hn Hd Hf]. split; [| | |done|done|].
    + intros x Hx. destruct (decide (x = b)) as [->|?]; [by rewrite Eb|]. destruct (decide (x = bm)) as [->|?].
      * rewrite Ebm, length_set8; [done|]. rewrite Hl. unfold bit_byte. assert (b / 8 < 512) by (unfold BPB, BSIZE in *; Z.div_mod_to_equations; lia). lia.
      * rewrite Ev by done. by apply Hlen.
    + intros x Hx. apply Hmono; [lia|by apply Hm].
    + intros j g x Hj Hx. destruct (Ho j g x Hj Hx). split; [done|apply Hmono; [lia|done]].
    + intros j g Hj. apply (stored_frame view); [|by apply (Hf j)]. intros x Hx. apply Ev; [by intros ->; apply (Hno j g)|].
      destruct (Ho j g x Hj Hx). lia.
  - split_and!; [lia|lia| |done]. rewrite Ebm, bit_set_mark by (unfold BPB, BSIZE in *; lia). by rewrite Z.eqb_refl, orb_true_r.
  - intros Hx%Hheld. destruct Hx. congruence.
  - apply (nfree_mark view view' b); done.
Qed.

(** Room in the log for [n] blocks of [f], and its indirect block. *)
Definition ready (f : fent) (C : list Z) (n : nat) (dirty : list Z) : Prop :=
  cap dirty C (n + if fe_ind f =? 0 then 1 else 0) /\ bm ∈ C /\ (fe_ind f <> 0 -> fe_ind f ∈ C).

Section grow.
Context (view : Z -> block) (fs : list fent) (Hk : disk_ok view fs) (i : nat) (f : fent) (Hi : fs !! i = Some f).

(** What [bmap] leaves when it returns block [bn]. *)
Definition bmapped (s : kernel) (dirty C : list Z) (ic : list inode) (ip : nat) (nd : inode) (bn k : nat) : Prop :=
  exists b s' view' dirty' f' C',
    bmap ip (Z.of_nat bn) s = Done b s'
    /\ T s' view' [] dirty' (<[ip := nd <| i_addrs := addrs_of f' |>]> ic)
    /\ disk_ok view' (<[i := f']> fs) /\ fe_blks f' !! bn = Some b /\ fe_type f' = fe_type f /\ fe_data f' = fe_data f
    /\ length (fe_blks f') = Nat.max (length (fe_blks f)) (S bn)
    /\ Z.of_nat (nfree view') = Z.of_nat (nfree view) - need f bn
    /\ ready f' C' k dirty' /\ b ∈ C' /\ C ⊆ C' /\ ((bn < length (fe_blks f))%nat -> f' = f) /\ forall x, x < bm -> view' x = view x.

(** A fresh block goes to the end of a file with direct addresses only. *)
Lemma attach_direct view' b :
  disk_ok view' fs -> fresh view' fs b -> view' b = zero_block -> (length (fe_blks f) < 12)%nat ->
  disk_ok view' (<[i := f <| fe_blks ::= fun l => l ++ [b] |>]> fs).
Proof.
  intros Hk' Hb Hz Hlt. pose proof (dk_files _ _ Hk' i f Hi) as [Hmax Hlen Hind Htab Hdat]. set (f' := set fe_blks _ f).
  assert (fe_ind f = 0) as Hi0 by (apply Hind; lia). assert (owned f = fe_blks f /\ owned f' = fe_blks f ++ [b]) as [Eo Eo'].
  { unfold owned, f'. cbn. rewrite Hi0. cbn [Z.eqb]. by rewrite !app_nil_r. }
  apply (disk_ok_update view' fs i f); [done|done|apply Hk'|done|done| | |].
  - intros x Hx. rewrite Eo' in Hx. rewrite Eo. apply elem_of_app in Hx as [?|Hx]; [by left|]. apply list_elem_of_singleton in Hx as ->. by right.
  - rewrite Eo'. apply NoDup_app. split_and!; [rewrite <- Eo; by apply (dk_nodup _ _ Hk' i)| |apply NoDup_singleton].
    intros x Hx Hx'. apply list_elem_of_singleton in Hx' as ->. destruct Hb as (_ & _ & Hb). apply (Hb i f Hi). by rewrite Eo.
  - split; cbn [f' fe_blks fe_ind fe_data set]; cbn; rewrite ?length_app; cbn [length]; [lia|lia|intuition lia|done|].
    intros k x [Hx|[Hge Hx]]%lookup_app_Some; [by apply Hdat|]. apply list_lookup_singleton_Some in Hx as [Hx <-].
    unfold chunk, sub. rewrite drop_ge by lia. done.
Qed.

Lemma bmap_direct s dirty ic C k ip nd :
  T s view [] dirty ic -> ready f C (S k) dirty -> ic !! ip = Some nd -> i_dev nd = 1 -> i_addrs nd = addrs_of f ->
  (length (fe_blks f) < 12)%nat -> need f (length (fe_blks f)) <= Z.of_nat (nfree view) ->
  bmapped s dirty C ic ip nd (length (fe_blks f)) k.
Proof.
  intros Ht (Hcap & HC & HCi) Hip Hdev Had Hlt Hneed. set (bn := length (fe_blks f)) in *.
  assert (need f bn = 1) as En by (unfold need; fold bn; rewrite Nat.ltb_irrefl, (proj2 (Nat.eqb_neq bn 12)) by lia; done).
  destruct (alloc_run s view fs [] dirty ic C (k + if fe_ind f =? 0 then 1 else 0)) as (b & s1 & view' & dirty' & R & Ht' & Hcap' & Hk' & Hfr & Hz & _ & Hnf & Hv & _);
    [done..|lia|set_solver|cbn; lia|].
  set (f' := f <| fe_blks ::= fun l => l ++ [b] |>).
  destruct (tx_upd_inode s1 view' [] dirty' ic ip (fun n => n <| i_addrs ::= <[bn := b]> |>) Ht') as (s2 & R2 & Ht2).
  exists b, s2, view', dirty', f', (b :: C). split_and!.
  - unfold bmap. change NDIRECT with 12. rewrite (proj2 (Z.ltb_lt (Z.of_nat bn) 12)) by lia. rewrite Nat2Z.id.
    krun (tx_get_addr s view [] dirty ic ip nd bn 0 Ht Hip ltac:(rewrite Had, addrs_direct by lia; by rewrite (lookup_ge_None_2 (fe_blks f)) by done)).
    change (0 =? 0) with true. cbv match. krun (tx_get_inode s view [] dirty ic ip nd Ht Hip). rewrite Hdev. krun R. by krun R2.
  - replace (<[ip := nd <| i_addrs := addrs_of f' |>]> ic) with (alter (fun n => n <| i_addrs ::= <[bn := b]> |>) ip ic); [done|].
    rewrite (alter_at _ _ _ nd Hip). f_equal. unfold f'. rewrite <- (addrs_push f b Hlt), <- Had. by destruct nd.
  - by apply attach_direct.
  - cbn. rewrite lookup_app_r by done. fold bn. by rewrite Nat.sub_diag.
  - done.
  - done.
  - cbn. rewrite length_app. cbn [length]. fold bn. lia.
  - rewrite En, Hnf. lia.
  - split_and!; [exact Hcap'|by right|intros H; right; by apply HCi].
  - by left.
  - intros x Hx. by right.
  - lia.
  - intros x Hx. destruct Hfr as (? & _). apply Hv; lia.
Qed.

(** The indirect block [ind] of the file, or one allocated for it. *)
Definition has_table (view' : Z -> block) (ind : Z) : Prop :=
  ind <> 0 /\ (ind = fe_ind f \/ fe_ind f = 0 /\ fresh view' fs ind)
  /\ forall k, (k < 128)%nat -> get32 (view' ind) (4 * k) = default 0 (fe_blks f !! (12 + k)%nat).

Lemma has_table_range view' ind : disk_ok view' fs -> has_table view' ind -> bm < ind < sb_size sb /\ bit_set (view' bm) ind = true.
Proof.
  intros Hk' (Hn & [->|[_ (H1 & H2 & _)]] & _); [|done]. apply (dk_own _ _ Hk' i f _ Hi). by apply owned_ind.
Qed.

Lemma table_not_blk view' ind : disk_ok view' fs -> has_table view' ind -> ~ ind ∈ fe_blks f.
Proof.
  intros Hk' (Hn & [->|[_ (_ & _ & H)]] & _) Hin.
  - pose proof (dk_nodup _ _ Hk' i f Hi) as Hnd. unfold owned in Hnd. rewrite (proj2 (Z.eqb_neq _ _) Hn) in Hnd.
    apply NoDup_app in Hnd as (_ & Hnd & _). apply (Hnd _ Hin). by left.
  - apply (H i f Hi). apply elem_of_app. by left.
Qed.

(** Block [b] is entered in the indirect block. *)
Lemma attach_indirect view' ind b :
  disk_ok view' fs -> has_table view' ind -> fresh view' fs b -> view' b = zero_block -> b <> ind -> (12 <= length (fe_blks f) < 140)%nat ->
  disk_ok (<[ind := set32 (view' ind) (4 * (length (fe_blks f) - 12)) b]> view')
    (<[i := f <| fe_blks ::= fun l => l ++ [b] |> <| fe_ind := ind |>]> fs).
Proof.
  intros Hk' Htab Hb Hz Hne Hlen. set (f' := set fe_ind _ _). set (o := (4 * (length (fe_blks f) - 12))%nat).
  set (view1 := <[ind := _]> view'). pose proof (has_table_range _ _ Hk' Htab) as [Hr Hbit]. pose proof (table_not_blk _ _ Hk' Htab) as Hni.
  destruct Htab as (Hn0 & Hind & Htab). pose proof (dk_files _ _ Hk' i f Hi) as [Hmax Hl Hi0 _ Hdat]. pose proof (dk_len _ _ Hk' ind ltac:(lia)) as Hl512.
  assert (fe_blks f' = fe_blks f ++ [b]) as Eb by done. assert (owned f' = (fe_blks f ++ [b]) ++ [ind]) as Eo'.
  { unfold owned. change (fe_ind f') with ind. by rewrite (proj2 (Z.eqb_neq ind 0) Hn0). }
  assert (view1 ind = set32 (view' ind) o b) as E1 by (unfold view1; by rewrite fn_lookup_insert).
  assert (forall x, x <> ind -> view1 x = view' x) as E2 by (intros x ?; unfold view1; by rewrite fn_lookup_insert_ne).
  destruct Hb as (Hbr & Hbb & Hbo). assert (~ b ∈ fe_blks f) as Hbn by (intros H; apply (Hbo i f Hi), elem_of_app; by left).
  apply (disk_ok_update view' fs i f); [done|done| | | | | |].
  - intros x Hx. destruct (decide (x = ind)) as [->|?]; [|rewrite E2 by done; by apply Hk']. rewrite E1, length_set32; [done|]. rewrite Hl512. unfold o. lia.
  - intros x Hx _. apply E2. intros ->. apply Hx. rewrite Eo'. apply elem_of_app. right. by left.
  - intros x Hx Hs. rewrite E2 by lia. done.
  - intros x Hx. rewrite Eo' in Hx. apply elem_of_app in Hx as [[Hx|Hx]%elem_of_app|Hx].
    + left. apply elem_of_app. by left.
    + apply list_elem_of_singleton in Hx as ->. by right.
    + apply list_elem_of_singleton in Hx as ->. destruct Hind as [->|[_ ?]]; [left; by apply owned_ind|by right].
  - rewrite Eo'. apply NoDup_app. split_and!; [apply NoDup_app; split_and!|..]; try apply NoDup_singleton.
    + pose proof (dk_nodup _ _ Hk' i f Hi) as Hnd. by apply NoDup_app in Hnd as [? _].
    + intros x Hx Hx'. by apply list_elem_of_singleton in Hx' as ->.
    + intros x Hx Hx'. apply list_elem_of_singleton in Hx' as ->. apply elem_of_app in Hx as [Hx|Hx]; [done|]. by apply list_elem_of_singleton in Hx as ->.
  - split; rewrite ?Eb, ?length_app; change (fe_ind f') with ind; change (fe_data f') with (fe_data f); cbn [length]; [lia|lia|lia| |].
    + intros _ k Hk1. rewrite E1. destruct (decide (k = length (fe_blks f) - 12)%nat) as [->|Hkn].
      * fold o. rewrite get32_set32 by (rewrite Hl512; unfold o; lia). rewrite lookup_app_r by lia.
        replace (12 + (length (fe_blks f) - 12) - length (fe_blks f))%nat with 0%nat by lia. change (u32 b = b). apply Z.mod_small. unfold BPB, BSIZE, W32 in *. lia.
      * rewrite get32_set32_other by (rewrite ?Hl512; unfold o; lia). rewrite Htab by done. destruct (decide (12 + k < length (fe_blks f))%nat) as [Hlt|Hge].
        -- by rewrite lookup_app_l.
        -- rewrite (lookup_ge_None_2 (fe_blks f)) by lia. rewrite lookup_ge_None_2; [done|]. rewrite length_app. cbn [length]. lia.
    + intros k x [Hx|[Hge Hx]]%lookup_app_Some.
      * rewrite E2; [by apply Hdat|]. intros ->. apply Hni. by eapply list_elem_of_lookup_2.
      * apply list_lookup_singleton_Some in Hx as [Hx <-]. rewrite E2 by done. unfold chunk, sub. rewrite drop_ge by lia. done.
Qed.

(** The first half of the indirect case of [bmap]. *)
Lemma bmap_table s dirty ic C k ip nd :
  T s view [] dirty ic -> ready f C (S k) dirty -> ic !! ip = Some nd -> i_dev nd = 1 -> i_addrs nd = addrs_of f ->
  (12 <= length (fe_blks f))%nat -> need f (length (fe_blks f)) <= Z.of_nat (nfree view) ->
  exists ind s' view' dirty' C',
    (addr ← get_addr ip 12 ;
     if addr =? 0 then addr ← balloc 1 ; set_addr ip 12 addr ;; mret addr else mret addr) s = Done ind s'
    /\ T s' view' [] dirty' (<[ip := nd <| i_addrs := take 12 (fe_blks f) ++ [ind] |>]> ic)
    /\ disk_ok view' fs /\ has_table view' ind /\ Z.of_nat (nfree view') = Z.of_nat (nfree view) - need f (length (fe_blks f)) + 1
    /\ cap dirty' C' (S k) /\ bm ∈ C' /\ ind ∈ C' /\ C ⊆ C' /\ forall x, x < bm -> view' x = view x.
Proof.
  intros Ht (Hcap & HC & HCi) Hip Hdev Had Hlen Hneed. pose proof (dk_files _ _ Hk i f Hi) as [Hmax Hl Hind Htab _]. set (n := length (fe_blks f)) in *.
  krun (tx_get_addr s view [] dirty ic ip nd 12 (fe_ind f) Ht Hip ltac:(rewrite Had; apply addrs_indirect)).
  unfold need in *. fold n in Hneed. fold n. rewrite Nat.ltb_irrefl in *. destruct (Z.eqb_spec (fe_ind f) 0) as [E0|E0].
  - assert (n = 12%nat) as En by (apply Hind in E0; lia). rewrite (proj2 (Nat.eqb_eq n 12) En) in *.
    destruct (alloc_run s view fs [] dirty ic C (S k)) as (b & s1 & view' & dirty' & R & Ht' & Hcap' & Hk' & Hfr & Hz & _ & Hnf & Hv & _);
      [done|done|by replace (S (S k)) with (S k + 1)%nat by lia|done|lia|set_solver|cbn; lia|].
    destruct (tx_upd_inode s1 view' [] dirty' ic ip (fun n => n <| i_addrs ::= <[12%nat := b]> |>) Ht') as (s2 & R2 & Ht2).
    exists b, s2, view', dirty', (b :: C). split_and!; [krun R; by krun R2| |done| | |done|by right|by left|intros x ?; by right|].
    + replace (<[ip := _]> ic) with (alter (fun n => n <| i_addrs ::= <[12%nat := b]> |>) ip ic); [done|].
      rewrite (alter_at _ _ _ nd Hip). f_equal. replace (take 12 (fe_blks f) ++ [b]) with (<[12%nat := b]> (i_addrs nd)); [by destruct nd|].
      rewrite Had, addrs_long by (fold n; lia). rewrite insert_app_r_alt by (rewrite length_take; fold n; lia).
      rewrite length_take. fold n. by replace (12 - 12 `min` n)%nat with 0%nat by lia.
    + split_and!; [destruct Hfr; lia|by right|]. intros j Hj. rewrite Hz, zero_words by done. by rewrite (lookup_ge_None_2 (fe_blks f)) by (fold n; lia).
    + lia.
    + intros x Hx. destruct Hfr. apply Hv; lia.
  - assert (n <> 12%nat) as En by (intros En; apply E0, Hind; lia). rewrite (proj2 (Nat.eqb_neq n 12) En) in *.
    exists (fe_ind f), s, view, dirty, C. rewrite Nat.add_0_r in Hcap. split_and!; [done| |done| |lia|done|done|by apply HCi|done|done].
    + rewrite list_insert_id; [done|]. rewrite Hip. f_equal. rewrite <- addrs_long, <- Had by (fold n; lia). by destruct nd.
    + split_and!; [done|by left|by apply Htab].
Qed.

Lemma bmap_indirect s dirty ic C k ip nd :
  T s view [] dirty ic -> ready f C (S k) dirty -> ic !! ip = Some nd -> i_dev nd = 1 -> i_addrs nd = addrs_of f ->
  (12 <= length (fe_blks f) < 140)%nat -> need f (length (fe_blks f)) <= Z.of_nat (nfree view) ->
  bmapped s dirty C ic ip nd (length (fe_blks f)) k.
Proof.
  intros Ht Hready Hip Hdev Had Hlen Hneed. set (n := length (fe_blks f)) in *.
  destruct (bmap_table s dirty ic C k ip nd) as (ind & s1 & v1 & d1 & C1 & R1 & T1 & K1 & Htab & Hn1 & Hcap1 & HC1 & HCi1 & HCC & Hv1); [done..|lia|done|].
  pose proof (has_table_range _ _ K1 Htab) as [Hr Hbit]. fold n in Hn1. set (ic1 := <[ip := _]> ic) in *.
  destruct (cap_bread s1 v1 [] d1 ic1 C1 (S k) ind T1 Hcap1) as (j & s2 & R2 & T2); [set_solver|lia|cbn; lia|].
  assert (1 <= need f n) as Hneed1 by (unfold need; fold n; rewrite Nat.ltb_irrefl; by destruct (n =? 12)%nat).
  destruct (alloc_run s2 v1 fs [(ind, j)] d1 ic1 C1 k) as (b & s3 & v2 & d2 & R3 & T3 & Hcap3 & K2 & Hfr & Hz & Hbi & Hnf & Hv2 & Hmono);
    [done|done|done|done|lia| |cbn; lia|].
  { intros x Hx. change ([(ind, j)].*1) with [ind] in Hx. apply list_elem_of_singleton in Hx as ->. split; [lia|done]. }
  assert (b <> ind) as Hne by (intros ->; apply Hbi; by left). assert (v2 ind = v1 ind) as Ev by (apply Hv2; lia).
  assert (has_table v2 ind) as Htab2.
  { destruct Htab as (H1 & H2 & H3). split_and!; [done| |by rewrite Ev]. destruct H2 as [?|[? (? & ? & ?)]]; [by left|right]. split; [done|].
    split_and!; [lia|lia|apply Hmono; [lia|done]|done]. }
  set (o := (4 * (n - 12))%nat). set (f' := f <| fe_blks ::= fun l => l ++ [b] |> <| fe_ind := ind |>).
  destruct (tx_log_held s3 v2 [] d2 ic1 (b :: C1) k ind j (fun d => set32 d o b) T3 Hcap3) as (s4 & s5 & s6 & R4 & R5 & R6 & T6).
  exists b, s6, (<[ind := set32 (v2 ind) o b]> v2), (ins ind d2), f', (b :: C1). split_and!.
  - unfold bmap. change NDIRECT with 12. change NINDIRECT with 128. rewrite (proj2 (Z.ltb_ge (Z.of_nat n) 12)), (proj2 (Z.ltb_lt _ 128)) by lia.
    krun (tx_get_inode s view [] dirty ic ip nd Ht Hip). rewrite Hdev. change (Z.to_nat 12) with 12%nat.
    rewrite (bind_group _ _ _ _ _ _ R1). krun R2. krun (tx_data s2 v1 [(ind, j)] d1 ic1 ind j T2 ltac:(by left)).
    replace (Z.to_nat (4 * (Z.of_nat n - 12))) with o by lia.
    assert (get32 (v1 ind) o = 0) as E0 by (unfold o; destruct Htab as (_ & _ & ->); [by rewrite (lookup_ge_None_2 (fe_blks f)) by (fold n; lia)|lia]).
    rewrite E0. cbn [Z.eqb]. erewrite bind_done; [|krun R3; krun R4; krun R5; reflexivity]. by krun R6.
  - unfold ic1 in T6. replace (addrs_of f') with (take 12 (fe_blks f) ++ [ind]); [exact T6|]. apply addrs_indirect_push. lia.
  - by apply attach_indirect.
  - change (fe_blks f') with (fe_blks f ++ [b]). rewrite lookup_app_r by done. fold n. by rewrite Nat.sub_diag.
  - done.
  - done.
  - change (fe_blks f') with (fe_blks f ++ [b]). rewrite length_app. cbn [length]. fold n. lia.
  - assert (nfree (<[ind := set32 (v2 ind) o b]> v2) = nfree v2) as ->; [|lia]. unfold nfree. by rewrite fn_lookup_insert_ne by lia.
  - change (fe_ind f') with ind. destruct Htab as (Hn0 & _). unfold ready. change (fe_ind f') with ind. rewrite (proj2 (Z.eqb_neq ind 0) Hn0), Nat.add_0_r.
    split_and!; [apply cap_ins; [done|by right]|by right|by right].
  - by left.
  - intros x Hx. right. by apply HCC.
  - lia.
  - intros x Hx. destruct Hfr. rewrite fn_lookup_insert_ne, Hv2, Hv1 by lia. done.
Qed.
End grow.

(** [bmap] gives block [bn] of a file, which it has or which is its next one. *)
Lemma bmap_run view fs i f s dirty ic C k ip nd bn :
  disk_ok view fs -> fs !! i = Some f -> T s view [] dirty ic -> ready f C (S k) dirty ->
  ic !! ip = Some nd -> i_dev nd = 1 -> i_addrs nd = addrs_of f ->
  (bn <= length (fe_blks f))%nat -> (bn < 140)%nat -> need f bn <= Z.of_nat (nfree view) ->
  bmapped view fs i f s dirty C ic ip nd bn k.
Proof.
  intros Hk Hi Ht Hr Hip Hdev Had Hbn Hmax Hneed. destruct (decide (bn < length (fe_blks f))%nat) as [Hlt|Hge]; cycle 1.
  { assert (bn = length (fe_blks f)) as -> by lia. destruct (decide (length (fe_blks f) < 12)%nat); [by apply bmap_direct|apply bmap_indirect; (done || lia)]. }
  destruct (lookup_lt_is_Some_2 _ _ Hlt) as [b Hb]. destruct Hr as (Hcap & HC & HCi).
  destruct (bmap_old view fs Hk i f Hi s dirty ic C (S k + if fe_ind f =? 0 then 1 else 0) ip nd bn b) as (s' & R & Ht'); [done..|].
  exists b, s', view, dirty, f, (b :: C). split_and!; [done| | |done|done|done|lia| | |by left|by right|done|done].
  - rewrite <- Had, list_insert_id; [done|]. rewrite Hip. by destruct nd.
  - by rewrite list_insert_id.
  - unfold need. rewrite (proj2 (Nat.ltb_lt _ _) Hlt). lia.
  - split_and!; [apply cap_add; [done|]; destruct (blk_pos view fs Hk i f Hi bn b Hb); lia|by right|intros; right; by apply HCi].
Qed.

(** ** Reading *)

(** The rounds of the loops of [readi] and [writei]: the blocks in which [m] bytes from
    offset [o] lie. *)
Definition touched (o m : nat) : nat := if (m =? 0)%nat then 0%nat else nblk (o mod 512 + m).

Lemma touched_step o m : (0 < m)%nat -> let c := Nat.min m (512 - o mod 512) in
  (0 < c)%nat /\ touched o m = S (touched (o + c) (m - c)).
Proof.
  intros Hm c. destruct (blocks_of o) as [_ Hr]. split; [unfold c; lia|]. unfold touched. rewrite (proj2 (Nat.eqb_neq m 0)) by lia.
  destruct (Nat.eqb_spec (m - c) 0) as [E0|E0]; [apply nblk_spec; unfold c in E0; lia|].
  assert (c = 512 - o mod 512)%nat as Ec by (unfold c in *; lia). assert ((o + c) mod 512 = 0)%nat as ->.
  { destruct (blocks_of o) as [Ho _]. replace (o + c)%nat with ((o / 512 + 1) * 512)%nat by lia. apply Nat.Div0.mod_mul. }
  apply nblk_spec. pose proof (nblk_bounds (0 + (m - c))). lia.
Qed.

Lemma touched_rounds o m : (touched o m < io_rounds (Z.of_nat m))%nat.
Proof.
  unfold touched, io_rounds. destruct (Nat.eqb_spec m 0); [lia|]. change BSIZE with (Z.of_nat 512). rewrite <- Nat2Z.inj_div, Nat2Z.id.
  destruct (blocks_of o) as [_ Hr], (blocks_of m) as [Hm ?]. pose proof (nblk_bounds (o mod 512 + m)). lia.
Qed.

(** Offsets are divided the same way in C and here. *)
Lemma offset_block o : Z.of_nat o / BSIZE = Z.of_nat (o / 512) /\ Z.of_nat o mod BSIZE = Z.of_nat (o mod 512).
Proof. change BSIZE with (Z.of_nat 512). by rewrite Nat2Z.inj_div, Nat2Z.inj_mod. Qed.

Lemma piece_size n o m : Z.min (n - (n - Z.of_nat m)) (BSIZE - Z.of_nat (o mod 512)) = Z.of_nat (Nat.min m (512 - o mod 512)).
Proof. destruct (blocks_of o) as [_ Hr]. unfold BSIZE. lia. Qed.

(** The blocks of a file up to its end are there. *)
Lemma stored_block view f o : stored view f -> (o < length (fe_data f))%nat -> exists b, fe_blks f !! (o / 512)%nat = Some b.
Proof.
  intros Hs Ho. apply lookup_lt_is_Some_2. pose proof (sd_len _ _ Hs). destruct (blocks_of o). lia.
Qed.

(** The inode in memory describes the file. *)
Record inode_of (nd : inode) (f : fent) : Prop := InodeOf {
  io_dev : i_dev nd = 1;
  io_type : i_type nd = fe_type f;
  io_size : i_size nd = Z.of_nat (length (fe_data f));
  io_addrs : i_addrs nd = addrs_of f;
  io_shorts : Forall (fun x => -32768 <= x < 32768) [i_type nd; i_major nd; i_minor nd; i_nlink nd]
}.

Lemma readi_loop_run view fs i f dirty ic C k ip nd n rounds : forall s o m acc,
  disk_ok view fs -> fs !! i = Some f -> cap dirty C k -> ic !! ip = Some nd -> inode_of nd f ->
  T s view [] dirty ic -> (o + m <= length (fe_data f))%nat -> (touched o m < rounds)%nat -> exists s',
  readi_loop rounds ip (Z.of_nat o) n (n - Z.of_nat m) acc s = Done (acc ++ sub o m (fe_data f)) s' /\ T s' view [] dirty ic.
Proof.
  clear Hop Hsize.
  induction rounds as [|rounds IH]; intros s o m acc Hk Hi Hcap Hip Hnd Ht Hle Hround; [lia|]. cbn [readi_loop].
  destruct (Z.ltb_spec (n - Z.of_nat m) n) as [Hlt|Hge]; cycle 1.
  { assert (m = 0)%nat as -> by lia. exists s. unfold sub. by rewrite take_0, app_nil_r. }
  pose proof (dk_files _ _ Hk i f Hi) as Hs. destruct (touched_step o m ltac:(lia)) as [Hc Et]. set (c := Nat.min m _) in *.
  destruct (blocks_of o) as [Ho Hr]. destruct (stored_block view f o Hs ltac:(lia)) as [b Hb].
  krun (tx_get_inode s view [] dirty ic ip nd Ht Hip). destruct (offset_block o) as [-> ->]. rewrite piece_size. fold c.
  destruct (bmap_old view fs Hk i f Hi s dirty ic C k ip nd (o / 512)%nat b Ht Hcap Hip (io_dev _ _ Hnd) (io_addrs _ _ Hnd) Hb) as (s1 & R1 & H1).
  krun R1. destruct (blk_pos view fs Hk i f Hi _ b Hb) as [Hbr _]. rewrite (io_dev _ _ Hnd).
  destruct (tx_read_block s1 view [] dirty ic C k b H1 Hcap) as (j & s2 & s3 & R2 & R3 & R4 & H3); [apply not_elem_of_nil|lia|cbn; lia|].
  krun R2. krun R3. krun R4. replace (Z.of_nat o + Z.of_nat c) with (Z.of_nat (o + c)) by lia.
  replace (n - Z.of_nat m + Z.of_nat c) with (n - Z.of_nat (m - c)) by (unfold c; lia). rewrite !Nat2Z.id.
  destruct (IH s3 (o + c)%nat (m - c)%nat (acc ++ sub (o mod 512) c (view b))) as (s' & R & H'); [done..|unfold c; lia|lia|].
  exists s'. split; [|done]. rewrite R. f_equal. rewrite (stored_sub view f (o / 512) b (o mod 512) c Hs Hb) by (unfold c; lia).
  replace (512 * (o / 512) + o mod 512)%nat with o by lia. rewrite <- (assoc_L (++)). f_equal. rewrite sub_app. f_equal. unfold c. lia.
Qed.

Lemma stored_length view f : stored view f -> (length (fe_data f) <= 512 * 140)%nat.
Proof. intros [H1 H2 _ _ _]. lia. Qed.

(** What [readi] returns of a file with the content [data]. *)
Definition read_at (o n : nat) (data : list Z) : Z * list Z :=
  if (length data <? o)%nat then (-1, []) else (Z.of_nat (Nat.min n (length data - o)), sub o n data).

Lemma readi_run view fs i f s dirty ic C k ip nd o n :
  disk_ok view fs -> fs !! i = Some f -> cap dirty C k -> ic !! ip = Some nd -> inode_of nd f -> fe_type f <> T_DEV ->
  T s view [] dirty ic -> Z.of_nat o + Z.of_nat n < W32 -> exists s',
  readi ip (Z.of_nat o) (Z.of_nat n) s = Done (read_at o n (fe_data f)) s' /\ T s' view [] dirty ic.
Proof.
  clear Hop Hsize.
  intros Hk Hi Hcap Hip Hnd Hty Ht Hsum. unfold readi, read_at. krun (tx_get_inode s view [] dirty ic ip nd Ht Hip).
  rewrite (io_type _ _ Hnd), (proj2 (Z.eqb_neq _ _) Hty), (io_size _ _ Hnd). pose proof (stored_length _ _ (dk_files _ _ Hk i f Hi)) as Hmax.
  unfold u32. rewrite (Z.mod_small (_ + _)) by lia. rewrite (proj2 (Z.ltb_ge (Z.of_nat o + Z.of_nat n) _)) by lia. rewrite orb_false_r.
  destruct (Nat.ltb_spec (length (fe_data f)) o) as [Hlt|Hge]; [rewrite (proj2 (Z.ltb_lt _ _)) by lia; by exists s|].
  rewrite (proj2 (Z.ltb_ge _ _)) by lia. cbv zeta. set (m := Nat.min n (length (fe_data f) - o)).
  assert ((if Z.of_nat (length (fe_data f)) <? Z.of_nat o + Z.of_nat n then Z.of_nat (length (fe_data f)) - Z.of_nat o else Z.of_nat n) = Z.of_nat m) as ->.
  { destruct (Z.ltb_spec (Z.of_nat (length (fe_data f))) (Z.of_nat o + Z.of_nat n)); unfold m; lia. }
  destruct (readi_loop_run view fs i f dirty ic C k ip nd (Z.of_nat m) (io_rounds (Z.of_nat m)) s o m []) as (s' & R & H'); [done..|unfold m; lia|apply touched_rounds|].
  rewrite Z.sub_diag in R. krun R. exists s'. split; [|done]. rewrite i32_small by (unfold m; lia).
  assert (sub o m (fe_data f) = sub o n (fe_data f)) as ->; [|done]. unfold sub, m. rewrite <- take_take. rewrite (take_ge (drop o _) (length _ - o)) by (rewrite length_drop; lia). done.
Qed.

(** ** Writing *)

(** Bytes written in a block of the file are bytes of its content. *)
Lemma write_piece view fs i f bn b r q :
  disk_ok view fs -> fs !! i = Some f -> fe_blks f !! bn = Some b ->
  (r + length q <= 512)%nat -> (512 * bn + r <= length (fe_data f))%nat ->
  disk_ok (<[b := splice r q (view b)]> view) (<[i := f <| fe_data ::= splice (512 * bn + r) q |>]> fs).
Proof.
  intros Hk Hi Hb Hq Ho. set (view' := <[b := _]> view). set (f' := set fe_data _ f).
  pose proof (blk_pos view fs Hk i f Hi bn b Hb) as [Hr _]. pose proof (dk_len _ _ Hk b ltac:(lia)) as Hl.
  pose proof (dk_files _ _ Hk i f Hi) as [Hmax Hlen Hind Htab Hdat]. pose proof (dk_nodup _ _ Hk i f Hi) as Hnd.
  assert (view' b = splice r q (view b)) as E1 by (unfold view'; by rewrite fn_lookup_insert).
  assert (forall x, x <> b -> view' x = view x) as E2 by (intros; unfold view'; by rewrite fn_lookup_insert_ne).
  assert (b ∈ owned f) as Hbo by (by eapply owned_blk). pose proof (lookup_lt_Some _ _ _ Hb) as Hbn.
  apply (disk_ok_update view fs i f); [done|done| | | | |done|].
  - intros x Hx. destruct (decide (x = b)) as [->|?]; [|rewrite E2 by done; by apply Hk]. rewrite E1, length_splice_max by lia. lia.
  - intros x Hx _. apply E2. by intros ->.
  - intros x Hx Hs. rewrite E2 by lia. done.
  - intros x Hx. by left.
  - destruct (chunk_splice (fe_data f) bn r q Hq Ho) as [C1 C2]. unfold owned in Hnd. apply NoDup_app in Hnd as (Hnd & Hni & _).
    split; change (fe_blks f') with (fe_blks f); change (fe_ind f') with (fe_ind f); change (fe_data f') with (splice (512 * bn + r) q (fe_data f)).
    + done.
    + rewrite length_splice_max by done. lia.
    + done.
    + intros Hn k Hk1. rewrite E2; [by apply Htab|]. intros <-. apply (Hni (fe_ind f)); [by eapply list_elem_of_lookup_2|].
      rewrite (proj2 (Z.eqb_neq _ _) Hn). by left.
    + intros k x Hx. destruct (decide (k = bn)) as [->|Hkn].
      * assert (x = b) as -> by congruence. rewrite C1, E1. apply take_splice_chunk; [done|by apply Hdat| |done|]; unfold chunk, sub; rewrite length_take, length_drop; lia.
      * rewrite C2, E2; [by apply Hdat| |done]. intros ->. apply Hkn. by eapply NoDup_lookup.
Qed.

(** The blocks that are allocated for [m] bytes at offset [o]. *)
Definition blocks_for (f : fent) (o m : nat) : Z := cost (Nat.max (length (fe_blks f)) (nblk (o + m))) - cost (length (fe_blks f)).

Lemma blocks_for_need f o m :
  (o <= 512 * length (fe_blks f))%nat -> (0 < m)%nat -> (o / 512 <= length (fe_blks f))%nat /\ need f (o / 512) <= blocks_for f o m.
Proof.
  intros Ho Hm. destruct (blocks_of o) as [Eo Hr]. assert (o / 512 <= length (fe_blks f))%nat as Hbn by lia. split; [done|].
  pose proof (nblk_bounds (o + m)). unfold blocks_for. rewrite need_cost by done.
  pose proof (cost_mono (Nat.max (length (fe_blks f)) (S (o / 512))) (Nat.max (length (fe_blks f)) (nblk (o + m)))). lia.
Qed.

Lemma blocks_for_step f f' o m c :
  (o <= 512 * length (fe_blks f))%nat -> (0 < c <= m)%nat ->
  length (fe_blks f') = Nat.max (length (fe_blks f)) (S (o / 512)) ->
  blocks_for f o m = need f (o / 512) + blocks_for f' (o + c) (m - c)
  /\ Nat.max (length (fe_blks f')) (nblk (o + c + (m - c))) = Nat.max (length (fe_blks f)) (nblk (o + m)).
Proof.
  intros Ho Hc Hl. destruct (blocks_for_need f o m) as [Hbn _]; [lia..|]. destruct (blocks_of o) as [Eo Hr].
  replace (o + c + (m - c))%nat with (o + m)%nat by lia. pose proof (nblk_bounds (o + m)).
  assert (Nat.max (length (fe_blks f')) (nblk (o + m)) = Nat.max (length (fe_blks f)) (nblk (o + m))) as Emax by lia.
  unfold blocks_for. replace (o + c + (m - c))%nat with (o + m)%nat by lia. rewrite Emax, need_cost, Hl by done. split; [lia|done].
Qed.

Lemma splice_two o c m (src data : list Z) :
  (c <= m <= length src)%nat -> (o <= length data)%nat ->
  splice (o + c) (take (m - c) (drop c src)) (splice o (take c src) data) = splice o (take m src) data.
Proof.
  intros Hc Ho. unfold splice. rewrite !length_take, length_drop. replace (c `min` length src)%nat with c by lia.
  replace ((m - c) `min` (length src - c))%nat with (m - c)%nat by lia. replace (m `min` length src)%nat with m by lia.
  rewrite (assoc_L (++) (take o data)). rewrite take_app_le by (rewrite length_app, !length_take; lia).
  rewrite take_ge by (rewrite length_app, !length_take; lia). rewrite <- (assoc_L (++)). f_equal.
  assert (take m src = take c src ++ take (m - c) (drop c src)) as -> by (rewrite take_take_drop; f_equal; lia).
  rewrite drop_app_ge by (rewrite length_app, !length_take; lia).
  rewrite length_app, !length_take, drop_drop, <- (assoc_L (++)). do 3 f_equal. lia.
Qed.

(** What the loop of [writei] leaves when it has written [m] bytes of [src] at [o]. *)
Definition looped (s : kernel) (view : Z -> block) (fs : list fent) (i : nat) (f : fent) (C : list Z) (ic : list inode)
    (ip : nat) (nd : inode) (rounds k : nat) (n : Z) (o m : nat) (src : list Z) : Prop :=
  exists s' view' dirty' f' C',
    writei_loop rounds ip (Z.of_nat o) n (n - Z.of_nat m) src s = Done (Z.of_nat (o + m)) s'
    /\ T s' view' [] dirty' (<[ip := nd <| i_addrs := addrs_of f' |>]> ic)
    /\ disk_ok view' (<[i := f']> fs) /\ fe_type f' = fe_type f /\ fe_data f' = splice o (take m src) (fe_data f)
    /\ length (fe_blks f') = Nat.max (length (fe_blks f)) (nblk (o + m))
    /\ Z.of_nat (nfree view') = Z.of_nat (nfree view) - blocks_for f o m
    /\ ready f' C' k dirty' /\ C ⊆ C'
    /\ ((o + m <= 512 * length (fe_blks f))%nat -> fe_blks f' = fe_blks f /\ fe_ind f' = fe_ind f)
    /\ forall x, x < bm -> view' x = view x.

(** One round of the loop: the bytes [q] go to the block of offset [o]. *)
Lemma writei_round i ip k s view fs f dirty ic C nd o m q :
  disk_ok view fs -> fs !! i = Some f -> T s view [] dirty ic -> ready f C (S k) dirty ->
  ic !! ip = Some nd -> i_dev nd = 1 -> i_addrs nd = addrs_of f ->
  (o <= length (fe_data f))%nat -> (o + m <= 512 * 140)%nat -> (0 < length q <= m)%nat -> (o mod 512 + length q <= 512)%nat ->
  blocks_for f o m <= Z.of_nat (nfree view) ->
  exists s' view' dirty' f' C',
    (forall A (next : K A), (b ← bmap ip (Z.of_nat (o / 512)) ; bp ← bread 1 b ; upd_data bp (splice (o mod 512) q) ;;
       log_write bp ;; brelse bp ;; next) s = next s')
    /\ T s' view' [] dirty' (<[ip := nd <| i_addrs := addrs_of f' |>]> ic)
    /\ disk_ok view' (<[i := f']> fs) /\ fe_type f' = fe_type f /\ fe_data f' = splice o q (fe_data f)
    /\ length (fe_blks f') = Nat.max (length (fe_blks f)) (S (o / 512))
    /\ Z.of_nat (nfree view') = Z.of_nat (nfree view) - need f (o / 512)
    /\ ready f' C' k dirty' /\ C ⊆ C'
    /\ ((o + length q <= 512 * length (fe_blks f))%nat -> fe_blks f' = fe_blks f /\ fe_ind f' = fe_ind f)
    /\ forall x, x < bm -> view' x = view x.
Proof.
  intros Hk Hi Ht Hr Hip Hdev Had Ho Hmax Hq Hq' Hfree. pose proof (sd_len _ _ (dk_files _ _ Hk i f Hi)) as Hlen. destruct (blocks_of o) as [Eo Hrem].
  destruct (blocks_for_need f o m) as [Hbn Hneed]; [lia..|].
  destruct (bmap_run view fs i f s dirty ic C k ip nd (o / 512)) as (b & s1 & v1 & d1 & f1 & C1 & R1 & T1 & K1 & Hb & Ety & Ed & El & Ef & Hr1 & HbC & HCC & Hsame & Hv1); [done..|lia|lia|].
  assert (<[i := f1]> fs !! i = Some f1) as Hi1 by (apply list_lookup_insert_eq; by eapply lookup_lt_Some).
  destruct (blk_pos v1 _ K1 i f1 Hi1 _ b Hb) as [Hbr _]. set (ic1 := <[ip := _]> ic) in *.
  destruct (cap_bread s1 v1 [] d1 ic1 C1 _ b T1 (proj1 Hr1)) as (j & s2 & R2 & T2); [apply not_elem_of_nil|lia|cbn; lia|].
  destruct (tx_log_held s2 v1 [] d1 ic1 C1 _ b j (splice (o mod 512) q) T2 (proj1 Hr1)) as (s3 & s4 & s5 & R3 & R4 & R5 & T5).
  pose proof (write_piece v1 _ i f1 (o / 512) b (o mod 512) q K1 Hi1 Hb Hq') as K2. rewrite <- Eo, Ed in K2. specialize (K2 Ho).
  rewrite list_insert_insert_eq in K2. set (f2 := set fe_data _ f1) in *.
  exists s5, (<[b := splice (o mod 512) q (v1 b)]> v1), (ins b d1), f2, C1. split_and!; [|exact T5|exact K2|exact Ety|unfold f2; cbn; by rewrite Ed|exact El| | |exact HCC| |].
  - intros A next. krun R1. krun R2. krun R3. krun R4. by krun R5.
  - assert (nfree (<[b := splice (o mod 512) q (v1 b)]> v1) = nfree v1) as ->; [|done]. unfold nfree. by rewrite fn_lookup_insert_ne by lia.
  - destruct Hr1 as (H1 & H2 & H3). split_and!; [by apply cap_ins|exact H2|exact H3].
  - intros Hle. change (fe_blks f1 = fe_blks f /\ fe_ind f1 = fe_ind f). rewrite Hsame by lia. done.
  - intros x Hx. rewrite fn_lookup_insert_ne by lia. by apply Hv1.
Qed.

Lemma writei_loop_run i ip k n rounds : forall s view fs f dirty ic C nd o m src,
  disk_ok view fs -> fs !! i = Some f -> T s view [] dirty ic -> ready f C (touched o m + k) dirty ->
  ic !! ip = Some nd -> i_dev nd = 1 -> i_addrs nd = addrs_of f ->
  (o <= length (fe_data f))%nat -> (o + m <= 512 * 140)%nat -> (m <= length src)%nat -> (touched o m < rounds)%nat ->
  blocks_for f o m <= Z.of_nat (nfree view) ->
  looped s view fs i f C ic ip nd rounds k n o m src.
Proof.
  induction rounds as [|rounds IH]; intros s view fs f dirty ic C nd o m src Hk Hi Ht Hr Hip Hdev Had Ho Hmax Hsrc Hround Hfree; [lia|].
  pose proof (sd_len _ _ (dk_files _ _ Hk i f Hi)) as Hlen. unfold looped. cbn [writei_loop].
  destruct (Z.ltb_spec (n - Z.of_nat m) n) as [Hlt|Hge]; cycle 1.
  { assert (m = 0)%nat as -> by lia. rewrite Nat.add_0_r in *. pose proof (nblk_bounds o).
    assert (nblk o <= length (fe_blks f))%nat by lia. exists s, view, dirty, f, C. unfold blocks_for. rewrite Nat.add_0_r, Nat.max_l by lia.
    split_and!; [done| |by rewrite list_insert_id|done| |done|lia|done|done|done|done].
    - rewrite <- Had, list_insert_id; [done|]. rewrite Hip. by destruct nd.
    - unfold splice. cbn [take length app]. by rewrite take_0, Nat.add_0_r, app_nil_l, take_drop. }
  destruct (touched_step o m ltac:(lia)) as [Hc Et]. set (c := Nat.min m _) in *. assert (c <= m /\ o mod 512 + c <= 512)%nat as [Hcm Hc512] by (destruct (blocks_of o); unfold c; lia).
  set (q := take c src). assert (length q = c) as Eq by (unfold q; rewrite length_take; lia). rewrite Et in Hr.
  destruct (writei_round i ip (touched (o + c) (m - c) + k) s view fs f dirty ic C nd o m q) as
    (s2 & v2 & d2 & f2 & C2 & R2 & T2 & K2 & Ety2 & Ed2 & El2 & Ef2 & Hr2 & HCC2 & Hs2 & Hv2); [done..|lia|lia|done|].
  destruct (blocks_for_step f f2 o m c) as (Ebf & Emax); [lia..|]. set (nd2 := nd <| i_addrs := addrs_of f2 |>) in *.
  destruct (IH s2 v2 (<[i := f2]> fs) f2 d2 (<[ip := nd2]> ic) C2 nd2 (o + c)%nat (m - c)%nat (drop c src)) as
    (s3 & v3 & d3 & f3 & C3 & R3 & T3 & K3 & Ety3 & Ed3 & El3 & Ef3 & Hr3 & HCC3 & Hs3 & Hv3);
    [exact K2|apply list_lookup_insert_eq; by eapply lookup_lt_Some|exact T2|exact Hr2|apply list_lookup_insert_eq; by eapply lookup_lt_Some
    |exact Hdev|done|rewrite Ed2, length_splice_max by done; lia|lia|rewrite length_drop; lia|lia|lia|].
  exists s3, v3, d3, f3, C3. rewrite list_insert_insert_eq in K3. rewrite list_insert_insert_eq in T3.
  split_and!; [| |exact K3|by rewrite Ety3| |by rewrite El3|lia|exact Hr3|by etrans| |].
  - krun (tx_get_inode s view [] dirty ic ip nd Ht Hip). destruct (offset_block o) as [-> ->]. rewrite Hdev, piece_size. fold c.
    rewrite !Nat2Z.id. fold q. rewrite R2. replace (Z.of_nat o + Z.of_nat c) with (Z.of_nat (o + c)) by lia.
    replace (n - Z.of_nat m + Z.of_nat c) with (n - Z.of_nat (m - c)) by lia. rewrite R3. do 2 f_equal. lia.
  - replace (nd <| i_addrs := addrs_of f3 |>) with (nd2 <| i_addrs := addrs_of f3 |>) by (by destruct nd). exact T3.
  - rewrite Ed3, Ed2. apply splice_two; lia.
  - intros Hle. destruct Hs2 as [Eb Ei]; [lia|]. rewrite <- Eb, <- Ei. apply Hs3. rewrite Eb. lia.
  - intros x Hx. by rewrite Hv3, Hv2.
Qed.

(** ** Files and their inodes *)

Definition dinode_at (view : Z -> block) (inum : Z) : dinode := get_dinode (view (IBLOCK inum sb)) (dinode_off inum).
Definition mem_dinode (nd : inode) : dinode := Dinode (i_type nd) (i_major nd) (i_minor nd) (i_nlink nd) (i_size nd) (i_addrs nd).

(** The inodes are in the blocks before the bitmap. *)
Context (nfiles : nat) (Hino : forall i, (i < nfiles)%nat -> lo <= IBLOCK (Z.of_nat i) sb < bm).

(** The disk holds the file system [fs]: file [i] is described by inode [i], and has no
    more blocks than its content needs. *)
Record files_ok (view : Z -> block) (fs : list fent) : Prop := FilesOk {
  fo_disk : disk_ok view fs;
  fo_num : length fs = nfiles;
  fo_ino : forall i f, fs !! i = Some f -> let d := dinode_at view (Z.of_nat i) in
    d_type d = fe_type f /\ d_size d = Z.of_nat (length (fe_data f)) /\ d_addrs d = addrs_of f;
  fo_tight : forall i f, fs !! i = Some f -> tight f
}.

Lemma addrs_bounded view fs i f : disk_ok view fs -> fs !! i = Some f -> Forall (fun x => 0 <= x < W32) (addrs_of f).
Proof.
  intros Hk Hi. assert (forall b, b ∈ owned f -> 0 <= b < W32) as Hb.
  { intros b Hb. destruct (dk_own _ _ Hk i f b Hi Hb). unfold BPB, BSIZE, W32 in *. lia. }
  apply Forall_app. split; [|apply Forall_singleton].
  - apply Forall_take, Forall_app. split; [|by apply Forall_replicate].
    apply Forall_forall. intros b Hin. apply Hb, elem_of_app. by left.
  - destruct (decide (fe_ind f = 0)) as [->|Hn]; [done|]. by apply Hb, owned_ind.
Qed.

Lemma mem_dinode_wf view fs i f nd : disk_ok view fs -> fs !! i = Some f -> inode_of nd f -> dinode_wf (mem_dinode nd).
Proof.
  intros Hk Hi [_ _ Hsz Had Hsh]. pose proof (stored_length _ _ (dk_files _ _ Hk i f Hi)) as Hmax. split; [exact Hsh| |].
  - apply Forall_cons. cbn. rewrite Had, Hsz. split; [unfold W32; lia|by eapply addrs_bounded].
  - cbn. rewrite Had. apply length_addrs.
Qed.

(** What [iupdate] writes. *)
Definition update_dinode (nd : inode) (view : Z -> block) : Z -> block :=
  let b := IBLOCK (i_inum nd) sb in <[b := set_dinode (view b) (dinode_off (i_inum nd)) (mem_dinode nd)]> view.

Lemma iupdate_run s view dirty ic C k ip nd :
  T s view [] dirty ic -> cap dirty C k -> ic !! ip = Some nd -> i_dev nd = 1 -> IBLOCK (i_inum nd) sb < disksize -> exists s',
  iupdate ip s = Done tt s' /\ T s' (update_dinode nd view) [] (ins (IBLOCK (i_inum nd) sb) dirty) ic.
Proof.
  intros Ht Hcap Hip Hdev Hb. unfold iupdate. krun (tx_get_inode s view [] dirty ic ip nd Ht Hip).
  rewrite (bind_done (gets k_sb) _ s sb s) by (unfold gets; by rewrite (tx_sb _ _ _ _ _ Ht)). cbv beta. rewrite Hdev.
  destruct (cap_bread s view [] dirty ic C k (IBLOCK (i_inum nd) sb) Ht Hcap) as (j & s1 & R1 & T1); [apply not_elem_of_nil|done|cbn; lia|].
  krun R1. krun (tx_get_inode s1 view _ dirty ic ip nd T1 Hip).
  destruct (tx_log_held s1 view [] dirty ic C k _ j (fun d => set_dinode d (dinode_off (i_inum nd)) (mem_dinode nd)) T1 Hcap) as (s2 & s3 & s4 & R2 & R3 & R4 & T4).
  krun R2. krun R3. exists s4. split; [exact R4|exact T4].
Qed.

Lemma dinode_at_update view fs i f nd j :
  disk_ok view fs -> fs !! i = Some f -> inode_of nd f -> i_inum nd = Z.of_nat i -> (i < nfiles)%nat ->
  dinode_at (update_dinode nd view) (Z.of_nat j) = if decide (i = j) then mem_dinode nd else dinode_at view (Z.of_nat j).
Proof.
  intros Hk Hi Hnd Hin Hlt. unfold dinode_at, update_dinode. rewrite Hin. pose proof (mem_dinode_wf view fs i f nd Hk Hi Hnd) as Hwf.
  assert (length (view (IBLOCK (Z.of_nat i) sb)) = Z.to_nat BSIZE) as Hl by (apply (dk_len _ _ Hk); specialize (Hino i Hlt); lia).
  destruct (decide (i = j)) as [<-|Hne].
  - rewrite fn_lookup_insert. apply dinode_same; [done|lia|done].
  - destruct (decide (IBLOCK (Z.of_nat i) sb = IBLOCK (Z.of_nat j) sb)) as [E1|E1]; [|by rewrite fn_lookup_insert_ne].
    rewrite <- E1, fn_lookup_insert. apply dinode_other; [done|lia|done|lia|]. unfold IBLOCK in E1. change IPB with 8 in *.
    intros E2. apply Hne. Z.div_mod_to_equations. lia.
Qed.

Lemma update_dinode_ok view fs i f nd :
  disk_ok view fs -> fs !! i = Some f -> inode_of nd f -> i_inum nd = Z.of_nat i -> (i < nfiles)%nat ->
  disk_ok (update_dinode nd view) fs.
Proof.
  intros Hk Hi Hnd Hin Hlt. specialize (Hino i Hlt). unfold update_dinode. rewrite Hin. apply disk_ok_meta; [done|lia|].
  assert (length (view (IBLOCK (Z.of_nat i) sb)) = 512%nat) as Hl by (apply (dk_len _ _ Hk); lia). rewrite <- Hl.
  destruct (dinode_off_slot (Z.of_nat i)) as [Ho Hn]; [lia|]. 
  apply (set_dinode_outside (view _) (dinode_off (Z.of_nat i)) (mem_dinode nd)); [|lia]. apply (mem_dinode_wf view fs i f); done.
Qed.

(** The file [i] has changed, and its inode has been written. *)
Lemma files_update view fs i f view' f' nd :
  files_ok view fs -> fs !! i = Some f -> disk_ok view' (<[i := f']> fs) -> (forall x, x < bm -> view' x = view x) ->
  inode_of nd f' -> i_inum nd = Z.of_nat i -> tight f' -> files_ok (update_dinode nd view') (<[i := f']> fs).
Proof.
  intros [Hk Hnum Hd Htt] Hi Hk' Hv Hnd Hin Ht. pose proof (lookup_lt_Some _ _ _ Hi) as Hlt.
  assert (<[i := f']> fs !! i = Some f') as Hi' by (by apply list_lookup_insert_eq).
  split; [by eapply update_dinode_ok; eauto; lia|by rewrite length_insert| |].
  - intros j g Hj. cbv zeta. rewrite (dinode_at_update view' _ i f' nd j Hk' Hi' Hnd Hin) by lia. case_decide as E0.
    + subst j. assert (g = f') as -> by congruence. destruct Hnd. by cbn.
    + rewrite list_lookup_insert_ne in Hj by done. unfold dinode_at. rewrite Hv; [by apply Hd|]. apply Hino. rewrite <- Hnum. by eapply lookup_lt_Some.
  - intros j g Hj. destruct (decide (i = j)) as [<-|Hne]; [by replace g with f' by congruence|]. rewrite list_lookup_insert_ne in Hj by done. by apply (Htt j).
Qed.

(** The file [i] has changed, but not its inode. *)
Lemma files_same_inode view fs i f view' f' :
  files_ok view fs -> fs !! i = Some f -> disk_ok view' (<[i := f']> fs) -> (forall x, x < bm -> view' x = view x) ->
  fe_type f' = fe_type f -> fe_blks f' = fe_blks f -> fe_ind f' = fe_ind f -> length (fe_data f') = length (fe_data f) ->
  files_ok view' (<[i := f']> fs).
Proof.
  intros [Hk Hnum Hd Htt] Hi Hk' Hv E1 E2 E3 E4. pose proof (lookup_lt_Some _ _ _ Hi) as Hlt.
  assert (forall j, (j < nfiles)%nat -> dinode_at view' (Z.of_nat j) = dinode_at view (Z.of_nat j)) as Hdv.
  { intros j Hj. unfold dinode_at. rewrite Hv; [done|]. by apply Hino. }
  split; [done|by rewrite length_insert| |]; intros j g Hj; destruct (decide (i = j)) as [<-|Hne].
  - rewrite list_lookup_insert_eq in Hj by done. injection Hj as <-. rewrite Hdv by lia. rewrite E1, E4. unfold addrs_of. rewrite E2, E3. by apply Hd.
  - rewrite list_lookup_insert_ne in Hj by done. rewrite Hdv; [by apply Hd|]. rewrite <- Hnum. by eapply lookup_lt_Some.
  - rewrite list_lookup_insert_eq in Hj by done. injection Hj as <-. unfold tight. rewrite E2, E4. by apply (Htt i).
  - rewrite list_lookup_insert_ne in Hj by done. by apply (Htt j).
Qed.

Lemma writei_refused view fs i f s dirty ic ip nd o n src :
  T s view [] dirty ic -> disk_ok view fs -> fs !! i = Some f -> ic !! ip = Some nd -> inode_of nd f -> fe_type f <> T_DEV ->
  Z.of_nat o + Z.of_nat n < W32 -> (length (fe_data f) < o \/ 512 * 140 < o + n)%nat ->
  writei ip src (Z.of_nat o) (Z.of_nat n) s = Done (-1) s.
Proof.
  intros Ht Hk Hi Hip Hnd Hty Hsum Hbad. unfold writei. krun (tx_get_inode s view [] dirty ic ip nd Ht Hip).
  rewrite (io_type _ _ Hnd), (proj2 (Z.eqb_neq _ _) Hty), (io_size _ _ Hnd). unfold u32. rewrite Z.mod_small by lia.
  rewrite (proj2 (Z.ltb_ge (Z.of_nat o + Z.of_nat n) _)) by lia. rewrite orb_false_r. destruct Hbad.
  - by rewrite (proj2 (Z.ltb_lt _ _)) by lia.
  - destruct (_ <? _); [done|]. by rewrite (proj2 (Z.ltb_lt (MAXFILE * BSIZE) _)) by (change (MAXFILE * BSIZE) with 71680; lia).
Qed.

(** What [writei] leaves when it has written [n] bytes of [src] at [o] of file [i]. *)
Definition writei_done (s : kernel) (view : Z -> block) (fs : list fent) (i : nat) (f : fent) (C : list Z) (ic : list inode)
    (ip : nat) (nd : inode) (src : list Z) (o n k : nat) : Prop :=
  exists s' view' dirty' f' nd' C',
    writei ip src (Z.of_nat o) (Z.of_nat n) s = Done (Z.of_nat n) s'
    /\ T s' view' [] dirty' (<[ip := nd']> ic)
    /\ files_ok view' (<[i := f']> fs) /\ inode_of nd' f' /\ nd' = nd <| i_addrs := i_addrs nd' |> <| i_size := i_size nd' |>
    /\ fe_type f' = fe_type f /\ fe_data f' = splice o (take n src) (fe_data f)
    /\ Z.of_nat (nfree view') = Z.of_nat (nfree view) - blocks_for f o n
    /\ ready f' C' k dirty' /\ C ⊆ C'.

Lemma writei_run view fs i f s dirty ic C k ip nd o n src :
  files_ok view fs -> fs !! i = Some f -> T s view [] dirty ic -> ready f C (touched o n + k) dirty -> IBLOCK (Z.of_nat i) sb ∈ C ->
  ic !! ip = Some nd -> inode_of nd f -> i_inum nd = Z.of_nat i -> fe_type f <> T_DEV ->
  (o <= length (fe_data f))%nat -> (o + n <= 512 * 140)%nat -> (n <= length src)%nat -> blocks_for f o n <= Z.of_nat (nfree view) ->
  writei_done s view fs i f C ic ip nd src o n k.
Proof.
  intros Hf Hi Ht Hr HC Hip Hnd Hin Hty Ho Hmax Hsrc Hfree. pose proof Hf as [Hk Hnum _ Htt]. specialize (Htt i f Hi). unfold tight in Htt.
  pose proof (lookup_lt_Some _ _ _ Hi) as Hlt. pose proof (lookup_lt_Some _ _ _ Hip) as Hlt'.
  destruct (writei_loop_run i ip k (Z.of_nat n) (io_rounds (Z.of_nat n)) s view fs f dirty ic C nd o n src) as
    (s1 & v1 & d1 & f1 & C1 & R1 & T1 & K1 & Ety & Ed & El & Ef & Hr1 & HCC & Hsame & Hv1); [done..|by destruct Hnd|by destruct Hnd|done|done|done|apply touched_rounds|done|].
  rewrite Z.sub_diag in R1. set (nd1 := nd <| i_addrs := addrs_of f1 |>) in *.
  assert (length (fe_data f1) = Nat.max (length (fe_data f)) (o + n)) as Ed1 by (rewrite Ed, length_splice_max, length_take by done; lia).
  unfold writei_done, writei. krun (tx_get_inode s view [] dirty ic ip nd Ht Hip).
  rewrite (io_type _ _ Hnd), (proj2 (Z.eqb_neq _ _) Hty), (io_size _ _ Hnd). unfold u32. rewrite Z.mod_small by (unfold W32; lia).
  rewrite (proj2 (Z.ltb_ge (Z.of_nat o + Z.of_nat n) _)) by lia. rewrite orb_false_r, (proj2 (Z.ltb_ge _ _)) by lia.
  rewrite (proj2 (Z.ltb_ge (MAXFILE * BSIZE) _)) by (change (MAXFILE * BSIZE) with 71680; lia). krun R1.
  krun (tx_get_inode s1 v1 [] d1 _ ip nd1 T1 ltac:(by apply list_lookup_insert_eq)). change (i_size nd1) with (i_size nd).
  rewrite (io_size _ _ Hnd). rewrite i32_small by lia. destruct (Z.ltb_spec (Z.of_nat (length (fe_data f))) (Z.of_nat (o + n))) as [Hgrow|Hin'].
  - rewrite (proj2 (Z.ltb_lt 0 (Z.of_nat n))) by lia. cbn [andb when].
    destruct (tx_upd_inode s1 v1 [] d1 _ ip (fun i => i <| i_size := Z.of_nat (o + n) |>) T1) as (s2 & R2 & T2).
    set (nd2 := nd1 <| i_size := Z.of_nat (o + n) |>). rewrite (alter_at _ _ _ nd1) in T2 by (by apply list_lookup_insert_eq).
    rewrite list_insert_insert_eq in T2. fold nd2 in T2.
    assert (inode_of nd2 f1) as Hnd2 by (destruct Hnd as [H1 H2 H3 H4 H5]; split; [done|by rewrite Ety|cbn; f_equal; lia|done|done]).
    assert (IBLOCK (i_inum nd2) sb = IBLOCK (Z.of_nat i) sb) as Eib by (change (i_inum nd2) with (i_inum nd); by rewrite Hin).
    destruct (iupdate_run s2 v1 d1 _ C1 _ ip nd2 T2 (proj1 Hr1)) as (s3 & R3 & T3); [by apply list_lookup_insert_eq|by destruct Hnd2|rewrite Eib; specialize (Hino i ltac:(lia)); lia|].
    exists s3, (update_dinode nd2 v1), (ins (IBLOCK (i_inum nd2) sb) d1), f1, nd2, C1.
    split_and!; [|exact T3| |exact Hnd2|by destruct nd|exact Ety|exact Ed| | |exact HCC].
    + erewrite bind_done; [|krun R2; exact R3]. done.
    + apply (files_update view fs i f); [done..| |]. { exact Hin. } { unfold tight. rewrite El, Htt, Ed1. symmetry. apply nblk_max. }
    + rewrite <- Ef. f_equal. unfold nfree, update_dinode. rewrite Eib. specialize (Hino i ltac:(lia)). by rewrite fn_lookup_insert_ne by lia.
    + destruct Hr1 as (H1 & H2 & H3). split_and!; [|exact H2|exact H3]. rewrite Eib. apply cap_ins; [done|by apply HCC].
  - rewrite andb_false_r. cbn [when]. exists s1, v1, d1, f1, nd1, C1. destruct Hsame as [Eb Ei]; [rewrite Htt; pose proof (nblk_bounds (length (fe_data f))); lia|].
    split_and!; [done|exact T1| | |by destruct nd|exact Ety|exact Ed|exact Ef|exact Hr1|exact HCC].
    + apply (files_same_inode view fs i f); (done || lia).
    + destruct Hnd as [H1 H2 H3 H4 H5]. split; [done|by rewrite Ety|cbn; rewrite H3; f_equal; lia|done|done].
Qed.

End volume.
End tx.
