(* ===== verification/Mkfs.v ===== *)
(** mkfs.c: the program that builds the image of the file system.

    It runs on the host: the image is a file of sectors, and the files it copies arrive in the
    chunks that [read] gives.  A failing read of the image, an error exit
    and a failed assertion stop the run; the other calls on the image file succeed, and
    what the program prints is left out.  [xint] and [xshort] are the identity on a
    little-endian host. *)
From S2P Require Import Prelude Kernel Spinlock Console CString Kalloc Proc Sleeplock Disk Bytes Bio Log Inode ConsoleIo Fs.

Abbreviation NINODES := 200 (only parsing).
Definition nbitmap : Z := FSSIZE / (BSIZE * 8) + 1.
Definition ninodeblocks : Z := NINODES / IPB + 1.
Abbreviation nlog := LOGSIZE (only parsing).
Definition nmeta : Z := 2 + nlog + ninodeblocks + nbitmap.
Definition nblocks : Z := FSSIZE - nmeta.

(** [sb] *)
Definition mk_sb : superblock :=
  Superblock FSSIZE nblocks NINODES nlog 2 (2 + nlog) (2 + nlog + ninodeblocks).

(** The image file, and how many sectors it has; [freeinode] and [freeblock]. *)
Record mkfs := Mkfs { mk_img : gmap Z block; mk_len : Z; mk_freeinode : Z; mk_freeblock : Z }.
#[export] Instance eta_mkfs : Eta mkfs := fun r => Mkfs (mk_img r) (mk_len r) (mk_freeinode r) (mk_freeblock r).

Abbreviation F := (M Empty_set mkfs).

Definition sector (s : mkfs) (sec : Z) : block := default zero_block (mk_img s !! sec).

Definition wsect (sec : Z) (buf : block) : F unit :=
  modify (fun s => s <| mk_img ::= <[sec := buf]> |> <| mk_len ::= Z.max (sec + 1) |>).

Definition rsect (sec : Z) : F block :=
  s ← get_state ;
  if sec <? mk_len s then mret (sector s sec) else panic "read".

Definition winode (inum : Z) (ip : dinode) : F unit :=
  let bn := IBLOCK inum mk_sb in
  buf ← rsect bn ;
  wsect bn (set_dinode buf (dinode_off inum) ip).

Definition rinode (inum : Z) : F dinode :=
  let bn := IBLOCK inum mk_sb in
  buf ← rsect bn ;
  mret (get_dinode buf (dinode_off inum)).

Definition ialloc (type : Z) : F Z :=
  inum ← gets mk_freeinode ;
  modify (fun s => s <| mk_freeinode := inum + 1 |>) ;;
  winode inum (Dinode type 0 0 1 0 (replicate 13 0)) ;;
  mret inum.

(** The bitmap with the first [used] bits set. *)
Definition set_bit (buf : block) (i : Z) : block := set8 buf (bit_byte i) (Z.lor (get8 buf (bit_byte i)) (bit_mask i)).

Definition balloc (used : Z) : F unit :=
  if negb (used <? BSIZE * 8) then panic "assert(used < BSIZE*8)" else
  wsect (sb_bmapstart mk_sb) (foldl set_bit zero_block (seqZ 0 used)).

(** [freeblock++] *)
Definition new_block : F Z :=
  b ← gets mk_freeblock ;
  modify (fun s => s <| mk_freeblock := b + 1 |>) ;;
  mret b.

(** [din.addrs[i]], and its assignment *)
Definition addr (din : dinode) (i : Z) : Z := default 0 (d_addrs din !! Z.to_nat i).
Definition with_addr (din : dinode) (i b : Z) : dinode :=
  Dinode (d_type din) (d_major din) (d_minor din) (d_nlink din) (d_size din) (<[Z.to_nat i := b]> (d_addrs din)).

(** The block [x] of the file that holds block [fbn] of its content, allocated if need be. *)
Definition file_block (din : dinode) (fbn : Z) : F (dinode * Z) :=
  if fbn <? NDIRECT then
    din ← (if addr din fbn =? 0 then b ← new_block ; mret (with_addr din fbn b) else mret din) ;
    mret (din, addr din fbn)
  else
    din ← (if addr din NDIRECT =? 0 then b ← new_block ; mret (with_addr din NDIRECT b) else mret din) ;
    indirect ← rsect (addr din NDIRECT) ;
    let o := Z.to_nat (4 * (fbn - NDIRECT)) in
    indirect ← (if get32 indirect o =? 0 then
                  b ← new_block ;
                  let indirect := set32 indirect o b in
                  wsect (addr din NDIRECT) indirect ;;
                  mret indirect
                else mret indirect) ;
    mret (din, get32 indirect o).

(** The loop of [iappend]; every round fills a block or ends the loop. *)
Fixpoint iappend_loop (rounds : nat) (din : dinode) (off : Z) (p : list Z) : F (dinode * Z) :=
  match rounds with
  | O => stop_with OutOfFuel
  | S rounds' =>
      let n := Z.of_nat (length p) in
      if negb (0 <? n) then mret (din, off) else
      let fbn := off / BSIZE in
      if negb (fbn <? MAXFILE) then panic "assert(fbn < MAXFILE)" else
      '(din, x) ← file_block din fbn ;
      let n1 := Z.min n ((fbn + 1) * BSIZE - off) in
      buf ← rsect x ;
      wsect x (splice (Z.to_nat (off - fbn * BSIZE)) (take (Z.to_nat n1) p) buf) ;;
      iappend_loop rounds' din (off + n1) (drop (Z.to_nat n1) p)
  end.

Definition iappend (inum : Z) (p : list Z) : F unit :=
  din ← rinode inum ;
  '(din, off) ← iappend_loop (length p / 512 + 3) din (d_size din) p ;
  winode inum (Dinode (d_type din) (d_major din) (d_minor din) (d_nlink din) off (d_addrs din)).

(** A file of the command line: its name, and the chunks read from it unless it cannot be opened. *)
Record input := Input { in_name : list Z; in_chunks : option (list (list Z)) }.

Definition mk_dirent (inum : Z) (name : list Z) : list Z :=
  dirent_bytes (Dirent (u16 inum) (strncpy (replicate (Z.to_nat DIRSIZ) 0) name DIRSIZ)).

Definition copy_file (rootino : Z) (f : input) : F unit :=
  if bool_decide (47 ∈ in_name f) then panic "assert(index(argv[i], '/') == 0)" else
  match in_chunks f with
  | None => panic "open"
  | Some chunks =>
      let name := if at_ (in_name f) 0 =? 95 then tail (in_name f) else in_name f in
      inum ← ialloc T_FILE ;
      iappend rootino (mk_dirent inum name) ;;
      for_each chunks (iappend inum)
  end.

(** The block of the superblock. *)
Definition sb_block : block :=
  splice 0 (concat (map (le 4) [FSSIZE; nblocks; NINODES; nlog; 2; 2 + nlog; 2 + nlog + ninodeblocks])) zero_block.

(** [image] is [None] when the command line names no image, and otherwise tells
    whether it could be opened. *)
Definition mkfs_main (image : option bool) (files : list input) : F unit :=
  match image with
  | None => panic "Usage: mkfs fs.img files..."
  | Some false => panic "open"
  | Some true =>
    modify (fun s => s <| mk_freeblock := nmeta |>) ;;
    for_each (seqZ 0 FSSIZE) (fun i => wsect i zero_block) ;;
    wsect 1 sb_block ;;
    rootino ← ialloc T_DIR ;
    if negb (rootino =? ROOTINO) then panic "assert(rootino == ROOTINO)" else
    iappend rootino (mk_dirent rootino (cstr ".")) ;;
    iappend rootino (mk_dirent rootino (cstr "..")) ;;
    for_each files (copy_file rootino) ;;
    din ← rinode rootino ;
    let off := (d_size din / BSIZE + 1) * BSIZE in
    winode rootino (Dinode (d_type din) (d_major din) (d_minor din) (d_nlink din) off (d_addrs din)) ;;
    b ← gets mk_freeblock ;
    balloc b
  end.

(** The state in which the program starts. *)
Definition mk_start : mkfs := Mkfs ∅ 0 1 0.
