(* ===== verification/MkfsImage.v ===== *)
(** The image mkfs.c builds holds the files.

    [core s fs]: the content of the files [fs], one for each inode from 1 on, is in the
    blocks of the image [s] that the files own, and every other block that [freeblock] has
    not passed is still zero.  [iappend] is proved to append. *)
From S2P Require Import Prelude Kernel Spinlock Console CString Kalloc Proc Sleeplock Disk Bytes Bio Log Inode ConsoleIo Fs FileBlocks Mkfs.

(** ** Files in blocks *)

Record file_ok (s : mkfs) (f : fent) : Prop := FileOk {
  fo_max : (length (fe_blks f) <= 140)%nat;
  fo_len : (length (fe_data f) <= 512 * length (fe_blks f))%nat;
  fo_ind : fe_ind f = 0 <-> (length (fe_blks f) <= 12)%nat;
  fo_table : fe_ind f <> 0 -> forall k, (k < 128)%nat ->
    get32 (sector s (fe_ind f)) (4 * k) = default 0 (fe_blks f !! (12 + k)%nat);
  fo_data : forall k b, fe_blks f !! k = Some b -> sector s b = pad (chunk (fe_data f) k)
}.

Record core (s : mkfs) (fs : list fent) : Prop := Core {
  c_len : mk_len s = FSSIZE;
  c_sec : forall b, length (sector s b) = 512%nat;
  c_free : nmeta <= mk_freeblock s <= FSSIZE;
  c_zero : forall b, mk_freeblock s <= b -> sector s b = zero_block;
  c_own : forall i f b, fs !! i = Some f -> b ∈ owned f -> nmeta <= b < mk_freeblock s;
  c_nodup : forall i f, fs !! i = Some f -> NoDup (owned f);
  c_disj : forall i j f g b, fs !! i = Some f -> fs !! j = Some g -> i <> j -> b ∈ owned f -> ~ b ∈ owned g;
  c_files : forall i f, fs !! i = Some f -> file_ok s f
}.

Lemma file_ok_frame s s' f : (forall b, b ∈ owned f -> sector s' b = sector s b) -> file_ok s f -> file_ok s' f.
Proof.
  intros Hs [H1 H0 H2 H3 H4]. split; [done|done|done| |].
  - intros Hi k Hk. rewrite Hs; [by apply H3|]. unfold owned. apply elem_of_app. right.
    rewrite (proj2 (Z.eqb_neq _ _) Hi). by left.
  - intros k b Hb. rewrite Hs; [by apply H4|]. apply elem_of_app. left. by eapply list_elem_of_lookup_2.
Qed.

(** File [i] becomes [f'], and only blocks of [f'] change. *)
Lemma core_update s fs i f s' f' :
  core s fs -> fs !! i = Some f -> mk_len s' = FSSIZE ->
  mk_freeblock s <= mk_freeblock s' <= FSSIZE ->
  (forall b, length (sector s' b) = 512%nat) ->
  (forall b, ~ b ∈ owned f' -> sector s' b = sector s b) ->
  (forall b, b ∈ owned f' -> b ∈ owned f \/ mk_freeblock s <= b < mk_freeblock s') ->
  NoDup (owned f') -> file_ok s' f' -> core s' (<[i := f']> fs).
Proof.
  intros [Hl Hsec Hf Hz Ho Hn Hd Hfi] Hi Hl' Hf' Hsec' Hs Ho' Hn' Hok.
  assert (forall b, b ∈ owned f' -> nmeta <= b < mk_freeblock s') as Hown.
  { intros b Hb. destruct (Ho' b Hb) as [Hb'|Hb']; [|lia]. pose proof (Ho i f b Hi Hb'). lia. }
  assert (forall j g b, i <> j -> fs !! j = Some g -> b ∈ owned f' -> ~ b ∈ owned g) as Hdis.
  { intros j g b Hne Hj Hb Hg. destruct (Ho' b Hb) as [Hb'|Hb']; [by apply (Hd i j f g b)|]. pose proof (Ho j g b Hj Hg). lia. }
  assert (forall j g, <[i := f']> fs !! j = Some g -> i = j /\ g = f' \/ i <> j /\ fs !! j = Some g) as Hlk.
  { intros j g Hj. destruct (decide (i = j)) as [<-|Hne]; [|rewrite list_lookup_insert_ne in Hj by done; by right].
    rewrite list_lookup_insert_eq in Hj by (by eapply lookup_lt_Some). left. by simplify_eq. }
  split; [done|done|lia| | | | |].
  - intros b Hb. rewrite Hs; [apply Hz; lia|]. intros Hbo. specialize (Hown b Hbo). lia.
  - intros j g b [[<- ->]|[_ Hj]]%Hlk Hb; [by apply Hown|]. pose proof (Ho j g b Hj Hb). lia.
  - intros j g [[<- ->]|[_ Hj]]%Hlk; [done|by apply (Hn j)].
  - intros j k g g' b [[<- ->]|[Hne Hj]]%Hlk [[<- ->]|[Hne' Hk]]%Hlk Hjk Hb; [done|by apply (Hdis k)| |by apply (Hd j k g)].
    intros Hb'. by apply (Hdis j g b).
  - intros j g [[<- ->]|[Hne Hj]]%Hlk; [done|]. apply (file_ok_frame s); [|by apply (Hfi j)].
    intros b Hb. apply Hs. intros Hb'. by apply (Hdis j g b).
Qed.

(** *** The primitives *)

Definition put (s : mkfs) (sec : Z) (buf : block) : mkfs := s <| mk_img ::= <[sec := buf]> |> <| mk_len ::= Z.max (sec + 1) |>.

Lemma wsect_run sec buf s : wsect sec buf s = Done tt (put s sec buf).
Proof. done. Qed.

Lemma rsect_run s sec : mk_len s = FSSIZE -> sec < FSSIZE -> rsect sec s = Done (sector s sec) s.
Proof. intros Hl Hs. unfold rsect, get_state, mbind, M_bind. cbn [kbind]. by rewrite Hl, (proj2 (Z.ltb_lt _ _) Hs). Qed.

Lemma sector_put s sec buf b : sector (put s sec buf) b = if decide (b = sec) then buf else sector s b.
Proof. unfold sector, put. cbn. case_decide; [subst; by rewrite lookup_insert_eq|by rewrite lookup_insert_ne]. Qed.

Lemma put_len s sec buf : mk_len s = FSSIZE -> sec < FSSIZE -> mk_len (put s sec buf) = FSSIZE.
Proof. intros Hl Hs. cbn. rewrite Hl. lia. Qed.

Lemma new_block_run s : new_block s = Done (mk_freeblock s) (s <| mk_freeblock ::= Z.add 1 |>).
Proof. unfold new_block, mbind, M_bind, gets, modify. cbn [kbind]. unfold mret, M_ret. f_equal. destruct s as [a b c d]. unfold set. cbn. f_equal. lia. Qed.

(** ** The block of an offset *)

(** What a call may change besides: nothing of an inode, and not the inode blocks. *)
Definition keeps_meta (s s' : mkfs) : Prop :=
  mk_freeinode s' = mk_freeinode s /\ forall b, b < nmeta -> sector s' b = sector s b.
Definition same_inode (d d' : dinode) : Prop :=
  d_type d' = d_type d /\ d_major d' = d_major d /\ d_minor d' = d_minor d /\ d_nlink d' = d_nlink d /\ d_size d' = d_size d.

Section block.
Context (s : mkfs) (fs : list fent) (Hc : core s fs) (i : nat) (f : fent) (Hi : fs !! i = Some f).
Context (din : dinode) (Hd : d_addrs din = addrs_of f).

Lemma blk_range k b : fe_blks f !! k = Some b -> nmeta <= b < mk_freeblock s.
Proof. intros Hb. apply (c_own _ _ Hc i f b Hi). apply elem_of_app. left. by eapply list_elem_of_lookup_2. Qed.

Lemma ind_range : fe_ind f <> 0 -> nmeta <= fe_ind f < mk_freeblock s.
Proof.
  intros Hn. apply (c_own _ _ Hc i f _ Hi). apply elem_of_app. right. rewrite (proj2 (Z.eqb_neq _ _) Hn). by left.
Qed.

(** What [file_block] gives. *)
Definition block_given (fbn : nat) : Prop :=
  exists din' x s' f', file_block din (Z.of_nat fbn) s = Done (din', x) s'
    /\ core s' (<[i := f']> fs) /\ d_addrs din' = addrs_of f' /\ same_inode din din'
    /\ fe_blks f' !! fbn = Some x /\ fe_type f' = fe_type f /\ fe_data f' = fe_data f
    /\ length (fe_blks f') = Nat.max (length (fe_blks f)) (S fbn)
    /\ mk_freeblock s' = mk_freeblock s + need f fbn /\ keeps_meta s s'.

Lemma nothing_new fbn x : fe_blks f !! fbn = Some x -> file_block din (Z.of_nat fbn) s = Done (din, x) s -> block_given fbn.
Proof.
  intros Hx R. pose proof (lookup_lt_Some _ _ _ Hx). exists din, x, s, f. split; [done|]. split.
  - by rewrite list_insert_id.
  - split_and!; try done; [lia|]. unfold need. rewrite (proj2 (Nat.ltb_lt _ _)) by done. lia.
Qed.

Lemma file_block_old fbn : (fbn < length (fe_blks f))%nat -> block_given fbn.
Proof.
  intros Hfbn. destruct (lookup_lt_is_Some_2 _ _ Hfbn) as [x Hx]. apply (nothing_new fbn x Hx).
  pose proof (blk_range _ _ Hx). assert (0 < nmeta) by done. pose proof (c_files _ _ Hc i f Hi) as [Hmax _ Hind Htab _].
  unfold file_block. destruct (Z.ltb_spec (Z.of_nat fbn) NDIRECT) as [Hlt|Hge]; unfold NDIRECT in *.
  - assert (addr din (Z.of_nat fbn) = x) as E.
    { unfold addr. rewrite Nat2Z.id, Hd, addrs_direct, Hx by lia. done. }
    rewrite E, (proj2 (Z.eqb_neq _ _)) by lia. unfold mbind, M_bind, mret, M_ret. cbn [kbind]. by rewrite E.
  - assert (addr din 12 = fe_ind f) as E by (unfold addr; rewrite Hd; change (Z.to_nat 12) with 12%nat; by rewrite addrs_indirect).
    assert (fe_ind f <> 0) as Hn by (intros ?%Hind; lia). pose proof (ind_range Hn). pose proof (c_free _ _ Hc).
    rewrite E, (proj2 (Z.eqb_neq _ _) Hn). rewrite (bind_done (mret din) _ s din s eq_refl). cbv beta. rewrite E.
    rewrite (bind_done _ _ _ _ _ (rsect_run s (fe_ind f) (c_len _ _ Hc) ltac:(lia))). cbv beta zeta.
    replace (Z.to_nat (4 * (Z.of_nat fbn - 12))) with (4 * (fbn - 12))%nat by lia.
    rewrite (Htab Hn (fbn - 12)%nat) by lia. replace (12 + (fbn - 12))%nat with fbn by lia. rewrite Hx. change (default 0 (Some x)) with x.
    rewrite (proj2 (Z.eqb_neq x 0)) by lia. unfold mbind, M_bind, mret, M_ret. cbn [kbind].
    rewrite (Htab Hn (fbn - 12)%nat) by lia. replace (12 + (fbn - 12))%nat with fbn by lia. by rewrite Hx.
Qed.
(** A new block holds nothing of the file yet. *)
Lemma chunk_end data k : (length data <= 512 * k)%nat -> pad (chunk data k) = zero_block.
Proof. intros Hl. unfold chunk, sub. rewrite drop_ge by done. done. Qed.

Lemma new_not_owned : ~ mk_freeblock s ∈ owned f /\ ~ mk_freeblock s + 1 ∈ owned f.
Proof. split; intros Hb; pose proof (c_own _ _ Hc i f _ Hi Hb); lia. Qed.

Lemma data_push s' b k x :
  file_ok s f -> (forall c, c ∈ fe_blks f -> sector s' c = sector s c) -> sector s' b = zero_block ->
  (fe_blks f ++ [b]) !! k = Some x -> sector s' x = pad (chunk (fe_data f) k).
Proof.
  intros [_ Hlen _ _ Hdat] Hs Hb [Hk|[Hge Hk]]%lookup_app_Some.
  - rewrite Hs by (by eapply list_elem_of_lookup_2). by apply Hdat.
  - apply list_lookup_singleton_Some in Hk as [Hk <-]. rewrite chunk_end; [done|]. lia.
Qed.

Lemma file_block_direct :
  (length (fe_blks f) < 12)%nat -> mk_freeblock s + 1 <= FSSIZE -> block_given (length (fe_blks f)).
Proof.
  intros Hlt Hroom. pose proof (c_files _ _ Hc i f Hi) as Hok. pose proof Hok as [Hmax Hlen Hind Htab Hdat].
  set (n := length (fe_blks f)) in *. set (b := mk_freeblock s). pose proof (c_free _ _ Hc).
  assert (fe_ind f = 0) as Hi0 by (apply Hind; lia). destruct new_not_owned as [Hnb _]. fold b in Hnb.
  set (f' := f <| fe_blks ::= fun l => l ++ [b] |>). set (s' := s <| mk_freeblock ::= Z.add 1 |>).
  assert (owned f = fe_blks f /\ owned f' = fe_blks f ++ [b]) as [Eo Eo'].
  { unfold owned, f'. cbn. rewrite Hi0. cbn [Z.eqb]. by rewrite !app_nil_r. }
  exists (with_addr din (Z.of_nat n) b), b, s', f'. split_and!.
  - unfold file_block. rewrite (proj2 (Z.ltb_lt (Z.of_nat n) NDIRECT)) by (unfold NDIRECT; lia).
    assert (addr din (Z.of_nat n) = 0) as ->.
    { unfold addr. rewrite Nat2Z.id, Hd, addrs_direct by lia. by rewrite lookup_ge_None_2. }
    cbn [Z.eqb]. unfold mbind, M_bind. rewrite new_block_run. unfold mret, M_ret. cbn [kbind]. fold b s'. do 2 f_equal.
    unfold addr, with_addr. cbn [d_addrs]. rewrite Nat2Z.id, list_lookup_insert_eq; [done|]. rewrite Hd, length_addrs. lia.
  - apply (core_update s fs i f); [done|done|apply Hc|cbn; lia|apply Hc|done| | |].
    + intros c Hb. rewrite Eo' in Hb. rewrite Eo. apply elem_of_app in Hb as [?|Hb]; [by left|]. apply list_elem_of_singleton in Hb as ->. right. cbn. lia.
    + rewrite Eo'. apply NoDup_app. split_and!; [rewrite <- Eo; by apply (c_nodup _ _ Hc i)| |apply NoDup_singleton].
      intros c Hb Hc'. apply list_elem_of_singleton in Hc' as ->. rewrite Eo in Hnb. done.
    + split; cbn [f' fe_blks fe_ind fe_data set]; cbn; rewrite ?length_app; cbn [length]; fold n; [lia|lia|intuition lia|done|].
      intros k x Hx. apply (data_push s' b k x); [done|done|by apply Hc|done].
  - unfold with_addr. cbn [d_addrs]. rewrite Hd, Nat2Z.id. by apply addrs_push.
  - done.
  - cbn. rewrite lookup_app_r by lia. fold n. by rewrite Nat.sub_diag.
  - done.
  - done.
  - cbn. rewrite length_app. cbn [length]. lia.
  - unfold need. fold n. rewrite Nat.ltb_irrefl, (proj2 (Nat.eqb_neq n 12)) by lia. cbn. lia.
  - done.
Qed.
(** Block [b] is entered in the indirect block [ind], which is the file's or was just allocated. *)
Section indirect.
Context (ind b : Z) (fresh : ind = fe_ind f /\ b = mk_freeblock s \/ fe_ind f = 0 /\ ind = mk_freeblock s /\ b = mk_freeblock s + 1).
Context (Hn : (12 <= length (fe_blks f) < 140)%nat) (Hroom : b < FSSIZE).
Context (Htab : forall k, (k < 128)%nat -> get32 (sector s ind) (4 * k) = default 0 (fe_blks f !! (12 + k)%nat)).
Context (Hi0 : ind <> 0).
Let o : nat := (4 * (length (fe_blks f) - 12))%nat.
Let s' : mkfs := put (s <| mk_freeblock := b + 1 |>) ind (set32 (sector s ind) o b).
Let f' : fent := f <| fe_blks ::= fun l => l ++ [b] |> <| fe_ind := ind |>.

Lemma ind_block_range : nmeta <= ind < b /\ mk_freeblock s <= b.
Proof.
  pose proof (c_free _ _ Hc). destruct fresh as [[E ->]|(_ & -> & ->)]; [|lia]. rewrite E in *. pose proof (ind_range Hi0). lia.
Qed.

Lemma sector_indirect c : sector s' c = if decide (c = ind) then set32 (sector s ind) o b else sector s c.
Proof. unfold s'. rewrite sector_put. done. Qed.

Lemma ind_not_blk : ~ ind ∈ fe_blks f.
Proof.
  intros Hin. destruct fresh as [[-> _]|(_ & -> & _)].
  - pose proof (c_nodup _ _ Hc i f Hi) as Hnd. unfold owned in Hnd. rewrite (proj2 (Z.eqb_neq _ _) Hi0) in Hnd.
    apply NoDup_app in Hnd as (_ & Hnd & _). apply (Hnd _ Hin). by left.
  - apply (proj1 new_not_owned). apply elem_of_app. by left.
Qed.

Lemma b_not_blk : ~ b ∈ fe_blks f.
Proof. intros Hin. destruct new_not_owned as [H1 H2]. destruct fresh as [[_ ->]|(_ & _ & ->)]; [apply H1|apply H2]; apply elem_of_app; by left. Qed.

Lemma indirect_file_ok : file_ok s' f'.
Proof.
  pose proof (c_files _ _ Hc i f Hi) as Hok. pose proof Hok as [Hmax Hlen Hind _ Hdat]. pose proof ind_block_range as [Hr Hfb].
  pose proof (c_sec _ _ Hc ind) as Hsec.
  assert (fe_blks f' = fe_blks f ++ [b]) as Eb by done. assert (fe_ind f' = ind) as Ei by done. assert (fe_data f' = fe_data f) as Ed by done.
  split; rewrite ?Eb, ?Ei, ?Ed, ?length_app; cbn [length]; [lia|lia|lia| |].
  - intros _ k Hk. rewrite sector_indirect, decide_True by done. set (n := length (fe_blks f)) in *.
    destruct (decide (k = n - 12)%nat) as [->|Hne].
    + change (4 * (n - 12))%nat with o. rewrite get32_set32 by (rewrite Hsec; unfold o; lia). rewrite lookup_app_r by (fold n; lia). fold n.
      replace (12 + (n - 12) - n)%nat with 0%nat by lia. change (u32 b = b). unfold u32. apply Z.mod_small. unfold W32, FSSIZE in *. assert (0 < nmeta) by done. lia.
    + rewrite get32_set32_other by (rewrite ?Hsec; unfold o; lia). rewrite Htab by done.
      destruct (decide (12 + k < n)%nat) as [Hlt|Hge].
      * by rewrite lookup_app_l.
      * rewrite (lookup_ge_None_2 (fe_blks f)) by (fold n; lia). rewrite lookup_ge_None_2; [done|]. rewrite length_app. cbn [length]. fold n. lia.
  - intros k x Hx. apply (data_push s' b k x); [done| | |done].
    + intros c Hin. rewrite sector_indirect, decide_False; [done|]. intros ->. by apply ind_not_blk.
    + rewrite sector_indirect, decide_False by lia. apply Hc. lia.
Qed.

Lemma indirect_core : core s' (<[i := f']> fs).
Proof.
  pose proof ind_block_range as [Hr Hfb]. pose proof (c_free _ _ Hc). pose proof (c_sec _ _ Hc ind) as Hsec.
  assert (owned f' = (fe_blks f ++ [b]) ++ [ind]) as Eo'.
  { unfold owned, f'. cbn. by rewrite (proj2 (Z.eqb_neq ind 0) Hi0). }
  apply (core_update s fs i f); [done|done| |cbn; lia| | | | |apply indirect_file_ok].
  - unfold s'. apply put_len; [apply Hc|lia].
  - intros c. rewrite sector_indirect. case_decide; [|apply Hc]. rewrite length_set32; [done|]. rewrite Hsec. unfold o. lia.
  - intros c Hno. rewrite sector_indirect, decide_False; [done|]. intros ->. apply Hno. rewrite Eo'. apply elem_of_app. right. by left.
  - intros c Hin. rewrite Eo' in Hin. apply elem_of_app in Hin as [[Hin|Hin]%elem_of_app|Hin].
    + left. apply elem_of_app. by left.
    + apply list_elem_of_singleton in Hin as ->. right. cbn. lia.
    + apply list_elem_of_singleton in Hin as ->. destruct fresh as [[-> _]|(_ & -> & ->)]; [left|right; cbn; lia].
      unfold owned. rewrite (proj2 (Z.eqb_neq _ _) Hi0). apply elem_of_app. right. by left.
  - rewrite Eo'. apply NoDup_app. split_and!; [apply NoDup_app; split_and!|..]; try apply NoDup_singleton.
    + pose proof (c_nodup _ _ Hc i f Hi) as Hnd. by apply NoDup_app in Hnd as [? _].
    + intros c Hin Hc'. apply list_elem_of_singleton in Hc' as ->. by apply b_not_blk.
    + intros c Hin Hc'. apply list_elem_of_singleton in Hc' as ->. apply elem_of_app in Hin as [Hin|Hin]; [by apply ind_not_blk|].
      apply list_elem_of_singleton in Hin. lia.
Qed.
End indirect.
(** The second half of [file_block], once the indirect block is known. *)
Lemma file_block_indirect :
  (12 <= length (fe_blks f) < 140)%nat -> mk_freeblock s + need f (length (fe_blks f)) <= FSSIZE ->
  block_given (length (fe_blks f)).
Proof.
  intros Hn Hroom. pose proof (c_files _ _ Hc i f Hi) as Hok. pose proof Hok as [Hmax Hlen Hind Htab Hdat].
  set (n := length (fe_blks f)) in *. pose proof (c_free _ _ Hc). unfold need in Hroom. fold n in Hroom. rewrite Nat.ltb_irrefl in Hroom.
  assert (addr din 12 = fe_ind f) as Ea by (unfold addr; rewrite Hd; change (Z.to_nat 12) with 12%nat; by rewrite addrs_indirect).
  assert (exists ind b din1,
    (ind = fe_ind f /\ b = mk_freeblock s \/ fe_ind f = 0 /\ ind = mk_freeblock s /\ b = mk_freeblock s + 1)
    /\ b + 1 = mk_freeblock s + need f n
    /\ ind <> 0 /\ (forall k, (k < 128)%nat -> get32 (sector s ind) (4 * k) = default 0 (fe_blks f !! (12 + k)%nat))
    /\ d_addrs din1 = take 12 (fe_blks f) ++ [ind] /\ same_inode din din1
    /\ (if addr din NDIRECT =? 0 then b ← new_block ; mret (with_addr din NDIRECT b) else mret din) s
       = Done din1 (s <| mk_freeblock := b |>)) as (ind & b & din1 & Hfresh & Hb & Hi0 & Htab1 & Had & Hsame & R1).
  { unfold need. fold n. rewrite Nat.ltb_irrefl. change NDIRECT with 12. rewrite Ea. destruct (decide (n = 12%nat)) as [E|E].
    - assert (fe_ind f = 0) as E0 by (apply Hind; lia). rewrite E0. cbn [Z.eqb]. assert (0 < nmeta) by done.
      exists (mk_freeblock s), (mk_freeblock s + 1), (with_addr din 12 (mk_freeblock s)). rewrite (proj2 (Nat.eqb_eq n 12) E) in *.
      split_and!; [by right|lia|lia| | |done|].
      + intros k Hk. rewrite (c_zero _ _ Hc) by lia. rewrite (lookup_ge_None_2 (fe_blks f)) by (fold n; lia).
        by apply zero_words.
      + cbn [with_addr d_addrs]. rewrite Hd, addrs_long by (fold n; lia). change (Z.to_nat 12) with 12%nat.
        rewrite insert_app_r_alt by (rewrite length_take; fold n; lia). rewrite length_take. fold n. by replace (12 - 12 `min` n)%nat with 0%nat by lia.
      + unfold mbind, M_bind. rewrite new_block_run. unfold mret, M_ret. cbn [kbind]. f_equal. destruct s as [a1 a2 a3 a4]. unfold set. cbn. f_equal. lia.
    - assert (fe_ind f <> 0) as E0 by (intros ?%Hind; lia). rewrite (proj2 (Z.eqb_neq _ _) E0), (proj2 (Nat.eqb_neq n 12) E) in *.
      exists (fe_ind f), (mk_freeblock s), din. split_and!; [by left|lia|done|by apply Htab|by rewrite Hd, addrs_long by (fold n; lia)|done|].
      unfold mret, M_ret. f_equal. by destruct s. }
  assert (b < FSSIZE) as Hbr by (unfold need in Hb; fold n in Hb; rewrite Nat.ltb_irrefl in Hb; lia).
  assert (nmeta <= ind < b /\ mk_freeblock s <= b) as [Hr Hfb] by (by eapply ind_block_range).
  set (o := (4 * (n - 12))%nat). set (s' := put (s <| mk_freeblock := b + 1 |>) ind (set32 (sector s ind) o b)).
  set (f' := f <| fe_blks ::= fun l => l ++ [b] |> <| fe_ind := ind |>).
  assert (core s' (<[i := f']> fs)) as Hcore by (by eapply indirect_core).
  exists din1, b, s', f'. split; [|split_and!].
  - unfold file_block. rewrite (proj2 (Z.ltb_ge (Z.of_nat n) NDIRECT)) by (unfold NDIRECT; lia).
    rewrite (bind_done _ _ _ _ _ R1). cbv beta. set (s1 := set mk_freeblock _ s) in *.
    assert (addr din1 NDIRECT = ind) as ->.
    { unfold addr. rewrite Had. change (Z.to_nat NDIRECT) with 12%nat. rewrite lookup_app_r by (rewrite length_take; fold n; lia).
      rewrite length_take. fold n. by replace (12 - 12 `min` n)%nat with 0%nat by lia. }
    assert (rsect ind s1 = Done (sector s ind) s1) as Rr by exact (rsect_run s1 ind (c_len _ _ Hc) ltac:(lia)).
    rewrite (bind_done _ _ _ _ _ Rr). cbv beta zeta. replace (Z.to_nat (4 * (Z.of_nat n - NDIRECT))) with o by (unfold o, NDIRECT; lia).
    assert (get32 (sector s ind) o = 0) as E0.
    { unfold o. rewrite Htab1 by lia. replace (12 + (n - 12))%nat with n by lia. by rewrite (lookup_ge_None_2 (fe_blks f)) by done. }
    rewrite E0. cbn [Z.eqb]. unfold mbind, M_bind. rewrite new_block_run. cbn [kbind]. rewrite wsect_run. unfold mret, M_ret. cbn [kbind].
    change (mk_freeblock s1) with b. rewrite get32_set32 by (rewrite (c_sec _ _ Hc); unfold o; lia).
    assert (u32 b = b) as -> by (unfold u32; apply Z.mod_small; unfold W32, FSSIZE in *; assert (0 < nmeta) by done; lia).
    f_equal. subst s' s1. destruct s as [a1 a2 a3 a4]. unfold put, set. cbn. f_equal. lia.
  - done.
  - rewrite Had. apply addrs_indirect_push. fold n; lia.
  - done.
  - change (fe_blks f') with (fe_blks f ++ [b]). rewrite lookup_app_r by (fold n; lia). fold n. by rewrite Nat.sub_diag.
  - done.
  - done.
  - change (fe_blks f') with (fe_blks f ++ [b]). rewrite length_app. cbn [length]. fold n. lia.
  - fold n. rewrite <- Hb. done.
  - split; [done|]. intros c Hlt. unfold s'. rewrite sector_put, decide_False by lia. done.
Qed.

(** [file_block] gives the block of every offset up to the end of the file. *)
Lemma file_block_spec fbn :
  (fbn < 140)%nat -> (fbn <= length (fe_blks f))%nat -> mk_freeblock s + need f fbn <= FSSIZE -> block_given fbn.
Proof.
  intros H1 H2 H3. destruct (decide (fbn < length (fe_blks f))%nat) as [Hlt|Hge]; [by apply file_block_old|].
  assert (fbn = length (fe_blks f)) as -> by lia. destruct (decide (length (fe_blks f) < 12)%nat) as [Hlt|Hge'].
  - apply file_block_direct; [done|]. unfold need in H3. rewrite Nat.ltb_irrefl, (proj2 (Nat.eqb_neq _ 12)) in H3 by lia. done.
  - apply file_block_indirect; [lia|done].
Qed.
End block.

(** ** Appending *)

Lemma chunk_before data q k : (512 * k + 512 <= length data)%nat -> chunk (data ++ q) k = chunk data k.
Proof. intros H. unfold chunk, sub. rewrite drop_app_le, take_app_le by (rewrite ?length_drop; lia). done. Qed.

Lemma chunk_after data k : (length data <= 512 * k)%nat -> chunk data k = [].
Proof. intros H. unfold chunk, sub. by rewrite drop_ge. Qed.

Lemma chunk_last data q :
  let k := (length data / 512)%nat in let r := (length data mod 512)%nat in
  (r + length q <= 512)%nat ->
  length (chunk data k) = r /\ chunk (data ++ q) k = chunk data k ++ q
  /\ splice r q (pad (chunk data k)) = pad (chunk data k ++ q).
Proof.
  intros k r Hq. destruct (blocks_of (length data)) as [El Hr]. fold k r in El, Hr.
  clearbody k r. assert (chunk data k = drop (512 * k) data) as E.
  { unfold chunk, sub. rewrite take_ge; [done|]. rewrite length_drop. lia. }
  assert (length (chunk data k) = r) as Hl by (rewrite E, length_drop; lia). split_and!; [done| |].
  - rewrite E. unfold chunk, sub. rewrite drop_app_le, take_ge by (rewrite ?length_app, ?length_drop; lia). done.
  - set (c := chunk data k) in *. unfold splice, pad. rewrite Hl. rewrite take_app_le, take_ge by lia.
    rewrite <- (assoc_L (++)). f_equal. f_equal. rewrite drop_app_ge by lia. rewrite drop_replicate, length_app. f_equal. lia.
Qed.

Section append.
Context (s : mkfs) (fs : list fent) (Hc : core s fs) (i : nat) (f : fent) (Hi : fs !! i = Some f).

Lemma write_step x q :
  let k := (length (fe_data f) / 512)%nat in let r := (length (fe_data f) mod 512)%nat in
  fe_blks f !! k = Some x -> (r + length q <= 512)%nat ->
  let s' := put s x (splice r q (sector s x)) in
  rsect x s = Done (sector s x) s
  /\ core s' (<[i := f <| fe_data ::= fun d => d ++ q |>]> fs) /\ mk_freeblock s' = mk_freeblock s /\ keeps_meta s s'.
Proof.
  intros k r Hx Hq s'. pose proof (c_files _ _ Hc i f Hi) as [Hmax Hlen Hind Htab Hdat]. pose proof (c_free _ _ Hc).
  pose proof (blk_range s fs Hc i f Hi k x Hx) as Hr. set (f' := f <| fe_data ::= fun d => d ++ q |>).
  destruct (chunk_last (fe_data f) q Hq) as (Hcl & Hca & Hsp). fold k in Hcl, Hca, Hsp. fold r in Hcl, Hsp.
  assert (sector s x = pad (chunk (fe_data f) k)) as Ex by (by apply Hdat). pose proof (c_nodup _ _ Hc i f Hi) as Hnd.
  destruct (blocks_of (length (fe_data f))) as [El Hr512]. fold k r in El, Hr512.
  pose proof (lookup_lt_Some _ _ _ Hx) as Hkl.
  assert (forall b, b ∈ owned f -> b <> x -> sector s' b = sector s b) as Hother.
  { intros b _ Hne. unfold s'. by rewrite sector_put, decide_False. }
  split; [apply rsect_run; [apply Hc|lia]|]. split.
  - apply (core_update s fs i f); [done|done|apply put_len; [apply Hc|lia]|cbn; lia| | |by left|done|].
    + intros b. unfold s'. rewrite sector_put. case_decide; [|apply Hc]. rewrite length_splice; [apply Hc|]. rewrite (c_sec _ _ Hc). lia.
    + intros b Hno. unfold s'. rewrite sector_put, decide_False; [done|]. intros ->. apply Hno, elem_of_app. left. by eapply list_elem_of_lookup_2.
    + split; [done|change (fe_data f') with (fe_data f ++ q); rewrite length_app; change (fe_blks f') with (fe_blks f); lia|done| |].
      * intros Hn j Hj. change (fe_ind f') with (fe_ind f) in *. change (fe_blks f') with (fe_blks f). rewrite Hother; [by apply Htab| |].
        -- apply elem_of_app. right. rewrite (proj2 (Z.eqb_neq _ _) Hn). by left.
        -- intros E. unfold owned in Hnd. rewrite (proj2 (Z.eqb_neq _ _) Hn) in Hnd. apply NoDup_app in Hnd as (_ & Hnd & _).
           apply (Hnd x); [by eapply list_elem_of_lookup_2|]. rewrite <- E. by left.
      * intros j b Hb. change (fe_blks f') with (fe_blks f) in Hb. change (fe_data f') with (fe_data f ++ q).
        destruct (decide (j = k)) as [->|Hne].
        -- simplify_eq. unfold s'. rewrite sector_put, decide_True by done. by rewrite Ex, Hsp, Hca.
        -- rewrite Hother; [|apply elem_of_app; left; by eapply list_elem_of_lookup_2|].
           ++ rewrite (Hdat j b Hb). f_equal. destruct (decide (j < k)%nat) as [Hlt|Hge].
              ** rewrite chunk_before; [done|lia].
              ** rewrite !chunk_after; [done|rewrite ?length_app; lia|lia].
           ++ intros ->. apply Hne. apply NoDup_app in Hnd as (Hnd & _). by eapply (NoDup_lookup (fe_blks f)).
  - split; [done|]. split; [done|]. intros b Hlt. unfold s'. rewrite sector_put, decide_False by lia. done.
Qed.
End append.

Lemma same_inode_trans d1 d2 d3 : same_inode d1 d2 -> same_inode d2 d3 -> same_inode d1 d3.
Proof. unfold same_inode. intuition congruence. Qed.
Lemma keeps_meta_trans s1 s2 s3 : keeps_meta s1 s2 -> keeps_meta s2 s3 -> keeps_meta s1 s3.
Proof. intros [H1 H2] [H3 H4]. split; [congruence|]. intros b Hb. by rewrite H4, H2. Qed.

(** The content of file [i] grows by [p]. *)
Definition appended (s : mkfs) (fs : list fent) (i : nat) (f : fent) (p : list Z) (s' : mkfs) (f' : fent) : Prop :=
  core s' (<[i := f']> fs) /\ fe_type f' = fe_type f /\ fe_data f' = fe_data f ++ p /\ tight f'
  /\ mk_freeblock s' = mk_freeblock s + cost (length (fe_blks f')) - cost (length (fe_blks f)) /\ keeps_meta s s'.

(** One round. *)
Lemma append_round s fs i f din p :
  core s fs -> fs !! i = Some f -> d_addrs din = addrs_of f -> tight f -> p <> [] ->
  (length (fe_data f) + length p <= 140 * 512)%nat ->
  mk_freeblock s + cost (nblk (length (fe_data f) + length p)) - cost (length (fe_blks f)) <= FSSIZE ->
  let n1 := Nat.min (length p) (512 - length (fe_data f) mod 512) in
  exists din1 x s1 s2 f2,
    file_block din (Z.of_nat (length (fe_data f) / 512)) s = Done (din1, x) s1 /\ rsect x s1 = Done (sector s1 x) s1
    /\ s2 = put s1 x (splice (length (fe_data f) mod 512) (take n1 p) (sector s1 x))
    /\ d_addrs din1 = addrs_of f2 /\ same_inode din din1 /\ appended s fs i f (take n1 p) s2 f2.
Proof.
  intros Hc Hi Hd Ht Hp Hmax Hroom n1. destruct (blocks_of (length (fe_data f))) as [El Hr].
  set (k := (length (fe_data f) / 512)%nat) in *. set (r := (length (fe_data f) mod 512)%nat) in *.
  assert (0 < length p)%nat as Hp0 by (destruct p; [done|cbn; lia]).
  assert (k <= length (fe_blks f) <= S k)%nat as Hkl by (rewrite Ht; pose proof (nblk_bounds (length (fe_data f))); lia).
  assert (S k <= nblk (length (fe_data f) + length p))%nat as Hk1 by (pose proof (nblk_bounds (length (fe_data f) + length p)); lia).
  pose proof (cost_mono _ _ Hk1). assert (Nat.max (length (fe_blks f)) (S k) = S k) as Emax by lia.
  destruct (file_block_spec s fs Hc i f Hi din Hd k) as (din1 & x & s1 & f1 & R1 & Hc1 & Hd1 & Hsame & Hx & Hty & Hda & Hln & Hfb & Hk);
    [lia|lia|rewrite need_cost, Emax by lia; lia|].
  rewrite need_cost, Emax in Hfb by lia. rewrite Emax in Hln.
  assert (<[i := f1]> fs !! i = Some f1) as Hi1 by (apply list_lookup_insert_eq; by eapply lookup_lt_Some).
  destruct (write_step s1 _ Hc1 i f1 Hi1 x (take n1 p)) as (R2 & Hc2 & Hf2 & Hk2).
  { by rewrite Hda. } { rewrite Hda. fold r. rewrite length_take. lia. }
  rewrite Hda in Hc2, Hf2, Hk2. fold r in Hc2, Hf2, Hk2. rewrite list_insert_insert_eq in Hc2.
  set (f2 := f1 <| fe_data ::= fun d => d ++ take n1 p |>) in *. exists din1, x, s1, (put s1 x (splice r (take n1 p) (sector s1 x))), f2.
  split_and!; [done|done|done|done|done|]. split_and!; [done|done| | | |by eapply keeps_meta_trans].
  - change (fe_data f2) with (fe_data f1 ++ take n1 p). by rewrite Hda.
  - unfold tight. change (fe_blks f2) with (fe_blks f1). rewrite Hln. symmetry. apply nblk_spec.
    change (fe_data f2) with (fe_data f1 ++ take n1 p). rewrite Hda, length_app, length_take. lia.
  - change (fe_blks f2) with (fe_blks f1). rewrite Hf2, Hfb, Hln. lia.
Qed.

Lemma iappend_loop_spec rounds s fs i f din p :
  core s fs -> fs !! i = Some f -> d_addrs din = addrs_of f -> tight f ->
  (length (fe_data f) + length p <= 140 * 512)%nat ->
  mk_freeblock s + cost (nblk (length (fe_data f) + length p)) - cost (length (fe_blks f)) <= FSSIZE ->
  (1 <= rounds)%nat -> (p <> [] -> (length p + length (fe_data f) mod 512) / 512 + 2 <= rounds)%nat ->
  exists din' s' f', iappend_loop rounds din (Z.of_nat (length (fe_data f))) p s = Done (din', Z.of_nat (length (fe_data f ++ p))) s'
    /\ d_addrs din' = addrs_of f' /\ same_inode din din' /\ appended s fs i f p s' f'.
Proof.
  revert s fs f din p. induction rounds as [|rounds IH]; intros s fs f din p Hc Hi Hd Ht Hmax Hroom Hr1 Hr2; [lia|].
  cbn [iappend_loop]. destruct (decide (p = [])) as [->|Hp].
  { exists din, s, f. rewrite app_nil_r. split; [done|]. split_and!; [done|done|]. split_and!; [by rewrite list_insert_id|done|by rewrite app_nil_r|done|lia|done]. }
  assert (0 < length p)%nat as Hp0 by (destruct p; [done|cbn; lia]). specialize (Hr2 Hp).
  rewrite (proj2 (Z.ltb_lt 0 _)) by lia. cbn [negb].
  destruct (append_round s fs i f din p) as (din1 & x & s1 & s2 & f2 & R1 & R2 & E2 & Hd2 & Hsame & Ha); [done..|].
  destruct (blocks_of (length (fe_data f))) as [El Hr]. set (k := (length (fe_data f) / 512)%nat) in *. set (r := (length (fe_data f) mod 512)%nat) in *.
  clearbody k r. set (n1 := Nat.min (length p) (512 - r)) in *.
  assert (Z.of_nat (length (fe_data f)) / BSIZE = Z.of_nat k) as -> by (symmetry; apply (Z.div_unique _ _ _ (Z.of_nat r)); unfold BSIZE; lia).
  rewrite (proj2 (Z.ltb_lt (Z.of_nat k) MAXFILE)) by (change MAXFILE with 140; lia). cbn [negb].
  rewrite (bind_done _ _ _ _ _ R1). cbv beta match. rewrite (bind_done _ _ _ _ _ R2). cbv beta.
  replace (Z.to_nat (Z.of_nat (length (fe_data f)) - Z.of_nat k * BSIZE)) with r by (unfold BSIZE; lia).
  replace (Z.min (Z.of_nat (length p)) ((Z.of_nat k + 1) * BSIZE - Z.of_nat (length (fe_data f)))) with (Z.of_nat n1) by (unfold BSIZE; lia).
  rewrite Nat2Z.id. rewrite (bind_done _ _ _ _ _ (wsect_run _ _ _)). cbv beta. rewrite <- E2.
  destruct Ha as (Hc2 & Hty & Hda & Ht2 & Hfb & Hk).
  assert (length (take n1 p) = n1) as Hl1 by (rewrite length_take; lia).
  destruct (IH s2 (<[i := f2]> fs) f2 din1 (drop n1 p)) as (din' & s' & f' & R & Hd' & Hsame' & Hc' & Hty' & Hda' & Ht' & Hfb' & Hk').
  - done.
  - apply list_lookup_insert_eq. by eapply lookup_lt_Some.
  - done.
  - done.
  - rewrite Hda, length_app, Hl1, length_drop. lia.
  - rewrite Hda, length_app, Hl1, length_drop. replace (length (fe_data f) + n1 + (length p - n1))%nat with (length (fe_data f) + length p)%nat by lia. lia.
  - lia.
  - intros Hne. assert (n1 = 512 - r)%nat as En.
    { destruct (decide (length p <= 512 - r)%nat); [|lia]. exfalso. apply Hne. apply drop_ge. lia. }
    rewrite Hda, length_app, Hl1, length_drop.
    replace (length (fe_data f) + n1)%nat with ((k + 1) * 512)%nat by lia. rewrite Nat.Div0.mod_mul.
    assert ((length p + r) / 512 = S ((length p - n1 + 0) / 512))%nat as E; [|lia].
    replace (length p + r)%nat with (length p - n1 + 0 + 1 * 512)%nat by lia. rewrite Nat.div_add by lia. lia.
  - exists din', s', f'. rewrite Hda, length_app, Hl1 in R. rewrite <- Nat2Z.inj_add, R. split_and!.
    + do 2 f_equal. rewrite !length_app, length_drop, Hl1. lia.
    + done.
    + by eapply same_inode_trans.
    + split_and!; [by rewrite list_insert_insert_eq in Hc'|congruence| |done|lia|by eapply keeps_meta_trans].
      rewrite Hda', Hda, <- (assoc_L (++)). by rewrite take_drop.
Qed.
