(* ===== verification/MkfsTree.v ===== *)
(** The image mkfs.c builds, continued: inodes, the root directory, the superblock and
    the bitmap, up to the theorem on the whole run. *)
From S2P Require Import Prelude Kernel Spinlock Console CString Kalloc Proc Sleeplock Disk Bytes Bio Log Inode ConsoleIo Fs FileBlocks Mkfs MkfsImage.

(** ** Inodes *)

Definition dinode_of (f : fent) : dinode := Dinode (fe_type f) 0 0 1 (Z.of_nat (length (fe_data f))) (addrs_of f).
Definition inode_at (s : mkfs) (inum : Z) : dinode := get_dinode (sector s (IBLOCK inum mk_sb)) (dinode_off inum).

(** An inode that has not been allocated. *)
Definition zero_dinode : dinode := Dinode 0 0 0 0 0 (replicate 13 0).

(** The files [fs] with their inodes; inode [i + 1] is that of file [i]. *)
Record image (s : mkfs) (fs : list fent) : Prop := Image {
  im_core : core s fs;
  im_next : mk_freeinode s = Z.of_nat (length fs) + 1;
  im_count : (length fs < 200)%nat;
  im_tight : forall i f, fs !! i = Some f -> tight f;
  im_type : forall i f, fs !! i = Some f -> -32768 <= fe_type f < 32768;
  im_inode : forall i f, fs !! i = Some f -> inode_at s (Z.of_nat i + 1) = dinode_of f;
  im_unused : forall j, 0 <= j < 200 -> j = 0 \/ Z.of_nat (length fs) < j -> inode_at s j = zero_dinode
}.

(** A change of the blocks before the data blocks. *)
Lemma core_meta s s' fs :
  core s fs -> mk_len s' = FSSIZE -> mk_freeblock s' = mk_freeblock s -> (forall b, length (sector s' b) = 512%nat) ->
  (forall b, nmeta <= b -> sector s' b = sector s b) -> core s' fs.
Proof.
  intros [Hl Hsec Hf Hz Ho Hn Hd Hfi] Hl' Hf' Hsec' Hs. split; [done|done|by rewrite Hf'| |by rewrite Hf'|done|done|].
  - intros b Hb. rewrite Hf' in Hb. rewrite Hs by lia. by apply Hz.
  - intros i f Hi. apply (file_ok_frame s); [|by apply (Hfi i)]. intros b Hb. apply Hs. by apply (Ho i f).
Qed.

Lemma iblock_range inum : 0 <= inum < 200 -> 32 <= IBLOCK inum mk_sb < 57.
Proof. intros Hi. unfold IBLOCK. change IPB with 8. change (sb_inodestart mk_sb) with 32. Z.div_mod_to_equations. lia. Qed.

Lemma iblock_slot inum inum' : 0 <= inum -> 0 <= inum' -> inum <> inum' ->
  IBLOCK inum mk_sb = IBLOCK inum' mk_sb -> inum' mod IPB <> inum mod IPB.
Proof. intros H1 H2 Hne. unfold IBLOCK. change IPB with 8. change (sb_inodestart mk_sb) with 32. Z.div_mod_to_equations. lia. Qed.

Lemma addrs_range s fs i f : core s fs -> fs !! i = Some f -> Forall (fun a => 0 <= a < W32) (addrs_of f).
Proof.
  intros Hc Hi. pose proof (c_free _ _ Hc). assert (0 < nmeta) by done. unfold FSSIZE, W32 in *.
  assert (forall b, b ∈ owned f -> 0 <= b < 0x100000000) as Hb by (intros b Hb; pose proof (c_own _ _ Hc i f b Hi Hb); lia).
  unfold addrs_of. apply Forall_app. split.
  - apply Forall_take, Forall_app. split; [|apply Forall_replicate; lia].
    apply Forall_forall. intros b Hin. apply Hb, elem_of_app. by left.
  - apply Forall_singleton. destruct (decide (fe_ind f = 0)) as [->|Hn]; [lia|]. apply Hb, elem_of_app. right.
    rewrite (proj2 (Z.eqb_neq _ _) Hn). by left.
Qed.

Lemma dinode_of_wf s fs i f : core s fs -> fs !! i = Some f -> -32768 <= fe_type f < 32768 -> dinode_wf (dinode_of f).
Proof.
  intros Hc Hi Ht. pose proof (c_files _ _ Hc i f Hi) as [Hmax Hlen _ _ _]. split; cbn [dinode_of d_type d_major d_minor d_nlink d_size d_addrs].
  - repeat constructor; lia.
  - constructor; [unfold W32; lia|]. by eapply addrs_range.
  - apply length_addrs.
Qed.

(** [winode] stores the inode, and leaves the others and the data blocks alone. *)
Lemma winode_run s inum d :
  mk_len s = FSSIZE -> (forall b, length (sector s b) = 512%nat) -> 0 <= inum < 200 -> dinode_wf d ->
  exists s', winode inum d s = Done tt s' /\ inode_at s' inum = d
    /\ (forall j, 0 <= j < 200 -> j <> inum -> inode_at s' j = inode_at s j)
    /\ (forall b, ~ 32 <= b < 57 -> sector s' b = sector s b)
    /\ mk_len s' = FSSIZE /\ (forall b, length (sector s' b) = 512%nat)
    /\ mk_freeblock s' = mk_freeblock s /\ mk_freeinode s' = mk_freeinode s.
Proof.
  intros Hl Hsec Hi Hd. pose proof (iblock_range inum Hi) as Hb. set (bn := IBLOCK inum mk_sb) in *.
  set (buf := set_dinode (sector s bn) (dinode_off inum) d). destruct (dinode_off_slot inum ltac:(lia)) as [Ho Hn].
  exists (put s bn buf). split_and!.
  - unfold winode. fold bn. rewrite (bind_done _ _ _ _ _ (rsect_run s bn Hl ltac:(unfold FSSIZE; lia))). done.
  - unfold inode_at. fold bn. rewrite sector_put, decide_True by done. apply dinode_same; [apply Hsec|lia|done].
  - intros j Hj Hne. unfold inode_at. rewrite sector_put. case_decide as E; [|done]. unfold buf. rewrite E.
    apply dinode_other; [apply Hsec|lia|done|lia|]. apply iblock_slot; [lia|lia|done|by rewrite E].
  - intros b Hnb. rewrite sector_put, decide_False by lia. done.
  - apply put_len; [done|unfold FSSIZE; lia].
  - intros b. rewrite sector_put. case_decide; [|done]. unfold buf. destruct (set_dinode_outside (sector s bn) (dinode_off inum) d) as [-> _];
      [by apply Hd|rewrite Hsec; lia|done].
  - done.
  - done.
Qed.

Lemma rinode_run s inum : mk_len s = FSSIZE -> 0 <= inum < 200 -> rinode inum s = Done (inode_at s inum) s.
Proof.
  intros Hl Hi. pose proof (iblock_range inum Hi). unfold rinode.
  rewrite (bind_done _ _ _ _ _ (rsect_run s (IBLOCK inum mk_sb) Hl ltac:(unfold FSSIZE; lia))). done.
Qed.

(** ** Growing files *)

(** File [i], which was [f], has got the content [p] in addition. *)
Definition grown (s : mkfs) (fs : list fent) (i : nat) (f : fent) (p : list Z) (s' : mkfs) (f' : fent) : Prop :=
  image s' (<[i := f']> fs) /\ fe_type f' = fe_type f /\ fe_data f' = fe_data f ++ p
  /\ mk_freeblock s' = mk_freeblock s + cost (nblk (length (fe_data f'))) - cost (nblk (length (fe_data f)))
  /\ forall b, b < 32 \/ 57 <= b < nmeta -> sector s' b = sector s b.

Definition room (s : mkfs) (f : fent) (n : nat) : Prop :=
  (length (fe_data f) + n <= 140 * 512)%nat
  /\ mk_freeblock s + cost (nblk (length (fe_data f) + n)) - cost (nblk (length (fe_data f))) <= FSSIZE.

Lemma inode_at_meta s s' inum : 0 <= inum < 200 -> (forall b, b < nmeta -> sector s' b = sector s b) -> inode_at s' inum = inode_at s inum.
Proof.
  intros Hi Hs. unfold inode_at. rewrite Hs; [done|]. pose proof (iblock_range inum Hi). assert (57 < nmeta) by done. lia.
Qed.

Lemma iappend_spec s fs i f p :
  image s fs -> fs !! i = Some f -> room s f (length p) ->
  exists s' f', iappend (Z.of_nat i + 1) p s = Done tt s' /\ grown s fs i f p s' f'.
Proof.
  intros [Hc Hnext Hcount Ht Hty Hin Hun] Hi [Hmax Hroom]. pose proof (lookup_lt_Some _ _ _ Hi) as Hlt.
  unfold iappend. rewrite (bind_done _ _ _ _ _ (rinode_run s (Z.of_nat i + 1) (c_len _ _ Hc) ltac:(lia))). cbv beta. rewrite (Hin i f Hi).
  destruct (iappend_loop_spec (length p / 512 + 3) s fs i f (dinode_of f) p Hc Hi eq_refl (Ht i f Hi) Hmax)
    as (din' & s1 & f' & R1 & Hd' & (S1 & S2 & S3 & S4 & S5) & Hc1 & Hty1 & Hda1 & Ht1 & Hfb1 & Hk1 & Hk2).
  { by rewrite (Ht i f Hi). } { lia. }
  { intros _. destruct (blocks_of (length (fe_data f))) as [_ Hr]. set (r := (length (fe_data f) mod 512)%nat) in *.
    assert ((length p + r) / 512 <= (length p + 1 * 512) / 512)%nat by (apply Nat.Div0.div_le_mono; lia). rewrite Nat.div_add in * by lia. lia. }
  change (d_size (dinode_of f)) with (Z.of_nat (length (fe_data f))). rewrite (bind_done _ _ _ _ _ R1). cbv beta match.
  assert (Dinode (d_type din') (d_major din') (d_minor din') (d_nlink din') (Z.of_nat (length (fe_data f ++ p))) (d_addrs din') = dinode_of f') as ->.
  { unfold dinode_of. rewrite S1, S2, S3, S4, Hd', Hda1, Hty1. done. }
  assert (<[i := f']> fs !! i = Some f') as Hi1 by (by apply list_lookup_insert_eq).
  assert (-32768 <= fe_type f' < 32768) as Hty' by (rewrite Hty1; by apply (Hty i)).
  destruct (winode_run s1 (Z.of_nat i + 1) (dinode_of f') (c_len _ _ Hc1) (c_sec _ _ Hc1)) as (s2 & R2 & Hw1 & Hw2 & Hw3 & Hw4 & Hw5 & Hw6 & Hw7);
    [lia|by eapply (dinode_of_wf s1)|].
  assert (57 < nmeta) by done. exists s2, f'. split; [done|]. split_and!; [split| | | |].
  - apply (core_meta s1); [done|done|done|done|]. intros b Hb. apply Hw3. lia.
  - rewrite Hw7, Hk1, length_insert. done.
  - by rewrite length_insert.
  - intros j g [(<- & <- & _)|[_ Hj]]%list_lookup_insert_Some; [done|by apply (Ht j)].
  - intros j g [(<- & <- & _)|[_ Hj]]%list_lookup_insert_Some; [done|by apply (Hty j)].
  - intros j g [(<- & <- & _)|[Hne Hj]]%list_lookup_insert_Some; [done|]. pose proof (lookup_lt_Some _ _ _ Hj).
    rewrite Hw2 by lia. rewrite (inode_at_meta s); [by apply Hin|lia|done].
  - intros j Hj Hu. rewrite length_insert in Hu. rewrite Hw2 by lia. rewrite (inode_at_meta s); [by apply Hun|lia|done].
  - done.
  - done.
  - rewrite Hw6, Hfb1, Ht1, (Ht i f Hi). lia.
  - intros b Hb. rewrite Hw3, Hk2 by lia. done.
Qed.

(** The chunks of a file, one after the other. *)
Lemma copy_chunks s fs i f chunks :
  image s fs -> fs !! i = Some f -> room s f (length (concat chunks)) ->
  exists s' f', for_each chunks (iappend (Z.of_nat i + 1)) s = Done tt s' /\ grown s fs i f (concat chunks) s' f'.
Proof.
  revert s fs f. induction chunks as [|p chunks IH]; intros s fs f Him Hi [Hmax Hroom].
  { exists s, f. split; [done|]. unfold grown. cbn [concat]. rewrite app_nil_r. split_and!; [by rewrite list_insert_id|done|done|lia|done]. }
  cbn [concat] in *. rewrite length_app in *.
  destruct (iappend_spec s fs i f p Him Hi) as (s1 & f1 & R1 & Him1 & Hty1 & Hda1 & Hfb1 & Hs1).
  { split; [lia|]. pose proof (cost_mono _ _ (nblk_mono (length (fe_data f) + length p) (length (fe_data f) + (length p + length (concat chunks))) ltac:(lia))). lia. }
  destruct (IH s1 (<[i := f1]> fs) f1) as (s2 & f2 & R2 & Him2 & Hty2 & Hda2 & Hfb2 & Hs2); [done| | |].
  - apply list_lookup_insert_eq. by eapply lookup_lt_Some.
  - split; rewrite Hda1, length_app; [lia|]. rewrite Hda1, length_app in Hfb1. rewrite <- Nat.add_assoc. lia.
  - exists s2, f2. split; [cbn [for_each]; by rewrite (bind_done _ _ _ _ _ R1)|]. split_and!.
    + by rewrite list_insert_insert_eq in Him2.
    + congruence.
    + by rewrite Hda2, Hda1, (assoc_L (++)).
    + lia.
    + intros b Hb. by rewrite Hs2, Hs1.
Qed.

Lemma core_push s fs f : core s fs -> fe_blks f = [] /\ fe_ind f = 0 /\ fe_data f = [] -> core s (fs ++ [f]).
Proof.
  intros [Hl Hsec Hf Hz Ho Hn Hd Hfi] (Hb & Hi & Hdt). assert (owned f = []) as Eo by (unfold owned; by rewrite Hb, Hi).
  assert (forall j g, (fs ++ [f]) !! j = Some g -> fs !! j = Some g \/ g = f) as Hlk.
  { intros j g [Hj|[_ Hj]]%lookup_app_Some; [by left|]. apply list_lookup_singleton_Some in Hj as [_ <-]. by right. }
  split; [done|done|done|done| | | |].
  - intros j g b [Hj| ->]%Hlk Hbo; [by apply (Ho j g)|]. rewrite Eo in Hbo. by apply not_elem_of_nil in Hbo.
  - intros j g [Hj| ->]%Hlk; [by apply (Hn j)|]. rewrite Eo. constructor.
  - intros j k g g' b Hj' Hk' Hne Hbo Hbo'. pose proof (Hlk _ _ Hj') as [Hj| ->]; [|by rewrite Eo in Hbo; apply not_elem_of_nil in Hbo].
    pose proof (Hlk _ _ Hk') as [Hk| ->]; [|by rewrite Eo in Hbo'; apply not_elem_of_nil in Hbo']. by apply (Hd j k g g' b).
  - intros j g [Hj| ->]%Hlk; [by apply (Hfi j)|]. split; rewrite ?Hb, ?Hi, ?Hdt; cbn; [lia|lia|lia|done|done].
Qed.

(** [ialloc] makes an empty file of the next inode. *)
Lemma ialloc_spec s fs type :
  image s fs -> (length fs < 199)%nat -> -32768 <= type < 32768 ->
  exists s', ialloc type s = Done (Z.of_nat (length fs) + 1) s' /\ image s' (fs ++ [Fent type [] [] 0])
    /\ mk_freeblock s' = mk_freeblock s /\ forall b, b < 32 \/ 57 <= b < nmeta -> sector s' b = sector s b.
Proof.
  intros [Hc Hnext Hcount Ht Hty Hin Hun] Hn Htype. set (inum := Z.of_nat (length fs) + 1) in *. set (f := Fent type [] [] 0).
  set (s1 := s <| mk_freeinode := inum + 1 |>).
  destruct (winode_run s1 inum (dinode_of f)) as (s2 & R2 & Hw1 & Hw2 & Hw3 & Hw4 & Hw5 & Hw6 & Hw7);
    [apply Hc|apply Hc|lia|split; [repeat constructor; cbn; lia|repeat constructor; unfold W32; cbn; lia|done]|].
  assert (57 < nmeta) by done. exists s2. split.
  { unfold ialloc. rewrite (bind_done (gets mk_freeinode) _ s inum s) by (unfold gets; by rewrite Hnext). cbv beta.
    rewrite (bind_done (modify _) _ s tt s1) by done. cbv beta. by rewrite (bind_done _ _ _ _ _ R2). }
  split_and!; [split|done|].
  - apply core_push; [|done]. apply (core_meta s); [done|done|by rewrite Hw6|done|]. intros b Hb. apply Hw3. lia.
  - rewrite Hw7, length_app. cbn. lia.
  - rewrite length_app. cbn. lia.
  - intros j g [Hj|[_ Hj]]%lookup_app_Some; [by apply (Ht j)|]. apply list_lookup_singleton_Some in Hj as [_ <-]. done.
  - intros j g [Hj|[_ Hj]]%lookup_app_Some; [by apply (Hty j)|]. by apply list_lookup_singleton_Some in Hj as [_ <-].
  - intros j g [Hj|[Hge Hj]]%lookup_app_Some.
    + pose proof (lookup_lt_Some _ _ _ Hj). rewrite Hw2 by lia. by apply Hin.
    + apply list_lookup_singleton_Some in Hj as [Hj <-]. replace (Z.of_nat j + 1) with inum by lia. done.
  - intros j Hj Hu. rewrite length_app in Hu. cbn [length] in Hu. rewrite Hw2 by lia. apply Hun; [done|lia].
  - intros b Hb. apply Hw3. lia.
Qed.

(** ** The files of the command line *)

Definition entry_name (fi : input) : list Z := if at_ (in_name fi) 0 =? 95 then tail (in_name fi) else in_name fi.
Definition content_of (fi : input) : list Z := concat (default [] (in_chunks fi)).
Definition file_cost (fi : input) : Z := cost (nblk (length (content_of fi))).
Record input_ok (fi : input) : Prop := InputOk {
  io_name : ~ 47 ∈ in_name fi;
  io_open : in_chunks fi <> None;
  io_size : (length (content_of fi) <= 140 * 512)%nat
}.

(** A directory entry: the number of the inode, low byte first, and the name, cut or padded with
    zeros to 14 bytes. *)
Definition entry (inum : Z) (name : list Z) : list Z :=
  [inum mod 256; inum / 256 mod 256] ++ take 14 (cstring name ++ replicate 14 0).

Lemma mk_dirent_entry inum name : mk_dirent inum name = entry inum name.
Proof.
  unfold mk_dirent, dirent_bytes, entry. cbn [de_inum de_name]. rewrite strncpy_spec by (rewrite length_replicate; unfold DIRSIZ; lia).
  change (Z.to_nat DIRSIZ) with 14%nat. rewrite drop_ge by (rewrite length_replicate; lia). rewrite app_nil_r. cbn [le].
  assert (u16 inum mod 256 = inum mod 256 /\ u16 inum / 256 mod 256 = inum / 256 mod 256) as [-> ->]; [|done].
  unfold u16. split; Z.div_mod_to_equations; lia.
Qed.

Lemma length_dirent inum name : length (entry inum name) = 16%nat.
Proof. unfold entry. rewrite length_app, length_take, length_app, length_replicate. cbn [length]. lia. Qed.

(** The root directory [root'] has got an entry, and there is a new file. *)
Definition copied (s : mkfs) (root : fent) (fs : list fent) (fi : input) (s' : mkfs) (root' f' : fent) : Prop :=
  image s' (root' :: fs ++ [f']) /\ fe_type root' = fe_type root
  /\ fe_data root' = fe_data root ++ entry (Z.of_nat (length fs) + 2) (entry_name fi)
  /\ fe_type f' = T_FILE /\ fe_data f' = content_of fi
  /\ mk_freeblock s' = mk_freeblock s + (cost (nblk (length (fe_data root'))) - cost (nblk (length (fe_data root)))) + file_cost fi
  /\ forall b, b < 32 \/ 57 <= b < nmeta -> sector s' b = sector s b.

Lemma copy_file_spec s root fs fi :
  image s (root :: fs) -> input_ok fi -> (length fs < 198)%nat ->
  (length (fe_data root) + 16 <= 140 * 512)%nat ->
  mk_freeblock s + (cost (nblk (length (fe_data root) + 16)) - cost (nblk (length (fe_data root)))) + file_cost fi <= FSSIZE ->
  exists s' root' f', copy_file 1 fi s = Done tt s' /\ copied s root fs fi s' root' f'.
Proof.
  intros Him [Hname Hopen Hsize] Hn Hroot Hroom. unfold copy_file. rewrite bool_decide_eq_false_2 by done.
  unfold file_cost, content_of in *. destruct (in_chunks fi) as [chunks|] eqn:Ech; [|done]. change (default [] (Some chunks)) with chunks in *. fold (entry_name fi).
  assert (0 <= cost (nblk (length (concat chunks)))) as Hpos by (unfold cost; destruct (_ <? _)%nat; lia).
  destruct (ialloc_spec s (root :: fs) T_FILE Him) as (s1 & R1 & Him1 & Hfb1 & Hs1); [cbn; lia|done|].
  cbn [length] in R1. replace (Z.of_nat (S (length fs)) + 1) with (Z.of_nat (length fs) + 2) in R1 by lia.
  rewrite (bind_done _ _ _ _ _ R1). cbv beta. set (new := Fent T_FILE [] [] 0) in *. set (inum := Z.of_nat (length fs) + 2) in *.
  change ((root :: fs) ++ [new]) with (root :: fs ++ [new]) in Him1.
  destruct (iappend_spec s1 _ 0 root (entry inum (entry_name fi)) Him1 eq_refl) as (s2 & root' & R2 & Him2 & Hty2 & Hda2 & Hfb2 & Hs2).
  { split; rewrite length_dirent; [done|]. rewrite Hfb1. lia. }
  change (Z.of_nat 0 + 1) with 1 in R2. rewrite mk_dirent_entry, (bind_done _ _ _ _ _ R2). cbv beta.
  change (<[0%nat := root']> (root :: fs ++ [new])) with (root' :: fs ++ [new]) in Him2.
  assert ((root' :: fs ++ [new]) !! S (length fs) = Some new) as Hi by (cbn; by apply list_lookup_middle).
  destruct (copy_chunks s2 _ (S (length fs)) new chunks Him2 Hi) as (s3 & f' & R3 & Him3 & Hty3 & Hda3 & Hfb3 & Hs3).
  { split; cbn [new fe_data length]; [done|]. rewrite Hfb2, Hfb1, Hda2, length_app, length_dirent. cbn [Nat.add]. change (cost (nblk 0)) with 0. lia. }
  replace (Z.of_nat (S (length fs)) + 1) with inum in R3 by lia. exists s3, root', f'. split; [done|].
  unfold copied, file_cost, content_of. rewrite Ech. change (default [] (Some chunks)) with chunks. split_and!; [|done|done|done|done| |].
  - change (<[S (length fs) := f']> (root' :: fs ++ [new])) with (root' :: <[length fs := f']> (fs ++ [new])) in Him3.
    rewrite insert_app_r_alt, Nat.sub_diag in Him3 by done. done.
  - rewrite Hfb3, Hfb2, Hfb1, Hda3. cbn [new fe_data app length]. change (cost (nblk 0)) with 0. lia.
  - intros b Hb. by rewrite Hs3, Hs2, Hs1.
Qed.

(** The entries of the root directory from number [k] on, and the blocks of the files. *)
Definition entries (k : nat) (files : list input) : list Z :=
  concat (imap (fun j fi => entry (Z.of_nat (k + j) + 2) (entry_name fi)) files).
Definition total (files : list input) : Z := foldr Z.add 0 (map file_cost files).

Lemma entries_cons k fi files : entries k (fi :: files) = entry (Z.of_nat k + 2) (entry_name fi) ++ entries (S k) files.
Proof.
  unfold entries. cbn [imap concat]. rewrite Nat.add_0_r. f_equal. f_equal. apply imap_ext. intros j x _. unfold compose. cbv beta. by rewrite Nat.add_succ_r.
Qed.

Lemma length_entries k files : length (entries k files) = (16 * length files)%nat.
Proof. revert k. induction files as [|fi files IH]; intros k; [done|]. rewrite entries_cons, length_app, length_dirent, IH. cbn [length]. lia. Qed.

Lemma total_pos files : 0 <= total files.
Proof.
  induction files as [|fi files IH]; [done|]. cbn. unfold file_cost at 1, cost. fold (total files). destruct (_ <? _)%nat; lia.
Qed.

Lemma copy_files s root fs files :
  image s (root :: fs) -> Forall input_ok files -> (length fs + length files < 199)%nat ->
  (length (fe_data root) + 16 * length files <= 140 * 512)%nat ->
  mk_freeblock s + (cost (nblk (length (fe_data root) + 16 * length files)) - cost (nblk (length (fe_data root)))) + total files <= FSSIZE ->
  exists s' root' new, for_each files (copy_file 1) s = Done tt s' /\ image s' (root' :: fs ++ new)
    /\ fe_type root' = fe_type root /\ fe_data root' = fe_data root ++ entries (length fs) files
    /\ Forall2 (fun fi f => fe_type f = T_FILE /\ fe_data f = content_of fi) files new
    /\ forall b, b < 32 \/ 57 <= b < nmeta -> sector s' b = sector s b.
Proof.
  revert s root fs. induction files as [|fi files IH]; intros s root fs Him Hok Hn Hroot Hroom.
  { exists s, root, []. cbn. rewrite !app_nil_r. by split_and!. }
  apply Forall_cons in Hok as [Hfi Hok]. cbn [length] in *. cbn [total map foldr] in Hroom. fold (total files) in Hroom.
  pose proof (total_pos files). assert (length (fe_data root) + 16 * S (length files) = length (fe_data root) + 16 + 16 * length files)%nat as E by lia.
  rewrite E in *. pose proof (cost_mono _ _ (nblk_mono (length (fe_data root) + 16) (length (fe_data root) + 16 + 16 * length files) ltac:(lia))).
  destruct (copy_file_spec s root fs fi Him Hfi) as (s1 & root1 & f1 & R1 & Him1 & Hty1 & Hda1 & Hft & Hfd & Hfb1 & Hs1); [lia|lia|lia|].
  assert (length (fe_data root1) = length (fe_data root) + 16)%nat as El by (by rewrite Hda1, length_app, length_dirent).
  destruct (IH s1 root1 (fs ++ [f1])) as (s2 & root2 & new & R2 & Him2 & Hty2 & Hda2 & Hnew & Hs2).
  { done. } { done. } { rewrite length_app. cbn. lia. } { lia. } { rewrite El in *. lia. }
  exists s2, root2, (f1 :: new). split_and!.
  - cbn [for_each]. by rewrite (bind_done _ _ _ _ _ R1).
  - by rewrite <- (assoc_L (++)) in Him2.
  - congruence.
  - rewrite Hda2, Hda1, entries_cons, length_app. cbn [length]. rewrite Nat.add_1_r. by rewrite (assoc_L (++)).
  - by constructor.
  - intros b Hb. by rewrite Hs2, Hs1.
Qed.

(** ** The start *)

Lemma zero_sectors l s :
  (forall b, sector s b = zero_block) -> exists s', for_each l (fun i => wsect i zero_block) s = Done tt s'
    /\ (forall b, sector s' b = zero_block) /\ mk_len s' = foldl (fun m i => Z.max (i + 1) m) (mk_len s) l
    /\ mk_freeinode s' = mk_freeinode s /\ mk_freeblock s' = mk_freeblock s.
Proof.
  revert s. induction l as [|i l IH]; intros s Hs; [by exists s|].
  destruct (IH (put s i zero_block)) as (s' & R & H1 & H2 & H3 & H4); [intros b; rewrite sector_put; by case_decide|].
  exists s'. split; [exact R|]. done.
Qed.

Lemma zero_dinodes j : 0 <= j -> get_dinode zero_block (dinode_off j) = zero_dinode.
Proof.
  intros Hj. destruct (dinode_off_slot j Hj) as [-> Hs]. set (k := Z.to_nat (j mod 8)) in *. clearbody k.
  do 8 (destruct k as [|k]; [by vm_compute|]). lia.
Qed.

(** After the superblock is written, the image has no file yet. *)
Lemma start_image : exists s1,
  for_each (seqZ 0 FSSIZE) (fun i => wsect i zero_block) (Mkfs ∅ 0 1 nmeta) = Done tt s1
  /\ let s := put s1 1 sb_block in image s [] /\ mk_freeblock s = nmeta /\ sector s 1 = sb_block /\ sector s 2 = zero_block.
Proof.
  set (s0 := Mkfs ∅ 0 1 nmeta). destruct (zero_sectors (seqZ 0 FSSIZE) s0) as (s1 & R1 & Hz & Hl & Hi & Hb); [done|].
  assert (foldl (fun m i => Z.max (i + 1) m) (mk_len s0) (seqZ 0 FSSIZE) = FSSIZE) as E by (by vm_compute). rewrite E in Hl.
  exists s1. split; [done|]. assert (length sb_block = 512%nat) as Esb by (by vm_compute). assert (1 < nmeta) by done.
  split_and!; [split|done|by rewrite sector_put, decide_True|rewrite sector_put, decide_False by done; apply Hz].
  - split; [apply put_len; done| | | |done|done|done|done].
    + intros b. rewrite sector_put. case_decide; [done|]. by rewrite Hz.
    + change (mk_freeblock (put s1 1 sb_block)) with (mk_freeblock s1). rewrite Hb. change (mk_freeblock s0) with nmeta. split; [lia|by vm_compute].
    + intros b Hlt. change (mk_freeblock (put s1 1 sb_block)) with (mk_freeblock s1) in Hlt. rewrite Hb in Hlt. cbn [s0 mk_freeblock] in Hlt.
      rewrite sector_put, decide_False by lia. apply Hz.
  - done.
  - cbn. lia.
  - done.
  - done.
  - done.
  - intros j Hj _. pose proof (iblock_range j Hj). unfold inode_at. rewrite sector_put, decide_False by lia. rewrite Hz. apply zero_dinodes. lia.
Qed.

(** The root directory with its first two entries. *)
Definition dots : list Z := entry ROOTINO (cstr ".") ++ entry ROOTINO (cstr "..").
Definition fits (files : list input) : Prop :=
  Forall input_ok files /\ (length files < 198)%nat
  /\ nmeta + cost (nblk (16 * (2 + length files))) + total files <= FSSIZE.

Lemma length_dots : length dots = 32%nat.
Proof. by vm_compute. Qed.

Lemma files_image files : fits files -> exists s root new,
  mkfs_main (Some true) files mk_start =
    (din ← rinode 1 ;
     let off := (d_size din / BSIZE + 1) * BSIZE in
     winode 1 (Dinode (d_type din) (d_major din) (d_minor din) (d_nlink din) off (d_addrs din)) ;;
     b ← gets mk_freeblock ;
     balloc b) s
  /\ image s (root :: new) /\ fe_type root = T_DIR /\ fe_data root = dots ++ entries 0 files
  /\ Forall2 (fun fi f => fe_type f = T_FILE /\ fe_data f = content_of fi) files new /\ sector s 1 = sb_block /\ sector s 2 = zero_block.
Proof.
  intros (Hok & Hn & Hroom). destruct start_image as (s0 & R0 & Him0 & Hfb0 & Hsb0 & Hz0).
  unfold mkfs_main. rewrite (bind_done (modify _) _ mk_start tt (Mkfs ∅ 0 1 nmeta)) by done. cbv beta.
  rewrite (bind_done _ _ _ _ _ R0). cbv beta. rewrite (bind_done _ _ _ _ _ (wsect_run _ _ _)). cbv beta. set (s1 := put s0 1 sb_block) in *.
  destruct (ialloc_spec s1 [] T_DIR Him0) as (s2 & R2 & Him2 & Hfb2 & Hs2); [cbn; lia|done|].
  change (Z.of_nat (@length fent []) + 1) with 1 in R2. rewrite (bind_done _ _ _ _ _ R2). cbv beta. change (negb (1 =? ROOTINO)) with false. cbv match.
  set (r0 := Fent T_DIR [] [] 0) in *. cbn [app] in Him2. pose proof (total_pos files).
  assert (cost (nblk 32) <= cost (nblk (16 * (2 + length files)))) by (apply cost_mono, nblk_mono; lia).
  assert (cost (nblk 16) = 1 /\ cost (nblk 32) = 1 /\ cost (nblk 0) = 0) as (C1 & C2 & C3) by done.
  destruct (iappend_spec s2 _ 0 r0 (entry 1 (cstr ".")) Him2 eq_refl) as (s3 & r1 & R3 & Him3 & Hty3 & Hda3 & Hfb3 & Hs3).
  { split; rewrite length_dirent; cbn [r0 fe_data length Nat.add]; lia. }
  change (Z.of_nat 0 + 1) with 1 in R3. rewrite mk_dirent_entry, (bind_done _ _ _ _ _ R3). cbv beta. cbn [list_insert insert] in Him3.
  assert (length (fe_data r1) = 16%nat) as L1 by (rewrite Hda3; apply length_dirent).
  destruct (iappend_spec s3 _ 0 r1 (entry 1 (cstr "..")) Him3 eq_refl) as (s4 & r2 & R4 & Him4 & Hty4 & Hda4 & Hfb4 & Hs4).
  { split; rewrite length_dirent, L1; cbn [Nat.add]; rewrite ?L1 in Hfb3; cbn [r0 fe_data length] in Hfb3; lia. }
  change (Z.of_nat 0 + 1) with 1 in R4. rewrite ?mk_dirent_entry, (bind_done _ _ _ _ _ R4). cbv beta.
  assert (fe_data r2 = dots) as Hd2 by (rewrite Hda4, Hda3; done). assert (length (fe_data r2) = 32%nat) as L2 by (rewrite Hd2; apply length_dots).
  destruct (copy_files s4 r2 [] files) as (s5 & r3 & new & R5 & Him5 & Hty5 & Hda5 & Hnew & Hs5).
  { done. } { done. } { cbn [length]. lia. } { lia. }
  { rewrite L2. replace (32 + 16 * length files)%nat with (16 * (2 + length files))%nat by lia.
    rewrite L1, L2 in Hfb4. rewrite L1 in Hfb3. cbn [r0 fe_data length] in Hfb3. lia. }
  rewrite (bind_done _ _ _ _ _ R5). exists s5, r3, new. split_and!; [done|done| | |done| |].
  - by rewrite Hty5, Hty4, Hty3.
  - by rewrite Hda5, Hd2.
  - rewrite Hs5, Hs4, Hs3, Hs2 by lia. done.
  - rewrite Hs5, Hs4, Hs3, Hs2 by lia. done.
Qed.

(** ** The bitmap *)

Lemma bit_set_set_bit d i b :
  length d = 512%nat -> 0 <= i < 4096 -> 0 <= b < 4096 -> bit_set (set_bit d i) b = bit_set d b || (i =? b).
Proof. apply bit_set_mark. Qed.

Lemma bitmap_spec n b :
  (n <= 4096)%nat -> 0 <= b < 4096 ->
  let d := foldl set_bit zero_block (seqZ 0 (Z.of_nat n)) in length d = 512%nat /\ bit_set d b = (b <? Z.of_nat n).
Proof.
  intros Hn Hb. cbn zeta. induction n as [|n IH].
  - change (foldl set_bit zero_block (seqZ 0 (Z.of_nat 0))) with zero_block. change (Z.of_nat 0) with 0. split; [done|]. rewrite bit_set_testbit by lia. rewrite (proj2 (Z.ltb_ge b 0)) by lia.
    assert (get8 zero_block (bit_byte b) = 0) as ->; [|by rewrite Z.bits_0].
    unfold get8, zero_block, sub. rewrite drop_replicate, take_replicate. by destruct (_ `min` _)%nat as [|[|]] eqn:E; [| |lia].
  - destruct IH as [Hl Hbit]; [lia|]. rewrite Nat2Z.inj_succ, <- Z.add_1_r, seqZ_app by lia. cbn [seqZ]. rewrite foldl_app.
    set (d := foldl set_bit zero_block (seqZ 0 (Z.of_nat n))) in *.
    change (seqZ (0 + Z.of_nat n) 1) with [Z.of_nat n]. cbn [foldl]. split.
    + unfold set_bit. rewrite length_set8; [done|]. rewrite Hl. unfold bit_byte. assert (Z.of_nat n / 8 < 512) by (Z.div_mod_to_equations; lia). lia.
    + rewrite bit_set_set_bit, Hbit by lia. apply eq_true_iff_eq. rewrite orb_true_iff, Z.eqb_eq, !Z.ltb_lt. lia.
Qed.

(** ** Reading a file back *)

(** The block of the disk that holds block [bn] of a file, as [bmap] finds it. *)
Definition bmap_of (s : mkfs) (d : dinode) (bn : nat) : Z :=
  if (bn <? 12)%nat then default 0 (d_addrs d !! bn)
  else get32 (sector s (default 0 (d_addrs d !! 12%nat))) (4 * (bn - 12)).
Definition content (s : mkfs) (d : dinode) : list Z :=
  take (Z.to_nat (d_size d)) (concat (map (fun bn => sector s (bmap_of s d bn)) (seq 0 (nblk (Z.to_nat (d_size d)))))).

Lemma bmap_of_blks s fs i f d bn :
  core s fs -> fs !! i = Some f -> d_addrs d = addrs_of f -> (bn < length (fe_blks f))%nat -> fe_blks f !! bn = Some (bmap_of s d bn).
Proof.
  intros Hc Hi Hd Hbn. pose proof (c_files _ _ Hc i f Hi) as [Hmax _ Hind Htab _]. destruct (lookup_lt_is_Some_2 _ _ Hbn) as [b Hb].
  unfold bmap_of. rewrite Hd. destruct (Nat.ltb_spec bn 12).
  - rewrite addrs_direct by done. by rewrite Hb.
  - rewrite addrs_indirect. change (default 0 (Some (fe_ind f))) with (fe_ind f).
    rewrite Htab by (lia || (intros ?%Hind; lia)). replace (12 + (bn - 12))%nat with bn by lia. by rewrite Hb.
Qed.

(** The blocks of a file, one after the other. *)
Lemma pad_chunk data N k :
  (512 * (k + 1) <= N)%nat -> pad (chunk data k) = sub (512 * k) 512 (data ++ replicate N 0).
Proof.
  intros HN. unfold pad, chunk, sub. destruct (decide (512 * k + 512 <= length data)%nat) as [H|H].
  - rewrite drop_app_le, take_app_le by (rewrite ?length_drop; lia). rewrite length_take, length_drop.
    replace (512 - 512 `min` (length data - 512 * k))%nat with 0%nat by lia. by rewrite app_nil_r.
  - rewrite (take_ge (drop _ data)) by (rewrite length_drop; lia). rewrite length_drop.
    destruct (decide (512 * k <= length data)%nat) as [H'|H'].
    + rewrite drop_app_le, take_app_ge by (rewrite ?length_drop; lia). rewrite length_drop, take_replicate. do 2 f_equal. lia.
    + rewrite (drop_ge data) by lia. rewrite drop_app_ge by lia. rewrite drop_replicate, take_replicate. cbn [app]. f_equal. lia.
Qed.

Lemma concat_chunks data m :
  concat (map (fun k => pad (chunk data k)) (seq 0 m)) = take (512 * m) (data ++ replicate (512 * m) 0).
Proof.
  assert (forall j, (j <= m)%nat -> concat (map (fun k => pad (chunk data k)) (seq 0 j)) = take (512 * j) (data ++ replicate (512 * m) 0)) as H; [|by apply H].
  induction j as [|j IH]; intros Hj; [done|]. rewrite seq_S, map_app, concat_app, IH by lia. cbn [map concat Nat.add]. rewrite app_nil_r.
  rewrite (pad_chunk data (512 * m)) by lia. unfold sub. replace (512 * S j)%nat with (512 * j + 512)%nat by lia.
  by rewrite take_take_drop.
Qed.

Lemma content_concat s fs i f d m :
  core s fs -> fs !! i = Some f -> d_addrs d = addrs_of f -> (m <= length (fe_blks f))%nat ->
  concat (map (fun bn => sector s (bmap_of s d bn)) (seq 0 m)) = take (512 * m) (fe_data f ++ replicate (512 * m) 0).
Proof.
  intros Hc Hi Hd Hm. rewrite <- concat_chunks. f_equal. apply map_ext_in. intros bn Hbn%in_seq.
  apply (fo_data _ _ (c_files _ _ Hc i f Hi)). apply (bmap_of_blks s fs i); [done..|lia].
Qed.

Lemma content_file s fs i f : core s fs -> fs !! i = Some f -> tight f -> content s (dinode_of f) = fe_data f.
Proof.
  intros Hc Hi Ht. unfold content. cbn [dinode_of d_size]. rewrite Nat2Z.id.
  rewrite (content_concat s fs i f (dinode_of f)) by (done || by rewrite Ht). pose proof (nblk_bounds (length (fe_data f))).
  rewrite take_take, Nat.min_l by lia. by rewrite take_app_length.
Qed.

(** The root directory, whose size is rounded up to the next block. *)
Lemma content_root s fs i f d :
  let n := (length (fe_data f) / 512)%nat in
  core s fs -> fs !! i = Some f -> tight f -> d_addrs d = addrs_of f -> d_size d = Z.of_nat (512 * (n + 1)) -> (n < 12)%nat ->
  take (length (fe_data f)) (content s d) = fe_data f
  /\ ((length (fe_data f) mod 512 <> 0)%nat -> content s d = fe_data f ++ replicate (512 * (n + 1) - length (fe_data f)) 0)
  /\ ((length (fe_data f) mod 512 = 0)%nat -> bmap_of s d n = 0).
Proof.
  intros n Hc Hi Ht Hd Hsz Hn. destruct (blocks_of (length (fe_data f))) as [El Hr]. fold n in El.
  set (r := (length (fe_data f) mod 512)%nat) in *. pose proof (nblk_bounds (length (fe_data f))) as Hnb. rewrite <- Ht in Hnb.
  assert (nblk (512 * (n + 1)) = n + 1)%nat as En by (apply nblk_spec; lia).
  unfold content. rewrite Hsz, Nat2Z.id, En. destruct (decide (r = 0%nat)) as [E0|E0].
  - split_and!; [|done|].
    + rewrite Nat.add_1_r, seq_S, map_app, concat_app, (content_concat s fs i f d) by (done || lia).
      rewrite take_take, Nat.min_l by lia. rewrite take_app_le by (rewrite length_take, length_app, length_replicate; lia).
      rewrite take_take, Nat.min_l by lia. by rewrite take_app_length.
    + intros _. unfold bmap_of. rewrite (proj2 (Nat.ltb_lt n 12)), Hd, addrs_direct by lia. by rewrite (lookup_ge_None_2 (fe_blks f)) by lia.
  - rewrite (content_concat s fs i f d) by (done || lia).
    assert (take (512 * (n + 1)) (take (512 * (n + 1)) (fe_data f ++ replicate (512 * (n + 1)) 0)) = fe_data f ++ replicate (512 * (n + 1) - length (fe_data f)) 0) as ->.
    { rewrite take_take, Nat.min_id, take_app_ge by lia. rewrite take_replicate. do 2 f_equal. lia. }
    split_and!; [by rewrite take_app_length|done|done].
Qed.

(** The end of the run: the size of the root directory, and the bitmap. *)
Lemma finish_run s root fs :
  image s (root :: fs) -> (length (fe_data root) < 12 * 512)%nat -> exists s',
  (din ← rinode 1 ;
   let off := (d_size din / BSIZE + 1) * BSIZE in
   winode 1 (Dinode (d_type din) (d_major din) (d_minor din) (d_nlink din) off (d_addrs din)) ;;
   b ← gets mk_freeblock ;
   balloc b) s = Done tt s'
  /\ core s' (root :: fs) /\ (forall b, b < 32 -> sector s' b = sector s b) /\ mk_freeblock s' = mk_freeblock s
  /\ sector s' (sb_bmapstart mk_sb) = foldl set_bit zero_block (seqZ 0 (mk_freeblock s))
  /\ (forall i f, fs !! i = Some f -> inode_at s' (Z.of_nat i + 2) = dinode_of f)
  /\ inode_at s' 1 = Dinode (fe_type root) 0 0 1 (Z.of_nat (512 * (length (fe_data root) / 512 + 1))) (addrs_of root)
  /\ forall j, 0 <= j < 200 -> j = 0 \/ Z.of_nat (S (length fs)) < j -> inode_at s' j = zero_dinode.
Proof.
  intros [Hc Hnext Hcount Ht Hty Hin Hun] Hlen. pose proof (c_free _ _ Hc) as Hfree. set (n := (length (fe_data root) / 512)%nat).
  rewrite (bind_done _ _ _ _ _ (rinode_run s 1 (c_len _ _ Hc) ltac:(lia))). cbv beta zeta.
  rewrite (Hin 0%nat root eq_refl : inode_at s 1 = dinode_of root). cbn [dinode_of d_type d_major d_minor d_nlink d_size d_addrs].
  assert ((Z.of_nat (length (fe_data root)) / BSIZE + 1) * BSIZE = Z.of_nat (512 * (n + 1))) as ->.
  { unfold BSIZE, n. rewrite <- (Nat2Z.inj_div _ 512). lia. }
  set (d := Dinode _ 0 0 1 _ _). assert (dinode_wf d) as Hd.
  { pose proof (dinode_of_wf s _ 0%nat root Hc eq_refl (Hty 0%nat root eq_refl)) as [W1 W2 W3]. split; [done| |done].
    apply Forall_cons. split; [|by apply Forall_cons in W2 as [_ ?]]. cbn [d d_size]. destruct (blocks_of (length (fe_data root))) as [? _].
    unfold W32, n. lia. }
  destruct (winode_run s 1 d (c_len _ _ Hc) (c_sec _ _ Hc)) as (s2 & R2 & Hw1 & Hw2 & Hw3 & Hw4 & Hw5 & Hw6 & Hw7); [lia|done|].
  rewrite (bind_done _ _ _ _ _ R2). cbv beta. rewrite (bind_done (gets mk_freeblock) _ s2 (mk_freeblock s) s2) by (unfold gets; by rewrite Hw6). cbv beta.
  set (bits := foldl set_bit zero_block (seqZ 0 (mk_freeblock s))).
  assert (length bits = 512%nat) as Hbits.
  { destruct (bitmap_spec (Z.to_nat (mk_freeblock s)) 0) as [H _]; [unfold FSSIZE in *; lia|lia|]. assert (0 < nmeta) by done. rewrite Z2Nat.id in H by lia. done. }
  assert (57 < nmeta /\ sb_bmapstart mk_sb = 58 /\ 58 < nmeta) as (Hm1 & Hm2 & Hm3) by done.
  exists (put s2 58 bits). split_and!.
  - unfold balloc. rewrite (proj2 (Z.ltb_lt _ _)) by (unfold FSSIZE, BSIZE in *; lia). done.
  - apply (core_meta s); [done|apply put_len; done|done| |].
    + intros b. rewrite sector_put. case_decide; [done|apply Hw5].
    + intros b Hb. rewrite sector_put, decide_False by lia. apply Hw3. lia.
  - intros b Hb. rewrite sector_put, decide_False by lia. apply Hw3. lia.
  - done.
  - by rewrite Hm2, sector_put, decide_True.
  - intros i f Hi. pose proof (lookup_lt_Some _ _ _ Hi). cbn [length] in Hcount.
    pose proof (Hin (S i) f Hi) as E. replace (Z.of_nat (S i) + 1) with (Z.of_nat i + 2) in E by lia.
    pose proof (iblock_range (Z.of_nat i + 2) ltac:(lia)). rewrite <- E, <- Hw2 by lia. unfold inode_at. rewrite sector_put, decide_False by lia. done.
  - pose proof (iblock_range 1 ltac:(lia)). unfold inode_at. rewrite sector_put, decide_False by lia. exact Hw1.
  - intros j Hj Hu. pose proof (iblock_range j Hj). rewrite <- (Hun j Hj Hu), <- Hw2 by lia. unfold inode_at. rewrite sector_put, decide_False by lia. done.
Qed.

(** ** The image *)

(** The blocks a file reads are its own, and distinct. *)
Lemma bmap_of_own s fs i f bn : core s fs -> fs !! i = Some f -> (bn < length (fe_blks f))%nat ->
  fe_blks f !! bn = Some (bmap_of s (dinode_of f) bn) /\ bmap_of s (dinode_of f) bn ∈ owned f.
Proof.
  intros Hc Hi Hbn. assert (fe_blks f !! bn = Some (bmap_of s (dinode_of f) bn)) as E by (by apply (bmap_of_blks s fs i)).
  split; [done|]. apply elem_of_app. left. by eapply list_elem_of_lookup_2.
Qed.

Lemma bmap_of_inj s fs i j f g bn bm :
  core s fs -> fs !! i = Some f -> fs !! j = Some g -> (bn < length (fe_blks f))%nat -> (bm < length (fe_blks g))%nat ->
  bmap_of s (dinode_of f) bn = bmap_of s (dinode_of g) bm -> i = j /\ bn = bm.
Proof.
  intros Hc Hi Hj Hbn Hbm E. destruct (bmap_of_own s fs i f bn Hc Hi Hbn) as [E1 O1], (bmap_of_own s fs j g bm Hc Hj Hbm) as [E2 O2].
  rewrite E in E1, O1. destruct (decide (i = j)) as [->|Hne]; [|by destruct (c_disj _ _ Hc i j f g _ Hi Hj Hne O1)].
  split; [done|]. pose proof (c_nodup _ _ Hc j g Hj) as [H _]%NoDup_app. rewrite Hi in Hj. injection Hj as ->. by eapply NoDup_lookup.
Qed.

(** What [main] leaves in the image. *)
Lemma mkfs_done files : fits files -> exists s root new,
  mkfs_main (Some true) files mk_start = Done tt s /\ core s (root :: new) /\ sector s 1 = sb_block /\ sector s 2 = zero_block
  /\ (forall i f, new !! i = Some f -> inode_at s (Z.of_nat i + 2) = dinode_of f /\ tight f) /\ tight root
  /\ fe_data root = dots ++ entries 0 files
  /\ inode_at s 1 = Dinode T_DIR 0 0 1 (Z.of_nat (512 * (length (fe_data root) / 512 + 1))) (addrs_of root)
  /\ Forall2 (fun fi f => fe_type f = T_FILE /\ fe_data f = content_of fi) files new
  /\ sector s (sb_bmapstart mk_sb) = foldl set_bit zero_block (seqZ 0 (mk_freeblock s))
  /\ forall j, 0 <= j < 200 -> j = 0 \/ Z.of_nat (S (length new)) < j -> inode_at s j = zero_dinode.
Proof.
  intros Hf. destruct (files_image files Hf) as (s0 & root & new & E & Him & Hty & Hda & Hnew & Hs0 & Hz0). destruct Hf as (_ & Hn & _).
  destruct (finish_run s0 root new Him) as (s & R & Hc & Hs1 & Hfb & Hbits & Hin & Hroot & Hun).
  { rewrite Hda, length_app, length_dots, length_entries. lia. }
  exists s, root, new. split_and!; [by rewrite E|done|by rewrite Hs1|by rewrite Hs1| | |done|by rewrite Hroot, Hty|done|by rewrite Hfb|done].
  - intros i f Hi. split; [by apply Hin|]. by apply (im_tight _ _ Him (S i)).
  - by apply (im_tight _ _ Him 0%nat).
Qed.

(** C15: the image builder, on files that fit (names without a slash, at most
    [MAXFILE] blocks each, fewer than 198 of them, enough data blocks in all),
    runs to the end and leaves a file system that reads back: the superblock
    decodes to the computed layout; inode [i + 2] is a plain file with one link
    whose contents, read through its direct and indirect addresses, are the
    bytes of input [i]; the root directory starts with ".", ".." and then one
    entry per file, in order, with the leading underscore of the name removed;
    (when the entries fill whole blocks, the size of the root, which is rounded up
    to the next block, covers a block with address zero);
    the bitmap marks exactly the blocks below the first free one; and no two
    blocks of files share a sector. *)
Theorem mkfs_image files : fits files -> exists s,
  mkfs_main (Some true) files mk_start = Done tt s
  /\ sb_of (sector s 1) = mk_sb
  /\ (forall i fi, files !! i = Some fi -> let d := inode_at s (Z.of_nat i + 2) in
       d_type d = T_FILE /\ d_nlink d = 1 /\ content s d = content_of fi)
  /\ (let d := inode_at s ROOTINO in let es := dots ++ entries 0 files in
       d_type d = T_DIR /\ take (length es) (content s d) = es
       /\ ((length es mod 512 <> 0)%nat -> content s d = es ++ replicate (512 - length es mod 512) 0)
       /\ ((length es mod 512 = 0)%nat -> bmap_of s d (length es / 512) = 0 /\ d_size d = Z.of_nat (length es) + BSIZE))
  /\ (forall b, 0 <= b < FSSIZE -> bit_set (sector s (sb_bmapstart mk_sb)) b = (b <? mk_freeblock s))
  /\ (forall i j fi fj bn bm, files !! i = Some fi -> files !! j = Some fj ->
       (bn < nblk (length (content_of fi)))%nat -> (bm < nblk (length (content_of fj)))%nat ->
       let b := bmap_of s (inode_at s (Z.of_nat i + 2)) bn in
       nmeta <= b < mk_freeblock s /\ (b = bmap_of s (inode_at s (Z.of_nat j + 2)) bm -> i = j /\ bn = bm)).
Proof.
  intros Hf. destruct (mkfs_done files Hf) as (s & root & new & R & Hc & Hsb & _ & Hin & Ht & Hda & Hroot & Hnew & Hbits & _).
  destruct Hf as (_ & Hn & _).
  assert (forall i fi, files !! i = Some fi -> exists f, new !! i = Some f /\ inode_at s (Z.of_nat i + 2) = dinode_of f
    /\ tight f /\ fe_type f = T_FILE /\ fe_data f = content_of fi) as Hfile.
  { intros i fi Hi. destruct (Forall2_lookup_l _ _ _ _ _ Hnew Hi) as (f & Hf & ? & ?). destruct (Hin i f Hf). exists f. split_and!; assumption. }
  exists s. split; [exact R|]. clear R. split_and!.
  - rewrite Hsb. by vm_compute.
  - intros i fi Hi. destruct (Hfile i fi Hi) as (f & Hf & -> & Htf & Hty & Hd). cbv zeta. rewrite (content_file s (root :: new) (S i) f Hc Hf Htf). split_and!; [exact Hty|reflexivity|exact Hd].
  - cbv zeta. rewrite <- Hda. change ROOTINO with 1. rewrite Hroot. split; [done|].
    destruct (content_root s (root :: new) 0 root (inode_at s 1) Hc eq_refl Ht) as (C1 & C2 & C3); [by rewrite Hroot..| |].
    { rewrite Hda, length_app, length_dots, length_entries. apply Nat.Div0.div_lt_upper_bound. lia. }
    rewrite Hroot in C1, C2, C3. destruct (blocks_of (length (fe_data root))). split_and!; [done|..]; intros Hmod.
    + rewrite (C2 Hmod). do 2 f_equal. lia.
    + split; [by apply C3|]. cbn [d_size]. unfold BSIZE. lia.
  - intros b Hb. pose proof (c_free _ _ Hc). assert (0 < nmeta) by done. rewrite Hbits. unfold FSSIZE in *.
    destruct (bitmap_spec (Z.to_nat (mk_freeblock s)) b) as [_ E]; [lia|lia|]. rewrite Z2Nat.id in E by lia. done.
  - intros i j fi fj bn bm Hi Hj Hbn Hbm. destruct (Hfile i fi Hi) as (f & Hf & -> & Htf & _ & Hd), (Hfile j fj Hj) as (g & Hg & -> & Htg & _ & Hd').
    rewrite <- Hd, <- Htf in Hbn. rewrite <- Hd', <- Htg in Hbm. cbv zeta. split.
    + apply (c_own _ _ Hc (S i) f); [done|]. by apply (bmap_of_own s (root :: new) (S i)).
    + intros E. destruct (bmap_of_inj s (root :: new) (S i) (S j) f g bn bm Hc Hf Hg Hbn Hbm E). lia.
Qed.

Lemma mkfs_image_witness : exists s,
  let files := [Input (cstr "_cat") (Some [replicate 600 7]); Input (cstr "README") (Some [])] in
  mkfs_main (Some true) files mk_start = Done tt s /\ content s (inode_at s 2) = replicate 600 7 /\ d_type (inode_at s 3) = T_FILE.
Proof.
  set (files := [Input (cstr "_cat") (Some [replicate 600 7]); Input (cstr "README") (Some [])]).
  destruct (mkfs_image files) as (s & R & _ & Hf & _).
  - split_and!; [|cbn; lia|by vm_compute].
    repeat apply Forall_cons_2; [..|apply Forall_nil_2]; (split; [|done|apply (Nat.le_trans _ 600); [by apply Nat.leb_le; vm_compute|lia]]); intros H; by vm_compute in H; set_solver.
  - exists s. split; [exact R|]. destruct (Hf 0%nat _ eq_refl) as (_ & _ & H0), (Hf 1%nat _ eq_refl) as (H1 & _ & _). exact (conj H0 H1).
Defined.
