(* ===== verification/Pipe.v ===== *)
(** pipe.c.  A pipe lives in a page of its own: [k_pipes] holds the pipe at the page's
    address while the page is allocated to it.  The lock is [L_pipe] of that address. *)
From S2P Require Import Prelude Kernel Spinlock Console CString Kalloc Proc.

Section pipe.
Context {E : Env}.

Definition get_pipe (p : Z) : K pipe := m ← gets k_pipes ; deref "pipe" (m !! p).
Definition upd_pipe (p : Z) (f : pipe -> pipe) : K unit :=
  modify (fun s => s <| k_pipes ::= alter f p |>).

(** The pipe that [pipealloc] initialises in a fresh page; [data] is at offset 52,
    after the lock, and keeps what the page holds. *)
Definition new_pipe (p : Z) : K unit :=
  modify (fun s => s <| k_pipes ::= <[p := Pipe (map (fun i => load8 (k_mem s) (p + 52 + i)) (seqZ 0 PIPESIZE)) 0 0 1 1]> |>) ;;
  initlock (L_pipe p) "pipe".

Definition pipeclose (p : Z) (writable : Z) : K unit :=
  acquire (L_pipe p) ;;
  (if nz writable then
     upd_pipe p (fun q => q <| pi_writeopen := 0 |>) ;; wakeup (CH_nread p)
   else
     upd_pipe p (fun q => q <| pi_readopen := 0 |>) ;; wakeup (CH_nwrite p)) ;;
  q ← get_pipe p ;
  if (pi_readopen q =? 0) && (pi_writeopen q =? 0) then
    release (L_pipe p) ;;
    modify (fun s => s <| k_pipes ::= delete p |>) ;;
    kfree p
  else release (L_pipe p).

(** [while(p->nwrite == p->nread + PIPESIZE)]: [false] is the return of -1. *)
Definition wait_room (p : Z) : K bool :=
  loop fuel (
    q ← get_pipe p ;
    if pi_nwrite q =? u32 (pi_nread q + PIPESIZE) then
      c ← curproc ;
      pr ← get_proc c ;
      if (pi_readopen q =? 0) || nz (p_killed pr) then mret (Some false)
      else wakeup (CH_nread p) ;; sleep (CH_nwrite p) (L_pipe p) ;; mret None
    else mret (Some true)).

(** [p->data[p->nwrite++ % PIPESIZE] = c] *)
Definition put_byte (c : Z) (q : pipe) : pipe :=
  q <| pi_data ::= <[Z.to_nat (pi_nwrite q mod PIPESIZE) := c]> |> <| pi_nwrite := u32 (pi_nwrite q + 1) |>.

Fixpoint pipewrite_loop (p : Z) (l : list Z) : K bool :=
  match l with
  | [] => mret true
  | c :: l' =>
      ok ← wait_room p ;
      if negb ok then mret false else
      upd_pipe p (put_byte c) ;;
      pipewrite_loop p l'
  end.

(** [addr] holds at least [n] bytes. *)
Definition pipewrite (p : Z) (addr : list Z) (n : Z) : K Z :=
  acquire (L_pipe p) ;;
  ok ← pipewrite_loop p (take (Z.to_nat n) addr) ;
  if negb ok then release (L_pipe p) ;; mret (-1) else
  wakeup (CH_nread p) ;;
  release (L_pipe p) ;;
  mret n.

(** [while(p->nread == p->nwrite && p->writeopen)] *)
Definition wait_data (p : Z) : K bool :=
  loop fuel (
    q ← get_pipe p ;
    if (pi_nread q =? pi_nwrite q) && nz (pi_writeopen q) then
      c ← curproc ;
      pr ← get_proc c ;
      if nz (p_killed pr) then mret (Some false)
      else sleep (CH_nread p) (L_pipe p) ;; mret None
    else mret (Some true)).

(** [for(i = 0; i < n; i++)] of [piperead]: the bytes it stores. *)
Fixpoint piperead_loop (p : Z) (n : nat) : K (list Z) :=
  match n with
  | O => mret []
  | S n' =>
      q ← get_pipe p ;
      if pi_nread q =? pi_nwrite q then mret [] else
      c ← deref "p->data" (pi_data q !! Z.to_nat (pi_nread q mod PIPESIZE)) ;
      upd_pipe p (fun q => q <| pi_nread ::= fun r => u32 (r + 1) |>) ;;
      l ← piperead_loop p n' ;
      mret (c :: l)
  end.

Definition piperead (p : Z) (n : Z) : K (Z * list Z) :=
  acquire (L_pipe p) ;;
  ok ← wait_data p ;
  if negb ok then release (L_pipe p) ;; mret (-1, []) else
  l ← piperead_loop p (Z.to_nat n) ;
  wakeup (CH_nwrite p) ;;
  release (L_pipe p) ;;
  mret (Z.of_nat (length l), l).

End pipe.

(** ** The contract: a bounded queue of bytes *)

Inductive pipe_op : Type := PWrite (l : list Z) | PRead (n : nat).

(** What an operation returns and the bytes it delivers, on a queue [q] whose write
    end is open or closed; [None] when it has to wait. *)
Definition queue_op (wopen : bool) (o : pipe_op) (q : list Z) : option (Z * list Z * list Z) :=
  match o with
  | PWrite l =>
      if decide (length q + length l <= Z.to_nat PIPESIZE)%nat then Some (Z.of_nat (length l), [], q ++ l) else None
  | PRead n =>
      if wopen && bool_decide (q = []) then None else Some (Z.of_nat (length (take n q)), take n q, drop n q)
  end.
Fixpoint queue_ops (wopen : bool) (os : list pipe_op) (q : list Z) : option (list (Z * list Z) * list Z) :=
  match os with
  | [] => Some ([], q)
  | o :: os' =>
      '(r, q1) ← queue_op wopen o q ;
      '(rs, q2) ← queue_ops wopen os' q1 ;
      Some (r :: rs, q2)
  end.

(** The bytes between the counters, which run modulo 2^32. *)
Record pipe_rep (p : pipe) (q : list Z) : Prop := PipeRep {
  pq_ring : ring PIPESIZE (pi_data p) (pi_nread p) q;
  pq_nread : 0 <= pi_nread p < W32;
  pq_nwrite : pi_nwrite p = u32 (pi_nread p + Z.of_nat (length q))
}.

Section contract.
Context {E : Env}.

Definition do_pipe_op (p : Z) (o : pipe_op) : K (Z * list Z) :=
  match o with
  | PWrite l => r ← pipewrite p l (Z.of_nat (length l)) ; mret (r, [])
  | PRead n => piperead p (Z.of_nat n)
  end.
Fixpoint do_pipe_ops (p : Z) (os : list pipe_op) : K (list (Z * list Z)) :=
  match os with
  | [] => mret []
  | o :: os' => r ← do_pipe_op p o ; rs ← do_pipe_ops p os' ; mret (r :: rs)
  end.

(** The pipe at [p] holds [q], and its lock and that of the process table are free. *)
Record pipe_ready (s : kernel) (p : Z) (wopen : bool) (q : list Z) : Prop := PipeReady {
  pp_ptable : ptable_ready s;
  pp_lock : lock_free (k_hw s) (L_pipe p);
  pp_pipe : exists pi, k_pipes s !! p = Some pi /\ pipe_rep pi q /\ nz (pi_writeopen pi) = wopen
}.

(** *** The counters *)

Lemma u32_mod_pipesize x : u32 x mod PIPESIZE = x mod PIPESIZE.
Proof. apply u32_mod. by exists 8388608. Qed.

Lemma rep_full p q :
  pipe_rep p q -> (pi_nwrite p =? u32 (pi_nread p + PIPESIZE)) = bool_decide (length q = Z.to_nat PIPESIZE).
Proof.
  intros [[_ _ Hl _] Hr Hw]. rewrite Hw. case_bool_decide as Hd; [apply Z.eqb_eq|apply Z.eqb_neq].
  - by rewrite Hd.
  - intros H. apply mod_inj in H; unfold PIPESIZE, W32 in *; lia.
Qed.

Lemma rep_empty p q : pipe_rep p q -> (pi_nread p =? pi_nwrite p) = bool_decide (q = []).
Proof.
  intros [[_ _ Hl _] Hr Hw]. rewrite Hw. case_bool_decide as Hd; [apply Z.eqb_eq|apply Z.eqb_neq].
  - subst q. cbn. rewrite Z.add_0_r. symmetry. by apply Z.mod_small.
  - intros H. apply Hd. destruct q as [|c q]; [done|].
    assert (u32 (pi_nread p + 0) = u32 (pi_nread p + Z.of_nat (length (c :: q)))) as H'.
    { rewrite <- H, Z.add_0_r. by apply Z.mod_small. }
    apply mod_inj in H'; cbn [length] in *; unfold PIPESIZE, W32 in *; lia.
Qed.

Lemma rep_put p q c : pipe_rep p q -> (length q < Z.to_nat PIPESIZE)%nat -> pipe_rep (put_byte c p) (q ++ [c]).
Proof.
  intros [Hq Hr Hw] Hl. split; cbn; [|done|].
  - rewrite Hw, u32_mod_pipesize. by apply ring_put.
  - rewrite Hw, u32_u32_add, length_app. cbn. f_equal. lia.
Qed.

Definition take_byte (p : pipe) : pipe := p <| pi_nread ::= fun r => u32 (r + 1) |>.

Lemma rep_take p c q :
  pipe_rep p (c :: q) ->
  pi_data p !! Z.to_nat (pi_nread p mod PIPESIZE) = Some c /\ pipe_rep (take_byte p) q.
Proof.
  intros [Hq Hr Hw]. destruct (ring_take _ _ _ _ _ Hq) as [Hc Hq']. split; [done|]. split; cbn.
  - eapply ring_start; [|exact Hq']. by rewrite u32_mod_pipesize.
  - by apply Z.mod_pos_bound.
  - rewrite Hw, u32_u32_add. cbn [length]. f_equal. lia.
Qed.

(** *** Runs of the operations that do not wait *)

Lemma get_pipe_run s p pi : k_pipes s !! p = Some pi -> get_pipe p s = Done pi s.
Proof. intros H. unfold get_pipe. kstep. by rewrite H. Qed.

Lemma pipe_same s p pi : k_pipes s !! p = Some pi -> s <| k_pipes ::= <[p := pi]> |> = s.
Proof. intros Hp. apply set_fix. by apply insert_id. Qed.

Lemma pipe_set_set s p f pi :
  s <| k_pipes ::= alter f p |> <| k_pipes ::= <[p := pi]> |> = s <| k_pipes ::= <[p := pi]> |>.
Proof.
  rewrite set_set. apply set_ext. apply map_eq. intros k. destruct (decide (p = k)) as [<-|Hne].
  - by rewrite !lookup_insert_eq.
  - by rewrite !lookup_insert_ne, lookup_alter_ne by done.
Qed.

Lemma wait_room_run s p pi q :
  (0 < fuel)%nat -> k_pipes s !! p = Some pi -> pipe_rep pi q -> (length q < Z.to_nat PIPESIZE)%nat ->
  wait_room p s = Done true s.
Proof.
  intros Hf Hp Hq Hl. apply loop_leave; [done|]. krun (get_pipe_run s p pi Hp).
  rewrite (rep_full _ _ Hq), bool_decide_false by lia. done.
Qed.

Lemma wait_data_run s p pi q :
  (0 < fuel)%nat -> k_pipes s !! p = Some pi -> pipe_rep pi q -> nz (pi_writeopen pi) && bool_decide (q = []) = false ->
  wait_data p s = Done true s.
Proof.
  intros Hf Hp Hq Hw. apply loop_leave; [done|]. krun (get_pipe_run s p pi Hp).
  by rewrite (rep_empty _ _ Hq), andb_comm, Hw.
Qed.

(** The pipe after [l] is written, and after [n] bytes are read. *)
Definition put_all (l : list Z) (p : pipe) : pipe := foldl (fun p c => put_byte c p) p l.
Definition take_all (n : nat) (p : pipe) : pipe := Nat.iter n take_byte p.

Lemma put_all_rep l p q :
  pipe_rep p q -> (length q + length l <= Z.to_nat PIPESIZE)%nat -> pipe_rep (put_all l p) (q ++ l).
Proof.
  revert p q. induction l as [|c l IH]; intros p q Hq Hl; [by rewrite app_nil_r|]. cbn [length] in Hl.
  replace (q ++ c :: l) with ((q ++ [c]) ++ l) by by rewrite <- (assoc_L (++)).
  apply IH; [apply rep_put; [done|lia]|]. rewrite length_app. cbn. lia.
Qed.

Lemma take_all_rep n p q : pipe_rep p q -> (n <= length q)%nat -> pipe_rep (take_all n p) (drop n q).
Proof.
  revert p q. induction n as [|n IH]; intros p q Hq Hn; [done|].
  destruct q as [|c q]; [cbn in Hn; lia|]. unfold take_all. rewrite Nat.iter_succ_r. cbn [drop].
  apply IH; [by apply (rep_take p c)|cbn in Hn; lia].
Qed.

Lemma put_all_open l p : pi_writeopen (put_all l p) = pi_writeopen p.
Proof. revert p. induction l as [|c l IH]; intros p; [done|]. exact (IH (put_byte c p)). Qed.

Lemma take_all_open n p : pi_writeopen (take_all n p) = pi_writeopen p.
Proof. induction n as [|n IH]; [done|]. apply IH. Qed.

Lemma pipewrite_loop_run s p pi q l :
  (0 < fuel)%nat -> k_pipes s !! p = Some pi -> pipe_rep pi q -> (length q + length l <= Z.to_nat PIPESIZE)%nat ->
  pipewrite_loop p l s = Done true (s <| k_pipes ::= <[p := put_all l pi]> |>).
Proof.
  intros Hf. revert s pi q. induction l as [|c l IH]; intros s pi q Hp Hq Hl.
  - change (put_all [] pi) with pi. by rewrite (pipe_same s p pi Hp).
  - cbn [length] in Hl. cbn [pipewrite_loop].
    krun (wait_room_run s p pi q Hf Hp Hq ltac:(lia)). cbn [negb]. unfold upd_pipe. kstep.
    rewrite (IH _ (put_byte c pi) (q ++ [c])).
    + by rewrite pipe_set_set.
    + cbn. by rewrite lookup_alter_eq, Hp.
    + apply rep_put; [done|lia].
    + rewrite length_app. cbn. lia.
Qed.

Lemma piperead_loop_run s p pi q n :
  k_pipes s !! p = Some pi -> pipe_rep pi q ->
  piperead_loop p n s = Done (take n q) (s <| k_pipes ::= <[p := take_all (length (take n q)) pi]> |>).
Proof.
  revert s pi q. induction n as [|n IH]; intros s pi q Hp Hq.
  - rewrite take_0. change (take_all (length []) pi) with pi. by rewrite (pipe_same s p pi Hp).
  - cbn [piperead_loop]. kapply (get_pipe_run s p pi Hp). rewrite (rep_empty _ _ Hq).
    destruct q as [|c q]; [rewrite bool_decide_true by done; change (take_all _ pi) with pi; by rewrite (pipe_same s p pi Hp)|].
    rewrite bool_decide_false by done. destruct (rep_take _ _ _ Hq) as [Hc Hq'].
    rewrite Hc. kstep. unfold upd_pipe. kstep. fold take_byte.
    erewrite bind_done; [|apply (IH _ (take_byte pi) q)]; [|cbn; by rewrite lookup_alter_eq, Hp|done].
    cbv beta. rewrite pipe_set_set. cbn [take length]. unfold take_all. by rewrite Nat.iter_succ_r.
Qed.

(** The state after an operation: the pipe is [pi], and the processes that slept on
    [ch] are woken. *)
Definition piped (p : Z) (pi : pipe) (ch : chan) (s : kernel) : kernel :=
  s <| k_pipes ::= <[p := pi]> |> <| k_ptable ::= map (wake (Some ch)) |>.

Lemma pipe_section {B} s p ch pi (rest : K B) (v : B) :
  (0 < fuel)%nat -> ptable_ready s -> lock_free (k_hw s) (L_pipe p) ->
  (forall h, rest (s <| k_hw := h |>) =
     (wakeup ch ;; release (L_pipe p) ;; mret v) (s <| k_hw := h |> <| k_pipes ::= <[p := pi]> |>)) ->
  (acquire (L_pipe p) ;; rest) s = Done v (piped p pi ch s).
Proof.
  intros Hf [(i & c & Hr) Hpt Hl] Hlk Hm.
  destruct (critical_section s i c (L_pipe p) Hf Hr Hlk) as (h & c' & Ha & Hr' & _ & Ho & _ & Hrel).
  krun Ha. rewrite Hm. set (s1 := set k_pipes _ _).
  assert (ptable_ready s1) as Hs1 by (split; [by exists i, c'|by apply Ho|done]).
  krun (wakeup_run ch s1 Hf Hs1). kapply Hrel. by destruct s.
Qed.

Lemma pipewrite_run s p pi q l :
  (0 < fuel)%nat -> ptable_ready s -> lock_free (k_hw s) (L_pipe p) -> k_pipes s !! p = Some pi -> pipe_rep pi q ->
  (length q + length l <= Z.to_nat PIPESIZE)%nat ->
  pipewrite p l (Z.of_nat (length l)) s = Done (Z.of_nat (length l)) (piped p (put_all l pi) (CH_nread p) s).
Proof.
  intros Hf Hpt Hlk Hp Hq Hl. unfold pipewrite. rewrite Nat2Z.id, firstn_all.
  apply pipe_section; [done..|]. intros h. by kapply (pipewrite_loop_run _ p pi q).
Qed.

Lemma piperead_run s p pi q n :
  (0 < fuel)%nat -> ptable_ready s -> lock_free (k_hw s) (L_pipe p) -> k_pipes s !! p = Some pi -> pipe_rep pi q ->
  nz (pi_writeopen pi) && bool_decide (q = []) = false ->
  piperead p (Z.of_nat n) s = Done (Z.of_nat (length (take n q)), take n q)
    (piped p (take_all (length (take n q)) pi) (CH_nwrite p) s).
Proof.
  intros Hf Hpt Hlk Hp Hq Hw. unfold piperead. rewrite Nat2Z.id.
  apply pipe_section; [done..|]. intros h. kapply (wait_data_run _ p pi q). cbn [negb].
  by kapply (piperead_loop_run _ p pi q).
Qed.

Lemma pipe_op_refines s p w q o r l q' :
  (0 < fuel)%nat -> pipe_ready s p w q -> queue_op w o q = Some (r, l, q') ->
  exists pi ch, do_pipe_op p o s = Done (r, l) (piped p pi ch s) /\ pipe_ready (piped p pi ch s) p w q'.
Proof.
  intros Hf [Hpt Hlk (pi & Hp & Hq & Hw)] Ho.
  assert (forall pi' ch, pipe_rep pi' q' -> nz (pi_writeopen pi') = w -> pipe_ready (piped p pi' ch s) p w q') as Hready.
  { intros pi' ch Hq' Hw'. split; [|done|exists pi'; split; [apply lookup_insert_eq|done]].
    destruct Hpt as [H1 H2 H3]. split; [done..|]. cbn. by rewrite length_map. }
  destruct o as [b|n]; cbn in Ho.
  - case_decide as Hd; [|done]. simplify_eq. exists (put_all b pi), (CH_nread p). split.
    + unfold do_pipe_op. by kapply (pipewrite_run s p pi q).
    + apply Hready; [by apply put_all_rep|by rewrite put_all_open].
  - destruct (w && bool_decide (q = [])) eqn:He; [done|]. simplify_eq.
    exists (take_all (length (take n q)) pi), (CH_nwrite p). split.
    + apply (piperead_run s p pi q); [done..|by rewrite He].
    + apply Hready; [|by rewrite take_all_open].
      rewrite length_take. destruct (Nat.le_ge_cases n (length q)).
      * rewrite Nat.min_l by lia. by apply take_all_rep.
      * rewrite Nat.min_r, drop_ge by lia. rewrite <- (drop_ge q (length q)) by lia. by apply take_all_rep.
Qed.

(** C12: a pipe is a queue.  From any state in which it holds the bytes [q] and the
    locks are free, every sequence of reads and writes that a queue of 512 bytes
    performs without waiting gives the results of that queue: writes append, reads
    deliver the oldest bytes, at most as many as there are, and, once the write end
    is closed, read 0 bytes at the end; also when the counters wrap around at 2^32.
    Other pipes are not touched. *)
Theorem pipe_refines_queue s p w q os rs q' :
  (0 < fuel)%nat -> pipe_ready s p w q -> queue_ops w os q = Some (rs, q') ->
  exists s', do_pipe_ops p os s = Done rs s' /\ pipe_ready s' p w q'
    /\ (forall p', p <> p' -> k_pipes s' !! p' = k_pipes s !! p').
Proof.
  intros Hf. revert s q rs. induction os as [|o os IH]; intros s q rs Hs Ho; cbn in Ho.
  - simplify_eq. by exists s.
  - destruct (queue_op w o q) as [[[r l] q1]|] eqn:E1; [|done]. cbn in Ho.
    destruct (queue_ops w os q1) as [[rs1 q2]|] eqn:E2; [|done]. cbn in Ho. simplify_eq.
    destruct (pipe_op_refines s p w q o r l q1 Hf Hs E1) as (pi & ch & H1 & Hs1).
    destruct (IH _ _ _ Hs1 E2) as (s2 & H2 & Hs2 & Hfr).
    exists s2. split_and!; [cbn [do_pipe_ops]; krun H1; by krun H2|done|].
    intros p' Hp'. rewrite Hfr by done. by apply lookup_insert_ne.
Qed.

End contract.
