(* ===== verification/FileTable.v ===== *)
(** file.c, with [pipealloc] of pipe.c.  A [struct file] pointer is an index in
    [ftable.file].  Reads give their result with the bytes stored at [addr]; writes
    take the bytes at [addr]. *)
From S2P Require Import Prelude Kernel Spinlock Console CString Kalloc Proc Sleeplock Disk Bytes Bio Log Inode ConsoleIo Fs Pipe.

Section filetable.
Context {E : Env} {D : Disk}.

Definition get_file (f : nat) : K file := l ← gets k_ftable ; deref "ftable.file" (l !! f).
Definition upd_file (f : nat) (g : file -> file) : K unit :=
  modify (fun s => s <| k_ftable ::= alter g f |>).

Definition fileinit : K unit := initlock L_ftable "ftable".

Definition filealloc : K (option nat) :=
  acquire L_ftable ;;
  o ← for_find (seq 0 NFILE) (fun f =>
    x ← get_file f ; mret (if f_ref x =? 0 then Some f else None)) ;
  match o with
  | Some f =>
      upd_file f (fun x => x <| f_ref := 1 |>) ;;
      release L_ftable ;;
      mret (Some f)
  | None => release L_ftable ;; mret None
  end.

Definition filedup (f : nat) : K nat :=
  acquire L_ftable ;;
  x ← get_file f ;
  if f_ref x <? 1 then panic "filedup" else
  upd_file f (fun x => x <| f_ref ::= Z.add 1 |>) ;;
  release L_ftable ;;
  mret f.

Definition fileclose (f : nat) : K unit :=
  acquire L_ftable ;;
  x ← get_file f ;
  if f_ref x <? 1 then panic "fileclose" else
  upd_file f (fun x => x <| f_ref ::= fun r => r - 1 |>) ;;
  x ← get_file f ;
  if 0 <? f_ref x then release L_ftable else
  let ff := x in
  upd_file f (fun x => x <| f_ref := 0 |>) ;;
  upd_file f (fun x => x <| f_type := FD_NONE |>) ;;
  release L_ftable ;;
  match f_type ff with
  | FD_PIPE => pipeclose (f_pipe ff) (f_writable ff)
  | FD_INODE =>
      begin_op ;;
      ip ← deref "ff.ip" (f_ip ff) ;
      iput ip ;;
      end_op
  | FD_NONE => mret tt
  end.

Definition filestat (f : nat) : K (Z * option stat) :=
  x ← get_file f ;
  match f_type x with
  | FD_INODE =>
      ilock (f_ip x) ;;
      ip ← deref "f->ip" (f_ip x) ;
      st ← stati ip ;
      iunlock (f_ip x) ;;
      mret (0, Some st)
  | _ => mret (-1, None)
  end.

Definition fileread (f : nat) (n : Z) : K (Z * list Z) :=
  x ← get_file f ;
  if f_readable x =? 0 then mret (-1, []) else
  match f_type x with
  | FD_PIPE => piperead (f_pipe x) n
  | FD_INODE =>
      ilock (f_ip x) ;;
      ip ← deref "f->ip" (f_ip x) ;
      x ← get_file f ;
      '(r, l) ← readi ip (f_off x) (u32 n) ;
      when (0 <? r) (upd_file f (fun x => x <| f_off ::= fun o => u32 (o + r) |>)) ;;
      iunlock (f_ip x) ;;
      mret (r, l)
  | FD_NONE => panic "fileread"
  end.

(** [((MAXOPBLOCKS-1-1-2) / 2) * 512] *)
Definition write_max : Z := (MAXOPBLOCKS - 1 - 1 - 2) / 2 * 512.

(** [while(i < n)] of [filewrite]; a round writes at least one byte or leaves the loop. *)
Fixpoint filewrite_loop (rounds : nat) (f : nat) (addr : list Z) (n i : Z) : K Z :=
  match rounds with
  | O => stop_with OutOfFuel
  | S rounds' =>
      if i <? n then
        let n1 := Z.min (n - i) write_max in
        begin_op ;;
        x ← get_file f ;
        ilock (f_ip x) ;;
        ip ← deref "f->ip" (f_ip x) ;
        x ← get_file f ;
        r ← writei ip (drop (Z.to_nat i) addr) (f_off x) n1 ;
        when (0 <? r) (upd_file f (fun x => x <| f_off ::= fun o => u32 (o + r) |>)) ;;
        iunlock (f_ip x) ;;
        end_op ;;
        if r <? 0 then mret i else
        if negb (r =? n1) then panic "short filewrite" else
        filewrite_loop rounds' f addr n (i + r)
      else mret i
  end.

Definition filewrite (f : nat) (addr : list Z) (n : Z) : K Z :=
  x ← get_file f ;
  if f_writable x =? 0 then mret (-1) else
  match f_type x with
  | FD_PIPE => pipewrite (f_pipe x) addr n
  | FD_INODE =>
      i ← filewrite_loop (Z.to_nat (n / write_max) + 2) f addr n 0 ;
      mret (if i =? n then n else -1)
  | FD_NONE => panic "filewrite"
  end.

(** ** [pipealloc] *)

Definition set_pipe_file (f : nat) (readable writable p : Z) : K unit :=
  upd_file f (fun x => x <| f_type := FD_PIPE |>) ;;
  upd_file f (fun x => x <| f_readable := readable |>) ;;
  upd_file f (fun x => x <| f_writable := writable |>) ;;
  upd_file f (fun x => x <| f_pipe := p |>).

Definition close_opt (o : option nat) : K unit := match o with Some f => fileclose f | None => mret tt end.

(** The two files, or [None] for -1. *)
Definition pipealloc : K (option (nat * nat)) :=
  f0 ← filealloc ;
  f1 ← (match f0 with None => mret None | Some _ => filealloc end) ;
  match f0, f1 with
  | Some a, Some b =>
      p ← kalloc ;
      if p =? 0 then close_opt f0 ;; close_opt f1 ;; mret None else
      new_pipe p ;;
      set_pipe_file a 1 0 p ;;
      set_pipe_file b 0 1 p ;;
      mret (Some (a, b))
  | _, _ => close_opt f0 ;; close_opt f1 ;; mret None
  end.

End filetable.
