(* ===== verification/FsOps.v ===== *)
(** Reading and writing open files, from [fileread] and [filewrite] of file.c down to the disk.

    [fs_state s fs] says that between operations the disk holds the files [fs] and that the
    inode cache agrees with it.  A read returns the bytes of the file at the offset; a write,
    done in transactions, leaves on the disk the file with the bytes in place, and a crash in
    the middle of a transaction leaves the files as they were before it or after it. *)
From S2P Require Import Prelude Kernel Spinlock Console CString Kalloc Proc Sleeplock Disk Bytes Bio Log Inode ConsoleIo Fs FileBlocks FsContent Pipe FileTable.

(** The layout of a volume: the log, the inodes and the bitmap, which fits a block, follow each
    other, and the device has all its blocks. *)
Record volume {E : Env} {D : Disk} (sb : superblock) (start : Z) (nfiles : nat) : Prop := Volume {
  vo_fit : 0 < sb_size sb <= BPB;
  vo_disk : sb_size sb <= disksize;
  vo_start : 0 <= start;
  vo_bm : start + LOGSIZE <= sb_bmapstart sb < sb_size sb;
  vo_ino : forall i, (i < nfiles)%nat -> start + LOGSIZE <= IBLOCK (Z.of_nat i) sb < sb_bmapstart sb
}.

Section ops.
Context {E : Env} {D : Disk} `{!DiskLaws D}.
Context (sb : superblock) (start : Z) (nfiles : nat).
Abbreviation lo := (start + LOGSIZE).
Context (Hfit : 0 < sb_size sb <= BPB) (Hdisk : sb_size sb <= disksize) (Hstart : 0 <= start).
Context (Hbm : lo <= sb_bmapstart sb < sb_size sb).
Context (Hino : forall i, (i < nfiles)%nat -> lo <= IBLOCK (Z.of_nat i) sb < sb_bmapstart sb).

Abbreviation files_ok := (FsContent.files_ok sb lo nfiles).

(** ** The inode cache *)

(** Entry [nd] of the cache, if it is in use, is for a file; the members are those of the
    file once the inode has been read. *)
Definition entry_ok (fs : list fent) (nd : inode) : Prop :=
  0 < i_ref nd -> i_dev nd = 1 /\ exists i f, i_inum nd = Z.of_nat i /\ fs !! i = Some f /\ (i_valid nd <> 0 -> inode_of nd f).

(** No file has two entries. *)
Record coherent (ic : list inode) (fs : list fent) : Prop := Coherent {
  co_len : length ic = NINODE;
  co_entry : forall ip nd, ic !! ip = Some nd -> entry_ok fs nd;
  co_uniq : forall ip jp nd nd', ic !! ip = Some nd -> ic !! jp = Some nd' -> 0 < i_ref nd -> 0 < i_ref nd' ->
    i_inum nd = i_inum nd' -> ip = jp
}.

(** An entry changes, and with it its file. *)
Lemma coherent_update ic fs ip nd nd' i f f' :
  coherent ic fs -> ic !! ip = Some nd -> 0 < i_ref nd -> i_inum nd = Z.of_nat i -> fs !! i = Some f ->
  i_ref nd' = i_ref nd -> i_inum nd' = i_inum nd -> inode_of nd' f' ->
  coherent (<[ip := nd']> ic) (<[i := f']> fs).
Proof.
  intros [Hl He Hu] Hip Hr Hin Hi Er Ein Hnd. pose proof (lookup_lt_Some _ _ _ Hip) as Hlt. pose proof (lookup_lt_Some _ _ _ Hi) as Hlt'.
  assert (forall jp x, <[ip := nd']> ic !! jp = Some x -> exists y, ic !! jp = Some y /\ i_ref x = i_ref y /\ i_inum x = i_inum y
    /\ (jp = ip /\ x = nd' \/ jp <> ip /\ x = y)) as Hlk.
  { intros jp x Hx. destruct (decide (jp = ip)) as [->|Hne].
    - rewrite list_lookup_insert_eq in Hx by done. injection Hx as <-. exists nd. by eauto 6.
    - rewrite list_lookup_insert_ne in Hx by done. exists x. by eauto 6. }
  split; [by rewrite length_insert| |].
  - intros jp x (y & Hy & E1 & E2 & [[-> ->]|[Hne ->]])%Hlk Href.
    + split; [by apply Hnd|]. exists i, f'. split_and!; [by rewrite Ein|by rewrite list_lookup_insert_eq|done].
    + destruct (He jp y Hy Href) as (Hd & j & g & Hj & Hg & Hv). split; [done|]. exists j, g. split_and!; [done| |done].
      rewrite list_lookup_insert_ne; [done|]. intros ->. apply Hne. symmetry. apply (Hu ip jp nd y); [done..|lia|done|congruence].
  - intros jp kp x x' (y & Hy & E1 & E2 & _)%Hlk (y' & Hy' & E1' & E2' & _)%Hlk H1 H2 H3. apply (Hu jp kp y y'); (done || congruence).
Qed.

(** ** Locking *)

Definition set_ilock (ip : nat) (lk : sleeplock) (s : kernel) : kernel := s <| k_sleeplocks ::= <[SL_inode ip := lk]> |>.

Lemma cache_inode_lock s pid dsk view held dirty ip lk :
  cache_ok s pid dsk view held dirty -> cache_ok (set_ilock ip lk s) pid dsk view held dirty.
Proof.
  intros [Hc [H1 H2 H3 H4 H5 H6 H7 H8]]. split; [done|]. split; [done..| |done|done|done|done].
  intros i b Hi Hb. destruct (H4 i b Hi Hb) as [B1 B2 B3 B4 B5 B6]. split; [done..| |done].
  cbn. rewrite sl_at_insert_ne by done. exact B5.
Qed.

(** What has been done so far becomes the beginning. *)
Lemma tx_rebase s0 pid dsk s view held dirty ic : tx s0 pid dsk s view held dirty ic -> tx s pid dsk s view held dirty ic.
Proof.
  intros [H1 H2 [h H3] H4 H5 H6]. split; [done| |by exists (lg_lh (k_log s)); destruct (k_log s)|done|done|done]. by rewrite H3 at 1.
Qed.

Lemma tx_lock s0 pid dsk s view held dirty ic ip lk :
  tx s0 pid dsk s view held dirty ic -> tx (set_ilock ip lk s) pid dsk (set_ilock ip lk s) view held dirty ic.
Proof.
  intros [H1 H2 H3 H4 H5 H6]%tx_rebase. split; [by apply cache_inode_lock|by apply (log_lists_eq s)|exact H3|exact H4|done|done].
Qed.

Lemma tx_icache s0 pid dsk s view held dirty ic g :
  tx s0 pid dsk s view held dirty ic -> tx s0 pid dsk (s <| k_icache ::= g |>) view held dirty (g ic).
Proof. intros [H1 H2 H3 H4 H5 H6]. split; [exact H1|by apply (log_lists_eq s)|exact H3|cbn; by rewrite H4|exact H5|exact H6]. Qed.

(** The inode as it is read from the disk. *)
Definition loaded (di : dinode) (nd : inode) : inode :=
  nd <| i_type := d_type di |> <| i_major := d_major di |> <| i_minor := d_minor di |> <| i_nlink := d_nlink di |>
     <| i_size := d_size di |> <| i_addrs := d_addrs di |> <| i_valid := 1 |>.

Lemma i16_range x : -32768 <= i16 x < 32768.
Proof. unfold i16. pose proof (Z.mod_pos_bound (x + 32768) 65536). lia. Qed.

Lemma loaded_ok view fs i f nd :
  files_ok view fs -> fs !! i = Some f -> i_dev nd = 1 -> inode_of (loaded (dinode_at sb view (Z.of_nat i)) nd) f.
Proof.
  intros Hf Hi Hd. destruct (fo_ino _ _ _ _ _ Hf i f Hi) as (H1 & H2 & H3). split; [done..|].
  repeat apply Forall_cons_2; [apply i16_range..|apply Forall_nil_2].
Qed.

Lemma ilock_load s0 pid dsk s view dirty ic ip nd :
  tx s0 pid dsk s view [] dirty ic -> k_sb s0 = sb -> (length dirty <= 27)%nat -> ic !! ip = Some nd -> i_dev nd = 1 -> IBLOCK (i_inum nd) sb < disksize ->
  let di := dinode_at sb view (i_inum nd) in
  exists s', 
    (bp ← bread (i_dev nd) (IBLOCK (i_inum nd) sb) ;
     d ← get_data bp ;
     let di := get_dinode d (dinode_off (i_inum nd)) in
     upd_inode ip (fun i => i <| i_type := d_type di |>) ;;
     upd_inode ip (fun i => i <| i_major := d_major di |>) ;;
     upd_inode ip (fun i => i <| i_minor := d_minor di |>) ;;
     upd_inode ip (fun i => i <| i_nlink := d_nlink di |>) ;;
     upd_inode ip (fun i => i <| i_size := d_size di |>) ;;
     upd_inode ip (fun i => i <| i_addrs := d_addrs di |>) ;;
     brelse bp ;;
     upd_inode ip (fun i => i <| i_valid := 1 |>) ;;
     if d_type di =? 0 then panic "ilock: no type" else mret tt) s
    = (if d_type di =? 0 then panic "ilock: no type" else mret tt) s'
    /\ tx s0 pid dsk s' view [] dirty (<[ip := loaded di nd]> ic).
Proof.
  intros Ht Hsb Hlen Hip Hdev Hb di. rewrite Hdev.
  destruct (tx_bread s0 pid dsk s view [] dirty ic (IBLOCK (i_inum nd) sb) Ht) as (j & s1 & R1 & T1); [apply not_elem_of_nil|exact Hb|right; cbn; unfold NBUF; lia|].
  krun R1. krun (tx_data s0 pid dsk s1 view _ dirty ic _ j T1 ltac:(by left)). cbv zeta. fold (dinode_at sb view (i_inum nd)). fold di.
  do 6 kstep. set (s2 := set k_icache _ _). assert (tx s0 pid dsk s2 view [(IBLOCK (i_inum nd) sb, j)] dirty (<[ip := (loaded di nd) <| i_valid := i_valid nd |>]> ic)) as T2.
  { unfold s2. replace (<[ip := _]> ic) with (alter (fun i => i <| i_addrs := d_addrs di |>) ip (alter (fun i => i <| i_size := d_size di |>) ip
      (alter (fun i => i <| i_nlink := d_nlink di |>) ip (alter (fun i => i <| i_minor := d_minor di |>) ip
      (alter (fun i => i <| i_major := d_major di |>) ip (alter (fun i => i <| i_type := d_type di |>) ip ic)))))).
    - do 6 apply tx_icache. exact T1.
    - by rewrite !list_alter_alter_eq, (alter_at _ _ _ nd Hip). }
  destruct (tx_brelse s0 pid dsk s2 view [] dirty _ _ j T2) as (s3 & R3 & T3); [apply (tx_sync s0 pid dsk s view [] dirty ic); [done|apply not_elem_of_nil]|].
  krun R3. kstep. eexists. split; [reflexivity|]. replace (<[ip := loaded di nd]> ic) with (alter (fun i => i <| i_valid := 1 |>) ip (<[ip := (loaded di nd) <| i_valid := i_valid nd |>]> ic)).
  - by apply tx_icache.
  - rewrite (alter_at _ _ _ ((loaded di nd) <| i_valid := i_valid nd |>)) by (apply list_lookup_insert_eq; by eapply lookup_lt_Some).
    by rewrite list_insert_insert_eq.
Qed.

Lemma ilock_run s0 pid dsk s view dirty ic fs ip nd i f :
  tx s0 pid dsk s view [] dirty ic -> k_sb s0 = sb -> (length dirty <= 27)%nat -> files_ok view fs -> coherent ic fs ->
  ic !! ip = Some nd -> 0 < i_ref nd -> i_inum nd = Z.of_nat i -> fs !! i = Some f -> fe_type f <> 0 ->
  sl_locked (sl_at (k_sleeplocks s) (SL_inode ip)) = 0 ->
  exists name s' nd', ilock (Some ip) s = Done tt s' /\ tx (set_ilock ip (Sleeplock 1 name pid) s) pid dsk s' view [] dirty (<[ip := nd']> ic)
    /\ inode_of nd' f /\ i_ref nd' = i_ref nd /\ i_inum nd' = i_inum nd
    /\ i_valid nd' <> 0 /\ (nd' = nd \/ i_valid nd = 0 /\ nd' = loaded (dinode_at sb view (i_inum nd)) nd).
Proof.
  intros Ht Hsb Hlen Hf Hco Hip Href Hin Hi Hty Hfree. pose proof (lookup_lt_Some _ _ _ Hip) as Hlt. rewrite (co_len _ _ Hco) in Hlt.
  destruct (co_entry _ _ Hco ip nd Hip Href) as (Hdev & i' & f' & Hin' & Hi' & Hval).
  assert (i' = i) as -> by lia. assert (f' = f) as -> by congruence.
  unfold ilock. krun (tx_get_inode s0 pid dsk s view [] dirty ic ip nd Ht Hip). rewrite (proj2 (Z.ltb_ge _ _)) by lia.
  krun (acquiresleep_run s pid (SL_inode ip) (proj1 (tx_cache _ _ _ _ _ _ _ _ Ht)) Hlt Hfree).
  set (name := sl_name (sl_at (k_sleeplocks s) (SL_inode ip))). exists name.
  change (set k_sleeplocks _ s) with (set_ilock ip (Sleeplock 1 name pid) s). set (s1 := set_ilock _ _ s).
  assert (tx s1 pid dsk s1 view [] dirty ic) as T1 by (by eapply tx_lock).
  assert (k_sb s1 = sb) as Hsb1 by (change (k_sb s1) with (k_sb s); by eapply tx_sb).
  krun (tx_get_inode s1 pid dsk s1 view [] dirty ic ip nd T1 Hip).
  destruct (Z.eqb_spec (i_valid nd) 0) as [Hv|Hv]; cycle 1.
  { exists s1, nd. split_and!; [done|by rewrite list_insert_id|by apply Hval|done|done|done|by left]. }
  unfold when. rewrite (bind_done (gets k_sb) _ s1 sb s1) by (unfold gets; by rewrite Hsb1). cbv beta.
  pose proof (lookup_lt_Some _ _ _ Hi) as Hlti. rewrite (fo_num _ _ _ _ _ Hf) in Hlti. specialize (Hino i Hlti).
  destruct (ilock_load s1 pid dsk s1 view dirty ic ip nd) as (s2 & R2 & T2); [done..|rewrite Hin; lia|].
  exists s2, (loaded (dinode_at sb view (i_inum nd)) nd). destruct (fo_ino _ _ _ _ _ Hf i f Hi) as (Hdt & _).
  rewrite Hin, Hdt, (proj2 (Z.eqb_neq _ _) Hty) in R2. split_and!; [rewrite <- Hin in R2; exact R2|exact T2|rewrite Hin; by eapply loaded_ok|done|done|done|by right].
Qed.

Lemma iunlock_run s0 pid dsk s view dirty ic ip nd name :
  tx s0 pid dsk s view [] dirty ic -> ic !! ip = Some nd -> 0 < i_ref nd -> (ip < NINODE)%nat ->
  k_sleeplocks s !! SL_inode ip = Some (Sleeplock 1 name pid) ->
  iunlock (Some ip) s = Done tt (set_ilock ip (Sleeplock 0 name 0) s).
Proof.
  intros Ht Hip Href Hlt Hsl. pose proof (proj1 (tx_cache _ _ _ _ _ _ _ _ Ht)) as Hc.
  assert (sl_at (k_sleeplocks s) (SL_inode ip) = Sleeplock 1 name pid) as Hat by (unfold sl_at; by rewrite Hsl).
  unfold iunlock. krun (holdingsleep_run s pid (SL_inode ip) Hc Hlt). rewrite Hat. cbn [sl_locked sl_pid].
  rewrite Z.eqb_refl. change (nz 1) with true. cbn [andb negb].
  krun (tx_get_inode s0 pid dsk s view [] dirty ic ip nd Ht Hip). rewrite (proj2 (Z.ltb_ge _ _)) by lia.
  rewrite (releasesleep_run s pid (SL_inode ip) Hc Hlt). f_equal. apply set_ext. by rewrite Hat.
Qed.

(** ** Between operations *)

Definition unlocked (sl : gmap sleepid sleeplock) : Prop := forall ip, (ip < NINODE)%nat -> sl_locked (sl_at sl (SL_inode ip)) = 0.

Record fs_state (s : kernel) (pid : Z) (dsk : Z -> block) (fs : list fent) : Prop := FsState {
  st_cache : cache_ok s pid dsk dsk [] [];
  st_log : log_lists s start [];
  st_idle : lg_outstanding (k_log s) = 0 /\ lg_committing (k_log s) = 0 /\ lg_size (k_log s) = LOGSIZE;
  st_sb : k_sb s = sb;
  st_head : hd_n (dsk start) = 0 /\ length (dsk start) = Z.to_nat BSIZE;
  st_files : files_ok dsk fs;
  st_icache : coherent (k_icache s) fs;
  st_unlocked : unlocked (k_sleeplocks s)
}.

(** The state outside the file system. *)
Definition outer (s : kernel) :=
  (k_hw s, k_cr3 s, k_tr s, k_gdtr s, k_cons s, k_kmem s, k_mem s, k_kpgdir s, k_ptable s, k_initproc s, k_nextpid s,
   k_first s, k_ctable s, k_containers s, k_schedulerLog s, k_memoryLog s, k_ticks s, k_havedisk1 s,
   k_idequeue s, k_devsw s, k_pipes s, k_platform s).

Lemma rest_outer s s' : rest s' = rest s -> outer s' = outer s /\ k_ftable s' = k_ftable s /\ k_writes s' = k_writes s /\ k_sb s' = k_sb s.
Proof. unfold rest, outer. intros [=]. split_and!; congruence. Qed.

(** Only the blocks after the log matter. *)
Lemma files_ok_ext view view' fs : (forall b, lo <= b < sb_size sb -> view' b = view b) -> files_ok view fs -> files_ok view' fs.
Proof.
  intros Hv [[D1 D2 D3 D4 D5 D6] Hn Hd Ht]. assert (view' (sb_bmapstart sb) = view (sb_bmapstart sb)) as Ebm by (apply Hv; lia).
  split; [|done| |done].
  - split; [|rewrite Ebm; done|rewrite Ebm; done|done|done|].
    + intros b Hb. rewrite Hv by done. by apply D1.
    + intros i f Hi. apply (stored_frame view); [|by apply (D6 i)]. intros b Hb. destruct (D3 i f b Hi Hb). apply Hv. lia.
  - intros i f Hi. unfold dinode_at. rewrite Hv; [by apply Hd|].
    pose proof (lookup_lt_Some _ _ _ Hi) as Hlt. rewrite Hn in Hlt. specialize (Hino i Hlt). lia.
Qed.

Lemma begin_run s pid dsk fs :
  fs_state s pid dsk fs -> let s1 := s <| k_log ::= fun l => l <| lg_outstanding ::= Z.add 1 |> |> in
  begin_op s = Done tt s1 /\ tx s1 pid dsk s1 dsk [] [] (k_icache s) /\ lg_outstanding (k_log s1) = 1
  /\ lg_committing (k_log s1) = 0 /\ lg_size (k_log s1) = LOGSIZE /\ lg_start (k_log s1) = start.
Proof.
  intros [Hc Hl (Ho & Hcm & Hsz) _ _ _ _ _] s1. split_and!; [| |cbn; by rewrite Ho|done|done|apply Hl].
  - apply (begin_op_run s pid); [apply Hc|done|]. rewrite (ll_n _ _ _ Hl), Ho. cbn. done.
  - split; [exact Hc| |by exists (lg_lh (k_log s)); cbn; destruct (k_log s)|done|done|done].
    destruct Hl as [L1 L2 L3 L4 L5]. split; try done.
Qed.

(** ** Commit *)

Lemma transaction_head dsk view bl :
  loggable start bl -> (forall b, b ∉ bl -> view b = dsk b) -> hd_n (dsk start) = 0 -> length (dsk start) = Z.to_nat BSIZE ->
  let d := blast dsk (transaction_writes view start bl) start in hd_n d = 0 /\ length d = Z.to_nat BSIZE.
Proof.
  intros Hg Hv Hn Hl. pose proof (loggable_len _ _ Hg) as Hlen. assert (length bl <= Z.to_nat LOGSIZE)%nat as Hlen' by lia. destruct bl as [|b bl']; [done|]. set (bl := b :: bl') in *. cbv zeta.
  change (transaction_writes view start bl) with (commit_writes view start bl (view start)).
  unfold commit_writes. rewrite !blast_app. cbn [blast foldl fst snd]. rewrite fn_lookup_insert.
  rewrite Hv by (intros Hin; apply (lo_home _ _ Hg) in Hin as [Hin _]; apply Hin; unfold in_log; change LOGSIZE with 30; lia).
  split; [apply (put_head_n []); [by apply length_put_head|apply Nat.le_0_l]|apply put_head_nil_length; by apply length_put_head].
Qed.

Lemma cap_loggable s0 pid dsk s view dirty ic C n :
  tx s0 pid dsk s view [] dirty ic -> cap sb lo dirty C n ->
  loggable start dirty /\ Forall (fun b => 0 <= b < 2147483648) dirty.
Proof.
  intros Ht Hcap. pose proof (cap_len s0 pid dsk sb lo s view [] dirty ic C n Ht Hcap) as Hlen. destruct Hcap as (H1 & H2 & H3).
  assert (forall b, b ∈ dirty -> lo <= b < sb_size sb) as Hb by (intros b Hb; by apply H3, H1). change LOGSIZE with 30 in *.
  split; [split|].
  - apply (proj1 (bc_dirty _ _ _ _ _ _ _ _ (proj2 (tx_cache _ _ _ _ _ _ _ _ Ht)))).
  - intros b Hin. specialize (Hb b Hin). unfold in_log. change LOGSIZE with 30. lia.
  - unfold NBUF. lia.
  - change LOGSIZE with 30. lia.
  - apply Forall_forall. intros b Hin. specialize (Hb b Hin). unfold BPB, BSIZE in *. lia.
Qed.

(** The blocks before the log are not written. *)
Definition after_start (W : list (Z * block)) : Prop := forall b, b ∈ W.*1 -> start <= b.

Lemma transaction_after view dirty : (forall b, b ∈ dirty -> start <= b) -> after_start (transaction_writes view start dirty).
Proof.
  intros Hd b Hb. destruct dirty as [|x l]; [by apply elem_of_nil in Hb|]. set (bl := x :: l) in *.
  change (transaction_writes view start bl) with (commit_writes view start bl (view start)) in Hb. unfold commit_writes in Hb.
  rewrite !fmap_app, home_keys, !elem_of_app in Hb. destruct Hb as [Hb|[Hb|[Hb|Hb]]].
  - apply log_writes_keys in Hb. lia.
  - apply list_elem_of_singleton in Hb. cbn in Hb. lia.
  - by apply Hd.
  - apply list_elem_of_singleton in Hb. cbn in Hb. lia.
Qed.

Lemma after_start_app W W' : after_start W -> after_start W' -> after_start (W ++ W').
Proof. intros H H' b. rewrite fmap_app, elem_of_app. intros [?|?]; auto. Qed.

Lemma blast_before dsk W k b : after_start W -> b < start -> blast dsk (take k W) b = dsk b.
Proof. intros HW Hb. apply blast_ne. intros Hk%take_keys%HW. lia. Qed.

(** The end of an operation: the new files are on the disk, and a crash after any number
    of the writes leaves the old ones or the new ones. *)
Lemma end_run s0 pid dsk s view dirty ic C n fs' :
  tx s0 pid dsk s view [] dirty ic -> cap sb lo dirty C n ->
  lg_outstanding (k_log s0) = 1 -> lg_committing (k_log s0) = 0 -> lg_size (k_log s0) = LOGSIZE -> lg_start (k_log s0) = start ->
  k_sb s0 = sb -> hd_n (dsk start) = 0 -> length (dsk start) = Z.to_nat BSIZE ->
  files_ok view fs' -> coherent ic fs' -> unlocked (k_sleeplocks s) ->
  let W := transaction_writes view start dirty in
  exists s', end_op s = Done tt s' /\ fs_state s' pid (blast dsk W) fs' /\ k_icache s' = ic
    /\ outer s' = outer s0 /\ k_ftable s' = k_ftable s0 /\ k_writes s' = k_writes s0 ++ map dev1 W
    /\ (forall b, lo <= b < sb_size sb -> blast dsk W b = view b) /\ after_start W
    /\ forall k, recovers start (blast dsk (take k W)) (if decide (k <= length dirty)%nat then dsk else view).
Proof.
  intros Ht Hcap Ho Hcm Hsz Hst Hsb Hhn Hhl Hf Hco Hul W. destruct (cap_loggable s0 pid dsk s view dirty ic C n Ht Hcap) as [Hg H32].
  pose proof Ht as [H1 H2 [h H3] H4 H5 H6]. rewrite Hst in H2. pose proof (rest_outer _ _ H6) as (E1 & E2 & E3 & E4).
  destruct (end_op_last s pid dsk view start dirty H1 H2 Hg) as (s' & R & Cok & L & Wr & Fr); [by rewrite H3..|]. fold W in Cok, Wr.
  assert (forall b, b ∉ dirty -> view b = dsk b) as Hv by (intros b Hb; eapply cache_sync; [exact H1|done|apply not_elem_of_nil]).
  destruct (transaction_head dsk view dirty Hg Hv Hhn Hhl) as [Hhn' Hhl']. fold W in Hhn', Hhl'.
  assert (forall b, blast view W b = blast dsk W b) as Heq by (intros b; eapply cache_sync; [exact Cok|apply not_elem_of_nil..]).
  assert (forall b, lo <= b < sb_size sb -> blast dsk W b = view b) as Hnew.
  { intros b Hb. unfold W. rewrite transaction_value by (done || unfold in_log; lia). case_decide; [done|]. symmetry. by apply Hv. }
  pose proof Fr as [Fe Fl]. exists s'. split_and!.
  - exact R.
  - split; [by eapply cache_ok_ext; [..|exact Cok]|exact L| | |done| | |].
    + rewrite (cache_frame_log _ _ Fr). cbn. by rewrite H3.
    + rewrite Fe. exact (eq_trans E4 Hsb).
    + by apply (files_ok_ext view).
    + rewrite Fe. cbn. by rewrite H4.
    + intros ip Hlt. unfold sl_at. rewrite Fl. by apply Hul.
  - rewrite Fe. exact H4.
  - rewrite Fe. exact E1.
  - rewrite Fe. exact E2.
  - rewrite Wr. by rewrite E3.
  - exact Hnew.
  - apply transaction_after. intros b Hb. destruct Hcap as (Hc1 & _ & Hc2). apply Hc1, Hc2 in Hb. change LOGSIZE with 30 in *. lia.
  - intros k. unfold W. destruct dirty as [|b bl]; cycle 1.
    + change (transaction_writes view start (b :: bl)) with (commit_writes view start (b :: bl) (view start)).
      rewrite (Hv start); [by apply recovers_commit|]. intros Hin. apply (lo_home _ _ Hg) in Hin as [Hin _]. apply Hin. unfold in_log. change LOGSIZE with 30. lia.
    + cbn [transaction_writes]. rewrite take_nil. apply (recovers_ext _ _ dsk).
      * intros b _. case_decide; [done|]. symmetry. apply Hv, not_elem_of_nil.
      * apply recovers_empty; [|done|done]. change LOGSIZE with 30 in *. lia.
Qed.

(** ** Writing through an open file *)

Lemma get_file_run s fd x : k_ftable s !! fd = Some x -> get_file fd s = Done x s.
Proof. intros H. unfold get_file. kstep. by rewrite H. Qed.

Lemma tx_ftable s0 pid dsk s view held dirty ic g :
  tx s0 pid dsk s view held dirty ic -> let s' := s <| k_ftable ::= g |> in tx s' pid dsk s' view held dirty ic.
Proof. intros [H1 H2 H3 H4 H5 H6]%tx_rebase s'. split; [exact H1|by apply (log_lists_eq s)|exact H3|exact H4|done|done]. Qed.

(** The blocks a write may log: the bitmap, the inode, the indirect block and those of the data. *)
Definition log_room (f : fent) (i : nat) : list Z :=
  sb_bmapstart sb :: IBLOCK (Z.of_nat i) sb :: (if fe_ind f =? 0 then [] else [fe_ind f]).

Lemma log_room_ready view fs i f k :
  files_ok view fs -> fs !! i = Some f -> (k <= 20)%nat -> ready sb lo f (log_room f i) k [].
Proof.
  intros Hf Hi Hk. pose proof (lookup_lt_Some _ _ _ Hi) as Hlt. rewrite (fo_num _ _ _ _ _ Hf) in Hlt. specialize (Hino i Hlt).
  unfold log_room. split_and!; [|by left|intros Hn; rewrite (proj2 (Z.eqb_neq _ _) Hn); right; right; by left].
  split_and!; [set_solver|destruct (_ =? _); cbn; lia|].
  intros b [->|[->|Hb]%elem_of_cons]%elem_of_cons; [lia|lia|]. destruct (Z.eqb_spec (fe_ind f) 0) as [E0|E0]; [by apply elem_of_nil in Hb|].
  apply list_elem_of_singleton in Hb as ->. destruct (dk_own _ _ _ _ (fo_disk _ _ _ _ _ Hf) i f (fe_ind f) Hi (owned_ind f E0)). lia.
Qed.

Lemma touched_max o n : (n <= 1536)%nat -> (touched o n <= 4)%nat.
Proof.
  intros Hn. unfold touched. destruct (Nat.eqb_spec n 0); [lia|]. destruct (blocks_of o) as [_ Hr]. pose proof (nblk_bounds (o mod 512 + n)). lia.
Qed.

(** An open file: descriptor entry [fd] is for file [i] at offset [o], through cache entry [ip]. *)
Record open_file (s : kernel) (fs : list fent) (fd ip i o : nat) (x : file) (nd : inode) (f : fent) : Prop := OpenFile {
  of_entry : k_ftable s !! fd = Some x;
  of_inode : f_type x = FD_INODE;
  of_ip : f_ip x = Some ip;
  of_off : f_off x = Z.of_nat o;
  of_cached : k_icache s !! ip = Some nd;
  of_ref : 0 < i_ref nd;
  of_inum : i_inum nd = Z.of_nat i;
  of_file : fs !! i = Some f;
  of_type : fe_type f <> 0 /\ fe_type f <> T_DEV
}.

Lemma unlocked_again sl sl' ip lk name :
  unlocked sl -> inode_locks (<[SL_inode ip := lk]> sl) sl' -> unlocked (<[SL_inode ip := Sleeplock 0 name 0]> sl').
Proof.
  intros Hu Hl jp Hlt. destruct (decide (ip = jp)) as [->|Hne]; [by rewrite sl_at_insert|]. rewrite sl_at_insert_ne by congruence.
  unfold sl_at. rewrite Hl, lookup_insert_ne by congruence. by apply Hu.
Qed.

(** The end of an operation on a file: the offset is set and the inode unlocked. *)
Lemma file_unlock s pid dsk s3 view dirty ic ip nd name g :
  tx (set_ilock ip (Sleeplock 1 name pid) s) pid dsk s3 view [] dirty ic -> ic !! ip = Some nd -> 0 < i_ref nd -> (ip < NINODE)%nat ->
  unlocked (k_sleeplocks s) -> let s4 := s3 <| k_ftable ::= g |> in let s5 := set_ilock ip (Sleeplock 0 name 0) s4 in
  iunlock (Some ip) s4 = Done tt s5 /\ tx s5 pid dsk s5 view [] dirty ic /\ unlocked (k_sleeplocks s5).
Proof.
  intros T3 Hip Href Hlt Hul s4 s5. pose proof (tx_ftable _ _ _ _ _ _ _ _ g T3) as T4. fold s4 in T4.
  assert (k_sleeplocks s4 !! SL_inode ip = Some (Sleeplock 1 name pid)) as Hsl4.
  { change (k_sleeplocks s4) with (k_sleeplocks s3). rewrite (tx_sl _ _ _ _ _ _ _ _ T3). apply lookup_insert_eq. }
  split_and!; [by eapply (iunlock_run s4)|exact (tx_lock _ _ _ _ _ _ _ _ ip (Sleeplock 0 name 0) T4)|].
  eapply unlocked_again; [exact Hul|exact (tx_sl _ _ _ _ _ _ _ _ T3)].
Qed.

(** Recovery from disk [d] leaves the files [fs]. *)
Definition recovered (d : Z -> block) (fs : list fent) : Prop := exists v, recovers start d v /\ files_ok v fs.

(** File [i] of [fs], which is [f], has got the bytes [q] at [o]. *)
Definition spliced (fs : list fent) (i : nat) (f : fent) (o : nat) (q : list Z) (fs' : list fent) (f' : fent) : Prop :=
  fs' = <[i := f']> fs /\ fe_type f' = fe_type f /\ fe_data f' = splice o q (fe_data f).

(** One transaction of [filewrite]. *)
Definition write_op {A} (fd : nat) (src : list Z) (n : Z) (next : Z -> K A) : K A :=
  begin_op ;;
  x ← get_file fd ;
  ilock (f_ip x) ;;
  ip ← deref "f->ip" (f_ip x) ;
  x ← get_file fd ;
  r ← writei ip src (f_off x) n ;
  when (0 <? r) (upd_file fd (fun x => x <| f_off ::= fun o => u32 (o + r) |>)) ;;
  iunlock (f_ip x) ;;
  end_op ;;
  next r.

Lemma write_op_run s pid dsk fs fd ip i o x nd f src n :
  fs_state s pid dsk fs -> open_file s fs fd ip i o x nd f ->
  (0 < n <= 1536)%nat -> (n <= length src)%nat -> (o <= length (fe_data f))%nat -> (o + n <= 512 * 140)%nat ->
  blocks_for f o n <= Z.of_nat (nfree sb dsk) ->
  exists s' W fs' f' nd', (forall A (next : Z -> K A), write_op fd src (Z.of_nat n) next s = next (Z.of_nat n) s')
    /\ spliced fs i f o (take n src) fs' f' /\ fs_state s' pid (blast dsk W) fs'
    /\ open_file s' fs' fd ip i (o + n) (x <| f_off := Z.of_nat (o + n) |>) nd' f'
    /\ Z.of_nat (nfree sb (blast dsk W)) = Z.of_nat (nfree sb dsk) - blocks_for f o n
    /\ outer s' = outer s /\ k_ftable s' = <[fd := x <| f_off := Z.of_nat (o + n) |>]> (k_ftable s)
    /\ k_writes s' = k_writes s ++ map dev1 W /\ after_start W
    /\ exists c, forall k, recovered (blast dsk (take k W)) (if decide (k <= c)%nat then fs else fs').
Proof.
  intros Hst [Hx Hxi Hxp Hxo Hip Href Hin Hi [Hty0 Hty]] Hn Hsrc Ho Hmax Hfree. pose proof Hst as [Hc Hl Hidle Hsb [Hhn Hhl] Hf Hco Hul].
  destruct (begin_run s pid dsk fs Hst) as (R1 & T1 & Ho1 & Hcm1 & Hsz1 & Hst1). set (s1 := set k_log _ s) in *.
  destruct (ilock_run s1 pid dsk s1 dsk [] (k_icache s) fs ip nd i f) as (name & s2 & nd2 & R2 & T2 & Hnd2 & Er2 & Ein2 & _); [done|done|cbn; lia|done|done|done|done|done|done|done|apply Hul; rewrite <- (co_len _ _ Hco); by eapply lookup_lt_Some|].
  set (sl := set_ilock ip (Sleeplock 1 name pid) s1) in *. pose proof (lookup_lt_Some _ _ _ Hip) as Hlip.
  assert (<[ip := nd2]> (k_icache s) !! ip = Some nd2) as Hip2 by (by apply list_lookup_insert_eq).
  pose proof (touched_max o n ltac:(lia)) as Htm. 
  destruct (writei_run sl pid dsk ltac:(change (k_log sl) with (k_log s1); lia) Hsz1 sb Hsb Hfit Hdisk lo ltac:(change LOGSIZE with 30; lia) Hbm nfiles Hino
    dsk fs i f s2 [] (<[ip := nd2]> (k_icache s)) (log_room f i) 0 ip nd2 o n src) as
    (s3 & v3 & d3 & f3 & nd3 & C3 & R3 & T3 & Hf3 & Hnd3 & End3 & Ety3 & Ed3 & Enf & Hr3 & _);
    [done|done|done|eapply log_room_ready; [done|done|lia]|right; by left|done|done|by rewrite Ein2|done|done|done|done|done|].
  rewrite list_insert_insert_eq in T3. set (ic3 := <[ip := nd3]> _) in *.
  assert (ic3 !! ip = Some nd3) as Hip3 by (by apply list_lookup_insert_eq).
  assert (i_ref nd3 = i_ref nd /\ i_inum nd3 = i_inum nd) as [Er3 Ein3] by (rewrite End3; split; [exact Er2|exact Ein2]).
  destruct (rest_outer _ _ (tx_rest _ _ _ _ _ _ _ _ T2)) as (_ & Eft2 & _ & _).
  destruct (rest_outer _ _ (tx_rest _ _ _ _ _ _ _ _ T3)) as (Eo3 & Eft3 & Ew3 & Esb3). pose proof (tx_log _ _ _ _ _ _ _ _ T3) as [h3 Elog3].
  set (x' := x <| f_off := Z.of_nat (o + n) |>). set (g := alter (fun x : file => x <| f_off ::= fun o => u32 (o + Z.of_nat n) |>) fd : list file -> list file).
  assert (g (k_ftable s3) = <[fd := x']> (k_ftable s)) as Eg.
  { unfold g. rewrite Eft3. change (k_ftable sl) with (k_ftable s). rewrite (alter_at _ _ _ x Hx). f_equal. apply set_ext. cbv beta.
    rewrite Hxo, u32_small; lia. }
  set (s4 := s3 <| k_ftable ::= g |>).
  destruct (file_unlock s1 pid dsk s3 v3 d3 ic3 ip nd3 name g T3 Hip3 ltac:(lia) ltac:(by rewrite <- (co_len _ _ Hco)) Hul) as (R5 & T5 & Hul5).
  fold s4 in R5, T5, Hul5. set (s5 := set_ilock _ _ s4) in *.
  assert (coherent ic3 (<[i := f3]> fs)) as Hco3 by (by eapply (coherent_update (k_icache s) fs ip nd)).
  assert (k_log s5 = (k_log s1) <| lg_lh := h3 |>) as Elog5 by exact Elog3.
  destruct (end_run s5 pid dsk s5 v3 d3 ic3 C3 _ (<[i := f3]> fs) T5 (proj1 Hr3)) as (s6 & R6 & Hst6 & Eic6 & Eo6 & Eft6 & Ew6 & Hnew & Haft & Hrec);
    [by rewrite Elog5|by rewrite Elog5|by rewrite Elog5|by rewrite Elog5|exact (eq_trans Esb3 Hsb)|done|done|done|done|done|].
  exists s6, (transaction_writes v3 start d3), (<[i := f3]> fs), f3, nd3. split_and!.
  - intros A next. unfold write_op. krun R1. krun (get_file_run s1 fd x Hx). rewrite Hxp. krun R2. rewrite (bind_done _ _ s2 ip s2) by done. cbv beta.
    krun (get_file_run s2 fd x ltac:(rewrite Eft2; exact Hx)). rewrite Hxo. krun R3. rewrite (proj2 (Z.ltb_lt 0 (Z.of_nat n))) by lia.
    rewrite (bind_done _ _ s3 tt s4) by done. cbv beta. rewrite Hxp. krun R5. by krun R6.
  - split_and!; [done|done|done].
  - exact Hst6.
  - split; [rewrite Eft6; change (k_ftable s5) with (g (k_ftable s3)); rewrite Eg; apply list_lookup_insert_eq; by eapply lookup_lt_Some
      |done|done|done|by rewrite Eic6|lia|lia|apply list_lookup_insert_eq; by eapply lookup_lt_Some|by rewrite Ety3].
  - rewrite <- Enf. f_equal. unfold nfree. by rewrite Hnew by lia.
  - rewrite Eo6. exact Eo3.
  - rewrite Eft6. exact Eg.
  - rewrite Ew6. change (k_writes s5) with (k_writes s3). by rewrite Ew3.
  - exact Haft.
  - exists (length d3). intros k. specialize (Hrec k). case_decide; [by exists dsk|by exists v3].
Qed.

(** Writes put together. *)
Lemma spliced_two fs i f o c m src fs1 f1 fs2 f2 :
  spliced fs i f o (take c src) fs1 f1 -> spliced fs1 i f1 (o + c) (take (m - c) (drop c src)) fs2 f2 ->
  (c <= m <= length src)%nat -> (o <= length (fe_data f))%nat -> spliced fs i f o (take m src) fs2 f2.
Proof.
  intros (-> & E1 & E2) (-> & E3 & E4) Hc Ho. split_and!; [by rewrite list_insert_insert_eq|congruence|]. rewrite E4, E2. by apply splice_two.
Qed.

Lemma spliced_none fs i f o : fs !! i = Some f -> (o <= length (fe_data f))%nat -> spliced fs i f o [] fs f.
Proof.
  intros Hi Ho. split_and!; [by rewrite list_insert_id|done|]. unfold splice. cbn [length app]. by rewrite Nat.add_0_r, take_drop.
Qed.

Lemma blocks_for_mono f o c m : (c <= m)%nat -> blocks_for f o c <= blocks_for f o m.
Proof.
  intros Hc. unfold blocks_for. pose proof (nblk_mono (o + c) (o + m) ltac:(lia)).
  pose proof (cost_mono (Nat.max (length (fe_blks f)) (nblk (o + c))) (Nat.max (length (fe_blks f)) (nblk (o + m))) ltac:(lia)). lia.
Qed.

Lemma blocks_for_split view view1 fs fs1 i f f1 o c m q :
  files_ok view fs -> files_ok view1 fs1 -> fs !! i = Some f -> fs1 !! i = Some f1 -> spliced fs i f o q fs1 f1 -> length q = c ->
  (c <= m)%nat -> (o <= length (fe_data f))%nat ->
  blocks_for f o m = blocks_for f o c + blocks_for f1 (o + c) (m - c).
Proof.
  intros Hf Hf1 Hi Hi1 (_ & _ & Ed) Hq Hc Ho. pose proof (fo_tight _ _ _ _ _ Hf i f Hi) as Ht. pose proof (fo_tight _ _ _ _ _ Hf1 i f1 Hi1) as Ht1.
  unfold tight in *. rewrite Ed, length_splice_max, nblk_max, <- Ht, Hq in Ht1 by done. unfold blocks_for. rewrite Ht1.
  replace (o + c + (m - c))%nat with (o + m)%nat by lia. pose proof (nblk_mono (o + c) (o + m) ltac:(lia)).
  replace (Nat.max (Nat.max (length (fe_blks f)) (nblk (o + c))) (nblk (o + m))) with (Nat.max (length (fe_blks f)) (nblk (o + m))) by lia.
  lia.
Qed.

(** What is on the disk when the power fails during the writes [W]: the files with some first
    part of the bytes in place. *)
Definition prefix_safe (dsk : Z -> block) (W : list (Z * block)) (fs : list fent) (i : nat) (f : fent) (o m : nat) (src : list Z) : Prop :=
  forall k, exists j fs' f', (j <= m)%nat /\ spliced fs i f o (take j src) fs' f' /\ recovered (blast dsk (take k W)) fs'.

Definition file_written (s : kernel) (pid : Z) (dsk : Z -> block) (fs : list fent) (fd ip i o : nat) (x : file) (f : fent)
    (m : nat) (src : list Z) (s' : kernel) : Prop :=
  exists W fs' f' nd', spliced fs i f o (take m src) fs' f' /\ fs_state s' pid (blast dsk W) fs'
    /\ open_file s' fs' fd ip i (o + m) (x <| f_off := Z.of_nat (o + m) |>) nd' f'
    /\ outer s' = outer s /\ k_ftable s' = <[fd := x <| f_off := Z.of_nat (o + m) |>]> (k_ftable s)
    /\ k_writes s' = k_writes s ++ map dev1 W /\ after_start W /\ prefix_safe dsk W fs i f o m src.

Lemma filewrite_loop_run pid fd ip i addr N rounds : forall s dsk fs o x nd f d m,
  fs_state s pid dsk fs -> open_file s fs fd ip i o x nd f -> (d + m = N)%nat -> (N <= length addr)%nat ->
  (m <= 1536 * (rounds - 1) /\ 0 < rounds)%nat -> (o <= length (fe_data f))%nat -> (o + m <= 512 * 140)%nat ->
  blocks_for f o m <= Z.of_nat (nfree sb dsk) -> exists s',
  filewrite_loop rounds fd addr (Z.of_nat N) (Z.of_nat d) s = Done (Z.of_nat N) s'
  /\ file_written s pid dsk fs fd ip i o x f m (drop d addr) s'.
Proof.
  induction rounds as [|rounds IH]; intros s dsk fs o x nd f d m Hst Hof Hdm Hadr Hround Ho Hmax Hfree; [lia|]. cbn [filewrite_loop].
  destruct (Z.ltb_spec (Z.of_nat d) (Z.of_nat N)) as [Hlt|Hge]; cycle 1.
  { assert (m = 0)%nat as -> by lia. exists s. split; [by replace d with N by lia|]. unfold file_written. rewrite Nat.add_0_r in *.
    assert (x <| f_off := Z.of_nat o |> = x) as Ex by (destruct Hof as [_ _ _ <- _ _ _ _ _]; by destruct x).
    exists [], fs, f, nd. rewrite Ex, list_insert_id by apply Hof. split_and!; [apply spliced_none; [apply Hof|done]|done|done|done|done|by rewrite app_nil_r|by intros b ?%elem_of_nil|].
    intros k. exists 0%nat, fs, f. split_and!; [done|apply spliced_none; [apply Hof|done]|]. rewrite take_nil. exists dsk.
    split; [|apply Hst]. destruct (st_head _ _ _ _ Hst). apply recovers_empty; [change LOGSIZE with 30 in *; lia|done|done]. }
  set (c := Nat.min m 1536). assert (Z.min (Z.of_nat N - Z.of_nat d) write_max = Z.of_nat c) as -> by (change write_max with 1536; lia).
  set (next := fun r => if r <? 0 then mret (Z.of_nat d) else if negb (r =? Z.of_nat c) then panic "short filewrite" else
    filewrite_loop rounds fd addr (Z.of_nat N) (Z.of_nat d + r)).
  change (exists s', write_op fd (drop (Z.to_nat (Z.of_nat d)) addr) (Z.of_nat c) next s = Done (Z.of_nat N) s'
    /\ file_written s pid dsk fs fd ip i o x f m (drop d addr) s'). rewrite Nat2Z.id.
  assert (blocks_for f o c <= Z.of_nat (nfree sb dsk)) as Hfree1 by (pose proof (blocks_for_mono f o c m ltac:(lia)); lia).
  destruct (write_op_run s pid dsk fs fd ip i o x nd f (drop d addr) c) as
    (s1 & W1 & fs1 & f1 & nd1 & R1 & Hsp1 & Hst1 & Hof1 & Enf1 & Eo1 & Eft1 & Ew1 & Haft1 & (b1 & Hrec1)); [done|done|lia|rewrite length_drop; lia|done|lia|done|].
  assert (length (take c (drop d addr)) = c) as Hq by (rewrite length_take, length_drop; lia).
  pose proof (blocks_for_split dsk (blast dsk W1) fs fs1 i f f1 o c m _ (st_files _ _ _ _ Hst) (st_files _ _ _ _ Hst1) (of_file _ _ _ _ _ _ _ _ _ Hof)
    (of_file _ _ _ _ _ _ _ _ _ Hof1) Hsp1 Hq ltac:(lia) Ho) as Ebf.
  assert (o + c <= length (fe_data f1))%nat as Ho1 by (destruct Hsp1 as (_ & _ & ->); rewrite length_splice_max by done; lia).
  destruct (IH s1 (blast dsk W1) fs1 (o + c)%nat (x <| f_off := Z.of_nat (o + c) |>) nd1 f1 (d + c)%nat (m - c)%nat) as
    (s2 & R2 & W2 & fs2 & f2 & nd2 & Hsp2 & Hst2 & Hof2 & Eo2 & Eft2 & Ew2 & Haft2 & Hrec2); [done|done|lia|done|lia|done|lia|lia|].
  rewrite <- drop_drop in Hsp2, Hrec2. replace (o + c + (m - c))%nat with (o + m)%nat in * by lia.
  assert (c <= m <= length (drop d addr))%nat as Hcm by (rewrite length_drop; lia).
  exists s2. split.
  { rewrite R1. unfold next. rewrite (proj2 (Z.ltb_ge _ _)), Z.eqb_refl by lia. cbn [negb]. by replace (Z.of_nat d + Z.of_nat c) with (Z.of_nat (d + c)) by lia. }
  exists (W1 ++ W2), fs2, f2, nd2. rewrite blast_app. split_and!; [by eapply spliced_two|done|exact Hof2|by rewrite Eo2| | | |].
  - rewrite Eft2, Eft1, list_insert_insert_eq. done.
  - by rewrite Ew2, Ew1, map_app, (assoc_L (++)).
  - by apply after_start_app.
  - intros k. destruct (decide (k <= length W1)%nat) as [Hk|Hk].
    + rewrite take_app_le by done. specialize (Hrec1 k). case_decide.
      * exists 0%nat, fs, f. split_and!; [lia|apply spliced_none; [apply Hof|done]|done].
      * exists c, fs1, f1. split_and!; [lia|done|done].
    + rewrite take_app_ge, blast_app by lia. destruct (Hrec2 (k - length W1)%nat) as (j & fs' & f' & Hj & Hsp & Hr).
      exists (c + j)%nat, fs', f'. split_and!; [lia| |done]. eapply (spliced_two _ _ _ _ c); [done| |lia|done]. by replace (c + j - c)%nat with j by lia.
Qed.

Lemma filewrite_run s pid dsk fs fd ip i o x nd f addr n :
  fs_state s pid dsk fs -> open_file s fs fd ip i o x nd f -> f_writable x <> 0 -> (n <= length addr)%nat ->
  (o <= length (fe_data f))%nat -> (o + n <= 512 * 140)%nat -> blocks_for f o n <= Z.of_nat (nfree sb dsk) -> exists s',
  filewrite fd addr (Z.of_nat n) s = Done (Z.of_nat n) s' /\ file_written s pid dsk fs fd ip i o x f n addr s'.
Proof.
  intros Hst Hof Hw Hn Ho Hmax Hfree. unfold filewrite. krun (get_file_run s fd x (of_entry _ _ _ _ _ _ _ _ _ Hof)).
  rewrite (proj2 (Z.eqb_neq _ _) Hw), (of_inode _ _ _ _ _ _ _ _ _ Hof).
  destruct (filewrite_loop_run pid fd ip i addr n (Z.to_nat (Z.of_nat n / write_max) + 2) s dsk fs o x nd f 0 n) as (s' & R & Hfw); [done|done|lia|done| |done|done|done|].
  { change write_max with (Z.of_nat 1536). rewrite <- Nat2Z.inj_div, Nat2Z.id. pose proof (Nat.div_mod_eq n 1536). pose proof (Nat.mod_upper_bound n 1536). lia. }
  exists s'. split; [|exact Hfw]. krun R. by rewrite Z.eqb_refl.
Qed.

(** ** Reading through an open file *)

Lemma read_at_count o n data : (read_at o n data).1 = if (length data <? o)%nat then -1 else Z.of_nat (length (read_at o n data).2).
Proof. unfold read_at. destruct (_ <? _)%nat; [done|]. cbn. unfold sub. rewrite length_take, length_drop. lia. Qed.

Lemma read_at_bound view f o n : stored view f -> 0 < (read_at o n (fe_data f)).1 -> Z.of_nat o + (read_at o n (fe_data f)).1 <= 71680.
Proof. intros H%stored_length. unfold read_at. destruct (_ <? _)%nat; cbn [fst]; lia. Qed.

(** The offset after a read. *)
Definition read_off (o n : nat) (data : list Z) : nat := (o + Z.to_nat (Z.max 0 (read_at o n data).1))%nat.

Definition file_read (s : kernel) (pid : Z) (dsk : Z -> block) (fs : list fent) (fd ip i : nat) (x : file) (nd : inode) (f : fent) (o' : nat)
    (s' : kernel) : Prop :=
  exists nd', fs_state s' pid dsk fs /\ open_file s' fs fd ip i o' (x <| f_off := Z.of_nat o' |>) nd' f
    /\ outer s' = outer s /\ k_ftable s' = <[fd := x <| f_off := Z.of_nat o' |>]> (k_ftable s) /\ k_writes s' = k_writes s
    /\ k_icache s' = <[ip := nd']> (k_icache s) /\ (nd' = nd \/ i_valid nd = 0 /\ nd' = loaded (dinode_at sb dsk (i_inum nd)) nd).

Lemma fs_state_tx s pid dsk fs : fs_state s pid dsk fs -> tx s pid dsk s dsk [] [] (k_icache s).
Proof.
  intros [H1 H2 _ _ _ _ _ _]. split; [done|by rewrite (ll_start _ _ _ H2)|by exists (lg_lh (k_log s)); destruct (k_log s)|done|done|done].
Qed.

(** An operation that logs nothing. *)
Lemma fs_state_again s pid dsk fs s0 s' ic' :
  fs_state s pid dsk fs -> tx s0 pid dsk s' dsk [] [] ic' -> k_log s0 = (k_log s) <| lg_lh := lg_lh (k_log s0) |> -> k_sb s0 = k_sb s ->
  coherent ic' fs -> unlocked (k_sleeplocks s') -> fs_state s' pid dsk fs.
Proof.
  intros [H1 H2 H3 H4 H5 H6 H7 H8] [T1 T2 [h T3] T4 T5 T6] El Es Hco Hul. rewrite El in T2. cbn in T2. rewrite (ll_start _ _ _ H2) in T2.
  destruct (rest_outer _ _ T6) as (_ & _ & _ & Esb). split; [done|done| |by rewrite Esb, Es|done|done|by rewrite T4|done]. rewrite T3, El. exact H3.
Qed.

Lemma fileread_run s pid dsk fs fd ip i o x nd f n :
  fs_state s pid dsk fs -> open_file s fs fd ip i o x nd f -> f_readable x <> 0 ->
  Z.of_nat o + Z.of_nat n < W32 -> exists s',
  fileread fd (Z.of_nat n) s = Done (read_at o n (fe_data f)) s'
  /\ file_read s pid dsk fs fd ip i x nd f (read_off o n (fe_data f)) s'.
Proof.
  intros Hst [Hx Hxi Hxp Hxo Hip Href Hin Hi [Hty0 Hty]] Hr Hn. pose proof Hst as [_ Hl _ Hsb _ Hf Hco Hul]. pose proof (fs_state_tx _ _ _ _ Hst) as T1.
  destruct (ilock_run s pid dsk s dsk [] (k_icache s) fs ip nd i f) as (name & s2 & nd2 & R2 & T2 & Hnd2 & Er2 & Ein2 & _ & Hnew2); [done|done|cbn; lia|done|done|done|done|done|done|done|apply Hul; rewrite <- (co_len _ _ Hco); by eapply lookup_lt_Some|].
  set (sl := set_ilock ip (Sleeplock 1 name pid) s) in *. pose proof (lookup_lt_Some _ _ _ Hip) as Hlip.
  assert (<[ip := nd2]> (k_icache s) !! ip = Some nd2) as Hip2 by (by apply list_lookup_insert_eq). set (ic2 := <[ip := nd2]> _) in *.
  destruct (readi_run sl pid dsk sb Hsb Hfit Hdisk lo ltac:(change LOGSIZE with 30; lia) Hbm dsk fs i f s2 [] ic2 [] 0 ip nd2 o n) as (s3 & R3 & T3);
    [apply Hf|done|split_and!; [done|cbn; lia|set_solver]|done|done|done|done|done|].
  destruct (rest_outer _ _ (tx_rest _ _ _ _ _ _ _ _ T2)) as (_ & Eft2 & _ & _).
  destruct (rest_outer _ _ (tx_rest _ _ _ _ _ _ _ _ T3)) as (Eo3 & Eft3 & Ew3 & Esb3). pose proof (tx_log _ _ _ _ _ _ _ _ T3) as [h3 Elog3].
  pose proof (read_at_bound dsk f o n (dk_files _ _ _ _ (fo_disk _ _ _ _ _ Hf) i f Hi)) as Hrb. set (r := (read_at o n (fe_data f)).1) in *.
  set (o' := read_off o n (fe_data f)). set (x' := x <| f_off := Z.of_nat o' |>).
  set (g := if 0 <? r then alter (fun x : file => x <| f_off ::= fun o => u32 (o + r) |>) fd else (fun t => t) : list file -> list file).
  assert (g (k_ftable s3) = <[fd := x']> (k_ftable s)) as Eg.
  { rewrite Eft3. change (k_ftable sl) with (k_ftable s). unfold g, x', o', read_off. fold r. destruct (Z.ltb_spec 0 r) as [H0|H0].
    - rewrite (alter_at _ _ _ x Hx). f_equal. apply set_ext. cbv beta. rewrite Hxo, u32_small; lia.
    - rewrite Z.max_l, Nat.add_0_r, <- Hxo by lia. rewrite list_insert_id; [done|]. rewrite Hx. by destruct x. }
  set (s4 := s3 <| k_ftable ::= g |>).
  assert (when (0 <? r) (upd_file fd (fun x => x <| f_off ::= fun o => u32 (o + r) |>)) s3 = Done tt s4) as R4.
  { unfold s4, g. destruct (0 <? r); [done|]. unfold when, mret, M_ret. f_equal. by destruct s3. }
  destruct (file_unlock s pid dsk s3 dsk [] ic2 ip nd2 name g T3 Hip2 ltac:(lia) ltac:(by rewrite <- (co_len _ _ Hco)) Hul) as (R5 & T5 & Hul5).
  fold s4 in R5, T5, Hul5. set (s5 := set_ilock _ _ s4) in *.
  assert (coherent ic2 fs) as Hco2.
  { rewrite <- (list_insert_id fs i f Hi). by eapply (coherent_update (k_icache s) fs ip nd). }
  exists s5. split.
  - unfold fileread. krun (get_file_run s fd x Hx). rewrite (proj2 (Z.eqb_neq _ _) Hr), Hxi, Hxp. krun R2. rewrite (bind_done _ _ s2 ip s2) by done. cbv beta.
    krun (get_file_run s2 fd x ltac:(rewrite Eft2; exact Hx)). rewrite Hxo, u32_small by (unfold W32 in Hn; lia). krun R3. rewrite (surjective_pairing (read_at o n (fe_data f))). fold r.
    krun R4. rewrite Hxp. by krun R5.
  - exists nd2. split_and!; [|split|exact Eo3|exact Eg|exact Ew3| |exact Hnew2].
    + eapply (fs_state_again s _ _ _ s5); [done|exact T5| |exact Esb3|done|done].
      change (k_log s5) with (k_log s3). rewrite Elog3. done.
    + change (k_ftable s5) with (g (k_ftable s3)). rewrite Eg. apply list_lookup_insert_eq. by eapply lookup_lt_Some.
    + done.
    + done.
    + done.
    + change (k_icache s5) with (k_icache s3). rewrite (tx_ic _ _ _ _ _ _ _ _ T3). exact Hip2.
    + lia.
    + lia.
    + done.
    + done.
    + change (k_icache s5) with (k_icache s3). exact (tx_ic _ _ _ _ _ _ _ _ T3).
Qed.

End ops.
