(* ===== verification/FsPath.v ===== *)
(** Path names, from [namei] of fs.c down to the disk.

    The inode cache counts references: [refs ic i] are those to file [i].  [quiet] describes a
    state inside an operation in which at most one inode is locked; [iget], [idup], [ilock],
    [iunlock] and [iput] lead from one such state to another.  On them rest [dirlookup] and
    [namei], which find the file that the directories on the disk give for the name. *)
From S2P Require Import Prelude Kernel Spinlock Console CString Kalloc Proc Sleeplock Disk Bytes Bio Log Inode ConsoleIo Fs FileBlocks FsContent Pipe FileTable FsOps.

(** ** References *)

Definition ref_to (nd : inode) (j : Z) : Z := if decide (0 < i_ref nd /\ i_inum nd = j) then i_ref nd else 0.
Definition refs (ic : list inode) (j : Z) : Z := foldr (fun nd z => ref_to nd j + z) 0 ic.
(** The files that have an entry. *)
Definition in_use (ic : list inode) : list Z := map i_inum (filter (fun nd => 0 < i_ref nd) ic).
Definition one (j k : Z) : Z := if decide (j = k) then 1 else 0.

Lemma refs_insert ic ip nd nd' j : ic !! ip = Some nd -> refs (<[ip := nd']> ic) j = refs ic j - ref_to nd j + ref_to nd' j.
Proof.
  revert ip. induction ic as [|x ic IH]; intros [|ip] H; [done|done| |].
  - injection H as ->. cbn. lia.
  - change (ref_to x j + refs (<[ip := nd']> ic) j = ref_to x j + refs ic j - ref_to nd j + ref_to nd' j). rewrite (IH ip H). lia.
Qed.

Lemma counts_nonneg nd j : 0 <= ref_to nd j.
Proof. unfold ref_to. case_decide; lia. Qed.

Lemma refs_pos ic j : 0 <= refs ic j /\ (0 < refs ic j <-> j ∈ in_use ic).
Proof.
  induction ic as [|nd ic [IH1 IH2]]; [split; [done|]; split; [cbn; lia|by intros ?%elem_of_nil]|]. unfold in_use in *. cbn [refs foldr]. fold (refs ic j).
  pose proof (counts_nonneg nd j). split; [lia|]. rewrite filter_cons. unfold ref_to in *. destruct (decide (0 < i_ref nd)) as [Hr|Hr]; cbn [map].
  - rewrite elem_of_cons, <- IH2. destruct (decide (i_inum nd = j)) as [He|He].
    + rewrite decide_True by done. split; [by left|lia].
    + rewrite decide_False by tauto. split; [right; lia|intros [?|?]; [congruence|lia]].
  - rewrite decide_False by tauto. rewrite <- IH2. lia.
Qed.

Lemma in_use_lookup ic j : j ∈ in_use ic <-> exists ip nd, ic !! ip = Some nd /\ 0 < i_ref nd /\ i_inum nd = j.
Proof.
  unfold in_use. rewrite list_elem_of_fmap. split.
  - intros (nd & -> & [Hr [ip Hip]%list_elem_of_lookup]%list_elem_of_filter). by exists ip, nd.
  - intros (ip & nd & Hip & Hr & <-). exists nd. split; [done|]. apply list_elem_of_filter. split; [done|]. by apply list_elem_of_lookup; exists ip.
Qed.

(** The number of entries in use, from the references. *)
Lemma in_use_nodup ic fs : coherent ic fs -> NoDup (in_use ic).
Proof.
  intros [_ _ Hu]. unfold in_use.
  assert (forall ip jp nd nd', ic !! ip = Some nd -> ic !! jp = Some nd' -> 0 < i_ref nd -> 0 < i_ref nd' -> i_inum nd = i_inum nd' -> ip = jp) as H by exact Hu.
  clear Hu. induction ic as [|nd ic IH]; [constructor|]. rewrite filter_cons.
  assert (NoDup (map i_inum (filter (fun nd => 0 < i_ref nd) ic))) as Hn.
  { apply IH. intros ip jp x y Hx Hy H1 H2 H3. by apply (Nat.succ_inj ip jp), (H (S ip) (S jp) x y). }
  case_decide as Hr; [|done]. cbn [map]. constructor; [|done]. intros (ip & y & Hy & Hry & Ey)%(in_use_lookup ic).
  by specialize (H 0%nat (S ip) nd y eq_refl Hy Hr Hry (eq_sym Ey)).
Qed.

Lemma in_use_le ic ic' fs' l :
  coherent ic' fs' -> (forall i, 0 < refs ic' i -> 0 < refs ic i \/ i ∈ l) -> (length (in_use ic') <= length l + length (in_use ic))%nat.
Proof.
  intros Hc' H. rewrite <- length_app. apply submseteq_length, NoDup_submseteq; [by eapply in_use_nodup|].
  intros i Hi%refs_pos%H. rewrite elem_of_app. destruct Hi as [Hi|Hi]; [right; by apply refs_pos|by left].
Qed.

Lemma in_use_one ic ic' fs' j :
  coherent ic' fs' -> (forall i, refs ic' i <= refs ic i + one j i) -> (length (in_use ic') <= S (length (in_use ic)))%nat.
Proof.
  intros Hc' H. apply (in_use_le ic ic' fs' [j]); [done|]. intros i Hi. specialize (H i). unfold one in H.
  destruct (decide (j = i)) as [->|]; [right; by left|left; lia].
Qed.

(** ** Directories *)

Definition dir_entry (data : list Z) (k : nat) : dirent := dirent_of (sub (16 * k) 16 data).
(** The entry [de] is in use and its name is [n], of which [DIRSIZ] bytes count. *)
Definition names (n : list Z) (de : dirent) : bool :=
  negb (de_inum de =? 0) && bool_decide (take (Z.to_nat DIRSIZ) n = take (Z.to_nat DIRSIZ) (cstring (de_name de))).
Definition dir_find (data n : list Z) : option nat := find (fun k => names n (dir_entry data k)) (seq 0 (length data / 16)).

(** A directory has whole entries, and those in use are for files. *)
Record dir_ok (fs : list fent) (f : fent) : Prop := DirOk {
  do_bytes : is_bytes (fe_data f);
  do_whole : (length (fe_data f) mod 16 = 0)%nat;
  do_files : forall k, (k < length (fe_data f) / 16)%nat -> de_inum (dir_entry (fe_data f) k) <> 0 ->
    exists j g, de_inum (dir_entry (fe_data f) k) = Z.of_nat j /\ fs !! j = Some g /\ fe_type g <> 0
}.

(** The file that the names [es] lead to from file [i]. *)
Fixpoint resolve (fs : list fent) (i : nat) (es : list (list Z)) : option nat :=
  match es with
  | [] => Some i
  | e :: es' =>
      f ← fs !! i ;
      if fe_type f =? T_DIR then
        k ← dir_find (fe_data f) e ;
        resolve fs (Z.to_nat (de_inum (dir_entry (fe_data f) k))) es'
      else None
  end.

Definition tree_ok (fs : list fent) : Prop := forall i f, fs !! i = Some f -> fe_type f = T_DIR -> dir_ok fs f.

Lemma dir_find_cut data n : dir_find data (take (Z.to_nat DIRSIZ) n) = dir_find data n.
Proof. unfold dir_find, names. by rewrite take_take, Nat.min_id. Qed.

Lemma skip_slashes_bytes path : is_bytes path -> is_bytes (skip_slashes path).
Proof. intros Hp. induction path as [|c path IH]; [done|]. apply Forall_cons in Hp as [H Hp]. cbn [skip_slashes]. destruct (c =? 47); [by apply IH|by constructor]. Qed.

Lemma skipelem_bytes path name rest name' :
  is_bytes path -> is_bytes name -> skipelem path name = Some (rest, name') -> is_bytes rest /\ is_bytes name'.
Proof.
  intros Hp%skip_slashes_bytes Hn. unfold skipelem. destruct (_ =? 0); [done|]. destruct (take_elem (skip_slashes path)) as [e r] eqn:Ht.
  apply take_elem_spec in Ht as [Ht _]. rewrite Ht in Hp. apply Forall_app in Hp as [He Hr]. intros [= <- <-].
  split; [by apply skip_slashes_bytes|]. unfold splice. rewrite take_0. cbn [app]. destruct (_ <=? _).
  - apply Forall_app. split; [by apply Forall_take|by apply Forall_drop].
  - apply Forall_insert; [|done]. apply Forall_app. split; [done|by apply Forall_drop].
Qed.

(** A search whose body changes the state, but within [P]. *)
Lemma for_find_find {E : Env} {A B R} (body : A -> K (option R)) (h : B -> A) (g : B -> bool) (P : kernel -> Prop) (l : list B) s :
  P s -> (forall b s, b ∈ l -> P s -> g b = false -> exists s', body (h b) s = Done None s' /\ P s') ->
  exists s', P s' /\ match find g l with
    | None => for_find (map h l) body s = Done None s'
    | Some b => forall r s'', body (h b) s' = Done (Some r) s'' -> for_find (map h l) body s = Done (Some r) s''
    end.
Proof.
  revert s. induction l as [|b l IH]; intros s Hs Hb; [by exists s|]. cbn [find map for_find]. destruct (g b) eqn:Eg.
  { exists s. split; [done|]. intros r s'' Hr. by krun Hr. }
  destruct (Hb b s ltac:(by left) Hs Eg) as (s1 & R1 & H1). destruct (IH s1 H1) as (s' & H' & Hm); [intros x s2 Hx; apply Hb; by right|].
  exists s'. split; [done|]. destruct (find g l) as [x|].
  - intros r s'' Hr. krun R1. by apply Hm.
  - by krun R1.
Qed.

Lemma offsets_whole m : offsets (Z.of_nat (16 * m)) = map (fun k => DIRENT_SIZE * Z.of_nat k) (seq 0 m).
Proof.
  unfold offsets, seqZ, DIRENT_SIZE. replace ((Z.of_nat (16 * m) + 16 - 1) / 16) with (Z.of_nat m) by (apply (Z.div_unique _ _ _ 15); lia).
  rewrite Nat2Z.id. rewrite <- !list_fmap_compose. apply list_fmap_ext. intros k x Hx. cbn. lia.
Qed.

(** ** Operations on inodes *)

Section inodes.
Context {E : Env} {D : Disk} `{!DiskLaws D}.
Context (sb : superblock) (start : Z) (nfiles : nat).
Abbreviation lo := (start + LOGSIZE).
Context (Hfit : 0 < sb_size sb <= BPB) (Hdisk : sb_size sb <= disksize) (Hstart : 0 <= start).
Context (Hbm : lo <= sb_bmapstart sb < sb_size sb).
Context (Hino : forall i, (i < nfiles)%nat -> lo <= IBLOCK (Z.of_nat i) sb < sb_bmapstart sb).

Abbreviation files_ok := (FsContent.files_ok sb lo nfiles).

(** The inode locks: only that of [held] is taken, by [pid]. *)
Definition locks (sl : gmap sleepid sleeplock) (pid : Z) (held : option nat) : Prop :=
  (forall ip, (ip < NINODE)%nat -> held <> Some ip -> sl_locked (sl_at sl (SL_inode ip)) = 0)
  /\ forall ip, held = Some ip -> exists name, sl !! SL_inode ip = Some (Sleeplock 1 name pid).

(** The inode cache: counts are not negative, an inode in memory has links, and the entries carry
    the containers [cids]. *)
Record linked (cids : list Z) (ic : list inode) : Prop := Linked {
  li_refs : Forall (fun nd => 0 <= i_ref nd) ic;
  li_cids : i_containerID <$> ic = cids;
  li_nlink : forall ip nd, ic !! ip = Some nd -> 0 < i_ref nd -> i_valid nd <> 0 -> i_nlink nd <> 0
}.

(** A state of an operation that has logged [dirty], with the inode cache [ic]. *)
Record quiet (s : kernel) (pid : Z) (dsk view : Z -> block) (dirty : list Z) (fs : list fent) (cids : list Z) (held : option nat) (ic : list inode) : Prop := Quiet {
  qu_tx : tx s pid dsk s view [] dirty ic;
  qu_sb : k_sb s = sb;
  qu_cap : cap sb lo dirty dirty 0;
  qu_files : files_ok view fs;
  qu_nlink : forall i f, fs !! i = Some f -> fe_type f <> 0 -> d_nlink (dinode_at sb view (Z.of_nat i)) <> 0;
  qu_icache : coherent ic fs;
  qu_linked : linked cids ic;
  qu_locks : locks (k_sleeplocks s) pid held
}.

(** What the operations below leave alone. *)
Definition kept (s s' : kernel) : Prop := rest s' = rest s /\ exists h, k_log s' = (k_log s) <| lg_lh := h |>.

Lemma kept_refl s : kept s s.
Proof. split; [done|]. exists (lg_lh (k_log s)). by destruct (k_log s). Qed.
Lemma kept_trans s1 s2 s3 : kept s1 s2 -> kept s2 s3 -> kept s1 s3.
Proof. intros [H1 [h1 L1]] [H2 [h2 L2]]. split; [congruence|]. exists h2. rewrite L2, L1. done. Qed.
Lemma kept_tx s0 pid dsk s view held dirty ic : tx s0 pid dsk s view held dirty ic -> kept s0 s.
Proof. intros H. split; apply H. Qed.

Section op.
Context (pid : Z) (dsk view : Z -> block) (dirty : list Z) (fs : list fent) (cids : list Z).
Abbreviation Q s held ic := (quiet s pid dsk view dirty fs cids held ic).

Lemma quiet_calm s held ic : Q s held ic -> calm (k_hw s) (k_ptable s) pid.
Proof. intros H. exact (proj1 (tx_cache _ _ _ _ _ _ _ _ (qu_tx _ _ _ _ _ _ _ _ _ H))). Qed.

Lemma quiet_dirty s held ic : Q s held ic -> (length dirty <= 27)%nat.
Proof. intros H. eapply (cap_len s pid dsk sb lo); [apply H|apply H]. Qed.

Lemma quiet_get s held ic ip nd : Q s held ic -> ic !! ip = Some nd -> get_inode ip s = Done nd s.
Proof. intros H. eapply tx_get_inode. apply H. Qed.

Lemma quiet_icache s held ic ic' :
  Q s held ic -> coherent ic' fs -> linked cids ic' -> Q (s <| k_icache := ic' |>) held ic' /\ kept s (s <| k_icache := ic' |>).
Proof.
  intros [H1 H2 H3 H4 H5 H6 H7 H8] Hc Hl. pose proof (tx_icache _ _ _ _ _ _ _ _ (fun _ => ic') H1) as T. split; [|by eapply kept_tx].
  apply tx_rebase in T. by split.
Qed.

Lemma quiet_lock s ic ip name : Q s None ic -> (ip < NINODE)%nat -> Q (set_ilock ip (Sleeplock 1 name pid) s) (Some ip) ic.
Proof.
  intros [H1 H2 H3 H4 H5 H6 H7 [H8 _]] Hlt. pose proof (tx_lock _ _ _ _ _ _ _ _ ip (Sleeplock 1 name pid) H1). split; [done..|]. split.
  - intros jp Hjp Hne. unfold set_ilock. cbn. rewrite sl_at_insert_ne by congruence. by apply H8.
  - intros jp [= ->]. exists name. apply lookup_insert_eq.
Qed.

Lemma quiet_unlock s ic ip name : Q s (Some ip) ic -> Q (set_ilock ip (Sleeplock 0 name 0) s) None ic.
Proof.
  intros [H1 H2 H3 H4 H5 H6 H7 [H8 _]]. pose proof (tx_lock _ _ _ _ _ _ _ _ ip (Sleeplock 0 name 0) H1). split; [done..|]. split; [|done].
  intros jp Hjp _. unfold set_ilock. cbn. destruct (decide (ip = jp)) as [->|Hne]; [by rewrite sl_at_insert|].
  rewrite sl_at_insert_ne by congruence. by apply H8; [|congruence].
Qed.

Lemma kept_lock s ip lk : kept s (set_ilock ip lk s).
Proof. split; [done|]. exists (lg_lh (k_log s)). unfold set_ilock. cbn. by destruct (k_log s). Qed.

(** Only [nd'] is new in the cache: its file is the same, or it was not in use. *)
Lemma linked_insert ic ip nd nd' :
  linked cids ic -> ic !! ip = Some nd -> i_containerID nd' = i_containerID nd -> 0 <= i_ref nd' -> (0 < i_ref nd' -> i_valid nd' <> 0 -> i_nlink nd' <> 0) -> linked cids (<[ip := nd']> ic).
Proof.
  intros [H1 Hc H2] Hip Ec Hr Hn. split; [by apply Forall_insert|rewrite <- Hc, list_fmap_insert, Ec, list_insert_id; [done|by rewrite list_lookup_fmap, Hip]|]. intros jp x Hx Href Hv.
  destruct (decide (ip = jp)) as [->|Hne].
  - destruct (decide (jp < length ic)%nat) as [Hlt|Hge]; [|apply lookup_lt_Some in Hx; rewrite length_insert in Hx; lia].
    rewrite list_lookup_insert_eq in Hx by done. injection Hx as <-. by apply Hn.
  - rewrite list_lookup_insert_ne in Hx by done. by eapply H2.
Qed.

Lemma iunlock_q s ic ip nd :
  Q s (Some ip) ic -> ic !! ip = Some nd -> 0 < i_ref nd -> exists s', iunlock (Some ip) s = Done tt s' /\ Q s' None ic /\ kept s s'.
Proof.
  intros Hq Hip Href. pose proof Hq as [H1 H2 H3 H4 H5 H6 H7 [_ H8]]. pose proof (lookup_lt_Some _ _ _ Hip) as Hlt. rewrite (co_len _ _ H6) in Hlt.
  destruct (H8 ip eq_refl) as [name Hsl]. eexists. split; [by eapply (iunlock_run s)|]. split; [by apply quiet_unlock|apply kept_lock].
Qed.

(** *** Taking references *)

Lemma iget_scan_run s ic l j e :
  k_icache s = ic -> (forall ip, ip ∈ l -> is_Some (ic !! ip)) -> exists r, iget_scan l 1 j e s = Done r s
  /\ match r with
     | inl ip => exists nd, ic !! ip = Some nd /\ 0 < i_ref nd /\ i_inum nd = j
     | inr o => (forall ip nd, ip ∈ l -> ic !! ip = Some nd -> ~ (0 < i_ref nd /\ i_dev nd = 1 /\ i_inum nd = j))
         /\ match o with
            | Some ip => e = Some ip \/ exists nd, ic !! ip = Some nd /\ i_ref nd = 0
            | None => e = None /\ forall ip nd, ip ∈ l -> ic !! ip = Some nd -> i_ref nd <> 0
            end
     end.
Proof.
  intros Hic. revert e. induction l as [|ip l IH]; intros e Hl; cbn [iget_scan].
  { eexists. split; [done|]. split; [by intros ip nd ?%elem_of_nil|]. destruct e; [by left|]. split; [done|]. by intros ip nd ?%elem_of_nil. }
  destruct (Hl ip ltac:(by left)) as [nd Hnd].
  assert (get_inode ip s = Done nd s) as R by (unfold get_inode; kstep; by rewrite Hic, Hnd). krun R.
  destruct ((0 <? i_ref nd) && (i_dev nd =? 1) && (i_inum nd =? j)) eqn:Em.
  { apply andb_true_iff in Em as [[E1 E2]%andb_true_iff E3]. exists (inl ip). split; [done|]. exists nd. split_and!; [done|lia|lia]. }
  destruct (IH (match e with Some x => Some x | None => if i_ref nd =? 0 then Some ip else None end)) as (r & R' & Hr); [intros; apply Hl; by right|].
  exists r. split; [done|]. destruct r as [jp|o]; [done|]. destruct Hr as [H1 H2]. split.
  - intros jp x [->|Hjp]%elem_of_cons Hx; [|by eapply H1]. rewrite Hnd in Hx. injection Hx as <-.
    intros (F1 & F2 & F3). rewrite (proj2 (Z.ltb_lt _ _) F1), F2, F3, !Z.eqb_refl in Em. done.
  - destruct o as [jp|].
    + destruct H2 as [H2|H2]; [|by right]. destruct e as [x|]; [by left|]. destruct (Z.eqb_spec (i_ref nd) 0); [|done].
      injection H2 as <-. right. by exists nd.
    + destruct H2 as [H2 H3]. destruct e; [done|]. split; [done|]. intros jp x [->|Hjp]%elem_of_cons Hx; [|by eapply H3].
      rewrite Hnd in Hx. injection Hx as <-. by destruct (Z.eqb_spec (i_ref nd) 0).
Qed.

(** The cache with one more reference. *)
Lemma coherent_ref ic ip nd r :
  coherent ic fs -> ic !! ip = Some nd -> 0 < i_ref nd -> 0 <= r -> coherent (<[ip := nd <| i_ref := r |>]> ic) fs.
Proof.
  intros [Hl He Hu] Hip Hr Hr'. pose proof (lookup_lt_Some _ _ _ Hip) as Hlt.
  assert (forall jp x, <[ip := nd <| i_ref := r |>]> ic !! jp = Some x -> 0 < i_ref x -> exists y, ic !! jp = Some y /\ 0 < i_ref y
    /\ x = y <| i_ref := i_ref x |>) as Hlk.
  { intros jp x Hx Hrx. destruct (decide (jp = ip)) as [->|Hne].
    - rewrite list_lookup_insert_eq in Hx by done. injection Hx as <-. by exists nd.
    - rewrite list_lookup_insert_ne in Hx by done. exists x. split_and!; [done|done|by destruct x]. }
  split; [by rewrite length_insert| |].
  - intros jp x Hx Hrx. destruct (Hlk jp x Hx Hrx) as (y & Hy & Hry & ->). destruct (He jp y Hy Hry) as (H1 & i & f & H2 & H3 & H4).
    split; [done|]. exists i, f. split_and!; [done|done|]. intros Hv. destruct (H4 Hv) as [? ? ? ? ?]. by split.
  - intros jp kp x x' Hx Hx' Hrx Hrx' Heq. destruct (Hlk jp x Hx Hrx) as (y & Hy & Hry & Ey). destruct (Hlk kp x' Hx' Hrx') as (y' & Hy' & Hry' & Ey').
    apply (Hu jp kp y y'); [done..|]. rewrite Ey, Ey' in Heq. exact Heq.
Qed.

Lemma coherent_new ic ip nd nd' i f :
  coherent ic fs -> ic !! ip = Some nd -> (forall jp x, ic !! jp = Some x -> 0 < i_ref x -> i_inum x <> Z.of_nat i) ->
  fs !! i = Some f -> i_dev nd' = 1 -> i_inum nd' = Z.of_nat i -> i_valid nd' = 0 -> coherent (<[ip := nd']> ic) fs.
Proof.
  intros [Hl He Hu] Hip Hno Hi H1 H2 H3. pose proof (lookup_lt_Some _ _ _ Hip) as Hlt.
  assert (forall jp x, <[ip := nd']> ic !! jp = Some x -> jp = ip /\ x = nd' \/ ic !! jp = Some x) as Hlk.
  { intros jp x Hx. destruct (decide (jp = ip)) as [->|Hne]; [left|right].
    - rewrite list_lookup_insert_eq in Hx by done. by injection Hx as <-.
    - by rewrite list_lookup_insert_ne in Hx. }
  split; [by rewrite length_insert| |].
  - intros jp x [[-> ->]|Hx]%Hlk; [|by apply (He jp)]. intros _. split; [done|]. exists i, f. by rewrite H3.
  - intros jp kp x x' [[-> ->]|Hx]%Hlk [[-> ->]|Hx']%Hlk R1 R2 Heq; [done| | |by apply (Hu jp kp x x')].
    + destruct (Hno kp x' Hx' R2). congruence.
    + destruct (Hno jp x Hx R1). congruence.
Qed.

Lemma hw_icache s h g : (set k_icache g (s <| k_hw := h |>)) <| k_hw := k_hw s |> = s <| k_icache ::= g |>.
Proof. by destruct s. Qed.

Lemma in_use_full ic : Forall (fun nd => 0 < i_ref nd) ic -> length (in_use ic) = length ic.
Proof. unfold in_use. rewrite length_map. induction 1 as [|nd ic H _ IH]; [done|]. rewrite filter_cons_True by done. cbn. by rewrite IH. Qed.

(** The same entry: it may have another count, and if it had not been read yet it may have been. *)
Definition same_entry (nd nd' : inode) : Prop := i_inum nd' = i_inum nd /\ (i_valid nd <> 0 -> nd' = nd <| i_ref := i_ref nd' |>).

(** The entries of [ic] to which [ic'] has references are still there. *)
Definition persists (ic ic' : list inode) : Prop := forall ip nd,
  ic !! ip = Some nd -> 0 < i_ref nd -> 0 < refs ic' (i_inum nd) -> exists nd', ic' !! ip = Some nd' /\ 0 < i_ref nd' /\ same_entry nd nd'.

Lemma same_entry_refl nd : same_entry nd nd.
Proof. split; [done|]. by destruct nd. Qed.
Lemma same_entry_ref nd r : same_entry nd (nd <| i_ref := r |>).
Proof. done. Qed.
Lemma same_entry_trans nd1 nd2 nd3 : same_entry nd1 nd2 -> same_entry nd2 nd3 -> same_entry nd1 nd3.
Proof.
  intros [H1 H1'] [H2 H2']. split; [congruence|]. intros Hv. specialize (H1' Hv). rewrite H2' by (by rewrite H1'). by rewrite H1'.
Qed.

Lemma persists_trans ic1 ic2 ic3 :
  (forall j, 0 < refs ic1 j -> 0 < refs ic3 j -> 0 < refs ic2 j) -> persists ic1 ic2 -> persists ic2 ic3 -> persists ic1 ic3.
Proof.
  intros Hr H1 H2 ip nd Hip Href H3. assert (0 < refs ic1 (i_inum nd)) as H0 by (apply refs_pos, in_use_lookup; by exists ip, nd).
  destruct (H1 ip nd Hip Href (Hr _ H0 H3)) as (nd2 & Hip2 & Href2 & Hs2). rewrite <- (proj1 Hs2) in H3.
  destruct (H2 ip nd2 Hip2 Href2 H3) as (nd3 & Hip3 & Href3 & Hs3). exists nd3. split_and!; [done|done|by eapply same_entry_trans].
Qed.

Lemma persists_insert ic ip nd nd' :
  ic !! ip = Some nd -> (0 < i_ref nd -> 0 < refs (<[ip := nd']> ic) (i_inum nd) -> 0 < i_ref nd' /\ same_entry nd nd') -> persists ic (<[ip := nd']> ic).
Proof.
  intros Hip Hs jp x Hx Hrx Hp. destruct (decide (ip = jp)) as [->|Hne].
  - rewrite Hx in Hip. injection Hip as ->. exists nd'. rewrite list_lookup_insert_eq by (by eapply lookup_lt_Some). split; [done|by apply Hs].
  - exists x. rewrite list_lookup_insert_ne by done. split_and!; [done|done|apply same_entry_refl].
Qed.

(** The cache [ic'] has one more reference to [j] than [ic]. *)
Definition gained (ic ic' : list inode) (j : Z) : Prop := (forall i, refs ic' i = refs ic i + one j i) /\ persists ic ic'.

Definition settled (ic ic' : list inode) : Prop := (forall i, refs ic' i = refs ic i) /\ persists ic ic'.
(** The cache [ic'] has one reference to [j] less than [ic]. *)
Definition lost (ic ic' : list inode) (j : Z) : Prop := (forall i, refs ic' i = refs ic i - one j i) /\ persists ic ic'.

Lemma one_nonneg j k : 0 <= one j k.
Proof. unfold one. case_decide; lia. Qed.

Lemma settled_refl ic : settled ic ic.
Proof. split; [done|]. intros ip nd Hip Hr _. exists nd. split_and!; [done|done|apply same_entry_refl]. Qed.

Lemma settled_trans ic0 ic ic' : settled ic0 ic -> settled ic ic' -> settled ic0 ic'.
Proof.
  intros [A1 A2] [B1 B2]. split; [intros j; by rewrite B1, A1|]. apply (persists_trans _ ic); [|done|done]. intros j Hj _. by rewrite A1.
Qed.

Lemma settled_gained ic0 ic ic' j : settled ic0 ic -> gained ic ic' j -> gained ic0 ic' j.
Proof.
  intros [H1 P1] [H2 P2]. split; [intros i; by rewrite H2, H1|]. eapply persists_trans; [|done|done]. intros i Hi _. by rewrite H1.
Qed.
Lemma gained_settled ic0 ic ic' j : gained ic0 ic j -> settled ic ic' -> gained ic0 ic' j.
Proof.
  intros [H1 P1] [H2 P2]. split; [intros i; by rewrite H2, H1|]. eapply persists_trans; [|done|done].
  intros i Hi _. rewrite H1. pose proof (one_nonneg j i). lia.
Qed.
Lemma gained_lost ic0 ic ic' j : gained ic0 ic j -> lost ic ic' j -> settled ic0 ic'.
Proof.
  intros [H1 P1] [H2 P2]. split; [intros i; rewrite H2, H1; lia|]. eapply persists_trans; [|done|done].
  intros i Hi _. rewrite H1. pose proof (one_nonneg j i). lia.
Qed.
(** The reference moves on from [j] to [k]. *)
Lemma gained_moved ic0 ic1 ic2 ic3 j k : gained ic0 ic1 j -> gained ic1 ic2 k -> lost ic2 ic3 j -> gained ic0 ic3 k.
Proof.
  intros [H1 P1] [H2 P2] [H3 P3]. split; [intros i; rewrite H3, H2, H1; lia|].
  eapply persists_trans; [|done|eapply persists_trans; [|done|done]].
  - intros i Hi _. rewrite H1. pose proof (one_nonneg j i). lia.
  - intros i Hi _. rewrite H2. pose proof (one_nonneg k i). lia.
Qed.

Lemma gained_old ic ip nd : ic !! ip = Some nd -> 0 < i_ref nd -> gained ic (<[ip := nd <| i_ref := 1 + i_ref nd |>]> ic) (i_inum nd).
Proof.
  intros Hip Hr. split.
  - intros i. rewrite (refs_insert _ _ nd) by done. unfold ref_to, one. cbn. repeat case_decide; try tauto; lia.
  - apply (persists_insert _ _ nd); [done|]. intros _ _. split; [cbn; lia|apply same_entry_ref].
Qed.

Lemma gained_new ic ip nd nd' : ic !! ip = Some nd -> i_ref nd = 0 -> i_ref nd' = 1 -> gained ic (<[ip := nd']> ic) (i_inum nd').
Proof.
  intros Hip Hr Hr'. split.
  - intros i. rewrite (refs_insert _ _ nd) by done. unfold ref_to, one. rewrite Hr, Hr'. repeat case_decide; try tauto; lia.
  - apply (persists_insert _ _ nd); [done|]. lia.
Qed.

(** A reference to file [i], through entry [ip]. *)
Definition refers (ic : list inode) (ip i : nat) : Prop := exists nd, ic !! ip = Some nd /\ 0 < i_ref nd /\ i_inum nd = Z.of_nat i.

Lemma iget_q s held ic i f :
  Q s held ic -> fs !! i = Some f -> (length (in_use ic) < NINODE)%nat ->
  exists ip s' ic', iget 1 (Z.of_nat i) s = Done ip s' /\ Q s' held ic' /\ kept s s' /\ refers ic' ip i /\ gained ic ic' (Z.of_nat i).
Proof.
  intros Hq Hi Hfull. pose proof (qu_icache _ _ _ _ _ _ _ _ _ Hq) as Hco. pose proof (qu_linked _ _ _ _ _ _ _ _ _ Hq) as Hli.
  destruct (calm_section s pid L_icache (quiet_calm _ _ _ Hq) I) as (h & Ha & _ & _ & _ & Hrel).
  unfold iget. krun Ha. set (s1 := s <| k_hw := h |>).
  assert (k_icache s1 = ic) as Eic by exact (tx_ic _ _ _ _ _ _ _ _ (qu_tx _ _ _ _ _ _ _ _ _ Hq)).
  destruct (iget_scan_run s1 ic (seq 0 NINODE) (Z.of_nat i) None Eic) as (r & R & Hr).
  { intros ip Hip%elem_of_seq. apply lookup_lt_is_Some_2. rewrite (co_len _ _ Hco). lia. }
  krun R. destruct r as [ip|[ip|]].
  - destruct Hr as (nd & Hip & Href & Hin). set (ic' := <[ip := nd <| i_ref := 1 + i_ref nd |>]> ic).
    destruct (quiet_icache s held ic ic' Hq) as [Hq' Hk]; [by apply coherent_ref; [..|lia]|eapply linked_insert; [done|done|done|cbn; lia|intros _ Hv; exact (li_nlink _ _ Hli ip nd Hip Href Hv)]|].
    exists ip, (s <| k_icache := ic' |>), ic'. split_and!; [|done|done| |rewrite <- Hin; by apply gained_old].
    + kstep. kapply Hrel. unfold s1 at 1. rewrite hw_icache. unfold mret, M_ret. f_equal.
      apply set_ext. cbv beta. change (k_icache s) with (k_icache s1). by rewrite Eic, (alter_at _ _ _ nd Hip).
    + exists (nd <| i_ref := 1 + i_ref nd |>). split; [apply list_lookup_insert_eq; by eapply lookup_lt_Some|]. split; [cbn; lia|done].
  - destruct Hr as [Hno [Hr|(nd & Hip & Href)]]; [done|]. set (nd' := nd <| i_dev := 1 |> <| i_inum := Z.of_nat i |> <| i_ref := 1 |> <| i_valid := 0 |>).
    set (ic' := <[ip := nd']> ic).
    destruct (quiet_icache s held ic ic' Hq) as [Hq' Hk].
    { eapply coherent_new; [done|done| |done|done|done|done]. intros jp x Hx Hrx Hin. destruct (co_entry _ _ Hco jp x Hx Hrx) as [Hd _].
      apply (Hno jp x); [|done|done]. apply elem_of_seq. pose proof (lookup_lt_Some _ _ _ Hx). rewrite (co_len _ _ Hco) in *. lia. }
    { eapply linked_insert; [done|done|done|done|by intros _]. }
    exists ip, (s <| k_icache := ic' |>), ic'. split_and!; [|done|done| |by eapply (gained_new ic ip nd nd')].
    + do 4 kstep. kapply Hrel. rewrite !set_set. unfold s1 at 1. rewrite hw_icache. unfold mret, M_ret. f_equal.
      apply set_ext. cbv beta. change (k_icache s) with (k_icache s1). rewrite Eic, !list_alter_alter_eq, (alter_at _ _ _ nd Hip). done.
    + exists nd'. split; [apply list_lookup_insert_eq; by eapply lookup_lt_Some|done].
  - destruct Hr as (_ & _ & Hno). exfalso. rewrite in_use_full in Hfull; [rewrite (co_len _ _ Hco) in Hfull; lia|].
    apply Forall_lookup. intros ip nd Hip. pose proof (proj1 (Forall_lookup _ _) (li_refs _ _ Hli) ip nd Hip) as H0. cbv beta in H0.
    assert (i_ref nd <> 0); [|lia]. apply (Hno ip); [|done]. apply elem_of_seq. pose proof (lookup_lt_Some _ _ _ Hip). rewrite (co_len _ _ Hco) in *. lia.
Qed.

(** An entry in use gets the count [r]. *)
Lemma quiet_ref s held ic ip nd r :
  Q s held ic -> ic !! ip = Some nd -> 0 < i_ref nd -> 0 <= r -> let ic' := <[ip := nd <| i_ref := r |>]> ic in
  Q (s <| k_icache := ic' |>) held ic' /\ kept s (s <| k_icache := ic' |>).
Proof.
  intros Hq Hip Href Hr ic'. apply (quiet_icache s held ic); [done|by apply coherent_ref; [apply Hq|..]|].
  eapply linked_insert; [apply Hq|done|done|done|]. intros _ Hv. exact (li_nlink _ _ (qu_linked _ _ _ _ _ _ _ _ _ Hq) ip nd Hip Href Hv).
Qed.

(** The entry is read from the disk if it has not been before. *)
Lemma loaded_entry ic ip nd nd' i v :
  linked cids ic -> ic !! ip = Some nd -> 0 < i_ref nd -> i_inum nd = Z.of_nat i -> d_nlink (dinode_at sb v (Z.of_nat i)) <> 0 ->
  (nd' = nd \/ i_valid nd = 0 /\ nd' = loaded (dinode_at sb v (i_inum nd)) nd) -> linked cids (<[ip := nd']> ic) /\ settled ic (<[ip := nd']> ic).
Proof.
  intros Hl Hip Hr Hin Hn Hnew. assert (i_ref nd' = i_ref nd /\ i_inum nd' = i_inum nd) as [Er Ein] by (by destruct Hnew as [->|[_ ->]]). split; [|split].
  - eapply linked_insert; [done|done|by destruct Hnew as [->|[_ ->]]|lia|]. intros _ Hv. destruct Hnew as [->|[_ ->]]; [by eapply (li_nlink _ _ Hl)|]. cbn. by rewrite Hin.
  - intros j. rewrite (refs_insert _ _ nd) by done. unfold ref_to. rewrite Er, Ein. lia.
  - apply (persists_insert _ _ nd); [done|]. intros _ _. split; [lia|]. split; [done|]. intros Hv0. destruct Hnew as [->|[Hv1 _]]; [by destruct nd|done].
Qed.

Lemma ilock_q s ic ip nd i f :
  Q s None ic -> ic !! ip = Some nd -> 0 < i_ref nd -> i_inum nd = Z.of_nat i -> fs !! i = Some f -> fe_type f <> 0 ->
  exists s' nd', ilock (Some ip) s = Done tt s' /\ Q s' (Some ip) (<[ip := nd']> ic) /\ kept s s'
    /\ inode_of nd' f /\ 0 < i_ref nd' /\ i_inum nd' = i_inum nd /\ settled ic (<[ip := nd']> ic).
Proof.
  intros Hq Hip Href Hin Hi Hty. pose proof Hq as [H1 H2 H3 H4 H5 H6 H7 [H8 _]]. pose proof (lookup_lt_Some _ _ _ Hip) as Hlt. rewrite (co_len _ _ H6) in Hlt.
  destruct (ilock_run sb start nfiles Hdisk Hbm Hino s pid dsk s view dirty ic fs ip nd i f) as (name & s' & nd' & R & T & Hnd & Er & Ein & Hv & Hnew);
    [done|done|by eapply quiet_dirty|done|done|done|done|done|done|done|by apply H8|].
  exists s', nd'. pose proof (quiet_lock s ic ip name Hq Hlt) as Hq1. assert (coherent (<[ip := nd']> ic) fs) as Hco.
  { rewrite <- (list_insert_id fs i f Hi). by eapply (coherent_update ic fs ip nd). }
  destruct (loaded_entry ic ip nd nd' i view H7 Hip Href Hin (H5 i f Hi Hty) Hnew) as [Hli Hse].
  split_and!; [done| |eapply kept_trans; [apply kept_lock|by eapply kept_tx]|done|lia|done|done].
  pose proof (kept_tx _ _ _ _ _ _ _ _ T) as [Er' _]. split; [by eapply tx_rebase| |done|done|done|done|done|].
  - destruct (rest_outer _ _ Er') as (_ & _ & _ & ->). exact H2.
  - destruct (qu_locks _ _ _ _ _ _ _ _ _ Hq1) as [L1 L2]. pose proof (tx_sl _ _ _ _ _ _ _ _ T) as Hsl. split.
    + intros jp Hjp Hne. unfold sl_at. rewrite Hsl. by apply L1.
    + intros jp Hjp. rewrite Hsl. by apply L2.
Qed.

(** The change of a count, under the lock of the cache. *)
Lemma icache_section s held ic ip nd (g : Z -> Z) :
  Q s held ic -> ic !! ip = Some nd -> exists s1 s2, acquire L_icache s = Done tt s1
  /\ upd_inode ip (fun i => i <| i_ref ::= g |>) s1 = Done tt s2
  /\ release L_icache s2 = Done tt (s <| k_icache := <[ip := nd <| i_ref := g (i_ref nd) |>]> ic |>).
Proof.
  intros Hq Hip. destruct (calm_section s pid L_icache (quiet_calm _ _ _ Hq) I) as (h & Ha & _ & _ & _ & Hrel).
  set (s1 := s <| k_hw := h |>) in *. assert (k_icache s1 = ic) as Eic by exact (tx_ic _ _ _ _ _ _ _ _ (qu_tx _ _ _ _ _ _ _ _ _ Hq)).
  eexists s1, _. split_and!; [done|done|]. rewrite Hrel by done. unfold s1 at 1. rewrite hw_icache. f_equal. apply set_ext. cbv beta.
  change (k_icache s) with (k_icache s1). by rewrite Eic, (alter_at _ _ _ nd Hip).
Qed.

Lemma idup_q s held ic ip i :
  Q s held ic -> refers ic ip i ->
  exists s' ic', idup ip s = Done ip s' /\ Q s' held ic' /\ kept s s' /\ refers ic' ip i /\ gained ic ic' (Z.of_nat i).
Proof.
  intros Hq (nd & Hip & Href & Hin). destruct (quiet_ref s held ic ip nd (1 + i_ref nd) Hq Hip Href ltac:(lia)) as [Hq' Hk].
  eexists _, _. split_and!; [|exact Hq'|exact Hk| |rewrite <- Hin; by apply gained_old].
  - destruct (icache_section s held ic ip nd (Z.add 1) Hq Hip) as (s1 & s2 & R1 & R2 & R3). unfold idup. krun R1. krun R2. by krun R3.
  - exists (nd <| i_ref := 1 + i_ref nd |>). split; [apply list_lookup_insert_eq; by eapply lookup_lt_Some|]. split; [cbn; lia|done].
Qed.

Lemma lost_ref ic ip nd :
  coherent ic fs -> ic !! ip = Some nd -> 0 < i_ref nd -> lost ic (<[ip := nd <| i_ref := i_ref nd - 1 |>]> ic) (i_inum nd).
Proof.
  intros Hco Hip Href. split.
  - intros i. rewrite (refs_insert _ _ nd) by done. unfold ref_to, one. cbn. repeat case_decide; try tauto; lia.
  - apply (persists_insert _ _ nd); [done|]. intros _ (kp & y & Hy & Hry & Ey)%refs_pos%in_use_lookup. split; [|apply same_entry_ref].
    destruct (decide (ip = kp)) as [<-|Hne].
    + rewrite list_lookup_insert_eq in Hy by (by eapply lookup_lt_Some). by injection Hy as <-.
    + rewrite list_lookup_insert_ne in Hy by done. destruct Hne. by apply (co_uniq _ _ Hco ip kp nd y).
Qed.

Lemma iput_q s ic ip i :
  Q s None ic -> refers ic ip i ->
  exists s' ic', iput ip s = Done tt s' /\ Q s' None ic' /\ kept s s' /\ lost ic ic' (Z.of_nat i).
Proof.
  intros Hq (nd & Hip & Href & Hin). pose proof (qu_icache _ _ _ _ _ _ _ _ _ Hq) as Hco. pose proof (lookup_lt_Some _ _ _ Hip) as Hlt. rewrite (co_len _ _ Hco) in Hlt.
  unfold iput. krun (acquiresleep_run s pid (SL_inode ip) (quiet_calm _ _ _ Hq) Hlt (proj1 (qu_locks _ _ _ _ _ _ _ _ _ Hq) ip Hlt ltac:(done))).
  set (name := sl_name (sl_at (k_sleeplocks s) (SL_inode ip))). change (set k_sleeplocks _ s) with (set_ilock ip (Sleeplock 1 name pid) s).
  pose proof (quiet_lock s ic ip name Hq Hlt) as Hq1. set (s1 := set_ilock _ _ s) in *. krun (quiet_get s1 _ ic ip nd Hq1 Hip).
  replace (nz (i_valid nd) && (i_nlink nd =? 0)) with false; cycle 1.
  { destruct (decide (i_valid nd = 0)) as [->|Hv]; [done|]. pose proof (li_nlink _ _ (qu_linked _ _ _ _ _ _ _ _ _ Hq) ip nd Hip Href Hv).
    by rewrite (proj2 (Z.eqb_neq (i_nlink nd) 0)), andb_false_r. }
  rewrite (bind_done (when false _) _ s1 tt s1) by done. cbv beta.
  krun (releasesleep_run s1 pid (SL_inode ip) (quiet_calm _ _ _ Hq1) Hlt). set (name1 := sl_name (sl_at (k_sleeplocks s1) (SL_inode ip))).
  change (set k_sleeplocks _ s1) with (set_ilock ip (Sleeplock 0 name1 0) s1). pose proof (quiet_unlock s1 ic ip name1 Hq1) as Hq2. set (s2 := set_ilock _ _ s1) in *.
  destruct (quiet_ref s2 None ic ip nd (i_ref nd - 1) Hq2 Hip Href ltac:(lia)) as [Hq3 Hk3].
  eexists _, _. split_and!; [|exact Hq3|eapply kept_trans; [apply kept_lock|eapply kept_trans; [apply kept_lock|exact Hk3]]|rewrite <- Hin; by apply lost_ref].
  destruct (icache_section s2 None ic ip nd (fun r => r - 1) Hq2 Hip) as (s3 & s4 & R3 & R4 & R5). krun R3. krun R4. exact R5.
Qed.

(** *** Looking up names *)

Lemma quiet_tx s held ic s' : Q s held ic -> tx s pid dsk s' view [] dirty ic -> Q s' held ic /\ kept s s'.
Proof.
  intros [H1 H2 H3 H4 H5 H6 H7 [H8 H9]] T. pose proof (kept_tx _ _ _ _ _ _ _ _ T) as Hk. split; [|done]. pose proof (tx_sl _ _ _ _ _ _ _ _ T) as Hsl.
  split; [by eapply tx_rebase| |done|done|done|done|done|].
  - destruct Hk as [Hr _]. destruct (rest_outer _ _ Hr) as (_ & _ & _ & ->). exact H2.
  - split.
    + intros jp Hjp Hne. unfold sl_at. rewrite Hsl. by apply H8.
    + intros jp Hjp. rewrite Hsl. by apply H9.
Qed.

Section lookup.
Context (ip i : nat) (f : fent) (Hi : fs !! i = Some f) (Hdir : fe_type f = T_DIR) (Hok : dir_ok fs f).

Lemma read_dirent_q s ic nd k err :
  Q s (Some ip) ic -> ic !! ip = Some nd -> inode_of nd f -> (k < length (fe_data f) / 16)%nat ->
  exists s', read_dirent ip (DIRENT_SIZE * Z.of_nat k) err s = Done (dir_entry (fe_data f) k) s' /\ Q s' (Some ip) ic /\ kept s s'.
Proof.
  intros Hq Hip Hnd Hk. pose proof Hq as [H1 H2 H3 H4 _ _ _ _]. pose proof (stored_length _ _ (dk_files _ _ _ _ (fo_disk _ _ _ _ _ H4) i f Hi)) as Hmax.
  assert (16 * k + 16 <= length (fe_data f))%nat as Hend by (pose proof (Nat.div_mod_eq (length (fe_data f)) 16); lia).
  destruct (readi_run s pid dsk sb H2 Hfit Hdisk lo ltac:(change LOGSIZE with 30; lia) Hbm view fs i f s dirty ic dirty 0 ip nd (16 * k) 16) as (s' & R & T);
    [apply H4|done|done|done|done|by rewrite Hdir|done|unfold W32; lia|].
  exists s'. split; [|by apply (quiet_tx s)]. unfold read_dirent. change DIRENT_SIZE with (Z.of_nat 16). rewrite <- Nat2Z.inj_mul. krun R. unfold read_at.
  rewrite (proj2 (Nat.ltb_ge _ _)) by lia. replace (Nat.min 16 (length (fe_data f) - 16 * k)) with 16%nat by lia. by rewrite Z.eqb_refl.
Qed.

Lemma namecmp_names name k :
  is_bytes name -> (negb (de_inum (dir_entry (fe_data f) k) =? 0) && (namecmp name (de_name (dir_entry (fe_data f) k)) =? 0))
  = names (cstring name) (dir_entry (fe_data f) k).
Proof.
  intros Hn. unfold names. f_equal. apply eq_true_iff_eq. rewrite bool_decide_eq_true, Z.eqb_eq. apply strncmp_zero; [done|].
  apply Forall_drop, Forall_take, Forall_drop. apply Hok.
Qed.

Lemma dirlookup_q s ic nd name :
  Q s (Some ip) ic -> ic !! ip = Some nd -> inode_of nd f -> is_bytes name -> (length (in_use ic) < NINODE)%nat ->
  match dir_find (fe_data f) (cstring name) with
  | None => exists s', dirlookup ip name s = Done None s' /\ Q s' (Some ip) ic /\ kept s s'
  | Some k => exists j g jp s' ic', de_inum (dir_entry (fe_data f) k) = Z.of_nat j /\ fs !! j = Some g /\ fe_type g <> 0
      /\ dirlookup ip name s = Done (Some (jp, DIRENT_SIZE * Z.of_nat k)) s' /\ Q s' (Some ip) ic' /\ kept s s'
      /\ refers ic' jp j /\ gained ic ic' (Z.of_nat j)
  end.
Proof.
  intros Hq Hip Hnd Hn Hfull. assert (i_size nd = Z.of_nat (16 * (length (fe_data f) / 16))) as Esz.
  { rewrite (io_size _ _ Hnd). f_equal. pose proof (Nat.div_mod_eq (length (fe_data f)) 16). pose proof (do_whole _ _ Hok). lia. }
  unfold dirlookup, dir_find. krun (quiet_get s _ ic ip nd Hq Hip). rewrite (io_type _ _ Hnd), Hdir, Z.eqb_refl, Esz, offsets_whole. cbn [negb].
  match goal with |- context [for_find _ ?b] => set (body := b) end. set (g := fun k => names (cstring name) (dir_entry (fe_data f) k)).
  destruct (for_find_find body (fun k => DIRENT_SIZE * Z.of_nat k) g (fun s' => Q s' (Some ip) ic /\ kept s s') (seq 0 (length (fe_data f) / 16)) s)
    as (s1 & [Hq1 Hk1] & Hm); [split; [done|apply kept_refl]| |].
  - intros k s2 [_ Hk]%elem_of_seq [Hq2 Hk2] Hg. destruct (read_dirent_q s2 ic nd k "dirlookup read" Hq2 Hip Hnd Hk) as (s3 & R3 & Hq3 & Hk3).
    exists s3. split; [|split; [done|by eapply kept_trans]]. unfold body. krun R3. unfold g in Hg. rewrite <- namecmp_names in Hg by done.
    destruct (de_inum (dir_entry (fe_data f) k) =? 0); [done|]. cbn [negb andb] in Hg. by rewrite Hg.
  - destruct (find g _) as [k|] eqn:Ek; [|by exists s1]. apply find_some in Ek as [Hk Hg]. apply in_seq in Hk as [_ Hk].
    destruct (read_dirent_q s1 ic nd k "dirlookup read" Hq1 Hip Hnd Hk) as (s2 & R2 & Hq2 & Hk2).
    unfold g in Hg. rewrite <- namecmp_names in Hg by done. apply andb_true_iff in Hg as [Hg1%negb_true_iff Hg2].
    destruct (do_files _ _ Hok k Hk) as (j & x & Ej & Hj & Hx); [by apply Z.eqb_neq|].
    destruct (iget_q s2 (Some ip) ic j x Hq2 Hj Hfull) as (jp & s3 & ic3 & R3 & Hq3 & Hk3 & Hr3 & Hg3).
    exists j, x, jp, s3, ic3. split_and!; [done|done|done| |done|by do 2 (eapply kept_trans; [done|])|done|done].
    apply Hm. unfold body. krun R2. rewrite Hg1, Hg2. krun (quiet_get s2 _ ic ip nd Hq2 Hip). rewrite (io_dev _ _ Hnd), Ej. by krun R3.
Qed.

End lookup.
Lemma refers_persists ic ic' ip i : refers ic ip i -> persists ic ic' -> 0 < refs ic' (Z.of_nat i) -> refers ic' ip i.
Proof.
  intros (nd & Hip & Hr & Hin) Hp H. rewrite <- Hin in H. destruct (Hp ip nd Hip Hr H) as (nd' & Hip' & Hr' & [Hin' _]).
  exists nd'. split_and!; [done|done|congruence].
Qed.

Lemma iunlockput_q s ic ip i :
  Q s (Some ip) ic -> refers ic ip i ->
  exists s' ic', iunlockput ip s = Done tt s' /\ Q s' None ic' /\ kept s s' /\ lost ic ic' (Z.of_nat i).
Proof.
  intros Hq Href. pose proof Href as (nd & Hip & Hr & Hin). destruct (iunlock_q s ic ip nd Hq Hip Hr) as (s1 & R1 & Hq1 & Hk1).
  destruct (iput_q s1 ic ip i Hq1 Href) as (s2 & ic2 & R2 & Hq2 & Hk2 & Hl2). exists s2, ic2.
  split_and!; [|done|by eapply kept_trans|done]. unfold iunlockput. krun R1. exact R2.
Qed.

Lemma gained_room ic0 ic j : coherent ic fs -> gained ic0 ic j -> (length (in_use ic0) + 2 <= NINODE)%nat -> (length (in_use ic) < NINODE)%nat.
Proof. intros Hc [H _] Hr. pose proof (in_use_one ic0 ic fs j Hc ltac:(intros i; by rewrite H)). lia. Qed.

(** The result of a search for a file: the cache has got a reference to it. *)
Definition found (ic0 ic : list inode) (o : option nat) (r : option nat) : Prop :=
  match o, r with
  | Some j, Some jp => refers ic jp j /\ gained ic0 ic (Z.of_nat j) /\ exists g, fs !! j = Some g /\ fe_type g <> 0
  | None, None => settled ic0 ic
  | _, _ => False
  end.

Lemma namex_loop_q ic0 rounds : tree_ok fs -> (length (in_use ic0) + 2 <= NINODE)%nat -> forall s ic ip i f path name,
  Q s None ic -> refers ic ip i -> gained ic0 ic (Z.of_nat i) -> fs !! i = Some f -> fe_type f <> 0 ->
  is_bytes path -> is_bytes name -> length name = Z.to_nat DIRSIZ -> (length path < rounds)%nat ->
  exists r name' s' ic', namex_loop rounds ip path false name s = Done (r, name') s' /\ Q s' None ic' /\ kept s s'
    /\ found ic0 ic' (resolve fs i (elems path)) r.
Proof.
  intros Htree Hroom. induction rounds as [|rounds IH]; intros s ic ip i f path name Hq Href Hga Hi Hty Hpb Hnb Hnl Hr; [lia|].
  cbn [namex_loop]. pose proof (skipelem_spec path name Hnl) as Hsk. destruct (skipelem path name) as [[rest name']|] eqn:Esk; cycle 1.
  { exists (Some ip), name, s, ic. rewrite Hsk. split_and!; [done|done|apply kept_refl|]. by split_and!; [..|exists f]. }
  destruct Hsk as (e & -> & Hcs & Hnl' & Hlen & _). destruct (skipelem_bytes _ _ _ _ Hpb Hnb Esk) as [Hpb' Hnb'].
  pose proof Href as (nd & Hip & Hr0 & Hin). destruct (ilock_q s ic ip nd i f Hq Hip Hr0 Hin Hi Hty) as (s1 & nd1 & R1 & Hq1 & Hk1 & Hnd1 & Hr1 & Hin1 & Hse1).
  set (ic1 := <[ip := nd1]> ic) in *. assert (ic1 !! ip = Some nd1) as Hip1 by (apply list_lookup_insert_eq; by eapply lookup_lt_Some).
  assert (refers ic1 ip i) as Href1 by (exists nd1; split_and!; [done|done|congruence]). pose proof (gained_settled _ _ _ _ Hga Hse1) as Hga1.
  cbn [resolve]. rewrite Hi. cbn [mbind option_bind]. destruct (Z.eqb_spec (fe_type f) T_DIR) as [Hd|Hd]; cycle 1.
  { destruct (iunlockput_q s1 ic1 ip i Hq1 Href1) as (s2 & ic2 & R2 & Hq2 & Hk2 & Hl2). exists None, name', s2, ic2.
    split_and!; [|done|by eapply kept_trans|by eapply gained_lost]. krun R1. krun (quiet_get s1 _ ic1 ip nd1 Hq1 Hip1).
    rewrite (io_type _ _ Hnd1), (proj2 (Z.eqb_neq _ _) Hd). cbn [negb]. by krun R2. }
  pose proof (dirlookup_q ip i f Hi Hd (Htree i f Hi Hd) s1 ic1 nd1 name' Hq1 Hip1 Hnd1 Hnb' (gained_room _ _ _ (qu_icache _ _ _ _ _ _ _ _ _ Hq1) Hga1 Hroom)) as Hlk.
  rewrite Hcs, dir_find_cut in Hlk. destruct (dir_find (fe_data f) e) as [k|]; cbn [mbind option_bind]; cycle 1.
  { destruct Hlk as (s2 & R2 & Hq2 & Hk2). destruct (iunlockput_q s2 ic1 ip i Hq2 Href1) as (s3 & ic3 & R3 & Hq3 & Hk3 & Hl3). exists None, name', s3, ic3.
    split_and!; [|done|by do 2 (eapply kept_trans; [done|])|by eapply gained_lost]. krun R1. krun (quiet_get s1 _ ic1 ip nd1 Hq1 Hip1).
    rewrite (io_type _ _ Hnd1), Hd, Z.eqb_refl. cbn [negb andb]. krun R2. by krun R3. }
  destruct Hlk as (j & g & jp & s2 & ic2 & Ej & Hj & Htg & R2 & Hq2 & Hk2 & Href2 & Hga2). rewrite Ej, Nat2Z.id.
  assert (refers ic2 ip i) as Href2'.
  { eapply refers_persists; [done|apply Hga2|]. destruct Hga2 as [-> _], Hga1 as [-> _], (refs_pos ic0 (Z.of_nat i)) as [? _]. unfold one. rewrite (decide_True (P := Z.of_nat i = Z.of_nat i)) by done. case_decide; lia. }
  destruct (iunlockput_q s2 ic2 ip i Hq2 Href2') as (s3 & ic3 & R3 & Hq3 & Hk3 & Hl3). pose proof (gained_moved _ _ _ _ _ _ Hga1 Hga2 Hl3) as Hga3.
  assert (refers ic3 jp j) as Href3.
  { eapply refers_persists; [done|apply Hl3|]. destruct Hga3 as [-> _], (refs_pos ic0 (Z.of_nat j)) as [? _]. unfold one. rewrite decide_True by done. lia. }
  destruct (IH s3 ic3 jp j g rest name' Hq3 Href3 Hga3 Hj Htg Hpb' Hnb' Hnl' ltac:(lia)) as (r & nm & s4 & ic4 & R4 & Hq4 & Hk4 & Hf4).
  exists r, nm, s4, ic4. split_and!; [|done|by do 3 (eapply kept_trans; [done|])|done]. krun R1. krun (quiet_get s1 _ ic1 ip nd1 Hq1 Hip1).
  rewrite (io_type _ _ Hnd1), Hd, Z.eqb_refl. cbn [negb andb]. krun R2. by krun R3.
Qed.

(** Where the search for [path] starts: at the root or in the directory of the running process. *)
Definition starts (s : kernel) (ic : list inode) (path : list Z) (i : nat) : Prop :=
  if at_ path 0 =? 47 then i = 1%nat
  else exists c p cwd, curproc s = Done c s /\ k_ptable s !! c = Some p /\ p_cwd p = Some cwd /\ refers ic cwd i.

Lemma namei_q s ic path i f :
  Q s None ic -> tree_ok fs -> (length (in_use ic) + 2 <= NINODE)%nat -> is_bytes path ->
  starts s ic path i -> fs !! i = Some f -> fe_type f <> 0 ->
  exists r s' ic', namei path s = Done r s' /\ Q s' None ic' /\ kept s s' /\ found ic ic' (resolve fs i (elems path)) r.
Proof.
  intros Hq Htree Hroom Hpb Hst Hi Hty.
  assert (exists ip s1 ic1, (if at_ path 0 =? 47 then iget ROOTDEV ROOTINO
      else p ← curproc ; pr ← get_proc p ; cwd ← deref "myproc()->cwd" (p_cwd pr) ; idup cwd) s = Done ip s1
    /\ Q s1 None ic1 /\ kept s s1 /\ refers ic1 ip i /\ gained ic ic1 (Z.of_nat i)) as (ip & s1 & ic1 & R1 & Hq1 & Hk1 & Href1 & Hga1).
  { unfold starts in Hst. destruct (at_ path 0 =? 47).
    - subst i. destruct (iget_q s None ic 1 f Hq Hi ltac:(lia)) as (ip & s1 & ic1 & H). by exists ip, s1, ic1.
    - destruct Hst as (c & p & cwd & Rc & Hc & Hcwd & Href). destruct (idup_q s None ic cwd i Hq Href) as (s1 & ic1 & R1 & H). exists cwd, s1, ic1.
      split; [|done]. krun Rc. krun (get_proc_run s c p Hc). rewrite Hcwd. rewrite (bind_done _ _ s cwd s) by done. exact R1. }
  destruct (namex_loop_q ic (S (length path)) Htree Hroom s1 ic1 ip i f path name_buf Hq1 Href1 Hga1 Hi Hty Hpb) as (r & nm & s2 & ic2 & R2 & Hq2 & Hk2 & Hf2);
    [by apply Forall_replicate|done|lia|].
  exists r, s2, ic2. split_and!; [|done|by eapply kept_trans|done]. unfold namei, namex.
  erewrite bind_done; [|krun R1; exact R2]. done.
Qed.

End op.
End inodes.
