(* ===== verification/FsMount.v ===== *)
(** Mounting: [iinit] and [initlog], which the first process runs before anything else.

    On any disk from which recovery leaves the files [fs], in particular on one where the power
    failed in the middle of a transaction and on one that mkfs has just written, they return
    with the file system between operations and the files [fs] in it. *)
From S2P Require Import Prelude Kernel Spinlock Console CString Kalloc Proc Sleeplock Disk Bytes Bio Log Inode ConsoleIo Fs FileBlocks FsContent Pipe FileTable FsOps.

Section mount.
Context {E : Env} {D : Disk} `{!DiskLaws D}.
Context (sb : superblock) (start : Z) (nfiles : nat) (V : volume sb start nfiles).

(** ** [iinit] *)

(** What the first steps of [iinit] keep. *)
Record init_frame (s s' : kernel) : Prop := InitFrame {
  if_log : k_log s' = k_log s;
  if_icache : k_icache s' = k_icache s;
  if_ftable : k_ftable s' = k_ftable s;
  if_cons : k_cons s' = k_cons s;
  if_writes : k_writes s' = k_writes s
}.

Lemma initlock_cache s pid dsk view held dirty lk name :
  cache_ok s pid dsk view held dirty -> cache_ok (s <| k_hw ::= put_lock lk (Spinlock name 0 None) |>) pid dsk view held dirty.
Proof. intros [Hc Hb]. split; [by apply put_lock_calm|exact Hb]. Qed.

Lemma init_inode_locks s pid dsk :
  cache_ok s pid dsk dsk [] [] -> exists s',
  for_each (seq 0 NINODE) (fun i => initsleeplock (SL_inode i) "inode") s = Done tt s'
  /\ cache_ok s' pid dsk dsk [] [] /\ init_frame s s' /\ unlocked (k_sleeplocks s').
Proof.
  intros Hc. destruct (for_each_inv (fun k s' => cache_ok s' pid dsk dsk [] [] /\ init_frame s s'
    /\ forall ip, (ip < k)%nat -> sl_locked (sl_at (k_sleeplocks s') (SL_inode ip)) = 0) NINODE
    (fun i => initsleeplock (SL_inode i) "inode") s) as (s' & R & C & F & U).
  - split_and!; [done|done|lia].
  - intros k s1 Hk (C & [F1 F2 F3 F4 F5] & U). eexists. split; [apply initsleeplock_run|]. split_and!.
    + by apply (cache_inode_lock (s1 <| k_hw ::= put_lock _ _ |>)), initlock_cache.
    + split; [exact F1|exact F2|exact F3|exact F4|exact F5].
    + intros ip Hip. cbn. destruct (decide (ip = k)) as [->|Hne]; [by rewrite sl_at_insert|]. rewrite sl_at_insert_ne by congruence. apply U. lia.
  - by exists s'.
Qed.

Lemma readsb_run s pid dsk dirty :
  cache_ok s pid dsk dsk [] dirty -> (length dirty < NBUF)%nat -> 1 < disksize -> exists s',
  readsb 1 s = Done (sb_of (dsk 1)) s' /\ cache_ok s' pid dsk dsk [] dirty /\ cache_frame s s' /\ k_writes s' = k_writes s.
Proof.
  intros Hc Hl Hs. destruct (bread_spec s pid dsk dsk [] dirty 1 Hc) as (i & s1 & R1 & C1 & F1 & W1 & _); [apply not_elem_of_nil|done|right; cbn; lia|].
  destruct (get_held _ _ _ _ _ _ 1 i C1) as (b & G & _ & _ & Hd); [by left|].
  destruct (brelse_spec s1 _ _ _ [] [] dirty 1 i C1) as (s2 & R2 & C2 & F2 & W2); [by right|].
  exists s2. split_and!; [|done|by eapply cache_frame_trans|by rewrite W2]. unfold readsb. krun R1. krun G. krun R2. by rewrite Hd.
Qed.

Lemma iinit_run s pid dsk :
  cache_ok s pid dsk dsk [] [] -> cons_ok (k_cons s) -> 1 < disksize -> exists s',
  iinit 1 s = Done tt s' /\ cache_ok s' pid dsk dsk [] [] /\ k_log s' = k_log s /\ k_icache s' = k_icache s /\ k_ftable s' = k_ftable s
  /\ k_writes s' = k_writes s
  /\ k_sb s' = sb_of (dsk 1) /\ unlocked (k_sleeplocks s').
Proof.
  intros Hc Hcons Hs. pose proof (initlock_cache s pid dsk dsk [] [] L_icache "icache" Hc) as C1. set (s1 := set k_hw _ s) in C1.
  destruct (init_inode_locks s1 pid dsk C1) as (s2 & R2 & C2 & [F1 F2 F5 F3 F4] & U2).
  destruct (readsb_run s2 pid dsk [] C2) as (s3 & R3 & C3 & [E3 L3] & W3); [cbn; unfold NBUF; lia|done|].
  set (sb0 := sb_of (dsk 1)) in *. set (s4 := s3 <| k_sb := sb0 |>).
  destruct C3 as [[Hf (i & c & p & pr & Hr & Hp) Hfree Hlen Haw] Hb].
  unfold iinit. rewrite (bind_done (initlock _ _) _ s tt s1) by done. cbv beta. krun R2. krun R3. rewrite (bind_done (modify _) _ s3 tt s4) by done. cbv beta.
  match goal with |- exists s', cprintf ?fmt ?args s4 = _ /\ _ => destruct (cprintf_run fmt args s4 i c Hf Hr (Hfree L_cons I)) as (cs & R5 & _) end;
    [unfold s4; cbn [k_cons set]; change (k_cons s4) with (k_cons s3); rewrite E3; cbn; by rewrite F3|done|].
  rewrite R5. eexists. split; [reflexivity|]. split_and!.
  - split; [|exact Hb]. split; [done|by exists i, c, p, pr|done|done|done].
  - change (k_log s3 = k_log s). rewrite E3. exact F1.
  - change (k_icache s3 = k_icache s). rewrite E3. exact F2.
  - change (k_ftable s3 = k_ftable s). rewrite E3. exact F5.
  - change (k_writes s3 = k_writes s). rewrite W3. exact F4.
  - done.
  - intros ip Hip. change (sl_locked (sl_at (k_sleeplocks s3) (SL_inode ip)) = 0). unfold sl_at. rewrite L3. by apply U2.
Qed.

(** ** [initlog] *)

Lemma initlog_run s pid dsk fs :
  cache_ok s pid dsk dsk [] [] -> 1 < disksize -> sb_of (dsk 1) = sb -> sb_logstart sb = start -> sb_nlog sb = LOGSIZE -> 1 < start ->
  lg_outstanding (k_log s) = 0 -> lg_committing (k_log s) = 0 -> length (lh_block (lg_lh (k_log s))) = Z.to_nat LOGSIZE ->
  k_sb s = sb -> coherent (k_icache s) fs -> unlocked (k_sleeplocks s) -> recovered sb start nfiles dsk fs -> exists s',
  initlog 1 s = Done tt s' /\ fs_state sb start nfiles s' pid (recover_disk dsk start) fs
  /\ k_icache s' = k_icache s /\ k_ftable s' = k_ftable s.
Proof.
  intros Hc Hs Hsb Hst Hnlog H1 Ho Hcm Hlh Hksb Hco Hul (v & (Hlen & Hn & Hg & Hv) & Hf). pose proof V as [Hfit Hdisk _ Hbm Hino].
  pose proof (initlock_cache s pid dsk dsk [] [] L_log "log" Hc) as C1. set (s1 := set k_hw _ s) in C1.
  destruct (readsb_run s1 pid dsk [] C1) as (s2 & R2 & C2 & F2 & _); [cbn; unfold NBUF; lia|done|]. rewrite Hsb in R2.
  set (g := fun l : log => l <| lg_start := start |> <| lg_size := LOGSIZE |> <| lg_dev := 1 |>). set (s3 := s2 <| k_log ::= g |>).
  assert (k_log s3 = g (k_log s)) as El3 by (change (k_log s3) with (g (k_log s2)); by rewrite (cache_frame_log _ _ F2)).
  destruct (recover_run s3 pid dsk start C2) as (s4 & R4 & C4 & L4 & _ & [h F4]); [by rewrite El3|by rewrite El3|by rewrite El3|done|done|].
  exists s4. assert (k_log s4 = (g (k_log s)) <| lg_lh := h |>) as El4 by (rewrite (cache_frame_log _ _ F4), <- El3; done). destruct F2 as [E2 SL2], F4 as [E4 SL4]. split.
  { unfold initlog. change (BSIZE <=? 4 + 4 * LOGSIZE) with false. cbv match. rewrite (bind_done (initlock _ _) _ s tt s1) by done. cbv beta.
    krun R2. rewrite Hst, Hnlog. do 3 kstep. rewrite !set_set. exact R4. }
  assert (k_icache s4 = k_icache s /\ k_ftable s4 = k_ftable s) as [Eic Eft].
  { rewrite E4. change (k_icache s2 = k_icache s /\ k_ftable s2 = k_ftable s). by rewrite E2. }
  split_and!; [split; [done|done| | | | | |]|done|done].
  - rewrite El4. by split_and!.
  - rewrite E4. change (k_sb s2 = sb). rewrite E2. exact Hksb.
  - unfold recover_disk, recover_writes. rewrite blast_app. cbn [blast foldl fst snd]. rewrite fn_lookup_insert.
    split; [apply (put_head_n []); [done|apply Nat.le_0_l]|by apply put_head_nil_length].
  - apply (files_ok_ext sb start nfiles Hbm Hino v); [|done]. intros b Hb. apply Hv. unfold in_log. lia.
  - by rewrite Eic.
  - intros ip Hip. unfold sl_at. rewrite SL4. change (k_sleeplocks _) with (k_sleeplocks s2). rewrite SL2. by apply Hul.
Qed.


(** A kernel that has just started, on disk [d]: the buffer cache is initialised, no inode is
    in use and no operation has begun. *)
Record booted (s : kernel) (pid : Z) (d : Z -> block) : Prop := Booted {
  bt_cache : cache_ok s pid d d [] [];
  bt_cons : cons_ok (k_cons s);
  bt_icache : length (k_icache s) = NINODE /\ Forall (fun nd => i_ref nd = 0) (k_icache s);
  bt_idle : lg_outstanding (k_log s) = 0 /\ lg_committing (k_log s) = 0;
  bt_header : length (lh_block (lg_lh (k_log s))) = Z.to_nat LOGSIZE
}.

(** The superblock of the volume is in block 1. *)
Definition formatted (d : Z -> block) : Prop :=
  sb_of (d 1) = sb /\ sb_logstart sb = start /\ sb_nlog sb = LOGSIZE /\ 1 < start.

Lemma mount_run s pid d fs :
  booted s pid d -> formatted d -> recovered sb start nfiles d fs -> exists s',
  (iinit 1 ;; initlog 1) s = Done tt s' /\ fs_state sb start nfiles s' pid (recover_disk d start) fs
  /\ k_icache s' = k_icache s /\ k_ftable s' = k_ftable s.
Proof.
  intros [Hc Hcons [Hil Hir] [Ho Hcm] Hlh] (Hsb & Hst & Hnl & H1) Hrec. pose proof V as [Hfit Hdisk _ Hbm Hino].
  assert (1 < disksize) as Hds by (change LOGSIZE with 30 in *; lia).
  destruct (iinit_run s pid d Hc Hcons Hds) as (s1 & R1 & C1 & El & Ei & Ef & Ew & Esb & Hul).
  destruct (initlog_run s1 pid d fs C1 Hds) as (s2 & R2 & Hst2 & Ei2 & Ef2); [done|done|done|done|by rewrite El..|by rewrite Esb| |done|done|].
  - rewrite Ei. split; [done| |].
    + intros ip nd Hip Href. rewrite Forall_lookup in Hir. specialize (Hir ip nd Hip). lia.
    + intros ip jp nd nd' Hip _ Href. rewrite Forall_lookup in Hir. specialize (Hir ip nd Hip). lia.
  - exists s2. split_and!; [by krun R1|done|by rewrite Ei2|by rewrite Ef2].
Qed.

End mount.

(** ** Properties *)

Section properties.
Context {E : Env} {D : Disk} `{!DiskLaws D}.

(** C3: writing through an open file is durable and crash-safe.  With room for the bytes in the
    file, in the volume and in the buffer, [filewrite] returns their number; the file then has
    on the disk the old content with the bytes in place at the offset, which has moved behind
    them, every other file is as it was, and the inode cache agrees with the disk.  If the power
    fails after any number [k] of the block writes, [iinit] and [initlog] of the next boot
    return with the file system in order and some first part of the bytes in the file. *)
Theorem filewrite_durable sb nfiles s pid dsk fs fd ip i o x nd f addr n :
  let start := sb_logstart sb in
  volume sb start nfiles -> formatted sb start dsk -> fs_state sb start nfiles s pid dsk fs -> open_file s fs fd ip i o x nd f ->
  f_writable x <> 0 -> (n <= length addr)%nat -> (o <= length (fe_data f))%nat -> Z.of_nat (o + n) <= MAXFILE * BSIZE ->
  blocks_for f o n <= Z.of_nat (nfree sb dsk) ->
  exists s' W fs' f', filewrite fd addr (Z.of_nat n) s = Done (Z.of_nat n) s'
    /\ spliced fs i f o (take n addr) fs' f' /\ fs_state sb start nfiles s' pid (blast dsk W) fs'
    /\ k_writes s' = k_writes s ++ map dev1 W
    /\ k_ftable s' = <[fd := x <| f_off := Z.of_nat (o + n) |>]> (k_ftable s) /\ outer s' = outer s
    /\ forall k s2 pid2, booted s2 pid2 (blast dsk (take k W)) ->
       exists j s3 d3 fs3 f3, (j <= n)%nat /\ (iinit 1 ;; initlog 1) s2 = Done tt s3
         /\ spliced fs i f o (take j addr) fs3 f3 /\ fs_state sb start nfiles s3 pid2 d3 fs3.
Proof.
  intros start V (Hsb & Hst & Hnl & H1) Hs Hof Hw Hn Ho Hmax Hfree. pose proof V as [Hfit Hdisk Hstart Hbm Hino].
  destruct (filewrite_run sb start nfiles Hfit Hdisk Hstart Hbm Hino s pid dsk fs fd ip i o x nd f addr n) as
    (s' & R & W & fs' & f' & nd' & Hsp & Hs' & _ & Eo & Eft & Ew & Haft & Hsafe); [done|done|done|done|done|change (MAXFILE * BSIZE) with 71680 in Hmax; lia|done|].
  exists s', W, fs', f'. split_and!; [done..|]. intros k s2 pid2 Hb. destruct (Hsafe k) as (j & fs3 & f3 & Hj & Hsp3 & Hrec).
  destruct (mount_run sb start nfiles V s2 pid2 _ fs3 Hb) as (s3 & R3 & Hs3 & _); [|done|].
  - split_and!; [|done|done|done]. by rewrite (blast_before start dsk W k 1 Haft) by done.
  - by exists j, s3, (recover_disk (blast dsk (take k W)) start), fs3, f3.
Qed.

(** C8: reading through an open file returns its content.  [fileread] returns the bytes of the
    file from the offset on, as many as there are and were asked for, with their number, or -1
    when the offset is beyond the end; the offset advances by the number of bytes, the disk is
    not written and nothing else changes. *)
Theorem fileread_returns sb nfiles s pid dsk fs fd ip i o x nd f n :
  let start := sb_logstart sb in
  volume sb start nfiles -> fs_state sb start nfiles s pid dsk fs -> open_file s fs fd ip i o x nd f ->
  f_readable x <> 0 -> Z.of_nat o + Z.of_nat n < W32 ->
  exists s', fileread fd (Z.of_nat n) s = Done (read_at o n (fe_data f)) s' /\ fs_state sb start nfiles s' pid dsk fs
    /\ k_ftable s' = <[fd := x <| f_off := Z.of_nat (read_off o n (fe_data f)) |>]> (k_ftable s)
    /\ outer s' = outer s /\ k_writes s' = k_writes s.
Proof.
  intros start [Hfit Hdisk Hstart Hbm Hino] Hs Hof Hr Hn.
  destruct (fileread_run sb start nfiles Hfit Hdisk Hstart Hbm Hino s pid dsk fs fd ip i o x nd f n) as (s' & R & nd' & Hs' & _ & Eo & Eft & Ew & _); [done..|].
  by exists s'.
Qed.

End properties.
