(* ===== verification/MkfsMount.v ===== *)
(** The image mkfs.c writes is a volume the kernel can mount: the link between the image
    builder and the file system of the kernel. *)
From S2P Require Import Prelude Kernel Spinlock Console CString Kalloc Proc Sleeplock Disk Bytes Bio Log Inode ConsoleIo Fs FileBlocks FsContent Mkfs MkfsImage MkfsTree Pipe FileTable FsOps FsMount.

(** An inode that is not in use is an empty file. *)
Definition no_file : fent := Fent 0 [] [] 0.

(** The root directory fills its last block. *)
Definition root_file (root : fent) : fent :=
  let n := length (fe_data root) in
  root <| fe_type := T_DIR |> <| fe_data := fe_data root ++ replicate (512 * (n / 512 + 1) - n) 0 |>.

(** The files of the image, by inode number. *)
Definition image_files (root : fent) (new : list fent) : list fent :=
  no_file :: root_file root :: new ++ replicate (198 - length new) no_file.

Lemma chunk_pad data k m :
  (512 * k <= length data)%nat -> (512 * k + 512 <= length data + m)%nat -> chunk (data ++ replicate m 0) k = pad (chunk data k).
Proof.
  intros Hk Hm. unfold chunk, sub, pad. rewrite drop_app_le by done. rewrite take_app. f_equal. rewrite length_take, length_drop, take_replicate.
  f_equal. lia.
Qed.

Lemma file_ok_stored s f : file_ok s f -> stored (sector s) f.
Proof.
  intros [H1 H2 H3 H4 H5]. split; [done..|]. intros k b Hb. rewrite (H5 k b Hb). unfold pad. apply take_app_length.
Qed.

Section image.
Context (s : mkfs) (root : fent) (new : list fent).
Context (Hc : core s (root :: new)) (Hlen : (length new <= 198)%nat) (Ht : tight root) (Hmod : (length (fe_data root) mod 512 <> 0)%nat).
Context (Hnew : forall i f, new !! i = Some f -> inode_at s (Z.of_nat i + 2) = dinode_of f /\ tight f).
Context (Hroot : inode_at s 1 = Dinode T_DIR 0 0 1 (Z.of_nat (512 * (length (fe_data root) / 512 + 1))) (addrs_of root)).
Context (Hun : forall j, 0 <= j < 200 -> j = 0 \/ Z.of_nat (S (length new)) < j -> inode_at s j = zero_dinode).
Context (Hbits : sector s (sb_bmapstart mk_sb) = foldl set_bit zero_block (seqZ 0 (mk_freeblock s))).

Abbreviation fs := (image_files root new).

(** A file of the list is one of the image, or its inode is not in use. *)
Lemma image_lookup i f : fs !! i = Some f ->
  (i < 200)%nat /\ (f = no_file /\ (i = 0 \/ S (length new) < i)%nat
  \/ exists j g, i = S j /\ (root :: new) !! j = Some g /\ owned f = owned g /\ (j = 0%nat /\ f = root_file root \/ exists k, j = S k /\ f = g)).
Proof.
  unfold image_files. intros Hi. destruct i as [|[|i]]; cbn [lookup list_lookup] in Hi.
  - injection Hi as <-. split; [lia|]. left. split; [done|by left].
  - injection Hi as <-. split; [lia|]. right. exists 0%nat, root. split_and!; [done..|by left].
  - apply lookup_app_Some in Hi as [Hi|[Hge Hi]].
    + pose proof (lookup_lt_Some _ _ _ Hi). split; [lia|]. right. exists (S i), f. split_and!; [done..|right; by exists i].
    + apply lookup_replicate in Hi as [-> Hi]. split; [lia|]. left. split; [done|lia].
Qed.

Lemma root_blocks : (length (fe_data (root_file root)) = 512 * length (fe_blks root) /\ length (fe_blks root) = length (fe_data root) / 512 + 1)%nat.
Proof.
  pose proof Hmod as Hm. destruct (blocks_of (length (fe_data root))) as [En Hr].
  assert (length (fe_blks root) = length (fe_data root) / 512 + 1)%nat as El by (rewrite Ht; apply nblk_spec; lia).
  split; [|done]. cbn [root_file fe_data set]. rewrite length_app, length_replicate. lia.
Qed.

Lemma root_stored : stored (sector s) (root_file root).
Proof.
  pose proof (c_files _ _ Hc 0%nat root eq_refl) as [H1 H2 H3 H4 H5]. destruct root_blocks as [E1 E2].
  split; [exact H1|change (fe_blks (root_file root)) with (fe_blks root); lia|exact H3|exact H4|].
  intros k b Hb. change (fe_blks (root_file root)) with (fe_blks root) in Hb. pose proof (lookup_lt_Some _ _ _ Hb). destruct (blocks_of (length (fe_data root))).
  assert (chunk (fe_data (root_file root)) k = pad (chunk (fe_data root) k)) as -> by (apply chunk_pad; lia).
  rewrite (H5 k b Hb). by apply take_ge.
Qed.

Lemma image_own j g b : (root :: new) !! j = Some g -> b ∈ owned g -> sb_bmapstart mk_sb < b < sb_size mk_sb /\ bit_set (sector s (sb_bmapstart mk_sb)) b = true.
Proof.
  intros Hj Hb. pose proof (c_own _ _ Hc j g b Hj Hb). pose proof (c_free _ _ Hc). assert (58 < nmeta) by done. change (sb_bmapstart mk_sb) with 58 at 1. change (sb_size mk_sb) with FSSIZE. split; [lia|].
  rewrite Hbits. destruct (bitmap_spec (Z.to_nat (mk_freeblock s)) b) as [_ E]; [unfold FSSIZE in *; lia|unfold FSSIZE in *; lia|].
  rewrite Z2Nat.id in E by lia. rewrite E. apply Z.ltb_lt. lia.
Qed.

Lemma image_disk : disk_ok mk_sb 32 (sector s) fs.
Proof.
  pose proof (c_free _ _ Hc). assert (58 < nmeta) by done. assert (owned no_file = []) as E0 by done.
  split.
  - intros b _. apply (c_sec _ _ Hc).
  - intros b Hb. change (sb_bmapstart mk_sb) with 58 in Hb. rewrite Hbits.
    destruct (bitmap_spec (Z.to_nat (mk_freeblock s)) b) as [_ E1]; [unfold FSSIZE in *; lia|lia|]. rewrite Z2Nat.id in E1 by lia. rewrite E1. apply Z.ltb_lt. lia.
  - intros i f b (_ & [[-> _]|(j & g & -> & Hj & Eo & _)])%image_lookup Hb; [by rewrite E0 in Hb; apply elem_of_nil in Hb|].
    rewrite Eo in Hb. by apply (image_own j g).
  - intros i f (_ & [[-> _]|(j & g & -> & Hj & -> & _)])%image_lookup; [constructor|by apply (c_nodup _ _ Hc j)].
  - intros i i' f f' b (_ & [[-> _]|(j & g & -> & Hj & Eo & _)])%image_lookup (_ & [[-> _]|(j' & g' & -> & Hj' & Eo' & _)])%image_lookup Hne Hb Hb';
      [by rewrite E0 in Hb; apply elem_of_nil in Hb..|by rewrite E0 in Hb'; apply elem_of_nil in Hb'|].
    rewrite Eo in Hb. rewrite Eo' in Hb'. apply (c_disj _ _ Hc j j' g g' b Hj Hj'); [congruence|done|done].
  - intros i f (_ & [[-> _]|(j & g & -> & Hj & _ & [[-> ->]|(k & -> & ->)])])%image_lookup.
    + split; cbn; [lia|lia|lia|done|done].
    + apply root_stored.
    + apply file_ok_stored. by apply (c_files _ _ Hc (S k)).
Qed.

Lemma image_volume_files : files_ok mk_sb 32 200 (sector s) fs.
Proof.
  split; [apply image_disk| | |].
  - unfold image_files. cbn [length]. rewrite length_app, length_replicate. lia.
  - intros i f (Hi & [[-> Hu]|(j & g & -> & Hj & _ & [[-> ->]|(k & -> & ->)])])%image_lookup;
      change (dinode_at mk_sb (sector s) ?x) with (inode_at s x).
    + rewrite Hun by lia. done.
    + change (Z.of_nat 1) with 1. rewrite Hroot. cbn [d_type d_size d_addrs]. destruct root_blocks as [E1 E2]. split_and!; [done| |done]. rewrite E1, E2. done.
    + destruct (Hnew k g Hj) as [E1 _]. replace (Z.of_nat (S (S k))) with (Z.of_nat k + 2) by lia. rewrite E1. done.
  - intros i f (Hi & [[-> Hu]|(j & g & -> & Hj & _ & [[-> ->]|(k & -> & ->)])])%image_lookup.
    + done.
    + destruct root_blocks as [E1 E2]. unfold tight. rewrite E1. symmetry. apply nblk_spec. cbn. lia.
    + by apply (Hnew k g Hj).
Qed.

End image.

(** ** Properties *)

Section properties.
Context {E : Env} {D : Disk} `{!DiskLaws D}.

Lemma mk_volume : FSSIZE <= disksize -> volume mk_sb (sb_logstart mk_sb) 200.
Proof.
  intros Hd. split; [done|done|done|done|]. intros i Hi. pose proof (iblock_range (Z.of_nat i) ltac:(lia)).
  change (sb_logstart mk_sb + LOGSIZE) with 32. change (sb_bmapstart mk_sb) with 58. lia.
Qed.

(** The files of a mounted image. *)
Definition mounted (files : list input) (fs : list fent) : Prop :=
  (exists root, fs !! 1%nat = Some root /\ fe_type root = T_DIR
     /\ fe_data root = dots ++ entries 0 files ++ replicate (512 - length (dots ++ entries 0 files) mod 512) 0)
  /\ (forall i fi, files !! i = Some fi -> exists f, fs !! (i + 2)%nat = Some f /\ fe_type f = T_FILE /\ fe_data f = content_of fi)
  /\ forall i f, fs !! i = Some f -> (i = 0 \/ length files + 2 <= i)%nat -> f = no_file.

Lemma mkfs_mounts_run files :
  fits files -> (length (dots ++ entries 0 files) mod 512 <> 0)%nat -> FSSIZE <= disksize ->
  exists img, mkfs_main (Some true) files mk_start = Done tt img
  /\ forall s pid d, (forall b, 0 <= b < FSSIZE -> d b = sector img b) -> booted s pid d ->
     exists s' d' fs, (iinit 1 ;; initlog 1) s = Done tt s'
       /\ fs_state mk_sb (sb_logstart mk_sb) 200 s' pid d' fs /\ mounted files fs
       /\ formatted mk_sb (sb_logstart mk_sb) d' /\ k_icache s' = k_icache s /\ k_ftable s' = k_ftable s.
Proof.
  intros Hf Hmod Hd. destruct (mkfs_done files Hf) as (img & root & new & R & Hc & Hsb & Hz & Hin & Ht & Hda & Hroot & Hnew & Hbits & Hun).
  exists img. split; [exact R|]. clear R. pose proof (Forall2_length _ _ _ Hnew) as Hlen. destruct Hf as (_ & Hn & _). rewrite <- Hda in Hmod.
  pose proof (image_volume_files img root new Hc ltac:(lia) Ht Hmod Hin Hroot Hun Hbits) as Hfs. pose proof (mk_volume Hd) as V.
  intros s pid d Hdd Hb. set (fs := image_files root new) in *. change (sb_logstart mk_sb) with 2 in *.
  assert (files_ok mk_sb (2 + LOGSIZE) 200 d fs) as Hfd.
  { apply (files_ok_ext mk_sb 2 200 (vo_bm _ _ _ V) (vo_ino _ _ _ V) (sector img)); [|exact Hfs]. intros b Hbr. apply Hdd. change (sb_size mk_sb) with FSSIZE in Hbr. change LOGSIZE with 30 in Hbr. lia. }
  assert (sb_of (d 1) = mk_sb) as Hsbd by (rewrite Hdd, Hsb by done; by vm_compute).
  assert (hd_n (d 2) = 0) as Hhn by (rewrite Hdd, Hz by done; by vm_compute).
  destruct (mount_run mk_sb 2 200 V s pid d fs Hb) as (s' & R & Hs & Ei & Ef).
  - by split_and!.
  - exists d. split; [|done]. apply recovers_empty; [change LOGSIZE with 30; unfold FSSIZE in Hd; lia|done|]. rewrite Hdd, Hz by done. by vm_compute.
  - exists s', (recover_disk d 2), fs. split_and!; [exact R|exact Hs|split_and!; [exists (root_file root); split_and!; [done|done|]|..]| |exact Ei|exact Ef].
    + change (fe_data root ++ replicate (512 * (length (fe_data root) / 512 + 1) - length (fe_data root)) 0 = dots ++ entries 0 files ++ replicate (512 - length (dots ++ entries 0 files) mod 512) 0).
      rewrite (assoc_L (++)), <- Hda. do 2 f_equal. destruct (blocks_of (length (fe_data root))). lia.
    + intros i fi Hi. destruct (Forall2_lookup_l _ _ _ _ _ Hnew Hi) as (f & Hf & Hty & Hfd'). exists f. split_and!; [|done|done].
      replace (i + 2)%nat with (S (S i)) by lia. change (fs !! S (S i)) with ((new ++ replicate (198 - length new) no_file) !! i).
      by apply lookup_app_l_Some.
    + intros i f Hi Hu. destruct (image_lookup root new ltac:(lia) Hmod i f Hi) as (_ & [[-> _]|(j & g & -> & Hj & _)]); [done|]. apply lookup_lt_Some in Hj. cbn [length] in Hj. lia.
    + split_and!; [|done|done|done]. unfold recover_disk, recover_writes. rewrite hd_list_0 by done. cbn [install_writes imap app blast foldl fst snd]. by rewrite fn_lookup_insert_ne.
Qed.

(** C7: what mkfs writes the kernel can mount.  On files that fit, with the entries of the root
    not filling whole blocks, mkfs leaves an image on which a kernel that has just started
    gets through [iinit] and [initlog], and has then the file system in order: inode 1 is the
    root directory, with ".", "..", and an entry for every file, inode [i + 2] has the content
    of input [i], and nothing else is in use. *)
Theorem mkfs_mounts files :
  fits files -> (length (dots ++ entries 0 files) mod 512 <> 0)%nat -> FSSIZE <= disksize ->
  exists img, mkfs_main (Some true) files mk_start = Done tt img
  /\ forall s pid d, (forall b, 0 <= b < FSSIZE -> d b = sector img b) -> booted s pid d ->
     exists s' d' fs, (iinit 1 ;; initlog 1) s = Done tt s'
       /\ fs_state mk_sb (sb_logstart mk_sb) 200 s' pid d' fs /\ mounted files fs.
Proof.
  intros Hf Hm Hd. destruct (mkfs_mounts_run files Hf Hm Hd) as (img & R & H). exists img. split; [exact R|]. clear R.
  intros s pid d Hdd Hb. destruct (H s pid d Hdd Hb) as (s' & d' & fs & R & Hs & Hm' & _). by exists s', d', fs.
Qed.

End properties.
