(* ===== verification/ProcLife.v ===== *)
(** The life of a process: [userinit], [growproc], [fork], [exit], [wait] and
    [forkret] of proc.c. *)
From S2P Require Import Prelude Kernel Spinlock Console CString Kalloc Proc Vm Sleeplock Disk Bytes Bio Log Inode ConsoleIo Fs Pipe FileTable.

Section life.
Context {E : Env} {D : Disk}.

Definition zero_tf : trapframe := Trapframe 0 0 0 0 0 0 0 0 0 0 0 0 0 0 0 0 0 0 0.
Definition upd_tf (i : nat) (f : trapframe -> trapframe) : K unit := upd_proc i (fun p => p <| p_tf ::= f |>).

Definition userinit : K unit :=
  o ← allocproc ;
  modify (fun s => s <| k_initproc := o |>) ;;
  p ← deref "userinit: p" o ;
  pgdir ← setupkvm ;
  upd_proc p (fun q => q <| p_pgdir := pgdir |>) ;;
  if pgdir =? 0 then panic "userinit: out of memory?" else
  inituvm pgdir initcode (Z.of_nat (length initcode)) ;;
  upd_proc p (fun q => q <| p_sz := PGSIZE |>) ;;
  upd_tf p (fun _ => zero_tf) ;;
  let ds := Z.lor (Z.shiftl (Z.of_nat SEG_UDATA) 3) DPL_USER in
  upd_tf p (fun t => t <| tf_cs := Z.lor (Z.shiftl (Z.of_nat SEG_UCODE) 3) DPL_USER |>) ;;
  upd_tf p (fun t => t <| tf_ds := ds |>) ;;
  upd_tf p (fun t => t <| tf_es := tf_ds t |>) ;;
  upd_tf p (fun t => t <| tf_ss := tf_ds t |>) ;;
  upd_tf p (fun t => t <| tf_eflags := FL_IF |>) ;;
  upd_tf p (fun t => t <| tf_esp := PGSIZE |>) ;;
  upd_tf p (fun t => t <| tf_eip := 0 |>) ;;
  upd_proc p (fun q => q <| p_name ::= fun n => safestrcpy n (cstr "initcode") 16 |>) ;;
  cwd ← namei (cstr "/") ;
  upd_proc p (fun q => q <| p_cwd := cwd |>) ;;
  acquire L_ptable ;;
  upd_proc p (set_pstate RUNNABLE) ;;
  upd_proc p (fun q => q <| p_containerID := 0 |>) ;;
  release L_ptable.

Definition growproc (n : Z) : K Z :=
  c ← curproc ;
  p ← get_proc c ;
  let sz := p_sz p in
  r ← (if 0 <? n then
         sz ← allocuvm (p_pgdir p) sz (u32 (sz + n)) ;
         mret (if sz =? 0 then None else Some sz)
       else if n <? 0 then
         sz ← deallocuvm (p_pgdir p) sz (u32 (sz + n)) ;
         mret (if sz =? 0 then None else Some sz)
       else mret (Some sz)) ;
  match r with
  | None => mret (-1)
  | Some sz =>
      upd_proc c (fun p => p <| p_sz := sz |>) ;;
      switchuvm (Some c) ;;
      mret 0
  end.

(** [if(curproc->ofile[i]) np->ofile[i] = filedup(curproc->ofile[i]);] *)
Definition dup_ofile (c np i : nat) : K unit :=
  p ← get_proc c ;
  o ← deref "curproc->ofile" (p_ofile p !! i) ;
  match o with
  | None => mret tt
  | Some f =>
      g ← filedup f ;
      upd_proc np (fun q => q <| p_ofile ::= <[i := Some g]> |>)
  end.

Definition fork : K Z :=
  c ← curproc ;
  o ← allocproc ;
  match o with
  | None => mret (-1)
  | Some np =>
      p ← get_proc c ;
      pgdir ← copyuvm (p_pgdir p) (p_sz p) ;
      upd_proc np (fun q => q <| p_pgdir := pgdir |>) ;;
      if pgdir =? 0 then
        q ← get_proc np ;
        kfree (p_kstack q) ;;
        upd_proc np (fun q => q <| p_kstack := 0 |>) ;;
        upd_proc np (set_pstate UNUSED) ;;
        mret (-1)
      else
        p ← get_proc c ;
        upd_proc np (fun q => q <| p_sz := p_sz p |>) ;;
        upd_proc np (fun q => q <| p_parent := Some c |>) ;;
        upd_proc np (fun q => q <| p_tf := p_tf p |>) ;;
        upd_tf np (fun t => t <| tf_eax := 0 |>) ;;
        for_each (seq 0 NOFILE) (dup_ofile c np) ;;
        p ← get_proc c ;
        cwd ← deref "curproc->cwd" (p_cwd p) ;
        cwd ← idup cwd ;
        upd_proc np (fun q => q <| p_cwd := Some cwd |>) ;;
        upd_proc np (fun q => q <| p_name ::= fun n => safestrcpy n (p_name p) 16 |>) ;;
        q ← get_proc np ;
        let pid := p_pid q in
        acquire L_ptable ;;
        upd_proc np (set_pstate RUNNABLE) ;;
        upd_proc np (fun q => q <| p_containerID := 0 |>) ;;
        release L_ptable ;;
        mret pid
  end.

(** [if(curproc->ofile[fd])] of [exit]. *)
Definition close_ofile (c fd : nat) : K unit :=
  p ← get_proc c ;
  o ← deref "curproc->ofile" (p_ofile p !! fd) ;
  match o with
  | None => mret tt
  | Some f =>
      fileclose f ;;
      upd_proc c (fun p => p <| p_ofile ::= <[fd := None]> |>)
  end.

(** [if(p->parent == curproc)] of [exit]. *)
Definition abandon (c : nat) (init : option nat) (i : nat) : K unit :=
  p ← get_proc i ;
  when (bool_decide (p_parent p = Some c))
    (upd_proc i (fun p => p <| p_parent := init |>) ;;
     when (bool_decide (p_state p = ZOMBIE)) (wakeup1 (CH_proc <$> init))).

Definition exit : K unit :=
  c ← curproc ;
  init ← gets k_initproc ;
  if decide (init = Some c) then panic "init exiting" else
  for_each (seq 0 NOFILE) (close_ofile c) ;;
  begin_op ;;
  p ← get_proc c ;
  cwd ← deref "curproc->cwd" (p_cwd p) ;
  iput cwd ;;
  end_op ;;
  upd_proc c (fun p => p <| p_cwd := None |>) ;;
  acquire L_ptable ;;
  p ← get_proc c ;
  wakeup1 (CH_proc <$> p_parent p) ;;
  init ← gets k_initproc ;
  for_each procs (abandon c init) ;;
  upd_proc c (set_pstate ZOMBIE) ;;
  sched ;;
  panic "zombie exit".

(** The scan of [wait]: the pid of the child it reaped, or whether it has children. *)
Fixpoint wait_scan (l : list nat) (c : nat) (havekids : bool) : K (Z + bool) :=
  match l with
  | [] => mret (inr havekids)
  | i :: l' =>
      p ← get_proc i ;
      if negb (bool_decide (p_parent p = Some c)) then wait_scan l' c havekids else
      if decide (p_state p = ZOMBIE) then
        kfree (p_kstack p) ;;
        upd_proc i (fun p => p <| p_kstack := 0 |>) ;;
        freevm (p_pgdir p) ;;
        upd_proc i (fun p => p <| p_pid := 0 |>) ;;
        upd_proc i (fun p => p <| p_parent := None |>) ;;
        upd_proc i (fun p => p <| p_name ::= <[0%nat := 0]> |>) ;;
        upd_proc i (fun p => p <| p_killed := 0 |>) ;;
        upd_proc i (set_pstate UNUSED) ;;
        release L_ptable ;;
        mret (inl (p_pid p))
      else wait_scan l' c true
  end.

Definition wait : K Z :=
  c ← curproc ;
  acquire L_ptable ;;
  loop fuel (
    r ← wait_scan procs c false ;
    match r with
    | inl pid => mret (Some pid)
    | inr havekids =>
        p ← get_proc c ;
        if negb havekids || nz (p_killed p) then
          release L_ptable ;; mret (Some (-1))
        else sleep (CH_proc c) L_ptable ;; mret None
    end).

Definition forkret : K unit :=
  release L_ptable ;;
  first ← gets k_first ;
  when (nz first)
    (modify (fun s => s <| k_first := 0 |>) ;;
     iinit ROOTDEV ;;
     initlog ROOTDEV).

End life.
