(* ===== verification/Exec.v ===== *)
(** exec.c, with [loaduvm] of vm.c: a program image is read from an ELF file into a
    fresh address space, which replaces that of the current process. *)
From S2P Require Import Prelude Kernel Spinlock Console CString Kalloc Proc Vm Sleeplock Disk Bytes Bio Log Inode ConsoleIo Fs.

(** ** elf.h *)

Definition ELF_MAGIC : Z := 0x464C457F.
Abbreviation ELF_PROG_LOAD := 1 (only parsing).

Record elfhdr := Elfhdr {
  eh_magic : Z; eh_elf : list Z; eh_type : Z; eh_machine : Z; eh_version : Z; eh_entry : Z;
  eh_phoff : Z; eh_shoff : Z; eh_flags : Z; eh_ehsize : Z; eh_phentsize : Z; eh_phnum : Z;
  eh_shentsize : Z; eh_shnum : Z; eh_shstrndx : Z
}.
Definition ELFHDR_SIZE : Z := 52.
Definition elfhdr_of (l : list Z) : elfhdr :=
  Elfhdr (get32 l 0) (sub 4 12 l) (get16 l 16) (get16 l 18) (get32 l 20) (get32 l 24)
    (get32 l 28) (get32 l 32) (get32 l 36) (get16 l 40) (get16 l 42) (get16 l 44)
    (get16 l 46) (get16 l 48) (get16 l 50).

Record proghdr := Proghdr {
  ph_type : Z; ph_off : Z; ph_vaddr : Z; ph_paddr : Z; ph_filesz : Z; ph_memsz : Z;
  ph_flags : Z; ph_align : Z
}.
Definition PROGHDR_SIZE : Z := 32.
Definition proghdr_of (l : list Z) : proghdr :=
  Proghdr (get32 l 0) (get32 l 4) (get32 l 8) (get32 l 12) (get32 l 16) (get32 l 20)
    (get32 l 24) (get32 l 28).

(** The loop that leaves [last] at the part of [path] after its last slash. *)
Fixpoint last_elem (last s : list Z) : list Z :=
  match s with
  | [] => last
  | c :: s' => if nz c then last_elem (if c =? 47 then s' else last) s' else last
  end.

Section exec.
Context {E : Env} {D : Disk}.

Definition loaduvm (pgdir addr : Z) (ip : nat) (offset sz : Z) : K Z :=
  if nz (addr mod PGSIZE) then panic "loaduvm: addr must be page aligned" else
  o ← for_find (map (Z.mul PGSIZE) (seqZ 0 ((sz + PGSIZE - 1) / PGSIZE))) (fun i =>
    pte ← walkpgdir pgdir (u32 (addr + i)) false ;
    if pte =? 0 then panic "loaduvm: address should exist" else
    e ← load pte ;
    let pa := PTE_ADDR e in
    let n := if sz - i <? PGSIZE then sz - i else PGSIZE in
    '(r, l) ← readi ip (u32 (offset + i)) n ;
    upd_mem (fun m => put_bytes m (P2V pa) l) ;;
    mret (if u32 r =? n then None else Some (-1))) ;
  mret (default 0 o).

(** The body of the loop over the program headers, from the size [sz] reached so
    far; [None] is the jump to [bad]. *)
Definition load_segment (ip : nat) (pgdir sz off : Z) : K (option Z) :=
  '(r, l) ← readi ip off PROGHDR_SIZE ;
  if negb (r =? PROGHDR_SIZE) then mret None else
  let ph := proghdr_of l in
  if negb (ph_type ph =? ELF_PROG_LOAD) then mret (Some sz) else
  if ph_memsz ph <? ph_filesz ph then mret None else
  if u32 (ph_vaddr ph + ph_memsz ph) <? ph_vaddr ph then mret None else
  sz ← allocuvm pgdir sz (u32 (ph_vaddr ph + ph_memsz ph)) ;
  if sz =? 0 then mret None else
  if nz (ph_vaddr ph mod PGSIZE) then mret None else
  r ← loaduvm pgdir (ph_vaddr ph) ip (ph_off ph) (ph_filesz ph) ;
  mret (if r <? 0 then None else Some sz).

Fixpoint load_segments (phnum : nat) (ip : nat) (pgdir sz off : Z) : K (option Z) :=
  match phnum with
  | O => mret (Some sz)
  | S n =>
      o ← load_segment ip pgdir sz off ;
      match o with
      | None => mret None
      | Some sz => load_segments n ip pgdir sz (u32 (off + PROGHDR_SIZE))
      end
  end.

(** The loop that pushes the argument strings: the stack pointer it ends with and
    the entries [ustack[3..3+argc)], or [None] for the jump to [bad]. *)
Fixpoint push_args (pgdir sp argc : Z) (argv : list (list Z)) (ustack : list Z) : K (option (Z * list Z)) :=
  match argv with
  | [] => mret (Some (sp, ustack))
  | a :: argv' =>
      if MAXARG <=? argc then mret None else
      let sp := Z.land (u32 (sp - (strlen a + 1))) (W32 - 4) in
      r ← copyout pgdir sp (cstring a ++ [0]) ;
      if r <? 0 then mret None else
      push_args pgdir sp (argc + 1) argv' (ustack ++ [sp])
  end.

(** From the allocation of the stack to the copy of [ustack]: the size and the
    stack pointer of the new image, or [None] for the jump to [bad]. *)
Definition build_stack (pgdir sz : Z) (argv : list (list Z)) : K (option (Z * Z)) :=
  let sz := PGROUNDUP sz in
  sz ← allocuvm pgdir sz (u32 (sz + 2 * PGSIZE)) ;
  if sz =? 0 then mret None else
  clearpteu pgdir (u32 (sz - 2 * PGSIZE)) ;;
  o ← push_args pgdir sz 0 argv [] ;
  match o with
  | None => mret None
  | Some (sp, args) =>
      let argc := Z.of_nat (length args) in
      let ustack := [0xffffffff; argc; u32 (sp - (argc + 1) * 4)] ++ args ++ [0] in
      let sp := u32 (sp - (3 + argc + 1) * 4) in
      r ← copyout pgdir sp (mjoin (map (le 4) ustack)) ;
      mret (if r <? 0 then None else Some (sz, sp))
  end.

(** The label [bad]. *)
Definition exec_bad (pgdir : Z) (ip : option nat) : K Z :=
  when (nz pgdir) (freevm pgdir) ;;
  match ip with
  | Some ip => iunlockput ip ;; end_op
  | None => mret tt
  end ;;
  mret (-1).

(** Commit to the user image. *)
Definition exec_commit (c : nat) (path : list Z) (pgdir sz sp entry : Z) : K Z :=
  upd_proc c (fun p => p <| p_name ::= fun n => safestrcpy n (last_elem path path) 16 |>) ;;
  p ← get_proc c ;
  let oldpgdir := p_pgdir p in
  upd_proc c (fun p => p <| p_pgdir := pgdir |>) ;;
  upd_proc c (fun p => p <| p_sz := sz |>) ;;
  upd_proc c (fun p => p <| p_tf ::= fun t => t <| tf_eip := entry |> |>) ;;
  upd_proc c (fun p => p <| p_tf ::= fun t => t <| tf_esp := sp |> |>) ;;
  switchuvm (Some c) ;;
  freevm oldpgdir ;;
  mret 0.

Definition exec (path : list Z) (argv : list (list Z)) : K Z :=
  c ← curproc ;
  begin_op ;;
  o ← namei path ;
  match o with
  | None =>
      end_op ;;
      cprintf "exec: fail
" [] ;;
      mret (-1)
  | Some ip =>
      ilock (Some ip) ;;
      '(r, l) ← readi ip 0 ELFHDR_SIZE ;
      if negb (r =? ELFHDR_SIZE) then exec_bad 0 (Some ip) else
      let elf := elfhdr_of l in
      if negb (eh_magic elf =? ELF_MAGIC) then exec_bad 0 (Some ip) else
      pgdir ← setupkvm ;
      if pgdir =? 0 then exec_bad 0 (Some ip) else
      o ← load_segments (Z.to_nat (eh_phnum elf)) ip pgdir 0 (eh_phoff elf) ;
      match o with
      | None => exec_bad pgdir (Some ip)
      | Some sz =>
          iunlockput ip ;;
          end_op ;;
          o ← build_stack pgdir sz argv ;
          match o with
          | None => exec_bad pgdir None
          | Some (sz, sp) => exec_commit c path pgdir sz sp (eh_entry elf)
          end
      end
  end.

End exec.
