(* ===== verification/Scheduler.v ===== *)
(** The schedule of [scheduler] (proc.c): which processes one round of its outer
    loop runs, and in which order.

    [run_sched] executes a scheduler thread; each time it switches to a process,
    [user] says in which state that process gives the CPU back, and the process
    is recorded.  [schedule] is the specification: container by container, the
    runnable processes of each waiting container. *)
From S2P Require Import Prelude Kernel Spinlock Console CString Kalloc Proc.

Section schedule.
Context {E : Env}.

Fixpoint run_sched {A} (user : nat -> kernel -> kernel) (r : kres yield_point kernel A) :
    list nat * option (A * kernel) :=
  match r with
  | Done a s => ([], Some (a, s))
  | Stop _ _ => ([], None)
  | Yield (Y_run i) s k => let '(l, o) := run_sched user (k (user i s)) in (i :: l, o)
  | Yield _ _ _ => ([], None)
  end.

(** A process that computes and then enters [sched] in state [out i]. *)
Definition turn (out : nat -> procstate) (i : nat) (s : kernel) : kernel :=
  s <| k_ptable ::= alter (set_pstate (out i)) i |>.

Definition due (t : list proc) (cid : Z) (i : nat) : Prop :=
  match t !! i with Some p => p_state p = RUNNABLE /\ p_containerID p = cid | None => False end.

#[global] Instance due_dec t cid i : Decision (due t cid i).
Proof. unfold due. destruct (t !! i); apply _. Defined.

Definition container_schedule (t : list proc) (ct : list container) (con : nat) : list nat :=
  match ct !! con with
  | Some c => if decide (ct_state c = CWAITING) then filter (due t (ct_containerID c)) procs else []
  | None => []
  end.

Definition schedule (t : list proc) (ct : list container) : list nat :=
  concat (map (container_schedule t ct) (seq 0 NCONT)).

(** The container table as [containerInit] leaves it: entry [i] has id [i]. *)
Definition ctable_ids (ct : list container) : Prop :=
  length ct = NCONT /\ forall i c, ct !! i = Some c -> ct_containerID c = Z.of_nat i.

(** A runnable process can be switched to. *)
Definition runnable_ok (t : list proc) : Prop :=
  forall i p, t !! i = Some p -> p_state p = RUNNABLE -> p_kstack p <> 0 /\ p_pgdir p <> 0.

(** [t'] is [t] after runnable processes of containers in [C] had a turn. *)
Definition turned (out : nat -> procstate) (C : Z -> Prop) (t t' : list proc) : Prop :=
  length t' = length t /\
  forall j p p', t !! j = Some p -> t' !! j = Some p' ->
    p' = p \/ (C (p_containerID p) /\ p_state p = RUNNABLE /\ p' = set_pstate (out j) p).

(** The scheduler thread of CPU [i], between two switches. *)
Record sched_st (i : nat) (ncli : Z) (t : list proc) (ct : list container) (s : kernel) : Prop := SchedSt {
  ss_cpu : exists c, runs_on (k_hw s) i c /\ c_ncli c = ncli /\ c_intena c = FL_IF;
  ss_table : k_ptable s = t;
  ss_ctable : k_ctable s = ct;
  ss_cons : cons_ok (k_cons s);
  ss_conslock : lock_free (k_hw s) L_cons;
  ss_ptlock : if ncli =? 0 then lock_free (k_hw s) L_ptable else lock_held (k_hw s) i L_ptable
}.

End schedule.

Section rules.
Context {E : Env} (fuel_pos : (0 < fuel)%nat).

Lemma run_sched_bind {A B} user (m : K A) (f : A -> K B) s l1 a s1 :
  run_sched user (m s) = (l1, Some (a, s1)) ->
  run_sched user ((m ≫= f) s) =
    ((l1 ++ (run_sched user (f a s1)).1), (run_sched user (f a s1)).2).
Proof.
  unfold mbind, M_bind. generalize (m s) as r. clear m s. intros r. revert l1.
  induction r as [a' s'|w s'|y s' k IH]; intros l1 H; simpl in *; simplify_eq.
  - by destruct (run_sched _ _).
  - destruct y; simplify_eq. destruct (run_sched user (k (user p s'))) as [l o] eqn:E1.
    simplify_eq. specialize (IH _ _ E1). destruct (run_sched _ (kbind _ _)) as [l' o'].
    simplify_eq. done.
Qed.

Lemma run_sched_done {A B} user (m : K A) (f : A -> K B) s a s1 :
  m s = Done a s1 -> run_sched user ((m ≫= f) s) = run_sched user (f a s1).
Proof. intros H. by rewrite (bind_done _ _ _ _ _ H). Qed.

(** The body of the loop over processes, on a process that is not due and on one
    that is. *)
Lemma schedule_proc_skip out i t ct s con c j :
  sched_st i 1 t ct s -> ct !! con = Some c -> (j < length t)%nat -> ~ due t (ct_containerID c) j ->
  run_sched (turn out) (schedule_proc i con j s) = ([], Some (tt, s)).
Proof.
  intros Hs Hc Hj Hd. destruct (lookup_lt_is_Some_2 t j Hj) as [p Hp].
  unfold due in Hd. rewrite Hp in Hd.
  rewrite <- (ss_table _ _ _ _ _ Hs) in Hp. rewrite <- (ss_ctable _ _ _ _ _ Hs) in Hc.
  unfold schedule_proc. krun (get_proc_run s j p Hp). kstep. rewrite Hc. kapply eq_refl.
  destruct (p_containerID p =? _) eqn:Ec; [|done]. apply Z.eqb_eq in Ec.
  rewrite decide_True by naive_solver. done.
Qed.

Lemma schedule_proc_due out i t ct s con c j :
  runnable_ok t -> sched_st i 1 t ct s -> ct !! con = Some c -> due t (ct_containerID c) j ->
  exists s', run_sched (turn out) (schedule_proc i con j s) = ([j], Some (tt, s'))
    /\ sched_st i 1 (alter (fun p => set_pstate (out j) (set_pstate RUNNING p)) j t) ct s'.
Proof.
  intros Hrok [(cp & Hr & Hn & Hi) Ht Hct Hco Hcl Hpl] Hc Hd. unfold due in Hd.
  destruct (t !! j) as [p|] eqn:Hp; [|done]. destruct Hd as [Hst Hcid].
  destruct (Hrok j p Hp Hst) as [Hks Hpg]. subst t ct.
  unfold schedule_proc. krun (get_proc_run s j p Hp). kstep. rewrite Hc. kapply eq_refl.
  rewrite (proj2 (Z.eqb_eq _ _) Hcid), decide_False by naive_solver.
  unfold upd_cpu at 1. kapply upd_hw_run.
  pose proof (alter_runs_on _ _ _ (fun c => c <| c_proc := Some j |>) Hr eq_refl eq_refl eq_refl) as Hr1.
  set (s1 := set k_hw _ s).
  destruct (switchuvm_run s1 i _ j p Hr1 Hp Hks Hpg) as (h2 & c2 & Hsw & Hr2 & Hn2 & Hi2 & _ & _ & Hlk).
  krun Hsw. set (s2 := set k_cr3 _ _). kapply upd_proc_run. kstep.
  set (s3 := set k_ptable _ s2).
  erewrite bind_done by (apply get_proc_run, lookup_set_alter, Hp). cbv beta.
  assert (lock_free h2 L_cons) as Hcl2 by (unfold lock_free; by rewrite Hlk).
  assert (forall w, exists cs, when (nz w) (cprintf "Container %d : Scheduling process %d
" [AInt (ct_containerID c); AInt (p_pid (set_pstate RUNNING p))]) s3 = Done tt (s3 <| k_cons := cs |>)
    /\ cons_ok cs) as Hpr.
  { intros w. destruct (nz w); unfold when.
    - destruct (cprintf_run "Container %d : Scheduling process %d
" [AInt (ct_containerID c); AInt (p_pid (set_pstate RUNNING p))] s3 i c2)
        as (cs & -> & Hem); try done. exists cs. split; [done|]. apply Hem.
    - exists (k_cons s3). split; [by destruct s|done]. }
  destruct (Hpr (k_schedulerLog s3)) as (cs & Hd & Hcs). krun Hd. clear Hpr Hd.
  set (s4 := set k_cons _ s3). erewrite bind_yield by done. cbn [run_sched kbind]. cbv beta.
  erewrite bind_done by (unfold switchkvm; done). cbv beta.
  unfold upd_cpu. rewrite upd_hw_run. cbn [run_sched]. eexists. split; [reflexivity|].
  pose proof (alter_runs_on _ _ _ (fun c => c <| c_proc := None |>) Hr2 eq_refl eq_refl eq_refl) as Hr5.
  split; cbn; [|by rewrite alter_alter|done|done|done|].
  - eexists. split; [exact Hr5|]. cbn. cbn in Hn2, Hi2. by rewrite Hn2, Hi2.
  - destruct Hpl as (l & ? & ?). exists l. by rewrite Hlk.
Qed.

Lemma turned_refl out C t : turned out C t t.
Proof. split; [done|]. intros. left. congruence. Qed.

Lemma turned_trans out C1 C2 (C : Z -> Prop) t1 t2 t3 :
  (forall x, C1 x \/ C2 x -> C x) -> turned out C1 t1 t2 -> turned out C2 t2 t3 -> turned out C t1 t3.
Proof.
  intros HC [Hl1 H1] [Hl2 H2]. split; [congruence|]. intros j p p3 Hp Hp3.
  destruct (lookup_lt_is_Some_2 t2 j) as [p2 Hp2].
  { rewrite Hl1. by eapply lookup_lt_Some. }
  specialize (H1 j p p2 Hp Hp2). specialize (H2 j p2 p3 Hp2 Hp3).
  destruct H1 as [->|(? & ? & ->)], H2 as [->|(? & ? & ->)]; cbn in *; eauto 10.
Qed.

Lemma turned_alter out cid t j :
  due t cid j -> turned out (eq cid) t (alter (fun p => set_pstate (out j) (set_pstate RUNNING p)) j t).
Proof.
  intros Hd. split; [by rewrite length_alter|]. intros k p p' Hp Hp'.
  destruct (decide (j = k)) as [->|Hne].
  - rewrite list_lookup_alter_eq, Hp in Hp'. unfold due in Hd. rewrite Hp in Hd. cbn in Hp'.
    simplify_eq. right. naive_solver.
  - rewrite list_lookup_alter_ne in Hp' by done. left. congruence.
Qed.

Lemma turned_runnable_ok out C t t' : turned out C t t' -> runnable_ok t -> runnable_ok t'.
Proof.
  intros [Hl H] Hr j p' Hp' Hst. destruct (lookup_lt_is_Some_2 t j) as [p Hp].
  { rewrite <- Hl. by eapply lookup_lt_Some. }
  destruct (H j p p' Hp Hp') as [->|(_ & Hs & ->)]; [by eapply Hr|]. by apply (Hr j p).
Qed.

Lemma turned_due out C t t' cid j : turned out C t t' -> ~ C cid -> due t' cid j <-> due t cid j.
Proof.
  intros [Hl H] HC. unfold due. destruct (t !! j) as [p|] eqn:Hp.
  - destruct (lookup_lt_is_Some_2 t' j) as [p' Hp'].
    { rewrite Hl. by eapply lookup_lt_Some. }
    rewrite Hp'. destruct (H j p p' Hp Hp') as [->|(Hc & Hs & ->)]; [done|].
    cbn. naive_solver.
  - rewrite (lookup_ge_None_2 t' j); [done|]. rewrite Hl. by apply lookup_ge_None_1.
Qed.

(** The loop over processes for one container. *)
Lemma schedule_procs_run out i ct con c l t s :
  NoDup l -> (forall j, j ∈ l -> (j < length t)%nat) ->
  runnable_ok t -> sched_st i 1 t ct s -> ct !! con = Some c ->
  exists s' t',
    run_sched (turn out) (for_each l (schedule_proc i con) s)
      = (filter (due t (ct_containerID c)) l, Some (tt, s'))
    /\ sched_st i 1 t' ct s' /\ turned out (eq (ct_containerID c)) t t'.
Proof.
  intros Hnd. revert t s. induction Hnd as [|j l Hj Hnd IH]; intros t s Hl Hrok Hs Hc.
  { exists s, t. split_and!; [done..|]. apply turned_refl. }
  cbn [for_each]. rewrite filter_cons. destruct (decide (due t (ct_containerID c) j)) as [Hd|Hd].
  - destruct (schedule_proc_due out i t ct s con c j Hrok Hs Hc Hd) as (s1 & H1 & Hs1).
    pose proof (turned_alter out _ _ _ Hd) as Ht. set (t1 := alter _ j t) in *.
    destruct (IH t1 s1) as (s' & t' & H2 & Hs' & Ht'); [|by eapply turned_runnable_ok|done..|].
    { destruct Ht as [-> _]. set_solver. }
    exists s', t'. rewrite (run_sched_bind _ _ _ _ _ _ _ H1), H2. split_and!; [|done|].
    + cbn. do 2 f_equal. apply filter_ext_in. intros k Hk. unfold due, t1.
      rewrite list_lookup_alter_ne; [done|]. by intros ->.
    + eapply turned_trans; [|done..]. naive_solver.
  - erewrite run_sched_bind by (eapply schedule_proc_skip; try done; apply Hl; set_solver).
    destruct (IH t s) as (s' & t' & -> & ?); [set_solver|done..|].
    by exists s', t'.
Qed.

(** The loop over containers. *)
Lemma schedule_container_run out i ct con t s :
  (con < length ct)%nat -> length t = NPROC -> runnable_ok t -> sched_st i 0 t ct s ->
  exists s' t' cid,
    run_sched (turn out) (schedule_container i con s) = (container_schedule t ct con, Some (tt, s'))
    /\ sched_st i 0 t' ct s' /\ turned out (eq cid) t t'
    /\ (forall c, ct !! con = Some c -> cid = ct_containerID c).
Proof.
  intros Hcon Hlen Hrok Hs. destruct (lookup_lt_is_Some_2 ct con Hcon) as [c Hc].
  unfold schedule_container, container_schedule. pose proof (ss_ctable _ _ _ _ _ Hs) as Hct.
  kstep. rewrite Hct, Hc. kapply eq_refl.
  destruct (decide (ct_state c = CWAITING)) as [Hw|Hw]; cycle 1.
  { rewrite decide_True by done. exists s, t, (ct_containerID c).
    split_and!; [done|done|apply turned_refl|naive_solver]. }
  rewrite decide_False by naive_solver.
  destruct Hs as [(cp & Hr & Hn & Hi) Ht _ Hco Hcl Hpl].
  krun (acquire_run s i cp _ fuel_pos Hr Hpl). set (s1 := set k_hw _ s).
  assert (sched_st i 1 t ct s1) as Hs1.
  { split; [|done|done|done|by apply enter_free|apply enter_held].
    eexists. split; [apply enter_runs_on, Hr|]. rewrite (push_intena _ i) by done.
    cbn. split; [lia|done]. }
  destruct (schedule_procs_run out i ct con c procs t s1) as (s2 & t' & H2 & Hs2 & Ht2);
    [apply NoDup_seq| |done..|].
  { intros j [_ Hj]%elem_of_seq. by rewrite Hlen. }
  destruct Hs2 as [(c2 & Hr2 & Hn2 & Hi2) Ht' Hct' Hco2 Hcl2 Hpl2].
  erewrite run_sched_bind by exact H2. erewrite release_held; [|exact Hr2|lia|exact Hpl2].
  eexists _, t', _. split; [cbn [run_sched fst snd]; by rewrite app_nil_r|]. split_and!; [|done|naive_solver].
  split; [|done|done|done|by apply leave_other_free|apply leave_free].
  exists (pop_cpu c2). split; [apply leave_runs_on; [done|lia]|]. cbn. split; [lia|done].
Qed.

Lemma schedule_containers_run out i t ct cons C cur s :
  NoDup cons -> (forall con, con ∈ cons -> (con < length ct)%nat) -> ctable_ids ct ->
  (forall con, con ∈ cons -> ~ C (Z.of_nat con)) ->
  length t = NPROC -> runnable_ok t -> turned out C t cur -> sched_st i 0 cur ct s ->
  exists s' t',
    run_sched (turn out) (for_each cons (schedule_container i) s)
      = (concat (map (container_schedule t ct) cons), Some (tt, s'))
    /\ sched_st i 0 t' ct s' /\ turned out (fun _ => True) t t'.
Proof.
  intros Hnd Hlt [Hlc Hids] HC Hlen Hrok. revert C cur s HC.
  induction Hnd as [|con cons Hn Hnd IH]; intros C cur s HC Ht Hs.
  { exists s, cur. split_and!; [done..|]. by apply (turned_trans out C C _ _ cur); [| |apply turned_refl]. }
  cbn [for_each]. destruct (schedule_container_run out i ct con cur s) as (s1 & t1 & cid & H1 & Hs1 & Ht1 & Hcid).
  { apply Hlt. by left. } { by rewrite (proj1 Ht). } { by eapply turned_runnable_ok. } { done. }
  destruct (lookup_lt_is_Some_2 ct con) as [c Hc]; [apply Hlt; by left|].
  specialize (Hcid c Hc). specialize (Hids con c Hc).
  assert (forall con, con ∈ cons -> (con < length ct)%nat) as Hlt' by (intros; apply Hlt; by right).
  destruct (IH Hlt' (fun x => C x \/ cid = x) t1 s1) as (s' & t' & H2 & ?); [| |done|].
  { intros con' Hin [?|?]; [apply (HC con'); [by right|done]|]. assert (con = con') by lia. congruence. }
  { eapply turned_trans; [|done..]. done. }
  exists s', t'. rewrite (run_sched_bind _ _ _ _ _ _ _ H1), H2. split; [|done].
  cbn. do 2 f_equal. unfold container_schedule. rewrite Hc. case_decide; [|done].
  apply filter_ext_in. intros j _. eapply turned_due; [exact Ht|]. rewrite Hids. apply HC. by left.
Qed.

Lemma elem_of_container_schedule t ct con j :
  length t = NPROC -> ctable_ids ct ->
  j ∈ container_schedule t ct con <->
  exists p c, t !! j = Some p /\ p_state p = RUNNABLE /\ p_containerID p = Z.of_nat con
              /\ ct !! con = Some c /\ ct_state c = CWAITING.
Proof.
  intros Hlen [_ Hids]. unfold container_schedule.
  destruct (ct !! con) as [c|] eqn:Hc; [|set_solver].
  specialize (Hids con c Hc). case_decide; [|set_solver].
  rewrite list_elem_of_filter, Hids. unfold due, procs. split.
  - intros [Hd _]. destruct (t !! j) as [p|]; [|done]. naive_solver.
  - intros (p & c' & Hp & ? & ? & ?). rewrite Hp. split; [done|].
    apply elem_of_seq. apply lookup_lt_Some in Hp. lia.
Qed.

(** One round. *)
Lemma scheduler_round_run out i t ct s :
  length t = NPROC -> runnable_ok t -> ctable_ids ct -> sched_st i 0 t ct s ->
  exists s' t', run_sched (turn out) (scheduler_round i s) = (schedule t ct, Some (tt, s'))
    /\ sched_st i 0 t' ct s' /\ turned out (fun _ => True) t t'.
Proof.
  intros Hlen Hrok Hids [(c & Hr & Hn & Hi) Ht Hct Hco Hcl Hpl].
  assert (sti s = Done tt s) as Hsti.
  { unfold sti. rewrite upd_hw_run. destruct Hr as [_ [[_ He]|[? _]]]; [|lia].
    f_equal. rewrite Hi in He. unfold eflags_of in He. destruct s as [[[] ? ? ?]]; done. }
  destruct (schedule_containers_run out i t ct (seq 0 NCONT) (fun _ => False) t s) as (s' & t' & H1 & Hs' & Ht');
    [apply NoDup_seq| |done|naive_solver|done|done|apply turned_refl| |].
  { intros con [_ Hcon]%elem_of_seq. by rewrite (proj1 Hids). }
  { split; eauto. }
  exists s', t'. unfold scheduler_round. krun Hsti. done.
Qed.

Lemma NoDup_schedule t ct : length t = NPROC -> ctable_ids ct -> NoDup (schedule t ct).
Proof.
  intros Hlen Hids. apply NoDup_concat_map; [apply NoDup_seq| |].
  - intros con. unfold container_schedule. destruct (ct !! con); [|constructor].
    case_decide; [|constructor]. apply NoDup_filter, NoDup_seq.
  - intros con con' j _ _ (? & ? & ? & ? & ? & _)%elem_of_container_schedule
      (? & ? & ? & ? & ? & _)%elem_of_container_schedule; try done. simplify_eq. lia.
Qed.

Lemma elem_of_schedule t ct j :
  length t = NPROC -> ctable_ids ct ->
  j ∈ schedule t ct <->
  exists p con c, t !! j = Some p /\ p_state p = RUNNABLE /\ p_containerID p = Z.of_nat con
                  /\ ct !! con = Some c /\ ct_state c = CWAITING.
Proof.
  intros Hlen Hids. unfold schedule. rewrite elem_of_concat_map.
  setoid_rewrite elem_of_container_schedule; [|done..]. split.
  - intros (con & _ & p & c & ?). by exists p, con, c.
  - intros (p & con & c & ? & ? & ? & Hc & ?). exists con. split; [|by exists p, c].
    apply elem_of_seq. apply lookup_lt_Some in Hc. destruct Hids. lia.
Qed.
End rules.

(** ** Properties *)

Section properties.
Context {E : Env}.

(** C6: one round of the scheduler's outer loop, on a machine whose
    processes compute for a while and then give the CPU back, returns after
    running exactly the processes of [schedule] in that order: each process that
    is runnable and whose container is waiting runs once, and no other runs. *)
Theorem scheduler_round_schedule out i t ct s :
  (0 < fuel)%nat -> length t = NPROC -> runnable_ok t -> ctable_ids ct -> sched_st i 0 t ct s ->
  (exists s' t', run_sched (turn out) (scheduler_round i s) = (schedule t ct, Some (tt, s'))
                 /\ sched_st i 0 t' ct s')
  /\ NoDup (schedule t ct)
  /\ (forall j, j ∈ schedule t ct <->
        exists p con c, t !! j = Some p /\ p_state p = RUNNABLE /\ p_containerID p = Z.of_nat con
                        /\ ct !! con = Some c /\ ct_state c = CWAITING).
Proof.
  intros Hf Hlen Hrok Hids Hs. split_and!; [|by apply NoDup_schedule|intros; by apply elem_of_schedule].
  destruct (scheduler_round_run Hf out i t ct s) as (s' & t' & ? & ? & _); [done..|]. by exists s', t'.
Qed.
End properties.
