(* ===== verification/Container.v ===== *)
(** Containers: the container half of proc.c.

    [ctable] holds the containers; [containers] (syscall.c) is the array of the
    ids in use, which [createContainer] and [destroyContainer] keep in step with
    the [state] of the table's entries.  A process belongs to the container its
    [containerID] names; [scheduler] runs the processes of containers in state
    [CWAITING] only. *)
From S2P Require Import Prelude Kernel Spinlock Console CString Kalloc Proc Scheduler.

Section container.
Context {E : Env}.

Definition get_container (i : nat) : K container :=
  t ← gets k_ctable ; deref "ctable.container" (t !! i).
Definition upd_container (i : nat) (f : container -> container) : K unit :=
  modify (fun s => s <| k_ctable ::= alter f i |>).

(** [for(c = ctable.container; c < &ctable.container[NCONT]; c++)] *)
Definition conts : list nat := seq 0 NCONT.

(** An array index of C type [int]. *)
Definition index (why : string) (id : Z) (n : nat) : K nat :=
  if (0 <=? id) && (id <? Z.of_nat n) then mret (Z.to_nat id) else fault why.

Definition get_containers (id : Z) : K Z :=
  l ← gets k_containers ;
  i ← index "containers" id (length l) ;
  deref "containers" (l !! i).
Definition set_containers (id v : Z) : K unit :=
  l ← gets k_containers ;
  i ← index "containers" id (length l) ;
  modify (fun s => s <| k_containers ::= <[i := v]> |>).

(** ** Listing *)

Definition psHelper (procID containerID : Z) : K unit :=
  acquire L_ptable ;;
  for_each procs (fun i =>
    p ← get_proc i ;
    when (p_containerID p =? containerID)
      (when (bool_decide (p_state p <> UNUSED))
        (cprintf "pid:%d name:%s Container:%d
" [AInt (p_pid p); AStr (Some (cstring (p_name p))); AInt (p_containerID p)]))) ;;
  release L_ptable.

Definition listContainersHelper : K unit :=
  acquire L_ptable ;;
  for_each procs (fun i =>
    p ← get_proc i ;
    cprintf "process %d is present in container %d
" [AInt (p_pid p); AInt (p_containerID p)]).

Definition getName (s : containerState) : string :=
  match s with CRUNNING => "CRUNNING" | CWAITING => "CWAITING" | CUNUSED => "CUNUSED" end.

(** ** Creation and destruction *)

Definition containerInit : K unit :=
  for_each conts (fun i =>
    upd_container i (fun con => con <| ct_containerID := Z.of_nat i |>) ;;
    upd_container i (fun con => con <| ct_state := CUNUSED |>) ;;
    upd_container i (fun con => con <| ct_nextGVA := 0 |>) ;;
    upd_container i (fun con => con <| ct_pgTable ::= fun t => t <| pt_next := 0 |> |>)) ;;
  upd_container 0 (fun con => con <| ct_state := CWAITING |>).

(** The body of the loop of [createContainer]; [Some id] is its [return id]. *)
Definition try_container (i : nat) : K (option Z) :=
  c ← get_container i ;
  let id := ct_containerID c in
  inuse ← get_containers id ;
  if (inuse =? 0) && negb (id =? 0) then
    set_containers id 1 ;;
    upd_container i (fun c => c <| ct_state := CWAITING |>) ;;
    release L_ctable ;;
    mret (Some id)
  else mret None.

Definition createContainer : K Z :=
  acquire L_ctable ;;
  o ← for_find conts try_container ;
  match o with
  | Some id => mret id
  | None =>
      cprintf "Couldn't create a new container
" [] ;;
      release L_ctable ;;
      mret (-1)
  end.

(** The body of the loop over processes of [destroyContainer]. *)
Definition destroy_proc (id : Z) (i : nat) : K unit :=
  p ← get_proc i ;
  let pid := p_pid p in
  when (p_containerID p =? id)
    (release L_ptable ;;
     kill pid ;;
     acquire L_ptable).

Definition destroyContainer (id : Z) : K unit :=
  acquire L_ctable ;;
  con ← index "ctable.container" id NCONT ;
  upd_container con (fun con => con <| ct_state := CUNUSED |>) ;;
  set_containers id 0 ;;
  release L_ctable ;;
  acquire L_ptable ;;
  for_each procs (destroy_proc id) ;;
  release L_ptable.

(** ** Membership *)

Definition addProcessToContainer (pid containerID : Z) : K unit :=
  acquire L_ptable ;;
  for_each procs (fun i =>
    p ← get_proc i ;
    when (p_pid p =? pid) (upd_proc i (fun p => p <| p_containerID := containerID |>))) ;;
  release L_ptable ;;
  cprintf "Process %d added to %d container
" [AInt pid; AInt containerID].

Definition removeProcessFromContainer (pid : Z) : K unit :=
  acquire L_ptable ;;
  for_each procs (fun i =>
    p ← get_proc i ;
    when (p_pid p =? pid) (upd_proc i (fun p => p <| p_containerID := 0 |>))) ;;
  release L_ptable.

(** The pointer past the table, which the loop leaves when it finds no process,
    is not a process. *)
Definition gtcid : K Z :=
  cp ← curproc ;
  p ← get_proc cp ;
  let pd := p_pid p in
  o ← for_find procs (fun i =>
    p ← get_proc i ;
    mret (if p_pid p =? pd then Some i else None)) ;
  p ← get_proc (default NPROC o) ;
  mret (p_containerID p).

(** ** Memory *)

(** An assignment to [c->pgTable.page[n]], an array of 100 elements. *)
Definition upd_page (c : nat) (n : Z) (f : pgElement -> pgElement) : K unit :=
  con ← get_container c ;
  i ← index "pgTable.page" n (length (pt_page (ct_pgTable con))) ;
  upd_container c (fun con => con <| ct_pgTable ::= fun t => t <| pt_page ::= alter f i |> |>).

(** The body of the loop of [container_malloc]. *)
Definition malloc_in (numBytes pid : Z) (c : nat) : K unit :=
  con ← get_container c ;
  cp ← curproc ;
  p ← get_proc cp ;
  when (ct_containerID con =? p_containerID p)
    (let nextGVA := ct_nextGVA con in
     let nextFree := pt_next (ct_pgTable con) in
     upd_container c (fun con => con <| ct_nextGVA ::= fun g => i32 (g + numBytes) |>) ;;
     upd_container c (fun con => con <| ct_pgTable ::= fun t => t <| pt_next ::= Z.add 1 |> |>) ;;
     upd_page c nextFree (fun e => e <| pg_GVA := nextGVA |>) ;;
     hva ← kalloc ;
     upd_page c nextFree (fun e => e <| pg_HVA := hva |>) ;;
     upd_page c nextFree (fun e => e <| pg_pid := pid |>) ;;
     log ← gets k_memoryLog ;
     when (log =? 1)
       (cprintf "%d  %p
" [AInt nextGVA; AInt hva] ;;
        cprintf "%d
" [AInt pid])).

Definition container_malloc (numBytes pid : Z) : K unit :=
  acquire L_ctable ;;
  for_each conts (malloc_in numBytes pid) ;;
  release L_ctable.

End container.

(** ** Vocabulary of the specifications *)

Section vocabulary.
Context {E : Env}.

(** The two tables of containers agree: entry [i] has id [i], and a container
    other than 0 is in use exactly when it is waiting to be scheduled. *)
Record ctable_ok (s : kernel) : Prop := CtableOk {
  co_ids : ctable_ids (k_ctable s);
  co_len : length (k_containers s) = NCONT;
  co_sync : forall i c, (0 < i)%nat -> k_ctable s !! i = Some c ->
              (ct_state c = CWAITING <-> k_containers s !! i <> Some 0)
}.

Record ctable_ready (s : kernel) : Prop := CtableReady {
  cr_cli : cli_ok (k_hw s);
  cr_lock : lock_free (k_hw s) L_ctable;
  cr_cons : lock_free (k_hw s) L_cons;
  cr_console : cons_ok (k_cons s)
}.

Definition free_id (used : list Z) (c : container) : Prop :=
  used !! Z.to_nat (ct_containerID c) = Some 0 /\ ct_containerID c <> 0.

(** The effect of the loop of [destroyContainer] on the process table. *)
Definition destroy_step (id : Z) (t : list proc) (i : nat) : list proc :=
  match t !! i with
  | Some p =>
      if p_containerID p =? id then
        match list_find (fun q => p_pid q = p_pid p) t with
        | Some (j, _) => alter killed j t
        | None => t
        end
      else t
  | None => t
  end.

Definition destroy_all (id : Z) (t : list proc) : list proc := foldl (destroy_step id) t procs.

(** A container after [container_malloc] gave it a page. *)
Definition with_page (numBytes hva pid : Z) (con : container) : container :=
  let n := pt_next (ct_pgTable con) in
  con <| ct_nextGVA := i32 (ct_nextGVA con + numBytes) |>
      <| ct_pgTable ::= fun t => t <| pt_next := 1 + n |>
           <| pt_page ::= <[Z.to_nat n := PgElement (ct_nextGVA con) hva pid]> |> |>.

(** The running process is in container [cid]. *)
Definition runs_in (s : kernel) (cid : nat) : Prop :=
  exists i c cp p, runs_on (k_hw s) i c /\ c_proc c = Some cp /\ k_ptable s !! cp = Some p
                   /\ p_containerID p = Z.of_nat cid.

Record malloc_st (s : kernel) (cid : nat) (con : container) : Prop := MallocSt {
  ms_proc : runs_in s cid;
  ms_con : k_ctable s !! cid = Some con;
  ms_ids : ctable_ids (k_ctable s);
  ms_kmem : kmem_ready s;
  ms_conslock : lock_free (k_hw s) L_cons;
  ms_console : cons_ok (k_cons s)
}.

(** Entry [j] is the first that holds no process; [done] says whether the loop
    passed it. *)
Record first_free (id : Z) (j : nat) (passed : bool) (t : list proc) : Prop := FirstFree {
  ff_entry : exists q, t !! j = Some q /\ p_state q = UNUSED /\ p_pid q = 0
               /\ (p_killed q = 1 \/ (passed = false /\ p_containerID q = id));
  ff_first : forall k q, (k < j)%nat -> t !! k = Some q -> p_pid q <> 0 /\ p_state q <> UNUSED
}.

End vocabulary.

(** ** Runs of the operations *)

Section rules.
Context {E : Env} (fuel_pos : (0 < fuel)%nat).

Lemma get_container_run s i c : k_ctable s !! i = Some c -> get_container i s = Done c s.
Proof. intros H. unfold get_container. kstep. by rewrite H. Qed.

Lemma index_run why id n s : 0 <= id < Z.of_nat n -> index why id n s = Done (Z.to_nat id) s.
Proof.
  intros H. unfold index. rewrite (proj2 (Z.leb_le _ _)), (proj2 (Z.ltb_lt _ _)) by lia. done.
Qed.

Lemma get_containers_run s i :
  (i < length (k_containers s))%nat ->
  exists v, k_containers s !! i = Some v /\ get_containers (Z.of_nat i) s = Done v s.
Proof.
  intros H. destruct (lookup_lt_is_Some_2 _ _ H) as [v Hv]. exists v. split; [done|].
  unfold get_containers. kstep. kapply index_run by lia. by rewrite Nat2Z.id, Hv.
Qed.

Lemma set_containers_run s i v :
  (i < length (k_containers s))%nat ->
  set_containers (Z.of_nat i) v s = Done tt (s <| k_containers ::= <[i := v]> |>).
Proof.
  intros H. unfold set_containers. kstep. kapply index_run by lia. by rewrite Nat2Z.id.
Qed.

Lemma try_container_skip s j c :
  ctable_ids (k_ctable s) -> length (k_containers s) = NCONT ->
  k_ctable s !! j = Some c -> ~ free_id (k_containers s) c -> try_container j s = Done None s.
Proof.
  intros [Hlc Hids] Hlu Hc Hn. pose proof (lookup_lt_Some _ _ _ Hc) as Hj.
  destruct (get_containers_run s j) as (v & Hv & Hg); [lia|].
  unfold try_container. krun (get_container_run s j c Hc).
  unfold free_id in Hn. rewrite (Hids j c Hc), Nat2Z.id, Hv in *. krun Hg.
  destruct (v =? 0) eqn:Ev; [|done]. apply Z.eqb_eq in Ev as ->.
  destruct (Z.of_nat j =? 0) eqn:Ej; [done|]. apply Z.eqb_neq in Ej. naive_solver.
Qed.

Lemma try_container_free s s' i c :
  ctable_ids (k_ctable s) -> length (k_containers s) = NCONT ->
  k_ctable s !! i = Some c -> free_id (k_containers s) c ->
  release L_ctable (s <| k_containers ::= <[i := 1]> |>
                      <| k_ctable ::= alter (fun c => c <| ct_state := CWAITING |>) i |>) = Done tt s' ->
  try_container i s = Done (Some (Z.of_nat i)) s'.
Proof.
  intros [Hlc Hids] Hlu Hc [Hu Hne] Hr. pose proof (lookup_lt_Some _ _ _ Hc) as Hi.
  destruct (get_containers_run s i) as (v & Hv & Hg); [lia|].
  unfold try_container. krun (get_container_run s i c Hc).
  rewrite (Hids i c Hc), Nat2Z.id, Hv in *. simplify_eq. krun Hg.
  rewrite (proj2 (Z.eqb_neq _ _) Hne). cbn [andb negb Z.eqb].
  kapply set_containers_run by lia. kstep. by krun Hr.
Qed.

Lemma createContainer_found s i c :
  ctable_ok s -> ctable_ready s -> list_find (free_id (k_containers s)) (k_ctable s) = Some (i, c) ->
  createContainer s =
    Done (Z.of_nat i) (s <| k_containers ::= <[i := 1]> |>
                         <| k_ctable ::= alter (fun c => c <| ct_state := CWAITING |>) i |>).
Proof.
  intros [Hids Hlu _] [Hcli Hl Hcl Hco] Hf. pose proof Hf as (Hc & Hu & _)%list_find_Some.
  destruct (lock_section s L_ctable fuel_pos Hcli Hl) as (h & Ha & _ & _ & Hrel).
  unfold createContainer. krun Ha. set (s1 := s <| k_hw := h |>).
  replace conts with (seq 0 (length (k_ctable s1))) by (cbn; by rewrite (proj1 Hids)).
  erewrite bind_done; [|eapply (for_find_some k_ctable (free_id (k_containers s))); [|exact Hf|]].
  - reflexivity.
  - intros j c' Hj Hn. by eapply try_container_skip.
  - eapply (try_container_free s1); [done..|]. by rewrite Hrel by done.
Qed.

Lemma createContainer_full s :
  ctable_ok s -> ctable_ready s -> list_find (free_id (k_containers s)) (k_ctable s) = None ->
  exists cs, createContainer s = Done (-1) (s <| k_cons := cs |>)
    /\ emits (cstr "Couldn't create a new container
") (k_cons s) cs.
Proof.
  intros [Hids Hlu _] [Hcli Hl Hcl Hco] Hf.
  destruct (lock_section s L_ctable fuel_pos Hcli Hl) as (h & Ha & (i & c & Hr) & Ho & Hrel).
  unfold createContainer. krun Ha. set (s1 := s <| k_hw := h |>).
  replace conts with (seq 0 (length (k_ctable s1))) by (cbn; by rewrite (proj1 Hids)).
  erewrite bind_done; [|eapply (for_find_none k_ctable (free_id (k_containers s))); [|exact Hf]]; cycle 1.
  { intros j c' Hj Hn. by eapply try_container_skip. }
  cbv beta match. destruct (cprintf_run "Couldn't create a new container
" [] s1 i c) as (cs & Hp & He); [done|done|by apply Ho|done|done|].
  exists cs. split; [|exact He]. krun Hp. by kapply Hrel.
Qed.

Lemma length_destroy_step id t i : length (destroy_step id t i) = length t.
Proof.
  unfold destroy_step. destruct (t !! i); [|done]. destruct (_ =? id); [|done].
  destruct (list_find _ t) as [[j ?]|]; [|done]. apply length_alter.
Qed.

Lemma length_destroy_loop id t l : length (foldl (destroy_step id) t l) = length t.
Proof.
  revert t. induction l as [|i l IH]; intros t; [done|]. cbn [foldl].
  by rewrite IH, length_destroy_step.
Qed.

Lemma destroy_loop_run id h0 h1 l s :
  cli_ok h0 -> lock_free h0 L_ptable ->
  (forall s', k_hw s' = h0 -> acquire L_ptable s' = Done tt (s' <| k_hw := h1 |>)) ->
  (forall s', k_hw s' = h1 -> release L_ptable s' = Done tt (s' <| k_hw := h0 |>)) ->
  k_hw s = h1 -> length (k_ptable s) = NPROC -> (forall i, i ∈ l -> (i < NPROC)%nat) ->
  for_each l (destroy_proc id) s
  = Done tt (s <| k_ptable ::= fun t => foldl (destroy_step id) t l |>).
Proof.
  intros Hcli Hfree Hacq Hrel. revert s. induction l as [|i l IH]; intros s Hs Hlen Hl; [by destruct s|].
  assert (destroy_proc id i s = Done tt (s <| k_ptable ::= fun t => destroy_step id t i |>)) as Hi.
  { destruct (lookup_lt_is_Some_2 (k_ptable s) i) as [p Hp]; [rewrite Hlen; apply Hl; by left|].
    unfold destroy_proc, destroy_step. krun (get_proc_run s i p Hp).
    destruct (p_containerID p =? id) eqn:Ec; unfold when; cycle 1.
    { unfold mret, M_ret. f_equal. symmetry. apply set_fix. by rewrite Hp, Ec. }
    kapply Hrel. set (s1 := s <| k_hw := h0 |>).
    assert (ptable_ready s1) as Hr by (by split).
    pose proof (kill_run (p_pid p) s1 fuel_pos Hr) as Hk. cbn [k_ptable s1] in Hk.
    change (k_ptable s1) with (k_ptable s) in Hk.
    destruct (list_find _ (k_ptable s)) as [[j q]|] eqn:Ef; krun Hk; rewrite Hacq by done; f_equal.
    - transitivity (s <| k_ptable ::= alter killed j |>); [subst h1; by destruct s|].
      apply set_ext. by rewrite Hp, Ec, Ef.
    - transitivity s; [subst h1; by destruct s|]. symmetry.
      apply set_fix. by rewrite Hp, Ec, Ef. }
  cbn [for_each foldl]. krun Hi. rewrite IH; [by rewrite set_set|done| |].
  - cbn. by rewrite length_destroy_step.
  - intros. apply Hl. by right.
Qed.

Lemma destroyContainer_run s con :
  ctable_ok s -> ctable_ready s -> ptable_ready s -> (con < NCONT)%nat ->
  destroyContainer (Z.of_nat con) s =
    Done tt (s <| k_ctable ::= alter (fun c => c <| ct_state := CUNUSED |>) con |>
               <| k_containers ::= <[con := 0]> |>
               <| k_ptable ::= destroy_all (Z.of_nat con) |>).
Proof.
  intros [Hids Hlu _] [Hcli Hl Hcl Hco] [_ Hpl Hlen] Hcon.
  destruct (lock_section s L_ctable fuel_pos Hcli Hl) as (h & Ha & _ & Ho & Hrel).
  unfold destroyContainer. krun Ha. kapply index_run by lia. rewrite Nat2Z.id. kstep.
  kapply set_containers_run by (cbn; lia). kapply Hrel.
  set (s1 := s <| k_ctable ::= alter (fun c => c <| ct_state := CUNUSED |>) con |>
               <| k_containers ::= <[con := 0]> |>).
  replace (set k_hw _ _) with s1 by (by destruct s).
  destruct (lock_section s1 L_ptable fuel_pos Hcli Hpl) as (h1 & Ha1 & _ & _ & Hrel1).
  krun Ha1. erewrite bind_done; [|eapply (destroy_loop_run _ (k_hw s) h1); try done].
  - rewrite Hrel1 by done. unfold destroy_all.
    generalize (fun t => foldl (destroy_step (Z.of_nat con)) t procs). intros F. by destruct s.
  - intros s' Hs'. by eapply (lock_again s1).
  - intros i [_ Hi]%elem_of_seq. done.
Qed.

(** The processes with the id [pid] as [f] changes them. *)
Lemma upd_pid_run pid f s :
  length (k_ptable s) = NPROC ->
  for_each procs (fun i => p ← get_proc i ; when (p_pid p =? pid) (upd_proc i f)) s
  = Done tt (s <| k_ptable ::= map (fun p => if p_pid p =? pid then f p else p) |>).
Proof.
  intros Hl. rewrite (procs_table s Hl). apply (for_each_map k_ptable).
  intros i p s' Hp _. krun (get_proc_run s' i p Hp).
  destruct (p_pid p =? pid) eqn:Ep; unfold when.
  - rewrite upd_proc_run. f_equal. eapply set_alter_ext; [done|]. by rewrite Ep.
  - unfold mret, M_ret. f_equal. symmetry. eapply set_alter_fix; [done|]. by rewrite Ep.
Qed.

Lemma removeProcessFromContainer_run pid s :
  ptable_ready s ->
  removeProcessFromContainer pid s =
    Done tt (s <| k_ptable ::= map (fun p => if p_pid p =? pid then p <| p_containerID := 0 |> else p) |>).
Proof.
  intros Hs. destruct (ptable_section s fuel_pos Hs) as (h & Ha & _ & _ & Hrel).
  unfold removeProcessFromContainer. krun Ha. kapply upd_pid_run by apply Hs.
  by rewrite Hrel by done.
Qed.

Lemma addProcessToContainer_run pid id s :
  ptable_ready s -> lock_free (k_hw s) L_cons -> cons_ok (k_cons s) ->
  exists cs,
    addProcessToContainer pid id s =
      Done tt (s <| k_ptable ::= map (fun p => if p_pid p =? pid then p <| p_containerID := id |> else p) |>
                 <| k_cons := cs |>)
    /\ emits (cformat (cstr "Process %d added to %d container
") [AInt pid; AInt id]) (k_cons s) cs.
Proof.
  intros Hs Hcl Hco. destruct (ptable_section s fuel_pos Hs) as (h & Ha & _ & _ & Hrel).
  destruct (pr_cli _ Hs) as (i & c & Hr).
  set (s1 := s <| k_ptable ::= map (fun p => if p_pid p =? pid then p <| p_containerID := id |> else p) |>).
  destruct (cprintf_run "Process %d added to %d container
" [AInt pid; AInt id] s1 i c) as (cs & Hp & He); [done..|].
  exists cs. split; [|done]. unfold addProcessToContainer. krun Ha.
  kapply upd_pid_run by apply Hs. kapply Hrel. by rewrite <- Hp.
Qed.

Lemma killed_pid p : p_pid (killed p) = p_pid p.
Proof. unfold killed. cbv zeta. by destruct (decide _). Qed.

Lemma destroy_step_ok id t n i : ptable_ok t n -> ptable_ok (destroy_step id t i) n.
Proof.
  intros H. unfold destroy_step. destruct (t !! i); [|done]. destruct (_ =? id); [|done].
  destruct (list_find _ t) as [[j ?]|]; [|done]. apply ptable_ok_alter; [|done].
  intros; apply killed_pid.
Qed.

(** A step of the loop kills the process it stands at and no other, apart from
    entries that hold no process. *)
Lemma destroy_step_live id t n i k p :
  ptable_ok t n -> t !! k = Some p -> p_pid p <> 0 ->
  destroy_step id t i !! k = Some (if decide (k = i /\ p_containerID p = id) then killed p else p).
Proof.
  intros [_ _ _ Hu] Hk Hp. unfold destroy_step.
  destruct (t !! i) as [q|] eqn:Hq; [|rewrite decide_False by naive_solver; done].
  destruct (p_containerID q =? id) eqn:Ec; cycle 1.
  { apply Z.eqb_neq in Ec. rewrite decide_False by naive_solver. done. }
  apply Z.eqb_eq in Ec. destruct (list_find _ t) as [[j r]|] eqn:Ef.
  - apply list_find_Some in Ef as (Hr & Hrq & _). destruct (decide (j = k)) as [->|Hne].
    + assert (k = i) as -> by (eapply (Hu k i p q); congruence).
      rewrite list_lookup_alter_eq, Hq. cbn. rewrite decide_True by naive_solver. congruence.
    + rewrite list_lookup_alter_ne by done. rewrite decide_False; [done|]. intros [-> _].
      apply Hne. eapply (Hu j i r q); congruence.
  - rewrite list_find_None, Forall_lookup in Ef. by destruct (Ef i q Hq).
Qed.

Lemma destroy_loop_live id t n l k p :
  NoDup l -> ptable_ok t n -> t !! k = Some p -> p_pid p <> 0 ->
  foldl (destroy_step id) t l !! k =
    Some (if decide (k ∈ l /\ p_containerID p = id) then killed p else p).
Proof.
  intros Hnd. revert t p. induction Hnd as [|i l Hi Hnd IH]; intros t p Ht Hk Hp; cbn [foldl].
  { rewrite decide_False by set_solver. done. }
  pose proof (destroy_step_live id t n i k p Ht Hk Hp) as H1.
  rewrite (IH _ _ (destroy_step_ok id t n i Ht) H1) by (case_decide; by rewrite ?killed_pid).
  f_equal. destruct (decide (k = i /\ p_containerID p = id)) as [[-> Hc]|Hn].
  - rewrite decide_False by naive_solver. by rewrite decide_True by set_solver.
  - destruct (decide (k ∈ l /\ p_containerID p = id)) as [[Hk' Hc]|Hn'].
    + by rewrite decide_True by set_solver.
    + rewrite decide_False; [done|]. intros [Hk' Hc]. apply elem_of_cons in Hk' as [->|?]; naive_solver.
Qed.

Lemma gtcid_run s i c cp p n id :
  runs_on (k_hw s) i c -> c_proc c = Some cp -> k_ptable s !! cp = Some p -> p_pid p <> 0 ->
  ptable_ok (k_ptable s) n -> p_containerID p = id -> gtcid s = Done id s.
Proof.
  intros Hr Hc Hp Hpid [Hl _ _ Hu] <-. unfold gtcid, curproc.
  erewrite bind_done by (krun (myproc_run s i c Hr); by rewrite Hc). cbv beta.
  krun (get_proc_run s cp p Hp). rewrite (procs_table s Hl).
  assert (list_find (fun q => p_pid q = p_pid p) (k_ptable s) = Some (cp, p)) as Hf.
  { apply list_find_Some. split_and!; [done..|]. intros j q Hj Hlt Hq.
    assert (j = cp) by (eapply (Hu j cp q p); congruence). lia. }
  erewrite bind_done; [|eapply (for_find_some k_ptable (fun q => p_pid q = p_pid p)); [|exact Hf|]].
  - cbv beta. cbn [default from_option id]. by krun (get_proc_run s cp p Hp).
  - intros j q Hj Hne. krun (get_proc_run s j q Hj). by rewrite (proj2 (Z.eqb_neq _ _) Hne).
  - krun (get_proc_run s cp p Hp). by rewrite Z.eqb_refl.
Qed.

Lemma upd_page_run s c con n f :
  k_ctable s !! c = Some con -> 0 <= n < Z.of_nat (length (pt_page (ct_pgTable con))) ->
  upd_page c n f s = Done tt (s <| k_ctable ::= alter (fun con => con <| ct_pgTable ::=
    fun t => t <| pt_page ::= alter f (Z.to_nat n) |> |>) c |>).
Proof.
  intros Hc Hn. unfold upd_page. krun (get_container_run s c con Hc). by kapply index_run.
Qed.

Lemma malloc_in_start s cid con n pid c :
  runs_in s cid -> ctable_ids (k_ctable s) -> k_ctable s !! c = Some con ->
  malloc_in n pid c s =
    if decide (c = cid) then
      (let nextGVA := ct_nextGVA con in
       let nextFree := pt_next (ct_pgTable con) in
       upd_container c (fun con => con <| ct_nextGVA ::= fun g => i32 (g + n) |>) ;;
       upd_container c (fun con => con <| ct_pgTable ::= fun t => t <| pt_next ::= Z.add 1 |> |>) ;;
       upd_page c nextFree (fun e => e <| pg_GVA := nextGVA |>) ;;
       hva ← kalloc ;
       upd_page c nextFree (fun e => e <| pg_HVA := hva |>) ;;
       upd_page c nextFree (fun e => e <| pg_pid := pid |>) ;;
       log ← gets k_memoryLog ;
       when (log =? 1) (cprintf "%d  %p
" [AInt nextGVA; AInt hva] ;; cprintf "%d
" [AInt pid])) s
    else Done tt s.
Proof.
  intros (i & cc & cp & p & Hr & Hcp & Hp & Hcid) [_ Hids] Hc. unfold malloc_in.
  krun (get_container_run s c con Hc). unfold curproc.
  erewrite bind_done by (krun (myproc_run s i cc Hr); by rewrite Hcp). cbv beta.
  krun (get_proc_run s cp p Hp). rewrite Hcid, (Hids c con Hc).
  case_decide as Hd; unfold when at 1.
  - subst c. by rewrite Z.eqb_refl.
  - rewrite (proj2 (Z.eqb_neq _ _)) by lia. done.
Qed.

Lemma taken_ctable f s : taken (s <| k_ctable ::= f |>) = (taken s) <| k_ctable ::= f |>.
Proof. unfold taken. cbn. by destruct (nz _). Qed.

Lemma ctable_taken s : k_ctable (taken s) = k_ctable s.
Proof. unfold taken. by destruct (nz _). Qed.

Lemma malloc_in_run s cid con n pid :
  malloc_st s cid con ->
  0 <= pt_next (ct_pgTable con) < Z.of_nat (length (pt_page (ct_pgTable con))) ->
  exists cs, malloc_in n pid cid s =
    Done tt ((taken s) <| k_ctable ::= alter (with_page n (km_freelist (k_kmem s)) pid) cid |> <| k_cons := cs |>)
    /\ cons_ok cs.
Proof.
  intros Hs Hn. pose proof Hs as [(i & cc & cp & p & Hr & Hcp & Hp & Hcid) Hcon Hids Hk Hcl Hco].
  rewrite (malloc_in_start s cid con n pid cid (ms_proc _ _ _ Hs) Hids Hcon), decide_True by done.
  cbv zeta.
  kstep. kstep. rewrite set_alter2.
  erewrite bind_done; [|eapply upd_page_run; [apply lookup_set_alter, Hcon|done]]. cbv beta.
  rewrite set_alter2. set (s1 := set k_ctable _ s).
  kapply kalloc_run. change (km_freelist (k_kmem s1)) with (km_freelist (k_kmem s)).
  set (hva := km_freelist (k_kmem s)). subst s1. rewrite taken_ctable.
  assert (k_ctable (taken s) !! cid = Some con) as Hcon' by (by rewrite ctable_taken).
  erewrite bind_done; [|eapply upd_page_run; [apply lookup_set_alter, Hcon'|]]; cycle 1.
  { cbn. by rewrite !length_alter. }
  cbv beta. rewrite set_alter2.
  erewrite bind_done; [|eapply upd_page_run; [apply lookup_set_alter, Hcon'|]]; cycle 1.
  { cbn. by rewrite !length_alter. }
  cbv beta. rewrite set_alter2. kstep.
  erewrite (set_alter_ext k_ctable _ (with_page n hva pid)); [|exact Hcon'|]; cycle 1.
  { unfold with_page, set; cbn. do 2 f_equal. rewrite !alter_alter. by apply alter_insert. }
  set (s2 := set k_ctable _ _).
  assert (k_hw s2 = k_hw s /\ k_cons s2 = k_cons s) as [Hhw Hcs]
    by (subst s2; cbn; unfold taken; by destruct (nz _)).
  rewrite <- Hhw in Hr, Hcl. destruct (_ =? 1); unfold when; cycle 1.
  { exists (k_cons s2). rewrite set_fix by done. split; [done|]. by rewrite Hcs. }
  destruct (cprintf_run "%d  %p
" [AInt (ct_nextGVA con); AInt hva] s2 i cc) as (cs & Hp1 & He1); [done..|by rewrite Hcs|done|].
  destruct (cprintf_run "%d
" [AInt pid] (s2 <| k_cons := cs |>) i cc) as (cs2 & Hp2 & He2);
    [done..|apply He1|done|].
  exists cs2. krun Hp1. rewrite Hp2. split; [|apply He2]. by rewrite set_set.
Qed.

Lemma malloc_in_skip s cid n pid c :
  runs_in s cid -> ctable_ids (k_ctable s) -> c ∈ conts -> c <> cid -> malloc_in n pid c s = Done tt s.
Proof.
  intros Hs Hids [_ Hc]%elem_of_seq Hne.
  destruct (lookup_lt_is_Some_2 (k_ctable s) c) as [con Hcon]; [by rewrite (proj1 Hids)|].
  by rewrite (malloc_in_start s cid con), decide_False.
Qed.

Lemma ctable_ids_alter ct i f :
  (forall c, ct_containerID (f c) = ct_containerID c) -> ctable_ids ct -> ctable_ids (alter f i ct).
Proof.
  intros Hf [Hl Hids]. split; [by rewrite length_alter|]. intros j c Hj.
  destruct (decide (i = j)) as [->|Hne].
  - rewrite list_lookup_alter_eq in Hj. destruct (ct !! j) as [c'|] eqn:E'; [|done]. cbn in Hj.
    simplify_eq. rewrite Hf. by apply Hids.
  - rewrite list_lookup_alter_ne in Hj by done. by apply Hids.
Qed.

(** [container_malloc] up to its loop, for the container [cid] of the caller. *)
Lemma malloc_enter s cid con n pid :
  malloc_st s cid con -> lock_free (k_hw s) L_ctable ->
  exists h, malloc_st (s <| k_hw := h |>) cid con
    /\ (forall s', k_hw s' = h -> release L_ctable s' = Done tt (s' <| k_hw := k_hw s |>))
    /\ container_malloc n pid s =
         (for_each conts (malloc_in n pid) ;; release L_ctable) (s <| k_hw := h |>).
Proof.
  intros [(i & c & cp & p & Hr & Hcp & Hp) Hcon Hids [Hcli Hk] Hcl Hco] Hl.
  destruct (critical_section s i c L_ctable fuel_pos Hr Hl) as (h & c' & Ha & Hr' & Hc' & Ho & _ & Hrel).
  exists h. split_and!; [|done|unfold container_malloc; by krun Ha].
  split; [|done..| |by apply Ho|done].
  - exists i, c', cp, p. by rewrite Hc'.
  - split; [by exists i, c'|]. destruct Hk as [?|[? ?]]; [by left|right]. split; [done|by apply Ho].
Qed.

Lemma container_malloc_run s cid con n pid :
  malloc_st s cid con -> lock_free (k_hw s) L_ctable ->
  0 <= pt_next (ct_pgTable con) < Z.of_nat (length (pt_page (ct_pgTable con))) ->
  exists cs, container_malloc n pid s =
    Done tt ((taken s) <| k_ctable ::= alter (with_page n (km_freelist (k_kmem s)) pid) cid |>
                       <| k_cons := cs |>).
Proof.
  intros Hs Hl Hn. destruct (malloc_enter s cid con n pid Hs Hl) as (h & Hs1 & Hrel & ->).
  set (s1 := s <| k_hw := h |>) in *.
  destruct (malloc_in_run s1 cid con n pid Hs1 Hn) as (cs & Hm & _). exists cs.
  assert (cid < NCONT)%nat as Hcid.
  { pose proof (lookup_lt_Some _ _ _ (ms_con _ _ _ Hs)). by rewrite (proj1 (ms_ids _ _ _ Hs)) in *. }
  assert (conts = seq 0 cid ++ cid :: seq (S cid) (NCONT - S cid)) as Hsplit.
  { unfold conts. replace NCONT with (cid + S (NCONT - S cid))%nat at 1 by lia. by rewrite seq_app. }
  rewrite Hsplit. erewrite bind_done; [|eapply for_each_one; [|exact Hm|]]; cycle 1.
  { intros y Hy. apply elem_of_seq in Hy. eapply malloc_in_skip; [apply Hs1|apply Hs1| |lia].
    apply elem_of_seq. lia. }
  { intros y Hy. apply elem_of_seq in Hy. eapply (malloc_in_skip _ cid); [| | |lia].
    - destruct (ms_proc _ _ _ Hs1) as (i & c & cp & p & ?). exists i, c, cp, p. cbn.
      unfold taken. by destruct (nz _).
    - cbn. apply ctable_ids_alter; [done|]. rewrite ctable_taken. apply Hs1.
    - apply elem_of_seq. lia. }
  cbv beta. rewrite Hrel; [|cbn; unfold taken; by destruct (nz _)].
  f_equal. unfold taken. cbn. by destruct (nz _), s.
Qed.

Lemma container_malloc_full s cid con n pid :
  malloc_st s cid con -> lock_free (k_hw s) L_ctable ->
  pt_next (ct_pgTable con) = Z.of_nat (length (pt_page (ct_pgTable con))) ->
  exists s', container_malloc n pid s = Stop (Faulted "pgTable.page") s'.
Proof.
  intros Hs Hl Hn. destruct (malloc_enter s cid con n pid Hs Hl) as (h & Hs1 & _ & ->).
  set (s1 := s <| k_hw := h |>) in *.
  assert (cid < NCONT)%nat as Hcid.
  { pose proof (lookup_lt_Some _ _ _ (ms_con _ _ _ Hs)). by rewrite (proj1 (ms_ids _ _ _ Hs)) in *. }
  assert (conts = seq 0 cid ++ cid :: seq (S cid) (NCONT - S cid)) as Hsplit.
  { unfold conts. replace NCONT with (cid + S (NCONT - S cid))%nat at 1 by lia. by rewrite seq_app. }
  assert (exists s', malloc_in n pid cid s1 = Stop (Faulted "pgTable.page") s') as (s2 & Hm).
  { destruct Hs1 as [Hr Hcon Hids _ _ _].
    rewrite (malloc_in_start s1 cid con n pid cid Hr Hids Hcon), decide_True by done. cbv zeta.
    kstep. kstep. rewrite set_alter2. eexists. apply bind_stop. unfold upd_page.
    erewrite bind_done by (apply get_container_run, lookup_set_alter, Hcon). apply bind_stop.
    unfold index. cbn. rewrite Hn, Z.ltb_irrefl, andb_false_r. done. }
  exists s2. apply bind_stop. rewrite Hsplit. erewrite for_each_app; [by apply bind_stop|].
  apply for_each_skip. intros y Hy. apply elem_of_seq in Hy.
  eapply malloc_in_skip; [apply Hs1|apply Hs1| |lia]. apply elem_of_seq. lia.
Qed.

Lemma createContainer_ok s :
  ctable_ok s -> ctable_ready s ->
  wp createContainer (fun _ s' => ctable_ok s') s.
Proof.
  intros Hs Hr. destruct (list_find (free_id (k_containers s)) (k_ctable s)) as [[i c]|] eqn:Ef.
  - eapply wp_intro; [by eapply createContainer_found|]. destruct Hs as [Hids Hlu Hsync].
    split; cbn; [by apply ctable_ids_alter|by rewrite length_insert|].
    intros j c' Hj Hc'. destruct (decide (i = j)) as [->|Hne].
    + rewrite list_lookup_alter_eq in Hc'. apply list_find_Some in Ef as (Hc & _ & _).
      rewrite Hc in Hc'. cbn in Hc'. simplify_eq.
      rewrite list_lookup_insert_eq; [done|]. rewrite Hlu, <- (proj1 Hids). by eapply lookup_lt_Some.
    + rewrite list_lookup_alter_ne in Hc' by done. rewrite list_lookup_insert_ne by done. eauto.
  - destruct (createContainer_full s Hs Hr Ef) as (cs & Hd & _). eapply wp_intro; [done|].
    destruct Hs. by split.
Qed.

Lemma destroyContainer_ok s con :
  ctable_ok s -> ctable_ready s -> ptable_ready s -> (con < NCONT)%nat ->
  wp (destroyContainer (Z.of_nat con)) (fun _ s' => ctable_ok s') s.
Proof.
  intros Hs Hr Hp Hcon. eapply wp_intro; [by apply destroyContainer_run|].
  destruct Hs as [Hids Hlu Hsync]. split; [by apply ctable_ids_alter|by rewrite <- Hlu; apply length_insert|].
  intros j c' Hj Hc'. cbn -[destroy_all] in Hc' |- *. destruct (decide (con = j)) as [->|Hne].
  - rewrite list_lookup_alter_eq in Hc'. destruct (k_ctable s !! j) eqn:Hc; [|done].
    cbn in Hc'. simplify_eq. rewrite list_lookup_insert_eq by (by rewrite Hlu). naive_solver.
  - rewrite list_lookup_alter_ne in Hc' by done. rewrite list_lookup_insert_ne by done. eauto.
Qed.

(** [containerInit] on tables that were zeroed when the kernel was loaded. *)
Lemma containerInit_ok s :
  length (k_ctable s) = NCONT -> k_containers s = replicate NCONT 0 ->
  wp containerInit (fun _ s' => ctable_ok s' /\ k_containers s' = replicate NCONT 0
    /\ exists c, k_ctable s' !! 0%nat = Some c /\ ct_state c = CWAITING) s.
Proof.
  intros Hl Hu. unfold containerInit. eapply wp_bind_mono.
  { apply (wp_for_each (fun pre s1 => length (k_ctable s1) = NCONT /\ k_containers s1 = replicate NCONT 0 /\
      forall j c, j ∈ pre -> k_ctable s1 !! j = Some c ->
        ct_containerID c = Z.of_nat j /\ ct_state c = CUNUSED)); [set_solver|].
    intros pre i rest s1 _ (Hl1 & Hu1 & Hpre). eapply wp_intro; [do 3 kstep; reflexivity|]. cbn.
    rewrite !length_alter. split_and!; [done..|]. rewrite !alter_alter.
    intros j c Hj. destruct (decide (i = j)) as [->|Hne].
    - rewrite list_lookup_alter_eq. destruct (k_ctable s1 !! j); [|done]. cbn. naive_solver.
    - rewrite list_lookup_alter_ne by done. apply Hpre. set_solver. }
  intros _ s1 (Hl1 & Hu1 & Hc). eapply wp_intro; [reflexivity|].
  destruct (lookup_lt_is_Some_2 (k_ctable s1) 0) as [c0 Hc0]; [rewrite Hl1; unfold NCONT; lia|].
  split_and!; [|done|eexists; cbn; rewrite list_lookup_alter_eq, Hc0; done].
  assert (forall j c, k_ctable s1 !! j = Some c -> ct_containerID c = Z.of_nat j /\ ct_state c = CUNUSED) as Hc'.
  { intros j c Hj. apply Hc; [|done]. apply elem_of_seq. apply lookup_lt_Some in Hj. lia. }
  split; cbn.
  - apply ctable_ids_alter; [done|]. split; [done|]. intros j c Hj. by apply Hc'.
  - by rewrite Hu1.
  - intros j c Hj. rewrite list_lookup_alter_ne by lia. intros Hjc. rewrite Hu1.
    destruct (Hc' j c Hjc) as [_ ->]. split; [done|]. intros []. apply lookup_replicate_2.
    apply lookup_lt_Some in Hjc. lia.
Qed.

(** *** Entries that hold no process *)

Lemma killed_unused p : p_state (killed p) = UNUSED <-> p_state p = UNUSED.
Proof. unfold killed. cbv zeta. cbn [p_state set]. case_decide as Hd; cbn in *; [|done]. by rewrite Hd. Qed.

Lemma killed_killed p : p_killed (killed p) = 1.
Proof. unfold killed. cbv zeta. by case_decide. Qed.

(** A step of the loop applies [killed] to some entries and leaves the others. *)
Lemma destroy_step_entry id t i k p :
  t !! k = Some p ->
  destroy_step id t i !! k = Some p \/ destroy_step id t i !! k = Some (killed p).
Proof.
  intros Hk. unfold destroy_step. destruct (t !! i) as [q|]; [|by left].
  destruct (_ =? id); [|by left]. destruct (list_find _ t) as [[j r]|]; [|by left].
  destruct (decide (j = k)) as [->|Hne].
  - rewrite list_lookup_alter_eq, Hk. by right.
  - rewrite list_lookup_alter_ne by done. by left.
Qed.

Lemma destroy_step_first id t i j b :
  first_free id j b t -> first_free id j (b || bool_decide (i = j)) (destroy_step id t i).
Proof.
  intros [(q & Hq & Hst & Hpid & Hk) Hfst]. split.
  - assert (destroy_step id t i !! j = Some (killed q) \/
      (destroy_step id t i !! j = Some q /\ (p_killed q = 1 \/ (b || bool_decide (i = j) = false /\ p_containerID q = id))))
      as [H|[H Hk']].
    { destruct (decide (i = j)) as [->|Hne]; cycle 1.
      { rewrite bool_decide_eq_false_2, orb_false_r by done.
        destruct (destroy_step_entry id t i j q Hq); auto. }
      destruct Hk as [Hk|[-> Hc]]; [destruct (destroy_step_entry id t j j q Hq); auto|].
      left. unfold destroy_step. rewrite Hq, (proj2 (Z.eqb_eq _ _) Hc).
      rewrite (proj2 (list_find_Some (fun r => p_pid r = p_pid q) t j q)).
      - by rewrite list_lookup_alter_eq, Hq.
      - split_and!; [done..|]. intros k r Hr Hlt. rewrite Hpid. by apply (Hfst k r). }
    + exists (killed q). rewrite H. split_and!; [done|by apply killed_unused|by rewrite killed_pid|].
      left. apply killed_killed.
    + exists q. rewrite H. auto.
  - intros k r Hlt Hr. destruct (t !! k) as [r0|] eqn:Hr0; cycle 1.
    { apply lookup_ge_None_1 in Hr0. rewrite <- (length_destroy_step id t i) in Hr0.
      apply lookup_lt_Some in Hr. lia. }
    destruct (Hfst k r0 Hlt Hr0) as [H1 H2].
    destruct (destroy_step_entry id t i k r0 Hr0) as [H|H]; rewrite H in Hr; simplify_eq; [done|].
    by rewrite killed_pid, killed_unused.
Qed.

Lemma destroy_loop_first id l t j b :
  first_free id j b t -> first_free id j (b || bool_decide (j ∈ l)) (foldl (destroy_step id) t l).
Proof.
  revert t b. induction l as [|i l IH]; intros t b H; cbn [foldl].
  { rewrite bool_decide_eq_false_2, orb_false_r by set_solver. done. }
  apply (destroy_step_first id t i) in H. apply IH in H.
  replace (b || bool_decide (j ∈ i :: l)) with (b || bool_decide (i = j) || bool_decide (j ∈ l)); [done|].
  rewrite <- orb_assoc. f_equal. do 3 case_bool_decide; set_solver.
Qed.

Lemma destroy_all_first id t j q :
  length t = NPROC -> t !! j = Some q -> p_state q = UNUSED -> p_pid q = 0 -> p_containerID q = id ->
  (forall k r, (k < j)%nat -> t !! k = Some r -> p_pid r <> 0 /\ p_state r <> UNUSED) ->
  first_free id j true (destroy_all id t).
Proof.
  intros Hl Hq Hst Hpid Hcid Hfst. replace true with (false || bool_decide (j ∈ procs)).
  - apply destroy_loop_first. split; [|done]. exists q. split_and!; auto.
  - apply bool_decide_eq_true_2, elem_of_seq. apply lookup_lt_Some in Hq. lia.
Qed.

Lemma destroy_all_live id t n k p :
  ptable_ok t n -> t !! k = Some p -> p_pid p <> 0 ->
  destroy_all id t !! k = Some (if decide (p_containerID p = id) then killed p else p).
Proof.
  intros Ht Hk Hpid. unfold destroy_all. rewrite (destroy_loop_live _ _ n procs k p) by (apply NoDup_seq || done).
  assert (k ∈ procs) as Hin.
  { apply elem_of_seq. apply lookup_lt_Some in Hk. rewrite (po_len _ _ Ht) in Hk. lia. }
  f_equal. do 2 case_decide; tauto.
Qed.

Lemma length_destroy_all id t : length (destroy_all id t) = length t.
Proof. apply length_destroy_loop. Qed.
End rules.

(** *** The invariant of the process table *)

Section keeps.
Context {E : Env}.

Lemma keeps_index (I : kernel -> Prop) why id n : keeps I (index why id n).
Proof. unfold index. keeps. Qed.

Lemma keeps_get_container (I : kernel -> Prop) i : keeps I (get_container i).
Proof. unfold get_container. keeps. Qed.

Lemma keeps_upd_container (I : kernel -> Prop) `{!Frame k_ctable I} i f : keeps I (upd_container i f).
Proof. unfold upd_container. keeps. Qed.

#[local] Hint Resolve keeps_index keeps_get_container keeps_upd_container : keeps.

Lemma keeps_createContainer : keeps ptable_inv createContainer.
Proof. unfold createContainer, try_container, get_containers, set_containers. keeps. Qed.

Lemma keeps_destroyContainer id : keeps ptable_inv (destroyContainer id).
Proof. unfold destroyContainer, destroy_proc, set_containers. keeps. Qed.

Lemma keeps_addProcessToContainer pid id : keeps ptable_inv (addProcessToContainer pid id).
Proof. unfold addProcessToContainer. keeps. Qed.

Lemma keeps_removeProcessFromContainer pid : keeps ptable_inv (removeProcessFromContainer pid).
Proof. unfold removeProcessFromContainer. keeps. Qed.

Lemma keeps_gtcid : keeps ptable_inv gtcid.
Proof. unfold gtcid, curproc. keeps. Qed.

Lemma keeps_psHelper pid id : keeps ptable_inv (psHelper pid id).
Proof. unfold psHelper. keeps. Qed.

Lemma keeps_listContainersHelper : keeps ptable_inv listContainersHelper.
Proof. unfold listContainersHelper. keeps. Qed.

Lemma keeps_container_malloc n pid : keeps ptable_inv (container_malloc n pid).
Proof. unfold container_malloc, malloc_in, curproc, upd_page. keeps. Qed.

End keeps.

(** ** Properties *)

Section properties.
Context {E : Env}.

(** C24: [createContainer] returns the least free id other than 0, marks
    it in use and makes the container schedulable; with no free id it returns -1,
    prints its message and changes nothing else. *)
Theorem createContainer_least s :
  (0 < fuel)%nat -> ctable_ok s -> ctable_ready s ->
  (exists id, (0 < id < NCONT)%nat /\ k_containers s !! id = Some 0
     /\ (forall j, (0 < j < id)%nat -> k_containers s !! j <> Some 0)
     /\ createContainer s =
          Done (Z.of_nat id) (s <| k_containers ::= <[id := 1]> |>
                                <| k_ctable ::= alter (fun c => c <| ct_state := CWAITING |>) id |>))
  \/ ((forall j, (0 < j < NCONT)%nat -> k_containers s !! j <> Some 0)
      /\ exists cs, createContainer s = Done (-1) (s <| k_cons := cs |>)
           /\ emits (cstr "Couldn't create a new container
") (k_cons s) cs).
Proof.
  intros Hf Hs Hr. pose proof (co_ids _ Hs) as [Hl Hids].
  assert (forall j, (j < NCONT)%nat -> exists c, k_ctable s !! j = Some c) as Hall.
  { intros j Hj. apply lookup_lt_is_Some_2. by rewrite Hl. }
  destruct (list_find (free_id (k_containers s)) (k_ctable s)) as [[i c]|] eqn:Ef; [left|right].
  - pose proof Ef as (Hc & [Hu Hne] & Hlt)%list_find_Some. pose proof (lookup_lt_Some _ _ _ Hc) as Hi.
    rewrite (Hids i c Hc), Nat2Z.id in *. exists i. split_and!; [lia|lia|done| |by eapply createContainer_found].
    intros j Hj He. destruct (Hall j) as [cj Hcj]; [lia|]. apply (Hlt j cj Hcj); [lia|].
    unfold free_id. rewrite (Hids j cj Hcj), Nat2Z.id. split; [done|lia].
  - split; [|by apply createContainer_full]. intros j Hj He. destruct (Hall j) as [cj Hcj]; [lia|].
    rewrite list_find_None, Forall_lookup in Ef. apply (Ef j cj Hcj).
    unfold free_id. rewrite (Hids j cj Hcj), Nat2Z.id. split; [done|lia].
Qed.

(** C13: the table of containers and the array of ids in use agree:
    [containerInit] establishes this, with container 0 schedulable, and
    [createContainer] and [destroyContainer] return and keep it. *)
Theorem ctable_invariant s :
  (0 < fuel)%nat ->
  (length (k_ctable s) = NCONT -> k_containers s = replicate NCONT 0 ->
     wp containerInit (fun _ s' => ctable_ok s'
       /\ exists c, k_ctable s' !! 0%nat = Some c /\ ct_state c = CWAITING) s)
  /\ (ctable_ok s -> ctable_ready s -> wp createContainer (fun _ s' => ctable_ok s') s)
  /\ (forall id, ctable_ok s -> ctable_ready s -> ptable_ready s -> (id < NCONT)%nat ->
        wp (destroyContainer (Z.of_nat id)) (fun _ s' => ctable_ok s') s).
Proof.
  intros Hf. split_and!.
  - intros Hl Hu. eapply wp_mono; [by apply containerInit_ok|]. cbn. tauto.
  - intros. by apply createContainer_ok.
  - intros. by apply destroyContainer_ok.
Qed.

(** [destroyContainer] frees the id, takes the container off the
    schedule, and kills every process of the container: each is marked killed,
    woken if it slept and moved to container 0, which is scheduled; processes of
    other containers are untouched. *)
Theorem destroyContainer_kills_members s id n :
  (0 < fuel)%nat -> ctable_ok s -> ctable_ready s -> ptable_ready s -> ptable_ok (k_ptable s) n ->
  (id < NCONT)%nat ->
  exists s', destroyContainer (Z.of_nat id) s = Done tt s'
    /\ k_containers s' !! id = Some 0
    /\ (forall c, k_ctable s' !! id = Some c -> ct_state c = CUNUSED)
    /\ (forall k p, k_ptable s !! k = Some p -> p_pid p <> 0 ->
          k_ptable s' !! k = Some (if decide (p_containerID p = Z.of_nat id) then killed p else p)).
Proof.
  intros Hf Hs Hr Hp Ht Hid. eexists. split; [by apply destroyContainer_run|]. split_and!.
  - cbn -[destroy_all]. apply list_lookup_insert_eq. by rewrite (co_len _ Hs).
  - intros c. cbn -[destroy_all]. rewrite list_lookup_alter_eq. destruct (k_ctable s !! id); [|done].
    cbn. intros. by simplify_eq.
  - intros k p Hk Hpid. cbn -[destroy_all]. by apply (destroy_all_live Hf _ _ n).
Qed.

(** After a process joined a container [gtcid] gives that container,
    after it left it gives 0, and the other processes are as before. *)
Theorem join_then_leave s i c cp p n id :
  (0 < fuel)%nat -> runs_on (k_hw s) i c -> c_proc c = Some cp -> k_ptable s !! cp = Some p ->
  p_pid p <> 0 -> ptable_ok (k_ptable s) n -> lock_free (k_hw s) L_ptable ->
  lock_free (k_hw s) L_cons -> cons_ok (k_cons s) ->
  exists s1 s2, addProcessToContainer (p_pid p) id s = Done tt s1 /\ gtcid s1 = Done id s1
    /\ removeProcessFromContainer (p_pid p) s1 = Done tt s2 /\ gtcid s2 = Done 0 s2
    /\ (forall k, k <> cp -> k_ptable s2 !! k = k_ptable s !! k).
Proof.
  intros Hf Hr Hc Hp Hpid Ht Hpl Hcl Hco.
  set (mv := fun id p' => if p_pid p' =? p_pid p then p' <| p_containerID := id |> else p').
  assert (forall id t, ptable_ok t n -> ptable_ok (map (mv id) t) n) as Hok.
  { intros id' t [Hl Hn Hb Hu].
    assert (forall j q, map (mv id') t !! j = Some q -> exists q', t !! j = Some q' /\ p_pid q = p_pid q') as G.
    { intros j q Hq. rewrite list_lookup_fmap in Hq. destruct (t !! j) as [q'|]; [|done].
      cbn in Hq. simplify_eq. exists q'. split; [done|]. unfold mv. by destruct (_ =? _). }
    split; [by rewrite length_map|done| |].
    - intros j q (q' & Hq & ->)%G. by eapply Hb.
    - intros j k q r (q' & Hq & ->)%G (r' & Hr' & ->)%G. by eapply Hu. }
  assert (forall id t q, t !! cp = Some q -> p_pid q = p_pid p ->
    map (mv id) t !! cp = Some (q <| p_containerID := id |>)) as Hmv.
  { intros id' t q Hq Hqp. rewrite list_lookup_fmap, Hq. cbn. unfold mv. by rewrite (proj2 (Z.eqb_eq _ _) Hqp). }
  assert (ptable_ready s) as Hpr by (split; [by exists i, c|done|apply Ht]).
  destruct (addProcessToContainer_run Hf (p_pid p) id s Hpr Hcl Hco) as (cs & Ha & _).
  eexists _, _. split_and!; [exact Ha| | | |].
  - eapply (gtcid_run Hf _ i c cp (p <| p_containerID := id |>) n); [done|done|by apply Hmv|done|by apply Hok|done].
  - apply removeProcessFromContainer_run; [done|]. split; [by exists i, c|done|].
    cbn. rewrite length_map. apply Ht.
  - eapply (gtcid_run Hf _ i c cp (p <| p_containerID := id |> <| p_containerID := 0 |>) n);
      [done|done|by apply Hmv; [apply Hmv|]|done|by apply Hok, Hok|done].
  - intros k Hk. cbn. rewrite !list_lookup_fmap. destruct (k_ptable s !! k) as [q|] eqn:Hq; [|done].
    cbn. unfold mv. assert (p_pid q <> p_pid p) as Hne.
    { intros He. apply Hk. by eapply (po_uniq _ _ Ht k cp q p); [..|rewrite He]. }
    by rewrite !(proj2 (Z.eqb_neq _ _) Hne).
Qed.

(** [container_malloc] gives the caller's container one page: it
    records the page [kalloc] returned under the next guest address, for the
    calling process, advances the guest address by the size asked for, and leaves
    every other container, the process table and the lock state as they were. *)
Theorem container_malloc_records s cid con n pid :
  (0 < fuel)%nat -> malloc_st s cid con -> lock_free (k_hw s) L_ctable ->
  0 <= pt_next (ct_pgTable con) < Z.of_nat (length (pt_page (ct_pgTable con))) ->
  exists s' con', container_malloc n pid s = Done tt s'
    /\ k_ctable s' = <[cid := con']> (k_ctable s)
    /\ pt_page (ct_pgTable con') !! Z.to_nat (pt_next (ct_pgTable con))
         = Some (PgElement (ct_nextGVA con) (km_freelist (k_kmem s)) pid)
    /\ pt_next (ct_pgTable con') = pt_next (ct_pgTable con) + 1
    /\ ct_nextGVA con' = i32 (ct_nextGVA con + n)
    /\ k_kmem s' = k_kmem (taken s) /\ k_ptable s' = k_ptable s /\ k_hw s' = k_hw s.
Proof.
  intros Hf Hs Hl Hn. destruct (container_malloc_run Hf s cid con n pid Hs Hl Hn) as (cs & Hd).
  eexists _, (with_page n (km_freelist (k_kmem s)) pid con). split; [exact Hd|]. split_and!.
  - transitivity (alter (with_page n (km_freelist (k_kmem s)) pid) cid (k_ctable (taken s))); [done|].
    rewrite ctable_taken. set (con' := with_page n (km_freelist (k_kmem s)) pid con).
    rewrite (alter_ext_at (with_page n (km_freelist (k_kmem s)) pid) (fun _ => con') cid _ con (ms_con _ _ _ Hs) eq_refl).
    by apply alter_insert.
  - cbn. apply list_lookup_insert_eq. lia.
  - cbn. lia.
  - done.
  - done.
  - cbn. unfold taken. by destruct (nz _).
  - cbn. unfold taken. by destruct (nz _).
Qed.

(** C37: the page table of a container has room for a fixed number of pages
    (100) that is not checked: the next allocation writes past its end. *)
Theorem container_malloc_overflow s cid con n pid :
  (0 < fuel)%nat -> malloc_st s cid con -> lock_free (k_hw s) L_ctable ->
  pt_next (ct_pgTable con) = Z.of_nat (length (pt_page (ct_pgTable con))) ->
  exists s', container_malloc n pid s = Stop (Faulted "pgTable.page") s'.
Proof. intros. by eapply container_malloc_full. Qed.

(** C38: [listContainersHelper] returns with the lock of the process table
    held, so the next [acquire] of it on the same CPU panics. *)
Theorem listContainersHelper_keeps_lock s :
  (0 < fuel)%nat -> ptable_ready s -> lock_free (k_hw s) L_cons -> cons_ok (k_cons s) ->
  exists s1 s2, listContainersHelper s = Done tt s1
    /\ acquire L_ptable s1 = Stop (Panicked "acquire") s2.
Proof.
  intros Hf [(i & c & Hr) Hpl Hlen] Hcl Hco.
  destruct (critical_section s i c L_ptable Hf Hr Hpl) as (h & c' & Ha & Hr' & _ & Ho & Hh & _).
  assert (wp (for_each procs (fun i => p ← get_proc i ;
      cprintf "process %d is present in container %d
" [AInt (p_pid p); AInt (p_containerID p)])) (fun _ s1 => k_hw s1 = h) (s <| k_hw := h |>)) as Hw.
  { eapply wp_mono.
    - apply (wp_for_each (fun _ s1 => k_hw s1 = h /\ k_ptable s1 = k_ptable s /\ cons_ok (k_cons s1))); [done|].
      intros pre j rest s1 Hsp (Hh1 & Ht1 & Hc1).
      destruct (lookup_lt_is_Some_2 (k_ptable s) j) as [p Hp].
      { rewrite Hlen. assert (j ∈ procs) as [_ Hj]%elem_of_seq by (rewrite Hsp; set_solver). done. }
      eapply wp_bind, wp_intro; [by apply get_proc_run; rewrite Ht1|].
      destruct (cprintf_run "process %d is present in container %d
" [AInt (p_pid p); AInt (p_containerID p)] s1 i c') as (cs & Hd & He); [done|by rewrite Hh1|rewrite Hh1; by apply Ho|done|done|].
      eapply wp_intro; [exact Hd|]. split_and!; [done..|apply He].
    - cbn. tauto. }
  apply wp_done in Hw as ([] & s1 & Hd & Hh1).
  destruct (acquire_held s1 i c' L_ptable) as (s2 & H2); [by rewrite Hh1..|].
  exists s1, s2. split; [|done]. unfold listContainersHelper. by krun Ha.
Qed.

#[local] Opaque destroy_all.

(** C39: an entry of the process table that a reaped process left behind
    still names its container.  If it is the first free entry, [destroyContainer]
    marks it killed, and the process that is next allocated there starts killed. *)
Theorem destroyContainer_marks_free_entry s id j q :
  (0 < fuel)%nat -> ctable_ok s -> ctable_ready s -> ptable_ready s ->
  kmem_ready s -> km_freelist (k_kmem s) <> 0 -> (id < NCONT)%nat ->
  k_ptable s !! j = Some q -> p_state q = UNUSED -> p_pid q = 0 -> p_containerID q = Z.of_nat id ->
  (forall k r, (k < j)%nat -> k_ptable s !! k = Some r -> p_pid r <> 0 /\ p_state r <> UNUSED) ->
  exists s1 s2 p, destroyContainer (Z.of_nat id) s = Done tt s1
    /\ allocproc s1 = Done (Some j) s2 /\ k_ptable s2 !! j = Some p /\ p_killed p = 1.
Proof.
  intros Hf Hs Hr Hp Hk Hfl Hid Hq Hst Hpid Hcid Hfst.
  destruct (destroy_all_first Hf _ _ j q (pr_len _ Hp) Hq Hst Hpid Hcid Hfst)
    as [(q1 & Hq1 & Hst1 & _ & Hk1) Hf1].
  destruct Hk1 as [Hk1|[? _]]; [|done].
  pose proof (destroyContainer_run Hf s id Hs Hr Hp Hid) as Hd.
  match type of Hd with _ = Done tt ?s1 =>
    destruct (allocproc_at s1 j q1 Hf) as (s2 & Ha & Hj); [|exact Hk|exact Hfl|exact Hq1|exact Hst1| |]
  end.
  - destruct Hp as [Hc Hl Hlen]. split; [exact Hc|exact Hl|].
    rewrite <- Hlen. exact (length_destroy_all _ _).
  - intros k r Hlt Hkr. exact (proj2 (Hf1 k r Hlt Hkr)).
  - eexists _, s2, _. split_and!; [exact Hd|exact Ha|exact Hj|]. exact Hk1.
Qed.
End properties.
