(* ===== verification/Liveness.v ===== *)
(** Progress of processes: the rounds of [scheduler] together with [wakeup] and
    [destroyContainer] (proc.c).

    A round is seen as in Scheduler.v: [turn out] is the machine on which process [j],
    each time it gets the CPU, gives it back in state [out j]. *)
From S2P Require Import Prelude Kernel Spinlock Console CString Kalloc Proc Scheduler Container.

(** How often process [j] got the CPU. *)
Definition turns (j : nat) (l : list nat) : nat := length (filter (fun k => k = j) l).

Lemma turns_app j l1 l2 : turns j (l1 ++ l2) = (turns j l1 + turns j l2)%nat.
Proof. unfold turns. by rewrite filter_app, length_app. Qed.

Lemma turns_NoDup j l : NoDup l -> turns j l = if decide (j ∈ l) then 1%nat else 0%nat.
Proof.
  unfold turns. induction 1 as [|k l Hk _ IH]; [by rewrite decide_False by apply not_elem_of_nil|].
  rewrite filter_cons. destruct (decide (k = j)) as [->|Hne]; cbn [length]; rewrite IH.
  - rewrite decide_False, decide_True; [done|by left|done].
  - apply decide_ext. rewrite elem_of_cons. naive_solver.
Qed.

(** A process that could be switched to now or once it is woken. *)
Definition live_ok (t : list proc) : Prop :=
  forall i p, t !! i = Some p -> p_state p = RUNNABLE \/ p_state p = SLEEPING -> p_kstack p <> 0 /\ p_pgdir p <> 0.

Lemma live_runnable t : live_ok t -> runnable_ok t.
Proof. intros H i p Hp Hst. apply (H i p Hp). by left. Qed.

Lemma live_wake ch t : live_ok t -> live_ok (map (wake ch) t).
Proof.
  intros H i p' Hp' Hst. rewrite list_lookup_fmap in Hp'. destruct (t !! i) as [p|] eqn:Hp; [|done]. cbn in Hp'. injection Hp' as <-.
  unfold wake in *. destruct (decide (p_state p = SLEEPING /\ p_chan p = ch)) as [[Hs _]|_]; [|by apply (H i)]. apply (H i p Hp). by right.
Qed.

Lemma live_killed p : p_state (killed p) = RUNNABLE \/ p_state (killed p) = SLEEPING -> p_state p = RUNNABLE \/ p_state p = SLEEPING.
Proof. unfold killed. cbv zeta. cbn [p_state set]. case_decide as Hd; cbn in *; [by right|done]. Qed.

Lemma killed_frame p : p_kstack (killed p) = p_kstack p /\ p_pgdir (killed p) = p_pgdir p /\ p_containerID (killed p) = 0.
Proof. unfold killed. cbv zeta. by case_decide. Qed.

Lemma live_destroy_step id t i : live_ok t -> live_ok (destroy_step id t i).
Proof.
  intros H k p' Hp' Hst. destruct (t !! k) as [p|] eqn:Hp; cycle 1.
  { apply lookup_ge_None_1 in Hp. rewrite <- (length_destroy_step id t i) in Hp. apply lookup_lt_Some in Hp'. lia. }
  destruct (destroy_step_entry id t i k p Hp) as [E|E]; rewrite E in Hp'; injection Hp' as <-; [by apply (H k)|].
  destruct (killed_frame p) as (-> & -> & _). by apply (H k p Hp), live_killed.
Qed.

Lemma live_destroy_all id t : live_ok t -> live_ok (destroy_all id t).
Proof.
  unfold destroy_all. generalize procs as l. intros l. revert t. induction l as [|i l IH]; intros t H; [done|].
  cbn [foldl]. by apply IH, live_destroy_step.
Qed.

Section rounds.
Context {E : Env} (fuel_pos : (0 < fuel)%nat).

(** The rounds of [scheduler]: a process that always gives the CPU back runnable. *)
Lemma rounds_run out i ct ns t s :
  length t = NPROC -> runnable_ok t -> ctable_ids ct -> sched_st i 0 t ct s ->
  exists l s' t', run_sched (turn out) (for_each ns (fun _ : nat => scheduler_round i) s) = (l, Some (tt, s'))
    /\ sched_st i 0 t' ct s'
    /\ (forall j, (turns j l <= length ns)%nat)
    /\ (forall j p con c, t !! j = Some p -> p_state p = RUNNABLE -> out j = RUNNABLE ->
          p_containerID p = Z.of_nat con -> ct !! con = Some c ->
          turns j l = if decide (ct_state c = CWAITING) then length ns else 0%nat).
Proof.
  intros Hlen Hrok Hids. revert t s Hlen Hrok. induction ns as [|n ns IH]; intros t s Hlen Hrok Hs.
  { exists [], s, t. split_and!; [done|done|done|]. intros. by case_decide. }
  destruct (scheduler_round_run fuel_pos out i t ct s Hlen Hrok Hids Hs) as (s1 & t1 & H1 & Hs1 & Ht1).
  assert (length t1 = NPROC) as Hlen1 by (by rewrite (proj1 Ht1)).
  destruct (IH t1 s1 Hlen1) as (l & s' & t' & H2 & Hs' & Hle & Hcount); [by eapply turned_runnable_ok|done|].
  exists (schedule t ct ++ l), s', t'. cbn [for_each]. rewrite (run_sched_bind _ _ _ _ _ _ _ H1), H2. split; [done|]. split; [done|].
  pose proof (NoDup_schedule fuel_pos t ct Hlen Hids) as Hnd. split.
  - intros j. rewrite turns_app, (turns_NoDup j _ Hnd). specialize (Hle j). cbn [length]. case_decide; lia.
  - intros j p con c Hp Hst Hout Hcid Hc. rewrite turns_app, (turns_NoDup j _ Hnd).
    destruct (lookup_lt_is_Some_2 t1 j) as [p1 Hp1]; [rewrite Hlen1, <- Hlen; by eapply lookup_lt_Some|].
    assert (p_state p1 = RUNNABLE /\ p_containerID p1 = Z.of_nat con) as [Hst1 Hcid1].
    { destruct (proj2 Ht1 j p p1 Hp Hp1) as [->|(_ & _ & ->)]; [done|]. cbn. by rewrite Hout. }
    rewrite (Hcount j p1 con c Hp1 Hst1 Hout Hcid1 Hc). cbn [length].
    destruct (decide (ct_state c = CWAITING)) as [Hw|Hw].
    + rewrite decide_True; [done|]. apply elem_of_schedule; [done..|]. by exists p, con, c.
    + rewrite decide_False; [done|]. intros (p' & con' & c' & Hp' & _ & Hcid' & Hc' & Hw')%elem_of_schedule; [|done..].
      simplify_eq. assert (con = con') as <- by lia. by simplify_eq.
Qed.

(** The next round, when the tables are [t] and [ct]. *)
Lemma next_round out i t ct s :
  length t = NPROC -> live_ok t -> ctable_ids ct -> sched_st i 0 t ct s ->
  exists l s', run_sched (turn out) (scheduler_round i s) = (l, Some (tt, s'))
    /\ forall j p con c, t !! j = Some p -> p_state p = RUNNABLE -> p_containerID p = Z.of_nat con ->
         ct !! con = Some c -> ct_state c = CWAITING -> j ∈ l.
Proof.
  intros Hlen Hlive Hids Hs. destruct (scheduler_round_run fuel_pos out i t ct s) as (s' & t' & H & _); [done|by apply live_runnable|done..|].
  exists (schedule t ct), s'. split; [done|]. intros j p con c ? ? ? ? ?. apply elem_of_schedule; [done..|]. by exists p, con, c.
Qed.
End rounds.

(** ** Properties *)

Section properties.
Context {E : Env}.

(** C14: the scheduler is fair within the containers that are scheduled, and only
    there.  On a machine whose processes compute and give the CPU back, [n] rounds of the scheduler's
    loop end after giving no process more than [n] turns; a process that is always
    ready gets exactly [n] of them if its container is waiting, however many other
    processes and containers there are, and none at all if it is not, as after joining a
    container that was never created. *)
Theorem scheduler_fair out i n t ct s :
  (0 < fuel)%nat -> length t = NPROC -> runnable_ok t -> ctable_ids ct -> sched_st i 0 t ct s ->
  exists l s', run_sched (turn out) (for_each (seq 0 n) (fun _ => scheduler_round i) s) = (l, Some (tt, s'))
    /\ (forall j, (turns j l <= n)%nat)
    /\ (forall j p con c, t !! j = Some p -> p_state p = RUNNABLE -> out j = RUNNABLE ->
          p_containerID p = Z.of_nat con -> ct !! con = Some c ->
          turns j l = if decide (ct_state c = CWAITING) then n else 0%nat).
Proof.
  intros Hf Hlen Hrok Hids Hs. destruct (rounds_run Hf out i ct (seq 0 n) t s) as (l & s' & t' & H & _ & Hle & Hc); [done..|].
  rewrite length_seq in *. by exists l, s'.
Qed.

(** C21: a process that is woken runs in the next round.  Once [wakeup] has been called on
    a channel, the next round of a scheduler on any CPU switches to every process that slept
    on the channel in a waiting container. *)
Theorem woken_process_runs ch s :
  (0 < fuel)%nat -> ptable_ready s -> live_ok (k_ptable s) -> ctable_ids (k_ctable s) ->
  exists s1, wakeup ch s = Done tt s1
    /\ forall out i s2, sched_st i 0 (k_ptable s1) (k_ctable s1) s2 ->
         exists l s3, run_sched (turn out) (scheduler_round i s2) = (l, Some (tt, s3))
           /\ forall j p con c, k_ptable s !! j = Some p -> p_state p = SLEEPING -> p_chan p = Some ch ->
                p_containerID p = Z.of_nat con -> k_ctable s !! con = Some c -> ct_state c = CWAITING -> j ∈ l.
Proof.
  intros Hf Hr Hlive Hids. eexists. split; [by apply wakeup_run|]. intros out i s2 Hs2. cbn in Hs2.
  destruct (next_round Hf out i (map (wake (Some ch)) (k_ptable s)) (k_ctable s) s2) as (l & s3 & Hl & Hin);
    [by rewrite length_map; apply Hr|by apply live_wake|done|done|].
  exists l, s3. split; [done|]. intros j p con c Hp Hst Hch Hcid Hc Hw.
  apply (Hin j (wake (Some ch) p) con c); [by rewrite list_lookup_fmap, Hp|..|done|done]; unfold wake; by rewrite decide_True.
Qed.

(** C20: no process is stranded by the destruction of its container, if that is not container 0
    and container 0, into which the processes are moved, is waiting to be scheduled.  After
    [destroyContainer] every process that was in the container and was ready or asleep is
    given the CPU in the next round, killed, so that it can exit; although the container
    itself is no longer scheduled. *)
Theorem destroyed_members_run s id n c0 :
  (0 < fuel)%nat -> ctable_ok s -> ctable_ready s -> ptable_ready s -> ptable_ok (k_ptable s) n -> live_ok (k_ptable s) ->
  (0 < id < NCONT)%nat -> k_ctable s !! 0%nat = Some c0 -> ct_state c0 = CWAITING ->
  exists s1, destroyContainer (Z.of_nat id) s = Done tt s1
    /\ forall out i s2, sched_st i 0 (k_ptable s1) (k_ctable s1) s2 ->
         exists l s3, run_sched (turn out) (scheduler_round i s2) = (l, Some (tt, s3))
           /\ forall j p, k_ptable s !! j = Some p -> p_pid p <> 0 -> p_containerID p = Z.of_nat id ->
                p_state p = RUNNABLE \/ p_state p = SLEEPING ->
                k_ptable s1 !! j = Some (killed p) /\ j ∈ l.
Proof.
  intros Hf Hok Hr Hpr Ht Hlive Hid Hc0 Hw.
  pose proof (destroyContainer_run Hf s id Hok Hr Hpr ltac:(lia)) as R.
  pose proof (live_destroy_all (Z.of_nat id) _ Hlive) as Hlive1.
  pose proof (length_destroy_all (Z.of_nat id) (k_ptable s)) as Hlen1. rewrite (pr_len _ Hpr) in Hlen1.
  pose proof (destroy_all_live Hf (Z.of_nat id) (k_ptable s) n) as Hall.
  pose proof (ctable_ids_alter (k_ctable s) id (fun c => c <| ct_state := CUNUSED |>) (fun _ => eq_refl) (co_ids _ Hok)) as Hids1.
  revert R Hlive1 Hlen1 Hall. generalize (destroy_all (Z.of_nat id)) as D. intros D R Hlive1 Hlen1 Hall.
  eexists. split; [exact R|]. intros out i s2 Hs2. cbn in Hs2 |- *.
  destruct (next_round Hf out i _ _ s2 Hlen1 Hlive1 Hids1 Hs2) as (l & s3 & Hl & Hin).
  exists l, s3. split; [done|]. intros j p Hp Hpid Hcid Hst. pose proof (Hall j p Ht Hp Hpid) as Hk. rewrite decide_True in Hk by done.
  split; [done|]. apply (Hin j (killed p) 0%nat c0); [done| |by apply killed_frame| |done].
  - unfold killed. cbv zeta. cbn [p_state set]. case_decide as Hd; [done|]. by destruct Hst.
  - rewrite list_lookup_alter_ne by lia. done.
Qed.
End properties.
