(* ===== verification/SysProc.v ===== *)
(** sysproc.c: the system calls on processes, containers and time. *)
From S2P Require Import Prelude Kernel Spinlock Console CString Kalloc Proc Vm Sleeplock Disk Bytes Bio Log Inode ConsoleIo Fs Pipe FileTable ProcLife Container SysArgs.

Section sysproc.
Context {E : Env} {D : Disk}.

(** [myproc()->pid] and the like. *)
Definition my {T} (f : proc -> T) : K T := c ← curproc ; p ← get_proc c ; mret (f p).

(** An [int] that a failing [argint] leaves uninitialised. *)
Definition argint_unchecked (n : Z) : K Z := o ← argint n ; mret (default uninit o).

Definition sys_create_container : K Z := createContainer.

Definition sys_destroy_container : K Z :=
  id ← argint_unchecked 0 ;
  v ← get_containers id ;
  (if v =? 0 then cprintf "This is id is already non-existant
" [] else set_containers id 0) ;;
  destroyContainer id ;;
  mret 0.

Definition sys_join_container : K Z :=
  id ← argint_unchecked 0 ;
  pid ← my p_pid ;
  addProcessToContainer pid id ;;
  mret 0.

Definition sys_leave_container : K Z :=
  pid ← my p_pid ;
  removeProcessFromContainer pid ;;
  mret 0.

Definition sys_ps : K Z :=
  procID ← my p_pid ;
  containerID ← my p_containerID ;
  psHelper procID containerID ;;
  mret 0.

Definition sys_list_containers : K Z := listContainersHelper ;; mret 0.

Definition sys_container_malloc : K Z :=
  numBytes ← argint_unchecked 0 ;
  pid ← my p_pid ;
  container_malloc numBytes pid ;;
  mret 0.

Definition sys_scheduler_log_on : K Z := modify (fun s => s <| k_schedulerLog := 1 |>) ;; mret 0.
Definition sys_scheduler_log_off : K Z := modify (fun s => s <| k_schedulerLog := 0 |>) ;; mret 0.
Definition sys_memory_log_on : K Z := modify (fun s => s <| k_memoryLog := 1 |>) ;; mret 0.
Definition sys_memory_log_off : K Z := modify (fun s => s <| k_memoryLog := 0 |>) ;; mret 0.

Definition sys_fork : K Z := fork.
Definition sys_exit : K Z := exit ;; mret 0.
Definition sys_wait : K Z := wait.

Definition sys_kill : K Z :=
  o ← argint 0 ;
  match o with None => mret (-1) | Some pid => kill pid end.

Definition sys_getpid : K Z := my p_pid.
Definition sys_getcid : K Z := gtcid.

Definition sys_sbrk : K Z :=
  o ← argint 0 ;
  match o with
  | None => mret (-1)
  | Some n =>
      sz ← my p_sz ;
      let addr := i32 sz in
      r ← growproc n ;
      mret (if r <? 0 then -1 else addr)
  end.

Definition sys_sleep : K Z :=
  o ← argint 0 ;
  match o with
  | None => mret (-1)
  | Some n =>
      acquire L_tickslock ;;
      ticks0 ← gets k_ticks ;
      loop fuel (
        ticks ← gets k_ticks ;
        if u32 (ticks - ticks0) <? u32 n then
          k ← my p_killed ;
          if nz k then release L_tickslock ;; mret (Some (-1))
          else sleep CH_ticks L_tickslock ;; mret None
        else release L_tickslock ;; mret (Some 0))
  end.

Definition sys_uptime : K Z :=
  acquire L_tickslock ;;
  xticks ← gets k_ticks ;
  release L_tickslock ;;
  mret (i32 xticks).

End sysproc.
