(* ===== verification/SysFile.v ===== *)
(** sysfile.c: the system calls on files.  A file or inode is named by its container:
    [sys_open] appends the number of the caller's container to the path, and
    [sys_write] and [sys_close] compare the container of the inode. *)
From S2P Require Import Prelude Kernel Spinlock Console CString Kalloc Proc Vm Sleeplock Disk Bytes Bio Log Inode ConsoleIo Fs Pipe FileTable Exec Container SysArgs SysProc.

Abbreviation O_RDONLY := 0x000 (only parsing).
Abbreviation O_WRONLY := 0x001 (only parsing).
Abbreviation O_RDWR := 0x002 (only parsing).
Abbreviation O_CREATE := 0x200 (only parsing).

Definition container_char (n : Z) : Z := if n =? 0 then 0 else u8 (48 + n).

(** [newPath] of [sys_open]. *)
Definition container_path (path : list Z) (cid : Z) : list Z :=
  if strncmp (cstr ".") path 1 =? 0 then cstr "." else path ++ [container_char cid; 0].

Section sysfile.
Context {E : Env} {D : Disk}.

(** The descriptor and the file. *)
Definition argfd (n : Z) : K (option (nat * nat)) :=
  o ← argint n ;
  match o with
  | None => mret None
  | Some fd =>
      if (fd <? 0) || (Z.of_nat NOFILE <=? fd) then mret None else
      l ← my p_ofile ;
      f ← deref "ofile" (l !! Z.to_nat fd) ;
      mret (pair (Z.to_nat fd) <$> f)
  end.

Definition set_ofile (c fd : nat) (f : option nat) : K unit :=
  upd_proc c (fun p => p <| p_ofile ::= <[fd := f]> |>).

Definition fdalloc (f : nat) : K (option nat) :=
  c ← curproc ;
  for_find (seq 0 NOFILE) (fun fd =>
    p ← get_proc c ;
    o ← deref "ofile" (p_ofile p !! fd) ;
    match o with
    | None => set_ofile c fd (Some f) ;; mret (Some fd)
    | Some _ => mret None
    end).

Definition sys_dup : K Z :=
  o ← argfd 0 ;
  match o with
  | None => mret (-1)
  | Some (_, f) =>
      o ← fdalloc f ;
      match o with
      | None => mret (-1)
      | Some fd => filedup f ;; mret (Z.of_nat fd)
      end
  end.

(** [argfd(0, 0, &f) < 0 || argint(2, &n) < 0 || argptr(1, &p, n) < 0], of
    [sys_read] and [sys_write]. *)
Definition arg_file_buf : K (option (nat * Z * Z)) :=
  o ← argfd 0 ;
  match o with
  | None => mret None
  | Some (_, f) =>
      o ← argint 2 ;
      match o with
      | None => mret None
      | Some n => o ← argptr 1 n ; mret ((fun p => (f, n, p)) <$> o)
      end
  end.

Definition sys_read : K Z :=
  o ← arg_file_buf ;
  match o with
  | None => mret (-1)
  | Some (f, n, p) =>
      '(r, l) ← fileread f n ;
      ustore p l ;;
      mret r
  end.

(** [f->ip], read through: the field is null when [f] is a pipe that reuses an entry
    which never held an inode. *)
Definition file_container (f : nat) : K Z :=
  x ← get_file f ;
  ip ← deref "f->ip" (f_ip x) ;
  i ← get_inode ip ;
  mret (i_containerID i).

Definition sys_write : K Z :=
  o ← arg_file_buf ;
  match o with
  | None => cprintf "Input
" [] ;; mret (-1)
  | Some (f, n, p) =>
      cid ← file_container f ;
      if cid =? 0 then l ← uload p (Z.to_nat n) ; filewrite f l n else
      mine ← my p_containerID ;
      if negb (mine =? cid) then mret (-1) else
      l ← uload p (Z.to_nat n) ;
      filewrite f l n
  end.

Definition sys_close : K Z :=
  o ← argfd 0 ;
  match o with
  | None => mret (-1)
  | Some (fd, f) =>
      cid ← file_container f ;
      mine ← my p_containerID ;
      if negb (mine =? cid) then mret (-1) else
      c ← curproc ;
      set_ofile c fd None ;;
      fileclose f ;;
      mret 0
  end.

(** The members of [struct stat] at their offsets. *)
Definition store_stat (a : Z) (st : stat) : K unit :=
  ustore a (le 2 (st_type st)) ;;
  ustore (a + 4) (le 4 (st_dev st)) ;;
  ustore (a + 8) (le 4 (st_ino st)) ;;
  ustore (a + 12) (le 2 (st_nlink st)) ;;
  ustore (a + 16) (le 4 (st_size st)).
Definition STAT_SIZE : Z := 20.

Definition sys_fstat : K Z :=
  o ← argfd 0 ;
  match o with
  | None => mret (-1)
  | Some (_, f) =>
      o ← argptr 1 STAT_SIZE ;
      match o with
      | None => mret (-1)
      | Some a =>
          '(r, st) ← filestat f ;
          match st with Some st => store_stat a st | None => mret tt end ;;
          mret r
      end
  end.

Definition upd_nlink (ip : nat) (d : Z) : K unit := upd_inode ip (fun i => i <| i_nlink ::= fun n => i16 (n + d) |>).

(** The label [bad] of [sys_link]. *)
Definition link_bad (ip : nat) : K Z :=
  ilock (Some ip) ;;
  upd_nlink ip (-1) ;;
  iupdate ip ;;
  iunlockput ip ;;
  end_op ;;
  mret (-1).

Definition sys_link : K Z :=
  old ← argstr 0 ;
  new ← (match old with None => mret None | Some _ => argstr 1 end) ;
  match old, new with
  | Some old, Some new =>
      begin_op ;;
      o ← namei old ;
      match o with
      | None => end_op ;; mret (-1)
      | Some ip =>
          ilock (Some ip) ;;
          i ← get_inode ip ;
          if i_type i =? T_DIR then iunlockput ip ;; end_op ;; mret (-1) else
          upd_nlink ip 1 ;;
          iupdate ip ;;
          iunlock (Some ip) ;;
          '(o, name) ← nameiparent new ;
          match o with
          | None => link_bad ip
          | Some dp =>
              ilock (Some dp) ;;
              d ← get_inode dp ;
              i ← get_inode ip ;
              r ← (if negb (i_dev d =? i_dev i) then mret (-1) else dirlink dp name (i_inum i)) ;
              if r <? 0 then iunlockput dp ;; link_bad ip else
              iunlockput dp ;;
              iput ip ;;
              end_op ;;
              mret 0
          end
      end
  | _, _ => mret (-1)
  end.

Definition isdirempty (dp : nat) : K bool :=
  d ← get_inode dp ;
  o ← for_find (drop 2 (offsets (i_size d))) (fun off =>
    de ← read_dirent dp off "isdirempty: readi" ;
    mret (if de_inum de =? 0 then None else Some tt)) ;
  mret (match o with None => true | Some _ => false end).

(** The label [bad] of [sys_unlink]. *)
Definition unlink_bad (dp : nat) : K Z := iunlockput dp ;; end_op ;; mret (-1).

(** [sys_unlink] from the directory entry found at [off]; both inodes are locked. *)
Definition unlink_entry (dp ip : nat) (off : Z) : K Z :=
  i ← get_inode ip ;
  if i_nlink i <? 1 then panic "unlink: nlink < 1" else
  empty ← (if i_type i =? T_DIR then isdirempty ip else mret true) ;
  if negb empty then iunlockput ip ;; unlink_bad dp else
  r ← writei dp (replicate (Z.to_nat DIRENT_SIZE) 0) off DIRENT_SIZE ;
  if negb (r =? DIRENT_SIZE) then panic "unlink: writei" else
  i ← get_inode ip ;
  when (i_type i =? T_DIR) (upd_nlink dp (-1) ;; iupdate dp) ;;
  iunlockput dp ;;
  upd_nlink ip (-1) ;;
  iupdate ip ;;
  iunlockput ip ;;
  end_op ;;
  mret 0.

Definition sys_unlink : K Z :=
  path ← argstr 0 ;
  match path with
  | None => mret (-1)
  | Some path =>
      begin_op ;;
      '(o, name) ← nameiparent path ;
      match o with
      | None => end_op ;; mret (-1)
      | Some dp =>
          ilock (Some dp) ;;
          if (namecmp name (cstr ".") =? 0) || (namecmp name (cstr "..") =? 0) then unlink_bad dp else
          o ← dirlookup dp name ;
          match o with
          | None => unlink_bad dp
          | Some (ip, off) => ilock (Some ip) ;; unlink_entry dp ip off
          end
      end
  end.

(** [create] when [name] is not in the directory [dp], which is locked. *)
Definition create_new (dp : nat) (name : list Z) (type major minor : Z) : K nat :=
  d ← get_inode dp ;
  ip ← ialloc (i_dev d) type ;
  ilock (Some ip) ;;
  upd_inode ip (fun i => i <| i_major := major |>) ;;
  upd_inode ip (fun i => i <| i_minor := minor |>) ;;
  upd_inode ip (fun i => i <| i_nlink := 1 |>) ;;
  cid ← my p_containerID ;
  upd_inode ip (fun i => i <| i_containerID := cid |>) ;;
  iupdate ip ;;
  when (type =? T_DIR)
    (upd_nlink dp 1 ;;
     iupdate dp ;;
     i ← get_inode ip ;
     r ← dirlink ip (cstr ".") (i_inum i) ;
     r ← (if r <? 0 then mret r else d ← get_inode dp ; dirlink ip (cstr "..") (i_inum d)) ;
     if r <? 0 then panic "create dots" else mret tt) ;;
  i ← get_inode ip ;
  r ← dirlink dp name (i_inum i) ;
  if r <? 0 then panic "create: dirlink" else
  iunlockput dp ;;
  mret ip.

Definition create (path : list Z) (type major minor : Z) : K (option nat) :=
  '(o, name) ← nameiparent path ;
  match o with
  | None => mret None
  | Some dp =>
      ilock (Some dp) ;;
      o ← dirlookup dp name ;
      match o with
      | Some (ip, _) =>
          iunlockput dp ;;
          ilock (Some ip) ;;
          i ← get_inode ip ;
          if (type =? T_FILE) && (i_type i =? T_FILE) then mret (Some ip) else
          iunlockput ip ;;
          mret None
      | None => ip ← create_new dp name type major minor ; mret (Some ip)
      end
  end.

(** [sys_open] up to the inode, which is locked; [None] is a return of -1. *)
Definition open_inode (newPath : list Z) (omode : Z) : K (option nat) :=
  if nz (Z.land omode O_CREATE) then
    o ← create newPath T_FILE 0 0 ;
    match o with
    | None => end_op ;; mret None
    | Some ip => mret (Some ip)
    end
  else
    o ← namei newPath ;
    match o with
    | None => end_op ;; mret None
    | Some ip =>
        ilock (Some ip) ;;
        i ← get_inode ip ;
        if (i_type i =? T_DIR) && negb (omode =? O_RDONLY) then iunlockput ip ;; end_op ;; mret None
        else mret (Some ip)
    end.

Definition b2z (b : bool) : Z := if b then 1 else 0.

Definition sys_open : K Z :=
  cid ← my p_containerID ;
  path ← argstr 0 ;
  omode ← (match path with None => mret None | Some _ => argint 1 end) ;
  match path, omode with
  | Some path, Some omode =>
      begin_op ;;
      o ← open_inode (container_path path cid) omode ;
      match o with
      | None => mret (-1)
      | Some ip =>
          f ← filealloc ;
          fd ← (match f with None => mret None | Some f => fdalloc f end) ;
          match f, fd with
          | Some f, Some fd =>
              iunlock (Some ip) ;;
              end_op ;;
              upd_file f (fun x => x <| f_type := FD_INODE |>) ;;
              upd_file f (fun x => x <| f_ip := Some ip |>) ;;
              upd_file f (fun x => x <| f_off := 0 |>) ;;
              upd_file f (fun x => x <| f_readable := b2z (negb (nz (Z.land omode O_WRONLY))) |>) ;;
              upd_file f (fun x => x <| f_writable := b2z (nz (Z.land omode O_WRONLY) || nz (Z.land omode O_RDWR)) |>) ;;
              mret (Z.of_nat fd)
          | _, _ =>
              close_opt f ;;
              iunlockput ip ;;
              end_op ;;
              mret (-1)
          end
      end
  | _, _ => mret (-1)
  end.

Definition sys_mkdir : K Z :=
  begin_op ;;
  path ← argstr 0 ;
  o ← (match path with None => mret None | Some path => create path T_DIR 0 0 end) ;
  match o with
  | None => end_op ;; mret (-1)
  | Some ip => iunlockput ip ;; end_op ;; mret 0
  end.

Definition sys_mknod : K Z :=
  begin_op ;;
  path ← argstr 0 ;
  major ← (match path with None => mret None | Some _ => argint 1 end) ;
  minor ← (match major with None => mret None | Some _ => argint 2 end) ;
  o ← (match path, major, minor with
       | Some path, Some major, Some minor => create path T_DEV (i16 major) (i16 minor)
       | _, _, _ => mret None
       end) ;
  match o with
  | None => end_op ;; mret (-1)
  | Some ip => iunlockput ip ;; end_op ;; mret 0
  end.

Definition sys_chdir : K Z :=
  c ← curproc ;
  begin_op ;;
  path ← argstr 0 ;
  o ← (match path with None => mret None | Some path => namei path end) ;
  match o with
  | None => end_op ;; mret (-1)
  | Some ip =>
      ilock (Some ip) ;;
      i ← get_inode ip ;
      if negb (i_type i =? T_DIR) then iunlockput ip ;; end_op ;; mret (-1) else
      iunlock (Some ip) ;;
      p ← get_proc c ;
      cwd ← deref "curproc->cwd" (p_cwd p) ;
      iput cwd ;;
      end_op ;;
      upd_proc c (fun p => p <| p_cwd := Some ip |>) ;;
      mret 0
  end.

(** [for(i=0;; i++)] of [sys_exec], with [n] entries of [argv] left; [None] is a return of -1. *)
Fixpoint fetch_argv (n : nat) (uargv : Z) : K (option (list (list Z))) :=
  match n with
  | O => mret None
  | S n' =>
      o ← fetchint uargv ;
      match o with
      | None => mret None
      | Some uarg =>
          if uarg =? 0 then mret (Some []) else
          o ← fetchstr (u32 uarg) ;
          match o with
          | None => mret None
          | Some a => o ← fetch_argv n' (u32 (uargv + 4)) ; mret (cons a <$> o)
          end
      end
  end.

Definition sys_exec : K Z :=
  path ← argstr 0 ;
  uargv ← (match path with None => mret None | Some _ => argint 1 end) ;
  match path, uargv with
  | Some path, Some uargv =>
      o ← fetch_argv (Z.to_nat MAXARG) (u32 uargv) ;
      match o with
      | None => mret (-1)
      | Some argv => exec path argv
      end
  | _, _ => mret (-1)
  end.

Definition sys_pipe : K Z :=
  o ← argptr 0 8 ;
  match o with
  | None => mret (-1)
  | Some fd =>
      o ← pipealloc ;
      match o with
      | None => mret (-1)
      | Some (rf, wf) =>
          fd0 ← fdalloc rf ;
          fd1 ← (match fd0 with None => mret None | Some _ => fdalloc wf end) ;
          match fd0, fd1 with
          | Some fd0, Some fd1 =>
              ustore32 fd (Z.of_nat fd0) ;;
              ustore32 (fd + 4) (Z.of_nat fd1) ;;
              mret 0
          | _, _ =>
              match fd0 with Some fd0 => c ← curproc ; set_ofile c fd0 None | None => mret tt end ;;
              fileclose rf ;;
              fileclose wf ;;
              mret (-1)
          end
      end
  end.

End sysfile.

(** ** File names of containers *)

(** The directory entry a path given to [sys_open] ends in, for a process of container [cid]. *)
Definition open_name (path : list Z) (cid : Z) : option (list Z) :=
  last (map (take (Z.to_nat DIRSIZ)) (elems (container_path path cid))).

(** The part of a path after its last slash. *)
Definition base_name (path : list Z) : list Z := default [] (last (split 47 path)).

(** A user string, other than one that starts with a dot. *)
Definition plain (path : list Z) : Prop := Forall (fun c => 0 < c < 256) path /\ at_ path 0 <> 46.

Lemma split_snoc l x :
  x <> 47 -> exists init b, split 47 l = init ++ [b] /\ split 47 (l ++ [x]) = init ++ [b ++ [x]].
Proof.
  intros Hx. induction l as [|y l (init & b & H1 & H2)].
  { exists [], []. cbn. by rewrite (proj2 (Z.eqb_neq _ _) Hx). }
  cbn [split app]. rewrite H1, H2. destruct (Z.eqb_spec y 47) as [->|Hy].
  - by exists ([] :: init), b.
  - destruct init as [|h t]; cbn; [by exists [], (y :: b)|by exists ((y :: h) :: t), b].
Qed.

Lemma cstring_plain l r : Forall (fun c => 0 < c < 256) l -> cstring (l ++ 0 :: r) = l.
Proof.
  intros H. induction H as [|c l Hc _ IH]; [done|]. cbn. unfold nz. by rewrite (proj2 (Z.eqb_neq c 0)), IH by lia.
Qed.

Lemma container_char_range c : 0 < c < Z.of_nat NCONT -> container_char c = 48 + c.
Proof.
  intros Hc. unfold container_char. rewrite (proj2 (Z.eqb_neq c 0)) by lia.
  apply Z.mod_small. unfold NCONT in Hc. lia.
Qed.

Lemma container_path_plain path c : plain path -> container_path path c = path ++ [container_char c; 0].
Proof.
  intros [Hp Hd]. unfold container_path. rewrite (proj2 (Z.eqb_neq _ _)); [done|].
  cbn [strncmp]. change (at_ (cstr ".") 0) with 46. rewrite (proj2 (Z.eqb_neq _ _)) by congruence. cbn [nz negb andb Z.eqb].
  change (u8 46) with 46. unfold u8. rewrite Z.mod_small; [lia|].
  destruct Hp as [|b l Hb _]; cbn in *; lia.
Qed.

(** The name that [sys_open] looks up: the base name with the character of the
    container appended, cut to [DIRSIZ] bytes. *)
Lemma open_name_plain path c :
  plain path -> 0 < c < Z.of_nat NCONT ->
  open_name path c = Some (take (Z.to_nat DIRSIZ) (base_name path ++ [48 + c])).
Proof.
  intros Hp Hc. unfold open_name, elems, base_name. rewrite container_path_plain, container_char_range by done.
  change (path ++ [48 + c; 0]) with (path ++ [48 + c] ++ [0]). rewrite (assoc_L (++)), (cstring_plain _ []).
  2: { apply Forall_app_2; [by apply Hp|]. apply Forall_cons_2; [unfold NCONT in Hc; lia|apply Forall_nil_2]. }
  destruct (split_snoc path (48 + c)) as (init & b & H1 & H2).
  { unfold NCONT in Hc. lia. }
  rewrite H1, H2, last_snoc. cbn [default from_option id].
  rewrite filter_app, filter_cons_True by by destruct b. cbn [filter list_filter].
  rewrite map_app. cbn [map]. by rewrite last_snoc.
Qed.

Lemma take_snoc_inj n (l l' : list Z) x y :
  (length l < n)%nat -> (length l' < n)%nat -> take n (l ++ [x]) = take n (l' ++ [y]) -> x = y.
Proof.
  intros Hl Hl' H. rewrite !take_ge in H by (rewrite length_app; cbn; lia).
  apply (f_equal last) in H. rewrite !last_snoc in H. congruence.
Qed.

(** A process of container 0 reaches the file of container [c] by writing its character. *)
Lemma container_path_zero p c : plain p -> 0 < c < Z.of_nat NCONT ->
  cstring (container_path (p ++ [48 + c]) 0) = cstring (container_path p c).
Proof.
  intros Hp Hc.
  assert (Forall (fun c => 0 < c < 256) (p ++ [48 + c])) as Hf.
  { apply Forall_app_2; [by apply Hp|]. apply Forall_cons_2; [unfold NCONT in Hc; lia|apply Forall_nil_2]. }
  assert (plain (p ++ [48 + c])) as Hpc.
  { split; [done|]. destruct Hp as [_ Hd]. destruct p; [cbn; unfold NCONT in Hc; lia|exact Hd]. }
  rewrite (container_path_plain (p ++ [48 + c]) 0 Hpc), (container_path_plain p c Hp), (container_char_range c Hc).
  change (p ++ [48 + c; 0]) with (p ++ [48 + c] ++ [0]). rewrite (assoc_L (++)).
  change [container_char 0; 0] with [0; 0]. by rewrite !(cstring_plain (p ++ [48 + c])).
Qed.

(** C27: how far containers are separated by file names.  The names that
    two paths, neither of which starts with a dot, lead to for different containers [c] and [d]
    other than 0 are different when their base names leave room for the
    container's character.  A base name of 14 bytes or more leaves none, and
    leads to the same name in every container; a process of
    container 0 reaches the file of container [c] by writing its character; and
    every path that starts with a dot opens the current directory. *)
Theorem container_names_separated p q c d :
  plain p -> plain q -> 0 < c < Z.of_nat NCONT -> 0 < d < Z.of_nat NCONT -> c <> d ->
  ((length (base_name p) < Z.to_nat DIRSIZ)%nat -> (length (base_name q) < Z.to_nat DIRSIZ)%nat ->
   open_name p c <> open_name q d)
  /\ ((Z.to_nat DIRSIZ <= length (base_name p))%nat -> open_name p c = open_name p d)
  /\ cstring (container_path (p ++ [48 + c]) 0) = cstring (container_path p c)
  /\ container_path (46 :: p) c = cstr ".".
Proof.
  intros Hp Hq Hc Hd Hne. split_and!; [| |by apply container_path_zero|done].
  - intros Hlp Hlq. rewrite !open_name_plain by done. intros [= H]. apply take_snoc_inj in H; [lia|done..].
  - intros Hl. rewrite !open_name_plain by done. f_equal. by rewrite !take_app_le by done.
Qed.
