(* ===== verification/Syscall.v ===== *)
(** The dispatch of syscall.c, and trap.c. *)
From S2P Require Import Prelude Kernel Spinlock Console CString Kalloc Devices Proc Vm SysArgs Sleeplock Disk Bytes Bio Log Inode ConsoleIo Fs Pipe FileTable ProcLife Exec Container SysProc SysFile.

Section syscall.
Context {E : Env} {D : Disk} {V : Devices}.

(** The array [syscalls], indexed by the numbers of syscall.h. *)
Definition syscalls : list (option (K Z)) :=
  [None;
   Some sys_fork; Some sys_exit; Some sys_wait; Some sys_pipe; Some sys_read;
   Some sys_kill; Some sys_exec; Some sys_fstat; Some sys_chdir; Some sys_dup;
   Some sys_getpid; Some sys_sbrk; Some sys_sleep; Some sys_uptime; Some sys_open;
   Some sys_write; Some sys_mknod; Some sys_unlink; Some sys_link; Some sys_mkdir;
   Some sys_close; Some sys_create_container; Some sys_join_container;
   Some sys_leave_container; Some sys_destroy_container; Some sys_ps;
   Some sys_list_containers; Some sys_container_malloc; Some sys_memory_log_on;
   Some sys_memory_log_off; Some sys_scheduler_log_on; Some sys_scheduler_log_off;
   Some sys_getcid].

Definition set_eax (c : nat) (r : Z) : K unit :=
  upd_proc c (fun p => p <| p_tf ::= fun t => t <| tf_eax := u32 r |> |>).

Definition syscall : K unit :=
  c ← curproc ;
  p ← get_proc c ;
  let num := i32 (tf_eax (p_tf p)) in
  match (if 0 <? num then mjoin (syscalls !! Z.to_nat num) else None) with
  | Some f => r ← f ; set_eax c r
  | None =>
      cprintf "%d %s: unknown sys call %d
" [AInt (p_pid p); AStr (Some (cstring (p_name p))); AInt num] ;;
      set_eax c (-1)
  end.

(** ** trap.c *)

Definition SETGATE (istrap : bool) (sel off d : Z) : gatedesc :=
  Gatedesc (Z.land (u32 off) 0xffff) sel 0 0 (if istrap then STS_TG32 else STS_IG32) 0 d 1
    (Z.shiftr (u32 off) 16).

Definition tvinit : K unit :=
  let kcode := Z.shiftl (Z.of_nat SEG_KCODE) 3 in
  upd_pf (fun p => p <| pf_idt := map (fun i => SETGATE false kcode (vectors i) 0) (seq 0 256) |>) ;;
  upd_pf (fun p => p <| pf_idt ::=
    <[Z.to_nat T_SYSCALL := SETGATE true kcode (vectors (Z.to_nat T_SYSCALL)) DPL_USER]> |>) ;;
  initlock L_tickslock "time".

Definition idtinit : K unit := upd_pf (fun p => p <| pf_idtr := true |>).

(** What the devices hold when an interrupt arrives. *)
Record event := Event { ev_scancodes : list Z; ev_bytes : list Z; ev_ideerr : bool }.

(** [if(myproc() && myproc()->killed && (tf->cs&3) == DPL_USER) exit();] *)
Definition exit_if_killed (tf : trapframe) : K unit :=
  o ← myproc ;
  match o with
  | None => mret tt
  | Some _ =>
      k ← my p_killed ;
      when (nz k && (Z.land (tf_cs tf) 3 =? DPL_USER)) exit
  end.

(** The [default] case of [trap]. *)
Definition trap_default (tf : trapframe) : K unit :=
  o ← myproc ;
  if (bool_decide (o = None)) || (Z.land (tf_cs tf) 3 =? 0) then
    id ← cpuid ;
    cprintf "unexpected trap %d from cpu %d eip %x (cr2=0x%x)
" [AInt (tf_trapno tf); AInt id; AInt (tf_eip tf); AInt rcr2] ;;
    panic "trap"
  else
    pid ← my p_pid ;
    name ← my p_name ;
    id ← cpuid ;
    cprintf "pid %d %s: trap %d err %d on cpu %d eip 0x%x addr 0x%x--kill proc
" [AInt pid; AStr (Some (cstring name)); AInt (tf_trapno tf); AInt (tf_err tf); AInt id; AInt (tf_eip tf); AInt rcr2] ;;
    c ← curproc ;
    upd_proc c (fun p => p <| p_killed := 1 |>).

(** The [switch] of [trap]. *)
Definition trap_irq (ev : event) (tf : trapframe) : K unit :=
  let irq := tf_trapno tf - T_IRQ0 in
  if irq =? IRQ_TIMER then
    id ← cpuid ;
    when (id =? 0)
      (acquire L_tickslock ;;
       modify (fun s => s <| k_ticks ::= fun t => u32 (t + 1) |>) ;;
       wakeup CH_ticks ;;
       release L_tickslock) ;;
    lapiceoi
  else if irq =? IRQ_IDE then ideintr (ev_ideerr ev) ;; lapiceoi
  else if irq =? IRQ_IDE + 1 then mret tt
  else if irq =? IRQ_KBD then kbdintr (ev_scancodes ev) ;; lapiceoi
  else if irq =? IRQ_COM1 then uartintr (ev_bytes ev) ;; lapiceoi
  else if (irq =? 7) || (irq =? IRQ_SPURIOUS) then
    id ← cpuid ;
    cprintf "cpu%d: spurious interrupt at %x:%x
" [AInt id; AInt (tf_cs tf); AInt (tf_eip tf)] ;;
    lapiceoi
  else trap_default tf.

Definition trap (ev : event) (tf : trapframe) : K unit :=
  if tf_trapno tf =? T_SYSCALL then
    k ← my p_killed ;
    when (nz k) exit ;;
    c ← curproc ;
    upd_proc c (fun p => p <| p_tf := tf |>) ;;
    syscall ;;
    k ← my p_killed ;
    when (nz k) exit
  else
    trap_irq ev tf ;;
    exit_if_killed tf ;;
    o ← myproc ;
    st ← (match o with None => mret None | Some _ => st ← my p_state ; mret (Some st) end) ;
    when (bool_decide (st = Some RUNNING) && (tf_trapno tf =? T_IRQ0 + IRQ_TIMER)) yield ;;
    exit_if_killed tf.

End syscall.
