(* ===== verification/FsSys.v ===== *)
(** System calls on files, from [sys_open], [sys_read] and [sys_close] of sysfile.c down to the disk.

    [fs_ready] is the state of the file system between system calls: that of [FsOps], with
    directories in order, links to every file and the references to the inodes counted. *)
From S2P Require Import Prelude Kernel Spinlock Console CString Kalloc Devices Proc Vm SysArgs Sleeplock Disk Bytes Bio Log Inode ConsoleIo Fs FileBlocks FsContent Pipe FileTable FsOps FsPath ProcLife Exec Container SysProc SysFile Syscall.

Section files.
Context {E : Env} {D : Disk} `{!DiskLaws D}.
Context (sb : superblock) (start : Z) (nfiles : nat).
Abbreviation lo := (start + LOGSIZE).
Context (Hfit : 0 < sb_size sb <= BPB) (Hdisk : sb_size sb <= disksize) (Hstart : 0 <= start).
Context (Hbm : lo <= sb_bmapstart sb < sb_size sb).
Context (Hino : forall i, (i < nfiles)%nat -> lo <= IBLOCK (Z.of_nat i) sb < sb_bmapstart sb).
Context (pid : Z) (dsk : Z -> block) (fs : list fent) (cids : list Z).

Record fs_ready (s : kernel) : Prop := FsReady {
  fr_state : fs_state sb start nfiles s pid dsk fs;
  fr_nlink : forall i f, fs !! i = Some f -> fe_type f <> 0 -> d_nlink (dinode_at sb dsk (Z.of_nat i)) <> 0;
  fr_linked : linked cids (k_icache s);
  fr_tree : tree_ok fs
}.

Abbreviation Q s held ic := (quiet sb start nfiles s pid dsk dsk [] fs cids held ic).

(** The log when one operation is in progress. *)
Definition in_op (s : kernel) : Prop :=
  lg_outstanding (k_log s) = 1 /\ lg_committing (k_log s) = 0 /\ lg_size (k_log s) = LOGSIZE /\ lg_start (k_log s) = start.

Lemma in_op_kept s s' : kept s s' -> in_op s -> in_op s'.
Proof. intros [_ [h Hl]] H. unfold in_op in *. rewrite Hl. exact H. Qed.

(** ** Moving between the two *)

(** The fields of the file system are those of [s]. *)
Definition fs_part (s : kernel) := (k_bufs s, k_sleeplocks s, k_disk s, k_log s, k_icache s, k_sb s).

Lemma quiet_move s s' held ic : fs_part s' = fs_part s -> calm (k_hw s') (k_ptable s') pid -> Q s held ic -> Q s' held ic.
Proof.
  intros [= E1 E2 E3 E4 E5 E6] Hc [[[_ H1] H2 H3 H4 H5 H6] Q2 Q3 Q4 Q5 Q6 Q7 Q8]. split; [|congruence|done..|by rewrite E2].
  split; [split; [done|by rewrite E1, E2, E3]|apply (log_lists_eq s); [done|by rewrite E4]| |congruence|by intros ip|done].
  exists (lg_lh (k_log s')). by destruct (k_log s').
Qed.

Lemma ready_move s s' : fs_part s' = fs_part s -> calm (k_hw s') (k_ptable s') pid -> fs_ready s -> fs_ready s'.
Proof.
  intros [= E1 E2 E3 E4 E5 E6] Hc [[[_ S1] S2 S3 S4 S5 S6 S7 S8] H2 H3 H4]. split; [|done|by rewrite E5|done].
  split; [split; [done|by rewrite E1, E2, E3]|by apply (log_lists_eq s)|by rewrite E4|congruence|done|done|by rewrite E5|by rewrite E2].
Qed.

Lemma ready_calm s : fs_ready s -> calm (k_hw s) (k_ptable s) pid.
Proof. intros H. exact (proj1 (st_cache _ _ _ _ _ _ _ (fr_state _ H))). Qed.

Lemma ready_quiet s : fs_ready s -> Q s None (k_icache s).
Proof.
  intros [H1 H2 H3 H4]. pose proof (fs_state_tx _ _ _ _ _ _ _ H1) as T. destruct H1 as [S1 S2 S3 S4 S5 S6 S7 S8].
  split; [done|done|split_and!; [set_solver|cbn; lia|by intros b ?%elem_of_nil]|done|done|done|done|]. split; [|done]. intros ip Hip _. by apply S8.
Qed.

Lemma begin_q s : fs_ready s -> exists s1, begin_op s = Done tt s1 /\ Q s1 None (k_icache s) /\ in_op s1 /\ rest s1 = rest s.
Proof.
  intros Hr. pose proof (fr_state _ Hr) as Hs. destruct (begin_run _ _ _ _ _ _ _ Hs) as (R & T & H1 & H2 & H3 & H4). eexists. split; [exact R|].
  split_and!; [|done|done]. destruct (ready_quiet s Hr) as [_ Q2 Q3 Q4 Q5 Q6 Q7 Q8]. by split.
Qed.

Lemma end_q s ic : Q s None ic -> in_op s -> tree_ok fs -> hd_n (dsk start) = 0 /\ length (dsk start) = Z.to_nat BSIZE ->
  exists s', end_op s = Done tt s' /\ fs_ready s' /\ k_icache s' = ic /\ rest s' = rest s.
Proof.
  intros Hq (O1 & O2 & O3 & O4) Htree [Hh1 Hh2]. pose proof Hq as [Q1 Q2 Q3 Q4 Q5 Q6 Q7 [Q8 _]].
  destruct (end_run sb start nfiles Hfit Hdisk Hstart Hbm Hino s pid dsk s dsk [] ic [] 0 fs Q1 Q3 O1 O2 O3 O4 Q2 Hh1 Hh2 Q4 Q6) as
    (s' & R & Hs & Eic & Eo & Ef & Ew & _); [by intros ip Hip; apply Q8|].
  exists s'. split_and!; [done| |done|].
  - split; [done|done|by rewrite Eic|done].
  - change (transaction_writes dsk start []) with (@nil (Z * block)) in *. rewrite app_nil_r in Ew. pose proof (st_sb _ _ _ _ _ _ _ Hs) as Esb.
    unfold outer in Eo. unfold rest. congruence.
Qed.

(** ** Tables *)

Lemma current_same s s' c p : k_hw s' = k_hw s -> k_ptable s' = k_ptable s -> current s c p -> current s' c p.
Proof. intros E1 E2 [H1 H2 H3]. split; [by rewrite E1|by rewrite E2|done]. Qed.

Lemma my_run {T} s c p (f : proc -> T) : current s c p -> my f s = Done (f p) s.
Proof. intros H. unfold my. krun (curproc_run s c p H). by krun (current_proc s c p H). Qed.

Lemma calm_proc h t c p p' :
  calm h t pid -> t !! c = Some p -> p_pid p' = p_pid p -> p_state p' = p_state p -> p_chan p' = p_chan p -> calm h (<[c := p']> t) pid.
Proof.
  intros [H1 (i & x & q & pr & Hr & Hx & Hq & Hp) H3 H4 H5] Hc E1 E2 E3.
  assert (forall j y, <[c := p']> t !! j = Some y -> exists z, t !! j = Some z /\ p_pid y = p_pid z /\ p_state y = p_state z /\ p_chan y = p_chan z) as Hlk.
  { intros j y Hy. destruct (decide (c = j)) as [->|Hne].
    - rewrite list_lookup_insert_eq in Hy by (by eapply lookup_lt_Some). injection Hy as <-. by exists p.
    - rewrite list_lookup_insert_ne in Hy by done. by exists y. }
  split; [done| |done|by rewrite length_insert|].
  - destruct (lookup_lt_is_Some_2 (<[c := p']> t) q) as [y Hy]; [rewrite length_insert; by eapply lookup_lt_Some|].
    exists i, x, q, y. split_and!; [done|done|done|]. destruct (Hlk q y Hy) as (z & Hz & Ez & _). congruence.
  - intros j y ch Hy Hst Hch. destruct (Hlk j y Hy) as (z & Hz & _ & Es & Ec). eapply H5; [exact Hz|congruence|congruence].
Qed.

Lemma filealloc_run s :
  calm (k_hw s) (k_ptable s) pid -> length (k_ftable s) = NFILE -> (exists fl x, k_ftable s !! fl = Some x /\ f_ref x = 0) ->
  exists fl x, filealloc s = Done (Some fl) (s <| k_ftable ::= <[fl := x <| f_ref := 1 |>]> |>) /\ k_ftable s !! fl = Some x /\ f_ref x = 0.
Proof.
  intros Hc Hlen (fl0 & x0 & Hx0 & Hr0). destruct (calm_section s pid L_ftable Hc I) as (h & Ha & _ & _ & _ & Hrel). set (s1 := s <| k_hw := h |>) in *.
  set (g := fun fl => match k_ftable s !! fl with Some x => if f_ref x =? 0 then Some fl else None | None => None end).
  assert (for_find (seq 0 NFILE) (fun f => x ← get_file f ; mret (if f_ref x =? 0 then Some f else None)) s1 = Done (first_some g (seq 0 NFILE)) s1) as R.
  { apply for_find_pure. intros fl Hfl%elem_of_seq. destruct (lookup_lt_is_Some_2 (k_ftable s) fl) as [x Hx]; [lia|].
    krun (get_file_run s1 fl x Hx). unfold g. by rewrite Hx. }
  pose proof (first_some_spec g (seq 0 NFILE)) as Hs. destruct (first_some g (seq 0 NFILE)) as [fl|]; cycle 1.
  { specialize (Hs fl0 ltac:(apply elem_of_seq; apply lookup_lt_Some in Hx0; lia)). unfold g in Hs. by rewrite Hx0, Hr0 in Hs. }
  destruct Hs as (fl' & _ & Hg). unfold g in Hg. destruct (k_ftable s !! fl') as [x|] eqn:Hx; [|done].
  destruct (Z.eqb_spec (f_ref x) 0) as [Hr|]; [|done]. injection Hg as ->. exists fl, x. split; [|done].
  unfold filealloc. krun Ha. krun R. kstep. kapply Hrel. unfold mret, M_ret. f_equal. transitivity (s <| k_ftable ::= alter (fun x => x <| f_ref := 1 |>) fl |>); [by destruct s|].
  apply set_ext. cbv beta. by rewrite (alter_at _ _ _ x Hx).
Qed.

Lemma fdalloc_run s c p fl :
  current s c p -> length (p_ofile p) = NOFILE -> None ∈ p_ofile p ->
  exists fd, fdalloc fl s = Done (Some fd) (s <| k_ptable ::= <[c := p <| p_ofile ::= <[fd := Some fl]> |>]> |>) /\ p_ofile p !! fd = Some None.
Proof.
  intros Hc Hlen Hnone. unfold fdalloc. krun (curproc_run s c p Hc). match goal with |- context [for_find _ ?b] => set (body := b) end.
  set (g := fun fd : nat => match p_ofile p !! fd with Some None => true | _ => false end).
  destruct (for_find_find body (fun fd => fd) g (fun s' => s' = s) (seq 0 NOFILE) s eq_refl) as (s1 & -> & Hm).
  { intros fd s1 [_ Hfd]%elem_of_seq -> Hg. exists s. split; [|done]. unfold body. krun (current_proc s c p Hc). unfold g in Hg.
    destruct (lookup_lt_is_Some_2 (p_ofile p) fd) as [o Ho]; [lia|]. rewrite Ho in *. by destruct o. }
  rewrite map_id in Hm. destruct (find g (seq 0 NOFILE)) as [fd|] eqn:Ef; cycle 1.
  { apply list_elem_of_lookup in Hnone as [fd Hfd]. pose proof (find_none _ _ Ef fd ltac:(apply in_seq; apply lookup_lt_Some in Hfd; lia)) as H.
    unfold g in H. by rewrite Hfd in H. }
  apply find_some in Ef as [_ Hg]. unfold g in Hg. destruct (p_ofile p !! fd) as [[x|]|] eqn:Ho; try done. exists fd. split; [|done].
  apply Hm. unfold body. krun (current_proc s c p Hc). rewrite Ho. rewrite (bind_done _ _ s None s) by done. cbv beta. unfold set_ofile. kstep.
  unfold mret, M_ret. f_equal. apply set_ext. cbv beta. by rewrite (alter_at _ _ _ p (cu_proc _ _ _ Hc)).
Qed.

(** ** Opening *)

(** The search for [path] by process [p] starts in directory [i]. *)
Definition starts_at (p : proc) (ic : list inode) (path : list Z) (i : nat) : Prop :=
  if at_ path 0 =? 47 then i = 1%nat else exists cwd, p_cwd p = Some cwd /\ refers ic cwd i.

Definition readable (omode : Z) : Z := b2z (negb (nz (Z.land omode O_WRONLY))).
Definition writable (omode : Z) : Z := b2z (nz (Z.land omode O_WRONLY) || nz (Z.land omode O_RDWR)).

(** The entry [x] of the file table after it has been opened for the inode [ip]. *)
Definition opened (x : file) (ip : nat) (omode : Z) : file :=
  x <| f_ref := 1 |> <| f_type := FD_INODE |> <| f_ip := Some ip |> <| f_off := 0 |>
    <| f_readable := readable omode |> <| f_writable := writable omode |>.

(** The file that [open] gives: a directory only for reading. *)
Definition openable (j : option nat) (omode : Z) : option nat :=
  j ← j ; g ← fs !! j ; if (fe_type g =? T_DIR) && negb (omode =? 0) then None else Some j.

Lemma outer_fields s s' : outer s' = outer s ->
  k_hw s' = k_hw s /\ k_ptable s' = k_ptable s /\ k_mem s' = k_mem s /\ k_cr3 s' = k_cr3 s /\ k_cons s' = k_cons s /\ k_devsw s' = k_devsw s.
Proof. unfold outer. intros [=]. done. Qed.

Lemma outer_ptable s s' t : outer s' = outer s -> outer (s' <| k_ptable := t |>) = outer (s <| k_ptable := t |>).
Proof. unfold outer. intros [=]. cbn. congruence. Qed.

Lemma open_inode_q s c p ic path omode i f :
  Q s None ic -> in_op s -> current s c p -> tree_ok fs -> hd_n (dsk start) = 0 /\ length (dsk start) = Z.to_nat BSIZE ->
  (length (in_use ic) + 2 <= NINODE)%nat -> is_bytes path -> Z.land omode O_CREATE = 0 ->
  starts_at p ic path i -> fs !! i = Some f -> fe_type f <> 0 ->
  match openable (resolve fs i (elems path)) omode with
  | None => exists s', open_inode path omode s = Done None s' /\ fs_ready s' /\ settled ic (k_icache s') /\ rest s' = rest s
  | Some j => exists ip s' ic', open_inode path omode s = Done (Some ip) s' /\ Q s' (Some ip) ic' /\ kept s s'
      /\ refers ic' ip j /\ gained ic ic' (Z.of_nat j)
  end.
Proof.
  intros Hq Hop Hcur Htree Hhead Hroom Hpb Hcr Hst Hi Hty. unfold open_inode. rewrite Hcr. change (nz 0) with false. cbv iota.
  destruct (namei_q sb start nfiles Hfit Hdisk Hstart Hbm Hino pid dsk dsk [] fs cids s ic path i f Hq Htree Hroom Hpb) as (r & s1 & ic1 & R1 & Hq1 & Hk1 & Hf1);
    [unfold starts, starts_at in *; destruct (_ =? _); [done|]; destruct Hst as (cwd & Hcwd & Href); exists c, p, cwd; split_and!; [by eapply curproc_run|apply Hcur|done|done]|done|done|].
  unfold openable. destruct (resolve fs i (elems path)) as [j|], r as [ip|]; try done; cbn [mbind option_bind found] in *; cycle 1.
  { destruct (end_q s1 ic1 Hq1 (in_op_kept _ _ Hk1 Hop) Htree Hhead) as (s2 & R2 & Hr2 & Ei2 & Er2). exists s2. krun R1. krun R2.
    split_and!; [done|done|by rewrite Ei2|]. rewrite Er2. apply Hk1. }
  destruct Hf1 as (Href1 & Hga1 & g & Hj & Htg). rewrite Hj. cbn [mbind option_bind]. pose proof Href1 as (nd & Hip & Hr0 & Hin).
  destruct (ilock_q sb start nfiles Hdisk Hbm Hino pid dsk dsk [] fs cids s1 ic1 ip nd j g Hq1 Hip Hr0 Hin Hj Htg) as (s2 & nd2 & R2 & Hq2 & Hk2 & Hnd2 & Hr2 & Hin2 & Hse2).
  set (ic2 := <[ip := nd2]> ic1) in *. assert (ic2 !! ip = Some nd2) as Hip2 by (apply list_lookup_insert_eq; by eapply lookup_lt_Some).
  assert (refers ic2 ip j) as Href2 by (exists nd2; split_and!; [done|done|congruence]). pose proof (gained_settled _ _ _ _ Hga1 Hse2) as Hga2.
  pose proof (quiet_get sb start nfiles pid dsk dsk [] fs cids s2 _ ic2 ip nd2 Hq2 Hip2) as Rg.
  destruct ((fe_type g =? T_DIR) && negb (omode =? 0)) eqn:Ed.
  - destruct (iunlockput_q sb start nfiles Hfit Hbm pid dsk dsk [] fs cids s2 ic2 ip j Hq2 Href2) as (s3 & ic3 & R3 & Hq3 & Hk3 & Hl3).
    assert (kept s s3) as Hk by (by do 2 (eapply kept_trans; [done|])).
    destruct (end_q s3 ic3 Hq3 (in_op_kept _ _ Hk Hop) Htree Hhead) as (s4 & R4 & Hr4 & Ei4 & Er4). exists s4.
    split_and!; [|done|rewrite Ei4; by eapply gained_lost|rewrite Er4; apply Hk]. krun R1. krun R2. krun Rg. rewrite (io_type _ _ Hnd2), Ed. krun R3. by krun R4.
  - exists ip, s2, ic2. split_and!; [|done|by eapply kept_trans|done|done]. krun R1. krun R2. krun Rg. by rewrite (io_type _ _ Hnd2), Ed.
Qed.

(** What [sys_open] leaves: descriptor [fd] of process [p], entry [c] of its table, is for file [j]. *)
Definition opens (s : kernel) (c : nat) (p : proc) (j : nat) (omode : Z) (fd : nat) (s' : kernel) : Prop :=
  exists fl x ip, fs_ready s' /\ gained (k_icache s) (k_icache s') (Z.of_nat j) /\ refers (k_icache s') ip j
    /\ p_ofile p !! fd = Some None /\ k_ftable s !! fl = Some x /\ f_ref x = 0
    /\ k_ftable s' = <[fl := opened x ip omode]> (k_ftable s)
    /\ outer s' = outer (s <| k_ptable := <[c := p <| p_ofile ::= <[fd := Some fl]> |>]> (k_ptable s) |>) /\ k_writes s' = k_writes s.

Lemma sys_open_run s c p path omode i f :
  fs_ready s -> current s c p -> argstr 0 s = Done (Some path) s -> argint 1 s = Done (Some omode) s -> is_bytes path -> Z.land omode O_CREATE = 0 ->
  (length (in_use (k_icache s)) + 2 <= NINODE)%nat -> length (p_ofile p) = NOFILE -> None ∈ p_ofile p ->
  length (k_ftable s) = NFILE -> (exists fl x, k_ftable s !! fl = Some x /\ f_ref x = 0) ->
  let q := container_path path (p_containerID p) in
  starts_at p (k_icache s) q i -> fs !! i = Some f -> fe_type f <> 0 ->
  match openable (resolve fs i (elems q)) omode with
  | None => exists s', sys_open s = Done (-1) s' /\ fs_ready s' /\ settled (k_icache s) (k_icache s') /\ rest s' = rest s
  | Some j => exists fd s', sys_open s = Done (Z.of_nat fd) s' /\ opens s c p j omode fd s'
  end.
Proof.
  intros Hr Hcur Ha0 Ha1 Hpb Hcr Hroom Hofl Hofn Hftl Hftn q Hst Hi Hty. destruct (begin_q s Hr) as (s1 & R1 & Hq1 & Hop1 & Er1).
  destruct (rest_outer _ _ Er1) as (Eo1 & Eft1 & Ew1 & _). destruct (outer_fields _ _ Eo1) as (Ehw1 & Ept1 & _).
  assert (current s1 c p) as Hcur1 by (by apply (current_same s)). assert (is_bytes q) as Hqb.
  { unfold q, container_path. destruct (_ =? 0); [by repeat constructor|]. apply Forall_app. split; [done|]. unfold container_char, u8.
    repeat constructor; try lia; destruct (_ =? 0); try lia; pose proof (Z.mod_pos_bound (48 + p_containerID p) 256); lia. }
  pose proof (open_inode_q s1 c p (k_icache s) q omode i f Hq1 Hop1 Hcur1 (fr_tree _ Hr) (st_head _ _ _ _ _ _ _ (fr_state _ Hr)) Hroom Hqb Hcr Hst Hi Hty) as Hoi.
  unfold sys_open. krun (my_run s c p p_containerID Hcur). krun Ha0. krun Ha1. fold q. destruct (openable (resolve fs i (elems q)) omode) as [j|]; cycle 1.
  { destruct Hoi as (s2 & R2 & Hr2 & Hs2 & Er2). exists s2. krun R1. krun R2. split_and!; [done|done|done|congruence]. }
  destruct Hoi as (ip & s2 & ic2 & R2 & Hq2 & Hk2 & Href2 & Hga2). pose proof Hk2 as [Er2 _].
  destruct (rest_outer _ _ Er2) as (Eo2 & Eft2 & Ew2 & _). destruct (outer_fields _ _ Eo2) as (Ehw2 & Ept2 & _).
  assert (current s2 c p) as Hcur2 by (by apply (current_same s1)).
  destruct (filealloc_run s2) as (fl & x & R3 & Hx & Hx0); [by eapply quiet_calm|by rewrite Eft2, Eft1|by rewrite Eft2, Eft1|]. rewrite Eft2, Eft1 in Hx.
  set (s3 := set k_ftable _ s2) in *. destruct (fdalloc_run s3 c p fl) as (fd & R4 & Hfd); [by apply (current_same s2)|done|done|].
  set (p' := p <| p_ofile ::= <[fd := Some fl]> |>) in *. set (s4 := set k_ptable _ s3) in *. assert (Q s4 (Some ip) ic2) as Hq4.
  { apply (quiet_move s2); [done| |done]. change (calm (k_hw s2) (<[c := p']> (k_ptable s2)) pid). eapply calm_proc; [by eapply quiet_calm|apply Hcur2|done|done|done]. }
  pose proof Href2 as (nd & Hip & Hr0 & Hin). destruct (iunlock_q sb start nfiles pid dsk dsk [] fs cids s4 ic2 ip nd Hq4 Hip Hr0) as (s5 & R5 & Hq5 & Hk5).
  assert (in_op s4) as Hop4 by (change (in_op s2); by eapply in_op_kept).
  destruct (end_q s5 ic2 Hq5 (in_op_kept _ _ Hk5 Hop4) (fr_tree _ Hr) (st_head _ _ _ _ _ _ _ (fr_state _ Hr))) as (s6 & R6 & Hr6 & Ei6 & Er6).
  assert (rest s6 = rest s4) as Er6' by (rewrite Er6; apply Hk5). destruct (rest_outer _ _ Er6') as (Eo6 & Eft6 & Ew6 & _).
  set (g := fun x => opened x ip omode). set (s7 := s6 <| k_ftable ::= alter g fl |>). exists fd, s7. split.
  - krun R1. krun R2. krun R3. krun R4. krun R5. krun R6. do 5 kstep. unfold mret, M_ret. f_equal. unfold s7. rewrite !set_set. apply set_ext. cbv beta.
    rewrite !list_alter_alter_eq, Eft6. change (k_ftable s4) with (<[fl := x <| f_ref := 1 |>]> (k_ftable s2)).
    assert (<[fl := x <| f_ref := 1 |>]> (k_ftable s2) !! fl = Some (x <| f_ref := 1 |>)) as Hl by (apply list_lookup_insert_eq; rewrite Eft2, Eft1; by eapply lookup_lt_Some).
    rewrite !(alter_at _ _ _ _ Hl). done.
  - exists fl, x, ip. split_and!; [|change (k_icache s7) with (k_icache s6); by rewrite Ei6|change (k_icache s7) with (k_icache s6); by rewrite Ei6|done|done|done| | |].
    + apply (ready_move s6); [done|exact (ready_calm s6 Hr6)|done].
    + change (k_ftable s7) with (alter g fl (k_ftable s6)). rewrite Eft6. change (k_ftable s4) with (<[fl := x <| f_ref := 1 |>]> (k_ftable s2)). rewrite Eft2, Eft1.
      rewrite (alter_at _ _ _ (x <| f_ref := 1 |>)) by (apply list_lookup_insert_eq; by eapply lookup_lt_Some). by rewrite list_insert_insert_eq.
    + change (outer s7) with (outer s6). rewrite Eo6. change (outer s4) with (outer (s2 <| k_ptable := <[c := p']> (k_ptable s2) |>)). rewrite Ept2, Ept1.
      apply outer_ptable. congruence.
    + change (k_writes s7) with (k_writes s6). rewrite Ew6. change (k_writes s4) with (k_writes s2). congruence.
Qed.

(** ** Reading and closing *)

Lemma fileread_q s fl ip i o x nd f n :
  fs_ready s -> open_file s fs fl ip i o x nd f -> f_readable x <> 0 -> Z.of_nat o + Z.of_nat n < W32 ->
  exists s', fileread fl (Z.of_nat n) s = Done (read_at o n (fe_data f)) s' /\ fs_ready s' /\ settled (k_icache s) (k_icache s')
    /\ k_ftable s' = <[fl := x <| f_off := Z.of_nat (read_off o n (fe_data f)) |>]> (k_ftable s) /\ outer s' = outer s /\ k_writes s' = k_writes s.
Proof.
  intros Hr Hof Hrd Hon. pose proof Hr as [H1 H2 H3 H4].
  destruct (fileread_run sb start nfiles Hfit Hdisk Hstart Hbm Hino s pid dsk fs fl ip i o x nd f n) as (s' & R & nd' & Hs' & _ & Eo & Eft & Ew & Ei & Hnew); [done..|].
  destruct (loaded_entry sb cids (k_icache s) ip nd nd' i dsk H3 (of_cached _ _ _ _ _ _ _ _ _ Hof) (of_ref _ _ _ _ _ _ _ _ _ Hof) (of_inum _ _ _ _ _ _ _ _ _ Hof)
    (H2 i f (of_file _ _ _ _ _ _ _ _ _ Hof) (proj1 (of_type _ _ _ _ _ _ _ _ _ Hof))) Hnew) as [Hli Hse].
  exists s'. rewrite Ei. split_and!; [done|split; [done|done|by rewrite Ei|done]|done|done|done|done].
Qed.

Lemma fileclose_q s fl x ip i :
  fs_ready s -> k_ftable s !! fl = Some x -> f_ref x = 1 -> f_type x = FD_INODE -> f_ip x = Some ip -> refers (k_icache s) ip i ->
  exists s', fileclose fl s = Done tt s' /\ fs_ready s' /\ lost (k_icache s) (k_icache s') (Z.of_nat i)
    /\ k_ftable s' = <[fl := x <| f_ref := 0 |> <| f_type := FD_NONE |>]> (k_ftable s) /\ outer s' = outer s /\ k_writes s' = k_writes s.
Proof.
  intros Hr Hx Href Hty Hip Hrf. destruct (calm_section s pid L_ftable (ready_calm s Hr) I) as (h & Ha & _ & _ & _ & Hrel). set (sh := s <| k_hw := h |>) in *.
  set (s0 := sh <| k_ftable ::= alter (fun x => x <| f_ref ::= fun r => r - 1 |>) fl |>).
  assert (k_ftable s0 !! fl = Some (x <| f_ref := 0 |>)) as Hx0 by (change (k_ftable s0) with (alter (fun x => x <| f_ref ::= fun r => r - 1 |>) fl (k_ftable s)); rewrite (alter_at _ _ _ x Hx), list_lookup_insert_eq by (by eapply lookup_lt_Some); f_equal; apply set_ext; cbv beta; lia).
  set (x1 := x <| f_ref := 0 |> <| f_type := FD_NONE |>). set (s1 := s <| k_ftable ::= <[fl := x1]> |>).
  assert (fs_ready s1) as Hr1 by (apply (ready_move s); [done|exact (ready_calm s Hr)|done]).
  destruct (begin_q s1 Hr1) as (s2 & R2 & Hq2 & Hop2 & Er2).
  destruct (iput_q sb start nfiles Hfit Hbm pid dsk dsk [] fs cids s2 (k_icache s1) ip i Hq2 Hrf) as (s3 & ic3 & R3 & Hq3 & Hk3 & Hl3).
  destruct (end_q s3 ic3 Hq3 (in_op_kept _ _ Hk3 Hop2) (fr_tree _ Hr) (st_head _ _ _ _ _ _ _ (fr_state _ Hr))) as (s4 & R4 & Hr4 & Ei4 & Er4).
  assert (rest s4 = rest s1) as Er by (rewrite Er4, (proj1 Hk3); exact Er2). destruct (rest_outer _ _ Er) as (Eo & Ef & Ew & _).
  exists s4. rewrite Ei4. split_and!; [|done|done|exact Ef|exact Eo|exact Ew].
  unfold fileclose. krun Ha. krun (get_file_run sh fl x Hx). rewrite Href. cbn [Z.ltb Z.compare Pos.compare Pos.compare_cont]. kstep.
  krun (get_file_run s0 fl _ Hx0). change (0 <? f_ref (x <| f_ref := 0 |>)) with false. cbv iota. do 2 kstep. kapply Hrel.
  change (f_type (x <| f_ref := 0 |>)) with (f_type x). rewrite Hty. cbv iota.
  replace (set k_hw _ _) with s1; [krun R2; change (f_ip (x <| f_ref := 0 |>)) with (f_ip x); rewrite Hip; rewrite (bind_done _ _ s2 ip s2) by done; cbv beta; krun R3; exact R4|].
  unfold s1, s0, sh. rewrite !set_set. transitivity (s <| k_ftable ::= fun l => alter (fun x => x <| f_type := FD_NONE |>) fl (alter (fun x => x <| f_ref := 0 |>) fl (alter (fun x => x <| f_ref ::= fun r => r - 1 |>) fl l)) |>); [|by destruct s].
  apply set_ext. cbv beta. by rewrite !list_alter_alter_eq, (alter_at _ _ _ x Hx).
Qed.

(** ** Writing to the console *)

Lemma outer_cons s s' cs : outer s' = outer s -> outer (s' <| k_cons := cs |>) = outer (s <| k_cons := cs |>).
Proof. unfold outer. intros [=]. cbn. congruence. Qed.

(** The file [i] is the console, and entry [ip] of the inode cache is for it. *)
Definition console_entry (ic : list inode) (ip i : nat) : Prop :=
  exists nd f, ic !! ip = Some nd /\ 0 < i_ref nd /\ i_valid nd <> 0 /\ i_major nd = 1 /\ i_inum nd = Z.of_nat i
    /\ fs !! i = Some f /\ fe_type f = T_DEV.

Lemma console_persists ic ic' ip i : console_entry ic ip i -> persists ic ic' -> 0 < refs ic' (Z.of_nat i) -> console_entry ic' ip i.
Proof.
  intros (nd & f & Hip & Hr & Hv & Hm & Hin & Hf & Hty) Hp H0. destruct (Hp ip nd Hip Hr) as (nd' & Hip' & Hr' & Hin' & Hs); [by rewrite Hin|].
  specialize (Hs Hv). exists nd', f. split_and!; [done|done|by rewrite Hs|by rewrite Hs|congruence|done|done].
Qed.

Lemma console_refs ic ip i : console_entry ic ip i -> 0 < refs ic (Z.of_nat i).
Proof. intros (nd & f & Hip & Hr & _ & _ & Hin & _). apply refs_pos, in_use_lookup. by exists ip, nd. Qed.

Lemma console_ilock_q s ic ip i :
  Q s None ic -> console_entry ic ip i ->
  exists s' ic' nd', ilock (Some ip) s = Done tt s' /\ Q s' (Some ip) ic' /\ kept s s' /\ console_entry ic' ip i /\ settled ic ic'
    /\ ic' !! ip = Some nd' /\ 0 < i_ref nd' /\ i_type nd' = T_DEV /\ i_major nd' = 1.
Proof.
  intros Hq (nd & f & Hip & Hr & Hv & Hm & Hin & Hf & Hty).
  destruct (ilock_q sb start nfiles Hdisk Hbm Hino pid dsk dsk [] fs cids s ic ip nd i f Hq Hip Hr Hin Hf ltac:(by rewrite Hty)) as (s' & nd' & R & Hq' & Hk & Hnd & Hr' & Hin' & Hse).
  assert (<[ip := nd']> ic !! ip = Some nd') as Hip' by (apply list_lookup_insert_eq; by eapply lookup_lt_Some).
  destruct (proj2 Hse ip nd Hip Hr) as (nd2 & Hip2 & _ & _ & Hs); [apply refs_pos, in_use_lookup; exists ip, nd'; split_and!; [done|done|congruence]|].
  rewrite Hip' in Hip2. injection Hip2 as <-. specialize (Hs Hv). assert (i_major nd' = 1) as Hm' by (by rewrite Hs).
  exists s', (<[ip := nd']> ic), nd'. split_and!; [done|done|done| |done|done|done|by rewrite (io_type _ _ Hnd)|done].
  exists nd', f. split_and!; [done|done|by rewrite Hs|done|congruence|done|done].
Qed.

Lemma prints_bytes l : is_bytes l -> prints (for_each (seq 0 (length l)) (fun i => c ← deref "consolewrite: buf" (l !! i) ; consputc (Z.land c 0xff))) l.
Proof.
  intros Hb. assert (forall l1 l2, l = l1 ++ l2 -> prints (for_each (seq (length l1) (length l2)) (fun i => c ← deref "consolewrite: buf" (l !! i) ; consputc (Z.land c 0xff))) l2) as H.
  { intros l1 l2. revert l1. induction l2 as [|b l2 IH]; intros l1 ->; [apply prints_ret|]. cbn [length seq for_each].
    apply (prints_seq _ _ [b] l2).
    - intros s Hs. rewrite list_lookup_middle by done. kstep. apply Forall_app in Hb as [_ [Hb _]%Forall_cons].
      change 0xff with (Z.ones 8). rewrite Z.land_ones by lia. rewrite Z.mod_small by lia. by apply prints_consputc.
    - specialize (IH (l1 ++ [b])). rewrite length_app, Nat.add_1_r in IH. apply IH. by rewrite <- app_assoc. }
  exact (H [] l eq_refl).
Qed.

Lemma consolewrite_q s ic ip i l :
  Q s (Some ip) ic -> console_entry ic ip i -> cons_ok (k_cons s) -> is_bytes l ->
  exists s' ic' cs, consolewrite ip l (Z.of_nat (length l)) s = Done (Z.of_nat (length l)) s' /\ Q s' (Some ip) ic' /\ console_entry ic' ip i /\ settled ic ic'
    /\ emits l (k_cons s) cs /\ kept (s <| k_cons := cs |>) s'.
Proof.
  intros Hq Hce Hcons Hb. pose proof Hce as (nd & f & Hip & Hr & _).
  destruct (iunlock_q sb start nfiles pid dsk dsk [] fs cids s ic ip nd Hq Hip Hr) as (s1 & R1 & Hq1 & [Er1 (hd & El1)]).
  pose proof (quiet_calm _ _ _ _ _ _ _ _ _ _ _ _ Hq1) as Hc1. destruct (calm_section s1 pid L_cons Hc1 I) as (h & Ha & _ & _ & _ & Hrel). set (sh := s1 <| k_hw := h |>) in *.
  destruct (rest_outer _ _ Er1) as (Eo1 & Ef1 & Ew1 & Es1). destruct (outer_fields _ _ Eo1) as (_ & _ & _ & _ & Ec1 & _).
  destruct (prints_bytes l Hb sh) as (cs & Rp & Hem); [change (cons_ok (k_cons s1)); by rewrite Ec1|]. change (emits l (k_cons s1) cs) in Hem. rewrite Ec1 in Hem.
  set (s2 := s1 <| k_cons := cs |>). assert (Q s2 None ic) as Hq2 by (apply (quiet_move s1); done).
  destruct (console_ilock_q s2 ic ip i Hq2 Hce) as (s3 & ic3 & nd3 & R3 & Hq3 & Hk3 & Hce3 & Hse3 & _).
  exists s3, ic3, cs. split_and!; [|done|done|done|done|].
  - unfold consolewrite. krun R1. krun Ha. rewrite Nat2Z.id. krun Rp. rewrite (bind_done _ _ _ tt s2) by (rewrite Hrel by done; by destruct s1). cbv beta. by krun R3.
  - destruct Hk3 as [Er3 (h3 & El3)]. split; [|exists h3; rewrite El3; change (k_log s2) with (k_log s1); by rewrite El1].
    rewrite Er3. unfold rest, outer in *. cbn. congruence.
Qed.

Lemma filewrite_console_q s fl x ip i dv l :
  fs_ready s -> console_entry (k_icache s) ip i -> cons_ok (k_cons s) -> k_devsw s !! 1%nat = Some dv -> dv_write dv = Some consolewrite_fn ->
  k_ftable s !! fl = Some x -> f_type x = FD_INODE -> f_writable x <> 0 -> f_ip x = Some ip ->
  is_bytes l -> (0 < length l <= 512)%nat -> exists s' cs, let n := Z.of_nat (length l) in
  filewrite fl l n s = Done n s' /\ fs_ready s' /\ settled (k_icache s) (k_icache s') /\ emits l (k_cons s) cs
  /\ k_ftable s' = <[fl := x <| f_off := u32 (f_off x + n) |>]> (k_ftable s) /\ outer s' = outer (s <| k_cons := cs |>) /\ k_writes s' = k_writes s.
Proof.
  intros Hr Hce Hcons Hdv Hdw Hx Hxt Hxw Hxi Hb Hlen. set (n := Z.of_nat (length l)).
  destruct (begin_q s Hr) as (s1 & R1 & Hq1 & Hop1 & Er1). destruct (rest_outer _ _ Er1) as (Eo1 & Ef1 & Ew1 & _).
  destruct (console_ilock_q s1 _ ip i Hq1 Hce) as (s2 & ic2 & nd2 & R2 & Hq2 & Hk2 & Hce2 & Hse2 & Hip2 & _ & Hty2 & Hmj2).
  destruct (rest_outer _ _ (proj1 Hk2)) as (Eo2 & Ef2 & Ew2 & _). assert (outer s2 = outer s) as Eo by congruence. destruct (outer_fields _ _ Eo) as (_ & _ & _ & _ & Ec & Ed).
  destruct (consolewrite_q s2 ic2 ip i l Hq2 Hce2) as (s3 & ic3 & cs & R3 & Hq3 & Hce3 & Hse3 & Hem & Hk3); [by rewrite Ec|done|]. rewrite Ec in Hem.
  destruct (rest_outer _ _ (proj1 Hk3)) as (Eo3 & Ef3 & Ew3 & _). assert (k_ftable s3 = k_ftable s) as Ef by (rewrite Ef3; cbn; congruence).
  assert (in_op s3) as Hop3 by (apply (in_op_kept _ _ Hk3); change (in_op s2); by eapply in_op_kept).
  set (x' := x <| f_off := u32 (f_off x + n) |>). set (s4 := s3 <| k_ftable := <[fl := x']> (k_ftable s) |>).
  assert (Q s4 (Some ip) ic3) as Hq4 by (apply (quiet_move s3); [done|exact (quiet_calm _ _ _ _ _ _ _ _ _ _ _ _ Hq3)|done]).
  pose proof Hce3 as (nd3 & _ & Hip3 & Hr3 & _). destruct (iunlock_q sb start nfiles pid dsk dsk [] fs cids s4 ic3 ip nd3 Hq4 Hip3 Hr3) as (s5 & R5 & Hq5 & Hk5).
  destruct (end_q s5 ic3 Hq5 (in_op_kept _ _ Hk5 Hop3) (fr_tree _ Hr) (st_head _ _ _ _ _ _ _ (fr_state _ Hr))) as (s6 & R6 & Hr6 & Ei6 & Er6).
  assert (rest s6 = rest s4) as Er by (rewrite Er6; apply Hk5). destruct (rest_outer _ _ Er) as (Eo6 & Ef6 & Ew6 & _).
  exists s6, cs. split_and!; [|done| |done|exact Ef6| |].
  - unfold filewrite. krun (get_file_run s fl x Hx). rewrite (proj2 (Z.eqb_neq _ _) Hxw), Hxt. cbv iota.
    assert (Z.to_nat (n / write_max) + 2 = 2)%nat as -> by (rewrite Z.div_small by (change write_max with 1536; unfold n; lia); done).
    assert (writei ip (drop 0 l) (f_off x) n s2 = Done n s3) as Rw.
    { unfold writei. krun (quiet_get sb start nfiles pid dsk dsk [] fs cids s2 _ ic2 ip nd2 Hq2 Hip2). rewrite Hty2, Hmj2. cbn [orb Z.eqb Pos.eqb Z.ltb Z.leb Z.compare Pos.compare Pos.compare_cont].
      assert (get_devsw 1 s2 = Done dv s2) as Rd by (unfold get_devsw; kstep; change (Z.to_nat 1) with 1%nat; by rewrite Ed, Hdv).
      krun Rd. rewrite Hdw. rewrite i32_small by (unfold n; lia). exact R3. }
    assert (filewrite_loop 2 fl l n 0 s = Done n s6) as Rl; [|krun Rl; by rewrite Z.eqb_refl].
    cbn [filewrite_loop]. rewrite (proj2 (Z.ltb_lt 0 n)) by (unfold n; lia). rewrite Z.min_l by (change write_max with 1536; unfold n; lia). rewrite Z.sub_0_r.
    krun R1. krun (get_file_run s1 fl x ltac:(by rewrite Ef1)). rewrite Hxi. krun R2. kstep. krun (get_file_run s2 fl x ltac:(by rewrite Ef2, Ef1)). krun Rw.
    rewrite (proj2 (Z.ltb_lt 0 n)) by (unfold n; lia). cbn [when].
    rewrite (bind_done _ _ s3 tt s4) by (unfold upd_file, modify; f_equal; apply set_ext; cbv beta; rewrite Ef; rewrite (alter_at _ _ _ x Hx); by destruct x). cbv beta.
    rewrite Hxi. krun R5. krun R6. rewrite (proj2 (Z.ltb_ge n 0)) by (unfold n; lia). rewrite Z.eqb_refl. cbn [negb]. rewrite Z.add_0_l. by rewrite Z.ltb_irrefl.
  - rewrite Ei6. by eapply settled_trans.
  - rewrite Eo6. change (outer s4) with (outer s3). rewrite Eo3. by apply outer_cons.
  - rewrite Ew6. change (k_writes s4) with (k_writes s3). rewrite Ew3. change (k_writes s2 = k_writes s). congruence.
Qed.

End files.
