(* ===== verification/Boot.v ===== *)
(** mp.c, which finds the processors in the tables of the BIOS, and main.c, which
    calls the initialisation of every component and starts the processors. *)
From S2P Require Import Prelude Kernel Spinlock Console CString Kalloc Devices Proc Vm SysArgs Sleeplock Disk Bytes Bio Log Inode ConsoleIo Fs Pipe FileTable ProcLife Exec Container SysProc SysFile Syscall.

(** ** mp.h *)

Abbreviation MPPROC := 0x00 (only parsing).
Abbreviation MPBUS := 0x01 (only parsing).
Abbreviation MPIOAPIC := 0x02 (only parsing).
Abbreviation MPIOINTR := 0x03 (only parsing).
Abbreviation MPLINTR := 0x04 (only parsing).

(** The members the kernel reads, of the structs at address [a]. *)
Definition MP_SIZE : Z := 16.
Definition mp_physaddr (m : memory) (a : Z) : Z := load32 m (a + 4).
Definition mp_imcrp (m : memory) (a : Z) : Z := load8 m (a + 12).
Definition MPCONF_SIZE : Z := 44.
Definition load16 (m : memory) (a : Z) : Z := load8 m a + 256 * load8 m (a + 1).
Definition conf_length (m : memory) (a : Z) : Z := load16 m (a + 4).
Definition conf_version (m : memory) (a : Z) : Z := load8 m (a + 6).
Definition conf_lapicaddr (m : memory) (a : Z) : Z := load32 m (a + 36).
Definition MPPROC_SIZE : Z := 20.
Definition mpproc_apicid (m : memory) (a : Z) : Z := load8 m (a + 1).
Definition MPIOAPIC_SIZE : Z := 8.
Definition mpioapic_apicno (m : memory) (a : Z) : Z := load8 m (a + 1).

(** ** mp.c *)

Definition bytes_at (m : memory) (a : Z) (n : nat) : list Z := map (fun i => load8 m (a + Z.of_nat i)) (seq 0 n).

Definition sum (m : memory) (addr len : Z) : Z := u8 (i32 (foldr Z.add 0 (bytes_at m addr (Z.to_nat len)))).

Definition mpsearch1 (m : memory) (a len : Z) : option Z :=
  let addr := P2V a in
  snd <$> list_find (fun p => memcmp (bytes_at m p 4) (cstr "_MP_") 4 = 0 /\ sum m p MP_SIZE = 0)
    (map (fun i => addr + MP_SIZE * i) (seqZ 0 ((len + MP_SIZE - 1) / MP_SIZE))).

Definition mpsearch (m : memory) : option Z :=
  let bda := P2V 0x400 in
  let p := Z.shiftl (Z.lor (Z.shiftl (load8 m (bda + 0x0F)) 8) (load8 m (bda + 0x0E))) 4 in
  let mp := if nz p then mpsearch1 m p 1024 else
            let p := Z.lor (Z.shiftl (load8 m (bda + 0x14)) 8) (load8 m (bda + 0x13)) * 1024 in
            mpsearch1 m (u32 (p - 1024)) 1024 in
  match mp with
  | Some mp => Some mp
  | None => mpsearch1 m 0xF0000 0x10000
  end.

(** The addresses of the [struct mpconf] and of the [struct mp]. *)
Definition mpconfig (m : memory) : option (Z * Z) :=
  match mpsearch m with
  | None => None
  | Some mp =>
      if mp_physaddr m mp =? 0 then None else
      let conf := P2V (mp_physaddr m mp) in
      if negb (memcmp (bytes_at m conf 4) (cstr "PCMP") 4 =? 0) then None else
      if negb (conf_version m conf =? 1) && negb (conf_version m conf =? 4) then None else
      if negb (sum m conf (conf_length m conf) =? 0) then None else
      Some (conf, mp)
  end.

(** [cpus[ncpu]], a static variable, before [mpinit]. *)
Definition zero_seg : segdesc := Segdesc 0 0 0 0 0 0 0 0 0 0 0 0 0.
Definition new_cpu (apicid : Z) : cpu := Cpu apicid 0 0 0 (replicate NSEGS zero_seg) 0 0 0 None.

Section boot.
Context {E : Env} {D : Disk} {V : Devices}.

(** The loop of [mpinit].  The [break] of the default case leaves the [switch] but
    not the loop, which goes round again with the same [p]. *)
Fixpoint mp_loop (n : nat) (p e ismp : Z) : K Z :=
  match n with
  | O => stop_with OutOfFuel
  | S n' =>
      if p <? e then
        m ← gets k_mem ;
        let t := load8 m p in
        if t =? MPPROC then
          cs ← get_hw h_cpus ;
          when (bool_decide (length cs < NCPU)%nat)
            (upd_hw (fun h => h <| h_cpus := cs ++ [new_cpu (mpproc_apicid m p)] |>)) ;;
          mp_loop n' (p + MPPROC_SIZE) e ismp
        else if t =? MPIOAPIC then
          upd_pf (fun f => f <| pf_ioapicid := mpioapic_apicno m p |>) ;;
          mp_loop n' (p + MPIOAPIC_SIZE) e ismp
        else if (t =? MPBUS) || (t =? MPIOINTR) || (t =? MPLINTR) then mp_loop n' (p + 8) e ismp
        else mp_loop n' p e 0
      else mret ismp
  end.

Definition mpinit : K unit :=
  m ← gets k_mem ;
  match mpconfig m with
  | None => panic "Expect to run on an SMP"
  | Some (conf, mp) =>
      upd_pf (fun f => f <| pf_lapic := conf_lapicaddr m conf |>) ;;
      ismp ← mp_loop (S (Z.to_nat (conf_length m conf))) (conf + MPCONF_SIZE) (conf + conf_length m conf) 1 ;
      if ismp =? 0 then panic "Didn't find a suitable machine" else
      when (nz (mp_imcrp m mp))
        (outb 0x22 0x70 ;;
         outb 0x23 (Z.lor (inb 0x23) 1))
  end.

(** ** main.c *)

Definition mpmain (rounds : nat) : K unit :=
  id ← cpuid ;
  cprintf "cpu%d: starting %d
" [AInt id; AInt id] ;;
  idtinit ;;
  c ← mycpu ;
  upd_cpu c (fun c => c <| c_started := 1 |>) ;;
  scheduler rounds.

Definition mpenter (rounds : nat) : K unit :=
  switchkvm ;;
  seginit ;;
  lapicinit ;;
  mpmain rounds.

(** The body of the loop of [startothers], for the CPU [c]. *)
Definition start_cpu (c : nat) : K unit :=
  me ← mycpu ;
  if decide (c = me) then mret tt else
  let code := P2V 0x7000 in
  stack ← kalloc ;
  store (code - 4) (stack + KSTACKSIZE) ;;
  store (code - 8) mpenter_addr ;;
  store (code - 12) (V2P entrypgdir_addr) ;;
  x ← get_cpu c ;
  lapicstartap (c_apicid x) (V2P code) ;;
  loop fuel (
    x ← get_cpu c ;
    if c_started x =? 0 then yield_to (Y_started c) ;; mret None else mret (Some tt)).

Definition startothers : K unit :=
  upd_mem (fun m => put_bytes m (P2V 0x7000) entryother) ;;
  cs ← get_hw h_cpus ;
  for_each (seq 0 (length cs)) start_cpu.

Definition main (rounds : nat) : K unit :=
  kinit1 kernel_end (P2V (4 * 1024 * 1024)) ;;
  kvmalloc ;;
  mpinit ;;
  lapicinit ;;
  seginit ;;
  picinit ;;
  ioapicinit ;;
  consoleinit ;;
  uartinit ;;
  pinit ;;
  containerInit ;;
  tvinit ;;
  binit ;;
  fileinit ;;
  ideinit ;;
  startothers ;;
  kinit2 (P2V (4 * 1024 * 1024)) (P2V PHYSTOP) ;;
  userinit ;;
  mpmain rounds.

(** ** The processor table

    The entries between [p] and [e] that [mpinit] walks over, and the address of the
    first entry whose type it does not know. *)
Definition entry_size (t : Z) : option Z :=
  if t =? MPPROC then Some MPPROC_SIZE
  else if t =? MPIOAPIC then Some MPIOAPIC_SIZE
  else if (t =? MPBUS) || (t =? MPIOINTR) || (t =? MPLINTR) then Some 8
  else None.

Inductive mp_entries (m : memory) (e : Z) : Z -> list Z -> option Z -> Prop :=
| mp_end p : e <= p -> mp_entries m e p [] None
| mp_unknown p : p < e -> entry_size (load8 m p) = None -> mp_entries m e p [] (Some p)
| mp_entry p k l o :
    p < e -> entry_size (load8 m p) = Some k -> mp_entries m e (p + k) l o -> mp_entries m e p (p :: l) o.

(** What a list of entries says: the processors, and the I/O APIC. *)
Definition apicids (m : memory) (l : list Z) : list Z :=
  map (mpproc_apicid m) (filter (fun p => load8 m p = MPPROC) l).
Definition ioapic_of (m : memory) (l : list Z) (id : Z) : Z :=
  foldl (fun id p => if load8 m p =? MPIOAPIC then mpioapic_apicno m p else id) id l.

Definition scanned (m : memory) (l : list Z) (s : kernel) : kernel :=
  s <| k_hw ::= set h_cpus (fun cs => take NCPU (cs ++ map new_cpu (apicids m l))) |>
    <| k_platform ::= set pf_ioapicid (ioapic_of m l) |>.

(** One entry, then the others. *)
Lemma scanned_cons m p l s :
  (length (h_cpus (k_hw s)) <= NCPU)%nat -> scanned m l (scanned m [p] s) = scanned m (p :: l) s.
Proof.
  intros Hl. unfold scanned.
  change (set k_hw ?f (set k_platform ?g (set k_hw ?h s))) with (set k_platform g (set k_hw f (set k_hw h s))).
  rewrite !set_set. etrans; [apply set_ext; rewrite set_set; by apply (set_ext _ (ioapic_of m (p :: l)))|].
  f_equal. apply set_ext. rewrite set_set. apply set_ext.
  assert (apicids m (p :: l) = apicids m [p] ++ apicids m l) as ->.
  { unfold apicids. rewrite <- map_app, <- filter_app. done. }
  rewrite map_app, !(assoc_L (++)). set (a := h_cpus (k_hw s) ++ _).
  destruct (decide (NCPU <= length a))%nat as [Hle|Hgt]; [|by rewrite (take_ge a) by lia].
  rewrite (take_app_le a) by done. rewrite take_app_le by (rewrite length_take; lia).
  by rewrite take_take, Nat.min_id.
Qed.

Lemma scanned_one m p s :
  (length (h_cpus (k_hw s)) <= NCPU)%nat ->
  scanned m [p] s =
    if load8 m p =? MPPROC
    then s <| k_hw ::= set h_cpus (fun cs => take NCPU (cs ++ [new_cpu (mpproc_apicid m p)])) |>
    else if load8 m p =? MPIOAPIC
    then s <| k_platform ::= set pf_ioapicid (fun _ => mpioapic_apicno m p) |>
    else s.
Proof.
  intros Hl. unfold scanned, apicids, ioapic_of. rewrite filter_cons. cbn [foldl].
  destruct (Z.eqb_spec (load8 m p) MPPROC) as [Ht|Ht].
  - rewrite decide_True by done. rewrite (set_fix k_platform); [done|]. apply set_fix. by rewrite Ht.
  - rewrite decide_False, filter_nil by done. cbn [map]. rewrite (set_fix k_hw _ s).
    + destruct (Z.eqb_spec (load8 m p) MPIOAPIC); [done|]. apply set_fix. by apply set_fix.
    + apply set_fix. by rewrite app_nil_r, take_ge.
Qed.

Lemma mp_loop_entry n p e k ismp s :
  p < e -> entry_size (load8 (k_mem s) p) = Some k -> (length (h_cpus (k_hw s)) <= NCPU)%nat ->
  mp_loop (S n) p e ismp s = mp_loop n (p + k) e ismp (scanned (k_mem s) [p] s).
Proof.
  intros Hp Hk Hl. cbn [mp_loop]. rewrite (proj2 (Z.ltb_lt _ _) Hp), scanned_one by done. kstep. revert Hk. unfold entry_size.
  destruct (Z.eqb_spec (load8 (k_mem s) p) MPPROC) as [Ht|Ht]; [|destruct (Z.eqb_spec (load8 (k_mem s) p) MPIOAPIC) as [Ht'|Ht']].
  - intros [= <-]. unfold get_hw, upd_hw, when. kstep.
    case_bool_decide as Hn; kstep; f_equal.
    + apply set_ext, set_ext. by rewrite take_ge by (rewrite length_app; cbn; lia).
    + symmetry. apply set_fix, set_fix. rewrite take_app_le, take_ge by lia. done.
  - intros [= <-]. unfold upd_pf. by kstep.
  - by destruct (_ || _); intros [= <-].
Qed.

Lemma scanned_len m l s : (length (h_cpus (k_hw (scanned m l s))) <= NCPU)%nat.
Proof.
  change (h_cpus _) with (take NCPU (h_cpus (k_hw s) ++ map new_cpu (apicids m l))). rewrite length_take.
  apply Nat.le_min_l.
Qed.

Lemma scanned_nil m s : (length (h_cpus (k_hw s)) <= NCPU)%nat -> scanned m [] s = s.
Proof.
  intros Hl. unfold scanned. rewrite (set_fix k_platform), (set_fix k_hw); [done| |]; apply set_fix; [|done].
  cbn. by rewrite app_nil_r, take_ge.
Qed.

(** The loop on a table of known entries. *)
Lemma mp_loop_known m p e l n ismp s :
  mp_entries m e p l None -> k_mem s = m -> (length (h_cpus (k_hw s)) <= NCPU)%nat -> (Z.to_nat (e - p) < n)%nat ->
  mp_loop n p e ismp s = Done ismp (scanned m l s).
Proof.
  intros He. remember None as o eqn:Ho. revert n s. induction He as [p Hp|p Hp Ht|p k l o Hp Ht He IH]; intros n s Hm Hl Hn.
  - destruct n; [lia|]. cbn [mp_loop]. rewrite (proj2 (Z.ltb_ge _ _)) by lia. by rewrite scanned_nil.
  - done.
  - destruct n as [|n]; [lia|]. subst m. rewrite (mp_loop_entry n p e k) by done.
    rewrite IH; [|done|done|apply scanned_len|]; [by rewrite scanned_cons|].
    assert (8 <= k); [|lia]. revert Ht. unfold entry_size, MPPROC_SIZE, MPIOAPIC_SIZE.
    repeat case_match; intros [= <-]; lia.
Qed.

(** The loop on a table with an entry of unknown type. *)
Lemma mp_loop_unknown m p e l q n ismp s :
  mp_entries m e p l (Some q) -> k_mem s = m -> (length (h_cpus (k_hw s)) <= NCPU)%nat ->
  exists s', mp_loop n p e ismp s = Stop OutOfFuel s'.
Proof.
  intros He. remember (Some q) as o eqn:Ho. revert n s ismp.
  induction He as [p Hp|p Hp Ht|p k l o Hp Ht He IH]; intros n s ismp Hm Hl; [done| |].
  - exists s. revert ismp. induction n as [|n IHn]; intros ismp; [done|]. cbn [mp_loop]. rewrite (proj2 (Z.ltb_lt _ _) Hp).
    kstep. rewrite Hm. revert Ht. unfold entry_size. by repeat case_match.
  - destruct n as [|n]; [by exists s|]. subst m. rewrite (mp_loop_entry n p e k) by done.
    apply IH; [done|done|apply scanned_len].
Qed.

(** C34: [mpinit] reads the processor table of the BIOS.  When every entry up to the
    end has a known type, its loop ends, within the fuel given to it by [mpinit],
    has not cleared [ismp], has recorded the processors in order up to [NCPU] of
    them, and the identifier of the last I/O APIC, and has changed nothing else.  The default
    case of its switch is left by a [break], which does not leave the loop: with an
    entry of unknown type, after any number of known ones, no number of rounds ends the loop,
    and the panic for an unsuitable machine that follows it is never reached. *)
Theorem mp_table_scanned m p e l o n ismp s :
  mp_entries m e p l o -> k_mem s = m -> (length (h_cpus (k_hw s)) <= NCPU)%nat ->
  match o with
  | None => (Z.to_nat (e - p) < n)%nat -> mp_loop n p e ismp s = Done ismp (scanned m l s)
  | Some _ => exists s', mp_loop n p e ismp s = Stop OutOfFuel s'
  end.
Proof. destruct o as [q|]; intros; [by apply (mp_loop_unknown m p e l q)|by apply mp_loop_known]. Qed.

End boot.
