(* ===== verification/Bootmain.v ===== *)
(** bootmain.c: the boot loader.  It reads the kernel's ELF file off the disk with
    programmed input and output, one sector at a time, copies each segment to its
    physical address and jumps to the entry point.

    The machine is the loader's own: physical memory, the port writes so far
    (newest first) and the number of port accesses.  The drive is not code of
    this repository: [Drive] gives the status register as a function of the
    number of accesses and the data port as a function of the writes, and
    [drive_ok] states what the ATA standard documents of them. *)
From S2P Require Import Prelude Kernel CString Vm Bytes Exec Boot.

Definition SECTSIZE : Z := 512.

Record loader := Loader {
  bl_mem : memory;
  bl_out : list (Z * Z);
  bl_tick : nat
}.
#[export] Instance eta_loader : Eta loader := fun r => Loader (bl_mem r) (bl_out r) (bl_tick r).

Class Drive := {
  drive_status : nat -> Z;
  drive_data : list (Z * Z) -> nat -> list Z
}.

Abbreviation B := (M Empty_set loader).

Section bootmain.
Context {V : Drive} (rounds : nat).

Definition bl_outb (port data : Z) : B unit :=
  modify (fun s => s <| bl_out ::= cons (port, u8 data) |> <| bl_tick ::= S |>).
(** [inb(0x1F7)] *)
Definition bl_status : B Z :=
  t ← gets bl_tick ;
  modify (fun s => s <| bl_tick ::= S |>) ;;
  mret (drive_status t).
(** [insl(0x1F0, addr, cnt)] *)
Definition bl_insl (addr : Z) (cnt : nat) : B unit :=
  modify (fun s => s <| bl_mem := put_bytes (bl_mem s) addr (take (4 * cnt) (drive_data (bl_out s) cnt)) |> <| bl_tick ::= S |>).

Definition waitdisk : B unit :=
  loop rounds (r ← bl_status ; mret (if negb (Z.land r 0xC0 =? 0x40) then None else Some tt)).

Definition readsect (dst offset : Z) : B unit :=
  waitdisk ;;
  bl_outb 0x1F2 1 ;;
  bl_outb 0x1F3 offset ;;
  bl_outb 0x1F4 (Z.shiftr offset 8) ;;
  bl_outb 0x1F5 (Z.shiftr offset 16) ;;
  bl_outb 0x1F6 (Z.lor (Z.shiftr offset 24) 0xE0) ;;
  bl_outb 0x1F7 0x20 ;;
  waitdisk ;;
  bl_insl dst (Z.to_nat (SECTSIZE / 4)).

Fixpoint readseg_loop (n : nat) (pa epa offset : Z) : B unit :=
  match n with
  | O => stop_with OutOfFuel
  | S n' =>
      if pa <? epa then readsect pa offset ;; readseg_loop n' (u32 (pa + SECTSIZE)) epa (u32 (offset + 1))
      else mret tt
  end.

Definition readseg (pa count offset : Z) : B unit :=
  let epa := u32 (pa + count) in
  let pa := u32 (pa - offset mod SECTSIZE) in
  let offset := u32 (offset / SECTSIZE + 1) in
  readseg_loop (Z.to_nat (count / SECTSIZE + 3)) pa epa offset.

Definition elf_at (m : memory) (elf : Z) : elfhdr := elfhdr_of (bytes_at m elf (Z.to_nat ELFHDR_SIZE)).
Definition ph_at (m : memory) (ph : Z) : proghdr := proghdr_of (bytes_at m ph (Z.to_nat PROGHDR_SIZE)).

(** The body of the loop over the program headers. *)
Definition segment (ph : Z) : B unit :=
  m ← gets bl_mem ;
  let pa := ph_paddr (ph_at m ph) in
  readseg pa (ph_filesz (ph_at m ph)) (ph_off (ph_at m ph)) ;;
  m ← gets bl_mem ;
  let p := ph_at m ph in
  if ph_filesz p <? ph_memsz p
  then modify (fun s => s <| bl_mem := stosb (bl_mem s) (u32 (pa + ph_filesz p)) 0 (Z.to_nat (ph_memsz p - ph_filesz p)) |>)
  else mret tt.

Fixpoint segments (n : nat) (ph eph : Z) : B unit :=
  match n with
  | O => stop_with OutOfFuel
  | S n' => if ph <? eph then segment ph ;; segments n' (u32 (ph + PROGHDR_SIZE)) eph else mret tt
  end.

(** [Some entry] is the jump to [entry], [None] the return to bootasm.S. *)
Definition bootmain : B (option Z) :=
  let elf := 0x10000 in
  readseg elf 4096 0 ;;
  m ← gets bl_mem ;
  if negb (eh_magic (elf_at m elf) =? ELF_MAGIC) then mret None else
  let ph := u32 (elf + eh_phoff (elf_at m elf)) in
  let eph := u32 (ph + PROGHDR_SIZE * eh_phnum (elf_at m elf)) in
  segments (S (Z.to_nat (eh_phnum (elf_at m elf)))) ph eph ;;
  m ← gets bl_mem ;
  mret (Some (eh_entry (elf_at m elf))).

(** ** The drive *)

(** The port writes that ask for sector [n], newest first. *)
Definition read_cmd (n : Z) : list (Z * Z) :=
  [(0x1F7, 0x20); (0x1F6, n / 2 ^ 24 + 0xE0); (0x1F5, n / 2 ^ 16 mod 256); (0x1F4, n / 2 ^ 8 mod 256); (0x1F3, n mod 256); (0x1F2, 1)].

(** The drive gets ready in fewer than [rounds] looks at its status, and the
    data port gives the sector that was asked for (28-bit addressing). *)
Record drive_ok (disk : Z -> list Z) : Prop := DriveOk {
  dr_ready : forall t, exists d, (d < rounds)%nat /\ Z.land (drive_status (t + d)) 0xC0 = 0x40;
  dr_read : forall n out, 0 <= n < 2 ^ 28 -> drive_data (read_cmd n ++ out) 128 = disk n;
  dr_bytes : forall n, length (disk n) = 512%nat /\ is_bytes (disk n)
}.

(** Byte [k] of the kernel's file, which starts at sector 1. *)
Definition kbyte (disk : Z -> list Z) (k : Z) : Z := at_ (disk (k / 512 + 1)) (Z.to_nat (k mod 512)).

Lemma load8_put_bytes m a l b : is_bytes l ->
  load8 (put_bytes m a l) b = if decide (a <= b < a + Z.of_nat (length l)) then at_ l (Z.to_nat (b - a)) else load8 m b.
Proof.
  unfold put_bytes. induction l as [|x l IH] using rev_ind; intros Hl; [cbn; case_decide; [lia|done]|].
  apply Forall_app in Hl as [Hl [Hx _]%Forall_cons]. rewrite imap_app, foldl_app, length_app. cbn [imap foldl length fst snd compose].
  rewrite load8_store8, IH, Nat.add_0_r by done. unfold at_. destruct (decide (b = a + Z.of_nat (length l))) as [->|Hb].
  - rewrite !decide_True by lia. rewrite u8_small by done. by rewrite list_lookup_middle by lia.
  - rewrite decide_False by lia. repeat case_decide; try lia; try done. by rewrite lookup_app_l by lia.
Qed.

Section run.
Context (disk : Z -> list Z) (Hdr : drive_ok disk).

Lemma wait_round s :
  (r ← bl_status ; mret (if negb (Z.land r 0xC0 =? 0x40) then None else Some tt)) s
  = Done (if negb (Z.land (drive_status (bl_tick s)) 0xC0 =? 0x40) then None else Some tt) (Loader (bl_mem s) (bl_out s) (S (bl_tick s))).
Proof. reflexivity. Qed.

Lemma waitdisk_run s : exists t, waitdisk s = Done tt (Loader (bl_mem s) (bl_out s) t).
Proof.
  destruct (dr_ready disk Hdr (bl_tick s)) as (d & Hd & Hr). unfold waitdisk. revert s Hr Hd. generalize rounds as n.
  induction d as [|d IH]; intros n s Hr Hd; (destruct n as [|n]; [lia|]).
  - rewrite Nat.add_0_r in Hr. exists (S (bl_tick s)). apply loop_leave; [lia|]. by rewrite wait_round, Hr.
  - destruct (decide (Z.land (drive_status (bl_tick s)) 0xC0 = 0x40)) as [E|E].
    + exists (S (bl_tick s)). apply loop_leave; [lia|]. by rewrite wait_round, E.
    + rewrite (loop_again _ _ _ (Loader (bl_mem s) (bl_out s) (S (bl_tick s)))).
      * apply (IH n (Loader (bl_mem s) (bl_out s) (S (bl_tick s)))); [|lia]. cbn [bl_tick]. by replace (S (bl_tick s) + d)%nat with (bl_tick s + S d)%nat by lia.
      * by rewrite wait_round, (proj2 (Z.eqb_neq _ _) E).
Qed.

(** A sector lands at [dst]. *)
Lemma readsect_run s dst n : 0 <= n < 2 ^ 28 -> exists s',
  readsect dst n s = Done tt s' /\ bl_mem s' = put_bytes (bl_mem s) dst (disk n).
Proof.
  intros Hn. destruct (waitdisk_run s) as [t1 R1]. unfold readsect. rewrite (bind_done _ _ _ _ _ R1). cbv beta.
  set (s1 := Loader (bl_mem s) (read_cmd n ++ bl_out s) (6 + t1)). destruct (waitdisk_run s1) as [t2 R2].
  assert (Z.lor (Z.shiftr n 24) 0xE0 = n / 2 ^ 24 + 0xE0 /\ 0 <= n / 2 ^ 24 + 0xE0 < 256) as [El Er].
  { rewrite Z.shiftr_div_pow2 by lia. assert (0 <= n / 2 ^ 24 < 16) as H by (Z.div_mod_to_equations; lia). split; [|lia].
    assert (Forall (fun x => Z.lor x 0xE0 = x + 0xE0) (seqZ 0 16)) as F by (by repeat constructor).
    apply (proj1 (Forall_forall _ _) F), elem_of_seqZ. lia. }
  set (s2 := Loader (bl_mem s) (read_cmd n ++ bl_out s) t2).
  exists (s2 <| bl_mem := put_bytes (bl_mem s) dst (disk n) |> <| bl_tick ::= S |>). split; [|done].
  transitivity ((waitdisk ;; bl_insl dst (Z.to_nat (SECTSIZE / 4))) s1).
  - unfold bl_outb. cbn. rewrite El, (u8_small (n / 2 ^ 24 + 0xE0)) by done. rewrite !Z.shiftr_div_pow2 by lia. done.
  - rewrite (bind_done _ _ _ _ _ R2). change (Z.to_nat (SECTSIZE / 4)) with 128%nat.
    change (bl_insl dst 128 _) with (Done (Y := Empty_set) tt (Loader (put_bytes (bl_mem s) dst (take (4 * 128) (drive_data (read_cmd n ++ bl_out s) 128))) (bl_out s2) (S t2))).
    rewrite (dr_read disk Hdr), take_ge by (done || (rewrite (proj1 (dr_bytes disk Hdr n)); lia)). done.
Qed.

(** The sectors that cover the addresses from [pa] to [epa]. *)
Definition sectors (pa epa : Z) : Z := (epa - pa + 511) / 512.

Lemma readseg_loop_run n s pa epa o :
  0 <= pa -> epa + 512 <= W32 -> 0 <= o -> o + Z.of_nat n < 2 ^ 28 -> epa <= pa + 512 * (Z.of_nat n - 1) -> (0 < n)%nat -> exists s',
  readseg_loop n pa epa o s = Done tt s' /\ forall b, load8 (bl_mem s') b =
    if decide (pa <= b < pa + 512 * sectors pa epa) then at_ (disk (o + (b - pa) / 512)) (Z.to_nat ((b - pa) mod 512)) else load8 (bl_mem s) b.
Proof.
  revert s pa o. induction n as [|n IH]; intros s pa o Hpa Hepa Ho Hon Hn Hpos; [lia|]. cbn [readseg_loop].
  destruct (Z.ltb_spec pa epa) as [Hlt|Hge].
  - destruct (readsect_run s pa o) as (s1 & R1 & Hm1); [lia|]. rewrite (bind_done _ _ _ _ _ R1). cbv beta. unfold SECTSIZE, u32.
    rewrite !Z.mod_small by (unfold W32 in *; lia). destruct (IH s1 (pa + 512) (o + 1)) as (s2 & R2 & Hm2); [lia..|].
    exists s2. split; [done|]. intros b. rewrite Hm2, Hm1. destruct (dr_bytes disk Hdr o) as [Hl Hb]. rewrite load8_put_bytes, Hl by done.
    assert (sectors pa epa = sectors (pa + 512) epa + 1) as -> by (unfold sectors; Z.div_mod_to_equations; lia).
    assert (0 <= sectors (pa + 512) epa) by (unfold sectors; Z.div_mod_to_equations; lia).
    destruct (decide (pa + 512 <= b)) as [Hb'|Hb'].
    + rewrite (decide_False (P := pa <= b < pa + Z.of_nat 512)) by lia. repeat case_decide; try lia; try done.
      replace (b - pa) with (b - (pa + 512) + 1 * 512) by lia. rewrite Z.div_add, Z.mod_add by lia. do 2 f_equal. lia.
    + rewrite decide_False by lia. repeat case_decide; try lia; try done.
      rewrite Z.div_small, Z.mod_small, Z.add_0_r by lia. done.
  - exists s. split; [done|]. intros b. rewrite decide_False; [done|]. unfold sectors. Z.div_mod_to_equations; lia.
Qed.

(** A segment: the bytes of the file from [offset] on land from [pa] on, and
    with them those of the first and the last sector that were not asked for. *)
Lemma readseg_run s pa count offset :
  let base := pa - offset mod 512 in
  0 <= count -> 0 <= offset -> 0 <= base -> pa + count + 512 <= W32 -> offset / 512 + count / 512 + 5 <= 2 ^ 28 -> exists s',
  readseg pa count offset s = Done tt s' /\ forall b, load8 (bl_mem s') b =
    if decide (base <= b < base + 512 * sectors base (pa + count)) then kbyte disk (offset + (b - pa)) else load8 (bl_mem s) b.
Proof.
  intros base Hc Ho Hb Hepa Hd. unfold readseg, SECTSIZE, u32. fold base. pose proof (Z.mod_pos_bound offset 512).
  rewrite !Z.mod_small by (unfold W32 in *; Z.div_mod_to_equations; lia).
  destruct (readseg_loop_run (Z.to_nat (count / 512 + 3)) s base (pa + count) (offset / 512 + 1)) as (s' & R & Hm);
    [lia|lia|Z.div_mod_to_equations; lia|Z.div_mod_to_equations; lia|unfold base; Z.div_mod_to_equations; lia|Z.div_mod_to_equations; lia|].
  exists s'. split; [done|]. intros b. rewrite Hm. case_decide; [|done]. unfold kbyte.
  replace (offset + (b - pa)) with (b - base + offset / 512 * 512) by (unfold base; Z.div_mod_to_equations; lia).
  rewrite Z.div_add, Z.mod_add by lia. do 2 f_equal. lia.
Qed.

(** ** The kernel's file *)

Definition kfile (a : Z) (n : nat) : list Z := map (fun i => kbyte disk (a + Z.of_nat i)) (seq 0 n).
Definition kelf : elfhdr := elfhdr_of (kfile 0 52).
Definition kph (i : Z) : proghdr := proghdr_of (kfile (eh_phoff kelf + 32 * i) 32).

(** What a segment asks for, and the addresses that loading it touches. *)
Definition seg_size (p : proghdr) : Z := Z.max (ph_filesz p) (ph_memsz p).
Definition seg_lo (p : proghdr) : Z := ph_paddr p - ph_off p mod 512.
Definition seg_hi (p : proghdr) : Z :=
  Z.max (seg_lo p + 512 * sectors (seg_lo p) (ph_paddr p + ph_filesz p)) (ph_paddr p + ph_memsz p).
Definition loaded (m : memory) (p : proghdr) : Prop := forall k, 0 <= k < seg_size p ->
  load8 m (ph_paddr p + k) = if k <? ph_filesz p then kbyte disk (ph_off p + k) else 0.

(** The headers fit in the page that is read first; the segments fit in the
    address space and the disk; loading one touches neither that page nor an
    earlier segment. *)
Record placed : Prop := Placed {
  pl_hdr : eh_phoff kelf + 32 * eh_phnum kelf <= 4096;
  pl_fit : forall i, 0 <= i < eh_phnum kelf -> let p := kph i in
    0 <= seg_lo p /\ ph_paddr p + seg_size p + 512 <= W32 /\ ph_off p / 512 + ph_filesz p / 512 + 5 <= 2 ^ 28;
  pl_scratch : forall i, 0 <= i < eh_phnum kelf -> seg_hi (kph i) <= 0x10000 \/ 0x11000 <= seg_lo (kph i);
  pl_apart : forall i j, 0 <= j < i -> i < eh_phnum kelf ->
    seg_hi (kph i) <= ph_paddr (kph j) \/ ph_paddr (kph j) + seg_size (kph j) <= seg_lo (kph i)
}.

Definition scratch (m : memory) : Prop := forall k, 0 <= k < 4096 -> load8 m (0x10000 + k) = kbyte disk k.

Lemma kfile_bytes a n : is_bytes (kfile a n).
Proof. apply Forall_map, Forall_true. intros i. apply at_byte, (dr_bytes disk Hdr). Qed.

Lemma get_range l o n : is_bytes l -> 0 <= unle (sub o n l).
Proof. intros H. apply unle_range. by apply Forall_take, Forall_drop. Qed.

Lemma kph_pos i : 0 <= ph_off (kph i) /\ 0 <= ph_filesz (kph i) /\ 0 <= ph_memsz (kph i) /\ 0 <= ph_paddr (kph i).
Proof. split_and!; apply get_range, kfile_bytes. Qed.

Lemma scratch_bytes m k n : scratch m -> 0 <= k -> k + Z.of_nat n <= 4096 -> bytes_at m (0x10000 + k) n = kfile k n.
Proof.
  intros Hs Hk Hn. unfold bytes_at, kfile. apply map_ext_in. intros i Hi%in_seq. rewrite <- Z.add_assoc. apply Hs. lia.
Qed.

Lemma scratch_ph m i : scratch m -> placed -> 0 <= i < eh_phnum kelf -> ph_at m (0x10000 + (eh_phoff kelf + 32 * i)) = kph i.
Proof.
  intros Hs Hp Hi. unfold ph_at, kph. f_equal. apply (scratch_bytes m _ 32); [done| |].
  - pose proof (get_range (kfile 0 52) 28 4 (kfile_bytes _ _)). change (unle _) with (eh_phoff kelf) in H. lia.
  - pose proof (pl_hdr Hp). lia.
Qed.

(** One program header. *)
Lemma segment_run s i : placed -> 0 <= i < eh_phnum kelf -> scratch (bl_mem s) -> exists s',
  segment (0x10000 + (eh_phoff kelf + 32 * i)) s = Done tt s' /\ loaded (bl_mem s') (kph i)
  /\ forall b, ~ seg_lo (kph i) <= b < seg_hi (kph i) -> load8 (bl_mem s') b = load8 (bl_mem s) b.
Proof.
  intros Hp Hi Hs. destruct (pl_fit Hp i Hi) as (Hlo & Hmem & Hdisk). destruct (kph_pos i) as (P1 & P2 & P3 & P4). pose proof (pl_scratch Hp i Hi) as Hsc.
  unfold segment. rewrite (bind_done (gets bl_mem) _ s (bl_mem s) s) by done. cbv beta zeta. rewrite (scratch_ph _ _ Hs Hp Hi).
  set (p := kph i) in *. unfold seg_size in Hmem. destruct (readseg_run s (ph_paddr p) (ph_filesz p) (ph_off p)) as (s1 & R1 & Hm1); [lia|lia|done|lia|lia|].
  rewrite (bind_done _ _ _ _ _ R1). rewrite (bind_done (gets bl_mem) _ s1 (bl_mem s1) s1) by done. cbv beta.
  fold (seg_lo p) in Hm1. pose proof (Z.mod_pos_bound (ph_off p) 512). assert (ph_paddr p + ph_filesz p <= seg_lo p + 512 * sectors (seg_lo p) (ph_paddr p + ph_filesz p)) as Hcov.
  { unfold sectors. Z.div_mod_to_equations; lia. }
  assert (forall b, ~ seg_lo p <= b < seg_hi p -> load8 (bl_mem s1) b = load8 (bl_mem s) b) as Hfr1.
  { intros b Hb. rewrite Hm1, decide_False; [done|]. unfold seg_hi in Hb. lia. }
  assert (scratch (bl_mem s1)) as Hs1.
  { intros k Hk. rewrite Hfr1; [by apply Hs|]. lia. }
  rewrite (scratch_ph _ _ Hs1 Hp Hi). fold p. assert (seg_lo p <= ph_paddr p) by (unfold seg_lo; lia).
  assert (forall k, 0 <= k < ph_filesz p -> load8 (bl_mem s1) (ph_paddr p + k) = kbyte disk (ph_off p + k)) as Hin.
  { intros k Hk. rewrite Hm1, decide_True by lia. f_equal. lia. }
  destruct (Z.ltb_spec (ph_filesz p) (ph_memsz p)) as [Hbss|Hbss].
  - unfold u32. rewrite Z.mod_small by (unfold W32 in *; lia).
    exists (s1 <| bl_mem := stosb (bl_mem s1) (ph_paddr p + ph_filesz p) 0 (Z.to_nat (ph_memsz p - ph_filesz p)) |>). split; [done|].
    change (bl_mem (_ <| _ := ?m |>)) with m. split.
    + intros k Hk. unfold seg_size in Hk. rewrite stosb_spec. case_decide; destruct (Z.ltb_spec k (ph_filesz p)); try lia; [done|]. apply Hin. lia.
    + intros b Hb. rewrite stosb_spec, decide_False; [by apply Hfr1|]. unfold seg_hi in Hb. lia.
  - exists s1. split; [done|]. split; [|done]. intros k Hk. unfold seg_size in Hk. rewrite (proj2 (Z.ltb_lt _ _)) by lia. apply Hin. lia.
Qed.

Lemma segments_run n s i : placed -> 0 <= i -> i + Z.of_nat n = eh_phnum kelf -> scratch (bl_mem s) ->
  (forall j, 0 <= j < i -> loaded (bl_mem s) (kph j)) -> exists s',
  segments (S n) (0x10000 + (eh_phoff kelf + 32 * i)) (0x10000 + (eh_phoff kelf + 32 * eh_phnum kelf)) s = Done tt s'
  /\ scratch (bl_mem s') /\ forall j, 0 <= j < eh_phnum kelf -> loaded (bl_mem s') (kph j).
Proof.
  intros Hp. revert s i. induction n as [|n IH]; intros s i Hi Hn Hs Hj.
  - exists s. cbn [segments]. rewrite (proj2 (Z.ltb_ge _ _)) by lia. split_and!; [done|done|]. intros j ?. apply Hj. lia.
  - destruct (segment_run s i Hp) as (s1 & R1 & Hl1 & Hfr1); [lia|done|]. remember (S n) as n1. cbn [segments].
    rewrite (proj2 (Z.ltb_lt _ _)) by lia. rewrite (bind_done _ _ _ _ _ R1). cbv beta. pose proof (pl_hdr Hp).
    pose proof (get_range (kfile 0 52) 28 4 (kfile_bytes _ _)) as Hoff. change (unle _) with (eh_phoff kelf) in Hoff.
    unfold u32, PROGHDR_SIZE. rewrite Z.mod_small by (unfold W32; lia).
    replace (0x10000 + (eh_phoff kelf + 32 * i) + 32) with (0x10000 + (eh_phoff kelf + 32 * (i + 1))) by lia. subst n1.
    apply IH; [lia|lia| |].
    + intros k Hk. rewrite Hfr1; [by apply Hs|]. pose proof (pl_scratch Hp i). lia.
    + intros j Hj'. destruct (decide (j = i)) as [->|Hne]; [done|]. intros k Hk. rewrite Hfr1; [apply Hj; [lia|done]|].
      pose proof (pl_apart Hp i j). lia.
Qed.

Lemma scratch_elf m : scratch m -> elf_at m 0x10000 = kelf.
Proof. intros Hs. unfold elf_at, kelf. f_equal. by apply (scratch_bytes m 0 52). Qed.

(** The first page of the file. *)
Lemma read_header s : exists s', readseg 0x10000 4096 0 s = Done tt s' /\ scratch (bl_mem s')
  /\ forall b, ~ 0x10000 <= b < 0x11000 -> load8 (bl_mem s') b = load8 (bl_mem s) b.
Proof.
  destruct (readseg_run s 0x10000 4096 0) as (s' & R & Hm); [done..|]. exists s'. split; [done|].
  change (0 mod 512) with 0 in Hm. change (sectors (0x10000 - 0) (0x10000 + 4096)) with 8 in Hm. split.
  - intros k Hk. rewrite Hm, decide_True by lia. f_equal. lia.
  - intros b Hb. by rewrite Hm, decide_False by lia.
Qed.

(** C17: the boot loader, with a drive that answers as the ATA standard says: when the file that
    starts at sector 1 is an ELF file whose program headers are in its first page and whose
    segments lie in the address space, apart from each other and from the scratch page
    ([placed]), it returns control at the file's entry point with every segment in
    place, byte by byte, and the rest of its memory size zeroed, although each
    read brings in whole sectors; when the magic number is wrong it returns to
    the assembly code and has changed nothing but the scratch page. *)
Theorem bootmain_loads s :
  (eh_magic kelf = ELF_MAGIC -> placed -> exists s', bootmain s = Done (Some (eh_entry kelf)) s'
     /\ forall i, 0 <= i < eh_phnum kelf -> loaded (bl_mem s') (kph i))
  /\ (eh_magic kelf <> ELF_MAGIC -> exists s', bootmain s = Done None s'
     /\ forall b, ~ 0x10000 <= b < 0x11000 -> load8 (bl_mem s') b = load8 (bl_mem s) b).
Proof.
  destruct (read_header s) as (s1 & R1 & Hs1 & Hfr). unfold bootmain. cbv zeta. rewrite (bind_done _ _ _ _ _ R1). cbv beta.
  rewrite (bind_done (gets bl_mem) _ s1 (bl_mem s1) s1) by done. rewrite (scratch_elf _ Hs1). split.
  - intros -> Hp. change (negb (ELF_MAGIC =? ELF_MAGIC)) with false. cbv match. pose proof (pl_hdr Hp).
    pose proof (get_range (kfile 0 52) 28 4 (kfile_bytes _ _)) as Hoff. change (unle _) with (eh_phoff kelf) in Hoff.
    pose proof (get_range (kfile 0 52) 44 2 (kfile_bytes _ _)) as Hnum. change (unle _) with (eh_phnum kelf) in Hnum.
    unfold u32, PROGHDR_SIZE. rewrite !(Z.mod_small _ W32) by (rewrite ?Z.mod_small; unfold W32; lia).
    destruct (segments_run (Z.to_nat (eh_phnum kelf)) s1 0 Hp) as (s2 & R2 & Hs2 & Hl2); [lia|lia|done|lia|].
    rewrite Z.mul_0_r, Z.add_0_r, Z.add_assoc in R2. rewrite (bind_done _ _ _ _ _ R2). rewrite (bind_done (gets bl_mem) _ s2 (bl_mem s2) s2) by done.
    rewrite (scratch_elf _ Hs2). by exists s2.
  - intros Hne. rewrite (proj2 (Z.eqb_neq _ _) Hne). by exists s1.
Qed.
End run.
End bootmain.

(** ** A drive with a kernel of one segment *)

Section witness.

Definition small_header : list Z :=
  le 4 ELF_MAGIC ++ replicate 12 0 ++ le 2 2 ++ le 2 3 ++ le 4 1 ++ le 4 0x10000c ++ le 4 52 ++ le 4 0 ++ le 4 0
  ++ le 2 52 ++ le 2 32 ++ le 2 1 ++ le 2 0 ++ le 2 0 ++ le 2 0
  ++ le 4 1 ++ le 4 4196 ++ le 4 0x80100064 ++ le 4 0x100064 ++ le 4 3 ++ le 4 5 ++ le 4 7 ++ le 4 4096 ++ replicate 428 0.
Definition small_disk (n : Z) : list Z :=
  if n =? 1 then small_header else if n =? 9 then replicate 512 7 else replicate 512 0.

#[local] Instance small_drive : Drive := {|
  drive_status := fun t => if (t mod 3 =? 0)%nat then 0x40 else 0x80;
  drive_data := fun out _ => match out with
    | _ :: (_, d) :: (_, c) :: (_, b) :: (_, a) :: _ => small_disk (a + 256 * b + 65536 * c + 16777216 * (d - 0xE0))
    | _ => []
    end
|}.

Lemma small_drive_ok : drive_ok 3 small_disk.
Proof.
  split.
  - intros t. pose proof (Nat.mod_upper_bound t 3 ltac:(done)). exists ((3 - t mod 3) mod 3)%nat. split; [by apply Nat.mod_upper_bound|].
    cbn [drive_status small_drive]. replace ((t + (3 - t mod 3) mod 3) mod 3)%nat with 0%nat; [done|].
    rewrite Nat.Div0.add_mod_idemp_r, <- Nat.Div0.add_mod_idemp_l. by replace (t mod 3 + (3 - t mod 3))%nat with 3%nat by lia.
  - intros n out Hn. cbn [drive_data small_drive read_cmd app]. f_equal. Z.div_mod_to_equations; lia.
  - intros n. unfold small_disk. destruct (n =? 1); [|destruct (n =? 9)]; (split; [done|]); apply (bool_decide_unpack _); by vm_compute.
Qed.

Lemma bootmain_loads_witness : exists s', bootmain 3 (Loader ∅ [] 0) = Done (Some 0x10000c) s'
  /\ map (load8 (bl_mem s')) (seqZ 0x100064 5) = [7; 7; 7; 0; 0].
Proof.
  destruct (bootmain_loads 3 small_disk small_drive_ok (Loader ∅ [] 0)) as [H _].
  destruct H as (s' & R & Hl); [by vm_compute| |].
  - assert (forall i, 0 <= i < eh_phnum (kelf small_disk) -> i = 0) as H0 by (change (eh_phnum (kelf small_disk)) with 1; lia).
    split; [by vm_compute|intros i ->%H0; by vm_compute|intros i ->%H0; right; by vm_compute|].
    intros i j Hj Hi. assert (i = 0) by (apply H0; lia). lia.
  - exists s'. split; [exact R|]. clear R. specialize (Hl 0). change (kph small_disk 0) with (Proghdr 1 4196 0x80100064 0x100064 3 5 7 4096) in Hl.
    specialize (Hl ltac:(by vm_compute)). unfold loaded in Hl. cbn [seqZ map ph_paddr ph_off ph_filesz] in Hl.
    change (seqZ 0x100064 5) with [0x100064 + 0; 0x100064 + 1; 0x100064 + 2; 0x100064 + 3; 0x100064 + 4]. cbn [map].
    rewrite !Hl by (by vm_compute). by vm_compute.
Defined.
End witness.
