(* ===== verification/Safety.v ===== *)
(** Well-formedness of the kernel's tables, kept by every thread of the kernel under
    every interleaving. *)
From S2P Require Import Prelude Kernel Spinlock Console CString Kalloc Devices Proc Vm SysArgs Sleeplock Disk Bytes Bio Log Inode ConsoleIo Fs Pipe FileTable ProcLife Exec Scheduler Container SysProc SysFile Syscall Boot.

(** ** The invariant *)

(** A pointer into a table of [n] entries, or null. *)
Definition points (n : nat) (o : option nat) : Prop := match o with Some i => (i < n)%nat | None => True end.

Record proc_wf (p : proc) : Prop := ProcWf {
  pw_len : length (p_ofile p) = NOFILE;
  pw_ofile : Forall (points NFILE) (p_ofile p);
  pw_cwd : points NINODE (p_cwd p);
  pw_parent : points NPROC (p_parent p)
}.
Definition file_wf (f : file) : Prop := points NINODE (f_ip f).
Definition inode_wf (i : inode) : Prop := length (i_addrs i) = Z.to_nat (NDIRECT + 1).
Definition pipe_wf (p : pipe) : Prop := length (pi_data p) = Z.to_nat PIPESIZE.
Definition cpu_wf (c : cpu) : Prop := points NPROC (c_proc c).
(** [bcache.buf] and [bcache.head] behind it. *)
Abbreviation NLINK := (S NBUF).
Record buf_wf (b : buf) : Prop := BufWf {
  bw_next : (b_next b < NLINK)%nat;
  bw_prev : (b_prev b < NLINK)%nat;
  bw_qnext : points NLINK (b_qnext b)
}.
(** The cursor is on the screen, and the screen memory covers it. *)
Definition screen_wf (crt : list Z) (pos : Z) : Prop := 0 <= pos < 24 * 80 /\ 25 * 80 <= Z.of_nat (length crt).

Record tables_wf (cpus : list cpu) (t : list proc) (next : Z) (init : option nat) (ft : list file)
    (ic : list inode) (pi : gmap Z pipe) (dv : list devsw_entry) (bufs : list buf) (queue : option nat)
    (input crt : list Z) (pos : Z) : Prop := TablesWf {
  tw_ptable : ptable_ok t next;
  tw_procs : Forall proc_wf t;
  tw_cpus : Forall cpu_wf cpus;
  tw_init : points NPROC init;
  tw_nfile : length ft = NFILE;
  tw_files : Forall file_wf ft;
  tw_ninode : length ic = NINODE;
  tw_inodes : Forall inode_wf ic;
  tw_pipes : map_Forall (fun _ => pipe_wf) pi;
  tw_ndev : length dv = Z.to_nat NDEV;
  tw_nbuf : length bufs = NLINK;
  tw_bufs : Forall buf_wf bufs;
  tw_queue : points NLINK queue;
  tw_input : length input = Z.to_nat INPUT_BUF;
  tw_screen : screen_wf crt pos
}.

Definition kernel_wf (s : kernel) : Prop :=
  tables_wf (h_cpus (k_hw s)) (k_ptable s) (k_nextpid s) (k_initproc s) (k_ftable s) (k_icache s) (k_pipes s)
    (k_devsw s) (k_bufs s) (k_idequeue s) (cs_buf (k_cons s)) (cs_crt (k_cons s)) (cs_pos (k_cons s)).

(** The faults that are accesses outside one of these tables: the process table, the open
    files and the descriptors, the inode cache and the addresses of an inode, the data of a
    pipe, the device table, the buffer cache, the console's input ring and the screen. *)
Definition table_faults : list string :=
  ["ptable.proc"; "ftable.file"; "ofile"; "curproc->ofile"; "inode"; "ip->addrs"; "p->data"; "devsw"; "buf"; "input.buf"; "crt"].
Definition no_table_fault (w : stop) : bool :=
  match w with Faulted why => negb (bool_decide (why ∈ table_faults)) | _ => true end.

(** A thread that keeps the tables well-formed whenever it leaves the CPU and when it
    returns, if the other threads do so meanwhile, and never accesses one of them
    outside its bounds. *)
Definition thread_safe {A} (m : K A) : Prop :=
  forall s, kernel_wf s ->
    wpc (Contract (fun w _ => no_table_fault w = true) (fun _ s => kernel_wf s) (fun _ _ s' => kernel_wf s'))
      m (fun _ s' => kernel_wf s') s.

#[export] Instance kernel_safe : Safe yield_point kernel := {| safe_inv := kernel_wf; safe_stop := no_table_fault |}.

(** ** Access to the tables *)

Section access.
Context {E : Env}.

Lemma points_lookup {A} n (l : list A) i : length l = n -> (i < n)%nat -> exists x, l !! i = Some x.
Proof. intros <- H. by apply lookup_lt_is_Some_2. Qed.

Lemma points_some n o i : points n o -> o = Some i -> (i < n)%nat.
Proof. by intros H ->. Qed.

Lemma cwd_points p i : proc_wf p -> p_cwd p = Some i -> (i < NINODE)%nat.
Proof. intros H. apply points_some, H. Qed.

Lemma parent_points p i : proc_wf p -> p_parent p = Some i -> (i < NPROC)%nat.
Proof. intros H. apply points_some, H. Qed.

Lemma qnext_points b i : buf_wf b -> b_qnext b = Some i -> (i < NLINK)%nat.
Proof. intros H. apply points_some, H. Qed.

Lemma ip_points f i : file_wf f -> f_ip f = Some i -> (i < NINODE)%nat.
Proof. apply points_some. Qed.

Lemma ofile_points p i o f :
  proc_wf p -> p_ofile p !! i = Some o -> o = Some f -> (f < NFILE)%nat.
Proof. intros H Hi. apply points_some. by apply (Forall_lookup_1 _ _ _ _ (pw_ofile _ H) Hi). Qed.

(** A read of entry [i] of a table [f s] of which all entries satisfy [P]. *)
Lemma gives_lookup {A} (f : kernel -> list A) (P : A -> Prop) n why i :
  (forall s, kernel_wf s -> length (f s) = n /\ Forall P (f s)) -> (i < n)%nat ->
  gives (l ← gets f ; deref why (l !! i)) P.
Proof.
  intros Hf Hi. apply (gives_bind _ _ (fun l => length l = n /\ Forall P l)); [by apply gives_gets|]. intros l [Hl HP].
  destruct (points_lookup n l i Hl Hi) as [x Hx]. rewrite Hx.
  apply gives_ret. by eapply Forall_lookup_1.
Qed.

Lemma Forall_alter_all {A} (P : A -> Prop) f (l : list A) i :
  (forall x, P x -> P (f x)) -> Forall P l -> Forall P (alter f i l).
Proof. intros Hf H. apply Forall_alter; eauto. Qed.

Lemma gives_get_proc i : (i < NPROC)%nat -> gives (get_proc i) proc_wf.
Proof. apply gives_lookup. by intros s [[]]. Qed.

Lemma gives_get_file i : (i < NFILE)%nat -> gives (get_file i) file_wf.
Proof. apply gives_lookup. by intros s []. Qed.

Lemma gives_get_inode i : (i < NINODE)%nat -> gives (get_inode i) inode_wf.
Proof. apply gives_lookup. by intros s []. Qed.

Lemma gives_upd_proc i f :
  (forall p, proc_wf p -> proc_wf (f p)) -> (forall p, p_pid (f p) = p_pid p) ->
  gives (upd_proc i f) (fun _ => True).
Proof.
  intros Hf Hp. apply gives_modify; [|done]. intros s []. split; try done; cbn.
  - by apply ptable_ok_alter.
  - by apply Forall_alter_all.
Qed.

Lemma gives_upd_file i f : (forall x, file_wf x -> file_wf (f x)) -> gives (upd_file i f) (fun _ => True).
Proof.
  intros Hf. apply gives_modify; [|done]. intros s []. split; try done; cbn.
  - by rewrite length_alter.
  - by apply Forall_alter_all.
Qed.

Lemma gives_upd_inode i f : (forall x, inode_wf x -> inode_wf (f x)) -> gives (upd_inode i f) (fun _ => True).
Proof.
  intros Hf. apply gives_modify; [|done]. intros s []. split; try done; cbn.
  - by rewrite length_alter.
  - by apply Forall_alter_all.
Qed.

Lemma gives_upd_hw f :
  (forall h, Forall cpu_wf (h_cpus h) -> Forall cpu_wf (h_cpus (f h))) -> gives (upd_hw f) (fun _ => True).
Proof. intros Hf. apply gives_modify; [|done]. intros s []. split; try done; cbn. by apply Hf. Qed.

Lemma gives_upd_cpu i f : (forall c, cpu_wf c -> cpu_wf (f c)) -> gives (upd_cpu i f) (fun _ => True).
Proof. intros Hf. apply gives_upd_hw. intros h. by apply Forall_alter_all. Qed.

Lemma gives_upd_cons f :
  (forall c, length (cs_buf (f c)) = length (cs_buf c) /\ cs_crt (f c) = cs_crt c /\ cs_pos (f c) = cs_pos c) -> gives (upd_cons f) (fun _ => True).
Proof. intros Hf. apply gives_modify; [|done]. intros s []. destruct (Hf (k_cons s)) as (E1 & E2 & E3). split; try done; cbn; [by rewrite E1|by rewrite E2, E3]. Qed.

Lemma gives_get_buf i : (i < NLINK)%nat -> gives (get_buf i) buf_wf.
Proof. apply gives_lookup. by intros s []. Qed.

Lemma gives_upd_buf i f : (forall b, buf_wf b -> buf_wf (f b)) -> gives (upd_buf i f) (fun _ => True).
Proof.
  intros Hf. apply gives_modify; [|done]. intros s []. split; try done; cbn.
  - by rewrite length_alter.
  - by apply Forall_alter_all.
Qed.

Lemma gives_set_next i n : (n < NLINK)%nat -> gives (upd_buf i (fun b => b <| b_next := n |>)) (fun _ => True).
Proof. intros Hn. apply gives_upd_buf. intros b []. by split. Qed.
Lemma gives_set_prev i n : (n < NLINK)%nat -> gives (upd_buf i (fun b => b <| b_prev := n |>)) (fun _ => True).
Proof. intros Hn. apply gives_upd_buf. intros b []. by split. Qed.
Lemma gives_set_qnext i o : points NLINK o -> gives (upd_buf i (fun b => b <| b_qnext := o |>)) (fun _ => True).
Proof. intros Hn. apply gives_upd_buf. intros b []. by split. Qed.

Lemma gives_queue : gives (gets k_idequeue) (points NLINK).
Proof. apply gives_gets. by intros s []. Qed.
Lemma gives_set_queue o : points NLINK o -> gives (modify (fun s => s <| k_idequeue := o |>)) (fun _ => True).
Proof. intros Ho. apply gives_modify; [|done]. intros s []. by split. Qed.

Lemma head_range : (head < NLINK)%nat.
Proof. unfold head. lia. Qed.

End access.

#[export] Hint Resolve gives_get_proc gives_get_file gives_get_inode gives_get_buf gives_set_next gives_set_prev gives_set_qnext
  gives_queue gives_set_queue head_range bw_next bw_prev bw_qnext : safe.

(** Side conditions: indices in range, and updates of a record that keep its shape. *)
Ltac in_range :=
  repeat match goal with
         | H : _ ∈ seq _ _ |- _ => apply elem_of_seq in H
         | H : _ ∈ procs |- _ => apply elem_of_seq in H
         end; lia.
Ltac wf_record := let H := fresh in intros ? H; first [exact H | destruct H; split; cbn; auto].
#[export] Hint Extern 1 (_ < _)%nat => assumption : safe.
#[export] Hint Extern 2 (_ < _)%nat => by (eapply points_some; [|eassumption]; assumption) : safe.
#[export] Hint Extern 2 (_ < _)%nat => by (eapply cwd_points; [|eassumption]) : safe.
#[export] Hint Extern 2 (_ < _)%nat => by (eapply parent_points; [|eassumption]) : safe.
#[export] Hint Extern 2 (_ < _)%nat => by (eapply ip_points; [|eassumption]) : safe.
#[export] Hint Extern 2 (_ < _)%nat => by (eapply qnext_points; [|eassumption]) : safe.
#[export] Hint Extern 2 (_ < _)%nat => by (eapply ofile_points; [|eassumption|eassumption]) : safe.
#[export] Hint Extern 3 (_ < _)%nat => in_range : safe.
#[export] Hint Extern 1 (points _ _) => assumption : safe.
#[export] Hint Extern 1 (gives (upd_proc _ _) _) => apply gives_upd_proc; [wf_record|done] : safe.
#[export] Hint Extern 1 (gives (upd_file _ _) _) => apply gives_upd_file; wf_record : safe.
#[export] Hint Extern 1 (gives (upd_inode _ _) _) => apply gives_upd_inode; wf_record : safe.
#[export] Hint Extern 1 (gives (upd_hw _) _) => apply gives_upd_hw; wf_record : safe.
#[export] Hint Extern 1 (gives (upd_cpu _ _) _) => apply gives_upd_cpu; wf_record : safe.
#[export] Hint Extern 1 (gives (upd_cons _) _) => apply gives_upd_cons; done : safe.
#[export] Hint Extern 2 (gives (upd_buf _ _) _) => apply gives_upd_buf; wf_record : safe.

(** ** Locks, console, allocator *)

Section low.
Context {E : Env} {V : Devices}.

Lemma gives_get_hw {T} (f : hw -> T) : gives (get_hw f) (fun _ => True).
Proof. unfold get_hw. safe. Qed.
#[local] Hint Resolve gives_get_hw : safe.

Lemma gives_mycpu : gives mycpu (fun _ => True).
Proof. unfold mycpu, readeflags. safe. Qed.
#[local] Hint Resolve gives_mycpu : safe.

Lemma gives_get_cpu i : gives (get_cpu i) cpu_wf.
Proof.
  apply (gives_bind _ _ (Forall cpu_wf)); [apply gives_gets; by intros s []|].
  intros l Hl. apply gives_deref; [|done]. intros c Hc. by eapply Forall_lookup_1.
Qed.
#[local] Hint Resolve gives_get_cpu : safe.

Lemma gives_pushcli : gives pushcli (fun _ => True).
Proof. unfold pushcli, readeflags, cli. safe. Qed.
Lemma gives_popcli : gives popcli (fun _ => True).
Proof. unfold popcli, readeflags, sti. safe. Qed.
#[local] Hint Resolve gives_pushcli gives_popcli : safe.

Lemma gives_myproc : gives myproc (points NPROC).
Proof. unfold myproc. safe. Qed.
Lemma gives_holding lk : gives (holding lk) (fun _ => True).
Proof. unfold holding. safe. Qed.
#[local] Hint Resolve gives_myproc gives_holding : safe.

Lemma gives_acquire lk : gives (acquire lk) (fun _ => True).
Proof. unfold acquire, xchg_locked. safe. Qed.
Lemma gives_release lk : gives (release lk) (fun _ => True).
Proof. unfold release. safe. Qed.
Lemma gives_initlock lk name : gives (initlock lk name) (fun _ => True).
Proof. unfold initlock. safe. Qed.
#[local] Hint Resolve gives_acquire gives_release gives_initlock : safe.

Lemma gives_curproc : gives curproc (fun i => (i < NPROC)%nat).
Proof. unfold curproc. safe; by subst. Qed.

Lemma gives_get_cons {T} (f : console -> T) : gives (get_cons f) (fun _ => True).
Proof. unfold get_cons. safe. Qed.
#[local] Hint Resolve gives_get_cons : safe.

Lemma gives_uartputc c : gives (uartputc c) (fun _ => True).
Proof. unfold uartputc. safe. Qed.
#[local] Hint Resolve gives_uartputc : safe.

Lemma gives_cgaputc c : gives (cgaputc c) (fun _ => True).
Proof.
  intros s Hs. pose proof (tw_screen _ _ _ _ _ _ _ _ _ _ _ _ _ Hs) as [Hp Hl]. unfold wpc. rewrite (cgaputc_run c s Hp Hl). split; [|done].
  destruct Hs. split; try done. cbn. by apply screen_kept.
Qed.
#[local] Hint Resolve gives_cgaputc : safe.
Lemma gives_consputc c : gives (consputc c) (fun _ => True).
Proof. unfold consputc, cli. safe. Qed.
#[local] Hint Resolve gives_consputc : safe.

Lemma gives_printint xx base sign : gives (printint xx base sign) (fun _ => True).
Proof. unfold printint. safe. Qed.
#[local] Hint Resolve gives_printint : safe.

Lemma gives_cprintf_loop fmt args : gives (cprintf_loop fmt args) (fun _ => True).
Proof.
  revert args. induction fmt as [fmt IH] using (well_founded_induction (well_founded_ltof _ (@length Z))).
  unfold ltof in IH. intros args. destruct fmt as [|c fmt1]; cbn; [safe|].
  assert (forall args, gives (cprintf_loop fmt1 args) (fun _ => True)) as H1 by (intros; apply IH; simpl; lia).
  destruct fmt1 as [|c' fmt2]; [safe|].
  assert (forall args, gives (cprintf_loop fmt2 args) (fun _ => True)) as H2 by (intros; apply IH; simpl; lia).
  unfold put_string. safe; auto.
Qed.
#[local] Hint Resolve gives_cprintf_loop : safe.

Lemma gives_cprintf fmt args : gives (cprintf fmt args) (fun _ => True).
Proof. unfold cprintf. safe. Qed.

Lemma gives_kfree v : gives (kfree v) (fun _ => True).
Proof. unfold kfree, upd_mem, upd_kmem, get_kmem. safe. Qed.
Lemma gives_kalloc : gives kalloc (fun _ => True).
Proof. unfold kalloc, upd_kmem, get_kmem. safe. Qed.
Lemma gives_upd_mem f : gives (upd_mem f) (fun _ => True).
Proof. unfold upd_mem. safe. Qed.
#[local] Hint Resolve gives_kfree : safe.

Lemma gives_freerange a b : gives (freerange a b) (fun _ => True).
Proof.
  unfold freerange. generalize (PGROUNDUP a). intros p.
  match goal with |- gives (freerange_loop ?n _ _) _ => generalize n end. intros n.
  revert p. induction n as [|n IH]; intros p; cbn; safe.
Qed.
#[local] Hint Resolve gives_freerange : safe.

Lemma gives_kinit1 a b : gives (kinit1 a b) (fun _ => True).
Proof. unfold kinit1, upd_kmem. safe. Qed.
Lemma gives_kinit2 a b : gives (kinit2 a b) (fun _ => True).
Proof. unfold kinit2, upd_kmem. safe. Qed.

End low.

#[export] Hint Resolve gives_get_hw gives_mycpu gives_get_cpu gives_pushcli gives_popcli gives_myproc
  gives_holding gives_acquire gives_release gives_initlock gives_curproc gives_get_cons gives_uartputc
  gives_consputc gives_cprintf gives_kfree gives_kalloc gives_upd_mem gives_kinit1 gives_kinit2 : safe.

(** ** Devices, processes, address spaces *)

Section middle.
Context {E : Env} {V : Devices}.

Lemma gives_out w : gives (out w) (fun _ => True).
Proof. unfold out, upd_pf. safe. Qed.
#[local] Hint Resolve gives_out : safe.

Lemma gives_lapicinit : gives lapicinit (fun _ => True).
Proof. unfold lapicinit, lapicw, get_pf. safe. Qed.
Lemma gives_lapiceoi : gives lapiceoi (fun _ => True).
Proof. unfold lapiceoi, lapicw, get_pf. safe. Qed.
Lemma gives_lapicstartap a b : gives (lapicstartap a b) (fun _ => True).
Proof. unfold lapicstartap, outb, lapicw. safe. Qed.
Lemma gives_ioapicinit : gives ioapicinit (fun _ => True).
Proof. unfold ioapicinit, ioapicwrite, get_pf. safe. Qed.
Lemma gives_ioapicenable a b : gives (ioapicenable a b) (fun _ => True).
Proof. unfold ioapicenable, ioapicwrite. safe. Qed.
#[local] Hint Resolve gives_ioapicenable : safe.
Lemma gives_picinit : gives picinit (fun _ => True).
Proof. unfold picinit, outb. safe. Qed.
Lemma gives_uartinit : gives uartinit (fun _ => True).
Proof. unfold uartinit, outb. safe. Qed.
Lemma gives_ideinit : gives ideinit (fun _ => True).
Proof. unfold ideinit, idewait, outb. safe. Qed.

Lemma gives_seginit : gives seginit (fun _ => True).
Proof. unfold seginit, cpuid, upd_gdt. safe. Qed.
Lemma gives_switchkvm : gives switchkvm (fun _ => True).
Proof. unfold switchkvm. safe. Qed.
Lemma gives_switchuvm o : points NPROC o -> gives (switchuvm o) (fun _ => True).
Proof. intros Ho. unfold switchuvm, upd_gdt. safe. Qed.
#[local] Hint Resolve gives_switchkvm gives_switchuvm : safe.

Lemma gives_sched : gives sched (fun _ => True).
Proof. unfold sched, readeflags. safe. Qed.
#[local] Hint Resolve gives_sched : safe.

Lemma gives_yield_op : gives yield (fun _ => True).
Proof. unfold yield. safe. Qed.
Lemma gives_sleep ch lk : gives (sleep ch lk) (fun _ => True).
Proof. unfold sleep. safe. Qed.
Lemma gives_wakeup1 ch : gives (wakeup1 ch) (fun _ => True).
Proof. unfold wakeup1. safe. Qed.
#[local] Hint Resolve gives_wakeup1 : safe.
Lemma gives_wakeup ch : gives (wakeup ch) (fun _ => True).
Proof. unfold wakeup. safe. Qed.
Lemma gives_kill pid : gives (kill pid) (fun _ => True).
Proof. unfold kill. safe. Qed.

End middle.

#[export] Hint Resolve gives_out gives_lapicinit gives_lapiceoi gives_lapicstartap gives_ioapicinit
  gives_ioapicenable gives_picinit gives_uartinit gives_ideinit gives_seginit gives_switchkvm gives_switchuvm
  gives_sched gives_yield_op gives_sleep gives_wakeup1 gives_wakeup gives_kill : safe.

Section vm_safe.
Context {E : Env}.

(** A new process id: the table is well-formed again once the counter and the entry
    are both updated. *)
Lemma gives_newpid {A} i (m : K A) Q :
  gives m Q ->
  gives (pid ← gets k_nextpid ; modify (fun s => s <| k_nextpid ::= Z.add 1 |>) ;;
    upd_proc i (fun p => p <| p_pid := pid |>) ;; m) Q.
Proof.
  intros Hm s Hs. unfold wpc. do 3 kstep. apply Hm. destruct Hs. split; try done; cbn.
  - by apply ptable_ok_newpid.
  - apply Forall_alter_all; [wf_record|done].
Qed.

Lemma gives_allocproc : gives allocproc (points NPROC).
Proof.
  unfold allocproc. apply gives_cps. safe_step.
  apply (gives_bind _ _ (points NPROC)).
  { apply gives_for_find; [|done]. safe. destruct (decide _); [|done]. cbn. in_range. }
  intros [i|] Hi; [|by safe]. apply gives_cps. safe_step.
  apply gives_newpid. safe; done.
Qed.

Lemma gives_load p : gives (load p) (fun _ => True).
Proof. unfold load. safe. Qed.
Lemma gives_store p v : gives (store p v) (fun _ => True).
Proof. unfold store. safe. Qed.
#[local] Hint Resolve gives_load gives_store : safe.

Lemma gives_walkpgdir d va b : gives (walkpgdir d va b) (fun _ => True).
Proof. unfold walkpgdir. safe. Qed.
#[local] Hint Resolve gives_walkpgdir : safe.

Lemma gives_mappages d va sz pa perm : gives (mappages d va sz pa perm) (fun _ => True).
Proof.
  unfold mappages. cbv zeta. generalize (PGROUNDDOWN va). intros a.
  match goal with |- gives (map_loop ?n _ _ _ _) _ => generalize n end. intros n.
  revert a pa. induction n as [|n IH]; intros a pa; cbn; safe.
Qed.
#[local] Hint Resolve gives_mappages : safe.

Lemma gives_deallocuvm d o n : gives (deallocuvm d o n) (fun _ => True).
Proof.
  unfold deallocuvm. safe. give_any; [|by safe]. generalize (PGROUNDUP n). intros a.
  match goal with |- gives (dealloc_loop ?n _ _ _) _ => generalize n end. intros k.
  revert a. induction k as [|k IH]; intros a; cbn [dealloc_loop]; safe.
Qed.
#[local] Hint Resolve gives_deallocuvm : safe.

Lemma gives_freevm d : gives (freevm d) (fun _ => True).
Proof. unfold freevm. safe. Qed.
#[local] Hint Resolve gives_freevm : safe.

Lemma gives_setupkvm : gives setupkvm (fun _ => True).
Proof. unfold setupkvm. safe. Qed.
#[local] Hint Resolve gives_setupkvm : safe.

Lemma gives_kvmalloc : gives kvmalloc (fun _ => True).
Proof. unfold kvmalloc. safe. Qed.
Lemma gives_inituvm d l sz : gives (inituvm d l sz) (fun _ => True).
Proof. unfold inituvm. safe. Qed.

Lemma gives_allocuvm d o n : gives (allocuvm d o n) (fun _ => True).
Proof.
  unfold allocuvm. safe. generalize (PGROUNDUP o). intros a.
  match goal with |- gives (alloc_loop ?n _ _ _ _) _ => generalize n end. intros k.
  revert a. induction k as [|k IH]; intros a; cbn [alloc_loop]; safe.
Qed.

Lemma gives_clearpteu d va : gives (clearpteu d va) (fun _ => True).
Proof. unfold clearpteu. safe. Qed.
Lemma gives_copyuvm d sz : gives (copyuvm d sz) (fun _ => True).
Proof. unfold copyuvm, copy_page. safe. Qed.

Lemma gives_copyout d va l : gives (copyout d va l) (fun _ => True).
Proof.
  unfold copyout. match goal with |- gives (copyout_loop ?n _ _ _) _ => generalize n end. intros k.
  revert va l. induction k as [|k IH]; intros va l; cbn [copyout_loop]; unfold uva2ka; safe.
Qed.

Lemma gives_uload8 va : gives (uload8 va) (fun _ => True).
Proof. unfold uload8. safe. Qed.
Lemma gives_ustore8 va v : gives (ustore8 va v) (fun _ => True).
Proof. unfold ustore8. safe. Qed.
#[local] Hint Resolve gives_uload8 gives_ustore8 : safe.
Lemma gives_uload va n : gives (uload va n) (fun _ => True).
Proof. revert va. induction n as [|n IH]; intros va; cbn; safe. Qed.
Lemma gives_ustore va l : gives (ustore va l) (fun _ => True).
Proof. revert va. induction l as [|b l IH]; intros va; cbn; safe. Qed.
#[local] Hint Resolve gives_uload gives_ustore : safe.
Lemma gives_uload32 va : gives (uload32 va) (fun _ => True).
Proof. unfold uload32. safe. Qed.
Lemma gives_ustore32 va v : gives (ustore32 va v) (fun _ => True).
Proof. unfold ustore32. safe. Qed.
#[local] Hint Resolve gives_uload32 : safe.

Lemma gives_fetchint a : gives (fetchint a) (fun _ => True).
Proof. unfold fetchint. safe. Qed.
#[local] Hint Resolve gives_fetchint : safe.
Lemma gives_fetch_bytes n a : gives (fetch_bytes n a) (fun _ => True).
Proof. revert a. induction n as [|n IH]; intros a; cbn; safe. Qed.
#[local] Hint Resolve gives_fetch_bytes : safe.
Lemma gives_fetchstr a : gives (fetchstr a) (fun _ => True).
Proof. unfold fetchstr. safe. Qed.
Lemma gives_argint n : gives (argint n) (fun _ => True).
Proof. unfold argint. safe. Qed.
#[local] Hint Resolve gives_fetchstr gives_argint : safe.
Lemma gives_argptr n sz : gives (argptr n sz) (fun _ => True).
Proof. unfold argptr. safe. Qed.
Lemma gives_argstr n : gives (argstr n) (fun _ => True).
Proof. unfold argstr. safe. Qed.

End vm_safe.

#[export] Hint Resolve gives_allocproc gives_load gives_store gives_walkpgdir gives_mappages gives_deallocuvm
  gives_freevm gives_setupkvm gives_kvmalloc gives_inituvm gives_allocuvm gives_clearpteu gives_copyuvm
  gives_copyout gives_uload gives_ustore gives_ustore32 gives_fetchint gives_fetchstr gives_argint gives_argptr
  gives_argstr : safe.

(** ** Sleep locks, disk, buffers, log *)

(** A disk driver that leaves the tables alone. *)
Class DiskSafe (D : Disk) : Prop := gives_iderw : forall b, (b < NLINK)%nat -> gives (iderw b) (fun _ => True).
#[export] Hint Resolve gives_iderw : safe.

Section disk_safe.
Context {E : Env}.

Lemma gives_mypid : gives mypid (fun _ => True).
Proof. unfold mypid. safe. Qed.
#[local] Hint Resolve gives_mypid : safe.

Lemma gives_initsleeplock id name : gives (initsleeplock id name) (fun _ => True).
Proof. unfold initsleeplock, upd_sl. safe. Qed.
Lemma gives_acquiresleep id : gives (acquiresleep id) (fun _ => True).
Proof. unfold acquiresleep, get_sl, upd_sl. safe. Qed.
Lemma gives_releasesleep id : gives (releasesleep id) (fun _ => True).
Proof. unfold releasesleep, upd_sl. safe. Qed.
Lemma gives_holdingsleep id : gives (holdingsleep id) (fun _ => True).
Proof. unfold holdingsleep, get_sl. safe. Qed.
#[local] Hint Resolve gives_initsleeplock gives_acquiresleep gives_releasesleep gives_holdingsleep : safe.

#[export] Instance memide_safe n : DiskSafe (memide n).
Proof. intros b Hb. cbn. unfold memide_iderw, disk_write. safe. Qed.

Lemma gives_idestart o : points NLINK o -> gives (idestart o) (fun _ => True).
Proof. intros Ho. unfold idestart, disk_write. safe. Qed.
Lemma gives_ide_last n b : (b < NLINK)%nat -> gives (ide_last n b) (fun b => (b < NLINK)%nat).
Proof. revert b. induction n as [|n IH]; intros b Hb; cbn [ide_last]; safe. Qed.
#[local] Hint Resolve gives_idestart gives_ide_last : safe.

Lemma gives_ideintr e : gives (ideintr e) (fun _ => True).
Proof. unfold ideintr. safe. Qed.

Lemma gives_ide_iderw b : (b < NLINK)%nat -> gives (ide_iderw b) (fun _ => True).
Proof. intros Hb. unfold ide_iderw, ide_append. safe. Qed.

Context {D : Disk} `{!DiskSafe D}.

Lemma gives_binit : gives binit (fun _ => True).
Proof. unfold binit. safe. Qed.
Lemma gives_scan l P n b : (forall x, buf_wf x -> (l x < NLINK)%nat) -> (b < NLINK)%nat -> gives (scan l P n b) (points NLINK).
Proof. intros Hl. revert b. induction n as [|n IH]; intros b Hb; cbn [scan]; safe; done. Qed.
Lemma gives_scan_next P n b : (b < NLINK)%nat -> gives (scan b_next P n b) (points NLINK).
Proof. apply gives_scan, bw_next. Qed.
Lemma gives_scan_prev P n b : (b < NLINK)%nat -> gives (scan b_prev P n b) (points NLINK).
Proof. apply gives_scan, bw_prev. Qed.
#[local] Hint Resolve gives_scan_next gives_scan_prev : safe.
Lemma gives_bget d b : gives (bget d b) (fun b => (b < NLINK)%nat).
Proof. unfold bget. safe. Qed.
#[local] Hint Resolve gives_bget : safe.
Lemma gives_bread d b : gives (bread d b) (fun b => (b < NLINK)%nat).
Proof. unfold bread. safe. Qed.
Lemma gives_bwrite b : (b < NLINK)%nat -> gives (bwrite b) (fun _ => True).
Proof. intros Hb. unfold bwrite. safe. Qed.
Lemma gives_brelse b : (b < NLINK)%nat -> gives (brelse b) (fun _ => True).
Proof. intros Hb. unfold brelse, relink. safe. Qed.
#[local] Hint Resolve gives_bread gives_bwrite gives_brelse : safe.

Lemma gives_readsb d : gives (readsb d) (fun _ => True).
Proof. unfold readsb. safe. Qed.
Lemma gives_get_log {T} (f : log -> T) : gives (get_log f) (fun _ => True).
Proof. unfold get_log. safe. Qed.
Lemma gives_upd_log f : gives (upd_log f) (fun _ => True).
Proof. unfold upd_log. safe. Qed.
#[local] Hint Resolve gives_readsb gives_get_log gives_upd_log : safe.

Lemma gives_tails body : (forall i, gives (body i) (fun _ => True)) -> gives (tails body) (fun _ => True).
Proof.
  intros Hb. unfold tails. generalize 0. generalize (S (Z.to_nat LOGSIZE)). intros n.
  induction n as [|n IH]; intros i; cbn [for_tail]; unfold get_n; safe.
Qed.

Lemma gives_get_lhblock i : gives (get_lhblock i) (fun _ => True).
Proof. unfold get_lhblock. safe. Qed.
Lemma gives_set_lhblock i v : gives (set_lhblock i v) (fun _ => True).
Proof. unfold set_lhblock, upd_lh. safe. Qed.
#[local] Hint Resolve gives_get_lhblock gives_set_lhblock : safe.

Lemma gives_install_trans : gives install_trans (fun _ => True).
Proof. apply gives_tails. unfold install_block, copy_data. safe. Qed.
Lemma gives_write_log : gives write_log (fun _ => True).
Proof. apply gives_tails. unfold log_block, copy_data. safe. Qed.
Lemma gives_write_head : gives write_head (fun _ => True).
Proof. unfold write_head, get_n. safe. give_any; [apply gives_tails; safe|safe]. Qed.
Lemma gives_read_head : gives read_head (fun _ => True).
Proof. unfold read_head, upd_lh. safe. give_any; [apply gives_tails; safe|safe]. Qed.
#[local] Hint Resolve gives_install_trans gives_write_log gives_write_head gives_read_head : safe.

Lemma gives_initlog d : gives (initlog d) (fun _ => True).
Proof. unfold initlog, recover_from_log, upd_lh. safe. Qed.
Lemma gives_begin_op : gives begin_op (fun _ => True).
Proof. unfold begin_op. safe. Qed.
Lemma gives_end_op : gives end_op (fun _ => True).
Proof. unfold end_op, commit, get_n, upd_lh. safe. Qed.

Lemma gives_absorb n i b : gives (absorb n i b) (fun _ => True).
Proof. revert i. induction n as [|n IH]; intros i; cbn [absorb]; unfold get_n; safe. Qed.
#[local] Hint Resolve gives_absorb : safe.
Lemma gives_log_write b : (b < NLINK)%nat -> gives (log_write b) (fun _ => True).
Proof. intros Hb. unfold log_write, get_n, upd_lh. safe. Qed.

End disk_safe.

#[export] Hint Resolve gives_mypid gives_initsleeplock gives_acquiresleep gives_releasesleep gives_holdingsleep
  gives_ideintr gives_binit gives_bread gives_bwrite gives_brelse gives_readsb
  gives_initlog gives_begin_op gives_end_op gives_log_write : safe.

(** ** Inodes, console input, files *)

Section fs_safe.
Context {E : Env} {V : Devices} {D : Disk} `{!DiskSafe D}.

Lemma gives_get_data b : (b < NLINK)%nat -> gives (get_data b) (fun _ => True).
Proof. intros Hb. unfold get_data. safe. Qed.
Lemma gives_upd_data b f : gives (upd_data b f) (fun _ => True).
Proof. unfold upd_data. safe. Qed.
#[local] Hint Resolve gives_upd_data : safe.
#[local] Hint Extern 1 (gives (get_data _) _) => apply gives_get_data; assumption : safe.

Lemma gives_bzero d b : gives (bzero d b) (fun _ => True).
Proof. unfold bzero. safe. Qed.
#[local] Hint Resolve gives_bzero : safe.
Lemma gives_balloc d : gives (balloc d) (fun _ => True).
Proof. unfold balloc. safe. Qed.
Lemma gives_bfree d b : gives (bfree d b) (fun _ => True).
Proof. unfold bfree. safe. Qed.
#[local] Hint Resolve gives_balloc gives_bfree : safe.

Lemma gives_iinit d : gives (iinit d) (fun _ => True).
Proof. unfold iinit. safe. Qed.

Definition scan_wf (r : nat + option nat) : Prop :=
  match r with inl i => (i < NINODE)%nat | inr o => points NINODE o end.
Lemma gives_iget_scan l dev inum e :
  (forall x, x ∈ l -> (x < NINODE)%nat) -> points NINODE e -> gives (iget_scan l dev inum e) scan_wf.
Proof.
  revert e. induction l as [|i l IH]; intros e Hl He; cbn; [by safe|].
  assert (i < NINODE)%nat as Hi by (apply Hl; left).
  safe. apply IH; [intros x Hx; apply Hl; by right|].
  destruct e; [done|]. by destruct (i_ref a =? 0).
Qed.
Lemma gives_iget dev inum : gives (iget dev inum) (fun i => (i < NINODE)%nat).
Proof.
  unfold iget. apply gives_cps. safe_step. eapply gives_bind.
  { apply gives_iget_scan; [|exact I]. intros x Hx. in_range. }
  intros [i|[i|]] Hi; safe; done.
Qed.
#[local] Hint Resolve gives_iget : safe.

Lemma gives_ialloc dev t : gives (ialloc dev t) (fun i => (i < NINODE)%nat).
Proof.
  unfold ialloc. apply gives_cps. safe_step. apply (gives_bind _ _ (points NINODE)).
  { apply gives_for_find; [|exact I]. safe; done. }
  intros [i|] Hi; safe; done.
Qed.
Lemma gives_iupdate i : (i < NINODE)%nat -> gives (iupdate i) (fun _ => True).
Proof. intros Hi. unfold iupdate. safe. Qed.
Lemma gives_idup i : (i < NINODE)%nat -> gives (idup i) (fun j => (j < NINODE)%nat).
Proof. intros Hi. unfold idup. safe. Qed.
#[local] Hint Resolve gives_ialloc gives_iupdate gives_idup : safe.

Lemma gives_ilock o : points NINODE o -> gives (ilock o) (fun _ => True).
Proof.
  intros Ho. unfold ilock. safe.
Qed.
Lemma gives_iunlock o : points NINODE o -> gives (iunlock o) (fun _ => True).
Proof. intros Ho. unfold iunlock. safe. Qed.
#[local] Hint Resolve gives_ilock gives_iunlock : safe.

Lemma gives_get_addr ip i : (ip < NINODE)%nat -> (i < 13)%nat -> gives (get_addr ip i) (fun _ => True).
Proof.
  intros Hip Hi. unfold get_addr. safe. destruct (points_lookup 13 (i_addrs a) i) as [x ->]; [done..|].
  by apply gives_ret.
Qed.
Lemma gives_set_addr ip i a : gives (set_addr ip i a) (fun _ => True).
Proof. apply gives_upd_inode. intros x Hx. unfold inode_wf. cbn. by rewrite length_insert. Qed.
#[local] Hint Resolve gives_set_addr : safe.

Lemma gives_bmap ip bn : (ip < NINODE)%nat -> gives (bmap ip bn) (fun _ => True).
Proof.
  intros Hip. unfold bmap. change NDIRECT with 12. destruct (Z.ltb_spec bn 12).
  - assert (gives (get_addr ip (Z.to_nat bn)) (fun _ => True)) by (apply gives_get_addr; [done|lia]). safe.
  - assert (gives (get_addr ip (Z.to_nat 12)) (fun _ => True)) by (apply gives_get_addr; [done|lia]). safe.
Qed.
Lemma gives_itrunc ip : (ip < NINODE)%nat -> gives (itrunc ip) (fun _ => True).
Proof.
  intros Hip. unfold itrunc. change (Z.to_nat NDIRECT) with 12%nat.
  pose proof (gives_get_addr ip) as Ha. safe.
Qed.
#[local] Hint Resolve gives_bmap gives_itrunc : safe.

Lemma gives_iput ip : (ip < NINODE)%nat -> gives (iput ip) (fun _ => True).
Proof. intros Hip. unfold iput. safe. Qed.
#[local] Hint Resolve gives_iput : safe.
Lemma gives_iunlockput ip : (ip < NINODE)%nat -> gives (iunlockput ip) (fun _ => True).
Proof. intros Hip. unfold iunlockput. safe. Qed.
Lemma gives_stati ip : (ip < NINODE)%nat -> gives (stati ip) (fun _ => True).
Proof. intros Hip. unfold stati. safe. Qed.

End fs_safe.

#[export] Hint Extern 1 (gives (get_data _) _) => apply gives_get_data; assumption : safe.
#[export] Hint Resolve gives_upd_data gives_iinit gives_iget gives_ialloc gives_iupdate gives_idup
  gives_ilock gives_iunlock gives_bmap gives_iput gives_iunlockput gives_stati : safe.

Section io_safe.
Context {E : Env} {V : Devices} {D : Disk} `{!DiskSafe D}.

Lemma gives_print_pcs l : gives (print_pcs l) (fun _ => True).
Proof. induction l; cbn [print_pcs]; safe. Qed.
#[local] Hint Resolve gives_print_pcs : safe.
Lemma gives_procdump : gives procdump (fun _ => True).
Proof. unfold procdump. safe. Qed.
#[local] Hint Resolve gives_procdump : safe.

Lemma gives_input_at i : gives (input_at i) (fun _ => True).
Proof.
  unfold input_at. apply (gives_bind _ _ (fun l => length l = Z.to_nat INPUT_BUF)).
  { apply gives_gets. by intros s []. }
  intros l Hl. destruct (points_lookup _ l (Z.to_nat (i mod INPUT_BUF)) Hl) as [x ->]; [|by apply gives_ret].
  unfold INPUT_BUF. pose proof (Z.mod_pos_bound i 128). lia.
Qed.
#[local] Hint Resolve gives_input_at : safe.

Lemma gives_kill_line n : gives (kill_line n) (fun _ => True).
Proof. induction n; cbn [kill_line]; safe. Qed.
#[local] Hint Resolve gives_kill_line : safe.
Lemma gives_put_input i v : gives (upd_cons (fun cs => cs <| cs_buf ::= <[i := v]> |>)) (fun _ => True).
Proof. apply gives_upd_cons. intros c. cbn. by rewrite length_insert. Qed.
#[local] Hint Resolve gives_put_input : safe.
Lemma gives_console_key c : gives (console_key c) (fun _ => True).
Proof. unfold console_key. safe. Qed.
#[local] Hint Resolve gives_console_key : safe.
Lemma gives_console_keys l b : gives (console_keys l b) (fun _ => True).
Proof. revert b. induction l; intros b; cbn [console_keys]; safe. Qed.
#[local] Hint Resolve gives_console_keys : safe.
Lemma gives_consoleintr l : gives (consoleintr l) (fun _ => True).
Proof. unfold consoleintr. safe. Qed.
#[local] Hint Resolve gives_consoleintr : safe.
Lemma gives_kbdintr l : gives (kbdintr l) (fun _ => True).
Proof. unfold kbdintr, get_pf, upd_pf. safe. Qed.
Lemma gives_uartintr l : gives (uartintr l) (fun _ => True).
Proof. unfold uartintr. safe. Qed.

Lemma gives_read_loop n acc : gives (read_loop n acc) (fun _ => True).
Proof. revert acc. induction n; intros acc; cbn [read_loop]; unfold wait_input; safe. Qed.
#[local] Hint Resolve gives_read_loop : safe.
Lemma gives_consoleread ip n : (ip < NINODE)%nat -> gives (consoleread ip n) (fun _ => True).
Proof. intros Hip. unfold consoleread. safe. Qed.
Lemma gives_consolewrite ip l n : (ip < NINODE)%nat -> gives (consolewrite ip l n) (fun _ => True).
Proof. intros Hip. unfold consolewrite. safe. Qed.
#[local] Hint Resolve gives_consoleread gives_consolewrite : safe.

Lemma gives_upd_devsw f i : gives (modify (fun s => s <| k_devsw ::= alter f i |>)) (fun _ => True).
Proof. apply gives_modify; [|done]. intros s []. split; try done. cbn. by rewrite length_alter. Qed.
#[local] Hint Resolve gives_upd_devsw : safe.
Lemma gives_consoleinit : gives consoleinit (fun _ => True).
Proof. unfold consoleinit. safe. Qed.

Lemma gives_get_devsw m : 0 <= m < NDEV -> gives (get_devsw m) (fun _ => True).
Proof.
  intros Hm. unfold get_devsw. apply (gives_bind _ _ (fun l => length l = Z.to_nat NDEV)).
  { apply gives_gets. by intros s []. }
  intros l Hl. destruct (points_lookup _ l (Z.to_nat m) Hl) as [x ->]; [lia|by apply gives_ret].
Qed.

Lemma gives_readi_loop k ip off n tot acc : (ip < NINODE)%nat -> gives (readi_loop k ip off n tot acc) (fun _ => True).
Proof. intros Hip. revert off tot acc. induction k; intros off tot acc; cbn [readi_loop]; safe. Qed.
Lemma gives_writei_loop k ip off n tot l : (ip < NINODE)%nat -> gives (writei_loop k ip off n tot l) (fun _ => True).
Proof. intros Hip. revert off tot l. induction k; intros off tot l; cbn [writei_loop]; safe. Qed.
#[local] Hint Resolve gives_readi_loop gives_writei_loop : safe.

Lemma major_in_range m : (m <? 0) || (NDEV <=? m) = false -> 0 <= m < NDEV.
Proof. intros [H1 H2]%orb_false_iff. lia. Qed.
#[local] Hint Extern 2 (0 <= _ < NDEV) => by apply major_in_range : safe.
#[local] Hint Resolve gives_get_devsw : safe.

Lemma gives_readi ip off n : (ip < NINODE)%nat -> gives (readi ip off n) (fun _ => True).
Proof. intros Hip. unfold readi. safe. Qed.
Lemma gives_writei ip l off n : (ip < NINODE)%nat -> gives (writei ip l off n) (fun _ => True).
Proof. intros Hip. unfold writei. safe. Qed.
#[local] Hint Resolve gives_readi gives_writei : safe.

Lemma gives_read_dirent dp off e : (dp < NINODE)%nat -> gives (read_dirent dp off e) (fun _ => True).
Proof. intros Hdp. unfold read_dirent. safe. Qed.
#[local] Hint Resolve gives_read_dirent : safe.

Definition found_wf (o : option (nat * Z)) : Prop := points NINODE (fst <$> o).
Lemma gives_dirlookup dp name : (dp < NINODE)%nat -> gives (dirlookup dp name) found_wf.
Proof.
  intros Hdp. unfold dirlookup. apply gives_cps. safe_step. safe_step; [safe|].
  apply gives_for_find; [|exact I]. safe; done.
Qed.
#[local] Hint Resolve gives_dirlookup : safe.
Lemma gives_dirlink dp name inum : (dp < NINODE)%nat -> gives (dirlink dp name inum) (fun _ => True).
Proof. intros Hdp. unfold dirlink. safe. Qed.

Definition res_wf (r : option nat * list Z) : Prop := points NINODE r.1.
Lemma gives_namex_loop k ip path np name : (ip < NINODE)%nat -> gives (namex_loop k ip path np name) res_wf.
Proof. revert ip path name. induction k; intros ip path name Hip; cbn [namex_loop]; safe; try done; auto. Qed.
#[local] Hint Resolve gives_namex_loop : safe.
Lemma gives_namex path np name : gives (namex path np name) res_wf.
Proof.
  unfold namex. safe.
Qed.

#[local] Hint Resolve gives_namex : safe.
Lemma gives_namei path : gives (namei path) (points NINODE).
Proof. unfold namei. safe. Qed.
Lemma gives_nameiparent path : gives (nameiparent path) res_wf.
Proof. apply gives_namex. Qed.

End io_safe.

#[export] Hint Resolve gives_consoleintr gives_kbdintr gives_uartintr gives_consoleinit gives_readi gives_writei
  gives_read_dirent gives_dirlookup gives_dirlink gives_namei gives_nameiparent : safe.

(** ** Pipes and files *)

Section file_safe.
Context {E : Env} {V : Devices} {D : Disk} `{!DiskSafe D}.

Lemma gives_get_pipe p : gives (get_pipe p) pipe_wf.
Proof.
  apply (gives_bind _ _ (map_Forall (fun _ => pipe_wf))); [apply gives_gets; by intros s []|].
  intros m Hm. apply gives_deref; [|done]. intros q Hq. by apply (Hm p).
Qed.
Lemma gives_upd_pipe p f : (forall q, pipe_wf q -> pipe_wf (f q)) -> gives (upd_pipe p f) (fun _ => True).
Proof.
  intros Hf. apply gives_modify; [|done]. intros s []. split; try done. cbn.
  intros k q. rewrite lookup_alter_Some. intros [(<- & q' & Hq & ->)|[_ Hq]]; [by eapply Hf, tw_pipes0|].
  by eapply tw_pipes0.
Qed.
#[local] Hint Resolve gives_get_pipe : safe.
#[local] Hint Extern 1 (gives (upd_pipe _ _) _) => apply gives_upd_pipe; wf_record : safe.

Lemma gives_new_pipe p : gives (new_pipe p) (fun _ => True).
Proof.
  unfold new_pipe. apply gives_cps. apply gives_modify; [|by safe]. intros s []. split; try done. cbn.
  apply map_Forall_insert_2; [|done]. unfold pipe_wf. cbn [pi_data]. by rewrite length_map, length_seqZ.
Qed.
Lemma gives_del_pipe p : gives (modify (fun s => s <| k_pipes ::= delete p |>)) (fun _ => True).
Proof. apply gives_modify; [|done]. intros s []. split; try done. cbn. by apply map_Forall_delete. Qed.
#[local] Hint Resolve gives_new_pipe gives_del_pipe : safe.

Lemma gives_pipeclose p w : gives (pipeclose p w) (fun _ => True).
Proof. unfold pipeclose. safe. Qed.
Lemma gives_put_byte p c : gives (upd_pipe p (put_byte c)) (fun _ => True).
Proof. apply gives_upd_pipe. intros q Hq. unfold pipe_wf. cbn. by rewrite length_insert. Qed.
#[local] Hint Resolve gives_put_byte : safe.
Lemma gives_pipewrite_loop p l : gives (pipewrite_loop p l) (fun _ => True).
Proof. induction l; cbn [pipewrite_loop]; unfold wait_room; safe. Qed.
#[local] Hint Resolve gives_pipewrite_loop : safe.
Lemma gives_pipewrite p l n : gives (pipewrite p l n) (fun _ => True).
Proof. unfold pipewrite. safe. Qed.

Lemma gives_data_at q i : pipe_wf q -> gives (deref "p->data" (pi_data q !! Z.to_nat (i mod PIPESIZE))) (fun _ => True).
Proof.
  intros Hq. destruct (points_lookup _ (pi_data q) (Z.to_nat (i mod PIPESIZE)) Hq) as [x ->]; [|by apply gives_ret].
  unfold PIPESIZE. pose proof (Z.mod_pos_bound i 512). lia.
Qed.
#[local] Hint Resolve gives_data_at : safe.
Lemma gives_piperead_loop p n : gives (piperead_loop p n) (fun _ => True).
Proof. induction n; cbn [piperead_loop]; safe. Qed.
#[local] Hint Resolve gives_piperead_loop : safe.
Lemma gives_piperead p n : gives (piperead p n) (fun _ => True).
Proof. unfold piperead, wait_data. safe. Qed.
#[local] Hint Resolve gives_pipeclose gives_pipewrite gives_piperead : safe.

Lemma gives_filealloc : gives filealloc (points NFILE).
Proof.
  unfold filealloc. apply gives_cps. safe_step. apply (gives_bind _ _ (points NFILE)).
  { apply gives_for_find; [|done]. safe. destruct (f_ref a0 =? 0); [|done]. cbn. in_range. }
  intros [f|] Hf; safe.
Qed.
Lemma gives_filedup f : (f < NFILE)%nat -> gives (filedup f) (fun g => (g < NFILE)%nat).
Proof. intros Hf. unfold filedup. safe. Qed.
Lemma gives_fileclose f : (f < NFILE)%nat -> gives (fileclose f) (fun _ => True).
Proof. intros Hf. unfold fileclose. safe. Qed.
#[local] Hint Resolve gives_filealloc gives_filedup gives_fileclose : safe.

Lemma gives_filestat f : (f < NFILE)%nat -> gives (filestat f) (fun _ => True).
Proof. intros Hf. unfold filestat. safe. Qed.
Lemma gives_fileread f n : (f < NFILE)%nat -> gives (fileread f n) (fun _ => True).
Proof. intros Hf. unfold fileread. safe. Qed.
Lemma gives_filewrite_loop k f l n i : (f < NFILE)%nat -> gives (filewrite_loop k f l n i) (fun _ => True).
Proof. intros Hf. revert i. induction k; intros i; cbn [filewrite_loop]; safe. Qed.
#[local] Hint Resolve gives_filewrite_loop : safe.
Lemma gives_filewrite f l n : (f < NFILE)%nat -> gives (filewrite f l n) (fun _ => True).
Proof. intros Hf. unfold filewrite. safe. Qed.

Lemma gives_close_opt o : points NFILE o -> gives (close_opt o) (fun _ => True).
Proof. intros Ho. unfold close_opt. safe. Qed.
#[local] Hint Resolve gives_close_opt : safe.
Definition pair_wf (o : option (nat * nat)) : Prop :=
  match o with Some (a, b) => (a < NFILE)%nat /\ (b < NFILE)%nat | None => True end.
Lemma gives_pipealloc : gives pipealloc pair_wf.
Proof. unfold pipealloc, set_pipe_file. safe; done. Qed.

End file_safe.

#[export] Hint Resolve gives_filealloc gives_filedup gives_fileclose gives_filestat gives_fileread gives_filewrite
  gives_close_opt gives_pipealloc : safe.

(** ** Processes, containers and exec *)

Section life_safe.
Context {E : Env} {V : Devices} {D : Disk} `{!DiskSafe D}.

Lemma gives_upd_tf i f : gives (upd_tf i f) (fun _ => True).
Proof. unfold upd_tf. safe. Qed.
#[local] Hint Resolve gives_upd_tf : safe.

(** Updates of a process that store a pointer. *)
Lemma gives_set_cwd i o : points NINODE o -> gives (upd_proc i (fun p => p <| p_cwd := o |>)) (fun _ => True).
Proof. intros Ho. apply gives_upd_proc; [wf_record|done]. Qed.
Lemma gives_set_parent i o : points NPROC o -> gives (upd_proc i (fun p => p <| p_parent := o |>)) (fun _ => True).
Proof. intros Ho. apply gives_upd_proc; [wf_record|done]. Qed.
Lemma gives_set_ofile i fd o :
  points NFILE o -> gives (upd_proc i (fun p => p <| p_ofile ::= <[fd := o]> |>)) (fun _ => True).
Proof.
  intros Ho. apply gives_upd_proc; [|done]. intros p []. split; cbn; auto.
  - by rewrite length_insert.
  - by apply Forall_insert.
Qed.
#[local] Hint Resolve gives_set_cwd gives_set_parent gives_set_ofile : safe.
#[local] Hint Extern 1 (points _ (Some _)) => cbn [points] : safe.

Lemma gives_initproc : gives (gets k_initproc) (points NPROC).
Proof. apply gives_gets. by intros s []. Qed.
Lemma gives_set_initproc o : points NPROC o -> gives (modify (fun s => s <| k_initproc := o |>)) (fun _ => True).
Proof. intros Ho. apply gives_modify; [|done]. intros s []. by split. Qed.
#[local] Hint Resolve gives_initproc gives_set_initproc : safe.

Lemma gives_ofile_at p i why : proc_wf p -> (i < NOFILE)%nat -> gives (deref why (p_ofile p !! i)) (points NFILE).
Proof.
  intros Hp Hi. destruct (points_lookup _ (p_ofile p) i (pw_len _ Hp) Hi) as [o Ho]. rewrite Ho.
  apply gives_ret. by apply (Forall_lookup_1 _ _ _ _ (pw_ofile _ Hp) Ho).
Qed.
#[local] Hint Resolve gives_ofile_at : safe.

Lemma gives_userinit : gives userinit (fun _ => True).
Proof. unfold userinit. safe. Qed.
Lemma gives_growproc n : gives (growproc n) (fun _ => True).
Proof. unfold growproc. safe. Qed.
Lemma gives_fork : gives fork (fun _ => True).
Proof. unfold fork, dup_ofile. safe. Qed.
Lemma gives_exit : gives exit (fun _ => True).
Proof. unfold exit, close_ofile, abandon. safe. Qed.

Lemma gives_wait_scan l c b :
  (forall i, i ∈ l -> (i < NPROC)%nat) -> gives (wait_scan l c b) (fun _ => True).
Proof.
  revert b. induction l as [|i l IH]; intros b Hl; cbn [wait_scan]; [by safe|].
  assert (i < NPROC)%nat as Hi by (apply Hl; left).
  assert (forall b, gives (wait_scan l c b) (fun _ => True)) by (intros; apply IH; intros; apply Hl; by right).
  (* [p_pid := 0] frees an id, so the table stays well-formed. *)
  assert (gives (upd_proc i (fun p => p <| p_pid := 0 |>)) (fun _ => True)) as Hz.
  { apply gives_modify; [|done]. intros s []. split; try done; cbn.
    - by apply ptable_ok_free.
    - apply Forall_alter_all; [wf_record|done]. }
  safe.
Qed.
Lemma gives_wait : gives wait (fun _ => True).
Proof.
  assert (forall c b, gives (wait_scan procs c b) (fun _ => True)).
  { intros. apply gives_wait_scan. intros. in_range. }
  unfold wait. safe.
Qed.
Lemma gives_forkret : gives forkret (fun _ => True).
Proof. unfold forkret. safe. Qed.

Lemma gives_set_cproc i o : points NPROC o -> gives (upd_cpu i (fun c => c <| c_proc := o |>)) (fun _ => True).
Proof. intros Ho. apply gives_upd_cpu. by intros c _. Qed.
#[local] Hint Resolve gives_set_cproc : safe.
#[local] Hint Extern 1 (points _ None) => exact I : safe.
Lemma gives_scheduler n : gives (scheduler n) (fun _ => True).
Proof. unfold scheduler, scheduler_round, schedule_container, schedule_proc, sti. safe. Qed.

Lemma gives_get_container i : gives (get_container i) (fun _ => True).
Proof. unfold get_container. safe. Qed.
Lemma gives_upd_container i f : gives (upd_container i f) (fun _ => True).
Proof. unfold upd_container. safe. Qed.
Lemma gives_containers id n : gives (index "containers" id n) (fun _ => True).
Proof. unfold index. safe. Qed.
#[local] Hint Resolve gives_get_container gives_upd_container gives_containers : safe.
Lemma gives_get_containers id : gives (get_containers id) (fun _ => True).
Proof. unfold get_containers. safe. Qed.
Lemma gives_set_containers id v : gives (set_containers id v) (fun _ => True).
Proof. unfold set_containers. safe. Qed.
#[local] Hint Resolve gives_get_containers gives_set_containers : safe.

Lemma gives_psHelper a b : gives (psHelper a b) (fun _ => True).
Proof. unfold psHelper. safe. Qed.
Lemma gives_listContainersHelper : gives listContainersHelper (fun _ => True).
Proof. unfold listContainersHelper. safe. Qed.
Lemma gives_containerInit : gives containerInit (fun _ => True).
Proof. unfold containerInit. safe. Qed.
Lemma gives_createContainer : gives createContainer (fun _ => True).
Proof. unfold createContainer, try_container. safe. Qed.
Lemma gives_destroyContainer id : gives (destroyContainer id) (fun _ => True).
Proof. unfold destroyContainer, destroy_proc, index. safe. Qed.
Lemma gives_addProcessToContainer pid id : gives (addProcessToContainer pid id) (fun _ => True).
Proof. unfold addProcessToContainer. safe. Qed.
Lemma gives_removeProcessFromContainer pid : gives (removeProcessFromContainer pid) (fun _ => True).
Proof. unfold removeProcessFromContainer. safe. Qed.
Lemma gives_container_malloc n pid : gives (container_malloc n pid) (fun _ => True).
Proof. unfold container_malloc, malloc_in, upd_page, index. safe. Qed.

(** The scan finds the current process itself at the latest. *)
Lemma gives_gtcid : gives gtcid (fun _ => True).
Proof.
  unfold gtcid. apply gives_cps. safe_step. intros s Hs.
  pose proof (po_len _ _ (tw_ptable _ _ _ _ _ _ _ _ _ _ _ _ _ Hs)) as Hl.
  destruct (points_lookup _ _ a Hl H) as [p Hp]. unfold wpc. krun (get_proc_run s a p Hp).
  rewrite (procs_table s Hl).
  destruct (list_find_elem_of (fun q => p_pid q = p_pid p) (k_ptable s) p) as [[i q] Hf].
  { by eapply list_elem_of_lookup_2. } { done. }
  pose proof (list_find_Some (fun q => p_pid q = p_pid p) (k_ptable s) i q) as [Hq _].
  destruct (Hq Hf) as (Hi & Hpq & _).
  erewrite bind_done; [|eapply (for_find_some k_ptable (fun q => p_pid q = p_pid p)); [|exact Hf|]].
  - cbv beta. cbn [default from_option id]. by krun (get_proc_run s i q Hi).
  - intros j r Hj Hne. krun (get_proc_run s j r Hj). by rewrite (proj2 (Z.eqb_neq _ _) Hne).
  - krun (get_proc_run s i q Hi). by rewrite Hpq, Z.eqb_refl.
Qed.

Lemma gives_loaduvm d a ip off sz : (ip < NINODE)%nat -> gives (loaduvm d a ip off sz) (fun _ => True).
Proof. intros Hip. unfold loaduvm. safe. Qed.
#[local] Hint Resolve gives_loaduvm : safe.
Lemma gives_load_segments n ip d sz off : (ip < NINODE)%nat -> gives (load_segments n ip d sz off) (fun _ => True).
Proof.
  intros Hip. revert sz off. induction n as [|n IH]; intros sz off; cbn [load_segments]; unfold load_segment; safe.
Qed.
Lemma gives_push_args d sp argc l u : gives (push_args d sp argc l u) (fun _ => True).
Proof. revert sp argc u. induction l; intros sp argc u; cbn [push_args]; safe. Qed.
#[local] Hint Resolve gives_load_segments gives_push_args : safe.
Lemma gives_exec_bad d o : points NINODE o -> gives (exec_bad d o) (fun _ => True).
Proof. intros Ho. unfold exec_bad. safe. Qed.
Lemma gives_exec_commit c path d sz sp e : (c < NPROC)%nat -> gives (exec_commit c path d sz sp e) (fun _ => True).
Proof. intros Hc. unfold exec_commit. safe. Qed.
#[local] Hint Resolve gives_exec_bad gives_exec_commit : safe.
Lemma gives_exec path argv : gives (exec path argv) (fun _ => True).
Proof. unfold exec, build_stack. safe. Qed.

End life_safe.

#[export] Hint Resolve gives_set_cwd gives_set_ofile gives_ofile_at gives_userinit gives_growproc gives_fork gives_exit
  gives_wait gives_forkret gives_scheduler gives_get_containers gives_set_containers gives_psHelper
  gives_listContainersHelper gives_containerInit gives_createContainer gives_destroyContainer
  gives_addProcessToContainer gives_removeProcessFromContainer gives_container_malloc gives_gtcid gives_exec : safe.
#[export] Hint Extern 1 (points _ (Some _)) => cbn [points] : safe.
#[export] Hint Extern 1 (points _ None) => exact I : safe.

(** ** System calls *)

Section sys_safe.
Context {E : Env} {V : Devices} {D : Disk} `{!DiskSafe D}.

Lemma gives_my {T} (f : proc -> T) (Q : T -> Prop) : (forall p, proc_wf p -> Q (f p)) -> gives (my f) Q.
Proof. intros HQ. unfold my. safe. auto. Qed.
Lemma gives_my_any {T} (f : proc -> T) : gives (my f) (fun _ => True).
Proof. by apply gives_my. Qed.
Lemma gives_argint_unchecked n : gives (argint_unchecked n) (fun _ => True).
Proof. unfold argint_unchecked. safe. Qed.
#[local] Hint Resolve gives_my_any gives_argint_unchecked : safe.

Definition fd_wf (o : option (nat * nat)) : Prop := points NFILE (snd <$> o).
Lemma gives_argfd n : gives (argfd n) fd_wf.
Proof.
  unfold argfd. apply gives_cps. safe_step. destruct a as [fd|]; [|by safe].
  destruct ((fd <? 0) || (Z.of_nat NOFILE <=? fd)) eqn:Hfd; [by safe|].
  apply (gives_bind _ _ (fun l => length l = NOFILE /\ Forall (points NFILE) l)).
  { apply gives_my. by intros p []. }
  intros l [Hl HP]. apply orb_false_iff in Hfd as [Hf0 Hf1].
  destruct (points_lookup _ l (Z.to_nat fd) Hl) as [o Ho]; [lia|]. rewrite Ho.
  pose proof (Forall_lookup_1 _ _ _ _ HP Ho). safe. by destruct o.
Qed.
#[local] Hint Resolve gives_argfd : safe.

Lemma gives_sys_set_ofile c fd o : points NFILE o -> gives (set_ofile c fd o) (fun _ => True).
Proof. unfold set_ofile. apply gives_set_ofile. Qed.
#[local] Hint Resolve gives_sys_set_ofile : safe.
Lemma gives_fdalloc f : (f < NFILE)%nat -> gives (fdalloc f) (fun _ => True).
Proof. intros Hf. unfold fdalloc. safe. Qed.
#[local] Hint Resolve gives_fdalloc : safe.

Definition arg_wf (o : option (nat * Z * Z)) : Prop := points NFILE ((fun x => x.1.1) <$> o).
Lemma gives_arg_file_buf : gives arg_file_buf arg_wf.
Proof. unfold arg_file_buf. safe; [done..|]. by destruct a1. Qed.
Lemma gives_file_container f : (f < NFILE)%nat -> gives (file_container f) (fun _ => True).
Proof. intros Hf. unfold file_container. safe. Qed.
Lemma gives_store_stat a st : gives (store_stat a st) (fun _ => True).
Proof. unfold store_stat. safe. Qed.
#[local] Hint Resolve gives_arg_file_buf gives_file_container gives_store_stat : safe.

Lemma gives_upd_nlink i d : gives (upd_nlink i d) (fun _ => True).
Proof. unfold upd_nlink. safe. Qed.
#[local] Hint Resolve gives_upd_nlink : safe.
Lemma gives_link_bad ip : (ip < NINODE)%nat -> gives (link_bad ip) (fun _ => True).
Proof. intros Hip. unfold link_bad. safe. Qed.
Lemma gives_unlink_bad ip : (ip < NINODE)%nat -> gives (unlink_bad ip) (fun _ => True).
Proof. intros Hip. unfold unlink_bad. safe. Qed.
#[local] Hint Resolve gives_link_bad gives_unlink_bad : safe.
Lemma gives_isdirempty dp : (dp < NINODE)%nat -> gives (isdirempty dp) (fun _ => True).
Proof. intros Hdp. unfold isdirempty. safe. Qed.
#[local] Hint Resolve gives_isdirempty : safe.
Lemma gives_unlink_entry dp ip off :
  (dp < NINODE)%nat -> (ip < NINODE)%nat -> gives (unlink_entry dp ip off) (fun _ => True).
Proof. intros Hdp Hip. unfold unlink_entry. safe. Qed.
Lemma gives_create_new dp name t a b :
  (dp < NINODE)%nat -> gives (create_new dp name t a b) (fun ip => (ip < NINODE)%nat).
Proof. intros Hdp. unfold create_new. safe. Qed.
#[local] Hint Resolve gives_unlink_entry gives_create_new : safe.
Lemma gives_create path t a b : gives (create path t a b) (points NINODE).
Proof. unfold create. safe. Qed.
#[local] Hint Resolve gives_create : safe.
Lemma gives_open_inode path m : gives (open_inode path m) (points NINODE).
Proof. unfold open_inode. safe. Qed.
Lemma gives_fetch_argv n a : gives (fetch_argv n a) (fun _ => True).
Proof. revert a. induction n; intros a; cbn [fetch_argv]; safe. Qed.
#[local] Hint Resolve gives_open_inode gives_fetch_argv : safe.

Lemma gives_set_ip f o : points NINODE o -> gives (upd_file f (fun x => x <| f_ip := o |>)) (fun _ => True).
Proof. intros Ho. apply gives_upd_file. by intros x _. Qed.
#[local] Hint Resolve gives_set_ip : safe.

Definition call_safe (o : option (K Z)) : Prop := match o with Some f => gives f (fun _ => True) | None => True end.

Lemma syscalls_safe : Forall call_safe syscalls.
Proof.
  unfold syscalls. repeat apply Forall_cons_2; [..|apply Forall_nil_2]; cbn [call_safe];
  [exact I|unfold sys_fork|unfold sys_exit|unfold sys_wait|unfold sys_pipe|unfold sys_read|unfold sys_kill
  |unfold sys_exec|unfold sys_fstat|unfold sys_chdir|unfold sys_dup|unfold sys_getpid|unfold sys_sbrk
  |unfold sys_sleep|unfold sys_uptime|unfold sys_open|unfold sys_write|unfold sys_mknod|unfold sys_unlink
  |unfold sys_link|unfold sys_mkdir|unfold sys_close|unfold sys_create_container|unfold sys_join_container
  |unfold sys_leave_container|unfold sys_destroy_container|unfold sys_ps|unfold sys_list_containers
  |unfold sys_container_malloc|unfold sys_memory_log_on|unfold sys_memory_log_off|unfold sys_scheduler_log_on
  |unfold sys_scheduler_log_off|unfold sys_getcid]; safe.
  (* The two files of [sys_pipe]. *)
  match goal with H : pair_wf _ |- _ => destruct H end. safe.
Qed.

End sys_safe.

Section theorems.
Context {E : Env} {V : Devices} {D : Disk} `{!DiskSafe D}.

Lemma gives_syscall : gives syscall (fun _ => True).
Proof.
  unfold syscall, set_eax. apply gives_cps. safe_step. apply gives_cps. safe_step. cbv zeta.
  destruct (0 <? _); cbn [mjoin]; [|by safe].
  destruct (syscalls !! _) as [[f|]|] eqn:Hc; cbn; [|by safe..].
  pose proof (Forall_lookup_1 _ _ _ _ syscalls_safe Hc) as Hs. cbn in Hs. safe.
Qed.
#[local] Hint Resolve gives_syscall gives_my_any : safe.

Lemma gives_trap_default tf : gives (trap_default tf) (fun _ => True).
Proof. unfold trap_default, cpuid. safe. Qed.
#[local] Hint Resolve gives_trap_default : safe.
Lemma gives_trap_irq ev tf : gives (trap_irq ev tf) (fun _ => True).
Proof. unfold trap_irq, cpuid. safe. Qed.
Lemma gives_exit_if_killed tf : gives (exit_if_killed tf) (fun _ => True).
Proof. unfold exit_if_killed. safe. Qed.
#[local] Hint Resolve gives_trap_irq gives_exit_if_killed : safe.
Lemma gives_trap ev tf : gives (trap ev tf) (fun _ => True).
Proof. unfold trap. safe. Qed.

Lemma gives_mp_loop n p e i : gives (mp_loop n p e i) (fun _ => True).
Proof.
  revert p i. induction n as [|n IH]; intros p i; cbn [mp_loop]; [by safe|].
  assert (forall cs x, Forall cpu_wf cs -> gives (upd_hw (fun h => h <| h_cpus := cs ++ [new_cpu x] |>)) (fun _ => True)) as Hn.
  { intros cs x Hcs. apply gives_upd_hw. intros h _. cbn. apply Forall_app_2; [done|].
    apply Forall_cons_2; [exact I|apply Forall_nil_2]. }
  assert (gives (get_hw h_cpus) (Forall cpu_wf)) as Hc by (apply gives_gets; by intros s []).
  unfold upd_pf. safe.
Qed.
#[local] Hint Resolve gives_mp_loop : safe.
Lemma gives_mpinit : gives mpinit (fun _ => True).
Proof. unfold mpinit, upd_pf, outb. safe. Qed.
Lemma gives_mpmain n : gives (mpmain n) (fun _ => True).
Proof. unfold mpmain, cpuid, idtinit, upd_pf. safe. Qed.
Lemma gives_startothers : gives startothers (fun _ => True).
Proof. unfold startothers, start_cpu. safe. Qed.
#[local] Hint Resolve gives_mpinit gives_mpmain gives_startothers : safe.
Lemma gives_mpenter n : gives (mpenter n) (fun _ => True).
Proof. unfold mpenter. safe. Qed.
Lemma gives_main n : gives (main n) (fun _ => True).
Proof. unfold main, pinit, tvinit, upd_pf, fileinit. safe. Qed.

Lemma gives_thread_safe {A} (m : K A) : gives m (fun _ => True) -> thread_safe m.
Proof. intros Hm s Hs. eapply outcome_mono; [by apply Hm|]. by intros a s' []. Qed.


End theorems.
