(* ===== verification/User.v ===== *)
(** The user library: ulib.c and printf.c, and the programs cat.c, echo.c, wc.c, kill.c,
    ln.c, mkdir.c, rm.c, zombie.c and init.c.

    A program is a tree of system calls: [Sys c k] makes the call [c] and continues
    with its result.  A call that fills a buffer gives the bytes with its result.
    After [fork] the same tree continues in both processes.  A string is the list
    of its bytes; reading past the end of it reads 0. *)
From S2P Require Import Prelude Kernel Spinlock Console.

(** ** System calls (user.h, usys.S) *)

Inductive call : Set -> Type :=
| Read (fd n : Z) : call (Z * list Z)
| Write (fd : Z) (l : list Z) : call Z
| Open (path : list Z) (mode : Z) : call Z
| Close (fd : Z) : call Z
| Fstat (fd : Z) : call (Z * list Z)
| Dup (fd : Z) : call Z
| Pipe : call (Z * (Z * Z))
| Mknod (path : list Z) (major minor : Z) : call Z
| Mkdir (path : list Z) : call Z
| Chdir (path : list Z) : call Z
| Link (old new : list Z) : call Z
| Unlink (path : list Z) : call Z
| Kill (pid : Z) : call Z
| Fork : call Z
| Exec (path : list Z) (argv : list (list Z)) : call Z
| Wait : call Z
| Sleep (n : Z) : call Z
| Sbrk (n : Z) : call Z
| Getpid : call Z
| Uptime : call Z
| Create_container : call Z
| Leave_container : call Z
| Destroy_container (id : Z) : call Z
| Join_container (id : Z) : call Z
| Ps : call unit
| List_containers : call Z
| Container_malloc (n : Z) : call Z
| Scheduler_log_on : call unit
| Scheduler_log_off : call unit
| Memory_log_on : call unit
| Memory_log_off : call unit
| Getcid : call Z
| Exit : call Empty_set
(* What usertests.c does with addresses and ports of its own choice.  A process that has no
   right to a load, a store or a port is killed, and does not continue. *)
| Load (a : Z) : call Z
| Store (a v : Z) : call unit
| Inb (port : Z) : call Z
| Outb (port v : Z) : call unit
| Trap (num esp : Z) : call Z
| Read_at (fd a n : Z) : call Z
| Link_at (old : list Z) (new : Z) : call Z.

Inductive prog (A : Type) : Type :=
| Ret (a : A)
| Sys {R : Set} (c : call R) (k : R -> prog A)
| Abort (w : stop).
Arguments Ret {A}. Arguments Sys {A R}. Arguments Abort {A}.

#[export] Instance prog_ret : MRet prog := fun A => Ret.
Fixpoint prog_bind_def {A B} (f : A -> prog B) (m : prog A) : prog B :=
  match m with
  | Ret a => f a
  | Sys c k => Sys c (fun r => prog_bind_def f (k r))
  | Abort w => Abort w
  end.
#[export] Instance prog_bind : MBind prog := fun A B f m => prog_bind_def f m.

Definition sys {R : Set} (c : call R) : prog R := Sys c Ret.
Definition exit {A} : prog A := Sys Exit (fun r : Empty_set => match r with end).

(** ** ulib.c *)

(** [*s] *)
Definition chr (s : list Z) : Z := default 0 (head s).

(** The array at [s] after the call. *)
Fixpoint strcpy (s t : list Z) : list Z :=
  match t with
  | c :: t' => if c =? 0 then 0 :: tail s else c :: strcpy (tail s) t'
  | [] => 0 :: tail s
  end.

Fixpoint strcmp (p q : list Z) : Z :=
  match p with
  | c :: p' => if nz c && (c =? chr q) then strcmp p' (tail q) else u8 c - u8 (chr q)
  | [] => - u8 (chr q)
  end.

Fixpoint strlen (s : list Z) : Z :=
  match s with
  | c :: s' => if c =? 0 then 0 else 1 + strlen s'
  | [] => 0
  end.

(** [n] bytes of the array [b] from index [d] on are set, or copied from index [s] of
    the same array, which is how [memmove] is called in this repository. *)
Fixpoint memset (b : list Z) (d : nat) (c : Z) (n : nat) : list Z :=
  match n with
  | O => b
  | S n' => memset (<[d := u8 c]> b) (S d) c n'
  end.
Fixpoint memmove (b : list Z) (d s n : nat) : list Z :=
  match n with
  | O => b
  | S n' => memmove (<[d := default 0 (b !! s)]> b) (S d) (S s) n'
  end.

(** The distance of the character found from [s]. *)
Fixpoint strchr (s : list Z) (c : Z) : option nat :=
  match s with
  | x :: s' => if x =? 0 then None else if x =? c then Some O else S <$> strchr s' c
  | [] => None
  end.

(** The characters stored before the 0; [n] more fit. *)
Fixpoint gets_loop (n : nat) (buf : list Z) : prog (list Z) :=
  match n with
  | O => mret buf
  | S n' =>
      '(cc, l) ← sys (Read 0 1) ;
      if cc <? 1 then mret buf else
      let c := chr l in
      let buf := buf ++ [c] in
      if (c =? 10) || (c =? 13) then mret buf else gets_loop n' buf
  end.
Definition gets (max : Z) : prog (list Z) := gets_loop (Z.to_nat (max - 1)) [].

Definition stat (n : list Z) : prog (Z * list Z) :=
  fd ← sys (Open n 0) ;
  if fd <? 0 then mret (-1, []) else
  r ← sys (Fstat fd) ;
  sys (Close fd) ;;
  mret r.

Fixpoint atoi_loop (n : Z) (s : list Z) : Z :=
  match s with
  | c :: s' => if (48 <=? c) && (c <=? 57) then atoi_loop (i32 (n * 10 + c - 48)) s' else n
  | [] => n
  end.
Definition atoi (s : list Z) : Z := atoi_loop 0 s.

(** ** printf.c *)

Definition putc (fd c : Z) : prog unit := sys (Write fd [u8 c]) ;; mret tt.

Fixpoint put_all (fd : Z) (s : list Z) : prog unit :=
  match s with
  | [] => mret tt
  | c :: s' => putc fd c ;; put_all fd s'
  end.

Definition printint (fd xx base : Z) (sgn : bool) : prog unit :=
  let neg := sgn && (xx <? 0) in
  let x := if neg then u32 (- xx) else u32 xx in
  let buf := digits_rev 32 (cstr "0123456789ABCDEF") x base ++ (if neg then [45] else []) in
  if 16 <? Z.of_nat (length buf) then Abort (Faulted "printint: buf") else
  put_all fd (reverse buf).

(** [pct] is [state == '%'].  An argument that is missing or of another type is read
    from the stack as it is. *)
Fixpoint printf_loop (fd : Z) (fmt : list Z) (pct : bool) (args : list carg) : prog unit :=
  match fmt with
  | [] => mret tt
  | c :: fmt' =>
      if negb pct then
        if c =? 37 then printf_loop fd fmt' true args else putc fd c ;; printf_loop fd fmt' false args
      else if c =? 100 then
        match args with
        | AInt w :: args' => printint fd (i32 w) 10 true ;; printf_loop fd fmt' false args'
        | _ => Abort (Faulted "printf: argument")
        end
      else if (c =? 120) || (c =? 112) then
        match args with
        | AInt w :: args' => printint fd (i32 w) 16 false ;; printf_loop fd fmt' false args'
        | _ => Abort (Faulted "printf: argument")
        end
      else if c =? 115 then
        match args with
        | AStr o :: args' => put_all fd (default (cstr "(null)") o) ;; printf_loop fd fmt' false args'
        | _ => Abort (Faulted "printf: argument")
        end
      else if c =? 99 then
        match args with
        | AInt w :: args' => putc fd w ;; printf_loop fd fmt' false args'
        | _ => Abort (Faulted "printf: argument")
        end
      else if c =? 37 then putc fd c ;; printf_loop fd fmt' false args
      else putc fd 37 ;; putc fd c ;; printf_loop fd fmt' false args
  end.
Definition printf (fd : Z) (fmt : string) (args : list carg) : prog unit := printf_loop fd (cstr fmt) false args.

(** ** Programs

    [rounds] bounds the reads of a program that reads to the end of a file. *)

(** [for(i = 1; i < argc; i++)] over the files of the command line. *)
Fixpoint each_file (f : Z -> list Z -> prog unit) (cannot : string) (files : list (list Z)) : prog unit :=
  match files with
  | [] => mret tt
  | name :: files' =>
      fd ← sys (Open name 0) ;
      if fd <? 0 then printf 1 cannot [AStr (Some name)] ;; exit else
      f fd name ;;
      sys (Close fd) ;;
      each_file f cannot files'
  end.

(** *** cat.c *)

Fixpoint cat (rounds : nat) (fd : Z) : prog unit :=
  match rounds with
  | O => Abort OutOfFuel
  | S rounds' =>
      '(n, buf) ← sys (Read fd 512) ;
      if 0 <? n then
        r ← sys (Write 1 (take (Z.to_nat n) buf)) ;
        if negb (r =? n) then printf 1 "cat: write error
" [] ;; exit else
        cat rounds' fd
      else if n <? 0 then printf 1 "cat: read error
" [] ;; exit
      else mret tt
  end.

Definition cat_main (rounds : nat) (argv : list (list Z)) : prog unit :=
  if (length argv <=? 1)%nat then cat rounds 0 ;; exit else
  each_file (fun fd _ => cat rounds fd) "cat: cannot open %s
" (tail argv) ;;
  exit.

(** *** wc.c *)

Record counts := Counts { wc_l : Z; wc_w : Z; wc_c : Z; wc_inword : bool }.

Definition wc_char (s : counts) (c : Z) : counts :=
  let s := Counts (wc_l s) (wc_w s) (i32 (wc_c s + 1)) (wc_inword s) in
  let s := if c =? 10 then Counts (i32 (wc_l s + 1)) (wc_w s) (wc_c s) (wc_inword s) else s in
  if bool_decide (strchr [32; 13; 9; 10; 11] c <> None) then Counts (wc_l s) (wc_w s) (wc_c s) false
  else if wc_inword s then s
  else Counts (wc_l s) (i32 (wc_w s + 1)) (wc_c s) true.

Fixpoint wc_loop (rounds : nat) (fd : Z) (name : list Z) (s : counts) : prog unit :=
  match rounds with
  | O => Abort OutOfFuel
  | S rounds' =>
      '(n, buf) ← sys (Read fd 512) ;
      if 0 <? n then wc_loop rounds' fd name (foldl wc_char s (take (Z.to_nat n) buf))
      else if n <? 0 then printf 1 "wc: read error
" [] ;; exit
      else printf 1 "%d %d %d %s
" [AInt (wc_l s); AInt (wc_w s); AInt (wc_c s); AStr (Some name)]
  end.

Definition wc (rounds : nat) (fd : Z) (name : list Z) : prog unit := wc_loop rounds fd name (Counts 0 0 0 false).

Definition wc_main (rounds : nat) (argv : list (list Z)) : prog unit :=
  if (length argv <=? 1)%nat then wc rounds 0 [] ;; exit else
  each_file (wc rounds) "wc: cannot open %s
" (tail argv) ;;
  exit.

(** *** echo.c, kill.c, ln.c, mkdir.c, rm.c, zombie.c *)

Fixpoint echo_args (args : list (list Z)) : prog unit :=
  match args with
  | [] => mret tt
  | a :: args' =>
      printf 1 "%s%s" [AStr (Some a); AStr (Some (if decide (args' = []) then [10] else cstr " "))] ;;
      echo_args args'
  end.
Definition echo_main (argv : list (list Z)) : prog unit := echo_args (tail argv) ;; exit.

Fixpoint kill_args (args : list (list Z)) : prog unit :=
  match args with
  | [] => mret tt
  | a :: args' => sys (Kill (atoi a)) ;; kill_args args'
  end.
Definition kill_main (argv : list (list Z)) : prog unit :=
  if (length argv <? 2)%nat then printf 2 "usage: kill pid...
" [] ;; exit else
  kill_args (tail argv) ;;
  exit.

Definition ln_main (argv : list (list Z)) : prog unit :=
  match argv with
  | [_; old; new] =>
      r ← sys (Link old new) ;
      (if r <? 0 then printf 2 "link %s %s: failed
" [AStr (Some old); AStr (Some new)] else mret tt) ;;
      exit
  | _ => printf 2 "Usage: ln old new
" [] ;; exit
  end.

(** The loop of mkdir.c and rm.c, which the first failure ends. *)
Fixpoint until_failure (c : list Z -> call Z) (failed : string) (args : list (list Z)) : prog unit :=
  match args with
  | [] => mret tt
  | a :: args' =>
      r ← sys (c a) ;
      if r <? 0 then printf 2 failed [AStr (Some a)] else until_failure c failed args'
  end.

Definition mkdir_main (argv : list (list Z)) : prog unit :=
  if (length argv <? 2)%nat then printf 2 "Usage: mkdir files...
" [] ;; exit else
  until_failure Mkdir "mkdir: %s failed to create
" (tail argv) ;;
  exit.

Definition rm_main (argv : list (list Z)) : prog unit :=
  if (length argv <? 2)%nat then printf 2 "Usage: rm files...
" [] ;; exit else
  until_failure Unlink "rm: %s failed to delete
" (tail argv) ;;
  exit.

Definition zombie_main : prog unit :=
  pid ← sys Fork ;
  (if 0 <? pid then sys (Sleep 5) ;; mret tt else mret tt) ;;
  exit.

(** *** init.c

    [n] bounds the shells that are started, and the processes waited for. *)
Fixpoint init_wait (n : nat) (pid : Z) : prog unit :=
  match n with
  | O => Abort OutOfFuel
  | S n' =>
      wpid ← sys Wait ;
      if (0 <=? wpid) && negb (wpid =? pid) then printf 1 "zombie!
" [] ;; init_wait n' pid
      else mret tt
  end.

Fixpoint init_loop (n : nat) : prog unit :=
  match n with
  | O => Abort OutOfFuel
  | S n' =>
      printf 1 "init: starting sh
" [] ;;
      pid ← sys Fork ;
      if pid <? 0 then printf 1 "init: fork failed
" [] ;; exit else
      (if pid =? 0 then
         sys (Exec (cstr "sh") [cstr "sh"]) ;;
         printf 1 "init: exec sh failed
" [] ;;
         exit
       else mret tt) ;;
      init_wait n pid ;;
      init_loop n'
  end.

Definition init_main (n : nat) : prog unit :=
  fd ← sys (Open (cstr "console") 2) ;
  (if fd <? 0 then sys (Mknod (cstr "console") 1 1) ;; sys (Open (cstr "console") 2) ;; mret tt else mret tt) ;;
  sys (Dup 0) ;;
  sys (Dup 0) ;;
  init_loop n.

(** ** Sessions

    A run of a program that reads one file, whose contents arrive in the given
    chunks, and otherwise only writes: what it writes, with the descriptors, and
    its result.  A chunk that is larger than the read asked for ends the run. *)
Fixpoint session {A} (m : prog A) (chunks : list (list Z)) : list (Z * list Z) * option A :=
  match m with
  | Ret a => ([], Some a)
  | Abort _ => ([], None)
  | @Sys _ R c k =>
      match c in call R return (R -> list (list Z) -> list (Z * list Z) * option A) -> _ with
      | Read _ n => fun run =>
          match chunks with
          | [] => run (0, []) []
          | l :: rest => if decide (Z.of_nat (length l) <= n) then run (Z.of_nat (length l), l) rest else ([], None)
          end
      | Write fd l => fun run => let '(out, r) := run (Z.of_nat (length l)) chunks in ((fd, l) :: out, r)
      | _ => fun _ => ([], None)
      end (fun r => session (k r))
  end.

(** ** Programs that return

    [under ok m Q]: as long as the system calls of [m] answer as [ok] allows, [m] exits or
    returns a result that satisfies [Q]; it neither faults nor runs out of fuel.
    [returns] allows every answer. *)
Fixpoint under {A} (ok : forall R : Set, call R -> R -> Prop) (m : prog A) (Q : A -> Prop) : Prop :=
  match m with
  | Ret a => Q a
  | Sys c k => forall r, ok _ c r -> under ok (k r) Q
  | Abort _ => False
  end.
Abbreviation returns := (under (fun _ _ _ => True)).

Lemma under_bind {A B} ok (m : prog A) (f : A -> prog B) P Q :
  under ok m P -> (forall a, P a -> under ok (f a) Q) -> under ok (m ≫= f) Q.
Proof. intros Hm Hf. induction m as [a|R c k IH|w]; cbn in *; [by apply Hf|intros r Hr; by apply IH, Hm|done]. Qed.

Lemma under_mono {A} ok (m : prog A) (P Q : A -> Prop) : (forall a, P a -> Q a) -> under ok m P -> under ok m Q.
Proof. intros H Hm. induction m; cbn in *; auto. Qed.

Lemma under_ret {A} ok (a : A) (Q : A -> Prop) : Q a -> under ok (mret a) Q.
Proof. done. Qed.

Lemma under_put_all ok fd l (Q : unit -> Prop) : Q tt -> under ok (put_all fd l) Q.
Proof.
  intros HQ. induction l as [|c l IH]; [done|]. cbn [put_all]. apply (under_bind _ _ _ (fun _ => True)); [by intros ?|done].
Qed.

Lemma under_exit {A} ok (Q : A -> Prop) : under ok exit Q.
Proof. by intros []. Qed.
