(* ===== verification/Grep.v ===== *)
(** grep.c: the regular expression matcher, and the loop that splits its input into
    lines.

    [matches] is the meaning of an expression; the matcher decides it.  [grep] keeps
    the start of an incomplete line at the front of [buf] between two reads. *)
From S2P Require Import Prelude Kernel Spinlock Console User.

(** ** The matcher *)

(** The loop of [matchstar]; [here] is [matchhere] for the rest of the expression. *)
Fixpoint star (here : list Z -> bool) (c : Z) (text : list Z) : bool :=
  if here text then true else
  match text with
  | [] => false
  | x :: text' => if nz x && ((x =? c) || (c =? 46)) then star here c text' else false
  end.

Fixpoint matchhere (re text : list Z) : bool :=
  match re with
  | [] => true
  | c :: re1 =>
      if c =? 0 then true else
      match re1 with
      | 42 :: re2 => star (matchhere re2) c text
      | _ =>
          if (c =? 36) && (chr re1 =? 0) then chr text =? 0
          else if nz (chr text) && ((c =? 46) || (c =? chr text)) then matchhere re1 (tail text)
          else false
      end
  end.

Definition matchstar (c : Z) (re text : list Z) : bool := star (matchhere re) c text.

(** The [do] loop of [match]. *)
Fixpoint match_at (re text : list Z) : bool :=
  if matchhere re text then true else
  match text with
  | [] => false
  | x :: text' => if x =? 0 then false else match_at re text'
  end.

(** [match] *)
Definition match_ (re text : list Z) : bool :=
  if chr re =? 94 then matchhere (tail re) text else match_at re text.

(** ** The loop *)

(** [while((q = strchr(p, '\n')) != 0)]; gives [buf] and [p] after the loop. *)
Fixpoint grep_lines (n : nat) (pattern buf : list Z) (p : nat) : prog (list Z * nat) :=
  match n with
  | O => Abort OutOfFuel
  | S n' =>
      match strchr (drop p buf) 10 with
      | None => mret (buf, p)
      | Some d =>
          let q := (p + d)%nat in
          let buf := <[q := 0]> buf in
          if match_ pattern (drop p buf) then
            let buf := <[q := 10]> buf in
            sys (Write 1 (take (q + 1 - p) (drop p buf))) ;;
            grep_lines n' pattern buf (q + 1)
          else grep_lines n' pattern buf (q + 1)
      end
  end.

(** The array after the bytes [l] were stored at index [m]. *)
Definition stored (m : nat) (l buf : list Z) : list Z := take m buf ++ l ++ drop (m + length l) buf.

Definition GREP_BUF : nat := 1024.

(** A line of [buf] has at most its size, so that its size bounds the inner loop. *)
Fixpoint grep_loop (rounds : nat) (pattern : list Z) (fd : Z) (buf : list Z) (m : nat) : prog (list Z) :=
  match rounds with
  | O => Abort OutOfFuel
  | S rounds' =>
      '(n, l) ← sys (Read fd (Z.of_nat GREP_BUF - Z.of_nat m - 1)) ;
      if 0 <? n then
        let buf := stored m (take (Z.to_nat n) l) buf in
        let m := (m + Z.to_nat n)%nat in
        let buf := <[m := 0]> buf in
        '(buf, p) ← grep_lines (S GREP_BUF) pattern buf 0 ;
        let m := if decide (p = 0%nat) then 0%nat else m in
        if decide (0 < m)%nat then
          let m := (m - p)%nat in
          grep_loop rounds' pattern fd (memmove buf 0 p m) m
        else grep_loop rounds' pattern fd buf m
      else mret buf
  end.

(** [buf] is a static variable. *)
Definition grep (rounds : nat) (pattern : list Z) (fd : Z) (buf : list Z) : prog (list Z) :=
  grep_loop rounds pattern fd buf 0.

Fixpoint grep_files (rounds : nat) (pattern : list Z) (files : list (list Z)) (buf : list Z) : prog unit :=
  match files with
  | [] => mret tt
  | name :: files' =>
      fd ← sys (Open name 0) ;
      if fd <? 0 then printf 1 "grep: cannot open %s
" [AStr (Some name)] ;; exit else
      buf ← grep rounds pattern fd buf ;
      sys (Close fd) ;;
      grep_files rounds pattern files' buf
  end.

Definition grep_main (rounds : nat) (argv : list (list Z)) : prog unit :=
  let buf := replicate GREP_BUF 0 in
  match argv with
  | _ :: pattern :: files =>
      match files with
      | [] => grep rounds pattern 0 buf ;; exit
      | _ => grep_files rounds pattern files buf ;; exit
      end
  | _ => printf 2 "usage: grep pattern [file ...]
" [] ;; exit
  end.

(** ** The meaning of expressions

    [matches re text] says that [re], without a leading caret, matches [text] from
    its first character on. *)
Inductive matches : list Z -> list Z -> Prop :=
| m_nil text : matches [] text
| m_star c re pre post :
    Forall (fun x => x = c \/ c = 46) pre -> matches re post -> matches (c :: 42 :: re) (pre ++ post)
| m_end : matches [36] []
| m_char c re x text :
    head re <> Some 42 -> (c = 36 -> re <> []) -> c = 46 \/ c = x -> matches re text -> matches (c :: re) (x :: text).

Definition nulfree (s : list Z) : Prop := Forall (fun c => c <> 0) s.

Definition re_matches (re text : list Z) : Prop :=
  if chr re =? 94 then matches (tail re) text else exists pre post, text = pre ++ post /\ matches re post.

Lemma star_spec here c text :
  nulfree text ->
  star here c text = true <->
  exists pre post, text = pre ++ post /\ Forall (fun x => x = c \/ c = 46) pre /\ here post = true.
Proof.
  induction 1 as [|x text Hx Ht IH]; cbn [star].
  - split.
    + destruct (here []) eqn:Hh; [|done]. intros _. by exists [], [].
    + intros (pre & post & Heq & _ & Hh). symmetry in Heq. apply app_nil in Heq as [-> ->]. by rewrite Hh.
  - destruct (here (x :: text)) eqn:Hh.
    { split; [|done]. intros _. by exists [], (x :: text). }
    rewrite (proj2 (nz_true x) Hx). cbn [andb]. split.
    + destruct ((x =? c) || (c =? 46)) eqn:Hc; [|done]. intros H. apply IH in H as (pre & post & -> & Hp & Hpost).
      exists (x :: pre), post. split; [done|]. split; [|done]. apply Forall_cons_2; [lia|done].
    + intros ([|y pre] & post & Heq & Hp & Hpost); [cbn in Heq; subst post; congruence|].
      injection Heq as <- Heq. apply Forall_cons in Hp as [Hy Hp].
      assert ((x =? c) || (c =? 46) = true) as -> by lia. apply IH. by exists pre, post.
Qed.

Lemma nulfree_app l l' : nulfree (l ++ l') <-> nulfree l /\ nulfree l'.
Proof. apply Forall_app. Qed.

(** The cases of an expression, as the matcher tells them apart. *)
Lemma matchhere_cases re text :
  matchhere re text =
    match re with
    | [] => true
    | c :: re1 =>
        if c =? 0 then true
        else if bool_decide (head re1 = Some 42) then star (matchhere (tail re1)) c text
        else if (c =? 36) && (chr re1 =? 0) then chr text =? 0
        else nz (chr text) && ((c =? 46) || (c =? chr text)) && matchhere re1 (tail text)
    end.
Proof.
  destruct re as [|c re1]; [done|]. cbn [matchhere]. destruct (c =? 0); [done|].
  destruct (bool_decide (head re1 = Some 42)) eqn:Hb.
  - apply bool_decide_eq_true in Hb. destruct re1 as [|x re2]; [done|]. cbn in Hb. by injection Hb as ->.
  - apply bool_decide_eq_false in Hb.
    transitivity (if (c =? 36) && (chr re1 =? 0) then chr text =? 0
      else if nz (chr text) && ((c =? 46) || (c =? chr text)) then matchhere re1 (tail text) else false).
    + destruct re1 as [|x re2]; [done|]. cbn in Hb. by repeat case_match; simplify_eq.
    + destruct ((c =? 36) && (chr re1 =? 0)); [done|]. by destruct (nz (chr text) && ((c =? 46) || (c =? chr text))).
Qed.

Lemma matchhere_spec n re text :
  (length re < n)%nat -> nulfree re -> nulfree text -> matchhere re text = true <-> matches re text.
Proof.
  revert re text. induction n as [|n IH]; intros re text Hn Hre Ht; [lia|].
  rewrite matchhere_cases. destruct re as [|c re1]; [split; [constructor|done]|].
  pose proof Hre as [Hc Hre1]%Forall_cons. rewrite (proj2 (Z.eqb_neq _ _) Hc). cbn [length] in Hn.
  case_bool_decide as Hs.
  - destruct re1 as [|x re2]; [done|]. cbn in Hs. injection Hs as ->. cbn [tail length] in *. apply Forall_cons in Hre1 as [_ Hre2].
    rewrite star_spec by done. split.
    + intros (pre & post & -> & Hp & Hh). apply nulfree_app in Ht as [_ Ht]. constructor; [done|].
      apply IH; [lia|done..].
    + inversion 1 as [|? ? pre post Hp Hm| |]; subst; [|done]. apply nulfree_app in Ht as [_ Ht].
      exists pre, post. split; [done|]. split; [done|]. apply IH; [lia|done..].
  - assert ((chr re1 =? 0) = bool_decide (re1 = [])) as Hnil.
    { destruct re1 as [|y re2]; [done|]. apply Forall_cons in Hre1 as [Hy _]. by apply Z.eqb_neq. }
    rewrite Hnil. destruct ((c =? 36) && bool_decide (re1 = [])) eqn:Hend.
    + apply andb_true_iff in Hend as [->%Z.eqb_eq ->%bool_decide_eq_true]. destruct text as [|x text]; cbn.
      * split; [constructor|done].
      * apply Forall_cons in Ht as [Hx _]. rewrite (proj2 (Z.eqb_neq _ _) Hx). split; [done|].
        inversion 1; subst. naive_solver.
    + assert (c = 36 -> re1 <> []) as Hend' by (intros -> ->; done).
      destruct text as [|x text].
      * split; [done|]. inversion 1; subst; done.
      * change (chr (x :: text)) with x. cbn [tail]. apply Forall_cons in Ht as [Hx Ht]. rewrite (proj2 (nz_true x) Hx). cbn [andb]. rewrite andb_true_iff, orb_true_iff, !Z.eqb_eq.
        rewrite (IH re1 text) by (done || lia). split; [intros [? ?]; by constructor|].
        inversion 1; subst; [done|naive_solver].
Qed.

Lemma match_at_spec re text :
  nulfree re -> nulfree text -> match_at re text = true <-> exists pre post, text = pre ++ post /\ matches re post.
Proof.
  intros Hre. induction 1 as [|x text Hx Ht IH]; cbn [match_at].
  all: destruct (matchhere re _) eqn:Hm.
  1, 3: split; [|done]; intros _; eexists [], _; split; [done|]; apply (matchhere_spec (S (length re))); [lia|done|by constructor|done].
  - split; [done|]. intros (pre & post & Heq & H). symmetry in Heq. apply app_nil in Heq as [-> ->].
    apply (matchhere_spec (S (length re))) in H; [congruence|lia|done|constructor].
  - rewrite (proj2 (Z.eqb_neq _ _) Hx), IH. split.
    + intros (pre & post & -> & H). by exists (x :: pre), post.
    + intros ([|y pre] & post & Heq & H); [|injection Heq as <- ->; by exists pre, post].
      cbn in Heq. subst post. apply (matchhere_spec (S (length re))) in H; [congruence|lia|done|by constructor].
Qed.

(** C30: The matcher of grep decides its regular expressions: for all strings, it
    returns 1 exactly when the expression, read with the meaning of the operators
    caret, dot, star and dollar, matches the text, at its start when it begins
    with a caret and anywhere in it otherwise.  The backtracking over the length of
    a starred character therefore misses no match, and every call returns. *)
Theorem grep_match_regex re text : nulfree re -> nulfree text -> match_ re text = true <-> re_matches re text.
Proof.
  intros Hre Ht. unfold match_, re_matches. destruct (chr re =? 94); [|by apply match_at_spec].
  apply (matchhere_spec (S (length (tail re)))); [lia| |done]. destruct Hre; [constructor|done].
Qed.

(** ** Lines

    The complete lines of a text, without their newlines, and what follows the last
    newline. *)
Fixpoint lines_of (text : list Z) : list (list Z) * list Z :=
  match text with
  | [] => ([], [])
  | c :: text' =>
      let '(ls, rest) := lines_of text' in
      if c =? 10 then ([] :: ls, rest)
      else match ls with
           | [] => ([], c :: rest)
           | l :: ls' => ((c :: l) :: ls', rest)
           end
  end.

Lemma lines_of_line l text :
  ~ 10 ∈ l -> lines_of (l ++ 10 :: text) = (l :: (lines_of text).1, (lines_of text).2).
Proof.
  induction l as [|c l IH]; intros Hl; cbn [app lines_of].
  - by destruct (lines_of text).
  - apply not_elem_of_cons in Hl as [Hc Hl]. rewrite IH by done. by rewrite (proj2 (Z.eqb_neq _ _)).
Qed.

Lemma lines_of_rest l : ~ 10 ∈ l -> lines_of l = ([], l).
Proof.
  induction l as [|c l IH]; intros Hl; [done|]. cbn [lines_of]. apply not_elem_of_cons in Hl as [Hc Hl].
  rewrite IH by done. by rewrite (proj2 (Z.eqb_neq _ _)).
Qed.

(** A text is a first line and more, or has no newline. *)
Lemma first_line text : (exists l t, text = l ++ 10 :: t /\ ~ 10 ∈ l) \/ ~ 10 ∈ text.
Proof.
  induction text as [|c text [(l & t & -> & Hl)|Hn]]; [right; apply not_elem_of_nil|..].
  all: destruct (decide (c = 10)) as [->|Hc]; [left; eexists [], _; split; [done|apply not_elem_of_nil]|].
  - left. exists (c :: l), t. split; [done|]. by apply not_elem_of_cons.
  - right. by apply not_elem_of_cons.
Qed.

Lemma lines_of_app a b :
  lines_of (a ++ b) = ((lines_of a).1 ++ (lines_of ((lines_of a).2 ++ b)).1, (lines_of ((lines_of a).2 ++ b)).2).
Proof.
  induction a as [a IH] using (induction_ltof1 _ (@length Z)). unfold ltof in IH.
  destruct (first_line a) as [(l & t & -> & Hl)|Hn].
  - rewrite <- (assoc_L (++)). cbn [app]. rewrite !lines_of_line by done. rewrite IH; [done|]. rewrite length_app. cbn. lia.
  - rewrite (lines_of_rest a Hn). cbn. by destruct (lines_of (a ++ b)).
Qed.

Lemma lines_of_length text : (length (lines_of text).2 <= length text)%nat.
Proof.
  induction text as [|c text IH]; [done|]. cbn [lines_of]. destruct (lines_of text) as [[|l ls] rest]; cbn in *;
    destruct (c =? 10); cbn; lia.
Qed.

Lemma lines_of_nulfree text : nulfree text -> nulfree (lines_of text).2.
Proof.
  induction 1 as [|c text Hc Ht IH]; [constructor|]. cbn [lines_of]. destruct (lines_of text) as [[|l ls] rest]; cbn in *;
    destruct (c =? 10); cbn; [done|by constructor|done|done].
Qed.

(** *** Strings in the buffer *)

Lemma strchr_newline l t : nulfree l -> ~ 10 ∈ l -> strchr (l ++ 10 :: t) 10 = Some (length l).
Proof.
  induction 1 as [|c l Hc Hl IH]; intros Hn; [done|]. apply not_elem_of_cons in Hn as [H10 Hn]. cbn [app strchr length].
  rewrite (proj2 (Z.eqb_neq _ _) Hc), (proj2 (Z.eqb_neq c 10)) by done. by rewrite IH.
Qed.

Lemma strchr_none l t : nulfree l -> ~ 10 ∈ l -> strchr (l ++ 0 :: t) 10 = None.
Proof.
  induction 1 as [|c l Hc Hl IH]; intros Hn; [done|]. apply not_elem_of_cons in Hn as [H10 Hn]. cbn [app strchr].
  rewrite (proj2 (Z.eqb_neq _ _) Hc), (proj2 (Z.eqb_neq c 10)) by done. by rewrite IH.
Qed.

(** The matcher does not look past the terminator. *)
Lemma star_nul here c l t :
  (forall l, nulfree l -> here (l ++ 0 :: t) = here l) -> nulfree l -> star here c (l ++ 0 :: t) = star here c l.
Proof.
  intros Hh. induction 1 as [|x l Hx Hl IH].
  - cbn [app star]. change (0 :: t) with ([] ++ 0 :: t). rewrite Hh by constructor. by destruct (here []).
  - cbn [app star]. rewrite app_comm_cons, Hh, IH by by constructor. done.
Qed.

Lemma matchhere_nul n re l t :
  (length re < n)%nat -> nulfree l -> matchhere re (l ++ 0 :: t) = matchhere re l.
Proof.
  revert re l. induction n as [|n IH]; intros re l Hn Hl; [lia|].
  rewrite !matchhere_cases. destruct re as [|c re1]; [done|]. destruct (c =? 0); [done|]. cbn [length] in Hn.
  case_bool_decide; [apply star_nul; [|done]; intros; apply IH; [destruct re1; cbn in *; lia|done]|].
  destruct Hl as [|x l Hx Hl]; [done|]. cbn [app tail]. change (chr (x :: ?l)) with x. by rewrite IH by (lia || done).
Qed.

Lemma match_nul re l t : nulfree l -> match_ re (l ++ 0 :: t) = match_ re l.
Proof.
  intros Hl. unfold match_. destruct (chr re =? 94); [by apply (matchhere_nul (S (length (tail re)))); [lia|]|].
  assert (forall l, nulfree l -> matchhere re (l ++ 0 :: t) = matchhere re l) as Hh by (intros; apply (matchhere_nul (S (length re))); [lia|done]).
  induction Hl as [|x l Hx Hl IH].
  - cbn [app match_at]. change (0 :: t) with ([] ++ 0 :: t). rewrite Hh by constructor. by destruct (matchhere re []).
  - cbn [app match_at]. rewrite app_comm_cons, Hh, IH by by constructor. done.
Qed.

Lemma memmove_down b d s n :
  (d <= s)%nat -> (s + n <= length b)%nat -> memmove b d s n = take d b ++ take n (drop s b) ++ drop (d + n) b.
Proof.
  revert b d s. induction n as [|n IH]; intros b d s Hd Hn; cbn [memmove].
  - rewrite Nat.add_0_r. symmetry. apply take_drop.
  - destruct (lookup_lt_is_Some_2 b s) as [x Hx]; [lia|]. rewrite Hx. cbn [default].
    rewrite IH by (rewrite ?length_insert; lia). rewrite (drop_S b x s) by done. cbn [take].
    rewrite (take_S_r _ _ x) by (apply list_lookup_insert_eq; lia).
    rewrite take_insert_ge, !drop_insert_lt by lia. rewrite <- (assoc_L (++)). cbn [app].
    do 4 f_equal. lia.
Qed.

(** *** Runs *)

(** The lines written, with their newlines. *)
Definition written (pattern : list Z) (ls : list (list Z)) : list (Z * list Z) :=
  map (fun l => (1, l ++ [10])) (filter (fun l => match_ pattern l = true) ls).

Lemma insert_mid (a b : list Z) (x y : Z) : <[length a := y]> (a ++ x :: b) = a ++ y :: b.
Proof. by rewrite insert_app_r_alt, Nat.sub_diag by lia. Qed.

(** [buf] is [done ++ t] and the terminator; the lines of [t] are printed when they match. *)
Lemma grep_lines_run {A} n pattern done t junk (g : list Z * nat -> prog A) chunks :
  nulfree t -> (length t < n)%nat ->
  exists done', session (grep_lines n pattern (done ++ t ++ 0 :: junk) (length done) ≫= g) chunks =
      (let '(out, r) := session (g (done' ++ (lines_of t).2 ++ 0 :: junk, length done')) chunks in
       (written pattern (lines_of t).1 ++ out, r))
    /\ (length done' + length (lines_of t).2 = length done + length t)%nat.
Proof.
  revert done t. induction n as [|n IH]; intros done t Ht Hn; [lia|]. cbn [grep_lines]. rewrite drop_app_length.
  destruct (first_line t) as [(l & t' & -> & Hl)|Hnone].
  - apply nulfree_app in Ht as [Hln Ht]. apply Forall_cons in Ht as [_ Ht']. rewrite length_app in Hn. cbn [length] in Hn.
    rewrite <- !(assoc_L (++)). cbn [app]. rewrite strchr_newline by done.
    set (q := (length done + length l)%nat).
    assert (forall y, <[q := y]> (done ++ l ++ 10 :: t' ++ 0 :: junk) = (done ++ l ++ [y]) ++ t' ++ 0 :: junk) as Hset.
    { intros y. subst q. rewrite <- length_app, (assoc_L (++)), insert_mid. by rewrite <- !(assoc_L (++)). }
    assert (forall y, (q + 1)%nat = length (done ++ l ++ [y])) as Hq.
    { intros y. subst q. rewrite !length_app. cbn. lia. }
    destruct (IH (done ++ l ++ [10]) t' Ht' ltac:(lia)) as (d1 & H1 & Hd1).
    destruct (IH (done ++ l ++ [0]) t' Ht' ltac:(lia)) as (d0 & H0 & Hd0).
    rewrite list_insert_insert_eq, !Hset, lines_of_line by done. cbn [fst snd].
    assert (match_ pattern (drop (length done) ((done ++ l ++ [0]) ++ t' ++ 0 :: junk)) = match_ pattern l) as ->.
    { rewrite <- !(assoc_L (++)), drop_app_length. cbn [app]. by apply match_nul. }
    unfold written. rewrite filter_cons. destruct (match_ pattern l).
    + exists d1. split; [|rewrite !length_app in *; cbn in *; lia]. rewrite decide_True by done.
      assert (take (q + 1 - length done) (drop (length done) ((done ++ l ++ [10]) ++ t' ++ 0 :: junk)) = l ++ [10]) as ->.
      { rewrite (Hq 10), <- !(assoc_L (++)), drop_app_length, length_app, Nat.add_comm, Nat.add_sub.
        by rewrite (assoc_L (++)), take_app_length. }
      rewrite (Hq 10). cbn. unfold mbind, prog_bind in *. rewrite H1. by destruct (session (g _) chunks).
    + exists d0. split; [|rewrite !length_app in *; cbn in *; lia]. rewrite decide_False by done.
      rewrite (Hq 0). exact H0.
  - exists done. rewrite strchr_none, lines_of_rest by done. split; [|done]. cbn. by destruct (session _ _).
Qed.

(** The input in chunks: each holds the end of a line, and fits into [buf] behind the
    incomplete line that the chunk before it left. *)
Fixpoint fits (carry : list Z) (chunks : list (list Z)) : Prop :=
  match chunks with
  | [] => True
  | c :: chunks' =>
      nulfree c /\ 10 ∈ c /\ (length carry + length c < GREP_BUF)%nat /\ fits (lines_of (carry ++ c)).2 chunks'
  end.

Lemma lines_of_shorter text : 10 ∈ text -> (length (lines_of text).2 < length text)%nat.
Proof.
  intros H. destruct (first_line text) as [(l & t & -> & Hl)|Hn]; [|done].
  rewrite lines_of_line by done. pose proof (lines_of_length t). rewrite length_app. cbn. lia.
Qed.

Lemma lines_of_incomplete text : ~ 10 ∈ (lines_of text).2.
Proof.
  induction text as [|c text IH]; [apply not_elem_of_nil|]. cbn [lines_of]. destruct (lines_of text) as [[|l ls] rest]; cbn in *;
    destruct (Z.eqb_spec c 10); cbn; [done|by apply not_elem_of_cons|done|done].
Qed.

(** The buffer after a read. *)
Lemma stored_text buf carry c :
  length buf = GREP_BUF -> take (length carry) buf = carry -> (length carry + length c < GREP_BUF)%nat ->
  exists junk, <[(length carry + length c)%nat := 0]> (stored (length carry) c buf) = (carry ++ c) ++ 0 :: junk
    /\ length ((carry ++ c) ++ 0 :: junk) = GREP_BUF.
Proof.
  intros Hb Hc Hl. unfold stored. rewrite Hc, (assoc_L (++)), <- length_app in *.
  destruct (drop (length (carry ++ c)) buf) as [|x junk] eqn:Hd.
  { apply (f_equal length) in Hd. rewrite length_drop in Hd. cbn in Hd. lia. }
  exists junk. split; [apply insert_mid|]. apply (f_equal length) in Hd. rewrite length_drop in Hd. cbn in Hd.
  rewrite (length_app (carry ++ c)). cbn [length]. lia.
Qed.

(** The buffer after the move of the incomplete line. *)
Lemma moved_rest done rest junk :
  let b := memmove (done ++ rest ++ 0 :: junk) 0 (length done) (length rest) in
  take (length rest) b = rest /\ length b = length (done ++ rest ++ 0 :: junk).
Proof.
  rewrite memmove_down by (rewrite ?length_app; cbn [length]; lia). cbn zeta. rewrite drop_app_length, take_0. cbn [app].
  rewrite take_app_length. split; [by rewrite take_app_length|]. rewrite length_app, length_drop, !length_app. lia.
Qed.

Lemma grep_loop_run pattern fd chunks buf carry :
  length buf = GREP_BUF -> take (length carry) buf = carry -> nulfree carry -> ~ 10 ∈ carry -> fits carry chunks ->
  exists buf', session (grep_loop (S (length chunks)) pattern fd buf (length carry)) chunks
    = (written pattern (lines_of (carry ++ concat chunks)).1, Some buf').
Proof.
  revert buf carry. induction chunks as [|c chunks IH]; intros buf carry Hb Hc Hnul Hno Hf.
  { exists buf. cbn [concat]. by rewrite app_nil_r, lines_of_rest. }
  destruct Hf as (Hcn & H10 & Hlen & Hf).
  change (grep_loop (S (length (c :: chunks)))) with (grep_loop (S (S (length chunks)))).
  remember (S (length chunks)) as rounds eqn:Hrounds. cbn [grep_loop].
  set (body := fun '(n, l) => _). cbn [session sys mbind prog_bind prog_bind_def]. rewrite decide_True by lia. subst body. cbv beta match.
  assert (0 < length c)%nat as Hpos by (destruct c; [by apply not_elem_of_nil in H10|cbn; lia]).
  rewrite (proj2 (Z.ltb_lt _ _)) by lia. rewrite Nat2Z.id, (take_ge c) by lia.
  destruct (stored_text buf carry c Hb Hc Hlen) as (junk & -> & Hlen').
  assert (nulfree (carry ++ c)) as Ht by by apply nulfree_app. assert (10 ∈ carry ++ c) as Ht10 by (apply elem_of_app; by right).
  pose proof (lines_of_shorter _ Ht10) as Hshort. set (t := carry ++ c) in *.
  match goal with |- context [session (_ ≫= ?g) _] =>
    destruct (grep_lines_run (S GREP_BUF) pattern [] t junk g chunks) as (done' & Hrun & Hd) end;
    [done|rewrite length_app in Hlen'; cbn in Hlen'; lia|].
  cbn [app length] in Hrun, Hd. rewrite Hrun. clear Hrun. set (rest := (lines_of t).2) in *.
  rewrite (decide_False (P := length done' = 0%nat)), decide_True by lia.
  assert (length carry + length c - length done' = length rest)%nat as -> by (subst t; rewrite length_app in Hd; lia).
  destruct (moved_rest done' rest junk) as [Hm1 Hm2].
  destruct (IH (memmove (done' ++ rest ++ 0 :: junk) 0 (length done') (length rest)) rest) as (buf' & Hrun);
    [|done|by apply lines_of_nulfree|apply lines_of_incomplete|done|].
  { rewrite Hm2, <- Hlen', !length_app. cbn [length]. lia. }
  exists buf'. rewrite Hrun. cbn [concat]. rewrite (assoc_L (++)), (lines_of_app (carry ++ c) (concat chunks)). fold t rest. cbn [fst].
  unfold written. by rewrite filter_app, map_app.
Qed.

(** C31: grep prints the matching lines.  When every read delivers the end of a line,
    and the chunks fit into the buffer behind the incomplete line kept from the read
    before, grep writes exactly the complete lines of its whole input that match, in
    order and each with its newline, however the input is cut into chunks, the lines
    that span two chunks included. *)
Theorem grep_prints_matches pattern fd chunks buf :
  length buf = GREP_BUF -> fits [] chunks ->
  exists buf', session (grep (S (length chunks)) pattern fd buf) chunks
    = (map (fun l => (1, l ++ [10])) (filter (fun l => match_ pattern l = true) (lines_of (concat chunks)).1), Some buf').
Proof. intros Hb Hf. apply (grep_loop_run pattern fd chunks buf []); [done|done|constructor|apply not_elem_of_nil|done]. Qed.

(** A read without the end of a line is forgotten: the line [abc], arriving as [ab] and
    [c], is not found. *)
Lemma grep_drops_partial_line :
  fst (session (grep 3 (cstr "abc") 0 (replicate GREP_BUF 0)) [cstr "ab"; cstr "c" ++ [10]]) = []
  /\ fst (session (grep 3 (cstr "abc") 0 (replicate GREP_BUF 0)) [cstr "abc" ++ [10]]) = [(1, cstr "abc" ++ [10])].
Proof. by vm_compute. Qed.

(** *** Instances *)

Lemma grep_match_regex_witness : re_matches (cstr "a.*d$") (cstr "xabcd") /\ ~ re_matches (cstr "^b") (cstr "xabcd").
Proof.
  assert (forall s, forallb nz s = true -> nulfree s) as Hn.
  { intros s H. apply Forall_forall. intros c Hc. rewrite forallb_forall in H. apply list_elem_of_In, H in Hc. by apply nz_true. }
  split.
  - apply (grep_match_regex (cstr "a.*d$") (cstr "xabcd")); [apply Hn; reflexivity..|reflexivity].
  - intros H. apply (grep_match_regex (cstr "^b") (cstr "xabcd")) in H; [discriminate H|apply Hn; reflexivity..].
Defined.

Lemma grep_prints_matches_witness :
  exists buf', session (grep 3 (cstr "b") 0 (replicate GREP_BUF 0)) [cstr "ab" ++ [10] ++ cstr "c"; cstr "b" ++ [10]]
    = ([(1, cstr "ab" ++ [10]); (1, cstr "cb" ++ [10])], Some buf').
Proof.
  destruct (grep_prints_matches (cstr "b") 0 [cstr "ab" ++ [10] ++ cstr "c"; cstr "b" ++ [10]] (replicate GREP_BUF 0)) as (b & H).
  - reflexivity.
  - repeat split; try (by repeat constructor); by apply (bool_decide_unpack _); vm_compute.
  - exists b. exact H.
Defined.
