(* ===== verification/Umalloc.v ===== *)
(** umalloc.c: the allocator of the user programs.

    A block is a header of 8 bytes and the units of 8 bytes after it that its [size],
    which counts the header, tells.  The free blocks are linked in a ring in the order
    of their addresses, from the static [base] of size 0.  The memory is modelled as
    the headers at their addresses; the programs write only behind them. *)
From stdpp Require Import sorting.
From S2P Require Import Prelude Kernel Spinlock Console User.

Record header := Header { h_ptr : Z; h_size : Z }.

Record heap := Heap { hp_hdr : gmap Z header; hp_freep : Z }.
#[export] Instance eta_heap : Eta heap := fun h => Heap (hp_hdr h) (hp_freep h).

(** [p->s], [p->s.ptr = v] and [p->s.size = v] *)
Definition hdr (h : heap) (p : Z) : header := default (Header 0 0) (hp_hdr h !! p).
Definition set_ptr (h : heap) (p v : Z) : heap := h <| hp_hdr ::= <[p := Header v (h_size (hdr h p))]> |>.
Definition set_size (h : heap) (p v : Z) : heap := h <| hp_hdr ::= <[p := Header (h_ptr (hdr h p)) v]> |>.

(** [p + n] of a [Header] pointer *)
Definition units (p n : Z) : Z := u32 (p + 8 * n).

(** ** Operations *)

(** The loop of [free]: where the block [bp] belongs. *)
Fixpoint free_find (n : nat) (h : heap) (bp p : Z) : prog Z :=
  match n with
  | O => Abort OutOfFuel
  | S n' =>
      let q := h_ptr (hdr h p) in
      if (p <? bp) && (bp <? q) then mret p
      else if (q <=? p) && ((p <? bp) || (bp <? q)) then mret p
      else free_find n' h bp q
  end.

(** [bp] is joined with the block after it, or linked to it; then [p] with [bp]. *)
Definition join_next (h : heap) (bp p : Z) : heap :=
  if units bp (h_size (hdr h bp)) =? h_ptr (hdr h p) then
    let h := set_size h bp (u32 (h_size (hdr h bp) + h_size (hdr h (h_ptr (hdr h p))))) in
    set_ptr h bp (h_ptr (hdr h (h_ptr (hdr h p))))
  else set_ptr h bp (h_ptr (hdr h p)).
Definition join_prev (h : heap) (bp p : Z) : heap :=
  if units p (h_size (hdr h p)) =? bp then
    let h := set_size h p (u32 (h_size (hdr h p) + h_size (hdr h bp))) in
    set_ptr h p (h_ptr (hdr h bp))
  else set_ptr h p bp.

Definition free (n : nat) (h : heap) (ap : Z) : prog heap :=
  let bp := units ap (-1) in
  p ← free_find n h bp (hp_freep h) ;
  let h := join_next h bp p in
  let h := join_prev h bp p in
  mret (h <| hp_freep := p |>).

(** The result and the heap. *)
Definition morecore (n : nat) (h : heap) (nu : Z) : prog (Z * heap) :=
  let nu := if nu <? 4096 then 4096 else nu in
  r ← sys (Sbrk (i32 (u32 (nu * 8)))) ;
  let p := u32 r in
  if p =? W32 - 1 then mret (0, h) else
  let h := set_size h p nu in
  h ← free n h (units p 1) ;
  mret (hp_freep h, h).

(** The block [p] is handed out, or its end. *)
Definition take_block (h : heap) (prevp p nunits : Z) : Z * heap :=
  let '(p, h) :=
    if h_size (hdr h p) =? nunits then (p, set_ptr h prevp (h_ptr (hdr h p)))
    else
      let h := set_size h p (u32 (h_size (hdr h p) - nunits)) in
      let p := units p (h_size (hdr h p)) in
      (p, set_size h p nunits) in
  (units p 1, h <| hp_freep := prevp |>).

Fixpoint malloc_loop (n : nat) (h : heap) (nunits prevp p : Z) : prog (Z * heap) :=
  match n with
  | O => Abort OutOfFuel
  | S n' =>
      if nunits <=? h_size (hdr h p) then mret (take_block h prevp p nunits)
      else if p =? hp_freep h then
        '(p, h) ← morecore n h nunits ;
        if p =? 0 then mret (0, h) else malloc_loop n' h nunits p (h_ptr (hdr h p))
      else malloc_loop n' h nunits p (h_ptr (hdr h p))
  end.

(** [base] is the address of the static header. *)
Definition malloc (base : Z) (n : nat) (h : heap) (nbytes : Z) : prog (Z * heap) :=
  let nunits := u32 (u32 (nbytes + 8 - 1) / 8 + 1) in
  let '(prevp, h) :=
    if hp_freep h =? 0 then (base, set_size ((set_ptr h base base) <| hp_freep := base |>) base 0)
    else (hp_freep h, h) in
  malloc_loop n h nunits prevp (h_ptr (hdr h prevp)).

(** ** The free list *)

(** The address and the size of a block. *)
Abbreviation blk := (Z * Z)%type.

Definition hd_addr (l : list blk) (e : Z) : Z := match l with [] => e | (a, _) :: _ => a end.

(** The headers of the blocks [l], linked in this order and on to [e]. *)
Fixpoint chain (h : heap) (l : list blk) (e : Z) : Prop :=
  match l with
  | [] => True
  | (a, s) :: l' => hdr h a = Header (hd_addr l' e) s /\ chain h l' e
  end.

(** Blocks between [lo] and [hi], in order and no two of them adjacent. *)
Fixpoint spaced (lo : Z) (l : list blk) (hi : Z) : Prop :=
  match l with
  | [] => lo <= hi
  | (a, s) :: l' => lo < a /\ 0 < s /\ spaced (a + 8 * s) l' hi
  end.

(** The free blocks of the heap are [fl], and all blocks lie below [brk]. *)
Record heap_ok (base : Z) (h : heap) (fl : list blk) (brk : Z) : Prop := HeapOk {
  ho_chain : chain h ((base, 0) :: fl) base;
  ho_spaced : spaced base fl brk;
  ho_freep : hp_freep h ∈ base :: map fst fl;
  ho_base : 0 < base < brk;
  ho_brk : brk <= 0x80000000
}.

Lemma hdr_set_ptr h p v a : hdr (set_ptr h p v) a = if decide (a = p) then Header v (h_size (hdr h p)) else hdr h a.
Proof. unfold hdr at 1, set_ptr. cbn. case_decide; [subst; by rewrite lookup_insert_eq|by rewrite lookup_insert_ne]. Qed.
Lemma hdr_set_size h p v a : hdr (set_size h p v) a = if decide (a = p) then Header (h_ptr (hdr h p)) v else hdr h a.
Proof. unfold hdr at 1, set_size. cbn. case_decide; [subst; by rewrite lookup_insert_eq|by rewrite lookup_insert_ne]. Qed.
Lemma hdr_freep h v a : hdr (h <| hp_freep := v |>) a = hdr h a.
Proof. done. Qed.

Lemma hd_addr_app l1 l2 e : hd_addr (l1 ++ l2) e = hd_addr l1 (hd_addr l2 e).
Proof. by destruct l1 as [|[a s] l1]. Qed.

Lemma chain_app h l1 l2 e : chain h (l1 ++ l2) e <-> chain h l1 (hd_addr l2 e) /\ chain h l2 e.
Proof.
  induction l1 as [|[a s] l1 IH]; cbn [app chain]; [tauto|]. rewrite IH, hd_addr_app. tauto.
Qed.

Lemma hchain_ext h h' l e : (forall a, a ∈ map fst l -> hdr h' a = hdr h a) -> chain h l e -> chain h' l e.
Proof.
  induction l as [|[a s] l IH]; [done|]. cbn [chain map fst]. intros Hh [Ha Hl]. split.
  - rewrite Hh by by left. done.
  - apply IH; [|done]. intros b Hb. apply Hh. by right.
Qed.

Lemma spaced_le lo l hi : spaced lo l hi -> lo <= hi.
Proof. revert lo. induction l as [|[a s] l IH]; intros lo; cbn; [done|]. intros (? & ? & ?%IH). lia. Qed.

Lemma spaced_bounds lo l hi a s : spaced lo l hi -> (a, s) ∈ l -> lo < a /\ 0 < s /\ a + 8 * s <= hi.
Proof.
  revert lo. induction l as [|[b t] l IH]; intros lo; cbn [spaced]; [by intros _ ?%not_elem_of_nil|].
  intros (? & ? & Hl) [[= -> ->]|Hin]%elem_of_cons; [apply spaced_le in Hl; lia|]. apply IH in Hl; [lia|done].
Qed.

Lemma spaced_app lo l1 a s l2 hi :
  spaced lo (l1 ++ (a, s) :: l2) hi <-> spaced lo l1 (a - 1) /\ 0 < s /\ spaced (a + 8 * s) l2 hi.
Proof.
  revert lo. induction l1 as [|[b t] l1 IH]; intros lo; cbn [app spaced].
  - intuition lia.
  - rewrite IH. tauto.
Qed.

Lemma spaced_mono lo l hi lo' hi' : spaced lo l hi -> lo' <= lo -> hi <= hi' -> spaced lo' l hi'.
Proof. revert lo lo'. induction l as [|[a s] l IH]; intros lo lo'; cbn; [lia|]. intros (? & ? & Hl) ? ?. split; [lia|]. split; [done|]. apply (IH _ _ Hl); lia. Qed.

(** The blocks with an address [x]. *)
Definition free_at (l : list blk) (x : Z) : Prop := exists a s, (a, s) ∈ l /\ a <= x < a + 8 * s.

(** The place of a block in the list. *)
Lemma spaced_split lo l hi bp be :
  spaced lo l hi -> lo <= bp -> bp < be <= hi -> (forall x, bp <= x < be -> ~ free_at l x) ->
  exists l1 l2, l = l1 ++ l2 /\ spaced lo l1 bp /\ be <= hd_addr l2 hi.
Proof.
  revert lo. induction l as [|[a s] l IH]; intros lo Hl Hlo Hb Hd; [exists [], []; cbn; split_and!; [done|lia|lia]|].
  destruct Hl as (Ha & Hs & Hl). pose proof (spaced_le _ _ _ Hl). destruct (decide (be <= a)) as [Hbe|Hbe].
  - exists [], ((a, s) :: l). cbn. split_and!; [done|lia|lia].
  - assert (a + 8 * s <= bp) as Hend.
    { destruct (decide (a + 8 * s <= bp)); [done|]. exfalso. apply (Hd (Z.max a bp)); [lia|]. exists a, s. split; [by left|lia]. }
    destruct (IH (a + 8 * s) Hl Hend Hb) as (l1 & l2 & -> & H1 & H2).
    + intros x Hx (b & t & Hin & Hbt). apply (Hd x Hx). exists b, t. split; [by right|done].
    + exists ((a, s) :: l1), l2. cbn [app spaced]. done.
Qed.

(** *** The search of [free] *)

Lemma find_fwd h bp l1 p sp l2 e n :
  chain h (l1 ++ (p, sp) :: l2) e -> StronglySorted Z.lt (map fst (l1 ++ [(p, sp)])) ->
  p < bp -> (bp < hd_addr l2 e \/ l2 = [] /\ e <= p) -> (length l1 < n)%nat ->
  free_find n h bp (hd_addr (l1 ++ [(p, sp)]) e) = mret p.
Proof.
  revert n. induction l1 as [|[a s] l1 IH]; intros n Hc Hs Hp Hq Hn; (destruct n as [|n]; [cbn in Hn; lia|]); cbn [free_find].
  - cbn [app hd_addr]. destruct Hc as [-> _]. cbn [h_ptr]. rewrite (proj2 (Z.ltb_lt p bp) Hp). cbn [andb orb].
    destruct Hq as [Hq|[-> He]].
    + by rewrite (proj2 (Z.ltb_lt _ _) Hq).
    + cbn [hd_addr]. destruct (bp <? e); [done|]. by rewrite (proj2 (Z.leb_le _ _) He).
  - cbn [app hd_addr]. destruct Hc as [-> Hc]. cbn [h_ptr]. cbn [app map fst] in Hs. apply StronglySorted_inv in Hs as [Hs Ha].
    assert (hd_addr (l1 ++ (p, sp) :: l2) e = hd_addr (l1 ++ [(p, sp)]) e) as -> by (by rewrite !hd_addr_app).
    assert (a < hd_addr (l1 ++ [(p, sp)]) e <= p) as Hb.
    { destruct l1 as [|[b t] l1]; cbn [app hd_addr map fst] in *; [apply Forall_cons in Ha as [? _]; lia|].
      apply Forall_cons in Ha as [? _]. apply StronglySorted_inv in Hs as [_ Hf]. rewrite map_app in Hf.
      apply Forall_app in Hf as [_ Hf]. apply Forall_cons in Hf as [? _]. cbn in *. lia. }
    rewrite (proj2 (Z.ltb_ge bp _)) by lia. rewrite andb_false_r. rewrite (proj2 (Z.leb_gt _ a)) by lia. cbn [andb].
    apply IH; [done..|cbn in Hn; lia].
Qed.

Lemma find_wrap h bp l e n :
  chain h l e -> StronglySorted Z.lt (map fst l) -> Forall (Z.lt bp) (map fst l) -> e < bp -> (length l < n)%nat ->
  free_find n h bp (hd_addr l e) = free_find (n - length l) h bp e.
Proof.
  revert n. induction l as [|[a s] l IH]; intros n Hc Hs Hf He Hn; [by rewrite Nat.sub_0_r|].
  destruct n as [|n]; [cbn in Hn; lia|]. cbn [length Nat.sub]. cbn [map fst] in *. apply StronglySorted_inv in Hs as [Hs Ha].
  apply Forall_cons in Hf as [Hbp Hf]. rewrite <- IH; [|apply Hc|done|done|done|cbn in Hn; lia]. clear IH.
  cbn [free_find hd_addr]. destruct Hc as [-> _]. cbn [h_ptr].
  rewrite (proj2 (Z.ltb_ge a bp)) by lia. cbn [andb orb]. destruct l as [|[b t] l]; cbn [hd_addr] in *.
  - rewrite (proj2 (Z.ltb_ge bp e)) by lia. by rewrite andb_false_r.
  - cbn [map fst] in Ha. apply Forall_cons in Ha as [? _]. by rewrite (proj2 (Z.leb_gt b a)) by lia.
Qed.

Lemma spaced_sorted lo l hi : spaced lo l hi -> StronglySorted Z.lt (lo :: map fst l).
Proof.
  revert lo. induction l as [|[a s] l IH]; intros lo; [by repeat constructor|]. cbn [spaced map fst]. intros (Ha & Hs & Hl).
  assert (spaced a l hi) as Hl' by (apply (spaced_mono _ _ _ _ _ Hl); lia). specialize (IH a Hl'). constructor; [done|].
  apply StronglySorted_inv in IH as [_ Hf]. constructor; [done|]. eapply Forall_impl; [exact Hf|]. cbn. lia.
Qed.

Lemma in_addr (a : Z) (l : list blk) : a ∈ map fst l -> exists la s lb, l = la ++ (a, s) :: lb.
Proof. intros ([? s] & -> & Hin)%list_elem_of_fmap. apply list_elem_of_split in Hin as (la & lb & ->). by exists la, s, lb. Qed.

(** [free] finds the last block [p] before [bp], from wherever it starts. *)
Lemma find_spec base h l0 p sp l2 bp n x :
  chain h (l0 ++ (p, sp) :: l2) base -> StronglySorted Z.lt (map fst (l0 ++ (p, sp) :: l2)) ->
  hd_addr (l0 ++ [(p, sp)]) 0 = base -> p < bp -> (l2 <> [] -> bp < hd_addr l2 0) ->
  x ∈ map fst (l0 ++ (p, sp) :: l2) -> (length (l0 ++ (p, sp) :: l2) < n)%nat ->
  free_find n h bp x = mret p.
Proof.
  intros Hc Hs Hbase Hp Hq Hx Hn. rewrite length_app in Hn. cbn [length] in Hn.
  assert (base <= p) as Hbp.
  { destruct l0 as [|[a s] l0]; cbn in Hbase; [lia|]. subst a. cbn in Hs. apply StronglySorted_inv in Hs as [_ Hf].
    rewrite map_app in Hf. apply Forall_app in Hf as [_ Hf]. apply Forall_cons in Hf as [? _]. cbn in *. lia. }
  assert (bp < hd_addr l2 base \/ l2 = [] /\ base <= p) as Hq'.
  { destruct l2 as [|[q t] l2]; [by right|]. left. by apply Hq. }
  assert (forall la lc y, l0 = la ++ lc -> hd_addr (lc ++ [(p, sp)]) base = y -> forall m, (length l0 < m)%nat ->
    free_find m h bp y = mret p) as Hfwd.
  { intros la lc y -> <- m Hm. rewrite length_app in Hm. apply (find_fwd _ _ _ _ _ l2); [|..|done|done|lia].
    - rewrite <- (assoc_L (++)) in Hc. by apply chain_app in Hc as [_ Hc].
    - rewrite <- (assoc_L (++)), map_app in Hs. apply StronglySorted_app_1_r in Hs. rewrite cons_middle, (assoc_L (++)), map_app in Hs.
      by apply StronglySorted_app_1_l in Hs. }
  rewrite cons_middle, (assoc_L (++)), map_app in Hx. apply elem_of_app in Hx as [Hx|Hx].
  - apply in_addr in Hx as (la & s & lb & Hl). destruct (exists_last (l := (x, s) :: lb) ltac:(done)) as (lc & y & Hlc).
    rewrite Hlc, (assoc_L (++)) in Hl. apply app_inj_tail in Hl as [-> <-]. eapply Hfwd; [done| |lia]. by rewrite <- Hlc.
  - apply in_addr in Hx as (la & s & lb & ->). change x with (hd_addr ((x, s) :: lb) base).
    assert (free_find n h bp (hd_addr ((x, s) :: lb) base) = free_find (n - length ((x, s) :: lb)) h bp base) as ->.
    { apply chain_app in Hc as [_ [_ Hc]]. apply chain_app in Hc as [_ Hc].
      rewrite map_app in Hs. apply StronglySorted_app_1_r in Hs. cbn [map fst] in Hs. apply StronglySorted_inv in Hs as [Hs _].
      assert (Forall (Z.lt bp) (map fst (la ++ (x, s) :: lb))) as Hall.
      { destruct (la ++ (x, s) :: lb) as [|[q t] l2] eqn:E; [constructor|]. specialize (Hq ltac:(done)). cbn in Hq.
        cbn [map fst] in *. apply StronglySorted_inv in Hs as [_ Hf]. constructor; [done|].
        eapply Forall_impl; [exact Hf|]. cbn. lia. }
      rewrite map_app in Hs, Hall. apply StronglySorted_app_1_r in Hs. apply Forall_app in Hall as [_ Hall].
      apply find_wrap; [done..|lia|]. rewrite length_app in Hn. cbn in *. lia. }
    apply (Hfwd [] l0); [done| |rewrite length_app in Hn; cbn in *; lia].
    rewrite <- Hbase at 2. by destruct l0 as [|[? ?] ?].
Qed.

(** *** [free] *)

Lemma free_at_cons a s l x : free_at ((a, s) :: l) x <-> a <= x < a + 8 * s \/ free_at l x.
Proof.
  unfold free_at. split.
  - intros (b & t & [[= -> ->]|Hin]%elem_of_cons & Hx); [by left|]. right. by exists b, t.
  - intros [Hx|(b & t & Hin & Hx)]; [exists a, s|exists b, t]; split; [by left|done|by right|done].
Qed.
Lemma free_at_nil x : free_at [] x <-> False.
Proof. split; [|done]. by intros (a & s & ?%not_elem_of_nil & _). Qed.
Lemma free_at_app l1 l2 x : free_at (l1 ++ l2) x <-> free_at l1 x \/ free_at l2 x.
Proof. unfold free_at. setoid_rewrite elem_of_app. naive_solver. Qed.

Lemma spaced_addrs lo l hi a : spaced lo l hi -> a ∈ map fst l -> lo < a < hi.
Proof. intros Hl ([b s] & -> & Hin)%list_elem_of_fmap. pose proof (spaced_bounds _ _ _ _ _ Hl Hin). cbn. lia. Qed.

Lemma hd_addr_le lo l hi : spaced lo l hi -> hd_addr l hi <= hi.
Proof. destruct l as [|[a s] l]; [done|]. intros (? & ? & Hl%spaced_le). cbn. lia. Qed.

Section join.
Context (base brk : Z) (Hbase : 0 < base) (Hbrk : brk <= 0x80000000).

Lemma join_next_spec h bp p k l2 :
  h_ptr (hdr h p) = hd_addr l2 base -> chain h l2 base -> spaced bp l2 brk ->
  h_size (hdr h bp) = k -> 0 < k -> base < bp -> bp + 8 * k <= hd_addr l2 brk -> p <> bp ->
  exists k' l2',
    chain (join_next h bp p) ((bp, k') :: l2') base /\ 0 < k' /\ spaced (bp + 8 * k') l2' brk
    /\ (forall a, a <> bp -> hdr (join_next h bp p) a = hdr h a)
    /\ (forall x, free_at ((bp, k') :: l2') x <-> free_at l2 x \/ bp <= x < bp + 8 * k)
    /\ (length l2' <= length l2)%nat.
Proof.
  intros Hp Hc Hs Hk Hk0 Hb He Hne. pose proof (hd_addr_le _ _ _ Hs). unfold join_next, units. rewrite Hp, Hk.
  rewrite u32_small by lia. assert (forall a, a ∈ map fst l2 -> a <> bp) as Hin.
  { intros a Ha. pose proof (spaced_addrs _ _ _ _ Hs Ha). lia. }
  destruct (Z.eqb_spec (bp + 8 * k) (hd_addr l2 base)) as [E|E].
  - destruct l2 as [|[q sq] l2]; cbn [hd_addr] in *; [lia|]. destruct Hc as [Hq Hc]. destruct Hs as (? & ? & Hs).
    pose proof (spaced_le _ _ _ Hs). exists (k + sq), l2. rewrite Hq. cbn [h_size].
    rewrite (u32_small (k + sq)) by lia. set (h1 := set_size h bp (k + sq)).
    assert (forall a, a <> bp -> hdr h1 a = hdr h a) as Hh1 by (intros; subst h1; by rewrite hdr_set_size, decide_False).
    rewrite (Hh1 p), Hp, (Hh1 q), Hq by lia. cbn [h_ptr].
    split_and!; [split| | | | |].
    + rewrite hdr_set_ptr, decide_True by done. subst h1. by rewrite hdr_set_size, decide_True.
    + apply (hchain_ext h); [|done]. intros a Ha. rewrite hdr_set_ptr, decide_False by (apply Hin; by right). apply Hh1, Hin. by right.
    + lia.
    + replace (bp + 8 * (k + sq)) with (q + 8 * sq) by lia. done.
    + intros a Ha. rewrite hdr_set_ptr, decide_False by done. by apply Hh1.
    + intros x. rewrite !free_at_cons. intuition lia.
    + cbn. lia.
  - exists k, l2. split_and!; [split| | | | |].
    + by rewrite hdr_set_ptr, decide_True, Hk.
    + apply (hchain_ext h); [|done]. intros a Ha. rewrite hdr_set_ptr, decide_False by by apply Hin. done.
    + done.
    + destruct l2 as [|[q sq] l2]; cbn [hd_addr spaced] in *; [lia|]. split; [lia|]. apply Hs.
    + intros a Ha. by rewrite hdr_set_ptr, decide_False.
    + intros x. rewrite free_at_cons. tauto.
    + done.
Qed.

Lemma join_prev_spec h bp l0 p sp k l2 :
  chain h l0 p -> h_size (hdr h p) = sp -> chain h ((bp, k) :: l2) base -> 0 <= sp -> 0 < k ->
  spaced (bp + 8 * k) l2 brk -> 0 <= p -> p + 8 * sp <= bp -> p < bp ->
  (forall a, a ∈ map fst l0 -> a < p) ->
  let l := if p + 8 * sp =? bp then l0 ++ (p, sp + k) :: l2 else l0 ++ [(p, sp)] ++ (bp, k) :: l2 in
  chain (join_prev h bp p) l base /\ (forall a, a <> p -> hdr (join_prev h bp p) a = hdr h a).
Proof.
  intros H0 Hhp [Hb Hc] Hsp Hk Hs Hp He Hlt Hl0. pose proof (spaced_le _ _ _ Hs). cbn zeta.
  cbn [hd_addr] in *. unfold join_prev, units. rewrite Hhp.
  rewrite u32_small by lia.
  assert (forall h', (forall a, a <> p -> hdr h' a = hdr h a) -> chain h' l0 p /\ chain h' l2 base) as Hext.
  { intros h' Hh'. split; (eapply hchain_ext; [|eassumption]); intros a Ha; apply Hh'.
    - specialize (Hl0 a Ha). lia.
    - pose proof (spaced_addrs _ _ _ _ Hs Ha). lia. }
  destruct (Z.eqb_spec (p + 8 * sp) bp) as [E|E].
  - set (h' := set_ptr _ _ _). assert (forall a, a <> p -> hdr h' a = hdr h a) as Hh'.
    { intros a Ha. subst h'. rewrite hdr_set_ptr, decide_False by done. by rewrite hdr_set_size, decide_False. }
    split; [|done]. destruct (Hext h' Hh'). apply chain_app. split; [done|]. split; [|done].
    subst h'. rewrite hdr_set_ptr, decide_True, !hdr_set_size by done. rewrite (decide_True (P := p = p)), (decide_False (P := bp = p)) by lia.
    rewrite Hb. cbn [h_ptr h_size]. rewrite u32_small; [done|lia].
  - set (h' := set_ptr _ _ _). assert (forall a, a <> p -> hdr h' a = hdr h a) as Hh'.
    { intros a Ha. subst h'. by rewrite hdr_set_ptr, decide_False. }
    split; [|done]. destruct (Hext h' Hh'). apply chain_app. split; [done|]. split; [|split].
    + subst h'. by rewrite hdr_set_ptr, decide_True, Hhp.
    + rewrite Hh' by lia. done.
    + done.
Qed.
(** The last block before [bp], which is [base] if there is none, and the list with [bp]. *)
Lemma last_block l1 bp :
  spaced base l1 bp -> base < bp -> exists l0 p sp,
    (base, 0) :: l1 = l0 ++ [(p, sp)] /\ base <= p < bp /\ p + 8 * sp <= bp /\ 0 <= sp
    /\ (forall a, a ∈ map fst l0 -> a < p)
    /\ forall k l2, 0 < k -> spaced (bp + 8 * k) l2 brk -> exists fl,
         (if p + 8 * sp =? bp then l0 ++ (p, sp + k) :: l2 else l0 ++ [(p, sp)] ++ (bp, k) :: l2) = (base, 0) :: fl
         /\ spaced base fl brk /\ (forall x, free_at fl x <-> free_at l1 x \/ free_at ((bp, k) :: l2) x)
         /\ (length fl <= length l1 + S (length l2))%nat /\ p ∈ base :: map fst fl.
Proof.
  intros Hs Hb. destruct l1 as [|[p sp] l1 _] using rev_ind.
  - exists [], base, 0. split_and!; [done|lia|lia|lia|lia|by intros a ?%not_elem_of_nil|]. intros k l2 Hk Hl2. exists ((bp, k) :: l2).
    rewrite (proj2 (Z.eqb_neq _ _)) by lia. cbn [app spaced length]. split_and!; [done|lia|done|done| |lia|by left].
    intros x. rewrite free_at_nil. tauto.
  - apply spaced_app in Hs as (Hs1 & Hsp & Hs). cbn in Hs. pose proof (spaced_le _ _ _ Hs1).
    exists ((base, 0) :: l1), p, sp. split_and!; [done|lia|lia|lia|lia| |].
    { intros a [->|Ha]%elem_of_cons; [cbn; lia|]. pose proof (spaced_addrs _ _ _ _ Hs1 Ha). lia. }
    intros k l2 Hk Hl2. destruct (Z.eqb_spec (p + 8 * sp) bp) as [E|E].
    + exists (l1 ++ (p, sp + k) :: l2). split_and!; [done| | | |].
      * apply spaced_app. split_and!; [done|lia|]. by replace (p + 8 * (sp + k)) with (bp + 8 * k) by lia.
      * intros x. rewrite !free_at_app, !free_at_cons. rewrite free_at_nil. intuition lia.
      * rewrite !length_app. cbn. lia.
      * right. rewrite map_app. apply elem_of_app. right. by left.
    + exists (l1 ++ [(p, sp)] ++ (bp, k) :: l2). split_and!; [done| | | |].
      * apply spaced_app. cbn [spaced]. split_and!; [done|lia|lia|done|done].
      * intros x. rewrite !(assoc_L (++)), (free_at_app (l1 ++ _)). done.
      * rewrite !length_app. cbn. lia.
      * right. rewrite map_app. apply elem_of_app. right. by left.
Qed.
End join.

Lemma free_spec base h fl brk bp k n :
  heap_ok base h fl brk -> base < bp -> 0 < k -> bp + 8 * k <= brk -> h_size (hdr h bp) = k ->
  (forall x, bp <= x < bp + 8 * k -> ~ free_at fl x) -> (length fl + 1 < n)%nat ->
  exists h' fl', free n h (bp + 8) = mret h' /\ heap_ok base h' fl' brk
    /\ (forall x, free_at fl' x <-> free_at fl x \/ bp <= x < bp + 8 * k)
    /\ (length fl' <= S (length fl))%nat
    /\ (forall a, a <> base -> ~ free_at fl a -> a <> bp -> hdr h' a = hdr h a).
Proof.
  intros [Hc Hs Hf Hbase Hbrk] Hb Hk He Hsz Hd Hn. pose proof (spaced_sorted _ _ _ Hs) as Hsort.
  destruct (spaced_split base fl brk bp (bp + 8 * k)) as (l1 & l2 & -> & Hs1 & Hs2); [done|lia|lia|done|].
  destruct (last_block base brk l1 bp Hs1 Hb) as (l0 & p & sp & Hl & Hp & Hpe & Hsp & Hl0 & Hjoin).
  change (base :: map fst (l1 ++ l2)) with (map fst (((base, 0) :: l1) ++ l2)) in Hsort, Hf.
  change ((base, 0) :: l1 ++ l2) with (((base, 0) :: l1) ++ l2) in Hc. rewrite Hl, <- (assoc_L (++)) in Hc, Hsort, Hf.
  assert (spaced bp l2 brk) as Hsb.
  { destruct l2 as [|[q t] l2]; cbn in Hs2 |- *; [lia|]. apply spaced_app in Hs as (_ & ? & ?). split_and!; [lia|done|done]. }
  unfold free, units. assert (u32 (bp + 8 + 8 * -1) = bp) as -> by (rewrite u32_small; lia).
  assert (free_find n h bp (hp_freep h) = mret p) as ->.
  { apply (find_spec base h l0 p sp l2); [done|done| |lia| |done|].
    - rewrite <- Hl. done.
    - destruct l2 as [|[q t] l2]; [done|]. intros _. cbn in Hs2 |- *. lia.
    - apply (f_equal length) in Hl. rewrite !length_app in *. cbn [length] in *. lia. }
  apply chain_app in Hc as [Hc0 [Hcp Hc2]]. cbn [hd_addr app] in *.
  destruct (join_next_spec base brk (proj1 Hbase) Hbrk h bp p k l2) as (k' & l2' & Hjn & Hk' & Hsn & Hfr & Hfree & Hlen);
    [by rewrite Hcp|done..|lia|].
  destruct (Hjoin k' l2' Hk' Hsn) as (fl' & Efl & Hsfl & Hffl & Hlfl & Hpfl).
  destruct (join_prev_spec base brk Hbrk (join_next h bp p) bp l0 p sp k' l2') as (Hch & Hfr2);
    [|by rewrite Hfr, Hcp by lia|done|lia|done|done|lia|lia|lia|done|].
  { apply (hchain_ext h); [|done]. intros a Ha. apply Hfr. specialize (Hl0 a Ha). lia. }
  cbn [app] in Hch. rewrite Efl in Hch. eexists _, fl'. split; [done|]. split_and!.
  - split; [|done|exact Hpfl|done|done]. by apply (hchain_ext (join_prev (join_next h bp p) bp p)).
  - intros x. rewrite Hffl, Hfree, free_at_app. tauto.
  - rewrite length_app. lia.
  - intros a Ha Hna Hne. rewrite hdr_freep, Hfr2, Hfr; [done|done|]. intros ->.
    assert (In (p, sp) ((base, 0) :: l1)) as [[= <- <-]|Hin] by (rewrite Hl; apply in_app_iff; right; by left); [done|].
    apply Hna, free_at_app. left. exists p, sp. split; [by apply list_elem_of_In|].
    destruct (spaced_bounds _ _ _ p sp Hs1) as (? & ? & ?); [by apply list_elem_of_In|lia].
Qed.

(** *** [malloc] *)

Lemma chain_last h l0 x sx l2 e : chain h (l0 ++ [(x, sx)] ++ l2) e -> hdr h x = Header (hd_addr l2 e) sx.
Proof. intros [_ [H _]]%chain_app. done. Qed.

Lemma spaced_cat lo l1 mid l2 hi : spaced lo l1 mid -> spaced mid l2 hi -> spaced lo (l1 ++ l2) hi.
Proof.
  revert lo. induction l1 as [|[a s] l1 IH]; intros lo H1 H2; cbn [app spaced] in *; [by apply (spaced_mono mid l2 hi); [|lia..]|].
  destruct H1 as (? & ? & H1). auto.
Qed.
Lemma spaced_free lo l hi x : spaced lo l hi -> free_at l x -> lo < x < hi.
Proof. intros Hs (a & s & Hin & Hx). pose proof (spaced_bounds _ _ _ _ _ Hs Hin). lia. Qed.

Section take.
Context (base : Z) (h : heap) (f1 f2 : list blk) (p s brk : Z) (Hok : heap_ok base h (f1 ++ (p, s) :: f2) brk).
Context (l0 : list blk) (x sx : Z) (Hl : (base, 0) :: f1 = l0 ++ [(x, sx)]).
Abbreviation fl := (f1 ++ (p, s) :: f2).

Lemma before_after :
  spaced base f1 (p - 1) /\ 0 < s /\ spaced (p + 8 * s) f2 brk /\ p + 8 * s <= brk /\ base < p
  /\ (forall a, a ∈ map fst ((base, 0) :: f1) -> a < p) /\ (forall a, a ∈ map fst f2 -> p + 8 * s < a).
Proof.
  pose proof (proj1 (spaced_app _ _ _ _ _ _) (ho_spaced _ _ _ _ Hok)) as (Hs1 & Hs0 & Hs2).
  pose proof (spaced_le _ _ _ Hs1). pose proof (spaced_le _ _ _ Hs2). split_and!; [done|done|done|lia|lia| |].
  - intros a [->|Ha]%elem_of_cons; [cbn; lia|]. pose proof (spaced_addrs _ _ _ _ Hs1 Ha). lia.
  - intros a Ha. pose proof (spaced_addrs _ _ _ _ Hs2 Ha). lia.
Qed.

Lemma prev_block : x ∈ map fst ((base, 0) :: f1) /\ (forall a, a ∈ map fst l0 -> a < x) /\ sx = h_size (hdr h x).
Proof.
  pose proof (spaced_sorted _ _ _ (ho_spaced _ _ _ _ Hok)) as Hsort. split_and!.
  - rewrite Hl, map_app. apply elem_of_app. right. by left.
  - intros a Ha. change (base :: map fst fl) with (map fst (((base, 0) :: f1) ++ (p, s) :: f2)) in Hsort.
    rewrite Hl, !map_app in Hsort. apply StronglySorted_app_1_l in Hsort.
    apply (StronglySorted_app_1_elem_of _ _ _ _ _ Hsort Ha). by left.
  - pose proof (ho_chain _ _ _ _ Hok) as Hc. change ((base, 0) :: fl) with (((base, 0) :: f1) ++ (p, s) :: f2) in Hc.
    rewrite Hl, <- (assoc_L (++)) in Hc. by rewrite (chain_last _ _ _ _ _ _ Hc).
Qed.

Lemma chain_parts : chain h l0 x /\ chain h ((base, 0) :: f1) p /\ hdr h p = Header (hd_addr f2 base) s /\ chain h f2 base.
Proof.
  pose proof (ho_chain _ _ _ _ Hok) as Hc. change ((base, 0) :: fl) with (((base, 0) :: f1) ++ (p, s) :: f2) in Hc.
  apply chain_app in Hc as [Hc1 [Hcp Hc2]]. split_and!; [|done..]. rewrite Hl in Hc1. by apply chain_app in Hc1 as [? _].
Qed.

(** The whole block is handed out. *)
Lemma take_exact : heap_ok base ((set_ptr h x (hd_addr f2 base)) <| hp_freep := x |>) (f1 ++ f2) brk.
Proof.
  destruct before_after as (Hs1 & Hs0 & Hs2 & _ & _ & Ha1 & Ha2). destruct prev_block as (Hx & Hx0 & Hsx).
  destruct chain_parts as (Hc0 & _ & _ & Hc2). split.
  - change ((base, 0) :: f1 ++ f2) with (((base, 0) :: f1) ++ f2). rewrite Hl, <- (assoc_L (++)). apply chain_app.
    split; [|split]; cbn [app hd_addr].
    + apply (hchain_ext h); [|done]. intros a Ha. rewrite hdr_freep, hdr_set_ptr, decide_False; [done|]. specialize (Hx0 a Ha). lia.
    + by rewrite hdr_freep, hdr_set_ptr, decide_True, <- Hsx.
    + apply (hchain_ext h); [|done]. intros a Ha. rewrite hdr_freep, hdr_set_ptr, decide_False; [done|].
      specialize (Ha2 a Ha). specialize (Ha1 x Hx). lia.
  - apply (spaced_cat _ _ (p - 1)); [done|]. apply (spaced_mono _ _ _ _ _ Hs2); lia.
  - cbn [hp_freep]. change (base :: map fst (f1 ++ f2)) with (map fst (((base, 0) :: f1) ++ f2)). rewrite map_app.
    apply elem_of_app. by left.
  - apply Hok.
  - apply Hok.
Qed.

(** The last [k] units are handed out. *)
Lemma take_end k : 0 < k < s ->
  heap_ok base ((set_size (set_size h p (s - k)) (p + 8 * (s - k)) k) <| hp_freep := x |>) (f1 ++ (p, s - k) :: f2) brk.
Proof.
  intros Hk. destruct before_after as (Hs1 & Hs0 & Hs2 & _ & _ & Ha1 & Ha2). destruct prev_block as (Hx & _ & _).
  destruct chain_parts as (_ & Hc1 & Hcp & Hc2). set (r := p + 8 * (s - k)).
  assert (forall a, a <> p -> a <> r -> hdr (set_size (set_size h p (s - k)) r k) a = hdr h a) as Hfr.
  { intros a Hap Har. by rewrite hdr_set_size, decide_False, hdr_set_size, decide_False. }
  split.
  - change ((base, 0) :: f1 ++ (p, s - k) :: f2) with (((base, 0) :: f1) ++ (p, s - k) :: f2). apply chain_app.
    split; [|split]; cbn [hd_addr].
    + apply (hchain_ext h); [|done]. intros a Ha. rewrite hdr_freep. specialize (Ha1 a Ha). apply Hfr; lia.
    + rewrite hdr_freep, hdr_set_size, decide_False, hdr_set_size, decide_True by lia. by rewrite Hcp.
    + apply (hchain_ext h); [|done]. intros a Ha. rewrite hdr_freep. specialize (Ha2 a Ha). apply Hfr; lia.
  - apply spaced_app. split_and!; [done|lia|]. apply (spaced_mono _ _ _ _ _ Hs2); lia.
  - cbn [hp_freep]. change (base :: map fst (f1 ++ (p, s - k) :: f2)) with (map fst (((base, 0) :: f1) ++ (p, s - k) :: f2)).
    rewrite map_app. apply elem_of_app. by left.
  - apply Hok.
  - apply Hok.
Qed.

Lemma take_block_spec k : 0 < k <= s ->
  let r := p + 8 * (s - k) in
  exists h' fl', take_block h x p k = (r + 8, h') /\ heap_ok base h' fl' brk /\ h_size (hdr h' r) = k /\ base < r
    /\ (forall y, r <= y < r + 8 * k -> free_at fl y)
    /\ (forall y, free_at fl' y <-> free_at fl y /\ ~ r <= y < r + 8 * k)
    /\ (forall a, a <> base -> ~ free_at fl a -> hdr h' a = hdr h a).
Proof.
  intros Hk. destruct before_after as (Hs1 & Hs0 & Hs2 & Hbrk & Hb & Ha1 & Ha2). destruct prev_block as (Hx & _ & _).
  destruct chain_parts as (_ & _ & Hcp & _). pose proof (ho_brk _ _ _ _ Hok). pose proof (ho_base _ _ _ _ Hok).
  assert (forall y, free_at f1 y -> y < p) as Hf1 by (intros y Hy; pose proof (spaced_free _ _ _ _ Hs1 Hy); lia).
  assert (forall y, free_at f2 y -> p + 8 * s < y) as Hf2 by (intros y Hy; pose proof (spaced_free _ _ _ _ Hs2 Hy); lia).
  assert (forall y, p <= y < p + 8 * s -> free_at fl y) as Hfl.
  { intros y Hy. apply free_at_app. right. apply free_at_cons. by left. }
  unfold take_block, units. rewrite Hcp. cbn [h_size h_ptr]. cbn zeta.
  destruct (Z.eqb_spec s k) as [<-|Hne].
  - replace (p + 8 * (s - s)) with p by lia. rewrite u32_small by lia. eexists _, (f1 ++ f2). split; [done|]. split_and!.
    + apply take_exact.
    + specialize (Ha1 x Hx). rewrite hdr_freep, hdr_set_ptr, decide_False by lia. by rewrite Hcp.
    + lia.
    + done.
    + intros y. rewrite !free_at_app, free_at_cons. specialize (Hf1 y). specialize (Hf2 y). intuition lia.
    + intros a Ha Hna. rewrite hdr_freep, hdr_set_ptr, decide_False; [done|]. intros ->. apply Hna.
      apply list_elem_of_fmap in Hx as ([x' t] & -> & [[= -> ->]|Hin]%elem_of_cons); [done|]. apply free_at_app. left.
      exists x', t. split; [done|]. pose proof (spaced_bounds _ _ _ _ _ Hs1 Hin). cbn. lia.
  - rewrite (u32_small (s - k)) by lia. rewrite hdr_set_size, decide_True by done. cbn [h_size].
    set (r := p + 8 * (s - k)). rewrite (u32_small r) by lia. rewrite u32_small by lia. replace (r + 8 * 1) with (r + 8) by lia.
    eexists _, (f1 ++ (p, s - k) :: f2). split; [done|]. split_and!.
    + apply take_end. lia.
    + by rewrite hdr_freep, hdr_set_size, decide_True.
    + lia.
    + intros y Hy. apply Hfl. lia.
    + intros y. rewrite !free_at_app, !free_at_cons. specialize (Hf1 y). specialize (Hf2 y). intuition lia.
    + intros a Ha Hna. assert (~ p <= a < p + 8 * s) by (intros ?; by apply Hna, Hfl).
      rewrite hdr_freep, hdr_set_size, decide_False, hdr_set_size, decide_False by lia. done.
Qed.
End take.

(** [malloc_loop] goes once round the ring from [freep], until a block fits. *)
Section scan.
Context (base : Z) (h : heap) (fl : list blk) (brk k : Z) (Hok : heap_ok base h fl brk) (Hk : 0 < k).
Abbreviation L := ((base, 0) :: fl).
Definition addr (i : nat) : Z := default 0 (fst <$> L !! i).
Definition at_round (j t : nat) : nat := ((j + t) mod length L)%nat.

Lemma ring_next i a s : L !! i = Some (a, s) -> hdr h a = Header (addr (S i mod length L)) s.
Proof.
  intros Hi. pose proof (ho_chain _ _ _ _ Hok) as Hc. rewrite <- (take_drop_middle _ _ _ Hi) in Hc.
  apply chain_app in Hc as [_ [-> _]]. f_equal. apply lookup_lt_Some in Hi. unfold addr.
  destruct (decide (S i = length L)) as [E|E].
  - by rewrite E, Nat.Div0.mod_same, drop_all.
  - rewrite Nat.mod_small by lia. destruct (drop (S i) L) as [|[b t] l] eqn:Hd.
    + apply (f_equal length) in Hd. rewrite length_drop in Hd. cbn in Hd, Hi, E. lia.
    + cbn [hd_addr]. assert (L !! S i = Some (b, t)) as ->; [|done]. rewrite <- (Nat.add_0_r (S i)), <- lookup_drop, Hd. done.
Qed.

Lemma addr_inj i j x y : L !! i = Some x -> L !! j = Some y -> x.1 = y.1 -> i = j.
Proof.
  intros Hi Hj E. pose proof (spaced_sorted _ _ _ (ho_spaced _ _ _ _ Hok)) as Hs.
  change (base :: map fst fl) with (map fst L) in Hs.
  assert (NoDup (map fst L)) as Hn.
  { clear -Hs. induction Hs as [|a l _ IH Hf]; constructor; [|done]. intros Hin.
    apply (proj1 (Forall_forall _ _) Hf) in Hin. lia. }
  apply (NoDup_lookup _ _ _ (x.1) Hn); rewrite list_lookup_fmap; [by rewrite Hi|by rewrite Hj, E].
Qed.

Lemma fits_at i p s : L !! i = Some (p, s) -> k <= s -> exists f1 f2 l0 x sx,
  fl = f1 ++ (p, s) :: f2 /\ (base, 0) :: f1 = l0 ++ [(x, sx)] /\ i <> O /\ L !! pred i = Some (x, sx).
Proof.
  intros Hi Hs. destruct i as [|i]; [cbn in Hi; injection Hi as <- <-; lia|]. cbn [pred].
  destruct (lookup_lt_is_Some_2 L i) as [[x sx] Hx]; [apply lookup_lt_Some in Hi; lia|].
  exists (take i fl), (drop (S i) fl), (take i L), x, sx. split_and!; [| |done..].
  - symmetry. by apply take_drop_middle.
  - change ((base, 0) :: take i fl) with (take (S i) L). by apply take_S_r.
Qed.

Lemma round_all (P : blk -> Prop) j :
  (forall t b, (1 <= t <= length L)%nat -> L !! at_round j t = Some b -> P b) -> Forall P L.
Proof.
  intros H. apply Forall_lookup. intros i b Hi. pose proof (lookup_lt_Some _ _ _ Hi) as Hlt.
  assert (exists t, (1 <= t <= length L)%nat /\ at_round j t = i) as (t & Ht & E).
  { unfold at_round. pose proof (Nat.mod_upper_bound j (length L) ltac:(cbn; lia)). set (d := (j mod length L)%nat) in *.
    exists (if decide (d < i) then i - d else length L - d + i)%nat.
    rewrite <- Nat.Div0.add_mod_idemp_l. fold d. case_decide.
    - split; [lia|]. rewrite Nat.mod_small; lia.
    - split; [lia|]. replace (d + (length L - d + i))%nat with (i + 1 * length L)%nat by lia.
      rewrite Nat.Div0.mod_add, Nat.mod_small; lia. }
  apply (H t); [done|by rewrite E].
Qed.

Lemma at_round_S j t : at_round j (S t) = (S (at_round j t) mod length L)%nat.
Proof.
  unfold at_round. rewrite <- (Nat.add_1_r ((j + t) mod _)), Nat.Div0.add_mod_idemp_l. f_equal. lia.
Qed.

Lemma at_round_pred j t : (1 <= t)%nat -> at_round j t <> O -> at_round j (pred t) = pred (at_round j t).
Proof.
  intros Ht Hn. destruct t as [|t]; [lia|]. cbn [pred]. rewrite at_round_S in *.
  pose proof (Nat.mod_upper_bound (j + t) (length L) ltac:(cbn; lia)) as Hb. fold (at_round j t) in Hb.
  destruct (decide (S (at_round j t) = length L)) as [E|E].
  - rewrite E, Nat.Div0.mod_same in Hn. done.
  - rewrite Nat.mod_small by lia. done.
Qed.

Lemma addr_at i b : L !! i = Some b -> addr i = b.1.
Proof. intros Hi. unfold addr. by rewrite Hi. Qed.

Lemma scan_round (Q : prog (Z * heap) -> Prop) j sf :
  (forall f1 p s f2 l0 x sx, fl = f1 ++ (p, s) :: f2 -> (base, 0) :: f1 = l0 ++ [(x, sx)] -> k <= s ->
    Q (mret (take_block h x p k))) ->
  L !! j = Some (hp_freep h, sf) ->
  forall d t n, (t + d = length L)%nat -> (1 <= t)%nat ->
  (forall t' b, (1 <= t' < t)%nat -> L !! at_round j t' = Some b -> b.2 < k) ->
  (forall n', (n <= n' + S d)%nat -> Forall (fun b => b.2 < k) L ->
    Q ('(p, h) ← morecore (S n') h k ;
       if p =? 0 then mret (0, h) else malloc_loop n' h k p (h_ptr (hdr h p)))) ->
  (d < n)%nat -> Q (malloc_loop n h k (addr (at_round j (pred t))) (addr (at_round j t))).
Proof.
  intros Hfit Hj d. assert (length L <> 0%nat) as Hlen by (cbn; lia).
  induction d as [d IH] using lt_wf_ind. intros t n Ht Ht1 Hseen Hmore Hn. destruct n as [|n]; [lia|].
  destruct (lookup_lt_is_Some_2 L (at_round j t)) as [[p s] Hp]; [by apply Nat.mod_upper_bound|].
  pose proof (ring_next _ _ _ Hp) as Hhp. rewrite (addr_at _ _ Hp). cbn [fst malloc_loop]. rewrite Hhp. cbn [h_size h_ptr].
  destruct (Z.leb_spec k s) as [Hs|Hs].
  { destruct (fits_at _ _ _ Hp Hs) as (f1 & f2 & l0 & x & sx & Hf & Hl & Hi & Hx). rewrite (at_round_pred _ _ Ht1 Hi), (addr_at _ _ Hx).
    by apply (Hfit f1 p s f2 l0 x sx). }
  assert (forall t' b, (1 <= t' <= t)%nat -> L !! at_round j t' = Some b -> b.2 < k) as Hseen'.
  { intros t' b Ht' Hb. destruct (decide (t' = t)) as [->|]; [by simplify_eq|]. apply (Hseen t'); [lia|done]. }
  destruct (Z.eqb_spec p (hp_freep h)) as [E|E].
  - assert (d = O) as ->.
    { assert (at_round j t = j) as Ej by (by apply (addr_inj _ _ (p, s) (hp_freep h, sf))).
      apply lookup_lt_Some in Hj. unfold at_round in Ej. destruct (decide (j + t < length L)%nat) as [Hlt|Hge].
      - rewrite Nat.mod_small in Ej by lia. lia.
      - replace (j + t)%nat with (j + t - length L + 1 * length L)%nat in Ej by lia.
        rewrite Nat.Div0.mod_add, Nat.mod_small in Ej; lia. }
    apply Hmore; [lia|]. apply (round_all _ j). intros t' b Ht'. apply Hseen'. lia.
  - destruct d as [|d].
    { exfalso. apply E. assert (at_round j t = j) as Ej.
      { apply lookup_lt_Some in Hj. unfold at_round. replace t with (1 * length L)%nat by lia. by rewrite Nat.Div0.mod_add, Nat.mod_small. }
      rewrite Ej in Hp. by simplify_eq. }
    rewrite <- at_round_S. change p with (p, s).1. rewrite <- (addr_at _ _ Hp). apply (IH d ltac:(lia) (S t)); [lia|lia| |intros n' Hn'; apply Hmore; lia|lia].
    intros t' b Ht'. apply Hseen'. lia.
Qed.

Lemma scan_spec (Q : prog (Z * heap) -> Prop) n :
  (forall f1 p s f2 l0 x sx, fl = f1 ++ (p, s) :: f2 -> (base, 0) :: f1 = l0 ++ [(x, sx)] -> k <= s ->
    Q (mret (take_block h x p k))) ->
  (forall n', (n <= n' + S (length fl))%nat -> Forall (fun b => b.2 < k) L ->
    Q ('(p, h) ← morecore (S n') h k ;
       if p =? 0 then mret (0, h) else malloc_loop n' h k p (h_ptr (hdr h p)))) ->
  (length fl < n)%nat -> Q (malloc_loop n h k (hp_freep h) (h_ptr (hdr h (hp_freep h)))).
Proof.
  intros Hfit Hmore Hn. pose proof (ho_freep _ _ _ _ Hok) as Hf. change (base :: map fst fl) with (map fst L) in Hf.
  apply in_addr in Hf as (la & sf & lb & HL). assert (L !! length la = Some (hp_freep h, sf)) as Hj by (by rewrite HL, list_lookup_middle).
  pose proof (scan_round Q (length la) sf Hfit Hj (length fl) 1 n) as H. cbn [pred] in H.
  rewrite (ring_next _ _ _ Hj). cbn [h_ptr].
  assert (at_round (length la) 0 = length la) as E0.
  { unfold at_round. rewrite Nat.add_0_r. apply Nat.mod_small. by eapply lookup_lt_Some. }
  rewrite (at_round_S _ 0), E0, (addr_at _ _ Hj) in H. apply H; [done|lia|lia|exact Hmore|done].
Qed.
End scan.

(** *** The answers of the kernel *)

(** [sbrk(n)] fails or gives [n] bytes at or above [brk], the end of the memory the
    allocator has so far, in the lower half of the address space. *)
Definition sbrk_ok (brk : Z) (R : Set) (c : call R) : R -> Prop :=
  match c in call R return R -> Prop with
  | Sbrk n => fun r => r = -1 \/ brk <= r /\ r + n <= 0x80000000
  | _ => fun _ => True
  end.

Lemma spaced_gap lo l hi a s : spaced lo l hi -> (a, s) ∈ l -> ~ free_at l (a + 8 * s).
Proof.
  revert lo. induction l as [|[b t] l IH]; intros lo; cbn [spaced]; [by intros _ ?%not_elem_of_nil|].
  intros (Hb & Ht & Hl) Hin. rewrite free_at_cons. apply elem_of_cons in Hin as [[= -> ->]|Hin].
  - intros [?|Hf]; [lia|]. pose proof (spaced_free _ _ _ _ Hl Hf). lia.
  - pose proof (spaced_bounds _ _ _ _ _ Hl Hin). intros [?|Hf]; [lia|]. by apply (IH _ Hl Hin).
Qed.

(** A range of free addresses lies in one block. *)
Lemma spaced_block lo l hi bp be :
  spaced lo l hi -> bp < be -> (forall x, bp <= x < be -> free_at l x) ->
  exists a s, (a, s) ∈ l /\ a <= bp /\ be <= a + 8 * s.
Proof.
  intros Hl Hb Hf. destruct (Hf bp ltac:(lia)) as (a & s & Hin & Ha). exists a, s. split; [done|]. split; [lia|].
  destruct (decide (be <= a + 8 * s)); [done|]. destruct (spaced_gap _ _ _ _ _ Hl Hin). apply Hf. lia.
Qed.

(** The pointer [p] handed out: to the block [r] of [k] units, which is taken from the
    free blocks and from new memory. *)
Definition hands_out (base : Z) (h : heap) (fl : list blk) (brk k p : Z) (h' : heap) : Prop :=
  exists r fl' brk', p = r + 8 /\ brk <= brk' /\ heap_ok base h' fl' brk' /\ h_size (hdr h' r) = k
    /\ base < r /\ r + 8 * k <= brk'
    /\ (forall y, r <= y < r + 8 * k -> free_at fl y \/ brk <= y)
    /\ (forall y, free_at fl' y -> (free_at fl y \/ brk <= y) /\ ~ r <= y < r + 8 * k)
    /\ (forall a, a <> base -> a < brk -> ~ free_at fl a -> hdr h' a = hdr h a).

Definition allocates (base : Z) (h : heap) (fl : list blk) (brk k : Z) (res : Z * heap) : Prop :=
  res.1 = 0 /\ res.2 = h \/ hands_out base h fl brk k res.1 res.2.

Lemma fit_hands_out base h f1 p s f2 brk l0 x sx k :
  heap_ok base h (f1 ++ (p, s) :: f2) brk -> (base, 0) :: f1 = l0 ++ [(x, sx)] -> 0 < k <= s ->
  hands_out base h (f1 ++ (p, s) :: f2) brk k (take_block h x p k).1 (take_block h x p k).2.
Proof.
  intros Hok Hl Hk. destruct (take_block_spec _ _ _ _ _ _ _ Hok _ _ _ Hl k Hk) as (h' & fl' & -> & Hok' & Hsz & Hb & Hin & Hfr & Hh).
  exists (p + 8 * (s - k)), fl', brk. pose proof (proj1 (spaced_app _ _ _ _ _ _) (ho_spaced _ _ _ _ Hok)) as (_ & _ & ?%spaced_le).
  split_and!; [done|lia|done|done|done|lia|auto| |auto]. intros y. rewrite Hfr. intuition.
Qed.

(** [morecore] adds a block that fits. *)
Lemma morecore_spec base h fl brk k n :
  heap_ok base h fl brk -> 0 < k < 0x10000000 -> (length fl + 1 < n)%nat ->
  under (sbrk_ok brk) (morecore n h k) (fun '(p, h') => p = 0 /\ h' = h \/
    exists fl' brk', p = hp_freep h' /\ p <> 0 /\ brk <= brk' /\ heap_ok base h' fl' brk' /\ (length fl' <= S (length fl))%nat
      /\ (exists a s, (a, s) ∈ fl' /\ k <= s)
      /\ (forall y, free_at fl' y -> free_at fl y \/ brk <= y)
      /\ (forall a, a <> base -> a < brk -> ~ free_at fl a -> hdr h' a = hdr h a)).
Proof.
  intros Hok Hk Hn. unfold morecore. set (nu := if k <? 4096 then 4096 else k).
  assert (k <= nu /\ 4096 <= nu < 0x10000000) as Hnu by (subst nu; destruct (Z.ltb_spec k 4096); lia).
  unfold sys. cbn [mbind prog_bind prog_bind_def under]. intros r Hr. unfold sbrk_ok in Hr. rewrite u32_small, i32_small in Hr by lia. pose proof Hok as [Hc Hs Hf Hbase Hbrk].
  pose proof (spaced_le _ _ _ Hs). destruct Hr as [->|Hr].
  { cbn. by left. }
  rewrite (u32_small r) by lia. rewrite (proj2 (Z.eqb_neq r _)) by (unfold W32; lia).
  set (h1 := set_size h r nu). assert (forall a, a <> r -> hdr h1 a = hdr h a) as Hh1 by (intros; subst h1; by rewrite hdr_set_size, decide_False).
  assert (forall x, free_at fl x -> x < brk) as Hlt by (intros x Hx; pose proof (spaced_free _ _ _ _ Hs Hx); lia).
  assert (heap_ok base h1 fl (r + nu * 8)) as Hok1.
  { split; [|apply (spaced_mono _ _ _ _ _ Hs); lia|done|lia|lia]. apply (hchain_ext h); [|done].
    intros a Ha. apply Hh1. apply elem_of_cons in Ha as [->|Ha]; [cbn; lia|]. pose proof (spaced_addrs _ _ _ _ Hs Ha). lia. }
  unfold units. rewrite u32_small by lia. replace (r + 8 * 1) with (r + 8) by lia.
  destruct (free_spec base h1 fl (r + nu * 8) r nu n) as (h2 & fl2 & -> & Hok2 & Hfree & Hlen & Hfr);
    [done|lia|lia|lia|subst h1; by rewrite hdr_set_size, decide_True|intros x Hx Hfx; specialize (Hlt x Hfx); lia|done|].
  cbn [mbind prog_bind prog_bind_def]. right. exists fl2, (r + nu * 8). split_and!.
  - done.
  - pose proof (ho_freep _ _ _ _ Hok2) as [->|Hin]%elem_of_cons; [lia|]. pose proof (spaced_addrs _ _ _ _ (ho_spaced _ _ _ _ Hok2) Hin). lia.
  - lia.
  - done.
  - done.
  - destruct (spaced_block base fl2 (r + nu * 8) r (r + 8 * nu)) as (a & s & Hin & Ha); [apply Hok2|lia| |exists a, s; split; [done|lia]].
    intros x Hx. apply Hfree. by right.
  - intros y Hy. apply Hfree in Hy as [Hy|Hy]; [by left|right; lia].
  - intros a Ha Hab Hna. rewrite Hfr, Hh1 by first [done|lia]. done.
Qed.

Lemma malloc_loop_spec base h fl brk k n :
  heap_ok base h fl brk -> 0 < k < 0x10000000 -> (2 * length fl + 6 <= n)%nat ->
  under (sbrk_ok brk) (malloc_loop n h k (hp_freep h) (h_ptr (hdr h (hp_freep h)))) (allocates base h fl brk k).
Proof.
  intros Hok Hk Hn. apply (scan_spec base h fl brk k Hok ltac:(lia) (fun m => under (sbrk_ok brk) m (allocates base h fl brk k))); [| |lia].
  - intros f1 p s f2 l0 x sx -> Hl Hs. apply under_ret. right. apply (fit_hands_out _ _ _ _ _ _ _ l0 x sx); [done|done|lia].
  - intros n' Hn' _. eapply under_bind; [apply (morecore_spec base h fl brk); [done|lia|lia]|].
    intros [p h1] [[-> ->]|(fl1 & brk1 & -> & Hp & Hb1 & Hok1 & Hlen & (a & s & Hin & Hs) & Hfree & Hfr)]; [by left|].
    rewrite (proj2 (Z.eqb_neq _ _) Hp).
    apply (scan_spec base h1 fl1 brk1 k Hok1 ltac:(lia) (fun m => under (sbrk_ok brk) m (allocates base h fl brk k))); [| |lia].
    + intros f1 q t f2 l0 x sx -> Hl Ht. apply under_ret. right.
      destruct (fit_hands_out _ _ _ _ _ _ _ l0 x sx k Hok1 Hl ltac:(lia)) as (r & fl' & brk' & Hr & Hb & Hok' & Hsz & Hbr & He & Hin1 & Hfr1 & Hh1).
      exists r, fl', brk'. split_and!; [done|lia|done..| | |].
      * intros y Hy. destruct (Hin1 y Hy) as [Hy'|Hy']; [auto|right; lia].
      * intros y Hy. destruct (Hfr1 y Hy) as [[Hy'|Hy'] ?]; (split; [|done]); [auto|right; lia].
      * intros b Hbb Hlt Hnb. rewrite Hh1, Hfr; [done|done|done|done|done|lia|]. intros Hfb. apply Hfree in Hfb as [Hfb|?]; [done|lia].
    + intros n2 _ Hall. apply Forall_cons in Hall as [_ Hall]. apply (proj1 (Forall_forall _ _) Hall) in Hin. cbn in Hin. lia.
Qed.

(** ** The blocks in use *)

(** [live] has the blocks handed out, by the addresses of their headers. *)
Record heap_inv (base : Z) (h : heap) (fl : list blk) (live : gmap Z Z) (brk : Z) : Prop := HeapInv {
  hi_heap : heap_ok base h fl brk \/ hp_freep h = 0 /\ fl = [] /\ live = ∅ /\ 0 < base < brk /\ brk <= 0x80000000;
  hi_live : forall a k, live !! a = Some k -> base < a /\ 0 < k /\ a + 8 * k <= brk /\ h_size (hdr h a) = k;
  hi_free : forall a k x, live !! a = Some k -> a <= x < a + 8 * k -> ~ free_at fl x;
  hi_disjoint : forall a k b j, live !! a = Some k -> live !! b = Some j -> a <> b -> a + 8 * k <= b \/ b + 8 * j <= a
}.

Lemma initial_heap_ok base h brk :
  0 < base < brk -> brk <= 0x80000000 ->
  heap_ok base (set_size ((set_ptr h base base) <| hp_freep := base |>) base 0) [] brk.
Proof.
  intros Hb Hbrk. split; [|cbn; lia|by left|done|done]. split; [|done]. rewrite hdr_set_size, decide_True, hdr_freep, hdr_set_ptr, decide_True by done. done.
Qed.

(** The heap [malloc] searches: the ring is made on the first call. *)
Lemma malloc_ring base h fl live brk n nbytes :
  heap_inv base h fl live brk -> exists h1, heap_ok base h1 fl brk /\ heap_inv base h1 fl live brk
    /\ malloc base n h nbytes =
       malloc_loop n h1 (u32 (u32 (nbytes + 8 - 1) / 8 + 1)) (hp_freep h1) (h_ptr (hdr h1 (hp_freep h1))).
Proof.
  intros Hi. pose proof Hi as [[Hok|(Hf & -> & -> & Hb & Hbrk)] Hl Hfr Hd].
  - exists h. split_and!; [done|done|]. unfold malloc. rewrite (proj2 (Z.eqb_neq _ _)); [done|].
    pose proof (ho_base _ _ _ _ Hok). pose proof (ho_freep _ _ _ _ Hok) as [->|Hin]%elem_of_cons; [lia|].
    pose proof (spaced_addrs _ _ _ _ (ho_spaced _ _ _ _ Hok) Hin). lia.
  - pose proof (initial_heap_ok base h brk Hb Hbrk) as Hok. eexists. split_and!; [exact Hok| |].
    + split; [by left|by intros *; rewrite lookup_empty..].
    + unfold malloc. rewrite Hf. done.
Qed.

(** The request in units is enough, and does not wrap. *)
Lemma nunits_bound nbytes : 0 <= nbytes <= 0x7ffffff0 ->
  let k := u32 (u32 (nbytes + 8 - 1) / 8 + 1) in 0 < k < 0x10000000 /\ nbytes + 8 <= 8 * k.
Proof.
  intros Hn. cbn zeta. pose proof (Z.div_mod (nbytes + 8 - 1) 8 ltac:(lia)) as E.
  pose proof (Z.mod_pos_bound (nbytes + 8 - 1) 8 ltac:(lia)). rewrite (u32_small (nbytes + 8 - 1)) by lia. rewrite u32_small; lia.
Qed.

Lemma hands_out_inv base h fl live brk k p h' :
  heap_ok base h fl brk -> heap_inv base h fl live brk -> 0 < k -> hands_out base h fl brk k p h' ->
  exists fl' brk', live !! (p - 8) = None /\ brk <= brk' /\ heap_inv base h' fl' (<[p - 8 := k]> live) brk'.
Proof.
  intros Hok [_ Hl Hfr Hd] Hk (r & fl' & brk' & -> & Hb & Hok' & Hsz & Hbr & He & Hin & Hfree & Hh).
  replace (r + 8 - 8) with r by lia.
  assert (forall a j x, live !! a = Some j -> a <= x < a + 8 * j -> ~ r <= x < r + 8 * k) as Hnew.
  { intros a j x Ha Hx Hrx. destruct (Hl a j Ha) as (_ & _ & ? & _). destruct (Hin x Hrx) as [Hf|?]; [by apply (Hfr a j x)|lia]. }
  exists fl', brk'. assert (live !! r = None) as Hr.
  { destruct (live !! r) as [j|] eqn:Ej; [|done]. destruct (Hl r j Ej). destruct (Hnew r j r Ej); lia. }
  split; [done|]. split; [done|]. split; [by left| | |].
  - intros a j [[<- <-]|[Hne Ha]]%lookup_insert_Some; [done|]. destruct (Hl a j Ha) as (? & ? & ? & <-). split_and!; [done|done|lia|].
    rewrite Hh; [done|lia|lia|]. intros Hf. apply (Hfr a _ a Ha); [lia|done].
  - intros a j x [[<- <-]|[Hne Ha]]%lookup_insert_Some Hx Hf; apply Hfree in Hf as [Hf Hn]; [done|].
    destruct (Hl a j Ha) as (_ & _ & ? & _). destruct Hf as [Hf|?]; [by apply (Hfr a j x)|lia].
  - assert (forall a j, live !! a = Some j -> a + 8 * j <= r \/ r + 8 * k <= a) as Hsep.
    { intros a j Ha. destruct (Hl a j Ha) as (_ & ? & _). destruct (decide (a + 8 * j <= r)); [by left|].
      destruct (decide (r + 8 * k <= a)); [by right|]. exfalso. apply (Hnew a j (Z.max a r) Ha); lia. }
    intros a j b i [[<- <-]|[Hna Ha]]%lookup_insert_Some [[<- <-]|[Hnb Hb']]%lookup_insert_Some Hne; [done| | |by apply (Hd a j b i)].
    + destruct (Hsep b i Hb'); [by right|by left].
    + by apply Hsep.
Qed.

(** C18: the user allocator.  In [heap_inv] the blocks handed out lie inside the memory of
    the allocator, their headers tell their sizes, and no two of them and no free block
    overlap; the free blocks are linked in a ring in address order with no two adjacent.  From
    any such heap, the first call included, [malloc] of up to 0x7ffffff0 bytes ends: it gives 0
    when the kernel refuses memory, or a pointer to a new block large enough,
    and the invariant holds with that block added.  [free] of a block handed out
    ends, gives all its memory back and keeps the invariant for the others. *)
Theorem allocator_invariant base h fl live brk n :
  heap_inv base h fl live brk -> (2 * length fl + 6 <= n)%nat ->
  (forall nbytes, 0 <= nbytes <= 0x7ffffff0 ->
    under (sbrk_ok brk) (malloc base n h nbytes) (fun '(p, h') =>
      p = 0 /\ heap_inv base h' fl live brk
      \/ exists k fl' brk', nbytes + 8 <= 8 * k /\ live !! (p - 8) = None /\ brk <= brk'
           /\ heap_inv base h' fl' (<[p - 8 := k]> live) brk'))
  /\ (forall a k, live !! a = Some k -> exists h' fl',
       free n h (a + 8) = mret h' /\ heap_inv base h' fl' (delete a live) brk
       /\ (forall x, free_at fl' x <-> free_at fl x \/ a <= x < a + 8 * k)).
Proof.
  intros Hi Hn. split.
  - intros nbytes Hb. destruct (malloc_ring base h fl live brk n nbytes Hi) as (h1 & Hok & Hi1 & ->).
    destruct (nunits_bound nbytes Hb) as [Hk Hsz]. set (k := u32 _) in *.
    eapply under_mono; [|apply (malloc_loop_spec base h1 fl brk k n Hok); [lia|lia]].
    intros [p h'] [[Hp E]|Hh]; cbn [fst snd] in *; [left; by subst|]. right.
    destruct (hands_out_inv _ _ _ live _ _ _ _ Hok Hi1 (proj1 Hk) Hh) as (fl' & brk' & H1 & H2 & H3). by exists k, fl', brk'.
  - intros a k Ha. destruct Hi as [[Hok|(_ & _ & -> & _)] Hl Hfr Hd]; [|by apply lookup_empty_Some in Ha].
    destruct (Hl a k Ha) as (H1 & H2 & H3 & H4).
    destruct (free_spec base h fl brk a k n Hok H1 H2 H3 H4) as (h' & fl' & E & Hok' & Hfree & _ & Hh); [by intros x; apply Hfr|lia|].
    exists h', fl'. split_and!; [done| |done]. split; [by left| | |].
    + intros b j [Hne Hb]%lookup_delete_Some. destruct (Hl b j Hb) as (? & ? & ? & <-). split_and!; [done..|].
      rewrite Hh; [done|lia| |done]. intros Hf. apply (Hfr b _ b Hb); [lia|done].
    + intros b j x [Hne Hb]%lookup_delete_Some Hx Hf. apply Hfree in Hf as [Hf|Hf]; [by apply (Hfr b j x)|].
      destruct (Hd a k b j Ha Hb Hne); lia.
    + intros b j c i [_ Hb]%lookup_delete_Some [_ Hc]%lookup_delete_Some. by apply (Hd b j c i).
Qed.

(** A first call, and the memory it returns freed. *)
Lemma allocator_invariant_witness :
  under (sbrk_ok 0x3000) (malloc 0x2000 6 (Heap ∅ 0) 100) (fun '(p, h') =>
      p = 0 /\ heap_inv 0x2000 h' [] ∅ 0x3000
      \/ exists k fl' brk', 100 + 8 <= 8 * k /\ (∅ : gmap Z Z) !! (p - 8) = None /\ 0x3000 <= brk'
           /\ heap_inv 0x2000 h' fl' (<[p - 8 := k]> ∅) brk').
Proof.
  destruct (allocator_invariant 0x2000 (Heap ∅ 0) [] ∅ 0x3000 6) as [H _]; [|cbn; lia|apply H; lia].
  split; [right; split_and!; first [done|lia]|by intros *; rewrite lookup_empty..].
Defined.

(** The first block that [sbrk] gives becomes the only free block, whatever size it is said to have. *)
Lemma first_free base h r nu n :
  hp_freep h = base -> hdr h base = Header base 0 -> 0 < base < r -> r < 0x7fff0000 -> 0 < nu < W32 ->
  exists h', free (S n) (set_size h r nu) (units r 1) = mret h' /\ hp_freep h' = base
    /\ hdr h' base = Header r 0 /\ hdr h' r = Header base nu.
Proof.
  intros Hf Hb Hr Hr2 Hnu. unfold free, units. rewrite (u32_small (r + _)), u32_small by lia.
  replace (r + 8 * 1 + 8 * -1) with r by lia. set (h1 := set_size h r nu).
  assert (hdr h1 base = Header base 0) as H1b by (subst h1; rewrite hdr_set_size, decide_False by lia; done).
  assert (h_size (hdr h1 r) = nu) as H1r by (subst h1; by rewrite hdr_set_size, decide_True).
  assert (hp_freep h1 = base) as -> by done. cbn [free_find]. rewrite H1b. cbn [h_ptr].
  rewrite (proj2 (Z.ltb_lt base r)), (proj2 (Z.ltb_ge r base)), Z.leb_refl by lia. cbn [andb orb mret prog_ret mbind prog_bind prog_bind_def]. cbn zeta.
  assert (exists h2, join_next h1 r base = h2 /\ hdr h2 base = Header base 0 /\ hdr h2 r = Header base nu) as (h2 & -> & H2b & H2r).
  { eexists. split; [done|]. unfold join_next. rewrite H1r, H1b. cbn [h_ptr]. rewrite H1b. cbn [h_size].
    rewrite (Z.add_0_r nu), (u32_small nu) by (unfold W32 in *; lia).
    assert (hdr (set_size h1 r nu) base = Header base 0) as H2 by (rewrite hdr_set_size, decide_False by lia; done).
    destruct (units r nu =? base); rewrite ?H2; cbn [h_ptr]; rewrite ?H2; cbn [h_ptr];
      rewrite !hdr_set_ptr, (decide_True (P := r = r)), (decide_False (P := base = r)) by lia.
    - by rewrite H2, hdr_set_size, decide_True.
    - by rewrite H1b, H1r. }
  eexists. split; [done|]. split; [done|]. rewrite !hdr_freep. unfold join_prev, units. rewrite H2b. cbn [h_size].
  rewrite (u32_small (base + 8 * 0)) by lia. rewrite (proj2 (Z.eqb_neq (base + 8 * 0) r)) by lia.
  rewrite !hdr_set_ptr, decide_True, decide_False, H2b by first [done|lia]. done.
Qed.

Lemma nunits_huge nbytes : 0x7ffffff0 < nbytes < W32 ->
  let k := u32 (u32 (nbytes + 8 - 1) / 8 + 1) in 0 < k <= 0x20000000 /\ (k = 1 \/ 0x10000000 <= k).
Proof.
  unfold W32. intros Hn. cbn zeta. destruct (decide (nbytes + 8 - 1 < 0x100000000)) as [Hlt|Hge].
  - pose proof (Z.div_mod (nbytes + 8 - 1) 8 ltac:(lia)). pose proof (Z.mod_pos_bound (nbytes + 8 - 1) 8 ltac:(lia)).
    rewrite (u32_small (nbytes + 8 - 1)) by lia. rewrite u32_small; lia.
  - assert (u32 (nbytes + 8 - 1) = nbytes + 8 - 1 - 0x100000000) as -> by (unfold u32, W32; Z.div_mod_to_equations; lia).
    rewrite Z.div_small, u32_small by lia. lia.
Qed.

(** The first request, of more than 0x7ffffff0 bytes, is not refused.  The size in bytes that
    [morecore] passes to [sbrk] wraps around: it is negative, 0, or that of the smallest
    request.  If the kernel answers with the old end [r] of the memory, the block that [malloc]
    hands out reaches beyond the new end [r + m]. *)
Lemma malloc_wraps base h nbytes n r :
  hp_freep h = 0 -> 0 < base < r -> r < 0x7fff0000 -> 0x7ffffff0 < nbytes < W32 ->
  exists m k p h', malloc base (S (S (S n))) h nbytes = Sys (Sbrk m) k /\ k r = mret (p, h') /\ r + m < p + nbytes.
Proof.
  intros Hf Hb Hr Hn. unfold malloc. rewrite Hf. cbn [Z.eqb].
  set (h0 := set_size _ base 0). set (k := u32 (u32 _ / 8 + 1)).
  assert (hdr h0 base = Header base 0) as H0.
  { subst h0. by rewrite hdr_set_size, decide_True, hdr_freep, hdr_set_ptr, decide_True. }
  assert (0 < k <= 0x20000000 /\ (k = 1 \/ 0x10000000 <= k)) as Hk by by apply nunits_huge.
  clearbody k.
  set (nu := if k <? 4096 then 4096 else k).
  assert (k <= nu /\ 0 < nu <= 0x20000000 /\ i32 (u32 (nu * 8)) <= 32768 /\ (nu = k \/ k = 1 /\ nu = 4096)) as (Hkn & Hnu & Hm & Hnk).
  { subst nu. destruct Hk as [Hk [->|Hk']]; [split_and!; first [done|by right]|]. rewrite (proj2 (Z.ltb_ge k 4096)) by lia. split_and!; [lia..| |by left].
    clear -Hk Hk'. unfold i32, u32, W32. Z.div_mod_to_equations. lia. }
  assert (hp_freep h0 = base) as Hf0 by done.
  destruct (first_free base h0 r nu (S (S n)) Hf0 H0 Hb Hr) as (h' & Hfree & Hf' & Hb' & Hr'); [unfold W32; lia|].
  rewrite H0. cbn [h_ptr]. cbn [malloc_loop]. rewrite H0. cbn [h_size h_ptr].
  rewrite (proj2 (Z.leb_gt k 0)) by lia. rewrite Hf0, Z.eqb_refl. unfold morecore, sys.
  fold nu. cbn [mbind prog_bind prog_bind_def]. exists (i32 (u32 (nu * 8))). eexists _. exists (take_block h' base r k).1, (take_block h' base r k).2. split; [done|]. cbn beta. cbn zeta.
  rewrite (u32_small r) by lia. rewrite (proj2 (Z.eqb_neq r (W32 - 1))) by (unfold W32; lia).
  rewrite Hfree.
  cbn [mret prog_ret mbind prog_bind prog_bind_def]. rewrite Hf', (proj2 (Z.eqb_neq base 0)) by lia.
  rewrite Hb'. cbn [h_ptr]. cbn [malloc_loop]. rewrite Hr'. cbn [h_size]. rewrite (proj2 (Z.leb_le k nu)) by lia.
  split; [by destruct (take_block h' base r k)|]. enough (r < (take_block h' base r k).1) by lia. unfold take_block, units. rewrite Hr'. cbn [h_size h_ptr].
  destruct (Z.eqb_spec nu k) as [E|E]; cbn [fst]; [rewrite u32_small; lia|].
  destruct Hnk as [?|[-> ->]]; [done|]. rewrite hdr_set_size, decide_True by done. cbn [h_size].
  change (u32 (4096 - 1)) with 4095. rewrite (u32_small (r + 8 * 4095)), u32_small; lia.
Qed.
