(* ===== verification/Sh.v ===== *)
(** sh.c: the shell.

    The parser works on the line in [buf]; a pointer into it is an index, and reading
    past its end reads 0.  A command refers to its words by the indices of their
    first character and of the character after them, where [nulterminate] finally
    stores a 0.  The allocation of the nodes of a command succeeds. *)
From S2P Require Import Prelude Kernel Spinlock Console CString User.

(** ** Commands *)

Abbreviation MAXARGS := 10%nat (only parsing).

Inductive cmd : Type :=
| EXEC (argv : list (nat * nat))
| REDIR (c : cmd) (file efile : nat) (mode fd : Z)
| PIPE (left right : cmd)
| LIST (left right : cmd)
| BACK (c : cmd).

Definition panic {A} (s : string) : prog A := printf 2 "%s
" [AStr (Some (cstr s))] ;; exit.

Definition fork1 : prog Z :=
  pid ← sys Fork ;
  if pid =? -1 then panic "fork" else mret pid.

(** ** Tokens *)

Definition whitespace : list Z := [32; 9; 13; 10; 11].
Definition symbols : list Z := cstr "<|>&;()".

Definition oneof (l : list Z) (c : Z) : bool := bool_decide (strchr l c <> None).
Definition at_buf (b : list Z) (i : nat) : Z := default 0 (b !! i).

(** [while(s < es && p(c)) s++] for the character [c] at [s], where [n] is at least the distance of the pointers. *)
Fixpoint skip (n : nat) (p : Z -> bool) (b : list Z) (es s : nat) : nat :=
  match n with
  | O => s
  | S n' => if (s <? es)%nat && p (at_buf b s) then skip n' p b es (S s) else s
  end.
Definition skip_while (p : Z -> bool) (b : list Z) (es s : nat) : nat := skip (es - s) p b es s.

(** The value returned, and [*q], [*eq] and [*ps] after the call. *)
Definition gettoken (b : list Z) (es s : nat) : Z * (nat * nat) * nat :=
  let s := skip_while (oneof whitespace) b es s in
  let q := s in
  let c := at_buf b s in
  let '(ret, s) :=
    if c =? 0 then (c, s)
    else if (c =? 124) || (c =? 40) || (c =? 41) || (c =? 59) || (c =? 38) || (c =? 60) then (c, S s)
    else if c =? 62 then
      if at_buf b (S s) =? 62 then (43, S (S s)) else (c, S s)
    else (97, skip_while (fun c => negb (oneof whitespace c) && negb (oneof symbols c)) b es s) in
  let eq := s in
  (ret, (q, eq), skip_while (oneof whitespace) b es s).

(** The result, and [*ps] after the call. *)
Definition peek (b : list Z) (es s : nat) (toks : list Z) : bool * nat :=
  let s := skip_while (oneof whitespace) b es s in
  (nz (at_buf b s) && oneof toks (at_buf b s), s).

(** ** The parser *)

(** [O_WRONLY|O_CREATE] *)
Definition WR_CREATE : Z := Z.lor 0x001 0x200.

(** A redirection: [file], [efile], [mode], [fd]. *)
Definition redir : Type := nat * nat * Z * Z.

(** The commands [parseredirs] wraps around [c], the last one outermost. *)
Definition redirect (c : cmd) (l : list redir) : cmd :=
  foldl (fun c '(q, eq, mode, fd) => REDIR c q eq mode fd) c l.

(** The loop of [parseredirs]; it gives the redirections it finds.  The command to be
    wrapped may still be under construction, as in [parseexec]. *)
Fixpoint parseredirs (n : nat) (b : list Z) (es s : nat) : prog (list redir * nat) :=
  match n with
  | O => Abort OutOfFuel
  | S n' =>
      let '(more, s) := peek b es s (cstr "<>") in
      if negb more then mret ([], s) else
      let '(tok, _, s) := gettoken b es s in
      let '(t, (q, eq), s) := gettoken b es s in
      if negb (t =? 97) then panic "missing file for redirection" else
      let l := if tok =? 60 then [(q, eq, 0, 0)]
               else if (tok =? 62) || (tok =? 43) then [(q, eq, WR_CREATE, 1)] else [] in
      '(l', s) ← parseredirs n' b es s ;
      mret (l ++ l', s)
  end.

(** The loop of [parseexec]; [argv] and [rs] are the words and redirections so far. *)
Fixpoint parseargs (n : nat) (b : list Z) (es s : nat) (argv : list (nat * nat)) (rs : list redir) :
    prog (list (nat * nat) * list redir * nat) :=
  match n with
  | O => Abort OutOfFuel
  | S n' =>
      let '(stop, s) := peek b es s (cstr "|)&;") in
      if stop then mret (argv, rs, s) else
      let '(tok, w, s) := gettoken b es s in
      if tok =? 0 then mret (argv, rs, s) else
      if negb (tok =? 97) then panic "syntax" else
      let argv := argv ++ [w] in
      if (MAXARGS <=? length argv)%nat then panic "too many args" else
      '(l, s) ← parseredirs n b es s ;
      parseargs n' b es s argv (rs ++ l)
  end.

(** [while(peek(ps, es, "&"))] of [parseline]. *)
Fixpoint parsebacks (n : nat) (b : list Z) (es s : nat) (c : cmd) : prog (cmd * nat) :=
  match n with
  | O => Abort OutOfFuel
  | S n' =>
      let '(more, s) := peek b es s (cstr "&") in
      if negb more then mret (c, s) else
      let '(_, _, s) := gettoken b es s in
      parsebacks n' b es s (BACK c)
  end.

(** [n] bounds the depth of the calls, and the rounds of the loops. *)
Fixpoint parseline (n : nat) (b : list Z) (es s : nat) : prog (cmd * nat) :=
  match n with
  | O => Abort OutOfFuel
  | S n' =>
      '(c, s) ← parsepipe n' b es s ;
      '(c, s) ← parsebacks n b es s c ;
      let '(more, s) := peek b es s (cstr ";") in
      if negb more then mret (c, s) else
      let '(_, _, s) := gettoken b es s in
      '(r, s) ← parseline n' b es s ;
      mret (LIST c r, s)
  end
with parsepipe (n : nat) (b : list Z) (es s : nat) : prog (cmd * nat) :=
  match n with
  | O => Abort OutOfFuel
  | S n' =>
      '(c, s) ← parseexec n' b es s ;
      let '(more, s) := peek b es s (cstr "|") in
      if negb more then mret (c, s) else
      let '(_, _, s) := gettoken b es s in
      '(r, s) ← parsepipe n' b es s ;
      mret (PIPE c r, s)
  end
with parseexec (n : nat) (b : list Z) (es s : nat) : prog (cmd * nat) :=
  match n with
  | O => Abort OutOfFuel
  | S n' =>
      let '(block, s) := peek b es s (cstr "(") in
      if block then parseblock n' b es s else
      '(rs, s) ← parseredirs n b es s ;
      '(argv, rs, s) ← parseargs n b es s [] rs ;
      mret (redirect (EXEC argv) rs, s)
  end
with parseblock (n : nat) (b : list Z) (es s : nat) : prog (cmd * nat) :=
  match n with
  | O => Abort OutOfFuel
  | S n' =>
      let '(ok, s) := peek b es s (cstr "(") in
      if negb ok then panic "parseblock" else
      let '(_, _, s) := gettoken b es s in
      '(c, s) ← parseline n' b es s ;
      let '(ok, s) := peek b es s (cstr ")") in
      if negb ok then panic "syntax - missing )" else
      let '(_, _, s) := gettoken b es s in
      '(rs, s) ← parseredirs n b es s ;
      mret (redirect c rs, s)
  end.

(** The line after the call. *)
Fixpoint nulterminate (c : cmd) (b : list Z) : list Z :=
  match c with
  | EXEC argv => foldl (fun b w => <[w.2 := 0]> b) b argv
  | REDIR c _ efile _ _ => <[efile := 0]> (nulterminate c b)
  | PIPE l r | LIST l r => nulterminate r (nulterminate l b)
  | BACK c => nulterminate c b
  end.

(** A bound on the depth of the calls for a line of [es] characters. *)
Definition parse_depth (es : nat) : nat := 4 * es + 8.

(** The command and the line. *)
Definition parsecmd (b : list Z) : prog (cmd * list Z) :=
  let es := Z.to_nat (strlen b) in
  '(c, s) ← parseline (parse_depth es) b es 0 ;
  let '(_, s) := peek b es s [] in
  if negb (s =? es)%nat then
    printf 2 "leftovers: %s
" [AStr (Some (cstring (drop s b)))] ;;
    panic "syntax"
  else mret (c, nulterminate c b).

(** ** Execution *)

(** The string at index [q]. *)
Definition word (b : list Z) (q : nat) : list Z := cstring (drop q b).

(** A process that has forked and is the child runs [c] and does not return. *)
Fixpoint runcmd (c : cmd) (b : list Z) : prog unit :=
  match c with
  | EXEC argv =>
      match argv with
      | [] => exit
      | w :: _ =>
          sys (Exec (word b w.1) (map (fun w => word b w.1) argv)) ;;
          printf 2 "exec %s failed
" [AStr (Some (word b w.1))] ;;
          exit
      end
  | REDIR c file _ mode fd =>
      sys (Close fd) ;;
      r ← sys (Open (word b file) mode) ;
      if r <? 0 then
        printf 2 "open %s failed
" [AStr (Some (word b file))] ;;
        exit
      else runcmd c b
  | LIST l r =>
      pid ← fork1 ;
      if pid =? 0 then runcmd l b else
      sys Wait ;;
      runcmd r b
  | PIPE l r =>
      '(e, (p0, p1)) ← sys Pipe ;
      if e <? 0 then panic "pipe" else
      pid ← fork1 ;
      if pid =? 0 then
        sys (Close 1) ;; sys (Dup p1) ;; sys (Close p0) ;; sys (Close p1) ;;
        runcmd l b
      else
      pid ← fork1 ;
      if pid =? 0 then
        sys (Close 0) ;; sys (Dup p0) ;; sys (Close p0) ;; sys (Close p1) ;;
        runcmd r b
      else
      sys (Close p0) ;;
      sys (Close p1) ;;
      sys Wait ;;
      sys Wait ;;
      exit
  | BACK c =>
      pid ← fork1 ;
      if pid =? 0 then runcmd c b else exit
  end.

(** The line read, or [None] at the end of the input. *)
Definition getcmd (nbuf : Z) : prog (option (list Z)) :=
  printf 2 "$ " [] ;;
  buf ← gets nbuf ;
  mret (if chr buf =? 0 then None else Some buf).

(** [while((fd = open("console", O_RDWR)) >= 0)] *)
Fixpoint open_console (n : nat) : prog unit :=
  match n with
  | O => Abort OutOfFuel
  | S n' =>
      fd ← sys (Open (cstr "console") 2) ;
      if 0 <=? fd then
        if 3 <=? fd then sys (Close fd) ;; mret tt else open_console n'
      else mret tt
  end.

Fixpoint sh_loop (n : nat) : prog unit :=
  match n with
  | O => Abort OutOfFuel
  | S n' =>
      o ← getcmd 100 ;
      match o with
      | None => exit
      | Some buf =>
          if (at_buf buf 0 =? 99) && (at_buf buf 1 =? 100) && (at_buf buf 2 =? 32) then
            let buf := <[Z.to_nat (strlen buf - 1) := 0]> buf in
            r ← sys (Chdir (word buf 3)) ;
            (if r <? 0 then printf 2 "cannot cd %s
" [AStr (Some (word buf 3))] else mret tt) ;;
            sh_loop n'
          else
            pid ← fork1 ;
            if pid =? 0 then
              '(c, buf) ← parsecmd buf ;
              runcmd c buf
            else
              sys Wait ;;
              sh_loop n'
      end
  end.

Definition sh_main (n : nat) : prog unit := open_console n ;; sh_loop n.

(** ** Command lines

    A command with its words as strings, and the line that writes it: every word and
    symbol is followed by a space, and a part that is neither a simple command nor a
    redirection stands in parentheses. *)
Inductive tree : Type :=
| TExec (args : list (list Z))
| TRedir (t : tree) (file : list Z) (mode fd : Z)
| TPipe (l r : tree)
| TList (l r : tree)
| TBack (t : tree).

Fixpoint read_cmd (b : list Z) (c : cmd) : tree :=
  match c with
  | EXEC argv => TExec (map (fun w => word b w.1) argv)
  | REDIR c file _ mode fd => TRedir (read_cmd b c) (word b file) mode fd
  | PIPE l r => TPipe (read_cmd b l) (read_cmd b r)
  | LIST l r => TList (read_cmd b l) (read_cmd b r)
  | BACK c => TBack (read_cmd b c)
  end.

Inductive token : Type := Word (w : list Z) | Sym (c : Z).

Definition is_block (t : tree) : bool := match t with TExec _ | TRedir _ _ _ _ => false | _ => true end.
Definition atom_of (t : tree) (l : list token) : list token := if is_block t then Sym 40 :: l ++ [Sym 41] else l.

Fixpoint toks (t : tree) : list token :=
  match t with
  | TExec args => map Word args
  | TRedir t file mode fd => atom_of t (toks t) ++ [Sym (if fd =? 0 then 60 else 62); Word file]
  | TPipe l r => atom_of l (toks l) ++ [Sym 124] ++ atom_of r (toks r)
  | TList l r => atom_of l (toks l) ++ [Sym 59] ++ atom_of r (toks r)
  | TBack t => atom_of t (toks t) ++ [Sym 38]
  end.
Definition atom (t : tree) : list token := atom_of t (toks t).

Definition txt (t : token) : list Z := match t with Word w => w | Sym c => [c] end.
Definition text (l : list token) : list Z := concat (map (fun t => txt t ++ [32]) l).
Definition command_line (t : tree) : list Z := text (toks t).

Definition word_char (c : Z) : Prop := c <> 0 /\ oneof whitespace c = false /\ oneof symbols c = false.
Definition is_word (w : list Z) : Prop := w <> [] /\ Forall word_char w.

(** The commands that can be written: the redirections are those of the shell, and a
    simple command has at most nine words. *)
Fixpoint tree_wf (t : tree) : Prop :=
  match t with
  | TExec args => Forall is_word args /\ (length args < MAXARGS)%nat
  | TRedir t file mode fd => tree_wf t /\ is_word file /\ ((mode, fd) = (0, 0) \/ (mode, fd) = (WR_CREATE, 1))
  | TPipe l r | TList l r => tree_wf l /\ tree_wf r
  | TBack t => tree_wf t
  end.

(** *** Tokens in the line *)

Definition token_wf (t : token) : Prop :=
  match t with Word w => is_word w | Sym c => c ∈ symbols end.

(** The tokens from index [s] on. *)
Record at_toks (b : list Z) (s : nat) (l : list token) : Prop := AtToks {
  ak_text : drop s b = text l;
  ak_wf : Forall token_wf l;
  ak_pos : (s <= length b)%nat
}.

Lemma at_buf_chr b s : at_buf b s = chr (drop s b).
Proof. unfold at_buf, chr. f_equal. by rewrite <- (Nat.add_0_r s) at 1; rewrite <- lookup_drop; destruct (drop s b). Qed.

Lemma skip_while_run p b s pre rest :
  drop s b = pre ++ rest -> Forall (fun c => p c = true) pre -> (rest = [] \/ p (chr rest) = false) ->
  skip_while p b (length b) s = (s + length pre)%nat.
Proof.
  intros Hd Hpre Hrest. unfold skip_while.
  assert (length pre <= length b - s)%nat as Hn.
  { rewrite <- length_drop, Hd, length_app. lia. }
  revert Hn. generalize (length b - s)%nat as n. intros n Hn. revert n s Hd Hn.
  induction Hpre as [|c pre Hc Hpre IH]; intros n s Hd Hn.
  - destruct n as [|n]; cbn [skip length]; [lia|]. destruct Hrest as [-> |Hr].
    + rewrite (proj2 (Nat.ltb_ge _ _)); [cbn; lia|]. apply (f_equal length) in Hd. rewrite length_drop in Hd. cbn in Hd. lia.
    + rewrite at_buf_chr, Hd. cbn [app]. rewrite Hr, andb_false_r. lia.
  - destruct n as [|n]; cbn [length] in Hn; [lia|]. cbn [skip length].
    assert (s < length b)%nat by (apply (f_equal length) in Hd; rewrite length_drop in Hd; cbn in Hd; lia).
    rewrite (proj2 (Nat.ltb_lt _ _)) by lia. rewrite at_buf_chr, Hd. cbn [app andb]. change (chr (c :: ?l)) with c. rewrite Hc. cbn [andb].
    rewrite (IH n (S s)); [lia| |lia]. by rewrite <- Nat.add_1_r, <- drop_drop, Hd.
Qed.

(** *** [peek] and [gettoken] *)

Definition first (t : token) : Z := chr (txt t).
Definition kind (t : token) : Z := match t with Word _ => 97 | Sym c => c end.

Lemma text_cons t l : text (t :: l) = txt t ++ 32 :: text l.
Proof. unfold text. cbn. by rewrite <- (assoc_L (++)). Qed.

Lemma symbols_cases c : c ∈ symbols -> c = 60 \/ c = 124 \/ c = 62 \/ c = 38 \/ c = 59 \/ c = 40 \/ c = 41.
Proof. unfold symbols. cbn. set_solver. Qed.

Lemma first_char t : token_wf t -> first t <> 0 /\ oneof whitespace (first t) = false.
Proof.
  destruct t as [[|c w]|c]; cbn.
  - by intros [].
  - intros [_ H]. apply Forall_cons in H as [(H1 & H2 & _) _]. done.
  - intros H. by apply symbols_cases in H as [-> |[-> |[-> |[-> |[-> |[-> | ->]]]]]].
Qed.

Lemma txt_cons t : token_wf t -> exists w, txt t = first t :: w.
Proof. destruct t as [[|c w]|c]; cbn; [by intros []|by exists w|by exists []]. Qed.

(** The first character of the remaining line. *)
Lemma at_toks_char b s l : at_toks b s l -> at_buf b s = match l with [] => 0 | t :: _ => first t end.
Proof.
  intros [Hd Hw _]. rewrite at_buf_chr, Hd. destruct l as [|t l]; [done|]. apply Forall_cons in Hw as [Ht _].
  rewrite text_cons. by destruct (txt_cons t Ht) as (w & ->).
Qed.

(** No white space has to be skipped at a token. *)
Lemma at_toks_skip b s l : at_toks b s l -> skip_while (oneof whitespace) b (length b) s = s.
Proof.
  intros H. rewrite (skip_while_run _ _ _ [] (drop s b)); [cbn; lia|done|constructor|]. pose proof H as [Hd Hw _].
  destruct l as [|t l]; [by left|right]. rewrite <- at_buf_chr, (at_toks_char _ _ _ H). by apply Forall_cons in Hw as [[]%first_char _].
Qed.

Lemma peek_run b s l toks :
  at_toks b s l -> peek b (length b) s toks = (match l with [] => false | t :: _ => oneof toks (first t) end, s).
Proof.
  intros H. unfold peek. rewrite (at_toks_skip _ _ _ H), (at_toks_char _ _ _ H). f_equal. destruct l as [|t l]; [done|].
  pose proof (ak_wf _ _ _ H) as Hw. apply Forall_cons in Hw as [[Hn _]%first_char _]. by rewrite (proj2 (nz_true _) Hn).
Qed.

Lemma gettoken_end b s : at_toks b s [] -> gettoken b (length b) s = (0, (s, s), s).
Proof.
  intros H. unfold gettoken. rewrite (at_toks_skip _ _ _ H), (at_toks_char _ _ _ H). cbn [Z.eqb]. by rewrite (at_toks_skip _ _ _ H).
Qed.

Lemma at_toks_next b s t l : at_toks b s (t :: l) -> at_toks b (s + length (txt t) + 1) l.
Proof.
  intros [Hd Hw Hp]. apply Forall_cons in Hw as [_ Hw]. rewrite text_cons in Hd. split; [|done|].
  - rewrite <- Nat.add_assoc, <- drop_drop, Hd, <- drop_drop, drop_app_length. done.
  - apply (f_equal length) in Hd. rewrite length_drop, length_app in Hd. cbn in Hd. lia.
Qed.

Lemma word_not_symbol c :
  word_char c ->
  (c =? 0) = false
  /\ (c =? 124) || (c =? 40) || (c =? 41) || (c =? 59) || (c =? 38) || (c =? 60) = false
  /\ (c =? 62) = false.
Proof.
  intros (H0 & _ & Hs). assert (forall x, oneof symbols x = true -> (c =? x) = false) as H.
  { intros x Hx. apply Z.eqb_neq. intros ->. congruence. }
  rewrite (proj2 (Z.eqb_neq _ _) H0). by rewrite !H.
Qed.

Lemma gettoken_run b s t l :
  at_toks b s (t :: l) ->
  gettoken b (length b) s = (kind t, (s, s + length (txt t))%nat, (s + length (txt t) + 1)%nat).
Proof.
  intros H. pose proof (at_toks_next _ _ _ _ H) as Hnext. pose proof H as [Hd Hw Hp]. apply Forall_cons in Hw as [Ht _].
  rewrite text_cons in Hd. unfold gettoken. rewrite (at_toks_skip _ _ _ H), (at_toks_char _ _ _ H).
  assert (skip_while (oneof whitespace) b (length b) (s + length (txt t)) = s + length (txt t) + 1)%nat as Hskip.
  { pose proof (at_toks_skip _ _ _ Hnext) as Hs. rewrite (skip_while_run _ _ _ [32] (text l)); [done| |by constructor|].
    - by rewrite <- drop_drop, Hd, drop_app_length.
    - destruct l as [|t' l]; [by left|right]. rewrite <- (ak_text _ _ _ Hnext), <- at_buf_chr, (at_toks_char _ _ _ Hnext).
      pose proof (ak_wf _ _ _ Hnext) as Hw. by apply Forall_cons in Hw as [[]%first_char _]. }
  destruct t as [w|c].
  - destruct (word_not_symbol (first (Word w))) as (-> & -> & ->).
    { destruct Ht as [Hne Hw]. destruct w as [|c w]; [done|]. by apply Forall_cons in Hw as [Hc _]. }
    cbn [txt kind] in *. rewrite (skip_while_run _ _ _ w (32 :: text l)); [by rewrite Hskip|done| |by right].
    destruct Ht as [_ Hw]. eapply Forall_impl; [exact Hw|]. intros c (_ & H1 & H2). by rewrite H1, H2.
  - cbn [txt length] in *. change (first (Sym c)) with c. rewrite (Nat.add_1_r s) in *.
    assert (at_buf b (S s) = 32) as H32.
    { by rewrite at_buf_chr, <- Nat.add_1_r, <- drop_drop, Hd. }
    apply symbols_cases in Ht as [-> |[-> |[-> |[-> |[-> |[-> | ->]]]]]]; cbn [Z.eqb orb Pos.eqb]; rewrite ?H32; cbn [Z.eqb Pos.eqb];
      by rewrite Hskip.
Qed.

(** *** Commands in the line *)

(** The characters of a word, which ends where the word does. *)
Definition span (b : list Z) (w : nat * nat) : list Z := take (w.2 - w.1) (drop w.1 b).
Record good (b : list Z) (w : nat * nat) : Prop := Good {
  gd_word : is_word (span b w);
  gd_end : ~ word_char (at_buf b w.2);
  gd_pos : (w.1 <= w.2 <= length b)%nat
}.

(** The words of a command, in the order in which they are terminated. *)
Fixpoint spans (c : cmd) : list (nat * nat) :=
  match c with
  | EXEC argv => argv
  | REDIR c q eq _ _ => spans c ++ [(q, eq)]
  | PIPE l r | LIST l r => spans l ++ spans r
  | BACK c => spans c
  end.
Fixpoint spell (b : list Z) (c : cmd) : tree :=
  match c with
  | EXEC argv => TExec (map (span b) argv)
  | REDIR c q eq mode fd => TRedir (spell b c) (span b (q, eq)) mode fd
  | PIPE l r => TPipe (spell b l) (spell b r)
  | LIST l r => TList (spell b l) (spell b r)
  | BACK c => TBack (spell b c)
  end.

Lemma good_word b s w l : at_toks b s (Word w :: l) -> good b (s, s + length w)%nat /\ span b (s, s + length w)%nat = w.
Proof.
  intros H. pose proof (at_toks_next _ _ _ _ H) as [_ _ Hp]. pose proof H as [Hd Hw _]. apply Forall_cons in Hw as [Ht _].
  rewrite text_cons in Hd. cbn [txt] in *.
  assert (span b (s, s + length w)%nat = w) as Hs.
  { unfold span. cbn [fst snd]. rewrite Nat.add_comm, Nat.add_sub, Hd. by rewrite take_app_length. }
  split; [|done]. split; [by rewrite Hs| |cbn; lia]. cbn [snd]. rewrite at_buf_chr, <- drop_drop, Hd, drop_app_length.
  intros (_ & Hws & _). done.
Qed.

(** [nulterminate] makes strings of the words. *)
Definition zeros (l : list (nat * nat)) (b : list Z) : list Z := foldl (fun b w => <[w.2 := 0]> b) b l.

Lemma nulterminate_spans c b : nulterminate c b = zeros (spans c) b.
Proof. unfold zeros. revert b. induction c; intros b; cbn; rewrite ?foldl_app, ?IHc, ?IHc1, ?IHc2; done. Qed.

Lemma zeros_lookup l b i :
  zeros l b !! i =
    if decide (i ∈ map snd l) then (fun _ => 0) <$> b !! i else b !! i.
Proof.
  unfold zeros. revert b. induction l as [|w l IH]; intros b; cbn [foldl map]; [by rewrite decide_False by apply not_elem_of_nil|].
  rewrite IH. destruct (decide (w.2 = i)) as [<-|Hne].
  - rewrite (decide_True (P := w.2 ∈ w.2 :: map snd l)) by by left.
    destruct (decide (w.2 < length b)%nat) as [Hlt|Hge].
    + rewrite list_lookup_insert_eq by done. destruct (lookup_lt_is_Some_2 b w.2 Hlt) as [x Hx]. rewrite Hx. by case_decide.
    + rewrite list_insert_ge by lia. rewrite lookup_ge_None_2 by lia. by case_decide.
  - rewrite list_lookup_insert_ne by done. apply decide_ext. rewrite elem_of_cons. naive_solver.
Qed.

Lemma cstring_take n l : Forall (fun c => c <> 0) (take n l) -> chr (drop n l) = 0 -> cstring l = take n l.
Proof.
  revert l. induction n as [|n IH]; intros l Hf Hc.
  - destruct l as [|c l]; [done|]. cbn in Hc |- *. unfold chr in Hc. cbn in Hc. subst c. done.
  - destruct l as [|c l]; [done|]. cbn [take drop cstring] in *. apply Forall_cons in Hf as [H1 H2].
    rewrite (proj2 (nz_true c) H1). f_equal. by apply IH.
Qed.

Lemma word_zeros b l w :
  Forall (good b) l -> w ∈ l -> word (zeros l b) w.1 = span b w.
Proof.
  intros Hl Hw. pose proof (proj1 (Forall_forall _ _) Hl w Hw) as [[Hne Hword] Hend Hpos]. set (b' := zeros l b).
  assert (forall i, (w.1 <= i < w.2)%nat -> b' !! i = b !! i) as Hin.
  { intros i Hi. subst b'. rewrite zeros_lookup, decide_False; [done|]. intros Hm.
    apply list_elem_of_fmap in Hm as (w' & -> & Hw'). pose proof (proj1 (Forall_forall _ _) Hl w' Hw') as [_ Hend' _].
    apply Hend'. unfold at_buf. destruct (b !! w'.2) as [c|] eqn:Hc; [|apply lookup_ge_None in Hc; lia].
    apply (proj1 (Forall_lookup _ _) Hword (w'.2 - w.1)%nat). unfold span. rewrite lookup_take_lt, lookup_drop by lia.
    cbn. rewrite <- Hc. f_equal. lia. }
  assert (take (w.2 - w.1) (drop w.1 b') = span b w) as Ht.
  { apply list_eq. intros i. unfold span. destruct (decide (i < w.2 - w.1)%nat).
    - rewrite !lookup_take_lt, !lookup_drop by lia. apply Hin. lia.
    - by rewrite !lookup_take_ge by lia. }
  unfold word. rewrite <- Ht. apply cstring_take.
  - rewrite Ht. eapply Forall_impl; [exact Hword|]. by intros c [].
  - rewrite drop_drop. replace (w.1 + (w.2 - w.1))%nat with w.2 by lia. rewrite <- at_buf_chr. unfold at_buf. subst b'.
    rewrite zeros_lookup, decide_True by (apply list_elem_of_fmap; by exists w). by destruct (b !! w.2).
Qed.

Lemma read_spell b c : Forall (good b) (spans c) -> read_cmd (nulterminate c b) c = spell b c.
Proof.
  intros Hg. rewrite nulterminate_spans. assert (forall w, w ∈ spans c -> word (zeros (spans c) b) w.1 = span b w) as H.
  { intros w Hw. by apply word_zeros. }
  clear Hg. revert H. generalize (zeros (spans c) b) as b'. intros b'.
  induction c as [argv|c IH q eq mode fd|l IHl r IHr|l IHl r IHr|c IH]; cbn [spans read_cmd spell]; intros H.
  - f_equal. apply map_ext_in. intros w Hw. apply H. by apply list_elem_of_In.
  - rewrite IH by (intros; apply H; apply elem_of_app; by left). f_equal. apply (H (q, eq)). apply elem_of_app. right. by left.
  - rewrite IHl, IHr; [done|intros; apply H; apply elem_of_app; by right|intros; apply H; apply elem_of_app; by left].
  - rewrite IHl, IHr; [done|intros; apply H; apply elem_of_app; by right|intros; apply H; apply elem_of_app; by left].
  - by rewrite IH.
Qed.

(** *** Runs of the parser *)

(** The next token starts with one of the characters. *)
Definition starts (l : list token) (cs : list Z) : bool := match l with [] => false | t :: _ => oneof cs (first t) end.

(** What may follow a simple command, and a line. *)
Definition stops (l : list token) : Prop := l = [] \/ exists c l', l = Sym c :: l' /\ c ∈ [124; 41; 38; 59].
Definition ends (l : list token) : Prop := l = [] \/ exists l', l = Sym 41 :: l'.

Lemma stops_starts l : stops l ->
  starts l (cstr "<>") = false /\ starts l (cstr "(") = false /\ (starts l (cstr "|)&;") = true \/ l = []).
Proof.
  intros [-> |(c & l' & -> & Hc)]; [by auto|]. unfold starts. change (first (Sym c)) with c.
  assert (c = 124 \/ c = 41 \/ c = 38 \/ c = 59) as [-> |[-> |[-> | ->]]] by set_solver; auto.
Qed.

Lemma ends_stops l : ends l -> stops l.
Proof. intros [-> |(l' & ->)]; [by left|right]. exists 41, l'. split; [done|]. set_solver. Qed.

Lemma ends_starts l : ends l -> starts l (cstr "&") = false /\ starts l (cstr ";") = false /\ starts l (cstr "|") = false.
Proof. by intros [-> |(l' & ->)]. Qed.

Lemma peek_starts b s l cs : at_toks b s l -> peek b (length b) s cs = (starts l cs, s).
Proof. apply peek_run. Qed.

(** Redirections: file, mode and descriptor. *)
Definition rtoks (rs : list (list Z * Z * Z)) : list token :=
  rs ≫= fun '(f, _, fd) => [Sym (if fd =? 0 then 60 else 62); Word f].
Definition redir_wf (r : list Z * Z * Z) : Prop :=
  let '(f, mode, fd) := r in is_word f /\ ((mode, fd) = (0, 0) \/ (mode, fd) = (WR_CREATE, 1)).
Definition rspell (b : list Z) (r : redir) : list Z * Z * Z := let '(q, eq, mode, fd) := r in (span b (q, eq), mode, fd).
Definition rspan (r : redir) : nat * nat := let '(q, eq, _, _) := r in (q, eq).

Lemma parseredirs_run b rs rest n s :
  at_toks b s (rtoks rs ++ rest) -> Forall redir_wf rs -> starts rest (cstr "<>") = false -> (length rs < n)%nat ->
  exists l s', parseredirs n b (length b) s = Ret (l, s') /\ at_toks b s' rest
    /\ map (rspell b) l = rs /\ Forall (good b) (map rspan l).
Proof.
  intros H Hrs Hrest. revert n s H. induction Hrs as [|[[f mode] fd] rs [Hf Hm] Hrs IH]; intros n s H Hn.
  - destruct n as [|n]; [lia|]. cbn [parseredirs]. rewrite (peek_starts _ _ _ _ H). cbn [rtoks mbind list_bind app] in *.
    rewrite Hrest. exists [], s. split_and!; [done|done|done|constructor].
  - destruct n as [|n]; [lia|]. cbn [length] in Hn. unfold rtoks in H. rewrite bind_cons in H. cbn [app] in H.
    fold (rtoks rs) in H. cbn [parseredirs]. rewrite (peek_starts _ _ _ _ H). cbn [starts].
    assert (oneof (cstr "<>") (first (Sym (if fd =? 0 then 60 else 62))) = true) as -> by by destruct (fd =? 0). cbn [negb].
    rewrite (gettoken_run _ _ _ _ H). pose proof (at_toks_next _ _ _ _ H) as H1. rewrite (gettoken_run _ _ _ _ H1).
    cbn [kind]. destruct (good_word _ _ _ _ H1) as [Hg Hsp]. pose proof (at_toks_next _ _ _ _ H1) as H2. cbn [txt] in *.
    destruct (IH n _ H2 ltac:(lia)) as (l & s' & -> & Hs' & Hl & Hgl). set (w := (_ + length [_] + 1)%nat) in *.
    destruct Hm as [[= -> ->]|[= -> ->]]; cbn [Z.eqb].
    + exists ((w, (w + length f)%nat, 0, 0) :: l), s'. split; [done|]. split; [done|]. cbn [map rspell rspan]. rewrite Hsp, Hl.
      split; [done|]. by constructor.
    + exists ((w, (w + length f)%nat, WR_CREATE, 1) :: l), s'. split; [done|]. split; [done|]. cbn [map rspell rspan]. rewrite Hsp, Hl.
      split; [done|]. by constructor.
Qed.

Lemma oneof_elem l c : oneof l c = true -> c ∈ l.
Proof.
  unfold oneof. rewrite bool_decide_eq_true. induction l as [|x l IH]; cbn [strchr]; [done|].
  destruct (x =? 0); [done|]. destruct (Z.eqb_spec x c) as [->|Hne]; [by left|]. intros H. right. apply IH. by destruct (strchr l c).
Qed.

(** A word starts none of the symbols. *)
Lemma word_starts b s w l cs :
  at_toks b s (Word w :: l) -> Forall (fun c => oneof symbols c = true) cs -> starts (Word w :: l) cs = false.
Proof.
  intros [_ Ht _] Hcs. apply Forall_cons in Ht as [[Hne Hw] _]. destruct w as [|c w]; [done|].
  apply Forall_cons in Hw as [(_ & _ & Hs) _]. cbn [starts]. change (first _) with c.
  destruct (oneof cs c) eqn:Hc; [|done]. apply oneof_elem in Hc. rewrite Forall_forall in Hcs. rewrite Hcs in Hs by done. done.
Qed.

Lemma parseargs_end b rest n s argv rs :
  at_toks b s rest -> stops rest -> (0 < n)%nat -> parseargs n b (length b) s argv rs = Ret (argv, rs, s).
Proof.
  intros H Hr Hn. destruct n as [|n]; [lia|]. cbn [parseargs]. rewrite (peek_starts _ _ _ _ H).
  destruct (stops_starts _ Hr) as (_ & _ & [-> | ->]); [done|]. cbn [starts]. by rewrite (gettoken_end _ _ H).
Qed.

(** Words, the last one followed by redirections. *)
Lemma parseargs_run b w ws rs rest n s argv rs0 :
  at_toks b s (map Word (w :: ws) ++ rtoks rs ++ rest) -> Forall redir_wf rs -> stops rest ->
  (length argv + S (length ws) < MAXARGS)%nat -> (S (length ws) + length rs < n)%nat ->
  exists argv' l s', parseargs n b (length b) s argv rs0 = Ret (argv ++ argv', rs0 ++ l, s') /\ at_toks b s' rest
    /\ map (span b) argv' = w :: ws /\ Forall (good b) argv' /\ map (rspell b) l = rs /\ Forall (good b) (map rspan l).
Proof.
  intros H Hrs Hrest. revert w n s argv rs0 H. induction ws as [|w' ws IH]; intros w n s argv rs0 H Hargs Hn.
  all: destruct n as [|n]; [lia|]; cbn [parseargs]; rewrite (peek_starts _ _ _ _ H); cbn [map app] in *.
  all: destruct (good_word _ _ _ _ H) as [Hg Hsp].
  all: rewrite (word_starts _ _ _ _ (cstr "|)&;") H) by by repeat constructor.
  all: rewrite (gettoken_run _ _ _ _ H); cbn [kind]; cbn [Z.eqb Pos.eqb negb].
  all: rewrite length_app; cbn [length] in *; rewrite (proj2 (Nat.leb_gt _ _)) by lia.
  all: pose proof (at_toks_next _ _ _ _ H) as H1; cbn [txt] in *.
  - destruct (parseredirs_run b rs rest (S n) _ H1 Hrs) as (l & s' & -> & Hs' & Hl & Hgl); [apply stops_starts, Hrest|lia|].
    exists [(s, (s + length w)%nat)], l, s'. cbn [mbind prog_bind prog_bind_def]. rewrite (parseargs_end b rest) by (done || lia).
    split_and!; [done|done|cbn [map]; by rewrite Hsp|by constructor|done|done].
  - destruct (parseredirs_run b [] (Word w' :: map Word ws ++ rtoks rs ++ rest) (S n) _ H1) as (l & s' & -> & Hs' & Hl & Hgl);
      [constructor|by eapply word_starts; [exact H1|repeat constructor]|cbn; lia|]. apply map_eq_nil in Hl as ->.
    cbn [mbind prog_bind prog_bind_def].
    destruct (IH w' n s' (argv ++ [(s, (s + length w)%nat)]) (rs0 ++ [])) as (argv' & l' & s2 & -> & H2 & Ha & Hga & Hl' & Hgl');
      [done|rewrite length_app; cbn; lia|lia|].
    exists ((s, (s + length w)%nat) :: argv'), l', s2. rewrite app_nil_r, <- (assoc_L (++)).
    split_and!; [done|done|cbn [map]; by rewrite Hsp, Ha|by constructor|done|done].
Qed.

(** A simple command: words, then redirections. *)
Lemma parseexec_simple b args rs rest n s :
  at_toks b s (map Word args ++ rtoks rs ++ rest) -> Forall redir_wf rs -> stops rest ->
  (length args < MAXARGS)%nat -> (length args + length rs + 1 < n)%nat ->
  exists argv l s', parseexec n b (length b) s = Ret (redirect (EXEC argv) l, s') /\ at_toks b s' rest
    /\ map (span b) argv = args /\ Forall (good b) argv /\ map (rspell b) l = rs /\ Forall (good b) (map rspan l).
Proof.
  intros H Hrs Hrest Hargs Hn. destruct n as [|n]; [lia|]. cbn [parseexec]. rewrite (peek_starts _ _ _ _ H).
  pose proof (stops_starts _ Hrest) as (Hnr & Hnp & _). destruct args as [|w ws]; cbn [map app] in *.
  - assert (starts (rtoks rs ++ rest) (cstr "(") = false) as ->.
    { destruct rs as [|[[f mode] fd] rs]; [done|]. cbn. by destruct (fd =? 0). }
    destruct (parseredirs_run b rs rest (S n) s H Hrs Hnr) as (l & s' & -> & Hs' & Hl & Hgl); [lia|].
    exists [], l, s'. cbn [mbind prog_bind prog_bind_def]. rewrite (parseargs_end b rest) by (done || lia).
    split_and!; [done|done|done|constructor|done|done].
  - rewrite (word_starts _ _ _ _ (cstr "(") H) by by repeat constructor.
    destruct (parseredirs_run b [] (Word w :: map Word ws ++ rtoks rs ++ rest) (S n) s H) as (l0 & s0 & -> & Hs0 & Hl0 & _);
      [constructor|by eapply word_starts; [exact H|repeat constructor]|cbn; lia|]. apply map_eq_nil in Hl0 as ->.
    cbn [mbind prog_bind prog_bind_def length] in *.
    destruct (parseargs_run b w ws rs rest (S n) s0 [] []) as (argv & l & s' & -> & H2 & Ha & Hga & Hl & Hgl);
      [done|done|done|cbn; lia|lia|].
    exists argv, l, s'. by split_and!.
Qed.

(** *** Commands and their redirections *)

Definition tredirect (t : tree) (rs : list (list Z * Z * Z)) : tree :=
  foldl (fun t '(f, mode, fd) => TRedir t f mode fd) t rs.

Fixpoint strip (t : tree) : tree * list (list Z * Z * Z) :=
  match t with
  | TRedir t f mode fd => let '(base, rs) := strip t in (base, rs ++ [(f, mode, fd)])
  | _ => (t, [])
  end.

Lemma strip_spec t :
  let '(base, rs) := strip t in
  t = tredirect base rs /\ (tree_wf t -> tree_wf base /\ Forall redir_wf rs)
  /\ atom t = atom base ++ rtoks rs /\ strip base = (base, []).
Proof.
  induction t as [args|t IH f mode fd| | |]; cbn [strip];
    try (split_and!; [done|intros; split; [done|constructor]|by rewrite app_nil_r|done]).
  destruct (strip t) as [base rs]. destruct IH as (-> & Hwf & Ha & Hb). split_and!.
  - unfold tredirect. by rewrite foldl_app.
  - intros (Hw & Hf & Hm). destruct (Hwf Hw) as [H1 H2]. split; [done|]. apply Forall_app_2; [done|]. by constructor.
  - unfold atom at 1. cbn [atom_of is_block toks]. fold (atom (tredirect base rs)). rewrite Ha, <- (assoc_L (++)).
    f_equal. unfold rtoks. by rewrite bind_app.
  - done.
Qed.

Lemma spell_redirect b c l : spell b (redirect c l) = tredirect (spell b c) (map (rspell b) l).
Proof.
  unfold redirect, tredirect. revert c. induction l as [|[[[q eq] mode] fd] l IH]; intros c; [done|]. cbn [foldl map rspell].
  by rewrite IH.
Qed.

Lemma spans_redirect c l : spans (redirect c l) = spans c ++ map rspan l.
Proof.
  unfold redirect. revert c. induction l as [|[[[q eq] mode] fd] l IH]; intros c; [by rewrite app_nil_r|]. cbn [foldl map rspan].
  rewrite IH. cbn [spans]. by rewrite <- (assoc_L (++)).
Qed.

(** The parser gives the command [t], with words of the line. *)
Definition parses (b : list Z) (m : prog (cmd * nat)) (t : tree) (rest : list token) : Prop :=
  exists c s', m = Ret (c, s') /\ at_toks b s' rest /\ spell b c = t /\ Forall (good b) (spans c).

(** A program that has returned passes its result on. *)
Ltac pstep := cbn [mbind prog_bind prog_bind_def].

Section grammar.
Context (b : list Z).
Abbreviation es := (length b).

Lemma pipe_one n s t rest :
  parses b (parseexec n b es s) t rest -> starts rest (cstr "|") = false -> parses b (parsepipe (S n) b es s) t rest.
Proof.
  intros (c & s' & Hrun & Hs' & Ht & Hg) Hr. exists c, s'. cbn [parsepipe]. rewrite Hrun. pstep.
  rewrite (peek_starts _ _ _ _ Hs'), Hr. done.
Qed.

Lemma pipe_two n s l r rest0 rest :
  parses b (parseexec n b es s) l (Sym 124 :: rest0) ->
  (forall s', at_toks b s' rest0 -> parses b (parsepipe n b es s') r rest) ->
  parses b (parsepipe (S n) b es s) (TPipe l r) rest.
Proof.
  intros (c & s1 & Hrun & Hs1 & <- & Hg) Hr. pose proof (at_toks_next _ _ _ _ Hs1) as Hs2.
  destruct (Hr _ Hs2) as (c2 & s2 & Hrun2 & Hs3 & <- & Hg2). exists (PIPE c c2), s2.
  cbn [parsepipe]. rewrite Hrun. pstep.
  rewrite (peek_starts _ _ _ _ Hs1), (gettoken_run _ _ _ _ Hs1). cbn [starts first]. change (oneof (cstr "|") _) with true. cbn [negb].
  rewrite Hrun2. split_and!; [done|done|done|by apply Forall_app_2].
Qed.

Lemma backs_none n s c rest : at_toks b s rest -> starts rest (cstr "&") = false -> parsebacks (S n) b es s c = Ret (c, s).
Proof. intros H Hr. cbn [parsebacks]. by rewrite (peek_starts _ _ _ _ H), Hr. Qed.

Lemma line_one n s t rest :
  parses b (parsepipe n b es s) t rest -> starts rest (cstr "&") = false -> starts rest (cstr ";") = false ->
  parses b (parseline (S n) b es s) t rest.
Proof.
  intros (c & s' & Hrun & Hs' & Ht & Hg) Hr1 Hr2. exists c, s'. cbn [parseline]. rewrite Hrun. pstep.
  rewrite (backs_none _ _ _ _ Hs' Hr1). pstep. by rewrite (peek_starts _ _ _ _ Hs'), Hr2.
Qed.

Lemma line_list n s l r rest0 rest :
  parses b (parsepipe n b es s) l (Sym 59 :: rest0) ->
  (forall s', at_toks b s' rest0 -> parses b (parseline n b es s') r rest) ->
  parses b (parseline (S n) b es s) (TList l r) rest.
Proof.
  intros (c & s1 & Hrun & Hs1 & <- & Hg) Hr. pose proof (at_toks_next _ _ _ _ Hs1) as Hs2.
  destruct (Hr _ Hs2) as (c2 & s2 & Hrun2 & Hs3 & <- & Hg2). exists (LIST c c2), s2.
  cbn [parseline]. rewrite Hrun. pstep. rewrite (backs_none _ _ _ _ Hs1) by done. pstep.
  rewrite (peek_starts _ _ _ _ Hs1), (gettoken_run _ _ _ _ Hs1). cbn [starts first]. change (oneof (cstr ";") _) with true. cbn [negb].
  rewrite Hrun2. split_and!; [done|done|done|by apply Forall_app_2].
Qed.

Lemma line_back n s t rest :
  parses b (parsepipe (S n) b es s) t (Sym 38 :: rest) -> starts rest (cstr "&") = false -> starts rest (cstr ";") = false ->
  parses b (parseline (S (S n)) b es s) (TBack t) rest.
Proof.
  intros (c & s1 & Hrun & Hs1 & <- & Hg) Hr1 Hr2. pose proof (at_toks_next _ _ _ _ Hs1) as Hs2. eexists (BACK c), _.
  remember (S n) as k eqn:Hk. cbn [parseline]. rewrite Hrun. pstep. cbn [parsebacks].
  rewrite (peek_starts _ _ _ _ Hs1), (gettoken_run _ _ _ _ Hs1). cbn [starts first]. change (oneof (cstr "&") _) with true. cbn [negb].
  rewrite Hk, (backs_none _ _ _ _ Hs2 Hr1). pstep. rewrite (peek_starts _ _ _ _ Hs2), Hr2. by split_and!.
Qed.

(** *** The two levels of the grammar *)

Definition exec_ok (t : tree) : Prop := forall n s rest,
  at_toks b s (atom t ++ rest) -> tree_wf t -> stops rest -> (4 * length (atom t) + 2 <= n)%nat ->
  parses b (parseexec n b es s) t rest.
Definition line_ok (t : tree) : Prop := forall n s rest,
  at_toks b s (toks t ++ rest) -> tree_wf t -> ends rest -> (4 * length (toks t) + 4 <= n)%nat ->
  parses b (parseline n b es s) t rest.

Lemma line_of_atom t n s rest :
  exec_ok t -> at_toks b s (atom t ++ rest) -> tree_wf t -> ends rest -> (4 * length (atom t) + 4 <= n)%nat ->
  parses b (parseline n b es s) t rest.
Proof.
  intros Ht H Hw Hr Hn. destruct n as [|[|n]]; [lia..|]. destruct (ends_starts _ Hr) as (H1 & H2 & H3).
  apply line_one; [|done|done]. apply pipe_one; [|done]. apply Ht; [done|done|by apply ends_stops|lia].
Qed.
Fixpoint size (t : tree) : nat :=
  match t with
  | TExec _ => 1
  | TRedir t _ _ _ | TBack t => S (size t)
  | TPipe l r | TList l r => S (size l + size r)
  end.

Lemma line_of_parts t :
  (forall t', (size t' < size t)%nat -> exec_ok t') -> (is_block t = false -> exec_ok t) -> line_ok t.
Proof.
  intros Hsub Hself n s rest H Hw Hr Hn.
  assert (is_block t = false -> parses b (parseline n b es s) t rest) as Hatom.
  { intros Hb. apply line_of_atom; [by apply Hself| |done|done|]; unfold atom, atom_of; by rewrite Hb. }
  destruct (ends_starts _ Hr) as (Hr1 & Hr2 & Hr3).
  assert (forall c l, c ∈ [124; 38; 59] -> stops (Sym c :: l)) as Hstop.
  { intros c l Hc. right. exists c, l. split; [done|]. set_solver. }
  destruct t as [args|t f mode fd|l r|l r|t]; try (by apply Hatom); cbn [toks size tree_wf] in *; clear Hatom.
  - fold (atom l) (atom r) in *. rewrite !length_app in Hn. cbn [length] in Hn. destruct n as [|[|[|n]]]; [lia..|]. destruct Hw as [Hl Hr'].
    apply line_one; [|done|done]. rewrite <- !(assoc_L (++)) in H.
    apply (pipe_two _ _ _ _ (atom r ++ rest)); [apply (Hsub l ltac:(lia)); [done|done|apply Hstop; set_solver|lia]|].
    intros s' H'. apply pipe_one; [|done]. apply (Hsub r ltac:(lia)); [done|done|by apply ends_stops|lia].
  - fold (atom l) (atom r) in *. rewrite !length_app in Hn. cbn [length] in Hn. destruct n as [|[|n]]; [lia..|]. destruct Hw as [Hl Hr'].
    rewrite <- !(assoc_L (++)) in H. apply (line_list _ _ _ _ (atom r ++ rest)).
    + apply pipe_one; [|done]. apply (Hsub l ltac:(lia)); [done|done|apply Hstop; set_solver|lia].
    + intros s' H'. apply line_of_atom; [apply Hsub; lia|done|done|done|lia].
  - fold (atom t) in *. rewrite !length_app in Hn. cbn [length] in Hn. destruct n as [|[|n]]; [lia..|]. rewrite <- !(assoc_L (++)) in H.
    apply line_back; [|done|done]. apply pipe_one; [|done]. apply (Hsub t ltac:(lia)); [done|done|apply Hstop; set_solver|lia].
Qed.

(** A command in parentheses, with redirections. *)
Lemma exec_block t rs n s rest :
  line_ok t -> at_toks b s (Sym 40 :: toks t ++ Sym 41 :: rtoks rs ++ rest) -> tree_wf t -> Forall redir_wf rs -> stops rest ->
  (4 * length (toks t) + 4 * length rs + 10 <= n)%nat -> parses b (parseexec n b es s) (tredirect t rs) rest.
Proof.
  intros Ht H Hw Hrs Hr Hn. destruct n as [|[|n]]; [lia..|]. cbn [parseexec]. rewrite (peek_starts _ _ _ _ H).
  change (starts (Sym 40 :: _) (cstr "(")) with true. cbv iota. remember (S n) as k eqn:Hk. cbn [parseblock]. rewrite Hk. cbn [parseblock].
  rewrite (peek_starts _ _ _ _ H), (gettoken_run _ _ _ _ H). change (starts (Sym 40 :: _) (cstr "(")) with true. cbn [negb].
  pose proof (at_toks_next _ _ _ _ H) as H1.
  destruct (Ht n _ _ H1 Hw ltac:(right; by eexists) ltac:(lia)) as (c & s2 & -> & H2 & Hc & Hg). pstep.
  rewrite (peek_starts _ _ _ _ H2), (gettoken_run _ _ _ _ H2). change (starts (Sym 41 :: _) (cstr ")")) with true. cbn [negb].
  pose proof (at_toks_next _ _ _ _ H2) as H3.
  destruct (parseredirs_run b rs rest (S n) _ H3 Hrs) as (l & s4 & -> & H4 & Hl & Hgl); [apply stops_starts, Hr|lia|]. pstep.
  exists (redirect c l), s4. rewrite spell_redirect, spans_redirect, Hc, Hl. split_and!; [done|done|done|by apply Forall_app_2].
Qed.

Lemma rtoks_length rs : length (rtoks rs) = (2 * length rs)%nat.
Proof.
  induction rs as [|[[f m] fd] rs IH]; [done|]. unfold rtoks in *. rewrite bind_cons, length_app, IH. cbn [length]. lia.
Qed.

Lemma tredirect_size base rs : (size base <= size (tredirect base rs))%nat.
Proof.
  unfold tredirect. revert base. induction rs as [|[[f m] fd] rs IH]; intros base; [done|]. cbn [foldl].
  etrans; [|apply IH]. cbn. lia.
Qed.

Lemma exec_all t : exec_ok t.
Proof.
  induction t as [t IH] using (induction_ltof1 _ size). unfold ltof in IH. intros n s rest H Hw Hr Hn.
  pose proof (strip_spec t) as Hst. destruct (strip t) as [base rs]. destruct Hst as (Ht & Hwf & Ha & Hb).
  destruct (Hwf Hw) as [Hwb Hrs]. rewrite Ha in H, Hn. rewrite <- (assoc_L (++)) in H. rewrite length_app, rtoks_length in Hn.
  pose proof (tredirect_size base rs) as Hsize. rewrite <- Ht in Hsize. destruct base as [args| |l r|l r|c].
  1: { cbn [atom atom_of is_block toks tree_wf] in *. unfold atom in *. cbn [atom_of is_block toks] in *. rewrite length_map in Hn.
    destruct (parseexec_simple b args rs rest n s) as (argv & l & s' & Hrun & H' & Hargs & Hga & Hl & Hgl); [done|done|done|apply Hwb|lia|].
    exists (redirect (EXEC argv) l), s'. rewrite spell_redirect, spans_redirect, Hl. cbn [spell spans]. rewrite Hargs.
    split_and!; [done|done|done|by apply Forall_app_2]. }
  1: { cbn in Hb. destruct (strip _) as [? rs']. injection Hb as _ Hb. by destruct rs'. }
  all: unfold atom, atom_of in H, Hn; cbn [is_block app length] in H, Hn; rewrite length_app in Hn; cbn [length] in Hn.
  all: rewrite Ht; rewrite <- (assoc_L (++)) in H; apply exec_block; [|exact H|done|done|done|lia].
  all: apply line_of_parts; [|done]; intros t' Hlt; apply IH; lia.
Qed.

Lemma line_all t : line_ok t.
Proof. apply line_of_parts; intros; apply exec_all. Qed.

End grammar.

(** ** The shell reads what can be written *)

Lemma is_word_nulfree w : is_word w -> Forall (fun c => c <> 0) w.
Proof. intros [_ H]. eapply Forall_impl; [exact H|]. by intros c []. Qed.

Lemma atom_wf t : Forall token_wf (toks t) -> Forall token_wf (atom t).
Proof.
  intros H. unfold atom, atom_of. destruct (is_block t); [|done].
  constructor; [by apply (bool_decide_unpack _); vm_compute|]. apply Forall_app_2; [done|]. constructor; [|constructor].
  by apply (bool_decide_unpack _); vm_compute.
Qed.

Lemma toks_wf t : tree_wf t -> Forall token_wf (toks t).
Proof.
  assert (forall c, bool_decide (c ∈ symbols) = true -> token_wf (Sym c)) as Hs by (intros c Hc; by apply bool_decide_eq_true in Hc).
  induction t as [args|t IH f mode fd|l IHl r IHr|l IHl r IHr|t IH]; cbn [toks tree_wf]; intros Hw.
  - destruct Hw as [Hw _]. by apply Forall_map.
  - destruct Hw as (Hw & Hf & _). apply Forall_app_2; [by apply atom_wf, IH|]. constructor; [|constructor; [exact Hf|constructor]].
    apply Hs. by destruct (fd =? 0).
  - destruct Hw. apply Forall_app_2; [by apply atom_wf, IHl|]. constructor; [by apply Hs|by apply atom_wf, IHr].
  - destruct Hw. apply Forall_app_2; [by apply atom_wf, IHl|]. constructor; [by apply Hs|by apply atom_wf, IHr].
  - apply Forall_app_2; [by apply atom_wf, IH|]. constructor; [by apply Hs|constructor].
Qed.

Lemma text_strlen l : Forall token_wf l -> strlen (text l) = Z.of_nat (length (text l)).
Proof.
  intros Hl. assert (Forall (fun c => c <> 0) (text l)) as Hn.
  { induction Hl as [|t l Ht Hl IH]; [constructor|]. rewrite text_cons. apply Forall_app_2; [|by constructor].
    destruct t as [w|c]; cbn [txt]; [by apply is_word_nulfree|]. constructor; [|constructor].
    by destruct (first_char _ Ht). }
  induction Hn as [|c s Hc Hs IH]; [done|]. cbn [strlen length]. rewrite (proj2 (Z.eqb_neq _ _) Hc), IH. lia.
Qed.

Lemma text_length l : Forall token_wf l -> (2 * length l <= length (text l))%nat.
Proof.
  induction 1 as [|t l Ht Hl IH]; [done|]. rewrite text_cons, length_app. destruct (txt_cons t Ht) as (w & ->). cbn [length]. lia.
Qed.

(** C16: The shell parses every command it can represent.  Any tree of simple commands
    with up to nine words, redirections, pipes, lists and background commands can be written
    as a line, and from that line [parsecmd] builds that very tree: it reports no
    error, consumes the line, nests lists, pipes and parentheses as written, keeps the redirections in
    order, and, after [nulterminate], every word of the tree reads from the line as
    the string it stands for. *)
Theorem parsecmd_roundtrip t :
  tree_wf t -> exists c b', parsecmd (command_line t) = mret (c, b') /\ read_cmd b' c = t.
Proof.
  intros Hw. pose proof (toks_wf t Hw) as Hwf. unfold parsecmd, command_line. rewrite (text_strlen _ Hwf), Nat2Z.id.
  set (b := text (toks t)). pose proof (text_length _ Hwf) as Hlen. fold b in Hlen.
  destruct (line_all b t (parse_depth (length b)) O []) as (c & s & -> & Hs & Hc & Hg).
  - split; [by rewrite app_nil_r|by rewrite app_nil_r|lia].
  - done.
  - by left.
  - unfold parse_depth. lia.
  - pstep. rewrite (peek_starts _ _ _ _ Hs). assert (s = length b) as ->.
    { destruct Hs as [Hd _ Hp]. apply (f_equal length) in Hd. rewrite length_drop in Hd. cbn in Hd. lia. }
    rewrite Nat.eqb_refl. exists c, (nulterminate c b). split; [done|]. by rewrite read_spell.
Qed.

Lemma parsecmd_roundtrip_witness :
  exists c b', parsecmd (command_line (TBack (TPipe (TExec [cstr "grep"; cstr "a"]) (TRedir (TList (TExec [cstr "wc"]) (TExec [])) (cstr "out") WR_CREATE 1))))
      = mret (c, b')
    /\ read_cmd b' c = TBack (TPipe (TExec [cstr "grep"; cstr "a"]) (TRedir (TList (TExec [cstr "wc"]) (TExec [])) (cstr "out") WR_CREATE 1)).
Proof.
  apply (parsecmd_roundtrip (TBack (TPipe (TExec [cstr "grep"; cstr "a"]) (TRedir (TList (TExec [cstr "wc"]) (TExec [])) (cstr "out") WR_CREATE 1)))).
  cbn [tree_wf]. split_and!; try (cbn; lia); try (by right); repeat constructor; done.
Defined.
