(* ===== verification/ShTotal.v ===== *)
(** sh.c: the parser on arbitrary lines.  It ends, and the words of the command it
    builds are words. *)
From S2P Require Import Prelude Kernel Spinlock Console CString User Sh.

(** A format with one string. *)
Lemma returns_print fd pre post s :
  ~ 37 ∈ pre -> ~ 37 ∈ post ->
  returns (printf_loop fd (pre ++ [37; 115] ++ post) false [AStr (Some s)]) (fun _ => True).
Proof.
  intros Hpre Hpost. assert (forall l args, ~ 37 ∈ l -> returns (printf_loop fd l false args) (fun _ => True)) as Hl.
  { induction l as [|c l IH]; intros args Hn; [done|]. apply not_elem_of_cons in Hn as [Hc Hn]. cbn [printf_loop negb].
    rewrite (proj2 (Z.eqb_neq _ _)) by done. intros r _. by apply IH. }
  induction pre as [|c pre IH].
  - cbn [app printf_loop negb Z.eqb Pos.eqb orb default]. apply (under_bind _ _ _ (fun _ => True)); [by apply under_put_all|].
    intros _ _. by apply Hl.
  - apply not_elem_of_cons in Hpre as [Hc Hpre]. cbn [app printf_loop negb]. rewrite (proj2 (Z.eqb_neq _ _)) by done.
    intros r _. by apply IH.
Qed.

Lemma returns_panic {A} s (Q : A -> Prop) : returns (panic s) Q.
Proof.
  apply (under_bind _ _ _ (fun _ => True)); [|intros; apply under_exit].
  apply (returns_print 2 [] [10]); by apply (bool_decide_unpack _); vm_compute.
Qed.

(** ** Tokens *)

Section tokens.
Context (b : list Z).

(** The characters before [es] are those of the line, which a 0 ends. *)
Record line_end (es : nat) : Prop := LineEnd {
  le_end : at_buf b es = 0;
  le_chars : forall i, (i < es)%nat -> at_buf b i <> 0;
  le_len : (es <= length b)%nat
}.

Lemma skip_total p es n s :
  (s <= es)%nat -> (es - s <= n)%nat ->
  let r := skip n p b es s in
  (s <= r <= es)%nat /\ (forall i, (s <= i < r)%nat -> p (at_buf b i) = true) /\ (r = es \/ p (at_buf b r) = false).
Proof.
  revert s. induction n as [|n IH]; intros s Hs Hn; cbn [skip].
  - split; [lia|]. split; [lia|]. left. lia.
  - destruct (Nat.ltb_spec s es) as [Hlt|Hge]; cbn [andb]; [|split; [lia|]; split; [lia|]; left; lia].
    destruct (p (at_buf b s)) eqn:Hp; [|split; [lia|]; split; [lia|]; by right].
    destruct (IH (S s) ltac:(lia) ltac:(lia)) as (H1 & H2 & H3). split; [lia|]. split; [|exact H3].
    intros i Hi. destruct (decide (i = s)) as [->|]; [exact Hp|]. apply H2. lia.
Qed.

Lemma skip_while_total p es s :
  (s <= es)%nat ->
  let r := skip_while p b es s in
  (s <= r <= es)%nat /\ (forall i, (s <= i < r)%nat -> p (at_buf b i) = true) /\ (r = es \/ p (at_buf b r) = false).
Proof. intros Hs. by apply skip_total. Qed.

Context (es : nat) (He : line_end es).

Lemma at_end_zero s : (s <= es)%nat -> at_buf b s <> 0 -> (s < es)%nat.
Proof. intros Hs Hn. destruct (decide (s = es)) as [->|]; [|lia]. by rewrite (le_end _ He) in Hn. Qed.

Lemma peek_total s cs : (s <= es)%nat ->
  let '(r, s') := peek b es s cs in
  (s <= s' <= es)%nat /\ (r = true -> (s' < es)%nat /\ at_buf b s' ∈ cs /\ oneof whitespace (at_buf b s') = false).
Proof.
  intros Hs. unfold peek. destruct (skip_while_total (oneof whitespace) es s Hs) as (H1 & _ & H2). split; [done|].
  intros [Hn Hc]%andb_true_iff. apply nz_true in Hn. pose proof (at_end_zero _ (proj2 H1) Hn) as Hlt.
  split; [done|]. split; [by apply oneof_elem|]. destruct H2 as [H2|H2]; [lia|done].
Qed.

Lemma not_symbol c :
  (c =? 124) || (c =? 40) || (c =? 41) || (c =? 59) || (c =? 38) || (c =? 60) = false -> c <> 62 -> oneof symbols c = false.
Proof.
  intros H H62. destruct (oneof symbols c) eqn:Hc; [|done]. apply oneof_elem, symbols_cases in Hc. lia.
Qed.

(** The word that starts at [q]. *)
Lemma word_total q :
  (q < es)%nat -> at_buf b q <> 0 -> oneof whitespace (at_buf b q) = false -> oneof symbols (at_buf b q) = false ->
  let eq := skip_while (fun c => negb (oneof whitespace c) && negb (oneof symbols c)) b es q in
  (q < eq <= es)%nat /\ good b (q, eq).
Proof.
  intros Hq H0 Hw Hs. cbn zeta. set (p := fun c => _).
  destruct (skip_while_total p es q ltac:(lia)) as (H1 & H2 & H3). set (eq := skip_while p b es q) in *.
  assert (q < eq)%nat as Hlt.
  { destruct (decide (eq = q)) as [E|]; [|lia]. rewrite E in H3. destruct H3 as [H3|H3]; [lia|]. subst p. cbv beta in H3. by rewrite Hw, Hs in H3. }
  split; [lia|]. pose proof (le_len _ He). split; cbn [fst snd]; [|intros (Hn & Hw' & Hs')|lia].
  - split.
    + intros Hnil. apply (f_equal length) in Hnil. unfold span in Hnil. cbn [fst snd] in Hnil.
      rewrite length_take, length_drop in Hnil. cbn in Hnil. lia.
    + apply Forall_lookup. intros i c Hi. unfold span in Hi. cbn [fst snd] in Hi. apply lookup_take_Some in Hi as [Hi Hil].
      rewrite lookup_drop in Hi. assert (at_buf b (q + i) = c) as <- by (unfold at_buf; by rewrite Hi).
      pose proof (le_chars _ He (q + i)%nat ltac:(lia)). specialize (H2 (q + i)%nat ltac:(lia)). subst p. cbv beta in H2.
      apply andb_true_iff in H2 as [?%negb_true_iff ?%negb_true_iff]. done.
  - destruct H3 as [H3|H3]; [rewrite H3, (le_end _ He) in Hn; done|]. subst p. cbv beta in H3. by rewrite Hw', Hs' in H3.
Qed.

(** A token advances unless the line is at its end, and a word is one. *)
Lemma gettoken_total s : (s <= es)%nat ->
  let '(tok, w, s') := gettoken b es s in
  (s <= s' <= es)%nat /\ (tok <> 0 -> (s < s')%nat) /\ (tok = 97 -> good b w).
Proof.
  intros Hs. unfold gettoken. destruct (skip_while_total (oneof whitespace) es s Hs) as (H1 & _ & H2).
  set (q := skip_while _ b es s) in *. pose proof (le_len _ He) as Hlen.
  assert (forall r, (r <= es)%nat -> (r <= skip_while (oneof whitespace) b es r <= es)%nat) as Hws.
  { intros r Hr. by destruct (skip_while_total (oneof whitespace) es r Hr) as (? & _). }
  destruct (Z.eqb_spec (at_buf b q) 0) as [H0|Hn0].
  { specialize (Hws q ltac:(lia)). rewrite H0. split; [lia|]. split; [done|]. by intros [=]. }
  pose proof (at_end_zero q ltac:(lia) Hn0) as Hlt.
  destruct (_ || _) eqn:Hsym.
  { specialize (Hws (S q) ltac:(lia)). split; [lia|]. split; [lia|]. intros Hc. rewrite Hc in Hsym. discriminate Hsym. }
  destruct (Z.eqb_spec (at_buf b q) 62) as [H62|Hn62].
  { destruct (Z.eqb_spec (at_buf b (S q)) 62) as [H62'|_].
    - pose proof (at_end_zero (S q) ltac:(lia) ltac:(lia)). specialize (Hws (S (S q)) ltac:(lia)). split; [lia|]. split; [lia|]. by intros [=].
    - specialize (Hws (S q) ltac:(lia)). split; [lia|]. split; [lia|]. lia. }
  destruct (word_total q) as (Heq & Hg); [lia|done|by destruct H2; [lia|]|by apply not_symbol|].
  set (eq := skip_while _ b es q) in *. specialize (Hws eq ltac:(lia)). split; [lia|]. split; [lia|done].
Qed.

(** ** The parser *)

(** A result that has advanced from [s], with words of the line. *)
Definition advanced {A} (words : A -> list (nat * nat)) (s : nat) (r : A * nat) : Prop :=
  (s <= r.2 <= es)%nat /\ Forall (good b) (words r.1).

(** A token that [peek] has seen is consumed. *)
Lemma gettoken_seen s :
  (s < es)%nat -> oneof whitespace (at_buf b s) = false -> (s < (gettoken b es s).2 <= es)%nat.
Proof.
  intros Hs Hw. pose proof (gettoken_total s ltac:(lia)) as H.
  assert ((gettoken b es s).1.1 <> 0) as Hn.
  { unfold gettoken. destruct (skip_while_total (oneof whitespace) es s ltac:(lia)) as (H1 & H2 & _).
    set (q := skip_while (oneof whitespace) b es s) in *.
    assert (q = s) as ->. { destruct (decide (q = s)); [done|]. rewrite (H2 s ltac:(lia)) in Hw. done. }
    pose proof (le_chars _ He s Hs) as Hc. rewrite (proj2 (Z.eqb_neq _ _) Hc).
    destruct (_ || _); [done|]. destruct (at_buf b s =? 62); [|done]. by destruct (at_buf b (S s) =? 62). }
  destruct (gettoken b es s) as [[tok w] s']. destruct H as (H1 & H2 & _). specialize (H2 Hn). cbn. lia.
Qed.

(** One [peek], one [gettoken] after it, or one [gettoken]. *)
Ltac look s :=
  match goal with
  | |- context [peek b es ?s0 ?cs] =>
      let H := fresh "H" in pose proof (peek_total s0 cs ltac:(lia)) as H;
      destruct (peek b es s0 cs) as [[] s]; cbn [negb];
      [destruct H as [? (? & _ & ?)]; [done|] | destruct H as [? _]]
  end.
Ltac seen s :=
  match goal with
  | H : oneof whitespace (at_buf b ?s0) = false |- context [gettoken b es ?s0] =>
      let E := fresh "E" in pose proof (gettoken_seen s0 ltac:(lia) H) as E;
      destruct (gettoken b es s0) as [[? ?] s]; cbn [snd] in E
  end.
Ltac take_token tok w s :=
  match goal with
  | |- context [gettoken b es ?s0] =>
      let H := fresh "H" in pose proof (gettoken_total s0 ltac:(lia)) as H;
      destruct (gettoken b es s0) as [[tok w] s]; destruct H as (? & ? & ?)
  end.
Ltac sub lem := apply (under_bind _ _ _ _ _ lem).

Lemma parseredirs_total n s :
  (s <= es)%nat -> (es - s < n)%nat -> returns (parseredirs n b es s) (advanced (map rspan) s).
Proof.
  revert s. induction n as [|n IH]; intros s Hs Hn; [lia|]. cbn [parseredirs].
  look s1; [|apply under_ret; split; [cbn; lia|constructor]].
  seen s2. take_token t w s3. destruct w as [q eq].
  destruct (Z.eqb_spec t 97) as [-> |]; cbn [negb]; [|apply returns_panic].
  sub (IH s3 ltac:(lia) ltac:(lia)). intros [l' s4] [? Hl]. cbn [fst snd] in *. apply under_ret. split; [cbn; lia|].
  cbn [fst]. rewrite map_app. apply Forall_app. split; [|done].
  repeat case_match; cbn [map rspan]; rewrite ?Forall_singleton; auto using Forall_nil_2.
Qed.

Definition args_advanced (s : nat) (r : list (nat * nat) * list redir * nat) : Prop :=
  (s <= r.2 <= es)%nat /\ Forall (good b) r.1.1 /\ Forall (good b) (map rspan r.1.2).

Lemma parseargs_total n s argv rs :
  (s <= es)%nat -> (es - s < n)%nat -> Forall (good b) argv -> Forall (good b) (map rspan rs) ->
  returns (parseargs n b es s argv rs) (args_advanced s).
Proof.
  revert s argv rs. induction n as [|n IH]; intros s argv rs Hs Hn Ha Hr; [lia|].
  assert (forall s', (s <= s' <= es)%nat -> args_advanced s (argv, rs, s')) as Hend by (intros; split; [cbn; lia|done]).
  cbn [parseargs]. look s1; [apply under_ret, Hend; lia|].
  take_token t w s2. destruct (Z.eqb_spec t 0) as [_|Ht]; [apply under_ret, Hend; lia|].
  destruct (Z.eqb_spec t 97) as [-> |]; cbn [negb]; [|apply returns_panic].
  destruct (MAXARGS <=? _)%nat; [apply returns_panic|].
  sub (parseredirs_total (S n) s2 ltac:(lia) ltac:(lia)). intros [l s3] [? Hl]. cbn [fst snd] in *.
  assert (s < s2)%nat by auto with lia.
  apply (under_mono _ _ (args_advanced s3)).
  - intros r [? ?]. split; [lia|done].
  - apply IH; [lia|lia|apply Forall_app; auto|rewrite map_app; by apply Forall_app].
Qed.

Lemma parsebacks_total n s c :
  (s <= es)%nat -> (es - s < n)%nat -> Forall (good b) (spans c) ->
  returns (parsebacks n b es s c) (advanced spans s).
Proof.
  revert s c. induction n as [|n IH]; intros s c Hs Hn Hc; [lia|]. cbn [parsebacks].
  look s1; [|apply under_ret; split; [cbn; lia|done]].
  seen s2. apply (under_mono _ _ (advanced spans s2)); [intros r [? ?]; split; [lia|done]|]. apply IH; [lia|lia|done].
Qed.

Definition total_at (k : nat) (parse : nat -> list Z -> nat -> nat -> prog (cmd * nat)) (n : nat) : Prop :=
  forall s, (s <= es)%nat -> (4 * (es - s) + k <= n)%nat -> returns (parse n b es s) (advanced spans s).

Lemma parseblock_total n : total_at 4 parseline n -> total_at 1 parseblock (S n).
Proof.
  intros IH s Hs Hn. cbn [parseblock]. look s1; [|apply returns_panic]. seen s2.
  sub (IH s2 ltac:(lia) ltac:(lia)). intros [c s3] [? Hc]. cbn [fst snd] in *.
  look s4; [|apply returns_panic]. seen s5.
  sub (parseredirs_total (S n) s5 ltac:(lia) ltac:(lia)). intros [rs s6] [? Hr]. cbn [fst snd] in *.
  apply under_ret. split; [cbn; lia|]. cbn [fst]. rewrite spans_redirect. by apply Forall_app.
Qed.

Lemma parseexec_total n : total_at 1 parseblock n -> total_at 2 parseexec (S n).
Proof.
  intros IH s Hs Hn. cbn [parseexec]. look s1.
  - apply (under_mono _ _ (advanced spans s1)); [intros r [? ?]; split; [lia|done]|]. apply IH; lia.
  - sub (parseredirs_total (S n) s1 ltac:(lia) ltac:(lia)). intros [rs s2] [? Hr]. cbn [fst snd] in *.
    sub (parseargs_total (S n) s2 [] rs ltac:(lia) ltac:(lia) (Forall_nil_2 _) Hr). intros [[argv rs'] s3] (? & Ha & Hr').
    cbn [fst snd] in *. apply under_ret. split; [cbn; lia|]. cbn [fst]. rewrite spans_redirect. by apply Forall_app.
Qed.

Lemma parsepipe_total n : total_at 2 parseexec n -> total_at 3 parsepipe n -> total_at 3 parsepipe (S n).
Proof.
  intros IHe IHp s Hs Hn. cbn [parsepipe]. sub (IHe s ltac:(lia) ltac:(lia)). intros [c s1] [? Hc]. cbn [fst snd] in *.
  look s2; [|apply under_ret; split; [cbn; lia|done]]. seen s3.
  sub (IHp s3 ltac:(lia) ltac:(lia)). intros [r s4] [? Hr]. cbn [fst snd] in *.
  apply under_ret. split; [cbn; lia|]. by apply Forall_app.
Qed.

Lemma parseline_total n : total_at 3 parsepipe n -> total_at 4 parseline n -> total_at 4 parseline (S n).
Proof.
  intros IHp IHl s Hs Hn. cbn [parseline]. sub (IHp s ltac:(lia) ltac:(lia)). intros [c s1] [? Hc]. cbn [fst snd] in *.
  sub (parsebacks_total (S n) s1 c ltac:(lia) ltac:(lia) Hc). intros [c' s2] [? Hc']. cbn [fst snd] in *.
  look s3; [|apply under_ret; split; [cbn; lia|done]]. seen s4.
  sub (IHl s4 ltac:(lia) ltac:(lia)). intros [r s5] [? Hr]. cbn [fst snd] in *.
  apply under_ret. split; [cbn; lia|]. by apply Forall_app.
Qed.

Lemma parser_total n :
  total_at 4 parseline n /\ total_at 3 parsepipe n /\ total_at 2 parseexec n /\ total_at 1 parseblock n.
Proof.
  induction n as [|n (IHl & IHp & IHe & IHb)].
  - repeat split; intros s Hs Hn; lia.
  - auto using parseblock_total, parseexec_total, parsepipe_total, parseline_total.
Qed.

End tokens.

(** The words of a command. *)
Fixpoint words (t : tree) : list (list Z) :=
  match t with
  | TExec args => args
  | TRedir t file _ _ => words t ++ [file]
  | TPipe l r | TList l r => words l ++ words r
  | TBack t => words t
  end.

Lemma words_spell b c : words (spell b c) = map (span b) (spans c).
Proof. induction c; cbn [spell words spans]; rewrite ?map_app; cbn [map]; congruence. Qed.

Lemma length_zeros l b : length (zeros l b) = length b.
Proof. unfold zeros. revert b. induction l as [|w l IH]; intros b; [done|]. cbn [foldl]. by rewrite IH, length_insert. Qed.

Lemma strlen_nonneg b : 0 <= strlen b.
Proof. induction b as [|c b IH]; [done|]. cbn [strlen]. destruct (c =? 0); lia. Qed.

Lemma line_end_strlen b : line_end b (Z.to_nat (strlen b)).
Proof.
  induction b as [|c b IH]; [split; [done|cbn; lia|done]|]. cbn [strlen]. pose proof (strlen_nonneg b).
  destruct (Z.eqb_spec c 0) as [->|Hc]; [split; cbn; [done|lia|lia]|]. rewrite Z2Nat.inj_add by lia.
  destruct IH as [H1 H2 H3]. split; [exact H1| |cbn; lia]. intros [|i] Hi; [exact Hc|]. apply H2. cbn in Hi. lia.
Qed.

(** C29: The shell parses every line: whatever the bytes of the line, [parsecmd] either
    exits or returns a command, and never runs past the end of the
    line or loops.  The command's words, as [runcmd] reads them from the line after
    [nulterminate], are non-empty and free of blanks and of the shell's symbols; none is
    cut short or runs on into the next. *)
Theorem parsecmd_terminates b :
  returns (parsecmd b) (fun '(c, b') => length b' = length b /\ Forall is_word (words (read_cmd b' c))).
Proof.
  pose proof (line_end_strlen b) as He. unfold parsecmd. set (es := Z.to_nat (strlen b)) in *.
  destruct (parser_total b es He (parse_depth es)) as (Hl & _).
  eapply under_bind; [apply (Hl O); unfold parse_depth; lia|]. intros [c s] [Hs Hc]. cbn [fst snd] in *.
  pose proof (peek_total b es He s [] ltac:(lia)) as Hp. destruct (peek b es s []) as [r s']. destruct Hp as [Hs' _].
  destruct (s' =? es)%nat; cbn [negb].
  - apply under_ret. split.
    + rewrite nulterminate_spans. apply length_zeros.
    + rewrite read_spell, words_spell by done. apply Forall_map. eapply Forall_impl; [exact Hc|]. by intros w [].
  - eapply under_bind; [|intros; apply returns_panic].
    apply (returns_print 2 (cstr "leftovers: ") [10]); by apply (bool_decide_unpack _); vm_compute.
Qed.
