(* ===== verification/Ls.v ===== *)
(** ls.c, and the test programs test.c, stressfs.c and forktest.c.

    [rounds] bounds the reads of a directory. *)
From S2P Require Import Prelude Kernel Spinlock Console CString Bytes User Umalloc Sh.

(** ** ls.c *)

(** [for(p=path+strlen(path); p >= path && *p != '/'; p--); p++;]: the index of [p], the search being at [i]. *)
Fixpoint base_index (path : list Z) (i : nat) : nat :=
  if at_buf path i =? 47 then S i else match i with O => O | S i' => base_index path i' end.

(** The static [buf] is filled anew in each call, up to its last byte, which is always 0. *)
Definition fmtname (path : list Z) : list Z :=
  let p := cstring (drop (base_index path (Z.to_nat (strlen path))) path) in
  if 14 <=? strlen p then p else p ++ replicate (14 - length p) 32.

(** The members of a [struct stat] that are printed. *)
Definition st_type (st : list Z) : Z := i16 (get16 st 0).
Definition st_ino (st : list Z) : Z := get32 st 8.
Definition st_size (st : list Z) : Z := get32 st 16.

Definition print_entry (name st : list Z) : prog unit :=
  printf 1 "%s %d %d %d
" [AStr (Some (fmtname name)); AInt (st_type st); AInt (st_ino st); AInt (st_size st)].

(** [buf] when the entry [de] is looked at. *)
Definition entry_path (path de : list Z) : list Z := cstring (cstring path ++ [47] ++ take 14 (drop 2 de)).

Fixpoint ls_entries (rounds : nat) (fd : Z) (path : list Z) : prog unit :=
  match rounds with
  | O => Abort OutOfFuel
  | S rounds' =>
      '(n, de) ← sys (Read fd 16) ;
      if negb (n =? 16) then mret tt else
      if get16 de 0 =? 0 then ls_entries rounds' fd path else
      let buf := entry_path path de in
      '(r, st) ← stat buf ;
      (if r <? 0 then printf 1 "ls: cannot stat %s
" [AStr (Some buf)]
       else print_entry buf st) ;;
      ls_entries rounds' fd path
  end.

Definition ls (rounds : nat) (path : list Z) : prog unit :=
  fd ← sys (Open path 0) ;
  if fd <? 0 then printf 2 "ls: cannot open %s
" [AStr (Some path)]
  else
  '(r, st) ← sys (Fstat fd) ;
  if r <? 0 then
    printf 2 "ls: cannot stat %s
" [AStr (Some path)] ;;
    sys (Close fd) ;;
    mret tt
  else
  (if st_type st =? 2 then print_entry path st
   else if st_type st =? 1 then
     if 512 <? strlen path + 1 + 14 + 1 then printf 1 "ls: path too long
" []
     else ls_entries rounds fd path
   else mret tt) ;;
  sys (Close fd) ;;
  mret tt.

Fixpoint ls_all (rounds : nat) (paths : list (list Z)) : prog unit :=
  match paths with
  | [] => mret tt
  | path :: paths' => ls rounds path ;; ls_all rounds paths'
  end.
Definition ls_main (rounds : nat) (argv : list (list Z)) : prog unit :=
  (if (length argv <? 2)%nat then ls rounds (cstr ".") else ls_all rounds (tail argv)) ;;
  exit.

(** ** stressfs.c *)

(** [for(i = 0; i < 4; i++) if(fork() > 0) break;]: the value of [i]. *)
Fixpoint stress_fork (n : nat) (i : Z) : prog Z :=
  match n with
  | O => mret i
  | S n' =>
      pid ← sys Fork ;
      if 0 <? pid then mret i else stress_fork n' (i + 1)
  end.

Fixpoint repeat_call {R : Set} (n : nat) (c : call R) : prog unit :=
  match n with O => mret tt | S n' => sys c ;; repeat_call n' c end.

Definition stressfs_main : prog unit :=
  printf 1 "stressfs starting
" [] ;;
  i ← stress_fork 4 0 ;
  printf 1 "write %d
" [AInt i] ;;
  let path := <[8%nat := u8 (48 + i)]> (cstr "stressfs0") in
  fd ← sys (Open path (Z.lor 0x200 0x002)) ;
  repeat_call 20 (Write fd (replicate 512 97)) ;;
  sys (Close fd) ;;
  printf 1 "read
" [] ;;
  fd ← sys (Open path 0) ;
  repeat_call 20 (Read fd 512) ;;
  sys (Close fd) ;;
  sys Wait ;;
  exit.

(** ** forktest.c *)

(** The program's own [printf] writes the format. *)
Definition put (s : string) : prog unit := sys (Write 1 (cstr s)) ;; mret tt.

(** The first loop, from [n] on, where [k] rounds are left; then the second. *)
Fixpoint forktest_forks (k : nat) (n : nat) : prog nat :=
  match k with
  | O => mret n
  | S k' =>
      pid ← sys Fork ;
      if pid <? 0 then mret n else
      if pid =? 0 then exit else forktest_forks k' (S n)
  end.
Fixpoint forktest_waits (n : nat) : prog unit :=
  match n with
  | O => mret tt
  | S n' =>
      r ← sys Wait ;
      if r <? 0 then put "wait stopped early
" ;; exit else forktest_waits n'
  end.

Definition forktest : prog unit :=
  put "fork test
" ;;
  n ← forktest_forks 1000 0 ;
  if (n =? 1000)%nat then put "fork claimed to work N times!
" ;; exit else
  forktest_waits n ;;
  r ← sys Wait ;
  if negb (r =? -1) then put "wait got too many
" ;; exit else
  put "fork test OK
".
Definition forktest_main : prog unit := forktest ;; exit.
