(* ===== verification/TestContainers.v ===== *)
(** test.c: the program that exercises the containers.

    It reads memory it has not initialised: [stack] has the bytes a local array holds
    before it is filled, and what lies behind it, and [text] the bytes at address 0, which it
    passes as a string.  [base] and [n] are those of [malloc]. *)
From S2P Require Import Prelude Kernel Spinlock Console CString Bytes User Umalloc Sh Ls.

Section test.
Context (stack text : list Z) (base : Z) (n : nat).

(** The array after [l] has been stored in it. *)
Definition filled (l : list Z) : list Z := l ++ drop (length l) stack.

Definition test_cat (s : list Z) : prog unit :=
  f ← sys (Open s 2) ;
  (if f <? 0 then printf 1 "%s
" [AStr (Some (cstr "Cat : Error"))] else mret tt) ;;
  '(r, l) ← sys (Read f 13) ;
  printf 1 "%s
" [AStr (Some (cstring (filled (take (Z.to_nat r) l))))] ;;
  sys (Close f) ;;
  mret tt.

(** The loop of [ls1]; [rest] has the bytes from [p[DIRSIZ]] on. *)
Fixpoint ls1_entries (rounds : nat) (fd : Z) (path rest : list Z) : prog unit :=
  match rounds with
  | O => Abort OutOfFuel
  | S rounds' =>
      '(r, de) ← sys (Read fd 16) ;
      if negb (r =? 16) then mret tt else
      if get16 de 0 =? 0 then ls1_entries rounds' fd path rest else
      let buf := cstring path ++ [47] ++ take 14 (drop 2 de) ++ rest in
      let c := length (cstring buf) in
      let num := at_buf buf (c - 1) - 48 in
      cid ← sys Getcid ;
      if (0 <? num) && (num <? 8) && negb (cid =? 0) && negb (cid =? num) then ls1_entries rounds' fd path rest else
      let rest := <[0%nat := 0]> rest in
      let buf := entry_path path de in
      '(e, st) ← stat buf ;
      (if e <? 0 then printf 1 "%s
" [AStr (Some (fmtname buf))]
       else print_entry buf st) ;;
      ls1_entries rounds' fd path rest
  end.

Definition ls1 (rounds : nat) (path : list Z) : prog unit :=
  fd ← sys (Open path 0) ;
  if fd <? 0 then printf 2 "ls: cannot open %s
" [AStr (Some path)]
  else
  '(r, st) ← sys (Fstat fd) ;
  if r <? 0 then
    printf 2 "ls: cannot stat %s
" [AStr (Some path)] ;;
    sys (Close fd) ;;
    mret tt
  else
  (if st_type st =? 2 then print_entry path st
   else if st_type st =? 1 then
     if 512 <? strlen path + 1 + 14 + 1 then printf 1 "ls: path too long
" []
     else ls1_entries rounds fd path (drop (length (cstring path) + 15) stack)
   else mret tt) ;;
  sys (Close fd) ;;
  mret tt.

Definition test_ls (rounds : nat) : prog Z := ls1 rounds (cstr ".") ;; mret 1.

(** The first two children. *)
Definition sleeper (id : Z) : prog unit :=
  sys (Join_container id) ;;
  sys (Sleep 150) ;;
  sys Leave_container ;;
  exit.

(** The other three.  [strcpy(st+12,&c)] copies the character and what follows it in the
    memory, and [strcpy(st+13,0)] the string at address 0. *)
Definition writer (id : Z) : prog unit :=
  sys (Join_container id) ;;
  sys Ps ;;
  sys (Sleep 120) ;;
  '(_, h) ← malloc base n (Heap ∅ 0) 10 ;
  pid ← sys Getpid ;
  num ← (if 9 <? pid then p ← sys Getpid ; mret (p - 10) else sys Getpid) ;
  let str := cstr "file" ++ [u8 (num + 48)] ++ strcpy [] (cstr ".txt") in
  fd1 ← sys (Open (cstring str) (Z.lor 0x200 0x002)) ;
  sys (Close fd1) ;;
  fd ← sys (Open (cstr "my_file") (Z.lor 0x200 0x002)) ;
  malloc base n h 14 ;;
  let st := strcpy [] (cstr "Modified by:") in
  let st := take 12 st ++ strcpy (drop 12 st) (u8 (num + 48) :: stack) in
  let st := take 13 st ++ strcpy (drop 13 st) text in
  sys (Write fd (take 14 st)) ;;
  sys (Close fd) ;;
  f ← sys (Open (cstr "my_file") 2) ;
  '(r, l) ← sys (Read f 13) ;
  printf 1 "%s
" [AStr (Some (cstring (filled (take (Z.to_nat r) l))))] ;;
  sys (Close f) ;;
  sys Leave_container ;;
  exit.

(** [int f = fork(); if(f==0){ ... }] *)
Definition child (m : prog unit) : prog unit :=
  f ← sys Fork ;
  if f =? 0 then m else mret tt.

Definition test_main : prog unit :=
  sys Create_container ;;
  sys Create_container ;;
  sys Create_container ;;
  child (sleeper 1) ;;
  child (sleeper 1) ;;
  child (writer 1) ;;
  child (writer 2) ;;
  child (writer 3) ;;
  sys Scheduler_log_on ;;
  sys (Sleep 10) ;;
  sys Scheduler_log_off ;;
  sys (Sleep 200) ;;
  sys Memory_log_on ;;
  sys (Container_malloc 8) ;;
  sys (Destroy_container 1) ;;
  sys (Destroy_container 2) ;;
  sys (Destroy_container 3) ;;
  repeat_call 5 Wait ;;
  exit.
End test.
