(* ===== verification/UserTests.v ===== *)
(** usertests.c: the program that tests the system calls.

    The global array [buf] is passed from test to test that uses it.  [rounds] bounds the
    rounds of the loops that wait for the end of a file or of the memory; [base] and [n] are
    those of [malloc].  A process that spins until it is killed is [Abort Hung]. *)
From S2P Require Import Prelude Kernel Spinlock Console CString Bytes User Umalloc Sh.

(** ** Idioms of the tests *)

(** [for(i = lo; i < hi; i++)] with the variables [a]; with a [break] or [return]; any loop. *)
Fixpoint count {A} (k : nat) (i : Z) (f : Z -> A -> prog A) (a : A) : prog A :=
  match k with O => mret a | S k' => a ← f i a ; count k' (i + 1) f a end.
Definition range {A} (lo hi : Z) (f : Z -> A -> prog A) (a : A) : prog A := count (Z.to_nat (hi - lo)) lo f a.
Definition each (lo hi : Z) (f : Z -> prog unit) : prog unit := range lo hi (fun i _ => f i) tt.

Fixpoint count_until {A B} (k : nat) (i : Z) (f : Z -> A -> prog (A + B)) (a : A) : prog (A + B) :=
  match k with
  | O => mret (inl a)
  | S k' => r ← f i a ; match r with inl a => count_until k' (i + 1) f a | inr b => mret (inr b) end
  end.

Fixpoint loop {A B} (rounds : nat) (f : A -> prog (A + B)) (a : A) : prog B :=
  match rounds with
  | O => Abort OutOfFuel
  | S rounds' => r ← f a ; match r with inl a => loop rounds' f a | inr b => mret b end
  end.

(** [printf] of a line, and [if(c){ printf(...); exit(); }]. *)
Definition newline : string := String (Ascii.ascii_of_nat 10) "".
Definition println (fd : Z) (fmt : string) (args : list carg) : prog unit := printf fd (fmt +:+ newline) args.
Definition fails (c : bool) (fmt : string) (args : list carg) : prog unit :=
  if c then println 1 fmt args ;; exit else mret tt.

Definition opens (path : string) (mode : Z) : prog Z := sys (Open (cstr path) mode).
Definition unlinks (path : string) : prog Z := sys (Unlink (cstr path)).
Definition links (old new : string) : prog Z := sys (Link (cstr old) (cstr new)).
Definition mkdirs (path : string) : prog Z := sys (Mkdir (cstr path)).
Definition chdirs (path : string) : prog Z := sys (Chdir (cstr path)).
Definition writes (fd : Z) (s : string) : prog Z := sys (Write fd (cstr s)).

Abbreviation O_RDONLY := 0x000 (only parsing).
Abbreviation O_WRONLY := 0x001 (only parsing).
Abbreviation O_RDWR := 0x002 (only parsing).
Abbreviation O_CREATE := 0x200 (only parsing).
Abbreviation stdout := 1 (only parsing).

(** [sizeof(buf)]; [read(fd, buf, n)], the result and the array; [write(fd, buf, n)]. *)
Abbreviation BUFSIZE := 8192 (only parsing).
Definition read_buf (fd n : Z) (buf : list Z) : prog (Z * list Z) :=
  '(r, l) ← sys (Read fd n) ;
  mret (r, splice 0 (take (Z.to_nat r) l) buf).
Definition write_buf (fd n : Z) (buf : list Z) : prog Z := sys (Write fd (take (Z.to_nat n) buf)).

(** ** Directories and the references to them *)

Definition iputtest : prog unit :=
  println stdout "iput test" [] ;;
  r ← mkdirs "iputdir" ; fails (r <? 0) "mkdir failed" [] ;;
  r ← chdirs "iputdir" ; fails (r <? 0) "chdir iputdir failed" [] ;;
  r ← unlinks "../iputdir" ; fails (r <? 0) "unlink ../iputdir failed" [] ;;
  r ← chdirs "/" ; fails (r <? 0) "chdir / failed" [] ;;
  println stdout "iput test ok" [].

Definition exitiputtest : prog unit :=
  println stdout "exitiput test" [] ;;
  pid ← sys Fork ; fails (pid <? 0) "fork failed" [] ;;
  (if pid =? 0 then
     r ← mkdirs "iputdir" ; fails (r <? 0) "mkdir failed" [] ;;
     r ← chdirs "iputdir" ; fails (r <? 0) "child chdir failed" [] ;;
     r ← unlinks "../iputdir" ; fails (r <? 0) "unlink ../iputdir failed" [] ;;
     exit
   else mret tt) ;;
  sys Wait ;;
  println stdout "exitiput test ok" [].

Definition openiputtest : prog unit :=
  println stdout "openiput test" [] ;;
  r ← mkdirs "oidir" ; fails (r <? 0) "mkdir oidir failed" [] ;;
  pid ← sys Fork ; fails (pid <? 0) "fork failed" [] ;;
  (if pid =? 0 then
     fd ← opens "oidir" O_RDWR ; fails (0 <=? fd) "open directory for write succeeded" [] ;;
     exit
   else mret tt) ;;
  sys (Sleep 1) ;;
  r ← unlinks "oidir" ; fails (negb (r =? 0)) "unlink failed" [] ;;
  sys Wait ;;
  println stdout "openiput test ok" [].

(** ** Files *)

Definition opentest : prog unit :=
  println stdout "open test" [] ;;
  fd ← opens "echo" 0 ; fails (fd <? 0) "open echo failed!" [] ;;
  sys (Close fd) ;;
  fd ← opens "doesnotexist" 0 ; fails (0 <=? fd) "open doesnotexist succeeded!" [] ;;
  println stdout "open test ok" [].

Definition writetest (buf : list Z) : prog (list Z) :=
  println stdout "small file test" [] ;;
  fd ← opens "small" (Z.lor O_CREATE O_RDWR) ;
  (if 0 <=? fd then println stdout "creat small succeeded; ok" []
   else println stdout "error: creat small failed!" [] ;; exit) ;;
  each 0 100 (fun i =>
    r ← writes fd "aaaaaaaaaa" ; fails (negb (r =? 10)) "error: write aa %d new file failed" [AInt i] ;;
    r ← writes fd "bbbbbbbbbb" ; fails (negb (r =? 10)) "error: write bb %d new file failed" [AInt i]) ;;
  println stdout "writes ok" [] ;;
  sys (Close fd) ;;
  fd ← opens "small" O_RDONLY ;
  (if 0 <=? fd then println stdout "open small succeeded ok" []
   else println stdout "error: open small failed!" [] ;; exit) ;;
  '(i, buf) ← read_buf fd 2000 buf ;
  (if i =? 2000 then println stdout "read succeeded ok" []
   else println stdout "read failed" [] ;; exit) ;;
  sys (Close fd) ;;
  r ← unlinks "small" ; fails (r <? 0) "unlink small failed" [] ;;
  println stdout "small file test ok" [] ;;
  mret buf.

(** The first word of [buf], read as an [int]. *)
Definition first_int (buf : list Z) : Z := i32 (get32 buf 0).

Definition writetest1 (rounds : nat) (buf : list Z) : prog (list Z) :=
  println stdout "big files test" [] ;;
  fd ← opens "big" (Z.lor O_CREATE O_RDWR) ; fails (fd <? 0) "error: creat big failed!" [] ;;
  buf ← range 0 MAXFILE (fun i buf =>
    let buf := splice 0 (le 4 i) buf in
    r ← write_buf fd 512 buf ; fails (negb (r =? 512)) "error: write big file failed" [AInt i] ;;
    mret buf) buf ;
  sys (Close fd) ;;
  fd ← opens "big" O_RDONLY ; fails (fd <? 0) "error: open big failed!" [] ;;
  buf ← loop rounds (fun '(n, buf) =>
    '(i, buf) ← read_buf fd 512 buf ;
    if i =? 0 then
      (if n =? MAXFILE - 1 then printf stdout "read only %d blocks from big" [AInt n] ;; exit else mret tt) ;;
      mret (inr buf)
    else
    fails (negb (i =? 512)) "read failed %d" [AInt i] ;;
    fails (negb (first_int buf =? n)) "read content of block %d is %d" [AInt n; AInt (first_int buf)] ;;
    mret (inl (n + 1, buf))) (0, buf) ;
  sys (Close fd) ;;
  r ← unlinks "big" ; fails (r <? 0) "unlink big failed" [] ;;
  println stdout "big files ok" [] ;;
  mret buf.

Definition createtest : prog unit :=
  println stdout "many creates, followed by unlink test" [] ;;
  each 0 52 (fun i => fd ← sys (Open [97; 48 + i] (Z.lor O_CREATE O_RDWR)) ; sys (Close fd) ;; mret tt) ;;
  each 0 52 (fun i => sys (Unlink [97; 48 + i]) ;; mret tt) ;;
  println stdout "many creates, followed by unlink; ok" [].

Definition dirtest : prog unit :=
  println stdout "mkdir test" [] ;;
  r ← mkdirs "dir0" ; fails (r <? 0) "mkdir failed" [] ;;
  r ← chdirs "dir0" ; fails (r <? 0) "chdir dir0 failed" [] ;;
  r ← chdirs ".." ; fails (r <? 0) "chdir .. failed" [] ;;
  r ← unlinks "dir0" ; fails (r <? 0) "unlink dir0 failed" [] ;;
  println stdout "mkdir test ok" [].

Definition exectest : prog unit :=
  println stdout "exec test" [] ;;
  r ← sys (Exec (cstr "echo") [cstr "echo"; cstr "ALL"; cstr "TESTS"; cstr "PASSED"]) ;
  fails (r <? 0) "exec echo failed" [].

(** ** Processes *)

(** The loop of the reader, which is left with the array when all is read, and without one
    when the data is wrong. *)
Definition pipe1 (rounds : nat) (buf : list Z) : prog (list Z) :=
  '(r, (fd0, fd1)) ← sys Pipe ; fails (negb (r =? 0)) "pipe() failed" [] ;;
  pid ← sys Fork ;
  if pid =? 0 then
    sys (Close fd0) ;;
    each 0 5 (fun n =>
      let buf := splice 0 (map (fun i => u8 (1033 * n + i)) (seqZ 0 1033)) buf in
      r ← write_buf fd1 1033 buf ; fails (negb (r =? 1033)) "pipe1 oops 1" []) ;;
    exit
  else if 0 <? pid then
    sys (Close fd1) ;;
    res ← loop rounds (fun '(seq, total, cc, buf) =>
      '(n, buf) ← read_buf fd0 cc buf ;
      if 0 <? n then
        if bool_decide (map u8 (take (Z.to_nat n) buf) = map (fun i => u8 (seq + i)) (seqZ 0 n)) then
          mret (inl (i32 (seq + n), i32 (total + n), (if BUFSIZE <? cc * 2 then BUFSIZE else cc * 2), buf))
        else println 1 "pipe1 oops 2" [] ;; mret (inr (inr buf))
      else mret (inr (inl (total, buf)))) (0, 0, 1, buf) ;
    match res with
    | inr buf => mret buf
    | inl (total, buf) =>
        fails (negb (total =? 5 * 1033)) "pipe1 oops 3 total %d" [AInt total] ;;
        sys (Close fd0) ;;
        sys Wait ;;
        println 1 "pipe1 ok" [] ;;
        mret buf
    end
  else println 1 "fork() failed" [] ;; exit.

Definition preempt (buf : list Z) : prog (list Z) :=
  printf 1 "preempt: " [] ;;
  pid1 ← sys Fork ;
  if pid1 =? 0 then Abort Hung else
  pid2 ← sys Fork ;
  if pid2 =? 0 then Abort Hung else
  '(_, (pfd0, pfd1)) ← sys Pipe ;
  pid3 ← sys Fork ;
  if pid3 =? 0 then
    sys (Close pfd0) ;;
    r ← writes pfd1 "x" ;
    (if negb (r =? 1) then printf 1 "preempt write error" [] else mret tt) ;;
    sys (Close pfd1) ;;
    Abort Hung
  else
  sys (Close pfd1) ;;
  '(r, buf) ← read_buf pfd0 BUFSIZE buf ;
  if negb (r =? 1) then printf 1 "preempt read error" [] ;; mret buf else
  sys (Close pfd0) ;;
  printf 1 "kill... " [] ;;
  sys (Kill pid1) ;;
  sys (Kill pid2) ;;
  sys (Kill pid3) ;;
  printf 1 "wait... " [] ;;
  sys Wait ;;
  sys Wait ;;
  sys Wait ;;
  println 1 "preempt ok" [] ;;
  mret buf.

Definition exitwait : prog unit :=
  res ← count_until 100 0 (fun _ _ =>
    pid ← sys Fork ;
    if pid <? 0 then println 1 "fork failed" [] ;; mret (inr tt)
    else if nz pid then
      r ← sys Wait ;
      if negb (r =? pid) then println 1 "wait wrong pid" [] ;; mret (inr tt) else mret (inl tt)
    else exit) tt ;
  match res with
  | inl _ => println 1 "exitwait ok" []
  | inr _ => mret tt
  end.

(** The blocks are linked through their first words, which are in [next]. *)
Definition mem (base : Z) (n rounds : nat) (h : heap) : prog unit :=
  println 1 "mem test" [] ;;
  ppid ← sys Getpid ;
  pid ← sys Fork ;
  if pid =? 0 then
    '(m1, h, next) ← loop rounds (fun '(m1, h, next) =>
      '(m2, h) ← malloc base n h 10001 ;
      mret (if m2 =? 0 then inr (m1, h, next) else inl (m2, h, <[m2 := m1]> next))) (0, h, ∅ : gmap Z Z) ;
    h ← loop rounds (fun '(m1, h) =>
      if nz m1 then
        let m2 := default 0 (next !! m1) in
        h ← free n h m1 ;
        mret (inl (m2, h))
      else mret (inr h)) (m1, h) ;
    '(m1, h) ← malloc base n h (1024 * 20) ;
    if m1 =? 0 then
      println 1 "couldn't allocate mem?!!" [] ;;
      sys (Kill ppid) ;;
      exit
    else
    h ← free n h m1 ;
    println 1 "mem ok" [] ;;
    exit
  else
  sys Wait ;;
  mret tt.

(** ** Several processes and files *)

Definition occurrences (c : Z) (l : list Z) : Z := Z.of_nat (length (filter (fun b => b = c) l)).

Definition sharedfd (rounds : nat) : prog unit :=
  println 1 "sharedfd test" [] ;;
  unlinks "sharedfd" ;;
  fd ← opens "sharedfd" (Z.lor O_CREATE O_RDWR) ;
  if fd <? 0 then printf 1 "fstests: cannot open sharedfd for writing" [] else
  pid ← sys Fork ;
  let buf := replicate 10 (if pid =? 0 then 99 else 112) in
  count_until 1000 0 (fun _ _ =>
    r ← sys (Write fd buf) ;
    if negb (r =? 10) then println 1 "fstests: write sharedfd failed" [] ;; mret (inr tt) else mret (inl tt)) tt ;;
  (if pid =? 0 then exit else sys Wait ;; mret tt) ;;
  sys (Close fd) ;;
  fd ← opens "sharedfd" 0 ;
  if fd <? 0 then println 1 "fstests: cannot open sharedfd for reading" [] else
  '(nc, np) ← loop rounds (fun '(nc, np, buf) =>
    '(n, buf) ← read_buf fd 10 buf ;
    mret (if 0 <? n then inl (nc + occurrences 99 buf, np + occurrences 112 buf, buf) else inr (nc, np))) (0, 0, buf) ;
  sys (Close fd) ;;
  unlinks "sharedfd" ;;
  if (nc =? 10000) && (np =? 10000) then println 1 "sharedfd ok" []
  else println 1 "sharedfd oops %d %d" [AInt nc; AInt np] ;; exit.

Definition fourfiles (rounds : nat) (buf : list Z) : prog (list Z) :=
  println 1 "fourfiles test" [] ;;
  let fname pi := [102; 48 + pi] in
  each 0 4 (fun pi =>
    sys (Unlink (fname pi)) ;;
    pid ← sys Fork ; fails (pid <? 0) "fork failed" [] ;;
    if pid =? 0 then
      fd ← sys (Open (fname pi) (Z.lor O_CREATE O_RDWR)) ; fails (fd <? 0) "create failed" [] ;;
      let buf := memset buf 0 (48 + pi) 512 in
      each 0 12 (fun _ => n ← write_buf fd 500 buf ; fails (negb (n =? 500)) "write failed %d" [AInt n]) ;;
      exit
    else mret tt) ;;
  each 0 4 (fun _ => sys Wait ;; mret tt) ;;
  buf ← range 0 2 (fun i buf =>
    fd ← sys (Open (fname i) 0) ;
    '(total, buf) ← loop rounds (fun '(total, buf) =>
      '(n, buf) ← read_buf fd BUFSIZE buf ;
      if 0 <? n then
        fails (negb (forallb (Z.eqb (48 + i)) (take (Z.to_nat n) buf))) "wrong char" [] ;;
        mret (inl (i32 (total + n), buf))
      else mret (inr (total, buf))) (0, buf) ;
    sys (Close fd) ;;
    fails (negb (total =? 12 * 500)) "wrong length %d" [AInt total] ;;
    sys (Unlink (fname i)) ;;
    mret buf) buf ;
  println 1 "fourfiles ok" [] ;;
  mret buf.

Definition createdelete : prog unit :=
  println 1 "createdelete test" [] ;;
  each 0 4 (fun pi =>
    pid ← sys Fork ; fails (pid <? 0) "fork failed" [] ;;
    if pid =? 0 then
      each 0 20 (fun i =>
        fd ← sys (Open [112 + pi; 48 + i] (Z.lor O_CREATE O_RDWR)) ; fails (fd <? 0) "create failed" [] ;;
        sys (Close fd) ;;
        if (0 <? i) && (i mod 2 =? 0) then
          r ← sys (Unlink [112 + pi; 48 + i / 2]) ; fails (r <? 0) "unlink failed" []
        else mret tt) ;;
      exit
    else mret tt) ;;
  each 0 4 (fun _ => sys Wait ;; mret tt) ;;
  each 0 20 (fun i => each 0 4 (fun pi =>
    let name := [112 + pi; 48 + i] in
    fd ← sys (Open name 0) ;
    (if ((i =? 0) || (20 / 2 <=? i)) && (fd <? 0) then
       println 1 "oops createdelete %s didn't exist" [AStr (Some name)] ;; exit
     else if ((1 <=? i) && (i <? 20 / 2)) && (0 <=? fd) then
       println 1 "oops createdelete %s did exist" [AStr (Some name)] ;; exit
     else mret tt) ;;
    if 0 <=? fd then sys (Close fd) ;; mret tt else mret tt)) ;;
  each 0 20 (fun i => each 0 4 (fun _ => sys (Unlink [112 + i; 48 + i]) ;; mret tt)) ;;
  println 1 "createdelete ok" [].

(** ** Links *)

Definition unlinkread (buf : list Z) : prog (list Z) :=
  println 1 "unlinkread test" [] ;;
  fd ← opens "unlinkread" (Z.lor O_CREATE O_RDWR) ; fails (fd <? 0) "create unlinkread failed" [] ;;
  writes fd "hello" ;;
  sys (Close fd) ;;
  fd ← opens "unlinkread" O_RDWR ; fails (fd <? 0) "open unlinkread failed" [] ;;
  r ← unlinks "unlinkread" ; fails (negb (r =? 0)) "unlink unlinkread failed" [] ;;
  fd1 ← opens "unlinkread" (Z.lor O_CREATE O_RDWR) ;
  writes fd1 "yyy" ;;
  sys (Close fd1) ;;
  '(r, buf) ← read_buf fd BUFSIZE buf ;
  (if negb (r =? 5) then printf 1 "unlinkread read failed" [] ;; exit else mret tt) ;;
  fails (negb (at_buf buf 0 =? 104)) "unlinkread wrong data" [] ;;
  r ← write_buf fd 10 buf ; fails (negb (r =? 10)) "unlinkread write failed" [] ;;
  sys (Close fd) ;;
  unlinks "unlinkread" ;;
  println 1 "unlinkread ok" [] ;;
  mret buf.

Definition linktest (buf : list Z) : prog (list Z) :=
  println 1 "linktest" [] ;;
  unlinks "lf1" ;;
  unlinks "lf2" ;;
  fd ← opens "lf1" (Z.lor O_CREATE O_RDWR) ; fails (fd <? 0) "create lf1 failed" [] ;;
  r ← writes fd "hello" ; fails (negb (r =? 5)) "write lf1 failed" [] ;;
  sys (Close fd) ;;
  r ← links "lf1" "lf2" ; fails (r <? 0) "link lf1 lf2 failed" [] ;;
  unlinks "lf1" ;;
  r ← opens "lf1" 0 ; fails (0 <=? r) "unlinked lf1 but it is still there!" [] ;;
  fd ← opens "lf2" 0 ; fails (fd <? 0) "open lf2 failed" [] ;;
  '(r, buf) ← read_buf fd BUFSIZE buf ; fails (negb (r =? 5)) "read lf2 failed" [] ;;
  sys (Close fd) ;;
  r ← links "lf2" "lf2" ; fails (0 <=? r) "link lf2 lf2 succeeded! oops" [] ;;
  unlinks "lf2" ;;
  r ← links "lf2" "lf1" ; fails (0 <=? r) "link non-existant succeeded! oops" [] ;;
  r ← links "." "lf1" ; fails (0 <=? r) "link . lf1 succeeded! oops" [] ;;
  println 1 "linktest ok" [] ;;
  mret buf.

(** [de] has the bytes of the local structure before it is read. *)
Definition concreate (rounds : nat) (de : list Z) : prog unit :=
  println 1 "concreate test" [] ;;
  let file i := [67; 48 + i] in
  each 0 40 (fun i =>
    sys (Unlink (file i)) ;;
    pid ← sys Fork ;
    (if nz pid && (i mod 3 =? 1) then sys (Link (cstr "C0") (file i)) ;; mret tt
     else if (pid =? 0) && (i mod 5 =? 1) then sys (Link (cstr "C0") (file i)) ;; mret tt
     else
       fd ← sys (Open (file i) (Z.lor O_CREATE O_RDWR)) ;
       fails (fd <? 0) "concreate create %s failed" [AStr (Some (file i))] ;;
       sys (Close fd) ;; mret tt) ;;
    if pid =? 0 then exit else sys Wait ;; mret tt) ;;
  fd ← opens "." 0 ;
  n ← loop rounds (fun '(n, fa, de) =>
    '(r, de) ← read_buf fd 16 de ;
    if 0 <? r then
      let name := drop 2 de in
      if get16 de 0 =? 0 then mret (inl (n, fa, de))
      else if (at_buf name 0 =? 67) && (at_buf name 2 =? 0) then
        let i := i8 (at_buf name 1) - 48 in
        fails ((i <? 0) || (40 <=? i)) "concreate weird file %s" [AStr (Some (cstring name))] ;;
        fails (nz (at_buf fa (Z.to_nat i))) "concreate duplicate file %s" [AStr (Some (cstring name))] ;;
        mret (inl (n + 1, <[Z.to_nat i := 1]> fa, de))
      else mret (inl (n, fa, de))
    else mret (inr n)) (0, replicate 40 0, de) ;
  sys (Close fd) ;;
  fails (negb (n =? 40)) "concreate not enough files in directory listing" [] ;;
  each 0 40 (fun i =>
    pid ← sys Fork ; fails (pid <? 0) "fork failed" [] ;;
    (if ((i mod 3 =? 0) && (pid =? 0)) || ((i mod 3 =? 1) && nz pid) then
       each 0 4 (fun _ => fd ← sys (Open (file i) 0) ; sys (Close fd) ;; mret tt)
     else each 0 4 (fun _ => sys (Unlink (file i)) ;; mret tt)) ;;
    if pid =? 0 then exit else sys Wait ;; mret tt) ;;
  println 1 "concreate ok" [].

Definition linkunlink : prog unit :=
  println 1 "linkunlink test" [] ;;
  unlinks "x" ;;
  pid ← sys Fork ; fails (pid <? 0) "fork failed" [] ;;
  range 0 100 (fun _ x =>
    let x := u32 (x * 1103515245 + 12345) in
    (if x mod 3 =? 0 then fd ← opens "x" (Z.lor O_RDWR O_CREATE) ; sys (Close fd)
     else if x mod 3 =? 1 then links "cat" "x"
     else unlinks "x") ;;
    mret x) (if nz pid then 1 else 97) ;;
  (if nz pid then sys Wait ;; mret tt else exit) ;;
  println 1 "linkunlink ok" [].

Definition bigdir : prog unit :=
  println 1 "bigdir test" [] ;;
  let name i := [120; 48 + i / 64; 48 + i mod 64] in
  unlinks "bd" ;;
  fd ← opens "bd" O_CREATE ; fails (fd <? 0) "bigdir create failed" [] ;;
  sys (Close fd) ;;
  each 0 500 (fun i => r ← sys (Link (cstr "bd") (name i)) ; fails (negb (r =? 0)) "bigdir link failed" []) ;;
  unlinks "bd" ;;
  each 0 500 (fun i =>
    r ← sys (Unlink (name i)) ;
    if negb (r =? 0) then printf 1 "bigdir unlink failed" [] ;; exit else mret tt) ;;
  println 1 "bigdir ok" [].

(** ** Directory trees *)

Definition subdir (buf : list Z) : prog (list Z) :=
  println 1 "subdir test" [] ;;
  unlinks "ff" ;;
  r ← mkdirs "dd" ; fails (negb (r =? 0)) "subdir mkdir dd failed" [] ;;
  fd ← opens "dd/ff" (Z.lor O_CREATE O_RDWR) ; fails (fd <? 0) "create dd/ff failed" [] ;;
  writes fd "ff" ;;
  sys (Close fd) ;;
  r ← unlinks "dd" ; fails (0 <=? r) "unlink dd (non-empty dir) succeeded!" [] ;;
  r ← mkdirs "/dd/dd" ; fails (negb (r =? 0)) "subdir mkdir dd/dd failed" [] ;;
  fd ← opens "dd/dd/ff" (Z.lor O_CREATE O_RDWR) ; fails (fd <? 0) "create dd/dd/ff failed" [] ;;
  writes fd "FF" ;;
  sys (Close fd) ;;
  fd ← opens "dd/dd/../ff" 0 ; fails (fd <? 0) "open dd/dd/../ff failed" [] ;;
  '(cc, buf) ← read_buf fd BUFSIZE buf ;
  fails (negb (cc =? 2) || negb (at_buf buf 0 =? 102)) "dd/dd/../ff wrong content" [] ;;
  sys (Close fd) ;;
  r ← links "dd/dd/ff" "dd/dd/ffff" ; fails (negb (r =? 0)) "link dd/dd/ff dd/dd/ffff failed" [] ;;
  r ← unlinks "dd/dd/ff" ; fails (negb (r =? 0)) "unlink dd/dd/ff failed" [] ;;
  r ← opens "dd/dd/ff" O_RDONLY ; fails (0 <=? r) "open (unlinked) dd/dd/ff succeeded" [] ;;
  r ← chdirs "dd" ; fails (negb (r =? 0)) "chdir dd failed" [] ;;
  r ← chdirs "dd/../../dd" ; fails (negb (r =? 0)) "chdir dd/../../dd failed" [] ;;
  r ← chdirs "dd/../../../dd" ; fails (negb (r =? 0)) "chdir dd/../../dd failed" [] ;;
  r ← chdirs "./.." ; fails (negb (r =? 0)) "chdir ./.. failed" [] ;;
  fd ← opens "dd/dd/ffff" 0 ; fails (fd <? 0) "open dd/dd/ffff failed" [] ;;
  '(r, buf) ← read_buf fd BUFSIZE buf ; fails (negb (r =? 2)) "read dd/dd/ffff wrong len" [] ;;
  sys (Close fd) ;;
  r ← opens "dd/dd/ff" O_RDONLY ; fails (0 <=? r) "open (unlinked) dd/dd/ff succeeded!" [] ;;
  r ← opens "dd/ff/ff" (Z.lor O_CREATE O_RDWR) ; fails (0 <=? r) "create dd/ff/ff succeeded!" [] ;;
  r ← opens "dd/xx/ff" (Z.lor O_CREATE O_RDWR) ; fails (0 <=? r) "create dd/xx/ff succeeded!" [] ;;
  r ← opens "dd" O_CREATE ; fails (0 <=? r) "create dd succeeded!" [] ;;
  r ← opens "dd" O_RDWR ; fails (0 <=? r) "open dd rdwr succeeded!" [] ;;
  r ← opens "dd" O_WRONLY ; fails (0 <=? r) "open dd wronly succeeded!" [] ;;
  r ← links "dd/ff/ff" "dd/dd/xx" ; fails (r =? 0) "link dd/ff/ff dd/dd/xx succeeded!" [] ;;
  r ← links "dd/xx/ff" "dd/dd/xx" ; fails (r =? 0) "link dd/xx/ff dd/dd/xx succeeded!" [] ;;
  r ← links "dd/ff" "dd/dd/ffff" ; fails (r =? 0) "link dd/ff dd/dd/ffff succeeded!" [] ;;
  r ← mkdirs "dd/ff/ff" ; fails (r =? 0) "mkdir dd/ff/ff succeeded!" [] ;;
  r ← mkdirs "dd/xx/ff" ; fails (r =? 0) "mkdir dd/xx/ff succeeded!" [] ;;
  r ← mkdirs "dd/dd/ffff" ; fails (r =? 0) "mkdir dd/dd/ffff succeeded!" [] ;;
  r ← unlinks "dd/xx/ff" ; fails (r =? 0) "unlink dd/xx/ff succeeded!" [] ;;
  r ← unlinks "dd/ff/ff" ; fails (r =? 0) "unlink dd/ff/ff succeeded!" [] ;;
  r ← chdirs "dd/ff" ; fails (r =? 0) "chdir dd/ff succeeded!" [] ;;
  r ← chdirs "dd/xx" ; fails (r =? 0) "chdir dd/xx succeeded!" [] ;;
  r ← unlinks "dd/dd/ffff" ; fails (negb (r =? 0)) "unlink dd/dd/ff failed" [] ;;
  r ← unlinks "dd/ff" ; fails (negb (r =? 0)) "unlink dd/ff failed" [] ;;
  r ← unlinks "dd" ; fails (r =? 0) "unlink non-empty dd succeeded!" [] ;;
  r ← unlinks "dd/dd" ; fails (r <? 0) "unlink dd/dd failed" [] ;;
  r ← unlinks "dd" ; fails (r <? 0) "unlink dd failed" [] ;;
  println 1 "subdir ok" [] ;;
  mret buf.

Definition fourteen : prog unit :=
  println 1 "fourteen test" [] ;;
  r ← mkdirs "12345678901234" ; fails (negb (r =? 0)) "mkdir 12345678901234 failed" [] ;;
  r ← mkdirs "12345678901234/123456789012345" ; fails (negb (r =? 0)) "mkdir 12345678901234/123456789012345 failed" [] ;;
  fd ← opens "123456789012345/123456789012345/123456789012345" O_CREATE ;
  fails (fd <? 0) "create 123456789012345/123456789012345/123456789012345 failed" [] ;;
  sys (Close fd) ;;
  fd ← opens "12345678901234/12345678901234/12345678901234" 0 ;
  fails (fd <? 0) "open 12345678901234/12345678901234/12345678901234 failed" [] ;;
  sys (Close fd) ;;
  r ← mkdirs "12345678901234/12345678901234" ; fails (r =? 0) "mkdir 12345678901234/12345678901234 succeeded!" [] ;;
  r ← mkdirs "123456789012345/12345678901234" ; fails (r =? 0) "mkdir 12345678901234/123456789012345 succeeded!" [] ;;
  println 1 "fourteen ok" [].

Definition rmdot : prog unit :=
  println 1 "rmdot test" [] ;;
  r ← mkdirs "dots" ; fails (negb (r =? 0)) "mkdir dots failed" [] ;;
  r ← chdirs "dots" ; fails (negb (r =? 0)) "chdir dots failed" [] ;;
  r ← unlinks "." ; fails (r =? 0) "rm . worked!" [] ;;
  r ← unlinks ".." ; fails (r =? 0) "rm .. worked!" [] ;;
  r ← chdirs "/" ; fails (negb (r =? 0)) "chdir / failed" [] ;;
  r ← unlinks "dots/." ; fails (r =? 0) "unlink dots/. worked!" [] ;;
  r ← unlinks "dots/.." ; fails (r =? 0) "unlink dots/.. worked!" [] ;;
  r ← unlinks "dots" ; fails (negb (r =? 0)) "unlink dots failed!" [] ;;
  println 1 "rmdot ok" [].

Definition dirfile : prog unit :=
  println 1 "dir vs file" [] ;;
  fd ← opens "dirfile" O_CREATE ; fails (fd <? 0) "create dirfile failed" [] ;;
  sys (Close fd) ;;
  r ← chdirs "dirfile" ; fails (r =? 0) "chdir dirfile succeeded!" [] ;;
  fd ← opens "dirfile/xx" 0 ; fails (0 <=? fd) "create dirfile/xx succeeded!" [] ;;
  fd ← opens "dirfile/xx" O_CREATE ; fails (0 <=? fd) "create dirfile/xx succeeded!" [] ;;
  r ← mkdirs "dirfile/xx" ; fails (r =? 0) "mkdir dirfile/xx succeeded!" [] ;;
  r ← unlinks "dirfile/xx" ; fails (r =? 0) "unlink dirfile/xx succeeded!" [] ;;
  r ← links "README" "dirfile/xx" ; fails (r =? 0) "link to dirfile/xx succeeded!" [] ;;
  r ← unlinks "dirfile" ; fails (negb (r =? 0)) "unlink dirfile failed!" [] ;;
  fd ← opens "." O_RDWR ; fails (0 <=? fd) "open . for writing succeeded!" [] ;;
  fd ← opens "." 0 ;
  r ← writes fd "x" ; fails (0 <? r) "write . succeeded!" [] ;;
  sys (Close fd) ;;
  println 1 "dir vs file OK" [].

Definition iref : prog unit :=
  println 1 "empty file name" [] ;;
  let close_open path := fd ← opens path O_CREATE ; if 0 <=? fd then sys (Close fd) ;; mret tt else mret tt in
  each 0 (50 + 1) (fun _ =>
    r ← mkdirs "irefd" ; fails (negb (r =? 0)) "mkdir irefd failed" [] ;;
    r ← chdirs "irefd" ; fails (negb (r =? 0)) "chdir irefd failed" [] ;;
    mkdirs "" ;;
    links "README" "" ;;
    close_open ""%string ;;
    close_open "xx"%string ;;
    unlinks "xx" ;;
    mret tt) ;;
  chdirs "/" ;;
  println 1 "empty file name OK" [].

(** ** Large writes and files *)

(** [for(sz = 499; sz < 12*512; sz += 471)] has twelve rounds. *)
Definition bigwrite (buf : list Z) : prog unit :=
  println 1 "bigwrite test" [] ;;
  unlinks "bigwrite" ;;
  each 0 ((12 * 512 - 499 + 470) / 471) (fun k =>
    let sz := 499 + 471 * k in
    fd ← opens "bigwrite" (Z.lor O_CREATE O_RDWR) ; fails (fd <? 0) "cannot create bigwrite" [] ;;
    each 0 2 (fun _ => cc ← write_buf fd sz buf ; fails (negb (cc =? sz)) "write(%d) ret %d" [AInt sz; AInt cc]) ;;
    sys (Close fd) ;;
    unlinks "bigwrite" ;;
    mret tt) ;;
  println 1 "bigwrite ok" [].

Definition bigfile (rounds : nat) (buf : list Z) : prog (list Z) :=
  println 1 "bigfile test" [] ;;
  unlinks "bigfile" ;;
  fd ← opens "bigfile" (Z.lor O_CREATE O_RDWR) ;
  (if fd <? 0 then printf 1 "cannot create bigfile" [] ;; exit else mret tt) ;;
  buf ← range 0 20 (fun i buf =>
    let buf := memset buf 0 i 600 in
    r ← write_buf fd 600 buf ; fails (negb (r =? 600)) "write bigfile failed" [] ;;
    mret buf) buf ;
  sys (Close fd) ;;
  fd ← opens "bigfile" 0 ; fails (fd <? 0) "cannot open bigfile" [] ;;
  '(total, buf) ← loop rounds (fun '(i, total, buf) =>
    '(cc, buf) ← read_buf fd 300 buf ;
    fails (cc <? 0) "read bigfile failed" [] ;;
    if cc =? 0 then mret (inr (total, buf)) else
    fails (negb (cc =? 300)) "short read bigfile" [] ;;
    fails (negb (i8 (at_buf buf 0) =? i / 2) || negb (i8 (at_buf buf 299) =? i / 2)) "read bigfile wrong data" [] ;;
    mret (inl (i + 1, total + cc, buf))) (0, 0, buf) ;
  sys (Close fd) ;;
  fails (negb (total =? 20 * 600)) "read bigfile wrong total" [] ;;
  unlinks "bigfile" ;;
  println 1 "bigfile test ok" [] ;;
  mret buf.

(** The loops over the files go up until one cannot be written, and back down. *)
Definition fsfull (rounds : nat) (buf : list Z) : prog unit :=
  println 1 "fsfull test" [] ;;
  let name n := [102; u8 (48 + n / 1000); u8 (48 + n mod 1000 / 100); u8 (48 + n mod 100 / 10); u8 (48 + n mod 10)] in
  nfiles ← loop rounds (fun nfiles =>
    println 1 "writing %s" [AStr (Some (name nfiles))] ;;
    fd ← sys (Open (name nfiles) (Z.lor O_CREATE O_RDWR)) ;
    if fd <? 0 then println 1 "open %s failed" [AStr (Some (name nfiles))] ;; mret (inr nfiles) else
    total ← loop rounds (fun total =>
      cc ← write_buf fd 512 buf ;
      mret (if cc <? 512 then inr total else inl (i32 (total + cc)))) 0 ;
    println 1 "wrote %d bytes" [AInt total] ;;
    sys (Close fd) ;;
    mret (if total =? 0 then inr nfiles else inl (nfiles + 1))) 0 ;
  each 0 (nfiles + 1) (fun k => sys (Unlink (name (nfiles - k))) ;; mret tt) ;;
  println 1 "fsfull test finished" [].

(** ** Memory *)

Definition forktest : prog unit :=
  println 1 "fork test" [] ;;
  res ← count_until 1000 0 (fun n _ =>
    pid ← sys Fork ;
    if pid <? 0 then mret (inr n) else if pid =? 0 then exit else mret (inl tt)) tt ;
  let n := match res with inl _ => 1000 | inr n => n end in
  fails (n =? 1000) "fork claimed to work 1000 times!" [] ;;
  each 0 n (fun _ => r ← sys Wait ; fails (r <? 0) "wait stopped early" []) ;;
  r ← sys Wait ; fails (negb (r =? -1)) "wait got too many" [] ;;
  println 1 "fork test OK" [].

(** The result of [sbrk] as a pointer. *)
Definition sbrk (n : Z) : prog Z := r ← sys (Sbrk (i32 n)) ; mret (u32 r).
Abbreviation BIG := 0x6400000 (only parsing).

Definition sbrktest (rounds : nat) : prog unit :=
  println stdout "sbrk test" [] ;;
  oldbrk ← sbrk 0 ;
  (* can one sbrk() less than a page? *)
  a ← sbrk 0 ;
  a ← range 0 5000 (fun i a =>
    b ← sbrk 1 ; fails (negb (b =? a)) "sbrk test failed %d %x %x" [AInt i; AInt a; AInt b] ;;
    sys (Store b 1) ;;
    mret (u32 (b + 1))) a ;
  pid ← sys Fork ; fails (pid <? 0) "sbrk test fork failed" [] ;;
  sbrk 1 ;;
  c ← sbrk 1 ; fails (negb (c =? u32 (a + 1))) "sbrk test failed post-fork" [] ;;
  (if pid =? 0 then exit else mret tt) ;;
  sys Wait ;;
  (* can one grow address space to something big? *)
  a ← sbrk 0 ;
  p ← sbrk (u32 (BIG - a)) ;
  fails (negb (p =? a)) "sbrk test failed to grow big address space; enough phys mem?" [] ;;
  sys (Store (BIG - 1) 99) ;;
  (* can one de-allocate? *)
  a ← sbrk 0 ;
  c ← sbrk (-4096) ; fails (c =? 0xffffffff) "sbrk could not deallocate" [] ;;
  c ← sbrk 0 ;
  fails (negb (c =? u32 (a - 4096))) "sbrk deallocation produced wrong address, a %x c %x" [AInt a; AInt c] ;;
  (* can one re-allocate that page? *)
  a ← sbrk 0 ;
  c ← sbrk 4096 ;
  wrong ← (if negb (c =? a) then mret true else e ← sbrk 0 ; mret (negb (e =? u32 (a + 4096)))) ;
  fails wrong "sbrk re-allocation failed, a %x c %x" [AInt a; AInt c] ;;
  v ← sys (Load (BIG - 1)) ;
  fails (v =? 99) "sbrk de-allocation didn't really deallocate" [] ;;
  a ← sbrk 0 ;
  e ← sbrk 0 ;
  c ← sbrk (- i32 (e - oldbrk)) ;
  fails (negb (c =? a)) "sbrk downsize failed, a %x c %x" [AInt a; AInt c] ;;
  (* can we read the kernel's memory? *)
  each 0 (2000000 / 50000) (fun k =>
    let a := KERNBASE + 50000 * k in
    ppid ← sys Getpid ;
    pid ← sys Fork ; fails (pid <? 0) "fork failed" [] ;;
    (if pid =? 0 then
       v ← sys (Load a) ;
       println stdout "oops could read %x = %x" [AInt a; AInt (i8 v)] ;;
       sys (Kill ppid) ;;
       exit
     else mret tt) ;;
    sys Wait ;; mret tt) ;;
  (* if we run the system out of memory, does it clean up the last failed allocation? *)
  '(r, (fd0, fd1)) ← sys Pipe ; fails (negb (r =? 0)) "pipe() failed" [] ;;
  pids ← range 0 10 (fun _ pids =>
    pid ← sys Fork ;
    (if pid =? 0 then
       e ← sbrk 0 ;
       sbrk (u32 (BIG - e)) ;;
       writes fd1 "x" ;;
       loop rounds (fun _ : unit => sys (Sleep 1000) ;; mret (inl tt)) tt
     else mret tt) ;;
    (if negb (pid =? -1) then sys (Read fd0 1) ;; mret tt else mret tt) ;;
    mret (pids ++ [pid])) [] ;
  c ← sbrk 4096 ;
  range 0 10 (fun i _ =>
    let pid := at_buf pids (Z.to_nat i) in
    if pid =? -1 then mret tt else sys (Kill pid) ;; sys Wait ;; mret tt) tt ;;
  fails (c =? 0xffffffff) "failed sbrk leaked memory" [] ;;
  e ← sbrk 0 ;
  (if oldbrk <? e then e ← sbrk 0 ; sbrk (- i32 (e - oldbrk)) ;; mret tt else mret tt) ;;
  println stdout "sbrk test OK" [].

(** ** Bad arguments *)

(** [int $T_SYSCALL] for [SYS_sleep] with the stack pointer at [p]. *)
Definition validateint (p : Z) : prog unit := sys (Trap 13 p) ;; mret tt.

Definition validatetest : prog unit :=
  println stdout "validate test" [] ;;
  let hi := 1100 * 1024 in
  each 0 (hi / 4096 + 1) (fun k =>
    let p := 4096 * k in
    pid ← sys Fork ;
    (if pid =? 0 then validateint p ;; exit else mret tt) ;;
    sys (Sleep 0) ;;
    sys (Sleep 0) ;;
    sys (Kill pid) ;;
    sys Wait ;;
    r ← sys (Link_at (cstr "nosuchfile") p) ; fails (negb (r =? -1)) "link should not succeed" []) ;;
  println stdout "validate ok" [].

(** [uninit] is what the loader has put into the array. *)
Definition bsstest (uninit : list Z) : prog unit :=
  println stdout "bss test" [] ;;
  fails (negb (forallb (Z.eqb 0) uninit)) "bss test failed" [] ;;
  println stdout "bss test ok" [].

Definition bigargtest : prog unit :=
  unlinks "bigarg-ok" ;;
  pid ← sys Fork ;
  (if pid =? 0 then
     println stdout "bigarg test" [] ;;
     sys (Exec (cstr "echo") (replicate 31 (cstr ("bigargs test: failed" +:+ newline) ++ replicate 199 32))) ;;
     println stdout "bigarg test ok" [] ;;
     fd ← opens "bigarg-ok" O_CREATE ;
     sys (Close fd) ;;
     exit
   else fails (pid <? 0) "bigargtest: fork failed" []) ;;
  sys Wait ;;
  fd ← opens "bigarg-ok" 0 ; fails (fd <? 0) "bigarg test failed!" [] ;;
  sys (Close fd) ;;
  unlinks "bigarg-ok" ;;
  mret tt.

Definition uio : prog unit :=
  println 1 "uio test" [] ;;
  pid ← sys Fork ;
  (if pid =? 0 then
     sys (Outb 0x70 0x09) ;;
     sys (Inb 0x71) ;;
     println 1 "uio: uio succeeded; test FAILED" [] ;;
     exit
   else fails (pid <? 0) "fork failed" []) ;;
  sys Wait ;;
  println 1 "uio test done" [].

Definition argptest : prog unit :=
  fd ← opens "init" O_RDONLY ;
  (if fd <? 0 then println 2 "open failed" [] ;; exit else mret tt) ;;
  e ← sbrk 0 ;
  sys (Read_at fd (u32 (e - 1)) (-1)) ;;
  sys (Close fd) ;;
  println 1 "arg test passed" [].

(** The state after the call, which is also the result. *)
Definition rand (randstate : Z) : Z := u32 (randstate * 1664525 + 1013904223).

(** ** The program *)

Definition usertests_main (base : Z) (n rounds : nat) (buf uninit de : list Z) : prog unit :=
  println 1 "usertests starting" [] ;;
  fd ← opens "usertests.ran" 0 ; fails (0 <=? fd) "already ran user tests -- rebuild fs.img" [] ;;
  fd ← opens "usertests.ran" O_CREATE ;
  sys (Close fd) ;;
  argptest ;;
  createdelete ;;
  linkunlink ;;
  concreate rounds de ;;
  buf ← fourfiles rounds buf ;
  sharedfd rounds ;;
  bigargtest ;;
  bigwrite buf ;;
  bigargtest ;;
  bsstest uninit ;;
  sbrktest rounds ;;
  validatetest ;;
  opentest ;;
  buf ← writetest buf ;
  buf ← writetest1 rounds buf ;
  createtest ;;
  openiputtest ;;
  exitiputtest ;;
  iputtest ;;
  mem base n rounds (Heap ∅ 0) ;;
  buf ← pipe1 rounds buf ;
  buf ← preempt buf ;
  exitwait ;;
  rmdot ;;
  fourteen ;;
  buf ← bigfile rounds buf ;
  buf ← subdir buf ;
  buf ← linktest buf ;
  buf ← unlinkread buf ;
  dirfile ;;
  iref ;;
  forktest ;;
  bigdir ;;
  uio ;;
  exectest ;;
  exit.
