(* ===== verification/UserCall.v ===== *)
(** User programs on the kernel: the stubs of usys.S, and what a system call does from the trap of
    the program until it goes on.

    [kcall] performs a system call of a program (the type [call] of [User]) as compiled C does:
    strings and buffers lie at [data] in the memory of the process, the arguments on its stack
    at [esp], under the return address [ra].  [run] performs a program. *)
From S2P Require Import User Prelude Kernel Spinlock Console CString Kalloc Devices Proc Vm SysArgs Sleeplock Disk Bytes UserMem Bio Log Inode ConsoleIo Fs FileBlocks FsContent Pipe FileTable FsOps FsPath ProcLife Exec Container SysProc SysFile Syscall FsSys.

(** ** Instructions of a program *)

Section instructions.
Context {E : Env}.

(** Loads and stores by user code. *)
Definition peek8 (va : Z) : K Z :=
  o ← gets (fun s => hw_walk (k_mem s) (k_cr3 s) va false true) ;
  a ← deref "page fault" o ;
  gets (fun s => load8 (k_mem s) a).
Definition poke8 (va v : Z) : K unit :=
  o ← gets (fun s => hw_walk (k_mem s) (k_cr3 s) va true true) ;
  a ← deref "page fault" o ;
  upd_mem (fun m => store8 m a v).
Fixpoint upeek (va : Z) (n : nat) : K (list Z) :=
  match n with
  | O => mret []
  | S n' => b ← peek8 va ; l ← upeek (u32 (va + 1)) n' ; mret (b :: l)
  end.
Fixpoint poke (va : Z) (l : list Z) : K unit :=
  match l with
  | [] => mret tt
  | b :: l' => poke8 va b ;; poke (u32 (va + 1)) l'
  end.

Definition words (l : list Z) : list Z := concat (map (le 4) l).

End instructions.

(** ** System calls *)

Section calls.
Context {E : Env} {D : Disk} {V : Devices}.
Context (esp data ra : Z) (ev : event).

(** The trap with call number [num]: the frame has the registers of the program. *)
Definition int_syscall (num sp : Z) : K Z :=
  tf ← my p_tf ;
  trap ev (tf <| tf_trapno := T_SYSCALL |> <| tf_eax := num |> <| tf_esp := sp |>) ;;
  r ← my (fun p => tf_eax (p_tf p)) ;
  mret (i32 r).

(** The call of a stub: the arguments and the return address are pushed, then the stub traps. *)
Definition usys (num : Z) (args : list Z) : K Z :=
  poke esp (words (ra :: args)) ;;
  int_syscall num esp.

(** With a string at [data]. *)
Definition usys_str (num : Z) (str : list Z) (args : list Z) : K Z :=
  poke data (str ++ [0]) ;;
  usys num (data :: args).

(** The strings [argv] behind each other from [a] on, and their addresses. *)
Fixpoint argv_at (a : Z) (argv : list (list Z)) : list Z :=
  match argv with [] => [] | x :: argv' => a :: argv_at (a + Z.of_nat (length x) + 1) argv' end.

(** A program that exits, or that another has replaced, does not go on. *)
Definition kcall {R : Set} (c : call R) : K R :=
  match c in call R return K R with
  | Read fd n => r ← usys 5 [fd; data; n] ; l ← upeek data (Z.to_nat r) ; mret (r, l)
  | Write fd l => poke data l ;; usys 16 [fd; data; Z.of_nat (length l)]
  | Open path mode => usys_str 15 path [mode]
  | Close fd => usys 21 [fd]
  | Fstat fd => r ← usys 8 [fd; data] ; l ← upeek data 20 ; mret (r, l)
  | Dup fd => usys 10 [fd]
  | User.Pipe => r ← usys 4 [data] ; l ← upeek data 8 ; mret (r, (i32 (get32 l 0), i32 (get32 l 4)))
  | Mknod path major minor => usys_str 17 path [major; minor]
  | Mkdir path => usys_str 20 path []
  | Chdir path => usys_str 9 path []
  | Link old new => poke data (old ++ [0] ++ new ++ [0]) ;; usys 19 [data; data + Z.of_nat (length old) + 1]
  | Unlink path => usys_str 18 path []
  | Kill pid => usys 6 [pid]
  | Fork => usys 1 []
  | Exec path argv =>
      let strs := data + Z.of_nat (length path) + 1 in
      let argp := strs + Z.of_nat (length (concat (map (fun x => x ++ [0]) argv))) in
      poke data (path ++ [0] ++ concat (map (fun x => x ++ [0]) argv) ++ words (argv_at strs argv ++ [0])) ;;
      r ← usys 7 [data; argp] ;
      if r =? -1 then mret r else stop_with Hung
  | Wait => usys 3 []
  | Sleep n => usys 13 [n]
  | Sbrk n => usys 12 [n]
  | Getpid => usys 11 []
  | Uptime => usys 14 []
  | Create_container => usys 22 []
  | Leave_container => usys 24 []
  | Destroy_container id => usys 25 [id]
  | Join_container id => usys 23 [id]
  | Ps => usys 26 [] ;; mret tt
  | List_containers => usys 27 []
  | Container_malloc n => usys 28 [n]
  | Scheduler_log_on => usys 31 [] ;; mret tt
  | Scheduler_log_off => usys 32 [] ;; mret tt
  | Memory_log_on => usys 29 [] ;; mret tt
  | Memory_log_off => usys 30 [] ;; mret tt
  | Getcid => usys 33 []
  | Exit => usys 2 [] ;; stop_with Hung
  | Load a => peek8 a
  | Store a v => poke8 a v
  | Inb _ | Outb _ _ => fault "general protection"
  | Trap num sp => int_syscall num sp
  | Read_at fd a n => usys 5 [fd; a; n]
  | Link_at old new => usys_str 19 old [new]
  end.

(** A program, up to its exit, for which the result is [None]. *)
Fixpoint run {A} (m : prog A) : K (option A) :=
  match m with
  | Ret a => mret (Some a)
  | Abort w => stop_with w
  | Sys c k =>
      match c in call R return (R -> K (option A)) -> K (option A) with
      | Exit => fun _ => mret None
      | c => fun k => r ← kcall c ; k r
      end (fun r => run (k r))
  end.

End calls.

(** ** Running in sequence *)

Section sequence.
Context {E : Env} {D : Disk} {V : Devices} (esp data ra : Z) (ev : event).
Abbreviation rn := (run esp data ra ev).

Lemma run_sys {A} {R : Set} (c : call R) (k : R -> prog A) s r s' : kcall esp data ra ev c s = Done r s' -> rn (Sys c k) s = rn (k r) s'.
Proof. destruct c; try destruct r; intros H; cbn [run]; by rewrite (bind_done _ _ _ _ _ H). Qed.

Lemma run_call {A} {R : Set} (c : call R) (k : R -> prog A) s r s' : kcall esp data ra ev c s = Done r s' -> rn (sys c ≫= k) s = rn (k r) s'.
Proof. exact (run_sys c k s r s'). Qed.

Lemma run_bind {A B} (m : prog A) (f : A -> prog B) : forall s o s',
  rn m s = Done o s' -> rn (m ≫= f) s = match o with Some a => rn (f a) s' | None => Done None s' end.
Proof.
  assert (forall {R : Set} (g : K R) (k : R -> K (option A)) (h : R -> K (option B)) s o s', (r ← g ; k r) s = Done o s' ->
    (forall r s1, k r s1 = Done o s' -> h r s1 = match o with Some a => rn (f a) s' | None => Done None s' end) ->
    (r ← g ; h r) s = match o with Some a => rn (f a) s' | None => Done None s' end) as Hb.
  { intros R g k h s o s' H Hh. unfold mbind, M_bind in *. destruct (g s) as [r s1| |]; cbn [kbind] in *; [by apply Hh|done|done]. }
  induction m as [a|R c k IH|w]; intros s o s' H; [by injection H as <- <-| |done].
  destruct c; try (injection H as <- <-; done); (eapply Hb; [exact H|]); intros r s1 Hr; by apply IH.
  Unshelve. all: exact (fun _ => mret None).
Qed.

End sequence.

(** ** Instructions on user memory *)

Section memory.
Context {E : Env} (dom : Z -> Prop) (tr : Z -> Z).

Lemma poke_ustore l : forall s va, umem (k_mem s) (k_cr3 s) dom tr -> within dom va (length l) -> poke va l s = ustore va l s.
Proof.
  induction l as [|b l IH]; intros s va Hu Hw; [done|]. cbn [poke ustore length] in *. pose proof Hw as [H0 [H32 _]]. apply within_cons in Hw as [Hva Hw].
  set (s1 := s <| k_mem ::= fun m => store8 m (tr va) b |>).
  assert (poke8 va b s = Done tt s1) as R1 by (unfold poke8; kstep; rewrite (um_walk _ _ _ _ Hu va Hva); by kstep).
  assert (ustore8 va b s = Done tt s1) as R2 by (unfold ustore8; kstep; rewrite (hw_walk_weaken _ _ va (tr va) true false) by (by apply Hu); by kstep).
  krun R1. krun R2. rewrite u32_small by (unfold W32 in *; lia). apply IH; [by apply umem_store|done].
Qed.

Lemma peek_uload n : forall s va, umem (k_mem s) (k_cr3 s) dom tr -> within dom va n -> upeek va n s = uload va n s.
Proof.
  induction n as [|n IH]; intros s va Hu Hw; [done|]. cbn [upeek uload]. pose proof Hw as [H0 [H32 _]]. apply within_cons in Hw as [Hva Hw].
  assert (peek8 va s = Done (load8 (k_mem s) (tr va)) s) as R1 by (unfold peek8; kstep; rewrite (hw_walk_weaken _ _ va (tr va) false true) by (by apply Hu); by kstep).
  krun R1. krun (uload8_umem s dom tr va Hu Hva). rewrite u32_small by (unfold W32 in *; lia). unfold mbind, M_bind. by rewrite IH.
Qed.

Lemma poke_run l s va :
  umem (k_mem s) (k_cr3 s) dom tr -> within dom va (length l) -> is_bytes l ->
  exists m, poke va l s = Done tt (s <| k_mem := m |>) /\ umem m (k_cr3 s) dom tr /\ holds m tr va l
    /\ forall a, dom a -> ~ va <= a < va + Z.of_nat (length l) -> load8 m (tr a) = load8 (k_mem s) (tr a).
Proof. intros Hu Hw Hb. rewrite poke_ustore by done. by apply ustore_run. Qed.

(** *** Arguments on the stack *)

Lemma length_words l : length (words l) = (4 * length l)%nat.
Proof. unfold words. induction l as [|v l IH]; [done|]. cbn [map concat length]. rewrite length_app, length_le, IH. lia. Qed.

Lemma words_bytes l : is_bytes (words l).
Proof.
  unfold words. induction l as [|v l IH]; [constructor|]. cbn [map concat]. apply Forall_app. split; [|done].
  cbn [le]. repeat constructor; apply Z.mod_pos_bound; lia.
Qed.

Lemma holds_word m va l n v : holds m tr va (words l) -> l !! n = Some v -> holds m tr (va + 4 * Z.of_nat n) (le 4 v).
Proof.
  revert va n. induction l as [|x l IH]; intros va n Hh Hn; [done|]. unfold words in Hh. cbn [map concat] in Hh.
  apply holds_app in Hh as [H1 H2]. rewrite length_le in H2. destruct n as [|n].
  - injection Hn as <-. by rewrite Z.add_0_r.
  - replace (va + 4 * Z.of_nat (S n)) with (va + Z.of_nat 4 + 4 * Z.of_nat n) by lia. by apply IH.
Qed.

Lemma i32_mod v : i32 (u32 v) = i32 v.
Proof. unfold i32, u32. f_equal. apply Zplus_mod_idemp_l. Qed.

(** Process [p] has called a stub with the arguments [args]. *)
Record called (s : kernel) (c : nat) (p : proc) (esp ra : Z) (args : list Z) : Prop := Called {
  ca_cur : current s c p;
  ca_esp : tf_esp (p_tf p) = esp;
  ca_mem : umem (k_mem s) (k_cr3 s) dom tr;
  ca_within : within dom esp (4 * S (length args));
  ca_sz : esp + 4 * Z.of_nat (S (length args)) <= p_sz p;
  ca_args : holds (k_mem s) tr esp (words (ra :: args))
}.

Lemma argint_run s c p esp ra args n v : called s c p esp ra args -> args !! n = Some v -> argint (Z.of_nat n) s = Done (Some (i32 v)) s.
Proof.
  intros [H1 H2 H3 H4 H5 H6] Hn. pose proof (lookup_lt_Some _ _ _ Hn) as Hlt. pose proof H4 as (Hw1 & Hw2 & Hw3).
  assert (0 <= esp + 4 + 4 * Z.of_nat n < W32) as Hb by (unfold W32 in *; lia).
  unfold argint. krun (curproc_run s c p H1). krun (current_proc s c p H1). rewrite H2, u32_small by exact Hb.
  rewrite (fetchint_run s c p _ H1 Hb), decide_True by lia.
  assert (uload32 (esp + 4 + 4 * Z.of_nat n) s = Done (u32 v) s) as R.
  { apply (uload32_run s dom tr); [done| |].
    - split_and!; [lia|unfold W32 in *; lia|]. intros k Hk. replace (esp + 4 + 4 * Z.of_nat n + Z.of_nat k) with (esp + Z.of_nat (4 + 4 * n + k)) by lia. apply Hw3. lia.
    - replace (esp + 4 + 4 * Z.of_nat n) with (esp + 4 * Z.of_nat (S n)) by lia. by apply (holds_word _ _ (ra :: args)). }
  krun R. by rewrite i32_mod.
Qed.

Lemma argptr_called s c p esp ra args n a size :
  called s c p esp ra args -> args !! n = Some a -> 0 <= a -> 0 <= size < 0x80000000 -> a < p_sz p -> a + size <= p_sz p ->
  argptr (Z.of_nat n) size s = Done (Some a) s.
Proof.
  intros H Hn Ha Hs H1 H2. pose proof (cu_sz _ _ _ (ca_cur _ _ _ _ _ _ H)) as Hsz. unfold KERNBASE in Hsz.
  rewrite (argptr_run s c p _ size (i32 a) (ca_cur _ _ _ _ _ _ H) ltac:(lia) (argint_run s c p esp ra args n a H Hn)).
  assert (u32 (i32 a) = a) as -> by (rewrite i32_small by lia; rewrite u32_small; lia). by rewrite decide_True by lia.
Qed.

Lemma argstr_run s c p esp ra args n a str :
  called s c p esp ra args -> args !! n = Some a -> within dom a (S (length str)) -> holds (k_mem s) tr a (str ++ [0]) ->
  Forall (fun b => b <> 0) str -> a + Z.of_nat (length str) < p_sz p -> argstr (Z.of_nat n) s = Done (Some str) s.
Proof.
  intros H Hn Hw Hh Hz Hlen. pose proof H as [H1 H2 H3 _ _ _]. pose proof (cu_sz _ _ _ H1) as Hsz. unfold KERNBASE in Hsz. pose proof Hw as (Ha & _ & _).
  unfold argstr. krun (argint_run s c p esp ra args n a H Hn). assert (u32 (i32 a) = a) as -> by (rewrite i32_small by lia; rewrite u32_small; lia).
  unfold fetchstr. krun (curproc_run s c p H1). krun (current_proc s c p H1). rewrite (proj2 (Z.leb_gt _ _)) by lia.
  apply (fetch_bytes_str dom tr); [done|done|done|done|lia].
Qed.

End memory.

(** ** A process that works on files and writes to the console *)

Section session.
Context {E : Env} {D : Disk} {V : Devices} `{!DiskLaws D}.
Context (sb : superblock) (start : Z) (nfiles : nat).
Abbreviation lo := (start + LOGSIZE).
Context (Hfit : 0 < sb_size sb <= BPB) (Hdisk : sb_size sb <= disksize) (Hstart : 0 <= start).
Context (Hbm : lo <= sb_bmapstart sb < sb_size sb).
Context (Hino : forall i, (i < nfiles)%nat -> lo <= IBLOCK (Z.of_nat i) sb < sb_bmapstart sb).
Context (pid : Z) (dsk : Z -> block) (fs : list fent) (cids : list Z).
(** The entry of the process in its table, its memory, its stack and the place of its data. *)
Context (c : nat) (dom : Z -> Prop) (tr : Z -> Z) (sz esp data ra : Z) (ev : event).
Context (Hstk : within dom esp 16) (Hdat : within dom data 512) (Hsz : esp + 16 <= sz /\ data + 512 <= sz).
Context (Hdis : esp + 16 <= data \/ data + 512 <= esp).
(** The console: its entry in the file table, its inode and its number. *)
Context (fl1 ip1 i1 : nat).

Abbreviation ready := (fs_ready sb start nfiles pid dsk fs cids).

(** Entry [fl1] of the file table is for writing to the console. *)
Definition console_file (ft : list file) : Prop :=
  exists x, ft !! fl1 = Some x /\ 0 < f_ref x /\ f_type x = FD_INODE /\ f_writable x <> 0 /\ f_ip x = Some ip1.

Record user_state (s : kernel) (p : proc) : Prop := UserState {
  us_ready : ready s;
  us_cur : current s c p;
  us_live : p_killed p = 0;
  us_sz : p_sz p = sz;
  us_mem : umem (k_mem s) (k_cr3 s) dom tr;
  us_cons : cons_ok (k_cons s);
  us_dev : exists dv, k_devsw s !! 1%nat = Some dv /\ dv_write dv = Some consolewrite_fn;
  us_cids : Forall (fun cid => cid = p_containerID p) cids;
  us_fds : length (p_ofile p) = NOFILE;
  us_fd : p_ofile p !! 1%nat = Some (Some fl1);
  us_file : console_file (k_ftable s);
  us_inode : console_entry fs (k_icache s) ip1 i1
}.

(** The registers and the memory of the process change. *)
Lemma us_proc s p t : user_state s p -> let p' := p <| p_tf := t |> in user_state (s <| k_ptable ::= <[c := p']> |>) p'.
Proof.
  intros [H1 H2 H3 H3' H4 H5 H6 H7 H7' H8 H9 H10] p'. split; [|split|done..].
  - apply (ready_move sb start nfiles pid dsk fs cids s); [done| |done]. change (calm (k_hw s) (<[c := p']> (k_ptable s)) pid).
    eapply calm_proc; [exact (ready_calm _ _ _ _ _ _ _ s H1)|apply H2|done|done|done].
  - destruct H2 as [(i & x & Hr & Hx) _ _]. by exists i, x.
  - apply list_lookup_insert_eq. eapply lookup_lt_Some, H2.
  - apply H2.
Qed.

Lemma us_memory s p m : user_state s p -> umem m (k_cr3 s) dom tr -> user_state (s <| k_mem := m |>) p.
Proof.
  intros [H1 H2 H3 H3' H4 H5 H6 H7 H7' H8 H9 H10] Hm. split; [|by apply (current_same s)|done|done|exact Hm|done..].
  apply (ready_move sb start nfiles pid dsk fs cids s); [done|exact (ready_calm _ _ _ _ _ _ _ s H1)|done].
Qed.

(** The parts of the state in which a process sees the effect of a call. *)
Definition seen (s : kernel) := (k_icache s, k_ftable s, k_cons s, k_writes s).

(** The way into a system call and out of it. *)
Lemma usys_user s p num args (f : K Z) :
  user_state s p -> (length args <= 3)%nat ->
  0 < num < 0x80000000 -> syscalls !! Z.to_nat num = Some (Some f) ->
  exists s1 p1, user_state s1 p1 /\ called dom tr s1 c p1 esp ra args /\ seen s1 = seen s /\ p1 = p <| p_tf := p_tf p1 |>
    /\ (forall a, dom a -> ~ esp <= a < esp + 4 * Z.of_nat (S (length args)) -> load8 (k_mem s1) (tr a) = load8 (k_mem s) (tr a))
    /\ forall r s2 p2, f s1 = Done r s2 -> user_state s2 p2 ->
       exists s3 p3, usys esp ra ev num args s = Done (i32 r) s3 /\ user_state s3 p3 /\ seen s3 = seen s2 /\ p3 = p2 <| p_tf := p_tf p3 |> /\ k_mem s3 = k_mem s2.
Proof.
  intros Hus Hlen Hnum Hf. pose proof (us_mem _ _ Hus) as Hm. assert (within dom esp (4 * S (length args))) as Hw by (eapply within_le; [done|lia]).
  destruct (poke_run dom tr (words (ra :: args)) s esp Hm) as (m & R0 & Hm0 & Hh & Ho); [by rewrite length_words|apply words_bytes|]. rewrite length_words in Ho. cbn [length] in Ho.
  set (s0 := s <| k_mem := m |>) in *. pose proof (us_memory s p m Hus Hm0) as Hus0. fold s0 in Hus0.
  set (tf := (p_tf p) <| tf_trapno := T_SYSCALL |> <| tf_eax := num |> <| tf_esp := esp |>). set (p1 := p <| p_tf := tf |>).
  pose proof (us_proc s0 p tf Hus0) as Hus1. cbv zeta in Hus1. fold p1 in Hus1. set (s1 := s0 <| k_ptable ::= <[c := p1]> |>) in *.
  exists s1, p1. split_and!; [done| |done|done|intros a Ha Hn; apply Ho; [done|lia]|].
  { split; [apply Hus1|done|apply Hus1|done|rewrite (us_sz _ _ Hus1); lia|exact Hh]. }
  intros r s2 p2 Rf Hus2. pose proof (us_proc s2 p2 ((p_tf p2) <| tf_eax := u32 r |>) Hus2) as Hus3. cbv zeta in Hus3. set (p3 := p2 <| p_tf := _ |>) in *. set (s3 := s2 <| k_ptable ::= _ |>) in *.
  exists s3, p3. split_and!; [|done|done|done|done]. unfold usys. krun R0. unfold int_syscall. krun (my_run s0 c p p_tf (us_cur _ _ Hus0)).
  fold tf. assert (trap ev tf s0 = Done tt s3) as Rt; [|krun Rt; krun (my_run s3 c p3 (fun p => tf_eax (p_tf p)) (us_cur _ _ Hus3)); unfold mret, M_ret; f_equal; apply i32_mod].
  unfold trap. change (tf_trapno tf =? T_SYSCALL) with true. cbv iota. krun (my_run s0 c p p_killed (us_cur _ _ Hus0)). rewrite (us_live _ _ Hus0). change (nz 0) with false.
  unfold when. rewrite (bind_done (mret tt) _ s0 tt s0) by done. cbv beta. krun (curproc_run s0 c p (us_cur _ _ Hus0)).
  rewrite (bind_done _ _ s0 tt s1) by (rewrite upd_proc_run; f_equal; apply set_ext; cbv beta; by rewrite (alter_at _ _ _ p (cu_proc _ _ _ (us_cur _ _ Hus0)))). cbv beta.
  assert (syscall s1 = Done tt s3) as Rs.
  { unfold syscall. krun (curproc_run s1 c p1 (us_cur _ _ Hus1)). krun (current_proc s1 c p1 (us_cur _ _ Hus1)). change (tf_eax (p_tf p1)) with num.
    rewrite i32_small by lia. cbv zeta. rewrite (proj2 (Z.ltb_lt _ _)) by lia. rewrite Hf. cbn [mjoin option_join]. krun Rf. unfold set_eax. rewrite upd_proc_run. f_equal.
    apply set_ext. cbv beta. rewrite (alter_at _ _ _ p2 (cu_proc _ _ _ (us_cur _ _ Hus2))). done. }
  krun Rs. krun (my_run s3 c p3 p_killed (us_cur _ _ Hus3)). by rewrite (us_live _ _ Hus3).
Qed.

(** What is to be shown of the state after a call. *)
Lemma us_outer s p s' o cs :
  user_state s p -> ready s' -> persists (k_icache s) (k_icache s') -> 0 < refs (k_icache s') (Z.of_nat i1) -> let p' := p <| p_ofile := o |> in
  outer s' = outer (s <| k_ptable := <[c := p']> (k_ptable s) |> <| k_cons := cs |>) -> cons_ok cs -> length o = NOFILE -> o !! 1%nat = Some (Some fl1) ->
  console_file (k_ftable s') -> user_state s' p'.
Proof.
  intros [H1 H2 H3 H3' H4 H5 H6 H7 H7' H8 H9 H10] Hr Hp H0 p' Eo Hcs Hol Ho Hf. destruct (outer_fields _ _ Eo) as (Ehw & Ept & Em & Ecr & Ecs & Edv). cbn in Ehw, Ept, Em, Ecr, Ecs, Edv.
  split; [done| |done|done|by rewrite Em, Ecr|by rewrite Ecs|by rewrite Edv|done|done|done|done|by eapply console_persists].
  destruct H2 as [(i & x & Hx & Hx') Hc Hs]. split; [exists i, x; by rewrite Ehw| |done]. rewrite Ept. apply list_lookup_insert_eq. by eapply lookup_lt_Some.
Qed.

Lemma us_settled s p s' cs :
  user_state s p -> ready s' -> settled (k_icache s) (k_icache s') -> outer s' = outer (s <| k_cons := cs |>) -> cons_ok cs -> console_file (k_ftable s') -> user_state s' p.
Proof.
  intros Hu Hr [Hn Hp] Eo Hcs Hf. replace p with (p <| p_ofile := p_ofile p |>) by (by destruct p). apply (us_outer s p s' (p_ofile p) cs); [done|done|done| | |done|apply Hu|apply Hu|done].
  - rewrite Hn. eapply console_refs, Hu.
  - rewrite Eo. f_equal. replace (p <| p_ofile := p_ofile p |>) with p by (by destruct p). rewrite list_insert_id by apply (us_cur _ _ Hu). by destruct s.
Qed.

(** *** Steps *)

(** From [s] to [s'] the process goes on, and [out] appears on the console.  The entries of the
    file table other than [ex] that are in use stay what they are. *)
Record step (ex : list nat) (s : kernel) (p : proc) (s' : kernel) (p' : proc) (out : list Z) : Prop := Step {
  sp_user : user_state s' p';
  sp_proc : p' = p <| p_tf := p_tf p' |> <| p_ofile := p_ofile p' |>;
  sp_files : length (k_ftable s') = length (k_ftable s);
  sp_file : forall fl x, ~ fl ∈ ex -> k_ftable s !! fl = Some x -> exists x', k_ftable s' !! fl = Some x' /\ (x' = x \/ f_ref x = 0 /\ f_ref x' = 0);
  sp_cons : emits out (k_cons s) (k_cons s');
  sp_writes : k_writes s' = k_writes s
}.

Lemma step_trans ex s p s1 p1 s2 p2 o1 o2 : step ex s p s1 p1 o1 -> step ex s1 p1 s2 p2 o2 -> step ex s p s2 p2 (o1 ++ o2).
Proof.
  intros [A1 A2 A3 A4 A5 A6] [B1 B2 B3 B4 B5 B6]. split; [done|rewrite B2, A2; by destruct p|congruence| |by eapply emits_app|congruence].
  intros fl x He Hx. destruct (A4 fl x He Hx) as (x1 & Hx1 & C1), (B4 fl x1 He Hx1) as (x2 & Hx2 & C2). exists x2. split; [done|].
  destruct C1 as [-> |[? ?]], C2 as [-> |[? ?]]; auto.
Qed.

Lemma step_more ex ex' s p s' p' out : step ex s p s' p' out -> ex ⊆ ex' -> step ex' s p s' p' out.
Proof. intros [A1 A2 A3 A4 A5 A6] H. split; [done..| |done|done]. intros fl x He Hx. apply A4; [set_solver|done]. Qed.

(** The step of a system call, from that of its function. *)
Lemma step_seen ex s p s1 p1 s2 p2 s3 p3 out :
  seen s1 = seen s -> p1 = p <| p_tf := p_tf p1 |> -> seen s3 = seen s2 -> p3 = p2 <| p_tf := p_tf p3 |> -> user_state s3 p3 ->
  step ex s1 p1 s2 p2 out -> step ex s p s3 p3 out.
Proof.
  intros [= E1 E2 E3 E4] Ep [= F1 F2 F3 F4] Eq Hu [A1 A2 A3 A4 A5 A6]. rewrite E2, E3, E4 in *.
  split; [done|rewrite Eq, A2, Ep; by destruct p|congruence| |by rewrite F3|congruence]. intros fl x He Hx. rewrite F2. by apply A4.
Qed.

(** *** Arguments *)

Lemma argfd_run s p args fd fl :
  user_state s p -> called dom tr s c p esp ra args -> args !! 0%nat = Some (Z.of_nat fd) -> p_ofile p !! fd = Some (Some fl) -> argfd 0 s = Done (Some (fd, fl)) s.
Proof.
  intros Hu Hc Ha Hfd. pose proof (lookup_lt_Some _ _ _ Hfd) as Hlt. rewrite (us_fds _ _ Hu) in Hlt. unfold NOFILE in Hlt.
  unfold argfd. krun (argint_run dom tr s c p esp ra args 0 _ Hc Ha). rewrite i32_small by lia.
  rewrite (proj2 (Z.ltb_ge _ _)) by lia. rewrite (proj2 (Z.leb_gt _ _)) by (unfold NOFILE; lia). cbn [orb]. krun (my_run s c p p_ofile (ca_cur _ _ _ _ _ _ _ _ Hc)).
  rewrite Nat2Z.id, Hfd. by kstep.
Qed.

Lemma arg_file_buf_run s p fd fl n :
  user_state s p -> called dom tr s c p esp ra [Z.of_nat fd; data; Z.of_nat n] -> p_ofile p !! fd = Some (Some fl) -> (n <= 512)%nat ->
  arg_file_buf s = Done (Some (fl, Z.of_nat n, data)) s.
Proof.
  intros Hu Hc Hfd Hn. pose proof (us_sz _ _ Hu) as Esz. pose proof Hdat as (H0 & _). unfold arg_file_buf. krun (argfd_run s p _ fd fl Hu Hc eq_refl Hfd).
  krun (argint_run dom tr s c p esp ra _ 2 _ Hc eq_refl). rewrite i32_small by lia.
  krun (argptr_called dom tr s c p esp ra _ 1 data (Z.of_nat n) Hc eq_refl H0 ltac:(lia) ltac:(lia) ltac:(lia)). done.
Qed.

(** *** Open files *)

(** Descriptor [fd] of the process is for reading file [i], at offset [o]; entry [fl] of the file table is for it. *)
Definition has_open (s : kernel) (p : proc) (fd fl i o : nat) (f : fent) : Prop :=
  exists ip x nd, p_ofile p !! fd = Some (Some fl) /\ open_file s fs fl ip i o x nd f /\ f_readable x <> 0 /\ f_ref x = 1.

Lemma console_other s p fd fl i o f : user_state s p -> has_open s p fd fl i o f -> fl <> fl1 /\ i <> i1.
Proof.
  intros Hu (ip & x & nd & _ & [O1 O2 O3 O4 O5 O6 O7 O8 O9] & _). destruct (us_inode _ _ Hu) as (nd1 & f1 & I1 & _ & _ & _ & I5 & I6 & I7).
  assert (i <> i1) as Hne by (intros ->; rewrite O8 in I6; injection I6 as ->; by apply O9). split; [|done]. intros ->.
  destruct (us_file _ _ Hu) as (x1 & X1 & _ & _ & _ & X5). rewrite O1 in X1. injection X1 as <-. rewrite O3 in X5. injection X5 as ->.
  rewrite O5 in I1. injection I1 as <-. apply Hne. lia.
Qed.

Lemma open_settled s s' fl ip i o x nd f :
  open_file s fs fl ip i o x nd f -> settled (k_icache s) (k_icache s') -> exists nd', k_icache s' !! ip = Some nd' /\ 0 < i_ref nd' /\ i_inum nd' = Z.of_nat i.
Proof.
  intros [O1 O2 O3 O4 O5 O6 O7 O8 O9] [Hr Hp]. destruct (Hp ip nd O5 O6) as (nd' & I1 & I2 & I3 & _); [|exists nd'; split_and!; [done|done|congruence]].
  rewrite Hr. apply refs_pos, in_use_lookup. by exists ip, nd.
Qed.

Lemma has_open_step ex s p s' p' out fd fl i o f :
  has_open s p fd fl i o f -> step ex s p s' p' out -> settled (k_icache s) (k_icache s') -> p_ofile p' = p_ofile p -> ~ fl ∈ ex -> has_open s' p' fd fl i o f.
Proof.
  intros (ip & x & nd & H1 & H2 & H3 & H4) Hst Hse Ho He. destruct (open_settled _ _ _ _ _ _ _ _ _ H2 Hse) as (nd' & I1 & I2 & I3).
  destruct H2 as [O1 O2 O3 O4 O5 O6 O7 O8 O9]. destruct (sp_file _ _ _ _ _ _ Hst fl x He O1) as (x' & Hx' & [-> |[? _]]); [|lia].
  exists ip, x, nd'. split_and!; [by rewrite Ho|done|done|done].
Qed.

(** *** [sys_read] *)

Lemma sys_read_run s p fd fl i o f n :
  user_state s p -> called dom tr s c p esp ra [Z.of_nat fd; data; Z.of_nat n] -> has_open s p fd fl i o f -> (n <= 512)%nat ->
  (o <= length (fe_data f))%nat -> is_bytes (fe_data f) -> let l := sub o n (fe_data f) in exists s',
  sys_read s = Done (Z.of_nat (length l)) s' /\ step [fl] s p s' p [] /\ settled (k_icache s) (k_icache s')
  /\ has_open s' p fd fl i (o + length l) f /\ holds (k_mem s') tr data l.
Proof.
  intros Hu Hca Ho Hn Hle Hb l. destruct (console_other _ _ _ _ _ _ _ Hu Ho) as [Hne _]. destruct Ho as (ip & x & nd & Hfd & Hof & Hrd & Href).
  pose proof (stored_length _ _ (dk_files _ _ _ _ (fo_disk _ _ _ _ _ (st_files _ _ _ _ _ _ _ (fr_state _ _ _ _ _ _ _ _ (us_ready _ _ Hu)))) i f (of_file _ _ _ _ _ _ _ _ _ Hof))) as Hmax.
  destruct (fileread_q sb start nfiles Hfit Hdisk Hstart Hbm Hino pid dsk fs cids s fl ip i o x nd f n (us_ready _ _ Hu) Hof Hrd ltac:(unfold W32; lia)) as (s1 & R1 & Hr1 & Hse1 & Ef1 & Eo1 & Ew1).
  assert (length l = n `min` (length (fe_data f) - o))%nat as Hl by (unfold l, sub; rewrite length_take, length_drop; done).
  assert (read_at o n (fe_data f) = (Z.of_nat (length l), l)) as Era by (unfold read_at; rewrite (proj2 (Nat.ltb_ge _ _)) by lia; by rewrite Hl).
  destruct (outer_fields _ _ Eo1) as (Ehw & Ept & Em & Ecr & Ecs & Edv). unfold read_off in Ef1. rewrite Era in R1, Ef1. cbn [fst] in Ef1. rewrite Z.max_r, Nat2Z.id in Ef1 by lia.
  destruct (ustore_run dom tr l s1 data) as (m & R2 & Hm & Hh & _); [rewrite Em, Ecr; apply Hu|eapply within_le; [exact Hdat|lia]|by apply Forall_take, Forall_drop|].
  set (s2 := s1 <| k_mem := m |>) in *. set (x' := x <| f_off := _ |>) in Ef1. exists s2.
  assert (k_ftable s2 !! fl = Some x') as Hx' by (change (k_ftable s2) with (k_ftable s1); rewrite Ef1; apply list_lookup_insert_eq; eapply lookup_lt_Some, Hof).
  assert (user_state s2 p) as Hu2.
  { apply us_memory; [|by rewrite Ecr in Hm |- *]. apply (us_settled s p s1 (k_cons s)); [done|done|done|rewrite Eo1; by destruct s|apply Hu|].
    rewrite Ef1. unfold console_file. rewrite list_lookup_insert_ne by done. apply Hu. }
  split_and!; [| |done| |done].
  - unfold sys_read. krun (arg_file_buf_run s p fd fl n Hu Hca Hfd Hn). krun R1. by krun R2.
  - split; [done|by destruct p| | |change (emits [] (k_cons s) (k_cons s1)); rewrite Ecs; apply emits_nil, Hu|done]; change (k_ftable s2) with (k_ftable s1); rewrite Ef1; [by rewrite length_insert|].
    intros fl' y He Hy. exists y. rewrite list_lookup_insert_ne by (intros <-; apply He; by left). auto.
  - destruct (open_settled s s1 _ _ _ _ _ _ _ Hof Hse1) as (nd' & I1 & I2 & I3). exists ip, x', nd'. split_and!; [done| |done|done].
    destruct Hof as [O1 O2 O3 O4 O5 O6 O7 O8 O9]. split; done.
Qed.

(** *** [sys_write] to the console *)

Lemma file_container_run s p fl x ip nd :
  user_state s p -> k_ftable s !! fl = Some x -> f_ip x = Some ip -> k_icache s !! ip = Some nd -> file_container fl s = Done (p_containerID p) s.
Proof.
  intros Hu Hx Hxi Hip. unfold file_container. krun (get_file_run s fl x Hx). rewrite Hxi. kstep.
  krun (quiet_get sb start nfiles pid dsk dsk [] fs cids s _ _ ip nd (ready_quiet sb start nfiles pid dsk fs cids s (us_ready _ _ Hu)) Hip). unfold mret, M_ret. f_equal.
  pose proof (us_cids _ _ Hu) as Hc. rewrite <- (li_cids _ _ (fr_linked _ _ _ _ _ _ _ _ (us_ready _ _ Hu))) in Hc. rewrite Forall_fmap, Forall_lookup in Hc. exact (Hc ip nd Hip).
Qed.

Lemma sys_write_run s p l :
  user_state s p -> called dom tr s c p esp ra [1; data; Z.of_nat (length l)] -> holds (k_mem s) tr data l -> is_bytes l -> (0 < length l <= 512)%nat ->
  exists s', sys_write s = Done (Z.of_nat (length l)) s' /\ step [fl1] s p s' p l /\ settled (k_icache s) (k_icache s').
Proof.
  intros Hu Hca Hh Hb Hn. destruct (us_dev _ _ Hu) as (dv & Hdv & Hdw). destruct (us_file _ _ Hu) as (x & Hx & Hx0 & Hxt & Hxw & Hxi). pose proof (us_inode _ _ Hu) as Hce.
  destruct (filewrite_console_q sb start nfiles Hfit Hdisk Hstart Hbm Hino pid dsk fs cids s fl1 x ip1 i1 dv l (us_ready _ _ Hu) Hce (us_cons _ _ Hu) Hdv Hdw Hx Hxt Hxw Hxi Hb Hn)
    as (s1 & cs & R1 & Hr1 & Hse1 & Hem & Ef1 & Eo1 & Ew1).
  destruct (outer_fields _ _ Eo1) as (Ehw & Ept & Em & Ecr & Ecs & Edv). cbn in Ehw, Ept, Em, Ecr, Ecs, Edv. set (x' := x <| f_off := _ |>) in Ef1. exists s1.
  assert (user_state s1 p) as Hu1.
  { apply (us_settled s p s1 cs); [done|done|done|done|apply Hem|]. exists x'. split; [rewrite Ef1; apply list_lookup_insert_eq; by eapply lookup_lt_Some|done]. }
  split_and!; [| |done].
  - unfold sys_write. krun (arg_file_buf_run s p 1 fl1 (length l) Hu Hca (us_fd _ _ Hu) ltac:(lia)).
    destruct Hce as (nd & f & Hip & _). krun (file_container_run s p fl1 x ip1 nd Hu Hx Hxi Hip).
    assert (uload data (Z.to_nat (Z.of_nat (length l))) s = Done l s) as Rl by (rewrite Nat2Z.id; apply (uload_run dom tr); [apply Hu|eapply within_le; [exact Hdat|lia]|done]).
    destruct (p_containerID p =? 0); [by krun Rl|]. krun (my_run s c p p_containerID (us_cur _ _ Hu)). rewrite Z.eqb_refl. cbn [negb]. by krun Rl.
  - split; [done|by destruct p|by rewrite Ef1, length_insert| |by rewrite Ecs|done].
    intros fl' y He Hy. exists y. rewrite Ef1, list_lookup_insert_ne by (intros <-; apply He; by left). auto.
Qed.

(** *** [sys_close] *)

Lemma sys_close_run s p fd fl i o f :
  user_state s p -> called dom tr s c p esp ra [Z.of_nat fd] -> has_open s p fd fl i o f -> fd <> 1%nat ->
  let p' := p <| p_ofile ::= <[fd := None]> |> in exists s',
  sys_close s = Done 0 s' /\ step [fl] s p s' p' [] /\ lost (k_icache s) (k_icache s') (Z.of_nat i) /\ exists x, k_ftable s' !! fl = Some x /\ f_ref x = 0.
Proof.
  intros Hu Hca Ho Hf1 p'. destruct (console_other _ _ _ _ _ _ _ Hu Ho) as [Hne Hni]. destruct Ho as (ip & x & nd & Hfd & Hof & Hrd & Href). pose proof (us_cur _ _ Hu) as Hcur.
  set (s0 := s <| k_ptable ::= <[c := p']> |>). pose proof Hof as [O1 O2 O3 O4 O5 O6 O7 O8 O9].
  assert (ready s0) as Hr0.
  { apply (ready_move sb start nfiles pid dsk fs cids s); [done| |apply Hu]. change (calm (k_hw s) (<[c := p']> (k_ptable s)) pid).
    eapply calm_proc; [exact (ready_calm _ _ _ _ _ _ _ s (us_ready _ _ Hu))|apply Hcur|done|done|done]. }
  destruct (fileclose_q sb start nfiles Hfit Hdisk Hstart Hbm Hino pid dsk fs cids s0 fl x ip i Hr0 O1 Href O2 O3) as (s1 & R1 & Hr1 & Hl1 & Ef1 & Eo1 & Ew1); [by exists nd|].
  destruct (outer_fields _ _ Eo1) as (Ehw & Ept & Em & Ecr & Ecs & Edv). change (k_icache s0) with (k_icache s) in Hl1. change (k_ftable s0) with (k_ftable s) in Ef1. set (x' := set f_type _ _) in Ef1. exists s1.
  assert (user_state s1 p') as Hu1.
  { apply (us_outer s p s1 (<[fd := None]> (p_ofile p)) (k_cons s)); [done|done|apply Hl1| |by rewrite Eo1; destruct s|apply Hu|rewrite length_insert; apply Hu|rewrite list_lookup_insert_ne by done; apply Hu|].
    - rewrite (proj1 Hl1). unfold one. rewrite decide_False by lia. rewrite Z.sub_0_r. eapply console_refs, Hu.
    - rewrite Ef1. unfold console_file. rewrite list_lookup_insert_ne by done. apply Hu. }
  split_and!; [| |done|exists x'; split; [rewrite Ef1; apply list_lookup_insert_eq; by eapply lookup_lt_Some|done]].
  - unfold sys_close. krun (argfd_run s p _ fd fl Hu Hca eq_refl Hfd). krun (file_container_run s p fl x ip nd Hu O1 O3 O5).
    krun (my_run s c p p_containerID Hcur). rewrite Z.eqb_refl. cbn [negb]. krun (curproc_run s c p Hcur).
    rewrite (bind_done _ _ s tt s0) by (unfold set_ofile; rewrite upd_proc_run; f_equal; apply set_ext; cbv beta; by rewrite (alter_at _ _ _ p (cu_proc _ _ _ Hcur))). cbv beta. by krun R1.
  - split; [done|by destruct p|by rewrite Ef1, length_insert| |rewrite Ecs; apply emits_nil, Hu|done].
    intros fl' y He Hy. exists y. rewrite Ef1, list_lookup_insert_ne by (intros <-; apply He; by left). auto.
Qed.

(** *** [sys_open] for reading *)

(** There is room to open a file. *)
Record roomy (s : kernel) (p : proc) : Prop := Roomy {
  ro_inodes : (length (in_use (k_icache s)) + 2 <= NINODE)%nat;
  ro_fd : None ∈ p_ofile p;
  ro_files : length (k_ftable s) = NFILE;
  ro_file : exists fl x, k_ftable s !! fl = Some x /\ f_ref x = 0
}.

(** The file that the process gets when it opens [path], if there is one. *)
Definition leads (s : kernel) (p : proc) (path : list Z) (j : option nat) : Prop :=
  let q := container_path path (p_containerID p) in
  exists i f, starts_at p (k_icache s) q i /\ fs !! i = Some f /\ fe_type f <> 0 /\ openable fs (resolve fs i (elems q)) 0 = j.

Lemma sys_open_user s p path j :
  user_state s p -> called dom tr s c p esp ra [data; 0] -> holds (k_mem s) tr data (path ++ [0]) -> Forall (fun b => 0 < b < 256) path -> (length path < 512)%nat ->
  roomy s p -> leads s p path j ->
  match j with
  | None => exists s', sys_open s = Done (-1) s' /\ step [] s p s' p [] /\ settled (k_icache s) (k_icache s')
  | Some j => exists fd fl s', sys_open s = Done (Z.of_nat fd) s' /\ let p' := p <| p_ofile ::= <[fd := Some fl]> |> in
      step [fl] s p s' p' [] /\ gained (k_icache s) (k_icache s') (Z.of_nat j) /\ p_ofile p !! fd = Some None
      /\ (exists x, k_ftable s !! fl = Some x /\ f_ref x = 0)
      /\ forall f, fs !! j = Some f -> fe_type f <> 0 -> fe_type f <> T_DEV -> has_open s' p' fd fl j 0 f
  end.
Proof.
  intros Hu Hca Hh Hpb Hlen [Ri Rf Rl Rx] (i & f & Hst & Hi & Hty & Hj). pose proof (us_cur _ _ Hu) as Hcur. pose proof (us_sz _ _ Hu) as Esz.
  pose proof (argstr_run dom tr s c p esp ra [data; 0] 0 data path Hca eq_refl ltac:(eapply within_le; [exact Hdat|lia]) Hh ltac:(eapply Forall_impl; [exact Hpb|]; cbv beta; lia) ltac:(lia)) as Ha0.
  pose proof (argint_run dom tr s c p esp ra [data; 0] 1 0 Hca eq_refl) as Ha1. change (i32 0) with 0 in Ha1.
  pose proof (sys_open_run sb start nfiles Hfit Hdisk Hstart Hbm Hino pid dsk fs cids s c p path 0 i f (us_ready _ _ Hu) Hcur Ha0 Ha1 ltac:(eapply Forall_impl; [exact Hpb|]; cbv beta; lia)
    eq_refl Ri (us_fds _ _ Hu) Rf Rl Rx Hst Hi Hty) as H. cbv zeta in H. rewrite Hj in H. clear Ha0 Ha1. destruct j as [j|].
  - destruct H as (fd & s1 & R & fl & x & ip & Hr1 & Hga & Hrf & Hfd & Hx & Hx0 & Ef1 & Eo1 & Ew1).
    destruct (outer_fields _ _ Eo1) as (Ehw & Ept & Em & Ecr & Ecs & Edv). exists fd, fl, s1. split; [done|]. intros p'.
    destruct (us_file _ _ Hu) as (x1 & Hx1 & H0 & _). assert (fl <> fl1) as Hne by (intros ->; rewrite Hx in Hx1; injection Hx1 as ->; lia).
    assert (fd <> 1%nat) as Hf1 by (intros ->; by rewrite (us_fd _ _ Hu) in Hfd). assert (k_ftable s1 !! fl = Some (opened x ip 0)) as Hx' by (rewrite Ef1; apply list_lookup_insert_eq; by eapply lookup_lt_Some).
    assert (user_state s1 p') as Hu1.
    { apply (us_outer s p s1 (<[fd := Some fl]> (p_ofile p)) (k_cons s)); [done|done|apply Hga| |by rewrite Eo1; destruct s|apply Hu|rewrite length_insert; apply Hu|rewrite list_lookup_insert_ne by done; apply Hu|].
      - rewrite (proj1 Hga). pose proof (one_nonneg (Z.of_nat j) (Z.of_nat i1)). pose proof (console_refs _ _ _ _ (us_inode _ _ Hu)). lia.
      - rewrite Ef1. unfold console_file. rewrite list_lookup_insert_ne by done. apply Hu. }
    split_and!; [|done|done|by exists x|].
    + split; [done|by destruct p|by rewrite Ef1, length_insert| |rewrite Ecs; apply emits_nil, Hu|done].
      intros fl' y He Hy. exists y. rewrite Ef1, list_lookup_insert_ne by (intros <-; apply He; by left). auto.
    + intros g Hg Hg0 Hg1. destruct Hrf as (nd & I1 & I2 & I3). exists ip, (opened x ip 0), nd. split_and!; [|by split|done|done].
      change (p_ofile p') with (<[fd := Some fl]> (p_ofile p)). apply list_lookup_insert_eq. by eapply lookup_lt_Some.
  - destruct H as (s1 & R & Hr1 & Hse & Er1). destruct (rest_outer _ _ Er1) as (Eo1 & Ef1 & Ew1 & _). destruct (outer_fields _ _ Eo1) as (Ehw & Ept & Em & Ecr & Ecs & Edv).
    exists s1. split_and!; [done| |done]. split; [|by destruct p|by rewrite Ef1|rewrite Ef1; eauto|rewrite Ecs; apply emits_nil, Hu|done].
    apply (us_settled s p s1 (k_cons s)); [done|done|done|rewrite Eo1; by destruct s|apply Hu|rewrite Ef1; apply Hu].
Qed.

(** *** The calls of a program *)

Abbreviation kc := (kcall esp data ra ev).

Lemma has_open_seen s p s' p' fd fl i o f : seen s' = seen s -> p' = p <| p_tf := p_tf p' |> -> has_open s p fd fl i o f -> has_open s' p' fd fl i o f.
Proof.
  intros [= E1 E2 _ _] -> (ip & x & nd & H1 & [O1 O2 O3 O4 O5 O6 O7 O8 O9] & H). exists ip, x, nd. split_and!; [done| |apply H|apply H].
  split; [by rewrite E2|done|done|done|by rewrite E1|done..].
Qed.

Lemma call_read s p fd fl i o f n :
  user_state s p -> has_open s p fd fl i o f -> (n <= 512)%nat -> (o <= length (fe_data f))%nat -> is_bytes (fe_data f) ->
  let l := sub o n (fe_data f) in exists s' p',
  kc (Read (Z.of_nat fd) (Z.of_nat n)) s = Done (Z.of_nat (length l), l) s' /\ step [fl] s p s' p' [] /\ settled (k_icache s) (k_icache s')
  /\ p_ofile p' = p_ofile p /\ has_open s' p' fd fl i (o + length l) f.
Proof.
  intros Hu Ho Hn Hle Hb l. destruct (usys_user s p 5 [Z.of_nat fd; data; Z.of_nat n] sys_read Hu) as (s1 & p1 & Hu1 & Hca & Es1 & Ep1 & _ & Hend); [cbn; lia|done|done|].
  destruct (sys_read_run s1 p1 fd fl i o f n Hu1 Hca (has_open_seen _ _ _ _ _ _ _ _ _ Es1 Ep1 Ho) Hn Hle Hb) as (s2 & R2 & Hst & Hse & Ho2 & Hh). fold l in R2, Ho2, Hh.
  destruct (Hend _ s2 p1 R2 (sp_user _ _ _ _ _ _ Hst)) as (s3 & p3 & R3 & Hu3 & Es3 & Ep3 & Em3). assert (length l <= 512)%nat as Hl by (unfold l, sub; rewrite length_take; lia).
  exists s3, p3. split_and!; [|by eapply step_seen| |by rewrite Ep3, Ep1|by eapply has_open_seen].
  - cbn [kcall]. krun R3. rewrite i32_small by lia. rewrite Nat2Z.id. assert (upeek data (length l) s3 = Done l s3) as Rp; [|by krun Rp].
    rewrite (peek_uload dom tr) by (apply Hu3 || (eapply within_le; [exact Hdat|lia])). apply (uload_run dom tr); [apply Hu3|eapply within_le; [exact Hdat|lia]|by rewrite Em3].
  - injection Es1 as E1 _ _ _. injection Es3 as E3 _ _ _. by rewrite E3, <- E1.
Qed.

(** The process stores [l] at [data] and calls. *)
Lemma usys_data s p num args (f : K Z) l :
  user_state s p -> (length args <= 3)%nat -> 0 < num < 0x80000000 -> syscalls !! Z.to_nat num = Some (Some f) -> is_bytes l -> (length l <= 512)%nat ->
  exists s1 p1, user_state s1 p1 /\ called dom tr s1 c p1 esp ra args /\ seen s1 = seen s /\ p1 = p <| p_tf := p_tf p1 |> /\ holds (k_mem s1) tr data l
    /\ forall r s2 p2, f s1 = Done r s2 -> user_state s2 p2 ->
       exists s3 p3, (poke data l ;; usys esp ra ev num args) s = Done (i32 r) s3 /\ user_state s3 p3 /\ seen s3 = seen s2 /\ p3 = p2 <| p_tf := p_tf p3 |>.
Proof.
  intros Hu Hlen Hnum Hf Hb Hl. assert (within dom data (length l)) as Hw by (eapply within_le; [exact Hdat|lia]).
  destruct (poke_run dom tr l s data (us_mem _ _ Hu) Hw Hb) as (m & R0 & Hm & Hh & _). set (s0 := s <| k_mem := m |>) in *.
  destruct (usys_user s0 p num args f (us_memory s p m Hu Hm) Hlen Hnum Hf) as (s1 & p1 & Hu1 & Hca & Es1 & Ep1 & Ho & Hend).
  exists s1, p1. split_and!; [done|done|done|done| |].
  - apply (holds_other m (k_mem s1) dom tr esp (4 * S (length args))); [intros a Ha Hn; apply Ho; [done|lia]|done|lia|done].
  - intros r s2 p2 R2 Hu2. destruct (Hend r s2 p2 R2 Hu2) as (s3 & p3 & R3 & Hu3 & Es3 & Ep3 & _). exists s3, p3. split_and!; [by krun R0|done|done|done].
Qed.

Lemma call_write s p l :
  user_state s p -> is_bytes l -> (0 < length l <= 512)%nat -> exists s' p',
  kc (Write 1 l) s = Done (Z.of_nat (length l)) s' /\ step [fl1] s p s' p' l /\ settled (k_icache s) (k_icache s') /\ p_ofile p' = p_ofile p.
Proof.
  intros Hu Hb Hl. destruct (usys_data s p 16 [1; data; Z.of_nat (length l)] sys_write l Hu) as (s1 & p1 & Hu1 & Hca & Es1 & Ep1 & Hh & Hend); [cbn; lia|done|done|done|lia|].
  destruct (sys_write_run s1 p1 l Hu1 Hca Hh Hb Hl) as (s2 & R2 & Hst & Hse). destruct (Hend _ s2 p1 R2 (sp_user _ _ _ _ _ _ Hst)) as (s3 & p3 & R3 & Hu3 & Es3 & Ep3).
  exists s3, p3. split_and!; [|by eapply step_seen| |by rewrite Ep3, Ep1].
  - cbn [kcall]. rewrite R3. by rewrite i32_small by lia.
  - injection Es1 as E1 _ _ _. injection Es3 as E3 _ _ _. by rewrite E3, <- E1.
Qed.

Lemma call_close s p fd fl i o f :
  user_state s p -> has_open s p fd fl i o f -> fd <> 1%nat -> exists s' p',
  kc (Close (Z.of_nat fd)) s = Done 0 s' /\ step [fl] s p s' p' [] /\ lost (k_icache s) (k_icache s') (Z.of_nat i) /\ p_ofile p' = <[fd := None]> (p_ofile p)
  /\ exists x, k_ftable s' !! fl = Some x /\ f_ref x = 0.
Proof.
  intros Hu Ho Hf. destruct (usys_user s p 21 [Z.of_nat fd] sys_close Hu) as (s1 & p1 & Hu1 & Hca & Es1 & Ep1 & _ & Hend); [cbn; lia|done|done|].
  destruct (sys_close_run s1 p1 fd fl i o f Hu1 Hca (has_open_seen _ _ _ _ _ _ _ _ _ Es1 Ep1 Ho) Hf) as (s2 & R2 & Hst & Hl & Hx).
  destruct (Hend _ s2 _ R2 (sp_user _ _ _ _ _ _ Hst)) as (s3 & p3 & R3 & Hu3 & Es3 & Ep3 & _).
  exists s3, p3. split_and!; [exact R3|by eapply step_seen| |by rewrite Ep3, Ep1|]; injection Es1 as E1 _ _ _; injection Es3 as E3 E3' _ _; [by rewrite E3, <- E1|by rewrite E3'].
Qed.

Lemma call_open s p path j :
  user_state s p -> Forall (fun b => 0 < b < 256) path -> (length path < 512)%nat -> roomy s p -> leads s p path j ->
  match j with
  | None => exists s' p', kc (Open path 0) s = Done (-1) s' /\ step [] s p s' p' [] /\ settled (k_icache s) (k_icache s') /\ p_ofile p' = p_ofile p
  | Some j => exists fd fl s' p', kc (Open path 0) s = Done (Z.of_nat fd) s' /\ step [fl] s p s' p' [] /\ gained (k_icache s) (k_icache s') (Z.of_nat j)
      /\ p_ofile p !! fd = Some None /\ p_ofile p' = <[fd := Some fl]> (p_ofile p) /\ (exists x, k_ftable s !! fl = Some x /\ f_ref x = 0)
      /\ forall f, fs !! j = Some f -> fe_type f <> 0 -> fe_type f <> T_DEV -> has_open s' p' fd fl j 0 f
  end.
Proof.
  intros Hu Hpb Hlen [Ri Rf Rl Rx] Hle. destruct (usys_data s p 15 [data; 0] sys_open (path ++ [0]) Hu) as (s1 & p1 & Hu1 & Hca & Es1 & Ep1 & Hh & Hend);
    [cbn; lia|done|done|apply Forall_app; split; [eapply Forall_impl; [exact Hpb|]; cbv beta; lia|by repeat constructor]|rewrite length_app; cbn; lia|].
  pose proof Es1 as [= E1 E2 _ _]. assert (roomy s1 p1) as Hro by (split; [by rewrite E1|by rewrite Ep1|by rewrite E2|by rewrite E2]).
  assert (leads s1 p1 path j) as Hle1 by (unfold leads in *; rewrite E1, Ep1; exact Hle).
  pose proof (sys_open_user s1 p1 path j Hu1 Hca Hh Hpb Hlen Hro Hle1) as H. destruct j as [j|].
  - destruct H as (fd & fl & s2 & R2 & Hst & Hga & Hfd & Hx & Hop). destruct (Hend _ s2 _ R2 (sp_user _ _ _ _ _ _ Hst)) as (s3 & p3 & R3 & Hu3 & Es3 & Ep3). pose proof Es3 as [= E3 _ _ _].
    pose proof (lookup_lt_Some _ _ _ Hfd) as Hlt. rewrite (us_fds _ _ Hu1) in Hlt. unfold NOFILE in Hlt.
    exists fd, fl, s3, p3. split_and!; [|by eapply step_seen|by rewrite E3, <- E1|by rewrite Ep1 in Hfd|by rewrite Ep3, Ep1|by rewrite <- E2|].
    + cbn [kcall]. unfold usys_str. rewrite R3. by rewrite i32_small by lia.
    + intros f Hf H0 H1. by eapply has_open_seen, Hop.
  - destruct H as (s2 & R2 & Hst & Hse). destruct (Hend _ s2 _ R2 (sp_user _ _ _ _ _ _ Hst)) as (s3 & p3 & R3 & Hu3 & Es3 & Ep3). pose proof Es3 as [= E3 _ _ _].
    exists s3, p3. split_and!; [exact R3|by eapply step_seen|by rewrite E3, <- E1|by rewrite Ep3, Ep1].
Qed.

(** *** Output of a program *)

Abbreviation rn := (run esp data ra ev).

(** A step after which the process has the files it had, and there is as much room as there was. *)
Definition quietly (s : kernel) (p : proc) (s' : kernel) (p' : proc) (out : list Z) : Prop :=
  step [fl1] s p s' p' out /\ settled (k_icache s) (k_icache s') /\ p_ofile p' = p_ofile p.

Lemma quietly_trans s p s1 p1 s2 p2 o1 o2 : quietly s p s1 p1 o1 -> quietly s1 p1 s2 p2 o2 -> quietly s p s2 p2 (o1 ++ o2).
Proof. intros (A1 & A2 & A3) (B1 & B2 & B3). split_and!; [by eapply step_trans|by eapply settled_trans|congruence]. Qed.

Lemma quietly_refl s p : user_state s p -> quietly s p s p [].
Proof.
  intros Hu. split_and!; [|apply settled_refl|done]. split; [done|by destruct p|done| |apply emits_nil, Hu|done]. intros fl x _ Hx. by exists x; auto.
Qed.

Lemma quietly_leads s p s' p' out path j : quietly s p s' p' out -> leads s p path j -> leads s' p' path j.
Proof.
  intros (Hst & [Hr Hp] & _) (i & f & Hs & H). unfold leads. rewrite (sp_proc _ _ _ _ _ _ Hst). exists i, f. split; [|exact H].
  unfold starts_at in *. cbn. destruct (_ =? _); [done|]. destruct Hs as (cwd & Hc & Href). exists cwd. split; [done|]. eapply refers_persists; [done|done|].
  rewrite Hr. destruct Href as (nd & I1 & I2 & I3). apply refs_pos, in_use_lookup. by exists cwd, nd.
Qed.

Lemma quietly_roomy s p s' p' out : user_state s p -> quietly s p s' p' out -> roomy s p -> roomy s' p'.
Proof.
  intros Hu (Hst & [Hr Hp] & Ho) [Ri Rf Rl (fl & x & Hx & Hx0)]. destruct (us_file _ _ Hu) as (x1 & Hx1 & H0 & _).
  assert (fl <> fl1) as Hne by (intros ->; rewrite Hx in Hx1; injection Hx1 as ->; lia).
  split; [|by rewrite Ho|by rewrite (sp_files _ _ _ _ _ _ Hst)|].
  - pose proof (in_use_le (k_icache s) (k_icache s') fs [] (st_icache _ _ _ _ _ _ _ (fr_state _ _ _ _ _ _ _ _ (us_ready _ _ (sp_user _ _ _ _ _ _ Hst)))) ltac:(intros i Hi; left; by rewrite <- Hr)). cbn in H. lia.
  - destruct (sp_file _ _ _ _ _ _ Hst fl x ltac:(intros [? |[]%elem_of_nil]%elem_of_cons; done) Hx) as (x' & Hx' & [-> |[_ Hx'0]]); eauto.
Qed.

(** [m] prints [out]. *)
Definition puts (m : prog unit) (out : list Z) : Prop := forall s p, user_state s p -> exists s' p', rn m s = Done (Some tt) s' /\ quietly s p s' p' out.

Lemma puts_ret : puts (mret tt) [].
Proof. intros s p Hu. exists s, p. split; [done|by apply quietly_refl]. Qed.

Lemma puts_seq m1 m2 o1 o2 : puts m1 o1 -> puts m2 o2 -> puts (m1 ;; m2) (o1 ++ o2).
Proof.
  intros H1 H2 s p Hu. destruct (H1 s p Hu) as (s1 & p1 & R1 & Q1), (H2 s1 p1 (sp_user _ _ _ _ _ _ (proj1 Q1))) as (s2 & p2 & R2 & Q2).
  exists s2, p2. split; [by rewrite (run_bind _ _ _ _ _ _ _ _ _ R1)|by eapply quietly_trans].
Qed.

Lemma puts_putc b : puts (putc 1 b) [u8 b].
Proof.
  intros s p Hu. destruct (call_write s p [u8 b] Hu) as (s' & p' & R & Hst & Hse & Ho); [repeat constructor; apply Z.mod_pos_bound; lia|cbn; lia|].
  exists s', p'. split; [|done]. exact (run_call esp data ra ev (Write 1 [u8 b]) (fun _ => mret tt) s _ s' R).
Qed.

Lemma puts_put_all l : puts (User.put_all 1 l) (map u8 l).
Proof. induction l as [|b l IH]; [apply puts_ret|]. apply (puts_seq _ _ [u8 b]); [apply puts_putc|done]. Qed.

(** *** cat.c *)

Lemma cat_run fd fl i f : is_bytes (fe_data f) -> forall rounds s p o,
  user_state s p -> has_open s p fd fl i o f -> (o <= length (fe_data f) <= o + 512 * rounds)%nat -> exists s' p',
  rn (cat (S rounds) (Z.of_nat fd)) s = Done (Some tt) s' /\ step [fl1; fl] s p s' p' (drop o (fe_data f)) /\ settled (k_icache s) (k_icache s')
  /\ p_ofile p' = p_ofile p /\ has_open s' p' fd fl i (length (fe_data f)) f.
Proof.
  intros Hb rounds. induction rounds as [rounds IH] using lt_wf_ind. intros s p o Hu Ho Hlen.
  destruct (call_read s p fd fl i o f 512 Hu Ho ltac:(done) ltac:(lia) Hb) as (s1 & p1 & R1 & Hst1 & Hse1 & Hof1 & Ho1). set (l := sub o 512 (fe_data f)) in *.
  assert (length l = 512 `min` (length (fe_data f) - o))%nat as Hl by (unfold l, sub; by rewrite length_take, length_drop).
  cbn [cat]. rewrite (run_call _ _ _ _ (Read (Z.of_nat fd) 512) _ _ _ _ R1). cbv beta iota.
  apply (step_more [fl] [fl1; fl]) in Hst1; [|set_solver].
  destruct (decide (o = length (fe_data f))) as [-> |Hne].
  - replace (length l) with 0%nat by lia. change (0 <? Z.of_nat 0) with false. change (Z.of_nat 0 <? 0) with false. cbv iota. exists s1, p1.
    rewrite Hl, Nat.sub_diag, Nat.min_0_r, Nat.add_0_r in Ho1. rewrite drop_all. by split_and!.
  - rewrite (proj2 (Z.ltb_lt _ _)) by lia. rewrite Nat2Z.id, firstn_all.
    destruct (call_write s1 p1 l (sp_user _ _ _ _ _ _ Hst1)) as (s2 & p2 & R2 & Hst2 & Hse2 & Hof2); [by apply Forall_take, Forall_drop|lia|].
    rewrite (run_call _ _ _ _ (Write 1 l) _ _ _ _ R2). rewrite Z.eqb_refl. cbn [negb].
    destruct (console_other _ _ _ _ _ _ _ (sp_user _ _ _ _ _ _ Hst1) Ho1) as [Hfl _]. destruct rounds as [|rounds]; [lia|].
    pose proof (has_open_step _ _ _ _ _ _ _ _ _ _ _ Ho1 Hst2 Hse2 Hof2 ltac:(intros [? |[]%elem_of_nil]%elem_of_cons; done)) as Ho2. apply (step_more [fl1] [fl1; fl]) in Hst2; [|set_solver].
    destruct (IH rounds ltac:(lia) s2 p2 _ (sp_user _ _ _ _ _ _ Hst2) Ho2 ltac:(lia)) as (s3 & p3 & R3 & Hst3 & Hse3 & Hof3 & Ho3).
    exists s3, p3. split_and!; [done| |by do 2 (eapply settled_trans; [done|])|congruence|done].
    replace (drop o (fe_data f)) with ([] ++ l ++ drop (o + length l) (fe_data f)); [by do 2 (eapply step_trans; [done|])|].
    cbn [app]. rewrite <- drop_drop. transitivity (l ++ drop 512 (drop o (fe_data f))); [|apply take_drop]. f_equal.
    destruct (decide (512 <= length (fe_data f) - o)%nat); [f_equal; lia|]. rewrite !drop_ge; [done|rewrite length_drop; lia|rewrite length_drop; lia].
Qed.

(** What reading the file [path] gives. *)
Definition reads_as (s : kernel) (p : proc) (path : list Z) (content : option (list Z)) : Prop :=
  match content with
  | None => leads s p path None
  | Some l => exists j f, leads s p path (Some j) /\ fs !! j = Some f /\ fe_type f <> 0 /\ fe_type f <> T_DEV /\ fe_data f = l /\ is_bytes l
  end.

Definition path_ok (path : list Z) : Prop := Forall (fun b => 0 < b < 256) path /\ (length path < 512)%nat.

Abbreviation cat_each rounds := (each_file (fun fd _ => cat (S rounds) fd) "cat: cannot open %s
").

Lemma step_less fl ex s p s' p' out x x' :
  step (fl :: ex) s p s' p' out -> k_ftable s !! fl = Some x -> f_ref x = 0 -> k_ftable s' !! fl = Some x' -> f_ref x' = 0 -> step ex s p s' p' out.
Proof.
  intros [A1 A2 A3 A4 A5 A6] Hx Hx0 Hx' Hx'0. split; [done..| |done|done]. intros fl' y He Hy. destruct (decide (fl' = fl)) as [-> |Hne].
  - rewrite Hx in Hy. injection Hy as <-. exists x'. auto.
  - apply A4; [|done]. intros [? |?]%elem_of_cons; done.
Qed.

Lemma cat_file rounds s p path l rest :
  user_state s p -> roomy s p -> path_ok path -> reads_as s p path (Some l) -> (length l <= 512 * rounds)%nat ->
  exists s' p', rn (cat_each rounds (path :: rest)) s = rn (cat_each rounds rest) s' /\ quietly s p s' p' l.
Proof.
  intros Hu Hro [Hpb Hpl] (j & f & Hle & Hj & Hty & Hdv & <- & Hb) Hlen.
  destruct (call_open s p path (Some j) Hu Hpb Hpl Hro Hle) as (fd & fl & s1 & p1 & R1 & Hst1 & Hga & Hfd & Hof1 & (x & Hx & Hx0) & Hop). specialize (Hop f Hj Hty Hdv).
  assert (fd <> 1%nat) as Hf1 by (intros ->; by rewrite (us_fd _ _ Hu) in Hfd).
  destruct (cat_run fd fl j f Hb rounds s1 p1 0 (sp_user _ _ _ _ _ _ Hst1) Hop ltac:(lia)) as (s2 & p2 & R2 & Hst2 & Hse2 & Hof2 & Hop2). rewrite drop_0 in Hst2.
  destruct (call_close s2 p2 fd fl j _ f (sp_user _ _ _ _ _ _ Hst2) Hop2 Hf1) as (s3 & p3 & R3 & Hst3 & Hlo & Hof3 & (x' & Hx' & Hx'0)).
  exists s3, p3. split.
  - cbn [each_file]. rewrite (run_call _ _ _ _ (Open path 0) _ _ _ _ R1).
    rewrite (proj2 (Z.ltb_ge _ _)) by lia. rewrite (run_bind _ _ _ _ _ _ _ _ _ R2). by rewrite (run_call _ _ _ _ (Close (Z.of_nat fd)) _ _ _ _ R3).
  - split_and!.
    + apply (step_less fl _ _ _ _ _ _ x x'); [|done..]. replace (fe_data f) with ([] ++ fe_data f ++ []) by (by rewrite app_nil_r).
      eapply step_trans; [eapply step_more; [exact Hst1|set_solver]|]. eapply step_trans; eapply step_more; [exact Hst2|set_solver|exact Hst3|set_solver].
    + eapply gained_lost; [|exact Hlo]. by eapply gained_settled.
    + rewrite Hof3, Hof2, Hof1, list_insert_insert_eq. by apply list_insert_id.
Qed.

Lemma map_u8 l : Forall (fun b => 0 < b < 256) l -> map u8 l = l.
Proof. induction 1 as [|b l Hb _ IH]; [done|]. cbn [map]. rewrite IH. f_equal. unfold u8. apply Z.mod_small. lia. Qed.

Lemma puts_text l fmt args out : Forall (fun b => 0 < b < 256 /\ b <> 37) l -> puts (printf_loop 1 fmt false args) out -> puts (printf_loop 1 (l ++ fmt) false args) (l ++ out).
Proof.
  intros Hl H. induction Hl as [|b l [Hb Hb'] _ IH]; [done|]. cbn [app printf_loop negb]. rewrite (proj2 (Z.eqb_neq _ _) Hb').
  replace b with (u8 b) at 2 by (apply Z.mod_small; lia). apply (puts_seq _ _ [u8 b]); [apply puts_putc|exact IH].
Qed.

Lemma puts_cannot path : path_ok path -> puts (User.printf 1 "cat: cannot open %s
" [AStr (Some path)]) (cstr "cat: cannot open " ++ path ++ [10]).
Proof.
  intros [Hpb _]. apply (puts_text (cstr "cat: cannot open ") [37; 115; 10] [AStr (Some path)] (path ++ [10])); [by apply (bool_decide_unpack _); vm_compute|]. cbn [printf_loop negb Z.eqb Pos.eqb orb default].
  rewrite <- (map_u8 path Hpb) at 2. apply puts_seq; [apply puts_put_all|]. apply (puts_seq _ _ [10] []); [apply puts_putc|apply puts_ret].
Qed.

(** The output of cat for files with the given contents: it stops at one that it cannot open. *)
Fixpoint cat_out (files : list (list Z * option (list Z))) : list Z :=
  match files with
  | [] => []
  | (_, Some l) :: files' => l ++ cat_out files'
  | (path, None) :: _ => cstr "cat: cannot open " ++ path ++ [10]
  end.

Lemma cat_each_run rounds files : forall s p,
  user_state s p -> roomy s p -> Forall (fun '(path, d) => path_ok path /\ reads_as s p path d /\ (length (default [] d) <= 512 * rounds)%nat) files ->
  exists o s' p', rn (cat_each rounds files.*1) s = Done o s' /\ quietly s p s' p' (cat_out files).
Proof.
  induction files as [|[path d] files IH]; intros s p Hu Hro Hf; [exists (Some tt), s, p; split; [done|by apply quietly_refl]|].
  apply Forall_cons in Hf as [(Hp & Hd & Hl) Hf]. destruct d as [l|]; cbn [fmap list_fmap fst cat_out].
  - destruct (cat_file rounds s p path l files.*1 Hu Hro Hp Hd Hl) as (s1 & p1 & R1 & Q1).
    destruct (IH s1 p1 (sp_user _ _ _ _ _ _ (proj1 Q1)) (quietly_roomy _ _ _ _ _ Hu Q1 Hro)) as (o & s2 & p2 & R2 & Q2).
    + eapply Forall_impl; [exact Hf|]. intros [path' d'] (H1 & H2 & H3). split_and!; [done| |done]. destruct d' as [l'|]; [|by eapply quietly_leads].
      destruct H2 as (j & f & H2 & H). exists j, f. split; [by eapply quietly_leads|done].
    + exists o, s2, p2. split; [by rewrite R1|by eapply quietly_trans].
  - destruct Hp as [Hpb Hpl]. destruct (call_open s p path None Hu Hpb Hpl Hro Hd) as (s1 & p1 & R1 & Hst1 & Hse1 & Hof1).
    destruct (puts_cannot path (conj Hpb Hpl) s1 p1 (sp_user _ _ _ _ _ _ Hst1)) as (s2 & p2 & R2 & Q2). exists None, s2, p2. split.
    + cbn [each_file]. rewrite (run_call _ _ _ _ (Open path 0) _ _ _ _ R1).
      change (-1 <? 0) with true. cbv iota. by rewrite (run_bind _ _ _ _ _ _ _ _ _ R2).
    + apply (quietly_trans s p s1 p1 s2 p2 [] _); [|done]. split_and!; [eapply step_more; [exact Hst1|set_solver]|done|done].
Qed.

End session.

(** The stack and the buffer of a program in its memory: 16 bytes at [esp] and 512 at [data]. *)
Record layout (dom : Z -> Prop) (sz esp data : Z) : Prop := Layout {
  la_stack : within dom esp 16;
  la_data : within dom data 512;
  la_size : esp + 16 <= sz /\ data + 512 <= sz;
  la_apart : esp + 16 <= data \/ data + 512 <= esp
}.

(** ** Properties *)

Section properties.
Context {E : Env} {D : Disk} {V : Devices} `{!DiskLaws D}.


End properties.
