(* ===== verification/Machine.v ===== *)
(** A concrete machine, on which the hypotheses of the theorems of the other files
    hold: one CPU with interrupts on, all locks free, two free pages, and a few
    processes in containers 0 and 3. *)
From S2P Require Import Prelude Kernel Spinlock Console CString Kalloc Proc Scheduler Container Sleeplock Disk Bio Bytes Log.

#[export] Instance machine_env : Env := {|
  fuel := 8;
  kernel_end := KERNBASE + 0x200000;
  kernel_data := KERNBASE + 0x108000;
  forkret_addr := KERNBASE + 0x103000;
  trapret_addr := KERNBASE + 0x104000;
  cpu_ts_addr := fun i => KERNBASE + 0x112000 + 0xB0 * Z.of_nat i;
  initcode := [0x68; 0x24; 0x00];
  entryother := [0xfa; 0x31; 0xc0];
  mpenter_addr := KERNBASE + 0x105000;
  entrypgdir_addr := KERNBASE + 0x109000;
  vectors := fun i => KERNBASE + 0x106000 + 10 * Z.of_nat i;
  uninit := 0
|}.

Definition m_cpu : cpu :=
  Cpu 0 0 0 0 (replicate NSEGS (SEG 0 0 0 0)) 1 0 FL_IF (Some 0%nat).

Definition m_lockids : list lockid :=
  [L_ptable; L_ctable; L_tickslock; L_kmem; L_cons; L_bcache; L_icache; L_ftable; L_log; L_ide]
     ++ map (fun i => L_sleep (SL_buf i)) (seq 0 NBUF) ++ map (fun i => L_sleep (SL_inode i)) (seq 0 NINODE).
Definition m_locks : gmap lockid spinlock := list_to_map (map (fun l => (l, zero_lock)) m_lockids).

Definition m_hw : hw := Hw true 0 [m_cpu] m_locks.

Definition m_console : console := Console 1 0 (replicate 128 0) 0 0 0 1 [] (replicate 2000 0) 0.

Definition m_page (n : Z) : Z := KERNBASE + 0x400000 + n * PGSIZE.
Definition m_mem : memory := store32 (store32 ∅ (m_page 0) (m_page 1)) (m_page 1) 0.

Definition m_tf : trapframe := Trapframe 0 0 0 0 0 0 0 0 0 0 0 0 0 0 0 0 0 0 0.

Definition m_proc (st : procstate) (pid cid kstack : Z) : proc :=
  Proc 4096 (if kstack =? 0 then 0 else kstack + PGSIZE) kstack st pid None cid m_tf 0 zero_context None 0
    (replicate NOFILE None) None (replicate 16 0).

(** Process 0 is running; 1 and 3 can run, in containers 0 and 3; 2 sleeps. *)
Definition m_ptable : list proc :=
  [m_proc RUNNING 1 0 (m_page 10); m_proc RUNNABLE 2 0 (m_page 12);
   (m_proc SLEEPING 3 3 (m_page 14)) <| p_chan := Some CH_ticks |>; m_proc RUNNABLE 4 3 (m_page 16)]
  ++ replicate 60 (m_proc UNUSED 0 0 0).

Definition m_container (i : nat) : container :=
  Container (Z.of_nat i) (if decide (i = 0 \/ i = 3)%nat then CWAITING else CUNUSED) 0
    (PgTable (replicate 100 (PgElement 0 0 0)) 0) 0.

Definition m_block : block := replicate 512 0.
Definition m_buf (i : nat) : buf := Buf 0 0 0 0 0 0 None m_block.
Definition m_inode : inode := Inode 0 0 0 0 0 0 0 0 0 (replicate 13 0) 0.
Definition m_file : file := File FD_NONE 0 0 0 0 None 0.

Definition m_platform : platform := Platform [] true 0xFEE00000 0 0 [].

Definition machine : kernel :=
  Kernel m_hw 0 0 None ∅ m_console (Kmem 1 (m_page 0)) m_mem 0 m_ptable (Some 0%nat) 5 1
    (map m_container (seq 0 NCONT)) (<[3%nat := 1]> (replicate NCONT 0)) 1 1 0 ∅ [] 0 None
    (map m_buf (seq 0 (S NBUF))) (Log 2 30 0 0 1 (Logheader 0 (replicate 30 0)))
    (Superblock 0 0 0 0 0 0 0) (replicate NINODE m_inode) (replicate NFILE m_file)
    (replicate 10 (Devsw None None)) ∅ m_platform.

(** ** The machine satisfies the hypotheses *)

Lemma m_fuel : (0 < fuel)%nat.
Proof. vm_compute. lia. Qed.

Lemma m_runs_on : runs_on (k_hw machine) 0 m_cpu.
Proof. split; [done|]. by left. Qed.

Lemma m_cli_ok : cli_ok (k_hw machine).
Proof. exists 0%nat, m_cpu. apply m_runs_on. Qed.

Lemma list_to_map_const (l : list lockid) (v : spinlock) x :
  x ∈ l -> (list_to_map (map (fun l => (l, v)) l) : gmap lockid spinlock) !! x = Some v.
Proof.
  induction l as [|y l IH]; intros Hx; [set_solver|]. cbn. destruct (decide (y = x)) as [->|Hne].
  - apply lookup_insert_eq.
  - rewrite lookup_insert_ne by done. apply IH. set_solver.
Qed.

Lemma m_lock_free lk : lk ∈ m_lockids -> lock_free (k_hw machine) lk.
Proof. intros H. exists zero_lock. split; [by apply list_to_map_const|done]. Qed.

Lemma m_cons_ok : cons_ok (k_cons machine).
Proof. split_and!; done. Qed.

Lemma m_ptable_ready : ptable_ready machine.
Proof. split; [apply m_cli_ok|by apply m_lock_free; unfold m_lockids; set_solver|done]. Qed.

Lemma m_ctable_ready : ctable_ready machine.
Proof. split; [apply m_cli_ok|by apply m_lock_free; unfold m_lockids; set_solver..|apply m_cons_ok]. Qed.

Lemma m_kmem_ready : kmem_ready machine.
Proof. split; [apply m_cli_ok|]. right. split; [apply m_fuel|by apply m_lock_free; unfold m_lockids; set_solver]. Qed.

Lemma m_mem_bytes : bytes_ok m_mem.
Proof. unfold m_mem. do 2 apply bytes_ok_store32. intros a. unfold load8. rewrite lookup_empty. done. Qed.

Lemma m_freelist : freelist_ok machine [m_page 0; m_page 1].
Proof.
  split.
  - by vm_compute.
  - by apply (bool_decide_unpack _); vm_compute.
  - by repeat constructor.
  - apply m_mem_bytes.
Qed.

Lemma m_ctable_ids : ctable_ids (k_ctable machine).
Proof.
  split; [done|]. intros i c Hc. cbn [k_ctable machine] in Hc. rewrite list_lookup_fmap in Hc.
  destruct (seq 0 NCONT !! i) eqn:E; [|done]. apply lookup_seq in E as [-> ?]. cbn in Hc. by simplify_eq.
Qed.

(** A decidable property of all entries of a list is checked entry by entry. *)
Lemma check_entries {A} (P : nat -> A -> bool) (l : list A) :
  forallb (fun i => match l !! i with Some x => P i x | None => true end) (seq 0 (length l)) = true ->
  forall i x, l !! i = Some x -> P i x = true.
Proof.
  intros H i x Hx. rewrite forallb_forall in H. specialize (H i). rewrite Hx in H. apply H.
  apply in_seq. apply lookup_lt_Some in Hx. lia.
Qed.

Lemma m_ctable_ok : ctable_ok machine.
Proof.
  split; [apply m_ctable_ids|done|]. intros i c Hi Hc.
  pose proof (check_entries (fun i c => (i =? 0)%nat || Bool.eqb (bool_decide (ct_state c = CWAITING))
    (bool_decide (k_containers machine !! i <> Some 0))) (k_ctable machine) ltac:(vm_compute; done) i c Hc) as H.
  apply orb_true_iff in H as [H|H]; [apply Nat.eqb_eq in H; lia|].
  apply Bool.eqb_prop in H. by apply bool_decide_eq_bool_decide in H || (revert H; do 2 case_bool_decide; naive_solver).
Qed.

Lemma m_ptable_ok : ptable_ok (k_ptable machine) 5.
Proof.
  split; [done|lia|..].
  - intros i p Hp.
    pose proof (check_entries (fun _ p => (0 <=? p_pid p) && (p_pid p <? 5)) (k_ptable machine) ltac:(vm_compute; done) i p Hp) as H.
    cbn beta in H. lia.
  - intros i j p q Hi Hj He Hne.
    assert (forall k r, k_ptable machine !! k = Some r -> p_pid r = 0 \/ p_pid r = Z.of_nat k + 1) as G.
    { intros k r Hr.
      pose proof (check_entries (fun k r => (p_pid r =? 0) || (p_pid r =? Z.of_nat k + 1)) (k_ptable machine) ltac:(vm_compute; done) k r Hr) as H.
      cbn beta in H. lia. }
    pose proof (G i p Hi). pose proof (G j q Hj). lia.
Qed.

Lemma m_runnable_ok : runnable_ok (k_ptable machine).
Proof.
  intros i p Hp Hst.
  pose proof (check_entries (fun _ p => bool_decide (p_state p <> RUNNABLE) || (nz (p_kstack p) && nz (p_pgdir p))) (k_ptable machine)
    ltac:(vm_compute; done) i p Hp) as H. cbn beta in H.
  rewrite bool_decide_eq_false_2 in H by naive_solver. apply andb_true_iff in H as [H1 H2].
  by rewrite !nz_true in *.
Qed.

Lemma m_calm : calm (k_hw machine) (k_ptable machine) 1.
Proof.
  split; [apply m_fuel| | |done|].
  - exists 0%nat, m_cpu, 0%nat, (m_proc RUNNING 1 0 (m_page 10)). by split; [apply m_runs_on|].
  - intros lk Hlk. apply m_lock_free. unfold m_lockids. rewrite !elem_of_app, !list_elem_of_fmap.
    destruct lk as [| | | | | | | | | |page|[i|i]]; try (left; set_solver); [right; left|right; right];
      exists i; (split; [done|apply elem_of_seq; cbn in Hlk; lia]).
  - intros i p ch Hp Hst Hch.
    pose proof (check_entries (fun _ p => bool_decide (p_state p <> SLEEPING) || bool_decide (p_chan p = Some CH_ticks))
      (k_ptable machine) ltac:(vm_compute; done) i p Hp) as H. cbn beta in H.
    rewrite bool_decide_eq_false_2 in H by naive_solver. apply bool_decide_eq_true in H.
    rewrite Hch in H. injection H as ->. by intros [].
Qed.

(** ** The machine with its disk *)

#[export] Instance machine_disk : Disk := memide 1000.

(** The state in which [m] leaves [s]. *)
Definition after {A} (m : K A) (s : kernel) : kernel :=
  match m s with Done _ s' | Stop _ s' | Yield _ s' _ => s' end.

Lemma after_done {A} (m : K A) s a s' : m s = Done a s' -> after m s = s'.
Proof. intros H. unfold after. by rewrite H. Qed.

Definition m_dsk (b : Z) : block := zero_block.

Definition m_booted : kernel := after binit machine.

Lemma m_booted_ok : cache_ok m_booted 1 m_dsk m_dsk [] [].
Proof.
  destruct (binit_ok machine 1 m_dsk) as (s' & R & _ & _ & _ & H); [done|..].
  - intros bno. unfold disk_read. cbn [k_disk machine]. by rewrite lookup_empty.
  - intros i b Hb. pose proof (check_entries (fun _ b => (b_dev b =? 0) && (b_flags b =? 0) && (b_refcnt b =? 0))
      (k_bufs machine) ltac:(vm_compute; done) i b Hb) as H. cbn beta in H. lia.
  - unfold m_booted. rewrite (after_done _ _ _ _ R). apply H, m_calm.
Qed.

(** A transaction that writes block 40. *)
Definition m_data : block := replicate 512 7.
Definition m_write : K unit :=
  begin_op ;;
  bp ← bread 1 40 ;
  upd_buf bp (fun b => b <| b_data := m_data |>) ;;
  log_write bp ;;
  brelse bp.
Definition m_txn : kernel := after m_write m_booted.
Definition m_view : Z -> block := <[40 := m_data]> m_dsk.

Lemma m_booted_log : k_log m_booted = k_log machine.
Proof. by vm_compute. Qed.

Lemma m_write_run s0 : cache_ok s0 1 m_dsk m_dsk [] [] -> k_log s0 = k_log machine ->
  let s := after m_write s0 in
  cache_ok s 1 m_dsk m_view [] [40] /\ log_lists s 2 [40]
  /\ lg_outstanding (k_log s) = 1 /\ lg_committing (k_log s) = 0.
Proof.
  intros H0 E0.
  assert (begin_op s0 = Done tt (s0 <| k_log ::= fun l => l <| lg_outstanding ::= Z.add 1 |> |>)) as R0
    by (apply (begin_op_run s0 1); [apply H0|by rewrite E0..]).
  set (s1 := set k_log _ s0) in R0.
  destruct (bread_spec s1 1 m_dsk m_dsk [] [] 40) as (i & s2 & R2 & C2 & F2 & _);
    [exact H0|set_solver|done|right; cbn; unfold NBUF; lia|].
  pose proof (modify_ok s2 1 _ _ _ _ 40 i m_data C2 ltac:(set_solver)) as C3. set (s3 := set k_bufs _ s2) in C3.
  assert (k_log s3 = (k_log machine) <| lg_outstanding := 1 |>) as E3.
  { change (k_log s3) with (k_log s2). rewrite (cache_frame_log _ _ F2). unfold s1. rewrite set_get, E0. done. }
  destruct (log_write_run s3 1 m_dsk m_view [(40, i)] [] 2 40 i C3) as (h & R4 & C4 & L4);
    [split; by rewrite E3|set_solver|by rewrite E3|done|by rewrite E3|].
  set (s4 := set k_bufs _ _) in R4, C4, L4. rewrite decide_False in C4 by set_solver.
  rewrite decide_False in L4 by set_solver.
  destruct (brelse_spec s4 1 _ _ [] [] _ 40 i C4) as (s5 & R5 & C5 & F5 & _); [left; set_solver|].
  assert (m_write s0 = Done tt s5) as R.
  { unfold m_write. kapply R0. kapply R2. kstep. kapply R4. done. }
  cbv zeta. rewrite (after_done _ _ _ _ R).
  split; [done|]. split; [by eapply log_lists_frame|]. rewrite (cache_frame_log _ _ F5).
  change (lg_outstanding (k_log s3) = 1 /\ lg_committing (k_log s3) = 0). by rewrite E3.
Qed.

Lemma m_txn_ok :
  cache_ok m_txn 1 m_dsk m_view [] [40] /\ log_lists m_txn 2 [40]
  /\ lg_outstanding (k_log m_txn) = 1 /\ lg_committing (k_log m_txn) = 0.
Proof. apply (m_write_run m_booted m_booted_ok m_booted_log). Qed.

(** An operation that holds block 40. *)
Definition m_hold : kernel := after (begin_op ;; bread 1 40) m_booted.

Lemma m_hold_run s0 : cache_ok s0 1 m_dsk m_dsk [] [] -> k_log s0 = k_log machine ->
  exists i, let s := after (begin_op ;; bread 1 40) s0 in
  cache_ok s 1 m_dsk m_dsk [(40, i)] [] /\ k_log s = (k_log machine) <| lg_outstanding := 1 |>.
Proof.
  intros H0 E0.
  assert (begin_op s0 = Done tt (s0 <| k_log ::= fun l => l <| lg_outstanding ::= Z.add 1 |> |>)) as R0
    by (apply (begin_op_run s0 1); [apply H0|by rewrite E0..]).
  set (s1 := set k_log _ s0) in R0.
  destruct (bread_spec s1 1 m_dsk m_dsk [] [] 40) as (i & s2 & R2 & C2 & F2 & _);
    [exact H0|set_solver|done|right; cbn; unfold NBUF; lia|].
  assert ((begin_op ;; bread 1 40) s0 = Done i s2) as R by (by kapply R0).
  exists i. cbv zeta. rewrite (after_done _ _ _ _ R). split; [done|].
  rewrite (cache_frame_log _ _ F2). unfold s1. rewrite set_get, E0. done.
Qed.

Lemma m_hold_ok : exists i, cache_ok m_hold 1 m_dsk m_dsk [(40, i)] [] /\ k_log m_hold = (k_log machine) <| lg_outstanding := 1 |>.
Proof. apply (m_hold_run m_booted m_booted_ok m_booted_log). Qed.

Lemma m_loggable : loggable 2 [40].
Proof.
  split; [apply NoDup_singleton| |unfold NBUF; cbn; lia|cbn; unfold LOGSIZE, MAXOPBLOCKS; lia].
  intros b ->%list_elem_of_singleton. split; [|done]. unfold in_log, LOGSIZE, MAXOPBLOCKS. lia.
Qed.
