(* ===== verification/Witnesses.v ===== *)
(** Instances of the theorems of the other files, on the machine of [Machine]: every
    hypothesis holds there, so none of the theorems is vacuous. *)
From S2P Require Import Prelude Kernel Spinlock Console CString Kalloc Proc Scheduler Container Liveness Sleeplock Disk Bio Bytes Log Machine.

(** ** States of the machine *)

(** A lock of the machine held by CPU 1. *)
Definition m_contended : kernel := machine <| k_hw ::= put_lock L_kmem (Spinlock "kmem" 1 (Some 1%nat)) |>.

(** The machine with the lock of the clock taken. *)
Definition m_ticking : kernel := machine <| k_hw ::= enter 0 L_tickslock |>.

(** The machine before the allocator is initialised. *)
Definition m_early : kernel := machine <| k_kmem := Kmem 0 0 |> <| k_mem := ∅ |>.

(** The page table of container 0 is full. *)
Definition m_con_full : container :=
  (m_container 0) <| ct_pgTable := PgTable (replicate 100 (PgElement 0 0 0)) 100 |>.
Definition m_full : kernel :=
  machine <| k_ctable ::= alter (fun c => c <| ct_pgTable := PgTable (replicate 100 (PgElement 0 0 0)) 100 |>) 0%nat |>.

(** ** Locks *)

Lemma pushcli_popcli_nest_witness :
  exists s1, times 3 pushcli machine = Done tt s1 /\ times 3 popcli s1 = Done tt machine.
Proof.
  destruct (pushcli_popcli_nest 3 machine 0 m_cpu m_runs_on) as (s1 & H1 & _ & H2). exists s1. by split.
Defined.

Lemma critical_section_restores_witness :
  exists h, acquire L_kmem machine = Done tt (machine <| k_hw := h |>) /\ lock_held h 0 L_kmem.
Proof.
  destruct (critical_section_restores machine 0 m_cpu L_kmem m_fuel m_runs_on (m_lock_free L_kmem ltac:(unfold m_lockids; set_solver)))
    as (h & H1 & _ & H2 & _). exists h. by split.
Defined.

Lemma acquire_waits_for_holder_witness :
  waits L_kmem 1 (spinning 0) (fun s r => r = Done tt (s <| k_hw ::= take_lock 0 L_kmem |>)) (fuel - 1) (acquire L_kmem m_contended).
Proof.
  apply (acquire_waits_for_holder m_contended 0 1 m_cpu L_kmem).
  - exact m_fuel.
  - split; [done|]. by left.
  - exists (Spinlock "kmem" 1 (Some 1%nat)). split; [by vm_compute|done].
  - done.
Defined.

(** ** Console and strings *)

Lemma cprintf_prints_witness :
  exists cs, cprintf "pid %d %s" [AInt 7; AStr (Some [115; 104])] machine = Done tt (machine <| k_cons := cs |>).
Proof.
  destruct (cprintf_prints "pid %d %s" [AInt 7; AStr (Some [115; 104])] machine 0 m_cpu m_fuel m_runs_on
    (m_lock_free L_cons ltac:(unfold m_lockids; set_solver)) m_cons_ok ltac:(by vm_compute)) as (cs & out & H & _).
  by exists cs.
Defined.

Lemma string_routines_witness :
  load8 (memset m_mem 100 300 5) 102 = 44 /\ load8 (memmove m_mem 100 (m_page 0) 5) 102 = load8 m_mem (m_page 0 + 2)
  /\ strncmp [104; 97; 0] [104; 0] 3 = 97 /\ cstring (safestrcpy [9; 9; 9] [104; 105; 33; 0] 3) = [104; 105].
Proof.
  destruct (string_routines m_mem 100 (m_page 0) 300 5 102 [104; 97; 0] [104; 0] [9; 9; 9] [104; 105; 33; 0] 3 [104] 97 0 [0] []) as (H1 & H2 & _ & H4 & _ & H3 & _).
  - exact m_mem_bytes.
  - lia.
  - by repeat constructor.
  - by repeat constructor.
  - cbn. lia.
  - split_and!; [rewrite H1; by vm_compute|rewrite H2; by vm_compute|exact (H4 eq_refl eq_refl ltac:(lia))|rewrite H3; by vm_compute].
Defined.

(** ** The allocator *)

Lemma kmem_refines_stack_witness :
  exists s', kmem_ops [OpAlloc; OpAlloc; OpAlloc; OpFree (m_page 0)] machine = Done [m_page 0; m_page 1; 0; 0] s'
             /\ freelist_ok s' [m_page 0].
Proof. apply (kmem_refines_stack _ machine _ _ _ m_kmem_ready m_freelist). by vm_compute. Defined.

Lemma kinit1_frees_range_witness :
  exists s', kinit1 (KERNBASE + 0x300000) (KERNBASE + 0x302000) m_early = Done tt s'.
Proof.
  destruct (kinit1_frees_range (KERNBASE + 0x300000) (KERNBASE + 0x302000) m_early m_cli_ok) as (s' & H & _).
  - intros a. unfold load8. cbn. rewrite lookup_empty. done.
  - done.
  - by vm_compute.
  - by vm_compute.
  - by vm_compute.
  - by vm_compute.
  - by exists s'.
Defined.

(** ** Processes *)

Lemma sleep_no_lost_wakeup_witness : sleeps 0 0 CH_ticks L_tickslock m_ticking (sleep CH_ticks L_tickslock m_ticking).
Proof.
  assert (L_tickslock <> L_ptable) as Hne by discriminate.
  apply (sleep_no_lost_wakeup m_ticking 0 (push_cpu (eflags_of m_hw) m_cpu) 0 (m_proc RUNNING 1 0 (m_page 10))
    CH_ticks L_tickslock m_fuel Hne (enter_runs_on _ _ _ _ m_runs_on) eq_refl eq_refl eq_refl (enter_held _ _ _)).
  exact (enter_free _ _ _ _ Hne (m_lock_free L_ptable ltac:(unfold m_lockids; set_solver))).
Defined.

Lemma allocproc_spec_witness :
  exists s', allocproc machine = Done (Some 4%nat) s' /\ k_nextpid s' = 6.
Proof.
  pose proof (allocproc_spec machine m_fuel m_ptable_ready m_kmem_ready) as H. cbv zeta in H.
  assert (list_find (fun p => p_state p = UNUSED) (k_ptable machine) = Some (4%nat, m_proc UNUSED 0 0 0)) as Ef
    by (vm_compute; reflexivity).
  rewrite Ef in H.
  destruct H as (s' & H1 & H2 & _). exists s'. rewrite H1, H2. clear. split; reflexivity.
Defined.

Lemma scheduler_round_schedule_witness :
  schedule (k_ptable machine) (k_ctable machine) = [1%nat; 3%nat]
  /\ exists s', run_sched (turn (fun _ => RUNNABLE)) (scheduler_round 0 machine) = ([1%nat; 3%nat], Some (tt, s')).
Proof.
  assert (schedule (k_ptable machine) (k_ctable machine) = [1%nat; 3%nat]) as Hs by (by vm_compute).
  split; [done|]. rewrite <- Hs.
  destruct (scheduler_round_schedule (fun _ => RUNNABLE) 0 (k_ptable machine) (k_ctable machine) machine m_fuel eq_refl
    m_runnable_ok m_ctable_ids) as ((s' & t' & H & _) & _).
  - split; [by exists m_cpu; split; [apply m_runs_on|]|done|done|apply m_cons_ok|..];
      apply m_lock_free; unfold m_lockids; set_solver.
  - by exists s'.
Defined.

Lemma m_live_ok : live_ok (k_ptable machine).
Proof.
  intros i p Hp Hst.
  pose proof (check_entries (fun _ p => bool_decide (p_state p <> RUNNABLE /\ p_state p <> SLEEPING) || (nz (p_kstack p) && nz (p_pgdir p)))
    (k_ptable machine) ltac:(vm_compute; done) i p Hp) as H. cbn beta in H.
  rewrite bool_decide_eq_false_2 in H by naive_solver. apply andb_true_iff in H as [H1 H2]. by rewrite !nz_true in *.
Qed.

(** The machine with other tables, seen by its scheduler. *)
Lemma m_sched_st s :
  k_hw s = k_hw machine -> k_cons s = k_cons machine -> sched_st 0 0 (k_ptable s) (k_ctable s) s.
Proof.
  intros Hh Hc. split; [rewrite Hh; by exists m_cpu; split; [apply m_runs_on|]|done|done|rewrite Hc; apply m_cons_ok|..];
    rewrite Hh; apply m_lock_free; unfold m_lockids; set_solver.
Qed.

(** Process 1 is in container 0, which waits. *)
Lemma scheduler_fair_witness :
  exists l s', run_sched (turn (fun _ => RUNNABLE)) (for_each (seq 0 3) (fun _ => scheduler_round 0) machine) = (l, Some (tt, s'))
    /\ turns 1 l = 3%nat.
Proof.
  destruct (scheduler_fair (fun _ => RUNNABLE) 0 3 (k_ptable machine) (k_ctable machine) machine m_fuel eq_refl
    m_runnable_ok m_ctable_ids (m_sched_st machine eq_refl eq_refl)) as (l & s' & H & _ & Hc).
  exists l, s'. split; [exact H|]. exact (Hc 1%nat (m_proc RUNNABLE 2 0 (m_page 12)) 0%nat (m_container 0) eq_refl eq_refl eq_refl eq_refl eq_refl).
Defined.

(** Process 2 sleeps on [ticks] in container 3. *)
Lemma woken_process_runs_witness :
  exists l s', run_sched (turn (fun _ => RUNNABLE)) (scheduler_round 0 (after (wakeup CH_ticks) machine)) = (l, Some (tt, s'))
    /\ 2%nat ∈ l.
Proof.
  destruct (woken_process_runs CH_ticks machine m_fuel m_ptable_ready m_live_ok m_ctable_ids) as (s1 & H1 & Hn).
  rewrite (after_done _ _ _ _ H1). rewrite (wakeup_run CH_ticks machine m_fuel m_ptable_ready) in H1.
  destruct (Hn (fun _ => RUNNABLE) 0%nat s1) as (l & s' & Hl & Hin).
  - injection H1 as <-. by apply m_sched_st.
  - exists l, s'. split; [exact Hl|].
    exact (Hin 2%nat ((m_proc SLEEPING 3 3 (m_page 14)) <| p_chan := Some CH_ticks |>) 3%nat (m_container 3) eq_refl eq_refl eq_refl eq_refl eq_refl eq_refl).
Defined.

(** Container 3 has a process that can run and one that sleeps. *)
Lemma destroyed_members_run_witness :
  exists l s', run_sched (turn (fun _ => RUNNABLE)) (scheduler_round 0 (after (destroyContainer 3) machine)) = (l, Some (tt, s'))
    /\ 2%nat ∈ l /\ 3%nat ∈ l.
Proof.
  destruct (destroyed_members_run machine 3 5 (m_container 0) m_fuel m_ctable_ok m_ctable_ready m_ptable_ready m_ptable_ok m_live_ok)
    as (s1 & H1 & Hn); [unfold NCONT; lia|done|done|]. change (Z.of_nat 3) with 3 in H1.
  rewrite (after_done _ _ _ _ H1).
  pose proof (destroyContainer_run m_fuel machine 3 m_ctable_ok m_ctable_ready m_ptable_ready ltac:(unfold NCONT; lia)) as R.
  change (Z.of_nat 3) with 3 in R. rewrite R in H1. destruct (Hn (fun _ => RUNNABLE) 0%nat s1) as (l & s' & Hl & Hin).
  - injection H1 as <-. by apply m_sched_st.
  - exists l, s'. split; [exact Hl|]. split.
    + by eapply (Hin 2%nat); [reflexivity|done|done|right].
    + by eapply (Hin 3%nat); [reflexivity|done|done|left].
Defined.

(** ** Containers *)

Lemma createContainer_least_witness :
  exists s', createContainer machine = Done 1 s' /\ k_containers s' !! 1%nat = Some 1.
Proof.
  destruct (createContainer_least machine m_fuel m_ctable_ok m_ctable_ready) as [(id & H1 & H2 & H3 & H4)|[H _]].
  - assert (id = 1%nat) as ->.
    { destruct (decide (1 < id)%nat) as [Hlt|]; [|lia]. destruct (H3 1%nat); [lia|by vm_compute]. }
    eexists. split; [exact H4|]. by vm_compute.
  - destruct (H 1%nat); [unfold NCONT; lia|by vm_compute].
Defined.

Lemma ctable_invariant_witness : wp createContainer (fun _ s' => ctable_ok s') machine.
Proof.
  destruct (ctable_invariant machine m_fuel) as (_ & H & _). exact (H m_ctable_ok m_ctable_ready).
Defined.

Lemma destroyContainer_kills_members_witness :
  exists s', destroyContainer 3 machine = Done tt s' /\ k_containers s' !! 3%nat = Some 0.
Proof.
  destruct (destroyContainer_kills_members machine 3 5 m_fuel m_ctable_ok m_ctable_ready m_ptable_ready m_ptable_ok)
    as (s' & H1 & H2 & _); [unfold NCONT; lia|]. exists s'. exact (conj H1 H2).
Defined.

Lemma join_then_leave_witness :
  exists s1, addProcessToContainer 1 3 machine = Done tt s1 /\ gtcid s1 = Done 3 s1.
Proof.
  destruct (join_then_leave machine 0 m_cpu 0 (m_proc RUNNING 1 0 (m_page 10)) 5 3 m_fuel m_runs_on eq_refl eq_refl)
    as (s1 & s2 & H1 & H2 & _).
  - done.
  - apply m_ptable_ok.
  - apply m_lock_free; unfold m_lockids; set_solver.
  - apply m_lock_free; unfold m_lockids; set_solver.
  - apply m_cons_ok.
  - exists s1. exact (conj H1 H2).
Defined.

Lemma m_malloc_st : malloc_st machine 0 (m_container 0).
Proof.
  split; [|done|apply m_ctable_ids|apply m_kmem_ready|apply m_lock_free; unfold m_lockids; set_solver|apply m_cons_ok].
  exists 0%nat, m_cpu, 0%nat, (m_proc RUNNING 1 0 (m_page 10)). split; [apply m_runs_on|done].
Qed.

Lemma m_full_st : malloc_st m_full 0 m_con_full.
Proof.
  destruct m_malloc_st as [H1 H2 H3 H4 H5 H6]. split; [done|done| |done|done|done].
  by apply ctable_ids_alter.
Qed.

Lemma container_malloc_records_witness :
  exists s', container_malloc 100 1 machine = Done tt s' /\ k_kmem s' = k_kmem (taken machine).
Proof.
  destruct (container_malloc_records machine 0 (m_container 0) 100 1 m_fuel m_malloc_st)
    as (s' & con' & H1 & _ & _ & _ & _ & H2 & _).
  - apply m_lock_free; unfold m_lockids; set_solver.
  - cbn. lia.
  - exists s'. exact (conj H1 H2).
Defined.

Lemma container_malloc_overflow_witness :
  exists s', container_malloc 100 1 m_full = Stop (Faulted "pgTable.page") s'.
Proof.
  apply (container_malloc_overflow m_full 0 m_con_full 100 1 m_fuel m_full_st); [|done].
  apply m_lock_free; unfold m_lockids; set_solver.
Defined.

Lemma listContainersHelper_keeps_lock_witness :
  exists s1 s2, listContainersHelper machine = Done tt s1 /\ acquire L_ptable s1 = Stop (Panicked "acquire") s2.
Proof.
  apply (listContainersHelper_keeps_lock machine m_fuel m_ptable_ready); [|apply m_cons_ok].
  apply m_lock_free; unfold m_lockids; set_solver.
Defined.

Lemma destroyContainer_marks_free_entry_witness :
  exists s1 s2 p, destroyContainer 0 machine = Done tt s1
    /\ allocproc s1 = Done (Some 4%nat) s2 /\ k_ptable s2 !! 4%nat = Some p /\ p_killed p = 1.
Proof.
  apply (destroyContainer_marks_free_entry machine 0 4 (m_proc UNUSED 0 0 0) m_fuel m_ctable_ok m_ctable_ready
    m_ptable_ready m_kmem_ready); try done.
  - unfold NCONT. lia.
  - intros k r Hk Hr. pose proof (check_entries (fun i p => (4 <=? i)%nat || (nz (p_pid p) && bool_decide (p_state p <> UNUSED)))
      (k_ptable machine) ltac:(vm_compute; done) k r Hr) as H. cbn beta in H.
    rewrite (proj2 (Nat.leb_gt 4 k)) in H by lia. cbn [orb] in H. apply andb_true_iff in H as [H1 H2].
    rewrite nz_true in H1. by apply bool_decide_eq_true in H2.
Defined.

(** ** Disk, cache and log *)

Lemma binit_establishes_witness :
  exists s', binit machine = Done tt s' /\ cache_ok s' 1 m_dsk m_dsk [] [].
Proof.
  destruct (binit_establishes machine 1 m_dsk) as (s' & R & _ & _ & _ & H); [done|..].
  - intros bno. unfold disk_read. cbn [k_disk machine]. by rewrite lookup_empty.
  - intros i b Hb. pose proof (check_entries (fun _ b => (b_dev b =? 0) && (b_flags b =? 0) && (b_refcnt b =? 0))
      (k_bufs machine) ltac:(vm_compute; done) i b Hb) as H. cbn beta in H. lia.
  - exists s'. split; [done|]. apply H, m_calm.
Defined.

Lemma cache_refines_store_witness :
  exists s', run_ops [Write_block 40 m_data; Read_block 41; Read_block 40] m_booted
    = Done [None; Some zero_block; Some m_data] s'.
Proof.
  destruct (cache_refines_store [Write_block 40 m_data; Read_block 41; Read_block 40] m_booted 1 m_dsk m_booted_ok)
    as (s' & H & _); [by repeat constructor|]. exists s'. exact H.
Defined.

Lemma commit_crash_atomic_witness : exists s', commit m_txn = Done tt s' /\ log_lists s' 2 [].
Proof.
  destruct m_txn_ok as (C & L & _ & _).
  destruct (commit_crash_atomic m_txn 1 m_dsk m_view 2 [40] C L m_loggable) as (s' & ws & H1 & _ & _ & H2 & _).
  - done.
  - by repeat constructor.
  - by vm_compute.
  - by vm_compute.
  - exists s'. exact (conj H1 H2).
Defined.

Lemma end_op_commits_witness :
  exists s' dsk' view', end_op m_txn = Done tt s' /\ cache_ok s' 1 dsk' view' [] [] /\ dsk' 40 = m_data.
Proof.
  destruct m_txn_ok as (C & L & H1 & H2).
  destruct (end_op_commits m_txn 1 m_dsk m_view 2 [40] C L m_loggable H1 H2) as (s' & d & v & R & C' & _ & _ & _ & Hb).
  exists s', d, v. split_and!; [done..|]. destruct (Hb 40) as [-> _].
  - unfold in_log, LOGSIZE, MAXOPBLOCKS. lia.
  - by vm_compute.
Defined.

Lemma begin_op_reserves_witness :
  begin_op machine = Done tt (machine <| k_log ::= fun l => l <| lg_outstanding ::= Z.add 1 |> |>).
Proof.
  exact (begin_op_reserves machine 1 0 m_cpu 0 (m_proc RUNNING 1 0 (m_page 10)) m_calm m_runs_on eq_refl eq_refl eq_refl).
Defined.

Lemma log_write_absorbs_witness : exists i s', log_write i m_hold = Done tt s' /\ log_lists s' 2 [40].
Proof.
  destruct m_hold_ok as (i & C & El). exists i.
  assert (log_lists m_hold 2 []) as L by (split; rewrite El; reflexivity).
  pose proof (log_write_absorbs m_hold 1 m_dsk m_dsk [(40, i)] [] 2 40 i C L (proj2 (list_elem_of_singleton _ _) eq_refl)) as H.
  rewrite El in H. destruct H as (s' & H1 & _ & H2). exists s'. exact (conj H1 H2).
Defined.
