(* ===== verification/WitnessesSys.v ===== *)
(** Instances of the theorems on the console, page tables, pipes, files, system calls
    and the boot, on the machine of [Machine]. *)
From S2P Require Import Prelude Kernel Spinlock Console CString Kalloc Devices Proc Vm PageTable SysArgs Sleeplock Disk Bytes Bio Log Inode ConsoleIo Fs Pipe FileTable ProcLife Exec Scheduler Container SysProc SysFile Syscall Boot Safety Machine.

(** Devices whose registers read as 0. *)
#[export] Instance machine_devices : Devices := {| lapic_reg := fun _ => 0; ioapic_reg := fun _ => 0; inb := fun _ => 0; rcr2 := 0; cmos := fun _ _ => 0 |}.

(** ** Safety of all threads *)

Lemma m_procs_wf : Forall proc_wf (k_ptable machine).
Proof.
  apply Forall_lookup. intros i p Hp.
  pose proof (check_entries (fun _ p => bool_decide (p_ofile p = replicate NOFILE None) && bool_decide (p_cwd p = None)
    && bool_decide (p_parent p = None)) (k_ptable machine) ltac:(vm_compute; done) i p Hp) as H. cbn beta in H.
  apply andb_true_iff in H as [[H1 H2]%andb_true_iff H3]. apply bool_decide_eq_true in H1, H2, H3.
  split; rewrite ?H1, ?H2, ?H3; try done. by apply Forall_replicate.
Qed.

Lemma m_kernel_wf : kernel_wf machine.
Proof.
  split; [apply m_ptable_ok|apply m_procs_wf|..].
  - apply Forall_cons_2; [cbn; unfold NPROC; lia|apply Forall_nil_2].
  - cbn. unfold NPROC. lia.
  - done.
  - by apply Forall_replicate.
  - done.
  - by apply Forall_replicate.
  - apply map_Forall_empty.
  - done.
  - by vm_compute.
  - apply Forall_lookup. intros i b Hb.
    pose proof (check_entries (fun _ b => (b_next b <? S NBUF)%nat && (b_prev b <? S NBUF)%nat && bool_decide (b_qnext b = None)) (k_bufs machine) ltac:(vm_compute; done) i b Hb) as H.
    cbn beta in H. apply andb_true_iff in H as [[H1%Nat.ltb_lt H2%Nat.ltb_lt]%andb_true_iff H3%bool_decide_eq_true]. split; [done|done|by rewrite H3].
  - done.
  - done.
  - split; by vm_compute.
Qed.


(** ** Pipes *)

Definition m_pipe : Z := m_page 5.
(** The counters of the pipe are about to wrap around. *)
Definition m_piped : kernel :=
  machine <| k_pipes := {[m_pipe := Pipe (replicate 512 0) 4294967294 4294967294 1 1]} |>
    <| k_hw ::= put_lock (L_pipe m_pipe) zero_lock |>.

Lemma m_pipe_ready : pipe_ready m_piped m_pipe true [].
Proof.
  split.
  - split; [by exists 0%nat, m_cpu; split; [|left]| |done]. exists zero_lock. split; [|done].
    etrans; [by apply lookup_insert_ne|]. by apply list_to_map_const; unfold m_lockids; set_solver.
  - exists zero_lock. split; [apply lookup_insert_eq|done].
  - eexists. split; [apply lookup_singleton_eq|]. split; [|done]. split; [|done|done]. split; [done|done|cbn; lia|by intros []].
Qed.

Lemma pipe_refines_queue_witness :
  exists s', do_pipe_ops m_pipe [PWrite [1; 2; 3]; PRead 2; PWrite [4]; PRead 9] m_piped
    = Done [(3, []); (2, [1; 2]); (1, []); (2, [3; 4])] s'.
Proof.
  destruct (pipe_refines_queue m_piped m_pipe true [] [PWrite [1; 2; 3]; PRead 2; PWrite [4]; PRead 9]
    [(3, []); (2, [1; 2]); (1, []); (2, [3; 4])] [] m_fuel m_pipe_ready) as (s' & H & _); [by vm_compute|].
  exists s'. exact H.
Defined.

(** ** System call arguments *)

Lemma syscall_args_checked_witness : fetchint 4093 machine = Done None machine.
Proof.
  destruct (syscall_args_checked machine 0 (m_proc RUNNING 1 0 (m_page 10))) as [H _].
  - split; [exists 0%nat, m_cpu; split; [apply m_runs_on|done]|done|cbn; unfold KERNBASE; lia].
  - rewrite H by (unfold W32; lia). rewrite decide_False by (cbn; lia). reflexivity.
Defined.

(** ** Files *)

Definition m_dinode : dinode := Dinode 2 0 (-1) 1 600 (7 :: replicate 12 0).

Lemma dinode_roundtrip_witness : get_dinode (set_dinode m_block (dinode_off 13) m_dinode) (dinode_off 13) = m_dinode.
Proof.
  destruct (dinode_roundtrip m_block 13 m_dinode) as [H _]; [done|lia| |exact H].
  split; [by repeat constructor|by repeat constructor|done].
Defined.

Lemma container_names_separated_witness :
  open_name (cstr "dir/log") 3 <> open_name (cstr "tmp/log3") 4 /\ open_name (cstr "fourteen_bytes") 3 = open_name (cstr "fourteen_bytes") 4.
Proof.
  split.
  - apply (container_names_separated (cstr "dir/log") (cstr "tmp/log3") 3 4);
      [by split; [repeat constructor|]..|unfold NCONT; lia|unfold NCONT; lia|done|vm_compute; lia|vm_compute; lia].
  - apply (container_names_separated (cstr "fourteen_bytes") (cstr "fourteen_bytes") 3 4);
      [by split; [repeat constructor|]..|unfold NCONT; lia|unfold NCONT; lia|done|vm_compute; lia].
Defined.

(** ** Console *)

Lemma kbd_typing_roundtrip_witness :
  exists l, kbd_decode 0 (cstr "Echo {2}" ≫= keys_for) = (0, l) /\ decoded l = cstr "Echo {2}".
Proof.
  apply (kbd_typing_roundtrip (cstr "Echo {2}")).
  assert (forallb (fun c => (32 <=? c) && (c <=? 126)) (cstr "Echo {2}") = true) as H by (by vm_compute).
  apply Forall_forall. intros c Hc. right. rewrite forallb_forall in H. apply list_elem_of_In, H in Hc. lia.
Defined.

(** Process 0 holds the lock of the console's inode. *)
Definition m_reading : kernel :=
  machine <| k_icache ::= <[7%nat := m_inode <| i_ref := 1 |> <| i_valid := 1 |>]> |>
    <| k_sleeplocks := {[SL_inode 7 := Sleeplock 1 "inode" 1]} |>.

(** The keys are l, x, backspace, s, return, c, d. *)
Lemma console_line_editor_witness :
  exists cs t, (consoleintr [108; 120; 8; 115; 13; 99; 100] ;; consoleread 7 100) m_reading
    = Done (3, [108; 115; 10]) (m_reading <| k_cons := cs |> <| k_ptable := t |>) /\ input_rep cs ([], [99; 100]).
Proof.
  destruct (console_line_editor m_reading 1 7 ([], []) [108; 120; 8; 115; 13; 99; 100] 100 [108; 115; 10] [])
    as (cs & t & H1 & H2 & _).
  - exact m_calm.
  - exact m_cons_ok.
  - split; [|done|done|done|by apply not_elem_of_nil]. split; [done|done|cbn; lia|by intros []].
  - split; [|unfold NINODE; lia|by eexists].
    eexists. split; [by apply list_lookup_insert_eq; cbn; unfold NINODE; lia|]. cbn. lia.
  - by repeat constructor.
  - lia.
  - by vm_compute.
  - exists cs, t. exact (conj H1 H2).
Defined.

(** ** Page tables *)

Definition m_pgdir : Z := m_page 20.

Lemma m_space : space machine m_pgdir ∅ [m_page 0; m_page 1].
Proof.
  split; [apply m_kmem_ready|apply m_freelist|]. split.
  - by split.
  - by apply (bool_decide_unpack _); vm_compute.
  - intros i Hi. rewrite lookup_empty. cbn [from_option]. unfold load32. cbn [k_mem machine]. unfold m_mem, m_pgdir, m_page, PGSIZE.
    rewrite !load8_store32, !decide_False by lia. unfold load8. by rewrite !lookup_empty.
  - intros i t H. by rewrite lookup_empty in H.
  - intros i j t H. by rewrite lookup_empty in H.
Qed.

Lemma mappages_translates_witness :
  exists k s', mappages m_pgdir 0x1800 0x1000 0x500000 (Z.lor PTE_W PTE_U) machine = Done 0 s'
    /\ k = 2 /\ hw_walk (k_mem s') (V2P m_pgdir) 0x2004 true true = Some (P2V 0x501000 + 4).
Proof.
  destruct (mappages_translates machine m_pgdir ∅ [m_page 0; m_page 1] 0x1800 0x1000 0x500000 (Z.lor PTE_W PTE_U) m_space)
    as (r & k & s' & tabs' & l' & H1 & _ & H2 & _ & H3).
  - lia.
  - lia.
  - unfold W32. lia.
  - done.
  - lia.
  - unfold W32, PGSIZE. lia.
  - by vm_compute.
  - intros va' _. rewrite (hw_walk_entry _ _ _ _ _ _ _ (sp_pgdir _ _ _ _ m_space)). unfold entry. by rewrite lookup_empty.
  - assert (match mappages m_pgdir 0x1800 0x1000 0x500000 (Z.lor PTE_W PTE_U) machine with Done r _ => r = 0 | _ => False end) as H0
      by (vm_compute; reflexivity).
    rewrite H1 in H0. subst r. destruct H3 as [[_ Hk]|[[=] _]].
    assert (PGROUNDDOWN 0x1800 = 0x1000) as Ha by (by vm_compute). rewrite Ha in H2, Hk.
    exists k, s'. split; [exact H1|]. assert (k = 2) as -> by (rewrite Hk; by vm_compute). split; [reflexivity|].
    rewrite H2 by (unfold W32; lia). rewrite decide_True by (unfold PGSIZE; lia).
    assert (perm_allows (Z.lor PTE_W PTE_U) true true = true) as -> by (by vm_compute). f_equal.
Defined.

(** ** Boot *)

Definition m_mp : kernel := machine <| k_mem := store8 (store8 (store8 ∅ 1001 5) 1020 2) 1021 9 |>.

Definition m_bad_mp : kernel := machine <| k_mem := store8 ∅ 1020 77 |>.

Lemma mp_table_scanned_witness :
  (exists s', mp_loop 29 1000 1028 1 m_mp = Done 1 s'
    /\ map c_apicid (h_cpus (k_hw s')) = [0; 5] /\ pf_ioapicid (k_platform s') = 9)
  /\ exists s', mp_loop 1000 1000 1028 1 m_bad_mp = Stop OutOfFuel s'.
Proof.
  split; [eexists; split|].
  - apply (mp_table_scanned (k_mem m_mp) 1000 1028 [1000; 1020] None).
    + apply (mp_entry _ _ _ 20); [lia|by vm_compute|]. apply (mp_entry _ _ _ 8); [lia|by vm_compute|]. apply mp_end. lia.
    + reflexivity.
    + cbn. unfold NCPU. lia.
    + lia.
  - by vm_compute.
  - apply (mp_table_scanned (k_mem m_bad_mp) 1000 1028 [1000] (Some 1020)).
    + apply (mp_entry _ _ _ 20); [lia|by vm_compute|]. apply mp_unknown; [lia|by vm_compute].
    + reflexivity.
    + cbn. unfold NCPU. lia.
Defined.
