(* ===== verification/WitnessesFs.v ===== *)
(** Instances of the theorems on the file system: the machine of [Machine] with a disk that mkfs
    has written. *)
From S2P Require Import Prelude Kernel Spinlock Console CString Kalloc Proc Sleeplock Disk Bytes Bio Log Inode ConsoleIo Fs FileBlocks FsContent Mkfs MkfsImage MkfsTree Pipe FileTable FsOps FsMount MkfsMount Machine.

Definition m_files : list input := [Input (cstr "_cat") (Some [replicate 600 7]); Input (cstr "README") (Some [])].

Lemma m_fits : fits m_files /\ (length (dots ++ entries 0 m_files) mod 512 <> 0)%nat.
Proof.
  split; [|by vm_compute]. split_and!; [|cbn; lia|by vm_compute].
  repeat apply Forall_cons_2; [..|apply Forall_nil_2]; (split; [|done|apply (Nat.le_trans _ 600); [by apply Nat.leb_le; vm_compute|lia]]); intros H; by vm_compute in H; set_solver.
Qed.

(** The machine with the image as its disk, after [binit]. *)
Definition disk_of (img : mkfs) : gmap (Z * Z) block := list_to_map (map (fun b => ((1, b), sector img b)) (seqZ 0 FSSIZE)).
Definition dsk_of (img : mkfs) (b : Z) : block := disk_read (disk_of img) 1 b.
Definition machine_on (img : mkfs) : kernel := machine <| k_disk := disk_of img |>.
Definition booted_on (img : mkfs) : kernel := after binit (machine_on img).

Lemma dsk_of_sector img b : 0 <= b < FSSIZE -> dsk_of img b = sector img b.
Proof.
  intros Hb. unfold dsk_of, disk_read, disk_of. rewrite (elem_of_list_to_map_1 _ _ (sector img b)); [done| |].
  - rewrite <- list_fmap_compose. apply NoDup_fmap_2; [|apply NoDup_seqZ]. by intros x y [= ->].
  - apply list_elem_of_fmap. exists b. split; [done|]. apply elem_of_seqZ. lia.
Qed.

Lemma booted_on_ok img : booted (booted_on img) 1 (dsk_of img).
Proof.
  destruct (binit_ok (machine_on img) 1 (dsk_of img)) as (s' & R & _ & _ & _ & H); [done|done| |].
  { intros i b Hb. pose proof (check_entries (fun _ b => (b_dev b =? 0) && (b_flags b =? 0) && (b_refcnt b =? 0))
      (k_bufs machine) ltac:(vm_compute; done) i b Hb) as Hz. cbn beta in Hz. lia. }
  split; [unfold booted_on; rewrite (after_done _ _ _ _ R); apply H, m_calm|..]; clear R H.
  - replace (k_cons (booted_on img)) with (k_cons machine) by (by vm_compute). apply m_cons_ok.
  - replace (k_icache (booted_on img)) with (k_icache machine) by (by vm_compute). split; [done|]. by apply Forall_replicate.
  - replace (k_log (booted_on img)) with (k_log machine) by (by vm_compute). exact (conj eq_refl eq_refl).
  - replace (k_log (booted_on img)) with (k_log machine) by (by vm_compute). exact eq_refl.
Qed.

(** ** Mounting *)

Lemma m_disksize : FSSIZE <= disksize.
Proof. done. Qed.

Lemma mkfs_mounts_witness : exists img s' d' fs f,
  mkfs_main (Some true) m_files mk_start = Done tt img /\ (iinit 1 ;; initlog 1) (booted_on img) = Done tt s'
  /\ fs_state mk_sb (sb_logstart mk_sb) 200 s' 1 d' fs /\ fs !! 2%nat = Some f /\ fe_data f = replicate 600 7.
Proof.
  destruct m_fits as [Hf Hm]. destruct (mkfs_mounts m_files Hf Hm m_disksize) as (img & R & H). exists img.
  destruct (H (booted_on img) 1 (dsk_of img) (dsk_of_sector img) (booted_on_ok img)) as (s' & d' & fs & R' & Hs & _ & Hfi & _).
  destruct (Hfi 0%nat _ eq_refl) as (f & Hi & _ & Hd). exists s', d', fs, f.
  exact (conj R (conj R' (conj Hs (conj Hi Hd)))).
Defined.

(** ** An open file *)

Definition m_entry : inode := Inode 1 2 1 0 0 0 0 0 0 (replicate 13 0) 0.
Definition m_opened (s : kernel) : kernel :=
  s <| k_icache ::= <[0%nat := m_entry]> |> <| k_ftable ::= <[0%nat := File FD_INODE 1 1 1 0 (Some 0%nat) 0]> |>.

Lemma m_coherent fs f : fs !! 2%nat = Some f -> coherent (<[0%nat := m_entry]> (replicate NINODE m_inode)) fs.
Proof.
  intros Hi. assert (forall ip nd, <[0%nat := m_entry]> (replicate NINODE m_inode) !! ip = Some nd -> 0 < i_ref nd -> ip = 0%nat /\ nd = m_entry) as H.
  { intros ip nd Hip Hr. destruct (decide (ip = 0%nat)) as [->|Hne]; [rewrite list_lookup_insert_eq in Hip by (rewrite length_replicate; unfold NINODE; lia); by injection Hip as <-|].
    rewrite list_lookup_insert_ne in Hip by done. apply lookup_replicate in Hip as [-> _]. cbn in Hr. lia. }
  split; [done| |].
  - intros ip nd Hip Hr. destruct (H ip nd Hip Hr) as [-> ->]. split; [done|]. by exists 2%nat, f.
  - intros ip jp nd nd' Hip Hjp Hr Hr' _. by destruct (H ip nd Hip Hr) as [-> _], (H jp nd' Hjp Hr') as [-> _].
Qed.

(** The mounted file system with file 2 open. *)
Lemma m_opened_ok : exists s d fs x nd f,
  formatted mk_sb (sb_logstart mk_sb) d /\ fs_state mk_sb (sb_logstart mk_sb) 200 s 1 d fs /\ open_file s fs 0 0 2 0 x nd f
  /\ f_readable x = 1 /\ f_writable x = 1 /\ fe_data f = replicate 600 7.
Proof.
  destruct m_fits as [Hf Hm]. destruct (mkfs_mounts_run m_files Hf Hm m_disksize) as (img & _ & H).
  destruct (H (booted_on img) 1 (dsk_of img) (dsk_of_sector img) (booted_on_ok img)) as (s' & d' & fs & _ & Hs & (_ & Hfi & _) & Hfm & Ei & Ef).
  destruct (Hfi 0%nat _ eq_refl) as (f & Hi & Hty & Hd). clear H Hfi.
  assert (k_icache s' = replicate NINODE m_inode) as Ei' by (rewrite Ei; by vm_compute).
  assert (k_ftable s' = replicate NFILE m_file) as Ef' by (rewrite Ef; by vm_compute).
  exists (m_opened s'), d', fs, (File FD_INODE 1 1 1 0 (Some 0%nat) 0), m_entry, f.
  split_and!; [exact Hfm| | |exact eq_refl|exact eq_refl|exact Hd].
  - destruct Hs as [H1 H2 H3 H4 H5 H6 H7 H8]. split; [exact H1|by apply (log_lists_eq s')|exact H3|exact H4|exact H5|exact H6| |exact H8].
    change (k_icache (m_opened s')) with (<[0%nat := m_entry]> (k_icache s')). rewrite Ei'. exact (m_coherent fs f Hi).
  - split; [cbn; by rewrite Ef'|exact eq_refl|exact eq_refl|exact eq_refl|cbn; by rewrite Ei'|exact eq_refl|exact eq_refl|exact Hi|rewrite Hty; split; discriminate].
Qed.

Lemma filewrite_durable_witness : exists s d fs f s' W fs' f',
  fs_state mk_sb (sb_logstart mk_sb) 200 s 1 d fs /\ fe_data f = replicate 600 7
  /\ filewrite 0 [1; 2; 3] 3 s = Done 3 s' /\ spliced fs 2 f 0 [1; 2; 3] fs' f' /\ fs_state mk_sb (sb_logstart mk_sb) 200 s' 1 (blast d W) fs'.
Proof.
  destruct m_opened_ok as (s & d & fs & x & nd & f & Hfm & Hs & Ho & Hr & Hw & Hd). exists s, d, fs, f.
  destruct (filewrite_durable mk_sb 200 s 1 d fs 0 0 2 0 x nd f [1; 2; 3] 3) as (s' & W & fs' & f' & R & Hsp & Hs' & _).
  - apply mk_volume. apply m_disksize.
  - exact Hfm.
  - exact Hs.
  - exact Ho.
  - rewrite Hw. discriminate.
  - cbn. lia.
  - lia.
  - apply Z.leb_le. by vm_compute.
  - pose proof (fo_tight _ _ _ _ _ (st_files _ _ _ _ _ _ _ Hs) 2%nat f (of_file _ _ _ _ _ _ _ _ _ Ho)) as Ht. unfold tight in Ht. rewrite Hd in Ht.
    unfold blocks_for. rewrite Ht. assert (cost (nblk (length (replicate 600 7)) `max` nblk (0 + 3)) - cost (nblk (length (replicate 600 7))) = 0) as -> by (by vm_compute). lia.
  - exists s', W, fs', f'. exact (conj Hs (conj Hd (conj R (conj Hsp Hs')))).
Defined.

Lemma fileread_returns_witness : exists s d fs s',
  fs_state mk_sb (sb_logstart mk_sb) 200 s 1 d fs /\ fileread 0 4 s = Done (4, [7; 7; 7; 7]) s'.
Proof.
  destruct m_opened_ok as (s & d & fs & x & nd & f & Hfm & Hs & Ho & Hr & Hw & Hd). exists s, d, fs.
  destruct (fileread_returns mk_sb 200 s 1 d fs 0 0 2 0 x nd f 4) as (s' & R & _).
  - apply mk_volume. apply m_disksize.
  - exact Hs.
  - exact Ho.
  - rewrite Hr. discriminate.
  - by vm_compute.
  - exists s'. split; [exact Hs|]. rewrite Hd in R. exact R.
Defined.
