(* ===== verification/WitnessesUser.v ===== *)
(** An instance of the theorem on cat: the machine of [Machine] with a volume of 40 blocks that
    has the console and a file, and with a page of memory for the process. *)
From S2P Require Import User Prelude Kernel Spinlock Console CString Kalloc Proc Vm SysArgs Sleeplock Disk Bytes UserMem Bio Log Inode ConsoleIo Fs FileBlocks FsContent Pipe FileTable FsOps FsPath SysFile Syscall FsSys UserCall Machine WitnessesSys.

(** ** The volume *)

Definition u_sb : superblock := Superblock 40 6 4 30 2 32 33.
Definition u_name (l : list Z) : list Z := take 14 (l ++ replicate 14 0).
Definition u_dir : list Z := [1; 0] ++ u_name (cstr ".") ++ [1; 0] ++ u_name (cstr "..") ++ [2; 0] ++ u_name (cstr "console") ++ [3; 0] ++ u_name (cstr "f").
Definition u_fs : list fent := [Fent 0 [] [] 0; Fent T_DIR u_dir [34] 0; Fent T_DEV [] [] 0; Fent T_FILE (cstr "hello") [35] 0].
Definition u_dinode (major : Z) (f : fent) : dinode := Dinode (fe_type f) major 0 1 (Z.of_nat (length (fe_data f))) (addrs_of f).
Definition u_inodes : block :=
  foldr (fun '(i, f) b => set_dinode b (dinode_off (Z.of_nat i)) (u_dinode (if (i =? 2)%nat then 1 else 0) f)) zero_block (imap pair u_fs).
Definition u_disk : gmap (Z * Z) block :=
  list_to_map [((1, 32), u_inodes); ((1, 33), replicate 4 255 ++ [15] ++ replicate 507 0); ((1, 34), pad u_dir); ((1, 35), pad (cstr "hello"))].
Definition u_dsk (b : Z) : block := disk_read u_disk 1 b.

Lemma u_volume : volume u_sb 2 4.
Proof.
  split; [done|done|done|done|]. intros i Hi. change (2 + LOGSIZE) with 32. change (sb_bmapstart u_sb) with 33. unfold IBLOCK. change (sb_inodestart u_sb) with 32.
  rewrite Z.div_small; [lia|]. change IPB with 8. lia.
Qed.

(** What holds of the four files is checked for each of them. *)
Lemma u_each (P : nat -> fent -> Prop) :
  P 0%nat (Fent 0 [] [] 0) -> P 1%nat (Fent T_DIR u_dir [34] 0) -> P 2%nat (Fent T_DEV [] [] 0) -> P 3%nat (Fent T_FILE (cstr "hello") [35] 0) ->
  forall i f, u_fs !! i = Some f -> P i f.
Proof. intros H0 H1 H2 H3 i f Hi. destruct i as [|[|[|[|i]]]]; [by injection Hi as <-..|done]. Qed.

Lemma u_blocks : forall b, 32 <= b < 40 -> length (u_dsk b) = 512%nat.
Proof.
  intros b Hb. pose proof (proj1 (forallb_forall (fun b => length (u_dsk b) =? 512)%nat (seqZ 32 8)) ltac:(by vm_compute) b) as H.
  apply Nat.eqb_eq, H, list_elem_of_In, elem_of_seqZ. lia.
Qed.

Lemma u_marked : forall b, 0 <= b < 36 -> bit_set (u_dsk 33) b = true.
Proof.
  intros b Hb. apply (proj1 (forallb_forall (fun b => bit_set (u_dsk 33) b) (seqZ 0 36)) ltac:(by vm_compute) b), list_elem_of_In, elem_of_seqZ. lia.
Qed.

Lemma u_owned i f b : u_fs !! i = Some f -> b ∈ owned f -> b = 33 + Z.of_nat i /\ i = 1%nat \/ b = 32 + Z.of_nat i /\ i = 3%nat.
Proof. revert i f. apply (u_each (fun i f => b ∈ owned f -> _)); cbn; set_solver. Qed.

Lemma u_stored i f : u_fs !! i = Some f -> stored u_dsk f.
Proof.
  revert i f. apply u_each; (split; [vm_compute; lia|vm_compute; lia|split; [intros _; vm_compute; lia|done]|done|]); intros [|k] b Hb; try done; injection Hb as <-; by vm_compute.
Qed.

Lemma u_files_ok : files_ok u_sb 32 4 u_dsk u_fs.
Proof.
  split; [split|done| |].
  - exact u_blocks.
  - intros b Hb. apply u_marked. change (sb_bmapstart u_sb) with 33 in Hb. lia.
  - intros i f b Hi Hb. destruct (u_owned i f b Hi Hb) as [[-> ->]|[-> ->]]; (split; [by vm_compute|by apply u_marked]).
  - apply u_each; by apply (bool_decide_unpack _); vm_compute.
  - intros i j f g b Hi Hj Hne Hb Hb'. destruct (u_owned i f b Hi Hb), (u_owned j g b Hj Hb'); lia.
  - exact u_stored.
  - apply u_each; by vm_compute.
  - apply u_each; by vm_compute.
Qed.

Lemma u_tree : tree_ok u_fs.
Proof.
  intros i f Hi. revert i f Hi. apply (u_each (fun _ f => fe_type f = T_DIR -> dir_ok u_fs f)); try done. intros _. split.
  - by apply (bool_decide_unpack _); vm_compute.
  - done.
  - intros k Hk _. change (length _ / 16)%nat with 4%nat in Hk. destruct k as [|[|[|[|k]]]]; [exists 1%nat|exists 1%nat|exists 2%nat|exists 3%nat|lia]; by eexists.
Qed.

(** ** The process and its memory *)

Definition u_cr3 : Z := V2P (m_page 20).
Definition u_mem : memory := store32 (store32 m_mem (m_page 20) (V2P (m_page 21) + 7)) (m_page 21) (V2P (m_page 22) + 7).
Definition u_dom (va : Z) : Prop := 0 <= va < 4096.
Definition u_tr (va : Z) : Z := m_page 22 + va.

Lemma u_umem : umem u_mem u_cr3 u_dom u_tr.
Proof.
  assert (forall va, u_dom va -> hw_walk u_mem u_cr3 va true true = Some (u_tr va) /\ Forall (fun a => a < m_page 22) (walk_bytes u_mem u_cr3 va)) as H.
  { intros va Hva. unfold u_dom in Hva. assert (PDX va = 0 /\ PTX va = 0) as [E1 E2].
    { unfold PDX, PTX. rewrite !Z.shiftr_div_pow2 by done. rewrite !Z.div_small by lia. done. }
    assert (load32 u_mem (P2V u_cr3 + 4 * 0) = V2P (m_page 21) + 7) as L1 by (by vm_compute).
    assert (load32 u_mem (P2V (PTE_ADDR (V2P (m_page 21) + 7)) + 4 * 0) = V2P (m_page 22) + 7) as L2 by (by vm_compute).
    unfold hw_walk, walk_bytes. rewrite E1, E2, L1. cbv zeta. rewrite L2. split; [|by apply (bool_decide_unpack _); vm_compute].
    rewrite (Z.mod_small va PGSIZE) by (unfold PGSIZE; lia). done. }
  split.
  - intros va Hva. by apply H.
  - unfold u_tr. lia.
  - intros va va' Hva Hva' Hin. destruct (H va Hva) as [_ Hf]. rewrite Forall_forall in Hf. specialize (Hf _ Hin). unfold u_tr, u_dom in *. lia.
Qed.

Lemma u_layout : layout u_dom 4096 1024 2048.
Proof. split; [split_and!; [lia|by vm_compute|unfold u_dom; lia]..|lia|lia]. Qed.

Definition u_proc : proc := (m_proc RUNNING 1 0 (m_page 10)) <| p_ofile ::= <[1%nat := Some 0%nat]> |>.
Definition u_console : inode := Inode 1 2 1 1 T_DEV 1 0 1 0 (replicate 13 0) 0.
Definition u_file : file := File FD_INODE 1 0 1 0 (Some 0%nat) 0.
Definition u_machine : kernel :=
  machine <| k_disk := u_disk |> <| k_sb := u_sb |> <| k_icache ::= <[0%nat := u_console]> |> <| k_ftable ::= <[0%nat := u_file]> |>
    <| k_devsw ::= <[1%nat := Devsw None (Some consolewrite_fn)]> |> <| k_ptable ::= <[0%nat := u_proc]> |>
    <| k_mem := u_mem |> <| k_cr3 := u_cr3 |>.
Definition u_start : kernel := after binit u_machine.
Definition u_cids : list Z := replicate NINODE 0.

Lemma u_coherent : coherent (k_icache u_machine) u_fs.
Proof.
  assert (forall ip nd, k_icache u_machine !! ip = Some nd -> 0 < i_ref nd -> ip = 0%nat /\ nd = u_console) as H.
  { intros ip nd Hip Hr. destruct (decide (ip = 0%nat)) as [-> |Hne]; [by injection Hip as <-|].
    change (<[0%nat := u_console]> (replicate NINODE m_inode) !! ip = Some nd) in Hip. rewrite list_lookup_insert_ne in Hip by done.
    apply lookup_replicate in Hip as [-> _]. cbn in Hr. lia. }
  split; [done| |].
  - intros ip nd Hip Hr. destruct (H ip nd Hip Hr) as [-> ->]. split; [done|]. exists 2%nat, (Fent T_DEV [] [] 0). split_and!; [done|done|]. intros _.
    split; [done..|]. by apply (bool_decide_unpack _); vm_compute.
  - intros ip jp nd nd' Hip Hjp Hr Hr' _. by destruct (H ip nd Hip Hr) as [-> _], (H jp nd' Hjp Hr') as [-> _].
Qed.

Lemma u_calm : calm (k_hw u_machine) (k_ptable u_machine) 1.
Proof. apply (calm_proc _ _ _ 0 (m_proc RUNNING 1 0 (m_page 10)) u_proc m_calm); done. Qed.

(** The state after [binit], part by part. *)
Lemma u_same : k_log u_start = k_log machine /\ k_sb u_start = u_sb /\ k_icache u_start = k_icache u_machine /\ k_ftable u_start = k_ftable u_machine
  /\ k_devsw u_start = k_devsw u_machine /\ k_ptable u_start = k_ptable u_machine /\ k_mem u_start = u_mem /\ k_cr3 u_start = u_cr3 /\ k_cons u_start = m_console
  /\ (forall ip, (ip < NINODE)%nat -> sl_locked (sl_at (k_sleeplocks u_start) (SL_inode ip)) = 0).
Proof.
  split_and!; [vm_compute; reflexivity..|]. intros ip Hip.
  apply Z.eqb_eq, (proj1 (forallb_forall (fun ip => sl_locked (sl_at (k_sleeplocks u_start) (SL_inode ip)) =? 0) (seq 0 NINODE))); [vm_compute; reflexivity|]. apply in_seq. lia.
Qed.

Lemma u_cache : cache_ok u_start 1 u_dsk u_dsk [] [].
Proof.
  destruct (binit_ok u_machine 1 u_dsk) as (s' & R & _ & _ & _ & H); [done|done| |].
  - intros i b Hb. pose proof (check_entries (fun _ b => (b_dev b =? 0) && (b_flags b =? 0) && (b_refcnt b =? 0))
      (k_bufs machine) ltac:(vm_compute; done) i b Hb) as Hz. cbn beta in Hz. lia.
  - unfold u_start. rewrite (after_done _ _ _ _ R). apply H, u_calm.
Qed.

Lemma u_ready : fs_ready u_sb 2 4 1 u_dsk u_fs u_cids u_start.
Proof.
  destruct u_same as (El & Es & Ei & _ & _ & _ & _ & _ & _ & Esl). split; [split| | |].
  - exact u_cache.
  - apply (log_lists_eq machine); [done|]. by split.
  - rewrite El. exact (conj eq_refl (conj eq_refl eq_refl)).
  - exact Es.
  - split; vm_compute; reflexivity.
  - exact u_files_ok.
  - rewrite Ei. exact u_coherent.
  - exact Esl.
  - apply (u_each (fun i f => fe_type f <> 0 -> d_nlink (dinode_at u_sb u_dsk (Z.of_nat i)) <> 0)); vm_compute; discriminate.
  - rewrite Ei. split; [by apply (bool_decide_unpack _); vm_compute|vm_compute; reflexivity|]. intros ip nd Hip Hr _.
    apply (check_entries (fun _ nd => (i_ref nd =? 0) || negb (i_nlink nd =? 0))) in Hip; [lia|vm_compute; reflexivity].
  - exact u_tree.
Qed.

Lemma u_user : user_state u_sb 2 4 1 u_dsk u_fs u_cids 0 u_dom u_tr 4096 0 0 2 u_start u_proc.
Proof.
  pose proof u_ready as Hr. destruct u_same as (_ & _ & Ei & Ef & Ed & Ep & Em & Ec & Eco & _). split.
  - exact Hr.
  - split; [|by rewrite Ep|split; [discriminate|by vm_compute]]. pose proof (cm_runs _ _ _ (ready_calm _ _ _ _ _ _ _ _ Hr)) as (i & cpu & q & pr & H1 & H2 & H3 & H4).
    exists i, cpu. split; [exact H1|]. rewrite H2. f_equal. rewrite Ep in H3.
    apply (check_entries (fun i p => negb (p_pid p =? 1) || (i =? 0)%nat)) in H3; [|vm_compute; reflexivity].
    rewrite H4 in H3. by apply Nat.eqb_eq in H3.
  - reflexivity.
  - reflexivity.
  - rewrite Em, Ec. exact u_umem.
  - rewrite Eco. exact m_cons_ok.
  - rewrite Ed. exists (Devsw None (Some consolewrite_fn)). split; reflexivity.
  - apply Forall_replicate. reflexivity.
  - reflexivity.
  - reflexivity.
  - rewrite Ef. exists u_file. split_and!; [reflexivity|reflexivity|reflexivity|discriminate|reflexivity].
  - rewrite Ei. exists u_console, (Fent T_DEV [] [] 0). split_and!; reflexivity || discriminate.
Qed.

Lemma u_roomy : roomy u_start u_proc.
Proof.
  destruct u_same as (_ & _ & Ei & Ef & _). split.
  - rewrite Ei. apply Nat.leb_le. vm_compute. reflexivity.
  - apply list_elem_of_lookup. exists 0%nat. reflexivity.
  - rewrite Ef. reflexivity.
  - rewrite Ef. exists 1%nat, m_file. split; reflexivity.
Qed.

